(* ===== verification/_CoqProject ===== *)
-Q . S2P
Prelude.v
Process.v
Trace.v
Arch.v
CLib.v
TestMck.v
Exact.v
MemInfo.v
AddrSpace.v
RefKernel.v
Mremap.v
MremapCases.v
MremapVm.v
MremapThms.v
MremapSound.v
Numa.v
NumaCases.v
Mempolicy.v
NumaSpec.v
NumaMask.v
NumaThms.v
NumaPass.v
NumaTables.v
MempolicyPass.v
NumaSound.v
Rlimit.v
Ident.v
IdentSpec.v
Sched.v
Procs.v
FileMap.v
FileSpec.v
Remap.v
Levels.v
LevelsThms.v
Affinity.v
AffinitySpec.v
MemCalls.v
PageSpec.v
MemLarge.v
MemLargeThms.v
MemLargeSpec.v
Forks.v
ForksThms.v
WaitAll.v
Ptrace.v
PtraceCases.v
PtraceSpec.v
PtraceFacts.v
PtraceThms.v
PtraceExact.v
PtraceSound.v
Driver.v
DriverThms.v
DriverLife.v
DriverData.v
DevMap.v
DevSys.v
DevThms.v
Procfs.v
SmallSuites.v
SmallThms.v
TimeSuites.v
TimeThms.v
ExecSuites.v
ExecThms.v
ProcVm.v
ProcVmSys.v
SigSuites.v
SigThms.v
MiscSuites.v
MiscThms.v
ToolMain.v
CpuPaInfo.v
Monitor.v
