(* ===== verification/Prelude.v ===== *)
(** * McKernel OS test suite: verification development

    ** The program

    The repository holds the operating system tests of McKernel.  Its core is
    the program [test_mck] ([src/test_mck/src]): a table of test cases, each a
    setup, a run and a teardown function written with the macros of
    [test_mck.h], and a [main] that selects one case from the command line, runs
    it and turns its verdict into an exit status.  The cases are grouped in
    about 120 suites, one directory per suite and one file per case; suites
    share helpers ([test_mck.c], [numa.c], one [.c] file of a suite).  Around it
    stand a kernel module with the devices some suites map ([src/test_drv]), two
    management tools that drive the IHK library ([src/cpu_pa_info],
    [src/condition_monitor]) and small separate programs.

    ** How programs are modelled

    A C function that calls the system is a value of [prog] ([Process]), a tree
    of calls; [run] evaluates it against a [kernel], which is never assumed to
    be a particular system: it is a parameter of every theorem.  [calls] is the
    log of a run.  The module's calls into Linux and the tools' calls into the
    IHK library are calls of the same kind, answered by the same parameter.
    Static variables of a file are a record handed from setup to run and
    teardown.  The loops of the modelled code are bounded by their data, so the
    functions are structural recursions and [run] is total: "returns" is proved,
    not assumed.  Some loops carry a bound of their own: the page loop of
    [mmap_dev2] ([Driver], one round more than there are pages;
    [buffer_reset_fills] shows that it is enough), the endless wait loop of the
    condition monitor ([Monitor]; [poll_returns] says for every bound what is
    reached), the loops over the lines of a file of [/proc] ([Ident]:
    [identity_suites_exact] asks for more rounds than the file has lines;
    [Procfs]: [more] is whatever follows the bound), the search for a free process
    number ([Affinity]; [affinity_suites_exact] asks for more rounds than the first
    free number), the page loops of [mem_large_page] ([MemLarge], one round for each
    page; [mem_large_page_exact] shows that every page is reached), the filling
    loop of its shared memory tests ([shm_fill_enough]), the allocation loop of
    [mem_limits] ([SmallSuites], [rounds]: any number, because the loop has an exit
    of its own only when a count is given), the length of a string found in memory
    ([Levels], [SmallSuites]: [bound], with [more] for what follows it), the waiting loops
    of [vfork] 1 and [setpgid] 4 and the copying loop of [popen] ([ExecSuites], [rounds]:
    any number, with [more] for what follows), the loops that wait for a signal or a timer
    ([SigSuites], [MiscSuites], likewise), the recursion of [mem_stack_limits]
    ([MiscSuites], [depth]; [mem_stack_limits_used] shows that it ends) and the spin loop of [fork] 0
    ([Forks]; one round is enough, [fork_wait_all_schedules]).  Integers keep their C width: [u64], [i32] and the like mark each conversion and each
    operation that can wrap.  A shift of [int] beyond its width, which C leaves
    undefined, is a parameter ([Numa], Section [Shift]).

    [fork] makes a second process out of the rest of a program.  Programs that
    fork are run by [Procs], an interleaving semantics of any number of
    processes with pipes, semaphores, process groups and [wait]; [inev] says
    that something happens in every order of the steps, which includes that no
    order blocks before it.

    A handler of a signal is a program of its own; [interruptible] ([SigSuites]) lets it
    run after any call of the program it interrupts, when the system says that a signal
    arrives.  The variables both use are part of the system's state.

    ** Files

    - [Prelude]: machine integers, generic lemmas, tactics.
    - [Process], [Trace]: programs, evaluation, logs, footprints.
    - [Arch]: [arch_test_mck.h] (arm64) and the page macros of [test_mck.h];
      the class [ArchConfig] is the choice between 4 KiB and 64 KiB pages.
    - [CLib]: [strtoll], [strtoul], [atoi], [getopt] on strings.
    - [TestMck]: [test_mck.c]: [find_test_case], [run_test_case], [usage],
      [main], [test_mck_strtoul].
    - [Exact]: scripts of calls, and the rules that show that a program returns a
      value exactly if the answers of the system meet a script.
    - [MemInfo]: [test_mck.c]: temporary files and [__get_memory_info].
    - [AddrSpace], [RefKernel]: the interface [VmKernel] (address spaces as the
      manual pages describe them) and an executable kernel that meets it.
    - [Mremap], [MremapCases]: the helpers and the 68 cases of
      [mremap_mmap_anon]; [MremapVm], [MremapThms]: their behaviour on a
      documented kernel; [MremapSound]: on an arbitrary one.
    - [Numa]: [numa.c]; [NumaCases]: the 31 cases of [mbind]; [Mempolicy]: the
      21 cases of [get_mempolicy] and the 18 of [set_mempolicy].
    - [NumaSpec]: the memory policy calls as an executable specification, the
      interface [NumaKernel] and a kernel that meets it.
    - [NumaMask], [NumaThms], [NumaPass], [NumaTables], [MempolicyPass]: the
      NUMA suites on a documented kernel; [NumaSound]: on an arbitrary one.
    - [Rlimit]: the suites [getrlimit] (19 cases) and [setrlimit] (16).
    - [Ident]: the fourteen suites of user and group identities ([getuid] to
      [setfsgid]), user and group versions by one parameter; [IdentSpec]: the
      identity calls as an executable specification, the lines of
      [/proc/pid/status], and the suites on a kernel that has both.
    - [Sched]: the seven suites of scheduling policies and priorities (26 cases).
    - [FileMap]: [filemap.c] and the 49 cases of [mmap_file], [madvise.c] and the
      cases 0-15 of [madvise], [mmap_populate] 0, [mmap_locked] 0; [FileSpec]: one
      file, its descriptor and its mapping as the manual pages describe them.
    - [Remap]: [remap_file_pages], on the calls as documented ([RemapKernel]).
    - [Levels]: the programs [lv09], [lv11], [lv14], [lv15] on mapped files and
      memory; [LevelsThms]: [lv09] and [lv11] on one file as documented, [lv14] and
      [lv15] on an arbitrary system.
    - [Affinity]: [sched_getaffinity] 0-4, [sched_setaffinity] 0, 1, 3-7;
      [AffinitySpec]: CPU sets as documented.
    - [MemCalls]: [mprotect] (8 cases), [mincore] (4), [mlock], [munlock],
      [mlockall], [munlockall]; [PageSpec]: page tables with protection and locks.
    - [MemLarge]: the 11 cases of [mem_large_page]; [MemLargeThms]: which memory a
      run has been given; [MemLargeSpec]: the page map file as documented.
    - [Procs]: several processes; [Forks]: [fork] 0, [getppid] 0, [setpgid] 0-3,
      [wait4] 0, [waitid] 0 and 2; [ForksThms]: the tests with two processes in
      every schedule; [WaitAll]: [waitid] 2 with any number of children.
    - [Ptrace]: [arch_test_ptrace.c], the tracing requests and the instructions a
      tracer can see; [PtraceCases]: the 22 cases of [ptrace]; [PtraceSpec]: a
      machine of traced processes that implements the requests, and 26 ways to
      deviate; [PtraceFacts], [PtraceThms]: the suite on that machine in every
      schedule; [PtraceExact], [PtraceSound]: on an arbitrary system.
    - [Driver]: [test_drv]: [test_mck_drv.c] and the devices [mmap_dev],
      [mmap_dev2], [writecombine]; the class [Linux] holds the macros of the
      Linux headers.  [DriverThms]: resources and their balance, the contract
      [DevOk] between the module and a device; [DriverLife]: loading and
      unloading; [DriverData]: what the module hands out.
    - [DevMap]: the suites [mmap_dev] (3 cases) and [writecombine] 0; [DevSys],
      [DevThms]: [mmap_dev] on a system whose device is the module's own code of
      [Driver], with memory and page tables as Linux manages them ([LinuxMem]).
    - [Procfs]: the 14 cases of the suite [procfs].
    - [SmallSuites], [SmallThms]: [mem_limits] 0, [page_fault_forwording] (3 cases),
      [enosys] (3), [gettid] 0, [nfo] 0, 1 and 3, on an arbitrary system.
    - [TimeSuites], [TimeThms]: [clock_getres], [clock_gettime], [gettimeofday],
      [times], [getitimer], [nanosleep] 0, 2 and 3, [getrusage] 3 and 4; the interface
      [ClockKernel] is the time of the day as documented.
    - [ExecSuites], [ExecThms]: the suites that start other programs ([execve],
      [fork_execve], [vfork], [setpgid] 4, [wait4] 1, [system], [popen]) and those on
      paths ([fstatat], [readlinkat]).
    - [ProcVm]: [process_vm_readv] and [process_vm_writev]; [ProcVmSys]: both with the
      process they start, which executes [main] of [TestMck].
    - [SigSuites]: [rt_sigaction] (6 cases), [rt_sigprocmask], [rt_sigpending],
      [rt_sigqueueinfo], [rt_sigsuspend], [pause], [sigaltstack] (2), [setitimer] (4),
      [signalfd4] (3), [siginfo] 0, [tgkill] 0 and 1, [tkill] 0; [SigThms]: a system that
      delivers signals, with 19 ways to deviate, and systems that deliver none.
    - [MiscSuites], [MiscThms]: [mem_stack_limits], [kill] (3 cases), [getcpu],
      [get_cpu_id], [set_tid_address], [env], [ipc].
    - [ToolMain]: the [main.c] of both tools; [CpuPaInfo], [Monitor]: the rest of
      [cpu_pa_info] and [condition_monitor].

    ** Theorems

    - Framework ([run_test_case_lifecycle], [main_dispatch]; also
      [find_test_case_first]): the case that is run is the first one registered under
      the given name and number; teardown runs once whatever the verdict; the
      documented invocation runs the case on the given arguments and exits with
      its verdict.
    - Helpers ([test_mck_strtoul_hex], [get_memory_info_calls]): what the number
      parser accepts, the complete call sequences of the page map function on
      every path.
    - [mremap_mmap_anon] ([mremap_suite_no_false_alarm], [mremap_pass_evidence]; also
      [mremap_main_exit_0]): on every kernel with
      documented memory calls the suite raises no false alarm; on any system at all
      a pass is evidence of the one [mremap] answer the test is about.
    - [ptrace] ([ptrace_suite_exact], [ptrace_suite_all_schedules],
      [ptrace_detects], [ptrace_suite_typed]; also [ptrace_killed_child_passes],
      [ptrace_015_race]): which answers a pass is evidence of, on
      any system; on a machine that traces as documented every test but 15 passes
      in every schedule, each deviation is found by the tests made for it, and the
      machine stays well typed; what the suite cannot detect.
    - NUMA ([numa_suites_no_false_alarm], [mbind_table_tests]; also
      [mbind_check_exact]): the three suites raise no false alarm on a kernel that
      implements the policy calls; the tables of [mbind] 15-23 are the overlay of
      their ranges; what [mbind_check] establishes.
    - Kernel module ([module_no_leak], [procfs_read_stream],
      [mmap_dev2_fault_bounds]; also [class_failure_reported_as_success]): on an arbitrary Linux nothing
      leaks, on any error path; a failed [class_create] is reported as success; the
      procfs files read back as their text; which pages are handed out.
    - Module and tests together ([mmap_dev_composed]): for every size and every
      content of the buffer, the verdict of the three tests on the device.
    - Tools ([perfevent_exec_calls], [poll_returns]): the call sequences around the
      counters on every path, the wait loop.
    - Limits, identities, scheduling ([setrlimit_suite_exact],
      [identity_suites_exact], [sched_suites_exact]): for each case of these
      suites, the exact condition on the process and the kernel under which it
      passes; limits are restored on every path.
    - File mappings, advice, CPU sets, page attributes ([mmap_file_exact],
      [madvise_exact], [affinity_suites_exact], [page_suites_exact]; also
      [remap_file_pages_passes]): the exact outcome of every case (verdict or signal),
      with the bytes of the file or the page table it leaves.
    - Level tests ([lv11_copy_on_write], [lv09_roundtrip], [lv14_exact]): what
      [lv11] leaves in the file and prints for each mode, that [lv09] reads back what
      it has written, what a pass of [lv14] is evidence of.
    - Small suites ([mem_limits_exact], [mem_stack_limits_used], [call_suites_exact]): the amounts
      [mem_limits] asks for and when it ends; how deep [mem_stack_limits] calls itself and
      how much stack that takes; the answers under which each of the other cases and
      each of the time suites passes.
    - Time ([gettimeofday_restores]): what [gettimeofday] leaves the clock at.
    - Signals ([signal_suites_detect], [undelivered_signals_pass]): the verdict of each case
      where signals are delivered as documented, which deviations each case notices,
      and what a pass shows where no signal arrives.
    - Other programs ([exec_argv_bounds], [exec_suites_exact]): when the argument vector
      of eight tests stays inside its block; the answers under which each test
      passes, and the failures that pass.
    - Two processes and [main] ([process_vm_composed]): for every address the command
      line carries, the parent passes exactly if all bytes were moved.
    - [procfs] ([procfs_exact]): what a pass of the three checking tests is evidence
      of on any system; the other eleven never pass.
    - Large pages ([mem_large_page_accesses]; also [mem_large_page_exact]): every access
      of [mem_large_page] lies in memory the run was given; a pass means that every
      page of a large page has its size.
    - Several processes ([fork_wait_all_schedules], [waitid_002_all_schedules]; also
      [getppid_000_all_schedules]): for every order of the steps the tests end
      without deadlock and with the stated verdict, [waitid] 2 for any number of
      children; what [getppid] 0 cannot detect.

    ** Limits of the model

    The bounds in the statements are those of the code: four to 29 nodes because
    the tests need four and the [int] shift of the mask code is defined up to
    [1 << 30]; 2{^31} mask words because the loops count in [int].  Of the 68
    [mremap] cases four (1, 101, 201, 301) probe behaviour that the manual does
    not settle, [get_mempolicy] 18 depends on how the kernel distributes
    interleaved pages and [mbind] 27 has an inverted assertion: they are
    modelled but left out of the no-false-alarm theorems.  Text printed by
    [printf] is kept as format and arguments, not rendered.  Of the inline assembly
    only what a tracer can see is modelled.  The machine of [PtraceSpec] is explored
    from the start of each test through all schedules, with concrete addresses and
    process numbers and 1 to 16 debug registers; [STEPS] rounds are enough, because
    the exploration answers [false] when they are used up.  Stops at the exit of a
    system call are not part of it.  The threads of [procfs] run in the place of
    their creator, which does nothing but wait for them.  On the machine of [SigThms] a
    signal arrives at the next call, the waiting loops look eight times, and a timer of
    one second has expired at the next call.

    ** Not modelled

    Signals from the console or from other processes to one that waits for them
    ([siginfo] 1, [nanosleep] 1, [getrusage] 0-2, [wait4] 2-3, [waitid] 1, [lv12]); a handler that
    is itself interrupted; [rt_sigtimedwait], which hands structures over by value.
    The children of [kill] are not run beside their parent.  Threads that run at the same
    time ([sched_yield], [time_sharing], [uti], [tls], [cpu_thread_limits], [tkill] 1, [tgkill] 2,
    [pthread_getaffinity], [pthread_setaffinity], [sched_setaffinity] 2 and 8-12, [nfo] 2,
    [gettid] 1-2, [msync] 1), and [msync] 0, which compares a shared mapping with what
    [read] answers.  Inline assembly beyond what a tracer sees ([fpregs], [iemul],
    [evtstrm]).  Core dumps and the files of other programs ([madvise] 16-19, [coredump],
    [force_exit]).  The small programs that print what the system answers
    ([hello_world], [show_affinity], [get_rusage], [freeze_thaw], [socket_TP]).
    Shell scripts and generated lists stay outside. *)
From stdpp Require Export base tactics numbers list option strings.
From Stdlib Require Export ZArith Lia.
#[global] Open Scope Z_scope.

(** ** Machine integers *)

(** A value of type [unsigned long] / [size_t] (64 bits). *)
Definition u64 (z : Z) : Z := z mod 2 ^ 64.

(** Conversion to [unsigned int]. *)
Definition u32 (z : Z) : Z := z mod 2 ^ 32.

(** Conversion to [int] (two's complement, 32 bits). *)
Definition i32 (z : Z) : Z := (z + 2 ^ 31) mod 2 ^ 32 - 2 ^ 31.

(** Conversion to [long] (two's complement, 64 bits). *)
Definition i64 (z : Z) : Z := (z + 2 ^ 63) mod 2 ^ 64 - 2 ^ 63.

(** Conversion to [unsigned char] (the build uses [-funsigned-char]). *)
Definition u8 (z : Z) : Z := z mod 2 ^ 8.

Definition NULL : Z := 0.

(** C's [!!x] and the value of a comparison used as an integer. *)
Definition b2z (b : bool) : Z := if b then 1 else 0.

(** [a] lies in the half-open byte range [lo, lo + len). *)
Definition in_range (a lo len : Z) : bool := (lo <=? a) && (a <? lo + len).

(** Two half-open ranges have a byte in common. *)
Definition ranges_overlap (a la b lb : Z) : bool := (a <? b + lb) && (b <? a + la).

(** ** Automation *)

Create HintDb mck.

Ltac bool_to_prop :=
  repeat match goal with
  | H : _ && _ = true |- _ => apply andb_true_iff in H; destruct H
  | H : _ && _ = false |- _ => apply andb_false_iff in H
  | H : _ || _ = true |- _ => apply orb_true_iff in H
  | H : _ || _ = false |- _ => apply orb_false_iff in H; destruct H
  | H : negb _ = true |- _ => apply negb_true_iff in H
  | H : negb _ = false |- _ => apply negb_false_iff in H
  | H : (_ <=? _) = true |- _ => apply Z.leb_le in H
  | H : (_ <=? _) = false |- _ => apply Z.leb_gt in H
  | H : (_ <? _) = true |- _ => apply Z.ltb_lt in H
  | H : (_ <? _) = false |- _ => apply Z.ltb_ge in H
  | H : (_ =? _) = true |- _ => apply Z.eqb_eq in H
  | H : (_ =? _) = false |- _ => apply Z.eqb_neq in H
  end.

(** Split on the boolean test of the first [if] of the goal. *)
Ltac case_if :=
  match goal with
  | |- context [if ?b then _ else _] =>
      let E := fresh "E" in destruct b eqn:E
  end.

Lemma in_range_true a lo len : in_range a lo len = true <-> lo <= a < lo + len.
Proof. unfold in_range. rewrite andb_true_iff, Z.leb_le, Z.ltb_lt. lia. Qed.

Lemma in_range_false a lo len : in_range a lo len = false <-> ~ (lo <= a < lo + len).
Proof. rewrite <- in_range_true. symmetry. apply not_true_iff_false. Qed.

Lemma ranges_overlap_false a la b lb :
  ranges_overlap a la b lb = false <-> (b + lb <= a \/ a + la <= b).
Proof. unfold ranges_overlap. rewrite andb_false_iff, !Z.ltb_ge. lia. Qed.

Lemma ranges_overlap_true a la b lb :
  ranges_overlap a la b lb = true <-> (a < b + lb /\ b < a + la).
Proof. unfold ranges_overlap. rewrite andb_true_iff, !Z.ltb_lt. lia. Qed.

(** Decide a range test whose truth follows from the linear hypotheses. *)
Ltac range_tac :=
  repeat match goal with
  | |- context [in_range ?a ?lo ?len] =>
      first [ rewrite (proj2 (in_range_true a lo len)) by lia
            | rewrite (proj2 (in_range_false a lo len)) by lia ]
  end.

Lemma u64_small z : 0 <= z < 2 ^ 64 -> u64 z = z.
Proof. apply Z.mod_small. Qed.

Lemma u64_bound z : 0 <= u64 z < 2 ^ 64.
Proof. apply Z.mod_pos_bound. lia. Qed.

Lemma i32_small z : - 2 ^ 31 <= z < 2 ^ 31 -> i32 z = z.
Proof. intros H. unfold i32. rewrite Z.mod_small; lia. Qed.

Lemma i32_bound z : - 2 ^ 31 <= i32 z < 2 ^ 31.
Proof. unfold i32. pose proof (Z.mod_pos_bound (z + 2 ^ 31) (2 ^ 32)). lia. Qed.

Lemma i64_small z : - 2 ^ 63 <= z < 2 ^ 63 -> i64 z = z.
Proof. intros H. unfold i64. rewrite Z.mod_small; lia. Qed.

Lemma u8_bound z : 0 <= u8 z < 256.
Proof. apply Z.mod_pos_bound. lia. Qed.

#[export] Hint Resolve u64_bound i32_bound u8_bound : mck.
