(* ===== verification/Process.v ===== *)
(** * Processes: the programs of the repository as interaction trees

    A C function that talks to the operating system is a value of type
    [prog A]: a finite tree whose nodes are the calls that leave the program
    (system calls, memory accesses that may fault, allocation) and whose
    leaves are results.  The operating system itself is not part of the
    repository: it is a [kernel], a parameter of the evaluator [run], which
    answers every call and may change its own state.  What belongs to the
    process (the variable [errno], the text written to standard output, the
    signal dispositions) is the record [proc].

    [run] is total, so a statement about [run] is a statement about what the
    program does, not only about what it does if it returns. *)
From S2P Require Import Prelude.

(** ** Calls *)

(** The functions of the Linux kernel that the kernel module calls.  A device
    structure is named by its index in the device list, a table of file
    operations by its symbol; [CopyToUser] carries the bytes found at the source
    and the length. *)
Inductive kapi : Type :=
| AllocChrdevRegion (minor count : Z) (name : string)
| UnregisterChrdevRegion (devno count : Z)
| ClassCreate (name : string)
| ClassDestroy (cls : Z)
| CdevInit (dev : Z) (fops : string)
| CdevAdd (dev devno count : Z)
| CdevDel (dev : Z)
| DeviceCreate (cls devno : Z) (name : string)
| DeviceDestroy (cls devno : Z)
| VmallocUser (size : Z)
| Vfree (ptr : Z)
| VmallocToPage (addr : Z)
| GetPage (page : Z)
| RemapPfnRange (addr pfn size prot : Z)
| ProcMkdir (name : string) (parent : Z)
| ProcCreateData (name : string) (mode parent : Z)
| RemoveProcEntry (name : string) (parent : Z)
| CopyToUser (dst : Z) (bytes : list Z) (n : Z).

(** [alloc_chrdev_region] also answers the device number it writes. *)
Definition kans (c : kapi) : Type :=
  match c with AllocChrdevRegion _ _ _ => Z * Z | _ => Z end.

(** [struct ihk_perf_event_attr], the members the sources set. *)
Record perf_attr := PerfAttr {
  config : Z;
  disabled : Z;
  pinned : Z;
  exclude_user : Z;
  exclude_kernel : Z;
  exclude_hv : Z;
  exclude_idle : Z;
}.

(** The functions of the IHK library that the management tools call. *)
Inductive ihk : Type :=
| IhkSetPerfEvent (os : Z) (attrs : list perf_attr) (n : Z)
| IhkPerfCtl (os comm : Z)
| IhkGetPerfEvent (os n : Z)
| IhkGetStatus (os : Z)
| IhkGetEventfd (os type : Z).

(** [ihk_os_getperfevent] also fills the array of counter values. *)
Definition ihk_ans (c : ihk) : Type :=
  match c with IhkGetPerfEvent _ _ => Z * list Z | _ => Z end.

(** User and group identities: the calls exist once for each. *)
Inductive idkind := KUid | KGid.

(** [getuid], [geteuid], [getresuid], [setuid], [setreuid], [setresuid],
    [setfsuid], and the same for groups. *)
Inductive idcall : Type :=
| IdGet
| IdGetEff
| IdGetRes
| IdSet (id : Z)
| IdSetRe (r e : Z)
| IdSetRes (r e s : Z)
| IdSetFs (f : Z).

(** [getresuid] also fills the three identities. *)
Definition idans (c : idcall) : Type :=
  match c with IdGetRes => Z * (Z * Z * Z) | _ => Z end.

(** The scheduling calls of [<sched.h>]; a [struct sched_param] is its
    priority. *)
Inductive schedcall : Type :=
| SchedGetPriorityMax (policy : Z)
| SchedGetPriorityMin (policy : Z)
| SchedGetparam (pid : Z)
| SchedSetparam (pid prio : Z)
| SchedGetscheduler (pid : Z)
| SchedSetscheduler (pid policy prio : Z)
| SchedRrGetInterval (pid : Z).

(** [sched_getparam] also fills the priority, [sched_rr_get_interval] the
    seconds and nanoseconds. *)
Definition schedans (c : schedcall) : Type :=
  match c with
  | SchedGetparam _ => Z * Z
  | SchedRrGetInterval _ => Z * (Z * Z)
  | _ => Z
  end.

(** Processes, pipes and semaphores. *)
Inductive proccall : Type :=
| Fork
| Pipe
| Getpid
| Getppid
| Getpgid (pid : Z)
| Setpgid (pid pgid : Z)
| Wait4 (pid options : Z)
| Waitid (idtype id options : Z)
| Usleep (usec : Z)
| SemInit (sem pshared value : Z)
| SemPost (sem : Z)
| SemWait (sem : Z).

(** [pipe] also fills the two descriptors, [wait4] the status, [waitid] the
    number of the process in its [siginfo_t]. *)
Definition procans (c : proccall) : Type :=
  match c with
  | Pipe => Z * (Z * Z)
  | Wait4 _ _ => Z * Z
  | Waitid _ _ _ => Z * Z
  | _ => Z
  end.

(** Memory management beyond [mmap] ([sbrk] answers the old break); [vec] is the number of bytes behind the
    pointer, [None] for a pointer that is not valid. *)
Inductive memcall : Type :=
| Madvise (addr len advice : Z)
| Mprotect (addr len prot : Z)
| Mincore (addr len : Z) (vec : option nat)
| Mlock (addr len : Z)
| Munlock (addr len : Z)
| Mlockall (flags : Z)
| Munlockall
| Sbrk (incr : Z)
| Brk (addr : Z).

(** [mincore] also fills its vector. *)
Definition memans (c : memcall) : Type :=
  match c with
  | Mincore _ _ _ => Z * list Z
  | _ => Z
  end.

(** Files by name and descriptor, and a stream from another program. *)
Inductive filecall : Type :=
| Stat (path : string)
| Fstat (fd : Z)
| Ftruncate (fd len : Z)
| Ioctl (fd request : Z)
| Popen (command type : string)
| Getcwd
| Ftok (path : option string) (id : Z)
| FscanfLong (fp : Z) (format : string).

(** [stat] and [fstat] also fill [st_size]; [fscanf] with one conversion of a
    [long] fills it if the conversion is made; [getcwd] answers the path, [None] a null
    pointer, and [ftok] its result. *)
Definition fileans (c : filecall) : Type :=
  match c with
  | Stat _ => Z * Z
  | Fstat _ => Z * Z
  | FscanfLong _ _ => Z * option Z
  | Getcwd => option string
  | _ => Z
  end.

(** Processors; a CPU set is the number whose bits are its members, [None] a
    pointer that is not valid. *)
Inductive cpucall : Type :=
| SchedGetcpu
| Getcpu
| SchedGetaffinity (pid size : Z) (valid : bool)
| SchedSetaffinity (pid size : Z) (mask : option Z).

(** [sched_getaffinity] also fills the set, [getcpu] the processor and the node. *)
Definition cpuans (c : cpucall) : Type :=
  match c with
  | SchedGetaffinity _ _ _ => Z * Z
  | Getcpu => Z * (Z * Z)
  | _ => Z
  end.

(** [siginfo_t], the members the sources use. *)
Record siginfo := Siginfo { si_signo : Z; si_errno : Z; si_code : Z; si_addr : Z }.

(** The register sets of a traced process: [struct user_pt_regs],
    [struct user_fpsimd_state] and [struct user_hwdebug_state] (the pairs of
    address and control word of the debug registers). *)
Record user_pt_regs := UserPtRegs { regs : list Z; sp : Z; pc : Z; pstate_bits : Z }.
Record user_fpsimd_state := UserFpsimdState { vregs : list Z; fpsr : Z; fpcr : Z }.
Record user_hwdebug_state := UserHwdebugState { dbg_info : Z; dbg_regs : list (Z * Z) }.

(** The register sets by the name the sources give them in their comments. *)
Inductive regset := REGSET_GPR | REGSET_FPR | REGSET_TLS | REGSET_HW_BREAK | REGSET_HW_WATCH | REGSET_SYSTEM_CALL.

Definition regval (r : regset) : Type :=
  match r with
  | REGSET_GPR => user_pt_regs
  | REGSET_FPR => user_fpsimd_state
  | REGSET_TLS => Z
  | REGSET_HW_BREAK | REGSET_HW_WATCH => user_hwdebug_state
  | REGSET_SYSTEM_CALL => Z
  end.

(** Tracing of processes, and what a traced process does that its tracer can
    see: accesses to its static variables, the instructions of its inline
    assembly and of its registers.  [Req] is a request without further data,
    [Insts pc n] the [n] instructions of an assembly block from address [pc] on,
    [Straight pc n] as many instructions the compiler made, without a jump,
    [StrInst pc a v] the store instruction at [pc]; the length of a register set
    is the one given in the [iovec]. *)
Inductive ptcall : Type :=
| Req (request pid addr data : Z)
| Peek (request pid addr : Z)
| Getsiginfo (pid : Z)
| Setsiginfo (pid : Z) (info : siginfo)
| Getregset (pid : Z) (r : regset) (len : Z)
| Setregset (pid : Z) (r : regset) (v : regval r) (len : Z)
| Geteventmsg (pid : Z)
| LoadWord (addr : Z)
| StoreWord (addr v : Z)
| Fill (addr ch len : Z)
| Insts (pc : Z) (n : nat)
| Straight (pc : Z) (n : nat)
| StrInst (pc addr v : Z)
| SetX (reg : nat) (v : Z)
| WriteX
| ReadX
| WriteQ (v : list Z)
| ReadQ.

(** The raw [PTRACE_PEEK*] requests answer their result and the word read, the
    other reading requests their result and what they fill in. *)
Definition ptans (c : ptcall) : Type :=
  match c with
  | Peek _ _ _ => Z * Z
  | Getsiginfo _ => Z * siginfo
  | Getregset _ r _ => Z * regval r
  | Geteventmsg _ => Z * Z
  | LoadWord _ => Z + Z
  | StoreWord _ _ | Fill _ _ _ => unit + Z
  | Insts _ _ | Straight _ _ | StrInst _ _ _ | SetX _ _ | WriteX | WriteQ _ => unit
  | ReadX | ReadQ => list Z
  | _ => Z
  end.

(** Other calls, each with a number for an answer.  [Syscall] is a raw system call
    without arguments; [PthreadCreate] and [PthreadJoin] are those of a program
    whose creating thread does nothing but wait for the other one. *)
Inductive misccall : Type :=
| Syscall (nr : Z)
| Sync
| RemapFilePages (addr size prot pgoff flags : Z)
| Msync (addr len flags : Z)
| Calloc (nmemb size : Z)
| SetTidAddress
| PthreadCreate
| PthreadJoin.

(** Clocks and timers; a time is its two members, [None] or [false] a pointer that
    is not valid ([old] of [setitimer]: [None] a null pointer). *)
Inductive timecall : Type :=
| ClockGetres (clk : Z) (valid : bool)
| ClockGettime (clk : Z) (valid : bool)
| Gettimeofday
| Settimeofday (t : Z * Z)
| Time
| Times (valid : bool)
| Nanosleep (req : option (Z * Z))
| Getitimer (which : Z) (valid : bool)
| Setitimer (which : Z) (value : option ((Z * Z) * (Z * Z))) (old : option bool)
| Getrusage (who : Z) (valid : bool)
| Sleep (seconds : Z).

(** The calls that fill in a time also answer it ([getitimer] and [setitimer]: interval
    and value). *)
Definition timeans (c : timecall) : Type :=
  match c with
  | ClockGetres _ _ | ClockGettime _ _ | Gettimeofday => Z * (Z * Z)
  | Getitimer _ _ | Setitimer _ _ _ => Z * ((Z * Z) * (Z * Z))
  | _ => Z
  end.

(** Other programs and other processes' memory, and paths relative to a directory.
    A pointer to an array of strings is the strings, [None] a null pointer;
    [PutPtr] stores a pointer to a string, [LoadInt] and [StoreInt] are accesses to a
    variable that processes share; an [iovec] is address and length. *)
Inductive execcall : Type :=
| Vfork
| PutPtr (addr : Z) (s : option string)
| LoadInt (addr : Z)
| StoreInt (addr v : Z)
| Execve (path : option string) (argv envp : option (list string))
| ProcessVmReadv (pid : Z) (lvec rvec : list (Z * Z)) (flags : Z)
| ProcessVmWritev (pid : Z) (lvec rvec : list (Z * Z)) (flags : Z)
| System (command : string)
| Fputs (s : string) (fp : Z)
| Pclose (fp : Z)
| Fstatat (dirfd : Z) (path : string) (flags : Z)
| Readlinkat (dirfd : Z) (path : string) (size : Z).

(** [execve] answers an error, or else how the new program ends: with a status or
    by a signal. [readlinkat] also fills its buffer. *)
Definition execans (c : execcall) : Type :=
  match c with
  | PutPtr _ _ | StoreInt _ _ => unit + Z
  | LoadInt _ => Z + Z
  | Execve _ _ _ => Z + (Z + Z)
  | Readlinkat _ _ _ => Z * list Z
  | _ => Z
  end.

(** A signal that reaches its handler: its number, the structure behind [sip] ([None] a
    null pointer) and the address of a local variable of the handler. *)
Record delivery := Delivery { d_sig : Z; d_info : option siginfo; d_local : Z }.

(** Signals, and the variables a handler shares with the rest of the program (by
    name).  A set of signals is the number with a bit for each, [None] a null pointer.
    [SigactionSet] installs the handler of the program, [SigPoll] asks whether a signal
    arrives at this point, [SigReturn] is the end of a handler. *)
Inductive sigcall : Type :=
| SigactionSet (signum flags mask : Z)
| SigactionGet (signum : Z)
| Sigprocmask (how : Z) (set : option Z)
| Sigpending (valid : bool)
| Tkill (tid sig : Z)
| Tgkill (pid tid sig : Z)
| PthreadKillSelf (sig : Z)
| RtSigqueueinfo (pid sig code : Z)
| SigPoll
| SigReturn
| Sigaltstack (sp size flags : Z)
| Alarm (seconds : Z)
| Pause
| Sigsuspend (mask : Z)
| Signalfd4 (fd mask flags : Z)
| Fcntl (fd cmd : Z)
| GetVar (x : string)
| SetVar (x : string) (v : Z)
| GetStr (x : string)
| SetStr (x : string) (v : option string)
| GetInfo (x : string) (i : Z)
| SetInfo (x : string) (i : Z) (v : siginfo).

(** [sigaction] and [sigprocmask] also fill in the old flags and the old set;
    [SigPoll] answers a signal for the handler or one that ends the process. *)
Definition sigans (c : sigcall) : Type :=
  match c with
  | SigactionGet _ | Sigprocmask _ _ => Z * Z
  | SigPoll => option (delivery + Z)
  | GetStr _ => option string
  | SetVar _ _ | SetStr _ _ | SetInfo _ _ _ | SigReturn => unit
  | GetInfo _ _ => siginfo
  | _ => Z
  end.

(** [struct rlimit]. *)
Record rlimit := Rlimit { rlim_cur : Z; rlim_max : Z }.

(** The calls the modelled sources make.  Addresses, lengths, file
    descriptors and flags are integers; strings are paths; a pointer to node
    mask words is the words themselves, [None] for a null pointer. *)
Inductive op : Type :=
| Mmap (addr len prot flags fd off : Z)
| Munmap (addr len : Z)
| Mremap (addr old_len new_len flags new_addr : Z)
| Load (addr : Z)
| Store (addr byte : Z)
| Sigaction (signum : Z)
| Sysconf (name : Z)
| Malloc (size : Z)
| Free (ptr : Z)
| Open (path : string) (flags : Z)
| Close (fd : Z)
| Lseek (fd off whence : Z)
| Read (fd count : Z)
| Write (fd : Z) (bytes : list Z)
| Fsync (fd : Z)
| Unlink (path : string)
| Mkstemp (template : string)
| GetMempolicy (mode : bool) (nmask : option (list Z)) (maxnode addr flags : Z)
| SetMempolicy (mode : Z) (nmask : option (list Z)) (maxnode : Z)
| Mbind (addr len mode : Z) (nmask : option (list Z)) (maxnode flags : Z)
| Gettid
| Kapi (c : kapi)
| Ihk (c : ihk)
| EpollCreate (size : Z)
| EpollCtl (epfd op fd events : Z)
| EpollWait (epfd maxevents timeout : Z)
| Getrlimit (resource : Z)
| Setrlimit (resource : Z) (rlim : rlimit)
| Ident (k : idkind) (c : idcall)
| Sched (c : schedcall)
| Procs (c : proccall)
| Memc (c : memcall)
| Filec (c : filecall)
| Cpuc (c : cpucall)
| Ptc (c : ptcall)
| Misc (c : misccall)
| Timec (c : timecall)
| Execc (c : execcall)
| Sigc (c : sigcall)
| Kill (pid sig : Z)
| Shmget (key size flags : Z)
| Shmat (shmid addr flags : Z)
| Shmdt (addr : Z)
| Shmctl (shmid cmd : Z)
| Fopen (path mode : string)
| Fgets (fp size : Z)
| Fclose (fp : Z).

(** What the operating system answers.  A system call answers its raw return
    value, a negated error number on failure; calls that fill a buffer also
    answer the bytes or words they wrote ([epoll_wait]: the descriptors of the
    events; [fgets]: the line, [None] at the end of the stream); a memory access
    that faults answers the signal it raises ([inr]). *)
Definition ans (c : op) : Type :=
  match c with
  | Read _ _ => Z * list Z
  | Mkstemp _ => Z * string
  | GetMempolicy _ _ _ _ _ => Z * (Z * list Z)
  | Load _ => Z + Z
  | Store _ _ => unit + Z
  | Free _ => unit
  | Kapi c => kans c
  | Ihk c => ihk_ans c
  | EpollWait _ _ _ => Z * list Z
  | Getrlimit _ => Z * rlimit
  | Ident _ c => idans c
  | Sched c => schedans c
  | Procs c => procans c
  | Memc c => memans c
  | Filec c => fileans c
  | Cpuc c => cpuans c
  | Ptc c => ptans c
  | Timec c => timeans c
  | Execc c => execans c
  | Sigc c => sigans c
  | Fgets _ _ => option string
  | _ => Z
  end.

(** ** The process's own state *)

(** Values printed by the [printf] family. *)
Inductive parg := PZ (z : Z) | PS (s : string).

(** The bodies of the signal handlers the sources install. *)
Inductive handler := HExit (status : Z).

Record proc := Proc {
  p_errno : Z;
  p_out : list (string * list parg);
  p_sigs : Z -> option handler;
}.

Definition with_errno (e : Z) (p : proc) : proc := Proc e (p_out p) (p_sigs p).
Definition with_line (l : string * list parg) (p : proc) : proc :=
  Proc (p_errno p) (p_out p ++ [l]) (p_sigs p).
Definition with_sig (s : Z) (h : option handler) (p : proc) : proc :=
  Proc (p_errno p) (p_out p) (fun s' => if s' =? s then h else p_sigs p s').

(** The state a program starts in. *)
Definition proc0 : proc := Proc 0 [] (fun _ => None).

(** ** Programs *)

Inductive prog (A : Type) : Type :=
| Ret (a : A)
| Exit (status : Z)
| Raise (signum : Z)
| Loc (f : proc -> proc) (k : proc -> prog A)
| Call (c : op) (k : ans c -> prog A).
Arguments Ret {A} a.
Arguments Exit {A} status.
Arguments Raise {A} signum.
Arguments Loc {A} f k.
Arguments Call {A} c k.

Fixpoint bind {A B} (p : prog A) (k : A -> prog B) : prog B :=
  match p with
  | Ret a => k a
  | Exit n => Exit n
  | Raise n => Raise n
  | Loc f q => Loc f (fun x => bind (q x) k)
  | Call c q => Call c (fun x => bind (q x) k)
  end.

Declare Scope prog_scope.
Delimit Scope prog_scope with prog.
Bind Scope prog_scope with prog.
Notation "x <- p ;; q" := (bind p (fun x => q))
  (at level 100, p at next level, right associativity) : prog_scope.
Notation "'let*' pat ':=' p 'in' q" := (bind p (fun x => match x with pat => q end))
  (at level 10, pat pattern, p at level 99, q at level 200) : prog_scope.
Notation "p ;; q" := (bind p (fun _ => q))
  (at level 100, right associativity) : prog_scope.
#[global] Open Scope prog_scope.

Definition trigger (c : op) : prog (ans c) := Call c Ret.
Definition errno : prog Z := Loc id (fun p => Ret (p_errno p)).
Definition set_errno (e : Z) : prog unit := Loc (with_errno e) (fun _ => Ret tt).
Definition printf (fmt : string) (args : list parg) : prog unit :=
  Loc (with_line (fmt, args)) (fun _ => Ret tt).

(** ** Evaluation against an operating system *)

(** An operating system: how it answers each call. *)
Record kernel := Kernel {
  kstate : Type;
  kstep : forall c : op, kstate -> kstate * ans c;
}.

Inductive outcome (A : Type) : Type :=
| Done (a : A)
| Exited (status : Z)
| Killed (signum : Z).
Arguments Done {A} a.
Arguments Exited {A} status.
Arguments Killed {A} signum.

(** A synchronous signal runs the installed handler; without one the process
    is killed. *)
Definition deliver {A} (signum : Z) (p : proc) : outcome A :=
  match p_sigs p signum with
  | Some (HExit n) => Exited n
  | None => Killed signum
  end.

Section Run.
Context (K : kernel).

Record world := World { w_proc : proc; w_k : kstate K }.

Fixpoint run {A} (p : prog A) (w : world) : outcome A * world :=
  match p with
  | Ret a => (Done a, w)
  | Exit n => (Exited n, w)
  | Raise n => (deliver n (w_proc w), w)
  | Loc f k => let pr := f (w_proc w) in run (k pr) (World pr (w_k w))
  | Call c k =>
      let '(s, r) := kstep K c (w_k w) in run (k r) (World (w_proc w) s)
  end.

(** The program ends with an outcome and a state that satisfy [Q]. *)
Definition wp {A} (p : prog A) (Q : outcome A -> world -> Prop) (w : world) : Prop :=
  Q (fst (run p w)) (snd (run p w)).
End Run.
Arguments World {K} w_proc w_k.
Arguments w_proc {K} w.
Arguments w_k {K} w.
Arguments run K {A} p w.
Arguments wp K {A} p Q w.

(** ** The C library's system call wrappers *)

(** Raw return values in [-4095, -1] are error numbers. *)
Definition is_err (r : Z) : bool := (-4096 <? r) && (r <? 0).

(** The return convention of the system call wrappers: on failure [errno] is
    set and [fail] (-1, or [MAP_FAILED]) is returned. *)
Definition syscall_ret (fail r : Z) : prog Z :=
  if is_err r then set_errno (- r) ;; Ret fail else Ret r.

Definition MAP_FAILED : Z := 2 ^ 64 - 1.

Definition mmap (addr len prot flags fd off : Z) : prog Z :=
  r <- trigger (Mmap addr len prot flags fd off) ;; syscall_ret MAP_FAILED r.
Definition munmap (addr len : Z) : prog Z :=
  r <- trigger (Munmap addr len) ;; syscall_ret (-1) r.
(** [new_addr] is only read with [MREMAP_FIXED]. *)
Definition mremap (addr old_len new_len flags new_addr : Z) : prog Z :=
  r <- trigger (Mremap addr old_len new_len flags new_addr) ;; syscall_ret MAP_FAILED r.
(** Reading or writing one byte; a fault raises its signal. *)
Definition or_raise {A} (r : A + Z) : prog A :=
  match r with inl x => Ret x | inr signum => Raise signum end.
Definition load (a : Z) : prog Z := r <- trigger (Load a) ;; or_raise r.
Definition store (a b : Z) : prog unit := r <- trigger (Store a b) ;; or_raise r.
Definition sysconf (name : Z) : prog Z :=
  r <- trigger (Sysconf name) ;; syscall_ret (-1) r.

(** [sigaction(signum, &sa, NULL)] with [sa] running [h]. *)
Definition sigaction (signum : Z) (h : handler) : prog Z :=
  r <- trigger (Sigaction signum) ;;
  if r =? 0 then Loc (with_sig signum (Some h)) (fun _ => Ret 0)
  else syscall_ret (-1) r.

Definition ENOMEM : Z := 12.
Definition EINVAL : Z := 22.
Definition EPERM : Z := 1.
Definition EIO : Z := 5.

Definition malloc (size : Z) : prog Z :=
  p <- trigger (Malloc size) ;;
  if p =? NULL then set_errno ENOMEM ;; Ret NULL else Ret p.
Definition free (ptr : Z) : prog unit := trigger (Free ptr).

Definition open (path : string) (flags : Z) : prog Z :=
  r <- trigger (Open path flags) ;; syscall_ret (-1) r.
Definition close (fd : Z) : prog Z := r <- trigger (Close fd) ;; syscall_ret (-1) r.
Definition lseek (fd off whence : Z) : prog Z :=
  r <- trigger (Lseek fd off whence) ;; syscall_ret (-1) r.
(** [read] also yields the bytes written to the buffer. *)
Definition read (fd count : Z) : prog (Z * list Z) :=
  r <- trigger (Read fd count) ;; n <- syscall_ret (-1) (fst r) ;; Ret (n, snd r).
Definition write (fd : Z) (bytes : list Z) : prog Z :=
  r <- trigger (Write fd bytes) ;; syscall_ret (-1) r.
Definition fsync (fd : Z) : prog Z := r <- trigger (Fsync fd) ;; syscall_ret (-1) r.
Definition unlink (path : string) : prog Z := r <- trigger (Unlink path) ;; syscall_ret (-1) r.
(** [mkstemp] also yields the name it made of the template. *)
Definition mkstemp (template : string) : prog (Z * string) :=
  r <- trigger (Mkstemp template) ;; fd <- syscall_ret (-1) (fst r) ;; Ret (fd, snd r).

(** The standard I/O functions: [fopen] yields a stream, [NULL] on failure. *)
Definition fopen (path mode : string) : prog Z :=
  r <- trigger (Fopen path mode) ;; syscall_ret NULL r.
Definition fgets (fp size : Z) : prog (option string) := trigger (Fgets fp size).
Definition fclose (fp : Z) : prog Z := r <- trigger (Fclose fp) ;; syscall_ret (-1) r.

Definition getpid : prog Z := trigger (Procs Getpid).
Definition getppid : prog Z := trigger (Procs Getppid).

(** [perror]: the message and the error number. *)
Definition perror (msg : string) : prog unit :=
  e <- errno ;; printf "%s: errno %d\n" [PS msg; PZ e].

(** [memset(a, ch, n)], byte by byte from the lowest address. *)
Fixpoint memset_from (a ch : Z) (n : nat) : prog unit :=
  match n with
  | O => Ret tt
  | S n => store a (u8 ch) ;; memset_from (a + 1) ch n
  end.
Definition memset (a ch len : Z) : prog unit := memset_from a ch (Z.to_nat len).

(** ** Laws of programs and of their evaluation *)

Section RunFacts.
Context (K : kernel).
Implicit Type w : world K.

Lemma run_bind {A B} (p : prog A) (k : A -> prog B) w :
  run K (bind p k) w =
  match run K p w with
  | (Done a, w') => run K (k a) w'
  | (Exited n, w') => (Exited n, w')
  | (Killed n, w') => (Killed n, w')
  end.
Proof.
  revert w. induction p as [a|n|n|f q IH|c q IH]; intros w; cbn; auto.
  - unfold deliver. destruct (p_sigs (w_proc w) n) as [[]|]; reflexivity.
  - destruct (kstep K c (w_k w)) as [s r]. apply IH.
Qed.

Lemma wp_ret {A} (a : A) Q w : Q (Done a) w -> wp K (Ret a) Q w.
Proof. exact id. Qed.

Lemma wp_bind {A B} (p : prog A) (k : A -> prog B) Q w :
  wp K p (fun o w' =>
            match o with
            | Done a => wp K (k a) Q w'
            | Exited n => Q (Exited n) w'
            | Killed n => Q (Killed n) w'
            end) w ->
  wp K (bind p k) Q w.
Proof.
  unfold wp. rewrite run_bind.
  destruct (run K p w) as [[a|n|n] w']; auto.
Qed.

Lemma wp_mono {A} (p : prog A) (Q R : outcome A -> world K -> Prop) w :
  wp K p Q w -> (forall o w', Q o w' -> R o w') -> wp K p R w.
Proof. unfold wp. auto. Qed.

Lemma wp_loc {A} f (k : proc -> prog A) Q w :
  wp K (k (f (w_proc w))) Q (World (f (w_proc w)) (w_k w)) -> wp K (Loc f k) Q w.
Proof. exact id. Qed.

Lemma wp_set_errno e Q w :
  Q (Done tt) (World (with_errno e (w_proc w)) (w_k w)) -> wp K (set_errno e) Q w.
Proof. exact id. Qed.

Lemma wp_errno Q w : Q (Done (p_errno (w_proc w))) w -> wp K errno Q w.
Proof. destruct w. exact id. Qed.

Lemma wp_step c s r Q w :
  kstep K c (w_k w) = (s, r) -> Q (Done r) (World (w_proc w) s) ->
  wp K (trigger c) Q w.
Proof. intros E HQ. unfold wp. cbn. rewrite E. exact HQ. Qed.

Lemma wp_raise {A} n Q w : Q (deliver n (w_proc w)) w -> wp K (@Raise A n) Q w.
Proof. exact id. Qed.
End RunFacts.

(** The programs form a monad up to evaluation. *)
Lemma run_bind_assoc K {A B C} (p : prog A) (k : A -> prog B) (l : B -> prog C) w :
  run K (bind (bind p k) l) w = run K (bind p (fun a => bind (k a) l)) w.
Proof.
  rewrite !run_bind. destruct (run K p w) as [[a|n|n] w']; auto.
  now rewrite run_bind.
Qed.

Lemma is_err_false r : 0 <= r -> is_err r = false.
Proof. intros H. unfold is_err. rewrite andb_false_iff, !Z.ltb_ge. lia. Qed.

Lemma is_err_true e : 1 <= e <= 4095 -> is_err (- e) = true.
Proof. intros H. unfold is_err. rewrite andb_true_iff, !Z.ltb_lt. lia. Qed.

(** ** Calls whose answer is known *)

Section KnownAnswer.
Context (K : kernel).
Implicit Type w : world K.

Lemma run_syscall_err {A} e (k : Z -> prog A) fail w : 1 <= e <= 4095 ->
  run K (bind (syscall_ret fail (- e)) k) w = run K (k fail) (World (with_errno e (w_proc w)) (w_k w)).
Proof.
  intros He. unfold syscall_ret. rewrite is_err_true by lia. cbn. now rewrite Z.opp_involutive.
Qed.

Lemma run_syscall_ok {A} r (k : Z -> prog A) fail w : 0 <= r ->
  run K (bind (syscall_ret fail r) k) w = run K (k r) w.
Proof. intros Hr. unfold syscall_ret. now rewrite is_err_false. Qed.

(** A call whose answer is known. *)
Lemma run_call_ok {A} c (f : ans c -> Z) s s' r fail pr (k : Z -> prog A) :
  kstep K c s = (s', r) -> 0 <= f r ->
  run K (bind (x <- trigger c ;; syscall_ret fail (f x)) k) (World pr s) = run K (k (f r)) (World pr s').
Proof.
  intros E Hr. rewrite run_bind_assoc. cbn. rewrite E. now apply run_syscall_ok.
Qed.

Lemma run_call_err {A} c (f : ans c -> Z) s s' r e fail pr (k : Z -> prog A) :
  kstep K c s = (s', r) -> f r = - e -> 1 <= e <= 4095 ->
  run K (bind (x <- trigger c ;; syscall_ret fail (f x)) k) (World pr s) =
  run K (k fail) (World (with_errno e pr) s').
Proof.
  intros E Hr He. rewrite run_bind_assoc. cbn. rewrite E, Hr. now apply run_syscall_err.
Qed.
End KnownAnswer.

(** ** A kernel that implements nothing *)

Definition ENOSYS : Z := 38.

Definition no_regval (r : regset) : regval r :=
  match r with
  | REGSET_GPR => UserPtRegs [] 0 0 0
  | REGSET_FPR => UserFpsimdState [] 0 0
  | REGSET_TLS => 0
  | REGSET_HW_BREAK | REGSET_HW_WATCH => UserHwdebugState 0 []
  | REGSET_SYSTEM_CALL => 0
  end.

(** The answer of a call that is not implemented. *)
Definition enosys (c : op) : ans c :=
  match c with
  | Read _ _ => (- ENOSYS, [])
  | Mkstemp t => (- ENOSYS, t)
  | GetMempolicy _ m _ _ _ => (- ENOSYS, (0, default [] m))
  | Load _ => inl 0
  | Store _ _ => inl tt
  | Free _ => tt
  | Kapi (AllocChrdevRegion _ _ _) => (- ENOSYS, 0)
  | Ihk (IhkGetPerfEvent _ _) => (- ENOSYS, [])
  | EpollWait _ _ _ => (- ENOSYS, [])
  | Getrlimit _ => (- ENOSYS, Rlimit 0 0)
  | Ident _ c => match c with IdGetRes => (- ENOSYS, (0, 0, 0)) | _ => - ENOSYS end
  | Sched c =>
      match c with
      | SchedGetparam _ => (- ENOSYS, 0)
      | SchedRrGetInterval _ => (- ENOSYS, (0, 0))
      | _ => - ENOSYS
      end
  | Procs c =>
      match c with
      | Pipe => (- ENOSYS, (0, 0))
      | Wait4 _ _ => (- ENOSYS, 0)
      | Waitid _ _ _ => (- ENOSYS, 0)
      | _ => - ENOSYS
      end
  | Memc c => match c with Mincore _ _ _ => (- ENOSYS, []) | _ => - ENOSYS end
  | Filec c =>
      match c with
      | Stat _ => (- ENOSYS, 0)
      | Fstat _ => (- ENOSYS, 0)
      | FscanfLong _ _ => (- ENOSYS, None)
      | Getcwd => None
      | _ => - ENOSYS
      end
  | Cpuc c => match c with SchedGetaffinity _ _ _ => (- ENOSYS, 0) | Getcpu => (- ENOSYS, (0, 0)) | _ => - ENOSYS end
  | Ptc c =>
      match c with
      | Peek _ _ _ => (- ENOSYS, 0)
      | Getsiginfo _ => (- ENOSYS, Siginfo 0 0 0 0)
      | Getregset _ r _ => (- ENOSYS, no_regval r)
      | Geteventmsg _ => (- ENOSYS, 0)
      | LoadWord _ => inl 0
      | StoreWord _ _ | Fill _ _ _ => inl tt
      | Insts _ _ | Straight _ _ | StrInst _ _ _ | SetX _ _ | WriteX | WriteQ _ => tt
      | ReadX | ReadQ => []
      | Req _ _ _ _ | Setsiginfo _ _ | Setregset _ _ _ _ => - ENOSYS
      end
  | Timec c =>
      match c with
      | ClockGetres _ _ | ClockGettime _ _ | Gettimeofday => (- ENOSYS, (0, 0))
      | Getitimer _ _ | Setitimer _ _ _ => (- ENOSYS, ((0, 0), (0, 0)))
      | _ => - ENOSYS
      end
  | Execc c =>
      match c with
      | PutPtr _ _ | StoreInt _ _ => inl tt
      | LoadInt _ => inl 0
      | Execve _ _ _ => inl (- ENOSYS)
      | Readlinkat _ _ _ => (- ENOSYS, [])
      | _ => - ENOSYS
      end
  | Sigc c =>
      match c with
      | SigactionGet _ | Sigprocmask _ _ => (- ENOSYS, 0)
      | SigPoll => None
      | GetStr _ => None
      | GetInfo _ _ => Siginfo 0 0 0 0
      | SetVar _ _ | SetStr _ _ | SetInfo _ _ _ | SigReturn => tt
      | _ => - ENOSYS
      end
  | Fgets _ _ => None
  | _ => - ENOSYS
  end.

Definition null_kernel : kernel := Kernel unit (fun c s => (s, enosys c)).
Definition null_world : world null_kernel := World proc0 (tt : kstate null_kernel).

(** ** Recording the calls of a run *)

(** One call and its answer. *)
Inductive event := Ev (c : op) (r : ans c).

(** The kernel [K] with a log of the calls made. *)
Definition traced (K : kernel) : kernel :=
  Kernel (kstate K * list event)
    (fun c st => let '(s, r) := kstep K c (fst st) in ((s, snd st ++ [Ev c r]), r)).

Definition tworld {K} (w : world K) : world (traced K) :=
  World (w_proc w) ((w_k w, []) : kstate (traced K)).

(** The calls [p] makes when run from [w]. *)
Definition calls (K : kernel) {A} (p : prog A) (w : world K) : list event :=
  snd (w_k (snd (run (traced K) p (tworld w)))).

Lemma traced_run_log K {A} (p : prog A) (pr : proc) (s : kstate K) (l : list event) :
  run (traced K) p (World pr ((s, l) : kstate (traced K))) =
  (fst (run K p (World pr s)),
   World (w_proc (snd (run K p (World pr s))))
         ((w_k (snd (run K p (World pr s))), l ++ calls K p (World pr s))
          : kstate (traced K))).
Proof.
  unfold calls, tworld. revert pr s l.
  induction p as [a|n|n|f q IH|c q IH]; intros pr s l; cbn; rewrite ?app_nil_r; auto.
  destruct (kstep K c s) as [s' r]. cbn.
  rewrite (IH r pr s' (l ++ [Ev c r])), (IH r pr s' [Ev c r]).
  cbn. now rewrite <- app_assoc.
Qed.

(** The outcome and the calls of a run, from one evaluation. *)
Lemma traced_outcome K {A} (p : prog A) (w : world K) :
  fst (run K p w) = fst (run (traced K) p (tworld w)).
Proof. destruct w. unfold tworld. cbn. now rewrite traced_run_log. Qed.

Lemma calls_call K {A} c (k : ans c -> prog A) pr s s' r :
  kstep K c s = (s', r) ->
  calls K (Call c k) (World pr s) = Ev c r :: calls K (k r) (World pr s').
Proof.
  intros E. unfold calls at 1. unfold tworld. cbn. rewrite E.
  cbn. now rewrite traced_run_log.
Qed.

(** ** Symbolic execution of straight-line code *)

(** Run a program against an arbitrary kernel: name every answer, split on
    every failure test. *)
Ltac sym_step :=
  match goal with
  | |- context [kstep ?K ?c ?s] =>
      let st := fresh "s" in let r := fresh "r" in
      destruct (kstep K c s) as [st r]
  | |- context [is_err ?r] => let E := fresh "Er" in destruct (is_err r) eqn:E
  | |- context [?x =? ?y] => let E := fresh "Eq" in destruct (x =? y) eqn:E; bool_to_prop
  end.

Ltac sym_run := cbn; repeat (sym_step; cbn).

(** Take the answers apart and drop the branches whose tests contradict. *)
Ltac sym_clean :=
  repeat match goal with
  | r : ans _ |- _ => progress cbn in r
  | r : unit |- _ => destruct r
  | r : (_ * _)%type |- _ => destruct r; cbn [fst snd] in *
  | H : ?a <> ?a |- _ => now destruct H
  | H : ?x = -1, E : is_err ?x = false |- _ => rewrite H in E; discriminate E
  | H : i32 (-1) <> -1 |- _ => now destruct H
  end.

Arguments i32 : simpl never.
Arguments i64 : simpl never.
Arguments u64 : simpl never.
Arguments is_err : simpl never.
