(* ===== verification/Trace.v ===== *)
(** * Footprints: what a program can call, whatever the system answers

    [footprint P p] says that every call of the program [p] satisfies [P], that
    [p] never exits the process by itself and never changes a signal
    disposition.  It is a property of the program text, closed under sequence,
    and bounds the log of every run ([calls]) on every kernel. *)
From S2P Require Import Prelude Process.

Definition ev_op (e : event) : op := let 'Ev c _ := e in c.

Fixpoint footprint (P : op -> Prop) {A} (p : prog A) : Prop :=
  match p with
  | Ret _ => True
  | Exit _ => False
  | Raise _ => True
  | Loc f k => (forall x, p_sigs (f x) = p_sigs x) /\ forall x, footprint P (k x)
  | Call c k => P c /\ forall r, footprint P (k r)
  end.

Section Footprint.
Context (P : op -> Prop).

Lemma footprint_bind {A B} (p : prog A) (k : A -> prog B) :
  footprint P p -> (forall a, footprint P (k a)) -> footprint P (bind p k).
Proof.
  intros Hp Hk. induction p as [a|n|n|f q IH|c q IH]; cbn in *; auto.
  - destruct Hp as [Hf Hq]. split; auto.
  - destruct Hp as [Hc Hq]. split; auto.
Qed.

Lemma footprint_ret {A} (a : A) : footprint P (Ret a).
Proof. exact I. Qed.

Lemma footprint_trigger c : P c -> footprint P (trigger c).
Proof. intros Hc. split; [exact Hc|]. intros r. exact I. Qed.

Lemma footprint_set_errno e : footprint P (set_errno e).
Proof. now split. Qed.

Lemma footprint_errno : footprint P errno.
Proof. now split. Qed.

Lemma footprint_syscall_ret fail r : footprint P (syscall_ret fail r).
Proof. unfold syscall_ret. case_if; [now split|exact I]. Qed.

Lemma footprint_or_raise {A} (r : A + Z) : footprint P (or_raise r).
Proof. destruct r; exact I. Qed.

Lemma footprint_memset a ch n : (forall a b, P (Store a b)) -> footprint P (memset a ch n).
Proof.
  intros Hs. unfold memset. generalize (Z.to_nat n). intros m. revert a.
  induction m as [|m IH]; intros a; cbn [memset_from]; [exact I|].
  apply footprint_bind; [|auto]. unfold store.
  apply footprint_bind; [now apply footprint_trigger|]. intros r. apply footprint_or_raise.
Qed.
End Footprint.

(** A larger footprint. *)
Lemma footprint_mono (P Q : op -> Prop) {A} (p : prog A) :
  (forall c, P c -> Q c) -> footprint P p -> footprint Q p.
Proof. intros HPQ. induction p as [a|n|n|f q IH|c q IH]; cbn; firstorder. Qed.

Create HintDb footprint.
#[export] Hint Resolve footprint_bind footprint_ret footprint_trigger footprint_set_errno
  footprint_errno footprint_syscall_ret footprint_or_raise footprint_memset : footprint.

(** Walk through straight-line code. *)
Ltac footprint_tac :=
  repeat match goal with
  | |- footprint _ (bind _ _) => apply footprint_bind
  | |- forall _, footprint _ _ => intros
  | |- footprint _ (if _ then _ else _) => case_if
  | |- footprint _ (match ?x with _ => _ end) => destruct x
  | |- footprint _ _ => solve [auto with footprint]
  end.

(** ** Logs and outcomes of runs *)

Section Logs.
Context (K : kernel).
Implicit Type w : world K.

Lemma calls_ret {A} (a : A) w : calls K (Ret a) w = [].
Proof. reflexivity. Qed.

Lemma calls_trigger c w : calls K (trigger c) w = [Ev c (snd (kstep K c (w_k w)))].
Proof.
  destruct w as [pr s]. unfold trigger. destruct (kstep K c s) as [s' r] eqn:E.
  rewrite (calls_call K c Ret pr s s' r E). cbn. now rewrite E.
Qed.

(** The log of a sequence. *)
Lemma calls_bind {A B} (p : prog A) (k : A -> prog B) w :
  calls K (bind p k) w =
  calls K p w ++ match run K p w with
                 | (Done a, w') => calls K (k a) w'
                 | _ => []
                 end.
Proof.
  destruct w as [pr s]. revert pr s.
  induction p as [a|n|n|f q IH|c q IH]; intros pr s; cbn [bind run].
  - reflexivity.
  - reflexivity.
  - unfold deliver. cbn. destruct (p_sigs pr n) as [[]|]; reflexivity.
  - apply (IH (f pr) (f pr) s).
  - cbn [w_k]. destruct (kstep K c s) as [s' r] eqn:E.
    rewrite !(calls_call K c _ pr s s' r E), IH. reflexivity.
Qed.

Lemma calls_bind_assoc {A B C} (p : prog A) (k : A -> prog B) (q : B -> prog C) w :
  calls K (y <- (x <- p ;; k x) ;; q y) w = calls K (x <- p ;; y <- k x ;; q y) w.
Proof.
  rewrite !calls_bind, run_bind. destruct (run K p w) as [[a|n|n] w']; rewrite ?app_nil_r, ?calls_bind; try reflexivity.
  now rewrite app_assoc.
Qed.

Lemma footprint_calls P {A} (p : prog A) w :
  footprint P p -> Forall (fun e => P (ev_op e)) (calls K p w).
Proof.
  destruct w as [pr s]. revert pr s.
  induction p as [a|n|n|f q IH|c q IH]; intros pr s Hp; try constructor.
  - apply (IH (f pr) (f pr) s). apply Hp.
  - destruct Hp as [Hc Hq]. destruct (kstep K c s) as [s' r] eqn:E.
    rewrite (calls_call K c _ pr s s' r E). constructor; auto.
Qed.

(** Without a handler, such a program returns or is killed, and still has no
    handler. *)
Lemma footprint_outcome P {A} (p : prog A) w :
  footprint P p -> (forall n, p_sigs (w_proc w) n = None) ->
  (forall n, fst (run K p w) <> Exited n) /\
  (forall n, p_sigs (w_proc (snd (run K p w))) n = None).
Proof.
  destruct w as [pr s]. revert pr s.
  induction p as [a|n|n|f q IH|c q IH]; intros pr s Hp Hs; cbn in *.
  - split; [discriminate|auto].
  - contradiction.
  - unfold deliver. rewrite Hs. split; [discriminate|auto].
  - destruct Hp as [Hf Hq]. apply (IH (f pr)); [auto|]. intros n. cbn. now rewrite Hf.
  - destruct Hp as [Hc Hq]. destruct (kstep K c s) as [s' r]. apply IH; auto.
Qed.
End Logs.
