(* ===== verification/Arch.v ===== *)
(** * Build configuration, page geometry and alignment macros

    [test_mck/src/test_mck.h] and [test_mck/src/arch/arm64/include/arch_test_mck.h]:
    the page size constants, [align_down] / [align_up] on [unsigned long], the
    user address space bounds and the system register encoding [sys_reg]. *)
From S2P Require Import Prelude.

(** The build option that selects the 64 KiB granule. *)
Class ArchConfig := { CONFIG_ARM64_64K_PAGES : bool }.

Definition config_4K : ArchConfig := {| CONFIG_ARM64_64K_PAGES := false |}.
Definition config_64K : ArchConfig := {| CONFIG_ARM64_64K_PAGES := true |}.

Section Arch.
Context `{ArchConfig}.

Definition PAGE_SHIFT : Z := if CONFIG_ARM64_64K_PAGES then 16 else 12.
Definition LARGE_PAGE_SHIFT : Z := PAGE_SHIFT + 9 + (PAGE_SHIFT - 12).
Definition LARGEST_PAGE_SHIFT : Z := LARGE_PAGE_SHIFT + 9 + (PAGE_SHIFT - 12).
Definition ENABLE_LARGEST_PAGE : Z := if PAGE_SHIFT =? 12 then 1 else 0.
Definition VA_BITS : Z := 48.

(** The branches for [VA_BITS == 48] (both granules). *)
Definition MMAP_START_ADDR : Z := 0x0000100000000000.
Definition MMAP_END_ADDR : Z := 0x0000400000000000.
Definition MMAP_AREA_SIZE : Z := u64 (MMAP_END_ADDR - MMAP_START_ADDR).

Definition PAGE_SIZE : Z := u64 (Z.shiftl 1 PAGE_SHIFT).
Definition PAGE_OFFSET : Z := u64 (PAGE_SIZE - 1).
Definition PAGE_MASK : Z := u64 (Z.lnot PAGE_OFFSET).
Definition LARGE_PAGE_SIZE : Z := u64 (Z.shiftl 1 LARGE_PAGE_SHIFT).
Definition LARGE_PAGE_OFFSET : Z := u64 (LARGE_PAGE_SIZE - 1).
Definition LARGE_PAGE_MASK : Z := u64 (Z.lnot LARGE_PAGE_OFFSET).
Definition LARGEST_PAGE_SIZE : Z := u64 (Z.shiftl 1 LARGEST_PAGE_SHIFT).
Definition LARGEST_PAGE_OFFSET : Z := u64 (LARGEST_PAGE_SIZE - 1).
Definition LARGEST_PAGE_MASK : Z := u64 (Z.lnot LARGEST_PAGE_OFFSET).

(** [((addr)&(~((size)-1)))] on [unsigned long] operands. *)
Definition align_down (addr size : Z) : Z := Z.land addr (u64 (Z.lnot (u64 (size - 1)))).
Definition align_up (addr size : Z) : Z := align_down (u64 (u64 (addr + size) - 1)) size.

Definition PAGE_ALIGN (addr : Z) : Z := align_up addr PAGE_SIZE.
Definition LARGE_PAGE_ALIGN (addr : Z) : Z := align_up addr LARGE_PAGE_SIZE.
Definition LARGEST_PAGE_ALIGN (addr : Z) : Z := align_up addr LARGEST_PAGE_SIZE.
End Arch.

(** ** System register encoding *)

Definition Op0_shift := 19.
Definition Op0_mask := 0x3.
Definition Op1_shift := 16.
Definition Op1_mask := 0x7.
Definition CRn_shift := 12.
Definition CRn_mask := 0xf.
Definition CRm_shift := 8.
Definition CRm_mask := 0xf.
Definition Op2_shift := 5.
Definition Op2_mask := 0x7.

Definition sys_reg (op0 op1 crn crm op2 : Z) : Z :=
  Z.lor (Z.lor (Z.lor (Z.lor (Z.shiftl op0 Op0_shift) (Z.shiftl op1 Op1_shift))
                      (Z.shiftl crn CRn_shift)) (Z.shiftl crm CRm_shift))
        (Z.shiftl op2 Op2_shift).

Definition ID_MMFR4_EL1 := sys_reg 3 0 0 2 6.
Definition ID_AA64MMFR2_EL1 := sys_reg 3 0 0 7 2.
Definition ZCR_EL1 := sys_reg 3 0 1 2 0.
Definition ID_AA64ZFR0_EL1 := sys_reg 3 0 0 4 4.

(** ** Facts *)

(** Reading back one field of an encoded register. *)
Definition field (enc shift mask : Z) : Z := Z.land (Z.shiftr enc shift) mask.

Section Facts.
Context `{ArchConfig}.

Lemma PAGE_SHIFT_cases : PAGE_SHIFT = 12 \/ PAGE_SHIFT = 16.
Proof. unfold PAGE_SHIFT. destruct CONFIG_ARM64_64K_PAGES; auto. Qed.

Lemma PAGE_SIZE_pow : PAGE_SIZE = 2 ^ PAGE_SHIFT.
Proof. unfold PAGE_SIZE, PAGE_SHIFT. now destruct CONFIG_ARM64_64K_PAGES. Qed.

Lemma PAGE_SIZE_cases : PAGE_SIZE = 4096 \/ PAGE_SIZE = 65536.
Proof. unfold PAGE_SIZE, PAGE_SHIFT. destruct CONFIG_ARM64_64K_PAGES; auto. Qed.

Lemma PAGE_SIZE_pos : 0 < PAGE_SIZE.
Proof. destruct PAGE_SIZE_cases as [-> | ->]; lia. Qed.

Lemma LARGE_PAGE_SIZE_cases :
  PAGE_SIZE = 4096 /\ LARGE_PAGE_SIZE = 512 * PAGE_SIZE \/
  PAGE_SIZE = 65536 /\ LARGE_PAGE_SIZE = 8192 * PAGE_SIZE.
Proof.
  unfold LARGE_PAGE_SIZE, LARGE_PAGE_SHIFT, PAGE_SIZE, PAGE_SHIFT.
  destruct CONFIG_ARM64_64K_PAGES; [right|left]; split; reflexivity.
Qed.
End Facts.

(** Masking with the complement of [2^k - 1] clears the low [k] bits. *)
Lemma land_not_low_mask a k :
  0 <= k < 64 -> 0 <= a < 2 ^ 64 ->
  Z.land a (u64 (Z.lnot (u64 (2 ^ k - 1)))) = a - a mod 2 ^ k.
Proof.
  intros Hk Ha. assert (2 ^ k < 2 ^ 64) by (apply Z.pow_lt_mono_r; lia).
  assert (0 < 2 ^ k) by (apply Z.pow_pos_nonneg; lia).
  rewrite (u64_small (2 ^ k - 1)) by lia.
  replace (2 ^ k - 1) with (Z.ones k) by (rewrite Z.ones_equiv; lia).
  replace (a - a mod 2 ^ k) with (Z.shiftl (Z.shiftr a k) k).
  2:{ rewrite Z.shiftl_mul_pow2, Z.shiftr_div_pow2 by lia.
      pose proof (Z.div_mod a (2 ^ k)). lia. }
  unfold u64. rewrite <- Z.land_ones by lia.
  apply Z.bits_inj'. intros n Hn.
  rewrite !Z.land_spec, Z.lnot_spec by lia.
  rewrite (Z.testbit_ones_nonneg k) by lia.
  rewrite (Z.testbit_ones_nonneg 64) by lia.
  rewrite Z.shiftl_spec by lia.
  destruct (Z.ltb_spec n k).
  - rewrite (Z.testbit_neg_r _ (n - k)) by lia. now rewrite andb_false_r.
  - rewrite Z.shiftr_spec by lia. replace (n - k + k) with n by lia. cbn.
    destruct (Z.ltb_spec n 64); [apply andb_true_r|].
    rewrite andb_false_r. symmetry. apply Z.testbit_false; [lia|].
    rewrite Z.div_small; [reflexivity|].
    split; [lia|]. apply Z.lt_le_trans with (2 ^ 64); [lia|].
    apply Z.pow_le_mono_r; lia.
Qed.

Lemma align_down_spec a k :
  0 <= k < 64 -> 0 <= a < 2 ^ 64 -> align_down a (2 ^ k) = a - a mod 2 ^ k.
Proof. apply land_not_low_mask. Qed.

Lemma align_up_spec a k :
  0 <= k < 64 -> 0 <= a -> a + 2 ^ k <= 2 ^ 64 ->
  align_up a (2 ^ k) = a + (- a) mod 2 ^ k.
Proof.
  intros Hk Ha Hb. assert (0 < 2 ^ k) by (apply Z.pow_pos_nonneg; lia).
  unfold align_up.
  replace (u64 (u64 (a + 2 ^ k) - 1)) with (a + 2 ^ k - 1).
  2:{ unfold u64. rewrite Zminus_mod_idemp_l. rewrite Z.mod_small; lia. }
  rewrite align_down_spec by lia.
  pose proof (Z.div_mod (- a) (2 ^ k)).
  pose proof (Z.mod_pos_bound (- a) (2 ^ k)).
  pose proof (Z.mod_pos_bound (a + 2 ^ k - 1) (2 ^ k)).
  pose proof (Z.div_mod (a + 2 ^ k - 1) (2 ^ k)).
  set (q := (- a) / 2 ^ k) in *. set (r := (- a) mod 2 ^ k) in *.
  assert ((a + 2 ^ k - 1) mod 2 ^ k = 2 ^ k - 1 - r) as ->; [|lia].
  symmetry. apply Z.mod_unique_pos with (q := - q); lia.
Qed.

Lemma field_bits enc shift w :
  0 <= shift -> 0 <= w -> field enc shift (2 ^ w - 1) = (enc / 2 ^ shift) mod 2 ^ w.
Proof.
  intros Hs Hw. unfold field.
  rewrite Z.shiftr_div_pow2 by lia.
  replace (2 ^ w - 1) with (Z.ones w) by (rewrite Z.ones_equiv; lia).
  now rewrite Z.land_ones by lia.
Qed.

Lemma lor_shiftl_add x y n : 0 <= n -> 0 <= y < 2 ^ n -> Z.lor (Z.shiftl x n) y = x * 2 ^ n + y.
Proof.
  intros Hn Hy. rewrite <- Z.shiftl_mul_pow2 by lia.
  rewrite Z.add_nocarry_lxor, <- Z.lxor_lor; [reflexivity| |].
  all: apply Z.bits_inj'; intros i Hi; rewrite Z.land_spec, Z.bits_0.
  all: destruct (Z.ltb_spec i n);
    [rewrite Z.shiftl_spec_low by lia; reflexivity|].
  all: rewrite andb_comm, (proj2 (Z.testbit_false y i Hi)); [reflexivity|].
  all: rewrite Z.div_small; [reflexivity|]; split; [lia|].
  all: apply Z.lt_le_trans with (2 ^ n); [lia|apply Z.pow_le_mono_r; lia].
Qed.

(** Joining a multiple of [2^n] and a value below [2^n]. *)
Lemma lor_aligned_add x y n : 0 <= n -> x mod 2 ^ n = 0 -> 0 <= y < 2 ^ n -> Z.lor x y = x + y.
Proof.
  intros Hn Hx Hy. rewrite (Z.div_mod x (2 ^ n)) by lia. rewrite Hx, Z.add_0_r, Z.mul_comm.
  rewrite <- Z.shiftl_mul_pow2 by lia. rewrite lor_shiftl_add by lia.
  rewrite Z.shiftl_mul_pow2 by lia. reflexivity.
Qed.

Lemma align_up_wraps a k :
  0 <= k < 64 -> a < 2 ^ 64 -> 2 ^ 64 < a + 2 ^ k -> align_up a (2 ^ k) = 0.
Proof.
  intros Hk Ha Hb. assert (0 < 2 ^ k) by (apply Z.pow_pos_nonneg; lia).
  assert (2 ^ k < 2 ^ 64) by (apply Z.pow_lt_mono_r; lia).
  unfold align_up.
  replace (u64 (u64 (a + 2 ^ k) - 1)) with (a + 2 ^ k - 1 - 2 ^ 64).
  2:{ unfold u64. rewrite Zminus_mod_idemp_l. apply Z.mod_unique_pos with 1; lia. }
  rewrite align_down_spec, Z.mod_small by lia. lia.
Qed.

(** [align_up] on 64-bit words: for a power of two, the result is the
    least multiple that is not below the address, as long as the sum fits; in
    the last incomplete block of the address space it wraps to 0. *)
Theorem align_up_least a k :
  0 <= k < 64 -> 0 <= a < 2 ^ 64 ->
  (a + 2 ^ k <= 2 ^ 64 ->
     align_up a (2 ^ k) mod 2 ^ k = 0 /\ a <= align_up a (2 ^ k) < a + 2 ^ k /\
     forall m, a <= m -> m mod 2 ^ k = 0 -> align_up a (2 ^ k) <= m) /\
  (2 ^ 64 < a + 2 ^ k -> align_up a (2 ^ k) = 0).
Proof.
  intros Hk Ha. assert (0 < 2 ^ k) by (apply Z.pow_pos_nonneg; lia).
  split; [intros Hb|now apply align_up_wraps]. rewrite align_up_spec by lia.
  pose proof (Z.mod_pos_bound (- a) (2 ^ k)). pose proof (Z.div_mod (- a) (2 ^ k)) as D.
  assert (a + (- a) mod 2 ^ k = - ((- a) / 2 ^ k) * 2 ^ k) as -> by lia.
  split; [apply Z.mod_mul; lia|]. split; [lia|]. intros m Hm Hm0.
  pose proof (Z.div_mod m (2 ^ k)) as Dm. rewrite Hm0, Z.add_0_r in Dm.
  rewrite Dm, (Z.mul_comm (2 ^ k)) by lia. apply Z.mul_le_mono_nonneg_r; [lia|].
  apply Z.lt_succ_r, (Z.mul_lt_mono_pos_r (2 ^ k)); lia.
Qed.

Lemma align_up_least_witness :
  align_up 0x10001 (2 ^ 16) = 0x20000 /\
  align_up 0xffffffffffff0001 (2 ^ 16) = 0 /\
  (align_up 0x10001 (2 ^ 16) mod 2 ^ 16 = 0 /\
   0x10001 <= align_up 0x10001 (2 ^ 16) < 0x10001 + 2 ^ 16).
Proof.
  split; [reflexivity|]. split.
  - apply (proj2 (align_up_least 0xffffffffffff0001 16 ltac:(lia) ltac:(lia))). reflexivity.
  - destruct (proj1 (align_up_least 0x10001 16 ltac:(lia) ltac:(lia))) as (H1 & H2 & _);
      [discriminate|]. exact (conj H1 H2).
Defined.

(** The system register encoding loses nothing: every operand can be read
    back with its shift and mask, the encoding fits in the bits 5 to 20 of the
    instruction, and two registers with the same encoding have the same
    operands. *)
Theorem sys_reg_fields op0 op1 crn crm op2 :
  0 <= op0 <= Op0_mask -> 0 <= op1 <= Op1_mask -> 0 <= crn <= CRn_mask ->
  0 <= crm <= CRm_mask -> 0 <= op2 <= Op2_mask ->
  let e := sys_reg op0 op1 crn crm op2 in
  0 <= e < 2 ^ 21 /\ e mod 2 ^ 5 = 0 /\
  field e Op0_shift Op0_mask = op0 /\ field e Op1_shift Op1_mask = op1 /\
  field e CRn_shift CRn_mask = crn /\ field e CRm_shift CRm_mask = crm /\
  field e Op2_shift Op2_mask = op2.
Proof.
  intros H0 H1 H2 H3 H4 e.
  assert (e = op0 * 524288 + op1 * 65536 + crn * 4096 + crm * 256 + op2 * 32) as ->.
  { unfold e, sys_reg, Op0_mask, Op1_mask, CRn_mask, CRm_mask, Op2_mask, Op0_shift, Op1_shift,
      CRn_shift, CRm_shift, Op2_shift in *.
    rewrite !Z.shiftl_mul_pow2 by discriminate. cbn [Z.pow Z.pow_pos Pos.iter Z.mul Pos.mul].
    rewrite (lor_aligned_add (op0 * _) _ 19), (lor_aligned_add _ (crn * _) 16),
      (lor_aligned_add _ (crm * _) 12), (lor_aligned_add _ (op2 * _) 8);
      cbn [Z.pow Z.pow_pos Pos.iter Z.mul Pos.mul]; Z.div_mod_to_equations; lia. }
  unfold field, Op0_mask, Op1_mask, CRn_mask, CRm_mask, Op2_mask, Op0_shift, Op1_shift, CRn_shift,
    CRm_shift, Op2_shift in *.
  rewrite !Z.shiftr_div_pow2 by discriminate.
  change 3 with (2 ^ 2 - 1). change 7 with (2 ^ 3 - 1). change 15 with (2 ^ 4 - 1).
  rewrite !Z.sub_1_r, <- !Z.ones_equiv, !Z.land_ones by discriminate.
  cbn [Z.pow Z.pow_pos Pos.iter Z.mul Pos.mul].
  repeat split; Z.div_mod_to_equations; lia.
Qed.

Lemma sys_reg_fields_witness :
  let e := ID_AA64MMFR2_EL1 in
  e = 0x180740 /\ field e CRm_shift CRm_mask = 7 /\ field e Op2_shift Op2_mask = 2.
Proof.
  destruct (sys_reg_fields 3 0 0 7 2) as (_ & _ & _ & _ & _ & H1 & H2); try (split; discriminate).
  exact (conj eq_refl (conj H1 H2)).
Defined.
