(* ===== verification/CLib.v ===== *)
(** * C library functions on strings

    What the sources use of [strtoll], [strtoul], [atoi] and [getopt],
    written as total functions on [string]. *)
From S2P Require Import Prelude.
From Stdlib Require Import Ascii String.
#[local] Open Scope string_scope.
#[local] Open Scope Z_scope.

(** ** Characters *)

Definition code (c : ascii) : Z := Z.of_N (N_of_ascii c).

Definition isspace (c : ascii) : bool :=
  (code c =? 32) || ((9 <=? code c) && (code c <=? 13)).

(** The value of a digit in bases up to 36. *)
Definition digit (c : ascii) : option Z :=
  let n := code c in
  if (48 <=? n) && (n <=? 57) then Some (n - 48)
  else if (97 <=? n) && (n <=? 122) then Some (n - 87)
  else if (65 <=? n) && (n <=? 90) then Some (n - 55)
  else None.

Definition digit_in (base : Z) (c : ascii) : option Z :=
  match digit c with
  | Some d => if d <? base then Some d else None
  | None => None
  end.

(** A text in double quotes. *)
Definition quoted (s : string) : string :=
  String (ascii_of_nat 34) (s ++ String (ascii_of_nat 34) "").

(** ** The [strtol] family *)

Fixpoint skip_spaces (s : string) : string :=
  match s with
  | String c s' => if isspace c then skip_spaces s' else s
  | EmptyString => s
  end.

(** The longest run of digits, accumulated without bound; [seen] tells
    whether there was one. *)
Fixpoint digits (base acc : Z) (seen : bool) (s : string) : Z * bool :=
  match s with
  | String c s' =>
      match digit_in base c with
      | Some d => digits base (acc * base + d) true s'
      | None => (acc, seen)
      end
  | EmptyString => (acc, seen)
  end.

Definition sign (s : string) : bool * string :=
  match s with
  | String c s' =>
      if code c =? 45 then (true, s')
      else if code c =? 43 then (false, s') else (false, s)
  | EmptyString => (false, s)
  end.

Definition is_x (c : ascii) : bool := (code c =? 120) || (code c =? 88).

(** The magnitude of the number at the head of [s]; in base 0 the prefix
    selects hexadecimal, octal or decimal.  A bare ["0x"] is the number 0. *)
Definition magnitude (base : Z) (s : string) : Z * bool :=
  if (base =? 0) || (base =? 16) then
    match s with
    | String z (String x s') =>
        if (code z =? 48) && is_x x then
          match digits 16 0 false s' with
          | (v, true) => (v, true)
          | (_, false) => (0, true)
          end
        else if base =? 0 then
          if code z =? 48 then digits 8 0 false s else digits 10 0 false s
        else digits 16 0 false s
    | String z EmptyString =>
        if base =? 0 then
          if code z =? 48 then digits 8 0 false s else digits 10 0 false s
        else digits 16 0 false s
    | EmptyString => (0, false)
    end
  else digits base 0 false s.

(** The result of a conversion: the value, whether anything was converted
    ([endptr != nptr]) and whether it was out of range ([ERANGE]). *)
Record conv := Conv { cv_val : Z; cv_seen : bool; cv_range : bool }.

Definition LONG_MAX : Z := 2 ^ 63 - 1.
Definition LONG_MIN : Z := - 2 ^ 63.
Definition ULONG_MAX : Z := 2 ^ 64 - 1.

(** [strtol] / [strtoll] (both 64 bits). *)
Definition strtoll (s : string) (base : Z) : conv :=
  let '(neg, s1) := sign (skip_spaces s) in
  let '(m, seen) := magnitude base s1 in
  let v := if neg : bool then - m else m in
  if LONG_MAX <? v then Conv LONG_MAX seen true
  else if v <? LONG_MIN then Conv LONG_MIN seen true
  else Conv v seen false.

(** [strtoul]: a negative number is negated in [unsigned long]. *)
Definition strtoul (s : string) (base : Z) : conv :=
  let '(neg, s1) := sign (skip_spaces s) in
  let '(m, seen) := magnitude base s1 in
  if ULONG_MAX <? m then Conv ULONG_MAX seen true
  else Conv (if neg : bool then u64 (- m) else m) seen false.

(** [atoi(s) = (int)strtol(s, NULL, 10)]. *)
Definition atoi (s : string) : Z := i32 (cv_val (strtoll s 10)).

(** ** [getopt] *)

(** What successive calls of [getopt] return: an option with its argument, or
    ['?'] for an unknown option or a missing argument. *)
Inductive optev := Opt (c : ascii) (optarg : string) | OptErr.

(** The option characters with, for each, whether it takes an argument. *)
Fixpoint parse_optstring (s : string) : list (ascii * bool) :=
  match s with
  | String c (String c' s' as t) =>
      if code c' =? 58 then (c, true) :: parse_optstring s' else (c, false) :: parse_optstring t
  | String c EmptyString => [(c, false)]
  | EmptyString => []
  end.

Definition find_opt (opts : list (ascii * bool)) (c : ascii) : option bool :=
  match List.find (fun o => Ascii.eqb (fst o) c) opts with
  | Some (_, b) => Some b
  | None => None
  end.

(** One element of [argv] that starts with ['-']: the options it holds and
    whether the next element is consumed as an argument. *)
Fixpoint scan_element (opts : list (ascii * bool)) (s : string) (next : option string)
  : list optev * bool :=
  match s with
  | EmptyString => ([], false)
  | String c s' =>
      match find_opt opts c with
      | None => let '(evs, used) := scan_element opts s' next in (OptErr :: evs, used)
      | Some false => let '(evs, used) := scan_element opts s' next in (Opt c "" :: evs, used)
      | Some true =>
          match s', next with
          | String _ _, _ => ([Opt c s'], false)
          | EmptyString, Some a => ([Opt c a], true)
          | EmptyString, None => ([OptErr], false)
          end
      end
  end.

(** The whole scan with GNU permutation: the sequence of options, and the
    operands left behind [optind].  [skip] marks an element that was consumed
    as the argument of the one before it. *)
Fixpoint getopt_scan (opts : list (ascii * bool)) (skip : bool) (args : list string)
  : list optev * list string :=
  match args with
  | [] => ([], [])
  | a :: rest =>
      if skip then getopt_scan opts false rest
      else
        match a with
        | String c s =>
            if code c =? 45 then
              match s with
              | EmptyString =>
                  let '(evs, operands) := getopt_scan opts false rest in (evs, a :: operands)
              | _ =>
                  if String.eqb s "-" then ([], rest)
                  else
                    let '(evs, used) := scan_element opts s (head rest) in
                    let '(evs', operands) := getopt_scan opts used rest in
                    (evs ++ evs', operands)%list
              end
            else let '(evs, operands) := getopt_scan opts false rest in (evs, a :: operands)
        | EmptyString => let '(evs, operands) := getopt_scan opts false rest in (evs, a :: operands)
        end
  end.

Definition getopt (optstring : string) (args : list string) : list optev * list string :=
  getopt_scan (parse_optstring optstring) false args.

(** ** [getopt_long] *)

(** A long option; every one the sources define takes a required argument. *)
Record longopt := LongOpt { lo_name : string; lo_val : ascii }.

(** The name before ['='] and the value after it. *)
Fixpoint split_eq (s : string) : string * option string :=
  match s with
  | EmptyString => ("", None)
  | String c s' =>
      if code c =? 61 then ("", Some s')
      else let '(n, v) := split_eq s' in (String c n, v)
  end.

(** An exact name, or an unambiguous abbreviation. *)
Definition find_long (longs : list longopt) (name : string) : option longopt :=
  match List.find (fun l => String.eqb (lo_name l) name) longs with
  | Some l => Some l
  | None =>
      match List.filter (fun l => String.prefix name (lo_name l)) longs with
      | [l] => Some l
      | _ => None
      end
  end.

(** The element [--s]. *)
Definition scan_long (longs : list longopt) (s : string) (next : option string)
  : optev * bool :=
  let '(name, value) := split_eq s in
  match find_long longs name with
  | None => (OptErr, false)
  | Some l =>
      match value, next with
      | Some v, _ => (Opt (lo_val l) v, false)
      | None, Some a => (Opt (lo_val l) a, true)
      | None, None => (OptErr, false)
      end
  end.

Fixpoint getopt_long_scan (opts : list (ascii * bool)) (longs : list longopt) (skip : bool)
  (args : list string) : list optev * list string :=
  match args with
  | [] => ([], [])
  | a :: rest =>
      if skip then getopt_long_scan opts longs false rest
      else
        match a with
        | String c s =>
            if code c =? 45 then
              match s with
              | EmptyString =>
                  let '(evs, operands) := getopt_long_scan opts longs false rest in (evs, a :: operands)
              | String c' s' =>
                  if code c' =? 45 then
                    match s' with
                    | EmptyString => ([], rest)
                    | _ =>
                        let '(ev, used) := scan_long longs s' (head rest) in
                        let '(evs, operands) := getopt_long_scan opts longs used rest in
                        (ev :: evs, operands)
                    end
                  else
                    let '(evs, used) := scan_element opts s (head rest) in
                    let '(evs', operands) := getopt_long_scan opts longs used rest in
                    (evs ++ evs', operands)%list
              end
            else let '(evs, operands) := getopt_long_scan opts longs false rest in (evs, a :: operands)
        | EmptyString =>
            let '(evs, operands) := getopt_long_scan opts longs false rest in (evs, a :: operands)
        end
  end.

Definition getopt_long (optstring : string) (longs : list longopt) (args : list string)
  : list optev * list string :=
  getopt_long_scan (parse_optstring optstring) longs false args.

(** ** Printing numbers, for the round trip *)

Definition digit_char (d : Z) : ascii :=
  ascii_of_N (Z.to_N (if d <? 10 then 48 + d else 87 + d)).

Fixpoint print_digits (fuel : nat) (base n : Z) (acc : string) : string :=
  match fuel with
  | O => acc
  | S fuel =>
      let acc := String (digit_char (n mod base)) acc in
      if n / base =? 0 then acc else print_digits fuel base (n / base) acc
  end.

(** 64 digits are enough for every 64-bit number in every base. *)
Definition print_base (base n : Z) : string := print_digits 64 base n "".
Definition print_hex (n : Z) : string := "0x" ++ print_base 16 n.
Definition print_dec (n : Z) : string := print_base 10 n.

(** ** Facts *)

Lemma digit_in_char base d :
  2 <= base <= 16 -> 0 <= d < base -> digit_in base (digit_char d) = Some d.
Proof.
  intros Hb Hd. assert (0 <= d < 16) as Hd16 by lia.
  assert (digit (digit_char d) = Some d) as E.
  { assert (d = 0 \/ d = 1 \/ d = 2 \/ d = 3 \/ d = 4 \/ d = 5 \/ d = 6 \/ d = 7 \/ d = 8 \/
            d = 9 \/ d = 10 \/ d = 11 \/ d = 12 \/ d = 13 \/ d = 14 \/ d = 15) as C by lia.
    repeat (destruct C as [C|C]; [subst; reflexivity|]). subst. reflexivity. }
  unfold digit_in. rewrite E. now rewrite (proj2 (Z.ltb_lt d base)) by lia.
Qed.

Lemma digits_app_char base acc seen d s :
  2 <= base <= 16 -> 0 <= d < base ->
  digits base acc seen (String (digit_char d) s) = digits base (acc * base + d) true s.
Proof. intros Hb Hd. cbn. now rewrite digit_in_char. Qed.

(** Reading back printed digits restores the number, whatever follows. *)
Lemma digits_print fuel base n acc0 seen rest :
  2 <= base <= 16 -> 0 <= n < base ^ Z.of_nat fuel -> (0 < fuel)%nat ->
  exists k, 0 < k /\
    digits base acc0 seen (print_digits fuel base n rest) =
    digits base (acc0 * base ^ k + n) true rest.
Proof.
  intros Hb. revert n rest.
  induction fuel as [|fuel IH]; intros n rest Hn Hf; [lia|].
  cbn [print_digits].
  pose proof (Z.mod_pos_bound n base) as Hm. pose proof (Z.div_mod n base) as Hdm.
  destruct (Z.eqb_spec (n / base) 0) as [E|E].
  - exists 1. split; [lia|].
    rewrite digits_app_char by lia. f_equal. rewrite Z.pow_1_r. lia.
  - assert (0 < n / base) by (pose proof (Z.div_pos n base); lia).
    assert (n / base < base ^ Z.of_nat fuel) as Hlt.
    { apply Z.div_lt_upper_bound; [lia|].
      rewrite Nat2Z.inj_succ, Z.pow_succ_r in Hn by lia. lia. }
    assert (0 < fuel)%nat.
    { destruct fuel; [cbn in Hlt; lia|lia]. }
    destruct (IH (n / base) (String (digit_char (n mod base)) rest)) as (k & Hk & E'); [lia|lia|].
    exists (k + 1). split; [lia|].
    rewrite E', digits_app_char by lia. f_equal.
    rewrite Z.pow_add_r, Z.pow_1_r by lia. lia.
Qed.

Lemma digits_print_base base n :
  2 <= base <= 16 -> 0 <= n < 2 ^ 64 -> digits base 0 false (print_base base n) = (n, true).
Proof.
  intros Hb Hn. unfold print_base.
  destruct (digits_print 64 base n 0 false "") as (k & Hk & ->); [lia| |lia|].
  - split; [lia|]. apply Z.lt_le_trans with (2 ^ 64); [lia|].
    change (Z.of_nat 64) with 64. apply Z.pow_le_mono_l. lia.
  - cbn. f_equal; lia.
Qed.

(** *** Decimal numbers followed by text *)

Lemma length_append (a b : string) : String.length (a ++ b) = (String.length a + String.length b)%nat.
Proof.
  induction a as [|x a IH]; [reflexivity|].
  change (String x a ++ b) with (String x (a ++ b)). cbn. now rewrite IH.
Qed.

Lemma append_assoc (a b c : string) : (a ++ b) ++ c = a ++ b ++ c.
Proof. induction a as [|x a IH]; [reflexivity|].
  change (String x ((a ++ b) ++ c) = String x (a ++ b ++ c)). now rewrite IH.
Qed.

Lemma print_digits_app fuel base n acc :
  print_digits fuel base n acc = print_digits fuel base n "" ++ acc.
Proof.
  revert n acc. induction fuel as [|fuel IH]; intros n acc; cbn; [reflexivity|].
  case_if; [reflexivity|]. rewrite IH, (IH _ (String _ "")), append_assoc. reflexivity.
Qed.

(** A printed number starts with a digit. *)
Lemma print_digits_head fuel base n acc : 2 <= base -> (0 < fuel)%nat ->
  exists d s, 0 <= d < base /\ print_digits fuel base n acc = String (digit_char d) s.
Proof.
  intros Hb. revert n acc. induction fuel as [|fuel IH]; intros n acc Hf; [lia|]. cbn.
  pose proof (Z.mod_pos_bound n base).
  case_if; [do 2 eexists; split; [|reflexivity]; lia|].
  destruct fuel as [|fuel]; [do 2 eexists; split; [|reflexivity]; lia|].
  apply IH. lia.
Qed.

(** The characters that are not digits do not occur in a printed number. *)
Lemma print_digits_absent (P : ascii -> Prop) fuel base n acc :
  2 <= base -> (forall d, 0 <= d < base -> P (digit_char d)) ->
  Forall P (list_ascii_of_string acc) -> Forall P (list_ascii_of_string (print_digits fuel base n acc)).
Proof.
  intros Hb HP. revert n acc. induction fuel as [|fuel IH]; intros n acc Ha; cbn; [exact Ha|].
  assert (Forall P (list_ascii_of_string (String (digit_char (n mod base)) acc))).
  { constructor; [apply HP, Z.mod_pos_bound; lia|exact Ha]. }
  case_if; auto.
Qed.

(** A decimal number has no spaces and no sign in front. *)
Lemma print_digits_plain n rest :
  skip_spaces (print_digits 64 10 n rest) = print_digits 64 10 n rest /\
  sign (print_digits 64 10 n rest) = (false, print_digits 64 10 n rest).
Proof.
  destruct (print_digits_head 64 10 n rest) as (d & s & Hd & E); [lia|lia|]. rewrite E.
  assert (d = 0 \/ d = 1 \/ d = 2 \/ d = 3 \/ d = 4 \/ d = 5 \/ d = 6 \/ d = 7 \/ d = 8 \/ d = 9) as C by lia.
  repeat (destruct C as [C|C]; [subst; split; reflexivity|]). subst. split; reflexivity.
Qed.

(** Its digits read back. *)
Lemma magnitude_print_dec n rest : 0 <= n < 2 ^ 64 -> digits 10 n true rest = (n, true) ->
  magnitude 10 (print_digits 64 10 n rest) = (n, true).
Proof.
  intros Hn Hrest. change (magnitude 10 (print_digits 64 10 n rest)) with (digits 10 0 false (print_digits 64 10 n rest)).
  destruct (digits_print 64 10 n 0 false rest) as (k & Hk & ->); [lia| |lia|].
  { split; [lia|]. apply Z.lt_le_trans with (2 ^ 64); [lia|].
    change (Z.of_nat 64) with 64. apply Z.pow_le_mono_l. lia. }
  now rewrite Z.mul_0_l, Z.add_0_l, Hrest.
Qed.

(** [strtol] reads back a printed number, whatever text that does not start with
    a digit follows. *)
Lemma strtoll_print_dec n rest : 0 <= n < 2 ^ 63 ->
  digits 10 n true rest = (n, true) ->
  strtoll (print_dec n ++ rest) 10 = Conv n true false.
Proof.
  intros Hn Hrest. unfold print_dec, print_base. rewrite <- print_digits_app.
  destruct (print_digits_plain n rest) as [Hs1 Hs2]. unfold strtoll.
  rewrite Hs1, Hs2, magnitude_print_dec by (lia || exact Hrest).
  unfold LONG_MAX, LONG_MIN. cbv beta iota zeta.
  now rewrite (proj2 (Z.ltb_ge _ n)), (proj2 (Z.ltb_ge n _)) by lia.
Qed.

(** [strtoul] reads back every 64-bit number. *)
Lemma strtoul_print_dec n : 0 <= n < 2 ^ 64 -> strtoul (print_dec n) 10 = Conv n true false.
Proof.
  intros Hn. unfold print_dec, print_base, strtoul. destruct (print_digits_plain n "") as [Hs1 Hs2].
  rewrite Hs1, Hs2, magnitude_print_dec by (lia || reflexivity). cbv beta iota zeta. unfold ULONG_MAX.
  now rewrite (proj2 (Z.ltb_ge _ n)) by lia.
Qed.

Lemma atoi_print_dec n rest : 0 <= n < 2 ^ 63 ->
  digits 10 n true rest = (n, true) -> atoi (print_dec n ++ rest) = i32 n.
Proof. intros Hn Hr. unfold atoi. now rewrite strtoll_print_dec. Qed.
