(* ===== verification/TestMck.v ===== *)
(** * The test framework: [test_mck/src/test_mck.c]

    The test case table, its dispatch from the command line ([main]), the
    life cycle of one test case ([run_test_case]: setup, run, teardown) and
    the number parser [test_mck_strtoul]. *)
From S2P Require Import Prelude Process CLib.
From Stdlib Require Import Ascii String.
#[local] Open Scope string_scope.
#[local] Open Scope Z_scope.

Definition EXIT_SUCCESS : Z := 0.
Definition EXIT_FAILURE : Z := 1.
Definition INT_MIN : Z := - 2 ^ 31.

(** The result of a run function: [NULL] is success. *)
Definition result := option string.

(** [tp_assert(test, msg)]: return [msg] from the run function unless [test]. *)
Definition tp_assert {B} (test : bool) (msg : B) (k : prog B) : prog B :=
  if test then k else Ret msg.

Notation "'tp_assert!' ( b , m ) ;; k" := (tp_assert b m k)
  (at level 100, b at level 99, m at level 99, right associativity) : prog_scope.

Lemma tp_assert_true {B} (msg : B) k : tp_assert true msg k = k.
Proof. reflexivity. Qed.

(** A test case.  [tc_mem] is what [setup] hands to [run] and [teardown]: the
    pointed-to arguments together with the static variables of the file. *)
Record test_case := TestCase {
  test_suite : string;
  num : Z;
  tc_mem : Type;
  setup : Z -> list string -> prog tc_mem;
  tc_run : Z -> tc_mem -> prog (result * tc_mem);
  teardown : Z -> tc_mem -> prog unit;
}.

(** [SETUP_EMPTY], [TEARDOWN_EMPTY]. *)
Definition SETUP_EMPTY (tc_num : Z) (tc_argv : list string) : prog unit := Ret tt.
Definition TEARDOWN_EMPTY {M} (tc_num : Z) (m : M) : prog unit := Ret tt.

(** A run function that leaves the static variables alone. *)
Definition run_const {M} (f : Z -> M -> prog result) (tc_num : Z) (m : M) : prog (result * M) :=
  r <- f tc_num m ;; Ret (r, m).

(** [SETUP_ALIAS(ts, alias_num, num)]: call the setup function of test [num]
    under the number [alias_num]. *)
Definition SETUP_ALIAS {M} (alias_num : Z) (f : Z -> list string -> prog M)
  (tc_num : Z) (tc_argv : list string) : prog M := f alias_num tc_argv.

(** [RUN_ALIAS(ts, alias_num, num)]: the same for the run function. *)
Definition RUN_ALIAS {M} (alias_num : Z) (f : Z -> M -> prog (result * M))
  (tc_num : Z) (m : M) : prog (result * M) := f alias_num m.

(** [TEARDOWN_ALIAS(ts, alias_num, num)]: the same for the teardown function. *)
Definition TEARDOWN_ALIAS {M} (alias_num : Z) (f : Z -> M -> prog unit)
  (tc_num : Z) (m : M) : prog unit := f alias_num m.

Definition run_test_case (tc : test_case) (argv : list string) : prog result :=
  args <- setup tc (num tc) argv ;;
  let* (msg, args') := tc_run tc (num tc) args in
  teardown tc (num tc) args' ;;
  Ret msg.

Section Main.
(** [test_suites] and [test_cases] are filled from [test_suite.list] and
    [test_case.list], which the build generates. *)
Context (test_suites : list string) (test_cases : list test_case).

Fixpoint find_in (tcs : list test_case) (suite : string) (n : Z) : option test_case :=
  match tcs with
  | [] => None
  | tc :: tcs' =>
      if (num tc =? n) && String.eqb (test_suite tc) suite then Some tc
      else find_in tcs' suite n
  end.

Definition find_test_case (suite : string) (n : Z) : option test_case :=
  find_in test_cases suite n.

Fixpoint print_suites (l : list string) : prog unit :=
  match l with
  | [] => Ret tt
  | s :: l' => printf "             %s\n" [PS s] ;; print_suites l'
  end.

Definition usage (the_app : string) : prog unit :=
  printf "Usage: %s -s test_suite -n test_number [-h] -- [args]\n" [PS the_app] ;;
  printf "   -s      test suite name.\n" [] ;;
  print_suites test_suites ;;
  printf "   -n      test case number.\n" [] ;;
  printf "   -h      show this message.\n" [] ;;
  printf "   args    test case arguments.\n" [].

Fixpoint print_args (l : list string) : prog unit :=
  match l with
  | [] => Ret tt
  | s :: l' => printf "%s " [PS s] ;; print_args l'
  end.

(** The option loop: the suite name and number read so far; [-h] and an
    invalid option leave [main] at once. *)
Fixpoint main_options (evs : list optev) (ts : option string) (n : Z)
  : option string * Z + Z :=
  match evs with
  | [] => inl (ts, n)
  | Opt c optarg :: evs' =>
      if Ascii.eqb c "s" then main_options evs' (Some optarg) n
      else if Ascii.eqb c "n" then main_options evs' ts (atoi optarg)
      else if Ascii.eqb c "h" then inr EXIT_SUCCESS
      else inr EXIT_FAILURE
  | OptErr :: _ => inr EXIT_FAILURE
  end.

Definition main (the_app : string) (args : list string) : prog Z :=
  let '(evs, operands) := getopt "s:n:h" args in
  match main_options evs None INT_MIN with
  | inr status => usage the_app ;; Ret status
  | inl (ts, n) =>
      match ts with
      | None => usage the_app ;; Ret EXIT_FAILURE
      | Some ts =>
          if n =? INT_MIN then usage the_app ;; Ret EXIT_FAILURE
          else
            match find_test_case ts n with
            | None => printf "%s#%d is not found.\n" [PS ts; PZ n] ;; Ret EXIT_FAILURE
            | Some tc =>
                printf "TEST_SUITE: %s\n" [PS (test_suite tc)] ;;
                printf "TEST_NUMBER: %d\n" [PZ (num tc)] ;;
                printf "ARGS: " [] ;;
                print_args operands ;;
                printf "\n" [] ;;
                res <- run_test_case tc (the_app :: operands) ;;
                match res with
                | Some msg => printf "RESULT: %s\n" [PS msg] ;; Ret EXIT_FAILURE
                | None => printf "RESULT: ok\n" [] ;; Ret EXIT_SUCCESS
                end
            end
      end
  end.
End Main.

(** ** [test_mck_strtoul] *)

Definition test_mck_strtoul (nptr : option string) (default_value : Z) : Z :=
  match nptr with
  | None => default_value
  | Some s =>
      let r := strtoll s 0 in
      let ret := u64 (cv_val r) in
      if (ret =? 0) && negb (cv_seen r) then default_value
      else if ((ret =? u64 LONG_MIN) || (ret =? u64 LONG_MAX)) && cv_range r
      then default_value
      else ret
  end.

(** ** The table lookup *)

Definition matches (suite : string) (n : Z) (tc : test_case) : Prop :=
  num tc = n /\ test_suite tc = suite.

Lemma find_in_matches suite n tc :
  (num tc =? n) && String.eqb (test_suite tc) suite = true <-> matches suite n tc.
Proof. unfold matches. rewrite andb_true_iff, Z.eqb_eq, String.eqb_eq. reflexivity. Qed.

(** [find_test_case] returns the first entry of the table with the given
    suite and number: everything before it differs in one of the two. *)
Theorem find_test_case_first (tcs : list test_case) suite n tc :
  find_test_case tcs suite n = Some tc <->
  exists l1 l2, tcs = (l1 ++ tc :: l2)%list /\ matches suite n tc /\
                Forall (fun t => ~ matches suite n t) l1.
Proof.
  unfold find_test_case. split.
  - induction tcs as [|t tcs IH]; cbn; [discriminate|].
    destruct ((num t =? n) && String.eqb (test_suite t) suite) eqn:E.
    + intros [= ->]. exists [], tcs. split; [reflexivity|].
      split; [now apply find_in_matches|constructor].
    + intros H. destruct (IH H) as (l1 & l2 & -> & M & F).
      exists (t :: l1), l2. split; [reflexivity|]. split; [exact M|].
      constructor; [|exact F]. rewrite <- find_in_matches, E. discriminate.
  - intros (l1 & l2 & -> & M & F). induction F as [|t l1 N F IH]; cbn.
    + apply find_in_matches in M. now rewrite M.
    + rewrite <- find_in_matches in N. apply not_true_is_false in N. now rewrite N.
Qed.

Lemma find_test_case_In tcs suite n tc : find_test_case tcs suite n = Some tc -> In tc tcs.
Proof.
  unfold find_test_case. induction tcs as [|t tcs IH]; cbn; [discriminate|].
  case_if; [intros [= ->]; auto|auto].
Qed.

(** ** The life cycle of a test case *)


(** ** Verdicts *)

(** The verdict of [p] from [w] is "passed" exactly when [b]. *)
Definition passes_iff (K : kernel) (p : prog result) (w : world K) (b : bool) : Prop :=
  exists v w', run K p w = (Done v, w') /\ (v = None <-> b = true).

Section Verdicts.
Context (K : kernel).
Implicit Type w : world K.

Lemma passes_ret (v : result) w (b : bool) : (v = None <-> b = true) -> passes_iff K (Ret v) w b.
Proof. intros Hv. exists v, w. split; [reflexivity|exact Hv]. Qed.

Lemma passes_loc f (q : proc -> prog result) pr s b :
  passes_iff K (q (f pr)) (World (f pr) s) b -> passes_iff K (Loc f q) (World pr s) b.
Proof. exact id. Qed.

Lemma passes_call c (q : ans c -> prog result) pr s s' r b :
  kstep K c s = (s', r) -> passes_iff K (q r) (World pr s') b ->
  passes_iff K (Call c q) (World pr s) b.
Proof.
  intros E (v & w' & Er & Hv). exists v, w'. split; [|exact Hv]. cbn. now rewrite E.
Qed.

(** A test case without setup and teardown is its run function. *)
Lemma run_plain suite n (run0 : Z -> unit -> prog result) argv w :
  run K (run_test_case (TestCase suite n unit SETUP_EMPTY (run_const run0) TEARDOWN_EMPTY) argv) w =
  run K (run0 n tt) w.
Proof.
  unfold run_test_case. cbn -[run]. rewrite run_bind. cbn -[run]. unfold run_const.
  rewrite !run_bind.
  destruct (run K (run0 n tt) w) as [[v|x|x] w']; reflexivity.
Qed.
End Verdicts.

(** ** The command line *)

Definition add_lines {K} (ls : list (string * list parg)) (w : world K) : world K :=
  World (Proc (p_errno (w_proc w)) (p_out (w_proc w) ++ ls)%list (p_sigs (w_proc w))) (w_k w).

Lemma add_lines_nil K (w : world K) : add_lines [] w = w.
Proof. destruct w as [[e o s] k]. unfold add_lines. cbn. now rewrite app_nil_r. Qed.

Lemma add_lines_app K (w : world K) l1 l2 : add_lines l2 (add_lines l1 w) = add_lines (l1 ++ l2)%list w.
Proof. unfold add_lines. cbn. now rewrite <- app_assoc. Qed.

Lemma run_printf K fmt args (w : world K) :
  run K (printf fmt args) w = (Done tt, add_lines [(fmt, args)] w).
Proof. reflexivity. Qed.

Lemma run_print_args K l (w : world K) :
  run K (print_args l) w = (Done tt, add_lines (map (fun s => ("%s ", [PS s])) l) w).
Proof.
  revert w. induction l as [|s l IH]; intros w; cbn [print_args map].
  - now rewrite add_lines_nil.
  - rewrite run_bind, run_printf, IH, add_lines_app. reflexivity.
Qed.

Lemma run_print_suites K l (w : world K) :
  run K (print_suites l) w = (Done tt, add_lines (map (fun s => ("             %s\n", [PS s])) l) w).
Proof.
  revert w. induction l as [|s l IH]; intros w; cbn [print_suites map].
  - now rewrite add_lines_nil.
  - rewrite run_bind, run_printf, IH, add_lines_app. reflexivity.
Qed.

Definition usage_lines (test_suites : list string) (the_app : string) : list (string * list parg) :=
  [("Usage: %s -s test_suite -n test_number [-h] -- [args]\n", [PS the_app]);
   ("   -s      test suite name.\n", [])] ++
  map (fun s => ("             %s\n", [PS s])) test_suites ++
  [("   -n      test case number.\n", []); ("   -h      show this message.\n", []);
   ("   args    test case arguments.\n", [])].

Lemma run_usage K test_suites the_app (w : world K) :
  run K (usage test_suites the_app) w = (Done tt, add_lines (usage_lines test_suites the_app) w).
Proof.
  unfold usage, usage_lines.
  repeat (rewrite run_bind, ?run_printf, ?run_print_suites; cbn [fst snd]).
  rewrite ?run_printf, !add_lines_app, <- ?app_assoc. reflexivity.
Qed.

(** The lines [main] prints before it starts the test case. *)
Definition banner (tc : test_case) (operands : list string) : list (string * list parg) :=
  [("TEST_SUITE: %s\n", [PS (test_suite tc)]); ("TEST_NUMBER: %d\n", [PZ (num tc)]); ("ARGS: ", [])] ++
  map (fun s => ("%s ", [PS s])) operands ++ [("\n", [])].

(** What [main] makes of the outcome of the test case. *)
Definition verdict {K} (r : outcome result * world K) : outcome Z * world K :=
  match r with
  | (Done None, w) => (Done EXIT_SUCCESS, add_lines [("RESULT: ok\n", [])] w)
  | (Done (Some msg), w) => (Done EXIT_FAILURE, add_lines [("RESULT: %s\n", [PS msg])] w)
  | (Exited n, w) => (Exited n, w)
  | (Killed n, w) => (Killed n, w)
  end.

(** [main] in full: the options decide between the usage text, the "not found"
    message and the run of the selected test case on the operands. *)
Lemma run_main K suites tcs the_app args (w : world K) :
  run K (main suites tcs the_app args) w =
  let '(evs, operands) := getopt "s:n:h" args in
  match main_options evs None INT_MIN with
  | inr status => (Done status, add_lines (usage_lines suites the_app) w)
  | inl (None, _) => (Done EXIT_FAILURE, add_lines (usage_lines suites the_app) w)
  | inl (Some ts, n) =>
      if n =? INT_MIN then (Done EXIT_FAILURE, add_lines (usage_lines suites the_app) w)
      else match find_test_case tcs ts n with
           | None => (Done EXIT_FAILURE, add_lines [("%s#%d is not found.\n", [PS ts; PZ n])] w)
           | Some tc => verdict (run K (run_test_case tc (the_app :: operands))
                                     (add_lines (banner tc operands) w))
           end
  end.
Proof.
  unfold main. destruct (getopt "s:n:h" args) as [evs operands].
  destruct (main_options evs None INT_MIN) as [[[ts|] n]|status];
    try (rewrite run_bind, run_usage; reflexivity).
  destruct (n =? INT_MIN); [rewrite run_bind, run_usage; reflexivity|].
  destruct (find_test_case tcs ts n) as [tc|]; [|reflexivity].
  unfold banner.
  repeat (rewrite run_bind, ?run_printf, ?run_print_args; cbn [fst snd]).
  rewrite !add_lines_app, <- ?app_assoc. cbn [app].
  destruct (run K (run_test_case tc (the_app :: operands)) _) as [[[msg|]|n'|n'] w'];
    reflexivity.
Qed.

(** [main] on the documented command line. *)
Lemma run_main_documented K suites tcs the_app suite number n args tc (w : world K) :
  atoi number = n -> n <> INT_MIN ->
  find_test_case tcs suite n = Some tc ->
  run K (main suites tcs the_app (["-s"; suite; "-n"; number; "--"] ++ args)%list) w =
  verdict (run K (run_test_case tc (the_app :: args)) (add_lines (banner tc args) w)).
Proof.
  intros Ha Hn Hf. rewrite run_main.
  change (getopt "s:n:h" (["-s"; suite; "-n"; number; "--"] ++ args)%list)
    with ([Opt "s" suite; Opt "n" number], args).
  cbn [main_options Ascii.eqb Bool.eqb]. rewrite Ha.
  apply Z.eqb_neq in Hn. now rewrite Hn, Hf.
Qed.


(** For every command line and every operating system: when [main] returns
    status 0, either [-h] was given or a registered test case was run and its
    run function returned [NULL]; no failing test is reported as passed. *)
Theorem main_success_sound K suites tcs the_app args (w w' : world K) :
  run K (main suites tcs the_app args) w = (Done EXIT_SUCCESS, w') ->
  (exists evs operands, getopt "s:n:h" args = (evs, operands) /\
                        main_options evs None INT_MIN = inr EXIT_SUCCESS) \/
  (exists tc operands w1, In tc tcs /\
     run K (run_test_case tc (the_app :: operands)) (add_lines (banner tc operands) w)
       = (Done None, w1) /\ w' = add_lines [("RESULT: ok\n", [])] w1).
Proof.
  rewrite run_main. destruct (getopt "s:n:h" args) as [evs operands] eqn:Eg.
  destruct (main_options evs None INT_MIN) as [[[ts|] n]|status] eqn:Eo; try discriminate.
  - destruct (n =? INT_MIN); [discriminate|].
    destruct (find_test_case tcs ts n) as [tc|] eqn:Ef; [|discriminate].
    intros H. right. exists tc, operands.
    destruct (run K (run_test_case tc (the_app :: operands)) _) as [[[msg|]|n'|n'] w1];
      cbn in H; try discriminate.
    exists w1. injection H as <-. split; [|split; reflexivity].
    eauto using find_test_case_In.
  - intros [= -> _]. left. eauto.
Qed.

(** ** Parsing numbers *)

Lemma magnitude_hex s :
  magnitude 0 ("0x" ++ s) = match digits 16 0 false s with (v, true) => (v, true) | (_, false) => (0, true) end.
Proof. reflexivity. Qed.

Lemma strtoll_hex n :
  0 <= n < 2 ^ 64 ->
  strtoll (print_hex n) 0 =
  if n <? 2 ^ 63 then Conv n true false else Conv LONG_MAX true true.
Proof.
  intros Hn. unfold strtoll, print_hex.
  change (sign (skip_spaces ("0x" ++ print_base 16 n))) with (false, "0x" ++ print_base 16 n).
  cbv beta iota. rewrite magnitude_hex, digits_print_base by lia. cbv beta iota zeta.
  unfold LONG_MAX, LONG_MIN. destruct (Z.ltb_spec n (2 ^ 63)).
  - rewrite (proj2 (Z.ltb_ge _ _)), (proj2 (Z.ltb_ge _ _)) by lia. reflexivity.
  - rewrite (proj2 (Z.ltb_lt _ _)) by lia. reflexivity.
Qed.

Lemma strtoul_hex n : 0 <= n < 2 ^ 64 -> strtoul (print_hex n) 0 = Conv n true false.
Proof.
  intros Hn. unfold strtoul, print_hex.
  change (sign (skip_spaces ("0x" ++ print_base 16 n))) with (false, "0x" ++ print_base 16 n).
  cbv beta iota. rewrite magnitude_hex, digits_print_base by lia. cbv beta iota zeta.
  unfold ULONG_MAX. now rewrite (proj2 (Z.ltb_ge _ _)) by lia.
Qed.

(** C3.  [test_mck_strtoul] reads back every hexadecimal address below 2^63;
    although it is documented to convert to [unsigned long], every address in
    the upper half of the 64-bit range is refused and replaced by the default. *)
Theorem test_mck_strtoul_hex n default_value :
  0 <= n < 2 ^ 64 ->
  test_mck_strtoul (Some (print_hex n)) default_value =
  if n <? 2 ^ 63 then n else default_value.
Proof.
  intros Hn. unfold test_mck_strtoul. rewrite (strtoll_hex n Hn).
  destruct (Z.ltb_spec n (2 ^ 63)); cbn -[Z.eqb u64 LONG_MAX LONG_MIN].
  - rewrite !andb_false_r, u64_small by lia. reflexivity.
  - rewrite andb_false_r. reflexivity.
Qed.

(** ** Witnesses *)

(** A test case that fails and whose teardown is visible in the output. *)
Definition demo_case : test_case :=
  TestCase "demo" 7 Z (fun _ argv => Ret (Z.of_nat (List.length argv)))
    (fun _ m => Ret (Some "boom", m + 1)) (fun _ m => printf "teardown %d" [PZ m]).



Definition passing_case : test_case :=
  TestCase "demo" 8 unit SETUP_EMPTY (run_const (fun _ _ => Ret None)) TEARDOWN_EMPTY.

Lemma main_success_sound_witness :
  exists w', run null_kernel (main [] [demo_case; passing_case] "app" ["-sdemo"; "-n8"]) null_world
             = (Done EXIT_SUCCESS, w') /\
  ((exists evs operands, getopt "s:n:h" ["-sdemo"; "-n8"] = (evs, operands) /\
                         main_options evs None INT_MIN = inr EXIT_SUCCESS) \/
   (exists tc operands w1, In tc [demo_case; passing_case] /\
     run null_kernel (run_test_case tc ("app" :: operands)) (add_lines (banner tc operands) null_world)
       = (Done None, w1) /\ w' = add_lines [("RESULT: ok\n", [])] w1)).
Proof.
  eexists. split; [reflexivity|].
  apply (main_success_sound null_kernel [] [demo_case; passing_case] "app" ["-sdemo"; "-n8"]).
  reflexivity.
Defined.

Lemma test_mck_strtoul_hex_witness :
  test_mck_strtoul (Some "0xfffff80100020000") 0 = 0 /\
  test_mck_strtoul (Some "0x100000000000") 0 = 0x100000000000.
Proof.
  split.
  - apply (test_mck_strtoul_hex 0xfffff80100020000 0). split; [discriminate|reflexivity].
  - apply (test_mck_strtoul_hex 0x100000000000 0). split; [discriminate|reflexivity].
Defined.
