(* ===== verification/Exact.v ===== *)
(** * What a pass of a test is evidence of

    A [script] lists the calls a program makes and what it demands of each answer.
    [exact a p s] says that on every system, documented or not, the program [p]
    returns [a] exactly if the answers of the run meet the script [s].  The rules
    are those the suites need. *)
From S2P Require Import Prelude Process Trace TestMck.
From Stdlib Require Import String.
#[local] Open Scope string_scope.
#[local] Open Scope Z_scope.

(** ** Scripts *)

Inductive script := Met | Need (c : op) (ok : ans c -> bool) (k : ans c -> script).

(** The state of the system after answers that meet the script. *)
Fixpoint meets (K : kernel) (s : script) (st : kstate K) : option (kstate K) :=
  match s with
  | Met => Some st
  | Need c ok k => let '(st', r) := kstep K c st in if ok r then meets K (k r) st' else None
  end.

Fixpoint andthen (s t : script) : script :=
  match s with
  | Met => t
  | Need c ok k => Need c ok (fun r => andthen (k r) t)
  end.

Lemma meets_andthen K s t : forall st, meets K (andthen s t) st = meets K s st ≫= meets K t.
Proof.
  induction s as [|c ok k IH]; intros st; [reflexivity|]. cbn [andthen meets].
  destruct (kstep K c st) as [st' r]. destruct (ok r); [apply IH|reflexivity].
Qed.

(** ** Programs that return a value exactly if a script is met *)

Definition fails {A} (a : A) (p : prog A) : Prop := forall K w, fst (run K p w) <> Done a.

(** With [z], [errno] is 0 before; with [z'], it is 0 after. *)
Definition exact (z z' : bool) {A} (a : A) (p : prog A) (s : script) : Prop :=
  forall K w, (z = true -> p_errno (w_proc w) = 0) ->
    match meets K s (w_k w) with
    | Some st => exists pr, run K p w = (Done a, World pr st) /\ (z' = true -> p_errno pr = 0)
    | None => fst (run K p w) <> Done a
    end.

Lemma fails_ret {A} (a b : A) : b <> a -> fails a (Ret b).
Proof. intros H K w [= E]. contradiction. Qed.

Lemma fails_exit {A} (a : A) n : fails a (Exit n).
Proof. intros K w [=]. Qed.

Lemma fails_bind {A B} (b : B) (p : prog A) (k : A -> prog B) : (forall a, fails b (k a)) -> fails b (bind p k).
Proof.
  intros H K w. rewrite run_bind. destruct (run K p w) as [[a|n|n] w']; [apply H|discriminate|discriminate].
Qed.

Lemma fails_raise {A} (a : A) n : fails a (Raise n).
Proof. intros K w. cbn. unfold deliver. destruct (p_sigs (w_proc w) n) as [[]|]; discriminate. Qed.

Lemma exact_ret z {A} (a : A) : exact z z a (Ret a) Met.
Proof. intros K w Hz. destruct w as [pr st]. cbn. exists pr. auto. Qed.

Lemma exact_free z z' {A} (a : A) p s : exact z z' a p s -> exact z false a p s.
Proof.
  intros H K w Hz. specialize (H K w Hz). destruct (meets K s (w_k w)); [|exact H].
  destruct H as (pr & E & _). exists pr. split; [exact E|discriminate].
Qed.

Lemma exact_printf z z' {A} (a : A) fmt args p s : exact z z' a p s -> exact z z' a (printf fmt args ;; p) s.
Proof. intros H K w Hz. cbn. apply (H K (World (with_line (fmt, args) (w_proc w)) (w_k w))). exact Hz. Qed.

Lemma exact_call z z' {A} (a : A) c (k : ans c -> prog A) ok s :
  (forall r, ok r = true -> exact z z' a (k r) (s r)) -> (forall r, ok r = false -> fails a (k r)) ->
  exact z z' a (Call c k) (Need c ok s).
Proof.
  intros Hk Hf K [pr st] Hz. cbn [run meets w_k w_proc]. destruct (kstep K c st) as [st' r].
  destruct (ok r) eqn:E; [exact (Hk r E K (World pr st') Hz)|now apply Hf].
Qed.

(** A helper that returns [a] and then the rest. *)
Lemma exact_bind z z' z'' {A B} (a : A) (b : B) p (k : A -> prog B) s t :
  exact z z' a p s -> exact z' z'' b (k a) t -> (forall x, x <> a -> fails b (k x)) ->
  exact z z'' b (bind p k) (andthen s t).
Proof.
  intros Hp Hk Hf K w Hz. rewrite meets_andthen, run_bind. specialize (Hp K w Hz).
  destruct (meets K s (w_k w)) as [st|]; cbn.
  - destruct Hp as (pr & E & Hz'). rewrite E. exact (Hk K (World pr st) Hz').
  - destruct (run K p w) as [[x|n|n] w']; [|discriminate|discriminate]. apply Hf. intros ->. now apply Hp.
Qed.

(** ** Calls *)

(** The result of a system call that fails is -1, not an error number. *)
Definition sysret (v : Z) : Z := if is_err v then -1 else v.

Lemma is_err_neg1 : is_err (-1) = true.
Proof. reflexivity. Qed.

Lemma sysret_eqb v x : is_err x = false -> (sysret v =? x) = (v =? x).
Proof.
  intros Hx. unfold sysret. destruct (is_err v) eqn:E; [|reflexivity].
  transitivity false; [|symmetry]; apply Z.eqb_neq; intros <-; [discriminate Hx|congruence].
Qed.

Lemma sysret_neg1 v : (sysret v =? -1) = is_err v.
Proof.
  unfold sysret. destruct (is_err v) eqn:E; [reflexivity|]. apply Z.eqb_neq. intros ->. discriminate E.
Qed.

Section Calls.
Context (z z' : bool) {A : Type} (a : A).

Lemma fails_syscall v (k : Z -> prog A) : fails a (k (sysret v)) -> fails a (bind (syscall_ret (-1) v) k).
Proof. unfold sysret, syscall_ret. intros H. destruct (is_err v); [|exact H]. intros K w. cbn. apply H. Qed.

(** A system call: [ok] on the raw answer, [g] what else it fills in. *)
Lemma exact_syscall {B} c (f : ans c -> Z) (g : ans c -> B) (k : Z * B -> prog A) ok s :
  (forall r, ok r = true -> is_err (f r) = false /\ exact z z' a (k (f r, g r)) (s r)) ->
  (forall r, ok r = false -> fails a (k (sysret (f r), g r))) ->
  exact z z' a (x <- (r <- trigger c ;; v <- syscall_ret (-1) (f r) ;; Ret (v, g r)) ;; k x) (Need c ok s).
Proof.
  intros Hk Hf. cbn. apply exact_call; intros r E.
  - destruct (Hk r E) as [He H]. unfold syscall_ret. rewrite He. exact H.
  - specialize (Hf r E). unfold sysret in Hf. unfold syscall_ret. destruct (is_err (f r)); [|exact Hf].
    intros K w. cbn. apply Hf.
Qed.

(** Calls whose result must be 0. *)
Lemma exact_zero c (f : ans c -> Z) (k : Z -> prog A) s :
  (forall v, v <> 0 -> fails a (k v)) -> exact z z' a (k 0) s ->
  exact z z' a (x <- (r <- trigger c ;; syscall_ret (-1) (f r)) ;; k x) (Need c (fun r => f r =? 0) (fun _ => s)).
Proof.
  intros Hf Hk. cbn. apply exact_call; intros r E.
  - apply Z.eqb_eq in E. rewrite E. exact Hk.
  - apply fails_syscall, Hf. rewrite <- (sysret_eqb _ 0 eq_refl) in E. now apply Z.eqb_neq.
Qed.

Lemma exact_zero_fill {B} c (f : ans c -> Z) (g : ans c -> B) (k : Z * B -> prog A) ok s :
  (forall v x, v <> 0 -> fails a (k (v, x))) -> (forall r, ok r = false -> fails a (k (0, g r))) ->
  (forall r, ok r = true -> exact z z' a (k (0, g r)) (s r)) ->
  exact z z' a (x <- (r <- trigger c ;; v <- syscall_ret (-1) (f r) ;; Ret (v, g r)) ;; k x)
    (Need c (fun r => (f r =? 0) && ok r) s).
Proof.
  intros Hf Hg Hk. apply exact_syscall; intros r E.
  - apply andb_prop in E as [E0 Ek]. apply Z.eqb_eq in E0. rewrite E0. split; [reflexivity|now apply Hk].
  - destruct (f r =? 0) eqn:E0.
    + apply Z.eqb_eq in E0. rewrite E0. now apply Hg.
    + apply Hf. rewrite <- (sysret_eqb _ 0 eq_refl) in E0. now apply Z.eqb_neq.
Qed.

End Calls.

Ltac fails_tac :=
  repeat first
    [ apply fails_exit | apply fails_raise
    | apply fails_ret; congruence
    | match goal with |- fails _ (if ?b then _ else _) => destruct b end
    | apply fails_bind; intros ].

(** A call with any answer. *)
Definition any (c : op) (s : ans c -> script) : script := Need c (fun _ => true) s.

Lemma exact_any z z' {A} (a : A) c (k : ans c -> prog A) s :
  (forall r, exact z z' a (k r) (s r)) -> exact z z' a (Call c k) (any c s).
Proof. intros H. apply exact_call; [auto|discriminate]. Qed.

Lemma fails_call {A} (a : A) c (k : ans c -> prog A) : (forall r, fails a (k r)) -> fails a (Call c k).
Proof. intros H K w. cbn. destruct (kstep K c (w_k w)) as [st r]. apply H. Qed.

Lemma exact_sysret_any z z' {A} (a : A) fail r (k : Z -> prog A) s :
  exact false z' a (k (if is_err r then fail else r)) s -> exact z z' a (bind (syscall_ret fail r) k) s.
Proof.
  intros H K w _. unfold syscall_ret. destruct (is_err r).
  - apply (H K (World (with_errno (- r) (w_proc w)) (w_k w))). discriminate.
  - apply H. discriminate.
Qed.

(** A system call whose result is not looked at; [errno] may change. *)
Lemma exact_unchecked z {A} (a : A) c (f : ans c -> Z) (k : Z -> prog A) s :
  (forall x, exact false false a (k x) s) ->
  exact z false a (x <- (r <- trigger c ;; syscall_ret (-1) (f r)) ;; k x) (any c (fun _ => s)).
Proof. intros H. cbn. apply exact_any. intros r. now apply exact_sysret_any. Qed.

Lemma exact_ignored z {A} (a : A) c (f : ans c -> Z) (k : prog A) s :
  exact false false a k s ->
  exact z false a (x <- (r <- trigger c ;; syscall_ret (-1) (f r)) ;; k) (any c (fun _ => s)).
Proof. intros H. now apply exact_unchecked. Qed.

Lemma exact_errno z z' {A} (a : A) (k : Z -> prog A) s :
  (forall e, exact z z' a (k e) s) -> exact z z' a (e <- errno ;; k e) s.
Proof. intros H K [pr st] Hz. cbn. now apply (H _ K (World pr st)). Qed.

(** A call that must not fail. *)
Lemma exact_not_err z z' {A} (a : A) c (f : ans c -> Z) (k : Z -> prog A) s :
  fails a (k (-1)) -> (forall v, is_err v = false -> exact z z' a (k v) s) ->
  exact z z' a (x <- (r <- trigger c ;; syscall_ret (-1) (f r)) ;; k x) (Need c (fun r => negb (is_err (f r))) (fun _ => s)).
Proof.
  intros Hf Hk. cbn. apply exact_call; intros r E.
  - apply negb_true_iff in E. unfold syscall_ret. rewrite E. now apply Hk.
  - apply negb_false_iff in E. apply fails_syscall. unfold sysret. now rewrite E.
Qed.

Lemma exact_pre z z' {A} (a : A) p s : exact false z' a p s -> exact z z' a p s.
Proof. intros H K w _. apply H. discriminate. Qed.

Lemma not_err_not_neg1 v : is_err v = false -> (v =? -1) = false.
Proof. intros E. apply Z.eqb_neq. intros ->. discriminate E. Qed.

Lemma exact_iff {A} (a : A) p s K w :
  exact false false a p s ->
  (fst (run K p w) = Done a <-> is_Some (meets K s (w_k w))) /\
  (forall st, meets K s (w_k w) = Some st -> w_k (snd (run K p w)) = st).
Proof.
  intros E. specialize (E K w ltac:(discriminate)). destruct (meets K s (w_k w)) as [st|].
  - destruct E as (pr & -> & _). split; [|now intros ? [= <-]]. split; [eauto|reflexivity].
  - split; [|discriminate]. split; [contradiction|]. now intros [? [=]].
Qed.

(** Printing. *)
Lemma exact_quiet z z' {A} (a : A) (p : prog unit) k s :
  exact z z tt p Met -> exact z z' a k s -> exact z z' a (p ;; k) s.
Proof. intros Hp Hk. apply (exact_bind z z z' tt a p (fun _ => k) Met s Hp Hk). now intros []. Qed.

Lemma exact_print z fmt args : exact z z tt (printf fmt args) Met.
Proof. intros K w Hz. cbn. eexists. split; [reflexivity|exact Hz]. Qed.

(** ** Memory, and calls that must succeed *)

Definition not_err (v : Z) : bool := negb (is_err v).
Definition got (r : Z) : bool := not_err r && negb (r =? MAP_FAILED).
Definition stores (a b : Z) (s : script) : script :=
  Need (Store a b) (fun r => match r with inl _ => true | inr _ => false end) (fun _ => s).
Definition loads (a : Z) (s : script) : script :=
  Need (Load a) (fun r => match r with inl _ => true | inr _ => false end) (fun _ => s).
Definition maps (addr len prot flags fd off : Z) (s : Z -> script) : script :=
  Need (Mmap addr len prot flags fd off) got (fun r => s r).

Section Rules.
Context (z z' : bool) {A : Type} (a : A).

Lemma exact_stores x b (k : prog A) s : exact z z' a k s -> exact z z' a (store x b ;; k) (stores x b s).
Proof.
  intros Hk. unfold store. cbn. apply exact_call; intros [[]|n] E; try discriminate; [exact Hk|]. cbn. apply fails_raise.
Qed.

(** A call that must not fail, with a result that is [ok]. *)
Lemma exact_ok_and c (f : ans c -> Z) (k : Z -> prog A) ok s :
  fails a (k (-1)) -> (forall r, not_err (f r) = true -> ok r = true -> exact z z' a (k (f r)) (s r)) ->
  (forall r, not_err (f r) = true -> ok r = false -> fails a (k (f r))) ->
  exact z z' a (x <- (r <- trigger c ;; syscall_ret (-1) (f r)) ;; k x) (Need c (fun r => not_err (f r) && ok r) s).
Proof.
  intros Hf Hk Hg. cbn. apply exact_call; intros r E; destruct (not_err (f r)) eqn:En; try discriminate.
  - specialize (Hk r En E). apply negb_true_iff in En. unfold syscall_ret. rewrite En. exact Hk.
  - specialize (Hg r En E). apply negb_true_iff in En. unfold syscall_ret. rewrite En. exact Hg.
  - apply negb_false_iff in En. apply fails_syscall. unfold sysret. now rewrite En.
Qed.

Lemma exact_ok c (f : ans c -> Z) (k : Z -> prog A) s :
  fails a (k (-1)) -> (forall r, not_err (f r) = true -> exact z z' a (k (f r)) (s r)) ->
  exact z z' a (x <- (r <- trigger c ;; syscall_ret (-1) (f r)) ;; k x) (Need c (fun r => not_err (f r)) s).
Proof.
  intros Hf Hk. cbn. apply exact_call; intros r E.
  - specialize (Hk r E). apply negb_true_iff in E. unfold syscall_ret. rewrite E. exact Hk.
  - apply negb_false_iff in E. apply fails_syscall. unfold sysret. now rewrite E.
Qed.

Lemma not_err_neg1 v : not_err v = true -> (v =? -1) = false.
Proof. intros E. apply not_err_not_neg1. now apply negb_true_iff. Qed.

Lemma exact_loads x (k : Z -> prog A) s :
  (forall v, exact z z' a (k v) s) -> exact z z' a (v <- load x ;; k v) (loads x s).
Proof.
  intros Hk. unfold load. cbn. apply exact_call; intros [v|n] E; try discriminate; [apply Hk|]. cbn. apply fails_raise.
Qed.

(** A call that answers an address. *)
Lemma exact_ptr c (f : ans c -> Z) (k : Z -> prog A) ok s :
  (forall r, ok r = true -> not_err (f r) = true /\ exact z z' a (k (f r)) (s r)) ->
  (forall r, ok r = false -> fails a (k (if is_err (f r) then MAP_FAILED else f r))) ->
  exact z z' a (x <- (r <- trigger c ;; syscall_ret MAP_FAILED (f r)) ;; k x) (Need c ok s).
Proof.
  intros Hk Hf. cbn. apply exact_call; intros r E; unfold syscall_ret.
  - destruct (Hk r E) as [En Hx]. apply negb_true_iff in En. rewrite En. exact Hx.
  - specialize (Hf r E). destruct (is_err (f r)); [|exact Hf]. intros K w. cbn. apply Hf.
Qed.

Lemma exact_got c (f : ans c -> Z) (k : Z -> prog A) s :
  fails a (k MAP_FAILED) -> (forall r, f r <> MAP_FAILED -> exact z z' a (k (f r)) (s r)) ->
  exact z z' a (x <- (r <- trigger c ;; syscall_ret MAP_FAILED (f r)) ;; k x) (Need c (fun r => got (f r)) s).
Proof.
  intros Hf Hk. apply exact_ptr; intros r E; unfold got, not_err in *.
  - apply andb_prop in E as [En Em]. split; [exact En|]. apply Hk. apply Z.eqb_neq. now apply negb_true_iff.
  - destruct (is_err (f r)); [exact Hf|]. cbn in E. apply negb_false_iff in E. apply Z.eqb_eq in E as ->. exact Hf.
Qed.

(** [mmap], with an address that is not [MAP_FAILED]. *)
Lemma exact_maps addr len prot flags fd off (k : Z -> prog A) s :
  fails a (k MAP_FAILED) -> (forall r, r <> MAP_FAILED -> exact z z' a (k r) (s r)) ->
  exact z z' a (r <- mmap addr len prot flags fd off ;; k r) (maps addr len prot flags fd off s).
Proof. intros Hf Hk. now apply (exact_got (Mmap addr len prot flags fd off) (fun r => r)). Qed.

Lemma exact_assoc {B C} (p : prog B) (k : B -> prog C) (q : C -> prog A) s :
  exact z z' a (x <- p ;; y <- k x ;; q y) s -> exact z z' a (y <- (x <- p ;; k x) ;; q y) s.
Proof. intros Hx K w Hz. specialize (Hx K w Hz). rewrite run_bind_assoc. exact Hx. Qed.
End Rules.

(** ** Suites *)

(** What [o] says of a program. *)
Definition returns_NULL (o : option script) (p : prog result) : Prop :=
  match o with Some s => exact true false None p s | None => fails None p end.

(** Tests and scripts, [None] for a test no answers are enough for: started with
    [errno] 0, a test returns [NULL] exactly if the answers meet its script, and then
    leaves the system after the last call of the script. *)
Definition verdicts_exact (cases : list test_case) (scripts : list (option script)) : Prop :=
  forall K w tc o argv, p_errno (w_proc w) = 0 -> (tc, o) ∈ zip cases scripts ->
  match o with
  | None => fst (run K (run_test_case tc argv) w) <> Done None
  | Some s =>
      match meets K s (w_k w) with
      | Some st => fst (run K (run_test_case tc argv) w) = Done None /\ w_k (snd (run K (run_test_case tc argv) w)) = st
      | None => fst (run K (run_test_case tc argv) w) <> Done None
      end
  end.

Lemma returns_NULL_iff K (w : world K) o (p : prog result) : returns_NULL o p -> p_errno (w_proc w) = 0 ->
  fst (run K p w) = Done None <-> exists s, o = Some s /\ is_Some (meets K s (w_k w)).
Proof.
  intros Hr He. destruct o as [s|]; cbn [returns_NULL] in Hr.
  - specialize (Hr K w (fun _ => He)). split.
    + intros E. exists s. split; [reflexivity|]. destruct (meets K s (w_k w)); [eauto|contradiction].
    + intros (s' & [= <-] & st & Est). rewrite Est in Hr. destruct Hr as (pr & E & _). exact (f_equal fst E).
  - split; [intros E; now apply Hr in E|]. now intros (s & [=] & _).
Qed.

Lemma plain_case suite argv n p o : returns_NULL o p ->
  returns_NULL o (run_test_case (TestCase suite n unit SETUP_EMPTY (run_const (fun _ _ => p)) TEARDOWN_EMPTY) argv).
Proof.
  destruct o as [s|]; cbn [returns_NULL].
  - intros Hp K w Hz. rewrite run_plain. exact (Hp K w Hz).
  - intros Hp K w. rewrite run_plain. apply Hp.
Qed.

Lemma cases_exact cases scripts :
  (forall argv, Forall2 (fun tc o => returns_NULL o (run_test_case tc argv)) cases scripts) -> verdicts_exact cases scripts.
Proof.
  intros HF K w tc o argv He Hin. apply list_elem_of_lookup in Hin as (i & Hi). apply lookup_zip_Some in Hi as [Ht Ho].
  pose proof (Forall2_lookup_lr _ _ _ _ _ _ (HF argv) Ht Ho) as Hr. destruct o as [s|]; [|apply Hr].
  specialize (Hr K w (fun _ => He)). destruct (meets K s (w_k w)) as [st|]; [|exact Hr].
  destruct Hr as (pr & E & _). split; [exact (f_equal fst E)|exact (f_equal (fun x => w_k (snd x)) E)].
Qed.

Lemma exact_andthen_met z z' {A} (a : A) p s : exact z z' a p (andthen s Met) -> exact z z' a p s.
Proof.
  intros Hx K w Hz. specialize (Hx K w Hz). rewrite meets_andthen in Hx. now destruct (meets K s (w_k w)).
Qed.

Lemma exact_then_unit {A} (a : A) (p : prog unit) k s t :
  exact false false tt p s -> exact false false a k t -> exact false false a (p ;; k) (andthen s t).
Proof. intros Hp Hk. apply (exact_bind false false false tt a p (fun _ => k)); [exact Hp|exact Hk|]. now intros []. Qed.
