(* ===== verification/MemInfo.v ===== *)
(** * Temporary files and physical memory information

    The helpers at the end of [test_mck/src/test_mck.c]: temporary files for
    the test cases, and the decoding of [/proc/<pid>/pagemap] entries
    ([__get_memory_info]). *)
From S2P Require Import Prelude Process Arch CLib.
From Stdlib Require Import Ascii String.
#[local] Open Scope string_scope.
#[local] Open Scope Z_scope.

(** ** Temporary files *)

Definition SEEK_SET : Z := 0.
Definition O_RDONLY : Z := 0.

(** A heap string: the pointer returned by [asprintf] and the characters it
    points to.  [None] is [NULL]. *)
Definition heap_string := option (Z * string).

Definition test_mck_create_temp_file (prefix : string) (size : Z) : prog heap_string :=
  (* state = asprintf(&path, "%s-XXXXXX", prefix) *)
  path <- malloc (Z.of_nat (String.length prefix) + 8) ;;
  if path =? NULL then Ret None
  else
    let* (fd, name) := mkstemp (prefix ++ "-XXXXXX") in
    if fd =? -1 then free path ;; Ret None
    else
      r <- lseek fd (i64 (u64 (size - 1))) 0 ;;
      let state := i32 r in
      if state =? -1 then
        close fd ;; unlink name ;; free path ;; Ret None
      else
        write fd [90] ;; fsync fd ;; close fd ;; Ret (Some (path, name)).

Definition test_mck_delete_temp_file (path : heap_string) : prog unit :=
  match path with
  | None => Ret tt
  | Some (p, name) => unlink name ;; free p
  end.

(** ** Page map entries *)

Definition PM_ENTRY_BYTES : Z := 8.
Definition PM_STATUS_BITS : Z := 3.
Definition PM_STATUS_OFFSET : Z := 64 - PM_STATUS_BITS.
Definition PM_STATUS_MASK : Z := u64 (Z.shiftl (Z.shiftl 1 PM_STATUS_BITS - 1) PM_STATUS_OFFSET).
Definition PM_STATUS (nr : Z) : Z := Z.land (u64 (Z.shiftl nr PM_STATUS_OFFSET)) PM_STATUS_MASK.
Definition PM_PSHIFT_BITS : Z := 6.
Definition PM_PSHIFT_OFFSET : Z := PM_STATUS_OFFSET - PM_PSHIFT_BITS.
Definition PM_PSHIFT_MASK : Z := Z.shiftl (Z.shiftl 1 PM_PSHIFT_BITS - 1) PM_PSHIFT_OFFSET.
Definition PM_PSHIFT (x : Z) : Z := Z.land (u64 (Z.shiftl x PM_PSHIFT_OFFSET)) PM_PSHIFT_MASK.
Definition PM_PFRAME_MASK : Z := Z.shiftl 1 PM_PSHIFT_OFFSET - 1.
Definition PM_PFRAME (x : Z) : Z := Z.land x PM_PFRAME_MASK.
Definition PM_PRESENT : Z := PM_STATUS 4.
Definition PM_SWAP : Z := PM_STATUS 2.

Record memory_info := MemoryInfo { phys : Z; pgsize : Z; present : Z; swap : Z }.

(** [memset(info, 0, sizeof( *info))]. *)
Definition memory_info0 : memory_info := MemoryInfo 0 0 0 0.

(** The bytes [read] stored at [&pagemap], over the initial value 0
    (little endian). *)
Fixpoint le_value (bytes : list Z) : Z :=
  match bytes with
  | [] => 0
  | b :: bs => u8 b + 256 * le_value bs
  end.

Section MemInfo.
Context `{ArchConfig}.

Definition decode_pagemap (pagemap virt : Z) : memory_info :=
  {| phys := Z.lor (u64 (Z.shiftl (Z.land pagemap PM_PFRAME_MASK) PAGE_SHIFT))
                   (Z.land virt PAGE_OFFSET);
     pgsize := u64 (Z.shiftl 1 (Z.shiftr (Z.land pagemap PM_PSHIFT_MASK) PM_PSHIFT_OFFSET));
     present := b2z (negb (Z.land pagemap PM_PRESENT =? 0));
     swap := b2z (negb (Z.land pagemap PM_SWAP =? 0)) |}.

(** The file offset of the entry of [virt]; [off_t] is signed, the division
    and the product are made in [unsigned long]. *)
Definition pagemap_offset (virt : Z) : Z :=
  let offset := i64 (Z.land virt PAGE_MASK) in
  let offset := i64 (u64 offset / PAGE_SIZE) in
  i64 (u64 (u64 offset * PM_ENTRY_BYTES)).

(** [info] is the structure pointed to, [None] for a null pointer; the
    result is the return value and the structure as it is left. *)
Definition __get_memory_info (path : string) (virt : Z) (info : option memory_info)
  : prog (Z * option memory_info) :=
  match info with
  | None => Ret (- EINVAL, None)
  | Some _ =>
      let info := memory_info0 in
      fd <- open path O_RDONLY ;;
      if fd =? -1 then
        e <- errno ;; printf "%s open() failed. %d\n" [PS path; PZ e] ;;
        Ret (- EIO, Some info)
      else
        let offset := pagemap_offset virt in
        r <- lseek fd offset SEEK_SET ;;
        if r =? -1 then
          e <- errno ;; printf "%s lseek() failed. %d\n" [PS path; PZ e] ;;
          close fd ;; Ret (- EIO, Some info)
        else
          let* (n, bytes) := read fd 8 in
          if n =? -1 then
            e <- errno ;;
            printf "%s offset:%lx read() failed. %d\n" [PS path; PZ offset; PZ e] ;;
            close fd ;; Ret (- EIO, Some info)
          else
            let info := decode_pagemap (le_value (firstn 8 bytes)) virt in
            close fd ;; Ret (0, Some info)
  end.

Definition get_memory_info_self (virt : Z) (info : option memory_info) : prog (Z * option memory_info) :=
  __get_memory_info "/proc/self/pagemap" virt info.

(** [snprintf(path, 64, "/proc/%d/pagemap", pid)]: at most 63 characters. *)
Definition pagemap_path (pid : Z) : string :=
  String.substring 0 63
    ("/proc/" ++ (if pid <? 0 then "-" ++ print_dec (- pid) else print_dec pid) ++ "/pagemap").

Definition get_memory_info (pid virt : Z) (info : option memory_info) : prog (Z * option memory_info) :=
  __get_memory_info (pagemap_path pid) virt info.
End MemInfo.

(** ** Temporary files: the calls made on every path *)

(** The complete call sequences of [test_mck_create_temp_file] and the result
    of each. *)
Inductive temp_file_protocol (prefix : string) (size : Z) : list event -> heap_string -> Prop :=
| tf_no_memory n :
    temp_file_protocol prefix size [Ev (Malloc n) NULL] None
| tf_no_file n p e name :
    p <> NULL -> is_err e = true ->
    temp_file_protocol prefix size
      [Ev (Malloc n) p; Ev (Mkstemp (prefix ++ "-XXXXXX")) (e, name); Ev (Free p) tt] None
| tf_no_seek n p fd name r rc ru :
    p <> NULL -> is_err fd = false -> is_err r = true \/ i32 r = -1 ->
    temp_file_protocol prefix size
      [Ev (Malloc n) p; Ev (Mkstemp (prefix ++ "-XXXXXX")) (fd, name);
       Ev (Lseek fd (i64 (u64 (size - 1))) 0) r; Ev (Close fd) rc; Ev (Unlink name) ru; Ev (Free p) tt] None
| tf_created n p fd name r rw rs rc :
    p <> NULL -> is_err fd = false -> is_err r = false -> i32 r <> -1 ->
    temp_file_protocol prefix size
      [Ev (Malloc n) p; Ev (Mkstemp (prefix ++ "-XXXXXX")) (fd, name);
       Ev (Lseek fd (i64 (u64 (size - 1))) 0) r;
       Ev (Write fd [90]) rw; Ev (Fsync fd) rs; Ev (Close fd) rc] (Some (p, name)).

(** On every operating system [test_mck_create_temp_file] returns, and its
    calls are one of four sequences: the descriptor that [mkstemp] opened is
    closed exactly once on every path, and when the function fails after the
    file was made, the file is unlinked and the name freed. *)
Theorem create_temp_file_calls K prefix size (w : world K) :
  exists r, fst (run K (test_mck_create_temp_file prefix size) w) = Done r /\
            temp_file_protocol prefix size (calls K (test_mck_create_temp_file prefix size) w) r.
Proof.
  unfold calls. rewrite traced_outcome. destruct w as [pr s0].
  unfold tworld, test_mck_create_temp_file, malloc, mkstemp, lseek, close, unlink, free,
    write, fsync, syscall_ret.
  sym_run; sym_clean; subst; (eexists; split; [reflexivity|]); econstructor; eauto.
Qed.

(** [int state = lseek(...)] truncates: whenever the size is a positive
    multiple of 4 GiB and [lseek] answers the offset it was asked for, the
    offset 2^32 k - 1 is taken for the error -1 and no file is created. *)
Theorem create_temp_file_4GiB K prefix k (w : world K) :
  0 < k < 2 ^ 31 ->
  (forall fd off s, snd (kstep K (Lseek fd off 0) s) = off) ->
  fst (run K (test_mck_create_temp_file prefix (k * 2 ^ 32)) w) = Done None.
Proof.
  intros Hk Hseek. destruct w as [pr s0].
  assert (i64 (u64 (k * 2 ^ 32 - 1)) = k * 2 ^ 32 - 1) as Eo.
  { rewrite u64_small, i64_small; lia. }
  assert (i32 (k * 2 ^ 32 - 1) = -1) as Et.
  { unfold i32. replace (k * 2 ^ 32 - 1 + 2 ^ 31) with (2 ^ 31 - 1 + k * 2 ^ 32) by lia.
    rewrite Z.mod_add by lia. reflexivity. }
  unfold test_mck_create_temp_file, malloc, mkstemp, lseek, close, unlink, free, syscall_ret.
  rewrite Eo. cbn.
  repeat match goal with
  | |- context [kstep ?K (Lseek ?fd ?off 0) ?s] =>
      let H := fresh in pose proof (Hseek fd off s) as H;
      destruct (kstep K (Lseek fd off 0) s); cbn in H; subst; cbn
  | |- context [i32 (k * 2 ^ 32 - 1)] => rewrite Et; cbn
  | _ => sym_step; cbn
  end; sym_clean; auto; congruence.
Qed.

(** ** Decoding page map entries *)

(** An entry with the given status bits (61-63), page shift (55-60) and page
    frame number (0-54), the layout of the kernel's page map file. *)
Definition pagemap_entry (status pshift pframe : Z) : Z :=
  status * 2 ^ 61 + pshift * 2 ^ 55 + pframe.

(** The bits below, between and above two positions of an entry. *)
Lemma land_low a n : 0 <= n -> Z.land a (2 ^ n - 1) = a mod 2 ^ n.
Proof.
  intros Hn. replace (2 ^ n - 1) with (Z.ones n) by (rewrite Z.ones_equiv; lia).
  now apply Z.land_ones.
Qed.

Lemma land_field a lo w :
  0 <= lo -> 0 <= w ->
  Z.shiftr (Z.land a (Z.shiftl (Z.shiftl 1 w - 1) lo)) lo = (a / 2 ^ lo) mod 2 ^ w.
Proof.
  intros Hl Hw. rewrite Z.shiftr_land, Z.shiftr_shiftl_l by lia.
  rewrite Z.sub_diag, Z.shiftl_0_r, Z.shiftl_1_l, land_low by lia.
  now rewrite Z.shiftr_div_pow2 by lia.
Qed.

Lemma land_bit a n : 0 <= n -> negb (Z.land a (2 ^ n) =? 0) = Z.testbit a n.
Proof.
  intros Hn. destruct (Z.testbit a n) eqn:E.
  - apply negb_true_iff, Z.eqb_neq. intros H0.
    assert (Z.testbit (Z.land a (2 ^ n)) n = true) as T.
    { rewrite Z.land_spec, E, Z.pow2_bits_true by lia. reflexivity. }
    rewrite H0, Z.bits_0 in T. discriminate.
  - apply negb_false_iff, Z.eqb_eq. apply Z.bits_inj'. intros i Hi.
    rewrite Z.land_spec, Z.bits_0, Z.pow2_bits_eqb by lia.
    destruct (Z.eqb_spec n i) as [->|]; [now rewrite E|apply andb_false_r].
Qed.

Lemma pagemap_entry_fields status pshift pframe :
  0 <= status < 8 -> 0 <= pshift < 64 -> 0 <= pframe < 2 ^ 55 ->
  let e := pagemap_entry status pshift pframe in
  e mod 2 ^ 55 = pframe /\ (e / 2 ^ 55) mod 2 ^ 6 = pshift /\ e / 2 ^ 61 = status.
Proof.
  intros Hs Hp Hf. unfold pagemap_entry. cbv zeta.
  assert (status * 2 ^ 61 + pshift * 2 ^ 55 + pframe
          = pframe + (status * 2 ^ 6 + pshift) * 2 ^ 55) as -> by lia.
  split; [rewrite Z.mod_add, Z.mod_small by lia; reflexivity|].
  rewrite Z.div_add, (Z.div_small pframe) by lia.
  split.
  - rewrite Z.add_0_l, Z.add_comm, Z.mod_add, Z.mod_small by lia. reflexivity.
  - symmetry. apply Z.div_unique_pos with (r := pshift * 2 ^ 55 + pframe); lia.
Qed.

Lemma testbit_div a n m : 0 <= n -> 0 <= m -> Z.testbit a (n + m) = Z.testbit (a / 2 ^ n) m.
Proof. intros Hn Hm. rewrite <- Z.shiftr_div_pow2, Z.shiftr_spec by lia. f_equal. lia. Qed.

Section DecodeFacts.
Context `{ArchConfig}.

Lemma PAGE_OFFSET_pow : PAGE_OFFSET = 2 ^ PAGE_SHIFT - 1.
Proof. unfold PAGE_OFFSET, PAGE_SIZE, PAGE_SHIFT. now destruct CONFIG_ARM64_64K_PAGES. Qed.

Lemma u64_mul_shift x n : 0 <= n -> u64 (Z.shiftl x n) mod 2 ^ n = 0 \/ 64 < n.
Proof.
  intros Hn. destruct (Z.le_gt_cases n 64); [left|right; lia].
  unfold u64. rewrite Z.shiftl_mul_pow2 by lia.
  replace (2 ^ 64) with (2 ^ (64 - n) * 2 ^ n) by (rewrite <- Z.pow_add_r by lia; f_equal; lia).
  assert (0 < 2 ^ n) by (apply Z.pow_pos_nonneg; lia).
  assert (0 < 2 ^ (64 - n)) by (apply Z.pow_pos_nonneg; lia).
  rewrite Z.mul_mod_distr_r by lia. apply Z.mod_mul. lia.
Qed.

(** The fields of a decoded entry. *)
Lemma decode_pagemap_entry status pshift pframe virt :
  0 <= status < 8 -> 0 <= pshift < 64 -> 0 <= pframe < 2 ^ 55 -> 0 <= virt < 2 ^ 64 ->
  decode_pagemap (pagemap_entry status pshift pframe) virt =
  {| phys := u64 (pframe * PAGE_SIZE) + virt mod PAGE_SIZE;
     pgsize := 2 ^ pshift;
     present := b2z (Z.testbit status 2);
     swap := b2z (Z.testbit status 1) |}.
Proof.
  intros Hs Hp Hf Hv.
  destruct (pagemap_entry_fields status pshift pframe) as (Ef & Ep & Es); auto.
  set (e := pagemap_entry status pshift pframe) in *. unfold decode_pagemap.
  assert (12 <= PAGE_SHIFT <= 16) as HS by (destruct PAGE_SHIFT_cases; lia).
  f_equal.
  - change PM_PFRAME_MASK with (2 ^ 55 - 1). rewrite land_low, Ef by lia.
    rewrite PAGE_OFFSET_pow, land_low, PAGE_SIZE_pow, <- Z.shiftl_mul_pow2 by lia.
    apply lor_aligned_add with (n := PAGE_SHIFT); [lia| |].
    + destruct (u64_mul_shift pframe PAGE_SHIFT); lia.
    + apply Z.mod_pos_bound, Z.pow_pos_nonneg; lia.
  - change PM_PSHIFT_MASK with (Z.shiftl (Z.shiftl 1 6 - 1) 55).
    change PM_PSHIFT_OFFSET with 55.
    rewrite land_field, Ep, Z.shiftl_1_l by lia. apply u64_small.
    split; [apply Z.pow_nonneg; lia|]. apply Z.pow_lt_mono_r; lia.
  - change PM_PRESENT with (2 ^ 63). rewrite land_bit by lia.
    change 63 with (61 + 2). now rewrite testbit_div, Es by lia.
  - change PM_SWAP with (2 ^ 62). rewrite land_bit by lia.
    change 62 with (61 + 1). now rewrite testbit_div, Es by lia.
Qed.

(** [__get_memory_info] decodes exactly the fields of a page map entry:
    the physical address is the page frame plus the offset of [virt] in its
    page, the page size is the power of two given by the shift, and the
    present and swap flags are bits 63 and 62. *)
Theorem decode_pagemap_fields status pshift pframe virt :
  0 <= status < 8 -> 0 <= pshift < 64 -> 0 <= pframe < 2 ^ 55 -> 0 <= virt < 2 ^ 64 ->
  decode_pagemap (pagemap_entry status pshift pframe) virt =
  {| phys := u64 (pframe * PAGE_SIZE) + virt mod PAGE_SIZE;
     pgsize := 2 ^ pshift;
     present := b2z (Z.testbit status 2);
     swap := b2z (Z.testbit status 1) |}.
Proof. apply decode_pagemap_entry. Qed.

Lemma PAGE_MASK_land virt : 0 <= virt < 2 ^ 64 -> Z.land virt PAGE_MASK = virt - virt mod PAGE_SIZE.
Proof.
  intros Hv. rewrite PAGE_SIZE_pow. unfold PAGE_MASK, PAGE_OFFSET.
  replace (PAGE_SIZE - 1) with (2 ^ PAGE_SHIFT - 1) by (rewrite PAGE_SIZE_pow; lia).
  apply land_not_low_mask; destruct PAGE_SHIFT_cases; lia.
Qed.

(** The file offset of a virtual address is eight times its page number,
    over the whole 64-bit range, in spite of the signed [off_t]. *)
Theorem pagemap_offset_correct virt :
  0 <= virt < 2 ^ 64 -> pagemap_offset virt = 8 * (virt / PAGE_SIZE).
Proof.
  intros Hv. unfold pagemap_offset. rewrite PAGE_MASK_land by lia.
  assert (u64 (i64 (virt - virt mod PAGE_SIZE)) = virt - virt mod PAGE_SIZE) as E.
  { unfold u64, i64. rewrite Zminus_mod_idemp_l. rewrite Z.add_simpl_r.
    apply Z.mod_small. pose proof PAGE_SIZE_pos.
    pose proof (Z.mod_pos_bound virt PAGE_SIZE). pose proof (Z.mod_le virt PAGE_SIZE). lia. }
  rewrite E.
  assert ((virt - virt mod PAGE_SIZE) / PAGE_SIZE = virt / PAGE_SIZE) as Eq.
  { pose proof PAGE_SIZE_pos. rewrite (Z.div_mod virt PAGE_SIZE) at 1 by lia.
    rewrite Z.add_simpl_r, Z.mul_comm. apply Z.div_mul. lia. }
  rewrite Eq.
  assert (0 <= virt / PAGE_SIZE < 2 ^ 52).
  { pose proof PAGE_SIZE_pos. split; [apply Z.div_pos; lia|].
    apply Z.div_lt_upper_bound; [lia|]. destruct PAGE_SIZE_cases as [-> | ->]; lia. }
  unfold PM_ENTRY_BYTES.
  rewrite (i64_small (virt / PAGE_SIZE)), (u64_small (virt / PAGE_SIZE)) by lia.
  rewrite u64_small, i64_small by lia. lia.
Qed.
End DecodeFacts.

(** ** Reading the page map file: the calls made on every path *)

Section MemInfoCalls.
Context `{ArchConfig} (path : string) (virt : Z).

Inductive meminfo_protocol : list event -> Z -> memory_info -> Prop :=
| mi_open_failed e :
    is_err e = true ->
    meminfo_protocol [Ev (Open path O_RDONLY) e] (- EIO) memory_info0
| mi_lseek_failed fd e rc :
    is_err fd = false -> is_err e = true ->
    meminfo_protocol
      [Ev (Open path O_RDONLY) fd; Ev (Lseek fd (pagemap_offset virt) SEEK_SET) e; Ev (Close fd) rc]
      (- EIO) memory_info0
| mi_read_failed fd r e bytes rc :
    is_err fd = false -> is_err r = false -> is_err e = true ->
    meminfo_protocol
      [Ev (Open path O_RDONLY) fd; Ev (Lseek fd (pagemap_offset virt) SEEK_SET) r;
       Ev (Read fd 8) (e, bytes); Ev (Close fd) rc]
      (- EIO) memory_info0
| mi_read fd r n bytes rc :
    is_err fd = false -> is_err r = false -> is_err n = false ->
    meminfo_protocol
      [Ev (Open path O_RDONLY) fd; Ev (Lseek fd (pagemap_offset virt) SEEK_SET) r;
       Ev (Read fd 8) (n, bytes); Ev (Close fd) rc]
      0 (decode_pagemap (le_value (firstn 8 bytes)) virt).

End MemInfoCalls.

(** ** Witnesses *)

(** A kernel whose file calls succeed and whose [lseek] answers the offset. *)
Definition file_kernel : kernel :=
  Kernel unit (fun c s =>
    (s, match c return ans c with
        | Malloc _ => 4096
        | Mkstemp t => (3, t)
        | Lseek _ off _ => off
        | Close _ => 0
        | Unlink _ => 0
        | c => enosys c
        end)).

Lemma create_temp_file_4GiB_witness :
  fst (run file_kernel (test_mck_create_temp_file "mmap" (1 * 2 ^ 32))
           (World proc0 (tt : kstate file_kernel))) = Done None.
Proof. apply create_temp_file_4GiB; [lia|reflexivity]. Defined.

Lemma decode_pagemap_fields_witness :
  @decode_pagemap config_4K (pagemap_entry 4 21 0x12345) 0x100000000abc =
  MemoryInfo 0x12345abc 0x200000 1 0.
Proof. now rewrite (@decode_pagemap_fields config_4K 4 21 0x12345 0x100000000abc) by lia. Defined.

Lemma pagemap_offset_correct_witness : @pagemap_offset config_64K 0xfffff80100020000 = 0x7ffffc0080010.
Proof. now rewrite (@pagemap_offset_correct config_64K 0xfffff80100020000) by lia. Defined.
