(* ===== verification/AddrSpace.v ===== *)
(** * Address spaces: what the memory tests rely on

    The operating system is not part of the repository.  This file states what
    the memory tests rely on as an interface: [vm] is the abstract address
    space of a process, [VmKernel] says that a kernel's [mmap], [munmap],
    [mremap], memory accesses and [sigaction] act on it as their manual pages
    document.  [ref_kernel] is a small executable kernel that meets the
    interface, so the interface can be met. *)
From S2P Require Import Prelude Process Arch.

(** ** Constants of [<sys/mman.h>] and [<signal.h>] *)

Definition PROT_NONE : Z := 0.
Definition PROT_READ : Z := 1.
Definition PROT_WRITE : Z := 2.
Definition PROT_EXEC : Z := 4.
Definition MAP_SHARED : Z := 1.
Definition MAP_PRIVATE : Z := 2.
Definition MAP_FIXED : Z := 16.
Definition MAP_ANONYMOUS : Z := 32.
Definition MREMAP_MAYMOVE : Z := 1.
Definition MREMAP_FIXED : Z := 2.
Definition SIGBUS : Z := 7.
Definition SIGSEGV : Z := 11.
Definition EFAULT : Z := 14.

(** C's test [flags & bit]. *)
Definition has (flags bit : Z) : bool := negb (Z.land flags bit =? 0).

(** ** Abstract address spaces *)

(** The page an address lies in: protection, kind of mapping, whether memory
    stands behind it (a shared anonymous object does not grow with its
    mapping), and the mapping it came from. *)
Record page := Page { pg_prot : Z; pg_shared : bool; pg_backed : bool; pg_obj : Z }.

Record vm := Vm { vm_pg : Z -> option page; vm_mem : Z -> Z }.

(** Same mappings, and same contents where something is mapped. *)
#[export] Instance vm_equiv : Equiv vm := fun v1 v2 =>
  (forall a, vm_pg v1 a = vm_pg v2 a) /\
  (forall a, vm_pg v1 a <> None -> vm_mem v1 a = vm_mem v2 a).

Definition vm_map (lo len : Z) (pg : page) (v : vm) : vm :=
  {| vm_pg a := if in_range a lo len then Some pg else vm_pg v a;
     vm_mem a := if in_range a lo len then 0 else vm_mem v a |}.

Definition vm_unmap (lo len : Z) (v : vm) : vm :=
  {| vm_pg a := if in_range a lo len then None else vm_pg v a; vm_mem := vm_mem v |}.

Definition vm_store (a b : Z) (v : vm) : vm :=
  {| vm_pg := vm_pg v; vm_mem a' := if a' =? a then b else vm_mem v a' |}.

(** A page added at the end of a mapping that grows. *)
Definition grown (pg : page) : page :=
  Page (pg_prot pg) (pg_shared pg) (negb (pg_shared pg) && pg_backed pg) (pg_obj pg).

(** The mapping of [len] bytes at [old] becomes a mapping of [newlen] bytes at
    [new] (equal to [old] when it stays in place). *)
Definition vm_remap (old len new newlen : Z) (v : vm) : vm :=
  {| vm_pg a :=
       if in_range a new newlen then
         if a - new <? len then vm_pg v (old + (a - new)) else grown <$> vm_pg v old
       else if in_range a old len then None
       else vm_pg v a;
     vm_mem a :=
       if in_range a new newlen then
         if a - new <? len then vm_mem v (old + (a - new)) else 0
       else vm_mem v a |}.

(** Every address of the range is mapped by the page [pg]. *)
Definition uniform (v : vm) (lo len : Z) (pg : page) : Prop :=
  forall a, lo <= a < lo + len -> vm_pg v a = Some pg.

(** No address of the range is mapped. *)
Definition unmapped (v : vm) (lo len : Z) : Prop :=
  forall a, lo <= a < lo + len -> vm_pg v a = None.

Definition readable (pg : page) : bool := has (pg_prot pg) PROT_READ.
Definition writable (pg : page) : bool := has (pg_prot pg) PROT_WRITE.

Section Aligned.
Context `{ArchConfig}.
Definition page_aligned (a : Z) : Prop := a mod PAGE_SIZE = 0.
Definition page_alignedb (a : Z) : bool := a mod PAGE_SIZE =? 0.
End Aligned.

(** ** The interface *)

Class VmKernel `{ArchConfig} (K : kernel) := {
  vmv : kstate K -> vm;
  (** the bytes of address space and memory still available to the process *)
  room : kstate K -> Z;
  (** user addresses lie below it *)
  user_end : Z;
  user_end_bound : user_end <= 2 ^ 63;

  vm_mmap_any s len prot flags :
    0 < len -> page_aligned len ->
    flags = Z.lor MAP_SHARED MAP_ANONYMOUS \/ flags = Z.lor MAP_PRIVATE MAP_ANONYMOUS ->
    len <= room s ->
    exists s' a o, kstep K (Mmap 0 len prot flags (-1) 0) s = (s', a) /\
      0 < a /\ a + len <= user_end /\ page_aligned a /\ unmapped (vmv s) a len /\
      vmv s' ≡ vm_map a len (Page prot (has flags MAP_SHARED) true o) (vmv s) /\
      room s - len <= room s';

  vm_mmap_fixed s a len prot flags :
    0 < len -> page_aligned a -> page_aligned len ->
    flags = Z.lor (Z.lor MAP_ANONYMOUS MAP_FIXED) MAP_SHARED \/
    flags = Z.lor (Z.lor MAP_ANONYMOUS MAP_FIXED) MAP_PRIVATE ->
    0 < a -> (forall b, a <= b < a + len -> vm_pg (vmv s) b <> None) ->
    exists s' o, kstep K (Mmap a len prot flags (-1) 0) s = (s', a) /\
      vmv s' ≡ vm_map a len (Page prot (has flags MAP_SHARED) true o) (vmv s) /\
      room s <= room s';

  vm_munmap s a len :
    0 < len -> page_aligned a -> page_aligned len -> 0 < a ->
    exists s', kstep K (Munmap a len) s = (s', 0) /\
      vmv s' ≡ vm_unmap a len (vmv s) /\ room s <= room s';

  vm_load_ok s a pg :
    vm_pg (vmv s) a = Some pg -> readable pg = true -> pg_backed pg = true ->
    exists s', kstep K (Load a) s = (s', inl (vm_mem (vmv s) a)) /\
      vmv s' ≡ vmv s /\ room s <= room s';
  vm_load_segv s a :
    vm_pg (vmv s) a = None ->
    exists s', kstep K (Load a) s = (s', inr SIGSEGV);
  vm_load_bus s a pg :
    vm_pg (vmv s) a = Some pg -> readable pg = true -> pg_backed pg = false ->
    exists s', kstep K (Load a) s = (s', inr SIGBUS);
  vm_store_ok s a b pg :
    vm_pg (vmv s) a = Some pg -> writable pg = true -> pg_backed pg = true ->
    exists s', kstep K (Store a b) s = (s', inl tt) /\
      vmv s' ≡ vm_store a b (vmv s) /\ room s <= room s';

  (** [mremap] without flags, new size at most the old size: in place, the
      pages beyond the new size are unmapped. *)
  vm_mremap_shrink s a old new pg na :
    0 < a -> 0 < new <= old -> page_aligned a -> page_aligned old -> page_aligned new ->
    uniform (vmv s) a old pg ->
    exists s', kstep K (Mremap a old new 0 na) s = (s', a) /\
      vmv s' ≡ vm_remap a old a new (vmv s);
  (** growing in place, the space behind the mapping being free *)
  vm_mremap_grow s a old new pg na :
    0 < a -> 0 < old < new -> page_aligned a -> page_aligned old -> page_aligned new ->
    uniform (vmv s) a old pg -> unmapped (vmv s) (a + old) (new - old) ->
    a + new <= user_end -> new - old <= room s ->
    exists s', kstep K (Mremap a old new 0 na) s = (s', a) /\
      vmv s' ≡ vm_remap a old a new (vmv s);
  (** [ENOMEM]: it cannot be expanded in place and must not move *)
  vm_mremap_nospace s a old new pg na :
    0 < a -> 0 < old < new -> page_aligned a -> page_aligned old -> page_aligned new ->
    uniform (vmv s) a old pg -> ~ unmapped (vmv s) (a + old) (new - old) ->
    exists s', kstep K (Mremap a old new 0 na) s = (s', - ENOMEM) /\ vmv s' ≡ vmv s;
  (** [MREMAP_MAYMOVE]: it moves to free address space *)
  vm_mremap_move s a old new pg na :
    0 < a -> 0 < old < new -> page_aligned a -> page_aligned old -> page_aligned new ->
    uniform (vmv s) a old pg -> ~ unmapped (vmv s) (a + old) (new - old) ->
    new <= room s ->
    exists s' a', kstep K (Mremap a old new MREMAP_MAYMOVE na) s = (s', a') /\
      0 < a' /\ a' + new <= user_end /\ page_aligned a' /\ unmapped (vmv s) a' new /\
      vmv s' ≡ vm_remap a old a' new (vmv s);
  (** [MREMAP_MAYMOVE|MREMAP_FIXED]: it moves to the given address, replacing
      what was mapped there; [EINVAL] if the ranges overlap *)
  vm_mremap_fixed s a old new pg na :
    0 < a -> 0 < old -> 0 < new -> page_aligned a -> page_aligned old -> page_aligned new ->
    0 < na -> page_aligned na -> na + new <= user_end ->
    uniform (vmv s) a old pg -> ranges_overlap a old na new = false ->
    exists s', kstep K (Mremap a old new (Z.lor MREMAP_MAYMOVE MREMAP_FIXED) na) s = (s', na) /\
      vmv s' ≡ vm_remap a old na new (vmv s);
  vm_mremap_overlap s a old new pg na :
    0 < a -> 0 < old -> 0 < new -> page_aligned a -> page_aligned old -> page_aligned new ->
    0 < na -> page_aligned na ->
    uniform (vmv s) a old pg -> ranges_overlap a old na new = true ->
    exists s', kstep K (Mremap a old new (Z.lor MREMAP_MAYMOVE MREMAP_FIXED) na) s = (s', - EINVAL) /\
      vmv s' ≡ vmv s;

  vm_sigaction s signum :
    signum = SIGSEGV \/ signum = SIGBUS ->
    exists s', kstep K (Sigaction signum) s = (s', 0) /\ vmv s' ≡ vmv s;
}.

(** ** Address spaces up to equivalence *)

#[export] Instance vm_equivalence : Equivalence (≡@{vm}).
Proof.
  split.
  - intros v. now split.
  - intros v1 v2 [Hp Hm]. split; [auto|].
    intros a Ha. symmetry. apply Hm. now rewrite Hp.
  - intros v1 v2 v3 [Hp Hm] [Hp' Hm']. split; [intros a; now rewrite Hp|].
    intros a Ha. rewrite (Hm a Ha). apply Hm'. now rewrite <- Hp.
Qed.

#[export] Instance vm_map_proper lo len pg : Proper ((≡) ==> (≡)) (vm_map lo len pg).
Proof.
  intros v1 v2 [Hp Hm]. split; cbn; intros a; case_if; auto.
Qed.

#[export] Instance vm_unmap_proper lo len : Proper ((≡) ==> (≡)) (vm_unmap lo len).
Proof.
  intros v1 v2 [Hp Hm]. split; cbn; intros a; case_if; auto; congruence.
Qed.

#[export] Instance vm_store_proper a b : Proper ((≡) ==> (≡)) (vm_store a b).
Proof. intros v1 v2 [Hp Hm]. split; cbn; auto. intros a' Ha. case_if; auto. Qed.

#[export] Instance vm_remap_proper old len new newlen :
  Proper ((≡) ==> (≡)) (vm_remap old len new newlen).
Proof.
  intros v1 v2 [Hp Hm]. split; cbn; intros a.
  - rewrite !Hp. reflexivity.
  - case_if; [case_if; auto|]. case_if; [congruence|auto].
Qed.

#[export] Instance uniform_proper : Proper ((≡) ==> (=) ==> (=) ==> (=) ==> iff) uniform.
Proof.
  intros v1 v2 [Hp _] ? ? -> ? ? -> ? ? ->. unfold uniform.
  split; intros H a Ha; [rewrite <- Hp|rewrite Hp]; auto.
Qed.

#[export] Instance unmapped_proper : Proper ((≡) ==> (=) ==> (=) ==> iff) unmapped.
Proof.
  intros v1 v2 [Hp _] ? ? -> ? ? ->. unfold unmapped.
  split; intros H a Ha; [rewrite <- Hp|rewrite Hp]; auto.
Qed.

Lemma vm_equiv_pg (v1 v2 : vm) a : v1 ≡ v2 -> vm_pg v1 a = vm_pg v2 a.
Proof. now intros [Hp _]. Qed.

Lemma vm_equiv_mem (v1 v2 : vm) a : v1 ≡ v2 -> vm_pg v1 a <> None -> vm_mem v1 a = vm_mem v2 a.
Proof. intros [_ Hm]. auto. Qed.
