(* ===== verification/RefKernel.v ===== *)
(** * A reference kernel for the memory interface

    An executable kernel with the documented behaviour of the memory calls.
    Mappings are handed out from a rising address; every state carries the
    proof of its invariant.  The instance at the end discharges [VmKernel]. *)
From S2P Require Import Prelude Process Arch AddrSpace.

Section RefKernel.
Context `{ArchConfig}.

Record rstate := RState { r_vm : vm; r_next : Z; r_obj : Z }.

(** Pages are mapped as a whole, and nothing is mapped from [r_next] on. *)
Record rwf (s : rstate) : Prop := {
  rwf_page : forall a, vm_pg (r_vm s) a = vm_pg (r_vm s) (a - a mod PAGE_SIZE);
  rwf_next : forall a, r_next s <= a -> vm_pg (r_vm s) a = None;
  rwf_aligned : page_aligned (r_next s);
  rwf_start : MMAP_START_ADDR <= r_next s;
  rwf_end : r_next s <= MMAP_END_ADDR;
}.

Definition mappedb (v : vm) (a : Z) : bool :=
  match vm_pg v a with Some _ => true | None => false end.

(** No page of the range is mapped. *)
Definition freeb (v : vm) (lo len : Z) : bool :=
  forallb (fun i => negb (mappedb v (lo + Z.of_nat i * PAGE_SIZE)))
          (seq 0 (Z.to_nat (len / PAGE_SIZE))).

Definition rmmap (addr len prot flags : Z) (s : rstate) : rstate * Z :=
  if negb ((0 <? len) && page_alignedb len && has flags MAP_ANONYMOUS) then (s, - EINVAL)
  else
    let pg := Page prot (has flags MAP_SHARED) true (r_obj s) in
    if has flags MAP_FIXED then
      if (0 <? addr) && page_alignedb addr && (addr + len <=? r_next s)
      then (RState (vm_map addr len pg (r_vm s)) (r_next s) (r_obj s + 1), addr)
      else (s, - ENOMEM)
    else if r_next s + len <=? MMAP_END_ADDR
    then (RState (vm_map (r_next s) len pg (r_vm s)) (r_next s + len) (r_obj s + 1), r_next s)
    else (s, - ENOMEM).

Definition rmunmap (addr len : Z) (s : rstate) : rstate * Z :=
  if (0 <? len) && page_alignedb addr && page_alignedb len
  then (RState (vm_unmap addr len (r_vm s)) (r_next s) (r_obj s), 0)
  else (s, - EINVAL).

(** The mapping at [a] goes to [na]; the rising address stays above it. *)
Definition rmove (a old na new : Z) (s : rstate) : rstate * Z :=
  (RState (vm_remap a old na new (r_vm s)) (Z.max (r_next s) (na + new)) (r_obj s), na).

Definition rmremap (a old new flags na : Z) (s : rstate) : rstate * Z :=
  if negb ((0 <? old) && (0 <? new) && page_alignedb a && page_alignedb old && page_alignedb new)
  then (s, - EINVAL)
  else if negb (mappedb (r_vm s) a) then (s, - EFAULT)
  else if has flags MREMAP_FIXED then
    if negb (page_alignedb na && (0 <? na)) || ranges_overlap a old na new then (s, - EINVAL)
    else if na + new <=? MMAP_END_ADDR then rmove a old na new s else (s, - ENOMEM)
  else if new <=? old then
    if a + new <=? MMAP_END_ADDR then rmove a old a new s else (s, - EFAULT)
  else if freeb (r_vm s) (a + old) (new - old) && (a + new <=? MMAP_END_ADDR)
  then rmove a old a new s
  else if has flags MREMAP_MAYMOVE && (r_next s + new <=? MMAP_END_ADDR)
  then rmove a old (r_next s) new s
  else (s, - ENOMEM).

Definition rload (a : Z) (s : rstate) : Z + Z :=
  match vm_pg (r_vm s) a with
  | Some pg => if readable pg then if pg_backed pg then inl (vm_mem (r_vm s) a) else inr SIGBUS
               else inr SIGSEGV
  | None => inr SIGSEGV
  end.

Definition rstore (a b : Z) (s : rstate) : rstate * (unit + Z) :=
  match vm_pg (r_vm s) a with
  | Some pg =>
      if writable pg then
        if pg_backed pg then (RState (vm_store a b (r_vm s)) (r_next s) (r_obj s), inl tt)
        else (s, inr SIGBUS)
      else (s, inr SIGSEGV)
  | None => (s, inr SIGSEGV)
  end.

Definition rstep (c : op) (s : rstate) : rstate * ans c :=
  match c with
  | Mmap addr len prot flags fd off => rmmap addr len prot flags s
  | Munmap addr len => rmunmap addr len s
  | Mremap a old new flags na => rmremap a old new flags na s
  | Load a => (s, rload a s)
  | Store a b => rstore a b s
  | Sigaction _ => (s, 0)
  | Sysconf _ => (s, PAGE_SIZE)
  | c => (s, enosys c)
  end.

Definition rinit : rstate := RState (Vm (fun _ => None) (fun _ => 0)) MMAP_START_ADDR 0.

(** ** The invariant *)

Lemma page_alignedb_true a : page_alignedb a = true <-> page_aligned a.
Proof. apply Z.eqb_eq. Qed.

Lemma aligned_add a b : page_aligned a -> page_aligned b -> page_aligned (a + b).
Proof.
  unfold page_aligned. intros Ha Hb. pose proof PAGE_SIZE_pos.
  rewrite Z.add_mod, Ha, Hb by lia. apply Z.mod_0_l. lia.
Qed.

Lemma aligned_sub a b : page_aligned a -> page_aligned b -> page_aligned (a - b).
Proof.
  unfold page_aligned. intros Ha Hb. pose proof PAGE_SIZE_pos.
  rewrite Zminus_mod, Ha, Hb. apply Z.mod_0_l. lia.
Qed.

Lemma aligned_mul k : page_aligned (k * PAGE_SIZE).
Proof. unfold page_aligned. apply Z.mod_mul. pose proof PAGE_SIZE_pos. lia. Qed.

Lemma aligned_le_page x a : page_aligned x -> (x <= a - a mod PAGE_SIZE <-> x <= a).
Proof.
  unfold page_aligned. intros Hx. pose proof PAGE_SIZE_pos as HP.
  pose proof (Z.mod_pos_bound a PAGE_SIZE HP). split; intros Hle; [lia|].
  pose proof (Z.div_mod x PAGE_SIZE) as Dx. rewrite Hx, Z.add_0_r in Dx.
  assert (x / PAGE_SIZE <= a / PAGE_SIZE) as Hq by (apply Z.div_le_mono; lia).
  pose proof (Z.div_mod a PAGE_SIZE). nia.
Qed.

(** Whether an address lies in an aligned range depends on its page only. *)
Lemma in_range_page a lo len :
  page_aligned lo -> page_aligned len ->
  in_range (a - a mod PAGE_SIZE) lo len = in_range a lo len.
Proof.
  intros Hlo Hlen. pose proof (aligned_le_page lo a Hlo) as H1.
  pose proof (aligned_le_page (lo + len) a (aligned_add _ _ Hlo Hlen)) as H2.
  apply eq_true_iff_eq. rewrite !in_range_true. lia.
Qed.

Lemma shift_page a d :
  page_aligned d -> (a - a mod PAGE_SIZE) + d = (a + d) - (a + d) mod PAGE_SIZE.
Proof.
  unfold page_aligned. intros Hd. pose proof PAGE_SIZE_pos.
  rewrite (Z.add_mod a d), Hd, Z.add_0_r, Z.mod_mod by lia. lia.
Qed.

Lemma ltb_page a lo len :
  page_aligned lo -> page_aligned len ->
  (a - a mod PAGE_SIZE - lo <? len) = (a - lo <? len).
Proof.
  intros Hlo Hlen. pose proof (aligned_le_page (lo + len) a (aligned_add _ _ Hlo Hlen)).
  apply eq_true_iff_eq. rewrite !Z.ltb_lt. lia.
Qed.

Lemma rwf_init : rwf rinit.
Proof.
  split; cbn; auto; try (unfold MMAP_START_ADDR, MMAP_END_ADDR; lia).
  unfold page_aligned, MMAP_START_ADDR. destruct PAGE_SIZE_cases as [-> | ->]; reflexivity.
Qed.

Lemma rwf_map lo len pg s o next :
  rwf s -> page_aligned lo -> page_aligned len -> lo + len <= next -> r_next s <= next ->
  page_aligned next -> next <= MMAP_END_ADDR ->
  rwf (RState (vm_map lo len pg (r_vm s)) next o).
Proof.
  intros [H1 H2 H3 H4 H5] Hlo Hlen Hle Hnext Ha He. split; cbn; auto; try lia.
  - intros a. rewrite in_range_page by auto. case_if; auto.
  - intros a Hge. range_tac. apply H2. lia.
Qed.

Lemma rwf_unmap lo len s :
  rwf s -> page_aligned lo -> page_aligned len ->
  rwf (RState (vm_unmap lo len (r_vm s)) (r_next s) (r_obj s)).
Proof.
  intros [H1 H2 H3 H4 H5] Hlo Hlen. split; cbn; auto.
  - intros a. rewrite in_range_page by auto. case_if; auto.
  - intros a Hge. case_if; auto.
Qed.

Lemma aligned_max a b : page_aligned a -> page_aligned b -> page_aligned (Z.max a b).
Proof. intros Ha Hb. destruct (Z.max_spec a b) as [[_ ->]|[_ ->]]; auto. Qed.

Lemma rwf_rmove a old na new s :
  rwf s -> page_aligned a -> page_aligned old -> page_aligned na -> page_aligned new ->
  na + new <= MMAP_END_ADDR ->
  rwf (fst (rmove a old na new s)).
Proof.
  intros [H1 H2 H3 H4 H5] Ha Ho Hna Hn He.
  split; cbn; try lia; auto using aligned_max, aligned_add.
  - intros b. rewrite !in_range_page, ltb_page by auto.
    replace (a + (b - b mod PAGE_SIZE - na)) with (b - b mod PAGE_SIZE + (a - na)) by lia.
    rewrite shift_page by auto using aligned_sub.
    replace (a + (b - na)) with (b + (a - na)) by lia.
    rewrite <- !H1. reflexivity.
  - intros b Hb. range_tac. case_if; [reflexivity|]. apply H2. lia.
Qed.

Lemma rstep_rwf c s : rwf s -> rwf (fst (rstep c s)).
Proof.
  intros Hs. destruct c; cbn; auto.
  - unfold rmmap. repeat case_if; cbn; auto; bool_to_prop.
    all: rewrite ?page_alignedb_true in *; pose proof (rwf_aligned _ Hs);
      pose proof (rwf_end _ Hs); apply rwf_map; auto using aligned_add; lia.
  - unfold rmunmap. case_if; cbn; auto. bool_to_prop.
    rewrite !page_alignedb_true in *. now apply rwf_unmap.
  - unfold rmremap.
    destruct ((0 <? old_len) && (0 <? new_len) && page_alignedb addr && page_alignedb old_len
              && page_alignedb new_len) eqn:E; cbn [negb]; auto.
    bool_to_prop. rewrite !page_alignedb_true in *.
    repeat case_if; auto; bool_to_prop; rewrite ?page_alignedb_true in *;
      apply rwf_rmove; auto; try lia; apply Hs.
  - unfold rstore. destruct (vm_pg (r_vm s) addr) as [pg|]; cbn; auto.
    repeat case_if; cbn; auto. now destruct Hs; split.
Qed.

Definition ref_kernel : kernel :=
  Kernel { s : rstate | rwf s }
    (fun c s => (exist _ (fst (rstep c (proj1_sig s))) (rstep_rwf c _ (proj2_sig s)),
                 snd (rstep c (proj1_sig s)))).

Definition ref_world : world ref_kernel :=
  World proc0 (exist _ rinit rwf_init : kstate ref_kernel).

(** ** The interface is met *)

Lemma ref_step c s s1 (r : ans c) :
  rstep c (proj1_sig s) = (s1, r) ->
  exists s', kstep ref_kernel c s = (s', r) /\ proj1_sig s' = s1.
Proof.
  intros E. exists (fst (kstep ref_kernel c s)).
  split; [|cbn; now rewrite E].
  rewrite (surjective_pairing (kstep ref_kernel c s)) at 1. f_equal. cbn. now rewrite E.
Qed.

Lemma freeb_true v lo len :
  (forall a, vm_pg v a = vm_pg v (a - a mod PAGE_SIZE)) ->
  page_aligned lo -> page_aligned len -> 0 <= len ->
  (freeb v lo len = true <-> unmapped v lo len).
Proof.
  intros Hp Hlo Hlen Hpos. pose proof PAGE_SIZE_pos as HP. unfold freeb.
  rewrite forallb_forall. unfold unmapped, mappedb. split.
  - intros Hall a Ha. rewrite Hp.
    pose proof (Z.mod_pos_bound a PAGE_SIZE HP). pose proof (aligned_le_page lo a Hlo).
    set (b := a - a mod PAGE_SIZE) in *.
    assert (page_aligned b) as Hb.
    { unfold b. pose proof (Z.div_mod a PAGE_SIZE) as D. unfold page_aligned.
      replace (a - a mod PAGE_SIZE) with (a / PAGE_SIZE * PAGE_SIZE) by lia. apply Z.mod_mul. lia. }
    assert (page_aligned (b - lo)) as Hd by now apply aligned_sub.
    unfold page_aligned in Hd, Hlen.
    pose proof (Z.div_mod (b - lo) PAGE_SIZE) as D. pose proof (Z.div_mod len PAGE_SIZE) as D'.
    specialize (Hall (Z.to_nat ((b - lo) / PAGE_SIZE))).
    assert (0 <= (b - lo) / PAGE_SIZE) by (apply Z.div_pos; lia).
    assert ((b - lo) / PAGE_SIZE < len / PAGE_SIZE) by nia.
    rewrite Z2Nat.id in Hall by lia.
    replace (lo + (b - lo) / PAGE_SIZE * PAGE_SIZE) with b in Hall by lia.
    assert (negb match vm_pg v b with Some _ => true | None => false end = true) as Hn.
    { apply Hall. apply in_seq. lia. }
    destruct (vm_pg v b); [discriminate|reflexivity].
  - intros Hun i Hi. apply in_seq in Hi. rewrite Hun; [reflexivity|].
    assert (Z.of_nat i < len / PAGE_SIZE) by lia.
    pose proof (Z.div_mod len PAGE_SIZE) as D'. unfold page_aligned in Hlen. nia.
Qed.

Lemma uniform_mapped v a old pg : 0 < old -> uniform v a old pg -> mappedb v a = true.
Proof. intros Ho Hu. unfold mappedb. now rewrite (Hu a) by lia. Qed.

Lemma uniform_below s a old pg :
  rwf s -> 0 < old -> uniform (r_vm s) a old pg -> a + old <= r_next s.
Proof.
  intros Hs Ho Hu. destruct (Z.le_gt_cases (a + old) (r_next s)); auto.
  pose proof (Hu (a + old - 1) ltac:(lia)) as E.
  rewrite (rwf_next s Hs) in E by lia. discriminate.
Qed.

(** Evaluate the guards of a step whose truth the hypotheses decide. *)
Ltac guards :=
  repeat match goal with
  | Ha : page_aligned ?a |- context [page_alignedb ?a] =>
      rewrite (proj2 (page_alignedb_true a) Ha)
  | |- context [?x <? ?y] =>
      first [rewrite (proj2 (Z.ltb_lt x y)) by lia | rewrite (proj2 (Z.ltb_ge x y)) by lia]
  | |- context [?x <=? ?y] =>
      first [rewrite (proj2 (Z.leb_le x y)) by lia | rewrite (proj2 (Z.leb_gt x y)) by lia]
  | Hu : uniform ?v ?a _ _ |- context [mappedb ?v ?a] =>
      rewrite (uniform_mapped v a _ _ ltac:(try eassumption; lia) Hu)
  | Hr : ranges_overlap _ _ _ _ = _ |- _ => rewrite Hr
  end; cbn [negb andb orb].

Lemma ref_mmap_any (s : kstate ref_kernel) len prot flags :
  0 < len -> page_aligned len ->
  flags = Z.lor MAP_SHARED MAP_ANONYMOUS \/ flags = Z.lor MAP_PRIVATE MAP_ANONYMOUS ->
  r_next (proj1_sig s) + len <= MMAP_END_ADDR ->
  exists s', kstep ref_kernel (Mmap 0 len prot flags (-1) 0) s = (s', r_next (proj1_sig s)) /\
    proj1_sig s' =
    RState (vm_map (r_next (proj1_sig s)) len
              (Page prot (has flags MAP_SHARED) true (r_obj (proj1_sig s))) (r_vm (proj1_sig s)))
           (r_next (proj1_sig s) + len) (r_obj (proj1_sig s) + 1).
Proof.
  intros Hl Ha Hf Hr. apply ref_step. cbn [rstep]. unfold rmmap. guards.
  destruct Hf as [-> | ->]; reflexivity.
Qed.

Lemma ref_mmap_fixed (s : kstate ref_kernel) a len prot flags :
  0 < len -> page_aligned a -> page_aligned len ->
  flags = Z.lor (Z.lor MAP_ANONYMOUS MAP_FIXED) MAP_SHARED \/
  flags = Z.lor (Z.lor MAP_ANONYMOUS MAP_FIXED) MAP_PRIVATE ->
  0 < a -> (forall b, a <= b < a + len -> vm_pg (r_vm (proj1_sig s)) b <> None) ->
  exists s', kstep ref_kernel (Mmap a len prot flags (-1) 0) s = (s', a) /\
    proj1_sig s' =
    RState (vm_map a len (Page prot (has flags MAP_SHARED) true (r_obj (proj1_sig s)))
                   (r_vm (proj1_sig s)))
           (r_next (proj1_sig s)) (r_obj (proj1_sig s) + 1).
Proof.
  intros Hl Ha Hla Hf Hp Hm. apply ref_step. cbn [rstep]. unfold rmmap.
  assert (a + len <= r_next (proj1_sig s)).
  { destruct (Z.le_gt_cases (a + len) (r_next (proj1_sig s))); auto.
    destruct (Hm (a + len - 1)); [lia|]. apply (rwf_next _ (proj2_sig s)). lia. }
  guards. destruct Hf as [-> | ->]; reflexivity.
Qed.

(** What the guards of [rmremap] leave for a mapped, aligned old range. *)
Lemma rmremap_guarded s a old new flags na pg :
  0 < old -> 0 < new -> page_aligned a -> page_aligned old -> page_aligned new ->
  uniform (r_vm s) a old pg ->
  rmremap a old new flags na s =
  if has flags MREMAP_FIXED then
    if negb (page_alignedb na && (0 <? na)) || ranges_overlap a old na new then (s, - EINVAL)
    else if na + new <=? MMAP_END_ADDR then rmove a old na new s else (s, - ENOMEM)
  else if new <=? old then
    if a + new <=? MMAP_END_ADDR then rmove a old a new s else (s, - EFAULT)
  else if freeb (r_vm s) (a + old) (new - old) && (a + new <=? MMAP_END_ADDR)
  then rmove a old a new s
  else if has flags MREMAP_MAYMOVE && (r_next s + new <=? MMAP_END_ADDR)
  then rmove a old (r_next s) new s
  else (s, - ENOMEM).
Proof.
  intros Ho Hn Ha Hoa Hna Hu. unfold rmremap.
  rewrite (uniform_mapped _ _ _ _ Ho Hu). guards. reflexivity.
Qed.

Lemma ref_freeb s a old new pg :
  rwf s -> 0 < old < new -> page_aligned a -> page_aligned old -> page_aligned new ->
  uniform (r_vm s) a old pg ->
  (freeb (r_vm s) (a + old) (new - old) = true <-> unmapped (r_vm s) (a + old) (new - old)).
Proof.
  intros Hs Ho Ha Hoa Hna Hu. apply freeb_true; auto using aligned_add, aligned_sub; [|lia].
  apply (rwf_page _ Hs).
Qed.

#[export] Instance ref_vm_kernel : VmKernel ref_kernel.
Proof.
  refine {| vmv (s : kstate ref_kernel) := r_vm (proj1_sig s);
            room (s : kstate ref_kernel) := MMAP_END_ADDR - r_next (proj1_sig s);
            user_end := MMAP_END_ADDR |}; intros; cbn beta in *.
  - unfold MMAP_END_ADDR; lia.
  - destruct (ref_mmap_any s len prot flags) as (s' & E & Es); auto; [lia|].
    pose proof (rwf_start _ (proj2_sig s)). unfold MMAP_START_ADDR in *.
    exists s', (r_next (proj1_sig s)), (r_obj (proj1_sig s)). rewrite Es. cbn.
    repeat split; auto; try lia; [apply (rwf_aligned _ (proj2_sig s))|].
    intros b Hb. apply (rwf_next _ (proj2_sig s)). lia.
  - destruct (ref_mmap_fixed s a len prot flags) as (s' & E & Es); auto.
    exists s', (r_obj (proj1_sig s)). rewrite Es. cbn. repeat split; auto; lia.
  - edestruct (ref_step (Munmap a len) s) as (s' & E & Es).
    { cbn [rstep]. unfold rmunmap. guards. reflexivity. }
    exists s'. rewrite Es. cbn. repeat split; auto; lia.
  - edestruct (ref_step (Load a) s) as (s' & E & Es).
    { cbn [rstep]. unfold rload. now rewrite H0, H1, H2. }
    exists s'. rewrite Es. repeat split; auto; lia.
  - edestruct (ref_step (Load a) s) as (s' & E & Es).
    { cbn [rstep]. unfold rload. now rewrite H0. }
    eauto.
  - edestruct (ref_step (Load a) s) as (s' & E & Es).
    { cbn [rstep]. unfold rload. now rewrite H0, H1, H2. }
    eauto.
  - edestruct (ref_step (Store a b) s) as (s' & E & Es).
    { cbn [rstep]. unfold rstore. now rewrite H0, H1, H2. }
    exists s'. rewrite Es. cbn. repeat split; auto; lia.
  - pose proof (uniform_below (proj1_sig s) a old pg (proj2_sig s) ltac:(lia) H5).
    pose proof (rwf_end _ (proj2_sig s)).
    edestruct (ref_step (Mremap a old new 0 na) s) as (s' & E & Es).
    { cbn [rstep]. rewrite (rmremap_guarded _ _ _ _ _ _ pg) by (auto; lia).
      cbn [has Z.land Z.eqb negb]. guards. reflexivity. }
    exists s'. rewrite Es. split; auto; reflexivity.
  - edestruct (ref_step (Mremap a old new 0 na) s) as (s' & E & Es).
    { cbn [rstep]. rewrite (rmremap_guarded _ _ _ _ _ _ pg) by (auto; lia).
      rewrite (proj2 (ref_freeb _ _ _ _ pg (proj2_sig s) H1 H2 H3 H4 H5) H6).
      cbn [has Z.land Z.eqb negb]. guards. reflexivity. }
    exists s'. rewrite Es. split; auto; reflexivity.
  - edestruct (ref_step (Mremap a old new 0 na) s) as (s' & E & Es).
    { cbn [rstep]. rewrite (rmremap_guarded _ _ _ _ _ _ pg) by (auto; lia).
      rewrite <- (ref_freeb _ _ _ _ pg (proj2_sig s) H1 H2 H3 H4 H5) in H6.
      apply not_true_is_false in H6. rewrite H6.
      cbn [has Z.land Z.eqb negb]. guards. reflexivity. }
    exists s'. rewrite Es. split; auto.
  - pose proof (rwf_start _ (proj2_sig s)). unfold MMAP_START_ADDR in *.
    edestruct (ref_step (Mremap a old new MREMAP_MAYMOVE na) s) as (s' & E & Es).
    { cbn [rstep]. rewrite (rmremap_guarded _ _ _ _ _ _ pg) by (auto; lia).
      rewrite <- (ref_freeb _ _ _ _ pg (proj2_sig s) H1 H2 H3 H4 H5) in H6.
      apply not_true_is_false in H6. rewrite H6.
      change (has MREMAP_MAYMOVE MREMAP_FIXED) with false.
      change (has MREMAP_MAYMOVE MREMAP_MAYMOVE) with true. guards. reflexivity. }
    exists s', (r_next (proj1_sig s)). rewrite Es. cbn. repeat split; auto; try lia;
      [apply (rwf_aligned _ (proj2_sig s))|].
    intros b Hb. apply (rwf_next _ (proj2_sig s)). lia.
  - edestruct (ref_step (Mremap a old new (Z.lor MREMAP_MAYMOVE MREMAP_FIXED) na) s) as (s' & E & Es).
    { cbn [rstep]. rewrite (rmremap_guarded _ _ _ _ _ _ pg) by (auto; lia).
      change (has (Z.lor MREMAP_MAYMOVE MREMAP_FIXED) MREMAP_FIXED) with true.
      guards. reflexivity. }
    exists s'. rewrite Es. split; auto; reflexivity.
  - edestruct (ref_step (Mremap a old new (Z.lor MREMAP_MAYMOVE MREMAP_FIXED) na) s) as (s' & E & Es).
    { cbn [rstep]. rewrite (rmremap_guarded _ _ _ _ _ _ pg) by (auto; lia).
      change (has (Z.lor MREMAP_MAYMOVE MREMAP_FIXED) MREMAP_FIXED) with true.
      guards. reflexivity. }
    exists s'. rewrite Es. split; auto.
  - edestruct (ref_step (Sigaction signum) s) as (s' & E & Es); [reflexivity|].
    exists s'. rewrite Es. split; auto.
Defined.
End RefKernel.
