(* ===== verification/Mremap.v ===== *)
(** * The [mremap_mmap_anon] suite: helpers

    [test_mck/src/mremap_mmap_anon/mremap_mmap_anon.c]: argument parsing, the
    construction of a row of adjacent mappings and holes
    ([mremap_mmap_anon]), and the checks made on the remapped memory. *)
From S2P Require Import Prelude Process Arch CLib TestMck AddrSpace.
From Stdlib Require Import Ascii String.
#[local] Open Scope string_scope.
#[local] Open Scope Z_scope.

(** ** Arguments *)

Record mremap_args := MremapArgs {
  text : Z; text_len : Z; data : Z; data_len : Z; bss : Z; bss_len : Z;
}.

(** The static structure before the first call. *)
Definition mremap_args0 : mremap_args := MremapArgs 0 0 0 0 0 0.

Definition mremap_long_options : list longopt :=
  [LongOpt "text" "t"; LongOpt "text-len" "T"; LongOpt "data" "d"; LongOpt "data-len" "D";
   LongOpt "bss" "b"; LongOpt "bss-len" "B"].

Fixpoint mremap_parse_options (evs : list optev) (a : mremap_args) : mremap_args :=
  match evs with
  | [] => a
  | Opt c optarg :: evs' =>
      let v := test_mck_strtoul (Some optarg) 0 in
      mremap_parse_options evs'
        (if Ascii.eqb c "t" then MremapArgs v (text_len a) (data a) (data_len a) (bss a) (bss_len a)
         else if Ascii.eqb c "T" then MremapArgs (text a) v (data a) (data_len a) (bss a) (bss_len a)
         else if Ascii.eqb c "d" then MremapArgs (text a) (text_len a) v (data_len a) (bss a) (bss_len a)
         else if Ascii.eqb c "D" then MremapArgs (text a) (text_len a) (data a) v (bss a) (bss_len a)
         else if Ascii.eqb c "b" then MremapArgs (text a) (text_len a) (data a) (data_len a) v (bss_len a)
         else if Ascii.eqb c "B" then MremapArgs (text a) (text_len a) (data a) (data_len a) (bss a) v
         else a)
  | OptErr :: evs' => mremap_parse_options evs' a
  end.

(** [argv] holds the program name first. *)
Definition mremap_mmap_anon_parse_argument (argv : list string) : mremap_args :=
  mremap_parse_options (fst (getopt_long "t:T:d:D:b:B:" mremap_long_options (tail argv)))
    mremap_args0.

Definition mremap_mmap_anon_verify_section_argument (args : mremap_args) : prog result :=
  tp_assert! (negb (text args =? 0), Some "invalid argument(-t, --text).") ;;
  tp_assert! (negb (text_len args =? 0), Some "invalid argument(-T, --text-len).") ;;
  tp_assert! (negb (data args =? 0), Some "invalid argument(-d, --data).") ;;
  tp_assert! (negb (data_len args =? 0), Some "invalid argument(-D, --data-len).") ;;
  tp_assert! (negb (bss args =? 0), Some "invalid argument(-b, --bss).") ;;
  tp_assert! (negb (bss_len args =? 0), Some "invalid argument(-B, --bss-len).") ;;
  Ret None.

(** ** Signal handler *)

Definition mremap_mmap_anon_signal_handler : handler := HExit 0.

Definition mremap_mmap_anon_setup_signal_handler (signum : Z) : prog result :=
  r <- sigaction signum mremap_mmap_anon_signal_handler ;;
  if negb (0 =? r) then Ret (Some "sigaction(SIGSEGV) error.") else Ret None.

(** ** The row of mappings *)

Record mremap_mmap_anon_param := Param {
  addr : Z;    (** out: mapping address *)
  size : Z;    (** mmap size *)
  nopage : Z;  (** 1: free space *)
  shared : Z;  (** 1: shared mapping *)
  prot : Z;    (** mmap prot *)
}.

Definition with_addr (a : Z) (p : mremap_mmap_anon_param) : mremap_mmap_anon_param :=
  Param a (size p) (nopage p) (shared p) (prot p).

(** The first loop: the total size, [None] when it overflows [size_t]; the
    addresses are preset to [MAP_FAILED]. *)
Fixpoint mma_total (params : list mremap_mmap_anon_param) (total_size : Z)
  : option Z * list mremap_mmap_anon_param :=
  match params with
  | [] => (Some total_size, [])
  | p :: ps =>
      let sum := u64 (total_size + size p) in
      if sum <? total_size then (None, p :: ps)
      else let '(r, ps') := mma_total ps sum in (r, with_addr MAP_FAILED p :: ps')
  end.

Definition mma_flags (p : mremap_mmap_anon_param) : Z :=
  Z.lor (Z.lor MAP_ANONYMOUS MAP_FIXED) (if negb (shared p =? 0) then MAP_SHARED else MAP_PRIVATE).

(** The second loop, from entry [i] at address [a]: the number of entries
    formatted and the entries with their addresses. *)
Fixpoint mma_format (i a : Z) (params : list mremap_mmap_anon_param)
  : prog (Z * list mremap_mmap_anon_param) :=
  match params with
  | [] => Ret (i, [])
  | p :: ps =>
      let p := with_addr a p in
      if negb (nopage p =? 0) then
        r <- munmap a (size p) ;;
        if negb (0 =? r) then Ret (i, p :: ps)
        else
          let* (n, ps') := mma_format (i + 1) (a + size p) ps in
          Ret (n, p :: ps')
      else
        a' <- mmap a (size p) (prot p) (mma_flags p) (-1) 0 ;;
        if a' =? MAP_FAILED then Ret (i, p :: ps)
        else
          (if negb (Z.land (prot p) PROT_WRITE =? 0) then memset a' (48 + i) (size p)
           else Ret tt) ;;
          let* (n, ps') := mma_format (i + 1) (a' + size p) ps in
          Ret (n, p :: ps')
  end.

(** The number of entries formatted, and the array with the addresses. *)
Definition mremap_mmap_anon (params : list mremap_mmap_anon_param)
  : prog (Z * list mremap_mmap_anon_param) :=
  match mma_total params 0 with
  | (None, params) => Ret (0, params)
  | (Some total_size, params) =>
      a <- mmap 0 total_size PROT_NONE (Z.lor MAP_SHARED MAP_ANONYMOUS) (-1) 0 ;;
      if a =? MAP_FAILED then Ret (0, params)
      else mma_format 0 a params
  end.

(** ** Checks on memory *)

Fixpoint data_check_from (a : Z) (n : nat) (exp : Z) : prog result :=
  match n with
  | O => Ret None
  | S n =>
      ch <- load a ;;
      if negb (ch =? exp) then Ret (Some "data check error.")
      else data_check_from (a + 1) n exp
  end.

Definition mremap_mmap_anon_data_check (a len exp : Z) : prog result :=
  data_check_from a (Z.to_nat len) exp.

Definition mremap_mmap_anon_access_check (a len : Z) : prog result :=
  if a =? NULL then Ret (Some "invalid address")
  else if len <=? 0 then Ret None
  else
    store a 65 ;;
    ch <- load a ;;
    tp_assert! (ch =? 65, Some "first page access error") ;;
    store (a + (len - 1)) 90 ;;
    ch <- load (a + (len - 1)) ;;
    tp_assert! (ch =? 90, Some "last page access error") ;;
    memset a 48 len ;;
    Ret None.
