(* ===== verification/MremapCases.v ===== *)
(** * The [mremap_mmap_anon] suite: its 68 test cases

    [test_mck/src/mremap_mmap_anon/NNN.c].  The files come in four series of
    seventeen: 0NN (private mappings of [MREMAP_RANGE_SIZE]), 1NN (shared), 2NN
    (private, [MREMAP_RANGE_LARGE_SIZE]) and 3NN (shared, large).  Within a
    series the run functions differ in the row of mappings they build and in
    the [mremap] call they make; across the series the same function text is
    repeated with another size and [.shared] member, so each body is written
    once, with the size [R] and the member [sh] as arguments.  Only tests 103,
    105, 303 and 305 deviate: they expect [SIGBUS] behind the grown part. *)
From S2P Require Import Prelude Process Arch CLib TestMck AddrSpace Mremap.
From Stdlib Require Import Ascii String.
#[local] Open Scope string_scope.
#[local] Open Scope Z_scope.

Section Cases.
Context `{ArchConfig}.

Definition MREMAP_RANGE_SIZE : Z := u64 (PAGE_SIZE * 4).
Definition MREMAP_RANGE_LARGE_SIZE : Z := align_up LARGE_PAGE_SIZE MREMAP_RANGE_SIZE.

(** ** The blocks the run functions are made of *)

Definition PROT_RW : Z := Z.lor PROT_READ PROT_WRITE.

(** [{.size = sz, .nopage = 0, .prot = pr, .shared = sh}] *)
Definition used (sz pr sh : Z) : mremap_mmap_anon_param := Param 0 sz 0 sh pr.
(** [{.size = sz, .nopage = 1}] *)
Definition hole (sz : Z) : mremap_mmap_anon_param := Param 0 sz 1 0 0.

Definition entry (params : list mremap_mmap_anon_param) (i : nat) : mremap_mmap_anon_param :=
  nth i params (Param 0 0 0 0 0).
Definition is_null (msg : result) : bool := match msg with None => true | Some _ => false end.

(** [{//init ...}] *)
Definition init (params : list mremap_mmap_anon_param)
  (k : list mremap_mmap_anon_param -> prog result) : prog result :=
  let pcount := Z.of_nat (List.length params) in
  let* (maps, params) := mremap_mmap_anon params in
  tp_assert! (maps =? pcount, Some "mmap error.") ;;
  k params.

(** [{//remap ...}]: the call and the two assertions on its result. *)
Definition remap_ok (a old_size new_size flags : Z) (k : Z -> prog result) : prog result :=
  set_errno 0 ;;
  remap <- mremap a old_size new_size flags 0 ;;
  tp_assert! (negb (remap =? MAP_FAILED), Some "mremap error.") ;;
  e <- errno ;;
  tp_assert! (e =? 0, Some "invalid errno.") ;;
  k remap.
Definition remap_fixed (a old_size new_size naddr : Z) (k : Z -> prog result) : prog result :=
  set_errno 0 ;;
  remap <- mremap a old_size new_size (Z.lor MREMAP_MAYMOVE MREMAP_FIXED) naddr ;;
  tp_assert! (remap =? naddr, Some "mremap error.") ;;
  e <- errno ;;
  tp_assert! (e =? 0, Some "invalid errno.") ;;
  k remap.
Definition remap_fail (a old_size new_size flags naddr err : Z) : prog result :=
  set_errno 0 ;;
  remap <- mremap a old_size new_size flags naddr ;;
  tp_assert! (remap =? MAP_FAILED, Some "mremap error.") ;;
  e <- errno ;;
  tp_assert! (e =? err, Some "invalid errno.") ;;
  Ret None.

(** [{//verify ...}], one check *)
Definition verify (a len exp : Z) (k : prog result) : prog result :=
  msg <- mremap_mmap_anon_data_check a len exp ;;
  tp_assert! (is_null msg, msg) ;;
  k.
(** [{//access ...}] and [return NULL] *)
Definition access (a len : Z) : prog result :=
  msg <- mremap_mmap_anon_access_check a len ;;
  tp_assert! (is_null msg, msg) ;;
  Ret None.
(** [{//signal ...}] and [return "signal handling error"] *)
Definition signal (signum a : Z) : prog result :=
  msg <- mremap_mmap_anon_setup_signal_handler signum ;;
  tp_assert! (is_null msg, msg) ;;
  load a ;;
  Ret (Some "signal handling error").

(** ** The run functions *)

Definition run_00 (R sh : Z) : prog result :=
  let params := [used R PROT_RW sh; used R PROT_NONE sh] in
  let old_size := size (entry params 0) in
  let new_size := old_size in
  init params (fun params =>
  remap_ok (addr (entry params 0)) old_size new_size 0 (fun remap =>
  verify remap old_size 48 (access remap new_size))).

(** [old_size = (size_t)(page_size * -2)]; the branch for [__sparc] is not
    compiled. *)
Definition _SC_PAGESIZE : Z := 30.
Definition run_01 (R sh : Z) : prog result :=
  let params := [used R PROT_RW sh; used R PROT_NONE sh] in
  page_size <- sysconf _SC_PAGESIZE ;;
  let old_size := u64 (i64 (page_size * -2)) in
  let new_size := old_size in
  init params (fun params =>
  remap_ok (addr (entry params 0)) old_size new_size 0 (fun remap =>
  verify remap (size (entry params 0)) 48 (access remap (size (entry params 0))))).

Definition run_02 (R sh : Z) : prog result :=
  let params := [used (R * 2) PROT_RW sh; used R PROT_NONE sh] in
  let old_size := size (entry params 0) in
  let new_size := old_size - PAGE_SIZE in
  init params (fun params =>
  remap_ok (addr (entry params 0)) old_size new_size 0 (fun remap =>
  verify remap new_size 48 (access remap new_size))).

Definition run_03 (R sh : Z) : prog result :=
  let params := [used R PROT_RW sh; hole R; used R PROT_NONE sh] in
  let old_size := size (entry params 0) in
  let new_size := old_size + size (entry params 1) in
  init params (fun params =>
  remap_ok (addr (entry params 0)) old_size new_size 0 (fun remap =>
  verify remap old_size 48 (access remap new_size))).

(** tests 103 and 303 *)
Definition run_03_bus (R sh : Z) : prog result :=
  let params := [used R PROT_RW sh; hole R; used R PROT_NONE sh] in
  let old_size := size (entry params 0) in
  let new_size := old_size + size (entry params 1) in
  init params (fun params =>
  remap_ok (addr (entry params 0)) old_size new_size 0 (fun remap =>
  verify remap old_size 48 (signal SIGBUS (remap + old_size)))).

Definition run_04 (R sh : Z) : prog result :=
  let params := [used R PROT_RW sh; used R PROT_NONE sh] in
  let old_size := size (entry params 0) in
  let new_size := old_size + size (entry params 1) in
  init params (fun params =>
  remap_fail (addr (entry params 0)) old_size new_size 0 0 ENOMEM).

Definition run_05 (R sh : Z) : prog result :=
  let params := [used R PROT_RW sh; used R PROT_NONE sh] in
  let old_size := size (entry params 0) in
  let new_size := old_size + size (entry params 1) in
  init params (fun params =>
  remap_ok (addr (entry params 0)) old_size new_size MREMAP_MAYMOVE (fun remap =>
  verify remap old_size 48 (access remap new_size))).

(** tests 105 and 305 *)
Definition run_05_bus (R sh : Z) : prog result :=
  let params := [used R PROT_RW sh; used R PROT_NONE sh] in
  let old_size := size (entry params 0) in
  let new_size := old_size + size (entry params 1) in
  init params (fun params =>
  remap_ok (addr (entry params 0)) old_size new_size MREMAP_MAYMOVE (fun remap =>
  verify remap old_size 48 (signal SIGBUS (remap + old_size)))).

Definition run_06 (R sh : Z) : prog result :=
  let params := [used R PROT_RW sh; hole R; used R PROT_NONE sh] in
  let old_size := size (entry params 0) in
  let new_size := old_size in
  init params (fun params =>
  remap_fixed (addr (entry params 0)) old_size new_size (addr (entry params 1)) (fun remap =>
  verify remap old_size 48 (access remap new_size))).

Definition run_07 (R sh : Z) : prog result :=
  let params := [used R PROT_RW sh; used R PROT_NONE sh; used (R * 2) PROT_RW sh;
                 used R PROT_NONE sh] in
  let old_size := size (entry params 0) in
  let new_size := old_size in
  init params (fun params =>
  remap_fixed (addr (entry params 0)) old_size new_size (addr (entry params 2)) (fun remap =>
  verify remap old_size 48
    (verify (addr (entry params 2) + new_size) (size (entry params 2) - new_size) 50
      (access remap new_size)))).

Definition run_08 (R sh : Z) : prog result :=
  let params := [used R PROT_NONE sh; used R PROT_READ sh; used R PROT_RW sh;
                 used R PROT_READ sh; used R PROT_NONE sh] in
  let old_size := size (entry params 2) in
  let new_size := size (entry params 1) + size (entry params 2) + size (entry params 3) in
  init params (fun params =>
  remap_fail (addr (entry params 2)) old_size new_size (Z.lor MREMAP_MAYMOVE MREMAP_FIXED)
    (addr (entry params 1)) EINVAL).

Definition run_09 (R sh : Z) : prog result :=
  let params := [used R PROT_NONE sh; used (R * 2) PROT_RW sh; used R PROT_NONE sh] in
  let old_size := size (entry params 1) in
  let new_size := PAGE_SIZE in
  init params (fun params =>
  remap_fail (addr (entry params 1)) old_size new_size (Z.lor MREMAP_MAYMOVE MREMAP_FIXED)
    (addr (entry params 1) + PAGE_SIZE) EINVAL).

Definition run_10 (R sh : Z) : prog result :=
  let params := [used R PROT_NONE sh; hole R; used (R * 2) PROT_RW sh; used R PROT_NONE sh] in
  let old_size := size (entry params 2) in
  let new_size := old_size in
  init params (fun params =>
  remap_fail (addr (entry params 2)) old_size new_size (Z.lor MREMAP_MAYMOVE MREMAP_FIXED)
    (addr (entry params 1)) EINVAL).

Definition run_11 (R sh : Z) : prog result :=
  let params := [used R PROT_NONE sh; used (R * 2) PROT_RW sh; hole R; used R PROT_NONE sh] in
  let old_size := size (entry params 1) in
  let new_size := old_size in
  init params (fun params =>
  remap_fail (addr (entry params 1)) old_size new_size (Z.lor MREMAP_MAYMOVE MREMAP_FIXED)
    (addr (entry params 1) + PAGE_SIZE) EINVAL).

Definition run_12 (R sh : Z) : prog result :=
  let params := [used R PROT_NONE sh; hole R; used R PROT_RW sh; used R PROT_NONE sh] in
  let old_size := size (entry params 2) in
  let new_size := old_size in
  init params (fun params =>
  remap_fixed (addr (entry params 2)) old_size new_size (addr (entry params 1)) (fun remap =>
  verify remap old_size 50 (access remap new_size))).

Definition run_13 (R sh : Z) : prog result :=
  let params := [used R PROT_NONE sh; used R PROT_RW sh; hole R; used R PROT_NONE sh] in
  let old_size := size (entry params 1) in
  let new_size := old_size in
  init params (fun params =>
  remap_fixed (addr (entry params 1)) old_size new_size (addr (entry params 2)) (fun remap =>
  verify remap old_size 49 (access remap new_size))).

Definition run_14 (R sh : Z) : prog result :=
  let params := [used (R * 2) PROT_RW sh; used R PROT_NONE sh] in
  let old_size := size (entry params 0) in
  let new_size := old_size - PAGE_SIZE in
  init params (fun params =>
  remap_ok (addr (entry params 0)) old_size new_size 0 (fun remap =>
  verify remap new_size 48 (signal SIGSEGV (remap + new_size)))).

Definition run_15 (R sh : Z) : prog result :=
  let params := [used R PROT_RW sh; used R PROT_NONE sh] in
  let old_size := size (entry params 0) in
  let new_size := old_size + size (entry params 1) in
  init params (fun params =>
  remap_ok (addr (entry params 0)) old_size new_size MREMAP_MAYMOVE (fun remap =>
  verify remap old_size 48 (signal SIGSEGV (addr (entry params 0))))).

Definition run_16 (R sh : Z) : prog result :=
  let params := [used R PROT_RW sh; hole R; used R PROT_NONE sh] in
  let old_size := size (entry params 0) in
  let new_size := old_size in
  init params (fun params =>
  remap_fixed (addr (entry params 0)) old_size new_size (addr (entry params 1)) (fun remap =>
  verify remap old_size 48 (signal SIGSEGV (addr (entry params 0))))).

(** ** The test cases *)

Definition mremap_mmap_anon0_setup (tc_num : Z) (tc_argv : list string) : prog mremap_args :=
  Ret (mremap_mmap_anon_parse_argument tc_argv).

(** [SETUP_ALIAS(TEST_SUITE, TEST_NUMBER, 0)], the run function, and
    [TEARDOWN_EMPTY]. *)
Definition mremap_case (n : Z) (run : prog result) : test_case :=
  TestCase "mremap_mmap_anon" n mremap_args (SETUP_ALIAS n mremap_mmap_anon0_setup)
    (run_const (fun _ _ => run)) TEARDOWN_EMPTY.

(** Tests 0, 100, 200 and 300 have a setup function of their own, with the
    same body. *)
Definition mremap_case0 (n : Z) (run : prog result) : test_case :=
  TestCase "mremap_mmap_anon" n mremap_args mremap_mmap_anon0_setup
    (run_const (fun _ _ => run)) TEARDOWN_EMPTY.

Definition mremap_mmap_anon0 : test_case := mremap_case0 0 (run_00 MREMAP_RANGE_SIZE 0).
Definition mremap_mmap_anon1 : test_case := mremap_case 1 (run_01 MREMAP_RANGE_SIZE 0).
Definition mremap_mmap_anon2 : test_case := mremap_case 2 (run_02 MREMAP_RANGE_SIZE 0).
Definition mremap_mmap_anon3 : test_case := mremap_case 3 (run_03 MREMAP_RANGE_SIZE 0).
Definition mremap_mmap_anon4 : test_case := mremap_case 4 (run_04 MREMAP_RANGE_SIZE 0).
Definition mremap_mmap_anon5 : test_case := mremap_case 5 (run_05 MREMAP_RANGE_SIZE 0).
Definition mremap_mmap_anon6 : test_case := mremap_case 6 (run_06 MREMAP_RANGE_SIZE 0).
Definition mremap_mmap_anon7 : test_case := mremap_case 7 (run_07 MREMAP_RANGE_SIZE 0).
Definition mremap_mmap_anon8 : test_case := mremap_case 8 (run_08 MREMAP_RANGE_SIZE 0).
Definition mremap_mmap_anon9 : test_case := mremap_case 9 (run_09 MREMAP_RANGE_SIZE 0).
Definition mremap_mmap_anon10 : test_case := mremap_case 10 (run_10 MREMAP_RANGE_SIZE 0).
Definition mremap_mmap_anon11 : test_case := mremap_case 11 (run_11 MREMAP_RANGE_SIZE 0).
Definition mremap_mmap_anon12 : test_case := mremap_case 12 (run_12 MREMAP_RANGE_SIZE 0).
Definition mremap_mmap_anon13 : test_case := mremap_case 13 (run_13 MREMAP_RANGE_SIZE 0).
Definition mremap_mmap_anon14 : test_case := mremap_case 14 (run_14 MREMAP_RANGE_SIZE 0).
Definition mremap_mmap_anon15 : test_case := mremap_case 15 (run_15 MREMAP_RANGE_SIZE 0).
Definition mremap_mmap_anon16 : test_case := mremap_case 16 (run_16 MREMAP_RANGE_SIZE 0).
Definition mremap_mmap_anon100 : test_case := mremap_case0 100 (run_00 MREMAP_RANGE_SIZE 1).
Definition mremap_mmap_anon101 : test_case := mremap_case 101 (run_01 MREMAP_RANGE_SIZE 1).
Definition mremap_mmap_anon102 : test_case := mremap_case 102 (run_02 MREMAP_RANGE_SIZE 1).
Definition mremap_mmap_anon103 : test_case := mremap_case 103 (run_03_bus MREMAP_RANGE_SIZE 1).
Definition mremap_mmap_anon104 : test_case := mremap_case 104 (run_04 MREMAP_RANGE_SIZE 1).
Definition mremap_mmap_anon105 : test_case := mremap_case 105 (run_05_bus MREMAP_RANGE_SIZE 1).
Definition mremap_mmap_anon106 : test_case := mremap_case 106 (run_06 MREMAP_RANGE_SIZE 1).
Definition mremap_mmap_anon107 : test_case := mremap_case 107 (run_07 MREMAP_RANGE_SIZE 1).
Definition mremap_mmap_anon108 : test_case := mremap_case 108 (run_08 MREMAP_RANGE_SIZE 1).
Definition mremap_mmap_anon109 : test_case := mremap_case 109 (run_09 MREMAP_RANGE_SIZE 1).
Definition mremap_mmap_anon110 : test_case := mremap_case 110 (run_10 MREMAP_RANGE_SIZE 1).
Definition mremap_mmap_anon111 : test_case := mremap_case 111 (run_11 MREMAP_RANGE_SIZE 1).
Definition mremap_mmap_anon112 : test_case := mremap_case 112 (run_12 MREMAP_RANGE_SIZE 1).
Definition mremap_mmap_anon113 : test_case := mremap_case 113 (run_13 MREMAP_RANGE_SIZE 1).
Definition mremap_mmap_anon114 : test_case := mremap_case 114 (run_14 MREMAP_RANGE_SIZE 1).
Definition mremap_mmap_anon115 : test_case := mremap_case 115 (run_15 MREMAP_RANGE_SIZE 1).
Definition mremap_mmap_anon116 : test_case := mremap_case 116 (run_16 MREMAP_RANGE_SIZE 1).
Definition mremap_mmap_anon200 : test_case := mremap_case0 200 (run_00 MREMAP_RANGE_LARGE_SIZE 0).
Definition mremap_mmap_anon201 : test_case := mremap_case 201 (run_01 MREMAP_RANGE_LARGE_SIZE 0).
Definition mremap_mmap_anon202 : test_case := mremap_case 202 (run_02 MREMAP_RANGE_LARGE_SIZE 0).
Definition mremap_mmap_anon203 : test_case := mremap_case 203 (run_03 MREMAP_RANGE_LARGE_SIZE 0).
Definition mremap_mmap_anon204 : test_case := mremap_case 204 (run_04 MREMAP_RANGE_LARGE_SIZE 0).
Definition mremap_mmap_anon205 : test_case := mremap_case 205 (run_05 MREMAP_RANGE_LARGE_SIZE 0).
Definition mremap_mmap_anon206 : test_case := mremap_case 206 (run_06 MREMAP_RANGE_LARGE_SIZE 0).
Definition mremap_mmap_anon207 : test_case := mremap_case 207 (run_07 MREMAP_RANGE_LARGE_SIZE 0).
Definition mremap_mmap_anon208 : test_case := mremap_case 208 (run_08 MREMAP_RANGE_LARGE_SIZE 0).
Definition mremap_mmap_anon209 : test_case := mremap_case 209 (run_09 MREMAP_RANGE_LARGE_SIZE 0).
Definition mremap_mmap_anon210 : test_case := mremap_case 210 (run_10 MREMAP_RANGE_LARGE_SIZE 0).
Definition mremap_mmap_anon211 : test_case := mremap_case 211 (run_11 MREMAP_RANGE_LARGE_SIZE 0).
Definition mremap_mmap_anon212 : test_case := mremap_case 212 (run_12 MREMAP_RANGE_LARGE_SIZE 0).
Definition mremap_mmap_anon213 : test_case := mremap_case 213 (run_13 MREMAP_RANGE_LARGE_SIZE 0).
Definition mremap_mmap_anon214 : test_case := mremap_case 214 (run_14 MREMAP_RANGE_LARGE_SIZE 0).
Definition mremap_mmap_anon215 : test_case := mremap_case 215 (run_15 MREMAP_RANGE_LARGE_SIZE 0).
Definition mremap_mmap_anon216 : test_case := mremap_case 216 (run_16 MREMAP_RANGE_LARGE_SIZE 0).
Definition mremap_mmap_anon300 : test_case := mremap_case0 300 (run_00 MREMAP_RANGE_LARGE_SIZE 1).
Definition mremap_mmap_anon301 : test_case := mremap_case 301 (run_01 MREMAP_RANGE_LARGE_SIZE 1).
Definition mremap_mmap_anon302 : test_case := mremap_case 302 (run_02 MREMAP_RANGE_LARGE_SIZE 1).
Definition mremap_mmap_anon303 : test_case := mremap_case 303 (run_03_bus MREMAP_RANGE_LARGE_SIZE 1).
Definition mremap_mmap_anon304 : test_case := mremap_case 304 (run_04 MREMAP_RANGE_LARGE_SIZE 1).
Definition mremap_mmap_anon305 : test_case := mremap_case 305 (run_05_bus MREMAP_RANGE_LARGE_SIZE 1).
Definition mremap_mmap_anon306 : test_case := mremap_case 306 (run_06 MREMAP_RANGE_LARGE_SIZE 1).
Definition mremap_mmap_anon307 : test_case := mremap_case 307 (run_07 MREMAP_RANGE_LARGE_SIZE 1).
Definition mremap_mmap_anon308 : test_case := mremap_case 308 (run_08 MREMAP_RANGE_LARGE_SIZE 1).
Definition mremap_mmap_anon309 : test_case := mremap_case 309 (run_09 MREMAP_RANGE_LARGE_SIZE 1).
Definition mremap_mmap_anon310 : test_case := mremap_case 310 (run_10 MREMAP_RANGE_LARGE_SIZE 1).
Definition mremap_mmap_anon311 : test_case := mremap_case 311 (run_11 MREMAP_RANGE_LARGE_SIZE 1).
Definition mremap_mmap_anon312 : test_case := mremap_case 312 (run_12 MREMAP_RANGE_LARGE_SIZE 1).
Definition mremap_mmap_anon313 : test_case := mremap_case 313 (run_13 MREMAP_RANGE_LARGE_SIZE 1).
Definition mremap_mmap_anon314 : test_case := mremap_case 314 (run_14 MREMAP_RANGE_LARGE_SIZE 1).
Definition mremap_mmap_anon315 : test_case := mremap_case 315 (run_15 MREMAP_RANGE_LARGE_SIZE 1).
Definition mremap_mmap_anon316 : test_case := mremap_case 316 (run_16 MREMAP_RANGE_LARGE_SIZE 1).

(** The suite in the order of the build's test case list. *)
Definition mremap_suite : list test_case :=
  [mremap_mmap_anon0; mremap_mmap_anon1; mremap_mmap_anon2; mremap_mmap_anon3;
   mremap_mmap_anon4; mremap_mmap_anon5; mremap_mmap_anon6; mremap_mmap_anon7;
   mremap_mmap_anon8; mremap_mmap_anon9; mremap_mmap_anon10; mremap_mmap_anon11;
   mremap_mmap_anon12; mremap_mmap_anon13; mremap_mmap_anon14; mremap_mmap_anon15;
   mremap_mmap_anon16; mremap_mmap_anon100; mremap_mmap_anon101; mremap_mmap_anon102;
   mremap_mmap_anon103; mremap_mmap_anon104; mremap_mmap_anon105; mremap_mmap_anon106;
   mremap_mmap_anon107; mremap_mmap_anon108; mremap_mmap_anon109; mremap_mmap_anon110;
   mremap_mmap_anon111; mremap_mmap_anon112; mremap_mmap_anon113; mremap_mmap_anon114;
   mremap_mmap_anon115; mremap_mmap_anon116; mremap_mmap_anon200; mremap_mmap_anon201;
   mremap_mmap_anon202; mremap_mmap_anon203; mremap_mmap_anon204; mremap_mmap_anon205;
   mremap_mmap_anon206; mremap_mmap_anon207; mremap_mmap_anon208; mremap_mmap_anon209;
   mremap_mmap_anon210; mremap_mmap_anon211; mremap_mmap_anon212; mremap_mmap_anon213;
   mremap_mmap_anon214; mremap_mmap_anon215; mremap_mmap_anon216; mremap_mmap_anon300;
   mremap_mmap_anon301; mremap_mmap_anon302; mremap_mmap_anon303; mremap_mmap_anon304;
   mremap_mmap_anon305; mremap_mmap_anon306; mremap_mmap_anon307; mremap_mmap_anon308;
   mremap_mmap_anon309; mremap_mmap_anon310; mremap_mmap_anon311; mremap_mmap_anon312;
   mremap_mmap_anon313; mremap_mmap_anon314; mremap_mmap_anon315; mremap_mmap_anon316].
End Cases.
