(* ===== verification/MremapVm.v ===== *)
(** * The suite's helpers on a documented kernel

    Specifications of the memory primitives and of the helpers of
    [mremap_mmap_anon.c] against the interface [VmKernel]: what they return
    and how they change the abstract address space. *)
From S2P Require Import Prelude Process Arch CLib TestMck AddrSpace RefKernel Mremap MremapCases.
From Stdlib Require Import Ascii String.
#[local] Open Scope string_scope.
#[local] Open Scope Z_scope.

(** [n] bytes from [a] hold the byte [c]. *)
Definition vm_fill (a n c : Z) (v : vm) : vm :=
  {| vm_pg := vm_pg v; vm_mem b := if in_range b a n then c else vm_mem v b |}.

#[export] Instance vm_fill_proper a n c : Proper ((≡) ==> (≡)) (vm_fill a n c).
Proof. intros v1 v2 [Hp Hm]. split; cbn; auto. intros b Hb. case_if; auto. Qed.

(** The range can be read and written. *)
Definition accessible (v : vm) (a n : Z) : Prop :=
  forall b, a <= b < a + n ->
  exists pg, vm_pg v b = Some pg /\ readable pg = true /\ writable pg = true /\ pg_backed pg = true.

Lemma accessible_sub v a n b m :
  accessible v a n -> a <= b -> b + m <= a + n -> accessible v b m.
Proof. intros H H1 H2 c Hc. apply H. lia. Qed.

#[export] Instance accessible_proper : Proper ((≡) ==> (=) ==> (=) ==> iff) accessible.
Proof.
  intros v1 v2 E ? ? -> ? ? ->. unfold accessible.
  split; intros H b Hb; destruct (H b Hb) as (pg & E1 & E2); exists pg;
    [rewrite <- (vm_equiv_pg _ _ b E)|rewrite (vm_equiv_pg _ _ b E)]; auto.
Qed.

Section Vm.
Context `{AC : ArchConfig} (K : kernel) {VK : VmKernel K}.
Implicit Type w : world K.

(** The process state is [pr], the address space [v], and [n] bytes are
    still available. *)
Record at_vm (pr : proc) (v : vm) (n : Z) (w : world K) : Prop := {
  at_proc : w_proc w = pr;
  at_view : vmv (w_k w) ≡ v;
  at_room : n <= room (w_k w);
}.

Lemma at_vm_equiv pr v v' n w : at_vm pr v n w -> v ≡ v' -> at_vm pr v' n w.
Proof. intros [H1 H2 H3] E. split; auto. now rewrite <- E. Qed.

(** [p] ends normally with a result and an address space given by [Q]. *)
Definition vm_wp {A} (p : prog A) (pr : proc) (v : vm) (n : Z)
  (Q : A -> proc -> vm -> Z -> Prop) : Prop :=
  forall w, at_vm pr v n w ->
  wp K p (fun o w' => exists a pr' v' n', o = Done a /\ at_vm pr' v' n' w' /\ Q a pr' v' n') w.

Lemma vm_ret {A} (a : A) pr v n Q : Q a pr v n -> vm_wp (Ret a) pr v n Q.
Proof. intros HQ w Hw. apply wp_ret. eauto 10. Qed.

Lemma vm_bind {A B} (p : prog A) (k : A -> prog B) pr v n Q R :
  vm_wp p pr v n R ->
  (forall a pr' v' n', R a pr' v' n' -> vm_wp (k a) pr' v' n' Q) ->
  vm_wp (bind p k) pr v n Q.
Proof.
  intros Hp Hk w Hw. apply wp_bind. eapply wp_mono; [apply (Hp w Hw)|].
  intros o w' (a & pr' & v' & n' & -> & Hw' & HR). apply (Hk a pr' v' n' HR w' Hw').
Qed.

Lemma vm_mono {A} (p : prog A) pr v n (Q R : A -> proc -> vm -> Z -> Prop) :
  vm_wp p pr v n Q -> (forall a pr' v' n', Q a pr' v' n' -> R a pr' v' n') -> vm_wp p pr v n R.
Proof.
  intros Hp HQ w Hw. eapply wp_mono; [apply (Hp w Hw)|].
  intros o w' (a & pr' & v' & n' & E & Hw' & HR). eauto 10.
Qed.

(** A call whose answer and effect the interface determines. *)
Lemma vm_call c (r : ans c) pr v v' n n' :
  (forall s, vmv s ≡ v -> n <= room s ->
     exists s', kstep K c s = (s', r) /\ vmv s' ≡ v' /\ n' <= room s') ->
  vm_wp (trigger c) pr v n (fun a pr1 v1 n1 => a = r /\ pr1 = pr /\ v1 = v' /\ n1 = n').
Proof.
  intros Hc w [H1 H2 H3]. destruct (Hc (w_k w) H2 H3) as (s' & E & Ev & Er).
  apply wp_step with (1 := E). exists r, pr, v', n'. split; [reflexivity|]. split; [|auto].
  split; cbn; auto.
Qed.

(** ** Memory accesses *)

Lemma vm_load a v n pr pg :
  vm_pg v a = Some pg -> readable pg = true -> pg_backed pg = true ->
  vm_wp (load a) pr v n (fun b pr' v' n' => b = vm_mem v a /\ pr' = pr /\ v' = v /\ n' = n).
Proof.
  intros Hp Hr Hb. unfold load. eapply vm_bind.
  - apply (vm_call (Load a) (inl (vm_mem v a)) pr v v n n). intros s Hv Hn.
    rewrite <- (vm_equiv_pg _ _ a Hv) in Hp.
    destruct (vm_load_ok s a pg Hp Hr Hb) as (s' & E & Ev & Er).
    exists s'. rewrite E, (vm_equiv_mem _ _ a Hv) by congruence.
    split; [reflexivity|]. split; [now rewrite Ev|lia].
  - intros ? ? ? ? (-> & -> & -> & ->). now apply vm_ret.
Qed.

Lemma vm_store' a b v n pr pg :
  vm_pg v a = Some pg -> writable pg = true -> pg_backed pg = true ->
  vm_wp (store a b) pr v n (fun _ pr' v' n' => pr' = pr /\ v' = vm_store a b v /\ n' = n).
Proof.
  intros Hp Hr Hb. unfold store. eapply vm_bind.
  - apply (vm_call (Store a b) (inl tt) pr v (vm_store a b v) n n). intros s Hv Hn.
    rewrite <- (vm_equiv_pg _ _ a Hv) in Hp.
    destruct (vm_store_ok s a b pg Hp Hr Hb) as (s' & E & Ev & Er).
    exists s'. split; [exact E|]. split; [now rewrite Ev, Hv|lia].
  - intros ? ? ? ? (-> & -> & -> & ->). now apply vm_ret.
Qed.

Lemma vm_wp_equiv {A} (p : prog A) pr v v' n Q :
  v ≡ v' -> vm_wp p pr v' n Q -> vm_wp p pr v n Q.
Proof. intros E Hp w Hw. apply Hp. eapply at_vm_equiv; eauto. Qed.

Lemma vm_memset_from k a ch v n pr :
  accessible v a (Z.of_nat k) ->
  vm_wp (memset_from a ch k) pr v n (fun _ pr' v' n' =>
    pr' = pr /\ v' ≡ vm_fill a (Z.of_nat k) (u8 ch) v /\ n' = n).
Proof.
  revert a v. induction k as [|k IH]; intros a v Hacc; cbn [memset_from].
  - apply vm_ret. split; [reflexivity|]. split; [|reflexivity].
    split; cbn; auto. intros b _. now range_tac.
  - destruct (Hacc a) as (pg & E1 & E2 & E3 & E4); [lia|].
    eapply vm_bind; [eapply vm_store'; eauto|].
    intros ? ? ? ? (-> & -> & ->). eapply vm_mono; [apply IH|].
    + intros b Hb. cbn. apply Hacc. lia.
    + intros ? ? v' ? (-> & Ev & ->). split; [reflexivity|]. split; [|reflexivity].
      rewrite Ev. split; cbn; auto. intros b _.
      destruct (Z.eqb_spec b a) as [->|].
      * now range_tac.
      * destruct (in_range b (a + 1) (Z.of_nat k)) eqn:Eb;
          rewrite ?in_range_true, ?in_range_false in Eb; now range_tac.
Qed.

Lemma vm_memset a ch len v n pr :
  0 <= len -> accessible v a len ->
  vm_wp (memset a ch len) pr v n (fun _ pr' v' n' =>
    pr' = pr /\ v' = vm_fill a len (u8 ch) v /\ n' = n).
Proof.
  intros Hl Hacc w Hw. unfold memset. rewrite <- (Z2Nat.id len Hl) in Hacc.
  eapply wp_mono; [apply (vm_memset_from (Z.to_nat len) a ch v n pr Hacc w Hw)|].
  intros o w' (r & pr' & v' & n' & -> & Hw' & -> & Ev & ->).
  rewrite Z2Nat.id in Ev by lia. do 4 eexists. split; [reflexivity|].
  split; [eapply at_vm_equiv; eauto|auto].
Qed.

(** ** The checks *)

(** Every byte of the range can be read and holds [exp]. *)
Definition holds (v : vm) (a n exp : Z) : Prop :=
  forall b, a <= b < a + n ->
  (exists pg, vm_pg v b = Some pg /\ readable pg = true /\ pg_backed pg = true) /\
  vm_mem v b = exp.

Lemma vm_data_check_from k a exp v n pr :
  holds v a (Z.of_nat k) exp ->
  vm_wp (data_check_from a k exp) pr v n (fun r pr' v' n' =>
    r = None /\ pr' = pr /\ v' = v /\ n' = n).
Proof.
  revert a. induction k as [|k IH]; intros a Hh; cbn [data_check_from].
  - now apply vm_ret.
  - destruct (Hh a) as ((pg & E1 & E2 & E3) & Em); [lia|].
    eapply vm_bind; [eapply vm_load; eauto|].
    intros ? ? ? ? (-> & -> & -> & ->). rewrite Em, Z.eqb_refl. cbn [negb].
    apply IH. intros b Hb. apply Hh. lia.
Qed.

Lemma vm_data_check a len exp v n pr :
  0 <= len -> holds v a len exp ->
  vm_wp (mremap_mmap_anon_data_check a len exp) pr v n (fun r pr' v' n' =>
    r = None /\ pr' = pr /\ v' = v /\ n' = n).
Proof.
  intros Hl Hh. apply vm_data_check_from. now rewrite Z2Nat.id by lia.
Qed.

Lemma vm_access_check a len v n pr :
  a <> NULL -> 0 < len -> accessible v a len ->
  vm_wp (mremap_mmap_anon_access_check a len) pr v n (fun r pr' v' n' =>
    r = None /\ pr' = pr).
Proof.
  intros Ha Hl Hacc. unfold mremap_mmap_anon_access_check.
  apply Z.eqb_neq in Ha. rewrite Ha. rewrite (proj2 (Z.leb_gt len 0)) by lia.
  destruct (Hacc a) as (pg & E1 & E2 & E3 & E4); [lia|].
  destruct (Hacc (a + (len - 1))) as (pg' & F1 & F2 & F3 & F4); [lia|].
  eapply vm_bind; [eapply vm_store'; eauto|]. intros ? ? ? ? (-> & -> & ->).
  eapply vm_bind; [eapply vm_load; eauto|]. intros ? ? ? ? (-> & -> & -> & ->).
  cbn [vm_mem vm_store]. rewrite Z.eqb_refl. cbn [tp_assert Z.eqb Pos.eqb].
  eapply vm_bind; [eapply vm_store'; eauto|]. intros ? ? ? ? (-> & -> & ->).
  eapply vm_bind; [eapply vm_load; eauto|]. intros ? ? ? ? (-> & -> & -> & ->).
  cbn [vm_mem vm_store]. rewrite Z.eqb_refl. cbn [tp_assert Z.eqb Pos.eqb].
  eapply vm_bind; [apply vm_memset; [lia|exact Hacc]|].
  intros ? ? ? ? (-> & _ & _). now apply vm_ret.
Qed.

(** ** System calls with their C wrappers *)

Lemma vm_syscall_ok fail r pr v n :
  0 <= r -> vm_wp (syscall_ret fail r) pr v n (fun a pr' v' n' =>
               a = r /\ pr' = pr /\ v' = v /\ n' = n).
Proof. intros Hr. unfold syscall_ret. rewrite is_err_false by lia. now apply vm_ret. Qed.

Lemma vm_syscall_err fail e pr v n :
  1 <= e <= 4095 -> vm_wp (syscall_ret fail (- e)) pr v n (fun a pr' v' n' =>
               a = fail /\ pr' = with_errno e pr /\ v' = v /\ n' = n).
Proof.
  intros He. unfold syscall_ret. rewrite is_err_true by lia.
  intros w [H1 H2 H3]. apply wp_bind, wp_set_errno, wp_ret.
  exists fail, (with_errno e pr), v, n. split; [reflexivity|]. split; [|auto].
  split; cbn; auto. rewrite H1. f_equal. lia.
Qed.

Lemma vm_mmap_wp len prot flags pr v n :
  0 < len -> page_aligned len ->
  flags = Z.lor MAP_SHARED MAP_ANONYMOUS \/ flags = Z.lor MAP_PRIVATE MAP_ANONYMOUS ->
  len <= n ->
  vm_wp (mmap 0 len prot flags (-1) 0) pr v n (fun a pr' v' n' => exists o,
    pr' = pr /\ n' = n - len /\ 0 < a /\ a + len <= user_end /\ page_aligned a /\
    unmapped v a len /\ v' = vm_map a len (Page prot (has flags MAP_SHARED) true o) v).
Proof.
  intros Hl Ha Hf Hn w [H1 H2 H3]. unfold mmap.
  destruct (vm_mmap_any (w_k w) len prot flags Hl Ha Hf) as (s' & a & o & E & P); [lia|].
  destruct P as (P1 & P2 & P3 & P4 & P5 & P6).
  apply wp_bind. apply wp_step with (1 := E).
  assert (at_vm pr (vm_map a len (Page prot (has flags MAP_SHARED) true o) v) (n - len)
            (World (w_proc w) s')) as Hw'.
  { split; cbn; auto; [now rewrite P5, H2|lia]. }
  eapply wp_mono; [apply (vm_syscall_ok MAP_FAILED a _ _ _ ltac:(lia) _ Hw')|].
  intros oc w' (a0 & pr' & v' & n' & -> & Hw & -> & -> & -> & ->).
  exists a, pr, (vm_map a len (Page prot (has flags MAP_SHARED) true o) v), (n - len).
  split; [reflexivity|]. split; [exact Hw|]. exists o.
  repeat split; auto; try lia. now rewrite <- H2.
Qed.

Lemma vm_mmap_fixed_wp a len prot flags pr v n :
  0 < len -> page_aligned a -> page_aligned len ->
  flags = Z.lor (Z.lor MAP_ANONYMOUS MAP_FIXED) MAP_SHARED \/
  flags = Z.lor (Z.lor MAP_ANONYMOUS MAP_FIXED) MAP_PRIVATE ->
  0 < a -> (forall b, a <= b < a + len -> vm_pg v b <> None) ->
  vm_wp (mmap a len prot flags (-1) 0) pr v n (fun r pr' v' n' => exists o,
    r = a /\ pr' = pr /\ n' = n /\
    v' = vm_map a len (Page prot (has flags MAP_SHARED) true o) v).
Proof.
  intros Hl Ha Hla Hf Hp Hm w [H1 H2 H3]. unfold mmap.
  destruct (vm_mmap_fixed (w_k w) a len prot flags Hl Ha Hla Hf Hp) as (s' & o & E & P1 & P2).
  { intros b Hb. rewrite (vm_equiv_pg _ _ b H2). auto. }
  apply wp_bind. apply wp_step with (1 := E).
  assert (at_vm pr (vm_map a len (Page prot (has flags MAP_SHARED) true o) v) n
            (World (w_proc w) s')) as Hw'.
  { split; cbn; auto; [now rewrite P1, H2|lia]. }
  eapply wp_mono; [apply (vm_syscall_ok MAP_FAILED a _ _ _ ltac:(lia) _ Hw')|].
  intros oc w' (a0 & pr' & v' & n' & -> & Hw & -> & -> & -> & ->). eauto 15.
Qed.

Lemma vm_munmap_wp a len pr v n :
  0 < len -> page_aligned a -> page_aligned len -> 0 < a ->
  vm_wp (munmap a len) pr v n (fun r pr' v' n' =>
    r = 0 /\ pr' = pr /\ v' = vm_unmap a len v /\ n' = n).
Proof.
  intros Hl Ha Hla Hp. unfold munmap. eapply vm_bind.
  - apply (vm_call (Munmap a len) 0 pr v (vm_unmap a len v) n n). intros s Hv Hn.
    destruct (vm_munmap s a len Hl Ha Hla Hp) as (s' & E & Ev & Er).
    exists s'. split; [exact E|]. split; [now rewrite Ev, Hv|lia].
  - intros ? ? ? ? (-> & -> & -> & ->). now apply vm_syscall_ok.
Qed.

(** ** The row of mappings *)

Abbreviation param := mremap_mmap_anon_param.

(** The page an entry asks for. *)
Definition entry_page (p : param) (o : Z) : page := Page (prot p) (negb (shared p =? 0)) true o.

(** Entry [p], number [i], stands at address [a]: a hole, or pages with the
    requested protection, filled with the character ['0' + i] if writable. *)
Definition region (v : vm) (i a : Z) (p : param) : Prop :=
  if nopage p =? 0 then
    exists o, uniform v a (size p) (entry_page p o) /\
              (has (prot p) PROT_WRITE = true ->
               forall b, a <= b < a + size p -> vm_mem v b = u8 (48 + i))
  else unmapped v a (size p).

Fixpoint row (v : vm) (i a : Z) (ps : list param) : Prop :=
  match ps with
  | [] => True
  | p :: ps => region v i a p /\ row v (i + 1) (a + size p) ps
  end.

(** The entries with their addresses. *)
Fixpoint placed (a : Z) (ps : list param) : list param :=
  match ps with
  | [] => []
  | p :: ps => with_addr a p :: placed (a + size p) ps
  end.

Fixpoint total (ps : list param) : Z :=
  match ps with [] => 0 | p :: ps => size p + total ps end.

(** Entries the kernel can map: whole pages, not empty, and writable only if
    they are readable as well. *)
Definition entry_ok (p : param) : Prop :=
  0 < size p /\ page_aligned (size p) /\
  (has (prot p) PROT_WRITE = true -> has (prot p) PROT_READ = true).

(** [v'] differs from [v] in the range only. *)
Definition same_outside (a n : Z) (v v' : vm) : Prop :=
  forall b, ~ (a <= b < a + n) -> vm_pg v' b = vm_pg v b /\ vm_mem v' b = vm_mem v b.

Lemma region_frame v v' i a p :
  (forall b, a <= b < a + size p -> vm_pg v' b = vm_pg v b /\ vm_mem v' b = vm_mem v b) ->
  region v i a p -> region v' i a p.
Proof.
  unfold region. intros He. destruct (nopage p =? 0).
  - intros (o & Hu & Hm). exists o. split.
    + intros b Hb. destruct (He b Hb) as [-> _]. now apply Hu.
    + intros Hw b Hb. destruct (He b Hb) as [_ ->]. now apply Hm.
  - intros Hu b Hb. destruct (He b Hb) as [-> _]. now apply Hu.
Qed.

Lemma total_nonneg ps : Forall entry_ok ps -> 0 <= total ps.
Proof. induction 1 as [|p ps (H1 & _) _ IH]; cbn; lia. Qed.

Lemma mma_flags_cases p :
  (mma_flags p = Z.lor (Z.lor MAP_ANONYMOUS MAP_FIXED) MAP_SHARED \/
   mma_flags p = Z.lor (Z.lor MAP_ANONYMOUS MAP_FIXED) MAP_PRIVATE) /\
  has (mma_flags p) MAP_SHARED = negb (shared p =? 0).
Proof. unfold mma_flags. destruct (shared p =? 0); cbn [negb]; split; auto. Qed.

(** Filling the pages of an entry that was just mapped. *)
Lemma vm_fill_entry i a p o v n pr :
  entry_ok p -> nopage p = 0 ->
  vm_wp (if negb (Z.land (prot p) PROT_WRITE =? 0) then memset a (48 + i) (size p) else Ret tt)
    pr (vm_map a (size p) (entry_page p o) v) n
    (fun _ pr' v' n' => pr' = pr /\ n' = n /\ region v' i a p /\ same_outside a (size p) v v').
Proof.
  intros (Hs & Ha & Hrw) Hn. unfold region. rewrite Hn, Z.eqb_refl.
  fold (has (prot p) PROT_WRITE). destruct (has (prot p) PROT_WRITE) eqn:Ew.
  - eapply vm_mono; [apply vm_memset; [lia|]|].
    + intros b Hb. exists (entry_page p o). cbn. range_tac.
      repeat split; auto; apply Hrw; auto.
    + intros ? ? ? ? (-> & -> & ->). split; [reflexivity|]. split; [reflexivity|]. split.
      * exists o. split; [intros b Hb; cbn; now range_tac|]. intros _ b Hb. cbn. now range_tac.
      * intros b Hb. cbn. now range_tac.
  - apply vm_ret. split; [reflexivity|]. split; [reflexivity|]. split.
    + exists o. split; [intros b Hb; cbn; now range_tac|discriminate].
    + intros b Hb. cbn. now range_tac.
Qed.

Lemma row_frame v v' i a ps :
  Forall entry_ok ps ->
  (forall b, a <= b < a + total ps -> vm_pg v' b = vm_pg v b /\ vm_mem v' b = vm_mem v b) ->
  row v i a ps -> row v' i a ps.
Proof.
  intros Hok. revert i a. induction Hok as [|p ps (Hs & _) Hok IH]; cbn; auto.
  pose proof (total_nonneg ps Hok). intros i a He [H1 H2]. split.
  - apply region_frame with v; [|exact H1]. intros b Hb. apply He. lia.
  - apply IH; [|exact H2]. intros b Hb. apply He. lia.
Qed.

(** The second loop of [mremap_mmap_anon]: from a fully mapped range it makes
    the row and reports every entry as formatted. *)
Lemma vm_format i a ps v n pr :
  Forall entry_ok ps -> 0 < a -> page_aligned a -> a + total ps <= 2 ^ 63 ->
  (forall b, a <= b < a + total ps -> vm_pg v b <> None) ->
  vm_wp (mma_format i a ps) pr v n (fun r pr' v' n' =>
    r = (i + Z.of_nat (List.length ps), placed a ps) /\ pr' = pr /\ n' = n /\
    row v' i a ps /\ same_outside a (total ps) v v').
Proof.
  intros Hok. revert i a v.
  induction Hok as [|p ps Hp Hok IH]; intros i a v Hpos Ha Hb Hm; cbn [mma_format].
  { apply vm_ret. cbn. rewrite Z.add_0_r. repeat split; auto. }
  pose proof (total_nonneg ps Hok) as Ht. destruct Hp as (Hs & Hsa & Hrw) eqn:Ep. clear Ep.
  cbn [total] in *.
  (* what remains after entry [p] was made in the address space [v1] *)
  assert (forall v1, region v1 i a p -> same_outside a (size p) v v1 ->
    vm_wp (let* (m, ps') := mma_format (i + 1) (a + size p) ps in Ret (m, with_addr a p :: ps'))
      pr v1 n (fun r pr' v' n' =>
        r = (i + Z.of_nat (List.length (p :: ps)), placed a (p :: ps)) /\ pr' = pr /\ n' = n /\
        row v' i a (p :: ps) /\ same_outside a (size p + total ps) v v')) as Hrest.
  { intros v1 Hr Ho. eapply vm_bind.
    - apply (IH (i + 1) (a + size p) v1); try lia; [now apply aligned_add|].
      intros b Hb'. destruct (Ho b) as [-> _]; [lia|]. apply Hm. lia.
    - intros [m qs] pr' v' n' (E & -> & -> & Hrow & Ho'). injection E as -> ->.
      apply vm_ret. cbn [List.length placed row]. repeat split; auto.
      + f_equal. lia.
      + apply region_frame with v1; [|exact Hr]. intros b Hb'. apply Ho'. lia.
      + destruct (Ho' b) as [-> _]; [lia|]. apply Ho. lia.
      + destruct (Ho' b) as [_ ->]; [lia|]. apply Ho. lia. }
  cbn [nopage with_addr size prot shared].
  destruct (nopage p =? 0) eqn:En; cbn [negb].
  - apply Z.eqb_eq in En. destruct (mma_flags_cases p) as [Hf Hsh].
    eapply vm_bind; [apply (vm_mmap_fixed_wp a (size p) (prot p) (mma_flags p)); auto|].
    { intros b Hb'. apply Hm. lia. }
    intros ? ? ? ? (o & -> & -> & -> & ->).
    rewrite (proj2 (Z.eqb_neq a MAP_FAILED)) by (unfold MAP_FAILED; lia).
    rewrite Hsh. fold (entry_page p o).
    eapply vm_bind; [apply vm_fill_entry; auto; repeat split; auto|].
    intros ? ? v1 ? (-> & -> & Hr & Ho). now apply Hrest.
  - eapply vm_bind; [apply vm_munmap_wp; auto|].
    intros ? ? ? ? (-> & -> & -> & ->). cbn [Z.eqb negb].
    apply Hrest.
    + unfold region. rewrite En. intros b Hb'. cbn. now range_tac.
    + intros b Hb'. cbn. now range_tac.
Qed.

(** The first loop. *)
Definition preset (ps : list param) : list param := map (with_addr MAP_FAILED) ps.

Lemma mma_total_spec ps acc :
  Forall entry_ok ps -> 0 <= acc -> acc + total ps < 2 ^ 64 ->
  mma_total ps acc = (Some (acc + total ps), preset ps).
Proof.
  intros Hok. revert acc. induction Hok as [|p ps (Hs & _) Hok IH]; intros acc H0 Hb; cbn.
  - now rewrite Z.add_0_r.
  - cbn [total] in Hb. pose proof (total_nonneg ps Hok).
    rewrite u64_small by lia. rewrite (proj2 (Z.ltb_ge _ _)) by lia.
    rewrite IH by lia. now rewrite Z.add_assoc.
Qed.

Lemma preset_facts ps a i v :
  total (preset ps) = total ps /\ placed a (preset ps) = placed a ps /\
  List.length (preset ps) = List.length ps /\ (row v i a (preset ps) <-> row v i a ps).
Proof.
  unfold preset. revert a i. induction ps as [|p ps IH]; intros a i; cbn; [tauto|].
  destruct (IH (a + size p) (i + 1)) as (-> & E2 & -> & E4).
  split; [reflexivity|]. split; [now f_equal|]. split; [reflexivity|].
  unfold region. cbn. now rewrite E4.
Qed.

Lemma preset_ok ps : Forall entry_ok ps -> Forall entry_ok (preset ps).
Proof. intros Hok. apply Forall_map. eapply Forall_impl; [exact Hok|]. auto. Qed.

(** [mremap_mmap_anon] makes the row at a fresh address and returns the number
    of its entries. *)
Lemma vm_setup ps pr v n :
  ps <> [] -> Forall entry_ok ps -> total ps < 2 ^ 63 -> total ps <= n ->
  vm_wp (mremap_mmap_anon ps) pr v n (fun r pr' v' n' => exists base,
    r = (Z.of_nat (List.length ps), placed base ps) /\ pr' = pr /\ n' = n - total ps /\
    0 < base /\ base + total ps <= user_end /\ page_aligned base /\
    row v' 0 base ps /\ unmapped v base (total ps) /\ same_outside base (total ps) v v').
Proof.
  intros Hne Hok Hb Hn. unfold mremap_mmap_anon.
  assert (0 < total ps /\ page_aligned (total ps)) as [Hpos Hal].
  { destruct Hok as [|p ps (Hs & Ha & _) Hok]; [congruence|]. cbn.
    split; [pose proof (total_nonneg ps Hok); lia|]. apply aligned_add; auto.
    clear -Hok. induction Hok as [|p ps (_ & Ha & _) Hok IH]; cbn;
      [apply (aligned_mul 0)|now apply aligned_add]. }
  rewrite (mma_total_spec ps 0) by (auto; lia). rewrite Z.add_0_l.
  eapply vm_bind; [apply (vm_mmap_wp (total ps) PROT_NONE); auto|].
  intros a ? ? ? (o & -> & -> & H1 & H2 & H3 & H4 & ->).
  pose proof user_end_bound as Hue.
  rewrite (proj2 (Z.eqb_neq a MAP_FAILED)) by (unfold MAP_FAILED; lia).
  destruct (preset_facts ps a 0 v) as (Et & Ep & El & _).
  eapply vm_mono; [apply vm_format; auto using preset_ok; rewrite Et; [lia|]|].
  - intros b Hb'. cbn. now range_tac.
  - intros r pr' v' n' (-> & -> & -> & Hrow & Ho). rewrite Ep, El, Et in *.
    exists a. cbn. apply (proj2 (proj2 (proj2 (preset_facts ps a 0 v')))) in Hrow.
    repeat split; auto.
    + destruct (Ho b) as [-> _]; auto. cbn. now range_tac.
    + destruct (Ho b) as [_ ->]; auto. cbn. now range_tac.
Qed.
End Vm.

(** [mremap_mmap_anon] on a documented kernel: it returns the number of
    entries, with consecutive addresses filled in; entry [i] is a hole or is
    mapped with the protection and sharing it asks for, filled with the
    character ['0' + i] when writable; the range was free before, and nothing
    outside it has changed. *)
Theorem mremap_mmap_anon_builds_row `{AC : ArchConfig} (K : kernel) {VK : VmKernel K}
  (ps : list mremap_mmap_anon_param) (w : world K) :
  ps <> [] -> Forall entry_ok ps -> total ps < 2 ^ 63 -> total ps <= room (w_k w) ->
  exists base v w',
    run K (mremap_mmap_anon ps) w = (Done (Z.of_nat (List.length ps), placed base ps), w') /\
    vmv (w_k w') ≡ v /\ w_proc w' = w_proc w /\ room (w_k w) - total ps <= room (w_k w') /\
    row v 0 base ps /\ unmapped (vmv (w_k w)) base (total ps) /\
    same_outside base (total ps) (vmv (w_k w)) v.
Proof.
  intros Hne Hok Hb Hn.
  assert (at_vm K (w_proc w) (vmv (w_k w)) (room (w_k w)) w) as Hw by (split; auto; lia).
  destruct (vm_setup K ps _ _ _ Hne Hok Hb Hn w Hw)
    as (r & pr & v & n & E & [W1 W2 W3] & base & -> & -> & -> & _ & _ & _ & Hrow & Hun & Hso).
  exists base, v, (snd (run K (mremap_mmap_anon ps) w)).
  split; [now rewrite <- E, <- surjective_pairing|]. auto 10.
Qed.

Lemma mma_total_overflow ps p qs acc :
  Forall (fun q => 0 <= size q < 2 ^ 64) (ps ++ [p]) -> 0 <= acc ->
  acc + total ps < 2 ^ 64 <= acc + total ps + size p ->
  fst (mma_total (ps ++ p :: qs) acc) = None.
Proof.
  revert acc. induction ps as [|q ps IH]; cbn; intros acc Hs H0 [H1 H2].
  - apply Forall_cons in Hs as [Hp _]. unfold u64.
    rewrite <- (Z.mod_unique_pos (acc + size p) (2 ^ 64) 1 (acc + size p - 2 ^ 64)) by lia.
    now rewrite (proj2 (Z.ltb_lt _ _)) by lia.
  - apply Forall_cons in Hs as [Hq Hs].
    assert (0 <= total ps) as Ht.
    { apply Forall_app in Hs as [Hs _]. clear -Hs. induction Hs; cbn; lia. }
    rewrite u64_small by lia. rewrite (proj2 (Z.ltb_ge _ _)) by lia.
    specialize (IH (acc + size q) Hs ltac:(lia) ltac:(lia)).
    now destruct (mma_total (ps ++ p :: qs) (acc + size q)) as [r l].
Qed.

(** When the sizes of the first entries add up beyond [size_t], the
    function returns 0 (no entry formatted) without a single system call. *)
Theorem mremap_mmap_anon_overflow (K : kernel) ps p qs (w : world K) :
  Forall (fun q => 0 <= size q < 2 ^ 64) (ps ++ [p]) ->
  total ps < 2 ^ 64 <= total ps + size p ->
  (exists params, fst (run K (mremap_mmap_anon (ps ++ p :: qs)) w) = Done (0, params)) /\
  calls K (mremap_mmap_anon (ps ++ p :: qs)) w = [].
Proof.
  intros Hs Ht. unfold mremap_mmap_anon.
  pose proof (mma_total_overflow ps p qs 0 Hs ltac:(lia) Ht) as E.
  destruct (mma_total (ps ++ p :: qs) 0) as [r params]. cbn in E. subst r.
  split; [now exists params|reflexivity].
Qed.

Lemma mremap_mmap_anon_builds_row_witness :
  let ps := [used 0x40000 PROT_RW 0; hole 0x20000; used 0x10000 PROT_NONE 1] in
  exists base v w',
    run (@ref_kernel config_64K) (mremap_mmap_anon ps) (@ref_world config_64K)
      = (Done (3, placed base ps), w') /\ row v 0 base ps.
Proof.
  intros ps.
  destruct (@mremap_mmap_anon_builds_row config_64K _ (@ref_vm_kernel config_64K) ps ref_world)
    as (base & v & w' & H1 & _ & _ & _ & H2 & _).
  - discriminate.
  - repeat (apply Forall_cons; split; [split; [reflexivity|split; [reflexivity|easy]]|]). constructor.
  - reflexivity.
  - vm_compute. discriminate.
  - exists base, v, w'. split; [exact H1|exact H2].
Defined.

Lemma mremap_mmap_anon_overflow_witness :
  let ps := [used 0xffffffffffff0000 PROT_RW 0; used 0x10000 PROT_RW 0; used 0x1000 PROT_RW 0] in
  calls null_kernel (mremap_mmap_anon ps) null_world = [].
Proof.
  intros ps.
  apply (mremap_mmap_anon_overflow null_kernel [used 0xffffffffffff0000 PROT_RW 0]
           (used 0x10000 PROT_RW 0) [used 0x1000 PROT_RW 0] null_world).
  - repeat (apply Forall_cons; split; [cbn; lia|]). constructor.
  - cbn. lia.
Defined.
