(* ===== verification/MremapThms.v ===== *)
(** * The [mremap_mmap_anon] suite on a documented kernel

    Every test case of the suite, except the four that probe an undocumented
    corner (numbers 1, 101, 201, 301), passes on every kernel whose memory
    calls behave as documented ([VmKernel]) and that has room for the mappings:
    the suite raises no false alarm. *)
From S2P Require Import Prelude Process Arch CLib TestMck AddrSpace RefKernel.
From S2P Require Import Mremap MremapCases MremapVm.
From Stdlib Require Import Ascii String.
#[local] Open Scope string_scope.
#[local] Open Scope Z_scope.

(** ** What [vm_remap] does to a mapping *)

Section Remap.
Context (v : vm) (old len new newlen : Z) (pg : page).
Hypothesis Hu : uniform v old len pg.
Hypothesis Hlen : 0 < len.
Hypothesis Hnew : 0 < newlen.

Lemma remap_moved b : new <= b < new + Z.min len newlen ->
  vm_pg (vm_remap old len new newlen v) b = Some pg /\
  vm_mem (vm_remap old len new newlen v) b = vm_mem v (old + (b - new)).
Proof.
  intros Hb. cbn. range_tac. rewrite (proj2 (Z.ltb_lt _ _)) by lia.
  split; [apply Hu; lia|reflexivity].
Qed.

Lemma remap_grown b : new + len <= b < new + newlen ->
  vm_pg (vm_remap old len new newlen v) b = Some (grown pg).
Proof.
  intros Hb. cbn. range_tac. rewrite (proj2 (Z.ltb_ge _ _)) by lia.
  now rewrite (Hu old) by lia.
Qed.

Lemma remap_gone b : old <= b < old + len -> ~ (new <= b < new + newlen) ->
  vm_pg (vm_remap old len new newlen v) b = None.
Proof. intros Hb Hn. cbn. now range_tac. Qed.

Lemma remap_other b : ~ (old <= b < old + len) -> ~ (new <= b < new + newlen) ->
  vm_pg (vm_remap old len new newlen v) b = vm_pg v b /\
  vm_mem (vm_remap old len new newlen v) b = vm_mem v b.
Proof. intros Hb Hn. cbn. now range_tac. Qed.

Lemma remap_holds m c :
  readable pg = true -> pg_backed pg = true -> m <= len -> m <= newlen ->
  (forall b, old <= b < old + len -> vm_mem v b = c) ->
  holds (vm_remap old len new newlen v) new m c.
Proof.
  intros Hr Hbk H1 H2 Hm b Hb. destruct (remap_moved b) as [Ep Em]; [lia|].
  split; [eauto|]. rewrite Em. apply Hm. lia.
Qed.

(** A private mapping is accessible over its whole new size. *)
Lemma remap_accessible :
  readable pg = true -> writable pg = true -> pg_backed pg = true ->
  newlen <= len \/ pg_shared pg = false ->
  accessible (vm_remap old len new newlen v) new newlen.
Proof.
  intros Hr Hw Hb Hs b Hb'. destruct (Z.lt_ge_cases (b - new) len) as [Hlt|Hge].
  - destruct (remap_moved b) as [Ep _]; [lia|]. eauto.
  - destruct Hs as [Hs|Hs]; [lia|]. rewrite remap_grown by lia.
    exists (grown pg). unfold grown, readable, writable in *. cbn. rewrite Hs. auto.
Qed.
End Remap.

(** ** Rules for the blocks of the run functions *)

Section Blocks.
Context `{AC : ArchConfig} (K : kernel) {VK : VmKernel K}.

(** From the address space [v] with [n] bytes available, [p] ends with the
    outcome [O]. *)
Definition ends {A} (p : prog A) (pr : proc) (v : vm) (n : Z) (O : outcome A) : Prop :=
  forall w, at_vm K pr v n w -> fst (run K p w) = O.

Lemma ends_bind {A B} (p : prog A) (k : A -> prog B) pr v n R O :
  vm_wp K p pr v n R ->
  (forall a pr' v' n', R a pr' v' n' -> ends (k a) pr' v' n' O) ->
  ends (bind p k) pr v n O.
Proof.
  intros Hp Hk w Hw. rewrite run_bind.
  destruct (Hp w Hw) as (a & pr' & v' & n' & E & Hw' & HR).
  destruct (run K p w) as [o w']. cbn in E, Hw'. subst o. now apply (Hk a pr' v' n').
Qed.

Lemma ends_ret {A} (a : A) pr v n : ends (Ret a) pr v n (Done a).
Proof. intros w Hw. reflexivity. Qed.

Lemma ends_init ps k pr v n O :
  ps <> [] -> Forall entry_ok ps -> total ps < 2 ^ 63 -> total ps <= n ->
  (forall base v', 0 < base -> base + total ps <= user_end -> page_aligned base ->
     row v' 0 base ps -> ends (k (placed base ps)) pr v' (n - total ps) O) ->
  ends (init ps k) pr v n O.
Proof.
  intros H1 H2 H3 H4 Hk. unfold init.
  eapply ends_bind; [apply vm_setup; eauto|].
  intros [maps params] pr' v' n' (base & E & -> & -> & P1 & P2 & P3 & P4 & _).
  injection E as -> ->. cbn [fst snd]. rewrite Z.eqb_refl. cbn [tp_assert]. auto.
Qed.

(** [mremap] after [errno = 0], when the kernel's answer is determined. *)
Lemma vm_mremap_ok a old new flags na pr v n (P : Z -> vm -> Prop) :
  (forall s, vmv s ≡ v -> n <= room s -> exists s' r v',
     kstep K (Mremap a old new flags na) s = (s', r) /\ vmv s' ≡ v' /\ 0 <= r /\ P r v') ->
  vm_wp K (set_errno 0 ;; mremap a old new flags na) pr v n
    (fun r pr' v' n' => pr' = with_errno 0 pr /\ P r v').
Proof.
  intros Hs w [H1 H2 H3]. apply wp_bind, wp_set_errno. unfold mremap.
  destruct (Hs (w_k w) H2 H3) as (s' & r & v' & E & Ev & Hr & HP).
  apply wp_bind. eapply wp_step; [exact E|]. cbn [w_proc w_k].
  assert (at_vm K (with_errno 0 pr) v' (room s') (World (with_errno 0 (w_proc w)) s')) as Hw'.
  { split; cbn; auto; [now rewrite H1|lia]. }
  eapply wp_mono; [apply (vm_syscall_ok K MAP_FAILED r _ _ _ Hr _ Hw')|].
  intros o w' (x & ? & ? & ? & -> & Hw & -> & -> & -> & ->). eauto 10.
Qed.

Lemma vm_mremap_err a old new flags na e pr v n :
  1 <= e <= 4095 ->
  (forall s, vmv s ≡ v -> n <= room s -> exists s',
     kstep K (Mremap a old new flags na) s = (s', - e) /\ vmv s' ≡ v) ->
  vm_wp K (set_errno 0 ;; mremap a old new flags na) pr v n
    (fun r pr' v' n' => r = MAP_FAILED /\ pr' = with_errno e pr /\ v' = v).
Proof.
  intros He Hs w [H1 H2 H3]. apply wp_bind, wp_set_errno. unfold mremap.
  destruct (Hs (w_k w) H2 H3) as (s' & E & Ev).
  apply wp_bind. eapply wp_step; [exact E|]. cbn [w_proc w_k].
  assert (at_vm K (with_errno 0 pr) v (room s') (World (with_errno 0 (w_proc w)) s')) as Hw'.
  { split; cbn; auto; [now rewrite H1|lia]. }
  eapply wp_mono; [apply (vm_syscall_err K MAP_FAILED e _ _ _ He _ Hw')|].
  intros o w' (x & ? & ? & ? & -> & Hw & -> & -> & -> & ->).
  exists MAP_FAILED, (with_errno e pr), v, (room s').
  split; [reflexivity|]. split; [exact Hw|auto].
Qed.

Lemma vm_errno pr v n :
  vm_wp K errno pr v n (fun e pr' v' n' => e = p_errno pr /\ pr' = pr /\ v' = v /\ n' = n).
Proof.
  intros w [H1 H2 H3]. apply wp_errno. rewrite H1. exists (p_errno pr), pr, v, n.
  split; [reflexivity|]. split; [split; auto|auto].
Qed.

(** Re-association: the blocks start with [errno = 0] followed by the call. *)
Lemma ends_assoc {A B C} (p : prog A) (q : A -> prog B) (k : B -> prog C) pr v n O :
  ends (bind (bind p q) k) pr v n O -> ends (bind p (fun a => bind (q a) k)) pr v n O.
Proof. intros Hb w Hw. rewrite <- run_bind_assoc. auto. Qed.

Lemma ends_remap_ok a old new flags k pr v n O (P : Z -> vm -> Prop) :
  (forall s, vmv s ≡ v -> n <= room s -> exists s' r v',
     kstep K (Mremap a old new flags 0) s = (s', r) /\ vmv s' ≡ v' /\ 0 <= r /\
     (r < 2 ^ 63 /\ P r v')) ->
  (forall r v' n', P r v' -> ends (k r) (with_errno 0 pr) v' n' O) ->
  ends (remap_ok a old new flags k) pr v n O.
Proof.
  intros Hs Hk. unfold remap_ok.
  apply (ends_assoc (set_errno 0) (fun _ => mremap a old new flags 0)).
  eapply ends_bind; [apply vm_mremap_ok with (1 := Hs)|].
  intros r pr' v' n' (-> & Hr & HP).
  rewrite (proj2 (Z.eqb_neq r MAP_FAILED)) by (unfold MAP_FAILED; lia). cbn [negb tp_assert].
  eapply ends_bind; [apply vm_errno|]. intros ? ? ? ? (-> & -> & -> & ->).
  cbn [with_errno p_errno Z.eqb tp_assert]. eauto.
Qed.

Lemma ends_remap_fixed a old new na k pr v n O v' :
  0 < na ->
  (forall s, vmv s ≡ v -> exists s',
     kstep K (Mremap a old new (Z.lor MREMAP_MAYMOVE MREMAP_FIXED) na) s = (s', na) /\
     vmv s' ≡ v') ->
  (forall n', ends (k na) (with_errno 0 pr) v' n' O) ->
  ends (remap_fixed a old new na k) pr v n O.
Proof.
  intros Hna Hs Hk. unfold remap_fixed.
  apply (ends_assoc (set_errno 0)
           (fun _ => mremap a old new (Z.lor MREMAP_MAYMOVE MREMAP_FIXED) na)).
  eapply ends_bind; [apply vm_mremap_ok with (P := fun r v1 => r = na /\ v1 = v')|].
  - intros s Hv _. destruct (Hs s Hv) as (s' & E & Ev). exists s', na, v'.
    split; [exact E|]. split; [exact Ev|]. split; [lia|auto].
  - intros r pr' v1 n' (-> & -> & ->). rewrite Z.eqb_refl. cbn [tp_assert].
    eapply ends_bind; [apply vm_errno|]. intros ? ? ? ? (-> & -> & -> & ->).
    cbn [with_errno p_errno Z.eqb tp_assert]. auto.
Qed.

Lemma ends_remap_fail a old new flags na e pr v n :
  1 <= e <= 4095 ->
  (forall s, vmv s ≡ v -> n <= room s -> exists s',
     kstep K (Mremap a old new flags na) s = (s', - e) /\ vmv s' ≡ v) ->
  ends (remap_fail a old new flags na e) pr v n (Done None).
Proof.
  intros He Hs. unfold remap_fail.
  apply (ends_assoc (set_errno 0) (fun _ => mremap a old new flags na)).
  eapply ends_bind; [apply vm_mremap_err with (1 := He) (2 := Hs)|].
  intros r pr' v1 n' (-> & -> & ->). rewrite Z.eqb_refl. cbn [tp_assert].
  eapply ends_bind; [apply vm_errno|]. intros ? ? ? ? (-> & -> & -> & ->).
  cbn [with_errno p_errno]. rewrite Z.eqb_refl. apply ends_ret.
Qed.

Lemma ends_verify a len exp k pr v n O :
  0 <= len -> holds v a len exp -> ends k pr v n O -> ends (verify a len exp k) pr v n O.
Proof.
  intros Hl Hh Hk. unfold verify. eapply ends_bind; [apply vm_data_check; eauto|].
  intros ? ? ? ? (-> & -> & -> & ->). exact Hk.
Qed.

Lemma ends_access a len pr v n :
  0 < a -> 0 < len -> accessible v a len -> ends (access a len) pr v n (Done None).
Proof.
  intros Ha Hl Hacc. unfold access.
  eapply ends_bind; [apply vm_access_check; eauto; unfold NULL; lia|].
  intros ? ? ? ? (-> & ->). apply ends_ret.
Qed.

(** The access faults with the expected signal: the handler exits with 0. *)
Lemma ends_signal signum a pr v n :
  signum = SIGSEGV /\ vm_pg v a = None \/
  signum = SIGBUS /\ (exists pg, vm_pg v a = Some pg /\ readable pg = true /\ pg_backed pg = false) ->
  ends (signal signum a) pr v n (Exited 0).
Proof.
  intros Hf w [H1 H2 H3].
  assert (exists s', kstep K (Sigaction signum) (w_k w) = (s', 0) /\ vmv s' ≡ vmv (w_k w))
    as (s' & E & Ev).
  { apply vm_sigaction. destruct Hf as [[-> _]|[-> _]]; auto. }
  assert (exists s'', kstep K (Load a) s' = (s'', inr signum)) as (s'' & E').
  { rewrite H2 in Ev. destruct Hf as [[-> Hn]|[-> (pg & Hp & Hr & Hb)]].
    - apply vm_load_segv. now rewrite (vm_equiv_pg _ _ a Ev).
    - apply (vm_load_bus s' a pg); auto. now rewrite (vm_equiv_pg _ _ a Ev). }
  unfold signal, mremap_mmap_anon_setup_signal_handler, sigaction, load.
  cbn. rewrite E. cbn. rewrite E'. cbn.
  unfold deliver. cbn. now rewrite Z.eqb_refl.
Qed.

(** The calls the tests make, each with what a documented kernel does. *)

Lemma ends_shrink a old new k pg pr v n O :
  0 < a -> 0 < new <= old -> page_aligned a -> page_aligned old -> page_aligned new ->
  uniform v a old pg -> a + old <= user_end ->
  (forall n', ends (k a) (with_errno 0 pr) (vm_remap a old a new v) n' O) ->
  ends (remap_ok a old new 0 k) pr v n O.
Proof.
  intros H1 H2 H3 H4 H5 Hu He Hk. pose proof user_end_bound.
  apply ends_remap_ok with (P := fun r v' => r = a /\ v' = vm_remap a old a new v).
  - intros s Hv _. rewrite <- Hv in Hu.
    destruct (vm_mremap_shrink s a old new pg 0) as (s' & E & Ev); auto.
    exists s', a, (vm_remap a old a new v). rewrite Hv in Ev.
    split; [exact E|]. split; [exact Ev|]. repeat split; lia.
  - intros r v' n' (-> & ->). auto.
Qed.

Lemma ends_grow a old new k pg pr v n O :
  0 < a -> 0 < old < new -> page_aligned a -> page_aligned old -> page_aligned new ->
  uniform v a old pg -> unmapped v (a + old) (new - old) -> a + new <= user_end ->
  new - old <= n ->
  (forall n', ends (k a) (with_errno 0 pr) (vm_remap a old a new v) n' O) ->
  ends (remap_ok a old new 0 k) pr v n O.
Proof.
  intros H1 H2 H3 H4 H5 Hu Hf He Hn Hk. pose proof user_end_bound.
  apply ends_remap_ok with (P := fun r v' => r = a /\ v' = vm_remap a old a new v).
  - intros s Hv Hroom. rewrite <- Hv in Hu, Hf.
    destruct (vm_mremap_grow s a old new pg 0) as (s' & E & Ev); auto; [lia|].
    exists s', a, (vm_remap a old a new v). rewrite Hv in Ev.
    split; [exact E|]. split; [exact Ev|]. repeat split; lia.
  - intros r v' n' (-> & ->). auto.
Qed.

Lemma ends_move a old new k pg pr v n O :
  0 < a -> 0 < old < new -> page_aligned a -> page_aligned old -> page_aligned new ->
  uniform v a old pg -> ~ unmapped v (a + old) (new - old) -> new <= n ->
  (forall a' n', 0 < a' -> unmapped v a' new ->
     ends (k a') (with_errno 0 pr) (vm_remap a old a' new v) n' O) ->
  ends (remap_ok a old new MREMAP_MAYMOVE k) pr v n O.
Proof.
  intros H1 H2 H3 H4 H5 Hu Hf Hn Hk. pose proof user_end_bound.
  apply ends_remap_ok with
    (P := fun r v' => 0 < r /\ unmapped v r new /\ v' = vm_remap a old r new v).
  - intros s Hv Hroom. rewrite <- Hv in Hu, Hf.
    destruct (vm_mremap_move s a old new pg 0) as (s' & a' & E & P1 & P2 & P3 & P4 & Ev);
      auto; [lia|].
    exists s', a', (vm_remap a old a' new v). rewrite Hv in Ev, P4.
    split; [exact E|]. split; [exact Ev|]. repeat split; auto; lia.
  - intros r v' n' (Hr & Hun & ->). auto.
Qed.

Lemma ends_nospace a old new pg pr v n :
  0 < a -> 0 < old < new -> page_aligned a -> page_aligned old -> page_aligned new ->
  uniform v a old pg -> ~ unmapped v (a + old) (new - old) ->
  ends (remap_fail a old new 0 0 ENOMEM) pr v n (Done None).
Proof.
  intros H1 H2 H3 H4 H5 Hu Hf. apply ends_remap_fail; [unfold ENOMEM; lia|].
  intros s Hv _. rewrite <- Hv in Hu, Hf.
  destruct (vm_mremap_nospace s a old new pg 0) as (s' & E & Ev); auto.
  exists s'. split; [exact E|]. now rewrite Ev.
Qed.

Lemma ends_fixed a old new na k pg pr v n O :
  0 < a -> 0 < old -> 0 < new -> page_aligned a -> page_aligned old -> page_aligned new ->
  0 < na -> page_aligned na -> na + new <= user_end -> uniform v a old pg ->
  na + new <= a \/ a + old <= na ->
  (forall n', ends (k na) (with_errno 0 pr) (vm_remap a old na new v) n' O) ->
  ends (remap_fixed a old new na k) pr v n O.
Proof.
  intros H1 H2 H3 H4 H5 H6 H7 H8 H9 Hu Hd Hk.
  apply ends_remap_fixed with (v' := vm_remap a old na new v); auto.
  intros s Hv. rewrite <- Hv in Hu.
  destruct (vm_mremap_fixed s a old new pg na) as (s' & E & Ev); auto;
    [now apply ranges_overlap_false|].
  exists s'. split; [exact E|]. now rewrite Ev, Hv.
Qed.

Lemma ends_overlap a old new na pg pr v n :
  0 < a -> 0 < old -> 0 < new -> page_aligned a -> page_aligned old -> page_aligned new ->
  0 < na -> page_aligned na -> uniform v a old pg -> a < na + new -> na < a + old ->
  ends (remap_fail a old new (Z.lor MREMAP_MAYMOVE MREMAP_FIXED) na EINVAL) pr v n (Done None).
Proof.
  intros H1 H2 H3 H4 H5 H6 H7 H8 Hu Ho Ho'. apply ends_remap_fail; [unfold EINVAL; lia|].
  intros s Hv _. rewrite <- Hv in Hu.
  destruct (vm_mremap_overlap s a old new pg na) as (s' & E & Ev); auto;
    [now apply ranges_overlap_true|].
  exists s'. split; [exact E|]. now rewrite Ev.
Qed.
End Blocks.

(** ** The run functions *)

Section Runs.
Context `{AC : ArchConfig} (K : kernel) {VK : VmKernel K}.
Context (R sh : Z) (pr : proc) (v : vm) (n : Z).
Hypothesis R_aligned : page_aligned R.
Hypothesis R_size : PAGE_SIZE * 4 <= R.
Hypothesis R_bound : R <= 2 ^ 40.
Hypothesis R_room : 5 * R <= n.

Lemma R2_aligned : page_aligned (R * 2).
Proof. replace (R * 2) with (R + R) by lia. now apply aligned_add. Qed.

Lemma PAGE_aligned : page_aligned PAGE_SIZE.
Proof. apply Z.mod_same. pose proof PAGE_SIZE_pos. lia. Qed.

Lemma region_used v' i a sz p :
  region v' i a (used sz p sh) <->
  exists o, uniform v' a sz (Page p (negb (sh =? 0)) true o) /\
            (has p PROT_WRITE = true -> forall b, a <= b < a + sz -> vm_mem v' b = u8 (48 + i)).
Proof. reflexivity. Qed.

Lemma region_hole v' i a sz : region v' i a (hole sz) <-> unmapped v' a sz.
Proof. reflexivity. Qed.

Lemma not_unmapped v' a m b pg : a <= b < a + m -> vm_pg v' b = Some pg -> ~ unmapped v' a m.
Proof. intros Hb Hp Hu. rewrite (Hu b Hb) in Hp. discriminate. Qed.

#[local] Hint Resolve R2_aligned PAGE_aligned aligned_add aligned_sub R_aligned : mck.

Ltac entries_tac :=
  repeat first [apply Forall_cons; split | apply Forall_nil_2 | apply Forall_nil];
  unfold entry_ok; cbn [size prot used hole]; pose proof PAGE_SIZE_pos;
  repeat split; auto with mck; try lia; try discriminate.

(** Start a test: build the row and name its regions. *)
Ltac start :=
  cbv zeta; pose proof PAGE_SIZE_pos as HP;
  apply ends_init; [discriminate|entries_tac|cbn; lia|cbn; lia|];
  intros base v1 Hb He Ha Hrow; cbn [total size used hole] in He; cbn [row] in Hrow;
  rewrite ?region_used, ?region_hole in Hrow; cbn [size used hole] in Hrow;
  destruct_and!;
  repeat match goal with Hx : exists _, _ |- _ => destruct Hx as (? & ? & ?) end;
  cbn [entry nth placed addr size used hole with_addr].

(** The contents of a writable region. *)
Ltac mem_tac :=
  intros; match goal with
  | Hm : has PROT_RW PROT_WRITE = true -> _ |- vm_mem _ _ = _ =>
      rewrite (Hm eq_refl) by lia; reflexivity
  end.
Ltac side := try eassumption; try reflexivity; try lia; eauto with mck.
(** Verify moved contents; access the new range. *)
Ltac check_data := apply ends_verify; [lia|eapply remap_holds; side; mem_tac|].
Ltac check_access :=
  apply ends_access; [lia|lia|eapply remap_accessible; side; first [left; lia|right; subst; reflexivity]].

Lemma pass_00 : ends K (run_00 R sh) pr v n (Done None).
Proof. unfold run_00. start. eapply ends_shrink; side. intros n'. check_data. check_access. Qed.

Lemma pass_02 : ends K (run_02 R sh) pr v n (Done None).
Proof. unfold run_02. start. eapply ends_shrink; side. intros n'. check_data. check_access. Qed.

Lemma pass_03 : sh = 0 -> ends K (run_03 R sh) pr v n (Done None).
Proof.
  intros Hsh. unfold run_03. start.
  eapply ends_grow; side; [now replace (R + R - R) with R by lia|cbn; lia|].
  intros n'. check_data. check_access.
Qed.

(** Behind the old end of a grown shared mapping there is no memory. *)
Ltac bus_fault :=
  apply ends_signal; right; split; [reflexivity|];
  eexists; split; [eapply remap_grown; side|split; [reflexivity|]];
  cbn; destruct (Z.eqb_spec sh 0); [contradiction|reflexivity].

Lemma pass_03_bus : sh <> 0 -> ends K (run_03_bus R sh) pr v n (Exited 0).
Proof.
  intros Hsh. unfold run_03_bus. start.
  eapply ends_grow; side; [now replace (R + R - R) with R by lia|cbn; lia|].
  intros n'. check_data. bus_fault.
Qed.

(** The space behind the mapping is taken by its neighbour. *)
Ltac neighbour base :=
  match goal with
  | Hu : uniform ?v1 (base + R) R _ |- ~ unmapped ?v1 _ _ =>
      eapply (not_unmapped v1 _ _ (base + R)); [lia|apply Hu; lia]
  end.

Lemma pass_04 : ends K (run_04 R sh) pr v n (Done None).
Proof. unfold run_04. start. eapply ends_nospace; side. neighbour base. Qed.

Lemma pass_05 : sh = 0 -> ends K (run_05 R sh) pr v n (Done None).
Proof.
  intros Hsh. unfold run_05. start. eapply ends_move; side; [neighbour base|cbn; lia|].
  intros a' n' Ha' Hun. check_data. check_access.
Qed.

Lemma pass_05_bus : sh <> 0 -> ends K (run_05_bus R sh) pr v n (Exited 0).
Proof.
  intros Hsh. unfold run_05_bus. start. eapply ends_move; side; [neighbour base|cbn; lia|].
  intros a' n' Ha' Hun. check_data. bus_fault.
Qed.

Lemma pass_06 : ends K (run_06 R sh) pr v n (Done None).
Proof. unfold run_06. start. eapply ends_fixed; side. intros n'. check_data. check_access. Qed.

Lemma pass_08 : ends K (run_08 R sh) pr v n (Done None).
Proof. unfold run_08. start. eapply ends_overlap; side. Qed.

Lemma pass_09 : ends K (run_09 R sh) pr v n (Done None).
Proof. unfold run_09. start. eapply ends_overlap; side. Qed.

Lemma pass_10 : ends K (run_10 R sh) pr v n (Done None).
Proof. unfold run_10. start. eapply ends_overlap; side. Qed.

Lemma pass_11 : ends K (run_11 R sh) pr v n (Done None).
Proof. unfold run_11. start. eapply ends_overlap; side. Qed.

Lemma pass_12 : ends K (run_12 R sh) pr v n (Done None).
Proof. unfold run_12. start. eapply ends_fixed; side. intros n'. check_data. check_access. Qed.

Lemma pass_13 : ends K (run_13 R sh) pr v n (Done None).
Proof. unfold run_13. start. eapply ends_fixed; side. intros n'. check_data. check_access. Qed.

(** The address is no longer mapped. *)
Ltac segv_fault := apply ends_signal; left; split; [reflexivity|]; apply remap_gone; lia.

Lemma pass_14 : ends K (run_14 R sh) pr v n (Exited 0).
Proof. unfold run_14. start. eapply ends_shrink; side. intros n'. check_data. segv_fault. Qed.

Lemma pass_16 : ends K (run_16 R sh) pr v n (Exited 0).
Proof. unfold run_16. start. eapply ends_fixed; side. intros n'. check_data. segv_fault. Qed.

Lemma pass_15 : ends K (run_15 R sh) pr v n (Exited 0).
Proof.
  unfold run_15. start. eapply ends_move; side; [neighbour base|cbn; lia|].
  intros a' n' Ha' Hun. check_data.
  apply ends_signal; left; split; [reflexivity|]. apply remap_gone; [lia|].
  intros Hin. match goal with Hu : uniform _ base R _ |- _ => pose proof (Hu base ltac:(lia)) as Hx end.
  rewrite (Hun base Hin) in Hx. discriminate.
Qed.

Lemma pass_07 : ends K (run_07 R sh) pr v n (Done None).
Proof.
  unfold run_07. start. eapply ends_fixed; side. intros n'. check_data.
  apply ends_verify; [lia| |check_access].
  intros b Hb'.
  match goal with Hu : uniform ?v1 (base + R + R) (R * 2) _ |- _ =>
    pose proof (Hu b ltac:(lia)) as Hp end.
  edestruct remap_other as [-> ->]; [lia|lia|].
  split; [rewrite Hp; eexists; split; [reflexivity|split; reflexivity]|].
  match goal with Hm : has PROT_RW PROT_WRITE = true -> forall b, base + R + R <= b < _ -> _ |- _ =>
    rewrite (Hm eq_refl) by lia; reflexivity end.
Qed.
End Runs.

(** ** The whole suite *)

Lemma range_sizes `{AC : ArchConfig} R :
  R = MREMAP_RANGE_SIZE \/ R = MREMAP_RANGE_LARGE_SIZE ->
  page_aligned R /\ PAGE_SIZE * 4 <= R /\ R <= 2 ^ 40 /\ R <= MREMAP_RANGE_LARGE_SIZE.
Proof.
  unfold page_aligned. destruct AC as [[]]; intros [-> | ->]; repeat split;
    vm_compute; congruence.
Qed.

(** How each test ends when it passes: the signal tests leave through the
    handler, which exits with status 0; the others return [NULL]. *)
Definition passing (n : Z) : outcome result :=
  if (14 <=? n mod 100) || (n =? 103) || (n =? 105) || (n =? 303) || (n =? 305)
  then Exited 0 else Done None.

Lemma run_mremap_case K n (p : prog result) argv (w : world K) (O : outcome result) :
  fst (run K p w) = O -> fst (run K (run_test_case (mremap_case n p) argv) w) = O.
Proof.
  intros E. unfold run_test_case, mremap_case, run_const, SETUP_ALIAS, TEARDOWN_EMPTY.
  cbn. rewrite !run_bind. destruct (run K p w) as [[r|m|m] w']; exact E.
Qed.

Section Suite.
Context `{AC : ArchConfig} (K : kernel) {VK : VmKernel K}.

Definition case_passes (tc : test_case) : Prop :=
  num tc mod 100 <> 1 ->
  forall argv (w : world K), 5 * MREMAP_RANGE_LARGE_SIZE <= room (w_k w) ->
  fst (run K (run_test_case tc argv) w) = passing (num tc).

Lemma case_passes_intro n p :
  (forall pr v m, 5 * MREMAP_RANGE_LARGE_SIZE <= m -> ends K p pr v m (passing n)) ->
  case_passes (mremap_case n p).
Proof.
  intros He _ argv w Hr. apply run_mremap_case.
  apply (He (w_proc w) (vmv (w_k w)) (room (w_k w)) Hr). split; auto. lia.
Qed.

(** Close the goal of one test with the lemma of its run function. *)
Ltac pass_tac :=
  intros pr v m Hm;
  match goal with
  | |- ends _ _ _ _ _ (passing ?n) =>
      let o := eval vm_compute in (passing n) in change (passing n) with o
  end;
  match goal with
  | |- ends _ (_ MREMAP_RANGE_SIZE _) _ _ _ _ =>
      destruct (range_sizes MREMAP_RANGE_SIZE) as (? & ? & ? & ?); [left; reflexivity|]
  | |- ends _ (_ MREMAP_RANGE_LARGE_SIZE _) _ _ _ _ =>
      destruct (range_sizes MREMAP_RANGE_LARGE_SIZE) as (? & ? & ? & ?); [right; reflexivity|]
  end;
  match goal with
  | |- ends _ (run_00 _ _) _ _ _ _ => apply pass_00
  | |- ends _ (run_02 _ _) _ _ _ _ => apply pass_02
  | |- ends _ (run_03 _ _) _ _ _ _ => apply pass_03
  | |- ends _ (run_03_bus _ _) _ _ _ _ => apply pass_03_bus
  | |- ends _ (run_04 _ _) _ _ _ _ => apply pass_04
  | |- ends _ (run_05 _ _) _ _ _ _ => apply pass_05
  | |- ends _ (run_05_bus _ _) _ _ _ _ => apply pass_05_bus
  | |- ends _ (run_06 _ _) _ _ _ _ => apply pass_06
  | |- ends _ (run_07 _ _) _ _ _ _ => apply pass_07
  | |- ends _ (run_08 _ _) _ _ _ _ => apply pass_08
  | |- ends _ (run_09 _ _) _ _ _ _ => apply pass_09
  | |- ends _ (run_10 _ _) _ _ _ _ => apply pass_10
  | |- ends _ (run_11 _ _) _ _ _ _ => apply pass_11
  | |- ends _ (run_12 _ _) _ _ _ _ => apply pass_12
  | |- ends _ (run_13 _ _) _ _ _ _ => apply pass_13
  | |- ends _ (run_14 _ _) _ _ _ _ => apply pass_14
  | |- ends _ (run_15 _ _) _ _ _ _ => apply pass_15
  | |- ends _ (run_16 _ _) _ _ _ _ => apply pass_16
  end; first [assumption|lia|reflexivity|discriminate].

Ltac case_tac :=
  first [apply case_passes_intro; pass_tac
        |intros Hn; exfalso; apply Hn; reflexivity].

Lemma mremap_suite_passes : Forall case_passes mremap_suite.
Proof. unfold mremap_suite. repeat (apply Forall_cons; split; [case_tac|]). constructor. Qed.
End Suite.

(** C5.  On every operating system whose memory calls behave as documented and
    that has room for five large ranges, every test of the suite outside the
    undocumented cases 1, 101, 201 and 301 passes: the 48 tests that return do
    so with [NULL] and the signal tests leave through their handler with
    status 0. *)
Theorem mremap_suite_no_false_alarm `{AC : ArchConfig} (K : kernel) {VK : VmKernel K}
  (tc : test_case) (argv : list string) (w : world K) :
  In tc mremap_suite -> num tc mod 100 <> 1 ->
  5 * MREMAP_RANGE_LARGE_SIZE <= room (w_k w) ->
  fst (run K (run_test_case tc argv) w) = passing (num tc).
Proof.
  intros Hin Hn Hr. pose proof (mremap_suite_passes K) as Hall.
  rewrite List.Forall_forall in Hall. now apply (Hall tc Hin Hn).
Qed.

(** The status the process ends with, [None] if a signal kills it. *)
Definition exit_status (o : outcome Z) : option Z :=
  match o with Done n => Some n | Exited n => Some n | Killed _ => None end.

Lemma verdict_passing {K} n (r : outcome result * world K) :
  fst r = passing n -> exit_status (fst (verdict r)) = Some 0.
Proof.
  destruct r as [o w]. cbn [fst]. intros ->. unfold passing. now case_if.
Qed.

(** The whole program: started as [-s mremap_mmap_anon -n number -- args]
    on a documented kernel, with the suite's test registered under its number,
    the process exits with status 0. *)
Theorem mremap_main_exit_0 `{AC : ArchConfig} (K : kernel) {VK : VmKernel K}
  suites tcs the_app number args (tc : test_case) (w : world K) :
  find_test_case tcs "mremap_mmap_anon" (atoi number) = Some tc ->
  In tc mremap_suite -> num tc mod 100 <> 1 -> atoi number <> INT_MIN ->
  5 * MREMAP_RANGE_LARGE_SIZE <= room (w_k w) ->
  exit_status (fst (run K (main suites tcs the_app
    (["-s"; "mremap_mmap_anon"; "-n"; number; "--"] ++ args)%list) w)) = Some 0.
Proof.
  intros Hf Hin Hn Hnum Hr.
  rewrite (run_main_documented K suites tcs the_app _ number (atoi number) args tc) by auto.
  apply verdict_passing with (n := num tc).
  pose proof (mremap_suite_passes K) as Hall. rewrite List.Forall_forall in Hall.
  now apply (Hall tc Hin Hn).
Qed.

(** ** Witnesses, on the reference kernel *)

Lemma ref_room_enough :
  5 * @MREMAP_RANGE_LARGE_SIZE config_64K <=
  @room config_64K _ (@ref_vm_kernel config_64K) (w_k (@ref_world config_64K)).
Proof. vm_compute. discriminate. Qed.

Lemma mremap_suite_no_false_alarm_witness :
  fst (run (@ref_kernel config_64K)
         (run_test_case (@mremap_mmap_anon303 config_64K) ["test_mck"]) (@ref_world config_64K))
  = Exited 0.
Proof.
  refine (@mremap_suite_no_false_alarm config_64K _ (@ref_vm_kernel config_64K)
            mremap_mmap_anon303 ["test_mck"] ref_world _ _ _).
  - apply (nth_error_In _ 54). reflexivity.
  - discriminate.
  - exact ref_room_enough.
Defined.

Lemma mremap_main_exit_0_witness :
  exit_status (fst (run (@ref_kernel config_64K)
    (main ["mremap_mmap_anon"] (@mremap_suite config_64K) "test_mck"
       ["-s"; "mremap_mmap_anon"; "-n"; "207"; "--"]) (@ref_world config_64K))) = Some 0.
Proof.
  refine (@mremap_main_exit_0 config_64K _ (@ref_vm_kernel config_64K) ["mremap_mmap_anon"]
            mremap_suite "test_mck" "207" [] mremap_mmap_anon207 ref_world _ _ _ _ _).
  - reflexivity.
  - apply (nth_error_In _ 41). reflexivity.
  - discriminate.
  - vm_compute. discriminate.
  - exact ref_room_enough.
Defined.
