(* ===== verification/MremapSound.v ===== *)
(** * The [mremap_mmap_anon] suite on an arbitrary kernel

    What a passing test proves about the operating system it ran on, with no
    assumption on that system: exactly one [mremap] was made and it was
    answered as the test demands; the signal tests end through a fault of the
    expected kind; the data check compared every byte. *)
From S2P Require Import Prelude Process Trace Arch CLib TestMck AddrSpace RefKernel.
From S2P Require Import Mremap MremapCases MremapThms.
From Stdlib Require Import Ascii String.
#[local] Open Scope string_scope.
#[local] Open Scope Z_scope.

(** ** The [mremap] calls of a log *)

Definition no_mremap (c : op) : Prop := match c with Mremap _ _ _ _ _ => False | _ => True end.

Definition mremap_answer (e : event) : option Z :=
  match e with Ev (Mremap _ _ _ _ _) r => Some r | _ => None end.

(** The answers to the [mremap] calls of a log, in order. *)
Definition mremap_answers (l : list event) : list Z := omap mremap_answer l.

Lemma mremap_answers_app l1 l2 :
  mremap_answers (l1 ++ l2) = (mremap_answers l1 ++ mremap_answers l2)%list.
Proof. apply list.omap_app. Qed.

Lemma mremap_answers_quiet l : Forall (fun e => no_mremap (ev_op e)) l -> mremap_answers l = [].
Proof.
  unfold mremap_answers.
  induction 1 as [|[c r] l Hc _ IH]; [reflexivity|]. destruct c; cbn in *; try contradiction; auto.
Qed.

#[local] Hint Extern 1 (no_mremap _) => exact I : footprint.

Section Helpers.
Lemma footprint_mma_format i a ps : footprint no_mremap (mma_format i a ps).
Proof.
  revert i a. induction ps as [|p ps IH]; intros i a; cbn [mma_format]; [exact I|].
  unfold munmap, mmap. footprint_tac.
Qed.

Lemma footprint_mremap_mmap_anon ps : footprint no_mremap (mremap_mmap_anon ps).
Proof.
  pose proof footprint_mma_format. unfold mremap_mmap_anon, mmap. footprint_tac.
Qed.

Lemma footprint_data_check a len e : footprint no_mremap (mremap_mmap_anon_data_check a len e).
Proof.
  unfold mremap_mmap_anon_data_check. generalize (Z.to_nat len). intros n. revert a.
  induction n as [|n IH]; intros a; cbn [data_check_from]; [exact I|].
  unfold load. footprint_tac.
Qed.

Lemma footprint_access_check a len : footprint no_mremap (mremap_mmap_anon_access_check a len).
Proof.
  unfold mremap_mmap_anon_access_check, tp_assert, store, load. footprint_tac.
Qed.
End Helpers.

(** ** Verdicts and their evidence *)

(** No signal handler is installed, as when a program starts. *)
Definition no_handlers {K} (w : world K) : Prop := forall n, p_sigs (w_proc w) n = None.

(** On every kernel: when [p] returns [NULL], the answers to its [mremap] calls
    satisfy [N]; when the process exits with [st], the last call was an access
    that raised [s], and [Y st s] holds of the answers before it. *)
Definition good (N : list Z -> Prop) (Y : Z -> Z -> list Z -> Prop) (p : prog result) : Prop :=
  forall K (w : world K), no_handlers w ->
  match fst (run K p w) with
  | Done None => N (mremap_answers (calls K p w))
  | Done (Some _) => True
  | Exited st => exists l a s, calls K p w = (l ++ [Ev (Load a) (inr s)])%list /\ Y st s (mremap_answers l)
  | Killed _ => True
  end.

Section Rules.
Context (N : list Z -> Prop) (Y : Z -> Z -> list Z -> Prop).

Lemma good_quiet {A} (p : prog A) (k : A -> prog result) :
  footprint no_mremap p -> (forall a, good N Y (k a)) -> good N Y (bind p k).
Proof.
  intros Hp Hk K w Hw. rewrite calls_bind, run_bind.
  pose proof (mremap_answers_quiet _ (footprint_calls K _ p w Hp)) as Eq.
  destruct (footprint_outcome K _ p w Hp Hw) as [Hx Hw'].
  destruct (run K p w) as [[a|n|n] w']; cbn in *; [|now destruct (Hx n)|exact I].
  specialize (Hk a K w' Hw'). destruct (fst (run K (k a) w')) as [[m|]|n|n]; auto.
  - now rewrite mremap_answers_app, Eq.
  - destruct Hk as (l & a' & s & -> & HY). exists (calls K p w ++ l)%list, a', s.
    rewrite mremap_answers_app, Eq, app_assoc. auto.
Qed.

Lemma good_assert (b : bool) m k : (b = true -> good N Y k) -> good N Y (tp_assert b (Some m) k).
Proof. intros Hk K w Hw. unfold tp_assert. destruct b; [now apply Hk|exact I]. Qed.

Lemma good_check (p : prog result) (k : prog result) :
  footprint no_mremap p -> good N Y k ->
  good N Y (msg <- p ;; tp_assert! (is_null msg, msg) ;; k).
Proof.
  intros Hp Hk. apply good_quiet; [exact Hp|]. intros [m|]; [now intros K w Hw|exact Hk].
Qed.

Lemma good_null : N [] -> good N Y (Ret None).
Proof. now intros HN K w Hw. Qed.

Lemma good_init ps k : (forall ps, good N Y (k ps)) -> good N Y (init ps k).
Proof.
  intros Hk. apply good_quiet; [apply footprint_mremap_mmap_anon|].
  intros [maps ps']. apply good_assert. intros _. apply Hk.
Qed.

Lemma good_verify a len e k : good N Y k -> good N Y (verify a len e k).
Proof. apply good_check, footprint_data_check. Qed.

Lemma good_access a len : N [] -> good N Y (access a len).
Proof. intros HN. apply good_check; [apply footprint_access_check|now apply good_null]. Qed.

(** Once the handler is installed, only the faulting access exits. *)
Lemma good_signal signum a : Y 0 signum [] -> good N Y (signal signum a).
Proof.
  intros HY K [pr s] Hw. unfold calls. rewrite traced_outcome. unfold tworld.
  unfold signal, mremap_mmap_anon_setup_signal_handler, sigaction, syscall_ret, load.
  cbn. destruct (kstep K (Sigaction signum) s) as [s1 r1]. cbn.
  destruct (r1 =? 0) eqn:E1; cbn.
  - destruct (kstep K (Load a) s1) as [s2 [b|x]]; cbn; [exact I|].
    unfold deliver. cbn. destruct (Z.eqb_spec x signum) as [->|].
    + exists [Ev (Sigaction signum) r1], a, signum. split; [reflexivity|exact HY].
    + unfold no_handlers in Hw. cbn in Hw. now rewrite Hw.
  - destruct (is_err r1); cbn; [exact I|].
    destruct r1; cbn; auto. discriminate.
Qed.
End Rules.

(** The evidence of what follows an [mremap] answered with [r]. *)
Abbreviation good_after N Y r k := (good (fun l => N (r :: l)) (fun st s l => Y st s (r :: l)) k).

Section Remaps.
Context (N : list Z -> Prop) (Y : Z -> Z -> list Z -> Prop).

(** [errno = 0; remap = mremap(...); ...], for every answer of the kernel. *)
Lemma good_mremap a old new flags na (k : Z -> prog result) :
  (forall r, is_err r = false -> good_after N Y r (k r)) ->
  (forall r, is_err r = true ->
     good_after N Y r (set_errno (- r) ;; k MAP_FAILED)) ->
  good N Y (r <- mremap a old new flags na ;; k r).
Proof.
  intros Hok Herr K [pr s] Hw.
  match goal with |- context [run K ?p _] =>
    change p with (Call (Mremap a old new flags na) (fun r => bind (syscall_ret MAP_FAILED r) k))
  end.
  destruct (kstep K (Mremap a old new flags na) s) as [s1 r] eqn:E.
  rewrite (calls_call K _ _ pr s s1 r E). cbn [run w_k]. rewrite E. cbn [w_proc].
  assert (good_after N Y r (bind (syscall_ret MAP_FAILED r) k)) as Hg.
  { unfold syscall_ret. destruct (is_err r) eqn:Er; [apply Herr; exact Er|apply Hok; exact Er]. }
  specialize (Hg K (World pr s1) Hw).
  destruct (fst (run K _ (World pr s1))) as [[m|]|st|n]; auto.
  destruct Hg as (l & a' & sg & -> & HY).
  exists (Ev (Mremap a old new flags na) r :: l), a', sg. split; [reflexivity|exact HY].
Qed.

Lemma is_err_nonzero r : is_err r = true -> - r <> 0.
Proof. unfold is_err. rewrite andb_true_iff, !Z.ltb_lt. lia. Qed.

(** Nothing passes the second assertion with [errno] set. *)
Lemma good_errno_set r (k : prog result) :
  is_err r = true ->
  good N Y (set_errno (- r) ;; e <- errno ;; tp_assert! (e =? 0, Some "invalid errno.") ;; k).
Proof.
  intros Hr K w Hw. cbn. unfold tp_assert.
  now rewrite (proj2 (Z.eqb_neq _ _) (is_err_nonzero r Hr)).
Qed.

Lemma good_set_errno e (k : prog result) : good N Y k -> good N Y (set_errno e ;; k).
Proof. intros Hk. apply good_quiet; auto with footprint. Qed.

Lemma good_read_errno (k : Z -> prog result) : (forall e, good N Y (k e)) -> good N Y (e <- errno ;; k e).
Proof. intros Hk. apply good_quiet; auto with footprint. Qed.
End Remaps.

Section RemapBlocks.
Context (N : list Z -> Prop) (Y : Z -> Z -> list Z -> Prop).

Lemma good_remap_ok a old new flags k :
  (forall r, is_err r = false -> good_after N Y r (k r)) -> good N Y (remap_ok a old new flags k).
Proof.
  intros Hk. apply good_set_errno, good_mremap; intros r Hr.
  - apply good_assert. intros _. apply good_read_errno. intros e. apply good_assert. auto.
  - apply good_set_errno. apply good_assert. rewrite Z.eqb_refl. discriminate.
Qed.

Lemma good_remap_fixed a old new na k :
  (forall r, is_err r = false -> good_after N Y r (k r)) -> good N Y (remap_fixed a old new na k).
Proof.
  intros Hk. apply good_set_errno, good_mremap; intros r Hr.
  - apply good_assert. intros _. apply good_read_errno. intros e. apply good_assert. auto.
  - unfold tp_assert at 1. destruct (MAP_FAILED =? na).
    + now apply good_errno_set.
    + now intros K w Hw.
Qed.

Lemma good_remap_fail a old new flags na err :
  0 < err -> N [- err] -> good N Y (remap_fail a old new flags na err).
Proof.
  intros He HN K [pr s] Hw. unfold calls. rewrite traced_outcome.
  unfold tworld, remap_fail, mremap, syscall_ret, tp_assert.
  cbn. destruct (kstep K (Mremap a old new flags na) s) as [s1 r]. cbn.
  destruct (is_err r) eqn:Er; cbn; [rewrite Z.eqb_refl; cbn|].
  - destruct (Z.eqb_spec (- r) err) as [<-|]; cbn; [|exact I].
    now rewrite Z.opp_involutive in HN.
  - destruct (r =? MAP_FAILED); cbn; [|exact I].
    destruct err; [lia|exact I|exact I].
Qed.
End RemapBlocks.

(** ** The suite *)

(** The error number a test demands of [mremap], and the signal it demands of
    the access at its end. *)
Definition expected_error (n : Z) : option Z :=
  let c := n mod 100 in
  if c =? 4 then Some ENOMEM else if (8 <=? c) && (c <=? 11) then Some EINVAL else None.

Definition expected_signal (n : Z) : option Z :=
  if (n =? 103) || (n =? 105) || (n =? 303) || (n =? 305) then Some SIGBUS
  else if 14 <=? n mod 100 then Some SIGSEGV else None.

Definition answer_ok (n r : Z) : Prop :=
  match expected_error n with Some e => r = - e | None => is_err r = false end.

(** What the log of test [n] shows when the test passes. *)
Definition evidence (n : Z) (log : list event) : Prop :=
  exists l r, mremap_answers l = [r] /\ answer_ok n r /\
  match expected_signal n with
  | None => log = l
  | Some s => exists a, log = (l ++ [Ev (Load a) (inr s)])%list
  end.

(** The two predicates of [good] that make the evidence for test [n]. *)
Definition goodN (n : Z) (l : list Z) : Prop :=
  expected_signal n = None /\ exists r, l = [r] /\ answer_ok n r.
Definition goodY (n st s : Z) (l : list Z) : Prop :=
  st = 0 /\ expected_signal n = Some s /\ exists r, l = [r] /\ answer_ok n r.

Section SuiteSound.
Context `{AC : ArchConfig}.

Definition case_sound (tc : test_case) : Prop :=
  forall K argv (w : world K), no_handlers w ->
  match fst (run K (run_test_case tc argv) w) with
  | Done (Some _) | Killed _ => True
  | o => o = passing (num tc) /\ evidence (num tc) (calls K (run_test_case tc argv) w)
  end.

Lemma passing_signal n :
  passing n = match expected_signal n with Some _ => Exited 0 | None => Done None end.
Proof.
  unfold passing, expected_signal.
  destruct (14 <=? n mod 100), (n =? 103), (n =? 105), (n =? 303), (n =? 305); reflexivity.
Qed.

Lemma calls_mremap_case K n p argv (w : world K) :
  calls K (run_test_case (mremap_case n p) argv) w = calls K p w.
Proof.
  unfold run_test_case, mremap_case, run_const, SETUP_ALIAS, TEARDOWN_EMPTY.
  cbn. rewrite calls_bind. rewrite calls_bind.
  destruct (run K p w) as [[r|m|m] w'] eqn:E; rewrite run_bind, E; cbn; now rewrite ?app_nil_r.
Qed.

Lemma case_sound_intro n p : good (goodN n) (goodY n) p -> case_sound (mremap_case n p).
Proof.
  intros Hg K argv w Hw. specialize (Hg K w Hw). rewrite calls_mremap_case.
  rewrite (run_mremap_case K n p argv w _ eq_refl). cbn [num mremap_case].
  rewrite passing_signal. unfold evidence, goodN, goodY in *.
  destruct (fst (run K p w)) as [[m|]|st|s]; auto.
  - destruct Hg as (-> & r & E & Hr). split; [reflexivity|]. eauto.
  - destruct Hg as (l & a & s & -> & -> & -> & r & E & Hr). split; [reflexivity|].
    exists l, r. eauto.
Qed.

Ltac good_tac :=
  unfold run_00, run_01, run_02, run_03, run_03_bus, run_04, run_05, run_05_bus, run_06, run_07,
    run_08, run_09, run_10, run_11, run_12, run_13, run_14, run_15, run_16; cbv zeta;
  repeat match goal with
  | |- good _ _ (init _ _) => apply good_init; intros
  | |- good _ _ (bind (sysconf _) _) =>
      apply good_quiet; [unfold sysconf; footprint_tac|intros]
  | |- good _ _ (remap_ok _ _ _ _ _) => apply good_remap_ok; intros
  | |- good _ _ (remap_fixed _ _ _ _ _) => apply good_remap_fixed; intros
  | |- good _ _ (remap_fail _ _ _ _ _ _) => apply good_remap_fail; [reflexivity|]
  | |- good _ _ (verify _ _ _ _) => apply good_verify
  | |- good _ _ (access _ _) => apply good_access
  | |- good _ _ (signal _ _) => apply good_signal
  end;
  repeat first [reflexivity|eassumption|split|eexists].

Lemma mremap_suite_sound : Forall case_sound mremap_suite.
Proof.
  unfold mremap_suite.
  repeat (apply Forall_cons; split; [apply case_sound_intro; good_tac|]). constructor.
Qed.
End SuiteSound.



(** ** The data check *)

Definition load_answer (e : event) : option (Z + Z) :=
  match e with Ev (Load _) r => Some r | _ => None end.

(** The loads of the range, each answered with [exp]. *)
Definition loads (a : Z) (n : nat) (exp : Z) : list event :=
  map (fun i => Ev (Load (a + Z.of_nat i)) (inl exp)) (seq 0 n).

Lemma loads_S a n exp : loads a (S n) exp = Ev (Load a) (inl exp) :: loads (a + 1) n exp.
Proof.
  unfold loads. cbn [seq map]. rewrite Z.add_0_r. f_equal.
  rewrite <- seq_shift, map_map. apply map_ext. intros i.
  now replace (a + Z.of_nat (S i)) with (a + 1 + Z.of_nat i) by lia.
Qed.

(** [mremap_mmap_anon_data_check] returns [NULL] exactly when it read
    every byte of the range, in order, and each read answered [exp]; on any
    operating system. *)
Theorem data_check_exact K a len exp (w : world K) :
  fst (run K (mremap_mmap_anon_data_check a len exp) w) = Done None <->
  calls K (mremap_mmap_anon_data_check a len exp) w = loads a (Z.to_nat len) exp.
Proof.
  unfold mremap_mmap_anon_data_check. generalize (Z.to_nat len). intros n.
  destruct w as [pr s]. revert a s. induction n as [|n IH]; intros a s; [easy|].
  rewrite loads_S. cbn [data_check_from].
  match goal with |- context [run K ?p _] =>
    change p with (Call (Load a) (fun r => bind (or_raise r) (fun ch =>
      if negb (ch =? exp) then Ret (Some "data check error.") else data_check_from (a + 1) n exp)))
  end.
  destruct (kstep K (Load a) s) as [s1 r] eqn:E. rewrite (calls_call K _ _ pr s s1 r E).
  cbn [run w_k w_proc]. rewrite E. destruct r as [b|sg]; cbn [or_raise bind].
  - destruct (Z.eqb_spec b exp) as [->|Hb]; cbn [negb].
    + rewrite IH. split; [now intros ->|now intros [= ->]].
    + split; [discriminate|]. intros H. apply (f_equal (fun l => load_answer <$> head l)) in H.
      cbn in H. congruence.
  - split; [|intros H; apply (f_equal (fun l => load_answer <$> head l)) in H; discriminate].
    cbn. unfold deliver. now destruct (p_sigs pr sg) as [[]|].
Qed.
