(* ===== verification/Numa.v ===== *)
(** * NUMA helpers: [test_mck/src/numa.c]

    Argument parsing, node mask arrays on the heap, [node_mask_check] and
    [mbind_check], and the blocks shared by the test cases of the suites
    [mbind], [get_mempolicy] and [set_mempolicy]. *)
From S2P Require Import Prelude Process Trace Arch CLib TestMck AddrSpace.
From Stdlib Require Import Ascii String.
#[local] Open Scope string_scope.
#[local] Open Scope Z_scope.

(** ** Constants of [<numaif.h>] and [numa.h] *)

Definition MPOL_DEFAULT : Z := 0.
Definition MPOL_PREFERRED : Z := 1.
Definition MPOL_BIND : Z := 2.
Definition MPOL_INTERLEAVE : Z := 3.
Definition MPOL_F_NODE : Z := 1.
Definition MPOL_F_ADDR : Z := 2.
Definition MPOL_F_MEMS_ALLOWED : Z := 4.
Definition MPOL_MF_STRICT : Z := 1.
Definition MPOL_MF_MOVE : Z := 2.
Definition MPOL_MF_MOVE_ALL : Z := 4.
Definition BITS_PER_BYTE : Z := 8.
Definition BITS_PER_LONG : Z := 8 * BITS_PER_BYTE.
Definition MPOL_F_STATIC_NODES : Z := Z.shiftl 1 15.
Definition MPOL_F_RELATIVE_NODES : Z := Z.shiftl 1 14.
Definition NUM_REGION : nat := 7.

Record mbind_args := MbindArgs { a_mode : Z; a_node_mask : Z; npoff : Z; a_len : Z }.
Record mbind_expect := MbindExpect { e_mode : Z; e_node_mask : Z }.

(** ** System calls *)

Definition mbind (addr len mode : Z) (nmask : option (list Z)) (maxnode flags : Z) : prog Z :=
  r <- trigger (Mbind addr len mode nmask maxnode flags) ;; syscall_ret (-1) r.
Definition set_mempolicy (mode : Z) (nmask : option (list Z)) (maxnode : Z) : prog Z :=
  r <- trigger (SetMempolicy mode nmask maxnode) ;; syscall_ret (-1) r.
(** The result, and the contents of [*mode] and of the mask words afterwards.
    [mode] says whether the first argument is not [NULL]. *)
Definition get_mempolicy (mode : bool) (nmask : option (list Z)) (maxnode addr flags : Z)
  : prog (Z * (Z * list Z)) :=
  r <- trigger (GetMempolicy mode nmask maxnode addr flags) ;;
  ret <- syscall_ret (-1) (fst r) ;;
  Ret (ret, snd r).

(** ** [numa.c] *)

Fixpoint arg_options (evs : list optev) (max_node : Z) : Z :=
  match evs with
  | [] => max_node
  | Opt c optarg :: evs' =>
      arg_options evs' (if Ascii.eqb c "n" then cv_val (strtoul optarg 0) else max_node)
  | OptErr :: evs' => arg_options evs' max_node
  end.

(** [tc_argv] holds the program name first. *)
Definition arg_analyze (tc_argv : list string) : Z :=
  arg_options (fst (getopt "n:" (tail tc_argv))) 0.

Definition usage_print : prog unit :=
  printf "Usage: ./test_mck -s test_suite -n test_number [-h] -- -n max_node\n" [] ;;
  printf "\n  -n max_node\tnumber of actually mounted nodes\n" [].

(** A heap array of [unsigned long]: its address and its words. *)
Definition harray : Type := Z * list Z.

(** The array, [None] for [NULL], and the number of its words. *)
Definition create_node_mask (max_node : Z) : prog (option harray * Z) :=
  let nr := u64 (u64 (max_node + BITS_PER_LONG) - 1) / BITS_PER_LONG in
  let nr := if nr =? 0 then 1 else nr in
  p <- malloc (u64 (nr * 8)) ;;
  if p =? NULL then Ret (None, nr)
  else Ret (Some (p, repeat 0 (Z.to_nat nr)), nr).

Definition destroy_node_mask (node_mask : option harray) : prog unit :=
  free (match node_mask with Some (p, _) => p | None => NULL end).

Definition word (ws : list Z) (i : nat) : Z := nth i ws 0.
Definition set_word0 (x : Z) (ws : list Z) : list Z :=
  match ws with [] => [] | _ :: ws => x :: ws end.

(** The number of rounds of [for (i = nr - 1; i >= 0; i--)] with [int i]. *)
Definition rounds (nr : Z) : nat := Z.to_nat (i32 (u64 (nr - 1)) + 1).

Section Shift.
  (** What the compiled code computes for [1 << n] on [int] when the result
      does not fit (undefined in C). *)
  Context (shl_overflow : Z -> Z).

  (** [1 << n] on [int]. *)
Definition int_shl1 (n : Z) : Z := if n <? 31 then Z.shiftl 1 n else i32 (shl_overflow n).

  (** [(1 << n) - 1] on [int], converted to [unsigned long]. *)
Definition low_mask (n : Z) : Z := u64 (i32 (int_shl1 n - 1)).

  (** The loop of [node_mask_check] over the words [n - 1 .. 0]; [last] is the
      index of the last word, [nr_node_mask - 1]. *)
Fixpoint node_mask_loop (ws : list Z) (n : nat) (last num_bits : Z) : Z :=
  match n with
  | O => 0
  | S i =>
      if Z.of_nat i =? last then
        if negb (word ws i =? low_mask (num_bits mod BITS_PER_LONG)) then -1
        else node_mask_loop ws i last num_bits
      else
        if negb (u64 (Z.lnot (word ws i)) =? 0) then -1
        else node_mask_loop ws i last num_bits
  end.

Definition node_mask_check (ws : list Z) (nr_node_mask num_bits : Z) : Z :=
  node_mask_loop ws (rounds nr_node_mask) (u64 (nr_node_mask - 1)) num_bits.
End Shift.

Section Check.
  Context `{ArchConfig}.

  (** Region [i] and the following ones; [n] regions remain. *)
Fixpoint mbind_check_from (i : Z) (m_expect : list mbind_expect) (ws : list Z)
  (max_node ptr flags : Z) : prog (Z * list Z) :=
  match m_expect with
  | [] => Ret (0, ws)
  | e :: es =>
      printf "region %d\n" [PZ i] ;;
      let ws := set_word0 0 ws in
      let* (i_ret, (mode, ws)) := get_mempolicy true (Some ws) max_node (u64 (ptr + PAGE_SIZE * i)) flags in
      if i_ret =? -1 then printf "mbind error\n" [] ;; Ret (-1, ws)
      else
        printf "get      : mode = %d, node_mask = %lu\n" [PZ mode; PZ (word ws 0)] ;;
        printf "m_expect : mode = %d, node_mask = %lu\n\n" [PZ (e_mode e); PZ (e_node_mask e)] ;;
        if negb (mode =? e_mode e) then printf "m_expect mode error\n" [] ;; Ret (-1, ws)
        else if negb (word ws 0 =? e_node_mask e) then
          printf "m_expect node_mask error\n" [] ;; Ret (-1, ws)
        else mbind_check_from (i + 1) es ws max_node ptr flags
  end.

  (** The loop runs over [NUM_REGION] regions, the length of [m_expect]; the
      words of the mask are left changed. *)
Definition mbind_check (m_expect : list mbind_expect) (ws : list Z) (max_node ptr flags : Z)
  : prog (Z * list Z) :=
  mbind_check_from 0 (firstn NUM_REGION m_expect) ws max_node ptr flags.
End Check.

(** ** Static variables and shared blocks of the test cases *)

(** The static variables of the test files: [max_node], [node_mask] and
    [nr_node_mask], the second mask of some files ([mbind_node_mask] or
    [set_node_mask]) and the mapping [buf]. *)
Record numa_mem := NumaMem {
  max_node : Z;
  node_mask : option harray;
  nr_node_mask : Z;
  node_mask2 : option harray;
  buf : Z;
}.

Definition numa_mem0 : numa_mem := NumaMem 0 None 0 None MAP_FAILED.

Definition with_mask (a : option harray) (nr : Z) (m : numa_mem) : numa_mem :=
  NumaMem (max_node m) a nr (node_mask2 m) (buf m).
Definition with_mask2 (a : option harray) (nr : Z) (m : numa_mem) : numa_mem :=
  NumaMem (max_node m) (node_mask m) nr a (buf m).
Definition with_buf (b : Z) (m : numa_mem) : numa_mem :=
  NumaMem (max_node m) (node_mask m) (nr_node_mask m) (node_mask2 m) b.
Definition words (a : option harray) : list Z := match a with Some (_, ws) => ws | None => [] end.
(** Assigning through the pointer [node_mask]. *)
Definition with_words (ws : list Z) (m : numa_mem) : numa_mem :=
  with_mask (match node_mask m with Some (p, _) => Some (p, ws) | None => None end)
    (nr_node_mask m) m.
Definition with_words2 (ws : list Z) (m : numa_mem) : numa_mem :=
  with_mask2 (match node_mask2 m with Some (p, _) => Some (p, ws) | None => None end)
    (nr_node_mask m) m.
Definition allocated (a : option harray) : bool := match a with Some _ => true | None => false end.

Definition numa_run : Type := prog (result * numa_mem).

(** [max_node = arg_analyze(tc_argc, tc_argv);] *)
Definition numa_setup (tc_num : Z) (tc_argv : list string) : prog numa_mem :=
  Ret (NumaMem (arg_analyze tc_argv) None 0 None MAP_FAILED).
(** [SETUP_EMPTY] in a file with static variables. *)
Definition numa_setup_empty (tc_num : Z) (tc_argv : list string) : prog numa_mem := Ret numa_mem0.

(** [/* max_node check */] *)
Definition check_nonzero (m : numa_mem) (k : numa_run) : numa_run :=
  if max_node m =? 0 then usage_print ;; Ret (Some "max_node = 0", m) else k.
Definition check_at_least (n : Z) (text : string) (m : numa_mem) (k : numa_run) : numa_run :=
  if max_node m <? n then printf text [] ;; Ret (Some "max_node error", m) else k.
Definition two_or_more : string := "this TP is must have max_node of 2 or more.\n".
Definition four_or_more : string := "this TP is must have max_node of 4 or more.\n".

(** [/* create node_mask and tpassert(node_mask malloc) */] *)
Definition new_node_mask (n : Z) (m : numa_mem) (k : numa_mem -> numa_run) : numa_run :=
  let* (a, nr) := create_node_mask n in
  let m := with_mask a nr m in
  tp_assert! (allocated a, (Some "node_mask malloc error", m)) ;;
  k m.
Definition new_node_mask2 (n : Z) (msg : string) (m : numa_mem) (k : numa_mem -> numa_run) : numa_run :=
  let* (a, nr) := create_node_mask n in
  let m := with_mask2 a nr m in
  tp_assert! (allocated a, (Some msg, m)) ;;
  k m.

(** [l_ret = ...; tp_assert(l_ret==0, msg)] *)
Definition expect_zero (p : prog Z) (msg : string) (m : numa_mem) (k : numa_run) : numa_run :=
  l_ret <- p ;;
  tp_assert! (l_ret =? 0, (Some msg, m)) ;;
  k.
(** [l_ret = ...; tp_assert(l_ret==-1, msg1); tp_assert(errno==err, msg2)] *)
Definition expect_errno (p : prog Z) (msg1 : string) (err : Z) (msg2 : string) (m : numa_mem)
  (k : numa_run) : numa_run :=
  l_ret <- p ;;
  tp_assert! (l_ret =? -1, (Some msg1, m)) ;;
  e <- errno ;;
  tp_assert! (e =? err, (Some msg2, m)) ;;
  k.

(** [get_mempolicy(&mode, node_mask, maxnode, addr, flags)] on the static mask,
    and [tp_assert(i_ret==0, msg)]. *)
Definition get_policy (mode : bool) (maxnode addr flags : Z) (msg : string) (m : numa_mem)
  (k : Z -> numa_mem -> numa_run) : numa_run :=
  let* (i_ret, (mode, ws)) :=
    get_mempolicy mode (snd <$> node_mask m) maxnode addr flags in
  let m := with_words ws m in
  tp_assert! (i_ret =? 0, (Some msg, m)) ;;
  k mode m.
(** The same with [NULL] and 0 for the mask. *)
Definition get_mode (mode : bool) (addr flags : Z) (msg : string) (m : numa_mem)
  (k : Z -> numa_run) : numa_run :=
  let* (i_ret, (mode, _)) := get_mempolicy mode None 0 addr flags in
  tp_assert! (i_ret =? 0, (Some msg, m)) ;;
  k mode.

(** The loop that prints the words [n - 1 .. 0] and asserts that each is 0. *)
Fixpoint zero_mask_loop (n : nat) (ws : list Z) (m : numa_mem) (k : numa_run) : numa_run :=
  match n with
  | O => k
  | S i =>
      printf " %lu" [PZ (word ws i)] ;;
      tp_assert! (word ws i =? 0, (Some "\nnode_mask != 0", m)) ;;
      zero_mask_loop i ws m k
  end.
Definition zero_mask (m : numa_mem) (k : numa_run) : numa_run :=
  printf "nodemask =" [] ;;
  zero_mask_loop (rounds (nr_node_mask m)) (words (node_mask m)) m
    (printf "\n" [] ;; k).

(** The loop that prints the words of a mask. *)
Fixpoint print_words (n : nat) (ws : list Z) : prog unit :=
  match n with
  | O => Ret tt
  | S i => printf " %lu" [PZ (word ws i)] ;; print_words i ws
  end.
Definition print_mask (name : string) (m : numa_mem) (ws : list Z) : prog unit :=
  printf name [] ;; print_words (rounds (nr_node_mask m)) ws ;; printf "\n" [].

Definition ok (m : numa_mem) : numa_run := Ret (None, m).

(** The teardown functions. *)
Definition free_mask (tc_num : Z) (m : numa_mem) : prog unit := destroy_node_mask (node_mask m).
Definition free_masks (tc_num : Z) (m : numa_mem) : prog unit :=
  destroy_node_mask (node_mask m) ;; destroy_node_mask (node_mask2 m).
Definition free_mask2 (tc_num : Z) (m : numa_mem) : prog unit := destroy_node_mask (node_mask2 m).
