(* ===== verification/NumaCases.v ===== *)
(** * The suite [mbind]

    The test cases of [test_mck/src/mbind], in the order of their numbers.
    The common blocks are in [Numa]. *)
From S2P Require Import Prelude Process Arch CLib TestMck AddrSpace Numa.
From Stdlib Require Import Ascii String.
#[local] Open Scope string_scope.
#[local] Open Scope Z_scope.

Definition numa_case (suite : string) (n : Z) (setup : Z -> list string -> prog numa_mem)
  (run : numa_mem -> numa_run) (teardown : Z -> numa_mem -> prog unit) : test_case :=
  TestCase suite n numa_mem setup (fun _ m => run m) teardown.

(** The first word of [node_mask]. *)
Definition mask0 (m : numa_mem) : Z := word (words (node_mask m)) 0.
Definition with_mask0 (x : Z) (m : numa_mem) : numa_mem :=
  with_words (set_word0 x (words (node_mask m))) m.

Section Cases.
  Context `{ArchConfig}.
  (** the address of the local array [tmp_buf] (or [buf]) on the stack *)
  Context (tmp_buf : Z).
  (** see [int_shl1] *)
  Context (shl_overflow : Z -> Z).

  (** [buf = (char* )(((unsigned long)tmp_buf + PAGE_SIZE - 1) & ~(PAGE_SIZE - 1))] *)
Definition page_buf : Z := align_up tmp_buf PAGE_SIZE.

(** ** [mbind] *)

Definition mbind_run_000 (m : numa_mem) : numa_run :=
  check_nonzero m (check_at_least 2 two_or_more m (
  new_node_mask (max_node m) m (fun m =>
  expect_zero (mbind page_buf PAGE_SIZE MPOL_BIND (Some [0x03]) BITS_PER_LONG 0)
    "mbind(mode=MPOL_BIND) error" m (
  get_policy true (max_node m) page_buf MPOL_F_ADDR
    "get_mempolicy1(flags=MPOL_F_ADDR) error" m (fun mode m =>
  tp_assert! (mode =? MPOL_BIND, (Some "mode != MPOL_BIND", m)) ;;
  tp_assert! (mask0 m =? 0x03, (Some "node_mask != mbind_node_mask", m)) ;;
  let m := with_mask0 0 m in
  expect_zero (mbind page_buf PAGE_SIZE MPOL_DEFAULT None 0 0)
    "mbind(mode=MPOL_DEFAULT) error" m (
  let m := with_mask0 0x01 m in
  get_policy true (max_node m) page_buf MPOL_F_ADDR
    "get_mempolicy2(flags=MPOL_F_ADDR) error" m (fun mode m =>
  tp_assert! (mode =? MPOL_DEFAULT, (Some "mode != MPOL_DEFAULT", m)) ;;
  zero_mask m (ok m)))))))).

Definition mbind_run_001 (m : numa_mem) : numa_run :=
  expect_errno (mbind (page_buf + 1) PAGE_SIZE MPOL_DEFAULT None 0 0)
    "mbind not failed" EINVAL "errno != EINVAL" m (ok m).

Definition mbind_run_002 (m : numa_mem) : numa_run :=
  expect_zero (mbind page_buf 0 MPOL_DEFAULT None 0 0) "mbind error" m (ok m).

Definition mbind_run_003 (m : numa_mem) : numa_run :=
  let len := Z.land ULONG_MAX (u64 (Z.lnot (PAGE_SIZE - 1))) in
  expect_errno (mbind page_buf len MPOL_DEFAULT None 0 0)
    "mbind not failed" EINVAL "errno != EINVAL" m (ok m).

Definition mbind_run_004 (m : numa_mem) : numa_run :=
  check_nonzero m (check_at_least 2 two_or_more m (
  expect_errno (mbind page_buf PAGE_SIZE MPOL_DEFAULT (Some [0x03]) 0 0)
    "mbind not failed" EINVAL "errno != EINVAL" m (ok m))).

  (** Tests 5, 10, 11, 24 and 28: set a policy, read it back. *)
Definition mbind_set_get (mode mask flags exp : Z) (msg1 msg2 msg3 : string) (m : numa_mem)
  : numa_run :=
  check_nonzero m (check_at_least 2 two_or_more m (
  new_node_mask (max_node m) m (fun m =>
  expect_zero (mbind page_buf PAGE_SIZE mode (Some [mask]) BITS_PER_LONG flags) msg1 m (
  get_policy true (max_node m) page_buf MPOL_F_ADDR
    "get_mempolicy(flags=MPOL_F_ADDR) error" m (fun mode' m =>
  tp_assert! (mode' =? mode, (Some msg2, m)) ;;
  tp_assert! (mask0 m =? exp, (Some msg3, m)) ;;
  ok m))))).

Definition mbind_run_005 : numa_mem -> numa_run :=
  mbind_set_get MPOL_BIND 0x03 0 0x03 "mbind(mode=MPOL_BIND) error" "mode != MPOL_BIND"
    "node_mask != mbind_node_mask".

Definition mbind_run_006 (m : numa_mem) : numa_run :=
  check_nonzero m (
  expect_errno (mbind page_buf PAGE_SIZE MPOL_BIND None (max_node m) 0)
    "mbind not failed" EINVAL "errno not EINVAL" m (ok m)).

Definition mbind_run_007 (m : numa_mem) : numa_run :=
  check_nonzero m (check_at_least 4 four_or_more m (
  new_node_mask (max_node m) m (fun m =>
  expect_zero (mbind page_buf PAGE_SIZE MPOL_BIND (Some [0x0F]) 2 0)
    "mbind(mode=MPOL_BIND) error" m (
  get_policy true (max_node m) page_buf MPOL_F_ADDR
    "get_mempolicy(flags=MPOL_F_ADDR) error" m (fun mode m =>
  tp_assert! (mode =? MPOL_BIND, (Some "mode != MPOL_BIND", m)) ;;
  printf "mbind_node_mask = %lu\nnode_mask = %lu\n" [PZ 0x0F; PZ (mask0 m)] ;;
  tp_assert! (mask0 m =? 0x01, (Some "node_mask != 0x03", m)) ;;
  ok m))))).

Definition mbind_run_008 (m : numa_mem) : numa_run :=
  check_nonzero m (check_at_least 4 four_or_more m (
  expect_errno (mbind page_buf PAGE_SIZE MPOL_BIND (Some [0x0C]) 2 0)
    "mbind not failed" EINVAL "errno not EINVAL" m (ok m))).

Definition mbind_run_009 (m : numa_mem) : numa_run :=
  check_nonzero m (check_at_least 2 two_or_more m (
  expect_errno (mbind page_buf PAGE_SIZE MPOL_BIND (Some [0x03]) 0 0)
    "mbind not failed" EINVAL "errno not EINVAL" m (ok m))).

Definition mbind_run_010 : numa_mem -> numa_run :=
  mbind_set_get (Z.lor MPOL_BIND MPOL_F_STATIC_NODES) 0x03 0 0x03 "mbind(mode=MPOL_BIND) error"
    "mode != (MPOL_BIND|MPOL_F_STATIC_NODES)" "node_mask != mbind_node_mask".

Definition mbind_run_011 : numa_mem -> numa_run :=
  mbind_set_get (Z.lor MPOL_BIND MPOL_F_RELATIVE_NODES) 0x03 0 0x03 "mbind(mode=MPOL_BIND) error"
    "mode != (MPOL_BIND|MPOL_F_RELATIVE_NODES)" "node_mask != mbind_node_mask".

Definition mbind_run_012 (m : numa_mem) : numa_run :=
  check_nonzero m (check_at_least 2 two_or_more m (
  expect_errno (mbind page_buf PAGE_SIZE
      (Z.lor (Z.lor MPOL_BIND MPOL_F_STATIC_NODES) MPOL_F_RELATIVE_NODES) (Some [0x03])
      BITS_PER_LONG 0)
    "mbind not failed" EINVAL "errno not EINVAL" m (ok m))).

  (** The loop that fills the mask of tests [mbind] 13 and [set_mempolicy] 12. *)
Definition fill_mask (nr max_node : Z) : list Z :=
  map (fun i => if Nat.eqb i (Z.to_nat nr - 1)
                then low_mask shl_overflow (max_node mod BITS_PER_LONG + 1)
                else ULONG_MAX)
      (seq 0 (Z.to_nat nr)).

Definition mbind_run_013 (m : numa_mem) : numa_run :=
  check_nonzero m (
  new_node_mask (u64 (max_node m + 1)) m (fun m =>
  new_node_mask2 (u64 (max_node m + 1)) "mbind_node_mask malloc error" m (fun m =>
  let m := with_words2 (fill_mask (nr_node_mask m) (max_node m)) m in
  print_mask "mbind_node_mask =" m (words (node_mask2 m)) ;;
  expect_zero (mbind page_buf PAGE_SIZE MPOL_BIND (snd <$> node_mask2 m) (u64 (max_node m + 1)) 0)
    "mbind error" m (
  get_policy true (u64 (max_node m + 1)) page_buf MPOL_F_ADDR "get_mempolicy error" m (fun mode m =>
  tp_assert! (mode =? MPOL_BIND, (Some "mode != MPOL_BIND", m)) ;;
  print_mask "node_mask =" m (words (node_mask m)) ;;
  tp_assert! (node_mask_check shl_overflow (words (node_mask m)) (nr_node_mask m) (max_node m) =? 0,
              (Some "node_mask error", m)) ;;
  ok m))))).

Definition sys_max_node : Z := u64 (PAGE_SIZE * BITS_PER_BYTE).

Definition mbind_run_014 (m : numa_mem) : numa_run :=
  new_node_mask2 (sys_max_node + 1) "mbind_node_mask malloc error" m (fun m =>
  let m := with_words2 (set_word0 0x01 (words (node_mask2 m))) m in
  expect_errno (mbind page_buf PAGE_SIZE MPOL_BIND (snd <$> node_mask2 m) (sys_max_node + 2) 0)
    "mbind not failed" EINVAL "errno != EINVAL" m (ok m)).

  (** Tests 15 to 23: bind several regions of a mapping one after the other,
      then compare the policy of each page with a table. *)
Fixpoint mbind_regions (i : Z) (args : list mbind_args) (m : numa_mem) (k : numa_mem -> numa_run)
  : numa_run :=
  match args with
  | [] => k m
  | a :: args =>
      let addr := u64 (buf m + npoff a * PAGE_SIZE) in
      l_ret <- mbind addr (a_len a) (a_mode a) (Some [a_node_mask a]) BITS_PER_LONG 0 ;;
      if negb (l_ret =? 0) then
        e <- errno ;; printf "count = %d\nerrno = %d\n" [PZ i; PZ e] ;;
        Ret (Some "mbind error", m)
      else
        let* (i_ret, (mode, ws)) :=
          get_mempolicy true (Some (set_word0 0 (words (node_mask m)))) (max_node m) addr
            MPOL_F_ADDR in
        let m := with_words ws m in
        if negb (i_ret =? 0) then
          e <- errno ;; printf "count = %d\nerrno = %d\n" [PZ i; PZ e] ;;
          Ret (Some "get_mempolicy error", m)
        else mbind_regions (i + 1) args m k
  end.

Definition region_len : Z := u64 (PAGE_SIZE * Z.of_nat NUM_REGION).

Definition mbind_table (m_args : list mbind_args) (m_expect : list mbind_expect) (m : numa_mem)
  : numa_run :=
  b <- mmap 0 region_len (Z.lor PROT_READ PROT_WRITE) (Z.lor MAP_PRIVATE MAP_ANONYMOUS) (-1) 0 ;;
  let m := with_buf b m in
  check_nonzero m (check_at_least 2 two_or_more m (
  new_node_mask (max_node m) m (fun m =>
  mbind_regions 0 m_args m (fun m =>
  let* (i_ret, ws) := mbind_check m_expect (words (node_mask m)) (max_node m) (buf m) MPOL_F_ADDR in
  let m := with_words ws m in
  tp_assert! (i_ret =? 0, (Some "mbind check error", m)) ;;
  munmap (buf m) region_len ;;
  ok (with_buf MAP_FAILED m))))).

Definition free_mask_buf (len : Z) (tc_num : Z) (m : numa_mem) : prog unit :=
  destroy_node_mask (node_mask m) ;;
  if negb (buf m =? MAP_FAILED) then munmap (buf m) len ;; Ret tt else Ret tt.

Definition inter (off n : Z) : mbind_args := MbindArgs MPOL_INTERLEAVE 0x03 off (n * PAGE_SIZE).
Definition bind1 (off n : Z) : mbind_args := MbindArgs MPOL_BIND 0x01 off (n * PAGE_SIZE).
Definition pref (off n : Z) : mbind_args := MbindArgs MPOL_PREFERRED 0x02 off (n * PAGE_SIZE).
Definition e_def : mbind_expect := MbindExpect MPOL_DEFAULT 0x00.
Definition e_bind : mbind_expect := MbindExpect MPOL_BIND 0x01.
Definition e_inter : mbind_expect := MbindExpect MPOL_INTERLEAVE 0x03.
Definition e_pref : mbind_expect := MbindExpect MPOL_PREFERRED 0x02.

Definition args_015 : list mbind_args := [inter 2 3; bind1 0 1].
Definition expect_015 : list mbind_expect := [e_bind; e_def; e_inter; e_inter; e_inter; e_def; e_def].
Definition args_016 : list mbind_args := [inter 1 3; bind1 1 3].
Definition expect_016 : list mbind_expect := [e_def; e_bind; e_bind; e_bind; e_def; e_def; e_def].
Definition args_017 : list mbind_args := [inter 1 3; bind1 0 5].
Definition expect_017 : list mbind_expect := [e_bind; e_bind; e_bind; e_bind; e_bind; e_def; e_def].
Definition args_018 : list mbind_args := [inter 1 3; bind1 0 2].
Definition expect_018 : list mbind_expect := [e_bind; e_bind; e_inter; e_inter; e_def; e_def; e_def].
Definition args_019 : list mbind_args := [inter 1 3; bind1 2 1].
Definition expect_019 : list mbind_expect := [e_def; e_inter; e_bind; e_inter; e_def; e_def; e_def].
Definition args_020 : list mbind_args := [inter 1 3; bind1 3 2].
Definition expect_020 : list mbind_expect := [e_def; e_inter; e_inter; e_bind; e_bind; e_def; e_def].
Definition args_021 : list mbind_args := [inter 1 3; pref 4 2; bind1 3 2].
Definition expect_021 : list mbind_expect := [e_def; e_inter; e_inter; e_bind; e_bind; e_pref; e_def].
Definition args_022 : list mbind_args := [inter 1 3; pref 4 1; bind1 3 3].
Definition expect_022 : list mbind_expect := [e_def; e_inter; e_inter; e_bind; e_bind; e_bind; e_def].
Definition args_023 : list mbind_args := [inter 1 3; pref 5 2; bind1 3 3].
Definition expect_023 : list mbind_expect := [e_def; e_inter; e_inter; e_bind; e_bind; e_bind; e_pref].

Definition mbind_run_024 : numa_mem -> numa_run :=
  mbind_set_get MPOL_INTERLEAVE 0x03 0 0x03 "mbind(mode=MPOL_INTERLEAVE) error"
    "mode != MPOL_INTERLEAVE" "node_mask != mbind_node_mask".

Definition mbind_run_025 : numa_mem -> numa_run :=
  mbind_set_get MPOL_PREFERRED 0x03 0 0x01 "mbind(mode=MPOL_PREFERRED) error"
    "mode != MPOL_PREFERRED" "node_mask != 0x01".

Definition mbind_run_026 (m : numa_mem) : numa_run :=
  check_nonzero m (
  new_node_mask (max_node m) m (fun m =>
  expect_zero (mbind page_buf PAGE_SIZE MPOL_PREFERRED None 0 0) "mbind(mode=MPOL_PREFERRED) error" m (
  get_policy true (max_node m) page_buf MPOL_F_ADDR
    "get_mempolicy(flags=MPOL_F_ADDR) error" m (fun mode m =>
  tp_assert! (mode =? MPOL_PREFERRED, (Some "mode != MPOL_PREFERRED", m)) ;;
  zero_mask m (ok m))))).

Definition mbind_run_027 (m : numa_mem) : numa_run :=
  b <- mmap 0 PAGE_SIZE (Z.lor PROT_READ PROT_WRITE) (Z.lor MAP_PRIVATE MAP_ANONYMOUS) (-1) 0 ;;
  let m := with_buf b m in
  check_nonzero m (check_at_least 2 two_or_more m (
  new_node_mask (max_node m) m (fun m =>
  expect_zero (mbind (buf m) PAGE_SIZE MPOL_BIND (Some [0x02]) BITS_PER_LONG 0)
    "mbind(flags=0) error" m (
  store (buf m) 0 ;;
  l_ret <- mbind (buf m) PAGE_SIZE MPOL_BIND (Some [0x01]) BITS_PER_LONG MPOL_MF_STRICT ;;
  tp_assert! (l_ret =? -1, (Some "mbind(flags=MPOL_MF_STRICT) not failed", m)) ;;
  e <- errno ;;
  tp_assert! (negb (e =? EIO), (Some "errno != EIO", m)) ;;
  munmap (buf m) PAGE_SIZE ;;
  ok (with_buf MAP_FAILED m))))).

Definition mbind_run_028 : numa_mem -> numa_run :=
  mbind_set_get MPOL_BIND 0x03 MPOL_MF_MOVE 0x03 "mbind(mode=MPOL_BIND) error" "mode != MPOL_BIND"
    "node_mask != mbind_node_mask".

Definition mbind_run_029 (m : numa_mem) : numa_run :=
  expect_errno (mbind page_buf PAGE_SIZE MPOL_DEFAULT None 0 MPOL_MF_MOVE_ALL)
    "mbind not failed" EPERM "errno != EPERM" m (ok m).

  (** [~(MPOL_DEFAULT | MPOL_BIND | MPOL_INTERLEAVE | MPOL_PREFERRED)] *)
Definition bad_mode : Z :=
  Z.lnot (Z.lor (Z.lor (Z.lor MPOL_DEFAULT MPOL_BIND) MPOL_INTERLEAVE) MPOL_PREFERRED).

Definition mbind_run_030 (m : numa_mem) : numa_run :=
  expect_errno (mbind page_buf PAGE_SIZE bad_mode None 0 0)
    "mbind not failed" EINVAL "errno != EINVAL" m (ok m).
(** ** The test cases of [mbind] *)

Definition mbind0 : test_case := numa_case "mbind" 0 numa_setup mbind_run_000 free_mask.
Definition mbind1 : test_case := numa_case "mbind" 1 numa_setup_empty mbind_run_001 TEARDOWN_EMPTY.
Definition mbind2 : test_case := numa_case "mbind" 2 numa_setup_empty mbind_run_002 TEARDOWN_EMPTY.
Definition mbind3 : test_case := numa_case "mbind" 3 numa_setup_empty mbind_run_003 TEARDOWN_EMPTY.
Definition mbind4 : test_case := numa_case "mbind" 4 numa_setup mbind_run_004 TEARDOWN_EMPTY.
Definition mbind5 : test_case := numa_case "mbind" 5 numa_setup mbind_run_005 free_mask.
Definition mbind6 : test_case := numa_case "mbind" 6 numa_setup mbind_run_006 TEARDOWN_EMPTY.
Definition mbind7 : test_case := numa_case "mbind" 7 numa_setup mbind_run_007 free_mask.
Definition mbind8 : test_case := numa_case "mbind" 8 numa_setup mbind_run_008 TEARDOWN_EMPTY.
Definition mbind9 : test_case := numa_case "mbind" 9 numa_setup mbind_run_009 TEARDOWN_EMPTY.
Definition mbind10 : test_case := numa_case "mbind" 10 numa_setup mbind_run_010 free_mask.
Definition mbind11 : test_case := numa_case "mbind" 11 numa_setup mbind_run_011 free_mask.
Definition mbind12 : test_case := numa_case "mbind" 12 numa_setup mbind_run_012 TEARDOWN_EMPTY.
Definition mbind13 : test_case := numa_case "mbind" 13 numa_setup mbind_run_013 free_masks.
Definition mbind14 : test_case := numa_case "mbind" 14 numa_setup_empty mbind_run_014 free_mask2.
Definition mbind15 : test_case :=
  numa_case "mbind" 15 numa_setup (mbind_table args_015 expect_015) (free_mask_buf region_len).
Definition mbind16 : test_case :=
  numa_case "mbind" 16 numa_setup (mbind_table args_016 expect_016) (free_mask_buf region_len).
Definition mbind17 : test_case :=
  numa_case "mbind" 17 numa_setup (mbind_table args_017 expect_017) (free_mask_buf region_len).
Definition mbind18 : test_case :=
  numa_case "mbind" 18 numa_setup (mbind_table args_018 expect_018) (free_mask_buf region_len).
Definition mbind19 : test_case :=
  numa_case "mbind" 19 numa_setup (mbind_table args_019 expect_019) (free_mask_buf region_len).
Definition mbind20 : test_case :=
  numa_case "mbind" 20 numa_setup (mbind_table args_020 expect_020) (free_mask_buf region_len).
Definition mbind21 : test_case :=
  numa_case "mbind" 21 numa_setup (mbind_table args_021 expect_021) (free_mask_buf region_len).
Definition mbind22 : test_case :=
  numa_case "mbind" 22 numa_setup (mbind_table args_022 expect_022) (free_mask_buf region_len).
Definition mbind23 : test_case :=
  numa_case "mbind" 23 numa_setup (mbind_table args_023 expect_023) (free_mask_buf region_len).
Definition mbind24 : test_case := numa_case "mbind" 24 numa_setup mbind_run_024 free_mask.
Definition mbind25 : test_case := numa_case "mbind" 25 numa_setup mbind_run_025 free_mask.
Definition mbind26 : test_case := numa_case "mbind" 26 numa_setup mbind_run_026 free_mask.
Definition mbind27 : test_case :=
  numa_case "mbind" 27 numa_setup mbind_run_027 (free_mask_buf PAGE_SIZE).
Definition mbind28 : test_case := numa_case "mbind" 28 numa_setup mbind_run_028 free_mask.
Definition mbind29 : test_case :=
  numa_case "mbind" 29 numa_setup_empty mbind_run_029 TEARDOWN_EMPTY.
Definition mbind30 : test_case :=
  numa_case "mbind" 30 numa_setup_empty mbind_run_030 TEARDOWN_EMPTY.

Definition mbind_suite : list test_case :=
  [mbind0; mbind1; mbind2; mbind3; mbind4; mbind5; mbind6; mbind7; mbind8; mbind9; mbind10;
   mbind11; mbind12; mbind13; mbind14; mbind15; mbind16; mbind17; mbind18; mbind19; mbind20;
   mbind21; mbind22; mbind23; mbind24; mbind25; mbind26; mbind27; mbind28; mbind29; mbind30].
End Cases.
