(* ===== verification/Mempolicy.v ===== *)
(** * The suites [get_mempolicy] and [set_mempolicy]

    The test cases of [test_mck/src/get_mempolicy] and
    [test_mck/src/set_mempolicy]. *)
From S2P Require Import Prelude Process Arch CLib TestMck AddrSpace Numa NumaCases.
From Stdlib Require Import Ascii String.
#[local] Open Scope string_scope.
#[local] Open Scope Z_scope.

Section Cases.
  Context `{ArchConfig}.
  (** the address of the local array [tmp_buf] or [buf] on the stack *)
  Context (tmp_buf : Z).
  Context (shl_overflow : Z -> Z).

(** ** [get_mempolicy] *)

(** The result of a call whose outputs are not looked at. *)
Definition get_ret (mode : bool) (nmask : option (list Z)) (maxnode addr flags : Z) : prog Z :=
  r <- get_mempolicy mode nmask maxnode addr flags ;; Ret (fst r).

(** [printf("maxnode = %lu\n", max_node);] *)
Definition print_maxnode (m : numa_mem) (k : numa_run) : numa_run :=
  printf "maxnode = %lu\n" [PZ (max_node m)] ;; k.

Definition get_run_000 (m : numa_mem) : numa_run :=
  get_mode true 0 0 "get_mempolicy error" m (fun mode =>
  tp_assert! (mode =? MPOL_DEFAULT, (Some "mode != MPOL_DEFAULT", m)) ;;
  ok m).

Definition get_run_001 (m : numa_mem) : numa_run :=
  check_nonzero m (print_maxnode m (
  new_node_mask (max_node m) m (fun m =>
  let m := with_mask0 0x01 m in
  get_policy false (max_node m) 0 0 "get_mempolicy error" m (fun _ m =>
  zero_mask m (ok m))))).

Definition get_run_002 (m : numa_mem) : numa_run :=
  get_mode false 0 0 "get_mempolicy error" m (fun _ => ok m).

Definition get_run_003 (m : numa_mem) : numa_run :=
  check_nonzero m (print_maxnode m (
  new_node_mask (max_node m) m (fun m =>
  let m := with_mask0 0x01 m in
  get_policy true (max_node m) 0 0 "get_mempolicy error" m (fun mode m =>
  tp_assert! (mode =? MPOL_DEFAULT, (Some "mode != MPOL_DEFAULT", m)) ;;
  zero_mask m (ok m))))).

Definition get_run_004 (m : numa_mem) : numa_run :=
  check_nonzero m (print_maxnode m (
  new_node_mask (max_node m) m (fun m =>
  expect_errno (get_ret true (snd <$> node_mask m) 0 0 0)
    "get_mempolicy not failed" EINVAL "get_mempolicy error" m (ok m)))).

Definition get_run_005 (m : numa_mem) : numa_run :=
  check_nonzero m (print_maxnode m (
  new_node_mask (max_node m) m (fun m =>
  expect_errno (get_ret true (snd <$> node_mask m) (max_node m - 1) 0 0)
    "get_mempolicy not failed" EINVAL "get_mempolicy error" m (ok m)))).

  (** Tests 6 and 7; [mode] says whether [&mode] is passed. *)
Definition get_mems_allowed (mode : bool) (m : numa_mem) : numa_run :=
  check_nonzero m (print_maxnode m (
  new_node_mask (max_node m) m (fun m =>
  get_policy mode (max_node m) 0 MPOL_F_MEMS_ALLOWED "get_mempolicy error" m (fun _ m =>
  print_mask "nodemask =" m (words (node_mask m)) ;;
  tp_assert! (node_mask_check shl_overflow (words (node_mask m)) (nr_node_mask m) (max_node m) =? 0,
              (Some "node_mask error", m)) ;;
  ok m)))).

Definition get_run_006 : numa_mem -> numa_run := get_mems_allowed false.
Definition get_run_007 : numa_mem -> numa_run := get_mems_allowed true.

Definition get_run_008 (m : numa_mem) : numa_run :=
  get_mode false 0 MPOL_F_MEMS_ALLOWED "get_mempolicy error" m (fun _ => ok m).

Definition get_run_009 (m : numa_mem) : numa_run :=
  check_nonzero m (print_maxnode m (
  new_node_mask (max_node m) m (fun m =>
  expect_errno (get_ret false (snd <$> node_mask m) (max_node m) tmp_buf
                  (Z.lor MPOL_F_MEMS_ALLOWED MPOL_F_ADDR))
    "get_mempolicy not failed" EINVAL "get_mempolicy error" m (ok m)))).

Definition get_run_010 (m : numa_mem) : numa_run :=
  check_nonzero m (print_maxnode m (
  new_node_mask (max_node m) m (fun m =>
  expect_errno (get_ret false (snd <$> node_mask m) (max_node m) 0
                  (Z.lor MPOL_F_MEMS_ALLOWED MPOL_F_NODE))
    "get_mempolicy not failed" EINVAL "get_mempolicy error" m (ok m)))).

Definition get_run_011 (m : numa_mem) : numa_run :=
  check_nonzero m (check_at_least 2 two_or_more m (print_maxnode m (
  expect_zero (mbind (page_buf tmp_buf) PAGE_SIZE (Z.lor MPOL_BIND MPOL_F_STATIC_NODES) (Some [0x02])
                 BITS_PER_LONG 0) "mbind error" m (
  get_mode true (page_buf tmp_buf) MPOL_F_ADDR "get_mempolicy error(MPOL_F_ADDR)" m (fun mode =>
  tp_assert! (mode =? Z.lor MPOL_BIND MPOL_F_STATIC_NODES,
              (Some "mode != MPOL_BIND | MPOL_F_STATIC_NODES", m)) ;;
  ok m))))).

Definition get_run_012 (m : numa_mem) : numa_run :=
  check_nonzero m (print_maxnode m (
  new_node_mask (max_node m) m (fun m =>
  let m := with_mask0 0x01 m in
  get_policy true (max_node m) tmp_buf MPOL_F_ADDR "get_mempolicy error" m (fun mode m =>
  tp_assert! (mode =? MPOL_DEFAULT, (Some "mode != MPOL_DEFAULT", m)) ;;
  zero_mask m (ok m))))).

Definition get_run_013 (m : numa_mem) : numa_run :=
  expect_errno (get_ret true None 0 0xFFFFFFFF00000000 MPOL_F_ADDR)
    "get_mempolicy not failed" EFAULT "get_mempolicy error" m (ok m).

Definition get_run_014 (m : numa_mem) : numa_run :=
  b <- mmap 0 PAGE_SIZE (Z.lor PROT_READ PROT_WRITE) (Z.lor MAP_PRIVATE MAP_ANONYMOUS) (-1) 0 ;;
  let m := with_buf b m in
  tp_assert! (negb (buf m =? MAP_FAILED), (Some "mmap error", m)) ;;
  get_mode true (buf m) MPOL_F_ADDR "get_mempolicy error" m (fun _ => ok m).

Definition unmap_buf (tc_num : Z) (m : numa_mem) : prog unit :=
  if negb (buf m =? MAP_FAILED) then munmap (buf m) PAGE_SIZE ;; Ret tt else Ret tt.

Definition get_run_015 (m : numa_mem) : numa_run :=
  expect_errno (get_ret true None 0 0 MPOL_F_ADDR)
    "get_mempolicy not failed" EFAULT "get_mempolicy error" m (ok m).

Definition get_run_016 (m : numa_mem) : numa_run :=
  expect_errno (get_ret true None 0 tmp_buf 0)
    "get_mempolicy not failed" EINVAL "get_mempolicy error" m (ok m).

Definition get_run_017 (m : numa_mem) : numa_run :=
  check_nonzero m (
  get_mode true tmp_buf (Z.lor MPOL_F_ADDR MPOL_F_NODE) "get_mempolicy error" m (fun mode =>
  printf "node ID = %d\n" [PZ mode] ;;
  tp_assert! (existsb (fun i => mode =? Z.of_nat i) (seq 0 (Z.to_nat (max_node m))),
              (Some "node ID error", m)) ;;
  ok m)).

Definition get_run_019 (m : numa_mem) : numa_run :=
  expect_errno (get_ret true None 0 0 MPOL_F_NODE)
    "get_mempolicy not failed" EINVAL "get_mempolicy not EINVAL" m (ok m).

Definition get_run_020 (m : numa_mem) : numa_run :=
  expect_errno (get_ret true None 0 0
                  (u64 (Z.lnot (Z.lor (Z.lor MPOL_F_MEMS_ALLOWED MPOL_F_ADDR) MPOL_F_NODE))))
    "get_mempolicy not failed" EINVAL "get_mempolicy error" m (ok m).

(** ** Test 18 of [get_mempolicy]: interleaving of large allocations *)

Definition MAX_COUNT : nat := 3.

(** The statics [buf] and [reserve] of the file; the static [addr] is shadowed
    by a local variable of the run function and keeps its initial value. *)
Record mem018 := Mem018 { m_numa : numa_mem; reserve : Z }.

Definition get_setup_018 (tc_num : Z) (tc_argv : list string) : prog mem018 :=
  m <- numa_setup tc_num tc_argv ;; Ret (Mem018 m MAP_FAILED).

(** [n] rounds remain; [i] is the round, [old_mode] the last node. *)
Fixpoint get_rounds_018 (n : nat) (i old_mode : Z) (m : mem018) : prog (result * mem018) :=
  match n with
  | O => Ret (None, m)
  | S n =>
      r <- mmap 0 (u64 (LARGE_PAGE_SIZE * 2)) PROT_NONE (Z.lor MAP_PRIVATE MAP_ANONYMOUS) (-1) 0 ;;
      let m := Mem018 (m_numa m) r in
      tp_assert! (negb (r =? MAP_FAILED), (Some "mmap(reserve) error", m)) ;;
      let addr := align_up r LARGE_PAGE_SIZE in
      b <- mmap addr LARGE_PAGE_SIZE (Z.lor PROT_READ PROT_WRITE)
             (Z.lor (Z.lor MAP_FIXED MAP_PRIVATE) MAP_ANONYMOUS) (-1) 0 ;;
      let m := Mem018 (with_buf b (m_numa m)) r in
      tp_assert! (negb (b =? MAP_FAILED), (Some "mmap(buf) error", m)) ;;
      let addr := u64 (b + LARGE_PAGE_SIZE) in
      store b (u8 i) ;;
      let* (i_ret, (mode, _)) := get_mempolicy true None 0 0 MPOL_F_NODE in
      tp_assert! (i_ret =? 0, (Some "get_mempolicy(flags=MPOL_F_NODE) error", m)) ;;
      tp_assert! (negb (mode =? old_mode), (Some "mode == old_mode", m)) ;;
      munmap r (u64 (b - r)) ;;
      munmap b LARGE_PAGE_SIZE ;;
      munmap addr (u64 (r + LARGE_PAGE_SIZE * 2 - addr)) ;;
      get_rounds_018 n (i + 1) mode (Mem018 (with_buf MAP_FAILED (m_numa m)) MAP_FAILED)
  end.

Definition get_run_018 (m : mem018) : prog (result * mem018) :=
  let nm := m_numa m in
  if max_node nm =? 0 then usage_print ;; Ret (Some "max_node = 0", m)
  else if max_node nm <? 2 then printf two_or_more [] ;; Ret (Some "max_node error", m)
  else
    let* (a, nr) := create_node_mask (max_node nm) in
    let m := Mem018 (with_mask a nr nm) (reserve m) in
    tp_assert! (allocated a, (Some "node_mask malloc error", m)) ;;
    l_ret <- set_mempolicy MPOL_INTERLEAVE (Some [0x03]) BITS_PER_LONG ;;
    tp_assert! (l_ret =? 0, (Some "set_mempolicy error", m)) ;;
    let* (i_ret, (mode, ws)) :=
      get_mempolicy true (snd <$> a) (max_node nm) 0 0 in
    let m := Mem018 (with_words ws (m_numa m)) (reserve m) in
    tp_assert! (i_ret =? 0, (Some "get_mempolicy(flags=0) error", m)) ;;
    tp_assert! (mode =? MPOL_INTERLEAVE, (Some "mode != MPOL_INTERLEAVE", m)) ;;
    tp_assert! (mask0 (m_numa m) =? 0x03, (Some "set_node_mask error", m)) ;;
    let* (i_ret, (mode, _)) := get_mempolicy true None 0 0 MPOL_F_NODE in
    tp_assert! (i_ret =? 0, (Some "get_mempolicy(flags=MPOL_F_NODE) error", m)) ;;
    get_rounds_018 MAX_COUNT 0 mode m.

Definition get_teardown_018 (tc_num : Z) (m : mem018) : prog unit :=
  let buf := buf (m_numa m) in
  let addr := MAP_FAILED in
  destroy_node_mask (node_mask (m_numa m)) ;;
  (if negb (reserve m =? MAP_FAILED) then munmap (reserve m) (u64 (buf - reserve m)) ;; Ret tt
   else Ret tt) ;;
  (if negb (buf =? MAP_FAILED) then munmap buf LARGE_PAGE_SIZE ;; Ret tt else Ret tt) ;;
  if negb (addr =? MAP_FAILED) then
    munmap addr (u64 (reserve m + LARGE_PAGE_SIZE * 2 - addr)) ;; Ret tt
  else Ret tt.

Definition get_mempolicy18 : test_case :=
  TestCase "get_mempolicy" 18 mem018 get_setup_018 (fun _ m => get_run_018 m) get_teardown_018.

(** ** [set_mempolicy] *)

(** [printf("set_node_mask = %lu\n", set_node_mask);] *)
Definition print_set_mask (x : Z) (k : numa_run) : numa_run :=
  printf "set_node_mask = %lu\n" [PZ x] ;; k.

Definition set_run_000 (m : numa_mem) : numa_run :=
  check_nonzero m (check_at_least 2 two_or_more m (
  new_node_mask (max_node m) m (fun m =>
  expect_zero (set_mempolicy MPOL_BIND (Some [0x03]) BITS_PER_LONG)
    "set_mempolicy(MPOL_BIND) error" m (
  get_policy true (max_node m) 0 0 "get_mempolicy1 error" m (fun mode m =>
  tp_assert! (mode =? MPOL_BIND, (Some "mode != MPOL_BIND", m)) ;;
  tp_assert! (mask0 m =? 0x03, (Some "node_mask != set_node_mask", m)) ;;
  expect_zero (set_mempolicy MPOL_DEFAULT None 0) "set_mempolicy(MPOL_DEFAULT) error" m (
  let m := with_mask0 0x01 m in
  get_policy true (max_node m) 0 0 "get_mempolicy2 error" m (fun mode m =>
  printf "mode = %d\n" [PZ mode] ;;
  tp_assert! (mode =? MPOL_DEFAULT, (Some "mode != MPOL_DEFAULT", m)) ;;
  zero_mask m (ok m)))))))).

Definition set_run_001 (m : numa_mem) : numa_run :=
  check_nonzero m (
  expect_zero (set_mempolicy MPOL_DEFAULT None (max_node m)) "set_mempolicy error" m (
  get_mode true 0 0 "get_mempolicy error" m (fun mode =>
  tp_assert! (mode =? 0, (Some "mode != MPOL_DEFAULT", m)) ;;
  ok m))).

Definition set_run_002 (m : numa_mem) : numa_run :=
  check_nonzero m (
  new_node_mask (max_node m) m (fun m =>
  expect_errno (set_mempolicy MPOL_DEFAULT (snd <$> node_mask m) 0)
    "set_mempolicy not failed" EINVAL "errno != EINVAL" m (ok m))).

  (** Tests 3, 9, 10, 14 and 15: set a policy, read it back. *)
Definition set_get (mode mask exp : Z) (msg1 msg2 : string) (m : numa_mem) : numa_run :=
  check_nonzero m (check_at_least 2 two_or_more m (print_set_mask mask (
  new_node_mask (max_node m) m (fun m =>
  expect_zero (set_mempolicy mode (Some [mask]) BITS_PER_LONG) "set_mempolicy error" m (
  get_policy true (max_node m) 0 0 "get_mempolicy error" m (fun mode' m =>
  tp_assert! (mode' =? mode, (Some msg1, m)) ;;
  tp_assert! (mask0 m =? exp, (Some msg2, m)) ;;
  ok m)))))).

Definition set_run_003 : numa_mem -> numa_run :=
  set_get MPOL_BIND 0x03 0x03 "mode != MPOL_BIND" "node_mask != set_node_mask".

Definition set_run_004 (m : numa_mem) : numa_run :=
  check_nonzero m (check_at_least 4 four_or_more m (print_set_mask 0x0F (
  new_node_mask (max_node m) m (fun m =>
  expect_zero (set_mempolicy MPOL_BIND (Some [0x0F]) 2) "set_mempolicy error" m (
  get_policy true (max_node m) 0 0 "get_mempolicy error" m (fun mode m =>
  tp_assert! (mode =? MPOL_BIND, (Some "mode != MPOL_BIND", m)) ;;
  tp_assert! (mask0 m =? 0x01, (Some "node_mask != set_node_mask", m)) ;;
  ok m)))))).

Definition set_run_005 (m : numa_mem) : numa_run :=
  check_nonzero m (check_at_least 4 four_or_more m (print_set_mask 0x0C (
  expect_errno (set_mempolicy MPOL_BIND (Some [0x0C]) 2)
    "set_mempolicy not failed" EINVAL "errno != EINVAL" m (ok m)))).

Definition set_run_006 (m : numa_mem) : numa_run :=
  check_nonzero m (check_at_least 2 two_or_more m (print_set_mask 0x03 (
  expect_errno (set_mempolicy MPOL_BIND (Some [0x03]) 0)
    "set_mempolicy not failed" EINVAL "errno != EINVAL" m (ok m)))).

Definition set_run_007 (m : numa_mem) : numa_run :=
  check_nonzero m (check_at_least 1 two_or_more m (print_set_mask 0x01 (
  new_node_mask (max_node m) m (fun m =>
  l_ret <- set_mempolicy MPOL_BIND (Some [0x01]) 1 ;;
  tp_assert! (l_ret =? -1, (Some "set_mempolicy not failed", m)) ;;
  ok m)))).

Definition set_run_008 (m : numa_mem) : numa_run :=
  expect_errno (set_mempolicy MPOL_BIND None 0)
    "set_mempolicy not failed" EINVAL "errno != EINVAL" m (ok m).

Definition set_run_009 : numa_mem -> numa_run :=
  set_get (Z.lor MPOL_BIND MPOL_F_STATIC_NODES) 0x03 0x03 "mode != MPOL_BIND"
    "node_mask != set_node_mask".

Definition set_run_010 : numa_mem -> numa_run :=
  set_get (Z.lor MPOL_BIND MPOL_F_RELATIVE_NODES) 0x03 0x03 "mode != MPOL_BIND"
    "node_mask != set_node_mask".

Definition set_run_011 (m : numa_mem) : numa_run :=
  check_nonzero m (check_at_least 2 two_or_more m (
  expect_errno (set_mempolicy (Z.lor (Z.lor MPOL_BIND MPOL_F_STATIC_NODES) MPOL_F_RELATIVE_NODES)
                  (Some [0x03]) BITS_PER_LONG)
    "set_mempolicy not failed" EINVAL "errno != EINVAL" m (ok m))).

Definition set_run_012 (m : numa_mem) : numa_run :=
  check_nonzero m (
  new_node_mask (u64 (max_node m + 1)) m (fun m =>
  new_node_mask2 (u64 (max_node m + 1)) "set_node_mask malloc error" m (fun m =>
  let m := with_words2 (fill_mask shl_overflow (nr_node_mask m) (max_node m)) m in
  print_mask "set_node_mask =" m (words (node_mask2 m)) ;;
  expect_zero (set_mempolicy MPOL_BIND (snd <$> node_mask2 m) (u64 (max_node m + 1)))
    "set_mempolicy error" m (
  get_policy true (u64 (max_node m + 1)) 0 0 "get_mempolicy error" m (fun mode m =>
  tp_assert! (mode =? MPOL_BIND, (Some "mode != MPOL_BIND", m)) ;;
  print_mask "node_mask =" m (words (node_mask m)) ;;
  tp_assert! (node_mask_check shl_overflow (words (node_mask m)) (nr_node_mask m) (max_node m) =? 0,
              (Some "node_mask error", m)) ;;
  ok m))))).

Definition set_run_013 (m : numa_mem) : numa_run :=
  new_node_mask2 (sys_max_node + 1) "set_node_mask malloc error" m (fun m =>
  let m := with_words2 (set_word0 0x01 (words (node_mask2 m))) m in
  printf "sys_max_node = %lu\n" [PZ sys_max_node] ;;
  expect_errno (set_mempolicy MPOL_BIND (snd <$> node_mask2 m) (sys_max_node + 2))
    "set_mempolicy not failed" EINVAL "errno != EINVAL" m (ok m)).

Definition set_run_014 : numa_mem -> numa_run :=
  set_get MPOL_INTERLEAVE 0x03 0x03 "mode != MPOL_BIND" "node_mask != set_node_mask".

Definition set_run_015 : numa_mem -> numa_run :=
  set_get MPOL_PREFERRED 0x03 0x01 "mode != MPOL_PREFERRED" "node_mask != 0x01".

Definition set_run_016 (m : numa_mem) : numa_run :=
  check_nonzero m (
  new_node_mask (max_node m) m (fun m =>
  expect_zero (set_mempolicy MPOL_PREFERRED None 0) "set_mempolicy error" m (
  get_policy true (max_node m) 0 0 "get_mempolicy error" m (fun mode m =>
  tp_assert! (mode =? MPOL_PREFERRED, (Some "mode != MPOL_PREFERRED", m)) ;;
  tp_assert! (mask0 m =? 0, (Some "node_mask != 0x00", m)) ;;
  ok m)))).

Definition set_run_017 (m : numa_mem) : numa_run :=
  expect_errno (set_mempolicy bad_mode None 0)
    "set_mempolicy not failed" EINVAL "errno not EINVAL" m (ok m).

(** ** The test cases *)

Definition get_mempolicy0 : test_case :=
  numa_case "get_mempolicy" 0 numa_setup_empty get_run_000 TEARDOWN_EMPTY.
Definition get_mempolicy1 : test_case :=
  numa_case "get_mempolicy" 1 numa_setup get_run_001 free_mask.
Definition get_mempolicy2 : test_case :=
  numa_case "get_mempolicy" 2 numa_setup_empty get_run_002 TEARDOWN_EMPTY.
Definition get_mempolicy3 : test_case :=
  numa_case "get_mempolicy" 3 numa_setup get_run_003 free_mask.
Definition get_mempolicy4 : test_case :=
  numa_case "get_mempolicy" 4 numa_setup get_run_004 free_mask.
Definition get_mempolicy5 : test_case :=
  numa_case "get_mempolicy" 5 numa_setup get_run_005 free_mask.
Definition get_mempolicy6 : test_case :=
  numa_case "get_mempolicy" 6 numa_setup get_run_006 free_mask.
Definition get_mempolicy7 : test_case :=
  numa_case "get_mempolicy" 7 numa_setup get_run_007 free_mask.
Definition get_mempolicy8 : test_case :=
  numa_case "get_mempolicy" 8 numa_setup_empty get_run_008 TEARDOWN_EMPTY.
Definition get_mempolicy9 : test_case :=
  numa_case "get_mempolicy" 9 numa_setup get_run_009 free_mask.
Definition get_mempolicy10 : test_case :=
  numa_case "get_mempolicy" 10 numa_setup get_run_010 free_mask.
Definition get_mempolicy11 : test_case :=
  numa_case "get_mempolicy" 11 numa_setup get_run_011 TEARDOWN_EMPTY.
Definition get_mempolicy12 : test_case :=
  numa_case "get_mempolicy" 12 numa_setup get_run_012 free_mask.
Definition get_mempolicy13 : test_case :=
  numa_case "get_mempolicy" 13 numa_setup_empty get_run_013 TEARDOWN_EMPTY.
Definition get_mempolicy14 : test_case :=
  numa_case "get_mempolicy" 14 numa_setup_empty get_run_014 unmap_buf.
Definition get_mempolicy15 : test_case :=
  numa_case "get_mempolicy" 15 numa_setup_empty get_run_015 TEARDOWN_EMPTY.
Definition get_mempolicy16 : test_case :=
  numa_case "get_mempolicy" 16 numa_setup_empty get_run_016 TEARDOWN_EMPTY.
Definition get_mempolicy17 : test_case :=
  numa_case "get_mempolicy" 17 numa_setup get_run_017 TEARDOWN_EMPTY.
Definition get_mempolicy19 : test_case :=
  numa_case "get_mempolicy" 19 numa_setup_empty get_run_019 TEARDOWN_EMPTY.
Definition get_mempolicy20 : test_case :=
  numa_case "get_mempolicy" 20 numa_setup_empty get_run_020 TEARDOWN_EMPTY.

Definition get_mempolicy_suite : list test_case :=
  [get_mempolicy0; get_mempolicy1; get_mempolicy2; get_mempolicy3; get_mempolicy4;
   get_mempolicy5; get_mempolicy6; get_mempolicy7; get_mempolicy8; get_mempolicy9;
   get_mempolicy10; get_mempolicy11; get_mempolicy12; get_mempolicy13; get_mempolicy14;
   get_mempolicy15; get_mempolicy16; get_mempolicy17; get_mempolicy18; get_mempolicy19; get_mempolicy20].

Definition set_mempolicy0 : test_case :=
  numa_case "set_mempolicy" 0 numa_setup set_run_000 free_mask.
Definition set_mempolicy1 : test_case :=
  numa_case "set_mempolicy" 1 numa_setup set_run_001 TEARDOWN_EMPTY.
Definition set_mempolicy2 : test_case :=
  numa_case "set_mempolicy" 2 numa_setup set_run_002 free_mask.
Definition set_mempolicy3 : test_case :=
  numa_case "set_mempolicy" 3 numa_setup set_run_003 free_mask.
Definition set_mempolicy4 : test_case :=
  numa_case "set_mempolicy" 4 numa_setup set_run_004 free_mask.
Definition set_mempolicy5 : test_case :=
  numa_case "set_mempolicy" 5 numa_setup set_run_005 TEARDOWN_EMPTY.
Definition set_mempolicy6 : test_case :=
  numa_case "set_mempolicy" 6 numa_setup set_run_006 TEARDOWN_EMPTY.
Definition set_mempolicy7 : test_case :=
  numa_case "set_mempolicy" 7 numa_setup set_run_007 free_mask.
Definition set_mempolicy8 : test_case :=
  numa_case "set_mempolicy" 8 numa_setup_empty set_run_008 TEARDOWN_EMPTY.
Definition set_mempolicy9 : test_case :=
  numa_case "set_mempolicy" 9 numa_setup set_run_009 free_mask.
Definition set_mempolicy10 : test_case :=
  numa_case "set_mempolicy" 10 numa_setup set_run_010 free_mask.
Definition set_mempolicy11 : test_case :=
  numa_case "set_mempolicy" 11 numa_setup set_run_011 TEARDOWN_EMPTY.
Definition set_mempolicy12 : test_case :=
  numa_case "set_mempolicy" 12 numa_setup set_run_012 free_masks.
Definition set_mempolicy13 : test_case :=
  numa_case "set_mempolicy" 13 numa_setup_empty set_run_013 free_mask2.
Definition set_mempolicy14 : test_case :=
  numa_case "set_mempolicy" 14 numa_setup set_run_014 free_mask.
Definition set_mempolicy15 : test_case :=
  numa_case "set_mempolicy" 15 numa_setup set_run_015 free_mask.
Definition set_mempolicy16 : test_case :=
  numa_case "set_mempolicy" 16 numa_setup set_run_016 free_mask.
Definition set_mempolicy17 : test_case :=
  numa_case "set_mempolicy" 17 numa_setup_empty set_run_017 TEARDOWN_EMPTY.

Definition set_mempolicy_suite : list test_case :=
  [set_mempolicy0; set_mempolicy1; set_mempolicy2; set_mempolicy3; set_mempolicy4;
   set_mempolicy5; set_mempolicy6; set_mempolicy7; set_mempolicy8; set_mempolicy9;
   set_mempolicy10; set_mempolicy11; set_mempolicy12; set_mempolicy13; set_mempolicy14;
   set_mempolicy15; set_mempolicy16; set_mempolicy17].
End Cases.
