(* ===== verification/NumaSpec.v ===== *)
(** * Memory policies: what the NUMA tests rely on

    An executable specification of [mbind], [set_mempolicy] and
    [get_mempolicy] on an abstract view of a process (its own policy, and the
    policy of each mapped page), following their manual pages and, for the
    order of the checks and the use of [maxnode], the Linux implementation.
    The interface [NumaKernel] says that a kernel answers as specified;
    [numa_ref] is an executable kernel that does. *)
From S2P Require Import Prelude Process Arch AddrSpace Numa.

(** Mode (with its flags) and node set. *)
Definition policy : Type := Z * Z.
Definition default_policy : policy := (MPOL_DEFAULT, 0).

(** Addresses are those of pages. *)
Record nview := NView { nv_task : policy; nv_mapped : Z -> bool; nv_pol : Z -> policy }.

#[export] Instance nview_equiv : Equiv nview := fun v1 v2 =>
  nv_task v1 = nv_task v2 /\ (forall a, nv_mapped v1 a = nv_mapped v2 a) /\
  (forall a, nv_pol v1 a = nv_pol v2 a).

#[export] Instance nview_equivalence : Equivalence (≡@{nview}).
Proof.
  split.
  - intros v. now repeat split.
  - intros v1 v2 (H1 & H2 & H3). repeat split; auto.
  - intros v1 v2 v3 (H1 & H2 & H3) (H4 & H5 & H6). repeat split; intros; congruence.
Qed.

(** A node mask array as a number, and back. *)
Fixpoint mask_value (ws : list Z) : Z :=
  match ws with [] => 0 | w :: ws => w + 2 ^ 64 * mask_value ws end.
Fixpoint mask_words (n : nat) (x : Z) : list Z :=
  match n with O => [] | S n => x mod 2 ^ 64 :: mask_words n (x / 2 ^ 64) end.

Section Spec.
  Context `{ArchConfig} (nodes : Z).

Definition online : Z := 2 ^ nodes - 1.
Definition page_of (a : Z) : Z := a - a mod PAGE_SIZE.

(** The node set passed by the caller: the low [maxnode - 1] bits. *)
Definition node_arg (nmask : option (list Z)) (maxnode : Z) : Z + Z :=
  match nmask with
  | None => inl 0
  | Some ws =>
      if maxnode =? 1 then inl 0
      else if PAGE_SIZE * 8 <? u64 (maxnode - 1) then inr EINVAL
      else inl (mask_value ws mod 2 ^ (maxnode - 1))
  end.

Definition mode_flags : Z := Z.lor MPOL_F_STATIC_NODES MPOL_F_RELATIVE_NODES.
Definition mode_base (mode : Z) : Z := Z.land mode (Z.lnot mode_flags).
Definition mode_ok (mode : Z) : bool :=
  (0 <=? mode_base mode) && (mode_base mode <=? 3) && negb (Z.land mode mode_flags =? mode_flags).

(** The policy for a valid mode and a node set. *)
Definition mpol_new (mode mask : Z) : policy + Z :=
  let base := mode_base mode in
  if base =? MPOL_DEFAULT then if mask =? 0 then inl default_policy else inr EINVAL
  else if base =? MPOL_PREFERRED then
    if mask =? 0 then inl (mode, 0)
    else if Z.land mask online =? 0 then inr EINVAL
    else inl (mode, Z.land (Z.land mask online) (- Z.land mask online))
  else if Z.land mask online =? 0 then inr EINVAL
  else inl (mode, if mode =? base then Z.land mask online else mask).

Definition bind_range (lo len : Z) (p : policy) (v : nview) : nview :=
  NView (nv_task v) (nv_mapped v) (fun a => if in_range a lo len then p else nv_pol v a).

(** Every page of the range is mapped. *)
Definition range_mapped (v : nview) (lo len : Z) : bool :=
  forallb (fun i => nv_mapped v (lo + Z.of_nat i * PAGE_SIZE)) (seq 0 (Z.to_nat (len / PAGE_SIZE))).

(** [flags] is 0, [MPOL_MF_MOVE] or (without the privilege)
    [MPOL_MF_MOVE_ALL]. *)
Definition mbind_spec (v : nview) (addr len mode : Z) (nmask : option (list Z)) (maxnode flags : Z)
  : nview * Z :=
  if negb (mode_ok mode) then (v, - EINVAL)
  else match node_arg nmask maxnode with
  | inr e => (v, - e)
  | inl mask =>
      if has flags MPOL_MF_MOVE_ALL then (v, - EPERM)
      else if negb (addr mod PAGE_SIZE =? 0) then (v, - EINVAL)
      else
        let len := align_up len PAGE_SIZE in
        let end' := u64 (addr + len) in
        if end' <? addr then (v, - EINVAL)
        else if end' =? addr then (v, 0)
        else match mpol_new mode mask with
        | inr e => (v, - e)
        | inl p => if range_mapped v addr len then (bind_range addr len p v, 0) else (v, - EFAULT)
        end
  end.

Definition set_spec (v : nview) (mode : Z) (nmask : option (list Z)) (maxnode : Z) : nview * Z :=
  if negb (mode_ok mode) then (v, - EINVAL)
  else match node_arg nmask maxnode with
  | inr e => (v, - e)
  | inl mask =>
      match mpol_new mode mask with
      | inr e => (v, - e)
      | inl p => (NView p (nv_mapped v) (nv_pol v), 0)
      end
  end.

(** What [get_mempolicy] answers: a policy, the number of some node, or an
    error. *)
Inductive got := GPol (p : policy) | GNode | GErr (e : Z).

Definition get_spec (v : nview) (nmask : option (list Z)) (maxnode addr flags : Z) : got :=
  if (match nmask with Some _ => true | None => false end) && (maxnode <? nodes) then GErr EINVAL
  else if negb (Z.land flags (Z.lnot 7) =? 0) then GErr EINVAL
  else if has flags MPOL_F_MEMS_ALLOWED then
    if has flags MPOL_F_NODE || has flags MPOL_F_ADDR then GErr EINVAL
    else GPol (0, online)
  else if has flags MPOL_F_ADDR then
    if negb (nv_mapped v (page_of addr)) then GErr EFAULT
    else if has flags MPOL_F_NODE then GNode else GPol (nv_pol v (page_of addr))
  else if negb (addr =? 0) then GErr EINVAL
  else if has flags MPOL_F_NODE then
    if mode_base (fst (nv_task v)) =? MPOL_INTERLEAVE then GNode else GErr EINVAL
  else GPol (nv_task v).

(** New anonymous pages, with the default policy. *)
Definition map_range (lo len : Z) (v : nview) : nview :=
  NView (nv_task v) (fun a => in_range a lo len || nv_mapped v a)
        (fun a => if in_range a lo len then default_policy else nv_pol v a).
End Spec.

(** ** The interface *)

Class NumaKernel `{ArchConfig} (K : kernel) := {
  nview_of : kstate K -> nview;
  (** the number of nodes *)
  nodes : Z;

  nk_mbind s addr len mode nmask maxnode flags :
    flags = 0 \/ flags = MPOL_MF_MOVE \/ flags = MPOL_MF_MOVE_ALL ->
    exists s', kstep K (Mbind addr len mode nmask maxnode flags) s
                 = (s', snd (mbind_spec nodes (nview_of s) addr len mode nmask maxnode flags)) /\
      nview_of s' ≡ fst (mbind_spec nodes (nview_of s) addr len mode nmask maxnode flags);

  nk_set s mode nmask maxnode :
    exists s', kstep K (SetMempolicy mode nmask maxnode) s
                 = (s', snd (set_spec nodes (nview_of s) mode nmask maxnode)) /\
      nview_of s' ≡ fst (set_spec nodes (nview_of s) mode nmask maxnode);

  nk_get s mode nmask maxnode addr flags :
    (forall ws, nmask = Some ws -> maxnode <= 64 * Z.of_nat (length ws)) ->
    exists s' r md ws', kstep K (GetMempolicy mode nmask maxnode addr flags) s = (s', (r, (md, ws'))) /\
      nview_of s' ≡ nview_of s /\
      match get_spec nodes (nview_of s) nmask maxnode addr flags with
      | GPol p => r = 0 /\ (mode = true -> md = fst p) /\
                  (forall ws, nmask = Some ws -> ws' = mask_words (length ws) (snd p))
      | GNode => r = 0 /\ (mode = true -> 0 <= md < nodes)
      | GErr e => r = - e
      end;

  (** small allocations succeed *)
  nk_malloc s n :
    0 < n <= 2 ^ 20 ->
    exists s' p, kstep K (Malloc n) s = (s', p) /\ p <> NULL /\ nview_of s' ≡ nview_of s;

  (** a private anonymous mapping gets free address space *)
  nk_mmap s len :
    0 < len <= 2 ^ 24 -> len mod PAGE_SIZE = 0 ->
    exists s' a, kstep K (Mmap 0 len (Z.lor PROT_READ PROT_WRITE) (Z.lor MAP_PRIVATE MAP_ANONYMOUS) (-1) 0) s
                   = (s', a) /\
      0 < a /\ a + len <= 2 ^ 63 /\ a mod PAGE_SIZE = 0 /\ nview_of s' ≡ map_range a len (nview_of s);
}.

(** ** An executable kernel that meets it *)

Section Ref.
  Context `{ArchConfig}.

Definition NR_NODES : Z := 4.

Definition nstep (c : op) (v : nview) : nview * ans c :=
  match c return nview * ans c with
  | Mbind addr len mode nmask maxnode flags =>
      mbind_spec NR_NODES v addr len mode nmask maxnode flags
  | SetMempolicy mode nmask maxnode => set_spec NR_NODES v mode nmask maxnode
  | GetMempolicy mode nmask maxnode addr flags =>
      (v, match get_spec NR_NODES v nmask maxnode addr flags with
          | GPol p => (0, (fst p, mask_words (length (default [] nmask)) (snd p)))
          | GNode => (0, (0, default [] nmask))
          | GErr e => (- e, (0, default [] nmask))
          end)
  | Malloc _ => (v, 4096)
  | Mmap _ len _ _ _ _ => (map_range MMAP_START_ADDR len v, MMAP_START_ADDR)
  | c => (v, enosys c)
  end.

Definition numa_ref : kernel := Kernel nview nstep.

#[export] Instance numa_ref_kernel : NumaKernel numa_ref.
Proof.
  refine (Build_NumaKernel _ numa_ref (fun s : nview => s) NR_NODES _ _ _ _ _).
  - intros s addr len mode nmask maxnode flags _. cbn.
    destruct (mbind_spec NR_NODES s addr len mode nmask maxnode flags) as [v r]. now exists v.
  - intros s mode nmask maxnode. cbn.
    destruct (set_spec NR_NODES s mode nmask maxnode) as [v r]. now exists v.
  - intros s mode nmask maxnode addr flags _. cbn.
    destruct (get_spec NR_NODES s nmask maxnode addr flags) as [p| |e].
    + exists s, 0, (fst p), (mask_words (length (default [] nmask)) (snd p)).
      repeat split; auto. now intros ws ->.
    + exists s, 0, 0, (default [] nmask). repeat split; auto; unfold NR_NODES; lia.
    + exists s, (- e), 0, (default [] nmask). repeat split; auto.
  - intros s n _. now exists s, 4096.
  - intros s len Hl Hm. exists (map_range MMAP_START_ADDR len s), MMAP_START_ADDR.
    split; [reflexivity|]. unfold MMAP_START_ADDR. split; [lia|]. split; [lia|]. split; [|reflexivity].
    destruct PAGE_SIZE_cases as [-> | ->]; reflexivity.
Defined.
End Ref.

(** ** Facts about masks *)

Lemma mask_words_length n x : length (mask_words n x) = n.
Proof. revert x. induction n as [|n IH]; intros x; cbn; auto. Qed.

Lemma mask_words_0 n : mask_words n 0 = repeat 0 n.
Proof.
  induction n as [|n IH]; cbn [mask_words repeat]; [reflexivity|].
  rewrite Z.mod_0_l, Z.div_0_l, IH by lia. reflexivity.
Qed.

(** The words hold the low bits of the number. *)
Lemma mask_value_words n x : 0 <= x -> mask_value (mask_words n x) = x mod 2 ^ (64 * Z.of_nat n).
Proof.
  revert x. induction n as [|n IH]; intros x Hx; cbn [mask_words mask_value].
  - now rewrite Z.mod_1_r.
  - rewrite IH by (apply Z.div_pos; lia).
    replace (2 ^ (64 * Z.of_nat (S n))) with (2 ^ 64 * 2 ^ (64 * Z.of_nat n))
      by (rewrite <- Z.pow_add_r by lia; f_equal; lia).
    assert (0 < 2 ^ (64 * Z.of_nat n)) by (apply Z.pow_pos_nonneg; lia).
    rewrite Z.rem_mul_r by lia. lia.
Qed.

Lemma land_online n x k : 0 <= x < 2 ^ k -> 0 <= k <= n -> Z.land x (online n) = x.
Proof.
  intros Hx Hk. unfold online. rewrite Z.sub_1_r, <- Z.ones_equiv, Z.land_ones by lia.
  apply Z.mod_small. split; [lia|]. apply Z.lt_le_trans with (2 ^ k); [lia|].
  apply Z.pow_le_mono_r; lia.
Qed.
