(* ===== verification/NumaMask.v ===== *)
(** * [node_mask_check]: which masks it accepts *)
From S2P Require Import Prelude Process Arch Numa NumaSpec.

(** Words of a mask array. *)
Definition is_word (x : Z) : Prop := 0 <= x < 2 ^ 64.

Lemma mask_value_bound ws : Forall is_word ws -> 0 <= mask_value ws < 2 ^ (64 * Z.of_nat (length ws)).
Proof.
  induction 1 as [|w ws Hw _ IH]; cbn [mask_value length]; [cbn; lia|].
  replace (2 ^ (64 * Z.of_nat (S (length ws)))) with (2 ^ 64 * 2 ^ (64 * Z.of_nat (length ws)))
    by (rewrite <- Z.pow_add_r by lia; f_equal; lia).
  unfold is_word in Hw. nia.
Qed.

Lemma mask_value_inj ws1 ws2 :
  Forall is_word ws1 -> Forall is_word ws2 -> length ws1 = length ws2 ->
  mask_value ws1 = mask_value ws2 -> ws1 = ws2.
Proof.
  intros H1. revert ws2. induction H1 as [|w ws Hw _ IH]; intros ws2 H2 Hl He.
  - now destruct ws2.
  - destruct H2 as [|w2 ws2 Hw2 H2]; [discriminate|]. cbn in Hl, He. injection Hl as Hl.
    unfold is_word in *.
    assert (w = w2 /\ mask_value ws = mask_value ws2) as [-> E].
    { assert (w mod 2 ^ 64 = w2 mod 2 ^ 64) as E.
      { rewrite <- (Z.mod_add w (mask_value ws)), <- (Z.mod_add w2 (mask_value ws2)) by lia.
        f_equal. lia. }
      rewrite !Z.mod_small in E by lia. lia. }
    f_equal. now apply IH.
Qed.

(** The words of the number with the low [64 k + c] bits set. *)
Definition full_words (k : nat) (c : Z) : list Z := repeat (2 ^ 64 - 1) k ++ [2 ^ c - 1].

Lemma mask_value_full k c : 0 <= c -> mask_value (full_words k c) = 2 ^ (64 * Z.of_nat k + c) - 1.
Proof.
  intros Hc. unfold full_words. induction k as [|k IH]; cbn [repeat app mask_value].
  - replace (64 * Z.of_nat 0 + c) with c by lia. lia.
  - rewrite IH. replace (64 * Z.of_nat (S k) + c) with (64 + (64 * Z.of_nat k + c)) by lia.
    rewrite (Z.pow_add_r 2 64) by lia. lia.
Qed.

Lemma full_words_word k c : 0 <= c <= 64 -> Forall is_word (full_words k c).
Proof.
  intros Hc. assert (1 <= 2 ^ c <= 2 ^ 64).
  { split; [apply (Z.pow_le_mono_r 2 0)|apply Z.pow_le_mono_r]; lia. }
  apply Forall_app. split.
  - apply Forall_forall. intros x Hx. apply list_elem_of_In, repeat_spec in Hx. subst. split; lia.
  - constructor; [split; lia|constructor].
Qed.

Lemma full_words_length k c : length (full_words k c) = S k.
Proof. unfold full_words. rewrite length_app, repeat_length. cbn. lia. Qed.

Section Check.
  Context (shl : Z -> Z).

Lemma low_mask_small c : 0 <= c < 31 -> low_mask shl c = 2 ^ c - 1.
Proof.
  intros Hc. unfold low_mask, int_shl1. rewrite (proj2 (Z.ltb_lt _ _)), Z.shiftl_1_l by lia.
  assert (1 <= 2 ^ c <= 2 ^ 30).
  { split; [apply (Z.pow_le_mono_r 2 0)|apply Z.pow_le_mono_r]; lia. }
  rewrite i32_small, u64_small by lia. reflexivity.
Qed.

Lemma all_ones w : is_word w -> (u64 (Z.lnot w) =? 0) = (w =? 2 ^ 64 - 1).
Proof.
  unfold is_word, u64. intros Hw. unfold Z.lnot.
  assert (Z.pred (- w) mod 2 ^ 64 = 2 ^ 64 - 1 - w) as ->
    by (symmetry; apply Z.mod_unique_pos with (-1); lia).
  destruct (Z.eqb_spec (2 ^ 64 - 1 - w) 0), (Z.eqb_spec w (2 ^ 64 - 1)); auto; lia.
Qed.

(** The loop compares every word with the expected one. *)
Lemma node_mask_loop_spec ws n last nb :
  Forall is_word ws -> (n <= length ws)%nat ->
  node_mask_loop shl ws n last nb =
  if forallb (fun i => word ws i =? (if Z.of_nat i =? last then low_mask shl (nb mod BITS_PER_LONG)
                                     else 2 ^ 64 - 1)) (seq 0 n)
  then 0 else -1.
Proof.
  intros Hw Hn. induction n as [|n IH]; [reflexivity|].
  rewrite seq_S, forallb_app. cbn [forallb Nat.add node_mask_loop].
  assert (is_word (word ws n)) as Hi.
  { unfold word. rewrite List.Forall_forall in Hw. apply Hw, nth_In. lia. }
  rewrite IH by lia. rewrite andb_true_r. rewrite all_ones by exact Hi.
  destruct (Z.of_nat n =? last).
  - destruct (word ws n =? _); cbn [negb]; [now rewrite andb_true_r|now rewrite andb_false_r].
  - destruct (word ws n =? _); cbn [negb]; [now rewrite andb_true_r|now rewrite andb_false_r].
Qed.

Lemma forallb_nth (ws es : list Z) (f : nat -> Z) :
  length ws = length es -> (forall i, (i < length es)%nat -> f i = word es i) ->
  forallb (fun i => word ws i =? f i) (seq 0 (length ws)) = true <-> ws = es.
Proof.
  intros Hl Hf. rewrite forallb_forall. split.
  - intros Ha. apply (nth_ext _ _ 0 0 Hl). intros i Hi.
    assert ((word ws i =? f i) = true) as E by (apply Ha, in_seq; lia).
    apply Z.eqb_eq in E. rewrite Hf in E by lia. exact E.
  - intros -> i Hi. apply in_seq in Hi. rewrite Hf by lia. apply Z.eqb_refl.
Qed.

Lemma rounds_small k : (Z.of_nat k < 2 ^ 31) -> rounds (Z.of_nat (S k)) = S k.
Proof.
  intros Hk. unfold rounds. replace (Z.of_nat (S k) - 1) with (Z.of_nat k) by lia.
  rewrite u64_small, i32_small by lia. lia.
Qed.

Lemma last_small k : (Z.of_nat k < 2 ^ 31) -> u64 (Z.of_nat (S k) - 1) = Z.of_nat k.
Proof. intros Hk. rewrite u64_small; lia. Qed.

Lemma node_mask_check_spec ws k c :
  Forall is_word ws -> length ws = S k -> Z.of_nat k < 2 ^ 31 -> 1 <= c <= 30 ->
  node_mask_check shl ws (Z.of_nat (S k)) (64 * Z.of_nat k + c) =
  if mask_value ws =? 2 ^ (64 * Z.of_nat k + c) - 1 then 0 else -1.
Proof.
  intros Hw Hl Hk Hc. unfold node_mask_check. rewrite rounds_small, last_small by exact Hk.
  rewrite node_mask_loop_spec by (auto; lia). rewrite <- Hl.
  assert ((64 * Z.of_nat k + c) mod BITS_PER_LONG = c) as ->.
  { change BITS_PER_LONG with 64. rewrite Z.add_comm, Z.mul_comm, Z.mod_add, Z.mod_small by lia. lia. }
  rewrite low_mask_small by lia.
  match goal with |- context [forallb ?g _] => set (b := forallb g _) end.
  assert (b = true <-> ws = full_words k c) as Hb.
  { apply forallb_nth; [now rewrite full_words_length|].
    intros i Hi. rewrite full_words_length in Hi. unfold word, full_words.
    destruct (Z.eqb_spec (Z.of_nat i) (Z.of_nat k)) as [->%Nat2Z.inj|Hik].
    - rewrite app_nth2; rewrite repeat_length; [|lia]. now rewrite Nat.sub_diag.
    - rewrite app_nth1 by (rewrite repeat_length; lia). symmetry. apply nth_repeat_lt. lia. }
  rewrite <- (mask_value_full k c) by lia.
  destruct (Z.eqb_spec (mask_value ws) (mask_value (full_words k c))) as [E|E].
  - rewrite (proj2 Hb); [reflexivity|]. apply mask_value_inj; auto.
    + apply full_words_word. lia.
    + now rewrite full_words_length.
  - destruct b; [|reflexivity]. rewrite (proj1 Hb eq_refl) in E. now destruct E.
Qed.

(** [node_mask_check] accepts exactly the mask with the low [num_bits]
    bits set, when the last word holds between 1 and 30 of them: it returns 0
    for that mask and -1 for every other. *)
Theorem node_mask_check_exact ws k c :
  Forall is_word ws -> length ws = S k -> Z.of_nat k < 2 ^ 31 -> 1 <= c <= 30 ->
  node_mask_check shl ws (Z.of_nat (S k)) (64 * Z.of_nat k + c) =
  if mask_value ws =? 2 ^ (64 * Z.of_nat k + c) - 1 then 0 else -1.
Proof. apply node_mask_check_spec. Qed.

(** When the number of nodes is a positive multiple of 64 the function
    asks for an empty last word: the mask with all [num_bits] bits set is
    refused. *)
Theorem node_mask_check_multiple_of_64 k :
  Z.of_nat k < 2 ^ 31 ->
  node_mask_check shl (full_words k 64) (Z.of_nat (S k)) (64 * Z.of_nat (S k)) = -1.
Proof.
  intros Hk. unfold node_mask_check. rewrite rounds_small, last_small by exact Hk.
  cbn [node_mask_loop]. rewrite Z.eqb_refl.
  assert ((64 * Z.of_nat (S k)) mod BITS_PER_LONG = 0) as ->
    by (change BITS_PER_LONG with 64; rewrite Z.mul_comm; apply Z.mod_mul; lia).
  rewrite low_mask_small by lia. unfold word, full_words.
  rewrite app_nth2; rewrite repeat_length; [|lia]. rewrite Nat.sub_diag. reflexivity.
Qed.
End Check.

Lemma node_mask_check_exact_witness :
  node_mask_check (fun _ => 0) [2 ^ 64 - 1; 0x3f] 2 70 = 0 /\
  node_mask_check (fun _ => 0) [2 ^ 64 - 1; 0x1f] 2 70 = -1.
Proof.
  split.
  - refine (node_mask_check_exact (fun _ => 0) [2 ^ 64 - 1; 0x3f] 1 6 _ eq_refl _ _);
      [repeat (constructor; [split; [discriminate|reflexivity]|]); constructor|reflexivity|lia].
  - refine (node_mask_check_exact (fun _ => 0) [2 ^ 64 - 1; 0x1f] 1 6 _ eq_refl _ _);
      [repeat (constructor; [split; [discriminate|reflexivity]|]); constructor|reflexivity|lia].
Defined.

Lemma node_mask_check_multiple_of_64_witness :
  node_mask_check (fun _ => 0) [2 ^ 64 - 1] 1 64 = -1.
Proof. exact (node_mask_check_multiple_of_64 (fun _ => 0) 0 eq_refl). Defined.
