(* ===== verification/NumaThms.v ===== *)
(** * The NUMA suites on a documented kernel

    Rules for the calls and for the blocks of [Numa] against the interface
    [NumaKernel]. *)
From S2P Require Import Prelude Process Trace Arch CLib TestMck AddrSpace.
From S2P Require Import Numa NumaCases Mempolicy NumaSpec.
From Stdlib Require Import Ascii String.
#[local] Open Scope string_scope.
#[local] Open Scope Z_scope.

(** ** The specification up to equivalent views *)

Section Proper.
  Context `{ArchConfig} (n : Z).

Lemma range_mapped_equiv v1 v2 lo len : v1 ≡ v2 -> range_mapped v1 lo len = range_mapped v2 lo len.
Proof.
  intros (_ & Hm & _). unfold range_mapped. induction (seq _ _) as [|i l IH]; cbn; [reflexivity|].
  now rewrite Hm, IH.
Qed.

Lemma bind_range_equiv v1 v2 lo len p : v1 ≡ v2 -> bind_range lo len p v1 ≡ bind_range lo len p v2.
Proof. intros (H1 & H2 & H3). repeat split; cbn; auto. intros a. now rewrite H3. Qed.

Lemma map_range_equiv v1 v2 lo len : v1 ≡ v2 -> map_range lo len v1 ≡ map_range lo len v2.
Proof.
  intros (H1 & H2 & H3). repeat split; cbn; auto; intros a; [now rewrite H2|now rewrite H3].
Qed.

Lemma mbind_spec_equiv v1 v2 addr len mode nmask maxnode flags :
  v1 ≡ v2 ->
  snd (mbind_spec n v1 addr len mode nmask maxnode flags)
    = snd (mbind_spec n v2 addr len mode nmask maxnode flags) /\
  fst (mbind_spec n v1 addr len mode nmask maxnode flags)
    ≡ fst (mbind_spec n v2 addr len mode nmask maxnode flags).
Proof.
  intros E. unfold mbind_spec. destruct (mode_ok mode); cbn [negb]; [|now split].
  destruct (node_arg nmask maxnode); [|now split].
  repeat (case_if; [now split|]). destruct (mpol_new n mode z); [|now split].
  rewrite (range_mapped_equiv v1 v2) by exact E. case_if; [|now split].
  split; [reflexivity|]. now apply bind_range_equiv.
Qed.

Lemma set_spec_equiv v1 v2 mode nmask maxnode :
  v1 ≡ v2 ->
  snd (set_spec n v1 mode nmask maxnode) = snd (set_spec n v2 mode nmask maxnode) /\
  fst (set_spec n v1 mode nmask maxnode) ≡ fst (set_spec n v2 mode nmask maxnode).
Proof.
  intros E. unfold set_spec. destruct (mode_ok mode); cbn [negb]; [|now split].
  destruct (node_arg nmask maxnode); [|now split]. destruct (mpol_new n mode z); [|now split].
  split; [reflexivity|]. destruct E as (H1 & H2 & H3). now repeat split.
Qed.

Lemma get_spec_equiv v1 v2 nmask maxnode addr flags :
  v1 ≡ v2 -> get_spec n v1 nmask maxnode addr flags = get_spec n v2 nmask maxnode addr flags.
Proof. intros (H1 & H2 & H3). unfold get_spec. now rewrite H1, H2, H3. Qed.
End Proper.

(** ** Rules *)

Section Rules.
  Context `{AC : ArchConfig} (K : kernel) {NK : NumaKernel K}.
  Implicit Types (w : world K) (v : nview) (m : numa_mem) (k : numa_run).

Definition at_view v w : Prop := nview_of (w_k w) ≡ v.

(** From the view [v], the run returns [NULL]. *)
Definition passes (p : numa_run) v : Prop :=
  forall w, at_view v w -> exists m w', run K p w = (Done (None, m), w').

(** A call that returns [r], leaves the view [v] and, on failure, [errno]. *)
Definition returns (p : prog Z) v (r : Z) v' : Prop :=
  forall w, at_view v w -> exists w', run K p w = (Done (if is_err r then -1 else r), w') /\
    at_view v' w' /\ (is_err r = true -> p_errno (w_proc w') = - r).

Lemma returns_syscall c r v v' (k : ans c -> Z) :
  (forall s, nview_of s ≡ v -> exists s' a, kstep K c s = (s', a) /\ k a = r /\ nview_of s' ≡ v') ->
  returns (bind (trigger c) (fun a => syscall_ret (-1) (k a))) v r v'.
Proof.
  intros Hc w Hw. destruct (Hc _ Hw) as (s' & a & E & Ea & Hv). cbn. rewrite E. cbn. rewrite Ea.
  unfold syscall_ret. destruct (is_err r); cbn; eexists; (split; [reflexivity|]); (split; [exact Hv|]).
  - reflexivity.
  - discriminate.
Qed.

Lemma returns_mbind v addr len mode nmask maxnode flags :
  flags = 0 \/ flags = MPOL_MF_MOVE \/ flags = MPOL_MF_MOVE_ALL ->
  returns (mbind addr len mode nmask maxnode flags) v
    (snd (mbind_spec nodes v addr len mode nmask maxnode flags))
    (fst (mbind_spec nodes v addr len mode nmask maxnode flags)).
Proof.
  intros Hf. apply (returns_syscall (Mbind addr len mode nmask maxnode flags) _ _ _ id).
  intros s Hs. destruct (nk_mbind s addr len mode nmask maxnode flags Hf) as (s' & E & Ev).
  destruct (mbind_spec_equiv nodes _ _ addr len mode nmask maxnode flags Hs) as [Er Ew].
  do 2 eexists. split; [exact E|]. split; [exact Er|]. now rewrite Ev.
Qed.

Lemma returns_set v mode nmask maxnode :
  returns (set_mempolicy mode nmask maxnode) v
    (snd (set_spec nodes v mode nmask maxnode)) (fst (set_spec nodes v mode nmask maxnode)).
Proof.
  apply (returns_syscall (SetMempolicy mode nmask maxnode) _ _ _ id).
  intros s Hs. destruct (nk_set s mode nmask maxnode) as (s' & E & Ev).
  destruct (set_spec_equiv nodes _ _ mode nmask maxnode Hs) as [Er Ew].
  do 2 eexists. split; [exact E|]. split; [exact Er|]. now rewrite Ev.
Qed.

(** The mask passed to [get_mempolicy] has room for [maxnode] bits. *)
Definition mask_fits (nmask : option (list Z)) (maxnode : Z) : Prop :=
  forall ws, nmask = Some ws -> maxnode <= 64 * Z.of_nat (List.length ws).

Lemma run_get v mode nmask maxnode addr flags w :
  mask_fits nmask maxnode -> at_view v w ->
  match get_spec nodes v nmask maxnode addr flags with
  | GPol p => exists w' md ws, at_view v w' /\
      run K (get_mempolicy mode nmask maxnode addr flags) w = (Done (0, (md, ws)), w') /\
      (mode = true -> md = fst p) /\
      (forall ws0, nmask = Some ws0 -> ws = mask_words (List.length ws0) (snd p))
  | GNode => exists w' md ws, at_view v w' /\
      run K (get_mempolicy mode nmask maxnode addr flags) w = (Done (0, (md, ws)), w') /\
      (mode = true -> 0 <= md < nodes)
  | GErr e => 1 <= e <= 4095 -> exists w' out, at_view v w' /\
      run K (get_mempolicy mode nmask maxnode addr flags) w = (Done (-1, out), w') /\
      p_errno (w_proc w') = e
  end.
Proof.
  intros Hf Hw. destruct (nk_get (w_k w) mode nmask maxnode addr flags Hf) as (s' & r & md & ws & E & Ev & Hs).
  rewrite (get_spec_equiv nodes _ _ nmask maxnode addr flags Hw) in Hs.
  unfold get_mempolicy. cbn. rewrite E. cbn.
  assert (nview_of s' ≡ v) as Hv by now rewrite Ev.
  destruct (get_spec nodes v nmask maxnode addr flags) as [p| |e].
  - destruct Hs as (-> & Hm & Hws). exists (World (w_proc w) s'), md, ws. repeat split; auto.
    all: apply Hv.
  - destruct Hs as (-> & Hm). exists (World (w_proc w) s'), md, ws. repeat split; auto; try apply Hv.
    all: now apply Hm.
  - intros He. subst r. unfold syscall_ret. rewrite is_err_true by lia. cbn.
    eexists _, (md, ws). split; [|split; [reflexivity|]]; [exact Hv|cbn; lia].
Qed.

Lemma passes_ok m v : passes (ok m) v.
Proof. intros w Hw. exists m, w. reflexivity. Qed.

(** Statements that keep the view. *)
Lemma passes_printf f a k v : passes k v -> passes (printf f a ;; k) v.
Proof. intros Hk w Hw. apply (Hk (World (with_line (f, a) (w_proc w)) (w_k w)) Hw). Qed.

Lemma passes_assert (b : bool) x k v : b = true -> passes k v -> passes (tp_assert b x k) v.
Proof. now intros -> Hk. Qed.

Lemma passes_nonzero m k v : max_node m <> 0 -> passes k v -> passes (check_nonzero m k) v.
Proof. intros Hn Hk. unfold check_nonzero. apply Z.eqb_neq in Hn. now rewrite Hn. Qed.

Lemma passes_at_least n t m k v : n <= max_node m -> passes k v -> passes (check_at_least n t m k) v.
Proof. intros Hn Hk. unfold check_at_least. rewrite (proj2 (Z.ltb_ge _ _)) by lia. exact Hk. Qed.

Lemma passes_maxnode m k v : passes k v -> passes (print_maxnode m k) v.
Proof. apply passes_printf. Qed.

Lemma passes_set_mask x k v : passes k v -> passes (print_set_mask x k) v.
Proof. apply passes_printf. Qed.

Lemma run_print_words n ws w :
  exists pr, run K (print_words n ws) w = (Done tt, World pr (w_k w)).
Proof.
  revert w. induction n as [|n IH]; intros w; cbn [print_words].
  - exists (w_proc w). now destruct w.
  - rewrite run_bind. cbn. destruct (IH (World (with_line (" %lu", [PZ (word ws n)]) (w_proc w)) (w_k w)))
      as (pr & E). exists pr. exact E.
Qed.

Lemma passes_print_mask name m ws k v : passes k v -> passes (print_mask name m ws ;; k) v.
Proof.
  intros Hk w Hw. unfold print_mask. rewrite run_bind, run_bind. cbn [printf run w_k w_proc].
  rewrite run_bind. destruct (run_print_words (rounds (nr_node_mask m)) ws
    (World (with_line (name, []) (w_proc w)) (w_k w))) as (pr & ->). cbn.
  apply (Hk (World _ (w_k w)) Hw).
Qed.

Lemma passes_zero_mask m k v :
  Forall (eq 0) (words (node_mask m)) -> passes k v -> passes (zero_mask m k) v.
Proof.
  intros Hz Hk. apply passes_printf. generalize (rounds (nr_node_mask m)). intros n.
  assert (forall i, word (words (node_mask m)) i = 0) as Hw.
  { intros i. unfold word. rewrite List.Forall_forall in Hz.
    destruct (nth_in_or_default i (words (node_mask m)) 0) as [Hi| ->]; [|reflexivity].
    symmetry. now apply Hz. }
  induction n as [|n IH]; cbn [zero_mask_loop]; [now apply passes_printf|].
  apply passes_printf, passes_assert; [now rewrite Hw|exact IH].
Qed.

(** Calls with a demanded result. *)
Lemma passes_expect_zero p msg m k v v' :
  returns p v 0 v' -> passes k v' -> passes (expect_zero p msg m k) v.
Proof.
  intros Hp Hk w Hw. unfold expect_zero. rewrite run_bind.
  destruct (Hp w Hw) as (w' & -> & Hw' & _). cbn. now apply Hk.
Qed.

Lemma passes_expect_errno p msg1 e msg2 m k v v' :
  1 <= e <= 4095 -> returns p v (- e) v' -> passes k v' ->
  passes (expect_errno p msg1 e msg2 m k) v.
Proof.
  intros He Hp Hk w Hw. unfold expect_errno. rewrite run_bind.
  destruct (Hp w Hw) as (w' & -> & Hw' & Herr). rewrite is_err_true in * by lia.
  specialize (Herr eq_refl). cbn. rewrite Herr, Z.opp_involutive, Z.eqb_refl. cbn.
  now apply (Hk (World (w_proc w') (w_k w'))).
Qed.

Lemma returns_get_err mode nmask maxnode addr flags e v :
  1 <= e <= 4095 -> mask_fits nmask maxnode ->
  get_spec nodes v nmask maxnode addr flags = GErr e ->
  returns (get_ret mode nmask maxnode addr flags) v (- e) v.
Proof.
  intros He Hf Hs w Hw. unfold get_ret. rewrite run_bind.
  pose proof (run_get v mode nmask maxnode addr flags w Hf Hw) as Hg. rewrite Hs in Hg.
  destruct (Hg He) as (w' & out & Hw' & -> & Herr). rewrite is_err_true by lia. cbn.
  exists w'. split; [reflexivity|]. split; [exact Hw'|]. intros _. lia.
Qed.

Lemma passes_get_policy mode maxnode addr flags msg m (k : Z -> numa_mem -> numa_run) v p ws :
  node_mask m = Some p -> ws = snd p -> maxnode <= 64 * Z.of_nat (List.length ws) ->
  forall md mask, get_spec nodes v (Some ws) maxnode addr flags = GPol (md, mask) ->
  (forall md', (mode = true -> md' = md) ->
     passes (k md' (with_words (mask_words (List.length ws) mask) m)) v) ->
  passes (get_policy mode maxnode addr flags msg m k) v.
Proof.
  intros Em -> Hl md mask Hs Hk w Hw. unfold get_policy. rewrite Em. cbn [fmap option_fmap option_map].
  assert (mask_fits (Some (snd p)) maxnode) as Hf by (intros ws [= <-]; exact Hl).
  rewrite run_bind. pose proof (run_get v mode (Some (snd p)) maxnode addr flags w Hf Hw) as Hg.
  rewrite Hs in Hg. destruct Hg as (w' & md' & ws' & Hw' & -> & Hmd & Hws). cbn [fst snd] in *.
  rewrite (Hws _ eq_refl). cbn [Z.eqb tp_assert]. now apply Hk.
Qed.

Lemma passes_get_mode mode addr flags msg m (k : Z -> numa_run) v :
  (exists p, get_spec nodes v None 0 addr flags = GPol p /\
             forall md, (mode = true -> md = fst p) -> passes (k md) v) \/
  get_spec nodes v None 0 addr flags = GNode /\
    (forall md, (mode = true -> 0 <= md < nodes) -> passes (k md) v) ->
  passes (get_mode mode addr flags msg m k) v.
Proof.
  intros Hc w Hw. unfold get_mode. rewrite run_bind.
  assert (mask_fits None 0) as Hf by (intros ws [=]).
  pose proof (run_get v mode None 0 addr flags w Hf Hw) as Hg.
  destruct Hc as [(p & Hs & Hk)|[Hs Hk]]; rewrite Hs in Hg.
  - destruct Hg as (w' & md & ws & Hw' & -> & Hmd & _). now apply Hk.
  - destruct Hg as (w' & md & ws & Hw' & -> & Hmd). now apply Hk.
Qed.

(** Node mask arrays. *)
Definition mask_len (n : Z) : Z := if (n + 63) / 64 =? 0 then 1 else (n + 63) / 64.

Lemma mask_len_bounds n : 0 <= n < 2 ^ 20 -> 1 <= mask_len n <= 2 ^ 14 /\ n <= 64 * mask_len n.
Proof.
  intros Hn. unfold mask_len. assert (0 <= (n + 63) / 64) by (apply Z.div_pos; lia).
  assert ((n + 63) / 64 <= 2 ^ 14) by (apply Z.lt_succ_r, Z.div_lt_upper_bound; lia).
  pose proof (Z.div_mod (n + 63) 64). pose proof (Z.mod_pos_bound (n + 63) 64).
  destruct (Z.eqb_spec ((n + 63) / 64) 0); lia.
Qed.

Lemma run_create n v w :
  0 <= n < 2 ^ 20 -> at_view v w ->
  exists w' p, at_view v w' /\
    run K (create_node_mask n) w = (Done (Some (p, repeat 0 (Z.to_nat (mask_len n))), mask_len n), w').
Proof.
  intros Hn Hw. unfold create_node_mask. destruct (mask_len_bounds n Hn) as [Hl _].
  assert (u64 (u64 (n + BITS_PER_LONG) - 1) / BITS_PER_LONG = (n + 63) / 64) as ->.
  { change BITS_PER_LONG with 64. rewrite (u64_small (n + 64)) by lia. rewrite u64_small by lia.
    do 2 f_equal. lia. }
  fold (mask_len n).
  destruct (nk_malloc (w_k w) (mask_len n * 8)) as (s' & p & E & Hp & Ev); [lia|].
  rewrite u64_small by lia. cbn. rewrite E. cbn. apply Z.eqb_neq in Hp. rewrite Hp. cbn. rewrite Hp.
  exists (World (w_proc w) s'), p. split; [|reflexivity]. unfold at_view. cbn. now rewrite Ev.
Qed.

Lemma passes_new_mask n m (k : numa_mem -> numa_run) v :
  0 <= n < 2 ^ 20 ->
  (forall p, passes (k (with_mask (Some (p, repeat 0 (Z.to_nat (mask_len n)))) (mask_len n) m)) v) ->
  passes (new_node_mask n m k) v.
Proof.
  intros Hn Hk w Hw. unfold new_node_mask. rewrite run_bind.
  destruct (run_create n v w Hn Hw) as (w' & p & Hw' & ->). now apply Hk.
Qed.

Lemma passes_new_mask2 n msg m (k : numa_mem -> numa_run) v :
  0 <= n < 2 ^ 20 ->
  (forall p, passes (k (with_mask2 (Some (p, repeat 0 (Z.to_nat (mask_len n)))) (mask_len n) m)) v) ->
  passes (new_node_mask2 n msg m k) v.
Proof.
  intros Hn Hk w Hw. unfold new_node_mask2. rewrite run_bind.
  destruct (run_create n v w Hn Hw) as (w' & p & Hw' & ->). now apply Hk.
Qed.

Lemma passes_mmap len (k : Z -> numa_run) v :
  0 < len <= 2 ^ 24 -> len mod PAGE_SIZE = 0 ->
  (forall a, 0 < a -> a + len <= 2 ^ 63 -> a mod PAGE_SIZE = 0 -> passes (k a) (map_range a len v)) ->
  passes (bind (mmap 0 len (Z.lor PROT_READ PROT_WRITE) (Z.lor MAP_PRIVATE MAP_ANONYMOUS) (-1) 0) k) v.
Proof.
  intros Hl Hm Hk w Hw. destruct (nk_mmap (w_k w) len Hl Hm) as (s' & a & E & H1 & H2 & H3 & Ev).
  rewrite run_bind. unfold mmap. cbn -[Z.lor]. rewrite E. cbn. unfold syscall_ret.
  rewrite is_err_false by lia. cbn. apply (Hk a H1 H2 H3).
  unfold at_view. cbn. rewrite Ev. now apply map_range_equiv.
Qed.

(** ** Whole test cases *)

Lemma run_total_free p w : exists w', run K (free p) w = (Done tt, w').
Proof. unfold free. cbn. destruct (kstep K (Free p) (w_k w)) as [s []]. eauto. Qed.

Lemma run_total_munmap a len w : exists r w', run K (munmap a len) w = (Done r, w').
Proof.
  unfold munmap. cbn. destruct (kstep K (Munmap a len) (w_k w)) as [s r]. cbn.
  unfold syscall_ret. destruct (is_err r); cbn; eauto.
Qed.

(** A teardown function that always returns. *)
Definition tears_down (td : Z -> numa_mem -> prog unit) : Prop :=
  forall n m w, exists w', run K (td n m) w = (Done tt, w').

Lemma tears_down_empty : tears_down TEARDOWN_EMPTY.
Proof. intros n m w. now exists w. Qed.
Lemma tears_down_mask : tears_down free_mask.
Proof. intros n m w. apply run_total_free. Qed.
Lemma tears_down_mask2 : tears_down free_mask2.
Proof. intros n m w. apply run_total_free. Qed.
Lemma tears_down_masks : tears_down free_masks.
Proof.
  intros n m w. unfold free_masks, destroy_node_mask. rewrite run_bind.
  match goal with |- context [run K (free ?p) w] => destruct (run_total_free p w) as (w1 & ->) end.
  apply run_total_free.
Qed.
Lemma run_total_unmap (b : bool) a len w :
  exists w', run K (if b then munmap a len ;; Ret tt else Ret tt) w = (Done tt, w').
Proof.
  destruct b; [|now exists w]. rewrite run_bind.
  destruct (run_total_munmap a len w) as (r & w' & ->). now exists w'.
Qed.
Lemma tears_down_mask_buf len : tears_down (free_mask_buf len).
Proof.
  intros n m w. unfold free_mask_buf, destroy_node_mask. rewrite run_bind.
  match goal with |- context [run K (free ?p) w] => destruct (run_total_free p w) as (w1 & ->) end.
  apply run_total_unmap.
Qed.
Lemma tears_down_unmap : tears_down unmap_buf.
Proof. intros n m w. apply run_total_unmap. Qed.

Lemma numa_case_passes suite n st f td argv w v m :
  at_view v w -> run K (st n argv) w = (Done m, w) -> passes (f m) v -> tears_down td ->
  fst (run K (run_test_case (numa_case suite n st f td) argv) w) = Done None.
Proof.
  intros Hw Hs Hp Ht. unfold run_test_case, numa_case. cbn [setup tc_run teardown num tc_mem].
  rewrite run_bind, Hs, run_bind. destruct (Hp w Hw) as (m' & w' & ->).
  rewrite run_bind. destruct (Ht n m' w') as (w'' & ->). reflexivity.
Qed.
End Rules.

(** ** The specification on the calls the tests make *)

Lemma node_arg_word `{ArchConfig} x : 0 <= x < 2 ^ 63 -> node_arg (Some [x]) BITS_PER_LONG = inl x.
Proof.
  intros Hx. unfold node_arg. change (BITS_PER_LONG =? 1) with false. change (u64 (BITS_PER_LONG - 1)) with 63.
  destruct PAGE_SIZE_cases as [-> | ->]; cbn [Z.mul Z.ltb Z.compare Pos.mul Pos.compare Pos.compare_cont];
    cbn [mask_value]; rewrite Z.mul_0_r, Z.add_0_r, Z.mod_small by exact Hx; reflexivity.
Qed.

Lemma node_arg_2 `{ArchConfig} x : node_arg (Some [x]) 2 = inl (x mod 2).
Proof.
  unfold node_arg. destruct PAGE_SIZE_cases as [-> | ->];
    cbn [mask_value]; rewrite Z.mul_0_r, Z.add_0_r; reflexivity.
Qed.

Lemma node_arg_low `{ArchConfig} x y : x mod 2 = y -> node_arg (Some [x]) 2 = inl y.
Proof. intros <-. apply node_arg_2. Qed.

Lemma node_arg_0 `{ArchConfig} ws : node_arg (Some ws) 0 = inr EINVAL.
Proof. unfold node_arg. destruct PAGE_SIZE_cases as [-> | ->]; reflexivity. Qed.

Lemma node_arg_large `{ArchConfig} ws : node_arg (Some ws) (sys_max_node + 2) = inr EINVAL.
Proof.
  unfold node_arg, sys_max_node. change BITS_PER_BYTE with 8.
  destruct PAGE_SIZE_cases as [-> | ->]; reflexivity.
Qed.

(** Policies for a non-empty set of the first four nodes. *)
Lemma mpol_new_bind n mode x :
  4 <= n -> 0 < x < 16 -> mode_base mode = MPOL_BIND \/ mode_base mode = MPOL_INTERLEAVE ->
  mpol_new n mode x = inl (mode, x).
Proof.
  intros Hn Hx Hm. unfold mpol_new. rewrite (land_online n x 4) by lia.
  assert ((mode_base mode =? MPOL_DEFAULT) = false /\ (mode_base mode =? MPOL_PREFERRED) = false)
    as [-> ->] by (destruct Hm as [-> | ->]; split; reflexivity).
  rewrite (proj2 (Z.eqb_neq x 0)) by lia. now destruct (mode =? mode_base mode).
Qed.

Lemma mpol_new_preferred n x :
  4 <= n -> 0 < x < 16 -> mpol_new n MPOL_PREFERRED x = inl (MPOL_PREFERRED, Z.land x (- x)).
Proof.
  intros Hn Hx. unfold mpol_new. rewrite (land_online n x 4) by lia.
  change (mode_base MPOL_PREFERRED) with MPOL_PREFERRED.
  rewrite (proj2 (Z.eqb_neq x 0)) by lia. reflexivity.
Qed.

(** The process the tests run in: page-aligned space on the stack, mapped with
    the default policy; the null page and the kernel's addresses are not
    mapped. *)
Record stack_ok `{ArchConfig} (tmp_buf : Z) (v : nview) : Prop := {
  so_pos : PAGE_SIZE <= page_buf tmp_buf;
  so_end : page_buf tmp_buf + PAGE_SIZE <= 2 ^ 63;
  so_aligned : page_buf tmp_buf mod PAGE_SIZE = 0;
  so_mapped : nv_mapped v (page_buf tmp_buf) = true;
  so_array : 0 < tmp_buf /\ nv_mapped v (page_of tmp_buf) = true /\
             nv_pol v (page_of tmp_buf) = default_policy;
  so_task : nv_task v = default_policy;
  so_null : nv_mapped v 0 = false;
  so_kernel : nv_mapped v 0xFFFFFFFF00000000 = false;
}.

Lemma align_up_page `{ArchConfig} : align_up PAGE_SIZE PAGE_SIZE = PAGE_SIZE /\ align_up 0 PAGE_SIZE = 0.
Proof. destruct PAGE_SIZE_cases as [-> | ->]; split; reflexivity. Qed.

Section OnPage.
  Context `{AC : ArchConfig} (n tmp_buf : Z) (v : nview).
  Hypothesis Hso : stack_ok tmp_buf v.

(** [mbind] on the page of the stack. *)
Lemma mbind_on_page v' mode nmask maxnode flags :
  nv_mapped v' (page_buf tmp_buf) = true ->
  mbind_spec n v' (page_buf tmp_buf) PAGE_SIZE mode nmask maxnode flags =
  if negb (mode_ok mode) then (v', - EINVAL)
  else match node_arg nmask maxnode with
  | inr e => (v', - e)
  | inl mask =>
      if has flags MPOL_MF_MOVE_ALL then (v', - EPERM)
      else match mpol_new n mode mask with
      | inr e => (v', - e)
      | inl p => (bind_range (page_buf tmp_buf) PAGE_SIZE p v', 0)
      end
  end.
Proof.
  intros Hm. destruct Hso as [H1 H2 H3 _ _ _ _ _]. pose proof PAGE_SIZE_pos.
  unfold mbind_spec. rewrite H3, (proj1 align_up_page).
  set (a := page_buf tmp_buf) in *. rewrite (u64_small (a + PAGE_SIZE)) by lia.
  rewrite (proj2 (Z.ltb_ge (a + PAGE_SIZE) a)), (proj2 (Z.eqb_neq (a + PAGE_SIZE) a)) by lia.
  unfold range_mapped. rewrite Z.div_same by lia. change (Z.to_nat 1) with 1%nat.
  cbn [seq forallb Z.of_nat]. rewrite Z.mul_0_l, Z.add_0_r, Hm. reflexivity.
Qed.

Lemma page_of_aligned a : a mod PAGE_SIZE = 0 -> page_of a = a.
Proof. unfold page_of. lia. Qed.

(** Reading the policy of the page back. *)
Lemma get_on_page v' ws maxnode :
  nv_mapped v' (page_buf tmp_buf) = true -> n <= maxnode \/ ws = None ->
  get_spec n v' ws maxnode (page_buf tmp_buf) MPOL_F_ADDR = GPol (nv_pol v' (page_buf tmp_buf)).
Proof.
  intros Hm Hn. destruct Hso as [_ _ H3 _ _ _ _ _]. unfold get_spec.
  rewrite (page_of_aligned _ H3), Hm. destruct Hn as [Hn| ->]; [|reflexivity].
  now rewrite (proj2 (Z.ltb_ge maxnode n) Hn), andb_false_r.
Qed.

Lemma pol_bind_page p v' : nv_pol (bind_range (page_buf tmp_buf) PAGE_SIZE p v') (page_buf tmp_buf) = p.
Proof. pose proof PAGE_SIZE_pos. cbn. now range_tac. Qed.
End OnPage.
