(* ===== verification/NumaPass.v ===== *)
(** * The NUMA test cases pass on a documented kernel *)
From S2P Require Import Prelude Process Trace Arch CLib TestMck AddrSpace.
From S2P Require Import Numa NumaCases Mempolicy NumaSpec NumaMask NumaThms.
From Stdlib Require Import Ascii String.
#[local] Open Scope string_scope.
#[local] Open Scope Z_scope.

Lemma mask_len_small n : 1 <= n <= 64 -> mask_len n = 1.
Proof.
  intros Hn. unfold mask_len.
  assert ((n + 63) / 64 = 1) as -> by (symmetry; apply Z.div_unique with (n - 1); lia).
  reflexivity.
Qed.

Section Blocks.
  Context `{AC : ArchConfig} (K : kernel) {NK : NumaKernel K} (tmp_buf : Z) (v0 : nview).
  Hypothesis Hso : stack_ok tmp_buf v0.
  Implicit Types (v : nview) (m : numa_mem) (k : numa_run).

Abbreviation page := (page_buf tmp_buf).
Abbreviation stack_mapped v := (nv_mapped v page = true).

Lemma new_mask n m (k : numa_mem -> numa_run) v :
  1 <= n <= 64 -> (forall p, passes K (k (with_mask (Some (p, [0])) 1 m)) v) ->
  passes K (new_node_mask n m k) v.
Proof.
  intros Hl Hk. apply passes_new_mask; [lia|]. rewrite mask_len_small by lia. exact Hk.
Qed.

Lemma new_mask2 n msg m (k : numa_mem -> numa_run) v :
  1 <= n <= 64 -> (forall p, passes K (k (with_mask2 (Some (p, [0])) 1 m)) v) ->
  passes K (new_node_mask2 n msg m k) v.
Proof.
  intros Hl Hk. apply passes_new_mask2; [lia|]. rewrite mask_len_small by lia. exact Hk.
Qed.

Lemma mbind_eq v addr len mode nmask maxnode flags v' r :
  flags = 0 \/ flags = MPOL_MF_MOVE \/ flags = MPOL_MF_MOVE_ALL ->
  mbind_spec nodes v addr len mode nmask maxnode flags = (v', r) ->
  returns K (mbind addr len mode nmask maxnode flags) v r v'.
Proof. intros Hf E. pose proof (returns_mbind K v addr len mode nmask maxnode flags Hf) as Hr. now rewrite E in Hr. Qed.

Lemma set_eq v mode nmask maxnode v' r :
  set_spec nodes v mode nmask maxnode = (v', r) ->
  returns K (set_mempolicy mode nmask maxnode) v r v'.
Proof. intros E. pose proof (returns_set K v mode nmask maxnode) as Hr. now rewrite E in Hr. Qed.

(** Binding the page, and reading the policy back. *)
Lemma bind_page mode nmask maxnode flags mask p msg m k v :
  flags = 0 \/ flags = MPOL_MF_MOVE -> mode_ok mode = true -> node_arg nmask maxnode = inl mask ->
  mpol_new nodes mode mask = inl p -> stack_mapped v ->
  passes K k (bind_range page PAGE_SIZE p v) ->
  passes K (expect_zero (mbind page PAGE_SIZE mode nmask maxnode flags) msg m k) v.
Proof.
  intros Hf Hm Ha Hp Hv Hk. eapply passes_expect_zero; [|exact Hk].
  apply mbind_eq; [tauto|]. rewrite (mbind_on_page nodes tmp_buf v0 Hso) by exact Hv.
  rewrite Hm, Ha, Hp. destruct Hf as [-> | ->]; reflexivity.
Qed.

Lemma bind_fails mode nmask maxnode flags e msg1 msg2 m k v :
  flags = 0 \/ flags = MPOL_MF_MOVE \/ flags = MPOL_MF_MOVE_ALL -> 1 <= e <= 4095 ->
  mbind_spec nodes v page PAGE_SIZE mode nmask maxnode flags = (v, - e) -> passes K k v ->
  passes K (expect_errno (mbind page PAGE_SIZE mode nmask maxnode flags) msg1 e msg2 m k) v.
Proof. intros Hf He Hs Hk. eapply passes_expect_errno; [exact He| |exact Hk]. now apply mbind_eq. Qed.

Lemma get_page maxnode msg m (k : Z -> numa_mem -> numa_run) v q ws md mask :
  node_mask m = Some (q, ws) -> nodes <= maxnode <= 64 * Z.of_nat (List.length ws) ->
  stack_mapped v -> nv_pol v page = (md, mask) ->
  passes K (k md (with_words (mask_words (List.length ws) mask) m)) v ->
  passes K (get_policy true maxnode page MPOL_F_ADDR msg m k) v.
Proof.
  intros Hq Hl Hv Hp Hk. eapply passes_get_policy; [exact Hq|reflexivity|apply Hl| |].
  - cbn [snd]. rewrite (get_on_page nodes tmp_buf v0 Hso) by (auto; left; lia). now rewrite Hp.
  - intros md' E. now rewrite (E eq_refl).
Qed.

(** The policy of the process. *)
Lemma set_task mode nmask maxnode mask p msg m k v :
  mode_ok mode = true -> node_arg nmask maxnode = inl mask -> mpol_new nodes mode mask = inl p ->
  passes K k (NView p (nv_mapped v) (nv_pol v)) ->
  passes K (expect_zero (set_mempolicy mode nmask maxnode) msg m k) v.
Proof.
  intros Hm Ha Hp Hk. eapply passes_expect_zero; [|exact Hk].
  apply set_eq. unfold set_spec. now rewrite Hm, Ha, Hp.
Qed.

Lemma set_fails mode nmask maxnode e msg1 msg2 m k v :
  1 <= e <= 4095 -> set_spec nodes v mode nmask maxnode = (v, - e) -> passes K k v ->
  passes K (expect_errno (set_mempolicy mode nmask maxnode) msg1 e msg2 m k) v.
Proof. intros He Hs Hk. eapply passes_expect_errno; [exact He| |exact Hk]. now apply set_eq. Qed.

Lemma get_any mode maxnode addr flags msg m (k : Z -> numa_mem -> numa_run) v q ws md mask :
  node_mask m = Some (q, ws) -> maxnode <= 64 * Z.of_nat (List.length ws) ->
  get_spec nodes v (Some ws) maxnode addr flags = GPol (md, mask) ->
  (forall md', (mode = true -> md' = md) ->
     passes K (k md' (with_words (mask_words (List.length ws) mask) m)) v) ->
  passes K (get_policy mode maxnode addr flags msg m k) v.
Proof. intros Hq Hl Hs Hk. eapply passes_get_policy; [exact Hq|reflexivity|exact Hl|exact Hs|exact Hk]. Qed.

Lemma get_fails mode nmask maxnode addr flags e msg1 msg2 m k v :
  1 <= e <= 4095 -> mask_fits nmask maxnode ->
  get_spec nodes v nmask maxnode addr flags = GErr e -> passes K k v ->
  passes K (expect_errno (get_ret mode nmask maxnode addr flags) msg1 e msg2 m k) v.
Proof.
  intros He Hf Hs Hk. eapply passes_expect_errno; [exact He| |exact Hk].
  now apply returns_get_err.
Qed.
End Blocks.

Section Mbind.
  Context `{AC : ArchConfig} (K : kernel) {NK : NumaKernel K} (tmp_buf : Z) (shl : Z -> Z) (v : nview).
  Context (m : numa_mem).
  Hypothesis Hn : 4 <= nodes <= 29.
  Hypothesis Hso : stack_ok tmp_buf v.
  Hypothesis Hm : max_node m = nodes.

Ltac maps := cbn [nv_mapped bind_range]; first [assumption|apply (so_mapped _ _ Hso)].
Ltac arg_tac :=
  first [apply node_arg_word; lia|eapply node_arg_low; vm_compute; reflexivity|reflexivity].
Ltac pol_tac :=
  first [apply mpol_new_bind; [lia|lia|solve [left; reflexivity|right; reflexivity]]
        |apply mpol_new_preferred; lia|reflexivity].
Ltac fits := intros ws [= <-]; cbn; lia.

(** One block of a run function. *)
Ltac block :=
  match goal with
  | |- passes _ (check_nonzero _ _) _ => apply passes_nonzero; [lia|]
  | |- passes _ (check_at_least _ _ _ _) _ => apply passes_at_least; [lia|]
  | |- passes _ (print_maxnode _ _) _ => apply passes_maxnode
  | |- passes _ (print_set_mask _ _) _ => apply passes_set_mask
  | |- passes _ (new_node_mask _ _ _) _ => apply new_mask; [cbn [max_node with_mask]; lia|intros p]
  | |- passes _ (expect_zero (mbind _ _ _ _ _ _) _ _ _) _ =>
      eapply (bind_page K tmp_buf v Hso);
        [solve [auto]|reflexivity|arg_tac|pol_tac|maps|]
  | |- passes _ (expect_errno (mbind _ _ _ _ _ _) _ _ _ _ _) _ =>
      apply bind_fails; [solve [auto]|unfold EINVAL, EPERM; lia| |]
  | |- passes _ (get_policy true _ _ MPOL_F_ADDR _ _ _) _ =>
      eapply (get_page K tmp_buf v Hso);
        [reflexivity|cbn; lia|maps|apply pol_bind_page|]
  | |- passes _ (zero_mask _ _) _ => apply passes_zero_mask; [repeat constructor|]
  | |- passes _ (tp_assert _ _ _) _ => apply passes_assert; [reflexivity|]
  | |- passes _ (bind (printf _ _) _) _ => apply passes_printf
  | |- passes _ (ok _) _ => apply passes_ok
  end.

Lemma pass_mbind_000 : passes K (mbind_run_000 tmp_buf m) v.
Proof. unfold mbind_run_000. repeat block. Qed.

Lemma pass_mbind_001 : passes K (mbind_run_001 tmp_buf m) v.
Proof.
  unfold mbind_run_001. eapply passes_expect_errno; [unfold EINVAL; lia| |apply passes_ok].
  apply mbind_eq; [auto|]. unfold mbind_spec. cbn [mode_ok node_arg].
  change (negb (mode_ok MPOL_DEFAULT)) with false. change (has 0 MPOL_MF_MOVE_ALL) with false.
  destruct Hso as [_ _ Ha _ _ _ _ _].
  rewrite <- Z.add_mod_idemp_l, Ha by (pose proof PAGE_SIZE_pos; lia).
  destruct PAGE_SIZE_cases as [-> | ->]; reflexivity.
Qed.

Lemma pass_mbind_002 : passes K (mbind_run_002 tmp_buf m) v.
Proof.
  unfold mbind_run_002. eapply passes_expect_zero; [|apply passes_ok].
  apply mbind_eq; [auto|]. destruct Hso as [Hp He Ha _ _ _ _ _]. pose proof PAGE_SIZE_pos.
  unfold mbind_spec. rewrite Ha, (proj2 align_up_page), Z.add_0_r.
  set (a := page_buf tmp_buf) in *. rewrite (u64_small a), Z.ltb_irrefl, !Z.eqb_refl by lia. reflexivity.
Qed.

Lemma pass_mbind_003 : passes K (mbind_run_003 tmp_buf m) v.
Proof.
  unfold mbind_run_003. cbv zeta. eapply passes_expect_errno; [unfold EINVAL; lia| |apply passes_ok].
  apply mbind_eq; [auto|]. destruct Hso as [Hp He Ha _ _ _ _ _]. pose proof PAGE_SIZE_pos.
  assert (align_up (Z.land ULONG_MAX (u64 (Z.lnot (PAGE_SIZE - 1)))) PAGE_SIZE = 2 ^ 64 - PAGE_SIZE) as El.
  { clear -H. destruct PAGE_SIZE_cases as [-> | ->]; reflexivity. }
  unfold mbind_spec. rewrite Ha, El. set (a := page_buf tmp_buf) in *.
  assert (u64 (a + (2 ^ 64 - PAGE_SIZE)) = a - PAGE_SIZE) as ->.
  { unfold u64. symmetry. apply Z.mod_unique_pos with 1; lia. }
  rewrite (proj2 (Z.ltb_lt (a - PAGE_SIZE) a)) by lia. reflexivity.
Qed.

(** The failing calls on the page. *)
Ltac fail_tac :=
  rewrite (mbind_on_page nodes tmp_buf v Hso) by apply (so_mapped _ _ Hso);
  rewrite ?node_arg_0, ?node_arg_2, ?node_arg_large; reflexivity.

Lemma pass_mbind_004 : passes K (mbind_run_004 tmp_buf m) v.
Proof. unfold mbind_run_004. repeat block. fail_tac. Qed.

Lemma pass_set_get mode mask flags exp msg1 msg2 msg3 :
  flags = 0 \/ flags = MPOL_MF_MOVE -> mode_ok mode = true -> 0 <= mask < 2 ^ 63 ->
  0 <= exp < 2 ^ 64 -> mpol_new nodes mode mask = inl (mode, exp) ->
  passes K (mbind_set_get tmp_buf mode mask flags exp msg1 msg2 msg3 m) v.
Proof.
  intros Hf Ho Hk He Hp. unfold mbind_set_get. do 3 block.
  eapply (bind_page K tmp_buf v Hso); [exact Hf|exact Ho|now apply node_arg_word|exact Hp|maps|].
  block. apply passes_assert; [apply Z.eqb_refl|]. apply passes_assert; [|block].
  change ((exp mod 2 ^ 64 =? exp) = true). now rewrite Z.mod_small, Z.eqb_refl.
Qed.

Ltac set_get :=
  apply pass_set_get;
    [solve [auto]|reflexivity|lia|lia|pol_tac].

Lemma pass_mbind_005 : passes K (mbind_run_005 tmp_buf m) v.
Proof. set_get. Qed.
Lemma pass_mbind_006 : passes K (mbind_run_006 tmp_buf m) v.
Proof. unfold mbind_run_006. repeat block. fail_tac. Qed.
Lemma pass_mbind_007 : passes K (mbind_run_007 tmp_buf m) v.
Proof. unfold mbind_run_007. repeat block. Qed.
Lemma pass_mbind_008 : passes K (mbind_run_008 tmp_buf m) v.
Proof. unfold mbind_run_008. repeat block. fail_tac. Qed.
Lemma pass_mbind_009 : passes K (mbind_run_009 tmp_buf m) v.
Proof. unfold mbind_run_009. repeat block. fail_tac. Qed.
Lemma pass_mbind_010 : passes K (mbind_run_010 tmp_buf m) v.
Proof. set_get. Qed.
Lemma pass_mbind_011 : passes K (mbind_run_011 tmp_buf m) v.
Proof. set_get. Qed.
Lemma pass_mbind_012 : passes K (mbind_run_012 tmp_buf m) v.
Proof. unfold mbind_run_012. repeat block. fail_tac. Qed.
(** The mask of all nodes, as test 13 passes it. *)
Lemma fill_mask_nodes : fill_mask shl 1 nodes = [2 ^ (nodes + 1) - 1].
Proof.
  unfold fill_mask. cbn [Z.to_nat Pos.to_nat Pos.iter_op seq map Nat.sub Nat.eqb].
  change BITS_PER_LONG with 64. rewrite Z.mod_small, low_mask_small by lia. reflexivity.
Qed.

Lemma node_arg_nodes : node_arg (Some [2 ^ (nodes + 1) - 1]) (nodes + 1) = inl (online nodes).
Proof.
  unfold node_arg, online. rewrite (proj2 (Z.eqb_neq _ _)) by lia.
  replace (nodes + 1 - 1) with nodes by lia. rewrite u64_small by lia.
  rewrite (proj2 (Z.ltb_ge _ _)) by (destruct PAGE_SIZE_cases as [-> | ->]; lia).
  cbn [mask_value]. rewrite Z.mul_0_r, Z.add_0_r. f_equal.
  rewrite Z.pow_add_r by lia. assert (0 < 2 ^ nodes) by (apply Z.pow_pos_nonneg; lia).
  symmetry. apply Z.mod_unique_pos with 1; lia.
Qed.

Lemma online_bounds : 0 < online nodes < 2 ^ 64.
Proof.
  unfold online. assert (2 ^ 4 <= 2 ^ nodes <= 2 ^ 29) by (split; apply Z.pow_le_mono_r; lia). lia.
Qed.

Lemma mpol_new_nodes : mpol_new nodes MPOL_BIND (online nodes) = inl (MPOL_BIND, online nodes).
Proof.
  pose proof online_bounds. unfold mpol_new. rewrite Z.land_diag.
  rewrite (proj2 (Z.eqb_neq (online nodes) 0)) by lia. reflexivity.
Qed.

Lemma check_nodes : node_mask_check shl [online nodes mod 2 ^ 64] 1 nodes = 0.
Proof.
  pose proof online_bounds. rewrite Z.mod_small by lia.
  pose proof (fun a b => node_mask_check_spec shl [online nodes] 0 nodes a b eq_refl) as Hs.
  change (Z.of_nat 1) with 1 in Hs. change (Z.of_nat 0) with 0 in Hs.
  rewrite Z.mul_0_r, Z.add_0_l in Hs. rewrite Hs; [|repeat constructor; lia|reflexivity|lia].
  cbn [mask_value]. rewrite Z.mul_0_r, Z.add_0_r. unfold online. now rewrite Z.eqb_refl.
Qed.

Lemma pass_mbind_013 : passes K (mbind_run_013 tmp_buf shl m) v.
Proof.
  unfold mbind_run_013. rewrite Hm, u64_small by lia. block.
  apply new_mask; [lia|]. intros p.
  assert (max_node (with_mask (Some (p, [0])) 1 m) = nodes) as -> by exact Hm.
  rewrite u64_small by lia. apply new_mask2; [lia|]. intros q. cbv zeta.
  apply passes_print_mask. cbn [with_words2 with_mask2 with_mask node_mask2 nr_node_mask max_node].
  rewrite Hm, u64_small, fill_mask_nodes by lia. cbn [fmap option_fmap option_map snd].
  eapply (bind_page K tmp_buf v Hso);
    [auto|reflexivity|apply node_arg_nodes|apply mpol_new_nodes|maps|].
  eapply (get_page K tmp_buf v Hso); [reflexivity|cbn; lia|maps|apply pol_bind_page|].
  apply passes_assert; [reflexivity|]. apply passes_print_mask.
  apply passes_assert; [|apply passes_ok]. apply Z.eqb_eq.
  transitivity (node_mask_check shl [online nodes mod 2 ^ 64] 1 (max_node m)); [reflexivity|].
  rewrite Hm. apply check_nodes.
Qed.

Lemma pass_mbind_014 : passes K (mbind_run_014 tmp_buf m) v.
Proof.
  unfold mbind_run_014. apply passes_new_mask2.
  { unfold sys_max_node. destruct PAGE_SIZE_cases as [-> | ->]; (split; [discriminate|reflexivity]). }
  intros p. cbv zeta. cbn [with_words2 with_mask2 node_mask2 fmap option_fmap option_map snd].
  apply bind_fails; [auto|unfold EINVAL; lia|fail_tac|apply passes_ok].
Qed.

Lemma pass_mbind_024 : passes K (mbind_run_024 tmp_buf m) v.
Proof. set_get. Qed.
Lemma pass_mbind_025 : passes K (mbind_run_025 tmp_buf m) v.
Proof. set_get. Qed.
Lemma pass_mbind_026 : passes K (mbind_run_026 tmp_buf m) v.
Proof. unfold mbind_run_026. repeat block. Qed.
Lemma pass_mbind_028 : passes K (mbind_run_028 tmp_buf m) v.
Proof. set_get. Qed.
Lemma pass_mbind_029 : passes K (mbind_run_029 tmp_buf m) v.
Proof. unfold mbind_run_029. repeat block. fail_tac. Qed.
Lemma pass_mbind_030 : passes K (mbind_run_030 tmp_buf m) v.
Proof. unfold mbind_run_030. repeat block. fail_tac. Qed.
End Mbind.
