(* ===== verification/NumaTables.v ===== *)
(** * The table tests of [mbind] (15 to 23)

    Each binds several overlapping ranges of a mapping of seven pages and then
    compares the policy of every page with a table.  The tables are the result
    of laying the ranges over each other in order ([overlay]), and a test whose
    table is that result passes on a documented kernel. *)
From S2P Require Import Prelude Process Trace Arch CLib TestMck AddrSpace.
From S2P Require Import Numa NumaCases NumaSpec NumaThms NumaPass.
From Stdlib Require Import Ascii String.
#[local] Open Scope string_scope.
#[local] Open Scope Z_scope.

Section Overlay.
  Context `{ArchConfig}.

(** The number of pages of a range. *)
Definition arg_pages (a : mbind_args) : Z := a_len a / PAGE_SIZE.

(** The policies of the pages after one more range is bound. *)
Definition bind_pages (a : mbind_args) (l : list policy) : list policy :=
  imap (fun i p => if in_range (Z.of_nat i) (npoff a) (arg_pages a)
                   then (a_mode a, a_node_mask a) else p) l.

Definition overlay (args : list mbind_args) (l : list policy) : list policy :=
  fold_left (fun l a => bind_pages a l) args l.

Definition expected (es : list mbind_expect) : list policy :=
  map (fun e => (e_mode e, e_node_mask e)) es.

(** A range of the table tests: whole pages within the mapping, a policy the
    kernel takes as it is. *)
Definition arg_ok (n : Z) (a : mbind_args) : Prop :=
  0 <= npoff a /\ 0 < arg_pages a /\ npoff a + arg_pages a <= 7 /\ a_len a = arg_pages a * PAGE_SIZE /\
  mode_ok (a_mode a) = true /\ 0 <= a_node_mask a < 2 ^ 63 /\
  mpol_new n (a_mode a) (a_node_mask a) = inl (a_mode a, a_node_mask a).

Lemma bind_pages_length a l : List.length (bind_pages a l) = List.length l.
Proof. unfold bind_pages. apply length_imap. Qed.

Lemma overlay_length args l : List.length (overlay args l) = List.length l.
Proof.
  unfold overlay. revert l. induction args as [|a args IH]; intros l; cbn; [reflexivity|].
  now rewrite IH, bind_pages_length.
Qed.

Lemma bind_pages_lookup a l i p :
  l !! i = Some p ->
  bind_pages a l !! i =
  Some (if in_range (Z.of_nat i) (npoff a) (arg_pages a) then (a_mode a, a_node_mask a) else p).
Proof. intros E. unfold bind_pages. rewrite list_lookup_imap. unfold policy in *. now rewrite E. Qed.
End Overlay.

Section Tables.
  Context `{AC : ArchConfig} (K : kernel) {NK : NumaKernel K}.
  Hypothesis Hn : 4 <= nodes <= 29.

(** Seven mapped pages from [b] on with the policies [l]. *)
Record regions (v : nview) (b : Z) (l : list policy) : Prop := {
  rg_pos : 0 < b;
  rg_end : b + 7 * PAGE_SIZE <= 2 ^ 63;
  rg_aligned : b mod PAGE_SIZE = 0;
  rg_length : List.length l = 7%nat;
  rg_mapped : forall i, 0 <= i < 7 -> nv_mapped v (b + i * PAGE_SIZE) = true;
  rg_pol : forall i p, l !! i = Some p -> nv_pol v (b + Z.of_nat i * PAGE_SIZE) = p;
}.

Lemma align_up_pages k : 1 <= k <= 7 -> align_up (k * PAGE_SIZE) PAGE_SIZE = k * PAGE_SIZE.
Proof.
  intros Hk. pose proof PAGE_SIZE_pos. rewrite PAGE_SIZE_pow.
  rewrite align_up_spec; [|destruct PAGE_SHIFT_cases; lia|nia|].
  - rewrite <- Z.mul_opp_l, Z.mod_mul by (pose proof PAGE_SIZE_pow; lia). lia.
  - rewrite <- PAGE_SIZE_pow. destruct PAGE_SIZE_cases as [-> | ->]; lia.
Qed.

Lemma page_mod b i : b mod PAGE_SIZE = 0 -> (b + i * PAGE_SIZE) mod PAGE_SIZE = 0.
Proof. intros Hb. rewrite Z.mod_add; [exact Hb|]. pose proof PAGE_SIZE_pos. lia. Qed.

Lemma mbind_region v b l a :
  regions v b l -> arg_ok nodes a ->
  mbind_spec nodes v (b + npoff a * PAGE_SIZE) (a_len a) (a_mode a) (Some [a_node_mask a]) BITS_PER_LONG 0
  = (bind_range (b + npoff a * PAGE_SIZE) (a_len a) (a_mode a, a_node_mask a) v, 0).
Proof.
  intros [R1 R2 R3 _ R5 _] (A1 & A2 & A3 & A4 & A5 & A6 & A7). pose proof PAGE_SIZE_pos as HP.
  unfold mbind_spec. rewrite A5, node_arg_word, A7 by exact A6. cbn [negb].
  change (has 0 MPOL_MF_MOVE_ALL) with false. rewrite page_mod by exact R3. cbn [Z.eqb negb].
  rewrite A4, align_up_pages by lia.
  set (lo := b + npoff a * PAGE_SIZE). set (n := arg_pages a) in *.
  assert (0 < n * PAGE_SIZE /\ lo + n * PAGE_SIZE <= 2 ^ 63 /\ 0 < lo) as (H1 & H2 & H3) by (unfold lo; nia).
  rewrite (u64_small (lo + n * PAGE_SIZE)) by lia.
  rewrite (proj2 (Z.ltb_ge (lo + n * PAGE_SIZE) lo)), (proj2 (Z.eqb_neq (lo + n * PAGE_SIZE) lo)) by lia.
  assert (range_mapped v lo (n * PAGE_SIZE) = true) as ->; [|reflexivity].
  unfold range_mapped. rewrite Z.div_mul by lia. apply forallb_forall. intros i Hi. apply in_seq in Hi.
  unfold lo. replace (b + npoff a * PAGE_SIZE + Z.of_nat i * PAGE_SIZE)
    with (b + (npoff a + Z.of_nat i) * PAGE_SIZE) by lia. apply R5. lia.
Qed.

(** Page [i] lies in the range exactly when its index does. *)
Lemma in_range_pages b i off n :
  in_range (b + i * PAGE_SIZE) (b + off * PAGE_SIZE) (n * PAGE_SIZE) = in_range i off n.
Proof.
  pose proof PAGE_SIZE_pos. destruct (in_range i off n) eqn:E.
  - apply in_range_true in E. apply in_range_true. nia.
  - apply in_range_false in E. apply in_range_false. nia.
Qed.

Lemma regions_bind v b l a :
  regions v b l -> arg_ok nodes a ->
  regions (bind_range (b + npoff a * PAGE_SIZE) (a_len a) (a_mode a, a_node_mask a) v) b (bind_pages a l).
Proof.
  intros [R1 R2 R3 R4 R5 R6] (A1 & A2 & A3 & A4 & _). split; auto.
  - now rewrite bind_pages_length.
  - intros i p Hi.
    assert (is_Some (l !! i)) as [q Hq].
    { apply lookup_lt_is_Some. rewrite <- (bind_pages_length a l). eapply lookup_lt_Some; eauto. }
    rewrite (bind_pages_lookup a l i q Hq) in Hi. injection Hi as <-. cbn [nv_pol bind_range].
    rewrite A4, in_range_pages. case_if; [reflexivity|]. now apply R6.
Qed.

(** Reading the policy of page [i]. *)
Lemma get_region v b l i p x maxnode :
  regions v b l -> l !! i = Some p -> nodes <= maxnode ->
  get_spec nodes v (Some [x]) maxnode (b + Z.of_nat i * PAGE_SIZE) MPOL_F_ADDR = GPol p.
Proof.
  intros [R1 R2 R3 R4 R5 R6] Hi Hx. unfold get_spec.
  rewrite (page_of_aligned (b + Z.of_nat i * PAGE_SIZE)) by now apply page_mod.
  rewrite (proj2 (Z.ltb_ge maxnode nodes) Hx), andb_false_r. rewrite R5, (R6 i p Hi); [reflexivity|].
  apply lookup_lt_Some in Hi. lia.
Qed.

Lemma page_addr v b l i : regions v b l -> 0 <= i < 7 -> u64 (b + i * PAGE_SIZE) = b + i * PAGE_SIZE.
Proof. intros [R1 R2 _ _ _ _] Hi. apply u64_small. pose proof PAGE_SIZE_pos. nia. Qed.

(** The state of the run function between the loops. *)
Definition mem_ok (b : Z) (m : numa_mem) : Prop :=
  max_node m = nodes /\ buf m = b /\ exists q x, node_mask m = Some (q, [x]).

Lemma mem_ok_words b m x : mem_ok b m -> mem_ok b (with_words [x] m).
Proof.
  intros (H1 & H2 & q & y & H3). unfold mem_ok, with_words. cbn. rewrite H3. eauto.
Qed.

Lemma passes_regions args i b m (k : numa_mem -> numa_run) v l :
  Forall (arg_ok nodes) args -> regions v b l -> mem_ok b m ->
  (forall m' v', mem_ok b m' -> regions v' b (overlay args l) -> passes K (k m') v') ->
  passes K (mbind_regions i args m k) v.
Proof.
  intros Ha. revert i m v l. induction Ha as [|a args Ha Hargs IH]; intros i m v l Hr Hm Hk;
    cbn [mbind_regions]; [now apply Hk|].
  destruct Hm as (M1 & M2 & q & x & M3). pose proof Ha as (A1 & A2 & A3 & A4 & _).
  rewrite M2, (page_addr v b l) by (auto; lia). intros w Hw. rewrite run_bind.
  destruct (returns_mbind K v (b + npoff a * PAGE_SIZE) (a_len a) (a_mode a) (Some [a_node_mask a])
    BITS_PER_LONG 0 ltac:(auto) w Hw) as (w1 & -> & Hw1 & _).
  rewrite (mbind_region v b l a Hr Ha) in *. cbn [fst snd] in *. change (is_err 0) with false. cbn [Z.eqb negb].
  pose proof (regions_bind v b l a Hr Ha) as Hr1.
  set (v1 := bind_range _ _ _ v) in *. rewrite run_bind, M3. cbn [words set_word0].
  assert (is_Some (bind_pages a l !! Z.to_nat (npoff a))) as [p Hp].
  { apply lookup_lt_is_Some. rewrite bind_pages_length, (rg_length _ _ _ Hr). lia. }
  pose proof (run_get K v1 true (Some [0]) (max_node m) (b + npoff a * PAGE_SIZE) MPOL_F_ADDR w1) as Hg.
  rewrite <- (Z2Nat.id (npoff a)) in Hg at 1 by lia.
  rewrite (get_region v1 b (bind_pages a l) (Z.to_nat (npoff a)) p 0 (max_node m) Hr1 Hp) in Hg by lia.
  destruct Hg as (w2 & md & ws & Hw2 & -> & _ & Hws); [intros ? [= <-]; cbn; lia|exact Hw1|].
  rewrite (Hws _ eq_refl). cbn [Z.eqb negb mask_words List.length].
  apply (IH (i + 1) _ v1 (bind_pages a l) Hr1); [|exact Hk|exact Hw2].
  apply mem_ok_words. repeat split; auto. eauto.
Qed.

(** The comparison with the table, from page [i] on. *)
Lemma run_mbind_check_from es : forall i v b l x w,
  Forall (fun e => 0 <= e_node_mask e < 2 ^ 64) es -> regions v b l -> (i + List.length es = 7)%nat -> drop i l = expected es -> at_view K v w ->
  exists y w', run K (mbind_check_from (Z.of_nat i) es [x] nodes b MPOL_F_ADDR) w = (Done (0, [y]), w') /\
               at_view K v w'.
Proof.
  induction es as [|e es IH]; intros i v b l x w Hb Hr Hl Hd Hw; cbn [mbind_check_from]; [now exists x, w|].
  assert (l !! i = Some (e_mode e, e_node_mask e)) as Hi.
  { pose proof (lookup_drop l i 0) as E. rewrite Hd, Nat.add_0_r in E. symmetry. exact E. }
  rewrite run_bind. cbn [printf run w_proc w_k set_word0]. rewrite run_bind.
  replace (PAGE_SIZE * Z.of_nat i) with (Z.of_nat i * PAGE_SIZE) by lia.
  cbn in Hl. rewrite (page_addr v b l) by (auto; lia).
  set (w1 := World _ _).
  pose proof (run_get K v true (Some [0]) nodes (b + Z.of_nat i * PAGE_SIZE) MPOL_F_ADDR w1) as Hg.
  rewrite (get_region v b l i _ _ _ Hr Hi) in Hg by lia.
  destruct Hg as (w2 & md & ws & Hw2 & -> & Hmd & Hws); [intros ? [= <-]; cbn; lia|exact Hw|].
  rewrite (Hws _ eq_refl), (Hmd eq_refl). cbn [Z.eqb fst snd mask_words List.length].
  rewrite !run_bind. cbn [printf run w_proc w_k]. rewrite run_bind. cbn [printf run w_proc w_k].
  unfold word. cbn [nth]. rewrite Z.eqb_refl. cbn [negb].
  apply Forall_cons in Hb as [He Hb]. rewrite Z.mod_small, Z.eqb_refl by exact He. cbn [negb].
  replace (Z.of_nat i + 1) with (Z.of_nat (S i)) by lia.
  apply (IH (S i) v b l); [exact Hb|exact Hr|lia| |exact Hw2].
  rewrite <- Nat.add_1_r, <- drop_drop, Hd. reflexivity.
Qed.

Lemma region_len_pages : region_len = 7 * PAGE_SIZE.
Proof. unfold region_len. destruct PAGE_SIZE_cases as [-> | ->]; reflexivity. Qed.

Lemma regions_fresh b v :
  0 < b -> b + 7 * PAGE_SIZE <= 2 ^ 63 -> b mod PAGE_SIZE = 0 ->
  regions (map_range b (7 * PAGE_SIZE) v) b (repeat default_policy 7).
Proof.
  intros H1 H2 H3. pose proof PAGE_SIZE_pos. split; auto.
  - intros i Hi. cbn. apply orb_true_iff. left. apply in_range_true. nia.
  - intros i p Hi. pose proof (lookup_lt_Some _ _ _ Hi) as Hl. rewrite repeat_length in Hl.
    assert (p = default_policy) as ->.
    { apply list_elem_of_lookup_2 in Hi. now apply list_elem_of_In, repeat_spec in Hi. }
    cbn. rewrite (proj2 (in_range_true _ _ _)) by nia. reflexivity.
Qed.

(** The table test passes when its table is the overlay of its ranges. *)
Lemma passes_table args es m v :
  Forall (arg_ok nodes) args -> List.length es = NUM_REGION ->
  Forall (fun e => 0 <= e_node_mask e < 2 ^ 64) es ->
  overlay args (repeat default_policy NUM_REGION) = expected es ->
  max_node m = nodes -> passes K (mbind_table args es m) v.
Proof.
  intros Ha Hl Hb Ho Hm. unfold mbind_table. rewrite region_len_pages. pose proof PAGE_SIZE_pos.
  apply passes_mmap; [destruct PAGE_SIZE_cases as [-> | ->]; lia|apply Z.mod_mul; lia|].
  intros b B1 B2 B3. cbv zeta. apply passes_nonzero; [cbn; lia|]. apply passes_at_least; [cbn; lia|].
  apply new_mask; [cbn; lia|]. intros q.
  eapply passes_regions; [exact Ha|now apply regions_fresh| |].
  { split; [exact Hm|]. split; [reflexivity|]. now exists q, 0. }
  intros m' v' (M1 & M2 & q' & x & M3) Hr. change NUM_REGION with 7%nat in *. rewrite Ho in Hr.
  intros w Hw. rewrite run_bind. unfold mbind_check. rewrite M1, M2, M3. cbn [words].
  replace (firstn NUM_REGION es) with es by (symmetry; apply firstn_all2; change NUM_REGION with 7%nat; lia).
  destruct (run_mbind_check_from es 0 v' b (expected es) x w Hb Hr ltac:(lia) eq_refl Hw)
    as (y & w1 & E & Hw1).
  change (Z.of_nat 0) with 0 in E. rewrite E. cbn [Z.eqb tp_assert]. rewrite run_bind.
  match goal with |- context [run K (munmap ?a ?n) w1] =>
    destruct (run_total_munmap K a n w1) as (r & w2 & ->) end.
  eexists _, w2. reflexivity.
Qed.
End Tables.

(** ** The nine tables *)

Section NineTables.
  Context `{AC : ArchConfig}.

Lemma arg_ok_entry n mode mask off k :
  0 <= off -> 0 < k -> off + k <= 7 -> mode_ok mode = true -> 0 <= mask < 2 ^ 63 ->
  mpol_new n mode mask = inl (mode, mask) -> arg_ok n (MbindArgs mode mask off (k * PAGE_SIZE)).
Proof.
  intros H1 H2 H3 H4 H5 H6. pose proof PAGE_SIZE_pos. unfold arg_ok, arg_pages. cbn.
  rewrite Z.div_mul by lia. repeat split; auto; lia.
Qed.

Lemma arg_ok_inter n off k : 4 <= n -> 0 <= off -> 0 < k -> off + k <= 7 -> arg_ok n (inter off k).
Proof.
  intros. apply arg_ok_entry; auto; [lia|]. apply mpol_new_bind; [lia|lia|right; reflexivity].
Qed.
Lemma arg_ok_bind1 n off k : 4 <= n -> 0 <= off -> 0 < k -> off + k <= 7 -> arg_ok n (bind1 off k).
Proof.
  intros. apply arg_ok_entry; auto; [lia|]. apply mpol_new_bind; [lia|lia|left; reflexivity].
Qed.
Lemma arg_ok_pref n off k : 4 <= n -> 0 <= off -> 0 < k -> off + k <= 7 -> arg_ok n (pref off k).
Proof.
  intros. apply arg_ok_entry; auto; [lia|]. apply mpol_new_preferred; lia.
Qed.

(** The ranges and the table of each test. *)
Definition tables : list (list mbind_args * list mbind_expect) :=
  [(args_015, expect_015); (args_016, expect_016); (args_017, expect_017); (args_018, expect_018);
   (args_019, expect_019); (args_020, expect_020); (args_021, expect_021); (args_022, expect_022);
   (args_023, expect_023)].

Definition table_ok (n : Z) (t : list mbind_args * list mbind_expect) : Prop :=
  Forall (arg_ok n) (fst t) /\ List.length (snd t) = NUM_REGION /\
  Forall (fun e => 0 <= e_node_mask e < 2 ^ 64) (snd t) /\
  overlay (fst t) (repeat default_policy NUM_REGION) = expected (snd t).

Lemma tables_ok n : 4 <= n -> Forall (table_ok n) tables.
Proof.
  intros Hn. unfold tables.
  repeat (apply Forall_cons; split;
    [split;
      [repeat (apply Forall_cons; split;
         [first [apply arg_ok_inter|apply arg_ok_bind1|apply arg_ok_pref]; lia|]); constructor
      |split; [reflexivity|split;
         [repeat (apply Forall_cons; split; [split; [discriminate|reflexivity]|]); constructor
         |destruct AC as [[]]; vm_compute; reflexivity]]]|]).
  constructor.
Qed.
End NineTables.

(** C12.  A table test passes on every documented kernel with four to 29 nodes
    if its table is the overlay of its ranges; the nine tables of the suite
    are. *)
Theorem mbind_table_tests `{AC : ArchConfig} (K : kernel) {NK : NumaKernel K} args es m (w : world K) :
  4 <= nodes <= 29 -> max_node m = nodes -> In (args, es) tables ->
  overlay args (repeat default_policy NUM_REGION) = expected es /\
  exists m' w', run K (mbind_table args es m) w = (Done (None, m'), w').
Proof.
  intros Hn Hm Ht. pose proof (tables_ok _ (proj1 Hn)) as Ha. rewrite List.Forall_forall in Ha.
  destruct (Ha _ Ht) as (H1 & H2 & H3 & H4). split; [exact H4|].
  assert (at_view K (nview_of (w_k w)) w) as Hw by (unfold at_view; reflexivity).
  exact (passes_table K Hn args es m _ H1 H2 H3 H4 Hm w Hw).
Qed.

Lemma mbind_table_tests_witness :
  @overlay config_64K (@args_023 config_64K) (repeat default_policy NUM_REGION) = expected expect_023 /\
  exists m' w', run (@numa_ref config_64K)
    (@mbind_table config_64K (@args_023 config_64K) expect_023 (NumaMem 4 None 0 None MAP_FAILED))
    (World proc0 (NView default_policy (fun _ => false) (fun _ => default_policy)
                  : kstate (@numa_ref config_64K)))
    = (Done (None, m'), w').
Proof.
  refine (@mbind_table_tests config_64K _ numa_ref_kernel (@args_023 config_64K) expect_023
            (NumaMem 4 None 0 None MAP_FAILED) _ _ eq_refl _).
  - split; discriminate.
  - apply (nth_error_In _ 8). reflexivity.
Defined.
