(* ===== verification/MempolicyPass.v ===== *)
(** * The suites [get_mempolicy] and [set_mempolicy] on a documented kernel

    Every test passes, except [get_mempolicy] 18, which also depends on how
    the kernel distributes interleaved allocations.  Together with the tests of
    [mbind] this gives the theorem on all three suites. *)
From S2P Require Import Prelude Process Trace Arch CLib TestMck AddrSpace.
From S2P Require Import Numa NumaCases Mempolicy NumaSpec NumaMask NumaThms NumaPass NumaTables.
From Stdlib Require Import Ascii String.
#[local] Open Scope string_scope.
#[local] Open Scope Z_scope.

Section Policies.
  Context `{AC : ArchConfig} (K : kernel) {NK : NumaKernel K} (tmp_buf : Z) (shl : Z -> Z) (v : nview).
  Context (m : numa_mem).
  Hypothesis Hn : 4 <= nodes <= 29.
  Hypothesis Hso : stack_ok tmp_buf v.
  Hypothesis Hm : max_node m = nodes.

(** ** The specification on the calls of the tests *)

Lemma get_task v' nmask maxnode :
  nodes <= maxnode \/ nmask = None -> get_spec nodes v' nmask maxnode 0 0 = GPol (nv_task v').
Proof.
  intros [Hx| ->]; unfold get_spec.
  - rewrite (proj2 (Z.ltb_ge maxnode nodes) Hx), andb_false_r. reflexivity.
  - reflexivity.
Qed.

Lemma get_allowed v' nmask maxnode :
  nodes <= maxnode \/ nmask = None ->
  get_spec nodes v' nmask maxnode 0 MPOL_F_MEMS_ALLOWED = GPol (0, online nodes).
Proof.
  intros [Hx| ->]; unfold get_spec.
  - rewrite (proj2 (Z.ltb_ge maxnode nodes) Hx), andb_false_r. reflexivity.
  - reflexivity.
Qed.

Lemma get_short v' ws maxnode addr flags :
  maxnode < nodes -> get_spec nodes v' (Some ws) maxnode addr flags = GErr EINVAL.
Proof. intros Hx. unfold get_spec. now rewrite (proj2 (Z.ltb_lt maxnode nodes) Hx). Qed.

Lemma page_of_0 : page_of 0 = 0.
Proof. unfold page_of. now rewrite Z.mod_0_l by (pose proof PAGE_SIZE_pos; lia). Qed.

Lemma page_of_kernel : page_of 0xFFFFFFFF00000000 = 0xFFFFFFFF00000000.
Proof. unfold page_of. destruct PAGE_SIZE_cases as [-> | ->]; reflexivity. Qed.

(** ** Blocks *)

Ltac start :=
  repeat match goal with
  | |- passes _ (check_nonzero _ _) _ => apply passes_nonzero; [lia|]
  | |- passes _ (check_at_least _ _ _ _) _ => apply passes_at_least; [lia|]
  | |- passes _ (print_maxnode _ _) _ => apply passes_maxnode
  | |- passes _ (print_set_mask _ _) _ => apply passes_set_mask
  | |- passes _ (new_node_mask _ _ _) _ => apply new_mask; [cbn [max_node with_mask]; lia|intros p]
  end; cbv zeta.
Ltac finish :=
  repeat match goal with
  | |- passes _ (zero_mask _ _) _ => apply passes_zero_mask; [repeat constructor|]
  | |- passes _ (tp_assert _ _ _) _ => apply passes_assert; [reflexivity|]
  | |- passes _ (bind (printf _ _) _) _ => apply passes_printf
  | |- passes _ (bind (print_mask _ _ _) _) _ => apply passes_print_mask
  | |- passes _ (ok _) _ => apply passes_ok
  end.
Ltac get spec :=
  eapply get_any; [reflexivity|cbn; lia|spec|];
  let md := fresh "md" in let Hmd := fresh "Hmd" in
  intros md Hmd; try (rewrite (Hmd eq_refl); clear Hmd).
Ltac known_task := rewrite get_task by (left; cbn; lia); first [reflexivity|rewrite (so_task _ _ Hso); reflexivity].
Ltac err := apply get_fails; [unfold EINVAL, EFAULT; lia|intros ws; cbn; first [discriminate|intros [= <-]; cbn; lia]| |].

Lemma pass_get_000 : passes K (get_run_000 m) v.
Proof.
  unfold get_run_000. apply passes_get_mode. left. exists (nv_task v). rewrite get_task by auto.
  split; [reflexivity|]. intros md E. rewrite (E eq_refl), (so_task _ _ Hso). finish.
Qed.
Lemma pass_get_001 : passes K (get_run_001 m) v.
Proof. unfold get_run_001. start. get known_task. finish. Qed.
Lemma pass_get_002 : passes K (get_run_002 m) v.
Proof.
  unfold get_run_002. apply passes_get_mode. left. exists (nv_task v). rewrite get_task by auto.
  split; [reflexivity|]. intros md _. finish.
Qed.
Lemma pass_get_003 : passes K (get_run_003 m) v.
Proof. unfold get_run_003. start. get known_task. finish. Qed.
Lemma pass_get_004 : passes K (get_run_004 m) v.
Proof. unfold get_run_004. start. err; [apply get_short; lia|finish]. Qed.
Lemma pass_get_005 : passes K (get_run_005 m) v.
Proof. unfold get_run_005. start. err; [apply get_short; cbn; lia|finish]. Qed.

Lemma pass_get_allowed mode : passes K (get_mems_allowed shl mode m) v.
Proof.
  unfold get_mems_allowed. start. get ltac:(rewrite get_allowed by (left; cbn; lia); reflexivity).
  apply passes_print_mask, passes_assert; [|finish]. apply Z.eqb_eq.
  transitivity (node_mask_check shl [online nodes mod 2 ^ 64] 1 (max_node m)); [reflexivity|].
  rewrite Hm. apply check_nodes, Hn.
Qed.
Lemma pass_get_008 : passes K (get_run_008 m) v.
Proof.
  unfold get_run_008. apply passes_get_mode. left. eexists. split; [reflexivity|]. intros md _. finish.
Qed.

Ltac bad_flags := unfold get_spec; cbn [max_node with_mask]; rewrite Hm, Z.ltb_irrefl; reflexivity.
Lemma pass_get_009 : passes K (get_run_009 tmp_buf m) v.
Proof. unfold get_run_009. start. err; [bad_flags|finish]. Qed.
Lemma pass_get_010 : passes K (get_run_010 m) v.
Proof. unfold get_run_010. start. err; [bad_flags|finish]. Qed.
Lemma pass_get_011 : passes K (get_run_011 tmp_buf m) v.
Proof.
  unfold get_run_011. start. eapply (bind_page K tmp_buf v Hso);
    [auto|reflexivity|apply node_arg_word; lia
    |apply mpol_new_bind; [lia|lia|left; reflexivity]|apply (so_mapped _ _ Hso)|].
  apply passes_get_mode. left. eexists. split.
  - rewrite (get_on_page nodes tmp_buf v Hso) by (auto; apply (so_mapped _ _ Hso)). reflexivity.
  - intros md E. rewrite (E eq_refl). rewrite pol_bind_page. finish.
Qed.
Lemma pass_get_012 : passes K (get_run_012 tmp_buf m) v.
Proof.
  destruct (so_array _ _ Hso) as (_ & H1 & H2). unfold get_run_012. start.
  get ltac:(unfold get_spec; cbn [max_node with_mask with_mask0 with_words]; rewrite Hm, Z.ltb_irrefl, H1, H2;
            reflexivity).
  finish.
Qed.
Lemma pass_get_013 : passes K (get_run_013 m) v.
Proof.
  unfold get_run_013. err; [|finish]. unfold get_spec. rewrite page_of_kernel, (so_kernel _ _ Hso). reflexivity.
Qed.
Lemma pass_get_014 : passes K (get_run_014 m) v.
Proof.
  unfold get_run_014. pose proof PAGE_SIZE_pos.
  apply passes_mmap; [destruct PAGE_SIZE_cases as [-> | ->]; lia|apply Z.mod_same; lia|].
  intros a A1 A2 A3. cbv zeta. apply passes_assert.
  { apply negb_true_iff, Z.eqb_neq. cbn. unfold MAP_FAILED. lia. }
  apply passes_get_mode. left. eexists. split.
  - unfold get_spec. cbn [with_buf buf]. rewrite (page_of_aligned a A3). cbn [nv_mapped map_range].
    rewrite (proj2 (in_range_true _ _ _)) by lia. reflexivity.
  - intros md _. finish.
Qed.
Lemma pass_get_015 : passes K (get_run_015 m) v.
Proof.
  unfold get_run_015. err; [|finish]. unfold get_spec. rewrite page_of_0, (so_null _ _ Hso). reflexivity.
Qed.
Lemma pass_get_016 : passes K (get_run_016 tmp_buf m) v.
Proof.
  destruct (so_array _ _ Hso) as (H0 & _). unfold get_run_016. err; [|finish]. unfold get_spec.
  rewrite (proj2 (Z.eqb_neq tmp_buf 0)) by lia. reflexivity.
Qed.
Lemma pass_get_017 : passes K (get_run_017 tmp_buf m) v.
Proof.
  destruct (so_array _ _ Hso) as (_ & H1 & _). unfold get_run_017. start.
  apply passes_get_mode. right. split; [unfold get_spec; rewrite H1; reflexivity|].
  intros md E. specialize (E eq_refl). apply passes_printf, passes_assert; [|finish].
  apply existsb_exists. exists (Z.to_nat md). split; [apply in_seq; lia|].
  rewrite Z2Nat.id by lia. apply Z.eqb_refl.
Qed.
Lemma pass_get_019 : passes K (get_run_019 m) v.
Proof.
  unfold get_run_019. err; [|finish]. unfold get_spec. rewrite (so_task _ _ Hso). reflexivity.
Qed.
Lemma pass_get_020 : passes K (get_run_020 m) v.
Proof. unfold get_run_020. err; [reflexivity|finish]. Qed.

(** ** [set_mempolicy] *)

Ltac set_ok :=
  eapply set_task;
    [reflexivity|first [apply node_arg_word; lia|eapply node_arg_low; vm_compute; reflexivity|reflexivity]
    |first [apply mpol_new_bind; [lia|lia|solve [left; reflexivity|right; reflexivity]]
           |apply mpol_new_preferred; lia|reflexivity]|].
Ltac set_err :=
  apply set_fails;
    [unfold EINVAL; lia
    |unfold set_spec; rewrite ?node_arg_0, ?node_arg_2, ?node_arg_large; reflexivity|].

Lemma pass_set_000 : passes K (set_run_000 m) v.
Proof.
  unfold set_run_000. start. set_ok. get known_task. finish. set_ok. get known_task. finish.
Qed.
Lemma pass_set_001 : passes K (set_run_001 m) v.
Proof.
  unfold set_run_001. start. set_ok. apply passes_get_mode. left. eexists.
  rewrite get_task by auto. split; [reflexivity|]. intros md E. rewrite (E eq_refl). finish.
Qed.
Lemma pass_set_002 : passes K (set_run_002 m) v.
Proof. unfold set_run_002. start. cbn [fmap option_fmap option_map snd node_mask with_mask]. set_err. finish. Qed.

Lemma pass_task_set_get mode mask exp msg1 msg2 :
  mode_ok mode = true -> 0 <= mask < 2 ^ 63 -> 0 <= exp < 2 ^ 64 ->
  mpol_new nodes mode mask = inl (mode, exp) ->
  passes K (set_get mode mask exp msg1 msg2 m) v.
Proof.
  intros Ho Hk He Hp. unfold set_get. start.
  eapply set_task; [exact Ho|now apply node_arg_word|exact Hp|]. get known_task.
  apply passes_assert; [apply Z.eqb_refl|]. apply passes_assert; [|finish].
  change ((exp mod 2 ^ 64 =? exp) = true). now rewrite Z.mod_small, Z.eqb_refl.
Qed.

Ltac task_set_get :=
  apply pass_task_set_get;
    [reflexivity|lia|lia
    |first [apply mpol_new_bind; [lia|lia|solve [left; reflexivity|right; reflexivity]]
           |apply mpol_new_preferred; lia]].

Lemma pass_set_003 : passes K (set_run_003 m) v.
Proof. task_set_get. Qed.
Lemma pass_set_004 : passes K (set_run_004 m) v.
Proof. unfold set_run_004. start. set_ok. get known_task. finish. Qed.
Lemma pass_set_005 : passes K (set_run_005 m) v.
Proof. unfold set_run_005. start. set_err. finish. Qed.
Lemma pass_set_006 : passes K (set_run_006 m) v.
Proof. unfold set_run_006. start. set_err. finish. Qed.
Lemma pass_set_007 : passes K (set_run_007 m) v.
Proof.
  unfold set_run_007. start. intros w Hw. rewrite run_bind.
  destruct (set_eq K v MPOL_BIND (Some [1]) 1 v (- EINVAL) eq_refl w Hw) as (w' & -> & Hw' & _).
  change (is_err (- EINVAL)) with true. cbn [Z.eqb Pos.eqb tp_assert]. exact (passes_ok K _ v w' Hw').
Qed.
Lemma pass_set_008 : passes K (set_run_008 m) v.
Proof. unfold set_run_008. set_err. finish. Qed.
Lemma pass_set_009 : passes K (set_run_009 m) v.
Proof. task_set_get. Qed.
Lemma pass_set_010 : passes K (set_run_010 m) v.
Proof. task_set_get. Qed.
Lemma pass_set_011 : passes K (set_run_011 m) v.
Proof. unfold set_run_011. start. set_err. finish. Qed.
Lemma pass_set_012 : passes K (set_run_012 shl m) v.
Proof.
  unfold set_run_012. rewrite Hm, u64_small by lia. start.
  assert (max_node (with_mask (Some (p, [0])) 1 m) = nodes) as -> by exact Hm.
  rewrite u64_small by lia. apply new_mask2; [lia|]. intros q. cbv zeta.
  apply passes_print_mask. cbn [with_words2 with_mask2 with_mask node_mask2 nr_node_mask max_node].
  rewrite Hm, u64_small, (fill_mask_nodes K shl Hn) by lia. cbn [fmap option_fmap option_map snd].
  eapply set_task; [reflexivity|apply (node_arg_nodes K Hn)|apply (mpol_new_nodes K Hn)|].
  get known_task. apply passes_assert; [reflexivity|].
  apply passes_print_mask, passes_assert; [|finish]. apply Z.eqb_eq.
  transitivity (node_mask_check shl [online nodes mod 2 ^ 64] 1 (max_node m)); [reflexivity|].
  rewrite Hm. apply check_nodes, Hn.
Qed.
Lemma pass_set_013 : passes K (set_run_013 m) v.
Proof.
  unfold set_run_013. apply passes_new_mask2.
  { unfold sys_max_node. destruct PAGE_SIZE_cases as [-> | ->]; (split; [discriminate|reflexivity]). }
  intros q. cbv zeta. cbn [with_words2 with_mask2 node_mask2 fmap option_fmap option_map snd].
  finish. set_err. finish.
Qed.
Lemma pass_set_014 : passes K (set_run_014 m) v.
Proof. task_set_get. Qed.
Lemma pass_set_015 : passes K (set_run_015 m) v.
Proof. task_set_get. Qed.
Lemma pass_set_016 : passes K (set_run_016 m) v.
Proof. unfold set_run_016. start. set_ok. get known_task. finish. Qed.
Lemma pass_set_017 : passes K (set_run_017 m) v.
Proof. unfold set_run_017. set_err. finish. Qed.
End Policies.

(** ** The three suites *)

Create HintDb numa_pass discriminated.
#[local] Hint Resolve
  pass_mbind_000 pass_mbind_001 pass_mbind_002 pass_mbind_003 pass_mbind_004 pass_mbind_005
  pass_mbind_006 pass_mbind_007 pass_mbind_008 pass_mbind_009 pass_mbind_010 pass_mbind_011
  pass_mbind_012 pass_mbind_013 pass_mbind_014 pass_mbind_024 pass_mbind_025 pass_mbind_026
  pass_mbind_028 pass_mbind_029 pass_mbind_030 : numa_pass.
#[local] Hint Resolve
  pass_get_000 pass_get_001 pass_get_002 pass_get_003 pass_get_004 pass_get_005 pass_get_008
  pass_get_009 pass_get_010 pass_get_011 pass_get_012 pass_get_013 pass_get_014 pass_get_015
  pass_get_016 pass_get_017 pass_get_019 pass_get_020 pass_get_allowed : numa_pass.
#[local] Hint Resolve
  pass_set_000 pass_set_001 pass_set_002 pass_set_003 pass_set_004 pass_set_005 pass_set_006
  pass_set_007 pass_set_008 pass_set_009 pass_set_010 pass_set_011 pass_set_012 pass_set_013
  pass_set_014 pass_set_015 pass_set_016 pass_set_017 : numa_pass.
#[local] Hint Resolve tears_down_empty tears_down_mask tears_down_mask2 tears_down_masks
  tears_down_mask_buf tears_down_unmap : numa_pass.

Section Suites.
  Context `{AC : ArchConfig} (K : kernel) {NK : NumaKernel K} (tmp_buf : Z) (shl : Z -> Z).

Definition numa_suites : list test_case :=
  mbind_suite tmp_buf shl ++ get_mempolicy_suite tmp_buf shl ++ set_mempolicy_suite shl.

(** [mbind] 27 and [get_mempolicy] 18 ask for more than the interface says. *)
Definition numa_excluded (tc : test_case) : bool :=
  (String.eqb (test_suite tc) "mbind" && (num tc =? 27)) ||
  (String.eqb (test_suite tc) "get_mempolicy" && (num tc =? 18)).

Definition numa_case_ok (tc : test_case) : Prop :=
  numa_excluded tc = false -> 4 <= nodes <= 29 ->
  forall argv (w : world K), arg_analyze argv = nodes -> stack_ok tmp_buf (nview_of (w_k w)) ->
  fst (run K (run_test_case tc argv) w) = Done None.

Lemma numa_case_ok_intro suite n st f td :
  (4 <= nodes <= 29 -> forall argv w v, stack_ok tmp_buf v -> arg_analyze argv = nodes ->
     exists m, run K (st n argv) w = (Done m, w) /\ passes K (f m) v) ->
  tears_down K td -> numa_case_ok (numa_case suite n st f td).
Proof.
  intros Hp Ht _ Hn argv w Ha Hs.
  destruct (Hp Hn argv w (nview_of (w_k w)) Hs Ha) as (m & E & Hm).
  assert (at_view K (nview_of (w_k w)) w) as Hw by (unfold at_view; reflexivity).
  exact (numa_case_passes K suite n st f td argv w _ m Hw E Hm Ht).
Qed.

Lemma table_passes t m v :
  In t tables -> 4 <= nodes <= 29 -> max_node m = nodes -> passes K (mbind_table (fst t) (snd t) m) v.
Proof.
  intros Ht Hn Hm. pose proof (tables_ok _ (proj1 Hn)) as Ha. rewrite List.Forall_forall in Ha.
  destruct (Ha t Ht) as (H1 & H2 & H3 & H4). now apply passes_table.
Qed.


#[local] Hint Extern 1 (passes _ (mbind_table ?a ?e _) _) =>
  apply (table_passes (a, e)); [cbn; tauto|assumption|assumption] : numa_pass.

(** Close a case with the lemma of its run function. *)
Ltac case_tac :=
  first [apply numa_case_ok_intro;
           [intros Hn argv w v Hs Ha; eexists; split; [reflexivity|]; solve [eauto with numa_pass]
           |solve [eauto with numa_pass]]
        |let H := fresh in intros H; discriminate H].

Lemma numa_suites_pass : Forall numa_case_ok numa_suites.
Proof.
  unfold numa_suites, mbind_suite, get_mempolicy_suite, set_mempolicy_suite. cbn [app].
  repeat (apply Forall_cons; split; [case_tac|]).
  constructor.
Qed.
End Suites.

(** C11.  On every kernel that implements the memory policy calls as specified,
    with four to 29 nodes and the right number given as the option [-n], every
    test of the suites [mbind], [get_mempolicy] and [set_mempolicy] other than
    [mbind] 27 and [get_mempolicy] 18 returns [NULL], wherever the stack array
    is placed. *)
Theorem numa_suites_no_false_alarm `{AC : ArchConfig} (K : kernel) {NK : NumaKernel K}
  (tmp_buf : Z) (shl : Z -> Z) (tc : test_case) (argv : list string) (w : world K) :
  In tc (numa_suites tmp_buf shl) -> numa_excluded tc = false -> 4 <= nodes <= 29 ->
  arg_analyze argv = nodes -> stack_ok tmp_buf (nview_of (w_k w)) ->
  fst (run K (run_test_case tc argv) w) = Done None.
Proof.
  intros Hin Hx Hn Ha Hs. pose proof (numa_suites_pass K tmp_buf shl) as Hall.
  rewrite List.Forall_forall in Hall. now apply (Hall tc Hin).
Qed.

(** A process with two pages of stack. *)
Definition stack_view : nview :=
  NView default_policy (fun a => (a =? 0x30000000) || (a =? 0x30001000)) (fun _ => default_policy).

Lemma numa_suites_no_false_alarm_witness :
  fst (run (@numa_ref config_4K)
         (run_test_case (@mbind21 config_4K) ["test_mck"; "-n"; "4"])
         (World proc0 (stack_view : kstate (@numa_ref config_4K)))) = Done None.
Proof.
  refine (@numa_suites_no_false_alarm config_4K _ numa_ref_kernel 0x30000010 (fun _ => 0)
            mbind21 ["test_mck"; "-n"; "4"] (World proc0 (stack_view : kstate numa_ref)) _ _ _ _ _).
  - apply (nth_error_In _ 21). reflexivity.
  - reflexivity.
  - split; discriminate.
  - vm_compute. reflexivity.
  - split; try reflexivity; try discriminate. repeat split.
Defined.
