(* ===== verification/NumaSound.v ===== *)
(** * The NUMA checks on an arbitrary kernel

    What a success of [mbind_check] and of [mbind] 27 says about the calls
    that were made, with no assumption on the system that answered them. *)
From S2P Require Import Prelude Process Trace Arch CLib TestMck AddrSpace Numa NumaCases NumaSpec.
From Stdlib Require Import Ascii String.
#[local] Open Scope string_scope.
#[local] Open Scope Z_scope.

(** ** [mbind_check] *)

Section Check.
Context `{AC : ArchConfig} (K : kernel) (max_node ptr flags : Z).
Implicit Type w : world K.

(** The policy of region [i] was asked for, with the first word of the mask
    cleared, and the answer is the row [e] of the table. *)
Inductive answered (i : Z) (e : mbind_expect) : event -> Prop :=
| Answered ws r ws' :
    word ws 0 = 0 -> is_err r = false -> word ws' 0 = e_node_mask e ->
    answered i e (Ev (GetMempolicy true (Some ws) max_node (u64 (ptr + PAGE_SIZE * i)) flags)
                    (r, (e_mode e, ws'))).

Inductive all_answered : Z -> list mbind_expect -> list event -> Prop :=
| AllNil i : all_answered i [] []
| AllCons i e es ev evs :
    answered i e ev -> all_answered (i + 1) es evs -> all_answered i (e :: es) (ev :: evs).

Lemma all_answered_length i es evs : all_answered i es evs -> List.length evs = List.length es.
Proof. induction 1; cbn; congruence. Qed.

Lemma word_set_word0 ws : word (set_word0 0 ws) 0 = 0.
Proof. now destruct ws. Qed.

Definition verdict (P : Prop) (o : outcome (Z * list Z)) : Prop :=
  exists ret ws, o = Done (ret, ws) /\ (ret = 0 /\ P \/ ret = -1 /\ ~ P).

Lemma verdict_iff (P Q : Prop) o : (P <-> Q) -> verdict P o -> verdict Q o.
Proof. intros HPQ (ret & ws & E & H). exists ret, ws. tauto. Qed.

Lemma answered_inv i e c r :
  answered i e (Ev c r) ->
  match c return ans c -> Prop with
  | GetMempolicy _ _ _ _ _ => fun r =>
      is_err (fst r) = false /\ fst (snd r) = e_mode e /\ word (snd (snd r)) 0 = e_node_mask e
  | _ => fun _ => False
  end r.
Proof.
  intros H.
  refine (match H in answered _ _ ev return
            match ev with
            | Ev c r => match c return ans c -> Prop with
                        | GetMempolicy _ _ _ _ _ => fun r =>
                            is_err (fst r) = false /\ fst (snd r) = e_mode e /\
                            word (snd (snd r)) 0 = e_node_mask e
                        | _ => fun _ => False
                        end r
            end with
          | Answered _ _ ws r ws' H1 H2 H3 => _
          end).
  cbn. auto.
Qed.

(** One round: the call, and the rest of the loop if the answer is the row. *)
Lemma mbind_check_from_step i e es ws pr s s' r md ws' :
  kstep K (GetMempolicy true (Some (set_word0 0 ws)) max_node (u64 (ptr + PAGE_SIZE * i)) flags) s
    = (s', (r, (md, ws'))) ->
  let good := negb (is_err r) && (md =? e_mode e) && (word ws' 0 =? e_node_mask e) in
  exists pr',
    let rest := mbind_check_from (i + 1) es ws' max_node ptr flags in
    fst (run K (mbind_check_from i (e :: es) ws max_node ptr flags) (World pr s))
      = (if good then fst (run K rest (World pr' s')) else Done (-1, ws')) /\
    calls K (mbind_check_from i (e :: es) ws max_node ptr flags) (World pr s)
      = Ev (GetMempolicy true (Some (set_word0 0 ws)) max_node (u64 (ptr + PAGE_SIZE * i)) flags)
          (r, (md, ws')) :: (if good then calls K rest (World pr' s') else []).
Proof.
  intros E. cbn [mbind_check_from]. unfold printf, get_mempolicy, trigger. cbn [bind].
  eexists. split.
  - cbn [run w_k w_proc bind]. rewrite E. unfold syscall_ret, set_errno. cbn [fst snd].
    destruct (is_err r) eqn:Er; cbn; [reflexivity|].
    destruct (Z.eqb_spec r (-1)) as [->|]; [discriminate Er|]. cbn.
    destruct (md =? e_mode e), (word ws' 0 =? e_node_mask e); cbn; reflexivity.
  - change (calls K (Loc ?f ?k) ?w) with (calls K (k (f (w_proc w))) (World (f (w_proc w)) (w_k w))).
    cbn [w_k w_proc]. rewrite (calls_call K _ _ _ _ _ _ E). f_equal.
    unfold syscall_ret, set_errno. cbn [fst snd].
    destruct (is_err r) eqn:Er; cbn [bind negb andb]; [reflexivity|].
    destruct (Z.eqb_spec r (-1)) as [->|]; [discriminate Er|].
    destruct (md =? e_mode e), (word ws' 0 =? e_node_mask e); reflexivity.
Qed.

Lemma mbind_check_from_verdict i es ws w :
  verdict (all_answered i es (calls K (mbind_check_from i es ws max_node ptr flags) w))
          (fst (run K (mbind_check_from i es ws max_node ptr flags) w)).
Proof.
  revert i ws w. induction es as [|e es IH]; intros i ws [pr s].
  { exists 0, ws. split; [reflexivity|]. left. split; [reflexivity|constructor]. }
  destruct (kstep K (GetMempolicy true (Some (set_word0 0 ws)) max_node (u64 (ptr + PAGE_SIZE * i)) flags) s)
    as [s' [r [md ws']]] eqn:E.
  destruct (mbind_check_from_step i e es ws pr s s' r md ws' E) as (pr' & -> & ->).
  destruct (negb (is_err r) && (md =? e_mode e) && (word ws' 0 =? e_node_mask e)) eqn:Eg.
  - rewrite !andb_true_iff, negb_true_iff, !Z.eqb_eq in Eg. destruct Eg as [[Er ->] Ew].
    eapply verdict_iff; [|apply IH]. split.
    + intros H. constructor; [|exact H]. constructor; auto. apply word_set_word0.
    + intros H. now inversion H.
  - exists (-1), ws'. split; [reflexivity|]. right. split; [reflexivity|]. intros H.
    inversion H as [|? ? ? ? ? Ha]; subst. apply answered_inv in Ha.
    destruct Ha as (H1 & H2 & H3). cbn [fst snd] in H1, H2, H3.
    now rewrite H1, H2, H3, !Z.eqb_refl in Eg.
Qed.
End Check.

(** [mbind_check] returns on every kernel; it returns 0 exactly when its
    calls are one [get_mempolicy] per row of the table, on consecutive pages
    with the mask cleared, none failed and each answered the mode and the
    first mask word of its row, and -1 otherwise. *)
Theorem mbind_check_exact `{AC : ArchConfig} (K : kernel) es ws max_node ptr flags (w : world K) :
  exists ret ws',
    fst (run K (mbind_check es ws max_node ptr flags) w) = Done (ret, ws') /\
    (ret = 0 \/ ret = -1) /\
    (ret = 0 <-> all_answered max_node ptr flags 0 (firstn NUM_REGION es)
                   (calls K (mbind_check es ws max_node ptr flags) w)).
Proof.
  destruct (mbind_check_from_verdict K max_node ptr flags 0 (firstn NUM_REGION es) ws w)
    as (ret & ws' & E & H).
  exists ret, ws'. split; [exact E|]. fold (mbind_check es ws max_node ptr flags) in H.
  destruct H as [[-> H]|[-> H]]; (split; [tauto|]); split; intros Hx;
    [exact H|reflexivity|discriminate Hx|contradiction].
Qed.

(** ** [mbind] 27 *)

(** The second binding of [mbind] 27: another node, strictly. *)
Definition strict_rebind `{ArchConfig} (b : Z) : op :=
  Mbind b PAGE_SIZE MPOL_BIND (Some [0x01]) BITS_PER_LONG MPOL_MF_STRICT.

(** Split on the remaining tests: order, faults, handlers. *)
Ltac case_fault :=
  match goal with
  | |- context [?x <? ?y] => destruct (x <? y)
  | |- context [or_raise ?r] => destruct r
  | |- context [p_sigs ?p ?n] => destruct (p_sigs p n) as [[]|]
  | |- context [deliver] => unfold deliver
  | |- context [syscall_ret] => unfold syscall_ret
  end.

(** [mbind] 27 succeeds only if the kernel refused the strict rebinding
    with an error other than [EIO]; its comment says that [EIO] is the
    expected error.  So the test reports the documented answer as a failure. *)
Theorem mbind27_pass_not_EIO `{AC : ArchConfig} (K : kernel) (argv : list string) (w : world K) :
  fst (run K (run_test_case mbind27 argv) w) = Done None ->
  exists b e, is_err e = true /\ e <> - EIO /\
    In (Ev (strict_rebind b) e) (calls K (run_test_case mbind27 argv) w).
Proof.
  unfold calls. rewrite traced_outcome. destruct w as [pr s0].
  unfold run_test_case, mbind27, numa_case, tworld. cbn [setup tc_run teardown num bind numa_setup].
  unfold numa_setup. generalize (arg_analyze argv). intros n. cbn [bind].
  unfold mbind_run_027, check_nonzero, check_at_least, new_node_mask, create_node_mask, malloc, expect_zero,
    mmap, mbind, munmap, store, free_mask_buf, destroy_node_mask, free, tp_assert, usage_print, printf, syscall_ret.
  repeat (sym_run; try case_fault); sym_clean; intros Hd; try discriminate Hd.
  all: match goal with H : - ?e <> EIO |- _ =>
    eexists _, e; split; [assumption|]; split; [intros ->; apply H; reflexivity|] end.
  all: do 4 right; left; reflexivity.
Qed.

(** A system that refuses the strict rebinding with [EINVAL]. *)
Definition einval_kernel : kernel :=
  Kernel unit (fun c s =>
    (s, match c return ans c with
        | Mmap _ _ _ _ _ _ => 0x100000000000
        | Malloc _ => 4096
        | Mbind _ _ _ _ _ flags => if flags =? 0 then 0 else - EINVAL
        | c => enosys c
        end)).

Lemma mbind27_pass_not_EIO_witness :
  exists b e, is_err e = true /\ e <> - EIO /\
    In (Ev (@strict_rebind config_4K b) e)
       (calls einval_kernel (run_test_case (@mbind27 config_4K) ["mbind"; "-n"; "4"])
          (World proc0 (tt : kstate einval_kernel))).
Proof. apply (@mbind27_pass_not_EIO config_4K). vm_compute. reflexivity. Defined.
