(* ===== verification/Rlimit.v ===== *)
(** * Resource limits: the suites [getrlimit] and [setrlimit]

    The 19 cases of [getrlimit] and the 16 of [setrlimit], the limits of a
    process as the manual page describes them ([RlimKernel]), and what the cases
    establish. *)
From S2P Require Import Prelude Process Trace CLib TestMck.
From Stdlib Require Import Ascii String.
#[local] Open Scope string_scope.
#[local] Open Scope Z_scope.

(** ** [<sys/resource.h>] *)

Definition RLIMIT_CPU : Z := 0.
Definition RLIMIT_FSIZE : Z := 1.
Definition RLIMIT_DATA : Z := 2.
Definition RLIMIT_STACK : Z := 3.
Definition RLIMIT_CORE : Z := 4.
Definition RLIMIT_RSS : Z := 5.
Definition RLIMIT_NPROC : Z := 6.
Definition RLIMIT_NOFILE : Z := 7.
Definition RLIMIT_MEMLOCK : Z := 8.
Definition RLIMIT_AS : Z := 9.
Definition RLIMIT_LOCKS : Z := 10.
Definition RLIMIT_SIGPENDING : Z := 11.
Definition RLIMIT_MSGQUEUE : Z := 12.
Definition RLIMIT_NICE : Z := 13.
Definition RLIMIT_RTPRIO : Z := 14.
Definition RLIMIT_NLIMITS : Z := 16.

(** The result and the contents of [*rlim] afterwards. *)
Definition getrlimit (resource : Z) : prog (Z * rlimit) :=
  r <- trigger (Getrlimit resource) ;;
  ret <- syscall_ret (-1) (fst r) ;;
  Ret (ret, snd r).
Definition setrlimit (resource : Z) (rlim : rlimit) : prog Z :=
  r <- trigger (Setrlimit resource rlim) ;; syscall_ret (-1) r.

(** ** The suite [setrlimit] *)

(** Cases 0-14: the resource's soft limit is set to [rlim_cur set_rlim], read
    back and restored. *)
Definition setrlimit_run (set_rlim : rlimit) (resource : Z) (res_name : string) : prog result :=
  let* (result, org_rlim) := getrlimit resource in
  tp_assert! (result =? 0, Some "getrlimit failed.") ;;
  let set_rlim := Rlimit (rlim_cur set_rlim) (rlim_max org_rlim) in
  result <- setrlimit resource set_rlim ;;
  tp_assert! (result =? 0, Some "setrlimit failed.") ;;
  let* (result, cmp_rlim) := getrlimit resource in
  tp_assert! (result =? 0, Some "getrlimit failed.") ;;
  printf "  getrlimit(%s, %lx, %lx)\n" [PS res_name; PZ (rlim_cur org_rlim); PZ (rlim_max org_rlim)] ;;
  printf "  setrlimit(%s, %lx, %lx)\n" [PS res_name; PZ (rlim_cur set_rlim); PZ (rlim_max set_rlim)] ;;
  printf "  getrlimit(%s, %lx, %lx)\n" [PS res_name; PZ (rlim_cur cmp_rlim); PZ (rlim_max cmp_rlim)] ;;
  tp_assert! (rlim_cur set_rlim =? rlim_cur cmp_rlim, Some "setrlimit failed, rlim_cur not set.") ;;
  tp_assert! (rlim_max set_rlim =? rlim_max cmp_rlim, Some "setrlimit failed, rlim_max not set.") ;;
  result <- setrlimit resource org_rlim ;;
  tp_assert! (result =? 0, Some "setrlimit failed.") ;;
  Ret None.

(** Case 15: a soft limit above the hard limit. *)
Definition setrlimit_run_015 : prog result :=
  let set_rlim := Rlimit 0xffffffffffffffff 0 in
  let resource := RLIMIT_SIGPENDING in
  let* (result, org_rlim) := getrlimit resource in
  tp_assert! (result =? 0, Some "getrlimit failed.") ;;
  let set_rlim := Rlimit (rlim_cur set_rlim) (rlim_max org_rlim) in
  tp_assert! (rlim_max set_rlim <? rlim_cur set_rlim, Some "rlim_cur is less than rlim_max") ;;
  result <- setrlimit resource set_rlim ;;
  e <- errno ;;
  printf "setrlimit() = %d, errno = %d\n" [PZ result; PZ e] ;;
  tp_assert! (negb (result =? 0), Some "setrlimit why successed ?") ;;
  e <- errno ;;
  tp_assert! (e =? EINVAL, Some "setrlimit errno is not EINVAL") ;;
  Ret None.

Definition setrlimit_case (n : Z) (run : prog result) : test_case :=
  TestCase "setrlimit" n unit SETUP_EMPTY (run_const (fun _ _ => run)) TEARDOWN_EMPTY.

Definition setrlimit0 := setrlimit_case 0 (setrlimit_run (Rlimit 0x80000000 0) RLIMIT_AS "RLIMIT_AS").
Definition setrlimit1 := setrlimit_case 1 (setrlimit_run (Rlimit 0x90000000 0) RLIMIT_CORE "RLIMIT_CORE").
Definition setrlimit2 := setrlimit_case 2 (setrlimit_run (Rlimit 0xa0000000 0) RLIMIT_CPU "RLIMIT_CPU").
Definition setrlimit3 := setrlimit_case 3 (setrlimit_run (Rlimit 0xb0000000 0) RLIMIT_DATA "RLIMIT_DATA").
Definition setrlimit4 := setrlimit_case 4 (setrlimit_run (Rlimit 0xc0000000 0) RLIMIT_FSIZE "RLIMIT_FSIZE").
Definition setrlimit5 := setrlimit_case 5 (setrlimit_run (Rlimit 0xd0000000 0) RLIMIT_LOCKS "RLIMIT_LOCKS").
Definition setrlimit6 := setrlimit_case 6 (setrlimit_run (Rlimit 0xa000 0) RLIMIT_MEMLOCK "RLIMIT_MEMLOCK").
Definition setrlimit7 := setrlimit_case 7 (setrlimit_run (Rlimit 0xb000 0) RLIMIT_MSGQUEUE "RLIMIT_MSGQUEUE").
Definition setrlimit8 := setrlimit_case 8 (setrlimit_run (Rlimit 0 0) RLIMIT_NICE "RLIMIT_NICE").
Definition setrlimit9 := setrlimit_case 9 (setrlimit_run (Rlimit 0x600 0) RLIMIT_NOFILE "RLIMIT_NOFILE").
Definition setrlimit10 := setrlimit_case 10 (setrlimit_run (Rlimit 0x700 0) RLIMIT_NPROC "RLIMIT_NPROC").
Definition setrlimit11 := setrlimit_case 11 (setrlimit_run (Rlimit 0xe0000000 0) RLIMIT_RSS "RLIMIT_RSS").
Definition setrlimit12 := setrlimit_case 12 (setrlimit_run (Rlimit 0 0) RLIMIT_RTPRIO "RLIMIT_RTPRIO").
Definition setrlimit13 := setrlimit_case 13 (setrlimit_run (Rlimit 0x100 0) RLIMIT_SIGPENDING "RLIMIT_SIGPENDING").
Definition setrlimit14 :=
  setrlimit_case 14 (setrlimit_run (Rlimit 0x800000 0xffffffffffffff) RLIMIT_STACK "RLIMIT_STACK").
Definition setrlimit15 := setrlimit_case 15 setrlimit_run_015.

(** ** The suite [getrlimit] *)

Definition TEST_GETRLIMIT_SUCCESS : Z := 0.
Definition TEST_GETRLIMIT_FAILUER : Z := -1.

Record getrlimit_tc := GetrlimitTc {
  resource : Z;
  res_str : string;
  expect_result : Z;
  expect_errno : Z;
  errno_str : string;
}.

(** The beginning all cases but 17 share. *)
Definition getrlimit_query (tc : getrlimit_tc) : prog Z :=
  let* (result, _) := getrlimit (resource tc) in
  printf "getrlimit(%s)=%d\n" [PS (res_str tc); PZ result] ;;
  (if negb (result =? 0) then
     e <- errno ;;
     printf "errno=%d (McK may return %s(=%d))\n" [PZ e; PS (errno_str tc); PZ (expect_errno tc)]
   else Ret tt) ;;
  Ret result.

(** Cases 0-14 and 16 check the result only. *)
Definition getrlimit_run (tc : getrlimit_tc) (tc_num : Z) (_ : unit) : prog result :=
  tp_assert! (0 <=? tc_num, Some "invalid tp number.") ;;
  result <- getrlimit_query tc ;;
  tp_assert! (result =? expect_result tc, Some "getrlimit failed.") ;;
  Ret None.

(** Cases 15 and 18 check [errno] too. *)
Definition getrlimit_run_errno (tc : getrlimit_tc) (tc_num : Z) (_ : unit) : prog result :=
  tp_assert! (0 <=? tc_num, Some "invalid tp number.") ;;
  result <- getrlimit_query tc ;;
  tp_assert! (result =? expect_result tc, Some "getrlimit failed. (retval different)") ;;
  e <- errno ;;
  tp_assert! (e =? expect_errno tc, Some "getrlimit failed. (errno different)") ;;
  Ret None.

(** The loop of case 17; the result is the variable [failed]. *)
Fixpoint getrlimit_loop (tcs : list getrlimit_tc) (failed : Z) : prog Z :=
  match tcs with
  | [] => Ret failed
  | tc :: tcs' =>
      let* (result, rlim) := getrlimit (resource tc) in
      printf "getrlimit(%s)=%d\n" [PS (res_str tc); PZ result] ;;
      printf "  rlim_cur = %lx\n" [PZ (rlim_cur rlim)] ;;
      printf "  rlim_max = %lx\n" [PZ (rlim_max rlim)] ;;
      (if negb (result =? 0) then
         e <- errno ;;
         printf "  errno=%d (McK may return %s(=%d))\n" [PZ e; PS (errno_str tc); PZ (expect_errno tc)]
       else Ret tt) ;;
      failed <-
        (if negb (result =? expect_result tc) then
           printf "  failed %s (McK may return %s(=%d))\n"
             [PS (res_str tc); PS (errno_str tc); PZ (expect_errno tc)] ;;
           Ret 1
         else Ret failed) ;;
      getrlimit_loop tcs' failed
  end.

Definition expect_ok (r : Z) (s : string) : getrlimit_tc :=
  GetrlimitTc r s TEST_GETRLIMIT_SUCCESS 0 "0".
Definition expect_enosys (r : Z) (s : string) : getrlimit_tc :=
  GetrlimitTc r s TEST_GETRLIMIT_FAILUER ENOSYS "ENOSYS".

Definition getrlimit_table_017 : list getrlimit_tc :=
  [ expect_ok RLIMIT_AS "RLIMIT_AS"; expect_ok RLIMIT_CORE "RLIMIT_CORE";
    expect_ok RLIMIT_CPU "RLIMIT_CPU"; expect_ok RLIMIT_DATA "RLIMIT_DATA";
    expect_ok RLIMIT_FSIZE "RLIMIT_FSIZE"; expect_ok RLIMIT_LOCKS "RLIMIT_LOCKS";
    expect_ok RLIMIT_MEMLOCK "RLIMIT_MEMLOCK"; expect_ok RLIMIT_MSGQUEUE "RLIMIT_MSGQUEUE";
    expect_ok RLIMIT_NICE "RLIMIT_NICE"; expect_ok RLIMIT_NOFILE "RLIMIT_NOFILE";
    expect_ok RLIMIT_NPROC "RLIMIT_NPROC"; expect_ok RLIMIT_RSS "RLIMIT_RSS";
    expect_ok RLIMIT_RTPRIO "RLIMIT_RTPRIO"; expect_ok RLIMIT_SIGPENDING "RLIMIT_SIGPENDING";
    expect_ok RLIMIT_STACK "RLIMIT_STACK" ].

Definition getrlimit_run_017 (tc_num : Z) (_ : unit) : prog result :=
  tp_assert! (0 <=? tc_num, Some "invalid tp number.") ;;
  failed <- getrlimit_loop getrlimit_table_017 0 ;;
  tp_assert! (failed =? 0, Some "getrlimit failed.") ;;
  Ret None.

Definition getrlimit_case (n : Z) (run : Z -> unit -> prog result) : test_case :=
  TestCase "getrlimit" n unit (SETUP_ALIAS n SETUP_EMPTY) (run_const run) (TEARDOWN_ALIAS n TEARDOWN_EMPTY).

Definition getrlimit0 : test_case :=
  TestCase "getrlimit" 0 unit SETUP_EMPTY
    (run_const (getrlimit_run (expect_enosys RLIMIT_CPU "RLIMIT_CPU"))) TEARDOWN_EMPTY.
Definition getrlimit1 := getrlimit_case 1 (getrlimit_run (expect_ok RLIMIT_FSIZE "RLIMIT_FSIZE")).
Definition getrlimit2 := getrlimit_case 2 (getrlimit_run (expect_enosys RLIMIT_DATA "RLIMIT_DATA")).
Definition getrlimit3 := getrlimit_case 3 (getrlimit_run (expect_ok RLIMIT_STACK "RLIMIT_STACK")).
Definition getrlimit4 := getrlimit_case 4 (getrlimit_run (expect_enosys RLIMIT_CORE "RLIMIT_CORE")).
Definition getrlimit5 := getrlimit_case 5 (getrlimit_run (expect_enosys RLIMIT_RSS "RLIMIT_RSS")).
Definition getrlimit6 := getrlimit_case 6 (getrlimit_run (expect_ok RLIMIT_NOFILE "RLIMIT_NOFILE")).
Definition getrlimit7 := getrlimit_case 7 (getrlimit_run (expect_enosys RLIMIT_NPROC "RLIMIT_NPROC")).
Definition getrlimit8 := getrlimit_case 8 (getrlimit_run (expect_enosys RLIMIT_MEMLOCK "RLIMIT_MEMLOCK")).
Definition getrlimit9 := getrlimit_case 9 (getrlimit_run (expect_enosys RLIMIT_AS "RLIMIT_AS")).
Definition getrlimit10 := getrlimit_case 10 (getrlimit_run (expect_ok RLIMIT_LOCKS "RLIMIT_LOCKS")).
Definition getrlimit11 := getrlimit_case 11 (getrlimit_run (expect_enosys RLIMIT_SIGPENDING "RLIMIT_SIGPENDING")).
Definition getrlimit12 := getrlimit_case 12 (getrlimit_run (expect_enosys RLIMIT_MSGQUEUE "RLIMIT_MSGQUEUE")).
Definition getrlimit13 := getrlimit_case 13 (getrlimit_run (expect_enosys RLIMIT_NICE "RLIMIT_NICE")).
Definition getrlimit14 := getrlimit_case 14 (getrlimit_run (expect_enosys RLIMIT_RTPRIO "RLIMIT_RTPRIO")).
Definition getrlimit15 :=
  getrlimit_case 15 (getrlimit_run_errno (expect_enosys RLIMIT_NLIMITS "RLIMIT_NLIMITS")).
Definition getrlimit16 := getrlimit_case 16 (getrlimit_run (expect_ok RLIMIT_NPROC "RLIMIT_NPROC")).
Definition getrlimit17 := getrlimit_case 17 getrlimit_run_017.
Definition getrlimit18 :=
  getrlimit_case 18 (getrlimit_run_errno
    (GetrlimitTc RLIMIT_NLIMITS "RLIMIT_NLIMITS" TEST_GETRLIMIT_FAILUER EINVAL "EINVAL")).

Definition getrlimit_cases : list test_case :=
  [ getrlimit0; getrlimit1; getrlimit2; getrlimit3; getrlimit4; getrlimit5; getrlimit6;
    getrlimit7; getrlimit8; getrlimit9; getrlimit10; getrlimit11; getrlimit12; getrlimit13;
    getrlimit14; getrlimit15; getrlimit16; getrlimit17; getrlimit18 ].

Definition setrlimit_cases : list test_case :=
  [ setrlimit0; setrlimit1; setrlimit2; setrlimit3; setrlimit4; setrlimit5; setrlimit6;
    setrlimit7; setrlimit8; setrlimit9; setrlimit10; setrlimit11; setrlimit12; setrlimit13;
    setrlimit14; setrlimit15 ].


(** ** Resource limits as documented *)

(** [getrlimit(2)]: the limits of every resource; reading them changes nothing,
    an unknown resource is [EINVAL]; the soft limit may be set to any value up
    to the hard limit, a larger one is [EINVAL]; the hard limit may be kept or
    lowered. *)
Class RlimKernel (K : kernel) := {
  rlim_of : kstate K -> Z -> rlimit;
  rlim_wf s r : 0 <= r < RLIMIT_NLIMITS ->
    0 <= rlim_cur (rlim_of s r) <= rlim_max (rlim_of s r) /\ rlim_max (rlim_of s r) < 2 ^ 64;
  rlim_get s r : 0 <= r < RLIMIT_NLIMITS ->
    exists s', kstep K (Getrlimit r) s = (s', (0, rlim_of s r)) /\
      forall r', rlim_of s' r' = rlim_of s r';
  rlim_get_invalid s r : ~ 0 <= r < RLIMIT_NLIMITS ->
    exists s' l, kstep K (Getrlimit r) s = (s', (- EINVAL, l)) /\
      forall r', rlim_of s' r' = rlim_of s r';
  rlim_set s r l : 0 <= r < RLIMIT_NLIMITS ->
    0 <= rlim_cur l <= rlim_max l -> rlim_max l <= rlim_max (rlim_of s r) ->
    exists s', kstep K (Setrlimit r l) s = (s', 0) /\
      forall r', rlim_of s' r' = if r' =? r then l else rlim_of s r';
  rlim_set_invalid s r l : 0 <= r < RLIMIT_NLIMITS ->
    rlim_max l < rlim_cur l ->
    exists s', kstep K (Setrlimit r l) s = (s', - EINVAL) /\
      forall r', rlim_of s' r' = rlim_of s r';
}.

(** A process whose limits are a function, as a kernel; a stored value is read
    as an unsigned pair with the soft limit below the hard limit. *)
Definition clamp (l : rlimit) : rlimit :=
  Rlimit (Z.min (u64 (rlim_cur l)) (u64 (rlim_max l))) (u64 (rlim_max l)).

Definition rlim_step (c : op) (f : Z -> rlimit) : (Z -> rlimit) * ans c :=
  match c with
  | Getrlimit r =>
      (f, if (0 <=? r) && (r <? RLIMIT_NLIMITS) then (0, clamp (f r)) else (- EINVAL, Rlimit 0 0))
  | Setrlimit r l =>
      if negb ((0 <=? r) && (r <? RLIMIT_NLIMITS)) || (rlim_max l <? rlim_cur l)
      then (f, - EINVAL)
      else if rlim_max (clamp (f r)) <? rlim_max l then (f, -1)
      else (fun r' => if r' =? r then l else f r', 0)
  | c => (f, enosys c)
  end.
Definition rlim_kernel : kernel := Kernel (Z -> rlimit) rlim_step.

Lemma valid_resource r :
  (0 <=? r) && (r <? RLIMIT_NLIMITS) = true <-> 0 <= r < RLIMIT_NLIMITS.
Proof. rewrite andb_true_iff, Z.leb_le, Z.ltb_lt. reflexivity. Qed.

Lemma clamp_id l : 0 <= rlim_cur l <= rlim_max l -> rlim_max l < 2 ^ 64 -> clamp l = l.
Proof.
  destruct l as [c m]. cbn. intros H1 H2. unfold clamp. cbn.
  rewrite !u64_small by lia. f_equal. lia.
Qed.

#[export] Instance rlim_kernel_ok : RlimKernel rlim_kernel.
Proof.
  refine {| rlim_of := fun (f : kstate rlim_kernel) r => clamp (f r) |}; cbn.
  - intros f r _. pose proof (u64_bound (rlim_cur (f r))). pose proof (u64_bound (rlim_max (f r))). lia.
  - intros f r Hr. exists f. rewrite (proj2 (valid_resource r) Hr). auto.
  - intros f r Hr. exists f, (Rlimit 0 0).
    destruct ((0 <=? r) && (r <? RLIMIT_NLIMITS)) eqn:E; [now apply valid_resource in E|auto].
  - intros f r l Hr Hc Hm. exists (fun r' => if r' =? r then l else f r').
    pose proof (u64_bound (rlim_max (f r))) as Hb.
    rewrite (proj2 (valid_resource r) Hr), (proj2 (Z.ltb_ge _ _) (proj2 Hc)),
      (proj2 (Z.ltb_ge _ _) Hm). split; [reflexivity|].
    intros r'. destruct (r' =? r); [|reflexivity]. apply clamp_id; lia.
  - intros f r l Hr Hl. exists f. rewrite (proj2 (valid_resource r) Hr), (proj2 (Z.ltb_lt _ _) Hl). auto.
Defined.

Section Documented.
Context (K : kernel) `{RlimKernel K}.
Implicit Type w : world K.

Definition same_limits w w' : Prop := forall r, rlim_of (w_k w') r = rlim_of (w_k w) r.

Lemma run_getrlimit w r : 0 <= r < RLIMIT_NLIMITS ->
  exists s', run K (getrlimit r) w = (Done (0, rlim_of (w_k w) r), World (w_proc w) s') /\
             forall r', rlim_of s' r' = rlim_of (w_k w) r'.
Proof.
  intros Hr. destruct (rlim_get (w_k w) r Hr) as (s' & E & Hs). exists s'.
  unfold getrlimit. cbn. rewrite E. auto.
Qed.

Lemma run_getrlimit_invalid w r : ~ 0 <= r < RLIMIT_NLIMITS ->
  exists s' l, run K (getrlimit r) w = (Done (-1, l), World (with_errno EINVAL (w_proc w)) s') /\
               forall r', rlim_of s' r' = rlim_of (w_k w) r'.
Proof.
  intros Hr. destruct (rlim_get_invalid (w_k w) r Hr) as (s' & l & E & Hs). exists s', l.
  unfold getrlimit. cbn. rewrite E. auto.
Qed.

Lemma run_setrlimit w r l : 0 <= r < RLIMIT_NLIMITS ->
  0 <= rlim_cur l <= rlim_max l -> rlim_max l <= rlim_max (rlim_of (w_k w) r) ->
  exists s', run K (setrlimit r l) w = (Done 0, World (w_proc w) s') /\
             forall r', rlim_of s' r' = if r' =? r then l else rlim_of (w_k w) r'.
Proof.
  intros Hr Hc Hm. destruct (rlim_set (w_k w) r l Hr Hc Hm) as (s' & E & Hs). exists s'.
  unfold setrlimit. cbn. rewrite E. auto.
Qed.

Lemma run_setrlimit_invalid w r l : 0 <= r < RLIMIT_NLIMITS -> rlim_max l < rlim_cur l ->
  exists s', run K (setrlimit r l) w = (Done (-1), World (with_errno EINVAL (w_proc w)) s') /\
             forall r', rlim_of s' r' = rlim_of (w_k w) r'.
Proof.
  intros Hr Hl. destruct (rlim_set_invalid (w_k w) r l Hr Hl) as (s' & E & Hs). exists s'.
  unfold setrlimit. cbn. rewrite E. auto.
Qed.

(** What cases 0-14 come to: the verdict depends on the hard limit only, and
    the limits are left as they were found. *)
Lemma run_setrlimit_run w set r name : 0 <= r < RLIMIT_NLIMITS -> 0 <= rlim_cur set ->
  exists w', run K (setrlimit_run set r name) w =
               (Done (if rlim_cur set <=? rlim_max (rlim_of (w_k w) r) then None
                      else Some "setrlimit failed."), w') /\
             same_limits w w'.
Proof.
  intros Hr Hset. unfold setrlimit_run, same_limits.
  destruct (run_getrlimit w r Hr) as (s1 & E1 & H1).
  rewrite run_bind, E1. cbn -[getrlimit setrlimit printf].
  set (org := rlim_of (w_k w) r) in *.
  set (w1 := World (w_proc w) s1 : world K).
  assert (O1 : rlim_of (w_k w1) r = org) by apply H1.
  destruct (rlim_cur set <=? rlim_max org) eqn:Eb; bool_to_prop.
  - destruct (run_setrlimit w1 r (Rlimit (rlim_cur set) (rlim_max org))) as (s2 & E2 & H2);
      [exact Hr | cbn; lia | rewrite O1; cbn; lia |].
    rewrite run_bind, E2. cbn -[getrlimit setrlimit printf].
    match goal with |- context [run K (bind (getrlimit r) _) ?x] => set (w2 := x) end.
    destruct (run_getrlimit w2 r Hr) as (s3 & E3 & H3).
    assert (O2 : rlim_of (w_k w2) r = Rlimit (rlim_cur set) (rlim_max org)).
    { unfold w2. cbn. now rewrite H2, Z.eqb_refl. }
    rewrite run_bind, E3, O2. cbn -[getrlimit setrlimit].
    rewrite !Z.eqb_refl. cbn -[getrlimit setrlimit].
    match goal with |- context [run K (bind (setrlimit r org) _) ?x] => set (w3 := x) end.
    destruct (run_setrlimit w3 r org) as (s4 & E4 & H4); [exact Hr| | |].
    + apply (rlim_wf (w_k w) r Hr).
    + unfold w3. cbn. rewrite H3, O2. cbn. lia.
    + rewrite run_bind, E4. cbn. eexists. split; [reflexivity|]. cbn. intros r'.
      rewrite H4. unfold w3, w2. cbn. rewrite H3. cbn. rewrite H2. cbn. rewrite H1.
      destruct (Z.eqb_spec r' r) as [->|]; reflexivity.
  - destruct (run_setrlimit_invalid w1 r (Rlimit (rlim_cur set) (rlim_max org)))
      as (s2 & E2 & H2); [exact Hr | exact Eb |].
    rewrite run_bind, E2. cbn. eexists. split; [reflexivity|]. cbn. intros r'.
    rewrite H2. apply H1.
Qed.

Lemma run_setrlimit_015 w :
  exists w', run K setrlimit_run_015 w =
               (Done (if rlim_max (rlim_of (w_k w) RLIMIT_SIGPENDING) <? 2 ^ 64 - 1 then None
                      else Some "rlim_cur is less than rlim_max"), w') /\
             same_limits w w'.
Proof.
  unfold setrlimit_run_015, same_limits.
  assert (Hr : 0 <= RLIMIT_SIGPENDING < RLIMIT_NLIMITS) by (unfold RLIMIT_SIGPENDING, RLIMIT_NLIMITS; lia).
  destruct (run_getrlimit w RLIMIT_SIGPENDING Hr) as (s1 & E1 & H1).
  rewrite run_bind, E1. cbn -[getrlimit setrlimit printf Z.ltb].
  change (2 ^ 64 - 1) with 18446744073709551615.
  destruct (rlim_max (rlim_of (w_k w) RLIMIT_SIGPENDING) <? 18446744073709551615) eqn:Eb;
    cbn -[getrlimit setrlimit printf]; bool_to_prop; [|eexists; split; [reflexivity|exact H1]].
  edestruct (run_setrlimit_invalid (World (w_proc w) s1) RLIMIT_SIGPENDING) as (s2 & E2 & H2);
    [exact Hr | | ]; cycle 1.
  { rewrite run_bind, E2. cbn. eexists. split; [reflexivity|]. cbn. intros r'.
    rewrite H2. apply H1. }
  exact Eb.
Qed.
End Documented.

(** ** The suites on a documented kernel *)

(** Cases 0-14 with their resource and value. *)
Definition setrlimit_table : list (test_case * Z * Z) :=
  [ (setrlimit0, RLIMIT_AS, 0x80000000); (setrlimit1, RLIMIT_CORE, 0x90000000);
    (setrlimit2, RLIMIT_CPU, 0xa0000000); (setrlimit3, RLIMIT_DATA, 0xb0000000);
    (setrlimit4, RLIMIT_FSIZE, 0xc0000000); (setrlimit5, RLIMIT_LOCKS, 0xd0000000);
    (setrlimit6, RLIMIT_MEMLOCK, 0xa000); (setrlimit7, RLIMIT_MSGQUEUE, 0xb000);
    (setrlimit8, RLIMIT_NICE, 0); (setrlimit9, RLIMIT_NOFILE, 0x600);
    (setrlimit10, RLIMIT_NPROC, 0x700); (setrlimit11, RLIMIT_RSS, 0xe0000000);
    (setrlimit12, RLIMIT_RTPRIO, 0); (setrlimit13, RLIMIT_SIGPENDING, 0x100);
    (setrlimit14, RLIMIT_STACK, 0x800000) ].


(** *** [getrlimit] *)

Section GetDocumented.
Context (K : kernel) `{RlimKernel K}.
Implicit Type w : world K.

Lemma run_getrlimit_ok tc n w : 0 <= n -> 0 <= resource tc < RLIMIT_NLIMITS ->
  exists w', run K (getrlimit_run tc n tt) w =
    (Done (if expect_result tc =? 0 then None else Some "getrlimit failed."), w') /\ same_limits K w w'.
Proof.
  intros Hn Hr. unfold getrlimit_run, getrlimit_query.
  rewrite (proj2 (Z.leb_le 0 n) Hn). rewrite tp_assert_true.
  destruct (run_getrlimit K w _ Hr) as (s & E & Hs).
  rewrite !run_bind, E. cbn -[Z.eqb]. rewrite Z.eqb_refl. cbn -[Z.eqb]. rewrite (Z.eqb_sym 0).
  destruct (expect_result tc =? 0); eexists; (split; [reflexivity|exact Hs]).
Qed.

Lemma run_getrlimit_errno tc n w : 0 <= n -> ~ 0 <= resource tc < RLIMIT_NLIMITS ->
  expect_result tc = -1 ->
  exists w', run K (getrlimit_run_errno tc n tt) w =
    (Done (if EINVAL =? expect_errno tc then None
           else Some "getrlimit failed. (errno different)"), w') /\ same_limits K w w'.
Proof.
  intros Hn Hr He. unfold getrlimit_run_errno, getrlimit_query.
  rewrite (proj2 (Z.leb_le 0 n) Hn), He. rewrite tp_assert_true.
  destruct (run_getrlimit_invalid K w _ Hr) as (s & l & E & Hs).
  rewrite !run_bind, E. cbn -[EINVAL].
  destruct (EINVAL =? expect_errno tc); eexists; (split; [reflexivity|exact Hs]).
Qed.

Lemma run_getrlimit_loop tcs w :
  Forall (fun tc => 0 <= resource tc < RLIMIT_NLIMITS /\ expect_result tc = 0) tcs ->
  exists w', run K (getrlimit_loop tcs 0) w = (Done 0, w') /\ same_limits K w w'.
Proof.
  intros HF. revert w. induction HF as [|tc tcs [Hr He] _ IH]; intros w.
  - exists w. split; [reflexivity|]. intros r. reflexivity.
  - destruct (run_getrlimit K w _ Hr) as (s & E & Hs).
    cbn [getrlimit_loop]. rewrite run_bind, E. rewrite He. cbn -[getrlimit_loop].
    match goal with |- context [run K (getrlimit_loop tcs 0) ?x] => destruct (IH x) as (w' & E' & Hs') end.
    exists w'. split; [exact E'|]. intros r. rewrite Hs'. apply Hs.
Qed.

Lemma run_getrlimit_017 n w : 0 <= n ->
  exists w', run K (getrlimit_run_017 n tt) w = (Done None, w') /\ same_limits K w w'.
Proof.
  intros Hn. unfold getrlimit_run_017. rewrite (proj2 (Z.leb_le 0 n) Hn). rewrite tp_assert_true.
  destruct (run_getrlimit_loop getrlimit_table_017 w) as (w' & E & Hs).
  { unfold getrlimit_table_017.
    repeat (apply List.Forall_cons; [split; [split; [discriminate|reflexivity]|reflexivity]|]).
    apply List.Forall_nil. }
  rewrite run_bind, E. exists w'. split; [reflexivity|exact Hs].
Qed.
End GetDocumented.

(** The cases that expect what the manual page documents. *)
Definition getrlimit_agrees (n : Z) : bool := existsb (Z.eqb n) [1; 3; 6; 10; 16; 17; 18].

(** On a documented kernel the cases 1, 3, 6, 10 and 16-18 of [getrlimit]
    pass and the other twelve, which expect resources to be unknown, fail;
    none changes a limit. *)
Theorem getrlimit_suite_documented K `{RlimKernel K} argv (w : world K) :
  Forall (fun tc =>
    exists v w', run K (run_test_case tc argv) w = (Done v, w') /\
      (v = None <-> getrlimit_agrees (num tc) = true) /\ same_limits K w w') getrlimit_cases.
Proof.
  assert (Hok : forall tc n (b : bool), 0 <= n -> 0 <= resource tc < RLIMIT_NLIMITS ->
    (expect_result tc =? 0) = b ->
    exists v w', run K (getrlimit_run tc n tt) w = (Done v, w') /\
      (v = None <-> b = true) /\ same_limits K w w').
  { intros tc n b Hn Hr <-. destruct (run_getrlimit_ok K tc n w Hn Hr) as (w' & E & Hs).
    do 2 eexists. split; [exact E|]. split; [|exact Hs]. now destruct (expect_result tc =? 0). }
  unfold getrlimit_cases.
  repeat apply List.Forall_cons; try apply List.Forall_nil;
    match goal with
    | |- context [run_test_case getrlimit15] =>
        destruct (run_getrlimit_errno K (expect_enosys RLIMIT_NLIMITS "RLIMIT_NLIMITS") 15 w)
          as (w' & E & Hs); [lia | cbn; unfold RLIMIT_NLIMITS; lia | reflexivity |];
        unfold getrlimit15, getrlimit_case; rewrite run_plain; do 2 eexists; split; [exact E|]; now split
    | |- context [run_test_case getrlimit17] =>
        destruct (run_getrlimit_017 K 17 w) as (w' & E & Hs); [lia|];
        unfold getrlimit17, getrlimit_case; rewrite run_plain; do 2 eexists; split; [exact E|]; now split
    | |- context [run_test_case getrlimit18] =>
        destruct (run_getrlimit_errno K
          (GetrlimitTc RLIMIT_NLIMITS "RLIMIT_NLIMITS" TEST_GETRLIMIT_FAILUER EINVAL "EINVAL") 18 w)
          as (w' & E & Hs); [lia | cbn; unfold RLIMIT_NLIMITS; lia | reflexivity |];
        unfold getrlimit18, getrlimit_case; rewrite run_plain; do 2 eexists; split; [exact E|]; now split
    | |- context [run_test_case ?tc] =>
        unfold tc, getrlimit_case; rewrite run_plain;
        apply Hok; [cbn; lia | split; [discriminate|reflexivity] | reflexivity]
    end.
Qed.

(** Cases 15 and 18 ask for different error numbers of one and the same
    call, and cases 7 and 16 for different results: on no system at all do both
    of a pair pass from the same state. *)
Theorem getrlimit_contradictions K argv (w : world K) :
  ~ (fst (run K (run_test_case getrlimit15 argv) w) = Done None /\
     fst (run K (run_test_case getrlimit18 argv) w) = Done None) /\
  ~ (fst (run K (run_test_case getrlimit7 argv) w) = Done None /\
     fst (run K (run_test_case getrlimit16 argv) w) = Done None).
Proof.
  destruct w as [pr s]. split; intros [H1 H2]; revert H1 H2; sym_run;
    unfold syscall_ret, tp_assert, TEST_GETRLIMIT_FAILUER, TEST_GETRLIMIT_SUCCESS; sym_run;
    intros; unfold ENOSYS, EINVAL in *; first [congruence | lia].
Qed.

(** ** Both suites on a concrete process *)

(** Every soft limit 256, every hard limit 4096. *)
Definition limits0 : world rlim_kernel :=
  World proc0 ((fun _ => Rlimit 256 4096) : kstate rlim_kernel).


Lemma getrlimit_suite_documented_witness :
  fst (run rlim_kernel (run_test_case getrlimit0 []) limits0) <> Done None.
Proof.
  pose proof (getrlimit_suite_documented rlim_kernel [] limits0) as H.
  rewrite List.Forall_forall in H.
  destruct (H getrlimit0) as (v & w' & E & Hv & _); [apply (nth_error_In _ 0); reflexivity|].
  rewrite E. cbn. intros [= ->]. now destruct (proj1 Hv eq_refl).
Defined.
