(* ===== verification/Ident.v ===== *)
(** * User and group identities

    The fourteen suites [getuid], [geteuid], [getresuid], [setuid], [setreuid],
    [setresuid], [setfsuid] and their group counterparts: option parsing, the run
    functions and the reader of [/proc/<pid>/status].  The sources for users and
    for groups differ in the three letters of the kind only, so each function
    has the kind as an argument. *)
From S2P Require Import Prelude Process Trace CLib TestMck.
From Stdlib Require Import Ascii String.
#[local] Open Scope string_scope.
#[local] Open Scope Z_scope.

(** ** System calls *)

(** [uid] or [gid], as in the names of the functions; [Uid] or [Gid]. *)
Definition idn (k : idkind) : string := match k with KUid => "uid" | KGid => "gid" end.
Definition Idn (k : idkind) : string := match k with KUid => "Uid" | KGid => "Gid" end.
(** The option letter of [getuid], [setuid], [getgid], [setgid]. *)
Definition idopt (k : idkind) : ascii := match k with KUid => "u" | KGid => "g" end.

Section Calls.
Context (k : idkind).

Definition getid : prog Z := trigger (Ident k IdGet).
Definition geteid : prog Z := trigger (Ident k IdGetEff).
Definition getresid : prog (Z * (Z * Z * Z)) :=
  r <- trigger (Ident k IdGetRes) ;;
  ret <- syscall_ret (-1) (fst r) ;;
  Ret (ret, snd r).
Definition setid (id : Z) : prog Z := r <- trigger (Ident k (IdSet id)) ;; syscall_ret (-1) r.
Definition setreid (r e : Z) : prog Z := x <- trigger (Ident k (IdSetRe r e)) ;; syscall_ret (-1) x.
Definition setresid (r e s : Z) : prog Z :=
  x <- trigger (Ident k (IdSetRes r e s)) ;; syscall_ret (-1) x.
(** The previous identity, converted to [int]. *)
Definition setfsid (f : Z) : prog Z :=
  x <- trigger (Ident k (IdSetFs f)) ;; y <- syscall_ret (-1) x ;; Ret (i32 y).
End Calls.

(** ** Options *)

(** [struct getuid_args] and the like: one, two or three identities and the
    remaining arguments. *)
Record args1 := Args1 { a1_id : Z; a1_argv : list string }.
Record args2 := Args2 { a2_r : Z; a2_e : Z; a2_argv : list string }.
Record args3 := Args3 { a3_r : Z; a3_e : Z; a3_s : Z; a3_argv : list string }.

(** [if (id == -1 || id == 0) fprintf(stderr, ...)], with [uid_t id]. *)
Definition mandatory (id : Z) (msg : string) : prog unit :=
  if (id =? u32 (-1)) || (id =? 0) then printf msg [] else Ret tt.

(** The option loops; an option that is not in the list makes the function
    return [NULL]. *)
Fixpoint options1 (o : ascii) (evs : list optev) (id : Z) : option Z :=
  match evs with
  | [] => Some id
  | Opt c optarg :: evs' =>
      if Ascii.eqb c o then options1 o evs' (u32 (atoi optarg)) else None
  | OptErr :: _ => None
  end.

Fixpoint options2 (evs : list optev) (r e : Z) : option (Z * Z) :=
  match evs with
  | [] => Some (r, e)
  | Opt c optarg :: evs' =>
      if Ascii.eqb c "r" then options2 evs' (u32 (atoi optarg)) e
      else if Ascii.eqb c "e" then options2 evs' r (u32 (atoi optarg))
      else None
  | OptErr :: _ => None
  end.

Fixpoint options3 (evs : list optev) (r e s : Z) : option (Z * Z * Z) :=
  match evs with
  | [] => Some (r, e, s)
  | Opt c optarg :: evs' =>
      if Ascii.eqb c "r" then options3 evs' (u32 (atoi optarg)) e s
      else if Ascii.eqb c "e" then options3 evs' r (u32 (atoi optarg)) s
      else if Ascii.eqb c "s" then options3 evs' r e (u32 (atoi optarg))
      else None
  | OptErr :: _ => None
  end.

(** [getuid_parse_args], [setuid_parse_args] (option [idopt]),
    [geteuid_parse_args] (option [e]), [setfsuid_parse_args] (option [f]). *)
Definition parse1 (o : ascii) (msg : string) (argv : list string) : prog (option args1) :=
  let '(evs, rest) := getopt (String o ":") (tail argv) in
  match options1 o evs 0 with
  | None => Ret None
  | Some id => mandatory id msg ;; Ret (Some (Args1 id rest))
  end.

(** [setreuid_parse_args]. *)
Definition parse2 (k : idkind) (argv : list string) : prog (option args2) :=
  let '(evs, rest) := getopt "r:e:" (tail argv) in
  match options2 evs 0 0 with
  | None => Ret None
  | Some (r, e) =>
      mandatory r ("mandatory parameter '-r <r" ++ idn k ++ ">'\n") ;;
      mandatory e ("mandatory parameter '-e <e" ++ idn k ++ ">'\n") ;;
      Ret (Some (Args2 r e rest))
  end.

(** [getresuid_parse_args], [setresuid_parse_args]. *)
Definition parse3 (k : idkind) (argv : list string) : prog (option args3) :=
  let '(evs, rest) := getopt "r:e:s:" (tail argv) in
  match options3 evs 0 0 0 with
  | None => Ret None
  | Some (r, e, s) =>
      mandatory r ("mandatory parameter '-r <r" ++ idn k ++ ">'\n") ;;
      mandatory e ("mandatory parameter '-e <e" ++ idn k ++ ">'\n") ;;
      mandatory s ("mandatory parameter '-s <s" ++ idn k ++ ">'\n") ;;
      Ret (Some (Args3 r e s rest))
  end.

Definition getid_parse_args (k : idkind) : list string -> prog (option args1) :=
  parse1 (idopt k) ("mandatory parameter '-" ++ String (idopt k) (" <" ++ idn k ++ ">'\n")).
Definition geteid_parse_args (k : idkind) : list string -> prog (option args1) :=
  parse1 "e" ("mandatory parameter '-e <e" ++ idn k ++ ">'\n").
Definition setfsid_parse_args (k : idkind) : list string -> prog (option args1) :=
  parse1 "f" ("mandatory parameter '-f <fs" ++ idn k ++ ">'\n").

(** ** Run functions *)

(** [tp_assert(args != NULL, ...)], then the arguments. *)
Definition with_args {A} (args : option A) (k : A -> prog result) : prog result :=
  match args with
  | None => Ret (Some "invalid arguement.")
  | Some a => k a
  end.

Section Runs.
Context (k : idkind).

Definition getid_run (args : option args1) : prog result :=
  with_args args (fun a =>
  let id := a1_id a in
  tp_assert! (negb (id =? 0), Some ("invalid " ++ idn k ++ ".")) ;;
  get <- getid k ;;
  printf ("get" ++ idn k ++ "() = %d\n") [PZ get] ;;
  status <- setid k id ;;
  e <- errno ;;
  printf ("set" ++ idn k ++ "(%d) = %d, errno = %d\n") [PZ id; PZ status; PZ e] ;;
  tp_assert! (negb (status =? -1), Some ("set" ++ idn k ++ "() failed.")) ;;
  get <- getid k ;;
  printf ("get" ++ idn k ++ "() = %d\n") [PZ get] ;;
  tp_assert! (id =? get, Some ("get" ++ idn k ++ "() failed.")) ;;
  Ret None).

Definition geteid_run (args : option args1) : prog result :=
  with_args args (fun a =>
  let id := a1_id a in
  tp_assert! (negb (id =? 0), Some ("invalid e" ++ idn k ++ ".")) ;;
  get <- geteid k ;;
  printf ("gete" ++ idn k ++ "() = %d\n") [PZ get] ;;
  status <- setreid k id id ;;
  e <- errno ;;
  printf ("setre" ++ idn k ++ "(%d, %d) = %d, errno = %d\n") [PZ id; PZ id; PZ status; PZ e] ;;
  tp_assert! (negb (status =? -1), Some ("setre" ++ idn k ++ "() failed.")) ;;
  get <- geteid k ;;
  printf ("gete" ++ idn k ++ "() = %d\n") [PZ get] ;;
  tp_assert! (id =? get, Some ("gete" ++ idn k ++ "() failed.")) ;;
  Ret None).

Definition setid_run (args : option args1) : prog result :=
  with_args args (fun a =>
  let id := a1_id a in
  tp_assert! (negb (id =? 0), Some ("invalid " ++ idn k ++ ".")) ;;
  status <- setid k id ;;
  e <- errno ;;
  printf ("set" ++ idn k ++ "(%d) = %d, errno = %d\n") [PZ id; PZ status; PZ e] ;;
  tp_assert! (negb (status =? -1), Some ("set" ++ idn k ++ "() failed.")) ;;
  get <- getid k ;;
  printf ("get" ++ idn k ++ "() = %d\n") [PZ get] ;;
  tp_assert! (id =? get, Some ("set" ++ idn k ++ "() failed.")) ;;
  Ret None).

Definition setreid_run (args : option args2) : prog result :=
  with_args args (fun a =>
  let '(r, e) := (a2_r a, a2_e a) in
  tp_assert! (negb (r =? 0), Some ("invalid r" ++ idn k ++ ".")) ;;
  tp_assert! (negb (e =? 0), Some ("invalid e" ++ idn k ++ ".")) ;;
  status <- setreid k r e ;;
  en <- errno ;;
  printf ("setre" ++ idn k ++ "(%d, %d) = %d, errno = %d\n") [PZ r; PZ e; PZ status; PZ en] ;;
  tp_assert! (negb (status =? -1), Some ("setre" ++ idn k ++ "() failed.")) ;;
  get_r <- getid k ;;
  printf ("get" ++ idn k ++ "() = %d\n") [PZ get_r] ;;
  tp_assert! (r =? get_r, Some ("setre" ++ idn k ++ "() failed.")) ;;
  get_e <- geteid k ;;
  printf ("gete" ++ idn k ++ "() = %d\n") [PZ get_e] ;;
  tp_assert! (e =? get_e, Some ("setre" ++ idn k ++ "() failed.")) ;;
  Ret None).

(** The second half of [getresuid] and [setresuid]. *)
Definition setresid_check (r e s : Z) : prog result :=
  status <- setresid k r e s ;;
  en <- errno ;;
  printf ("setres" ++ idn k ++ "(%d, %d, %d) = %d, errno = %d\n")
    [PZ r; PZ e; PZ s; PZ status; PZ en] ;;
  tp_assert! (negb (status =? -1), Some ("setres" ++ idn k ++ "() failed.")) ;;
  let* (status, (get_r, get_e, get_s)) := getresid k in
  en <- errno ;;
  printf ("getres" ++ idn k ++ "(%d, %d, %d) = %d, errno = %d\n")
    [PZ get_r; PZ get_e; PZ get_s; PZ status; PZ en] ;;
  tp_assert! (negb (status =? -1), Some ("getres" ++ idn k ++ "() failed.")) ;;
  tp_assert! (r =? get_r, Some ("setres" ++ idn k ++ "() failed.")) ;;
  tp_assert! (e =? get_e, Some ("setres" ++ idn k ++ "() failed.")) ;;
  tp_assert! (s =? get_s, Some ("setres" ++ idn k ++ "() failed.")) ;;
  Ret None.

Definition setresid_run (args : option args3) : prog result :=
  with_args args (fun a =>
  tp_assert! (negb (a3_r a =? 0), Some ("invalid r" ++ idn k ++ ".")) ;;
  tp_assert! (negb (a3_e a =? 0), Some ("invalid e" ++ idn k ++ ".")) ;;
  tp_assert! (negb (a3_s a =? 0), Some ("invalid s" ++ idn k ++ ".")) ;;
  setresid_check (a3_r a) (a3_e a) (a3_s a)).

Definition getresid_run (args : option args3) : prog result :=
  with_args args (fun a =>
  tp_assert! (negb (a3_r a =? 0), Some ("invalid r" ++ idn k ++ ".")) ;;
  tp_assert! (negb (a3_e a =? 0), Some ("invalid e" ++ idn k ++ ".")) ;;
  tp_assert! (negb (a3_s a =? 0), Some ("invalid s" ++ idn k ++ ".")) ;;
  let* (status, (get_r, get_e, get_s)) := getresid k in
  en <- errno ;;
  printf ("getres" ++ idn k ++ "(%d, %d, %d) = %d, errno = %d\n")
    [PZ get_r; PZ get_e; PZ get_s; PZ status; PZ en] ;;
  tp_assert! (negb (status =? -1), Some ("getres" ++ idn k ++ "() failed.")) ;;
  setresid_check (a3_r a) (a3_e a) (a3_s a)).

(** *** [check_procfs_status_uid] *)

Definition FREAD_BUF_SIZE : Z := 1024.

(** [strstr(s, pat) != NULL]. *)
Definition strstr (s pat : string) : bool :=
  match String.index 0 pat s with Some _ => true | None => false end.

(** [strrchr(s, c) + 1]: what follows the last [c]. *)
Fixpoint after_last (c : ascii) (s : string) : option string :=
  match s with
  | EmptyString => None
  | String c' s' =>
      match after_last c s' with
      | Some t => Some t
      | None => if Ascii.eqb c' c then Some s' else None
      end
  end.

Definition tab : ascii := ascii_of_nat 9.
Definition newline : ascii := ascii_of_nat 10.

Section Reader.
(** [n] bounds the number of lines read; [more] stands for the reader of a file
    that has more. *)
Context (n : nat) (more : prog Z).

(** The loop; the result is the variable [p_fsuid]. *)
Fixpoint status_loop (n : nat) (fp : Z) : prog Z :=
  match n with
  | O => more
  | S n =>
      line <- fgets fp FREAD_BUF_SIZE ;;
      match line with
      | None => Ret 0
      | Some buf =>
          if strstr buf (Idn k ++ ":") then
            printf "%s" [PS buf] ;;
            Ret (match after_last tab buf with Some p => u32 (atoi p) | None => 0 end)
          else status_loop n fp
      end
  end.

Definition status_path (pid : Z) : string :=
  String.substring 0 255
    ("/proc/" ++ (if pid <? 0 then "-" ++ print_dec (- pid) else print_dec pid) ++ "/status").

Definition check_procfs_status_id (set_fsid : Z) : prog Z :=
  pid <- getpid ;;
  fp <- fopen (status_path pid) "r" ;;
  if fp =? NULL then printf "fopen error.\n" [] ;; Ret 0
  else
    p_fsid <- status_loop n fp ;;
    c <- fclose fp ;;
    if negb (c =? 0) then printf "fclose error.\n" [] ;; Ret 0
    else
      printf "cmp %d == %d ? \n" [PZ set_fsid; PZ p_fsid] ;;
      Ret (b2z (set_fsid =? p_fsid)).

End Reader.

(** [check] is the suite's [check_procfs_status_uid] or [..._gid]. *)
Definition setfsid_run (check : Z -> prog Z) (args : option args1) : prog result :=
  with_args args (fun a =>
  let id := a1_id a in
  tp_assert! (negb (id =? 0), Some ("invalid " ++ idn k ++ ".")) ;;
  status <- setfsid k id ;;
  e <- errno ;;
  printf ("setfs" ++ idn k ++ "(%d) = %d, errno = %d\n") [PZ id; PZ status; PZ e] ;;
  tp_assert! (negb (status =? -1), Some ("setfs" ++ idn k ++ "() failed.")) ;;
  c <- check id ;;
  tp_assert! (c =? 1, Some ("setfs" ++ idn k ++ "() failed.")) ;;
  Ret None).
End Runs.

(** ** The test cases *)

Definition id_case {A} (suite : string) (parse : list string -> prog (option A))
  (run : option A -> prog result) : test_case :=
  TestCase suite 0 (option A) (fun _ => parse) (run_const (fun _ => run)) TEARDOWN_EMPTY.

(** The helper of the file system identity suites, by its names in the code. *)
Definition check_procfs_status_uid := check_procfs_status_id KUid.
Definition check_procfs_status_gid := check_procfs_status_id KGid.

(** The parser of each suite. *)
Definition getuid_parse_args := getid_parse_args KUid.
Definition getgid_parse_args := getid_parse_args KGid.
Definition geteuid_parse_args := geteid_parse_args KUid.
Definition getegid_parse_args := geteid_parse_args KGid.
Definition getresuid_parse_args := parse3 KUid.
Definition getresgid_parse_args := parse3 KGid.
Definition setuid_parse_args := getid_parse_args KUid.
Definition setgid_parse_args := getid_parse_args KGid.
Definition setreuid_parse_args := parse2 KUid.
Definition setregid_parse_args := parse2 KGid.
Definition setresuid_parse_args := parse3 KUid.
Definition setresgid_parse_args := parse3 KGid.
Definition setfsuid_parse_args := setfsid_parse_args KUid.
Definition setfsgid_parse_args := setfsid_parse_args KGid.

Definition getuid0 := id_case "getuid" getuid_parse_args (getid_run KUid).
Definition getgid0 := id_case "getgid" getgid_parse_args (getid_run KGid).
Definition geteuid0 := id_case "geteuid" geteuid_parse_args (geteid_run KUid).
Definition getegid0 := id_case "getegid" getegid_parse_args (geteid_run KGid).
Definition getresuid0 := id_case "getresuid" getresuid_parse_args (getresid_run KUid).
Definition getresgid0 := id_case "getresgid" getresgid_parse_args (getresid_run KGid).
Definition setuid0 := id_case "setuid" setuid_parse_args (setid_run KUid).
Definition setgid0 := id_case "setgid" setgid_parse_args (setid_run KGid).
Definition setreuid0 := id_case "setreuid" setreuid_parse_args (setreid_run KUid).
Definition setregid0 := id_case "setregid" setregid_parse_args (setreid_run KGid).
Definition setresuid0 := id_case "setresuid" setresuid_parse_args (setresid_run KUid).
Definition setresgid0 := id_case "setresgid" setresgid_parse_args (setresid_run KGid).
Definition setfsuid0 (n : nat) (more : prog Z) :=
  id_case "setfsuid" setfsuid_parse_args (setfsid_run KUid (check_procfs_status_uid n more)).
Definition setfsgid0 (n : nat) (more : prog Z) :=
  id_case "setfsgid" setfsgid_parse_args (setfsid_run KGid (check_procfs_status_gid n more)).
