(* ===== verification/IdentSpec.v ===== *)
(** * Credentials: what the identity suites rely on, and what they establish

    [id_spec] is the documented effect of the identity calls on the four
    identities of a process (real, effective, saved, file system), following
    [credentials(7)] and the manual pages of the calls.  [IdKernel] says that a
    kernel answers as specified, [StatusKernel] that it shows the identities in
    [/proc/<pid>/status]; [id_kernel] is an executable kernel that does both. *)
From S2P Require Import Prelude Process Trace CLib TestMck Ident.
From Stdlib Require Import Ascii String.
#[local] Open Scope string_scope.
#[local] Open Scope Z_scope.

(** ** The specification *)

Record ids := Ids { i_r : Z; i_e : Z; i_s : Z; i_f : Z }.

(** [(uid_t)-1], the value that names no identity. *)
Definition NOID : Z := 2 ^ 32 - 1.

Definition id_ok (z : Z) : Prop := 0 <= z < NOID.
Definition ids_ok (i : ids) : Prop := id_ok (i_r i) /\ id_ok (i_e i) /\ id_ok (i_s i) /\ id_ok (i_f i).

Definition one_of (z : Z) (l : list Z) : bool := existsb (Z.eqb z) l.
(** [keep z old]: the argument [-1] leaves an identity alone. *)
Definition keep (z old : Z) : Z := if z =? NOID then old else z.

(** [cap] is the capability [CAP_SETUID] (or [CAP_SETGID]). *)
Definition id_spec (cap : bool) (c : idcall) (i : ids) : ids * idans c :=
  match c with
  | IdGet => (i, i_r i)
  | IdGetEff => (i, i_e i)
  | IdGetRes => (i, (0, (i_r i, i_e i, i_s i)))
  | IdSet u =>
      if u =? NOID then (i, - EINVAL)
      else if cap then (Ids u u u u, 0)
      else if one_of u [i_r i; i_s i] then (Ids (i_r i) u (i_s i) u, 0)
      else (i, - EPERM)
  | IdSetRe r e =>
      if cap || (one_of r [NOID; i_r i; i_e i] && one_of e [NOID; i_r i; i_e i; i_s i]) then
        let e' := keep e (i_e i) in
        (Ids (keep r (i_r i)) e'
             (if negb (r =? NOID) || (negb (e =? NOID) && negb (e =? i_r i)) then e' else i_s i) e', 0)
      else (i, - EPERM)
  | IdSetRes r e s =>
      let l := [NOID; i_r i; i_e i; i_s i] in
      if cap || (one_of r l && one_of e l && one_of s l) then
        (Ids (keep r (i_r i)) (keep e (i_e i)) (keep s (i_s i)) (keep e (i_e i)), 0)
      else (i, - EPERM)
  | IdSetFs f =>
      (if negb (f =? NOID) && (cap || one_of f [i_r i; i_e i; i_s i; i_f i])
       then Ids (i_r i) (i_e i) (i_s i) f else i, i_f i)
  end.

(** The arguments of a call are 32-bit unsigned numbers. *)
Definition u32_ok (z : Z) : Prop := 0 <= z < 2 ^ 32.
Definition idcall_ok (c : idcall) : Prop :=
  match c with
  | IdGet | IdGetEff | IdGetRes => True
  | IdSet u => u32_ok u
  | IdSetRe r e => u32_ok r /\ u32_ok e
  | IdSetRes r e s => u32_ok r /\ u32_ok e /\ u32_ok s
  | IdSetFs f => u32_ok f
  end.

Arguments u32_ok : simpl never.

Lemma keep_ok z old : u32_ok z -> id_ok old -> id_ok (keep z old).
Proof. unfold u32_ok, id_ok, keep, NOID. destruct (Z.eqb_spec z (2 ^ 32 - 1)); lia. Qed.

(** Every call keeps the identities valid. *)
Lemma id_spec_ok cap c i : ids_ok i -> idcall_ok c -> ids_ok (fst (id_spec cap c i)).
Proof.
  assert (N : forall u, u32_ok u -> (u =? NOID) = false -> id_ok u).
  { unfold u32_ok, id_ok, NOID. intros u Hu E. bool_to_prop. lia. }
  intros (Hr & He & Hs & Hf) Hc. unfold ids_ok.
  destruct c; cbn -[Z.eqb] in *;
    repeat match goal with
    | H : _ /\ _ |- _ => destruct H
    | |- context [if ?b then _ else _] => let E := fresh "E" in destruct b eqn:E; cbn
    end; bool_to_prop; repeat split; try apply keep_ok; auto; try (apply N; [tauto|now apply Z.eqb_neq]);
    try (now apply (keep_ok _ (i_e i))); try apply Hr; try apply He; try apply Hs; try apply Hf.
Qed.

(** ** The interfaces *)

(** The calls that only read. *)
Definition is_get (c : idcall) : bool :=
  match c with IdGet | IdGetEff | IdGetRes => true | _ => false end.

Class IdKernel (K : kernel) := {
  ids_of : kstate K -> idkind -> ids;
  cap_of : kstate K -> idkind -> bool;
  ids_wf s k : ids_ok (ids_of s k);
  id_call s k c : idcall_ok c ->
    exists s', kstep K (Ident k c) s = (s', snd (id_spec (cap_of s k) c (ids_of s k))) /\
      ids_of s' k = fst (id_spec (cap_of s k) c (ids_of s k)) /\
      (is_get c = true -> cap_of s' k = cap_of s k);
}.

(** A line of [/proc/<pid>/status] with the four identities. *)
Definition id_line (k : idkind) (i : ids) : string :=
  Idn k ++ ":" ++ String tab (print_dec (i_r i) ++ String tab (print_dec (i_e i) ++
    String tab (print_dec (i_s i) ++ String tab (print_dec (i_f i))))).

(** A line that [fgets] reads in one piece and that is not one of these. *)
Definition other_line (k : idkind) (l : string) : Prop :=
  (String.length l <= 1022)%nat /\ strstr (l ++ String newline "") (Idn k ++ ":") = false.

(** [proc(5)]: the identities are shown on one line, the last is the file system
    identity; [fgets] yields the lines one by one. *)
Class StatusKernel (K : kernel) `{IdKernel K} := {
  pid_of : kstate K -> Z;
  (** what is still to be read from an open stream *)
  lines_of : kstate K -> Z -> list string;
  (** the number of lines of a status file is bounded *)
  max_lines : nat;
  st_getpid s : exists s', kstep K (Procs Getpid) s = (s', pid_of s) /\
    (forall k, ids_of s' k = ids_of s k) /\ pid_of s' = pid_of s;
  st_fopen s : exists s' fp, kstep K (Fopen (status_path (pid_of s)) "r") s = (s', fp) /\
    0 < fp /\ (List.length (lines_of s' fp) <= max_lines)%nat /\
    forall k, exists pre post,
      lines_of s' fp = (pre ++ id_line k (ids_of s k) :: post)%list /\ Forall (other_line k) pre;
  st_fgets s fp l ls : lines_of s fp = l :: ls -> (String.length l <= 1022)%nat ->
    exists s', kstep K (Fgets fp FREAD_BUF_SIZE) s = (s', Some (l ++ String newline "")) /\
      lines_of s' fp = ls;
  st_fclose s fp : 0 < fp -> exists s', kstep K (Fclose fp) s = (s', 0);
}.

(** ** What the run functions come to *)

(** A number that names an identity and that the tests accept. *)
Definition usable (z : Z) : bool := negb (z =? 0) && negb (z =? NOID).

Definition getid_ok (cap : bool) (i : ids) (id : Z) : bool :=
  usable id && (cap || (id =? i_r i)).
Definition geteid_ok (cap : bool) (i : ids) (id : Z) : bool :=
  usable id && (cap || one_of id [i_r i; i_e i]).
Definition setreid_ok (cap : bool) (i : ids) (r e : Z) : bool :=
  usable r && usable e && (cap || (one_of r [i_r i; i_e i] && one_of e [i_r i; i_e i; i_s i])).
Definition setresid_ok (cap : bool) (i : ids) (r e s : Z) : bool :=
  usable r && usable e && usable s &&
  (cap || (one_of r [i_r i; i_e i; i_s i] && one_of e [i_r i; i_e i; i_s i] &&
           one_of s [i_r i; i_e i; i_s i])).
Definition setfsid_ok (cap : bool) (i : ids) (f : Z) : bool :=
  usable f && ((f =? i_f i) || cap || one_of f [i_r i; i_e i; i_s i]).

Section Runs.
Context (K : kernel) `{IdKernel K} (k : idkind).
Implicit Type w : world K.

(** An identity call from a state with known identities: the answer and the
    identities after it are those specified. *)
Lemma passes_ident cap i c (q : ans (Ident k c) -> prog result) pr s b :
  cap_of s k = cap -> ids_of s k = i -> idcall_ok c ->
  (forall s', ids_of s' k = fst (id_spec cap c i) -> (is_get c = true -> cap_of s' k = cap) ->
     passes_iff K (q (snd (id_spec cap c i))) (World pr s') b) ->
  passes_iff K (Call (Ident k c) q) (World pr s) b.
Proof.
  intros <- <- Hc Hq. destruct (id_call s k c Hc) as (s' & E & Hs & Hg).
  destruct (Hq s' Hs Hg) as (v & w' & Er & Hv). exists v, w'. split; [|exact Hv].
  cbn. now rewrite E.
Qed.
End Runs.

(** Run straight-line identity code: each call is replaced by its specification. *)
Ltac id_step :=
  match goal with
  | |- passes_iff _ (Loc _ _) _ _ => apply passes_loc
  | |- passes_iff _ (Call (Ident _ ?c) _) _ _ =>
      let g := eval cbv in (is_get c) in
      lazymatch g with
      | true => refine (passes_ident _ _ _ _ _ _ _ _ _ _ _ _ _);
          [first [eassumption | reflexivity] | eassumption | exact I | let C := fresh "Hcap" in intros ? ? C; specialize (C eq_refl)]
      | false => refine (passes_ident _ _ _ _ _ _ _ _ _ _ _ _ _);
          [eassumption | eassumption | cbn [idcall_ok]; tauto | intros ? ? _]
      end
  | |- passes_iff _ (Ret _) _ _ => apply passes_ret
  | |- context [is_err ?x] =>
      let b := eval vm_compute in (is_err x) in
      first [constr_eq b true | constr_eq b false]; change (is_err x) with b
  | |- context [is_err ?x] => rewrite (is_err_false x) by lia
  | |- context [?x =? -1] =>
      let b := eval vm_compute in (x =? -1) in
      first [constr_eq b true | constr_eq b false]; change (x =? -1) with b
  | |- passes_iff _ (if ?b then _ else _) _ _ => let E := fresh "E" in destruct b eqn:E
  | |- context [snd (if ?b then _ else _)] => let E := fresh "E" in destruct b eqn:E
  end.
Ltac id_run :=
  repeat (cbn -[Z.eqb String.append]; unfold one_of, keep in *; cbn -[Z.eqb String.append] in *; id_step).

(** The verdict against the condition: both are decided by the tests met. *)
Ltac id_done :=
  repeat match goal with
    | H : context [?x =? NOID] |- _ => destruct (Z.eqb_spec x NOID); cbn -[Z.eqb NOID] in *
    | |- context [?x =? NOID] => destruct (Z.eqb_spec x NOID); cbn -[Z.eqb NOID] in *
    end;
  rewrite ?Z.eqb_refl, ?orb_true_r in *; cbn -[Z.eqb NOID] in *;
  first [ tauto | congruence
        | split; intros; bool_to_prop; unfold u32_ok in *;
          first [congruence | lia | tauto]
        | repeat match goal with
            | H : context [?x =? ?y] |- _ => destruct (Z.eqb_spec x y); cbn -[Z.eqb NOID] in *
            | |- context [?x =? ?y] => destruct (Z.eqb_spec x y); cbn -[Z.eqb NOID] in *
            | b : bool |- _ => destruct b; cbn -[Z.eqb NOID] in *
            end; first [easy | lia] ].

Section Verdicts.
Context (K : kernel) `{IdKernel K} (k : idkind).
Implicit Type w : world K.

Ltac id_start w :=
  destruct w as [pr st]; cbn [w_k];
  pose proof (ids_wf st k) as (Wr & We & Ws & Wf); unfold id_ok in *;
  remember (cap_of st k) as cap eqn:Hcap; remember (ids_of st k) as i eqn:Hi;
  symmetry in Hcap, Hi; destruct i as [ir ie is0 if0]; cbn [i_r i_e i_s i_f] in *.

Lemma setid_run_passes id rest w : u32_ok id ->
  passes_iff K (setid_run k (Some (Args1 id rest))) w (getid_ok (cap_of (w_k w) k) (ids_of (w_k w) k) id).
Proof.
  intros Hid. id_start w.
  unfold setid_run, with_args, setid, getid, syscall_ret, tp_assert, getid_ok, usable.
  id_run; id_done.
Qed.

Lemma getid_run_passes id rest w : u32_ok id ->
  passes_iff K (getid_run k (Some (Args1 id rest))) w (getid_ok (cap_of (w_k w) k) (ids_of (w_k w) k) id).
Proof.
  intros Hid. id_start w.
  unfold getid_run, with_args, setid, getid, syscall_ret, tp_assert, getid_ok, usable.
  id_run; id_done.
Qed.

Lemma geteid_run_passes id rest w : u32_ok id ->
  passes_iff K (geteid_run k (Some (Args1 id rest))) w (geteid_ok (cap_of (w_k w) k) (ids_of (w_k w) k) id).
Proof.
  intros Hid. id_start w.
  unfold geteid_run, with_args, setreid, geteid, syscall_ret, tp_assert, geteid_ok, usable.
  id_run; id_done.
Qed.

Lemma setreid_run_passes r e rest w : u32_ok r -> u32_ok e ->
  passes_iff K (setreid_run k (Some (Args2 r e rest))) w (setreid_ok (cap_of (w_k w) k) (ids_of (w_k w) k) r e).
Proof.
  intros Hr He. id_start w.
  unfold setreid_run, with_args, setreid, getid, geteid, syscall_ret, tp_assert, setreid_ok, usable.
  id_run; id_done.
Qed.

Lemma setresid_check_passes cap i r e x pr s : u32_ok r -> u32_ok e -> u32_ok x ->
  cap_of s k = cap -> ids_of s k = i ->
  passes_iff K (setresid_check k r e x) (World pr s)
    (negb (r =? NOID) && negb (e =? NOID) && negb (x =? NOID) &&
     (cap || (one_of r [i_r i; i_e i; i_s i] && one_of e [i_r i; i_e i; i_s i] &&
              one_of x [i_r i; i_e i; i_s i]))).
Proof.
  intros Hr He Hx Hcap Hi. pose proof (ids_wf s k) as (Wr & We & Ws & Wf). rewrite Hi in *.
  unfold id_ok in *. destruct i as [ir ie is0 if0]. cbn [i_r i_e i_s i_f] in *.
  unfold setresid_check, setresid, getresid, syscall_ret, tp_assert.
  id_run; id_done.
Qed.

Lemma setresid_ok_usable cap i r e x :
  r <> 0 -> e <> 0 -> x <> 0 ->
  setresid_ok cap i r e x =
  (negb (r =? NOID) && negb (e =? NOID) && negb (x =? NOID) &&
     (cap || (one_of r [i_r i; i_e i; i_s i] && one_of e [i_r i; i_e i; i_s i] &&
              one_of x [i_r i; i_e i; i_s i]))).
Proof.
  intros Hr He Hx. unfold setresid_ok, usable.
  now rewrite !(proj2 (Z.eqb_neq _ 0)) by assumption.
Qed.

(** The argument tests of [getresuid] and [setresuid]. *)
Lemma tests3_passes r e x (p : prog result) m1 m2 m3 w cap i :
  (r <> 0 -> e <> 0 -> x <> 0 -> passes_iff K p w (setresid_ok cap i r e x)) ->
  passes_iff K (tp_assert (negb (r =? 0)) (Some m1) (tp_assert (negb (e =? 0)) (Some m2)
                 (tp_assert (negb (x =? 0)) (Some m3) p))) w (setresid_ok cap i r e x).
Proof.
  intros Hp. unfold tp_assert.
  assert (F : forall m, usable r && usable e && usable x = false ->
                        passes_iff K (Ret (Some m)) w (setresid_ok cap i r e x)).
  { intros m E. apply passes_ret. unfold setresid_ok. now rewrite E. }
  unfold usable in F.
  destruct (Z.eqb_spec r 0); [now apply F|]. destruct (Z.eqb_spec e 0); [apply F; now rewrite andb_false_r|].
  destruct (Z.eqb_spec x 0); [apply F; now rewrite andb_false_r|]. now apply Hp.
Qed.

Lemma setresid_run_passes r e x rest w : u32_ok r -> u32_ok e -> u32_ok x ->
  passes_iff K (setresid_run k (Some (Args3 r e x rest))) w
    (setresid_ok (cap_of (w_k w) k) (ids_of (w_k w) k) r e x).
Proof.
  intros Hr He Hx. apply tests3_passes. intros. rewrite setresid_ok_usable by assumption.
  destruct w as [pr s]. now apply setresid_check_passes.
Qed.

Lemma getresid_run_passes r e x rest w : u32_ok r -> u32_ok e -> u32_ok x ->
  passes_iff K (getresid_run k (Some (Args3 r e x rest))) w
    (setresid_ok (cap_of (w_k w) k) (ids_of (w_k w) k) r e x).
Proof.
  intros Hr He Hx. apply tests3_passes. intros. rewrite setresid_ok_usable by assumption.
  destruct w as [pr s]. unfold getresid, syscall_ret. cbn [w_k bind trigger].
  refine (passes_ident K k _ _ IdGetRes _ _ _ _ eq_refl eq_refl I _). intros s' Hi Hcap.
  specialize (Hcap eq_refl). cbn -[setresid_check] in *. now apply setresid_check_passes.
Qed.
End Verdicts.

(** ** Reading back the status file *)

Lemma after_last_absent c s : Forall (fun x => x <> c) (list_ascii_of_string s) -> after_last c s = None.
Proof.
  induction s as [|x s IH]; cbn; [reflexivity|]. intros HF. inversion HF; subst.
  rewrite IH by assumption. now rewrite (proj2 (Ascii.eqb_neq x c)).
Qed.

Lemma after_last_app c a s :
  Forall (fun x => x <> c) (list_ascii_of_string s) -> after_last c (a ++ String c s) = Some s.
Proof.
  intros HF. induction a as [|x a IH].
  - change ("" ++ String c s) with (String c s). cbn. now rewrite after_last_absent, Ascii.eqb_refl.
  - change (String x a ++ String c s) with (String x (a ++ String c s)). cbn. now rewrite IH.
Qed.

Lemma digit_char_not_tab d : 0 <= d < 10 -> digit_char d <> tab.
Proof.
  intros Hd. assert (d = 0 \/ d = 1 \/ d = 2 \/ d = 3 \/ d = 4 \/ d = 5 \/ d = 6 \/ d = 7 \/
    d = 8 \/ d = 9) as C by lia.
  repeat (destruct C as [C|C]; [subst; discriminate|]). subst. discriminate.
Qed.

(** The line of the file and the [atoi] of its last field are inverse to each
    other, on the whole range of identities. *)
Lemma id_line_field k i : id_ok (i_f i) ->
  match after_last tab (id_line k i ++ String newline "") with
  | Some p => u32 (atoi p) = i_f i
  | None => False
  end.
Proof.
  intros Hf. set (l := id_line k i ++ String newline "").
  assert (E : exists a, l = a ++ String tab (print_dec (i_f i) ++ String newline "")).
  { unfold l, id_line.
    exists (Idn k ++ ":" ++ String tab (print_dec (i_r i) ++ String tab (print_dec (i_e i) ++
              String tab (print_dec (i_s i))))).
    repeat (rewrite append_assoc ||
      match goal with |- context [String ?c ?s ++ ?t] => change (String c s ++ t) with (String c (s ++ t)) end).
    reflexivity. }
  destruct E as [a ->]. rewrite after_last_app.
  - unfold id_ok, NOID in Hf. rewrite atoi_print_dec; [|lia|reflexivity].
    unfold u32, i32. rewrite Zminus_mod_idemp_l. replace (i_f i + 2 ^ 31 - 2 ^ 31) with (i_f i) by lia.
    apply Z.mod_small. lia.
  - unfold print_dec, print_base. rewrite <- print_digits_app.
    apply print_digits_absent; [lia|exact digit_char_not_tab|]. repeat constructor; discriminate.
Qed.

Lemma strstr_id_line k i : strstr (id_line k i ++ String newline "") (Idn k ++ ":") = true.
Proof.
  unfold id_line. rewrite !append_assoc.
  change (String tab ?s ++ ?t) with (String tab (s ++ t)).
  match goal with |- context [String tab ?s] => generalize s end. intros t. destruct k; reflexivity.
Qed.

Lemma length_print_digits fuel base n acc :
  (String.length (print_digits fuel base n acc) <= fuel + String.length acc)%nat.
Proof.
  revert n acc. induction fuel as [|fuel IH]; intros n acc; cbn; [lia|].
  case_if; cbn; [lia|]. specialize (IH (n / base) (String (digit_char (n mod base)) acc)). cbn in IH. lia.
Qed.

Lemma length_id_line k i : (String.length (id_line k i) <= 1022)%nat.
Proof.
  unfold id_line, print_dec, print_base.
  rewrite ?length_append; cbn [String.length]; rewrite ?length_append; cbn [String.length];
  rewrite ?length_append; cbn [String.length]; rewrite ?length_append; cbn [String.length].
  pose proof (length_print_digits 64 10 (i_r i) "") as L1.
  pose proof (length_print_digits 64 10 (i_e i) "") as L2.
  pose proof (length_print_digits 64 10 (i_s i) "") as L3.
  pose proof (length_print_digits 64 10 (i_f i) "") as L4.
  cbn [String.length] in *. destruct k; cbn [Idn String.length]; lia.
Qed.

Section Status.
Context (K : kernel) `{StatusKernel K} (k : idkind) (more : prog Z).
Implicit Type w : world K.

Lemma run_status_loop n pr s fp pre i post :
  lines_of s fp = (pre ++ id_line k i :: post)%list -> Forall (other_line k) pre ->
  (List.length pre < n)%nat -> id_ok (i_f i) ->
  exists w', run K (status_loop k more n fp) (World pr s) = (Done (i_f i), w').
Proof.
  intros El HF Hn Hi. revert n s El Hn. induction HF as [|l pre [Hlen Hno] _ IH]; intros n s El Hn;
    (destruct n as [|n]; [cbn in Hn; lia|]); cbn [status_loop].
  - destruct (st_fgets s fp (id_line k i) post El (length_id_line k i)) as (s' & E & _).
    unfold fgets. rewrite run_bind. cbn [run trigger w_k]. rewrite E, strstr_id_line. cbn.
    pose proof (id_line_field k i Hi) as Hf.
    destruct (after_last tab (id_line k i ++ String newline "")) as [p|]; [|contradiction].
    rewrite Hf. eexists. reflexivity.
  - destruct (st_fgets s fp l (pre ++ id_line k i :: post) El Hlen) as (s' & E & El').
    unfold fgets. rewrite run_bind. cbn [run trigger w_k]. rewrite E, Hno.
    apply IH; [exact El'|cbn in Hn; lia].
Qed.

Lemma run_fopen path mode pr s s' fp :
  kstep K (Fopen path mode) s = (s', fp) -> 0 < fp ->
  run K (fopen path mode) (World pr s) = (Done fp, World pr s').
Proof. intros E Hfp. unfold fopen. cbn. rewrite E. unfold syscall_ret. now rewrite is_err_false by lia. Qed.

Lemma run_fclose fp pr s s' : kstep K (Fclose fp) s = (s', 0) ->
  run K (fclose fp) (World pr s) = (Done 0, World pr s').
Proof. intros E. unfold fclose. cbn. now rewrite E. Qed.

Lemma run_getpid pr s s' pid : kstep K (Procs Getpid) s = (s', pid) ->
  run K getpid (World pr s) = (Done pid, World pr s').
Proof. intros E. unfold getpid. cbn. now rewrite E. Qed.

Lemma run_check_procfs n f pr s : (max_lines < n)%nat ->
  exists w', run K (check_procfs_status_id k n more f) (World pr s) =
             (Done (b2z (f =? i_f (ids_of s k))), w').
Proof.
  intros Hn. unfold check_procfs_status_id.
  destruct (st_getpid s) as (s1 & E1 & Hi1 & Hp1).
  rewrite run_bind, (run_getpid pr s s1 _ E1), <- Hp1.
  destruct (st_fopen s1) as (s2 & fp & E2 & Hfp & Hlen & Hls).
  rewrite run_bind, (run_fopen _ _ pr s1 s2 fp E2 Hfp).
  rewrite (proj2 (Z.eqb_neq fp NULL)) by (unfold NULL; lia).
  destruct (Hls k) as (pre & post & El & HF). rewrite Hi1 in El.
  assert (Hpre : (List.length pre < n)%nat) by (rewrite El, length_app in Hlen; lia).
  destruct (run_status_loop n pr s2 fp pre (ids_of s k) post El HF Hpre) as ([pr3 s3] & E3).
  { apply (ids_wf s k). }
  rewrite run_bind, E3. destruct (st_fclose s3 fp Hfp) as (s4 & E4).
  rewrite run_bind, (run_fclose fp pr3 s3 s4 E4). cbn. eexists. reflexivity.
Qed.

Lemma setfsid_run_passes n f rest w : (max_lines < n)%nat -> u32_ok f ->
  passes_iff K (setfsid_run k (check_procfs_status_id k n more) (Some (Args1 f rest))) w
    (setfsid_ok (cap_of (w_k w) k) (ids_of (w_k w) k) f).
Proof.
  intros Hn Hf. destruct w as [pr s]. cbn [w_k].
  unfold setfsid_run, with_args, setfsid_ok, usable. cbn [a1_id].
  destruct (Z.eqb_spec f 0) as [->|Hf0]; [now apply passes_ret|]. cbn [negb andb tp_assert].
  pose proof (ids_wf s k) as (Wr & We & Ws & Wf). unfold id_ok in *.
  destruct (id_call s k (IdSetFs f) Hf) as (s' & E & Hs & _). cbn [id_spec fst snd] in Hs, E.
  unfold passes_iff, setfsid. rewrite !run_bind. cbn [run trigger w_k]. rewrite E.
  unfold syscall_ret. rewrite is_err_false by lia. cbn [run bind tp_assert].
  assert (Hne : negb (i32 (i_f (ids_of s k)) =? -1) = true).
  { apply negb_true_iff, Z.eqb_neq. unfold NOID in Wf. unfold i32.
    pose proof (Z.div_mod (i_f (ids_of s k) + 2 ^ 31) (2 ^ 32)). lia. }
  rewrite run_bind. cbn [errno run w_proc w_k]. rewrite run_bind. cbn [printf run w_proc w_k].
  rewrite Hne, tp_assert_true, run_bind.
  match goal with |- context [run K (check_procfs_status_id k n more f) (World ?p s')] =>
    destruct (run_check_procfs n f p s' Hn) as (w' & ->) end.
  rewrite Hs. cbn [negb andb]. 
  destruct (Z.eqb_spec f NOID) as [->|HN]; cbn [negb andb].
  - rewrite (proj2 (Z.eqb_neq NOID _)) by lia. cbn. now do 2 eexists.
  - destruct (cap_of s k) eqn:Ec; cbn [orb andb].
    + rewrite Z.eqb_refl. cbn. rewrite orb_true_r. now do 2 eexists.
    + rewrite orb_false_r. cbn [one_of existsb] in *.
      destruct (Z.eqb_spec f (i_r (ids_of s k))); cbn [orb];
      destruct (Z.eqb_spec f (i_e (ids_of s k))); cbn [orb];
      destruct (Z.eqb_spec f (i_s (ids_of s k))); cbn [orb];
      destruct (Z.eqb_spec f (i_f (ids_of s k))) as [Ef|Ef]; cbn [orb i_f];
      rewrite ?Z.eqb_refl, <- ?Ef, ?Z.eqb_refl; try rewrite (proj2 (Z.eqb_neq _ _) Ef);
      cbn; now do 2 eexists.
Qed.
End Status.

(** ** The suites *)

Lemma id_case_passes K {A} suite (parse : list string -> prog (option A)) run0 argv
  (w : world K) pr args b :
  run K (parse argv) w = (Done args, World pr (w_k w)) ->
  passes_iff K (run0 args) (World pr (w_k w)) b ->
  passes_iff K (run_test_case (id_case suite parse run0) argv) w b.
Proof.
  intros E (v & w' & Er & Hv). exists v, w'. split; [|exact Hv].
  unfold run_test_case, id_case. cbn [setup tc_run teardown num tc_mem].
  rewrite run_bind, E. unfold run_const. rewrite !run_bind, Er. reflexivity.
Qed.

Lemma u32_range z : u32_ok (u32 z).
Proof. unfold u32_ok, u32. apply Z.mod_pos_bound. lia. Qed.

Lemma run_mandatory K id msg (w : world K) :
  exists pr, run K (mandatory id msg) w = (Done tt, World pr (w_k w)).
Proof. unfold mandatory. destruct w as [pr s]. case_if; eexists; reflexivity. Qed.

(** One option with its value. *)
Lemma run_parse1 K o msg app v (w : world K) :
  getopt (String o ":") [String "-" (String o ""); v] = ([Opt o v], []) ->
  exists pr, run K (parse1 o msg [app; String "-" (String o ""); v]) w =
             (Done (Some (Args1 (u32 (atoi v)) [])), World pr (w_k w)).
Proof.
  intros Eg. unfold parse1. cbn [tail]. rewrite Eg. cbn [options1]. rewrite Ascii.eqb_refl.
  destruct (run_mandatory K (u32 (atoi v)) msg w) as (pr & E). exists pr.
  now rewrite run_bind, E.
Qed.

Lemma run_parse2 K k app vr ve (w : world K) :
  exists pr, run K (parse2 k [app; "-r"; vr; "-e"; ve]) w =
             (Done (Some (Args2 (u32 (atoi vr)) (u32 (atoi ve)) [])), World pr (w_k w)).
Proof.
  unfold parse2. cbn [tail].
  change (getopt "r:e:" ["-r"; vr; "-e"; ve]) with ([Opt "r" vr; Opt "e" ve], [] : list string).
  cbn [options2 Ascii.eqb Bool.eqb].
  destruct (run_mandatory K (u32 (atoi vr)) ("mandatory parameter '-r <r" ++ idn k ++ ">'\n") w) as (p1 & E1).
  rewrite run_bind, E1.
  destruct (run_mandatory K (u32 (atoi ve)) ("mandatory parameter '-e <e" ++ idn k ++ ">'\n")
              (World p1 (w_k w))) as (p2 & E2).
  cbn [w_k] in E2. rewrite run_bind, E2. now exists p2.
Qed.

Lemma run_parse3 K k app vr ve vs (w : world K) :
  exists pr, run K (parse3 k [app; "-r"; vr; "-e"; ve; "-s"; vs]) w =
             (Done (Some (Args3 (u32 (atoi vr)) (u32 (atoi ve)) (u32 (atoi vs)) [])), World pr (w_k w)).
Proof.
  unfold parse3. cbn [tail].
  change (getopt "r:e:s:" ["-r"; vr; "-e"; ve; "-s"; vs])
    with ([Opt "r" vr; Opt "e" ve; Opt "s" vs], [] : list string).
  cbn [options3 Ascii.eqb Bool.eqb].
  destruct (run_mandatory K (u32 (atoi vr)) ("mandatory parameter '-r <r" ++ idn k ++ ">'\n") w) as (p1 & E1).
  rewrite run_bind, E1.
  destruct (run_mandatory K (u32 (atoi ve)) ("mandatory parameter '-e <e" ++ idn k ++ ">'\n")
              (World p1 (w_k w))) as (p2 & E2).
  cbn [w_k] in E2. rewrite run_bind, E2.
  destruct (run_mandatory K (u32 (atoi vs)) ("mandatory parameter '-s <s" ++ idn k ++ ">'\n")
              (World p2 (w_k w))) as (p3 & E3).
  rewrite run_bind, E3. now exists p3.
Qed.

(** The verdicts of the suites of one kind, in the order [get], [gete], [getres],
    [set], [setre], [setres], [setfs]. *)
Definition suites_of (k : idkind) (n : nat) (more : prog Z) : list test_case :=
  match k with
  | KUid => [getuid0; geteuid0; getresuid0; setuid0; setreuid0; setresuid0; setfsuid0 n more]
  | KGid => [getgid0; getegid0; getresgid0; setgid0; setregid0; setresgid0; setfsgid0 n more]
  end.

Definition argvs_of (k : idkind) (app a b c : string) : list (list string) :=
  let one_id o := [app; String "-" (String o ""); a] in
  let three := [app; "-r"; a; "-e"; b; "-s"; c] in
  [one_id (idopt k); one_id "e"%char; three; one_id (idopt k); [app; "-r"; a; "-e"; b]; three; one_id "f"%char].

Definition verdicts_of (cap : bool) (i : ids) (a b c : Z) : list bool :=
  [getid_ok cap i a; geteid_ok cap i a; setresid_ok cap i a b c; getid_ok cap i a;
   setreid_ok cap i a b; setresid_ok cap i a b c; setfsid_ok cap i a].

(** C20.  Every one of the fourteen identity suites, called with its options
    on a kernel with documented identity calls, returns, and passes exactly in
    the cases listed: the identities are neither 0 nor -1, and the process is
    privileged or they are among those it may take.  [setuid] and [getuid]
    (and [setgid], [getgid]) need more than that: an unprivileged change to the
    saved identity, which the kernel grants, is reported as a failure. *)
Theorem identity_suites_exact K `{StatusKernel K} (k : idkind) n more app a b c (w : world K) :
  (max_lines < n)%nat ->
  Forall2 (fun '(tc, argv) v => passes_iff K (run_test_case tc argv) w v)
    (zip (suites_of k n more) (argvs_of k app a b c))
    (verdicts_of (cap_of (w_k w) k) (ids_of (w_k w) k) (u32 (atoi a)) (u32 (atoi b)) (u32 (atoi c))).
Proof.
  intros Hn.
  pose proof (u32_range (atoi a)) as Ha. pose proof (u32_range (atoi b)) as Hb.
  pose proof (u32_range (atoi c)) as Hc.
  assert (P1 : forall o msg suite run0 v,
    getopt (String o ":") [String "-" (String o ""); a] = ([Opt o a], []) ->
    (forall pr, passes_iff K (run0 (Some (Args1 (u32 (atoi a)) []))) (World pr (w_k w)) v) ->
    passes_iff K (run_test_case (id_case suite (parse1 o msg) run0) [app; String "-" (String o ""); a]) w v).
  { intros o msg suite run0 v Eg Hrun. destruct (run_parse1 K o msg app a w Eg) as (pr & E).
    now apply (id_case_passes K suite _ run0 _ w pr _ v E). }
  assert (P3 : forall suite run0 v,
    (forall pr, passes_iff K (run0 (Some (Args3 (u32 (atoi a)) (u32 (atoi b)) (u32 (atoi c)) [])))
                  (World pr (w_k w)) v) ->
    passes_iff K (run_test_case (id_case suite (parse3 k) run0) [app; "-r"; a; "-e"; b; "-s"; c]) w v).
  { intros suite run0 v Hrun. destruct (run_parse3 K k app a b c w) as (pr & E).
    now apply (id_case_passes K suite _ run0 _ w pr _ v E). }
  destruct k; cbn [suites_of argvs_of verdicts_of zip zip_with];
    (repeat apply List.Forall2_cons; try apply List.Forall2_nil);
    unfold getuid0, getgid0, geteuid0, getegid0, getresuid0, getresgid0, setuid0, setgid0, setresuid0,
      setresgid0, setfsuid0, setfsgid0, getid_parse_args, geteid_parse_args, setfsid_parse_args;
    try (apply P1; [reflexivity|]; intros pr;
         first [ exact (getid_run_passes K _ _ _ (World pr (w_k w)) Ha)
               | exact (geteid_run_passes K _ _ _ (World pr (w_k w)) Ha)
               | exact (setid_run_passes K _ _ _ (World pr (w_k w)) Ha)
               | exact (setfsid_run_passes K _ _ _ _ _ (World pr (w_k w)) Hn Ha) ]);
    try (apply P3; intros pr;
         first [ exact (getresid_run_passes K _ _ _ _ _ (World pr (w_k w)) Ha Hb Hc)
               | exact (setresid_run_passes K _ _ _ _ _ (World pr (w_k w)) Ha Hb Hc) ]).
  - destruct (run_parse2 K KUid app a b w) as (pr & E).
    apply (id_case_passes K _ _ _ _ w pr _ _ E). exact (setreid_run_passes K _ _ _ _ (World pr (w_k w)) Ha Hb).
  - destruct (run_parse2 K KGid app a b w) as (pr & E).
    apply (id_case_passes K _ _ _ _ w pr _ _ E). exact (setreid_run_passes K _ _ _ _ (World pr (w_k w)) Ha Hb).
Qed.

(** ** A kernel that meets the interfaces *)

Record idstate := IdState {
  is_ids : idkind -> ids;
  is_cap : idkind -> bool;
  is_lines : list string;
}.

Definition norm (z : Z) : Z := z mod NOID.
Definition norm_ids (i : ids) : ids := Ids (norm (i_r i)) (norm (i_e i)) (norm (i_s i)) (norm (i_f i)).

#[export] Instance idkind_eq_dec : EqDecision idkind.
Proof. intros [] []; (left; reflexivity) || (right; discriminate). Defined.

Definition status_lines (f : idkind -> ids) : list string :=
  ["Name:" ++ String tab "test_mck"; id_line KUid (norm_ids (f KUid)); id_line KGid (norm_ids (f KGid));
   "Threads:" ++ String tab "1"].

Definition id_kernel_step (c : op) (s : idstate) : idstate * ans c :=
  match c with
  | Ident k c =>
      let r := id_spec (is_cap s k) c (norm_ids (is_ids s k)) in
      (IdState (fun k' => if decide (k' = k) then fst r else is_ids s k') (is_cap s) (is_lines s), snd r)
  | Procs Getpid => (s, 1)
  | Fopen path mode =>
      if String.eqb path (status_path 1) && String.eqb mode "r"
      then (IdState (is_ids s) (is_cap s) (status_lines (is_ids s)), 1) else (s, -2)
  | Fgets fp size =>
      match is_lines s with
      | l :: ls =>
          if (String.length l <=? 1022)%nat
          then (IdState (is_ids s) (is_cap s) ls, Some (l ++ String newline ""))
          else (s, None)
      | [] => (s, None)
      end
  | Fclose fp => (s, 0)
  | c => (s, enosys c)
  end.
Definition id_kernel : kernel := Kernel idstate id_kernel_step.

Lemma norm_ok z : id_ok (norm z).
Proof. unfold norm, id_ok. apply Z.mod_pos_bound. reflexivity. Qed.

Lemma norm_ids_ok i : ids_ok (norm_ids i).
Proof. repeat split; apply norm_ok. Qed.

Lemma norm_ids_id i : ids_ok i -> norm_ids i = i.
Proof.
  destruct i as [r e s f]. intros (Hr & He & Hs & Hf). unfold norm_ids, norm, id_ok in *. cbn in *.
  now rewrite !Z.mod_small.
Qed.

#[export] Instance id_kernel_ok : IdKernel id_kernel.
Proof.
  refine {| ids_of := fun (s : kstate id_kernel) k => norm_ids (is_ids s k);
            cap_of := fun (s : kstate id_kernel) k => is_cap s k |}.
  - intros s k. apply norm_ids_ok.
  - intros s k c Hc. eexists. split; [reflexivity|]. cbn. rewrite decide_True by reflexivity.
    split; [|reflexivity]. apply norm_ids_id, id_spec_ok; [apply norm_ids_ok|exact Hc].
Defined.

(** A string without the first character of a pattern does not contain it. *)
Lemma strstr_absent c p s : Forall (fun x => x <> c) (list_ascii_of_string s) -> strstr s (String c p) = false.
Proof.
  intros HF. unfold strstr. enough (String.index 0 (String c p) s = None) as -> by reflexivity.
  induction s as [|x s IH]; [reflexivity|]. inversion HF; subst. cbn.
  destruct (ascii_dec c x) as [->|]; [congruence|]. now rewrite IH.
Qed.

Lemma list_ascii_append a b :
  list_ascii_of_string (a ++ b) = (list_ascii_of_string a ++ list_ascii_of_string b)%list.
Proof.
  induction a as [|x a IH]; [reflexivity|].
  change (String x a ++ b) with (String x (a ++ b)). cbn. now rewrite IH.
Qed.

Lemma digit_char_not_G d : 0 <= d < 10 -> digit_char d <> "G"%char.
Proof.
  intros Hd. assert (d = 0 \/ d = 1 \/ d = 2 \/ d = 3 \/ d = 4 \/ d = 5 \/ d = 6 \/ d = 7 \/
    d = 8 \/ d = 9) as C by lia.
  repeat (destruct C as [C|C]; [subst; discriminate|]). subst. discriminate.
Qed.

Lemma uid_line_not_gid i : other_line KGid (id_line KUid i).
Proof.
  split; [apply length_id_line|]. apply strstr_absent.
  assert (D : forall z, Forall (fun x => x <> "G"%char) (list_ascii_of_string (print_dec z))).
  { intros z. apply print_digits_absent; [lia|exact digit_char_not_G|constructor]. }
  unfold id_line. cbn [Idn].
  repeat (rewrite list_ascii_append || cbn [list_ascii_of_string]).
  repeat first [apply D | apply Forall_app_2 | apply List.Forall_cons; [discriminate|] | apply List.Forall_nil].
Qed.

#[export] Instance id_kernel_status : StatusKernel id_kernel.
Proof.
  refine {| pid_of := fun _ => 1;
            lines_of := fun (s : kstate id_kernel) fp => is_lines s;
            max_lines := 4%nat |}.
  - intros s. exists s. auto.
  - intros s. exists (IdState (is_ids s) (is_cap s) (status_lines (is_ids s))), 1.
    split; [reflexivity|]. split; [lia|]. split; [cbn; lia|]. intros [].
    + exists ["Name:" ++ String tab "test_mck"]. eexists. split; [reflexivity|].
      repeat constructor.
    + exists ["Name:" ++ String tab "test_mck"; id_line KUid (norm_ids (is_ids s KUid))].
      eexists. split; [reflexivity|]. constructor; [repeat constructor|].
      constructor; [apply uid_line_not_gid|constructor].
  - intros s fp l ls E Hl. cbn in E. exists (IdState (is_ids s) (is_cap s) ls).
    cbn. rewrite E. destruct (Nat.leb_spec (String.length l) 1022); [auto|lia].
  - intros s fp _. exists s. reflexivity.
Defined.

(** A process of user 1000 with saved identity 2000 and no privilege. *)
Definition user0 : world id_kernel :=
  World proc0 (IdState (fun _ => Ids 1000 1000 2000 1000) (fun _ => false) [] : kstate id_kernel).

Lemma identity_suites_exact_witness :
  passes_iff id_kernel (run_test_case setuid0 ["test_mck"; "-u"; "1000"]) user0 true /\
  passes_iff id_kernel (run_test_case setuid0 ["test_mck"; "-u"; "2000"]) user0 false.
Proof.
  assert (L : (max_lines < 9)%nat) by (cbn; lia).
  pose proof (identity_suites_exact id_kernel KUid 9 (Ret 0) "test_mck" "1000" "" "" user0 L) as H1.
  pose proof (identity_suites_exact id_kernel KUid 9 (Ret 0) "test_mck" "2000" "" "" user0 L) as H2.
  cbn [suites_of argvs_of verdicts_of zip zip_with] in H1, H2.
  do 3 (apply Forall2_cons in H1 as [_ H1]; apply Forall2_cons in H2 as [_ H2]).
  apply Forall2_cons in H1 as [H1 _]. apply Forall2_cons in H2 as [H2 _]. split; [exact H1|exact H2].
Defined.
