(* ===== verification/Sched.v ===== *)
(** * Scheduling: the suites of [<sched.h>] that change no affinity

    [sched_get_priority_max], [sched_get_priority_min], [sched_getparam],
    [sched_setparam], [sched_getscheduler], [sched_setscheduler] and
    [sched_rr_get_interval]; the documented effect of the calls on the policy
    and priority of the process, and what the suites come to. *)
From S2P Require Import Prelude Process Trace CLib TestMck.
From Stdlib Require Import Ascii String.
#[local] Open Scope string_scope.
#[local] Open Scope Z_scope.

Definition SCHED_OTHER : Z := 0.
Definition SCHED_FIFO : Z := 1.
Definition SCHED_RR : Z := 2.
Definition SCHED_BATCH : Z := 3.

(** ** System calls *)

Definition sched_get_priority_max (policy : Z) : prog Z :=
  r <- (trigger (Sched (SchedGetPriorityMax policy)) : prog Z) ;; syscall_ret (-1) r.
Definition sched_get_priority_min (policy : Z) : prog Z :=
  r <- (trigger (Sched (SchedGetPriorityMin policy)) : prog Z) ;; syscall_ret (-1) r.
(** The result, and the priority in [*param] afterwards. *)
Definition sched_getparam (pid : Z) : prog (Z * Z) :=
  r <- (trigger (Sched (SchedGetparam pid)) : prog (Z * Z)) ;;
  ret <- syscall_ret (-1) (fst r) ;; Ret (ret, snd r).
Definition sched_setparam (pid prio : Z) : prog Z :=
  r <- (trigger (Sched (SchedSetparam pid prio)) : prog Z) ;; syscall_ret (-1) r.
Definition sched_getscheduler (pid : Z) : prog Z :=
  r <- (trigger (Sched (SchedGetscheduler pid)) : prog Z) ;; syscall_ret (-1) r.
Definition sched_setscheduler (pid policy prio : Z) : prog Z :=
  r <- (trigger (Sched (SchedSetscheduler pid policy prio)) : prog Z) ;; syscall_ret (-1) r.
(** The result, and the contents of the [struct timespec] afterwards. *)
Definition sched_rr_get_interval (pid : Z) : prog (Z * (Z * Z)) :=
  r <- (trigger (Sched (SchedRrGetInterval pid)) : prog (Z * (Z * Z))) ;;
  ret <- syscall_ret (-1) (fst r) ;; Ret (ret, snd r).

(** ** Run functions *)

Section Runs.
(** The addresses of the local variables, which the tests print. *)
Context (dummy_param set_param get_param time : Z).

Definition priority_max_run (policy : Z) (name : string) (SCHED_RR_MAX_PRIORITY : Z) : prog result :=
  priority <- sched_get_priority_max policy ;;
  e <- errno ;;
  printf ("sched_get_priority_max(" ++ name ++ ") = %d, errno = %d\n") [PZ priority; PZ e] ;;
  tp_assert! (priority =? SCHED_RR_MAX_PRIORITY, Some "sched_get_priority_max() failed.") ;;
  Ret None.

Definition priority_min_run (policy : Z) (name : string) (SCHED_RR_MIN_PRIORITY : Z) : prog result :=
  priority <- sched_get_priority_min policy ;;
  e <- errno ;;
  printf ("sched_get_priority_min(" ++ name ++ ") = %d, errno = %d\n") [PZ priority; PZ e] ;;
  tp_assert! (priority =? SCHED_RR_MIN_PRIORITY, Some "sched_get_priority_min() failed.") ;;
  Ret None.

(** The blocks the tests are made of; each continues with [k] or fails.
    [pid] is the process id the block passes. *)
Definition setscheduler_block (pid policy : Z) (name : string) (prio param : Z) (k : prog result)
  : prog result :=
  status <- sched_setscheduler pid policy prio ;;
  e <- errno ;;
  printf ("sched_setscheduler(%d, " ++ name ++ ", %p) = %d, errno = %d\n")
    [PZ pid; PZ param; PZ status; PZ e] ;;
  tp_assert! (negb (status =? -1), Some "sched_setscheduler() failed.") ;;
  k.

Definition setparam_block (pid prio : Z) (k : prog result) : prog result :=
  status <- sched_setparam pid prio ;;
  e <- errno ;;
  printf "sched_setparam(%d, %p) = %d, errno = %d\n" [PZ pid; PZ set_param; PZ status; PZ e] ;;
  tp_assert! (negb (status =? -1), Some "sched_setparam() failed.") ;;
  k.

Definition getparam_block (pid expect : Z) (msg : string) (k : prog result) : prog result :=
  let* (status, prio) := sched_getparam pid in
  e <- errno ;;
  printf "sched_getparam(%d, %p) = %d, errno = %d\n" [PZ pid; PZ get_param; PZ status; PZ e] ;;
  tp_assert! (negb (status =? -1), Some "sched_getparam() failed.") ;;
  tp_assert! (prio =? expect, Some msg) ;;
  k.

(** [sched_getparam] 0-2; [self] says that the readings name the process by 0. *)
Definition getparam_run (self : bool) (policy : Z) (name : string) (dummy set : Z) : prog result :=
  pid <- getpid ;;
  let who := if self then 0 else pid in
  getparam_block who 0 "sched_getparam() failed."
  (setscheduler_block pid policy name dummy dummy_param
  (getparam_block who dummy "sched_getparam() failed."
  (setparam_block pid set
  (getparam_block who set "sched_setparam() failed."
  (Ret None))))).

(** [sched_setparam] 0-2. *)
Definition setparam_run (self : bool) (policy : Z) (name : string) (dummy set : Z) : prog result :=
  pid <- getpid ;;
  setscheduler_block pid policy name dummy dummy_param
  (setparam_block (if self then 0 else pid) set
  (getparam_block pid set "sched_setparam() failed."
  (Ret None))).

(** [sched_getscheduler] 0 and 1. *)
Definition getscheduler_run (self : bool) : prog result :=
  pid <- getpid ;;
  let who := if self then 0 else pid in
  before_policy <- sched_getscheduler who ;;
  e <- errno ;;
  printf "sched_getscheduler(%d) = %d, errno = %d\n" [PZ who; PZ before_policy; PZ e] ;;
  tp_assert! (negb (before_policy =? -1), Some "sched_getscheduler() failed.") ;;
  setscheduler_block pid SCHED_RR "SCHED_RR" 80 set_param
  (after_policy <- sched_getscheduler who ;;
   e <- errno ;;
   printf "sched_getscheduler(%d) = %d, errno = %d\n" [PZ who; PZ after_policy; PZ e] ;;
   tp_assert! (negb (before_policy =? after_policy), Some "sched_getscheduler() failed.") ;;
   Ret None).

(** [sched_setscheduler] 0-4. *)
Definition setscheduler_run (self : bool) (policy : Z) (name : string) (prio : Z) : prog result :=
  pid <- getpid ;;
  setscheduler_block (if self then 0 else pid) policy name prio set_param
  (policy' <- sched_getscheduler pid ;;
   e <- errno ;;
   printf "sched_getscheduler(%d) = %d, errno = %d\n" [PZ pid; PZ policy'; PZ e] ;;
   tp_assert! (policy' =? policy, Some "sched_getscheduler() failed.") ;;
   getparam_block pid prio "sched_setscheduler() failed."
   (Ret None)).

(** [sched_rr_get_interval] 0-4. *)
Definition rr_interval_run (self : bool) (policy : Z) (name : string) (prio MCK_RETURN_SEC MCK_RETURN_NSEC : Z)
  : prog result :=
  pid <- getpid ;;
  let who := if self then 0 else pid in
  setscheduler_block pid policy name prio set_param
  (let* (status, (tv_sec, tv_nsec)) := sched_rr_get_interval who in
   e <- errno ;;
   printf "sched_rr_get_interval(%d, %p) = %d, errno = %d\n" [PZ who; PZ time; PZ status; PZ e] ;;
   printf "  time.tv_sec = %ld, time.tv_nsec = %ld\n" [PZ tv_sec; PZ tv_nsec] ;;
   tp_assert! (negb (status =? -1), Some "sched_rr_get_interval() failed.") ;;
   tp_assert! (tv_sec =? MCK_RETURN_SEC, Some "sched_rr_get_interval() failed.") ;;
   tp_assert! (tv_nsec =? MCK_RETURN_NSEC, Some "sched_rr_get_interval() failed.") ;;
   Ret None).

Definition sched_case (suite : string) (n : Z) (run : prog result) : test_case :=
  TestCase suite n unit SETUP_EMPTY (run_const (fun _ _ => run)) TEARDOWN_EMPTY.

Definition sched_get_priority_max0 := sched_case "sched_get_priority_max" 0 (priority_max_run SCHED_RR "SCHED_RR" 99).
Definition sched_get_priority_max1 := sched_case "sched_get_priority_max" 1 (priority_max_run SCHED_FIFO "SCHED_FIFO" 99).
Definition sched_get_priority_max2 := sched_case "sched_get_priority_max" 2 (priority_max_run SCHED_OTHER "SCHED_OTHER" 0).
Definition sched_get_priority_max3 := sched_case "sched_get_priority_max" 3 (priority_max_run SCHED_BATCH "SCHED_BATCH" 0).
Definition sched_get_priority_min0 := sched_case "sched_get_priority_min" 0 (priority_min_run SCHED_RR "SCHED_RR" 1).
Definition sched_get_priority_min1 := sched_case "sched_get_priority_min" 1 (priority_min_run SCHED_FIFO "SCHED_FIFO" 1).
Definition sched_get_priority_min2 := sched_case "sched_get_priority_min" 2 (priority_min_run SCHED_OTHER "SCHED_OTHER" 0).
Definition sched_get_priority_min3 := sched_case "sched_get_priority_min" 3 (priority_min_run SCHED_BATCH "SCHED_BATCH" 0).
Definition sched_getparam0 := sched_case "sched_getparam" 0 (getparam_run false SCHED_RR "SCHED_RR" 50 80).
Definition sched_getparam1 := sched_case "sched_getparam" 1 (getparam_run true SCHED_RR "SCHED_RR" 50 80).
Definition sched_getparam2 := sched_case "sched_getparam" 2 (getparam_run false SCHED_FIFO "SCHED_FIFO" 60 90).
Definition sched_setparam0 := sched_case "sched_setparam" 0 (setparam_run false SCHED_RR "SCHED_RR" 50 80).
Definition sched_setparam1 := sched_case "sched_setparam" 1 (setparam_run true SCHED_RR "SCHED_RR" 50 80).
Definition sched_setparam2 := sched_case "sched_setparam" 2 (setparam_run false SCHED_FIFO "SCHED_FIFO" 60 90).
Definition sched_getscheduler0 := sched_case "sched_getscheduler" 0 (getscheduler_run false).
Definition sched_getscheduler1 := sched_case "sched_getscheduler" 1 (getscheduler_run true).
Definition sched_setscheduler0 := sched_case "sched_setscheduler" 0 (setscheduler_run false SCHED_RR "SCHED_RR" 80).
Definition sched_setscheduler1 := sched_case "sched_setscheduler" 1 (setscheduler_run true SCHED_RR "SCHED_RR" 80).
Definition sched_setscheduler2 := sched_case "sched_setscheduler" 2 (setscheduler_run false SCHED_FIFO "SCHED_FIFO" 80).
Definition sched_setscheduler3 := sched_case "sched_setscheduler" 3 (setscheduler_run false SCHED_OTHER "SCHED_OTHER" 0).
Definition sched_setscheduler4 := sched_case "sched_setscheduler" 4 (setscheduler_run false SCHED_BATCH "SCHED_BATCH" 0).
Definition sched_rr_get_interval0 := sched_case "sched_rr_get_interval" 0 (rr_interval_run false SCHED_RR "SCHED_RR" 80 0 10000).
Definition sched_rr_get_interval1 := sched_case "sched_rr_get_interval" 1 (rr_interval_run true SCHED_RR "SCHED_RR" 80 0 10000).
Definition sched_rr_get_interval2 := sched_case "sched_rr_get_interval" 2 (rr_interval_run false SCHED_FIFO "SCHED_FIFO" 80 0 0).
Definition sched_rr_get_interval3 := sched_case "sched_rr_get_interval" 3 (rr_interval_run false SCHED_OTHER "SCHED_OTHER" 0 0 0).
Definition sched_rr_get_interval4 := sched_case "sched_rr_get_interval" 4 (rr_interval_run false SCHED_BATCH "SCHED_BATCH" 0 0 0).
End Runs.

(** ** Scheduling as documented *)

(** Policy and priority of the process. *)
Record sched_view := SchedView { sv_policy : Z; sv_prio : Z }.

Definition is_rt (policy : Z) : bool := (policy =? SCHED_FIFO) || (policy =? SCHED_RR).
Definition policy_ok (policy : Z) : bool := (0 <=? policy) && (policy <=? 3).
Definition prio_min (policy : Z) : Z := if is_rt policy then 1 else 0.
Definition prio_max (policy : Z) : Z := if is_rt policy then 99 else 0.
Definition prio_ok (policy prio : Z) : bool := (prio_min policy <=? prio) && (prio <=? prio_max policy).

Section Spec.
(** Whether the process may use the real-time policies; the time slices. *)
Context (rt : bool) (interval : Z -> Z * Z).

Definition sched_spec (c : schedcall) (v : sched_view) : sched_view * schedans c :=
  match c with
  | SchedGetPriorityMax policy => (v, if policy_ok policy then prio_max policy else - EINVAL)
  | SchedGetPriorityMin policy => (v, if policy_ok policy then prio_min policy else - EINVAL)
  | SchedGetparam _ => (v, (0, sv_prio v))
  | SchedGetscheduler _ => (v, sv_policy v)
  | SchedSetparam _ prio =>
      if negb (prio_ok (sv_policy v) prio) then (v, - EINVAL)
      else if is_rt (sv_policy v) && negb rt then (v, - EPERM)
      else (SchedView (sv_policy v) prio, 0)
  | SchedSetscheduler _ policy prio =>
      if negb (policy_ok policy && prio_ok policy prio) then (v, - EINVAL)
      else if is_rt policy && negb rt then (v, - EPERM)
      else (SchedView policy prio, 0)
  | SchedRrGetInterval _ => (v, (0, interval (sv_policy v)))
  end.
End Spec.

(** The process a call is about, if it names one. *)
Definition sched_pid (c : schedcall) : option Z :=
  match c with
  | SchedGetparam p | SchedSetparam p _ | SchedGetscheduler p | SchedSetscheduler p _ _
  | SchedRrGetInterval p => Some p
  | _ => None
  end.

Definition view_ok (v : sched_view) : Prop :=
  policy_ok (sv_policy v) = true /\ prio_ok (sv_policy v) (sv_prio v) = true.

(** The calls keep the policy valid and the priority in the policy's range. *)
Lemma sched_spec_ok rt interval c v : view_ok v -> view_ok (fst (sched_spec rt interval c v)).
Proof.
  intros [Hp Hr]. destruct c; cbn -[policy_ok prio_ok is_rt]; try (split; assumption);
    repeat case_if; cbn -[policy_ok prio_ok is_rt]; bool_to_prop; split; assumption.
Qed.

(** [sched(7)]: a call about the process itself, named by 0 or by its number. *)
Class SchedKernel (K : kernel) := {
  sched_of : kstate K -> sched_view;
  rt_of : kstate K -> bool;
  slice : Z -> Z * Z;
  self_pid : Z;
  sched_wf s : view_ok (sched_of s);
  sched_getpid s : exists s', kstep K (Procs Getpid) s = (s', self_pid) /\
    sched_of s' = sched_of s /\ rt_of s' = rt_of s;
  sched_call s c : (forall p, sched_pid c = Some p -> p = 0 \/ p = self_pid) ->
    exists s', kstep K (Sched c) s = (s', snd (sched_spec (rt_of s) slice c (sched_of s))) /\
      sched_of s' = fst (sched_spec (rt_of s) slice c (sched_of s)) /\ rt_of s' = rt_of s;
}.

Section Verdicts.
Context (K : kernel) `{SchedKernel K}.
Context (dummy_param set_param get_param time : Z).
Implicit Type w : world K.

Lemma passes_getpid v rt (q : Z -> prog result) pr s b :
  sched_of s = v -> rt_of s = rt ->
  (forall s', sched_of s' = v -> rt_of s' = rt -> passes_iff K (q self_pid) (World pr s') b) ->
  passes_iff K (Call (Procs Getpid) q) (World pr s) b.
Proof.
  intros <- <- Hq. destruct (sched_getpid s) as (s' & E & Hs & Hr).
  exact (passes_call K (Procs Getpid) q pr s s' _ b E (Hq s' Hs Hr)).
Qed.

Lemma passes_sched v rt c (q : ans (Sched c) -> prog result) pr s b :
  sched_of s = v -> rt_of s = rt ->
  (forall p, sched_pid c = Some p -> p = 0 \/ p = self_pid) ->
  (forall s', sched_of s' = fst (sched_spec rt slice c v) -> rt_of s' = rt ->
     passes_iff K (q (snd (sched_spec rt slice c v))) (World pr s') b) ->
  passes_iff K (Call (Sched c) q) (World pr s) b.
Proof.
  intros <- <- Hp Hq. destruct (sched_call s c Hp) as (s' & E & Hs & Hr).
  exact (passes_call K (Sched c) q pr s s' _ b E (Hq s' Hs Hr)).
Qed.
End Verdicts.

(** Run a test against the specification. *)
Ltac sched_step :=
  match goal with
  | |- passes_iff _ (Loc _ _) _ _ => apply passes_loc
  | |- passes_iff _ (Call (Procs Getpid) _) _ _ =>
      refine (passes_getpid _ _ _ _ _ _ _ _ _ _); [eassumption|eassumption|intros ? ? ?]
  | |- passes_iff _ (Call (Sched _) _) _ _ =>
      refine (passes_sched _ _ _ _ _ _ _ _ _ _ _ _);
        [eassumption | eassumption | cbn; intros ? [= <-]; tauto | intros ? ? ?]
  | |- passes_iff _ (Ret _) _ _ => apply passes_ret
  | |- context [is_err ?x] =>
      let b := eval vm_compute in (is_err x) in
      first [constr_eq b true | constr_eq b false]; change (is_err x) with b
  | |- context [is_err ?x] => rewrite (is_err_false x) by lia
  | H : context [prio_ok ?x ?y] |- _ =>
      let b := eval vm_compute in (prio_ok x y) in
      first [constr_eq b true | constr_eq b false]; change (prio_ok x y) with b in H
  | H : context [is_rt ?x] |- _ =>
      let b := eval vm_compute in (is_rt x) in
      first [constr_eq b true | constr_eq b false]; change (is_rt x) with b in H
  | |- context [?x =? ?y] =>
      let b := eval vm_compute in (x =? y) in
      first [constr_eq b true | constr_eq b false]; change (x =? y) with b
  | |- passes_iff _ (if ?b then _ else _) _ _ => let E := fresh "E" in destruct b eqn:E
  | |- passes_iff _ (let (_, _) := ?x in _) _ _ => destruct x
  end.
Ltac sched_run :=
  repeat (cbn -[Z.eqb]; cbn -[Z.eqb] in *; sched_step).

(** ** What the suites come to *)

Section Suites.
Context (dummy_param set_param get_param time : Z).

(** Every case with the condition under which it passes: [rt], the privilege
    for real-time policies; [v], the scheduling of the process before the test;
    [slice], the kernel's time slices. *)
Definition sched_verdicts (rt : bool) (v : sched_view) (slice : Z -> Z * Z) : list (test_case * bool) :=
  let is_slice policy sec nsec := (fst (slice policy) =? sec) && (snd (slice policy) =? nsec) in
  [ (sched_get_priority_max0, true); (sched_get_priority_max1, true);
    (sched_get_priority_max2, true); (sched_get_priority_max3, true);
    (sched_get_priority_min0, true); (sched_get_priority_min1, true);
    (sched_get_priority_min2, true); (sched_get_priority_min3, true);
    (sched_getparam0 dummy_param set_param get_param, (sv_prio v =? 0) && rt);
    (sched_getparam1 dummy_param set_param get_param, (sv_prio v =? 0) && rt);
    (sched_getparam2 dummy_param set_param get_param, (sv_prio v =? 0) && rt);
    (sched_setparam0 dummy_param set_param get_param, rt);
    (sched_setparam1 dummy_param set_param get_param, rt);
    (sched_setparam2 dummy_param set_param get_param, rt);
    (sched_getscheduler0 set_param, rt && negb (sv_policy v =? SCHED_RR));
    (sched_getscheduler1 set_param, rt && negb (sv_policy v =? SCHED_RR));
    (sched_setscheduler0 set_param get_param, rt);
    (sched_setscheduler1 set_param get_param, rt);
    (sched_setscheduler2 set_param get_param, rt);
    (sched_setscheduler3 set_param get_param, true);
    (sched_setscheduler4 set_param get_param, true);
    (sched_rr_get_interval0 set_param time, rt && is_slice SCHED_RR 0 10000);
    (sched_rr_get_interval1 set_param time, rt && is_slice SCHED_RR 0 10000);
    (sched_rr_get_interval2 set_param time, rt && is_slice SCHED_FIFO 0 0);
    (sched_rr_get_interval3 set_param time, is_slice SCHED_OTHER 0 0);
    (sched_rr_get_interval4 set_param time, is_slice SCHED_BATCH 0 0) ].

End Suites.

(** ** A kernel that meets the interface *)

(** Processes with a valid policy and priority. *)
Definition norm_view (v : sched_view) : sched_view :=
  if policy_ok (sv_policy v) && prio_ok (sv_policy v) (sv_prio v) then v else SchedView SCHED_OTHER 0.

Definition sched_slice (policy : Z) : Z * Z := if policy =? SCHED_RR then (0, 10000) else (0, 0).

Definition sched_kernel_step (c : op) (s : sched_view * bool) : (sched_view * bool) * ans c :=
  match c with
  | Sched c =>
      let r := sched_spec (snd s) sched_slice c (norm_view (fst s)) in ((fst r, snd s), snd r)
  | Procs Getpid => (s, 1)
  | c => (s, enosys c)
  end.
Definition sched_kernel : kernel := Kernel (sched_view * bool) sched_kernel_step.

Lemma norm_view_ok v : view_ok (norm_view v).
Proof. unfold norm_view. case_if; [bool_to_prop; now split|now split]. Qed.

Lemma norm_view_id v : view_ok v -> norm_view v = v.
Proof. intros [Hp Hr]. unfold norm_view. now rewrite Hp, Hr. Qed.

#[export] Instance sched_kernel_ok : SchedKernel sched_kernel.
Proof.
  refine {| sched_of := fun s : kstate sched_kernel => norm_view (fst s);
            rt_of := fun s : kstate sched_kernel => snd s;
            slice := sched_slice; self_pid := 1 |}.
  - intros s. apply norm_view_ok.
  - intros s. exists s. auto.
  - intros s c _. eexists. split; [reflexivity|]. split; [|reflexivity]. cbn [fst].
    apply norm_view_id, sched_spec_ok, norm_view_ok.
Defined.

(** An ordinary process of a privileged user. *)
Definition sched0 : world sched_kernel :=
  World proc0 ((SchedView SCHED_OTHER 0, true) : kstate sched_kernel).

