(* ===== verification/Procs.v ===== *)
(** * Several processes

    [fork] makes a second process out of the rest of the program, so a program
    that forks is run by an interleaving semantics: a configuration holds the
    rest of the program of every process and the part of the operating system
    they share (process table, descriptors, pipes).  [exec1] is one step of one
    process, as an executable function; [step] is the relation of all
    interleavings.  A call that blocks has no step.

    The system is the documented one ([fork(2)], [pipe(7)], [wait(2)],
    [setpgid(2)]) where it says what happens; what it leaves open (the numbers
    of the processes, the order of the processes' steps, whether [fork] and
    [pipe] find the resources they need) is a parameter or a choice of the step.
    A second parameter, [wrong], lets a system answer a call differently from
    the documentation. *)
From S2P Require Import Prelude Process Trace.

(** ** Errors and constants *)

Definition ESRCH : Z := 3.
Definition EBADF : Z := 9.
Definition ECHILD : Z := 10.
Definition EAGAIN : Z := 11.
Definition ENFILE : Z := 23.
Definition SIGPIPE : Z := 13.
Definition PIPE_CAPACITY : Z := 65536.
Definition P_ALL : Z := 0.
Definition P_PID : Z := 1.
Definition P_PGID : Z := 2.

(** ** The shared part of the system *)

(** An open descriptor: one end of a pipe. *)
Inductive fdend := RdEnd (pipe : nat) | WrEnd (pipe : nat).

#[export] Instance fdend_eq_dec : EqDecision fdend.
Proof. solve_decision. Defined.

(** The state of a process as its parent sees it; the status is the one [wait]
    reports. *)
Inductive pstatus := Running | Zombie (status : Z) | Gone.

Record pentry := PEntry {
  pe_parent : option nat;
  pe_pgid : Z;
  pe_fds : list (Z * fdend);
  pe_st : pstatus;
}.

(** Processes are named by their order of creation; the parent of the first is
    outside.  [o_sems] holds the semaphores in shared memory by address,
    [o_maps] counts the shared mappings made. *)
Record os := Os {
  o_tab : list pentry;
  o_pipes : list (list Z);
  o_sems : list (Z * Z);
  o_maps : Z;
}.

Definition with_fds (fds : list (Z * fdend)) (e : pentry) : pentry :=
  PEntry (pe_parent e) (pe_pgid e) fds (pe_st e).
Definition with_pgid (pgid : Z) (e : pentry) : pentry :=
  PEntry (pe_parent e) pgid (pe_fds e) (pe_st e).
Definition with_st (st : pstatus) (e : pentry) : pentry :=
  PEntry (pe_parent e) (pe_pgid e) (pe_fds e) st.
Definition upd (i : nat) (f : pentry -> pentry) (o : os) : os :=
  Os (alter f i (o_tab o)) (o_pipes o) (o_sems o) (o_maps o).
Definition with_pipes (pipes : list (list Z)) (o : os) : os := Os (o_tab o) pipes (o_sems o) (o_maps o).
Definition with_sems (sems : list (Z * Z)) (o : os) : os := Os (o_tab o) (o_pipes o) sems (o_maps o).

Definition find_fd (fds : list (Z * fdend)) (fd : Z) : option fdend :=
  snd <$> List.find (fun x => fst x =? fd) fds.

(** The lowest descriptor from [fd] on that is not open. *)
Fixpoint fresh_fd (n : nat) (fds : list (Z * fdend)) (fd : Z) : Z :=
  match n with
  | O => fd
  | S n => if existsb (fun x => fst x =? fd) fds then fresh_fd n fds (fd + 1) else fd
  end.

(** Whether some process holds the end [e] open. *)
Definition has_end (e : fdend) (o : os) : bool :=
  existsb (fun p => existsb (fun x => bool_decide (snd x = e)) (pe_fds p)) (o_tab o).

(** Status words of [wait]. *)
Definition exit_status (n : Z) : Z := (n mod 256) * 256.
Definition is_zombie (e : pentry) : bool := match pe_st e with Zombie _ => true | _ => false end.
Definition is_gone (e : pentry) : bool := match pe_st e with Gone => true | _ => false end.

Section System.
(** The number of each process, of the process that started the first one and
    of the one that adopts orphans. *)
Context (pidof : nat -> Z) (shell reaper : Z).

(** Look a process up by its number, starting the count at [i]. *)
Fixpoint find_pid (i : nat) (tab : list pentry) (pid : Z) : option (nat * pentry) :=
  match tab with
  | [] => None
  | e :: tab' =>
      if (pidof i =? pid) && negb (is_gone e) then Some (i, e) else find_pid (S i) tab' pid
  end.

(** The first child of [i] that satisfies [P]. *)
Fixpoint find_child (k : nat) (tab : list pentry) (i : nat) (P : nat -> pentry -> bool)
  : option (nat * pentry) :=
  match tab with
  | [] => None
  | e :: tab' =>
      if bool_decide (pe_parent e = Some i) && negb (is_gone e) && P k e then Some (k, e)
      else find_child (S k) tab' i P
  end.

(** What a call of process [i] does: [None] if it blocks, otherwise the new
    state and the answer, or a signal that kills the process.  [ok] tells
    whether the resources for a pipe or a mapping are there. *)
Definition outcome_of (c : op) : Type := option (os * (ans c + Z)).

Definition do_read (i : nat) (fd count : Z) (o : os) : outcome_of (Read fd count) :=
  match o_tab o !! i with
  | Some e =>
      match find_fd (pe_fds e) fd with
      | Some (RdEnd p) =>
          let buf := default [] (o_pipes o !! p) in
          match buf with
          | [] => if has_end (WrEnd p) o then None else Some (o, inl (0, []))
          | _ =>
              let got := take (Z.to_nat count) buf in
              Some (with_pipes (<[p := drop (Z.to_nat count) buf]> (o_pipes o)) o,
                    inl (Z.of_nat (length got), got))
          end
      | _ => Some (o, inl (- EBADF, []))
      end
  | None => None
  end.

Definition do_write (i : nat) (fd : Z) (bytes : list Z) (o : os) : outcome_of (Write fd bytes) :=
  match o_tab o !! i with
  | Some e =>
      match find_fd (pe_fds e) fd with
      | Some (WrEnd p) =>
          let buf := default [] (o_pipes o !! p) in
          if negb (has_end (RdEnd p) o) then Some (o, inr SIGPIPE)
          else if PIPE_CAPACITY <? Z.of_nat (length buf + length bytes) then None
          else Some (with_pipes (<[p := buf ++ bytes]> (o_pipes o)) o, inl (Z.of_nat (length bytes)))
      | _ => Some (o, inl (- EBADF))
      end
  | None => None
  end.

Definition do_close (i : nat) (fd : Z) (o : os) : outcome_of (Close fd) :=
  match o_tab o !! i with
  | Some e =>
      match find_fd (pe_fds e) fd with
      | Some _ => Some (upd i (with_fds (List.filter (fun x => negb (fst x =? fd)) (pe_fds e))) o, inl 0)
      | None => Some (o, inl (- EBADF))
      end
  | None => None
  end.

Definition do_pipe (i : nat) (ok : bool) (o : os) : outcome_of (Procs Pipe) :=
  match o_tab o !! i with
  | Some e =>
      if ok then
        let p := length (o_pipes o) in
        let r := fresh_fd (S (length (pe_fds e))) (pe_fds e) 3 in
        let w := fresh_fd (S (length (pe_fds e))) (pe_fds e) (r + 1) in
        Some (with_pipes (o_pipes o ++ [[]])
                (upd i (with_fds (pe_fds e ++ [(r, RdEnd p); (w, WrEnd p)])) o),
              inl (0, (r, w)))
      else Some (o, inl (- ENFILE, (0, 0)))
  | None => None
  end.

Definition do_getppid (i : nat) (o : os) : Z :=
  match o_tab o !! i with
  | Some e =>
      match pe_parent e with
      | None => shell
      | Some j =>
          match o_tab o !! j with
          | Some p => match pe_st p with Running => pidof j | _ => reaper end
          | None => reaper
          end
      end
  | None => reaper
  end.

Definition do_getpgid (i : nat) (pid : Z) (o : os) : Z :=
  match find_pid 0 (o_tab o) (if pid =? 0 then pidof i else pid) with
  | Some (_, e) => pe_pgid e
  | None => - ESRCH
  end.

(** [setpgid]: the target is the caller or one of its children; the group is
    the target's own or one that exists. *)
Definition do_setpgid (i : nat) (pid pgid : Z) (o : os) : outcome_of (Procs (Setpgid pid pgid)) :=
  let pid := if pid =? 0 then pidof i else pid in
  let pgid := if pgid =? 0 then pid else pgid in
  if pgid <? 0 then Some (o, inl (- EINVAL))
  else
    match find_pid 0 (o_tab o) pid with
    | Some (j, e) =>
        if negb ((j =? i)%nat || bool_decide (pe_parent e = Some i)) then Some (o, inl (- ESRCH))
        else if (pgid =? pid) || existsb (fun p => (pe_pgid p =? pgid) && negb (is_gone p)) (o_tab o)
        then Some (upd j (with_pgid pgid) o, inl 0)
        else Some (o, inl (- EPERM))
    | None => Some (o, inl (- ESRCH))
    end.

(** [wait4] and [waitid] for the children that satisfy [P]. *)
Definition do_wait (i : nat) (P : nat -> pentry -> bool) (o : os) : option (os * (Z * Z)) :=
  match find_child 0 (o_tab o) i P with
  | None => Some (o, (- ECHILD, 0))
  | Some _ =>
      match find_child 0 (o_tab o) i (fun k e => P k e && is_zombie e) with
      | Some (k, e) =>
          Some (upd k (with_st Gone) o,
                (pidof k, match pe_st e with Zombie st => st | _ => 0 end))
      | None => None
      end
  end.

Definition wait_pred (i : nat) (pid : Z) (o : os) (k : nat) (e : pentry) : bool :=
  if 0 <? pid then pidof k =? pid
  else if pid =? -1 then true
  else pe_pgid e =? (if pid =? 0 then do_getpgid i 0 o else - pid).

Definition waitid_pred (idtype id : Z) (k : nat) (e : pentry) : bool :=
  if idtype =? P_PID then pidof k =? id
  else if idtype =? P_PGID then pe_pgid e =? id
  else true.

(** The value of the semaphore at [a], and a change of it. *)
Definition sem_value (a : Z) (sems : list (Z * Z)) : Z :=
  match List.find (fun x => fst x =? a) sems with Some x => snd x | None => 0 end.
Fixpoint sem_add (a d : Z) (sems : list (Z * Z)) : list (Z * Z) :=
  match sems with
  | [] => []
  | (b, v) :: sems' => if b =? a then (b, v + d) :: sems' else (b, v) :: sem_add a d sems'
  end.

Definition os_call (i : nat) (ok : bool) (c : op) (o : os) : outcome_of c :=
  match c with
  | Read fd count => do_read i fd count o
  | Write fd bytes => do_write i fd bytes o
  | Close fd => do_close i fd o
  | Procs c =>
      match c with
      | Pipe => do_pipe i ok o
      | Getpid => Some (o, inl (pidof i))
      | Getppid => Some (o, inl (do_getppid i o))
      | Getpgid pid => Some (o, inl (do_getpgid i pid o))
      | Setpgid pid pgid => do_setpgid i pid pgid o
      | Wait4 pid _ => (fun x => (fst x, inl (snd x))) <$> do_wait i (wait_pred i pid o) o
      | Waitid idtype id _ =>
          (fun x => (fst x, inl (if fst (snd x) <? 0 then fst (snd x) else 0, fst (snd x))))
            <$> do_wait i (waitid_pred idtype id) o
      | Usleep _ => Some (o, inl 0)
      | SemInit a _ v => Some (with_sems ((a, v) :: o_sems o) o, inl 0)
      | SemPost a => Some (with_sems (sem_add a 1 (o_sems o)) o, inl 0)
      | SemWait a =>
          if sem_value a (o_sems o) <=? 0 then None
          else Some (with_sems (sem_add a (-1) (o_sems o)) o, inl 0)
      | Fork => None
      end
  | Mmap _ _ _ _ _ _ =>
      if ok then Some (Os (o_tab o) (o_pipes o) (o_sems o) (o_maps o + 1), inl (65536 * (o_maps o + 1)))
      else Some (o, inl (- ENOMEM))
  | Munmap _ _ => Some (o, inl 0)
  | Gettid => Some (o, inl (pidof i))
  | c => Some (o, inl (enosys c))
  end.

(** A new process: it shares the parent's group and open pipe ends. *)
Definition os_fork (i : nat) (o : os) : os :=
  match o_tab o !! i with
  | Some e => Os (o_tab o ++ [PEntry (Some i) (pe_pgid e) (pe_fds e) Running]) (o_pipes o) (o_sems o) (o_maps o)
  | None => o
  end.

(** The end of a process: its descriptors are closed. *)
Definition os_exit (i : nat) (status : Z) (o : os) : os :=
  upd i (fun e => PEntry (pe_parent e) (pe_pgid e) [] (Zombie status)) o.

(** ** Configurations *)

Section Run.
(** Answers of the system that differ from the documentation; the status of a
    process whose program returns. *)
Context (wrong : nat -> forall c : op, option (ans c)) {A : Type} (ret_status : A -> Z).

Inductive pstate := Live (p : prog A) (pr : proc) | Dead (o : outcome A).

Record config := Config { c_code : list pstate; c_os : os }.

(** The private steps of a process up to its next call. *)
Fixpoint settle (p : prog A) (pr : proc) : pstate :=
  match p with
  | Loc f k => settle (k (f pr)) (f pr)
  | p => Live p pr
  end.

Definition die (i : nat) (out : outcome A) (cfg : config) : config :=
  let status :=
    match out with
    | Done a => exit_status (ret_status a)
    | Exited n => exit_status n
    | Killed n => n
    end in
  Config (<[i := Dead out]> (c_code cfg)) (os_exit i status (c_os cfg)).

(** One call. *)
Definition do_call (i : nat) (ok : bool) (c : op) (k : ans c -> prog A) (pr : proc) (cfg : config)
  : option config :=
  match wrong i c with
  | Some r => Some (Config (<[i := settle (k r) pr]> (c_code cfg)) (c_os cfg))
  | None =>
      match os_call i ok c (c_os cfg) with
      | Some (o', inl r) => Some (Config (<[i := settle (k r) pr]> (c_code cfg)) o')
      | Some (o', inr signum) => Some (die i (deliver signum pr) (Config (c_code cfg) o'))
      | None => None
      end
  end.

(** [fork]: the parent goes on with the child's number, the child with 0. *)
Definition do_fork (i : nat) (ok : bool) (k : Z -> prog A) (pr : proc) (cfg : config) : config :=
  if ok then
    Config (<[i := settle (k (pidof (length (c_code cfg)))) pr]> (c_code cfg) ++ [settle (k 0) pr])
           (os_fork i (c_os cfg))
  else Config (<[i := settle (k (- EAGAIN)) pr]> (c_code cfg)) (c_os cfg).

(** One step of process [i]. *)
Definition exec1 (i : nat) (ok : bool) (cfg : config) : option config :=
  match c_code cfg !! i with
  | Some (Live p pr) =>
      match p with
      | Ret a => Some (die i (Done a) cfg)
      | Exit n => Some (die i (Exited n) cfg)
      | Raise n => Some (die i (deliver n pr) cfg)
      | Loc f k => Some (Config (<[i := settle (Loc f k) pr]> (c_code cfg)) (c_os cfg))
      | Call c k =>
          match c as c return (ans c -> prog A) -> option config with
          | Procs Fork => fun k => Some (do_fork i ok k pr cfg)
          | c => fun k => do_call i ok c k pr cfg
          end k
      end
  | _ => None
  end.

Definition step (cfg cfg' : config) : Prop := exists i ok, exec1 i ok cfg = Some cfg'.

Inductive steps : config -> config -> Prop :=
| steps_refl cfg : steps cfg cfg
| steps_next cfg1 cfg2 cfg3 : step cfg1 cfg2 -> steps cfg2 cfg3 -> steps cfg1 cfg3.

(** A schedule: which process makes each step, and whether resources are found. *)
Fixpoint exec (sched : list (nat * bool)) (cfg : config) : option config :=
  match sched with
  | [] => Some cfg
  | (i, ok) :: sched' => exec1 i ok cfg ≫= exec sched'
  end.

(** A process in its initial environment. *)
Definition boot_os : os := Os [PEntry None (pidof 0) [] Running] [] [] 0.
Definition boot (p : prog A) : config := Config [settle p proc0] boot_os.
End Run.
End System.

(** What [find_child] finds. *)
Definition child_of (i : nat) (P : nat -> pentry -> bool) (k : nat) (e : pentry) : bool :=
  bool_decide (pe_parent e = Some i) && negb (is_gone e) && P k e.

Lemma find_child_Some i P tab : forall k j e,
  find_child k tab i P = Some (j, e) ->
  exists d, j = (k + d)%nat /\ tab !! d = Some e /\ child_of i P j e = true.
Proof.
  induction tab as [|e0 tab IH]; intros k j e E; [discriminate|]. cbn in E.
  change (_ && P k e0) with (child_of i P k e0) in E. destruct (child_of i P k e0) eqn:Ec.
  - injection E as <- <-. exists 0%nat. rewrite Nat.add_0_r. auto.
  - destruct (IH _ _ _ E) as (d & -> & Hd & Hc). exists (S d). rewrite Nat.add_succ_r. auto.
Qed.

Lemma find_child_None i P tab : forall k,
  find_child k tab i P = None -> forall d e, tab !! d = Some e -> child_of i P (k + d) e = false.
Proof.
  induction tab as [|e0 tab IH]; intros k E d e Hd; [discriminate|]. cbn in E.
  change (_ && P k e0) with (child_of i P k e0) in E. destruct (child_of i P k e0) eqn:Ec; [discriminate|].
  destruct d as [|d]; cbn in Hd.
  - injection Hd as <-. now rewrite Nat.add_0_r.
  - rewrite Nat.add_succ_r. apply (IH (S k) E d e Hd).
Qed.

(** ** Every execution is finite *)

Section Termination.
Context {A : Type}.

(** [y] comes right after [x] in the life of one process. *)
Definition below (y x : @pstate A) : Prop :=
  match x with
  | Dead _ => False
  | Live p pr =>
      (exists out, y = Dead out) \/
      match p with
      | Call c k => exists r, y = settle (k r) pr
      | Loc f k => y = settle (Loc f k) pr
      | _ => False
      end
  end.

Lemma below_wf : well_founded below.
Proof.
  assert (D : forall out, Acc below (Dead out)) by (intros out; constructor; intros y []).
  assert (L : forall p, (forall pr, Acc below (Live p pr)) /\ (forall pr, Acc below (settle p pr))).
  { induction p as [a|n|n|f k IH|c k IH].
    1-3: split; intros pr; constructor; intros y [[out ->]|[]]; apply D.
    - split; intros pr; [constructor; intros y [[out ->]| ->]; [apply D|]|]; cbn; apply IH.
    - split; intros pr; constructor; intros y [[out ->]|[r ->]]; try apply D; apply IH. }
  intros [p pr|out]; [apply L|apply D].
Qed.

(** One process moves on, and a fork adds another that is just as close to its
    end. *)
Inductive pool_step : list (@pstate A) -> list (@pstate A) -> Prop :=
| pool_one l1 x y l2 : below y x -> pool_step (l1 ++ x :: l2) (l1 ++ y :: l2)
| pool_fork l1 x y z l2 : below y x -> below z x -> pool_step (l1 ++ x :: l2) (l1 ++ y :: l2 ++ [z]).

(** Every execution of the pool is finite. *)
Definition pool_acc : list (@pstate A) -> Prop := Acc (fun l' l => pool_step l l').

(** Where the position of a step lies relative to an element in the middle. *)
Lemma split_middle {B} (l1 l2 m1 m2 : list B) x u :
  l1 ++ x :: l2 = m1 ++ u :: m2 ->
  (exists m, l1 = m1 ++ u :: m /\ m2 = m ++ x :: l2) \/
  (l1 = m1 /\ x = u /\ l2 = m2) \/
  (exists m, m1 = l1 ++ x :: m /\ l2 = m ++ u :: m2).
Proof.
  revert m1. induction l1 as [|a l1 IH]; intros [|b m1] E; cbn in E; simplify_eq.
  - right. left. auto.
  - right. right. eauto.
  - left. eauto.
  - destruct (IH m1 H0) as [(m & -> & ->)|[(-> & -> & ->)|(m & -> & ->)]]; [left|right;left|right;right]; eauto.
Qed.

Ltac app_eq := repeat (rewrite <- app_assoc; cbn [app]); rewrite <- ?app_assoc; reflexivity.

(** Adding a process to a pool whose executions are finite. *)
Lemma pool_insert x l1 l2 : pool_acc (l1 ++ l2) -> pool_acc (l1 ++ x :: l2).
Proof.
  revert l1 l2. induction (below_wf x) as [x _ IHx]. intros l1 l2 Ha.
  remember (l1 ++ l2) as l eqn:El. revert l1 l2 El.
  induction Ha as [l Hl IHl]. intros l1 l2 ->.
  assert (Ha : pool_acc (l1 ++ l2)) by (constructor; exact Hl).
  constructor. intros l' Hs. remember (l1 ++ x :: l2) as m eqn:Em.
  destruct Hs as [m1 u y m2 Hy|m1 u y z m2 Hy Hz]; symmetry in Em;
    destruct (split_middle _ _ _ _ _ _ Em) as [(m & -> & ->)|[(-> & -> & ->)|(m & -> & ->)]].
  - replace (m1 ++ y :: m ++ x :: l2) with ((m1 ++ y :: m) ++ x :: l2) by app_eq.
    apply (IHl ((m1 ++ y :: m) ++ l2)); [|reflexivity].
    replace ((m1 ++ u :: m) ++ l2) with (m1 ++ u :: m ++ l2) by app_eq.
    replace ((m1 ++ y :: m) ++ l2) with (m1 ++ y :: m ++ l2) by app_eq. now constructor.
  - apply IHx; [exact Hy|exact Ha].
  - replace ((l1 ++ x :: m) ++ y :: m2) with (l1 ++ x :: m ++ y :: m2) by app_eq.
    apply (IHl (l1 ++ m ++ y :: m2)); [|reflexivity].
    rewrite !app_assoc. now constructor.
  - replace (m1 ++ y :: (m ++ x :: l2) ++ [z]) with ((m1 ++ y :: m) ++ x :: l2 ++ [z]) by app_eq.
    apply (IHl ((m1 ++ y :: m) ++ l2 ++ [z])); [|reflexivity].
    replace ((m1 ++ u :: m) ++ l2) with (m1 ++ u :: m ++ l2) by app_eq.
    replace ((m1 ++ y :: m) ++ l2 ++ [z]) with (m1 ++ y :: (m ++ l2) ++ [z]) by app_eq. now constructor.
  - apply IHx; [exact Hy|]. rewrite app_assoc. apply IHx; [exact Hz|]. now rewrite app_nil_r.
  - replace ((l1 ++ x :: m) ++ y :: m2 ++ [z]) with (l1 ++ x :: m ++ y :: m2 ++ [z]) by app_eq.
    apply (IHl (l1 ++ m ++ y :: m2 ++ [z])); [|reflexivity].
    replace (l1 ++ m ++ u :: m2) with ((l1 ++ m) ++ u :: m2) by app_eq.
    replace (l1 ++ m ++ y :: m2 ++ [z]) with ((l1 ++ m) ++ y :: m2 ++ [z]) by app_eq. now constructor.
Qed.

Lemma pool_step_wf l : pool_acc l.
Proof.
  induction l as [|x l IH].
  - constructor. intros l' Hs. remember [] as m eqn:E. destruct Hs; now destruct l1.
  - apply (pool_insert x [] l IH).
Qed.
End Termination.

(** ** Reasoning about all interleavings *)

Section Interleavings.
Context (pidof : nat -> Z) (shell reaper : Z) (wrong : nat -> forall c : op, option (ans c)).
Context {A : Type} (ret_status : A -> Z).
Implicit Type cfg : @config A.
Notation "c ==>> c'" := (step pidof shell reaper wrong ret_status c c') (at level 70).

Lemma pool_one_insert (l : list (@pstate A)) i x y :
  l !! i = Some x -> below y x -> pool_step l (<[i := y]> l).
Proof.
  intros E Hb. rewrite insert_take_drop by (eapply lookup_lt_Some; eauto).
  rewrite <- (take_drop_middle l i x E) at 1. now constructor.
Qed.

Lemma pool_fork_insert (l : list (@pstate A)) i x y z :
  l !! i = Some x -> below y x -> below z x -> pool_step l (<[i := y]> l ++ [z]).
Proof.
  intros E Hy Hz. rewrite insert_take_drop by (eapply lookup_lt_Some; eauto).
  rewrite <- (take_drop_middle l i x E) at 1. rewrite <- app_assoc. cbn [app]. now constructor.
Qed.

Lemma die_pool i out cfg p pr :
  c_code cfg !! i = Some (Live p pr) -> pool_step (c_code cfg) (c_code (die ret_status i out cfg)).
Proof. intros E. apply (pool_one_insert _ i _ _ E). left. now exists out. Qed.

Lemma step_pool cfg cfg' : cfg ==>> cfg' -> pool_step (c_code cfg) (c_code cfg').
Proof.
  intros (i & ok & E). unfold exec1 in E.
  destruct (c_code cfg !! i) as [[p pr|out]|] eqn:Ec; try discriminate.
  assert (C : forall c (k : ans c -> prog A), p = Call c k ->
    do_call pidof shell reaper wrong ret_status i ok c k pr cfg = Some cfg' ->
    pool_step (c_code cfg) (c_code cfg')).
  { intros c k -> Hc. unfold do_call in Hc. destruct (wrong i c) as [r|].
    - injection Hc as <-. apply (pool_one_insert _ i _ _ Ec). right. now exists r.
    - destruct (os_call pidof shell reaper i ok c (c_os cfg)) as [[o' [r|n]]|]; [| |discriminate];
        injection Hc as <-.
      + apply (pool_one_insert _ i _ _ Ec). right. now exists r.
      + apply (pool_one_insert _ i _ _ Ec). left. eauto. }
  destruct p as [a|n|n|f k|c k].
  1-3: injection E as <-; eapply die_pool; exact Ec.
  - injection E as <-. apply (pool_one_insert _ i _ _ Ec). now right.
  - destruct c; try (now eapply C).
    match goal with c : proccall |- _ => destruct c end; try (now eapply C). injection E as <-. unfold do_fork. destruct ok.
    + apply (pool_fork_insert _ i _ _ _ Ec); right; eexists; reflexivity.
    + apply (pool_one_insert _ i _ _ Ec). right. eexists. reflexivity.
Qed.

(** Every execution of every program from every configuration is finite: a
    process makes finitely many calls, and so do all those it forks. *)
Lemma step_terminates cfg : Acc (fun c' c => c ==>> c') cfg.
Proof.
  remember (c_code cfg) as l eqn:El. revert cfg El.
  induction (pool_step_wf l) as [l _ IH]. intros cfg ->. constructor. intros cfg' Hs.
  apply (IH (c_code cfg')); [now apply step_pool|reflexivity].
Qed.

(** [Q] is reached on every maximal execution: it cannot be avoided by any
    order of steps, and no execution gets stuck before it. *)
Inductive inev (Q : @config A -> Prop) : @config A -> Prop :=
| inev_now cfg : Q cfg -> inev Q cfg
| inev_later cfg : (exists cfg', cfg ==>> cfg') -> (forall cfg', cfg ==>> cfg' -> inev Q cfg') -> inev Q cfg.

(** An invariant under which some process can always move until [Q] holds. *)
Lemma inev_invariant (I Q : @config A -> Prop) cfg :
  (forall c, I c -> Q c \/ ((exists c', c ==>> c') /\ forall c', c ==>> c' -> I c')) ->
  I cfg -> inev Q cfg.
Proof.
  intros HI. induction (step_terminates cfg) as [c _ IH]. intros Hc.
  destruct (HI c Hc) as [HQ|[Hex Hall]]; [now apply inev_now|].
  apply inev_later; [exact Hex|]. intros c' Hs. auto.
Qed.

Lemma inev_mono (Q R : @config A -> Prop) cfg : (forall c, Q c -> R c) -> inev Q cfg -> inev R cfg.
Proof. intros HQR. induction 1; [apply inev_now|apply inev_later]; auto. Qed.

(** First [Q], then [R]. *)
Lemma inev_trans (Q R : @config A -> Prop) cfg :
  inev Q cfg -> (forall c, Q c -> inev R c) -> inev R cfg.
Proof. intros H HQR. induction H; [auto|apply inev_later; auto]. Qed.

(** What is inevitable happens in some execution. *)
Lemma inev_reach (Q : @config A -> Prop) cfg :
  inev Q cfg -> exists cfg', steps pidof shell reaper wrong ret_status cfg cfg' /\ Q cfg'.
Proof.
  induction 1 as [cfg HQ|cfg [cfg' Hs] _ IH]; [eexists; split; [constructor|exact HQ]|].
  destruct (IH cfg' Hs) as (c & Hc & HQ). exists c. split; [econstructor; eauto|exact HQ].
Qed.

(** An executable schedule is an execution. *)
Lemma exec_steps sched cfg cfg' :
  exec pidof shell reaper wrong ret_status sched cfg = Some cfg' ->
  steps pidof shell reaper wrong ret_status cfg cfg'.
Proof.
  revert cfg. induction sched as [|[i ok] sched IH]; intros cfg E; cbn in E.
  - injection E as <-. constructor.
  - destruct (exec1 pidof shell reaper wrong ret_status i ok cfg) as [c|] eqn:E1; [|discriminate].
    econstructor; [exists i, ok; exact E1|]. now apply IH.
Qed.

(** One step of inevitability for a configuration with one process. *)
Lemma inev_solo (Q : @config A -> Prop) cfg c1 c2 :
  length (c_code cfg) = 1%nat ->
  exec1 pidof shell reaper wrong ret_status 0 true cfg = Some c1 ->
  exec1 pidof shell reaper wrong ret_status 0 false cfg = Some c2 ->
  inev Q c1 -> inev Q c2 -> inev Q cfg.
Proof.
  intros Hl E1 E2 H1 H2. apply inev_later; [exists c1, 0%nat, true; exact E1|].
  intros c' (i & ok & E). destruct i as [|i].
  - destruct ok; congruence.
  - unfold exec1 in E. rewrite lookup_ge_None_2 in E by lia. discriminate.
Qed.

(** The same for two processes. *)
Lemma inev_duo (Q : @config A -> Prop) cfg o0 o1 :
  length (c_code cfg) = 2%nat ->
  (forall ok, exec1 pidof shell reaper wrong ret_status 0 ok cfg = o0) ->
  (forall ok, exec1 pidof shell reaper wrong ret_status 1 ok cfg = o1) ->
  is_Some o0 \/ is_Some o1 ->
  (forall c, o0 = Some c -> inev Q c) -> (forall c, o1 = Some c -> inev Q c) -> inev Q cfg.
Proof.
  intros Hl E0 E1 Hs H0 H1. apply inev_later.
  - destruct Hs as [[c ->]|[c ->]]; exists c; [exists 0%nat, true|exists 1%nat, true]; auto.
  - intros c' (i & ok & E). destruct i as [|[|i]]; [apply H0; now rewrite <- (E0 ok)|apply H1; now rewrite <- (E1 ok)|].
    unfold exec1 in E. rewrite lookup_ge_None_2 in E by lia. discriminate.
Qed.

(** All the steps of a configuration, as a list. *)
Definition succs (n : nat) cfg : list (@config A) :=
  omap (fun '(i, ok) => exec1 pidof shell reaper wrong ret_status i ok cfg)
       (list_prod (seq 0 n) [true; false]).

Lemma step_succs cfg cfg' : cfg ==>> cfg' <-> In cfg' (succs (length (c_code cfg)) cfg).
Proof.
  unfold succs, step. rewrite <- list_elem_of_In, list_elem_of_omap. split.
  - intros (i & ok & E). exists (i, ok). split; [|exact E].
    apply list_elem_of_In, in_prod; [|destruct ok; cbn; auto].
    apply in_seq. split; [lia|]. unfold exec1 in E.
    destruct (c_code cfg !! i) as [x|] eqn:Ec; [|discriminate].
    apply lookup_lt_Some in Ec. lia.
  - intros ([i ok] & _ & E). eauto.
Qed.
End Interleavings.
