(* ===== verification/FileMap.v ===== *)
(** * The suites [mmap_file], [mmap_populate], [mmap_locked] and [madvise] 0-15

    Tests that map a file given on the command line: [filemap.c] and the 49
    cases of [mmap_file], which go through open mode, protection, sharing and
    access; [madvise.c] and the cases 0-15 of [madvise]; the one case of
    [mmap_populate] and of [mmap_locked]. *)
From S2P Require Import Prelude Process Trace CLib TestMck AddrSpace MemInfo.
From Stdlib Require Import Ascii String.
#[local] Open Scope string_scope.
#[local] Open Scope Z_scope.

Definition O_WRONLY : Z := 1.
Definition O_RDWR : Z := 2.
Definition O_CREAT : Z := 64.
Definition MAP_LOCKED : Z := 0x2000.
Definition MAP_POPULATE : Z := 0x8000.

(** The result and [st_size]. *)
Definition stat (path : string) : prog (Z * Z) :=
  r <- (trigger (Filec (Stat path)) : prog (Z * Z)) ;;
  ret <- syscall_ret (-1) (fst r) ;; Ret (ret, snd r).
Definition fstat (fd : Z) : prog (Z * Z) :=
  r <- (trigger (Filec (Fstat fd)) : prog (Z * Z)) ;;
  ret <- syscall_ret (-1) (fst r) ;; Ret (ret, snd r).
Definition madvise (addr len advice : Z) : prog Z :=
  r <- (trigger (Memc (Madvise addr len advice)) : prog Z) ;; syscall_ret (-1) r.

(** ** The argument parser of the four suites *)

(** The option [-f]; the result is the member [file], [None] a null pointer; any
    other option makes the parser return [NULL]. *)
Fixpoint file_options (evs : list optev) (file : option string) : option (option string) :=
  match evs with
  | [] => Some file
  | Opt c optarg :: evs' =>
      if Ascii.eqb c "f" then file_options evs' (Some optarg) else None
  | OptErr :: _ => None
  end.

Definition parse_file (msg : string) (argv : list string) : prog (option (option string)) :=
  match file_options (fst (getopt "f:" (tail argv))) None with
  | None => Ret None
  | Some file =>
      match file with None => printf msg [] | Some _ => Ret tt end ;;
      Ret (Some file)
  end.

Definition filemap_parse_args := parse_file "mandatory parameter '-f <file>'\n".
Definition madvise_parse_args := parse_file "mandatory parameter '-f <mapping-file>'\n".
Definition mmap_populate_parse_args := parse_file "mandatory parameter '-f <mapping-file>'\n".
Definition mmap_locked_parse_args := parse_file "mandatory parameter '-f <mapping-file>'\n".

(** [args->file]: reading through a null pointer is a fault. *)
Definition args_file (args : option (option string)) (msg : string) (k : string -> prog result) : prog result :=
  match args with
  | None => Raise SIGSEGV
  | Some None => Ret (Some msg)
  | Some (Some file) => k file
  end.

(** ** [filemap.c] *)

(** The callbacks of [filemap_do_map]. *)
Inductive filemap_cb := CbRead | CbWrite | CbReadWrite.

Definition filemap_cb_write (buf size : Z) : prog unit :=
  store buf 90 ;;
  c <- load buf ;;
  printf "%c\n" [PZ c].
Definition filemap_cb_read (buf size : Z) : prog unit :=
  temp <- load buf ;;
  printf "%c\n" [PZ temp].
Definition filemap_cb_read_write (buf size : Z) : prog unit :=
  filemap_cb_read buf size ;;
  filemap_cb_write buf size.
Definition call_cb (cb : filemap_cb) : Z -> Z -> prog unit :=
  match cb with
  | CbRead => filemap_cb_read
  | CbWrite => filemap_cb_write
  | CbReadWrite => filemap_cb_read_write
  end.

(** The path is not null: every caller has checked it. *)
Definition filemap_do_map (path : string) (open_flags mmap_prot mmap_flags : Z) (cb : filemap_cb) : prog result :=
  fd <- open path open_flags ;;
  tp_assert! (negb (fd =? -1), Some "file open error.") ;;
  let* (status, st_size) := stat path in
  tp_assert! (negb (status =? -1), Some "stat error.") ;;
  data <- mmap 0 st_size mmap_prot mmap_flags fd 0 ;;
  tp_assert! (negb (data =? MAP_FAILED), Some "mmap error.") ;;
  call_cb cb data st_size ;;
  status <- munmap data st_size ;;
  tp_assert! (negb (status =? -1), Some "munmap error.") ;;
  close fd ;;
  Ret None.

(** ** [mmap_file] *)

Record filemap_param := FilemapParam {
  fp_num : Z;
  open_flags : Z;
  mmap_prot : Z;
  mmap_flags : Z;
  fp_cb : filemap_cb;
}.

Definition filemap_params : list filemap_param :=
  [ FilemapParam 0 O_RDONLY PROT_EXEC MAP_SHARED CbRead;
    FilemapParam 1 O_RDONLY PROT_EXEC MAP_SHARED CbWrite;
    FilemapParam 2 O_RDONLY PROT_EXEC MAP_PRIVATE CbRead;
    FilemapParam 3 O_RDONLY PROT_EXEC MAP_PRIVATE CbWrite;
    FilemapParam 4 O_RDONLY PROT_READ MAP_SHARED CbRead;
    FilemapParam 5 O_RDONLY PROT_READ MAP_SHARED CbWrite;
    FilemapParam 6 O_RDONLY PROT_READ MAP_PRIVATE CbRead;
    FilemapParam 7 O_RDONLY PROT_READ MAP_PRIVATE CbWrite;
    FilemapParam 8 O_RDONLY PROT_WRITE MAP_SHARED CbRead;
    FilemapParam 9 O_RDONLY PROT_WRITE MAP_SHARED CbWrite;
    FilemapParam 10 O_RDONLY PROT_WRITE MAP_PRIVATE CbRead;
    FilemapParam 11 O_RDONLY PROT_WRITE MAP_PRIVATE CbWrite;
    FilemapParam 12 O_RDONLY PROT_NONE MAP_SHARED CbRead;
    FilemapParam 13 O_RDONLY PROT_NONE MAP_SHARED CbWrite;
    FilemapParam 14 O_RDONLY PROT_NONE MAP_PRIVATE CbRead;
    FilemapParam 15 O_RDONLY PROT_NONE MAP_PRIVATE CbWrite;
    FilemapParam 16 O_WRONLY PROT_EXEC MAP_SHARED CbRead;
    FilemapParam 17 O_WRONLY PROT_EXEC MAP_SHARED CbWrite;
    FilemapParam 18 O_WRONLY PROT_EXEC MAP_PRIVATE CbRead;
    FilemapParam 19 O_WRONLY PROT_EXEC MAP_PRIVATE CbWrite;
    FilemapParam 20 O_WRONLY PROT_READ MAP_SHARED CbRead;
    FilemapParam 21 O_WRONLY PROT_READ MAP_SHARED CbWrite;
    FilemapParam 22 O_WRONLY PROT_READ MAP_PRIVATE CbRead;
    FilemapParam 23 O_WRONLY PROT_READ MAP_PRIVATE CbWrite;
    FilemapParam 24 O_WRONLY PROT_WRITE MAP_SHARED CbRead;
    FilemapParam 25 O_WRONLY PROT_WRITE MAP_SHARED CbWrite;
    FilemapParam 26 O_WRONLY PROT_WRITE MAP_PRIVATE CbRead;
    FilemapParam 27 O_WRONLY PROT_WRITE MAP_PRIVATE CbWrite;
    FilemapParam 28 O_WRONLY PROT_NONE MAP_SHARED CbRead;
    FilemapParam 29 O_WRONLY PROT_NONE MAP_SHARED CbWrite;
    FilemapParam 30 O_WRONLY PROT_NONE MAP_PRIVATE CbRead;
    FilemapParam 31 O_WRONLY PROT_NONE MAP_PRIVATE CbWrite;
    FilemapParam 32 O_RDWR PROT_EXEC MAP_SHARED CbRead;
    FilemapParam 33 O_RDWR PROT_EXEC MAP_SHARED CbWrite;
    FilemapParam 34 O_RDWR PROT_EXEC MAP_PRIVATE CbRead;
    FilemapParam 35 O_RDWR PROT_EXEC MAP_PRIVATE CbWrite;
    FilemapParam 36 O_RDWR PROT_READ MAP_SHARED CbRead;
    FilemapParam 37 O_RDWR PROT_READ MAP_SHARED CbWrite;
    FilemapParam 38 O_RDWR PROT_READ MAP_PRIVATE CbRead;
    FilemapParam 39 O_RDWR PROT_READ MAP_PRIVATE CbWrite;
    FilemapParam 40 O_RDWR PROT_WRITE MAP_SHARED CbRead;
    FilemapParam 41 O_RDWR PROT_WRITE MAP_SHARED CbWrite;
    FilemapParam 42 O_RDWR PROT_WRITE MAP_PRIVATE CbRead;
    FilemapParam 43 O_RDWR PROT_WRITE MAP_PRIVATE CbWrite;
    FilemapParam 44 O_RDWR PROT_NONE MAP_SHARED CbRead;
    FilemapParam 45 O_RDWR PROT_NONE MAP_SHARED CbWrite;
    FilemapParam 46 O_RDWR PROT_NONE MAP_PRIVATE CbRead;
    FilemapParam 47 O_RDWR PROT_NONE MAP_PRIVATE CbWrite;
    FilemapParam 48 O_RDWR PROT_WRITE MAP_SHARED CbReadWrite ].

Section MmapFile.
(** What the code does through a parameter pointer that was never set. *)
Context (stray : prog result).

Definition mmap_file_run (tc_num : Z) (args : option (option string)) : prog result :=
  args_file args "invalid file path." (fun file =>
  let param := List.find (fun p => fp_num p =? tc_num) filemap_params in
  tp_assert! (negb (tc_num =? Z.of_nat (List.length filemap_params)), Some "invalid tc#.") ;;
  match param with
  | Some p => filemap_do_map file (open_flags p) (mmap_prot p) (mmap_flags p) (fp_cb p)
  | None => stray
  end).

Definition mmap_file0 : test_case :=
  TestCase "mmap_file" 0 _ (fun _ => filemap_parse_args) (run_const mmap_file_run) TEARDOWN_EMPTY.
(** The cases 1-48 are aliases of case 0. *)
Definition mmap_file_alias (n : Z) : test_case :=
  TestCase "mmap_file" n _ (SETUP_ALIAS n (fun _ => filemap_parse_args))
    (RUN_ALIAS n (run_const mmap_file_run)) (TEARDOWN_ALIAS n TEARDOWN_EMPTY).
Definition mmap_file1 := mmap_file_alias 1.
Definition mmap_file2 := mmap_file_alias 2.
Definition mmap_file3 := mmap_file_alias 3.
Definition mmap_file4 := mmap_file_alias 4.
Definition mmap_file5 := mmap_file_alias 5.
Definition mmap_file6 := mmap_file_alias 6.
Definition mmap_file7 := mmap_file_alias 7.
Definition mmap_file8 := mmap_file_alias 8.
Definition mmap_file9 := mmap_file_alias 9.
Definition mmap_file10 := mmap_file_alias 10.
Definition mmap_file11 := mmap_file_alias 11.
Definition mmap_file12 := mmap_file_alias 12.
Definition mmap_file13 := mmap_file_alias 13.
Definition mmap_file14 := mmap_file_alias 14.
Definition mmap_file15 := mmap_file_alias 15.
Definition mmap_file16 := mmap_file_alias 16.
Definition mmap_file17 := mmap_file_alias 17.
Definition mmap_file18 := mmap_file_alias 18.
Definition mmap_file19 := mmap_file_alias 19.
Definition mmap_file20 := mmap_file_alias 20.
Definition mmap_file21 := mmap_file_alias 21.
Definition mmap_file22 := mmap_file_alias 22.
Definition mmap_file23 := mmap_file_alias 23.
Definition mmap_file24 := mmap_file_alias 24.
Definition mmap_file25 := mmap_file_alias 25.
Definition mmap_file26 := mmap_file_alias 26.
Definition mmap_file27 := mmap_file_alias 27.
Definition mmap_file28 := mmap_file_alias 28.
Definition mmap_file29 := mmap_file_alias 29.
Definition mmap_file30 := mmap_file_alias 30.
Definition mmap_file31 := mmap_file_alias 31.
Definition mmap_file32 := mmap_file_alias 32.
Definition mmap_file33 := mmap_file_alias 33.
Definition mmap_file34 := mmap_file_alias 34.
Definition mmap_file35 := mmap_file_alias 35.
Definition mmap_file36 := mmap_file_alias 36.
Definition mmap_file37 := mmap_file_alias 37.
Definition mmap_file38 := mmap_file_alias 38.
Definition mmap_file39 := mmap_file_alias 39.
Definition mmap_file40 := mmap_file_alias 40.
Definition mmap_file41 := mmap_file_alias 41.
Definition mmap_file42 := mmap_file_alias 42.
Definition mmap_file43 := mmap_file_alias 43.
Definition mmap_file44 := mmap_file_alias 44.
Definition mmap_file45 := mmap_file_alias 45.
Definition mmap_file46 := mmap_file_alias 46.
Definition mmap_file47 := mmap_file_alias 47.
Definition mmap_file48 := mmap_file_alias 48.

Definition mmap_file_cases : list test_case :=
  [mmap_file0; mmap_file1; mmap_file2; mmap_file3; mmap_file4; mmap_file5; mmap_file6; mmap_file7; mmap_file8;
   mmap_file9; mmap_file10; mmap_file11; mmap_file12; mmap_file13; mmap_file14; mmap_file15;
   mmap_file16; mmap_file17; mmap_file18; mmap_file19; mmap_file20; mmap_file21; mmap_file22;
   mmap_file23; mmap_file24; mmap_file25; mmap_file26; mmap_file27; mmap_file28; mmap_file29;
   mmap_file30; mmap_file31; mmap_file32; mmap_file33; mmap_file34; mmap_file35; mmap_file36;
   mmap_file37; mmap_file38; mmap_file39; mmap_file40; mmap_file41; mmap_file42; mmap_file43;
   mmap_file44; mmap_file45; mmap_file46; mmap_file47; mmap_file48].
End MmapFile.

(** ** [mmap_populate] 0 and [mmap_locked] 0 *)

(** The two tests differ in the flags of the mapping. *)
Definition map_once_run (flags tc_num : Z) (args : option (option string)) : prog result :=
  args_file args "invalid -f option." (fun file =>
  tp_assert! (0 <=? tc_num, Some "invalid tp number.") ;;
  fd <- open file O_RDWR ;;
  tp_assert! (negb (fd =? -1), Some "file open error.") ;;
  let* (status, st_size) := stat file in
  tp_assert! (negb (status =? -1), Some "stat error.") ;;
  addr <- mmap 0 st_size (Z.lor PROT_READ PROT_WRITE) flags fd 0 ;;
  tp_assert! (negb (addr =? MAP_FAILED), Some "mmap error.") ;;
  status <- munmap addr st_size ;;
  tp_assert! (negb (status =? -1), Some "munmap error.") ;;
  close fd ;;
  Ret None).

Definition mmap_populate_flags : Z := Z.lor MAP_PRIVATE MAP_POPULATE.
Definition mmap_locked_flags : Z := Z.lor (Z.lor MAP_PRIVATE MAP_LOCKED) MAP_ANONYMOUS.
Definition mmap_populate0 : test_case :=
  TestCase "mmap_populate" 0 _ (fun _ => mmap_populate_parse_args)
    (run_const (map_once_run mmap_populate_flags)) TEARDOWN_EMPTY.
Definition mmap_locked0 : test_case :=
  TestCase "mmap_locked" 0 _ (fun _ => mmap_locked_parse_args)
    (run_const (map_once_run mmap_locked_flags)) TEARDOWN_EMPTY.

(** ** [madvise] 0-15 *)

Definition MADV_NORMAL : Z := 0.
Definition MADV_RANDOM : Z := 1.
Definition MADV_SEQUENTIAL : Z := 2.
Definition MADV_WILLNEED : Z := 3.
Definition MADV_DONTNEED : Z := 4.
Definition MADV_REMOVE : Z := 9.
Definition MADV_DONTFORK : Z := 10.
Definition MADV_DOFORK : Z := 11.
Definition MADV_MERGEABLE : Z := 12.
Definition MADV_UNMERGEABLE : Z := 13.
Definition MADV_HUGEPAGE : Z := 14.
Definition MADV_NOHUGEPAGE : Z := 15.
Definition MADV_DONTDUMP : Z := 16.
Definition MADV_DODUMP : Z := 17.
Definition MADV_HWPOISON : Z := 100.
Definition MADV_SOFT_OFFLINE : Z := 101.
Definition TEST_MADV_SUCCESS : Z := 0.
Definition TEST_MADV_FAILUER : Z := -1.
Definition EACCES : Z := 13.

(** "abcdefghijklmnopqrstuvwxyz12345\n". *)
Definition str_for_file : list Z :=
  [97; 98; 99; 100; 101; 102; 103; 104; 105; 106; 107; 108; 109; 110; 111; 112; 113; 114; 115; 116; 117;
   118; 119; 120; 121; 122; 49; 50; 51; 52; 53; 10].

Fixpoint write_rounds (n : nat) (fd : Z) (k : prog result) : prog result :=
  match n with
  | O => k
  | S n =>
      wrote_len <- write fd str_for_file ;;
      tp_assert! (negb (wrote_len =? -1), Some "write failed") ;;
      write_rounds n fd k
  end.

(** The path is not null: the caller has checked it. *)
Definition madvise_simple (path : string) (advise_flags expect_result expect_error : Z) : prog result :=
  fd <- open path (Z.lor O_RDWR O_CREAT) ;;
  tp_assert! (negb (fd =? -1), Some "file open error.") ;;
  write_rounds 1280 fd (
  let* (status, st_size) := fstat fd in
  tp_assert! (negb (status =? -1), Some "stat error.") ;;
  data <- mmap 0 st_size PROT_READ MAP_SHARED fd 0 ;;
  tp_assert! (negb (data =? MAP_FAILED), Some "mmap error.") ;;
  set_errno 0 ;;
  status <- madvise data st_size advise_flags ;;
  tp_assert! (status =? expect_result, Some "madvise error.") ;;
  e <- errno ;;
  tp_assert! (e =? expect_error, Some "madvise unexpected error occur.") ;;
  status <- munmap data st_size ;;
  tp_assert! (negb (status =? -1), Some "munmap error.") ;;
  close fd ;;
  Ret None).

Record madvise000_param := MadviseParam { advise_flags : Z; expect_result : Z; expect_error : Z }.

Definition madvise000_params : list madvise000_param :=
  [ MadviseParam MADV_DONTNEED TEST_MADV_SUCCESS 0;
    MadviseParam MADV_NORMAL TEST_MADV_SUCCESS 0;
    MadviseParam MADV_RANDOM TEST_MADV_SUCCESS 0;
    MadviseParam MADV_SEQUENTIAL TEST_MADV_SUCCESS 0;
    MadviseParam MADV_WILLNEED TEST_MADV_SUCCESS 0;
    MadviseParam MADV_REMOVE TEST_MADV_FAILUER EACCES;
    MadviseParam MADV_DONTFORK TEST_MADV_SUCCESS 0;
    MadviseParam MADV_DOFORK TEST_MADV_SUCCESS 0;
    MadviseParam MADV_DODUMP TEST_MADV_SUCCESS 0;
    MadviseParam MADV_DONTDUMP TEST_MADV_SUCCESS 0;
    MadviseParam MADV_MERGEABLE TEST_MADV_FAILUER EINVAL;
    MadviseParam MADV_UNMERGEABLE TEST_MADV_FAILUER EINVAL;
    MadviseParam MADV_HUGEPAGE TEST_MADV_FAILUER EINVAL;
    MadviseParam MADV_NOHUGEPAGE TEST_MADV_FAILUER EINVAL;
    MadviseParam MADV_HWPOISON TEST_MADV_FAILUER EPERM;
    MadviseParam MADV_SOFT_OFFLINE TEST_MADV_FAILUER EPERM;
    MadviseParam (-1) (-1) (-1);
    MadviseParam (-1) (-1) (-1) ].

Definition madvise_run_000 (tc_num : Z) (args : option (option string)) : prog result :=
  args_file args "invalid -f option." (fun file =>
  tp_assert! (0 <=? tc_num, Some "invalid tp number.") ;;
  tp_assert! (tc_num <? Z.of_nat (List.length madvise000_params), Some "invalid tp number.") ;;
  let param := nth (Z.to_nat tc_num) madvise000_params (MadviseParam 0 0 0) in
  madvise_simple file (advise_flags param) (expect_result param) (expect_error param)).

Definition madvise0 : test_case :=
  TestCase "madvise" 0 _ (fun _ => madvise_parse_args) (run_const madvise_run_000) TEARDOWN_EMPTY.
Definition madvise_alias (n : Z) : test_case :=
  TestCase "madvise" n _ (SETUP_ALIAS n (fun _ => madvise_parse_args))
    (RUN_ALIAS n (run_const madvise_run_000)) (TEARDOWN_ALIAS n TEARDOWN_EMPTY).
Definition madvise1 := madvise_alias 1.
Definition madvise2 := madvise_alias 2.
Definition madvise3 := madvise_alias 3.
Definition madvise4 := madvise_alias 4.
Definition madvise5 := madvise_alias 5.
Definition madvise6 := madvise_alias 6.
Definition madvise7 := madvise_alias 7.
Definition madvise8 := madvise_alias 8.
Definition madvise9 := madvise_alias 9.
Definition madvise10 := madvise_alias 10.
Definition madvise11 := madvise_alias 11.
Definition madvise12 := madvise_alias 12.
Definition madvise13 := madvise_alias 13.
Definition madvise14 := madvise_alias 14.
Definition madvise15 := madvise_alias 15.

Definition madvise_cases : list test_case :=
  [madvise0; madvise1; madvise2; madvise3; madvise4; madvise5; madvise6; madvise7; madvise8; madvise9; madvise10;
   madvise11; madvise12; madvise13; madvise14; madvise15].
