(* ===== verification/FileSpec.v ===== *)
(** * The file mapping suites on a documented kernel

    [fview] is what the tests can observe of the one file they are given: its
    bytes, the descriptor it is open under, the mapping of it.  [FileKernel]
    says that a kernel's file and memory calls act on it as the manual pages
    document.  The theorems give the exact outcome of every case: the verdict,
    the signal that ends it, and the bytes of the file afterwards. *)
From S2P Require Import Prelude Process Trace CLib TestMck AddrSpace MemInfo FileMap.
From Stdlib Require Import Ascii String.
#[local] Open Scope string_scope.
#[local] Open Scope Z_scope.

Definition ENOENT : Z := 2.
Definition EAGAIN : Z := 11.

(** ** The file as the process sees it *)

(** A mapping of the whole file; [fm_private] holds the bytes of a private
    mapping, [None] stands for the file's own. *)
Record fmapping := FMapping { fm_addr : Z; fm_len : Z; fm_prot : Z; fm_private : option (list Z) }.

Record fopen_file := FOpen { fo_fd : Z; fo_mode : Z; fo_pos : nat }.

Record fview := FView {
  fv_data : option (list Z);
  fv_fd : option fopen_file;
  fv_map : option fmapping;
}.

Definition access_mode (flags : Z) : Z := Z.land flags 3.

Definition bytes_of (v : fview) (m : fmapping) : list Z :=
  match fm_private m with Some b => b | None => default [] (fv_data v) end.

(** A byte stored through the mapping. *)
Definition store_byte (o : nat) (b : Z) (m : fmapping) (v : fview) : fview :=
  match fm_private m with
  | Some p => FView (fv_data v) (fv_fd v) (Some (FMapping (fm_addr m) (fm_len m) (fm_prot m) (Some (<[o := b]> p))))
  | None => FView (fmap (M := option) (<[o := b]>) (fv_data v)) (fv_fd v) (fv_map v)
  end.

(** [bytes] written at position [pos]. *)
Definition overwrite (pos : nat) (bytes d : list Z) : list Z :=
  take pos d ++ replicate (pos - List.length d) 0 ++ bytes ++ drop (pos + List.length bytes) d.

(** ** The interface *)

Section Errors.
Context (may_open : Z -> bool) (noexec : bool) (lockable : Z -> bool).

Definition open_err (flags : Z) (v : fview) : option Z :=
  match fv_data v with
  | None => if has flags O_CREAT then (if may_open (access_mode flags) then None else Some EACCES) else Some ENOENT
  | Some _ => if may_open (access_mode flags) then None else Some EACCES
  end.

(** The errors of [mmap] in the order the manual page lists their causes. *)
Definition mmap_err (mode prot flags len : Z) : option Z :=
  if len =? 0 then Some EINVAL
  else if has flags MAP_ANONYMOUS then
    if has flags MAP_LOCKED && negb (lockable len) then Some EAGAIN else None
  else if mode =? O_WRONLY then Some EACCES
  else if has flags MAP_SHARED && has prot PROT_WRITE && negb (mode =? O_RDWR) then Some EACCES
  else if has prot PROT_EXEC && noexec then Some EPERM
  else None.
End Errors.

Definition mapped_bytes (flags len : Z) (d : list Z) : option (list Z) :=
  if has flags MAP_ANONYMOUS then Some (replicate (Z.to_nat len) 0)
  else if has flags MAP_SHARED then None else Some d.

(** The advice every kernel knows. *)
Definition plain_advice : list Z :=
  [MADV_NORMAL; MADV_RANDOM; MADV_SEQUENTIAL; MADV_WILLNEED; MADV_DONTNEED; MADV_DONTFORK; MADV_DOFORK;
   MADV_DODUMP; MADV_DONTDUMP].

Class FileKernel (K : kernel) (path : string) := {
  view : kstate K -> fview;
  (** The file's permissions, what the processor lets be read, whether the file
      system forbids execution, how much may be locked, and the answer to an
      advice for a shared mapping that is only read. *)
  may_open : Z -> bool;
  can_load : Z -> bool;
  noexec : bool;
  lockable : Z -> bool;
  advice : Z -> Z;
  can_load_read prot : has prot PROT_READ = true -> can_load prot = true;
  can_load_none : can_load PROT_NONE = false;
  advice_range a : advice a = 0 \/ exists e, 1 <= e <= 4095 /\ advice a = - e;
  advice_plain a : In a plain_advice -> advice a = 0;
  advice_remove : advice MADV_REMOVE = - EACCES;
  file_open s flags : fv_fd (view s) = None ->
    match open_err may_open flags (view s) with
    | Some e => exists s', kstep K (Open path flags) s = (s', - e) /\ view s' = view s
    | None => exists s' fd, kstep K (Open path flags) s = (s', fd) /\ 0 <= fd < 2 ^ 31 /\
        view s' = FView (Some (default [] (fv_data (view s)))) (Some (FOpen fd (access_mode flags) 0)) (fv_map (view s))
    end;
  file_stat s d : fv_data (view s) = Some d ->
    exists s', kstep K (Filec (Stat path)) s = (s', (0, Z.of_nat (List.length d))) /\ view s' = view s;
  file_fstat s d f : fv_data (view s) = Some d -> fv_fd (view s) = Some f ->
    exists s', kstep K (Filec (Fstat (fo_fd f))) s = (s', (0, Z.of_nat (List.length d))) /\ view s' = view s;
  file_write s d f bytes : fv_data (view s) = Some d -> fv_fd (view s) = Some f -> fo_mode f <> O_RDONLY ->
    exists s', kstep K (Write (fo_fd f) bytes) s = (s', Z.of_nat (List.length bytes)) /\
      view s' = FView (Some (overwrite (fo_pos f) bytes d))
                  (Some (FOpen (fo_fd f) (fo_mode f) (fo_pos f + List.length bytes))) (fv_map (view s));
  file_mmap s d f prot flags :
    let len := Z.of_nat (List.length d) in
    fv_data (view s) = Some d -> fv_fd (view s) = Some f -> fv_map (view s) = None ->
    match mmap_err noexec lockable (fo_mode f) prot flags len with
    | Some e => exists s', kstep K (Mmap 0 len prot flags (fo_fd f) 0) s = (s', - e) /\ view s' = view s
    | None => exists s' a, kstep K (Mmap 0 len prot flags (fo_fd f) 0) s = (s', a) /\ 0 < a < 2 ^ 63 /\
        view s' = FView (Some d) (Some f) (Some (FMapping a len prot (mapped_bytes flags len d)))
    end;
  file_load s m o : fv_map (view s) = Some m -> Z.of_nat o < fm_len m ->
    exists s', kstep K (Load (fm_addr m + Z.of_nat o)) s =
        (s', if can_load (fm_prot m) then inl (nth o (bytes_of (view s) m) 0) else inr SIGSEGV) /\
      view s' = view s;
  file_store s m o b : fv_map (view s) = Some m -> Z.of_nat o < fm_len m ->
    exists s', kstep K (Store (fm_addr m + Z.of_nat o) b) s =
        (s', if has (fm_prot m) PROT_WRITE then inl tt else inr SIGSEGV) /\
      view s' = if has (fm_prot m) PROT_WRITE then store_byte o b m (view s) else view s;
  file_munmap s m : fv_map (view s) = Some m ->
    exists s', kstep K (Munmap (fm_addr m) (fm_len m)) s = (s', 0) /\
      view s' = FView (fv_data (view s)) (fv_fd (view s)) None;
  file_close s f : fv_fd (view s) = Some f ->
    exists s', kstep K (Close (fo_fd f)) s = (s', 0) /\
      view s' = FView (fv_data (view s)) None (fv_map (view s));
  file_madvise s m a : fv_map (view s) = Some m -> fm_prot m = PROT_READ -> fm_private m = None ->
    exists s', kstep K (Memc (Madvise (fm_addr m) (fm_len m) a)) s = (s', advice a) /\ view s' = view s;
}.

(** ** The wrappers on such a kernel *)

Section Calls.
Context (K : kernel) (path : string) `{FileKernel K path}.
Implicit Type w : world K.

Lemma err_range mode prot flags len e :
  mmap_err noexec lockable mode prot flags len = Some e -> 1 <= e <= 4095.
Proof.
  unfold mmap_err. repeat case_match; intros [= <-]; compute; split; discriminate.
Qed.

Lemma open_err_range flags v e : open_err may_open flags v = Some e -> 1 <= e <= 4095.
Proof. unfold open_err. repeat case_match; intros [= <-]; compute; split; discriminate. Qed.

(** ** The accesses of the callbacks *)

(** Whether the callback faults, and whether it has written by then. *)
Definition cb_faults (cb : filemap_cb) (prot : Z) : bool :=
  match cb with
  | CbRead => negb (can_load prot)
  | _ => negb (has prot PROT_WRITE) || negb (can_load prot)
  end.
Definition cb_writes (cb : filemap_cb) (prot : Z) : bool :=
  match cb with
  | CbRead => false
  | CbWrite => has prot PROT_WRITE
  | CbReadWrite => has prot PROT_WRITE && can_load prot
  end.

Lemma run_load {A} m pr s (k : Z -> prog A) : fv_map (view s) = Some m -> 0 < fm_len m ->
  exists s', view s' = view s /\
    run K (bind (load (fm_addr m)) k) (World pr s) =
    if can_load (fm_prot m) then run K (k (nth 0 (bytes_of (view s) m) 0)) (World pr s')
    else (deliver SIGSEGV pr, World pr s').
Proof.
  intros Hm Hl. destruct (file_load s m 0 Hm Hl) as (s' & E & Hv). exists s'. split; [exact Hv|].
  rewrite Z.add_0_r in E. unfold load. rewrite run_bind_assoc. cbn. rewrite E.
  destruct (can_load (fm_prot m)); reflexivity.
Qed.

Lemma run_store {A} m b pr s (k : unit -> prog A) : fv_map (view s) = Some m -> 0 < fm_len m ->
  exists s', view s' = (if has (fm_prot m) PROT_WRITE then store_byte 0 b m (view s) else view s) /\
    run K (bind (store (fm_addr m) b) k) (World pr s) =
    if has (fm_prot m) PROT_WRITE then run K (k tt) (World pr s')
    else (deliver SIGSEGV pr, World pr s').
Proof.
  intros Hm Hl. destruct (file_store s m 0 b Hm Hl) as (s' & E & Hv). exists s'. split; [exact Hv|].
  rewrite Z.add_0_r in E. unfold store. rewrite run_bind_assoc. cbn. rewrite E.
  destruct (has (fm_prot m) PROT_WRITE); reflexivity.
Qed.

(** The mapping after an access is at the same place, the file open as before. *)
Definition same_place (m : fmapping) (v v' : fview) : Prop :=
  fv_fd v' = fv_fd v /\
  exists m', fv_map v' = Some m' /\ fm_addr m' = fm_addr m /\ fm_len m' = fm_len m /\ fm_prot m' = fm_prot m /\
             (fm_private m' = None <-> fm_private m = None).
Definition touched (wr : bool) (m : fmapping) (v : fview) : option (list Z) :=
  if wr && bool_decide (fm_private m = None) then fmap (M := option) (<[0%nat := 90]>) (fv_data v) else fv_data v.

Lemma same_place_refl m v : fv_map v = Some m -> same_place m v v.
Proof. intros Hm. split; [reflexivity|]. exists m. tauto. Qed.

Lemma store_byte_place m v : fv_map v = Some m ->
  same_place m v (store_byte 0 90 m v) /\ fv_data (store_byte 0 90 m v) = touched true m v.
Proof.
  intros Hm. unfold store_byte, touched, same_place. destruct m as [a l p [b|]]; cbn.
  - split; [|reflexivity]. split; [reflexivity|]. eexists. split; [reflexivity|]. cbn. intuition discriminate.
  - split; [|reflexivity]. split; [reflexivity|]. eexists. split; [exact Hm|]. cbn. tauto.
Qed.

Lemma run_cb_read {A} m n pr s (k : unit -> prog A) :
  fv_map (view s) = Some m -> 0 < fm_len m -> p_sigs pr SIGSEGV = None ->
  exists s' pr', view s' = view s /\ p_sigs pr' SIGSEGV = None /\
    run K (bind (filemap_cb_read (fm_addr m) n) k) (World pr s) =
    if can_load (fm_prot m) then run K (k tt) (World pr' s') else (Killed SIGSEGV, World pr' s').
Proof.
  intros Hm Hl Hp. unfold filemap_cb_read.
  destruct (run_load m pr s (fun x => bind (printf "%c\n" [PZ x]) k) Hm Hl) as (s' & Hv & E).
  exists s', (if can_load (fm_prot m) then with_line ("%c\n", [PZ (nth 0 (bytes_of (view s) m) 0)]) pr else pr).
  split; [exact Hv|]. split; [now destruct (can_load (fm_prot m))|].
  rewrite run_bind_assoc, E. destruct (can_load (fm_prot m)); [reflexivity|].
  unfold deliver. now rewrite Hp.
Qed.

Lemma run_cb_write {A} m n pr s (k : unit -> prog A) :
  fv_map (view s) = Some m -> 0 < fm_len m -> p_sigs pr SIGSEGV = None ->
  exists s' pr', same_place m (view s) (view s') /\ fv_data (view s') = touched (has (fm_prot m) PROT_WRITE) m (view s) /\
    p_sigs pr' SIGSEGV = None /\
    run K (bind (filemap_cb_write (fm_addr m) n) k) (World pr s) =
    if cb_faults CbWrite (fm_prot m) then (Killed SIGSEGV, World pr' s') else run K (k tt) (World pr' s').
Proof.
  intros Hm Hl Hp.
  destruct (run_store m 90 pr s (fun _ => bind (filemap_cb_read (fm_addr m) n) k) Hm Hl) as (s1 & Hv & E).
  assert (E0 : run K (bind (filemap_cb_write (fm_addr m) n) k) (World pr s) =
               run K (bind (store (fm_addr m) 90) (fun _ => bind (filemap_cb_read (fm_addr m) n) k)) (World pr s)).
  { unfold filemap_cb_write. rewrite run_bind_assoc. reflexivity. }
  rewrite E0.
  rewrite E. unfold cb_faults. destruct (has (fm_prot m) PROT_WRITE); cbn [negb orb].
  - destruct (store_byte_place m (view s) Hm) as [(Hfd & m' & Hm' & Ha & Hl' & Hpr & Hpv) Hd].
    rewrite <- Hv in Hfd, Hm', Hd. rewrite <- Ha.
    destruct (run_cb_read m' n pr s1 k Hm' ltac:(lia) Hp) as (s2 & pr2 & Hv2 & Hp2 & E2).
    exists s2, pr2. rewrite Hv2. split; [split; [exact Hfd|]; exists m'; tauto|]. split; [exact Hd|]. split; [exact Hp2|].
    rewrite E2, Hpr. destruct (can_load (fm_prot m)); reflexivity.
  - exists s1, pr. rewrite Hv. split; [now apply same_place_refl|]. split; [reflexivity|]. split; [exact Hp|].
    unfold deliver. now rewrite Hp.
Qed.

Lemma run_cb {A} cb m n pr s (k : unit -> prog A) :
  fv_map (view s) = Some m -> 0 < fm_len m -> p_sigs pr SIGSEGV = None ->
  exists s' pr', same_place m (view s) (view s') /\
    fv_data (view s') = touched (cb_writes cb (fm_prot m)) m (view s) /\ p_sigs pr' SIGSEGV = None /\
    run K (bind (call_cb cb (fm_addr m) n) k) (World pr s) =
    if cb_faults cb (fm_prot m) then (Killed SIGSEGV, World pr' s') else run K (k tt) (World pr' s').
Proof.
  intros Hm Hl Hp. destruct cb; cbn [call_cb cb_writes].
  - destruct (run_cb_read m n pr s k Hm Hl Hp) as (s' & pr' & Hv & Hp' & E). exists s', pr'.
    rewrite Hv. split; [now apply same_place_refl|]. split; [reflexivity|]. split; [exact Hp'|].
    rewrite E. unfold cb_faults. now destruct (can_load (fm_prot m)).
  - now apply run_cb_write.
  - unfold filemap_cb_read_write.
    destruct (run_cb_read m n pr s (fun _ => bind (filemap_cb_write (fm_addr m) n) k) Hm Hl Hp)
      as (s1 & pr1 & Hv1 & Hp1 & E1).
    rewrite run_bind_assoc, E1. unfold cb_faults. destruct (can_load (fm_prot m)) eqn:El; cbn [negb].
    + rewrite <- Hv1 in Hm. destruct (run_cb_write m n pr1 s1 k Hm Hl Hp1) as (s2 & pr2 & Hs & Hd & Hp2 & E2).
      rewrite Hv1 in Hs, Hd. exists s2, pr2. rewrite andb_true_r. split; [exact Hs|]. split; [exact Hd|].
      split; [exact Hp2|]. rewrite E2. unfold cb_faults. now rewrite El.
    + exists s1, pr1. rewrite Hv1, andb_false_r, orb_true_r. split; [now apply same_place_refl|]. auto.
Qed.

(** ** [filemap_do_map] *)

(** Nothing of the file is open or mapped, and a fault kills the process. *)
Definition fresh (d : list Z) w : Prop :=
  view (w_k w) = FView (Some d) None None /\ p_sigs (w_proc w) SIGSEGV = None.

Definition map_error (o prot flags : Z) (d : list Z) : option Z :=
  mmap_err noexec lockable (access_mode o) prot flags (Z.of_nat (List.length d)).

Definition map_outcome (o prot flags : Z) (cb : filemap_cb) (d : list Z) : outcome result :=
  if negb (may_open (access_mode o)) then Done (Some "file open error.")
  else match map_error o prot flags d with
       | Some _ => Done (Some "mmap error.")
       | None => if cb_faults cb prot then Killed SIGSEGV else Done None
       end.

(** The file afterwards: its first byte is ['Z'] if a shared mapping of it was
    written. *)
Definition map_data (o prot flags : Z) (cb : filemap_cb) (d : list Z) : list Z :=
  match map_error o prot flags d with
  | None => if may_open (access_mode o) && cb_writes cb prot && bool_decide (mapped_bytes flags (Z.of_nat (List.length d)) d = None)
            then <[0%nat := 90]> d else d
  | Some _ => d
  end.

(** Opening the file. *)
Lemma run_open {A} flags d pr s (k : Z -> prog A) : view s = FView (Some d) None None ->
  if may_open (access_mode flags) then
    exists s' fd, 0 <= fd /\ view s' = FView (Some d) (Some (FOpen fd (access_mode flags) 0)) None /\
      run K (bind (open path flags) k) (World pr s) = run K (k fd) (World pr s')
  else exists s' pr', view s' = view s /\ run K (bind (open path flags) k) (World pr s) = run K (k (-1)) (World pr' s').
Proof.
  intros Hv. pose proof (file_open s flags) as Ho. rewrite Hv in Ho. specialize (Ho eq_refl).
  unfold open_err in Ho. cbn [fv_data default fv_map] in Ho. destruct (may_open (access_mode flags)).
  - destruct Ho as (s' & fd & E & Hfd & Hv'). exists s', fd. split; [lia|]. split; [exact Hv'|].
    apply (run_call_ok K (Open path flags) (fun x => x)); [exact E|lia].
  - destruct Ho as (s' & E & Hv'). exists s', (with_errno EACCES pr). split; [now rewrite Hv|].
    apply (run_call_err K (Open path flags) (fun x => x)) with (r := - EACCES); [exact E|reflexivity|compute; split; discriminate].
Qed.

Lemma run_stat {A} d pr s (k : Z * Z -> prog A) : fv_data (view s) = Some d ->
  exists s', view s' = view s /\
    run K (bind (stat path) k) (World pr s) = run K (k (0, Z.of_nat (List.length d))) (World pr s').
Proof.
  intros Hd. destruct (file_stat s d Hd) as (s' & E & Hv). exists s'. split; [exact Hv|].
  unfold stat. rewrite run_bind_assoc. cbn. rewrite E. cbn. reflexivity.
Qed.

Lemma run_mmap {A} d f prot flags pr s (k : Z -> prog A) : view s = FView (Some d) (Some f) None ->
  let len := Z.of_nat (List.length d) in
  match mmap_err noexec lockable (fo_mode f) prot flags len with
  | Some e => exists s' pr', view s' = view s /\
      run K (bind (mmap 0 len prot flags (fo_fd f) 0) k) (World pr s) = run K (k MAP_FAILED) (World pr' s')
  | None => exists s' a, 0 < a < 2 ^ 63 /\
      view s' = FView (Some d) (Some f) (Some (FMapping a len prot (mapped_bytes flags len d))) /\
      run K (bind (mmap 0 len prot flags (fo_fd f) 0) k) (World pr s) = run K (k a) (World pr s')
  end.
Proof.
  intros Hv len. pose proof (file_mmap s d f prot flags) as Hm. rewrite Hv in Hm.
  specialize (Hm eq_refl eq_refl eq_refl). fold len in Hm.
  destruct (mmap_err noexec lockable (fo_mode f) prot flags len) as [e|] eqn:Ee.
  - destruct Hm as (s' & E & Hv'). exists s', (with_errno e pr). split; [now rewrite Hv|].
    apply (run_call_err K (Mmap 0 len prot flags (fo_fd f) 0) (fun x => x)) with (r := - e);
      [exact E|reflexivity|now apply err_range in Ee].
  - destruct Hm as (s' & a & E & Ha & Hv'). exists s', a. split; [exact Ha|]. split; [exact Hv'|].
    apply (run_call_ok K (Mmap 0 len prot flags (fo_fd f) 0) (fun x => x)); [exact E|lia].
Qed.

(** Unmapping and closing, with the two final assertions. *)
Lemma run_unmap_close a m f pr s : fv_map (view s) = Some m -> fm_addr m = a -> fv_fd (view s) = Some f ->
  exists w', run K (status <- munmap a (fm_len m) ;;
                    tp_assert! (negb (status =? -1), Some "munmap error.") ;;
                    close (fo_fd f) ;; Ret None) (World pr s) = (Done None, w') /\
             fv_data (view (w_k w')) = fv_data (view s) /\ fv_fd (view (w_k w')) = None /\ fv_map (view (w_k w')) = None.
Proof.
  intros Hm <- Hf. destruct (file_munmap s m Hm) as (s1 & E1 & Hv1).
  assert (Hf1 : fv_fd (view s1) = Some f) by now rewrite Hv1.
  destruct (file_close s1 f Hf1) as (s2 & E2 & Hv2). exists (World pr s2). split.
  - unfold munmap. rewrite (run_call_ok K (Munmap (fm_addr m) (fm_len m)) (fun x => x) _ _ _ _ _ _ E1) by lia.
    cbn [Z.eqb negb tp_assert]. unfold close.
    now rewrite (run_call_ok K (Close (fo_fd f)) (fun x => x) _ _ _ _ _ _ E2) by lia.
  - cbn [w_k]. rewrite Hv2, Hv1. auto.
Qed.

Lemma map_error_pos o prot flags d : map_error o prot flags d = None -> 0 < Z.of_nat (List.length d).
Proof. unfold map_error, mmap_err. destruct (Z.eqb_spec (Z.of_nat (List.length d)) 0); [discriminate|lia]. Qed.

Lemma run_do_map o prot flags cb d w : fresh d w ->
  exists w', run K (filemap_do_map path o prot flags cb) w = (map_outcome o prot flags cb d, w') /\
             fv_data (view (w_k w')) = Some (map_data o prot flags cb d).
Proof.
  destruct w as [pr s]. intros [Hv Hp]. cbn in Hv, Hp. unfold filemap_do_map, map_outcome, map_data, result.
  match goal with |- context [bind (open path o) ?k] => pose proof (run_open o d pr s k Hv) as Ho end.
  destruct (may_open (access_mode o)); cbn [negb andb].
  2: { destruct Ho as (s1 & pr1 & Hv1 & ->). eexists. split; [reflexivity|]. cbn. rewrite Hv1, Hv.
       now destruct (map_error o prot flags d). }
  destruct Ho as (s1 & fd & Hfd & Hv1 & ->).
  replace (fd =? -1) with false by (symmetry; apply Z.eqb_neq; lia). cbn [negb tp_assert].
  match goal with |- context [bind (stat path) ?k] => destruct (run_stat d pr s1 k) as (s2 & Hv2 & ->) end;
    [now rewrite Hv1|].
  cbn [Z.eqb negb tp_assert]. rewrite Hv1 in Hv2.
  match goal with |- context [bind (mmap _ _ _ _ _ _) ?k] =>
    pose proof (run_mmap d (FOpen fd (access_mode o) 0) prot flags pr s2 k Hv2) as Hm end.
  cbn [fo_mode fo_fd] in Hm. fold (map_error o prot flags d) in Hm.
  destruct (map_error o prot flags d) as [e|] eqn:Ee.
  { destruct Hm as (s3 & pr3 & Hv3 & ->). eexists. split; [reflexivity|]. cbn. now rewrite Hv3, Hv2. }
  destruct Hm as (s3 & a & Ha & Hv3 & ->). apply map_error_pos in Ee.
  set (len := Z.of_nat (List.length d)) in *.
  replace (a =? MAP_FAILED) with false by (symmetry; apply Z.eqb_neq; unfold MAP_FAILED; lia). cbn [negb tp_assert].
  set (m := FMapping a len prot (mapped_bytes flags len d)) in *.
  match goal with |- context [bind (call_cb cb a len) ?k] =>
    destruct (run_cb cb m len pr s3 k) as (s4 & pr4 & (Hf4 & m4 & Hm4 & Ha4 & Hl4 & _) & Hd4 & Hp4 & E4) end;
    [now rewrite Hv3|exact Ee|exact Hp|]. cbn [fm_addr m fm_prot] in E4, Hd4.
  assert (Hd : fv_data (view s4) = Some (if cb_writes cb prot && bool_decide (mapped_bytes flags len d = None)
                                         then <[0%nat := 90]> d else d)).
  { rewrite Hd4, Hv3. unfold touched. cbn [fm_private fv_data]. now destruct (_ && _). }
  rewrite E4. destruct (cb_faults cb prot).
  - eexists. split; [reflexivity|]. exact Hd.
  - assert (Hf : fv_fd (view s4) = Some (FOpen fd (access_mode o) 0)) by now rewrite Hf4, Hv3.
    destruct (run_unmap_close a m4 _ pr4 s4 Hm4 Ha4 Hf) as (w' & E5 & Hd5 & _).
    exists w'. rewrite Hl4 in E5. cbn [fm_len m fo_fd] in E5. rewrite E5, Hd5. auto.
Qed.
End Calls.

(** ** [mmap_file] *)

(** A test whose setup parses [-f path] and whose run function does not change
    its arguments. *)
Lemma run_file_case K suite n (setup0 : Z -> list string -> prog (option (option string))) run0 app path o w w' :
  (forall x, setup0 x [app; "-f"; path] = Ret (Some (Some path))) ->
  run K (run0 n (Some (Some path))) w = (o, w') ->
  run K (run_test_case (TestCase suite n _ setup0 (run_const run0) TEARDOWN_EMPTY) [app; "-f"; path]) w = (o, w').
Proof.
  intros Hs Hr. unfold run_test_case. cbn [setup num tc_run teardown]. rewrite Hs. cbn [bind].
  unfold run_const. rewrite run_bind, run_bind, Hr. destruct o; reflexivity.
Qed.

(** C22.  The 49 cases of [mmap_file] on every kernel whose file and memory calls
    behave as documented, for every file: case [n] ends as
    its row of the table demands of the system.  It reports an open error if the
    permissions forbid the mode; a mapping error for an empty file, a file open
    for writing only, a shared writable mapping of a file not open for both, or
    an executable one where execution is forbidden; otherwise it is killed by
    the fault of its access if the protection forbids it, and passes if not.  The
    file is unchanged, except that its first byte is ['Z'] after a store through
    a shared mapping. *)
Theorem mmap_file_exact K path `{FileKernel K path} stray app d (w : world K) :
  fresh K path d w ->
  Forall2 (fun tc p =>
    exists w', run K (run_test_case tc [app; "-f"; path]) w =
                 (map_outcome K path (open_flags p) (mmap_prot p) (mmap_flags p) (fp_cb p) d, w') /\
               fv_data (view (w_k w')) = Some (map_data K path (open_flags p) (mmap_prot p) (mmap_flags p) (fp_cb p) d))
    (mmap_file_cases stray) filemap_params.
Proof.
  intros Hf.
  assert (C : forall n p, List.find (fun q => fp_num q =? n) filemap_params = Some p -> n <> 49 ->
    exists w', run K (mmap_file_run stray n (Some (Some path))) w =
                 (map_outcome K path (open_flags p) (mmap_prot p) (mmap_flags p) (fp_cb p) d, w') /\
               fv_data (view (w_k w')) = Some (map_data K path (open_flags p) (mmap_prot p) (mmap_flags p) (fp_cb p) d)).
  { intros n p Hn H49. unfold mmap_file_run. cbn [args_file]. rewrite Hn.
    replace (n =? Z.of_nat (List.length filemap_params)) with false by (symmetry; now apply Z.eqb_neq).
    cbn [negb tp_assert]. now apply run_do_map. }
  unfold mmap_file_cases, filemap_params.
  repeat apply List.Forall2_cons; try apply List.Forall2_nil;
    (match goal with |- context [FilemapParam ?n ?o ?p ?f ?c] =>
       destruct (C n (FilemapParam n o p f c) eq_refl) as (w' & E & Hd); [discriminate|];
       exists w'; split; [|exact Hd]; apply run_file_case; [reflexivity|exact E] end).
Qed.

(** ** [madvise] 0-15 *)

(** A file whose first bytes are [j] copies of the text. *)
Definition filled (j : nat) (d : list Z) : list Z :=
  List.concat (replicate j str_for_file) ++ drop (32 * j) d.

Lemma concat_text_length j : List.length (List.concat (replicate j str_for_file)) = (32 * j)%nat.
Proof. induction j as [|j IH]; [reflexivity|]. cbn [replicate List.concat]. rewrite length_app, IH. cbn. lia. Qed.

Lemma concat_text_end j : List.concat (replicate (S j) str_for_file) = (List.concat (replicate j str_for_file) ++ str_for_file)%list.
Proof. rewrite replicate_S_end, List.concat_app. cbn [List.concat]. now rewrite app_nil_r. Qed.

Lemma filled_next j d : overwrite (32 * j) str_for_file (filled j d) = filled (S j) d.
Proof.
  unfold overwrite, filled. pose proof (concat_text_length j) as Hl. rewrite concat_text_end, <- app_assoc.
  rewrite take_app_le by lia. rewrite take_ge by lia.
  replace (32 * j - List.length (List.concat (replicate j str_for_file) ++ drop (32 * j) d))%nat with 0%nat
    by (rewrite length_app; lia).
  cbn [replicate app]. rewrite drop_app_ge by lia. rewrite Hl, drop_drop.
  cbn [List.length str_for_file]. do 3 f_equal. lia.
Qed.

Section Madvise.
Context (K : kernel) (path : string) `{FileKernel K path}.

Lemma run_write_rounds n fd k d : forall j pr s,
  view s = FView (Some (filled j d)) (Some (FOpen fd O_RDWR (32 * j))) None ->
  exists s', view s' = FView (Some (filled (j + n) d)) (Some (FOpen fd O_RDWR (32 * (j + n)))) None /\
    run K (write_rounds n fd k) (World pr s) = run K k (World pr s').
Proof.
  induction n as [|n IH]; intros j pr s Hv.
  - exists s. rewrite Nat.add_0_r. auto.
  - destruct (file_write s (filled j d) (FOpen fd O_RDWR (32 * j)) str_for_file) as (s1 & E1 & Hv1);
      [now rewrite Hv|now rewrite Hv|discriminate|].
    cbn [fo_pos fo_fd fo_mode] in *. rewrite filled_next, Hv in Hv1. cbn [fv_map] in Hv1.
    destruct (IH (S j) pr s1) as (s' & Hv' & E'); [rewrite Hv1; do 3 f_equal; cbn [List.length str_for_file]; lia|].
    exists s'. rewrite Nat.add_succ_r. split; [exact Hv'|]. rewrite <- E'. cbn [write_rounds]. unfold write.
    rewrite (run_call_ok K (Write fd str_for_file) (fun x => x) _ _ _ _ _ _ E1) by (cbn; lia). reflexivity.
Qed.

(** Opening, or creating, the file. *)
Lemma run_open_create {A} od pr s (k : Z -> prog A) : view s = FView od None None ->
  if may_open O_RDWR then
    exists s' fd, 0 <= fd /\ view s' = FView (Some (default [] od)) (Some (FOpen fd O_RDWR 0)) None /\
      run K (bind (open path (Z.lor O_RDWR O_CREAT)) k) (World pr s) = run K (k fd) (World pr s')
  else exists s' pr', run K (bind (open path (Z.lor O_RDWR O_CREAT)) k) (World pr s) = run K (k (-1)) (World pr' s').
Proof.
  intros Hv. pose proof (file_open s (Z.lor O_RDWR O_CREAT)) as Ho. rewrite Hv in Ho. specialize (Ho eq_refl).
  assert (Ee : open_err may_open (Z.lor O_RDWR O_CREAT) (FView od None None) = if may_open O_RDWR then None else Some EACCES)
    by (destruct od; reflexivity).
  rewrite Ee in Ho. destruct (may_open O_RDWR).
  - destruct Ho as (s' & fd & E & Hfd & Hv'). exists s', fd. split; [lia|]. split; [exact Hv'|].
    apply (run_call_ok K (Open path (Z.lor O_RDWR O_CREAT)) (fun x => x)); [exact E|lia].
  - destruct Ho as (s' & E & Hv'). exists s', (with_errno EACCES pr).
    apply (run_call_err K (Open path (Z.lor O_RDWR O_CREAT)) (fun x => x)) with (r := - EACCES);
      [exact E|reflexivity|compute; split; discriminate].
Qed.

Lemma run_fstat {A} d f pr s (k : Z * Z -> prog A) : fv_data (view s) = Some d -> fv_fd (view s) = Some f ->
  exists s', view s' = view s /\
    run K (bind (fstat (fo_fd f)) k) (World pr s) = run K (k (0, Z.of_nat (List.length d))) (World pr s').
Proof.
  intros Hd Hf. destruct (file_fstat s d f Hd Hf) as (s' & E & Hv). exists s'. split; [exact Hv|].
  unfold fstat. rewrite run_bind_assoc. cbn. rewrite E. cbn. reflexivity.
Qed.

(** The advice itself, for a row of the table. *)
Lemma run_madvise {A} m a pr s (k : Z -> prog A) :
  fv_map (view s) = Some m -> fm_prot m = PROT_READ -> fm_private m = None ->
  exists s' pr' r, view s' = view s /\ run K (bind (madvise (fm_addr m) (fm_len m) a) k) (World pr s) = run K (k r) (World pr' s') /\
    (advice a = 0 /\ r = 0 /\ pr' = pr \/ r = -1 /\ pr' = with_errno (- advice a) pr /\ advice a < 0).
Proof.
  intros Hm Hp Hs. destruct (file_madvise s m a Hm Hp Hs) as (s' & E & Hv). unfold madvise.
  destruct (advice_range a) as [Ha|(e & He & Ha)].
  - exists s', pr, 0. rewrite Ha in E. split; [exact Hv|]. split; [|tauto].
    apply (run_call_ok K (Memc (Madvise (fm_addr m) (fm_len m) a)) (fun x => x)); [exact E|reflexivity].
  - exists s', (with_errno e pr), (-1). split; [exact Hv|]. split; [|right; rewrite Ha; split_and!; [reflexivity|f_equal|]; lia].
    apply (run_call_err K (Memc (Madvise (fm_addr m) (fm_len m) a)) (fun x => x)) with (r := - e);
      [rewrite <- Ha; exact E|reflexivity|exact He].
Qed.

(** The file is at least as long as what is written. *)
Lemma filled_pos d : (Z.of_nat (List.length (filled 1280 d)) =? 0) = false.
Proof. apply Z.eqb_neq. unfold filled. rewrite length_app, concat_text_length. lia. Qed.

Lemma run_madvise_simple a r e od w :
  view (w_k w) = FView od None None -> r = 0 /\ e = 0 \/ r = -1 /\ 0 < e ->
  exists v w', run K (madvise_simple path a r e) w = (Done v, w') /\
    (v = None <-> may_open O_RDWR = true /\ advice a = - e) /\
    (may_open O_RDWR = true -> fv_data (view (w_k w')) = Some (filled 1280 (default [] od))).
Proof.
  destruct w as [pr s]. cbn [w_k]. intros Hv Hre. unfold madvise_simple, result.
  match goal with |- context [bind (open path _) ?k] => pose proof (run_open_create od pr s k Hv) as Ho end.
  destruct (may_open O_RDWR).
  2: { destruct Ho as (s1 & pr1 & ->). do 2 eexists. split; [reflexivity|]. split; [|discriminate].
       split; [discriminate|intros [? _]; discriminate]. }
  destruct Ho as (s1 & fd & Hfd & Hv1 & ->). set (d := default [] od) in *.
  replace (fd =? -1) with false by (symmetry; apply Z.eqb_neq; lia). cbn [negb tp_assert].
  match goal with |- context [write_rounds 1280 fd ?k] => destruct (run_write_rounds 1280 fd k d 0 pr s1) as (s2 & Hv2 & E2) end;
    [exact Hv1|]. unfold result in E2. rewrite E2. clear E2. cbn [Nat.add] in Hv2.
  match goal with |- context [bind (fstat fd) ?k] =>
    destruct (run_fstat (filled 1280 d) (FOpen fd O_RDWR (32 * 1280)) pr s2 k) as (s3 & Hv3 & E3) end;
    [now rewrite Hv2|now rewrite Hv2|]. cbn [fo_fd] in E3. rewrite E3. clear E3. rewrite Hv2 in Hv3.
  cbn [Z.eqb negb tp_assert].
  match goal with |- context [bind (mmap _ _ _ _ _ _) ?k] =>
    pose proof (run_mmap K path _ _ PROT_READ MAP_SHARED pr s3 k Hv3) as Hm end.
  cbn [fo_mode fo_fd] in Hm.
  assert (Ee : mmap_err noexec lockable O_RDWR PROT_READ MAP_SHARED (Z.of_nat (List.length (filled 1280 d))) = None)
    by (unfold mmap_err; now rewrite filled_pos).
  rewrite Ee in Hm. destruct Hm as (s4 & b & Hb & Hv4 & ->).
  set (len := Z.of_nat (List.length (filled 1280 d))) in *.
  replace (b =? MAP_FAILED) with false by (symmetry; apply Z.eqb_neq; unfold MAP_FAILED; lia). cbn [negb tp_assert].
  rewrite run_bind. cbn [set_errno run].
  match goal with |- context [bind (madvise b len a) ?k] =>
    destruct (run_madvise (FMapping b len PROT_READ None) a (with_errno 0 pr) s4 k) as (s5 & pr5 & x & Hv5 & E5 & Hx) end;
    [now rewrite Hv4|reflexivity|reflexivity|]. cbn [fm_addr fm_len] in E5. cbn [w_proc w_k]. rewrite E5. clear E5.
  rewrite Hv4 in Hv5.
  destruct (Z.eqb_spec x r) as [->|Hxr]; cbn [tp_assert].
  2: { do 2 eexists. split; [reflexivity|]. split; [|intros _; cbn [w_k]; now rewrite Hv5]. split; [discriminate|]. intros [_ ?]. lia. }
  rewrite run_bind. cbn [errno run]. cbn [w_proc id].
  destruct (Z.eqb_spec (p_errno pr5) e) as [He|He]; cbn [tp_assert].
  2: { do 2 eexists. split; [reflexivity|]. split; [|intros _; cbn [w_k]; now rewrite Hv5]. split; [discriminate|]. intros [_ ?].
       destruct Hx as [(? & ? & ->)|(? & -> & ?)]; cbn in He; lia. }
  destruct (run_unmap_close K path b (FMapping b len PROT_READ None) (FOpen fd O_RDWR (32 * 1280)) pr5 s5)
    as (w' & E6 & Hd6 & _); [now rewrite Hv5|reflexivity|now rewrite Hv5|].
  exists None, w'. split; [exact E6|]. split; [|intros _; now rewrite Hd6, Hv5].
  split; [|reflexivity]. intros _. split; [reflexivity|].
  destruct Hx as [(? & ? & ->)|(? & -> & ?)]; cbn in He; lia.
Qed.
End Madvise.

(** C23.  The cases 0-15 of [madvise] on every kernel with documented file calls:
    each returns, and passes exactly when the file may be opened for both and the
    kernel answers the advice with the error of its row (0 for success).  So the
    cases 0-9 pass on every such kernel; the cases 10-15 ask for a kernel without
    page merging and huge pages and a process without the privilege to poison
    pages.  The file then starts with the 1280 lines of text. *)
Theorem madvise_exact K path `{FileKernel K path} app od (w : world K) :
  view (w_k w) = FView od None None ->
  Forall2 (fun tc p =>
    exists v w', run K (run_test_case tc [app; "-f"; path]) w = (Done v, w') /\
      (v = None <-> may_open O_RDWR = true /\ advice (advise_flags p) = - expect_error p) /\
      (may_open O_RDWR = true -> fv_data (view (w_k w')) = Some (filled 1280 (default [] od))))
    madvise_cases (take 16 madvise000_params) /\
  (may_open O_RDWR = true ->
   Forall (fun tc => fst (run K (run_test_case tc [app; "-f"; path]) w) = Done None) (take 10 madvise_cases)).
Proof.
  intros Hv.
  assert (C : forall n p, 0 <= n < 18 -> nth_error madvise000_params (Z.to_nat n) = Some p ->
    expect_result p = 0 /\ expect_error p = 0 \/ expect_result p = -1 /\ 0 < expect_error p ->
    exists v w', run K (madvise_run_000 n (Some (Some path))) w = (Done v, w') /\
      (v = None <-> may_open O_RDWR = true /\ advice (advise_flags p) = - expect_error p) /\
      (may_open O_RDWR = true -> fv_data (view (w_k w')) = Some (filled 1280 (default [] od)))).
  { intros n p Hn Ep Hp. unfold madvise_run_000. cbn [args_file].
    replace (0 <=? n) with true by (symmetry; apply Z.leb_le; lia).
    replace (n <? Z.of_nat (List.length madvise000_params)) with true by (symmetry; apply Z.ltb_lt; cbn; lia).
    cbn [tp_assert]. rewrite (nth_error_nth _ _ _ Ep). now apply run_madvise_simple. }
  assert (F : Forall2 (fun tc p =>
    exists v w', run K (run_test_case tc [app; "-f"; path]) w = (Done v, w') /\
      (v = None <-> may_open O_RDWR = true /\ advice (advise_flags p) = - expect_error p) /\
      (may_open O_RDWR = true -> fv_data (view (w_k w')) = Some (filled 1280 (default [] od))))
    madvise_cases (take 16 madvise000_params)).
  { unfold madvise_cases. cbn [take madvise000_params].
    repeat apply List.Forall2_cons; try apply List.Forall2_nil.
    all: match goal with |- context [run_test_case ?tc] =>
      let n := eval cbv in (num tc) in
      match goal with |- context [advise_flags ?p] =>
        destruct (C n p ltac:(lia) eq_refl ltac:(cbn; unfold EACCES, EINVAL, EPERM, TEST_MADV_SUCCESS, TEST_MADV_FAILUER; lia))
          as (v & w' & E & Hd); exists v, w'; split; [|exact Hd]; apply run_file_case; [reflexivity|exact E] end end. }
  split; [exact F|]. intros Ho. revert F. unfold madvise_cases. cbn [take madvise000_params]. intros F.
  assert (A : forall x, In x plain_advice -> advice x = - 0) by (intros x Hx; now apply advice_plain).
  repeat (apply List.Forall2_cons_iff in F as [(v & w' & E & Hp & _) F];
          first [apply List.Forall_cons; [rewrite E; cbn; f_equal; apply Hp; split; [exact Ho|]|clear v w' E Hp]|fail]).
  all: try apply List.Forall_nil.
  all: cbn [advise_flags expect_error]; first [apply advice_remove | apply A; unfold plain_advice; cbn [In]; repeat (first [left; reflexivity|right])].
Qed.

(** ** [mmap_populate] 0 and [mmap_locked] 0 *)

Lemma run_map_once K path `{FileKernel K path} flags n d (w : world K) : fresh K path d w -> 0 <= n ->
  exists w', run K (map_once_run flags n (Some (Some path))) w =
    (Done (if negb (may_open O_RDWR) then Some "file open error."
           else match map_error K path O_RDWR (Z.lor PROT_READ PROT_WRITE) flags d with
                | Some _ => Some "mmap error."
                | None => None
                end), w').
Proof.
  destruct w as [pr s]. intros [Hv Hp] Hn. cbn in Hv, Hp. unfold map_once_run, result. cbn [args_file].
  replace (0 <=? n) with true by (symmetry; now apply Z.leb_le). cbn [tp_assert].
  match goal with |- context [bind (open path _) ?k] => pose proof (run_open K path O_RDWR d pr s k Hv) as Ho end.
  change (access_mode O_RDWR) with O_RDWR in Ho. destruct (may_open O_RDWR); cbn [negb].
  2: { destruct Ho as (s1 & pr1 & Hv1 & ->). eexists. reflexivity. }
  destruct Ho as (s1 & fd & Hfd & Hv1 & ->).
  replace (fd =? -1) with false by (symmetry; apply Z.eqb_neq; lia). cbn [negb tp_assert].
  match goal with |- context [bind (stat path) ?k] => destruct (run_stat K path d pr s1 k) as (s2 & Hv2 & ->) end;
    [now rewrite Hv1|].
  cbn [Z.eqb negb tp_assert]. rewrite Hv1 in Hv2.
  match goal with |- context [bind (mmap _ _ _ _ _ _) ?k] =>
    pose proof (run_mmap K path d _ (Z.lor PROT_READ PROT_WRITE) flags pr s2 k Hv2) as Hm end.
  cbn [fo_mode fo_fd] in Hm. unfold map_error. change (access_mode O_RDWR) with O_RDWR.
  destruct (mmap_err noexec lockable O_RDWR _ flags _) as [e|].
  { destruct Hm as (s3 & pr3 & Hv3 & ->). eexists. reflexivity. }
  destruct Hm as (s3 & a & Ha & Hv3 & ->).
  replace (a =? MAP_FAILED) with false by (symmetry; apply Z.eqb_neq; unfold MAP_FAILED; lia). cbn [negb tp_assert].
  destruct (run_unmap_close K path a (FMapping a (Z.of_nat (List.length d)) (Z.lor PROT_READ PROT_WRITE)
    (mapped_bytes flags (Z.of_nat (List.length d)) d)) (FOpen fd O_RDWR 0) pr s3) as (w' & E & _);
    [now rewrite Hv3|reflexivity|now rewrite Hv3|]. exists w'. exact E.
Qed.

(** The two tests on every such kernel: they pass exactly when the file may be
    opened for both and is not empty, and [mmap_locked] when besides its length
    may be locked (its mapping is anonymous: the file itself is never mapped). *)
Theorem map_once_exact K path `{FileKernel K path} app d (w : world K) :
  fresh K path d w ->
  passes_iff K (run_test_case mmap_populate0 [app; "-f"; path]) w
    (may_open O_RDWR && negb (Z.of_nat (List.length d) =? 0)) /\
  passes_iff K (run_test_case mmap_locked0 [app; "-f"; path]) w
    (may_open O_RDWR && negb (Z.of_nat (List.length d) =? 0) && lockable (Z.of_nat (List.length d))).
Proof.
  intros Hf. split.
  - destruct (run_map_once K path mmap_populate_flags 0 d w Hf ltac:(lia)) as (w' & E).
    do 2 eexists. split; [apply run_file_case; [reflexivity|exact E]|].
    unfold map_error, mmap_err. destruct (may_open O_RDWR), (_ =? 0); cbn; intuition discriminate.
  - destruct (run_map_once K path mmap_locked_flags 0 d w Hf ltac:(lia)) as (w' & E).
    do 2 eexists. split; [apply run_file_case; [reflexivity|exact E]|].
    unfold map_error, mmap_err. destruct (may_open O_RDWR), (_ =? 0); cbn; try (intuition discriminate).
    destruct (lockable _); cbn; intuition discriminate.
Qed.

(** ** A kernel that meets the interface *)

(** One file, open under descriptor 3 and mapped at 64 KiB. *)
Definition file_step (path : string) (c : op) (v : fview) : fview * ans c :=
  match c with
  | Open p flags =>
      if String.eqb p path then
        match open_err (fun _ => true) flags v with
        | Some e => (v, - e)
        | None => (FView (Some (default [] (fv_data v))) (Some (FOpen 3 (access_mode flags) 0)) (fv_map v), 3)
        end
      else (v, - ENOENT)
  | Filec c =>
      match c with
      | Stat p => (v, match fv_data v with
                      | Some d => if String.eqb p path then (0, Z.of_nat (List.length d)) else (- ENOENT, 0)
                      | None => (- ENOENT, 0)
                      end)
      | Fstat _ => (v, match fv_data v with Some d => (0, Z.of_nat (List.length d)) | None => (- ENOENT, 0) end)
      | c => (v, enosys (Filec c))
      end
  | Write _ bytes =>
      match fv_data v, fv_fd v with
      | Some d, Some f =>
          (FView (Some (overwrite (fo_pos f) bytes d))
             (Some (FOpen (fo_fd f) (fo_mode f) (fo_pos f + List.length bytes))) (fv_map v),
           Z.of_nat (List.length bytes))
      | _, _ => (v, -1)
      end
  | Mmap _ len prot flags _ _ =>
      match fv_data v, fv_fd v with
      | Some d, Some f =>
          match mmap_err false (fun _ => true) (fo_mode f) prot flags len with
          | Some e => (v, - e)
          | None => (FView (Some d) (Some f) (Some (FMapping 65536 len prot (mapped_bytes flags len d))), 65536)
          end
      | _, _ => (v, -1)
      end
  | Load a =>
      (v, match fv_map v with
          | Some m => if has (fm_prot m) PROT_READ || has (fm_prot m) PROT_WRITE
                      then inl (nth (Z.to_nat (a - fm_addr m)) (bytes_of v m) 0) else inr SIGSEGV
          | None => inr SIGSEGV
          end)
  | Store a b =>
      match fv_map v with
      | Some m => if has (fm_prot m) PROT_WRITE then (store_byte (Z.to_nat (a - fm_addr m)) b m v, inl tt)
                  else (v, inr SIGSEGV)
      | None => (v, inr SIGSEGV)
      end
  | Munmap _ _ => (FView (fv_data v) (fv_fd v) None, 0)
  | Close _ => (FView (fv_data v) None (fv_map v), 0)
  | Memc c =>
      match c as c return fview * memans c with
      | Madvise _ _ a =>
          (v, if existsb (Z.eqb a) plain_advice then 0 else if a =? MADV_REMOVE then - EACCES else - EINVAL)
      | c => (v, enosys (Memc c))
      end
  | Misc (Msync _ _ _) => (v, 0)
  | c => (v, enosys c)
  end.
Definition file_kernel (path : string) : kernel := Kernel fview (file_step path).

#[export] Instance file_kernel_ok path : FileKernel (file_kernel path) path.
Proof.
  refine {| view := (fun v : kstate (file_kernel path) => v : fview); may_open := fun _ => true;
            can_load := fun prot => has prot PROT_READ || has prot PROT_WRITE; noexec := false; lockable := fun _ => true;
            advice := fun a => if existsb (Z.eqb a) plain_advice then 0 else if a =? MADV_REMOVE then - EACCES else - EINVAL |};
    cbn [kstep file_kernel file_step].
  - intros prot ->. reflexivity.
  - reflexivity.
  - intros a. destruct (existsb _ _); [now left|]. destruct (a =? MADV_REMOVE); right; eexists; (split; [|reflexivity]);
      compute; split; discriminate.
  - intros a Ha. replace (existsb (Z.eqb a) plain_advice) with true; [reflexivity|]. symmetry.
    apply existsb_exists. exists a. split; [exact Ha|apply Z.eqb_refl].
  - reflexivity.
  - intros s flags _. rewrite String.eqb_refl. destruct (open_err _ flags s) as [e|]; [eauto|].
    do 2 eexists. split; [reflexivity|]. split; [lia|reflexivity].
  - intros s d Hd. rewrite Hd, String.eqb_refl. eauto.
  - intros s d f Hd _. rewrite Hd. eauto.
  - intros s d f bytes Hd Hf _. rewrite Hd, Hf. eauto.
  - intros s d f prot flags Hd Hf Hm. rewrite Hd, Hf. destruct (mmap_err _ _ _ prot flags _) as [e|]; [eauto|].
    do 2 eexists. split; [reflexivity|]. split; [lia|reflexivity].
  - intros s m o Hm _. rewrite Hm. eexists. split; [|reflexivity].
    now replace (fm_addr m + Z.of_nat o - fm_addr m) with (Z.of_nat o) by lia; rewrite Nat2Z.id.
  - intros s m o b Hm _. rewrite Hm. eexists. split; [|reflexivity].
    replace (fm_addr m + Z.of_nat o - fm_addr m) with (Z.of_nat o) by lia. rewrite Nat2Z.id.
    now destruct (has (fm_prot m) PROT_WRITE).
  - eauto.
  - eauto.
  - eauto.
Defined.

(** A file of three bytes. *)
Definition file0 : world (file_kernel "data") := World proc0 (FView (Some [65; 66; 67]) None None : kstate (file_kernel "data")).

Lemma mmap_file_exact_witness :
  fst (run (file_kernel "data") (run_test_case (mmap_file41 (Ret None)) ["app"; "-f"; "data"]) file0) = Done None /\
  fst (run (file_kernel "data") (run_test_case (mmap_file5 (Ret None)) ["app"; "-f"; "data"]) file0) = Killed SIGSEGV.
Proof.
  assert (Hf : fresh (file_kernel "data") "data" [65; 66; 67] file0) by (split; reflexivity).
  pose proof (mmap_file_exact (file_kernel "data") "data" (Ret None) "app" [65; 66; 67] file0 Hf) as F. split.
  - destruct (Forall2_lookup_lr _ _ _ 41 _ _ F eq_refl eq_refl) as (w' & E & _). rewrite E. reflexivity.
  - destruct (Forall2_lookup_lr _ _ _ 5 _ _ F eq_refl eq_refl) as (w' & E & _). rewrite E. reflexivity.
Defined.

Lemma madvise_exact_witness :
  fst (run (file_kernel "data") (run_test_case madvise5 ["app"; "-f"; "data"]) file0) = Done None.
Proof.
  pose proof (madvise_exact (file_kernel "data") "data" "app" (Some [65; 66; 67]) file0) as M.
  destruct (M eq_refl) as [F _].
  destruct (Forall2_lookup_lr _ _ _ 5 _ _ F eq_refl eq_refl) as (v & w' & E & Hv & _). rewrite E. cbn.
  f_equal. apply Hv. split; reflexivity.
Defined.
