(* ===== verification/Remap.v ===== *)
(** * The suite [remap_file_pages]

    [remap_file_pages.c] and the one case: a file of numbered pages is mapped, its
    pages are put in the opposite order with [remap_file_pages], and the mapping is
    compared with the numbers.  [RemapKernel] says what the manual pages promise of
    the calls; the theorem gives the verdict and what is left behind. *)
From S2P Require Import Prelude Process Trace CLib Arch TestMck AddrSpace FileMap.
From Stdlib Require Import Ascii String.
#[local] Open Scope string_scope.
#[local] Open Scope Z_scope.

Definition sync : prog unit := trigger (Misc Sync) ;; Ret tt.
Definition remap_file_pages (addr size prot pgoff flags : Z) : prog Z :=
  r <- (trigger (Misc (RemapFilePages addr size prot pgoff flags)) : prog Z) ;; syscall_ret (-1) r.

Section Suite.
Context `{ArchConfig}.

(** ** [remap_file_pages.c] *)

Definition remap_file_pages_pgoff_to_addr (start page : Z) : Z := start + PAGE_SIZE * page.
Definition remap_file_pages_hash (page : Z) : Z := u8 (Z.rem page 256).

(** [buf] is zero but for its first byte. *)
Definition numbered_page (page : Z) : list Z :=
  <[0%nat := remap_file_pages_hash page]> (repeat 0 (Z.to_nat PAGE_SIZE)).
Fixpoint write_pages (n : nat) (fd page : Z) : prog unit :=
  match n with
  | O => Ret tt
  | S n => write fd (numbered_page page) ;; write_pages n fd (page + 1)
  end.

(** The result and the name [mkstemp] has made of [path]. *)
Definition remap_file_pages_create_file (path : string) (size : Z) : prog (result * string) :=
  let* (fd, path) := mkstemp path in
  if fd =? -1 then Ret (Some "open error.", path)
  else
    write_pages (Z.to_nat (size / PAGE_SIZE)) fd 0 ;;
    close fd ;;
    sync ;;
    Ret (None, path).

Fixpoint compare_pages (n : nat) (remap_data remap_page orig_page : Z) : prog result :=
  match n with
  | O => Ret None
  | S n =>
      x <- load (remap_file_pages_pgoff_to_addr remap_data remap_page) ;;
      tp_assert! (x =? remap_file_pages_hash orig_page, Some "compare failed.") ;;
      compare_pages n remap_data (remap_page + 1) (orig_page - 1)
  end.

(** [(size / PAGE_SIZE) - 1], an [int]. *)
Definition last_page (size : Z) : Z := i32 (u64 (size / PAGE_SIZE - 1)).

Definition remap_file_pages_compare (remap_data size : Z) : prog result :=
  compare_pages (Z.to_nat (last_page size + 1)) remap_data 0 (last_page size).

(** ** [remap_file_pages/000.c] *)

Record remap_file_pages_args := RemapArgs { r_dir : string; r_file_size : Z }.

Fixpoint remap_options (evs : list optev) (args : remap_file_pages_args) : remap_file_pages_args :=
  match evs with
  | [] => args
  | Opt c optarg :: evs' =>
      remap_options evs'
        (if Ascii.eqb c "d" then RemapArgs optarg (r_file_size args)
         else if Ascii.eqb c "s" then RemapArgs (r_dir args) (cv_val (strtoul optarg 10))
         else args)
  | OptErr :: evs' => remap_options evs' args
  end.

(** The arguments with the static variables [path] and [fd]. *)
Record remap_mem := RemapMem { rm_args : remap_file_pages_args; rm_path : string; rm_fd : Z }.

Definition remap_setup (tc_num : Z) (tc_argv : list string) : prog remap_mem :=
  Ret (RemapMem (remap_options (fst (getopt "d:s:" (tail tc_argv))) (RemapArgs "." 0)) "" (-1)).

Definition test_file_name : string := "remap_file_pages_tp-XXXXXX".
(** [snprintf] into 256 bytes. *)
Definition test_path (dir : string) : string := String.substring 0 255 (dir ++ "/" ++ test_file_name).

Fixpoint remap_pages (n : nat) (addr mmap_page file_page : Z) (k : prog result) : prog result :=
  match n with
  | O => k
  | S n =>
      status <- remap_file_pages (remap_file_pages_pgoff_to_addr addr mmap_page) PAGE_SIZE 0 file_page 0 ;;
      tp_assert! (status =? 0, Some "remap error") ;;
      remap_pages n addr (mmap_page - 1) (file_page + 1) k
  end.

(** After the file is open. *)
Definition remap_map_and_compare (fd size : Z) : prog result :=
  addr <- mmap 0 size (Z.lor PROT_READ PROT_WRITE) MAP_SHARED fd 0 ;;
  tp_assert! (negb (addr =? MAP_FAILED), Some "mmap error.") ;;
  printf "mmap[%p-%p)\n" [PZ addr; PZ (u64 (addr + size))] ;;
  remap_pages (Z.to_nat (last_page size + 1)) addr (last_page size) 0
  (remap_file_pages_compare addr size).

Definition remap_run_000 (tc_num : Z) (m : remap_mem) : prog (result * remap_mem) :=
  let size := r_file_size (rm_args m) in
  let* (err, path) := remap_file_pages_create_file (test_path (r_dir (rm_args m))) size in
  printf "test file path=%s\n" [PS path] ;;
  match err with
  | Some e => Ret (Some e, RemapMem (rm_args m) path (rm_fd m))
  | None =>
      fd <- open path O_RDWR ;;
      let m := RemapMem (rm_args m) path fd in
      if fd =? -1 then Ret (Some "file open error.", m)
      else r <- remap_map_and_compare fd size ;; Ret (r, m)
  end.

Definition remap_teardown_000 (tc_num : Z) (m : remap_mem) : prog unit :=
  if negb (rm_fd m =? -1) then
    close (rm_fd m) ;;
    printf "delete test file=%s\n" [PS (rm_path m)] ;;
    unlink (rm_path m) ;; Ret tt
  else Ret tt.

Definition remap_file_pages0 : test_case :=
  TestCase "remap_file_pages" 0 remap_mem remap_setup remap_run_000 remap_teardown_000.
End Suite.

(** ** The calls as documented *)

(** The one file: its length and bytes; the descriptor it is open under with the
    position; the shared mapping: address, length, and for each page of it the page
    of the file behind it. *)
Record rfile := RFile { rf_len : Z; rf_byte : Z -> Z }.
Record rview := RView { rv_file : option (string * rfile); rv_fd : option (Z * Z); rv_map : option (Z * Z * (Z -> Z)) }.

Definition put_bytes (pos : Z) (bytes : list Z) (f : rfile) : rfile :=
  RFile (Z.max (rf_len f) (pos + Z.of_nat (List.length bytes)))
    (fun x => if in_range x pos (Z.of_nat (List.length bytes)) then nth (Z.to_nat (x - pos)) bytes 0 else rf_byte f x).

Class RemapKernel `{ArchConfig} (K : kernel) := {
  rview_of : kstate K -> rview;
  (** the longest mapping the process may make *)
  max_map : Z;
  rk_mkstemp s pre m : rview_of s = RView None None m ->
    exists s' fd name, kstep K (Mkstemp (pre ++ "XXXXXX")) s = (s', (fd, name)) /\ 0 <= fd /\
      rview_of s' = RView (Some (name, RFile 0 (fun _ => 0))) (Some (fd, 0)) m;
  rk_write s name f fd pos m bytes : rview_of s = RView (Some (name, f)) (Some (fd, pos)) m ->
    exists s', kstep K (Write fd bytes) s = (s', Z.of_nat (List.length bytes)) /\
      rview_of s' = RView (Some (name, put_bytes pos bytes f)) (Some (fd, pos + Z.of_nat (List.length bytes))) m;
  rk_close s file fd pos m : rview_of s = RView file (Some (fd, pos)) m ->
    exists s', kstep K (Close fd) s = (s', 0) /\ rview_of s' = RView file None m;
  rk_sync s : exists s' r, kstep K (Misc Sync) s = (s', r) /\ rview_of s' = rview_of s;
  rk_open s name f m : rview_of s = RView (Some (name, f)) None m ->
    exists s' fd, kstep K (Open name O_RDWR) s = (s', fd) /\ 0 <= fd /\
      rview_of s' = RView (Some (name, f)) (Some (fd, 0)) m;
  rk_mmap s file fd pos len : rview_of s = RView file (Some (fd, pos)) None -> 0 < len <= max_map ->
    exists s' a, kstep K (Mmap 0 len (Z.lor PROT_READ PROT_WRITE) MAP_SHARED fd 0) s = (s', a) /\ 0 < a < 2 ^ 63 /\
      rview_of s' = RView file (Some (fd, pos)) (Some (a, len, fun p => p));
  rk_mmap_empty s fd : exists s',
    kstep K (Mmap 0 0 (Z.lor PROT_READ PROT_WRITE) MAP_SHARED fd 0) s = (s', - EINVAL) /\ rview_of s' = rview_of s;
  rk_remap s file fd a len pt p q : rview_of s = RView file fd (Some (a, len, pt)) ->
    0 <= p -> (p + 1) * PAGE_SIZE <= len -> 0 <= q ->
    exists s', kstep K (Misc (RemapFilePages (a + PAGE_SIZE * p) PAGE_SIZE 0 q 0)) s = (s', 0) /\
      rview_of s' = RView file fd (Some (a, len, fun x => if x =? p then q else pt x));
  rk_load s name f fd a len pt p o : rview_of s = RView (Some (name, f)) fd (Some (a, len, pt)) ->
    0 <= p -> 0 <= o < PAGE_SIZE -> PAGE_SIZE * p + o < len -> PAGE_SIZE * pt p + o < rf_len f ->
    exists s', kstep K (Load (a + PAGE_SIZE * p + o)) s = (s', inl (rf_byte f (PAGE_SIZE * pt p + o))) /\
      rview_of s' = rview_of s;
  rk_unlink s name f fd m : rview_of s = RView (Some (name, f)) fd m ->
    exists s', kstep K (Unlink name) s = (s', 0) /\ rview_of s' = RView None fd m;
}.

(** ** The suite on a documented kernel *)

Section Passes.
Context `{ArchConfig} (K : kernel) {RK : RemapKernel K}.
Implicit Types (s : kstate K) (pr : proc).

Lemma last_page_int size : 0 <= size -> size / PAGE_SIZE <= 2 ^ 31 -> last_page size = size / PAGE_SIZE - 1.
Proof.
  intros Hs Hm. pose proof PAGE_SIZE_pos. pose proof (Z.div_pos size PAGE_SIZE Hs). unfold last_page.
  destruct (Z.eq_dec (size / PAGE_SIZE) 0) as [->|Hne]; [reflexivity|]. rewrite u64_small by lia.
  unfold i32. rewrite Z.mod_small by lia. lia.
Qed.

(** The first [k] pages of the file carry their numbers. *)
Definition numbered (f : rfile) (k : Z) : Prop :=
  rf_len f = k * PAGE_SIZE /\ forall j, 0 <= j < k -> rf_byte f (PAGE_SIZE * j) = remap_file_pages_hash j.

Lemma numbered_page_length page : Z.of_nat (List.length (numbered_page page)) = PAGE_SIZE.
Proof. pose proof PAGE_SIZE_pos. unfold numbered_page. rewrite length_insert, repeat_length. lia. Qed.

Lemma numbered_page_first page : nth 0 (numbered_page page) 0 = remap_file_pages_hash page.
Proof.
  pose proof PAGE_SIZE_pos. unfold numbered_page. destruct (Z.to_nat PAGE_SIZE) as [|n] eqn:E; [lia|]. reflexivity.
Qed.

Lemma numbered_next f k : 0 <= k -> numbered f k -> numbered (put_bytes (k * PAGE_SIZE) (numbered_page k) f) (k + 1).
Proof.
  intros Hk [Hl Hb]. pose proof PAGE_SIZE_pos. unfold numbered, put_bytes. cbn [rf_len rf_byte]. rewrite numbered_page_length.
  split; [nia|]. intros j Hj. destruct (Z.eq_dec j k) as [->|Hne].
  - rewrite (proj2 (in_range_true _ _ _)) by nia. replace (PAGE_SIZE * k - k * PAGE_SIZE) with 0 by ring. apply numbered_page_first.
  - rewrite (proj2 (in_range_false _ _ _)) by nia. apply Hb. lia.
Qed.

Lemma write_pages_run n : forall k s pr name f fd m, 0 <= k -> numbered f k ->
  rview_of s = RView (Some (name, f)) (Some (fd, k * PAGE_SIZE)) m ->
  exists s' f' pos, run K (write_pages n fd k) (World pr s) = (Done tt, World pr s') /\ numbered f' (k + Z.of_nat n) /\
    rview_of s' = RView (Some (name, f')) (Some (fd, pos)) m.
Proof.
  induction n as [|n IH]; intros k s pr name f fd m Hk Hf Hv.
  - exists s, f, (k * PAGE_SIZE). rewrite Z.add_0_r. auto.
  - destruct (rk_write s name f fd _ m (numbered_page k) Hv) as (s1 & E1 & V1). rewrite numbered_page_length in E1, V1.
    replace (k * PAGE_SIZE + PAGE_SIZE) with ((k + 1) * PAGE_SIZE) in V1 by ring.
    destruct (IH (k + 1) s1 pr name _ fd m ltac:(lia) (numbered_next f k Hk Hf) V1) as (s' & f' & pos & R & Hf' & V').
    exists s', f', pos. split; [|split; [|exact V']].
    + cbn. rewrite E1. unfold syscall_ret. pose proof PAGE_SIZE_pos.
      replace (is_err PAGE_SIZE) with false; [exact R|]. unfold is_err. symmetry. apply andb_false_iff. right. apply Z.ltb_ge. lia.
    + replace (k + Z.of_nat (S n)) with (k + 1 + Z.of_nat n) by lia. exact Hf'.
Qed.

(** The pages are put in the opposite order. *)
Lemma remap_pages_run n : forall s pr file fd a len pt mp fp kont, mp = Z.of_nat n - 1 -> 0 <= fp -> (mp + 1) * PAGE_SIZE <= len ->
  rview_of s = RView file fd (Some (a, len, pt)) ->
  exists s' pt', run K (remap_pages n a mp fp kont) (World pr s) = run K kont (World pr s') /\
    rview_of s' = RView file fd (Some (a, len, pt')) /\
    forall x, pt' x = if in_range x 0 (Z.of_nat n) then fp + mp - x else pt x.
Proof.
  induction n as [|n IH]; intros s pr file fd a len pt mp fp kont Hm Hf Hl Hv; cbn [remap_pages].
  - exists s, pt. split; [reflexivity|]. split; [exact Hv|]. intros x. rewrite (proj2 (in_range_false x 0 _)) by lia. reflexivity.
  - destruct (rk_remap s file fd a len pt mp fp Hv ltac:(lia) Hl Hf) as (s1 & E1 & V1). pose proof PAGE_SIZE_pos.
    destruct (IH s1 pr file fd a len _ (mp - 1) (fp + 1) kont ltac:(lia) ltac:(lia) ltac:(nia) V1) as (s' & pt' & R & V' & P').
    exists s', pt'. split; [|split; [exact V'|]].
    + cbn. unfold remap_file_pages_pgoff_to_addr. rewrite E1. exact R.
    + intros x. rewrite P'. destruct (Z.eq_dec x mp) as [->|Hne].
      * rewrite (proj2 (in_range_false mp 0 _)), (proj2 (in_range_true mp 0 _)) by lia. rewrite Z.eqb_refl. lia.
      * rewrite (proj2 (Z.eqb_neq x mp)) by exact Hne.
        destruct (in_range x 0 (Z.of_nat n)) eqn:Ex.
        -- apply in_range_true in Ex. rewrite (proj2 (in_range_true x 0 _)) by lia. lia.
        -- apply in_range_false in Ex. rewrite (proj2 (in_range_false x 0 _)) by lia. reflexivity.
Qed.

(** Each page of the mapping shows the number of the file page behind it. *)
Lemma compare_pages_run n : forall s pr name f fd a len pt N rp op,
  numbered f N -> rview_of s = RView (Some (name, f)) fd (Some (a, len, pt)) -> N * PAGE_SIZE <= len ->
  (forall x, 0 <= x < N -> pt x = N - 1 - x) -> 0 <= rp -> op = N - 1 - rp -> Z.of_nat n = N - rp ->
  exists s', run K (compare_pages n a rp op) (World pr s) = (Done None, World pr s') /\ rview_of s' = rview_of s.
Proof.
  induction n as [|n IH]; intros s pr name f fd a len pt N rp op Hf Hv Hl Hpt Hr Ho Hn; cbn [compare_pages]; [eauto|].
  pose proof PAGE_SIZE_pos. assert (Ep : pt rp = op) by (rewrite Hpt; lia).
  destruct (rk_load s name f fd a len pt rp 0 Hv Hr) as (s1 & E1 & V1); [lia|nia|rewrite Ep, (proj1 Hf); nia|].
  rewrite !Z.add_0_r, Ep, (proj2 Hf) in E1 by lia.
  destruct (IH s1 pr name f fd a len pt N (rp + 1) (op - 1) Hf) as (s' & R & V'); try assumption; try lia; [now rewrite V1|].
  exists s'. split; [|congruence]. unfold remap_file_pages_pgoff_to_addr. cbn. rewrite E1. cbn. rewrite Z.eqb_refl. exact R.
Qed.

Lemma is_err_nonneg r : 0 <= r -> is_err r = false.
Proof. intros Hr. unfold is_err. apply andb_false_iff. right. apply Z.ltb_ge. lia. Qed.

Lemma nonneg_not_neg1 r : 0 <= r -> (r =? -1) = false.
Proof. intros Hr. apply Z.eqb_neq. lia. Qed.

Lemma create_file_run s pr pre size : 0 <= size -> rview_of s = RView None None None ->
  exists s' name f, run K (remap_file_pages_create_file (pre ++ "XXXXXX") size) (World pr s) = (Done (None, name), World pr s') /\
    numbered f (size / PAGE_SIZE) /\ rview_of s' = RView (Some (name, f)) None None.
Proof.
  intros Hs Hv. pose proof PAGE_SIZE_pos. destruct (rk_mkstemp s pre None Hv) as (s1 & fd & name & E1 & Hfd & V1).
  destruct (write_pages_run (Z.to_nat (size / PAGE_SIZE)) 0 s1 pr name (RFile 0 (fun _ => 0)) fd None) as (s2 & f & pos & R2 & Hf & V2);
    [lia|split; cbn; lia|exact V1|].
  rewrite Z.add_0_l, Z2Nat.id in Hf by (apply Z.div_pos; lia).
  destruct (rk_close s2 _ fd pos None V2) as (s3 & E3 & V3). destruct (rk_sync s3) as (s4 & r & E4 & V4).
  exists s4, name, f. split; [|split; [exact Hf|congruence]]. unfold remap_file_pages_create_file, mkstemp.
  cbn [bind trigger run w_k w_proc]. rewrite E1. cbn [fst snd]. unfold syscall_ret at 1. rewrite (is_err_nonneg fd Hfd). cbn [bind].
  rewrite (nonneg_not_neg1 fd Hfd), run_bind, R2. cbn. rewrite E3. unfold syscall_ret. change (is_err 0) with false. cbn.
  rewrite E4. reflexivity.
Qed.

(** Mapping and comparing: every page shows its number. *)
Lemma map_and_compare_run s pr name f fd pos size : numbered f (size / PAGE_SIZE) ->
  rview_of s = RView (Some (name, f)) (Some (fd, pos)) None -> 0 <= size <= max_map -> size / PAGE_SIZE <= 2 ^ 31 ->
  exists pr' s' m, run K (remap_map_and_compare fd size) (World pr s) =
      (Done (if size =? 0 then Some "mmap error." else None), World pr' s') /\
    rview_of s' = RView (Some (name, f)) (Some (fd, pos)) m.
Proof.
  intros Hf Hv Hs Hn. pose proof PAGE_SIZE_pos. unfold remap_map_and_compare. destruct (Z.eqb_spec size 0) as [->|Hne].
  - destruct (rk_mmap_empty s fd) as (s1 & E1 & V1). cbn. rewrite E1. cbn. do 3 eexists. split; [reflexivity|]. cbn. now rewrite V1, Hv.
  - destruct (rk_mmap s _ fd pos size Hv ltac:(lia)) as (s1 & a & E1 & Ha & V1).
    pose proof (last_page_int size ltac:(lia) Hn) as Hlast. assert (0 <= size / PAGE_SIZE) as Hq by (apply Z.div_pos; lia).
    assert (PAGE_SIZE * (size / PAGE_SIZE) <= size) as Hle by (apply Z.mul_div_le; lia).
    destruct (remap_pages_run (Z.to_nat (last_page size + 1)) s1 (with_line ("mmap[%p-%p)\n", [PZ a; PZ (u64 (a + size))]) pr)
      _ _ a size _ (last_page size) 0 (remap_file_pages_compare a size) ltac:(lia) ltac:(lia) ltac:(rewrite Hlast; nia) V1)
      as (s2 & pt & R2 & V2 & P2).
    destruct (compare_pages_run (Z.to_nat (last_page size + 1)) s2 (with_line ("mmap[%p-%p)\n", [PZ a; PZ (u64 (a + size))]) pr)
      name f _ a size pt (size / PAGE_SIZE) 0 (last_page size) Hf V2) as (s3 & R3 & V3); try nia.
    { intros x Hx. rewrite P2, (proj2 (in_range_true x 0 _)) by lia. lia. }
    do 3 eexists. split.
    + unfold mmap. cbn [bind trigger run w_k w_proc]. rewrite E1. unfold syscall_ret. rewrite is_err_nonneg by lia. cbn [bind].
      replace (a =? MAP_FAILED) with false by (symmetry; apply Z.eqb_neq; unfold MAP_FAILED; lia). cbn [negb tp_assert].
      cbn [bind printf run w_k w_proc]. etransitivity; [exact R2|]. exact R3.
    + rewrite V3. exact V2.
Qed.

Definition remap_argv (the_app dir : string) (size : Z) : list string := [the_app; "-d"; dir; "-s"; print_dec size].

Lemma remap_setup_reads tc_num the_app dir size : 0 <= size < 2 ^ 64 ->
  remap_setup tc_num (remap_argv the_app dir size) = Ret (RemapMem (RemapArgs dir size) "" (-1)).
Proof.
  intros Hs. unfold remap_setup, remap_argv. cbn [tail].
  change (getopt "d:s:" ["-d"; dir; "-s"; print_dec size]) with ([Opt "d" dir; Opt "s" (print_dec size)], @nil string).
  cbn [fst remap_options Ascii.eqb Bool.eqb r_dir r_file_size]. now rewrite strtoul_print_dec.
Qed.

Lemma substring_whole (t : string) n : (String.length t <= n)%nat -> String.substring 0 n t = t.
Proof.
  revert n. induction t as [|c t IH]; intros [|n] Hn; cbn in *; try reflexivity; [lia|]. now rewrite IH by lia.
Qed.

Lemma test_path_template dir : (String.length dir <= 228)%nat -> test_path dir = (dir ++ "/remap_file_pages_tp-") ++ "XXXXXX".
Proof. intros Hd. unfold test_path, test_file_name. rewrite append_assoc. apply substring_whole. rewrite length_append. change (String.length ("/remap_file_pages_tp-" ++ "XXXXXX")) with 27%nat. lia. Qed.

(** On every kernel that implements the calls as documented, [remap_file_pages] 0
    accepts every file size of up to 2{^31} pages the process may map: the pages are
    reversed and each is found to carry its number, and teardown closes and removes
    the file on every path.  Only the size 0, for which there is no mapping, is
    reported as a failure. *)
Theorem remap_file_pages_passes the_app dir size pr s :
  (String.length dir <= 228)%nat -> 0 <= size < 2 ^ 64 -> size <= max_map -> size / PAGE_SIZE <= 2 ^ 31 ->
  rview_of s = RView None None None ->
  exists pr' s' m, run K (run_test_case remap_file_pages0 (remap_argv the_app dir size)) (World pr s) =
      (Done (if size =? 0 then Some "mmap error." else None), World pr' s') /\
    rview_of s' = RView None None m.
Proof.
  intros Hd Hs Hmax Hn Hv. unfold run_test_case. cbn [setup remap_file_pages0 num]. rewrite remap_setup_reads by exact Hs.
  cbn [bind tc_run remap_file_pages0]. unfold remap_run_000. cbn [rm_args r_dir r_file_size]. rewrite test_path_template by exact Hd.
  destruct (create_file_run s pr (dir ++ "/remap_file_pages_tp-") size ltac:(lia) Hv) as (s1 & name & f & R1 & Hf & V1).
  destruct (rk_open s1 name f None V1) as (s2 & fd & E2 & Hfd & V2).
  destruct (map_and_compare_run s2 (with_line ("test file path=%s\n", [PS name]) pr) name f fd 0 size Hf V2 ltac:(lia) Hn)
    as (pr3 & s3 & m & R3 & V3).
  destruct (rk_close s3 _ fd 0 m V3) as (s4 & E4 & V4). destruct (rk_unlink s4 name f None m V4) as (s5 & E5 & V5).
  do 3 eexists. split; [|exact V5].
  rewrite !run_bind, R1. cbn [bind printf run w_k w_proc rm_args rm_fd]. unfold open. cbn [bind trigger run w_k w_proc]. rewrite E2.
  unfold syscall_ret. rewrite is_err_nonneg by exact Hfd. cbn [bind]. rewrite nonneg_not_neg1 by exact Hfd.
  rewrite run_bind, R3. cbn [run bind teardown remap_file_pages0 remap_teardown_000 rm_fd rm_path].
  unfold remap_teardown_000. cbn [rm_fd rm_path]. rewrite nonneg_not_neg1 by exact Hfd. cbn. rewrite E4. unfold syscall_ret.
  change (is_err 0) with false. cbn. rewrite E5. reflexivity.
Qed.
End Passes.

(** ** A kernel that meets the interface *)

Section Reference.
Context `{ArchConfig}.

Definition rk_answers (c : op) (v : rview) : rview * ans c :=
  match c return rview * ans c with
  | Mkstemp t => (RView (Some (t, RFile 0 (fun _ => 0))) (Some (3, 0)) (rv_map v), (3, t))
  | Write fd bytes =>
      match rv_file v, rv_fd v with
      | Some (name, f), Some (fd', pos) =>
          (RView (Some (name, put_bytes pos bytes f)) (Some (fd', pos + Z.of_nat (List.length bytes))) (rv_map v),
           Z.of_nat (List.length bytes))
      | _, _ => (v, - EIO)
      end
  | Close _ => (RView (rv_file v) None (rv_map v), 0)
  | Misc Sync => (v, 0)
  | Open _ _ => (RView (rv_file v) (Some (3, 0)) (rv_map v), 3)
  | Mmap _ len _ _ _ _ =>
      if len =? 0 then (v, - EINVAL) else (RView (rv_file v) (rv_fd v) (Some (2 ^ 40, len, fun p => p)), 2 ^ 40)
  | Misc (RemapFilePages addr _ _ q _) =>
      match rv_map v with
      | Some (a, len, pt) =>
          (RView (rv_file v) (rv_fd v) (Some (a, len, fun x => if x =? (addr - a) / PAGE_SIZE then q else pt x)), 0)
      | None => (v, - EINVAL)
      end
  | Load addr =>
      match rv_file v, rv_map v with
      | Some (_, f), Some (a, len, pt) =>
          (v, inl (rf_byte f (PAGE_SIZE * pt ((addr - a) / PAGE_SIZE) + (addr - a) mod PAGE_SIZE)))
      | _, _ => (v, inr SIGSEGV)
      end
  | Unlink _ => (RView None (rv_fd v) (rv_map v), 0)
  | c => (v, enosys c)
  end.
Definition remap_kernel : kernel := Kernel rview rk_answers.

#[export] Instance remap_kernel_ok : RemapKernel remap_kernel.
Proof.
  pose proof PAGE_SIZE_pos as HP.
  refine {| rview_of := fun s : kstate remap_kernel => s; max_map := 2 ^ 46 |}; cbn [kstate kstep remap_kernel]; intros.
  - subst. cbn. do 3 eexists. split; [reflexivity|]. split; [lia|reflexivity].
  - subst. cbn. eauto.
  - subst. cbn. eauto.
  - cbn. eauto.
  - subst. cbn. do 2 eexists. split; [reflexivity|]. split; [lia|reflexivity].
  - subst. cbn -[Z.pow]. rewrite (proj2 (Z.eqb_neq len 0)) by lia. do 2 eexists. split; [reflexivity|]. split; [lia|reflexivity].
  - cbn. eauto.
  - subst. cbn. replace (a + PAGE_SIZE * p - a) with (p * PAGE_SIZE) by ring. rewrite Z.div_mul by lia. eauto.
  - subst. cbn. replace (a + PAGE_SIZE * p + o - a) with (o + p * PAGE_SIZE) by ring.
    rewrite Z.div_add, Z.mod_add, Z.div_small, Z.mod_small by lia. rewrite Z.add_0_l. eauto.
  - subst. cbn. eauto.
Defined.
End Reference.

Definition empty_dir : kstate (@remap_kernel config_4K) := RView None None None.

Lemma remap_file_pages_passes_witness :
  exists pr' s' m, run (@remap_kernel config_4K)
      (run_test_case (@remap_file_pages0 config_4K) (remap_argv "test_mck" "/tmp" 20480)) (World proc0 empty_dir) =
      (Done None, World pr' s') /\ @rview_of config_4K _ _ s' = RView None None m.
Proof.
  apply (@remap_file_pages_passes config_4K remap_kernel remap_kernel_ok "test_mck" "/tmp" 20480 proc0 empty_dir);
    [cbn; lia|lia|cbn; lia|vm_compute; discriminate|reflexivity].
Defined.
