(* ===== verification/Levels.v ===== *)
(** * The stand-alone level tests on mapped files and anonymous memory

    [lv09_syscall_page_fault_forwqarding] and [lv11_copy_on_write] write a string to
    a mapped file and read it back, [lv14_large_pages] and [lv15_continuous_execution]
    touch anonymous mappings.  Each is a program of its own: [main] takes the command
    line and returns the exit status.  Text for [stderr] goes where [printf] goes. *)
From S2P Require Import Prelude Process CLib AddrSpace MemInfo FileMap.
From Stdlib Require Import Ascii String.
#[local] Open Scope string_scope.
#[local] Open Scope Z_scope.

(** ** The C library *)

Definition MS_SYNC : Z := 4.
Definition msync (addr len flags : Z) : prog Z :=
  r <- (trigger (Misc (Msync addr len flags)) : prog Z) ;; syscall_ret (-1) r.

(** [strcpy]: the characters and the zero byte. *)
Fixpoint store_all (a : Z) (bytes : list Z) : prog unit :=
  match bytes with
  | [] => Ret tt
  | b :: bytes' => store a b ;; store_all (a + 1) bytes'
  end.
Definition c_string (s : string) : list Z := (map code (list_ascii_of_string s) ++ [0])%list.
Definition strcpy (a : Z) (s : string) : prog unit := store_all a (c_string s).

(** The characters [printf("%s")] reads from memory, up to the first zero byte. *)
Section Strings.
Context {A : Type} (bound : nat) (more : prog A).
Fixpoint load_string (n : nat) (a : Z) (k : string -> prog A) : prog A :=
  match n with
  | O => more
  | S n => b <- load a ;; if b =? 0 then k "" else load_string n (a + 1) (fun s => k (String (ascii_of_N (Z.to_N b)) s))
  end.
Definition print_string (a : Z) (k : prog A) : prog A :=
  load_string bound a (fun s => printf "%s" [PS s] ;; k).
End Strings.

Section Levels.
(** The longest text that is followed, what happens after it, and after a null
    pointer has been read. *)
Context (bound : nat) (more undefined : prog Z).

(** ** [lv11_copy_on_write/main.c] *)

(** The label [out]; [report] if the result of [munmap] is looked at. *)
Definition out (report : bool) (data fd st_size ret : Z) : prog Z :=
  (if negb (data =? MAP_FAILED) then
     r <- munmap data st_size ;; if report && (r =? -1) then perror "munmap" else Ret tt
   else Ret tt) ;;
  (if negb (fd =? -1) then close fd ;; Ret tt else Ret tt) ;;
  Ret ret.

Definition sync_and_out (report : bool) (sync : bool) (data fd st_size : Z) : prog Z :=
  if sync then
    r <- msync data st_size MS_SYNC ;;
    if r =? -1 then perror "msync" ;; out report data fd st_size (-1) else out report data fd st_size 0
  else out report data fd st_size 0.

Definition write_to_file (path : string) (prot flags : Z) (sync : bool) (str : option string) : prog Z :=
  fd <- open path O_RDWR ;;
  if fd =? -1 then perror "open" ;; out true MAP_FAILED fd 0 (-1)
  else
    let* (r, st_size) := stat path in
    if r =? -1 then perror "stat" ;; out true MAP_FAILED fd st_size (-1)
    else match str with
    | None => undefined
    | Some str =>
        if u64 st_size <=? Z.of_nat (String.length str) then
          printf "string size error.\n" [] ;; out true MAP_FAILED fd st_size (-1)
        else
          data <- mmap 0 st_size prot flags fd 0 ;;
          if data =? MAP_FAILED then perror "mmap" ;; out true data fd st_size (-1)
          else
            strcpy data str ;;
            print_string bound more data (sync_and_out true sync data fd st_size)
    end.

Definition read_from_file (path : string) (prot flags : Z) (sync : bool) : prog Z :=
  fd <- open path O_RDONLY ;;
  if fd =? -1 then perror "open" ;; out false MAP_FAILED fd 0 (-1)
  else
    let* (r, st_size) := stat path in
    if r =? -1 then perror "stat" ;; out false MAP_FAILED fd st_size (-1)
    else
      data <- mmap 0 st_size prot flags fd 0 ;;
      if data =? MAP_FAILED then perror "mmap" ;; out false data fd st_size (-1)
      else print_string bound more data (sync_and_out false sync data fd st_size).

Inductive mode := MODE_NULL | MODE_WRITE | MODE_READ.

Record args := Args { a_mode : mode; a_sync : bool; mmap_prot : Z; mmap_flags : Z; a_path : string }.

(** The loops over the characters; [false]: [goto fault]. *)
Fixpoint parse_mode (arg : string) (a : args) : args * bool :=
  match arg with
  | "" => (a, true)
  | String c arg' =>
      if Ascii.eqb c "w" then parse_mode arg' (Args MODE_WRITE (a_sync a) (mmap_prot a) (mmap_flags a) (a_path a))
      else if Ascii.eqb c "r" then parse_mode arg' (Args MODE_READ (a_sync a) (mmap_prot a) (mmap_flags a) (a_path a))
      else if Ascii.eqb c "s" then parse_mode arg' (Args (a_mode a) true (mmap_prot a) (mmap_flags a) (a_path a))
      else (a, false)
  end.
Fixpoint parse_prot (arg : string) (a : args) : args * bool :=
  match arg with
  | "" => (a, true)
  | String c arg' =>
      let prot bit := Args (a_mode a) (a_sync a) (Z.lor (mmap_prot a) bit) (mmap_flags a) (a_path a) in
      let flag bit := Args (a_mode a) (a_sync a) (mmap_prot a) (Z.lor (mmap_flags a) bit) (a_path a) in
      if Ascii.eqb c "r" then parse_prot arg' (prot PROT_READ)
      else if Ascii.eqb c "w" then parse_prot arg' (prot PROT_WRITE)
      else if Ascii.eqb c "e" then parse_prot arg' (prot PROT_EXEC)
      else if Ascii.eqb c "s" then parse_prot arg' (flag MAP_SHARED)
      else if Ascii.eqb c "p" then parse_prot arg' (flag MAP_PRIVATE)
      else (a, false)
  end.

Definition fault (a : args) : args := Args MODE_NULL (a_sync a) (mmap_prot a) (mmap_flags a) (a_path a).

Definition parse_argument (argv : list string) : args :=
  let a0 := Args MODE_NULL false 0 0 "" in
  match argv with
  | _ :: arg1 :: arg2 :: arg3 :: _ =>
      let (a1, ok1) := parse_mode arg1 a0 in
      if negb ok1 then fault a1
      else
        let (a2, ok2) := parse_prot arg2 a1 in
        if negb ok2 then fault a2
        else Args (a_mode a2) (a_sync a2) (mmap_prot a2) (mmap_flags a2) (String.substring 0 1023 arg3)
  | _ => fault a0
  end.

Definition lv11_usage (name : string) : prog unit :=
  printf "usage:\n  %s <mode> <prot_flags> <path>\noptions:\n       mode: r    read\n             w    write\n             s    msync\n prot_flags: r    MAP_READ\n             w    MAP_WRITE\n             e    MAP_EXEC\n             s    MAP_SHARED\n             p    MAP_PRIVATE\n       path: file path\n"
    [PS (String.substring 0 1023 name); PS (String.substring 0 1023 name)].

Definition lv11_main (argv : list string) : prog Z :=
  let a := parse_argument argv in
  match a_mode a with
  | MODE_READ => read_from_file (a_path a) (mmap_prot a) (mmap_flags a) (a_sync a)
  | MODE_WRITE => write_to_file (a_path a) (mmap_prot a) (mmap_flags a) (a_sync a) (Some "mmap-write")
  | MODE_NULL => lv11_usage (hd "" argv) ;; Ret (-1)
  end.

(** ** [lv09_syscall_page_fault_forwqarding/main.c] *)

Definition lv09_write_to_file (path : string) (str : option string) : prog Z :=
  write_to_file path (Z.lor PROT_READ PROT_WRITE) MAP_SHARED false str.
Definition lv09_read_from_file (path : string) : prog Z := read_from_file path PROT_READ MAP_PRIVATE false.

Definition lv09_usage (name : string) : prog unit :=
  printf "Usage: %s r <path>\n       %s w <path> <string>\n" [PS name; PS name].

(** [argv[3]] is a null pointer when there are three arguments. *)
Definition lv09_main (argv : list string) : prog Z :=
  match argv with
  | name :: md :: path :: rest =>
      match md with
      | String "r" _ => lv09_read_from_file path
      | String "w" _ => lv09_write_to_file path (head rest)
      | _ => lv09_usage name ;; Ret (-1)
      end
  | _ => lv09_usage (hd "" argv) ;; Ret (-1)
  end.

(** ** [lv14_large_pages/main.c] *)

Inductive test_anon_mode := TEST_ANON_NULL | TEST_ANON_READ | TEST_ANON_WRITE.

Record test_anon_arg := TestAnonArg {
  ta_len : Z;
  ta_prot : Z;
  ta_flag : Z;
  ta_repeat : Z;
  ta_mode : test_anon_mode;
  ta_rw_off : Z;
}.

Definition test_anon_line (i addr len print x : Z) : prog unit :=
  printf "mmap-%d[%p-%p] %p=0x%lx\n" [PZ i; PZ addr; PZ (addr + len); PZ print; PZ x].
Definition test_anon_munmap (args : test_anon_arg) (addr : Z) (k : prog Z) : prog Z :=
  r <- munmap addr (ta_len args) ;;
  if r =? -1 then perror "test_anon[munmap]:" ;; Ret (-1) else k.

Fixpoint test_anon_from (n : nat) (i : Z) (args : test_anon_arg) : prog Z :=
  match n with
  | O => Ret 0
  | S n =>
      addr <- mmap NULL (ta_len args) (ta_prot args) (ta_flag args) (-1) 0 ;;
      if addr =? MAP_FAILED then perror "test_anon[mmap]:" ;; Ret (-1)
      else
        let print := addr + ta_rw_off args in
        match ta_mode args with
        | TEST_ANON_READ =>
            x <- load print ;;
            test_anon_line i addr (ta_len args) print x ;;
            test_anon_munmap args addr (test_anon_from n (i + 1) args)
        | TEST_ANON_WRITE =>
            store print 90 ;;
            x <- load print ;;
            test_anon_line i addr (ta_len args) print x ;;
            test_anon_munmap args addr (test_anon_from n (i + 1) args)
        | TEST_ANON_NULL =>
            munmap addr (ta_len args) ;;
            printf "test_anon[]: invalid mode." [] ;;
            Ret (-1)
        end
  end.
Definition test_anon (args : test_anon_arg) : prog Z := test_anon_from (Z.to_nat (ta_repeat args)) 0 args.

(** [main.h] *)
Definition TASK_UNMAPPED_BASE : Z := 0xFFFFFF7FC0000000.
Definition _4MB : Z := 1024 * 1024 * 4.
Definition _256MB : Z := 1024 * 1024 * 256.
Definition _1GB : Z := 1024 * 1024 * 1024.
Definition ALIGN_UP (a b : Z) : Z := Z.land (u64 (a + b - 1)) (u64 (Z.lnot (b - 1))).

Definition anon_rwx : Z := Z.lor (Z.lor PROT_EXEC PROT_READ) PROT_WRITE.
Definition anon_arg (len repeat : Z) (m : test_anon_mode) : test_anon_arg :=
  TestAnonArg len anon_rwx (Z.lor MAP_PRIVATE MAP_ANONYMOUS) repeat m (u64 (len - 8)).
Definition aligned_len (size : Z) : Z := u64 (size + u64 (ALIGN_UP TASK_UNMAPPED_BASE size - TASK_UNMAPPED_BASE)).

Definition test00 : prog Z := test_anon (anon_arg _4MB 1 TEST_ANON_READ).
Definition test01 : prog Z := test_anon (anon_arg _4MB 1 TEST_ANON_WRITE).
Definition test02 : prog Z := test_anon (anon_arg (aligned_len _256MB) 1 TEST_ANON_READ).
Definition test03 : prog Z := test_anon (anon_arg (aligned_len _1GB) 1 TEST_ANON_READ).
Definition test04 : prog Z := test_anon (anon_arg (aligned_len _1GB) 2 TEST_ANON_READ).
Definition test05 : prog Z := test_anon (anon_arg (aligned_len _1GB) 5 TEST_ANON_READ).

(** The table [tests] of [main]. *)
Definition lv14_tests : list (string * prog Z) :=
  [("Run test00.", test00); ("Run test01.", test01); ("Run test02.", test02);
   ("Run test03.", test03); ("Run test04.", test04); ("Run test05.", test05)].

Definition lv14_main (argv : list string) : prog Z :=
  match argv with
  | name :: arg :: _ =>
      let i := atoi arg in
      match (if 0 <=? i then lv14_tests !! Z.to_nat i else None) with
      | Some (run_msg, fn) =>
          printf "%s\n" [PS run_msg] ;;
          ret <- fn ;;
          printf "%s\n" [PS (if negb (ret =? 0) then "error" else "success")] ;;
          Ret ret
      | None => printf "invalid argument.\n" [] ;; Ret (-1)
      end
  | _ => printf "%s <tp number>\n" [PS (hd "" argv)] ;; Ret (-1)
  end.

(** ** [lv15_continuous_execution/lv15_map_anon.c] and [lv15_map_file.c] *)

(** The common end: map, read and unmap; [err_mmap] is the exit status of a failed [mmap]. *)
Definition lv15_map (fd err_mmap : Z) (who : string) : prog Z :=
  addr <- mmap NULL _4MB anon_rwx (Z.lor MAP_PRIVATE MAP_ANONYMOUS) fd 0 ;;
  if addr =? MAP_FAILED then perror (who ++ "[mmap]:") ;; Ret err_mmap
  else
    let print := addr + _4MB - 8 in
    x <- load print ;;
    printf "mmap[%p-%p] %p=0x%lx\n" [PZ addr; PZ (addr + _4MB); PZ print; PZ x] ;;
    r <- munmap addr _4MB ;;
    if r =? -1 then perror (who ++ "[munmap]:") ;; Ret (-1) else Ret 0.

Definition lv15_map_anon_main (argv : list string) : prog Z := lv15_map (-1) (-1) "lv15_map_anon".
Definition lv15_map_file_main (argv : list string) : prog Z :=
  match argv with
  | [_; path] =>
      fd <- open path O_RDONLY ;;
      if fd =? -1 then perror "lv15_map_file[open]:" ;; Ret (-3) else lv15_map fd (-2) "lv15_map_file"
  | _ => printf "invalid argment. %s ostype-path\n" [PS (hd "" argv)] ;; Ret (-4)
  end.
End Levels.
