(* ===== verification/LevelsThms.v ===== *)
(** * The level tests on a documented kernel, and on any system

    [lv09] and [lv11] on a kernel that maps files as the manual pages say: exit
    status, output, and what of the file is changed.  [lv14] and [lv15] on an
    arbitrary system: which answers make them return 0. *)
From S2P Require Import Prelude Process Trace CLib Arch TestMck Exact AddrSpace MemInfo FileMap FileSpec Levels.
From Stdlib Require Import Ascii String.
#[local] Open Scope string_scope.
#[local] Open Scope Z_scope.

(** ** Memory beyond the end of a mapped file, and [msync] *)

Class SyncKernel `{ArchConfig} (K : kernel) (path : string) `{FileKernel K path} := {
  file_msync s m : fv_map (view s) = Some m ->
    exists s', kstep K (Misc (Msync (fm_addr m) (fm_len m) MS_SYNC)) s = (s', 0) /\ view s' = view s;
  (** The rest of the last page of a mapping reads as zero. *)
  file_tail s m : fv_map (view s) = Some m -> Z.of_nat (List.length (bytes_of (view s) m)) = fm_len m ->
    fm_len m mod PAGE_SIZE <> 0 ->
    exists s', kstep K (Load (fm_addr m + fm_len m)) s = (s', if can_load (fm_prot m) then inl 0 else inr SIGSEGV) /\
      view s' = view s;
}.

(** The text in an array of bytes. *)
Fixpoint text (bytes : list Z) : string :=
  match bytes with
  | [] => ""
  | b :: bytes' => if b =? 0 then "" else String (ascii_of_N (Z.to_N b)) (text bytes')
  end.

Definition plain_text (s : string) : Prop := Forall (fun c => code c <> 0) (list_ascii_of_string s).

Lemma code_ascii c : ascii_of_N (Z.to_N (code c)) = c.
Proof. unfold code. rewrite N2Z.id. apply ascii_N_embedding. Qed.

Lemma text_c_string s rest : plain_text s -> text (c_string s ++ rest) = s.
Proof.
  unfold plain_text, c_string. induction s as [|c s IH]; cbn; [reflexivity|]. intros Hs. inversion_clear Hs as [|? ? Hc Hs'].
  rewrite (proj2 (Z.eqb_neq _ _) Hc), code_ascii. f_equal. now apply IH.
Qed.

Lemma length_c_string s : List.length (c_string s) = S (String.length s).
Proof. unfold c_string. rewrite length_app, length_map. cbn. rewrite Nat.add_1_r. f_equal. induction s; cbn; congruence. Qed.

(** ** Stores one after the other *)

Fixpoint put (o : nat) (bytes l : list Z) : list Z :=
  match bytes with [] => l | b :: bytes' => put (S o) bytes' (<[o := b]> l) end.

Lemma length_put bytes : forall o l, List.length (put o bytes l) = List.length l.
Proof. induction bytes as [|b bytes IH]; intros o l; cbn; [reflexivity|]. now rewrite IH, length_insert. Qed.

Lemma put_spec bytes : forall o l, (o + List.length bytes <= List.length l)%nat ->
  put o bytes l = (take o l ++ bytes ++ drop (o + List.length bytes) l)%list.
Proof.
  induction bytes as [|b bytes IH]; intros o l Hl; cbn [put List.length app] in *.
  - now rewrite Nat.add_0_r, take_drop.
  - rewrite IH by (rewrite length_insert; lia).
    rewrite (take_S_r _ _ b) by (apply list_lookup_insert_eq; lia).
    rewrite take_insert_ge, drop_insert_lt by lia. rewrite <- app_assoc. cbn [app].
    now rewrite Nat.add_succ_r.
Qed.

Section Files.
Context `{ArchConfig} (K : kernel) (path : string) `{FK : FileKernel K path} {SK : SyncKernel K path}.
Context (bound : nat) (more undefined : prog Z).
Implicit Type w : world K.

(** The file with bytes [d], mapped; [p] are the bytes of a private mapping. *)
Definition mapped (d : list Z) (f : fopen_file) (a prot : Z) (p : option (list Z)) : fview :=
  FView (Some d) (Some f) (Some (FMapping a (Z.of_nat (List.length d)) prot p)).

Lemma run_store_all {A} bytes : forall o d f a prot p pr s (k : unit -> prog A),
  view s = mapped d f a prot p -> has prot PROT_WRITE = true -> (o + List.length bytes <= List.length d)%nat ->
  exists s', view s' = mapped (match p with Some _ => d | None => put o bytes d end) f a prot (put o bytes <$> p) /\
    run K (bind (store_all (a + Z.of_nat o) bytes) k) (World pr s) = run K (k tt) (World pr s').
Proof.
  induction bytes as [|b bytes IH]; intros o d f a prot p pr s k Hv Hw Hl; cbn [store_all put].
  { exists s. split; [|reflexivity]. rewrite Hv. now destruct p. }
  destruct (file_store s (FMapping a (Z.of_nat (List.length d)) prot p) o b) as (s1 & E & Hv1);
    [now rewrite Hv|cbn [fm_len List.length] in *; lia|]. cbn [fm_addr fm_prot] in E, Hv1. rewrite Hw in E, Hv1.
  unfold store. rewrite run_bind_assoc. cbn. rewrite E. cbn [or_raise bind].
  rewrite Hv in Hv1. cbn [List.length] in Hl.
  replace (a + Z.of_nat o + 1) with (a + Z.of_nat (S o)) by lia. destruct p as [p|]; cbn in Hv1.
  - destruct (IH (S o) d f a prot (Some (<[o := b]> p)) pr s1 k Hv1 Hw ltac:(lia)) as (s2 & Hv2 & E2). exists s2.
    split; [exact Hv2|]. now rewrite E2.
  - destruct (IH (S o) (<[o := b]> d) f a prot None pr s1 k) as (s2 & Hv2 & E2);
      [unfold mapped; now rewrite length_insert|exact Hw|rewrite length_insert; lia|]. exists s2.
    split; [exact Hv2|]. now rewrite E2.
Qed.

(** What the process reads through the mapping. *)
Definition content (d : list Z) (p : option (list Z)) : list Z := default d p.
(** A text that ends inside the mapped pages. *)
Definition ends_inside (bytes : list Z) (len : Z) : Prop := In 0 bytes \/ len mod PAGE_SIZE <> 0.

Lemma run_load_string (rest : list Z) : forall o d f a prot p n pr s (k : string -> prog Z),
  view s = mapped d f a prot p -> can_load prot = true -> drop o (content d p) = rest ->
  List.length (content d p) = List.length d -> (o <= List.length d)%nat ->
  ends_inside rest (Z.of_nat (List.length d)) -> (List.length rest < n)%nat ->
  exists s', view s' = view s /\
    run K (load_string more n (a + Z.of_nat o) k) (World pr s) = run K (k (text rest)) (World pr s').
Proof.
  induction rest as [|b rest IH]; intros o d f a prot p n pr s k Hv Hc Hd Hl Ho He Hn; (destruct n as [|n]; [cbn in Hn; lia|]).
  - assert (o = List.length d) as ->.
    { apply (f_equal (@List.length Z)) in Hd. rewrite length_drop in Hd. cbn in Hd. lia. }
    destruct He as [[]|He].
    destruct (file_tail s (FMapping a (Z.of_nat (List.length d)) prot p)) as (s' & E & Hv');
      [now rewrite Hv|rewrite Hv; cbn; destruct p; cbn in *; congruence|exact He|].
    cbn [fm_addr fm_prot fm_len] in E. rewrite Hc in E. exists s'. split; [exact Hv'|]. cbn. now rewrite E.
  - assert (Ho' : (o < List.length d)%nat).
    { apply (f_equal (@List.length Z)) in Hd. rewrite length_drop in Hd. cbn in Hd. lia. }
    destruct (file_load s (FMapping a (Z.of_nat (List.length d)) prot p) o) as (s' & E & Hv');
      [now rewrite Hv|cbn; lia|]. cbn [fm_addr fm_prot] in E. rewrite Hc, Hv in E.
    assert (nth o (bytes_of (mapped d f a prot p) (FMapping a (Z.of_nat (List.length d)) prot p)) 0 = b) as Eb.
    { transitivity (nth o (content d p) 0); [unfold bytes_of, content; cbn; now destruct p|].
      rewrite nth_lookup. rewrite <- (Nat.add_0_r o), <- lookup_drop, Hd. reflexivity. }
    rewrite Eb in E. cbn [load_string text]. unfold load. rewrite run_bind_assoc. cbn. rewrite E. cbn [or_raise bind].
    destruct (b =? 0) eqn:Ez; [eauto|]. replace (a + Z.of_nat o + 1) with (a + Z.of_nat (S o)) by lia.
    destruct (IH (S o) d f a prot p n pr s' (fun t => k (String (ascii_of_N (Z.to_N b)) t))) as (s2 & Hv2 & E2);
      [now rewrite Hv'|exact Hc|now rewrite <- Nat.add_1_r, <- drop_drop, Hd|exact Hl|lia| |cbn in Hn; lia|].
    { destruct He as [[->|He]|He]; [discriminate Ez|now left|now right]. }
    exists s2. split; [now rewrite Hv2|exact E2].
Qed.

Lemma run_first_load_faults d f a prot p n pr s (k : string -> prog Z) :
  view s = mapped d f a prot p -> can_load prot = false -> (0 < List.length d)%nat -> p_sigs pr SIGSEGV = None ->
  exists s', view s' = view s /\ run K (load_string more (S n) a k) (World pr s) = (Killed SIGSEGV, World pr s').
Proof.
  intros Hv Hc Hl Hp.
  destruct (file_load s (FMapping a (Z.of_nat (List.length d)) prot p) 0) as (s' & E & Hv'); [now rewrite Hv|cbn; lia|].
  cbn [fm_addr fm_prot] in E. rewrite Hc, Z.add_0_r in E. exists s'. split; [exact Hv'|]. cbn. rewrite E. cbn.
  unfold deliver. now rewrite Hp.
Qed.

(** ** The label [out] *)

Definition closed (d : list Z) : fview := FView (Some d) None None.

Lemma run_out_mapped report d f a prot p ret pr s :
  view s = mapped d f a prot p -> 0 < a < 2 ^ 63 -> 0 <= fo_fd f ->
  exists s', view s' = closed d /\
    run K (out report a (fo_fd f) (Z.of_nat (List.length d)) ret) (World pr s) = (Done ret, World pr s').
Proof.
  intros Hv Ha Hf. set (m := FMapping a (Z.of_nat (List.length d)) prot p).
  destruct (file_munmap s m) as (s1 & E1 & Hv1); [now rewrite Hv|].
  destruct (file_close s1 f) as (s2 & E2 & Hv2); [now rewrite Hv1, Hv|].
  exists s2. split; [now rewrite Hv2, Hv1, Hv|]. unfold out.
  rewrite (proj2 (Z.eqb_neq a MAP_FAILED)), (proj2 (Z.eqb_neq (fo_fd f) (-1))) by (unfold MAP_FAILED; lia).
  cbn [negb]. rewrite run_bind_assoc. unfold munmap, close. cbn [fm_addr fm_len] in E1.
  rewrite (run_call_ok K (Munmap a (Z.of_nat (List.length d))) (fun x => x) _ _ _ _ _ _ E1) by lia.
  rewrite andb_false_r. cbn [bind]. rewrite run_bind_assoc.
  now rewrite (run_call_ok K (Close (fo_fd f)) (fun x => x) _ _ _ _ _ _ E2) by lia.
Qed.

Lemma run_out_open report d f len ret pr s :
  view s = FView (Some d) (Some f) None -> 0 <= fo_fd f ->
  exists s', view s' = closed d /\ run K (out report MAP_FAILED (fo_fd f) len ret) (World pr s) = (Done ret, World pr s').
Proof.
  intros Hv Hf. destruct (file_close s f) as (s2 & E2 & Hv2); [now rewrite Hv|].
  exists s2. split; [now rewrite Hv2, Hv|]. unfold out.
  rewrite Z.eqb_refl, (proj2 (Z.eqb_neq (fo_fd f) (-1))) by lia. cbn [negb bind]. unfold close. rewrite run_bind_assoc.
  now rewrite (run_call_ok K (Close (fo_fd f)) (fun x => x) _ _ _ _ _ _ E2) by lia.
Qed.

Lemma run_sync_and_out report sync d f a prot p pr s :
  view s = mapped d f a prot p -> 0 < a < 2 ^ 63 -> 0 <= fo_fd f ->
  exists s', view s' = closed d /\
    run K (sync_and_out report sync a (fo_fd f) (Z.of_nat (List.length d))) (World pr s) = (Done 0, World pr s').
Proof.
  intros Hv Ha Hf. unfold sync_and_out. destruct sync; [|now apply (run_out_mapped report d f a prot p)].
  destruct (file_msync s (FMapping a (Z.of_nat (List.length d)) prot p)) as (s1 & E1 & Hv1); [now rewrite Hv|].
  rewrite Hv in Hv1. destruct (run_out_mapped report d f a prot p 0 pr s1 Hv1 Ha Hf) as (s2 & Hv2 & E2).
  exists s2. split; [exact Hv2|]. unfold msync. cbn [fm_addr fm_len] in E1.
  now rewrite (run_call_ok K (Misc (Msync a (Z.of_nat (List.length d)) MS_SYNC)) (fun x => x) _ _ _ _ _ _ E1) by lia.
Qed.

Lemma run_perror {A} msg pr s (k : prog A) :
  exists pr', p_sigs pr' = p_sigs pr /\ run K (perror msg ;; k) (World pr s) = run K k (World pr' s).
Proof. eexists. split; [|reflexivity]. reflexivity. Qed.

(** The text is printed and the file unmapped and closed. *)
Lemma run_print_out report sync d f a prot p pr s :
  view s = mapped d f a prot p -> 0 < a < 2 ^ 63 -> 0 <= fo_fd f -> (0 < List.length d)%nat ->
  List.length (content d p) = List.length d -> ends_inside (content d p) (Z.of_nat (List.length d)) ->
  (List.length d < bound)%nat -> p_sigs pr SIGSEGV = None ->
  exists s', (if can_load prot then view s' = closed d else fv_data (view s') = Some d) /\
    run K (print_string bound more a (sync_and_out report sync a (fo_fd f) (Z.of_nat (List.length d)))) (World pr s) =
    if can_load prot then (Done 0, World (with_line ("%s", [PS (text (content d p))]) pr) s') else (Killed SIGSEGV, World pr s').
Proof.
  intros Hv Ha Hf H0 Hl He Hb Hp. unfold print_string. destruct (can_load prot) eqn:Hc.
  - destruct (run_load_string (content d p) 0 d f a prot p bound pr s
      (fun t => printf "%s" [PS t] ;; sync_and_out report sync a (fo_fd f) (Z.of_nat (List.length d)))) as (s1 & Hv1 & E1);
      [exact Hv|exact Hc|apply drop_0|exact Hl|lia|exact He|lia|].
    rewrite Z.add_0_r in E1. rewrite Hv in Hv1. rewrite E1. cbn.
    destruct (run_sync_and_out report sync d f a prot p (with_line ("%s", [PS (text (content d p))]) pr) s1 Hv1 Ha Hf) as (s2 & Hv2 & E2).
    exists s2. split; [exact Hv2|exact E2].
  - destruct bound as [|n]; [lia|].
    destruct (run_first_load_faults d f a prot p n pr s
      (fun t => printf "%s" [PS t] ;; sync_and_out report sync a (fo_fd f) (Z.of_nat (List.length d))) Hv Hc H0 Hp) as (s1 & Hv1 & E1).
    exists s1. split; [now rewrite Hv1, Hv|exact E1].
Qed.

(** ** Writing and reading *)

Definition one_flag (flags : Z) : Prop := flags = MAP_SHARED \/ flags = MAP_PRIVATE.
Definition can_map (mode prot flags : Z) (d : list Z) : bool :=
  may_open mode && match mmap_err noexec lockable mode prot flags (Z.of_nat (List.length d)) with None => true | Some _ => false end.

Definition write_maps (prot flags : Z) (str : string) (d : list Z) : bool :=
  can_map O_RDWR prot flags d && (String.length str <? List.length d)%nat.
Definition write_outcome (prot flags : Z) (str : string) (d : list Z) : outcome Z :=
  if write_maps prot flags str d then (if has prot PROT_WRITE && can_load prot then Done 0 else Killed SIGSEGV) else Done (-1).
(** A shared mapping changes the file, a private one does not. *)
Definition write_data (prot flags : Z) (str : string) (d : list Z) : list Z :=
  if write_maps prot flags str d && has prot PROT_WRITE && has flags MAP_SHARED
  then (c_string str ++ drop (S (String.length str)) d)%list else d.
Definition read_outcome (prot flags : Z) (d : list Z) : outcome Z :=
  if can_map O_RDONLY prot flags d then (if can_load prot then Done 0 else Killed SIGSEGV) else Done (-1).

(** The file holds [d]; it is closed and unmapped unless the process was killed;
    on success the text [t] was printed, and nothing else. *)
Definition file_ends w (o : outcome Z) (d : list Z) (t : string) w' : Prop :=
  fv_data (view (w_k w')) = Some d /\ p_sigs (w_proc w') SIGSEGV = None /\
  (forall r, o = Done r -> view (w_k w') = closed d) /\
  (o = Done 0 -> p_out (w_proc w') = (p_out (w_proc w) ++ [("%s", [PS t])])%list).

Lemma ends_early msg report f d t pr pr0 s len :
  view s = FView (Some d) (Some f) None -> 0 <= fo_fd f -> p_sigs pr SIGSEGV = None ->
  exists w', run K (perror msg ;; out report MAP_FAILED (fo_fd f) len (-1)) (World pr s) = (Done (-1), w') /\
    file_ends pr0 (Done (-1)) d t w'.
Proof.
  intros Hv Hf Hp. destruct (run_perror msg pr s (out report MAP_FAILED (fo_fd f) len (-1))) as (pr' & Hp' & ->).
  destruct (run_out_open report d f len (-1) pr' s Hv Hf) as (s' & Hv' & ->). eexists. split; [reflexivity|].
  unfold file_ends. cbn. rewrite Hv', Hp'. repeat split; auto. discriminate.
Qed.

Lemma ends_unopened msg report t d pr pr0 s :
  view s = closed d -> p_sigs pr SIGSEGV = None ->
  exists w', run K (perror msg ;; out report MAP_FAILED (-1) 0 (-1)) (World pr s) = (Done (-1), w') /\
    file_ends pr0 (Done (-1)) d t w'.
Proof.
  intros Hv Hp. eexists. split; [reflexivity|]. unfold file_ends. cbn. rewrite Hv. repeat split; auto. discriminate.
Qed.

Lemma run_open_file {A} flags d pr s (k : Z -> prog A) : view s = closed d ->
  if may_open (access_mode flags) then
    exists s' fd, 0 <= fd /\ view s' = FView (Some d) (Some (FOpen fd (access_mode flags) 0)) None /\
      run K (bind (open path flags) k) (World pr s) = run K (k fd) (World pr s')
  else exists s', view s' = view s /\
      run K (bind (open path flags) k) (World pr s) = run K (k (-1)) (World (with_errno EACCES pr) s').
Proof.
  intros Hv. pose proof (run_open K path flags d pr s k Hv) as Ho. destruct (may_open (access_mode flags)) eqn:Em; [exact Ho|].
  pose proof (file_open s flags) as Hf. rewrite Hv in Hf. specialize (Hf eq_refl). unfold open_err in Hf.
  cbn [closed fv_data] in Hf. rewrite Em in Hf. destruct Hf as (s' & E & Hv'). exists s'. split; [now rewrite Hv|].
  apply (run_call_err K (Open path flags) (fun x => x)) with (r := - EACCES); [exact E|reflexivity|compute; split; discriminate].
Qed.

Lemma run_map_file {A} d f prot flags pr s (k : Z -> prog A) : view s = FView (Some d) (Some f) None -> one_flag flags ->
  let len := Z.of_nat (List.length d) in
  match mmap_err noexec lockable (fo_mode f) prot flags len with
  | Some e => exists s', view s' = view s /\
      run K (bind (mmap 0 len prot flags (fo_fd f) 0) k) (World pr s) = run K (k MAP_FAILED) (World (with_errno e pr) s')
  | None => exists s' a, 0 < a < 2 ^ 63 /\ (0 < List.length d)%nat /\
      view s' = mapped d f a prot (if has flags MAP_SHARED then None else Some d) /\
      run K (bind (mmap 0 len prot flags (fo_fd f) 0) k) (World pr s) = run K (k a) (World pr s')
  end.
Proof.
  intros Hv Hfl len. pose proof (run_mmap K path d f prot flags pr s k Hv) as Hr. pose proof (file_mmap s d f prot flags) as Hm.
  rewrite Hv in Hm. specialize (Hm eq_refl eq_refl eq_refl). cbv zeta in Hr. fold len in Hr, Hm.
  destruct (mmap_err noexec lockable (fo_mode f) prot flags len) as [e|] eqn:Ee.
  - destruct Hm as (s' & E & Hv'). exists s'. split; [now rewrite Hv|].
    apply (run_call_err K (Mmap 0 len prot flags (fo_fd f) 0) (fun x => x)) with (r := - e); [exact E|reflexivity|].
    now apply (err_range K path) in Ee.
  - destruct Hr as (s' & a & Ha & Hv' & E). exists s', a. split; [exact Ha|]. split; [|split; [|exact E]].
    + unfold mmap_err in Ee. destruct (Z.eqb_spec len 0); [discriminate|]. lia.
    + rewrite Hv'. now destruct Hfl as [-> | ->].
Qed.

Lemma run_first_store_faults {A} b bytes d f a prot p pr s (k : unit -> prog A) :
  view s = mapped d f a prot p -> has prot PROT_WRITE = false -> (0 < List.length d)%nat -> p_sigs pr SIGSEGV = None ->
  exists s', view s' = view s /\ run K (bind (store_all a (b :: bytes)) k) (World pr s) = (Killed SIGSEGV, World pr s').
Proof.
  intros Hv Hw Hl Hp.
  destruct (file_store s (FMapping a (Z.of_nat (List.length d)) prot p) 0 b) as (s' & E & Hv'); [now rewrite Hv|cbn; lia|].
  cbn [fm_addr fm_prot] in E, Hv'. rewrite Hw in E, Hv'. rewrite Z.add_0_r in E. exists s'. split; [exact Hv'|].
  cbn. rewrite E. cbn. unfold deliver. now rewrite Hp.
Qed.

(** The string is copied and printed. *)
Lemma run_copy_print str sync shared d f a prot pr s :
  view s = mapped d f a prot (if shared : bool then None else Some d) -> 0 < a < 2 ^ 63 -> 0 <= fo_fd f ->
  (String.length str < List.length d)%nat -> plain_text str -> (List.length d < bound)%nat -> p_sigs pr SIGSEGV = None ->
  let o := if has prot PROT_WRITE && can_load prot then Done 0 else Killed SIGSEGV in
  exists w', run K (strcpy a str ;; print_string bound more a (sync_and_out true sync a (fo_fd f) (Z.of_nat (List.length d)))) (World pr s) = (o, w') /\
    file_ends (World pr s) o (if has prot PROT_WRITE && shared then (c_string str ++ drop (S (String.length str)) d)%list else d) str w'.
Proof.
  intros Hv Ha Hf Hl Ht Hb Hp o. subst o. unfold strcpy.
  set (k := print_string bound more a (sync_and_out true sync a (fo_fd f) (Z.of_nat (List.length d)))).
  pose proof (length_c_string str) as Hc. destruct (has prot PROT_WRITE) eqn:Hw; cbn [andb].
  2: { destruct (c_string str) as [|b bytes]; [discriminate Hc|].
       destruct (run_first_store_faults b bytes d f a prot _ pr s (fun _ => k) Hv Hw ltac:(lia) Hp) as (s' & Hv' & E).
       eexists. split; [exact E|]. unfold file_ends. cbn. rewrite Hv', Hv. repeat split; auto; discriminate. }
  destruct (run_store_all (c_string str) 0 d f a prot _ pr s (fun _ => k) Hv Hw ltac:(lia)) as (s1 & Hv1 & E1).
  rewrite Z.add_0_r in E1. rewrite E1. clear E1 Hv. set (d2 := put 0 (c_string str) d) in *.
  assert (Hd2 : d2 = (c_string str ++ drop (S (String.length str)) d)%list).
  { unfold d2. rewrite put_spec by lia. cbn [take app Nat.add]. now rewrite Hc. }
  assert (Hl2 : List.length d2 = List.length d) by apply length_put. rewrite <- Hd2.
  set (dd := if shared then d2 else d). assert (Hdd : List.length dd = List.length d) by (subst dd; now destruct shared).
  assert (Hv2 : view s1 = mapped dd f a prot (if shared then None else Some d2)) by (rewrite Hv1; unfold dd; now destruct shared).
  assert (Hcont : content dd (if shared then None else Some d2) = d2) by (unfold dd; now destruct shared).
  destruct (run_print_out true sync dd f a prot _ pr s1 Hv2 Ha Hf) as (s2 & Hv3 & E2); rewrite ?Hcont, ?Hdd; try lia; try exact Hp.
  { left. rewrite Hd2. apply in_or_app. left. apply in_or_app. right. now left. }
  rewrite Hdd, Hcont in E2. unfold k, file_ends.
  destruct (can_load prot); (eexists; split; [exact E2|]); cbn [w_k w_proc]; rewrite Hv3; repeat split; auto; try discriminate.
  intros _. cbn. now rewrite Hd2, text_c_string.
Qed.

Lemma run_write prot flags sync str d w :
  fresh K path d w -> Z.of_nat (List.length d) < 2 ^ 63 -> plain_text str -> one_flag flags -> (List.length d < bound)%nat ->
  exists w', run K (write_to_file bound more undefined path prot flags sync (Some str)) w = (write_outcome prot flags str d, w') /\
    file_ends w (write_outcome prot flags str d) (write_data prot flags str d) str w'.
Proof.
  destruct w as [pr s]. intros [Hv Hp] Hd Ht Hfl Hb. cbn in Hv, Hp.
  unfold write_to_file, write_outcome, write_data, write_maps, can_map.
  match goal with |- context [bind (open path O_RDWR) ?k] => pose proof (run_open_file O_RDWR d pr s k Hv) as Ho end.
  change (access_mode O_RDWR) with O_RDWR in Ho. destruct (may_open O_RDWR); cbn [andb].
  2: { destruct Ho as (s1 & Hv1 & ->). cbn [Z.eqb]. apply ends_unopened; [now rewrite Hv1|exact Hp]. }
  destruct Ho as (s1 & fd & Hfd & Hv1 & ->). rewrite (proj2 (Z.eqb_neq fd (-1))) by lia.
  match goal with |- context [bind (stat path) ?k] => destruct (run_stat K path d pr s1 k) as (s2 & Hv2 & ->) end;
    [now rewrite Hv1|]. cbn [Z.eqb]. rewrite u64_small by lia. rewrite Hv1 in Hv2.
  destruct (Z.leb_spec (Z.of_nat (List.length d)) (Z.of_nat (String.length str))) as [Hs|Hs].
  { rewrite (proj2 (Nat.ltb_ge _ _)) by lia. rewrite andb_false_r. cbn [andb].
    destruct (run_out_open true d (FOpen fd O_RDWR 0) (Z.of_nat (List.length d)) (-1) (with_line ("string size error.\n", []) pr) s2 Hv2 Hfd)
      as (s' & Hv' & E). eexists. split; [exact E|]. unfold file_ends. cbn. rewrite Hv'. repeat split; auto. discriminate. }
  rewrite (proj2 (Nat.ltb_lt _ _)) by lia. rewrite andb_true_r.
  match goal with |- context [bind (mmap 0 _ prot flags fd 0) ?k] =>
    pose proof (run_map_file d (FOpen fd O_RDWR 0) prot flags pr s2 k Hv2 Hfl) as Hm end.
  cbv zeta in Hm. cbn [fo_mode fo_fd] in Hm.
  destruct (mmap_err noexec lockable O_RDWR prot flags (Z.of_nat (List.length d))) as [e|]; cbn [andb].
  { destruct Hm as (s3 & Hv3 & ->). rewrite Z.eqb_refl. rewrite Hv2 in Hv3.
    apply (ends_early "mmap" true (FOpen fd O_RDWR 0)); [exact Hv3|exact Hfd|exact Hp]. }
  destruct Hm as (s3 & a & Ha & H0 & Hv3 & ->). rewrite (proj2 (Z.eqb_neq a MAP_FAILED)) by (unfold MAP_FAILED; lia).
  destruct (run_copy_print str sync (has flags MAP_SHARED) d (FOpen fd O_RDWR 0) a prot pr s3 Hv3 Ha Hfd ltac:(lia) Ht Hb Hp)
    as (w' & E & He). exists w'. split; [exact E|exact He].
Qed.

Lemma run_read prot flags sync d w :
  fresh K path d w -> one_flag flags -> (List.length d < bound)%nat -> ends_inside d (Z.of_nat (List.length d)) ->
  exists w', run K (read_from_file bound more path prot flags sync) w = (read_outcome prot flags d, w') /\
    file_ends w (read_outcome prot flags d) d (text d) w'.
Proof.
  destruct w as [pr s]. intros [Hv Hp] Hfl Hb Hi. cbn in Hv, Hp. unfold read_from_file, read_outcome, can_map.
  match goal with |- context [bind (open path O_RDONLY) ?k] => pose proof (run_open_file O_RDONLY d pr s k Hv) as Ho end.
  change (access_mode O_RDONLY) with O_RDONLY in Ho. destruct (may_open O_RDONLY); cbn [andb].
  2: { destruct Ho as (s1 & Hv1 & ->). cbn [Z.eqb]. apply ends_unopened; [now rewrite Hv1|exact Hp]. }
  destruct Ho as (s1 & fd & Hfd & Hv1 & ->). rewrite (proj2 (Z.eqb_neq fd (-1))) by lia.
  match goal with |- context [bind (stat path) ?k] => destruct (run_stat K path d pr s1 k) as (s2 & Hv2 & ->) end;
    [now rewrite Hv1|]. cbn [Z.eqb]. rewrite Hv1 in Hv2.
  match goal with |- context [bind (mmap 0 _ prot flags fd 0) ?k] =>
    pose proof (run_map_file d (FOpen fd O_RDONLY 0) prot flags pr s2 k Hv2 Hfl) as Hm end.
  cbv zeta in Hm. cbn [fo_mode fo_fd] in Hm.
  destruct (mmap_err noexec lockable O_RDONLY prot flags (Z.of_nat (List.length d))) as [e|]; cbn [andb].
  { destruct Hm as (s3 & Hv3 & ->). rewrite Z.eqb_refl. rewrite Hv2 in Hv3.
    apply (ends_early "mmap" false (FOpen fd O_RDONLY 0)); [exact Hv3|exact Hfd|exact Hp]. }
  destruct Hm as (s3 & a & Ha & H0 & Hv3 & ->). rewrite (proj2 (Z.eqb_neq a MAP_FAILED)) by (unfold MAP_FAILED; lia).
  assert (Hcont : content d (if has flags MAP_SHARED then None else Some d) = d) by now destruct (has flags MAP_SHARED).
  destruct (run_print_out false sync d (FOpen fd O_RDONLY 0) a prot _ pr s3 Hv3 Ha Hfd H0) as (s4 & Hv4 & E);
    rewrite ?Hcont; try exact Hp; try exact Hi; try lia.
  rewrite Hcont in E. cbn [fo_fd] in E. unfold file_ends.
  destruct (can_load prot); (eexists; split; [exact E|]); cbn [w_k w_proc]; rewrite Hv4; repeat split; auto; discriminate.
Qed.

(** ** The programs *)

Definition lv11_outcome (a : args) (d : list Z) : outcome Z :=
  match a_mode a with
  | MODE_WRITE => write_outcome (mmap_prot a) (mmap_flags a) "mmap-write" d
  | MODE_READ => read_outcome (mmap_prot a) (mmap_flags a) d
  | MODE_NULL => Done (-1)
  end.
Definition lv11_data (a : args) (d : list Z) : list Z :=
  match a_mode a with MODE_WRITE => write_data (mmap_prot a) (mmap_flags a) "mmap-write" d | _ => d end.
Definition lv11_text (a : args) (d : list Z) : string :=
  match a_mode a with MODE_WRITE => "mmap-write" | _ => text d end.


Lemma length_written str d : (String.length str < List.length d)%nat ->
  List.length (c_string str ++ drop (S (String.length str)) d)%list = List.length d.
Proof. intros Hl. rewrite length_app, length_c_string, length_drop. lia. Qed.

Definition PROT_RDWR : Z := Z.lor PROT_READ PROT_WRITE.

(** C25.  The round trip of [lv09_syscall_page_fault_forwqarding]: a string that fits into
    the file is written by one run of the program, in which it is printed, and printed
    by the next run that reads the file; both exit with 0, and only the bytes of the
    string and its end have changed. *)
Theorem lv09_roundtrip name str d w pr2 :
  fresh K path d w -> p_sigs pr2 SIGSEGV = None -> plain_text str -> (String.length str < List.length d)%nat ->
  Z.of_nat (List.length d) < 2 ^ 63 -> (List.length d < bound)%nat ->
  can_map O_RDWR PROT_RDWR MAP_SHARED d = true -> can_map O_RDONLY PROT_READ MAP_PRIVATE d = true ->
  exists w1 w2,
    run K (lv09_main bound more undefined [name; "w"; path; str]) w = (Done 0, w1) /\
    run K (lv09_main bound more undefined [name; "r"; path]) (World pr2 (w_k w1)) = (Done 0, w2) /\
    p_out (w_proc w1) = (p_out (w_proc w) ++ [("%s", [PS str])])%list /\
    p_out (w_proc w2) = (p_out pr2 ++ [("%s", [PS str])])%list /\
    view (w_k w2) = closed (c_string str ++ drop (S (String.length str)) d)%list.
Proof.
  intros Hf Hp2 Ht Hl Hd Hb Hw Hr. set (d' := (c_string str ++ drop (S (String.length str)) d)%list).
  assert (Hl' : List.length d' = List.length d) by now apply length_written.
  destruct (run_write PROT_RDWR MAP_SHARED false str d w Hf Hd Ht (or_introl eq_refl) Hb) as (w1 & E1 & _ & _ & Hv1 & Ho1).
  unfold write_outcome, write_data, write_maps in E1, Hv1, Ho1. rewrite Hw, (proj2 (Nat.ltb_lt _ _) Hl) in E1, Hv1, Ho1.
  rewrite (can_load_read PROT_RDWR eq_refl) in E1, Hv1, Ho1. cbn [andb] in E1, Hv1, Ho1.
  change (has PROT_RDWR PROT_WRITE) with true in *. change (has MAP_SHARED MAP_SHARED) with true in *. cbn [andb] in E1, Hv1, Ho1.
  specialize (Hv1 0 eq_refl). specialize (Ho1 eq_refl). fold d' in Hv1.
  destruct (run_read PROT_READ MAP_PRIVATE false d' (World pr2 (w_k w1))) as (w2 & E2 & _ & _ & Hv2 & Ho2).
  - split; [exact Hv1|exact Hp2].
  - now right.
  - lia.
  - left. apply in_or_app. left. apply in_or_app. right. now left.
  - unfold read_outcome, can_map in *. rewrite Hl', Hr, (can_load_read PROT_READ eq_refl) in E2, Hv2, Ho2.
    exists w1, w2. split; [exact E1|]. split; [exact E2|]. split; [exact Ho1|]. split; [|now apply (Hv2 0)].
    rewrite (Ho2 eq_refl). unfold d'. now rewrite text_c_string.
Qed.
End Files.

#[export] Instance file_kernel_syncs `{ArchConfig} path : SyncKernel (file_kernel path) path.
Proof.
  split; cbn [kstep file_kernel file_step view file_kernel_ok].
  - eauto.
  - intros s m Hm Hl _. eexists. split; [|reflexivity]. rewrite Hm.
    replace (fm_addr m + fm_len m - fm_addr m) with (fm_len m) by lia. rewrite <- Hl, Nat2Z.id.
    cbn [can_load file_kernel_ok]. rewrite nth_overflow by lia. reflexivity.
Qed.

(** A file with twelve bytes and a zero among them. *)
Definition twelve : list Z := [65; 66; 67; 68; 69; 70; 71; 72; 73; 74; 75; 0].
Definition twelve_world : world (file_kernel "data") := World proc0 (FView (Some twelve) None None : kstate (file_kernel "data")).


Lemma lv09_roundtrip_witness : exists w1 w2,
  run (file_kernel "data") (lv09_main 100 (Ret 1) (Ret 2) ["lv09"; "w"; "data"; "hello"]) twelve_world = (Done 0, w1) /\
  run (file_kernel "data") (lv09_main 100 (Ret 1) (Ret 2) ["lv09"; "r"; "data"]) (World proc0 (w_k w1)) = (Done 0, w2) /\
  p_out (w_proc w2) = [("%s", [PS "hello"])].
Proof.
  destruct (@lv09_roundtrip config_4K (file_kernel "data") "data" _ _ 100 (Ret 1) (Ret 2) "lv09" "hello" twelve twelve_world proc0)
    as (w1 & w2 & E1 & E2 & _ & Ho & _); try reflexivity; try (cbn; lia).
  - split; reflexivity.
  - repeat constructor; discriminate.
  - exists w1, w2. split; [exact E1|]. split; [exact E2|exact Ho].
Defined.

(** ** Anonymous mappings on any system *)

(** [n] rounds of map, access the last word but one, unmap. *)
Fixpoint anon_script (n : nat) (len : Z) (write : bool) : script :=
  match n with
  | O => Met
  | S n =>
      maps NULL len 7 0x22 (-1) 0 (fun addr =>
        let access := loads (addr + (len - 8)) (Need (Munmap addr len) not_err (fun _ => anon_script n len write)) in
        if write then stores (addr + (len - 8)) 90 access else access)
  end.

Definition lv14_scripts : list script :=
  [ anon_script 1 (2 ^ 22) false; anon_script 1 (2 ^ 22) true; anon_script 1 (2 ^ 28) false;
    anon_script 1 (2 ^ 30) false; anon_script 2 (2 ^ 30) false; anon_script 5 (2 ^ 30) false ].

(** [None]: the program does not return 0. *)
Definition lv14_script (argv : list string) : option script :=
  match argv with
  | _ :: arg :: _ => if 0 <=? atoi arg then lv14_scripts !! Z.to_nat (atoi arg) else None
  | _ => None
  end.

Lemma exact_munmap args addr n (k : prog Z) s : exact n n 0 k s ->
  exact n n 0 (test_anon_munmap args addr k) (Need (Munmap addr (ta_len args)) not_err (fun _ => s)).
Proof.
  intros Hk. apply (exact_ok n n 0 (Munmap addr (ta_len args)) (fun r => r)); [cbn [Z.eqb]; fails_tac|].
  intros r E. now rewrite (not_err_neg1 _ E).
Qed.

Lemma exact_test_anon len (write : bool) n : forall i z m, 8 <= len < 2 ^ 64 -> m = (if write then TEST_ANON_WRITE else TEST_ANON_READ) ->
  forall r, exact z z 0 (test_anon_from n i (anon_arg len r m)) (anon_script n len write).
Proof.
  induction n as [|n IH]; intros i z m Hlen -> r; [apply exact_ret|]. cbn [test_anon_from anon_script].
  apply exact_maps; [rewrite Z.eqb_refl; fails_tac|]. intros addr Ha. apply Z.eqb_neq in Ha. rewrite Ha.
  cbn [ta_mode ta_rw_off anon_arg]. rewrite u64_small by lia.
  destruct write; [apply exact_stores|]; apply exact_loads; intros v; apply exact_printf, exact_munmap; now apply IH.
Qed.

(** The length of the tests 2 to 5 is the nominal one: the base is aligned. *)
Lemma aligned_lens : aligned_len _256MB = 2 ^ 28 /\ aligned_len _1GB = 2 ^ 30.
Proof. split; reflexivity. Qed.

Lemma lv14_tests_exact z :
  Forall2 (fun (t : string * prog Z) s => exact z z 0 (snd t) s) lv14_tests lv14_scripts.
Proof.
  destruct aligned_lens as [E2 E3].
  repeat constructor; cbn [snd]; unfold test00, test01, test02, test03, test04, test05, test_anon; rewrite ?E2, ?E3;
    apply exact_test_anon; reflexivity || (unfold _4MB; lia).
Qed.

(** What a pass of [lv14_large_pages] is evidence of, on any system: the exit status
    is 0 exactly if the argument names one of the six tests and every round of it maps
    4 MiB, 256 MiB or 1 GiB, can access the word before the last and unmaps the
    block again; the system is then in the state after the last call. *)
Theorem lv14_exact K argv w :
  match lv14_script argv with
  | None => fst (run K (lv14_main argv) w) <> Done 0
  | Some s =>
      (fst (run K (lv14_main argv) w) = Done 0 <-> is_Some (meets K s (w_k w))) /\
      (forall st, meets K s (w_k w) = Some st -> w_k (snd (run K (lv14_main argv) w)) = st)
  end.
Proof.
  unfold lv14_script, lv14_main. destruct argv as [|name [|arg rest]]; [apply fails_bind; intros _; now apply fails_ret..|].
  destruct (0 <=? atoi arg); [|apply fails_bind; intros _; now apply fails_ret].
  pose proof (lv14_tests_exact false) as F. generalize (Z.to_nat (atoi arg)). intros n.
  destruct (lv14_scripts !! n) as [s|] eqn:Es.
  - destruct (Forall2_lookup_r _ _ _ _ _ F Es) as ([run_msg fn] & Et & Hx). rewrite Et. apply exact_iff.
    apply exact_printf, exact_andthen_met, (exact_bind false false false 0 0 fn _ s Met Hx).
    + cbn [Z.eqb negb]. apply exact_printf, exact_ret.
    + intros x Hne. apply fails_bind. intros _. now apply fails_ret.
  - destruct (lv14_tests !! n) eqn:Et; [|apply fails_bind; intros _; now apply fails_ret].
    destruct (Forall2_lookup_l _ _ _ _ _ F Et) as (s & E & _). rewrite E in Es. discriminate Es.
Qed.

(** [lv15]: the descriptor is handed to [mmap] together with [MAP_ANONYMOUS]; what is
    accessed is not the file, which stays open. *)
Definition lv15_script (fd : Z) : script :=
  maps NULL (2 ^ 22) 7 0x22 fd 0 (fun addr => loads (addr + 2 ^ 22 - 8) (Need (Munmap addr (2 ^ 22)) not_err (fun _ => Met))).

Lemma lv15_map_exact z fd err who : err <> 0 -> exact z z 0 (lv15_map fd err who) (lv15_script fd).
Proof.
  intros He. unfold lv15_map, lv15_script. change _4MB with (2 ^ 22).
  apply exact_maps; [rewrite Z.eqb_refl; apply fails_bind; intros _; now apply fails_ret|].
  intros addr Ha. apply Z.eqb_neq in Ha. rewrite Ha. apply exact_loads. intros v. apply exact_printf.
  apply (exact_ok z z 0 (Munmap addr (2 ^ 22)) (fun r => r)); [cbn [Z.eqb]; fails_tac|].
  intros r E. rewrite (not_err_neg1 _ E). apply exact_ret.
Qed.

Lemma lv15_map_file_exact z name path :
  exact z z 0 (lv15_map_file_main [name; path]) (Need (Open path O_RDONLY) not_err lv15_script).
Proof.
  apply (exact_ok z z 0 (Open path O_RDONLY) (fun r => r)); [cbn [Z.eqb]; fails_tac|].
  intros fd E. rewrite (not_err_neg1 _ E). now apply lv15_map_exact.
Qed.
