(* ===== verification/Affinity.v ===== *)
(** * CPU affinity: [get_cpu_id], [sched_getaffinity] 0-4, [sched_setaffinity] 0, 1, 3-7

    A CPU set is the number whose bits are its members; the macros of
    [<sched.h>] act on it with the size of the allocated memory in bytes. *)
From S2P Require Import Prelude Process Trace CLib TestMck AddrSpace MemInfo Procs.
From Stdlib Require Import Ascii String.
#[local] Open Scope string_scope.
#[local] Open Scope Z_scope.

(** ** [<sched.h>] *)

(** [CPU_ALLOC_SIZE(n)], in [size_t]. *)
Definition CPU_ALLOC_SIZE (n : Z) : Z := u64 (u64 (u64 n + 63) / 64 * 8).
Definition CPU_ALLOC (n : Z) : prog Z := malloc (CPU_ALLOC_SIZE n).
Definition CPU_FREE (ptr : Z) : prog unit := free ptr.
(** [CPU_SET_S(cpu, size, set)]: a number beyond the set is ignored. *)
Definition CPU_SET_S (cpu size set : Z) : Z := if u64 cpu / 8 <? size then Z.setbit set (u64 cpu) else set.
Definition SIZEOF_CPU_SET_T : Z := 128.

(** The result and the set. *)
Definition sched_getaffinity (pid size : Z) (valid : bool) : prog (Z * Z) :=
  r <- (trigger (Cpuc (SchedGetaffinity pid size valid)) : prog (Z * Z)) ;;
  ret <- syscall_ret (-1) (fst r) ;; Ret (if ret =? -1 then -1 else 0, snd r).
Definition sched_setaffinity (pid size : Z) (set : option Z) : prog Z :=
  r <- (trigger (Cpuc (SchedSetaffinity pid size set)) : prog Z) ;; syscall_ret (-1) r.
Definition sched_getcpu : prog Z :=
  r <- (trigger (Cpuc SchedGetcpu) : prog Z) ;; syscall_ret (-1) r.
Definition kill (pid sig : Z) : prog Z := r <- trigger (Kill pid sig) ;; syscall_ret (-1) r.

(** ** [get_cpu_id.c] *)

Definition get_cpu_id : prog Z :=
  id <- sched_getcpu ;;
  (if id <? 0 then printf "Why sched_getcpu failed?\n" [] else Ret tt) ;;
  Ret id.

(** ** Arguments *)

Record affinity_args := AffinityArgs { num_of_cpus : Z; file_path : option string; cpuset_path : option string }.

Fixpoint getaffinity_options (evs : list optev) (a : affinity_args) : affinity_args :=
  match evs with
  | [] => a
  | Opt c optarg :: evs' =>
      getaffinity_options evs'
        (if Ascii.eqb c "p" then AffinityArgs (atoi optarg) (file_path a) (cpuset_path a)
         else if Ascii.eqb c "f" then AffinityArgs (num_of_cpus a) (Some optarg) (cpuset_path a)
         else if Ascii.eqb c "o" then AffinityArgs (num_of_cpus a) (file_path a) (Some optarg)
         else a)
  | OptErr :: evs' => getaffinity_options evs' a
  end.
Definition sched_getaffinity_parse_args (argv : list string) : prog affinity_args :=
  Ret (getaffinity_options (fst (getopt "f:p:o:" (tail argv))) (AffinityArgs 0 None None)).

Fixpoint setaffinity_options (evs : list optev) (n : Z) : Z :=
  match evs with
  | [] => n
  | Opt c optarg :: evs' => setaffinity_options evs' (if Ascii.eqb c "p" then atoi optarg else n)
  | OptErr :: evs' => setaffinity_options evs' n
  end.
Definition sched_setaffinity_parse_args (argv : list string) : prog Z :=
  Ret (setaffinity_options (fst (getopt "p:" (tail argv))) 0).

(** ** [sched_getaffinity] *)

Definition mandatory_p : string := "mandatory parameter '-p <num_of_cpus>'".

Section Suites.
(** What the heap holds behind an allocated set; [INT_MAX] is the one of the
    C library or, if its header is not included, that of the test; [n] bounds
    the search for a free process number and [more] stands for a longer one. *)
Context (beyond : Z -> bool) (INT_MAX : Z) (n : nat) (more : prog Z).

(** [CPU_ISSET(cpu, set)]: looks at any of 1024 bits, whatever was allocated. *)
Definition CPU_ISSET (cpu size set : Z) : bool :=
  if u64 cpu / 8 <? SIZEOF_CPU_SET_T then (if u64 cpu / 8 <? size then Z.testbit set (u64 cpu) else beyond (u64 cpu))
  else false.

Definition getaffinity_run_000 (args : affinity_args) : prog result :=
  current_cpuid <- get_cpu_id ;;
  tp_assert! (negb (num_of_cpus args =? 0), Some mandatory_p) ;;
  let num_cpus := num_of_cpus args in
  cpusetp <- CPU_ALLOC num_cpus ;;
  tp_assert! (negb (cpusetp =? NULL), Some "alloc failed.") ;;
  let size := CPU_ALLOC_SIZE num_cpus in
  let* (result, set) := sched_getaffinity 0 size true in
  if result =? -1 then CPU_FREE cpusetp ;; Ret (Some "sched_getaffinity failed.")
  else
    let result := CPU_ISSET current_cpuid size set in
    CPU_FREE cpusetp ;;
    tp_assert! (result, Some "Really process running there?") ;;
    Ret None.

(** The last lines of the error tests. *)
Definition call_fails_with (call : string) (res : Z) (name : string) (err : Z) : prog result :=
  e <- errno ;;
  printf (call ++ " result:%d, errno:%d (expect error is " ++ quoted name ++ "=%d)\n") [PZ res; PZ e; PZ err] ;;
  tp_assert! (res =? -1, Some ("Why " ++ call ++ " didn't failed!?")) ;;
  e <- errno ;;
  tp_assert! (e =? err, Some "Unexpected error is occur.") ;;
  Ret None.

Definition getaffinity_run_001 : prog result :=
  let* (result, _) := sched_getaffinity 0 SIZEOF_CPU_SET_T false in
  call_fails_with "sched_getaffinity" result "EFAULT" EFAULT.

Definition getaffinity_run_002 (args : affinity_args) : prog result :=
  tp_assert! (negb (num_of_cpus args =? 0), Some mandatory_p) ;;
  cpusetp <- CPU_ALLOC (num_of_cpus args) ;;
  tp_assert! (negb (cpusetp =? NULL), Some "alloc failed.") ;;
  let* (result, _) := sched_getaffinity 0 0 true in
  CPU_FREE cpusetp ;;
  call_fails_with "sched_getaffinity" result "EINVAL" EINVAL.

(** [invalid_pid < INT_MAX], in the type of [INT_MAX]. *)
Definition below_INT_MAX (pid : Z) : bool :=
  if INT_MAX <? 2 ^ 31 then pid <? INT_MAX else u32 pid <? INT_MAX.

(** The search for a number without a process. *)
Fixpoint invalid_pid_from (n : nat) (invalid_pid : Z) : prog Z :=
  match n with
  | O => more
  | S n =>
      if below_INT_MAX invalid_pid then
        r <- kill invalid_pid 0 ;;
        if r =? -1 then
          e <- errno ;;
          if e =? ESRCH then Ret invalid_pid
          else if e =? EPERM then invalid_pid_from n (i32 (i32 (INT_MAX - 1) + 1))
          else invalid_pid_from n (i32 (invalid_pid + 1))
        else invalid_pid_from n (i32 (invalid_pid + 1))
      else Ret invalid_pid
  end.

Definition getaffinity_run_003 (args : affinity_args) : prog result :=
  tp_assert! (negb (num_of_cpus args =? 0), Some mandatory_p) ;;
  invalid_pid <- invalid_pid_from n 2 ;;
  let num_cpus := num_of_cpus args in
  cpusetp <- CPU_ALLOC num_cpus ;;
  tp_assert! (negb (cpusetp =? NULL), Some "alloc failed.") ;;
  let* (result, _) := sched_getaffinity invalid_pid (CPU_ALLOC_SIZE num_cpus) true in
  CPU_FREE cpusetp ;;
  call_fails_with "sched_getaffinity" result "ESRCH" ESRCH.

Definition MAX_NR_CPUS : Z := 1024.

(** Both operands are [int]. *)
Definition primitive_ceil (x y : Z) : Z :=
  if negb (y =? 0) then Z.quot x y + (if negb (Z.rem x y =? 0) then 1 else 0) else 0.

Definition getaffinity_run_004 (args : affinity_args) : prog result :=
  tp_assert! (negb (num_of_cpus args =? 0), Some mandatory_p) ;;
  tp_assert! (num_of_cpus args <=? MAX_NR_CPUS, Some "value too big.(<= 1024)") ;;
  cpusetp <- CPU_ALLOC MAX_NR_CPUS ;;
  tp_assert! (negb (cpusetp =? NULL), Some "alloc failed.") ;;
  let size := u64 (primitive_ceil (num_of_cpus args) 8) in
  let expect := if negb (u64 (i32 size) mod 8 =? 0) then -1 else 0 in
  let* (result, _) := sched_getaffinity 0 size true in
  CPU_FREE cpusetp ;;
  tp_assert! (result =? expect, Some "sched_getaffinity returns unexpected error.") ;;
  if negb (result =? 0) then
    e <- errno ;;
    printf "[size=%d] sched_getaffinity result:%d, errno:%d\n" [PZ (i32 size); PZ result; PZ e] ;;
    e <- errno ;;
    tp_assert! (e =? EINVAL, Some "unexpected result is occured.") ;;
    Ret None
  else Ret None.

(** ** [sched_setaffinity] *)

Definition setaffinity_run_000 (num_cpus : Z) : prog result :=
  tp_assert! (negb (num_cpus =? 0), Some mandatory_p) ;;
  cpusetp <- CPU_ALLOC num_cpus ;;
  tp_assert! (negb (cpusetp =? NULL), Some "alloc failed.") ;;
  let size := CPU_ALLOC_SIZE num_cpus in
  cpuid_before_migreate <- get_cpu_id ;;
  let* (result, set) := sched_getaffinity 0 size true in
  if result =? -1 then CPU_FREE cpusetp ;; Ret (Some "sched_getaffinity failed.")
  else
    result <- sched_setaffinity 0 size (Some set) ;;
    if result =? -1 then CPU_FREE cpusetp ;; Ret (Some "sched_setaffinity failed.")
    else
      cpuid_after_migreate <- get_cpu_id ;;
      CPU_FREE cpusetp ;;
      tp_assert! (cpuid_before_migreate =? cpuid_after_migreate, Some "Really process running there?") ;;
      Ret None.

Definition setaffinity_run_001 (num_cpus : Z) : prog result :=
  tp_assert! (2 <=? num_cpus, Some "mandatory parameter '-p <num_of_cpus(2 or more)>'") ;;
  cpusetp <- CPU_ALLOC num_cpus ;;
  tp_assert! (negb (cpusetp =? NULL), Some "alloc failed.") ;;
  let size := CPU_ALLOC_SIZE num_cpus in
  cpuid_before_migreate <- get_cpu_id ;;
  let migrate_cpu := num_cpus - 1 in
  let migrate_cpu := if migrate_cpu =? cpuid_before_migreate then migrate_cpu - 1 else migrate_cpu in
  let set := CPU_SET_S migrate_cpu size 0 in
  result <- sched_setaffinity 0 size (Some set) ;;
  if result =? -1 then CPU_FREE cpusetp ;; Ret (Some "sched_setaffinity failed.")
  else
    cpuid_after_migreate <- get_cpu_id ;;
    CPU_FREE cpusetp ;;
    tp_assert! (negb (cpuid_before_migreate =? cpuid_after_migreate), Some "Really process running there?") ;;
    Ret None.

Definition setaffinity_run_003 (num_cpus : Z) : prog result :=
  tp_assert! (negb (num_cpus =? 0), Some mandatory_p) ;;
  result <- sched_setaffinity 0 (CPU_ALLOC_SIZE num_cpus) None ;;
  call_fails_with "sched_setaffinity" result "EFAULT" EFAULT.

Definition setaffinity_run_004 (num_cpus : Z) : prog result :=
  tp_assert! (negb (num_cpus =? 0), Some mandatory_p) ;;
  cpusetp <- CPU_ALLOC num_cpus ;;
  tp_assert! (negb (cpusetp =? NULL), Some "alloc failed.") ;;
  let set := CPU_SET_S (num_cpus - 1) (CPU_ALLOC_SIZE num_cpus) 0 in
  result <- sched_setaffinity 0 0 (Some set) ;;
  CPU_FREE cpusetp ;;
  call_fails_with "sched_setaffinity" result "EINVAL" EINVAL.

Definition BIG_NG_CPUID : Z := 1024.
Definition setaffinity_run_005 : prog result :=
  cpusetp <- CPU_ALLOC BIG_NG_CPUID ;;
  tp_assert! (negb (cpusetp =? NULL), Some "alloc failed.") ;;
  result <- sched_setaffinity 0 (CPU_ALLOC_SIZE BIG_NG_CPUID) (Some 0) ;;
  CPU_FREE cpusetp ;;
  call_fails_with "sched_setaffinity" result "EINVAL" EINVAL.

Definition setaffinity_run_006 (num_cpus : Z) : prog result :=
  tp_assert! (negb (num_cpus =? 0), Some mandatory_p) ;;
  invalid_pid <- invalid_pid_from n 2 ;;
  cpusetp <- CPU_ALLOC num_cpus ;;
  tp_assert! (negb (cpusetp =? NULL), Some "alloc failed.") ;;
  let size := CPU_ALLOC_SIZE num_cpus in
  let set := CPU_SET_S (num_cpus - 1) size 0 in
  result <- sched_setaffinity invalid_pid size (Some set) ;;
  CPU_FREE cpusetp ;;
  call_fails_with "sched_setaffinity" result "ESRCH" ESRCH.

Definition setaffinity_run_007 (nr_cpus : Z) : prog result :=
  tp_assert! (negb (nr_cpus =? 0), Some mandatory_p) ;;
  cpusetp <- CPU_ALLOC nr_cpus ;;
  tp_assert! (negb (cpusetp =? NULL), Some "alloc failed.") ;;
  let size := u64 (primitive_ceil nr_cpus 8) in
  let expect := 0 in
  let set := CPU_SET_S (nr_cpus - 1) size 0 in
  result <- sched_setaffinity 0 size (Some set) ;;
  CPU_FREE cpusetp ;;
  tp_assert! (result =? expect, Some "sched_setaffinity returned unexpected value.") ;;
  Ret None.

(** ** The test cases *)

Definition get_case (num : Z) (run : affinity_args -> prog result) : test_case :=
  TestCase "sched_getaffinity" num _ (fun _ => sched_getaffinity_parse_args) (run_const (fun _ => run)) TEARDOWN_EMPTY.
Definition set_case (num : Z) (run : Z -> prog result) : test_case :=
  TestCase "sched_setaffinity" num _ (fun _ => sched_setaffinity_parse_args) (run_const (fun _ => run)) TEARDOWN_EMPTY.
(** Cases without arguments. *)
Definition affinity_case (suite : string) (num : Z) (run : prog result) : test_case :=
  TestCase suite num unit SETUP_EMPTY (run_const (fun _ _ => run)) TEARDOWN_EMPTY.

Definition sched_getaffinity0 := get_case 0 getaffinity_run_000.
Definition sched_getaffinity1 := affinity_case "sched_getaffinity" 1 getaffinity_run_001.
Definition sched_getaffinity2 := get_case 2 getaffinity_run_002.
Definition sched_getaffinity3 := get_case 3 getaffinity_run_003.
Definition sched_getaffinity4 := get_case 4 getaffinity_run_004.
Definition sched_setaffinity0 := set_case 0 setaffinity_run_000.
Definition sched_setaffinity1 := set_case 1 setaffinity_run_001.
Definition sched_setaffinity3 := set_case 3 setaffinity_run_003.
Definition sched_setaffinity4 := set_case 4 setaffinity_run_004.
Definition sched_setaffinity5 := affinity_case "sched_setaffinity" 5 setaffinity_run_005.
Definition sched_setaffinity6 := set_case 6 setaffinity_run_006.
Definition sched_setaffinity7 := set_case 7 setaffinity_run_007.
End Suites.
