(* ===== verification/AffinitySpec.v ===== *)
(** * The affinity suites on a documented kernel

    [AffKernel] states [sched_getaffinity(2)], [sched_setaffinity(2)], [getcpu]
    and [kill(2)] with signal 0 as far as the tests need them; the theorem gives
    the exact condition under which each case passes. *)
From S2P Require Import Prelude Process Trace CLib TestMck AddrSpace MemInfo Procs Affinity.
From Stdlib Require Import Ascii String.
#[local] Open Scope string_scope.
#[local] Open Scope Z_scope.

Class AffKernel (K : kernel) := {
  (** The CPU a process runs on and the set it may run on; how many CPUs there
      are and which of them are allowed; the other processes ([Some true] if
      they may be signalled). *)
  aff_cpu : kstate K -> Z;
  aff_mask : kstate K -> Z;
  ncpus : Z;
  allowed : Z;
  proc_at : Z -> option bool;
  ncpus_pos : 1 <= ncpus;
  allowed_ok i : Z.testbit allowed i = true -> i < ncpus;
  aff_wf s : 0 <= aff_cpu s < ncpus /\ Z.testbit (aff_mask s) (aff_cpu s) = true /\ 0 <= aff_mask s /\
    (forall i, Z.testbit (aff_mask s) i = true -> Z.testbit allowed i = true);
  aff_getcpu s : exists s', kstep K (Cpuc SchedGetcpu) s = (s', aff_cpu s) /\
    aff_cpu s' = aff_cpu s /\ aff_mask s' = aff_mask s;
  aff_get s size valid : 0 <= size ->
    exists s' a, kstep K (Cpuc (SchedGetaffinity 0 size valid)) s = (s', a) /\
      aff_cpu s' = aff_cpu s /\ aff_mask s' = aff_mask s /\
      if (8 * size <? ncpus) || negb (size mod 8 =? 0) then fst a = - EINVAL
      else if valid then 0 <= fst a /\ snd a = aff_mask s else fst a = - EFAULT;
  aff_get_other s pid size : pid <> 0 -> proc_at pid = None -> ncpus <= 8 * size -> size mod 8 = 0 ->
    exists s' m, kstep K (Cpuc (SchedGetaffinity pid size true)) s = (s', (- ESRCH, m)) /\
      aff_cpu s' = aff_cpu s /\ aff_mask s' = aff_mask s;
  aff_get_small s pid size : 0 <= size -> 8 * size < ncpus ->
    exists s' m, kstep K (Cpuc (SchedGetaffinity pid size true)) s = (s', (- EINVAL, m)) /\
      aff_cpu s' = aff_cpu s /\ aff_mask s' = aff_mask s;
  aff_set s size mask : 0 <= size -> 0 <= mask ->
    let new := Z.land (Z.land mask (Z.ones (8 * size))) allowed in
    if new =? 0 then
      exists s', kstep K (Cpuc (SchedSetaffinity 0 size (Some mask))) s = (s', - EINVAL) /\
        aff_cpu s' = aff_cpu s /\ aff_mask s' = aff_mask s
    else
      exists s', kstep K (Cpuc (SchedSetaffinity 0 size (Some mask))) s = (s', 0) /\ aff_mask s' = new /\
        (Z.testbit new (aff_cpu s) = true -> aff_cpu s' = aff_cpu s);
  aff_set_fault s size : 0 < size ->
    exists s', kstep K (Cpuc (SchedSetaffinity 0 size None)) s = (s', - EFAULT) /\
      aff_cpu s' = aff_cpu s /\ aff_mask s' = aff_mask s;
  aff_set_other s pid size mask : pid <> 0 -> proc_at pid = None ->
    exists s', kstep K (Cpuc (SchedSetaffinity pid size (Some mask))) s = (s', - ESRCH) /\
      aff_cpu s' = aff_cpu s /\ aff_mask s' = aff_mask s;
  aff_kill s pid : 2 <= pid ->
    exists s', kstep K (Kill pid 0) s =
        (s', match proc_at pid with None => - ESRCH | Some true => 0 | Some false => - EPERM end) /\
      aff_cpu s' = aff_cpu s /\ aff_mask s' = aff_mask s;
  aff_malloc s size : 0 < size < 2 ^ 29 ->
    exists s' p, kstep K (Malloc size) s = (s', p) /\ 0 < p /\ aff_cpu s' = aff_cpu s /\ aff_mask s' = aff_mask s;
  aff_free s p : exists s', kstep K (Free p) s = (s', tt) /\ aff_cpu s' = aff_cpu s /\ aff_mask s' = aff_mask s;
}.

(** ** Sizes and sets *)

Lemma alloc_size n : 0 < n < 2 ^ 31 -> CPU_ALLOC_SIZE n = 8 * ((n + 63) / 64).
Proof.
  intros Hn. unfold CPU_ALLOC_SIZE. assert (0 <= (n + 63) / 64 < 2 ^ 31) by
    (split; [apply Z.div_pos; lia|apply Z.div_lt_upper_bound; lia]).
  rewrite (u64_small n), (u64_small (n + 63)), u64_small by lia. lia.
Qed.

Lemma alloc_size_bounds n : 0 < n < 2 ^ 31 ->
  n <= 8 * CPU_ALLOC_SIZE n /\ 0 < CPU_ALLOC_SIZE n < 2 ^ 29 /\ CPU_ALLOC_SIZE n mod 8 = 0.
Proof.
  intros Hn. rewrite (alloc_size n Hn). pose proof (Z.div_mod (n + 63) 64). pose proof (Z.mod_pos_bound (n + 63) 64).
  split_and!; [lia|lia|lia|]. rewrite Z.mul_comm. apply Z.mod_mul. lia.
Qed.

Lemma ceil_size n : 0 < n < 2 ^ 31 ->
  u64 (primitive_ceil n 8) = (n + 7) / 8 /\ i32 (u64 (primitive_ceil n 8)) = (n + 7) / 8.
Proof.
  intros Hn. unfold primitive_ceil. cbn [Z.eqb negb].
  rewrite Z.quot_div_nonneg, Z.rem_mod_nonneg by lia.
  assert (E : n / 8 + (if negb (n mod 8 =? 0) then 1 else 0) = (n + 7) / 8).
  { pose proof (Z.div_mod n 8). pose proof (Z.mod_pos_bound n 8).
    destruct (Z.eqb_spec (n mod 8) 0); cbn [negb].
    - rewrite Z.add_0_r. apply Z.div_unique with (r := 7); lia.
    - apply Z.div_unique with (r := n mod 8 - 1); lia. }
  rewrite E. assert (0 <= (n + 7) / 8 < 2 ^ 30) by (split; [apply Z.div_pos; lia|apply Z.div_lt_upper_bound; lia]).
  rewrite u64_small by lia. split; [reflexivity|]. apply i32_small. lia.
Qed.

(** The set with the one member [t]. *)
Lemma single_set t size : 0 <= t < 2 ^ 31 -> t < 8 * size -> CPU_SET_S t size 0 = 2 ^ t.
Proof.
  intros Ht Hs. unfold CPU_SET_S. rewrite u64_small by lia.
  replace (t / 8 <? size) with true by (symmetry; apply Z.ltb_lt, Z.div_lt_upper_bound; lia).
  apply Z.bits_inj'. intros i Hi. rewrite Z.setbit_eqb, Z.bits_0, orb_false_r, Z.pow2_bits_eqb by lia. reflexivity.
Qed.

Lemma single_allowed t size a : 0 <= t < 8 * size ->
  Z.land (Z.land (2 ^ t) (Z.ones (8 * size))) a = if Z.testbit a t then 2 ^ t else 0.
Proof.
  intros Ht. apply Z.bits_inj'. intros i Hi. rewrite !Z.land_spec, Z.pow2_bits_eqb, Z.testbit_ones_nonneg by lia.
  destruct (Z.eqb_spec t i) as [<-|Hn].
  - replace (t <? 8 * size) with true by (symmetry; now apply Z.ltb_lt). cbn.
    destruct (Z.testbit a t); [|now rewrite Z.bits_0]. now rewrite Z.pow2_bits_true by lia.
  - cbn. destruct (Z.testbit a t); [|now rewrite Z.bits_0]. symmetry. apply Z.pow2_bits_false. lia.
Qed.

(** ** The calls, by what follows them *)

Section Calls.
Context (K : kernel) `{AffKernel K}.

(** Nothing has changed for the process. *)
Definition same_aff (s s' : kstate K) : Prop := aff_cpu s' = aff_cpu s /\ aff_mask s' = aff_mask s.

Lemma passes_getcpu (k : Z -> prog result) pr s b :
  (forall s', same_aff s s' -> passes_iff K (k (aff_cpu s)) (World pr s') b) ->
  passes_iff K (bind get_cpu_id k) (World pr s) b.
Proof.
  intros Hk. destruct (aff_getcpu s) as (s' & E & Hs). destruct (aff_wf s) as ([Hc _] & _).
  destruct (Hk s' Hs) as (v & w' & Er & Hv). exists v, w'. split; [|exact Hv]. rewrite <- Er.
  unfold get_cpu_id, sched_getcpu. rewrite run_bind_assoc.
  rewrite (run_call_ok K (Cpuc SchedGetcpu) (fun x => x) _ _ _ _ _ _ E) by exact Hc.
  replace (aff_cpu s <? 0) with false by (symmetry; now apply Z.ltb_ge). reflexivity.
Qed.

Lemma passes_alloc n (k : Z -> prog result) pr s b : 0 < n < 2 ^ 31 ->
  (forall s' p, same_aff s s' -> 0 < p -> passes_iff K (k p) (World pr s') b) ->
  passes_iff K (bind (CPU_ALLOC n) k) (World pr s) b.
Proof.
  intros Hn Hk. destruct (aff_malloc s (CPU_ALLOC_SIZE n)) as (s' & p & E & Hp & Hs);
    [apply alloc_size_bounds; exact Hn|].
  destruct (Hk s' p Hs Hp) as (v & w' & Er & Hv). exists v, w'. split; [|exact Hv]. rewrite <- Er.
  unfold CPU_ALLOC, malloc. rewrite run_bind_assoc. cbn. rewrite E.
  replace (p =? NULL) with false by (symmetry; apply Z.eqb_neq; unfold NULL; lia). reflexivity.
Qed.

Lemma passes_free p (k : unit -> prog result) pr s b :
  (forall s', same_aff s s' -> passes_iff K (k tt) (World pr s') b) ->
  passes_iff K (bind (CPU_FREE p) k) (World pr s) b.
Proof.
  intros Hk. destruct (aff_free s p) as (s' & E & Hs). exact (passes_call K (Free p) _ pr s s' tt b E (Hk s' Hs)).
Qed.

(** A failing call. *)
Lemma passes_get_err pid size valid e m (k : Z * Z -> prog result) pr s s' b :
  kstep K (Cpuc (SchedGetaffinity pid size valid)) s = (s', (- e, m)) -> 1 <= e <= 4095 ->
  passes_iff K (k (-1, m)) (World (with_errno e pr) s') b ->
  passes_iff K (bind (sched_getaffinity pid size valid) k) (World pr s) b.
Proof.
  intros E He (v & w' & Er & Hv). exists v, w'. split; [|exact Hv]. rewrite <- Er.
  unfold sched_getaffinity. rewrite run_bind_assoc. cbn. rewrite E. cbn [fst snd].
  now rewrite run_bind_assoc, run_syscall_err.
Qed.

Lemma passes_get_ok pid size r m (k : Z * Z -> prog result) pr s s' b :
  kstep K (Cpuc (SchedGetaffinity pid size true)) s = (s', (r, m)) -> 0 <= r ->
  passes_iff K (k (0, m)) (World pr s') b ->
  passes_iff K (bind (sched_getaffinity pid size true) k) (World pr s) b.
Proof.
  intros E Hr (v & w' & Er & Hv). exists v, w'. split; [|exact Hv]. rewrite <- Er.
  unfold sched_getaffinity. rewrite run_bind_assoc. cbn. rewrite E. cbn [fst snd].
  rewrite run_bind_assoc, run_syscall_ok by exact Hr.
  now replace (r =? -1) with false by (symmetry; apply Z.eqb_neq; lia).
Qed.

(** The own set, by the size of the buffer. *)
Lemma passes_get_own size (k : Z * Z -> prog result) pr s b b0 b1 : 0 <= size -> size mod 8 = 0 ->
  (forall s' m, same_aff s s' -> passes_iff K (k (-1, m)) (World (with_errno EINVAL pr) s') b0) ->
  (ncpus <= 8 * size -> forall s', same_aff s s' -> passes_iff K (k (0, aff_mask s)) (World pr s') b1) ->
  b = (if ncpus <=? 8 * size then b1 else b0) ->
  passes_iff K (bind (sched_getaffinity 0 size true) k) (World pr s) b.
Proof.
  intros Hs H8 H0 H1 ->. destruct (aff_get s size true Hs) as (s' & [r m] & E & Hc & Hm & Ha). cbn [fst snd] in Ha.
  rewrite H8 in Ha. cbn [Z.eqb negb] in Ha. rewrite orb_false_r in Ha.
  destruct (Z.ltb_spec (8 * size) ncpus), (Z.leb_spec ncpus (8 * size)); try lia.
  - subst r. eapply passes_get_err; [exact E|compute; split; discriminate|]. apply H0. split; assumption.
  - destruct Ha as [Hr ->]. eapply passes_get_ok; [exact E|exact Hr|]. apply H1; [lia|]. split; assumption.
Qed.

Lemma passes_set_err pid size mask e (k : Z -> prog result) pr s s' b :
  kstep K (Cpuc (SchedSetaffinity pid size mask)) s = (s', - e) -> 1 <= e <= 4095 ->
  passes_iff K (k (-1)) (World (with_errno e pr) s') b ->
  passes_iff K (bind (sched_setaffinity pid size mask) k) (World pr s) b.
Proof.
  intros E He (v & w' & Er & Hv). exists v, w'. split; [|exact Hv]. rewrite <- Er.
  apply (run_call_err K (Cpuc (SchedSetaffinity pid size mask)) (fun x => x)) with (r := - e); auto.
Qed.

Lemma passes_set_ok pid size mask (k : Z -> prog result) pr s s' b :
  kstep K (Cpuc (SchedSetaffinity pid size mask)) s = (s', 0) ->
  passes_iff K (k 0) (World pr s') b ->
  passes_iff K (bind (sched_setaffinity pid size mask) k) (World pr s) b.
Proof.
  intros E (v & w' & Er & Hv). exists v, w'. split; [|exact Hv]. rewrite <- Er.
  apply (run_call_ok K (Cpuc (SchedSetaffinity pid size mask)) (fun x => x)); [exact E|lia].
Qed.

(** A set with one member. *)
Lemma passes_set_single size t (k : Z -> prog result) pr s b b0 b1 : 0 <= t < 2 ^ 31 -> t < 8 * size ->
  (forall s', same_aff s s' -> passes_iff K (k (-1)) (World (with_errno EINVAL pr) s') b0) ->
  (forall s', aff_cpu s' = t -> passes_iff K (k 0) (World pr s') b1) ->
  b = (if Z.testbit allowed t then b1 else b0) ->
  passes_iff K (bind (sched_setaffinity 0 size (Some (CPU_SET_S t size 0))) k) (World pr s) b.
Proof.
  intros Ht Hs H0 H1 ->. rewrite single_set by assumption.
  pose proof (aff_set s size (2 ^ t) ltac:(lia) ltac:(apply Z.pow_nonneg; lia)) as Ha. cbn zeta in Ha.
  rewrite single_allowed in Ha by lia. destruct (Z.testbit allowed t).
  - replace (2 ^ t =? 0) with false in Ha by (symmetry; apply Z.eqb_neq; apply Z.pow_nonzero; lia).
    destruct Ha as (s' & E & Hm & _). eapply passes_set_ok; [exact E|]. apply H1.
    destruct (aff_wf s') as (_ & Hb & _). rewrite Hm in Hb.
    destruct (Z.eq_dec t (aff_cpu s')) as [|Hn]; [congruence|].
    rewrite Z.pow2_bits_false in Hb by lia. discriminate.
  - destruct Ha as (s' & E & Hss). eapply passes_set_err; [exact E|compute; split; discriminate|]. now apply H0.
Qed.

(** The last lines of the error tests. *)
Lemma passes_expect call r name err w :
  passes_iff K (call_fails_with call r name err) w ((r =? -1) && (p_errno (w_proc w) =? err)).
Proof.
  destruct w as [pr s]. unfold call_fails_with, tp_assert.
  destruct (r =? -1); cbn [andb]; [destruct (p_errno pr =? err) eqn:E|];
    do 2 eexists; (split; [cbn; rewrite ?E; reflexivity|]); cbn; rewrite ?E; split; auto; discriminate.
Qed.

(** The search for a number without a process finds one, if there is one
    within its bound. *)
Lemma run_invalid_pid INT_MAX more (k : Z -> prog result) p b :
  INT_MAX = 2 ^ 31 - 1 \/ INT_MAX = 2 ^ 32 - 1 ->
  2 <= p < 2 ^ 31 - 1 -> proc_at p = None -> proc_at (i32 INT_MAX) = None ->
  (forall pid pr s, pid <> 0 -> proc_at pid = None -> passes_iff K (k pid) (World pr s) b) ->
  forall n q pr s, 2 <= q <= p -> p - q < Z.of_nat n - 1 ->
  passes_iff K (bind (invalid_pid_from INT_MAX more n q) k) (World pr s) b.
Proof.
  intros HM Hp Hnone Hmax Hk. induction n as [|n IH]; intros q pr s Hq Hn; [lia|].
  cbn [invalid_pid_from].
  assert (Hb : below_INT_MAX INT_MAX q = true).
  { unfold below_INT_MAX, u32. destruct HM as [-> | ->]; cbn [Z.ltb]; [|rewrite Z.mod_small by lia];
      apply Z.ltb_lt; lia. }
  rewrite Hb. destruct (aff_kill s q ltac:(lia)) as (s' & E & Hs). unfold passes_iff. rewrite run_bind_assoc. unfold kill.
  destruct (proc_at q) as [[]|] eqn:Eq.
  - rewrite (run_call_ok K (Kill q 0) (fun x => x) _ _ _ _ _ _ E) by lia. cbn [Z.eqb].
    assert (q <> p) by congruence. rewrite i32_small by lia. apply IH; lia.
  - rewrite (run_call_err K (Kill q 0) (fun x => x) _ _ _ EPERM _ _ _ E); [|reflexivity|compute; split; discriminate].
    assert (q <> p) by congruence. destruct n as [|n]; [lia|].
    assert (Hi : i32 (i32 (INT_MAX - 1) + 1) = i32 INT_MAX) by (destruct HM as [-> | ->]; reflexivity).
    cbn. rewrite Hi.
    assert (Hb' : below_INT_MAX INT_MAX (i32 INT_MAX) = false) by (destruct HM as [-> | ->]; reflexivity).
    rewrite Hb'. apply Hk; [destruct HM as [-> | ->]; discriminate|exact Hmax].
  - rewrite (run_call_err K (Kill q 0) (fun x => x) _ _ _ ESRCH _ _ _ E); [|reflexivity|compute; split; discriminate].
    cbn. apply Hk; [lia|exact Eq].
Qed.
End Calls.

(** ** The suites *)

Section Suites.
Context (K : kernel) `{AffKernel K} (beyond : Z -> bool) (INT_MAX : Z) (fuel : nat) (more : prog Z).
Context (n p : Z).
Hypothesis n_pos : 1 <= n < 2 ^ 31.
Hypothesis INT_MAX_is : INT_MAX = 2 ^ 31 - 1 \/ INT_MAX = 2 ^ 32 - 1.
(** [p] is a free number within the bound of the search. *)
Hypothesis p_free : 2 <= p < 2 ^ 31 - 1 /\ p < Z.of_nat fuel /\ proc_at p = None /\ proc_at (i32 INT_MAX) = None.

(** Whether the buffer for [n] CPUs is large enough for the kernel's sets. *)
Definition fits : bool := ncpus <=? 64 * ((n + 63) / 64).
(** The CPU [sched_setaffinity] 1 moves to, from [cpu]. *)
Definition target (cpu : Z) : Z := if n - 1 =? cpu then n - 2 else n - 1.

Lemma size_fits : (ncpus <=? 8 * CPU_ALLOC_SIZE n) = fits.
Proof. rewrite alloc_size by lia. unfold fits. f_equal. lia. Qed.

Ltac nonzero := replace (n =? 0) with false by (symmetry; apply Z.eqb_neq; lia); cbn [negb tp_assert].
Ltac valid_ptr p Hp := replace (p =? NULL) with false by (symmetry; apply Z.eqb_neq; unfold NULL; lia); cbn [negb tp_assert].

Lemma get0_passes w : passes_iff K (getaffinity_run_000 beyond (AffinityArgs n None None)) w
  (fits && (aff_cpu (w_k w) <? 1024)).
Proof.
  destruct w as [pr s]. cbn [w_k]. unfold getaffinity_run_000. cbn [num_of_cpus].
  pose proof (alloc_size_bounds n ltac:(lia)) as (Hn & Hs & H8).
  apply (passes_getcpu K). intros s1 [C1 M1]. nonzero.
  apply (passes_alloc K); [lia|]. intros s2 q [C2 M2] Hq. valid_ptr q Hq.
  apply (passes_get_own K) with (b0 := false) (b1 := aff_cpu s <? 1024); [lia|exact H8| | |].
  - intros s3 m _. cbn [Z.eqb]. apply (passes_free K). intros s4 _. apply passes_ret. split; discriminate.
  - intros Hf s3 _. cbn [Z.eqb]. apply (passes_free K). intros s4 _.
    destruct (aff_wf s) as (Hc & Hb & _ & _). rewrite M2, M1. unfold CPU_ISSET, SIZEOF_CPU_SET_T.
    rewrite u64_small by lia.
    replace (aff_cpu s / 8 <? 128) with (aff_cpu s <? 1024)
      by (destruct (Z.ltb_spec (aff_cpu s) 1024), (Z.ltb_spec (aff_cpu s / 8) 128); try reflexivity; exfalso;
          pose proof (Z.div_mod (aff_cpu s) 8); pose proof (Z.mod_pos_bound (aff_cpu s) 8); lia).
    replace (aff_cpu s / 8 <? CPU_ALLOC_SIZE n) with true by (symmetry; apply Z.ltb_lt, Z.div_lt_upper_bound; lia).
    rewrite Hb. destruct (aff_cpu s <? 1024); apply passes_ret; split; auto; discriminate.
  - rewrite size_fits. now destruct fits.
Qed.

Lemma get1_passes w : passes_iff K getaffinity_run_001 w (ncpus <=? 1024).
Proof.
  destruct w as [pr s]. unfold getaffinity_run_001, SIZEOF_CPU_SET_T.
  destruct (aff_get s 128 false ltac:(lia)) as (s' & [r m] & E & _ & _ & Ha).
  change (128 mod 8 =? 0) with true in Ha. cbn [negb fst] in Ha. rewrite orb_false_r in Ha.
  destruct (Z.ltb_spec (8 * 128) ncpus), (Z.leb_spec ncpus 1024); try lia; subst r;
    (eapply (passes_get_err K); [exact E|compute; split; discriminate|]);
    match goal with |- passes_iff _ (call_fails_with ?c ?r ?m ?e) ?w _ => exact (passes_expect K c r m e w) end.
Qed.

Lemma get2_passes w : passes_iff K (getaffinity_run_002 (AffinityArgs n None None)) w true.
Proof.
  destruct w as [pr s]. unfold getaffinity_run_002. cbn [num_of_cpus]. nonzero.
  apply (passes_alloc K); [lia|]. intros s2 q _ Hq. valid_ptr q Hq. pose proof ncpus_pos as Hc.
  apply (passes_get_own K) with (b0 := true) (b1 := true); [lia|reflexivity| | |now destruct (ncpus <=? _)].
  - intros s3 m _. apply (passes_free K). intros s4 _.
    exact (passes_expect K "sched_getaffinity" (-1) "EINVAL" EINVAL (World (with_errno EINVAL pr) s4)).
  - lia.
Qed.

Lemma get3_passes w : passes_iff K (getaffinity_run_003 INT_MAX fuel more (AffinityArgs n None None)) w fits.
Proof.
  destruct w as [pr s]. unfold getaffinity_run_003. cbn [num_of_cpus]. nonzero.
  destruct p_free as (Hp & Hf & Hnone & Hmax).
  pose proof (alloc_size_bounds n ltac:(lia)) as (Hn & Hs & H8).
  apply (run_invalid_pid K INT_MAX more _ p); auto; [|lia|lia]. clear pr s. intros pid pr s Hpid Hno.
  apply (passes_alloc K); [lia|]. intros s2 q _ Hq. valid_ptr q Hq.
  destruct (Z.leb_spec ncpus (8 * CPU_ALLOC_SIZE n)) as [Hle|Hgt].
  - destruct (aff_get_other s2 pid (CPU_ALLOC_SIZE n) Hpid Hno Hle H8) as (s3 & m & E & _).
    eapply (passes_get_err K); [exact E|compute; split; discriminate|]. apply (passes_free K). intros s4 _.
    replace fits with true by (rewrite <- size_fits; symmetry; now apply Z.leb_le).
    exact (passes_expect K "sched_getaffinity" (-1) "ESRCH" ESRCH (World (with_errno ESRCH pr) s4)).
  - destruct (aff_get_small s2 pid (CPU_ALLOC_SIZE n) ltac:(lia) Hgt) as (s3 & m & E & _).
    eapply (passes_get_err K); [exact E|compute; split; discriminate|]. apply (passes_free K). intros s4 _.
    replace fits with false by (rewrite <- size_fits; symmetry; now apply Z.leb_gt).
    exact (passes_expect K "sched_getaffinity" (-1) "ESRCH" ESRCH (World (with_errno EINVAL pr) s4)).
Qed.

Definition bytes8 : Z := (n + 7) / 8.
Definition get4_verdict : bool := (n <=? 1024) && (negb (bytes8 mod 8 =? 0) || (ncpus <=? 8 * bytes8)).

Lemma get4_passes w : passes_iff K (getaffinity_run_004 (AffinityArgs n None None)) w get4_verdict.
Proof.
  destruct w as [pr s]. unfold getaffinity_run_004, get4_verdict. cbn [num_of_cpus]. nonzero. unfold MAX_NR_CPUS.
  destruct (Z.leb_spec n 1024) as [Hle|]; cbn [tp_assert andb]; [|apply passes_ret; split; discriminate].
  apply (passes_alloc K); [lia|]. intros s2 q _ Hq. valid_ptr q Hq.
  destruct (ceil_size n ltac:(lia)) as [-> ->]. fold bytes8.
  assert (Hb : 0 <= bytes8 < 2 ^ 29) by (unfold bytes8; split; [apply Z.div_pos; lia|apply Z.div_lt_upper_bound; lia]).
  rewrite u64_small by lia.
  destruct (aff_get s2 bytes8 true ltac:(lia)) as (s3 & [r m] & E & _ & _ & Ha). cbn [fst snd] in Ha.
  destruct (bytes8 mod 8 =? 0); cbn [negb orb] in Ha |- *.
  - rewrite orb_false_r in Ha.
    destruct (Z.ltb_spec (8 * bytes8) ncpus), (Z.leb_spec ncpus (8 * bytes8)); try lia.
    + subst r. eapply (passes_get_err K); [exact E|compute; split; discriminate|]. apply (passes_free K). intros s4 _.
      apply passes_ret. split; discriminate.
    + destruct Ha as [Hr _]. eapply (passes_get_ok K); [exact E|exact Hr|]. apply (passes_free K). intros s4 _.
      apply passes_ret. tauto.
  - rewrite orb_true_r in Ha. subst r. eapply (passes_get_err K); [exact E|compute; split; discriminate|].
    apply (passes_free K). intros s4 _. cbn [Z.eqb tp_assert negb]. do 2 eexists. split; [reflexivity|]. tauto.
Qed.

Lemma set0_passes w : passes_iff K (setaffinity_run_000 n) w fits.
Proof.
  destruct w as [pr s]. unfold setaffinity_run_000. nonzero.
  pose proof (alloc_size_bounds n ltac:(lia)) as (Hn & Hs & H8).
  apply (passes_alloc K); [lia|]. intros s1 q _ Hq. valid_ptr q Hq.
  apply (passes_getcpu K). intros s2 [C2 M2].
  apply (passes_get_own K) with (b0 := false) (b1 := true); [lia|exact H8| | |rewrite size_fits; now destruct fits].
  - intros s3 m _. cbn [Z.eqb]. apply (passes_free K). intros s4 _. apply passes_ret. split; discriminate.
  - intros Hf s3 [C3 M3]. cbn [Z.eqb]. destruct (aff_wf s3) as (Hc & Hb & Hm & Hall). rewrite <- M3.
    pose proof (aff_set s3 (CPU_ALLOC_SIZE n) (aff_mask s3) ltac:(lia) Hm) as Ha. cbn zeta in Ha.
    assert (En : Z.land (Z.land (aff_mask s3) (Z.ones (8 * CPU_ALLOC_SIZE n))) allowed = aff_mask s3).
    { apply Z.bits_inj'. intros i Hi. rewrite !Z.land_spec, Z.testbit_ones_nonneg by lia.
      destruct (Z.testbit (aff_mask s3) i) eqn:Ei; [|reflexivity]. rewrite (Hall i Ei).
      pose proof (allowed_ok i (Hall i Ei)). replace (i <? 8 * CPU_ALLOC_SIZE n) with true by (symmetry; apply Z.ltb_lt; lia).
      reflexivity. }
    rewrite En in Ha. destruct (Z.eqb_spec (aff_mask s3) 0) as [E0|_]; [rewrite E0, Z.bits_0 in Hb; discriminate|].
    destruct Ha as (s4 & E & _ & Hcpu). eapply (passes_set_ok K); [exact E|]. cbn [Z.eqb].
    apply (passes_getcpu K). intros s5 _. apply (passes_free K). intros s6 _.
    rewrite (Hcpu Hb), C3, C2, Z.eqb_refl. apply passes_ret. tauto.
Qed.

Definition set1_verdict (cpu : Z) : bool := (2 <=? n) && Z.testbit allowed (target cpu).

Lemma set1_passes w : passes_iff K (setaffinity_run_001 n) w (set1_verdict (aff_cpu (w_k w))).
Proof.
  destruct w as [pr s]. cbn [w_k]. unfold setaffinity_run_001, set1_verdict.
  destruct (Z.leb_spec 2 n); cbn [tp_assert andb]; [|apply passes_ret; split; discriminate].
  pose proof (alloc_size_bounds n ltac:(lia)) as (Hn & Hs & H8).
  apply (passes_alloc K); [lia|]. intros s1 q [C1 M1] Hq. valid_ptr q Hq.
  apply (passes_getcpu K). intros s2 [C2 M2].
  replace (if n - 1 =? aff_cpu s1 then n - 1 - 1 else n - 1) with (target (aff_cpu s))
    by (unfold target; rewrite C1; destruct (n - 1 =? aff_cpu s); lia).
  assert (Ht : 0 <= target (aff_cpu s) < n /\ target (aff_cpu s) <> aff_cpu s).
  { unfold target. destruct (Z.eqb_spec (n - 1) (aff_cpu s)); lia. }
  apply (passes_set_single K) with (b0 := false) (b1 := true); [lia|lia| | |now destruct (Z.testbit allowed _)].
  - intros s3 _. cbn [Z.eqb]. apply (passes_free K). intros s4 _. apply passes_ret. split; discriminate.
  - intros s3 Hc. cbn [Z.eqb]. apply (passes_getcpu K). intros s4 _. apply (passes_free K). intros s5 _.
    rewrite Hc, C1. replace (aff_cpu s =? target (aff_cpu s)) with false by (symmetry; apply Z.eqb_neq; lia).
    apply passes_ret. tauto.
Qed.

Lemma set3_passes w : passes_iff K (setaffinity_run_003 n) w true.
Proof.
  destruct w as [pr s]. unfold setaffinity_run_003. nonzero.
  pose proof (alloc_size_bounds n ltac:(lia)) as (Hn & Hs & H8).
  destruct (aff_set_fault s (CPU_ALLOC_SIZE n) ltac:(lia)) as (s' & E & _).
  eapply (passes_set_err K); [exact E|compute; split; discriminate|].
  exact (passes_expect K "sched_setaffinity" (-1) "EFAULT" EFAULT (World (with_errno EFAULT pr) s')).
Qed.

(** An empty set, or none of it inside the given size. *)
Lemma passes_set_empty size mask (k : Z -> prog result) pr s b : 0 <= size -> 0 <= mask ->
  Z.land mask (Z.ones (8 * size)) = 0 ->
  (forall s', passes_iff K (k (-1)) (World (with_errno EINVAL pr) s') b) ->
  passes_iff K (bind (sched_setaffinity 0 size (Some mask)) k) (World pr s) b.
Proof.
  intros Hs Hm E0 Hk. pose proof (aff_set s size mask Hs Hm) as Ha. cbn zeta in Ha. rewrite E0, Z.land_0_l in Ha.
  destruct Ha as (s' & E & _). eapply (passes_set_err K); [exact E|compute; split; discriminate|apply Hk].
Qed.

Lemma set4_passes w : passes_iff K (setaffinity_run_004 n) w true.
Proof.
  destruct w as [pr s]. unfold setaffinity_run_004. nonzero.
  apply (passes_alloc K); [lia|]. intros s1 q _ Hq. valid_ptr q Hq.
  pose proof (alloc_size_bounds n ltac:(lia)) as (Hn & Hs & H8).
  rewrite single_set by lia. apply passes_set_empty; [lia|apply Z.pow_nonneg; lia|apply Z.land_0_r|].
  intros s2. apply (passes_free K). intros s3 _.
  exact (passes_expect K "sched_setaffinity" (-1) "EINVAL" EINVAL (World (with_errno EINVAL pr) s3)).
Qed.

Lemma set5_passes w : passes_iff K setaffinity_run_005 w true.
Proof.
  destruct w as [pr s]. unfold setaffinity_run_005, BIG_NG_CPUID.
  apply (passes_alloc K); [lia|]. intros s1 q _ Hq. valid_ptr q Hq.
  apply passes_set_empty; [discriminate|lia|reflexivity|]. intros s2. apply (passes_free K). intros s3 _.
  exact (passes_expect K "sched_setaffinity" (-1) "EINVAL" EINVAL (World (with_errno EINVAL pr) s3)).
Qed.

Lemma set6_passes w : passes_iff K (setaffinity_run_006 INT_MAX fuel more n) w true.
Proof.
  destruct w as [pr s]. unfold setaffinity_run_006. nonzero.
  destruct p_free as (Hp & Hf & Hnone & Hmax).
  apply (run_invalid_pid K INT_MAX more _ p); auto; [|lia|lia]. clear pr s. intros pid pr s Hpid Hno.
  apply (passes_alloc K); [lia|]. intros s2 q _ Hq. valid_ptr q Hq.
  edestruct (aff_set_other s2 pid (CPU_ALLOC_SIZE n)) as (s3 & E & _); [exact Hpid|exact Hno|].
  eapply (passes_set_err K); [exact E|compute; split; discriminate|]. apply (passes_free K). intros s4 _.
  exact (passes_expect K "sched_setaffinity" (-1) "ESRCH" ESRCH (World (with_errno ESRCH pr) s4)).
Qed.

Lemma set7_passes w : passes_iff K (setaffinity_run_007 n) w (Z.testbit allowed (n - 1)).
Proof.
  destruct w as [pr s]. unfold setaffinity_run_007. nonzero.
  apply (passes_alloc K); [lia|]. intros s1 q _ Hq. valid_ptr q Hq.
  destruct (ceil_size n ltac:(lia)) as [-> _].
  pose proof (Z.div_mod (n + 7) 8). pose proof (Z.mod_pos_bound (n + 7) 8).
  apply (passes_set_single K) with (b0 := false) (b1 := true); [lia|lia| | |now destruct (Z.testbit allowed _)].
  - intros s3 _. apply (passes_free K). intros s4 _. apply passes_ret. split; discriminate.
  - intros s3 _. apply (passes_free K). intros s4 _. apply passes_ret. tauto.
Qed.
End Suites.

Section Verdict.
Context (K : kernel) `{AffKernel K} (beyond : Z -> bool) (INT_MAX : Z) (fuel : nat) (more : prog Z).

(** The condition under which each case passes, with [-p n] on CPU [cpu]. *)
Definition affinity_verdicts (n cpu : Z) : list (test_case * bool) :=
  [ (sched_getaffinity0 beyond, fits K n && (cpu <? 1024));
    (sched_getaffinity1, ncpus <=? 1024);
    (sched_getaffinity2, true);
    (sched_getaffinity3 INT_MAX fuel more, fits K n);
    (sched_getaffinity4, get4_verdict K n);
    (sched_setaffinity0, fits K n);
    (sched_setaffinity1, set1_verdict K n cpu);
    (sched_setaffinity3, true);
    (sched_setaffinity4, true);
    (sched_setaffinity5, true);
    (sched_setaffinity6 INT_MAX fuel more, true);
    (sched_setaffinity7, Z.testbit allowed (n - 1)) ].
End Verdict.


(** ** A kernel that meets the interface: four CPUs, all allowed *)

Definition cpu4_mask (s : Z * Z) : Z := let m := Z.land (snd s) 15 in if m =? 0 then 1 else m.
Definition cpu4_first (m : Z) : Z :=
  if Z.testbit m 0 then 0 else if Z.testbit m 1 then 1 else if Z.testbit m 2 then 2 else 3.
Definition cpu4_cpu (s : Z * Z) : Z :=
  if (0 <=? fst s) && Z.testbit (cpu4_mask s) (fst s) then fst s else cpu4_first (cpu4_mask s).
Definition cpu4_proc (pid : Z) : option bool := if (0 <=? pid) && (pid <? 4) then Some true else None.

Definition cpu4_step (c : op) (s : Z * Z) : (Z * Z) * ans c :=
  match c with
  | Cpuc c =>
      match c as c return (Z * Z) * cpuans c with
      | SchedGetcpu => (s, cpu4_cpu s)
      | SchedGetaffinity pid size valid =>
          (s, if (8 * size <? 4) || negb (size mod 8 =? 0) then (- EINVAL, 0)
              else if negb (pid =? 0) then (- ESRCH, 0)
              else if valid then (8, cpu4_mask s) else (- EFAULT, 0))
      | Getcpu => (s, (0, (cpu4_cpu s, 0)))
      | SchedSetaffinity pid size mask =>
          match mask with
          | None => (s, - EFAULT)
          | Some m =>
              if negb (pid =? 0) then (s, - ESRCH)
              else let new := Z.land (Z.land m (Z.ones (8 * size))) 15 in
                   if new =? 0 then (s, - EINVAL) else ((cpu4_cpu s, new), 0)
          end
      end
  | Kill pid _ => (s, match cpu4_proc pid with None => - ESRCH | Some true => 0 | Some false => - EPERM end)
  | Malloc _ => (s, 65536)
  | Free _ => (s, tt)
  | c => (s, enosys c)
  end.
Definition cpu4_kernel : kernel := Kernel (Z * Z) cpu4_step.

Lemma cpu4_mask_cases s : In (cpu4_mask s) [1; 2; 3; 4; 5; 6; 7; 8; 9; 10; 11; 12; 13; 14; 15].
Proof.
  unfold cpu4_mask. replace (Z.land (snd s) 15) with (snd s mod 2 ^ 4) by (symmetry; apply (Z.land_ones (snd s) 4); lia).
  pose proof (Z.mod_pos_bound (snd s) (2 ^ 4) ltac:(lia)) as Hm. revert Hm. generalize (snd s mod 2 ^ 4). intros m Hm.
  destruct (Z.eqb_spec m 0); cbn; lia.
Qed.

Lemma cpu4_bits m i : In m [1; 2; 3; 4; 5; 6; 7; 8; 9; 10; 11; 12; 13; 14; 15] -> Z.testbit m i = true -> 0 <= i < 4.
Proof.
  intros Hm Hi. destruct (Z.lt_ge_cases i 0); [rewrite Z.testbit_neg_r in Hi by lia; discriminate|].
  destruct (Z.lt_ge_cases i 4); [lia|].
  rewrite <- (Z.mod_small m (2 ^ 4)), Z.mod_pow2_bits_high in Hi by (cbn in Hm; lia). discriminate.
Qed.

Lemma cpu4_first_bit m : In m [1; 2; 3; 4; 5; 6; 7; 8; 9; 10; 11; 12; 13; 14; 15] -> Z.testbit m (cpu4_first m) = true.
Proof. cbn. intuition (subst m; reflexivity). Qed.

Lemma cpu4_cpu_bit s : Z.testbit (cpu4_mask s) (cpu4_cpu s) = true.
Proof.
  unfold cpu4_cpu. destruct ((0 <=? fst s) && Z.testbit (cpu4_mask s) (fst s)) eqn:E.
  - now apply andb_true_iff in E.
  - apply cpu4_first_bit, cpu4_mask_cases.
Qed.

#[export] Instance cpu4_ok : AffKernel cpu4_kernel.
Proof.
  refine {| aff_cpu := (cpu4_cpu : kstate cpu4_kernel -> Z); aff_mask := (cpu4_mask : kstate cpu4_kernel -> Z);
            ncpus := 4; allowed := 15; proc_at := cpu4_proc |}; cbn [kstep cpu4_kernel cpu4_step].
  - lia.
  - intros i Hi. now apply (cpu4_bits 15) in Hi; [|cbn; tauto].
  - intros s. pose proof (cpu4_mask_cases s) as Hm. pose proof (cpu4_cpu_bit s) as Hb.
    split; [now apply (cpu4_bits (cpu4_mask s))|]. split; [exact Hb|]. split; [cbn in Hm; lia|].
    intros i Hi. apply (cpu4_bits _ _ Hm) in Hi.
    assert (i = 0 \/ i = 1 \/ i = 2 \/ i = 3) as [->|[->|[->| ->]]] by lia; reflexivity.
  - intros s. eauto.
  - intros s size valid Hs. do 2 eexists. split; [reflexivity|]. do 2 (split; [reflexivity|]).
    destruct (_ || _); [reflexivity|]. destruct valid; [split; [discriminate|reflexivity]|reflexivity].
  - intros s pid size Hpid _ Hs H8. do 2 eexists. split; [|auto].
    replace (8 * size <? 4) with false by (symmetry; apply Z.ltb_ge; lia). rewrite H8. cbn.
    now replace (pid =? 0) with false by (symmetry; now apply Z.eqb_neq).
  - intros s pid size Hs Hlt. do 2 eexists. split; [|auto].
    now replace (8 * size <? 4) with true by (symmetry; apply Z.ltb_lt; lia).
  - intros s size mask Hs Hm. cbn zeta. cbn [negb Z.eqb].
    destruct (Z.land (Z.land mask (Z.ones (8 * size))) 15 =? 0) eqn:E0; eexists; (split; [reflexivity|]).
    + auto.
    + pose proof (proj1 (Z.eqb_neq _ _) E0) as E.
      set (new := Z.land (Z.land mask (Z.ones (8 * size))) 15) in *.
      assert (En : cpu4_mask (cpu4_cpu s, new) = new).
      { assert (L : Z.land new 15 = new) by (unfold new; now rewrite <- Z.land_assoc, Z.land_diag).
        unfold cpu4_mask. cbn [snd]. now rewrite L, E0. }
      split; [exact En|]. intros Hb. unfold cpu4_cpu at 1. rewrite En. cbn [fst]. rewrite Hb.
      pose proof (cpu4_bits _ _ (cpu4_mask_cases s) (cpu4_cpu_bit s)).
      now replace (0 <=? cpu4_cpu s) with true by (symmetry; apply Z.leb_le; lia).
  - eauto.
  - intros s pid size mask Hpid _. eexists. split; [|auto].
    now replace (pid =? 0) with false by (symmetry; now apply Z.eqb_neq).
  - eauto.
  - intros s size Hs. do 2 eexists. split; [reflexivity|]. auto with zarith.
  - eauto.
Defined.

(** A process on CPU 3 that may run anywhere. *)
Definition cpu4_world : world cpu4_kernel := World proc0 ((3, 15) : kstate cpu4_kernel).

