(* ===== verification/PageSpec.v ===== *)
(** * The page attribute suites on a documented kernel

    [ptable] is the page table of the process as the tests can observe it: which
    pages are mapped, with which protection, and which are locked into memory.
    [PageKernel] says that a kernel's calls act on it as the manual pages
    document.  The theorem gives the exact verdict of every case and the page
    table it leaves. *)
From S2P Require Import Prelude Process Trace Arch CLib TestMck AddrSpace MemInfo FileMap MemCalls.
From Stdlib Require Import Ascii String.
#[local] Open Scope string_scope.
#[local] Open Scope Z_scope.

(** ** Page tables *)

Record mpage := MPage { mp_prot : Z; mp_locked : bool }.

(** Pages by their number. *)
Definition ptable : Type := Z -> option mpage.

Definition upd_range (lo n : Z) (f : option mpage -> option mpage) (t : ptable) : ptable :=
  fun q => if in_range q lo n then f (t q) else t q.

Definition with_prot (prot : Z) (pg : mpage) : mpage := MPage prot (mp_locked pg).
Definition with_lock (l : bool) (pg : mpage) : mpage := MPage (mp_prot pg) l.

Definition pt_map (lo n prot : Z) (l : bool) : ptable -> ptable := upd_range lo n (fun _ => Some (MPage prot l)).
Definition pt_unmap (lo n : Z) : ptable -> ptable := upd_range lo n (fun _ => None).
Definition pt_protect (lo n prot : Z) : ptable -> ptable := upd_range lo n (fmap (M := option) (with_prot prot)).
Definition pt_lock (l : bool) (lo n : Z) : ptable -> ptable := upd_range lo n (fmap (M := option) (with_lock l)).
Definition pt_lock_all (l : bool) (t : ptable) : ptable := fun q => with_lock l <$> t q.

(** Equal page by page. *)
Definition pt_eq (t u : ptable) : Prop := forall q, t q = u q.
#[export] Instance pt_eq_equivalence : Equivalence pt_eq.
Proof. split; unfold pt_eq; [now intros ?|congruence|]. intros t u v Ht Hu q. now rewrite Ht, Hu. Qed.
#[export] Instance upd_range_proper lo n f : Proper (pt_eq ==> pt_eq) (upd_range lo n f).
Proof. intros t u E q. unfold upd_range. now rewrite (E q). Qed.

(** Mapping, changing and unmapping a range that was free leaves nothing. *)
Lemma pt_unmap_map lo n prot l t : (forall q, lo <= q < lo + n -> t q = None) ->
  pt_eq (pt_unmap lo n (pt_map lo n prot l t)) t.
Proof.
  intros Hf q. unfold pt_unmap, pt_map, upd_range. destruct (in_range q lo n) eqn:E; [|reflexivity].
  apply in_range_true in E. symmetry. now apply Hf.
Qed.

Lemma pt_unmap_protect lo n a m prot t : lo <= a -> a + m <= lo + n ->
  pt_eq (pt_unmap lo n (pt_protect a m prot t)) (pt_unmap lo n t).
Proof.
  intros Ha Hm q. unfold pt_unmap, pt_protect, upd_range. destruct (in_range q lo n) eqn:E; [reflexivity|].
  apply in_range_false in E. now replace (in_range q a m) with false by (symmetry; apply in_range_false; lia).
Qed.

(** ** The interface *)

Definition pages_of `{ArchConfig} (addr len : Z) : Z := (addr + len - 1) / PAGE_SIZE - addr / PAGE_SIZE + 1.

Class PageKernel `{ArchConfig} (K : kernel) := {
  pages : kstate K -> ptable;
  (** Why an anonymous private mapping, a lock or a lock of everything would be
      refused, and the block the allocator would give. *)
  map_err : kstate K -> Z -> Z -> option Z;
  lock_err : kstate K -> Z -> option Z;
  lock_all_err : kstate K -> option Z;
  heap : kstate K -> Z -> option Z;
  map_err_range s len flags e : map_err s len flags = Some e -> 1 <= e <= 4095;
  lock_err_range s len e : lock_err s len = Some e -> 1 <= e <= 4095;
  lock_all_range s e : lock_all_err s = Some e -> 1 <= e <= 4095;
  pk_mmap s n prot flags : 0 < n -> has flags MAP_PRIVATE = true -> has flags MAP_ANONYMOUS = true ->
    has flags MAP_FIXED = false ->
    match map_err s (n * PAGE_SIZE) flags with
    | Some e => exists s', kstep K (Mmap 0 (n * PAGE_SIZE) prot flags (-1) 0) s = (s', - e) /\ pt_eq (pages s') (pages s)
    | None => exists s' p, kstep K (Mmap 0 (n * PAGE_SIZE) prot flags (-1) 0) s = (s', p * PAGE_SIZE) /\
        0 < p /\ (p + n) * PAGE_SIZE < 2 ^ 63 /\ (forall q, p <= q < p + n -> pages s q = None) /\
        pt_eq (pages s') (pt_map p n prot (has flags MAP_LOCKED) (pages s))
    end;
  pk_munmap s p n : 0 < p -> 0 < n ->
    exists s', kstep K (Munmap (p * PAGE_SIZE) (n * PAGE_SIZE)) s = (s', 0) /\ pt_eq (pages s') (pt_unmap p n (pages s));
  pk_mprotect s p n prot : 0 < p -> 0 < n -> (forall q, p <= q < p + n -> pages s q <> None) ->
    exists s', kstep K (Memc (Mprotect (p * PAGE_SIZE) (n * PAGE_SIZE) prot)) s = (s', 0) /\
      pt_eq (pages s') (pt_protect p n prot (pages s));
  pk_store s a b pg : pages s (a / PAGE_SIZE) = Some pg -> has (mp_prot pg) PROT_WRITE = true ->
    exists s', kstep K (Store a b) s = (s', inl tt) /\ pt_eq (pages s') (pages s);
  (** [mincore]: the vector says at least of locked pages that they are
      resident. *)
  pk_mincore s p len n : 0 < p -> 0 < len -> Z.of_nat n = (len + PAGE_SIZE - 1) / PAGE_SIZE ->
    (forall q, p <= q < p + Z.of_nat n -> pages s q <> None) ->
    exists s' vec, kstep K (Memc (Mincore (p * PAGE_SIZE) len (Some n))) s = (s', (0, vec)) /\
      List.length vec = n /\ pt_eq (pages s') (pages s) /\
      forall i pg, (i < n)%nat -> pages s (p + Z.of_nat i) = Some pg -> mp_locked pg = true ->
        Z.land (nth i vec 0) 1 = 1;
  pk_mincore_inval s a len n : a mod PAGE_SIZE <> 0 ->
    exists s' v, kstep K (Memc (Mincore a len n)) s = (s', (- EINVAL, v)) /\ pt_eq (pages s') (pages s);
  pk_mincore_fault s p n : 0 < p -> 0 < n -> (forall q, p <= q < p + n -> pages s q <> None) ->
    exists s' v, kstep K (Memc (Mincore (p * PAGE_SIZE) (n * PAGE_SIZE) None)) s = (s', (- EFAULT, v)) /\
      pt_eq (pages s') (pages s);
  pk_malloc s size : 0 < size ->
    match heap s size with
    | None => exists s', kstep K (Malloc size) s = (s', NULL) /\ pt_eq (pages s') (pages s)
    | Some p => exists s', kstep K (Malloc size) s = (s', p) /\ 0 < p < 2 ^ 63 /\
        (forall q, 0 <= q - p / PAGE_SIZE < pages_of p size -> pages s' q <> None) /\
        (forall q pg, pages s q = Some pg -> pages s' q = Some pg) /\
        (forall len, lock_err s' len = lock_err s len)
    end;
  (** whole pages are locked *)
  pk_mlock s a len : 0 < a -> 0 < len -> (forall q, 0 <= q - a / PAGE_SIZE < pages_of a len -> pages s q <> None) ->
    match lock_err s len with
    | Some e => exists s', kstep K (Memc (Mlock a len)) s = (s', - e) /\ pt_eq (pages s') (pages s)
    | None => exists s', kstep K (Memc (Mlock a len)) s = (s', 0) /\
        pt_eq (pages s') (pt_lock true (a / PAGE_SIZE) (pages_of a len) (pages s))
    end;
  pk_munlock s a len : 0 < a -> 0 < len -> (forall q, 0 <= q - a / PAGE_SIZE < pages_of a len -> pages s q <> None) ->
    exists s', kstep K (Memc (Munlock a len)) s = (s', 0) /\
      pt_eq (pages s') (pt_lock false (a / PAGE_SIZE) (pages_of a len) (pages s));
  pk_mlockall s :
    match lock_all_err s with
    | Some e => exists s', kstep K (Memc (Mlockall (Z.lor MCL_CURRENT MCL_FUTURE))) s = (s', - e) /\ pt_eq (pages s') (pages s)
    | None => exists s', kstep K (Memc (Mlockall (Z.lor MCL_CURRENT MCL_FUTURE))) s = (s', 0) /\
        pt_eq (pages s') (pt_lock_all true (pages s))
    end;
  pk_munlockall s : exists s', kstep K (Memc Munlockall) s = (s', 0) /\ pt_eq (pages s') (pt_lock_all false (pages s));
}.

(** ** The calls, by what follows them *)

Section Calls.
Context `{ArchConfig} (K : kernel) {PK : PageKernel K}.
Implicit Type w : world K.

(** The program returns; its verdict is good exactly if [b]; [Q] holds of what
    it returns and of the page table it leaves. *)
Definition finishes {A} (verdict : A -> result) (p : prog A) w (b : bool) (Q : A -> ptable -> Prop) : Prop :=
  exists v w', run K p w = (Done v, w') /\ (verdict v = None <-> b = true) /\ Q v (pages (w_k w')).

Lemma finishes_mono {A} (f : A -> result) p w b (P Q : A -> ptable -> Prop) :
  finishes f p w b P -> (forall v t, P v t -> Q v t) -> finishes f p w b Q.
Proof. intros (v & w' & E & Hv & HP) HPQ. exists v, w'. auto. Qed.

(** A system call that answers [r], or the error [e]. *)
Lemma finishes_ok {A} (f : A -> result) c (g : ans c -> Z) r fail s s' pr (k : Z -> prog A) b Q :
  kstep K c s = (s', r) -> 0 <= g r -> finishes f (k (g r)) (World pr s') b Q ->
  finishes f (bind (x <- trigger c ;; syscall_ret fail (g x)) k) (World pr s) b Q.
Proof. intros E Hr (v & w' & Er & Hv). exists v, w'. now rewrite (run_call_ok K c g _ _ _ _ _ _ E Hr). Qed.

Lemma finishes_err {A} (f : A -> result) c (g : ans c -> Z) r e fail s s' pr (k : Z -> prog A) b Q :
  kstep K c s = (s', r) -> g r = - e -> 1 <= e <= 4095 -> finishes f (k fail) (World (with_errno e pr) s') b Q ->
  finishes f (bind (x <- trigger c ;; syscall_ret fail (g x)) k) (World pr s) b Q.
Proof. intros E Hr He (v & w' & Er & Hv). exists v, w'. now rewrite (run_call_err K c g _ _ _ _ _ _ _ E Hr He). Qed.

Lemma finishes_ret {A} (f : A -> result) (a : A) w b (Q : A -> ptable -> Prop) :
  (f a = None <-> b = true) -> Q a (pages (w_k w)) -> finishes f (Ret a) w b Q.
Proof. intros Hf HQ. exists a, w. auto. Qed.

Lemma finishes_loc {A} (f : A -> result) g (k : proc -> prog A) pr s b Q :
  finishes f (k (g pr)) (World (g pr) s) b Q -> finishes f (Loc g k) (World pr s) b Q.
Proof. exact id. Qed.

(** An anonymous private mapping. *)
Lemma finishes_mmap {A} (f : A -> result) n prot flags s pr (k : Z -> prog A) b1 Q :
  0 < n -> has flags MAP_PRIVATE = true -> has flags MAP_ANONYMOUS = true -> has flags MAP_FIXED = false ->
  let refused := match map_err s (n * PAGE_SIZE) flags with Some _ => true | None => false end in
  (forall s' pr', pt_eq (pages s') (pages s) -> finishes f (k MAP_FAILED) (World pr' s') false Q) ->
  (forall s' p, 0 < p -> (p + n) * PAGE_SIZE < 2 ^ 63 -> (forall q, p <= q < p + n -> pages s q = None) ->
     pt_eq (pages s') (pt_map p n prot (has flags MAP_LOCKED) (pages s)) ->
     finishes f (k (p * PAGE_SIZE)) (World pr s') b1 Q) ->
  finishes f (bind (mmap 0 (n * PAGE_SIZE) prot flags (-1) 0) k) (World pr s) (negb refused && b1) Q.
Proof.
  intros Hn Hp Ha Hf refused H0 H1. unfold refused. pose proof (pk_mmap s n prot flags Hn Hp Ha Hf) as Hm.
  destruct (map_err s (n * PAGE_SIZE) flags) as [e|] eqn:Ee; cbn [negb andb].
  - destruct Hm as (s' & E & Ht). eapply (finishes_err f (Mmap 0 (n * PAGE_SIZE) prot flags (-1) 0) (fun x => x));
      [exact E|reflexivity|eapply map_err_range; exact Ee|now apply H0].
  - destruct Hm as (s' & p & E & Hp0 & Hb & Hfree & Ht).
    eapply (finishes_ok f (Mmap 0 (n * PAGE_SIZE) prot flags (-1) 0) (fun x => x));
      [exact E|pose proof PAGE_SIZE_pos; nia|now apply H1].
Qed.

Lemma finishes_munmap {A} (f : A -> result) p n s pr (k : Z -> prog A) b Q : 0 < p -> 0 < n ->
  (forall s', pt_eq (pages s') (pt_unmap p n (pages s)) -> finishes f (k 0) (World pr s') b Q) ->
  finishes f (bind (munmap (p * PAGE_SIZE) (n * PAGE_SIZE)) k) (World pr s) b Q.
Proof.
  intros Hp Hn Hk. destruct (pk_munmap s p n Hp Hn) as (s' & E & Ht).
  eapply (finishes_ok f (Munmap (p * PAGE_SIZE) (n * PAGE_SIZE)) (fun x => x)); [exact E|lia|now apply Hk].
Qed.

(** Writing to pages that may be written. *)
Lemma finishes_memset_from {A} (f : A -> result) ch n : forall a s pr (k : unit -> prog A) b Q t,
  pt_eq (pages s) t ->
  (forall x, a <= x < a + Z.of_nat n -> exists pg, t (x / PAGE_SIZE) = Some pg /\ has (mp_prot pg) PROT_WRITE = true) ->
  (forall s', pt_eq (pages s') t -> finishes f (k tt) (World pr s') b Q) ->
  finishes f (bind (memset_from a ch n) k) (World pr s) b Q.
Proof.
  induction n as [|n IH]; intros a s pr k b Q t Ht Hw Hk; [now apply Hk|].
  destruct (Hw a) as (pg & Hpg & Hpw); [lia|]. rewrite <- (Ht _) in Hpg.
  destruct (pk_store s a (u8 ch) pg Hpg Hpw) as (s1 & E1 & Ht1). rewrite Ht in Ht1.
  assert (Hw' : forall x, a + 1 <= x < a + 1 + Z.of_nat n ->
    exists pg, t (x / PAGE_SIZE) = Some pg /\ has (mp_prot pg) PROT_WRITE = true) by (intros x Hx; apply Hw; lia).
  destruct (IH (a + 1) s1 pr k b Q t Ht1 Hw' Hk) as (v & w' & Er & Hv).
  exists v, w'. split; [|exact Hv]. rewrite <- Er. cbn [memset_from].
  rewrite run_bind_assoc. unfold store. rewrite run_bind_assoc. cbn. now rewrite E1.
Qed.

(** ** The test cases *)

Lemma not_failed p n : 0 < n -> (p + n) * PAGE_SIZE < 2 ^ 63 -> (p * PAGE_SIZE =? MAP_FAILED) = false.
Proof. intros Hn Hb. apply Z.eqb_neq. unfold MAP_FAILED. pose proof PAGE_SIZE_pos. nia. Qed.

Lemma small_size n : 0 <= n <= 3 -> i32 (PAGE_SIZE * n) = n * PAGE_SIZE.
Proof. intros Hn. rewrite Z.mul_comm. apply i32_small. destruct PAGE_SIZE_cases as [-> | ->]; lia. Qed.

Definition granted (s : kstate K) (n flags : Z) : bool :=
  match map_err s (n * PAGE_SIZE) flags with Some _ => false | None => true end.
Definition mprotect_flags : Z := Z.lor (Z.lor MAP_PRIVATE MAP_ANONYMOUS) MAP_POPULATE.
Definition mincore_flags : Z := Z.lor (Z.lor (Z.lor MAP_PRIVATE MAP_ANONYMOUS) MAP_LOCKED) MAP_POPULATE.

Lemma granted_negb s n flags :
  negb match map_err s (n * PAGE_SIZE) flags with Some _ => true | None => false end && true = granted s n flags.
Proof. unfold granted. now destruct map_err. Qed.

Lemma mprotect_ends old new pr s :
  finishes (fun v => v) (mprotect_run old new) (World pr s) (granted s 3 mprotect_flags)
    (fun _ t => pt_eq t (pages s)).
Proof.
  pose proof PAGE_SIZE_pos as HP. unfold mprotect_run. rewrite small_size by lia. rewrite <- granted_negb.
  apply finishes_mmap; try reflexivity.
  - intros s' pr' Ht. now apply finishes_ret.
  - intros s' p Hp Hb Hfree Ht. cbn [bind printf].
    apply (finishes_loc _ _ _ _ _ _ _). cbn [bind]. rewrite (not_failed p 3) by lia. cbn [negb tp_assert].
    replace (u64 (p * PAGE_SIZE + PAGE_SIZE)) with ((p + 1) * PAGE_SIZE) by (rewrite u64_small; nia).
    replace PAGE_SIZE with (1 * PAGE_SIZE) at 2 by lia.
    destruct (pk_mprotect s' (p + 1) 1 new) as (s2 & E2 & Ht2); [lia|lia| |].
    { intros q Hq. rewrite (Ht q). unfold pt_map, upd_range. now range_tac. }
    unfold mprotect. eapply (finishes_ok _ (Memc (Mprotect ((p + 1) * PAGE_SIZE) (1 * PAGE_SIZE) new)) (fun x => x));
      [exact E2|lia|]. cbn [Z.eqb tp_assert]. apply finishes_munmap; [lia|lia|]. intros s3 Ht3.
    apply finishes_ret; [tauto|]. cbn [w_k]. rewrite Ht3, Ht2, pt_unmap_protect, Ht by lia. now apply pt_unmap_map.
Qed.

(** The mapping of the [mincore] tests. *)
Definition mincore_left (s : kstate K) (x : result * Z) (t : ptable) : Prop :=
  snd x = MAP_FAILED /\ pt_eq t (pages s) \/
  exists p, snd x = p * PAGE_SIZE /\ 0 < p /\ (p + 2) * PAGE_SIZE < 2 ^ 63 /\
    (forall q, p <= q < p + 2 -> pages s q = None) /\ pt_eq t (pt_map p 2 prot_rw true (pages s)).

Lemma length_value : LENGTH_VALUE = 2 * PAGE_SIZE.
Proof. apply Z.mul_comm. Qed.

Lemma mincore_map_ends (k : Z -> prog (result * Z)) pr s :
  (forall s' p, 0 < p -> (p + 2) * PAGE_SIZE < 2 ^ 63 ->
     pt_eq (pages s') (pt_map p 2 prot_rw true (pages s)) ->
     finishes fst (k (p * PAGE_SIZE)) (World pr s') true (fun x t => snd x = p * PAGE_SIZE /\ pt_eq t (pages s'))) ->
  finishes fst (mincore_map k) (World pr s) (granted s 2 mincore_flags) (mincore_left s).
Proof.
  intros Hk. pose proof PAGE_SIZE_pos as HP. unfold mincore_map. rewrite length_value, <- granted_negb.
  apply finishes_mmap; try reflexivity.
  - intros s' pr' Ht. apply finishes_ret; [easy|]. left. auto.
  - intros s' p Hp Hb Hfree Ht. rewrite (not_failed p 2) by lia. cbn [negb tp_assert].
    change (has _ MAP_LOCKED) with true in Ht.
    unfold memset. eapply finishes_memset_from; [exact Ht| |].
    + intros x Hx. exists (MPage prot_rw true). split; [|reflexivity]. unfold pt_map, upd_range.
      rewrite Z2Nat.id in Hx by lia.
      assert (p <= x / PAGE_SIZE < p + 2) by
        (split; [apply Z.div_le_lower_bound|apply Z.div_lt_upper_bound]; nia). now range_tac.
    + intros s2 Ht2. eapply finishes_mono; [now apply Hk|]. intros v t [Ev Et]. right. exists p.
      split_and!; auto; try lia. now rewrite Et.
Qed.

Lemma vec0_eq : vec0 = [0; 0].
Proof.
  unfold vec0. replace ((LENGTH_VALUE + PAGE_SIZE - 1) / PAGE_SIZE) with 2; [reflexivity|].
  rewrite length_value. destruct PAGE_SIZE_cases as [-> | ->]; reflexivity.
Qed.

(** Two pages are asked for by both lengths. *)
Lemma mincore_resident_ends len pr s : 0 < len -> (len + PAGE_SIZE - 1) / PAGE_SIZE = 2 ->
  finishes fst (mincore_resident len) (World pr s) (granted s 2 mincore_flags) (mincore_left s).
Proof.
  intros Hlen H2. unfold mincore_resident. apply mincore_map_ends. intros s' p Hp Hb Ht.
  assert (Hpg : forall q, p <= q < p + 2 -> pages s' q = Some (MPage prot_rw true)).
  { intros q Hq. rewrite (Ht q). unfold pt_map, upd_range. now range_tac. }
  destruct (pk_mincore s' p len 2 Hp Hlen) as (s2 & vec & E & Hl & Ht2 & Hv); [now rewrite H2| |].
  { intros q Hq. rewrite Hpg by lia. discriminate. }
  destruct vec as [|b0 [|b1 [|]]]; try discriminate.
  pose proof (Hv 0%nat _ ltac:(lia) (Hpg (p + 0) ltac:(lia)) eq_refl) as V0.
  pose proof (Hv 1%nat _ ltac:(lia) (Hpg (p + 1) ltac:(lia)) eq_refl) as V1. cbn [nth] in V0, V1.
  exists (None, p * PAGE_SIZE), (World pr s2). split; [|split; [easy|split; [reflexivity|exact Ht2]]].
  rewrite vec0_eq. unfold mincore. rewrite run_bind_assoc. cbn -[Z.land]. rewrite E.
  rewrite run_bind_assoc, run_syscall_ok by (cbn; lia). cbn -[Z.land]. now rewrite V0, V1.
Qed.

Lemma mincore_error_ends back vec err pr s : 1 <= err <= 4095 ->
  (forall s' p, 0 < p -> (p + 2) * PAGE_SIZE < 2 ^ 63 ->
     pt_eq (pages s') (pt_map p 2 prot_rw true (pages s)) ->
     exists s2 v, kstep K (Memc (Mincore (u64 (p * PAGE_SIZE - back)) (2 * PAGE_SIZE) (List.length <$> vec))) s' = (s2, (- err, v)) /\
       pt_eq (pages s2) (pages s')) ->
  finishes fst (mincore_error back vec err) (World pr s) (granted s 2 mincore_flags) (mincore_left s).
Proof.
  intros He Hc. unfold mincore_error. apply mincore_map_ends. intros s' p Hp Hb Ht.
  destruct (Hc s' p Hp Hb Ht) as (s2 & v & E & Ht2).
  exists (None, p * PAGE_SIZE), (World (with_errno err pr) s2). split; [|split; [easy|split; [reflexivity|exact Ht2]]].
  rewrite length_value. unfold mincore. rewrite run_bind_assoc. cbn [bind trigger run w_k w_proc]. rewrite E.
  cbn [fst snd]. rewrite run_bind_assoc, run_syscall_err by exact He. cbn. now rewrite Z.eqb_refl.
Qed.

(** The teardown unmaps what the run function has left. *)
Lemma mincore_case_ends n (r : prog (result * Z)) argv pr s :
  finishes fst r (World pr s) (granted s 2 mincore_flags) (mincore_left s) ->
  finishes (fun v => v) (run_test_case (mincore_case n r) argv) (World pr s) (granted s 2 mincore_flags)
    (fun _ t => pt_eq t (pages s)).
Proof.
  intros ([v a] & [pr1 s1] & E & Hv & Hl). cbn [fst snd w_k] in *.
  assert (Et : exists s2, run K (mincore_teardown n a) (World pr1 s1) = (Done tt, World pr1 s2) /\ pt_eq (pages s2) (pages s)).
  { unfold mincore_teardown. destruct Hl as [[Ea Ht]|(p & Ea & Hp & Hb & Hfree & Ht)]; cbn [snd] in Ea; subst a.
    - exists s1. auto.
    - rewrite (not_failed p 2) by lia. cbn [negb]. rewrite length_value.
      destruct (pk_munmap s1 p 2 Hp ltac:(lia)) as (s2 & E2 & Ht2). exists s2. split.
      + unfold munmap. now rewrite (run_call_ok K (Munmap _ _) (fun x => x) _ _ _ _ _ _ E2).
      + rewrite Ht2, Ht. now apply pt_unmap_map. }
  destruct Et as (s2 & Et & Ht). exists v, (World pr1 s2). split; [|auto].
  pose proof (run_bind K r (fun '(msg, a') => mincore_teardown n a' ;; Ret msg) (World pr s)) as R.
  rewrite E in R. cbn beta iota in R. rewrite (run_bind K (mincore_teardown n a)), Et in R. exact R.
Qed.

(** The block the locking tests allocate and never free: [t] is the page table
    with its pages locked, or not. *)
Definition lock_left (l : bool) (s : kstate K) (t : ptable) : Prop :=
  match heap s MLOCK_MALLOC_SIZE with
  | None => pt_eq t (pages s)
  | Some p =>
      let block q := 0 <= q - p / PAGE_SIZE < pages_of p MLOCK_MALLOC_SIZE in
      match lock_err s MLOCK_MALLOC_SIZE with
      | Some _ => forall q pg, pages s q = Some pg -> t q = Some pg
      | None => (forall q, block q -> exists pg, t q = Some pg /\ mp_locked pg = l) /\
                (forall q pg, ~ block q -> pages s q = Some pg -> t q = Some pg)
      end
  end.
Definition lockable_block (s : kstate K) : bool :=
  match heap s MLOCK_MALLOC_SIZE, lock_err s MLOCK_MALLOC_SIZE with Some _, None => true | _, _ => false end.

(** Allocating and locking the block. *)
Lemma lock_block_ends (k : Z -> prog result) pr s b (Q : ptable -> Prop) :
  (heap s MLOCK_MALLOC_SIZE = None -> forall t, pt_eq t (pages s) -> Q t) ->
  (heap s MLOCK_MALLOC_SIZE <> None -> lock_err s MLOCK_MALLOC_SIZE <> None ->
     forall t, (forall q pg, pages s q = Some pg -> t q = Some pg) -> Q t) ->
  (forall p s' t0, heap s MLOCK_MALLOC_SIZE = Some p -> lock_err s MLOCK_MALLOC_SIZE = None -> 0 < p ->
     (forall q, 0 <= q - p / PAGE_SIZE < pages_of p MLOCK_MALLOC_SIZE -> t0 q <> None) ->
     (forall q pg, pages s q = Some pg -> t0 q = Some pg) ->
     pt_eq (pages s') (pt_lock true (p / PAGE_SIZE) (pages_of p MLOCK_MALLOC_SIZE) t0) ->
     finishes (fun v => v) (k p) (World pr s') b (fun _ => Q)) ->
  finishes (fun v => v)
    (addr <- malloc MLOCK_MALLOC_SIZE ;;
     tp_assert! (negb (addr =? NULL), Some "malloc failed.") ;;
     ret <- mlock addr MLOCK_MALLOC_SIZE ;;
     tp_assert! (negb (ret =? -1), Some "mlock failed.") ;;
     k addr) (World pr s) (lockable_block s && b) (fun _ => Q).
Proof.
  intros H0 H1 Hk. unfold lockable_block. pose proof (pk_malloc s MLOCK_MALLOC_SIZE ltac:(reflexivity)) as Hm.
  destruct (heap s MLOCK_MALLOC_SIZE) as [p|] eqn:Eh.
  - destruct Hm as (s1 & E1 & Hp & Hblock & Hkeep & Hlerr).
    assert (R : forall (q : Z -> prog result), run K (bind (malloc MLOCK_MALLOC_SIZE) q) (World pr s) = run K (q p) (World pr s1)).
    { intros q. unfold malloc. rewrite run_bind_assoc. cbn -[MLOCK_MALLOC_SIZE]. rewrite E1.
      now replace (p =? NULL) with false by (symmetry; apply Z.eqb_neq; unfold NULL; lia). }
    unfold finishes. rewrite R. cbn beta.
    replace (p =? NULL) with false by (symmetry; apply Z.eqb_neq; unfold NULL; lia). cbn [negb tp_assert].
    pose proof (pk_mlock s1 p MLOCK_MALLOC_SIZE ltac:(lia) ltac:(reflexivity) Hblock) as Hl. rewrite Hlerr in Hl.
    destruct (lock_err s MLOCK_MALLOC_SIZE) as [e|] eqn:El; cbn [andb]; destruct Hl as (s2 & E2 & Ht2).
    + eapply (finishes_err _ (Memc (Mlock p MLOCK_MALLOC_SIZE)) (fun x => x));
        [exact E2|reflexivity|eapply lock_err_range; exact El|]. apply finishes_ret; [easy|]. cbn [w_k].
      apply H1; [discriminate|discriminate|]. intros q pg Hq. rewrite (Ht2 q). auto.
    + eapply (finishes_ok _ (Memc (Mlock p MLOCK_MALLOC_SIZE)) (fun x => x)); [exact E2|lia|].
      apply (Hk p s2 (pages s1)); auto. lia.
  - destruct Hm as (s1 & E1 & Ht). exists (Some "malloc failed."), (World (with_errno ENOMEM pr) s1).
    split; [|split; [easy|now apply H0]]. unfold malloc. rewrite run_bind_assoc. cbn -[MLOCK_MALLOC_SIZE]. now rewrite E1.
Qed.

Lemma lock_left_no_block l s t : heap s MLOCK_MALLOC_SIZE = None -> pt_eq t (pages s) -> lock_left l s t.
Proof. unfold lock_left. now intros ->. Qed.
Lemma lock_left_no_lock l s t : heap s MLOCK_MALLOC_SIZE <> None -> lock_err s MLOCK_MALLOC_SIZE <> None ->
  (forall q pg, pages s q = Some pg -> t q = Some pg) -> lock_left l s t.
Proof. unfold lock_left. destruct (heap s MLOCK_MALLOC_SIZE); [|easy]. now destruct (lock_err s MLOCK_MALLOC_SIZE). Qed.
Lemma lock_left_locked l s p t0 t : heap s MLOCK_MALLOC_SIZE = Some p -> lock_err s MLOCK_MALLOC_SIZE = None ->
  (forall q, 0 <= q - p / PAGE_SIZE < pages_of p MLOCK_MALLOC_SIZE -> t0 q <> None) ->
  (forall q pg, pages s q = Some pg -> ~ 0 <= q - p / PAGE_SIZE < pages_of p MLOCK_MALLOC_SIZE -> t0 q = Some pg) ->
  pt_eq t (pt_lock l (p / PAGE_SIZE) (pages_of p MLOCK_MALLOC_SIZE) t0) -> lock_left l s t.
Proof.
  intros Eh El Hb Hk Ht. unfold lock_left. rewrite Eh, El. split.
  - intros q Hq. rewrite (Ht q). unfold pt_lock, upd_range.
    rewrite (proj2 (in_range_true _ _ _)) by lia. destruct (t0 q) as [pg|] eqn:E; [|now destruct (Hb q Hq)].
    exists (with_lock l pg). auto.
  - intros q pg Hq Hpg. rewrite (Ht q). unfold pt_lock, upd_range.
    rewrite (proj2 (in_range_false _ _ _)) by lia. auto.
Qed.

Lemma mlock_ends pr s :
  finishes (fun v => v) mlock_run_000 (World pr s) (lockable_block s) (fun _ => lock_left true s).
Proof.
  rewrite <- (andb_true_r (lockable_block s)). apply lock_block_ends.
  - intros Eh t. now apply lock_left_no_block.
  - intros Eh El t. now apply lock_left_no_lock.
  - intros p s' t0 Eh El Hp Hb Hk Ht. apply finishes_ret; [tauto|]. now apply (lock_left_locked true s p t0); auto.
Qed.

Lemma munlock_ends pr s :
  finishes (fun v => v) munlock_run_000 (World pr s) (lockable_block s) (fun _ => lock_left false s).
Proof.
  rewrite <- (andb_true_r (lockable_block s)). apply lock_block_ends.
  - intros Eh t. now apply lock_left_no_block.
  - intros Eh El t. now apply lock_left_no_lock.
  - intros p s' t0 Eh El Hp Hb Hk Ht.
    assert (Hb' : forall q, 0 <= q - p / PAGE_SIZE < pages_of p MLOCK_MALLOC_SIZE -> pages s' q <> None).
    { intros q Hq. rewrite (Ht q). unfold pt_lock, upd_range. specialize (Hb q Hq).
      destruct (in_range q _ _), (t0 q); easy. }
    destruct (pk_munlock s' p MLOCK_MALLOC_SIZE Hp ltac:(reflexivity) Hb') as (s2 & E2 & Ht2).
    eapply (finishes_ok _ (Memc (Munlock p MUNLOCK_MALLOC_SIZE)) (fun x => x)); [exact E2|lia|].
    apply finishes_ret; [tauto|]. apply (lock_left_locked false s p (pages s')); auto.
    intros q pg Hpg Hq. rewrite (Ht q). unfold pt_lock, upd_range. rewrite (proj2 (in_range_false _ _ _)) by lia. auto.
Qed.

Definition can_lock_all (s : kstate K) : bool := match lock_all_err s with Some _ => false | None => true end.

Lemma lock_all_ends (k : prog result) pr s b Q :
  (lock_all_err s <> None -> forall t, pt_eq t (pages s) -> Q t) ->
  (lock_all_err s = None -> forall s', pt_eq (pages s') (pt_lock_all true (pages s)) ->
     finishes (fun v => v) k (World pr s') b (fun _ => Q)) ->
  finishes (fun v => v)
    (res <- mlockall (Z.lor MCL_CURRENT MCL_FUTURE) ;;
     tp_assert! (res =? 0, Some "mlockall error.") ;; k) (World pr s) (can_lock_all s && b) (fun _ => Q).
Proof.
  intros H0 Hk. unfold can_lock_all. pose proof (pk_mlockall s) as Hl.
  destruct (lock_all_err s) as [e|] eqn:El; cbn [andb]; destruct Hl as (s1 & E1 & Ht).
  - eapply (finishes_err _ (Memc (Mlockall _)) (fun x => x)); [exact E1|reflexivity|eapply lock_all_range; exact El|].
    apply finishes_ret; [easy|]. now apply H0.
  - eapply (finishes_ok _ (Memc (Mlockall _)) (fun x => x)); [exact E1|lia|]. now apply Hk.
Qed.

Lemma mlockall_ends pr s :
  finishes (fun v => v) mlockall_run_000 (World pr s) (can_lock_all s)
    (fun _ t => pt_eq t (if can_lock_all s then pt_lock_all true (pages s) else pages s)).
Proof.
  rewrite <- (andb_true_r (can_lock_all s)) at 1. unfold mlockall_run_000. apply lock_all_ends; unfold can_lock_all.
  - now destruct (lock_all_err s).
  - intros -> s' Ht. apply finishes_ret; [tauto|exact Ht].
Qed.

Lemma munlockall_ends pr s :
  finishes (fun v => v) munlockall_run_000 (World pr s) (can_lock_all s)
    (fun _ t => pt_eq t (if can_lock_all s then pt_lock_all false (pages s) else pages s)).
Proof.
  rewrite <- (andb_true_r (can_lock_all s)) at 1. unfold munlockall_run_000. apply lock_all_ends; unfold can_lock_all.
  - now destruct (lock_all_err s).
  - intros -> s' Ht. destruct (pk_munlockall s') as (s2 & E2 & Ht2).
    eapply (finishes_ok _ (Memc Munlockall) (fun x => x)); [exact E2|lia|]. apply finishes_ret; [tauto|].
    intros q. cbn [w_k]. rewrite (Ht2 q). unfold pt_lock_all at 1. rewrite (Ht q). unfold pt_lock_all. now destruct (pages s q).
Qed.

(** A case without setup and teardown. *)
Lemma plain_case_ends suite n r argv w b Q :
  finishes (fun v => v) r w b (fun _ => Q) ->
  finishes (fun v => v) (run_test_case (TestCase suite n unit SETUP_EMPTY (run_const (fun _ _ => r)) TEARDOWN_EMPTY) argv)
    w b (fun _ => Q).
Proof.
  intros (v & w' & E & Hv). exists v, w'. split; [|exact Hv].
  unfold run_test_case. cbn [setup TestMck.num tc_run teardown bind SETUP_EMPTY]. unfold run_const.
  rewrite run_bind, run_bind, E. reflexivity.
Qed.

(** ** What the suites come to *)

(** Every case, when it passes, and what it leaves of the page table: the
    [mprotect] and [mincore] tests nothing, the locking tests a locked (or
    unlocked) block and the locks of everything. *)
Definition page_verdicts (s : kstate K) : list (test_case * bool * (ptable -> Prop)) :=
  let same t := pt_eq t (pages s) in
  let three := granted s 3 mprotect_flags in
  let two := granted s 2 mincore_flags in
  [ (mprotect0, three, same); (mprotect1, three, same); (mprotect2, three, same); (mprotect3, three, same);
    (mprotect4, three, same); (mprotect5, three, same); (mprotect6, three, same); (mprotect7, three, same);
    (mincore0, two, same); (mincore1, two, same); (mincore2, two, same); (mincore3, two, same);
    (mlock0, lockable_block s, lock_left true s); (munlock0, lockable_block s, lock_left false s);
    (mlockall0, can_lock_all s, fun t => pt_eq t (if can_lock_all s then pt_lock_all true (pages s) else pages s));
    (munlockall0, can_lock_all s, fun t => pt_eq t (if can_lock_all s then pt_lock_all false (pages s) else pages s)) ].

Lemma mincore1_len : 0 < u64 (LENGTH_VALUE - PAGE_SIZE + 1) /\ (u64 (LENGTH_VALUE - PAGE_SIZE + 1) + PAGE_SIZE - 1) / PAGE_SIZE = 2.
Proof. rewrite length_value. destruct PAGE_SIZE_cases as [-> | ->]; split; reflexivity. Qed.

Lemma mincore2_call s' p : 0 < p -> (p + 2) * PAGE_SIZE < 2 ^ 63 ->
  exists s2 v, kstep K (Memc (Mincore (u64 (p * PAGE_SIZE - 1)) (2 * PAGE_SIZE) (List.length <$> Some vec0))) s' = (s2, (- EINVAL, v)) /\
    pt_eq (pages s2) (pages s').
Proof.
  intros Hp Hb. pose proof PAGE_SIZE_pos. apply pk_mincore_inval. rewrite u64_small by nia.
  replace (p * PAGE_SIZE - 1) with (PAGE_SIZE - 1 + (p - 1) * PAGE_SIZE) by lia. rewrite Z.mod_add by lia.
  destruct PAGE_SIZE_cases as [-> | ->]; discriminate.
Qed.

Lemma mincore3_call t s' p : 0 < p -> (p + 2) * PAGE_SIZE < 2 ^ 63 ->
  pt_eq (pages s') (pt_map p 2 prot_rw true t) ->
  exists s2 v, kstep K (Memc (Mincore (u64 (p * PAGE_SIZE - 0)) (2 * PAGE_SIZE) (List.length <$> (None : option (list Z))))) s' = (s2, (- EFAULT, v)) /\
    pt_eq (pages s2) (pages s').
Proof.
  intros Hp Hb Ht. pose proof PAGE_SIZE_pos. rewrite Z.sub_0_r, u64_small by nia. apply pk_mincore_fault; [lia|lia|].
  intros q Hq. rewrite (Ht q). unfold pt_map, upd_range. now range_tac.
Qed.
End Calls.

(** C37.  On a kernel with the documented page calls, each of the 16 cases returns;
    it passes exactly if its mapping (or block and lock) is granted, and leaves
    the page table as [page_verdicts] says: the tests of [mprotect] and [mincore]
    exactly as they found it, those of [mlock] and [munlock] with an allocated
    block, locked in the first. *)
Theorem page_suites_exact `{ArchConfig} K {PK : PageKernel K} argv pr s :
  Forall (fun '(tc, b, Q) => finishes K (fun v => v) (run_test_case tc argv) (World pr s) b (fun _ => Q))
    (page_verdicts K s).
Proof.
  unfold page_verdicts. cbn zeta.
  repeat apply List.Forall_cons; try apply List.Forall_nil;
    try (apply plain_case_ends; first [apply mprotect_ends | apply mlock_ends | apply munlock_ends
                                      | apply mlockall_ends | apply munlockall_ends]);
    apply mincore_case_ends.
  - apply mincore_resident_ends; [rewrite length_value; pose proof PAGE_SIZE_pos; lia|].
    rewrite length_value. destruct PAGE_SIZE_cases as [-> | ->]; reflexivity.
  - now apply mincore_resident_ends; apply mincore1_len.
  - apply mincore_error_ends; [compute; split; discriminate|]. intros s' p Hp Hb _. now apply mincore2_call.
  - apply mincore_error_ends; [compute; split; discriminate|]. intros s' p Hp Hb Ht. now apply (mincore3_call K (pages s)).
Qed.

(** ** A kernel that meets the interface *)

(** A page table and the first page that was never mapped. *)
Section Bump.
Context `{ArchConfig}.

Definition bump : Type := ptable * Z.
Definition b_next (s : bump) : Z := Z.max 1 (snd s).
Definition b_pages (s : bump) : ptable := fun q => if q <? b_next s then fst s q else None.
Definition b_fits (s : bump) (n : Z) : bool := (b_next s + n) * PAGE_SIZE <? 2 ^ 63.
Definition b_map (n prot : Z) (l : bool) (s : bump) : bump := (pt_map (b_next s) n prot l (fst s), b_next s + n).
Definition b_upd (f : ptable -> ptable) (s : bump) : bump := (f (fst s), snd s).

Definition bump_step (c : op) (s : bump) : bump * ans c :=
  match c with
  | Mmap _ len prot flags _ _ =>
      if b_fits s (len / PAGE_SIZE) then (b_map (len / PAGE_SIZE) prot (has flags MAP_LOCKED) s, b_next s * PAGE_SIZE)
      else (s, - ENOMEM)
  | Munmap a len => (b_upd (pt_unmap (a / PAGE_SIZE) (len / PAGE_SIZE)) s, 0)
  | Store a _ =>
      (s, match b_pages s (a / PAGE_SIZE) with
          | Some pg => if has (mp_prot pg) PROT_WRITE then inl tt else inr SIGSEGV
          | None => inr SIGSEGV
          end)
  | Malloc size =>
      let p := b_next s * PAGE_SIZE in
      if b_fits s (pages_of p size) then (b_map (pages_of p size) prot_rw false s, p) else (s, NULL)
  | Memc c =>
      match c as c return bump * memans c with
      | Mprotect a len prot => (b_upd (pt_protect (a / PAGE_SIZE) (len / PAGE_SIZE) prot) s, 0)
      | Mincore a len vec =>
          (s, if negb (a mod PAGE_SIZE =? 0) then (- EINVAL, [])
              else match vec with Some n => (0, repeat 1 n) | None => (- EFAULT, []) end)
      | Mlock a len => if len <=? 65536 then (b_upd (pt_lock true (a / PAGE_SIZE) (pages_of a len)) s, 0) else (s, - ENOMEM)
      | Munlock a len => (b_upd (pt_lock false (a / PAGE_SIZE) (pages_of a len)) s, 0)
      | Mlockall _ => (b_upd (pt_lock_all true) s, 0)
      | Munlockall => (b_upd (pt_lock_all false) s, 0)
      | c => (s, enosys (Memc c))
      end
  | c => (s, enosys c)
  end.
Definition bump_kernel : kernel := Kernel bump bump_step.

Lemma b_pages_map n prot l s : 0 < n ->
  pt_eq (b_pages (b_map n prot l s)) (pt_map (b_next s) n prot l (b_pages s)).
Proof.
  intros Hn q. unfold b_pages, b_map, pt_map, upd_range, b_next. cbn [fst snd].
  destruct (Z.ltb_spec q (Z.max 1 (Z.max 1 (snd s) + n))), (Z.ltb_spec q (Z.max 1 (snd s))); range_tac; try lia; reflexivity.
Qed.

Lemma b_pages_upd lo n f s : f None = None ->
  pt_eq (b_pages (b_upd (upd_range lo n f) s)) (upd_range lo n f (b_pages s)).
Proof.
  intros Hf q. unfold b_pages, b_upd, upd_range, b_next. cbn [fst snd].
  destruct (q <? Z.max 1 (snd s)), (in_range q lo n); auto.
Qed.

Lemma b_pages_lock_all l s : pt_eq (b_pages (b_upd (pt_lock_all l) s)) (pt_lock_all l (b_pages s)).
Proof. intros q. unfold b_pages, b_upd, pt_lock_all, b_next. cbn [fst snd]. now destruct (q <? Z.max 1 (snd s)). Qed.

Lemma b_free s q : b_next s <= q -> b_pages s q = None.
Proof. intros Hq. unfold b_pages. now rewrite (proj2 (Z.ltb_ge _ _) Hq). Qed.

Lemma pages_of_pos p size : 0 < size -> 0 < pages_of p size.
Proof. intros Hs. unfold pages_of. pose proof PAGE_SIZE_pos. pose proof (Z.div_le_mono p (p + size - 1) PAGE_SIZE). lia. Qed.

#[export] Instance bump_ok : PageKernel bump_kernel.
Proof.
  pose proof PAGE_SIZE_pos as HP.
  refine {| pages := (b_pages : kstate bump_kernel -> ptable);
            map_err := (fun s len _ => if b_fits s (len / PAGE_SIZE) then None else Some ENOMEM);
            lock_err := (fun _ len => if len <=? 65536 then None else Some ENOMEM);
            lock_all_err := (fun _ => None);
            heap := (fun s size => if b_fits s (pages_of (b_next s * PAGE_SIZE) size) then Some (b_next s * PAGE_SIZE) else None)
         |}; cbn [kstep bump_kernel bump_step].
  - intros s len flags e. case_if; intros [= <-]. compute; split; discriminate.
  - intros s len e. case_if; intros [= <-]. compute; split; discriminate.
  - discriminate.
  - intros s n prot flags Hn _ _ _. rewrite Z.div_mul by lia. destruct (b_fits s n) eqn:E.
    + exists (b_map n prot (has flags MAP_LOCKED) s), (b_next s). split; [reflexivity|].
      split; [unfold b_next; lia|]. split; [now apply Z.ltb_lt|]. split; [intros q Hq; apply b_free; lia|].
      now apply b_pages_map.
    + exists s. split; reflexivity.
  - intros s p n Hp Hn. rewrite !Z.div_mul by lia. eexists. split; [reflexivity|]. now apply b_pages_upd.
  - intros s p n prot Hp Hn _. rewrite !Z.div_mul by lia. eexists. split; [reflexivity|]. now apply b_pages_upd.
  - intros s a b pg E Hw. rewrite E, Hw. eexists. split; reflexivity.
  - intros s p len n Hp Hl Hn _. exists s, (repeat 1 n). rewrite Z.mod_mul by lia. split; [reflexivity|].
    split; [apply repeat_length|]. split; [reflexivity|]. intros i pg Hi _ _. now rewrite nth_repeat_lt.
  - intros s a len n Ha. exists s, []. rewrite (proj2 (Z.eqb_neq _ _) Ha). split; reflexivity.
  - intros s p n Hp Hn _. exists s, []. rewrite Z.mod_mul by lia. split; reflexivity.
  - intros s size Hs. set (n := pages_of (b_next s * PAGE_SIZE) size). assert (Hn : 0 < n) by now apply pages_of_pos.
    destruct (b_fits s n) eqn:E.
    + exists (b_map n prot_rw false s). split; [reflexivity|]. apply Z.ltb_lt in E.
      split; [unfold b_next in *; nia|]. rewrite Z.div_mul by lia. split_and!; [| |reflexivity].
      * intros q Hq. rewrite (b_pages_map n _ _ s Hn q). unfold pt_map, upd_range.
        now rewrite (proj2 (in_range_true _ _ _)) by lia.
      * intros q pg Hq. rewrite (b_pages_map n _ _ s Hn q). unfold pt_map, upd_range.
        destruct (Z.lt_ge_cases q (b_next s)); [now rewrite (proj2 (in_range_false _ _ _)) by lia|].
        now rewrite b_free in Hq.
    + exists s. split; reflexivity.
  - intros s a len _ _ _. destruct (len <=? 65536); eexists; (split; [reflexivity|]); [now apply b_pages_upd|reflexivity].
  - intros s a len _ _ _. eexists. split; [reflexivity|]. now apply b_pages_upd.
  - intros s. eexists. split; [reflexivity|]. apply b_pages_lock_all.
  - intros s. eexists. split; [reflexivity|]. apply b_pages_lock_all.
Defined.
End Bump.

(** With 64 KB pages and an empty page table, [mincore] 1 passes and leaves the
    table as it was. *)
Lemma page_suites_exact_witness :
  finishes (PK := @bump_ok config_64K) bump_kernel (fun v => v) (run_test_case (@mincore1 config_64K) ["app"])
    (World proc0 ((fun _ => None, 1) : kstate (@bump_kernel config_64K))) true
    (fun _ t => pt_eq t (@b_pages (fun _ => None, 1))).
Proof.
  pose proof (@page_suites_exact config_64K (@bump_kernel config_64K) (@bump_ok config_64K) ["app"] proc0
                ((fun _ => None, 1) : kstate (@bump_kernel config_64K))) as F.
  rewrite List.Forall_forall in F.
  apply (F (@mincore1 config_64K, true, fun t => pt_eq t (b_pages (fun _ => None, 1)))).
  apply (nth_error_In _ 9). reflexivity.
Defined.
