(* ===== verification/MemLarge.v ===== *)
(** * The suite [mem_large_page]

    Eleven tests that obtain memory by [mmap], [sbrk] or a shared memory segment,
    touch it page by page and ask the page map for the size of the pages behind
    it. *)
From S2P Require Import Prelude Process Trace Arch CLib TestMck AddrSpace MemInfo FileMap.
From Stdlib Require Import Ascii String.
#[local] Open Scope string_scope.
#[local] Open Scope Z_scope.

Definition MAP_HUGETLB : Z := 0x40000.
Definition MAP_HUGE_SHIFT : Z := 26.
Definition SHM_HUGETLB : Z := 2048.
Definition IPC_PRIVATE : Z := 0.
Definition IPC_CREAT : Z := 512.
Definition IPC_RMID : Z := 0.
Definition SHM_R : Z := 256.
Definition SHM_W : Z := 128.
Definition SHMAT_FLAGS : Z := 0.
Definition ADDR : Z := 0.

(** [(void * )-1] is [MAP_FAILED]. *)
Definition sbrk (incr : Z) : prog Z := r <- (trigger (Memc (Sbrk incr)) : prog Z) ;; syscall_ret MAP_FAILED r.
Definition brk (addr : Z) : prog Z := r <- (trigger (Memc (Brk addr)) : prog Z) ;; syscall_ret (-1) r.
Definition shmget (key size flags : Z) : prog Z := r <- trigger (Shmget key size flags) ;; syscall_ret (-1) r.
Definition shmat (shmid addr flags : Z) : prog Z := r <- trigger (Shmat shmid addr flags) ;; syscall_ret MAP_FAILED r.
Definition shmdt (addr : Z) : prog Z := r <- trigger (Shmdt addr) ;; syscall_ret (-1) r.
Definition shmctl_rmid (shmid : Z) : prog Z := r <- trigger (Shmctl shmid IPC_RMID) ;; syscall_ret (-1) r.
Definition popen (command type : string) : prog Z :=
  r <- (trigger (Filec (Popen command type)) : prog Z) ;; syscall_ret NULL r.
(** The number of conversions and the value stored, if any. *)
Definition fscanf_long (fp : Z) (format : string) : prog (Z * option Z) :=
  (trigger (Filec (FscanfLong fp format)) : prog (Z * option Z)).

Section Suite.
Context `{ArchConfig}.

(** ** [mem_large_page.c] *)

Definition check_page_size (va pagesize : Z) : prog Z :=
  let* (stat, info) := get_memory_info_self va (Some memory_info0) in
  if negb (stat =? 0) then printf "get memory info failed.\n" [] ;; Ret 0
  else
    let size := pgsize (default memory_info0 info) in
    if negb (size =? pagesize) then
      printf "pagesize = 0x%lx, Not as expected.\n" [PZ size] ;; Ret 0
    else Ret 1.

(** ** The loop over the pages *)

(** [touch] is the access of the loop body; [n] bounds the rounds: one for each
    page of the range. *)
Fixpoint touch_pages (touch : Z -> prog unit) (n : nat) (start end_ pagesize large_page_flag : Z) : prog Z :=
  match n with
  | O => Ret large_page_flag
  | S n =>
      if start <? end_ then
        touch start ;;
        large_page_flag <- check_page_size start pagesize ;;
        if large_page_flag =? 0 then Ret large_page_flag
        else touch_pages touch n (u64 (start + PAGE_SIZE)) end_ pagesize large_page_flag
      else Ret large_page_flag
  end.
Definition page_rounds (start end_ : Z) : nat := Z.to_nat ((end_ - start + PAGE_SIZE - 1) / PAGE_SIZE).

(** [*start = 'Z';] and [char ch = *start;] *)
Definition store_Z (start : Z) : prog unit := store start 90.
Definition load_ch (start : Z) : prog unit := ch <- load start ;; Ret tt.

(** ** Anonymous mappings: tests 0, 1, 8, 9 and 10 *)

(** The static variables [addr] and [length]. *)
Record map_mem := MapMem { lp_addr : Z; lp_length : Z }.

Definition anon_run (pagesize length flag : Z) : prog (result * map_mem) :=
  addr <- mmap 0 length (Z.lor PROT_READ PROT_WRITE) flag (-1) 0 ;;
  let m := MapMem addr length in
  tp_assert! (negb (addr =? MAP_FAILED), (Some "mmap error.", m)) ;;
  printf "mmap=%p\n" [PZ addr] ;;
  let start := align_up addr pagesize in
  let end_ := u64 (start + length / 2) in
  tp_assert! (start <? end_, (Some "address overflow.", m)) ;;
  large_page_flag <- touch_pages store_Z (page_rounds start end_) start end_ pagesize (-1) ;;
  tp_assert! (negb (large_page_flag =? 0), (Some "invalid page size?", m)) ;;
  Ret (None, m).

Definition anon_teardown (tc_num : Z) (m : map_mem) : prog unit :=
  if negb (lp_addr m =? MAP_FAILED) then munmap (lp_addr m) (lp_length m) ;; Ret tt else Ret tt.

(** [#if ENABLE_LARGEST_PAGE] around the body. *)
Definition skip_64K {M} (m : M) (run : prog (result * M)) : prog (result * M) :=
  if ENABLE_LARGEST_PAGE =? 0 then Ret (Some "In 64KiB page-size environment SKIP.", m) else run.

Definition flag_anon : Z := Z.lor MAP_PRIVATE MAP_ANONYMOUS.
Definition flag_huge (shift : Z) : Z :=
  i32 (Z.lor (Z.lor (Z.lor MAP_PRIVATE MAP_ANONYMOUS) MAP_HUGETLB) (Z.shiftl shift MAP_HUGE_SHIFT)).

Definition anon_case (n length : Z) (run : prog (result * map_mem)) : test_case :=
  TestCase "mem_large_page" n map_mem (fun _ _ => Ret (MapMem MAP_FAILED length)) (fun _ _ => run) anon_teardown.

Definition mem_large_page0 :=
  let length := u64 (2 * LARGE_PAGE_SIZE) in anon_case 0 length (anon_run LARGE_PAGE_SIZE length flag_anon).
Definition mem_large_page1 :=
  let length := u64 (2 * LARGEST_PAGE_SIZE) in
  anon_case 1 length (skip_64K (MapMem MAP_FAILED length) (anon_run LARGEST_PAGE_SIZE length flag_anon)).
Definition mem_large_page9 :=
  let length := u64 (2 * LARGE_PAGE_SIZE) in
  anon_case 9 length (anon_run LARGE_PAGE_SIZE length (flag_huge LARGE_PAGE_SHIFT)).
Definition mem_large_page10 :=
  let length := u64 (2 * LARGEST_PAGE_SIZE) in
  anon_case 10 length
    (skip_64K (MapMem MAP_FAILED length) (anon_run LARGEST_PAGE_SIZE length (flag_huge LARGEST_PAGE_SHIFT))).

(** Reading the default size of huge pages (tests 5 and 8); [hugepagesize] is the
    variable before the call, which a failed conversion leaves as it is. *)
Definition read_hugepagesize {M} (hugepagesize : Z) (m : M) (k : Z -> prog (result * M)) : prog (result * M) :=
  fp <- popen "grep Hugepagesize /proc/meminfo" "r" ;;
  tp_assert! (negb (fp =? NULL), (Some "opening /proc/meminfo failed.", m)) ;;
  let* (_, v) := fscanf_long fp "Hugepagesize:       %ld kB" in
  let hugepagesize := u64 (default hugepagesize v * 1024) in
  fclose fp ;;
  k hugepagesize.

Definition mem_large_page8 :=
  anon_case 8 0
    (read_hugepagesize 0 (MapMem MAP_FAILED 0) (fun hugepagesize =>
     anon_run hugepagesize (u64 (hugepagesize * 2)) (Z.lor flag_anon MAP_HUGETLB))).

(** ** The heap: tests 2 and 3 *)

(** The memory is the static variable [before]. *)
Definition brk_run (increment pagesize : Z) (msg : string) : prog (result * Z) :=
  before <- sbrk 0 ;;
  printf "sbrk(0)=%p\n" [PZ before] ;;
  tp_assert! (negb (before =? MAP_FAILED), (Some "sbrk error.", before)) ;;
  let aligned_addr := align_up before LARGE_PAGE_SIZE in
  sbrk (i64 (aligned_addr - before)) ;;
  addr <- sbrk increment ;;
  printf "sbrk=%p\n" [PZ addr] ;;
  tp_assert! (addr =? aligned_addr, (Some "sbrk error.", before)) ;;
  let start := addr in
  let end_ := u64 (start + increment) in
  tp_assert! (start <? end_, (Some "address overflow.", before)) ;;
  large_page_flag <- touch_pages store_Z (page_rounds start end_) start end_ pagesize (-1) ;;
  tp_assert! (negb (large_page_flag =? 0), (Some msg, before)) ;;
  Ret (None, before).

Definition brk_teardown (tc_num before : Z) : prog unit :=
  if negb (before =? MAP_FAILED) then brk before ;; Ret tt else Ret tt.

Definition brk_case (n : Z) (run : prog (result * Z)) : test_case :=
  TestCase "mem_large_page" n Z (fun _ _ => Ret MAP_FAILED) (fun _ _ => run) brk_teardown.
Definition mem_large_page2 := brk_case 2 (brk_run LARGE_PAGE_SIZE LARGE_PAGE_SIZE "invalid page size?").
(** Without the largest page size the body is empty. *)
Definition mem_large_page3 :=
  brk_case 3 (if ENABLE_LARGEST_PAGE =? 0 then Ret (None, MAP_FAILED)
              else brk_run LARGEST_PAGE_SIZE LARGEST_PAGE_SIZE "invalid page size?.").

(** ** A file: test 4 *)

Record file_mem := FileMem { lf_path : heap_string; lf_addr : Z; lf_fd : Z }.

(** [large_page_flag] of this test is the negation of the result of
    [check_page_size]. *)
Definition file_run : prog (result * file_mem) :=
  let length := u64 (2 * LARGE_PAGE_SIZE) in
  file_path <- test_mck_create_temp_file "mem_large_page_004" length ;;
  match file_path with
  | None => Ret (Some "create temp file error.", FileMem None MAP_FAILED (-1))
  | Some (_, name) =>
      fd <- open name O_RDONLY ;;
      tp_assert! (negb (fd =? -1), (Some "file open error.", FileMem file_path MAP_FAILED fd)) ;;
      addr <- mmap 0 length PROT_READ MAP_PRIVATE fd 0 ;;
      let m := FileMem file_path addr fd in
      tp_assert! (negb (addr =? MAP_FAILED), (Some "mmap error.", m)) ;;
      printf "mmap=%p\n" [PZ addr] ;;
      let start := align_up addr LARGE_PAGE_SIZE in
      let end_ := u64 (start + length / 2) in
      tp_assert! (start <? end_, (Some "address overflow.", m)) ;;
      normal <- touch_pages load_ch (page_rounds start end_) start end_ PAGE_SIZE 1 ;;
      let large_page_flag := b2z (normal =? 0) in
      tp_assert! (large_page_flag =? 0, (Some "invalid page size.", m)) ;;
      Ret (None, m)
  end.

Definition file_teardown (tc_num : Z) (m : file_mem) : prog unit :=
  (if negb (lf_addr m =? MAP_FAILED) then munmap (lf_addr m) (u64 (2 * LARGE_PAGE_SIZE)) ;; Ret tt else Ret tt) ;;
  (if negb (lf_fd m =? -1) then close (lf_fd m) ;; Ret tt else Ret tt) ;;
  match lf_path m with Some _ => test_mck_delete_temp_file (lf_path m) | None => Ret tt end.

Definition mem_large_page4 : test_case :=
  TestCase "mem_large_page" 4 file_mem (fun _ _ => Ret (FileMem None MAP_FAILED (-1)))
    (fun _ _ => file_run) file_teardown.

(** ** Shared memory segments: tests 5, 6 and 7 *)

(** [i] is an [int], [length] and the step are [unsigned long]. *)
Fixpoint shm_fill (n : nat) (i length step shmaddr : Z) : prog unit :=
  match n with
  | O => Ret tt
  | S n =>
      if u64 i <? length then
        store (u64 (shmaddr + i)) (u8 i) ;;
        shm_fill n (i32 (u64 (u64 i + step))) length step shmaddr
      else Ret tt
  end.
Definition fill_rounds (length step : Z) : nat := Z.to_nat (length / step + 1).

(** The static variables [shmid] and [shmaddr]. *)
Record shm_mem := ShmMem { lp_shmid : Z; lp_shmaddr : Z }.

Definition shm_run (pagesize length pgsize_log step : Z) : prog (result * shm_mem) :=
  shmid <- shmget IPC_PRIVATE length
             (i32 (Z.lor (Z.lor (Z.lor (Z.lor pgsize_log SHM_HUGETLB) IPC_CREAT) SHM_R) SHM_W)) ;;
  tp_assert! (0 <=? shmid, (Some "shmget error.", ShmMem shmid NULL)) ;;
  printf "shmid: 0x%x\n" [PZ shmid] ;;
  shmaddr <- shmat shmid ADDR SHMAT_FLAGS ;;
  let m := ShmMem shmid shmaddr in
  tp_assert! (negb (shmaddr =? MAP_FAILED), (Some "shmgat error.", m)) ;;
  printf "shmaddr: %p\n" [PZ shmaddr] ;;
  shm_fill (fill_rounds length step) 0 length step shmaddr ;;
  large_page_flag <- check_page_size shmaddr pagesize ;;
  tp_assert! (negb (large_page_flag =? 0), (Some "invalid page size?", m)) ;;
  Ret (None, m).

Definition shm_teardown (tc_num : Z) (m : shm_mem) : prog unit :=
  (if negb (lp_shmaddr m =? NULL) then shmdt (lp_shmaddr m) ;; Ret tt else Ret tt) ;;
  (if 0 <=? lp_shmid m then shmctl_rmid (lp_shmid m) ;; Ret tt else Ret tt).

Definition shm_case (n : Z) (run : prog (result * shm_mem)) : test_case :=
  TestCase "mem_large_page" n shm_mem (fun _ _ => Ret (ShmMem (-1) NULL)) (fun _ _ => run) shm_teardown.

(** [hugepagesize0] is the variable before it is set. *)
Definition mem_large_page5 (hugepagesize0 : Z) :=
  shm_case 5 (read_hugepagesize hugepagesize0 (ShmMem (-1) NULL) (fun hugepagesize =>
              shm_run hugepagesize (u64 (hugepagesize * 2)) 0 PAGE_SIZE)).
Definition mem_large_page6 :=
  shm_case 6 (shm_run LARGE_PAGE_SIZE (u64 (LARGE_PAGE_SIZE * 2)) (Z.shiftl LARGE_PAGE_SHIFT MAP_HUGE_SHIFT) PAGE_SIZE).
Definition mem_large_page7 :=
  shm_case 7 (skip_64K (ShmMem (-1) NULL)
    (shm_run LARGEST_PAGE_SIZE (u64 (LARGEST_PAGE_SIZE * 2)) (Z.shiftl LARGEST_PAGE_SHIFT MAP_HUGE_SHIFT) LARGE_PAGE_SIZE)).
End Suite.
