(* ===== verification/MemLargeThms.v ===== *)
(** * The memory accesses of [mem_large_page]

    Which memory a program has been given, and that the tests touch nothing
    else: [safe] is a property of the program text, [safe_log] of the log of a
    run. *)
From S2P Require Import Prelude Process Trace Arch CLib TestMck AddrSpace MemInfo FileMap MemLarge.
From Stdlib Require Import Ascii String.
#[local] Open Scope string_scope.
#[local] Open Scope Z_scope.

(** ** Memory given to a program *)

(** Address ranges, and the shared memory segments with their sizes. *)
Record grants := Grants { g_ranges : list (Z * Z); g_segs : list (Z * Z) }.
Definition no_grants : grants := Grants [] [].

Definition covers (g : grants) (a : Z) : Prop := exists lo len, In (lo, len) (g_ranges g) /\ lo <= a < lo + len.

Definition add_range (lo len : Z) (g : grants) : grants := Grants ((lo, len) :: g_ranges g) (g_segs g).
Definition add_seg (id size : Z) (g : grants) : grants := Grants (g_ranges g) ((id, size) :: g_segs g).
Definition seg_size (id : Z) (g : grants) : Z :=
  match List.find (fun x => fst x =? id) (g_segs g) with Some (_, size) => size | None => 0 end.

(** What a call gives; a call that takes memory back ends everything given so
    far. *)
Definition g_step (c : op) : ans c -> grants -> grants :=
  match c as c return ans c -> grants -> grants with
  | Mmap _ len _ _ _ _ => fun r g => if is_err r then g else add_range r len g
  | Shmget _ size _ => fun r g => if is_err r then g else add_seg r size g
  | Shmat id _ _ => fun r g => if is_err r then g else add_range r (seg_size id g) g
  | Memc c =>
      match c as c return memans c -> grants -> grants with
      | Sbrk incr => fun r g => if is_err r then g else add_range r incr g
      | Brk _ => fun _ _ => no_grants
      | _ => fun _ g => g
      end
  | Munmap _ _ => fun _ _ => no_grants
  | Shmdt _ => fun _ _ => no_grants
  | _ => fun _ g => g
  end.

Definition access_ok (g : grants) (c : op) : Prop :=
  match c with
  | Load a => covers g a
  | Store a _ => covers g a
  | _ => True
  end.

Section Safety.
Context `{ArchConfig}.

(** Answers as documented: user memory lies in the lower half of the address
    space; the size of huge pages is a power of two of at least one page. *)
Definition sane (g : grants) (c : op) : ans c -> Prop :=
  match c as c return ans c -> Prop with
  | Mmap _ len _ _ _ _ => fun r => is_err r = false -> 0 <= r /\ r + len < 2 ^ 63
  | Shmat id _ _ => fun r => is_err r = false -> 0 <= r /\ r + seg_size id g < 2 ^ 63
  | Memc c =>
      match c as c return memans c -> Prop with
      | Sbrk incr => fun r => is_err r = false -> 0 <= r /\ r + incr < 2 ^ 63
      | _ => fun _ => True
      end
  | Filec c =>
      match c as c return fileans c -> Prop with
      | FscanfLong _ _ => fun r =>
          forall v, snd r = Some v -> exists k, PAGE_SHIFT <= k < 62 /\ v * 1024 = 2 ^ k
      | _ => fun _ => True
      end
  | _ => fun _ => True
  end.

Fixpoint safe {A} (g : grants) (p : prog A) : Prop :=
  match p with
  | Loc f k => forall x, safe g (k x)
  | Call c k => access_ok g c /\ forall r, sane g c r -> safe (g_step c r g) (k r)
  | _ => True
  end.

Fixpoint sane_log (g : grants) (l : list event) : Prop :=
  match l with
  | [] => True
  | Ev c r :: l => sane g c r /\ sane_log (g_step c r g) l
  end.
Fixpoint safe_log (g : grants) (l : list event) : Prop :=
  match l with
  | [] => True
  | Ev c r :: l => access_ok g c /\ safe_log (g_step c r g) l
  end.

Lemma safe_calls K {A} (p : prog A) : forall g (w : world K),
  safe g p -> sane_log g (calls K p w) -> safe_log g (calls K p w).
Proof.
  induction p as [a|n|n|f q IH|c q IH]; intros g [pr s] Hp Hl; try exact I.
  - apply (IH (f pr) g (World (f pr) s)); [apply Hp|exact Hl].
  - destruct (kstep K c s) as [s' r] eqn:E. rewrite (calls_call K c q pr s s' r E) in *.
    destruct Hl as [Hs Hl], Hp as [Ha Hk]. split; [exact Ha|]. now apply IH; [apply Hk|].
Qed.

(** Calls that neither access nor give memory. *)
Definition neutral (c : op) : Prop :=
  match c with
  | Load _ | Store _ _ | Mmap _ _ _ _ _ _ | Munmap _ _ | Shmget _ _ _ | Shmat _ _ _ | Shmdt _ => False
  | Memc (Sbrk _) | Memc (Brk _) => False
  | _ => True
  end.

Lemma neutral_step c g r : neutral c -> access_ok g c /\ g_step c r g = g.
Proof. destruct c; try destruct c; cbn; intuition. Qed.

Lemma safe_bind_neutral {A B} g (p : prog A) (k : A -> prog B) :
  footprint neutral p -> (forall a, safe g (k a)) -> safe g (bind p k).
Proof.
  intros Hp Hk. induction p as [a|n|n|f q IH|c q IH]; cbn in *; auto.
  - intros x. apply IH, Hp.
  - destruct Hp as [Hc Hq]. split; [now apply (neutral_step c g (enosys c))|].
    intros r _. rewrite (proj2 (neutral_step c g r Hc)). auto.
Qed.

Lemma safe_syscall_ret {A} g fail r (k : Z -> prog A) :
  (forall x, safe g (k x)) -> safe g (bind (syscall_ret fail r) k).
Proof. intros Hk. unfold syscall_ret. destruct (is_err r); cbn; auto. Qed.

Lemma check_page_size_neutral va ps : footprint neutral (check_page_size va ps).
Proof.
  unfold check_page_size, get_memory_info_self, __get_memory_info, open, lseek, read, close.
  footprint_tac; now split.
Qed.

Lemma safe_assoc {A B C} g (p : prog A) (f : A -> prog B) (k : B -> prog C) :
  safe g (bind p (fun a => bind (f a) k)) -> safe g (bind (bind p f) k).
Proof.
  revert g. induction p as [a|n|n|h q IH|c q IH]; intros g; cbn; auto.
  intros [Ha Hr]. split; [exact Ha|]. intros r Hs. apply IH. auto.
Qed.

(** ** The accesses of the loops *)

Lemma covers_new lo len g a : lo <= a < lo + len -> covers (add_range lo len g) a.
Proof. intros Ha. exists lo, len. split; [now left|exact Ha]. Qed.

(** The access of the page loop: a store or a load of the byte at its argument. *)
Definition touches (touch : Z -> prog unit) : Prop :=
  forall A g a (k : unit -> prog A), covers g a -> safe g (k tt) -> safe g (bind (touch a) k).

Lemma store_Z_touches : touches store_Z.
Proof. intros A g a k Hc Hk. split; [exact Hc|]. intros [[]|] _; [exact Hk|exact I]. Qed.
Lemma load_ch_touches : touches load_ch.
Proof. intros A g a k Hc Hk. split; [exact Hc|]. intros [x|] _; [exact Hk|exact I]. Qed.

Lemma safe_touch_pages {A} touch n g end_ ps (k : Z -> prog A) : touches touch -> end_ + PAGE_SIZE <= 2 ^ 64 ->
  (forall v, safe g (k v)) ->
  forall start flag, 0 <= start -> (forall a, start <= a < end_ -> covers g a) ->
  safe g (bind (touch_pages touch n start end_ ps flag) k).
Proof.
  intros Ht He Hk. induction n as [|n IH]; intros start flag Hs Hc; [apply Hk|]. cbn [touch_pages].
  destruct (Z.ltb_spec start end_) as [Hlt|]; [|apply Hk]. pose proof PAGE_SIZE_pos.
  apply safe_assoc, Ht; [apply Hc; lia|]. apply safe_assoc, safe_bind_neutral; [apply check_page_size_neutral|].
  intros v. destruct (v =? 0); [apply Hk|]. apply IH; rewrite u64_small by lia; [lia|]. intros a Ha. apply Hc. lia.
Qed.

Lemma i32_neg_u64 i : - 2 ^ 31 <= i < 0 -> u64 i = 2 ^ 64 + i.
Proof. intros Hi. unfold u64. symmetry. apply Z.mod_unique_pos with (-1); lia. Qed.

Lemma i32_range z : - 2 ^ 31 <= i32 z < 2 ^ 31.
Proof. unfold i32. pose proof (Z.mod_pos_bound (z + 2 ^ 31) (2 ^ 32)). lia. Qed.

Lemma safe_shm_fill {A} n g length step shmaddr (k : unit -> prog A) : 0 <= shmaddr -> shmaddr + length < 2 ^ 63 ->
  (forall a, shmaddr <= a < shmaddr + length -> covers g a) -> safe g (k tt) ->
  forall i, - 2 ^ 31 <= i < 2 ^ 31 -> safe g (bind (shm_fill n i length step shmaddr) k).
Proof.
  intros H0 Hb Hc Hk. induction n as [|n IH]; intros i Hi; [exact Hk|]. cbn [shm_fill].
  destruct (Z.ltb_spec (u64 i) length) as [Hlt|]; [|exact Hk].
  destruct (Z.lt_ge_cases i 0); [rewrite i32_neg_u64 in Hlt; lia|]. rewrite u64_small in Hlt by lia.
  split; [cbn; rewrite u64_small by lia; apply Hc; lia|]. intros [[]|] _; [|exact I].
  cbn [g_step or_raise bind]. apply IH, i32_range.
Qed.

(** The bound on the rounds of the filling loop is enough: more of them change
    nothing, whether the loop ends at [length] or because the [int] counter has
    wrapped to a negative number. *)
Lemma shm_fill_stops n i length step a : ~ (0 <= i < length) -> - 2 ^ 31 <= i < 2 ^ 31 -> length < 2 ^ 63 ->
  shm_fill n i length step a = Ret tt.
Proof.
  intros Hi Hr Hl. destruct n as [|n]; [reflexivity|]. cbn [shm_fill].
  destruct (Z.ltb_spec (u64 i) length) as [Hlt|]; [|reflexivity].
  destruct (Z.lt_ge_cases i 0); [rewrite i32_neg_u64 in Hlt; lia|]. rewrite u64_small in Hlt; lia.
Qed.

Lemma shm_fill_more K n m length step a : 0 < step <= 2 ^ 31 -> length < 2 ^ 63 ->
  forall i (w : world K), 0 <= i < 2 ^ 31 -> length <= i + Z.of_nat n * step ->
  run K (shm_fill (n + m) i length step a) w = run K (shm_fill n i length step a) w.
Proof.
  intros Hs Hl. induction n as [|n IH]; intros i w Hi Hn.
  - rewrite !shm_fill_stops by lia. reflexivity.
  - cbn [Nat.add shm_fill]. destruct (u64 i <? length); [|reflexivity].
    rewrite !run_bind. destruct (run K (store (u64 (a + i)) (u8 i)) w) as [[[]|?|?] w']; try reflexivity.
    rewrite (u64_small i), (u64_small (i + step)) by lia. destruct (Z.lt_ge_cases (i + step) (2 ^ 31)).
    + rewrite i32_small by lia. apply IH; lia.
    + assert (E : i32 (i + step) = i + step - 2 ^ 32).
      { unfold i32. replace ((i + step + 2 ^ 31) mod 2 ^ 32) with (i + step - 2 ^ 31); [lia|].
        apply Z.mod_unique_pos with 1; lia. }
      rewrite E, !shm_fill_stops by lia. reflexivity.
Qed.

Lemma shm_fill_enough K m length step a (w : world K) : 0 < step <= 2 ^ 31 -> 0 <= length < 2 ^ 63 ->
  run K (shm_fill (fill_rounds length step + m) 0 length step a) w = run K (shm_fill (fill_rounds length step) 0 length step a) w.
Proof.
  intros Hs Hl. apply shm_fill_more; [lia|lia|lia|]. unfold fill_rounds.
  pose proof (Z.div_mod length step). pose proof (Z.mod_pos_bound length step). pose proof (Z.div_pos length step).
  rewrite Z2Nat.id by lia. lia.
Qed.

(** ** The run functions *)

(** A continuation that does nothing unsafe, whatever it has been given. *)
Definition harmless {A B} (k : A -> prog B) : Prop := forall g x, safe g (k x).

Lemma aligned_inside a k : 0 <= k < 62 -> 0 <= a -> a + 2 * 2 ^ k < 2 ^ 63 ->
  let start := align_up a (2 ^ k) in
  a <= start /\ u64 (start + 2 * 2 ^ k / 2) = start + 2 ^ k /\ start + 2 ^ k <= a + 2 * 2 ^ k.
Proof.
  intros Hk Ha Hb. assert (0 < 2 ^ k) by (apply Z.pow_pos_nonneg; lia). cbn zeta.
  rewrite align_up_spec by lia. pose proof (Z.mod_pos_bound (- a) (2 ^ k)).
  replace (2 * 2 ^ k / 2) with (2 ^ k) by (rewrite Z.mul_comm, Z.div_mul; lia).
  rewrite u64_small by lia. lia.
Qed.

Lemma page_le k : PAGE_SHIFT <= k -> PAGE_SIZE <= 2 ^ k.
Proof. intros Hk. rewrite PAGE_SIZE_pow. apply Z.pow_le_mono_r; lia. Qed.

(** The page loop over the aligned half of a mapping of twice the size. *)
Lemma safe_half {A} touch g a k fl ps (q : Z -> prog A) : touches touch -> PAGE_SHIFT <= k < 62 -> 0 <= a ->
  a + 2 * 2 ^ k < 2 ^ 63 -> (forall v, safe (add_range a (2 * 2 ^ k) g) (q v)) ->
  let start := align_up a (2 ^ k) in let end_ := u64 (start + 2 * 2 ^ k / 2) in
  safe (add_range a (2 * 2 ^ k) g) (bind (touch_pages touch (page_rounds start end_) start end_ ps fl) q).
Proof.
  intros Ht Hk Ha Hb Hq. pose proof (page_le k ltac:(lia)). assert (0 <= k) by (destruct PAGE_SHIFT_cases; lia).
  destruct (aligned_inside a k) as (Hlo & Eend & Hhi); try lia. cbn zeta. rewrite Eend.
  apply safe_touch_pages; auto; [lia|lia|]. intros x Hx. apply covers_new. lia.
Qed.

Lemma safe_anon_run {A} g k flag (q : result * map_mem -> prog A) : PAGE_SHIFT <= k < 62 -> harmless q ->
  safe g (bind (anon_run (2 ^ k) (2 * 2 ^ k) flag) q).
Proof.
  intros Hk Hq. unfold anon_run, mmap. cbn [bind trigger]. split; [exact I|]. intros r Hs. cbn [g_step] in *.
  apply safe_assoc. unfold syscall_ret. destruct (is_err r) eqn:E; [intros _; apply Hq|].
  destruct (Hs E) as [Hr Hb]. cbn [bind]. unfold tp_assert at 1. destruct (negb _); [|apply Hq]. cbn [bind printf]. intros _.
  unfold tp_assert at 1. destruct (_ <? _); [|apply Hq]. apply safe_assoc.
  apply safe_half; auto using store_Z_touches. intros v. unfold tp_assert. destruct (negb _); apply Hq.
Qed.

Lemma safe_brk_run {A} g inc ps msg (q : result * Z -> prog A) : 0 < inc < 2 ^ 62 -> PAGE_SIZE <= inc -> harmless q ->
  safe g (bind (brk_run inc ps msg) q).
Proof.
  intros Hi Hp Hq. unfold brk_run, sbrk. cbn [bind trigger]. split; [exact I|]. intros r0 _. cbn [g_step].
  apply safe_assoc, safe_syscall_ret. intros before. cbn [bind printf]. intros _.
  unfold tp_assert at 1. destruct (negb _); [|apply Hq]. cbn [bind trigger]. split; [exact I|]. intros r1 _. cbn [g_step].
  apply safe_assoc, safe_syscall_ret. intros _. cbn [bind trigger]. split; [exact I|]. intros r2 Hs. cbn [g_step].
  apply safe_assoc. unfold syscall_ret. destruct (is_err r2) eqn:E.
  - cbn [bind set_errno printf]. intros _ _. unfold tp_assert at 1. destruct (_ =? _) eqn:Ea; [|apply Hq].
    unfold tp_assert at 1. replace (MAP_FAILED <? _) with false; [apply Hq|].
    symmetry. apply Z.ltb_ge. unfold MAP_FAILED, u64. pose proof (Z.mod_pos_bound (2 ^ 64 - 1 + inc) (2 ^ 64)). lia.
  - destruct (Hs E) as [Hr Hb]. cbn [bind printf]. intros _. unfold tp_assert at 1. destruct (_ =? _); [|apply Hq].
    unfold tp_assert at 1. destruct (_ <? _); [|apply Hq]. apply safe_assoc.
    rewrite u64_small by lia. apply safe_touch_pages; auto using store_Z_touches; [lia| |].
    + intros v. unfold tp_assert. destruct (negb _); apply Hq.
    + intros a Ha. apply covers_new. lia.
Qed.

Lemma safe_shm_run {A} g ps length lg step (q : result * shm_mem -> prog A) : 0 <= length -> harmless q ->
  safe g (bind (shm_run ps length lg step) q).
Proof.
  intros Hl Hq. unfold shm_run, shmget, shmat. cbn [bind trigger]. split; [exact I|]. intros r _. cbn [g_step].
  apply safe_assoc. unfold syscall_ret at 1. destruct (is_err r) eqn:E; [intros _; apply Hq|]. cbn [bind].
  unfold tp_assert at 1. destruct (0 <=? r); [|apply Hq]. cbn [bind printf trigger]. intros _. split; [exact I|].
  intros a Hs. cbn [g_step sane] in *. assert (Es : seg_size r (add_seg r length g) = length)
    by (unfold seg_size; cbn; now rewrite Z.eqb_refl). rewrite Es in *.
  apply safe_assoc. unfold syscall_ret. destruct (is_err a) eqn:Ea; [intros _; apply Hq|]. destruct (Hs eq_refl) as [Ha Hb].
  cbn [bind]. unfold tp_assert at 1. destruct (negb _); [|apply Hq]. cbn [bind printf]. intros _.
  apply safe_assoc, safe_shm_fill; try lia.
  - intros x Hx. apply covers_new. lia.
  - apply safe_assoc, safe_bind_neutral; [apply check_page_size_neutral|]. intros v.
    unfold tp_assert. destruct (negb _); apply Hq.
Qed.

Lemma temp_file_neutral prefix size : footprint neutral (test_mck_create_temp_file prefix size).
Proof.
  unfold test_mck_create_temp_file, malloc, free, mkstemp, lseek, close, unlink, write, fsync.
  footprint_tac; now split.
Qed.

Lemma LARGE_PAGE_SIZE_pow : exists k, PAGE_SHIFT <= k < 62 /\ LARGE_PAGE_SIZE = 2 ^ k /\ u64 (2 * LARGE_PAGE_SIZE) = 2 * 2 ^ k
  /\ u64 (LARGE_PAGE_SIZE * 2) = 2 * 2 ^ k.
Proof.
  exists LARGE_PAGE_SHIFT. unfold LARGE_PAGE_SIZE, LARGE_PAGE_SHIFT, PAGE_SHIFT.
  destruct CONFIG_ARM64_64K_PAGES; cbn; repeat split; lia.
Qed.
Lemma LARGEST_PAGE_SIZE_pow : exists k, PAGE_SHIFT <= k < 62 /\ LARGEST_PAGE_SIZE = 2 ^ k /\ u64 (2 * LARGEST_PAGE_SIZE) = 2 * 2 ^ k.
Proof.
  exists LARGEST_PAGE_SHIFT. unfold LARGEST_PAGE_SIZE, LARGEST_PAGE_SHIFT, LARGE_PAGE_SHIFT, PAGE_SHIFT.
  destruct CONFIG_ARM64_64K_PAGES; cbn; repeat split; lia.
Qed.

Lemma safe_file_run {A} g (q : result * file_mem -> prog A) : harmless q -> safe g (bind file_run q).
Proof.
  intros Hq. destruct LARGE_PAGE_SIZE_pow as (k & Hk & El & E2 & _). unfold file_run. cbn zeta. rewrite E2, El.
  apply safe_assoc, safe_bind_neutral; [apply temp_file_neutral|]. intros [[ptr name]|]; [|apply Hq].
  unfold open. cbn [bind trigger]. split; [exact I|]. intros r _. cbn [g_step].
  apply safe_assoc, safe_syscall_ret. intros fd. unfold tp_assert at 1. destruct (negb _); [|apply Hq].
  unfold mmap. cbn [bind trigger]. split; [exact I|]. intros a Hs. cbn [g_step]. apply safe_assoc. unfold syscall_ret.
  destruct (is_err a) eqn:E; [intros _; apply Hq|]. destruct (Hs E) as [Ha Hb]. cbn [bind].
  unfold tp_assert at 1. destruct (negb _); [|apply Hq]. cbn [bind printf]. intros _.
  unfold tp_assert at 1. destruct (_ <? _); [|apply Hq]. apply safe_assoc.
  apply safe_half; auto using load_ch_touches. intros v. unfold tp_assert. destruct (_ =? 0); apply Hq.
Qed.

Lemma safe_read_hugepagesize {A M} g h0 (m : M) (run : Z -> prog (result * M)) (q : result * M -> prog A) : harmless q ->
  (forall h, h = u64 (h0 * 1024) \/ (exists k, PAGE_SHIFT <= k < 62 /\ h = 2 ^ k) -> safe g (bind (run h) q)) ->
  safe g (bind (read_hugepagesize h0 m run) q).
Proof.
  intros Hq Hr. unfold read_hugepagesize, popen. cbn [bind trigger]. split; [exact I|]. intros fp _. cbn [g_step].
  apply safe_assoc, safe_syscall_ret. intros f. unfold tp_assert. destruct (negb _); [|apply Hq].
  unfold fscanf_long. cbn [bind trigger]. split; [exact I|]. intros [n v] Hs. cbn [g_step sane snd] in *.
  apply safe_assoc, safe_bind_neutral; [unfold fclose; footprint_tac; now split|]. intros _. apply Hr.
  destruct v as [v|]; [right|now left]. destruct (Hs v eq_refl) as (k & Hk & Ev). exists k. split; [exact Hk|].
  cbn. rewrite Ev. apply u64_small. split; [apply Z.pow_nonneg; lia|apply Z.pow_lt_mono_r; lia].
Qed.

(** An anonymous mapping of length 0 is not accessed. *)
Lemma safe_anon_run_0 {A} g flag (q : result * map_mem -> prog A) : harmless q -> safe g (bind (anon_run 0 0 flag) q).
Proof.
  intros Hq. unfold anon_run, mmap. cbn [bind trigger]. split; [exact I|]. intros r _. cbn [g_step].
  apply safe_assoc, safe_syscall_ret. intros a. unfold tp_assert at 1. destruct (negb _); [|apply Hq].
  cbn [bind printf]. intros _. change (0 / 2) with 0. unfold align_up at 2 3, align_down.
  change (u64 (Z.lnot (u64 (0 - 1)))) with 0. rewrite Z.land_0_r. cbn. unfold align_up, align_down.
  change (u64 (Z.lnot (u64 (0 - 1)))) with 0. rewrite Z.land_0_r. apply Hq.
Qed.

(** ** The suite *)

(** Setup, run and teardown: the teardowns access no memory. *)
Lemma safe_case {M} suite n (m0 : M) run td argv :
  (forall A g (q : result * M -> prog A), harmless q -> safe g (bind run q)) ->
  (forall A g m (k : unit -> prog A), harmless k -> safe g (bind (td n m) k)) ->
  safe no_grants (run_test_case (TestCase suite n M (fun _ _ => Ret m0) (fun _ _ => run) td) argv).
Proof.
  intros Hr Ht. unfold run_test_case. cbn [setup TestMck.num tc_run teardown bind]. apply Hr.
  intros g [msg m]. apply Ht. intros g' []. exact I.
Qed.

Lemma safe_munmap {A} g a len (k : Z -> prog A) : harmless k -> safe g (bind (munmap a len) k).
Proof. intros Hk. split; [exact I|]. intros r _. apply safe_syscall_ret. intros x. apply Hk. Qed.

Lemma anon_teardown_safe {A} g n m (k : unit -> prog A) : harmless k -> safe g (bind (anon_teardown n m) k).
Proof.
  intros Hk. unfold anon_teardown. destruct (negb _); [|apply Hk]. apply safe_assoc, safe_munmap. intros g' x. apply Hk.
Qed.
Lemma brk_teardown_safe {A} g n m (k : unit -> prog A) : harmless k -> safe g (bind (brk_teardown n m) k).
Proof.
  intros Hk. unfold brk_teardown. destruct (negb _); [|apply Hk]. split; [exact I|]. intros r _.
  apply safe_assoc, safe_syscall_ret. intros x. apply Hk.
Qed.
Lemma file_teardown_safe {A} g n m (k : unit -> prog A) : harmless k -> safe g (bind (file_teardown n m) k).
Proof.
  intros Hk. unfold file_teardown. apply safe_assoc.
  assert (T : forall g, safe g (bind (
      (if negb (lf_fd m =? -1) then close (lf_fd m) ;; Ret tt else Ret tt) ;;
      match lf_path m with Some _ => test_mck_delete_temp_file (lf_path m) | None => Ret tt end) k)).
  { intros g'. apply safe_bind_neutral; [|intros []; apply Hk].
    unfold close, test_mck_delete_temp_file, unlink, free. footprint_tac; now split. }
  destruct (negb (lf_addr m =? MAP_FAILED)); [|apply (T g)].
  apply safe_assoc, safe_munmap. intros g' x. apply (T g').
Qed.
Lemma shm_teardown_safe {A} g n m (k : unit -> prog A) : harmless k -> safe g (bind (shm_teardown n m) k).
Proof.
  intros Hk. unfold shm_teardown. apply safe_assoc.
  assert (T : forall g, safe g (bind (if 0 <=? lp_shmid m then shmctl_rmid (lp_shmid m) ;; Ret tt else Ret tt) k)).
  { intros g'. apply safe_bind_neutral; [|intros []; apply Hk]. unfold shmctl_rmid. footprint_tac; now split. }
  destruct (negb (lp_shmaddr m =? NULL)); [|apply (T g)]. split; [exact I|]. intros r _.
  apply safe_assoc, safe_syscall_ret. intros x. apply T.
Qed.

Definition mem_large_page_cases (hugepagesize0 : Z) : list test_case :=
  [mem_large_page0; mem_large_page1; mem_large_page2; mem_large_page3; mem_large_page4; mem_large_page5 hugepagesize0;
   mem_large_page6; mem_large_page7; mem_large_page8; mem_large_page9; mem_large_page10].

Lemma mem_large_page_safe h0 argv : Forall (fun tc => safe no_grants (run_test_case tc argv)) (mem_large_page_cases h0).
Proof.
  destruct LARGE_PAGE_SIZE_pow as (k & Hk & El & E2 & E2'). destruct LARGEST_PAGE_SIZE_pow as (k3 & Hk3 & El3 & E3).
  pose proof (page_le k ltac:(lia)). pose proof (page_le k3 ltac:(lia)).
  assert (2 ^ k < 2 ^ 62) by (apply Z.pow_lt_mono_r; lia). assert (2 ^ k3 < 2 ^ 62) by (apply Z.pow_lt_mono_r; lia).
  pose proof PAGE_SIZE_pos.
  unfold mem_large_page_cases. repeat apply List.Forall_cons; try apply List.Forall_nil;
    (apply safe_case; [|intros; auto using anon_teardown_safe, brk_teardown_safe, file_teardown_safe, shm_teardown_safe]);
    intros A g q Hq; unfold skip_64K; rewrite ?E2, ?E2', ?E3, ?El, ?El3;
    try (destruct (ENABLE_LARGEST_PAGE =? 0); [apply Hq|]).
  - now apply safe_anon_run.
  - now apply safe_anon_run.
  - apply safe_brk_run; auto; lia.
  - apply safe_brk_run; auto; lia.
  - now apply safe_file_run.
  - apply safe_read_hugepagesize; auto. intros h _. apply safe_shm_run; auto. unfold u64. apply Z.mod_pos_bound. lia.
  - apply safe_shm_run; auto. lia.
  - apply safe_shm_run; auto. unfold u64. apply Z.mod_pos_bound. lia.
  - apply safe_read_hugepagesize; auto. intros h [->|(j & Hj & ->)]; [now apply (safe_anon_run_0 g (Z.lor flag_anon MAP_HUGETLB))|].
    assert (0 < 2 ^ j < 2 ^ 62) by (split; [apply Z.pow_pos_nonneg|apply Z.pow_lt_mono_r]; destruct PAGE_SHIFT_cases; lia).
    rewrite u64_small, Z.mul_comm by lia. now apply safe_anon_run.
  - now apply safe_anon_run.
  - now apply safe_anon_run.
Qed.
End Safety.

(** C38.  Memory safety of [mem_large_page]: on any system whose answers are sane
    (what it maps lies in the lower half of the address space, the size of huge
    pages is a power of two), every load and store of the eleven tests, teardown
    included, lies in memory that an earlier call of the same run has given and
    no call has taken back; the wrap-around of the [int] counter of test 7 and a
    failed conversion of the huge page size included. *)
Theorem mem_large_page_accesses `{ArchConfig} hugepagesize0 K argv (w : world K) :
  Forall (fun tc => sane_log no_grants (calls K (run_test_case tc argv) w) ->
                    safe_log no_grants (calls K (run_test_case tc argv) w))
    (mem_large_page_cases hugepagesize0).
Proof.
  eapply List.Forall_impl; [|apply (mem_large_page_safe hugepagesize0 argv)]. intros tc Hs Hl. exact (safe_calls K _ _ w Hs Hl).
Qed.

(** A kernel that maps at 1 GiB and has no page map: test 0 stores once. *)
Definition map_answer (c : op) : ans c :=
  match c with
  | Mmap _ _ _ _ _ _ => 2 ^ 30
  | Store _ _ => inl tt
  | Munmap _ _ => 0
  | c => enosys c
  end.
Definition map_kernel : kernel := Kernel unit (fun c s => (s, map_answer c)).

Lemma mem_large_page_accesses_witness :
  let l := calls map_kernel (run_test_case (@mem_large_page0 config_4K) ["app"]) (World proc0 (tt : kstate map_kernel)) in
  List.length l = 4%nat /\ @sane_log config_4K no_grants l /\ safe_log no_grants l.
Proof.
  pose proof (@mem_large_page_accesses config_4K 0 map_kernel ["app"] (World proc0 (tt : kstate map_kernel))) as F.
  apply List.Forall_inv in F.
  assert (E : calls map_kernel (run_test_case (@mem_large_page0 config_4K) ["app"]) (World proc0 (tt : kstate map_kernel)) =
    [Ev (Mmap 0 4194304 3 34 (-1) 0) (2 ^ 30); Ev (Store (2 ^ 30) 90) (inl tt);
     Ev (Open "/proc/self/pagemap" 0) (- ENOSYS); Ev (Munmap (2 ^ 30) 4194304) 0]) by (vm_compute; reflexivity).
  cbn zeta. rewrite E in *.
  assert (S : @sane_log config_4K no_grants
    [Ev (Mmap 0 4194304 3 34 (-1) 0) (2 ^ 30); Ev (Store (2 ^ 30) 90) (inl tt);
     Ev (Open "/proc/self/pagemap" 0) (- ENOSYS); Ev (Munmap (2 ^ 30) 4194304) 0]).
  { split; [intros _; split; [discriminate|reflexivity]|]. repeat split. }
  split; [reflexivity|]. split; [exact S|]. exact (F S).
Defined.
