(* ===== verification/MemLargeSpec.v ===== *)
(** * [mem_large_page] on a documented kernel

    [PagemapKernel] states [/proc/self/pagemap], anonymous mappings and stores to
    them as documented; the theorem gives the exact verdict of the tests that
    map anonymous memory. *)
From S2P Require Import Prelude Process Trace Arch CLib TestMck AddrSpace MemInfo FileMap MemLarge MemLargeThms.
From Stdlib Require Import Ascii String.
#[local] Open Scope string_scope.
#[local] Open Scope Z_scope.

(** ** Page map entries as bytes *)

Fixpoint le_bytes (n : nat) (z : Z) : list Z :=
  match n with
  | O => []
  | S n => z mod 256 :: le_bytes n (z / 256)
  end.

Lemma le_value_bytes n : forall z, 0 <= z < 256 ^ Z.of_nat n -> le_value (le_bytes n z) = z.
Proof.
  induction n as [|n IH]; intros z Hz; [cbn in *; lia|]. cbn [le_bytes le_value].
  rewrite Nat2Z.inj_succ, Z.pow_succ_r in Hz by lia. unfold u8. change (2 ^ 8) with 256. rewrite Z.mod_mod by lia.
  rewrite IH; [pose proof (Z.div_mod z 256); lia|]. split; [apply Z.div_pos; lia|apply Z.div_lt_upper_bound; lia].
Qed.

Lemma le_bytes_length n z : List.length (le_bytes n z) = n.
Proof. revert z. induction n as [|n IH]; intros z; cbn; auto. Qed.

(** ** The interface *)

Class PagemapKernel `{ArchConfig} (K : kernel) := {
  (** The size (as a shift) of the page that backs a page once it was written, the
      pages that may be written, and the page map file with its position. *)
  psh : kstate K -> Z -> Z;
  owned : kstate K -> Z -> bool;
  pm_open : kstate K -> option (Z * Z);
  psh_range s q : 0 <= psh s q < 64;
  pm_same (s s' : kstate K) := (forall q, psh s' q = psh s q) /\ (forall q, owned s' q = owned s q);
  pmk_open s : pm_open s = None ->
    exists s' fd, kstep K (Open "/proc/self/pagemap" O_RDONLY) s = (s', fd) /\ 0 <= fd < 2 ^ 31 /\
      pm_open s' = Some (fd, 0) /\ pm_same s s';
  pmk_lseek s fd pos off : pm_open s = Some (fd, pos) -> 0 <= off < 2 ^ 63 ->
    exists s', kstep K (Lseek fd off SEEK_SET) s = (s', off) /\ pm_open s' = Some (fd, off) /\ pm_same s s';
  pmk_read s fd q : pm_open s = Some (fd, 8 * q) -> 0 <= q < 2 ^ 52 ->
    exists s' status pframe, 0 <= status < 8 /\ 0 <= pframe < 2 ^ 55 /\
      kstep K (Read fd 8) s = (s', (8, le_bytes 8 (pagemap_entry status (psh s q) pframe))) /\
      pm_open s' = Some (fd, 8 * q + 8) /\ pm_same s s';
  pmk_close s fd pos : pm_open s = Some (fd, pos) ->
    exists s', kstep K (Close fd) s = (s', 0) /\ pm_open s' = None /\ pm_same s s';
  pmk_store s a b : owned s (a / PAGE_SIZE) = true ->
    exists s', kstep K (Store a b) s = (s', inl tt) /\ pm_open s' = pm_open s /\ pm_same s s';
  pmk_mmap s len prot flags : pm_open s = None -> 0 < len -> len mod PAGE_SIZE = 0 ->
    exists s' r, kstep K (Mmap 0 len prot flags (-1) 0) s = (s', r) /\ pm_open s' = None /\
      (if is_err r then True
       else 0 <= r /\ r + len < 2 ^ 63 /\ forall q, r <= q * PAGE_SIZE < r + len -> owned s' q = true);
  pmk_munmap s a len : exists s' r, kstep K (Munmap a len) s = (s', r);
}.

Section Verdict.
Context `{ArchConfig} (K : kernel) {PK : PagemapKernel K}.

Lemma pm_same_trans s s' s'' : pm_same s s' -> pm_same s' s'' -> pm_same s s''.
Proof. intros [A B] [C D]. split; intros q; congruence. Qed.

(** Asking for the size of a page. *)
Lemma run_check_page_size {A} ps q pr s (k : Z -> prog A) : pm_open s = None -> 0 <= q * PAGE_SIZE < 2 ^ 63 ->
  exists pr' s', pm_open s' = None /\ pm_same s s' /\
    run K (bind (check_page_size (q * PAGE_SIZE) ps) k) (World pr s) =
    run K (k (b2z (2 ^ psh s q =? ps))) (World pr' s').
Proof.
  intros Ho Hq. pose proof PAGE_SIZE_pos as HP. assert (Hq' : 0 <= q < 2 ^ 52)
    by (destruct PAGE_SIZE_cases as [E|E]; rewrite E in Hq; lia).
  destruct (pmk_open s Ho) as (s1 & fd & E1 & Hfd & Ho1 & S1).
  destruct (pmk_lseek s1 fd 0 (8 * q) Ho1 ltac:(lia)) as (s2 & E2 & Ho2 & S2).
  destruct (pmk_read s2 fd q Ho2 Hq') as (s3 & st & pf & Hst & Hpf & E3 & Ho3 & S3).
  destruct (pmk_close s3 fd _ Ho3) as (s4 & E4 & Ho4 & S4).
  assert (Ep : psh s2 q = psh s q) by (destruct S1 as [S1 _], S2 as [S2 _]; now rewrite S2, S1).
  assert (Eo : pagemap_offset (q * PAGE_SIZE) = 8 * q) by (rewrite pagemap_offset_correct, Z.div_mul; lia).
  assert (Ee : pgsize (decode_pagemap (le_value (firstn 8 (le_bytes 8 (pagemap_entry st (psh s2 q) pf)))) (q * PAGE_SIZE)) = 2 ^ psh s q).
  { pose proof (psh_range s2 q). rewrite firstn_all2 by (rewrite le_bytes_length; lia).
    rewrite le_value_bytes by (unfold pagemap_entry; cbn; lia). rewrite decode_pagemap_entry by lia. cbn. now rewrite Ep. }
  exists (if 2 ^ psh s q =? ps then pr else with_line ("pagesize = 0x%lx, Not as expected.\n", [PZ (2 ^ psh s q)]) pr), s4.
  split; [exact Ho4|]. split; [eauto using pm_same_trans|].
  unfold check_page_size, get_memory_info_self, __get_memory_info. cbn zeta. rewrite run_bind_assoc, run_bind_assoc.
  unfold open. rewrite (run_call_ok K (Open _ _) (fun x => x) _ _ _ _ _ _ E1) by lia.
  replace (fd =? -1) with false by (symmetry; apply Z.eqb_neq; lia). cbn beta iota.
  rewrite Eo, run_bind_assoc. unfold lseek. rewrite (run_call_ok K (Lseek _ _ _) (fun x => x) _ _ _ _ _ _ E2) by lia.
  replace (8 * q =? -1) with false by (symmetry; apply Z.eqb_neq; lia). cbn beta iota.
  unfold read. rewrite run_bind_assoc, run_bind_assoc. cbn [bind trigger run w_k w_proc]. rewrite E3.
  rewrite run_bind_assoc, run_syscall_ok by (cbn; lia). cbn [fst snd bind]. cbn [Z.eqb]. rewrite run_bind_assoc.
  unfold close. rewrite (run_call_ok K (Close _) (fun x => x) _ _ _ _ _ _ E4) by lia. cbn [bind].
  cbn [Z.eqb negb from_option id]. rewrite Ee. destruct (2 ^ psh s q =? ps); reflexivity.
Qed.

(** Every page from [q0] on, [n] of them, is backed by a page of size [ps]. *)
Definition all_sized (s : kstate K) (ps q0 n : Z) : Prop := forall q, q0 <= q < q0 + n -> 2 ^ psh s q = ps.

Lemma all_sized_same s s' ps q0 n : pm_same s s' -> (all_sized s' ps q0 n <-> all_sized s ps q0 n).
Proof. intros [S _]. unfold all_sized. split; intros Ha q Hq; [rewrite <- S|rewrite S]; auto. Qed.

(** The loop over [n] pages runs to its end unless a page has another size. *)
Lemma run_touch_pages ps n : forall q0 flag pr s, pm_open s = None -> 0 <= q0 ->
  (q0 + Z.of_nat n) * PAGE_SIZE < 2 ^ 63 -> (forall q, q0 <= q < q0 + Z.of_nat n -> owned s q = true) -> flag <> 0 ->
  exists v pr' s', run K (touch_pages store_Z n (q0 * PAGE_SIZE) ((q0 + Z.of_nat n) * PAGE_SIZE) ps flag) (World pr s)
      = (Done v, World pr' s') /\ (v <> 0 <-> all_sized s ps q0 (Z.of_nat n)).
Proof.
  pose proof PAGE_SIZE_pos as HP. induction n as [|n IH]; intros q0 flag pr s Ho Hq0 Hb How Hf.
  { exists flag, pr, s. split; [reflexivity|]. split; [intros _ q Hq; lia|auto]. }
  cbn [touch_pages]. replace (q0 * PAGE_SIZE <? (q0 + Z.of_nat (S n)) * PAGE_SIZE) with true by (symmetry; apply Z.ltb_lt; nia).
  destruct (pmk_store s (q0 * PAGE_SIZE) 90) as (s1 & E1 & Ho1 & S1); [rewrite Z.div_mul by lia; apply How; lia|].
  destruct (run_check_page_size ps q0 pr s1 (fun v => if v =? 0 then Ret v
    else touch_pages store_Z n (u64 (q0 * PAGE_SIZE + PAGE_SIZE)) ((q0 + Z.of_nat (S n)) * PAGE_SIZE) ps v))
    as (pr2 & s2 & Ho2 & S2 & E2); [congruence|nia|].
  assert (R : forall v pr' s', run K (if b2z (2 ^ psh s1 q0 =? ps) =? 0 then Ret (b2z (2 ^ psh s1 q0 =? ps))
      else touch_pages store_Z n (u64 (q0 * PAGE_SIZE + PAGE_SIZE)) ((q0 + Z.of_nat (S n)) * PAGE_SIZE) ps (b2z (2 ^ psh s1 q0 =? ps)))
      (World pr2 s2) = (Done v, World pr' s') ->
    run K (store_Z (q0 * PAGE_SIZE) ;; large_page_flag <- check_page_size (q0 * PAGE_SIZE) ps ;;
           if large_page_flag =? 0 then Ret large_page_flag
           else touch_pages store_Z n (u64 (q0 * PAGE_SIZE + PAGE_SIZE)) ((q0 + Z.of_nat (S n)) * PAGE_SIZE) ps large_page_flag)
      (World pr s) = (Done v, World pr' s')).
  { intros v pr' s' <-. rewrite <- E2. unfold store_Z, store. rewrite run_bind_assoc. cbn [bind trigger run w_k w_proc].
    now rewrite E1. }
  pose proof (pm_same_trans _ _ _ S1 S2) as S12. rewrite (proj1 S1 q0) in R.
  destruct (Z.eqb_spec (2 ^ psh s q0) ps) as [Eq|Nq]; cbn [b2z Z.eqb] in R.
  - destruct (IH (q0 + 1) 1 pr2 s2 Ho2) as (v & pr' & s' & E & Hv); [lia|lia| |lia|].
    { intros q Hq. rewrite (proj2 S12). apply How. lia. }
    exists v, pr', s'. split.
    + apply R. rewrite <- E. f_equal. f_equal; [rewrite u64_small by lia; lia|lia].
    + rewrite Hv, (all_sized_same s s2) by exact S12. split; intros Ha q Hq; [|apply Ha; lia].
      destruct (Z.eq_dec q q0) as [->|]; [exact Eq|apply Ha; lia].
  - exists 0, pr2, s2. split; [now apply R|]. split; [easy|]. intros Ha. destruct Nq. apply Ha. lia.
Qed.

Lemma pow_pages k : PAGE_SHIFT <= k -> 2 ^ k = 2 ^ (k - PAGE_SHIFT) * PAGE_SIZE /\ 0 < 2 ^ (k - PAGE_SHIFT).
Proof.
  intros Hk. rewrite PAGE_SIZE_pow. assert (0 <= PAGE_SHIFT) by (destruct PAGE_SHIFT_cases; lia).
  split; [rewrite <- Z.pow_add_r by lia; f_equal; lia|apply Z.pow_pos_nonneg; lia].
Qed.

Lemma align_up_multiple a k : 0 <= k < 62 -> 0 <= a -> a + 2 * 2 ^ k < 2 ^ 63 ->
  align_up a (2 ^ k) = align_up a (2 ^ k) / 2 ^ k * 2 ^ k.
Proof.
  intros Hk Ha Hb. assert (0 < 2 ^ k) by (apply Z.pow_pos_nonneg; lia). rewrite align_up_spec by lia.
  pose proof (Z.div_mod (- a) (2 ^ k)). replace (a + (- a) mod 2 ^ k) with (- ((- a) / 2 ^ k) * 2 ^ k) by lia.
  now rewrite Z.div_mul by lia.
Qed.

Definition anon_passes (k flag : Z) (s : kstate K) : Prop :=
  let '(s1, r) := kstep K (Mmap 0 (2 * 2 ^ k) (Z.lor PROT_READ PROT_WRITE) flag (-1) 0) s in
  is_err r = false /\ all_sized s1 (2 ^ k) (align_up r (2 ^ k) / PAGE_SIZE) (2 ^ k / PAGE_SIZE).

Lemma run_anon k flag pr s : PAGE_SHIFT <= k < 62 -> pm_open s = None ->
  exists v m w', run K (anon_run (2 ^ k) (2 * 2 ^ k) flag) (World pr s) = (Done (v, m), w') /\
    (v = None <-> anon_passes k flag s).
Proof.
  intros Hk Ho. pose proof PAGE_SIZE_pos as HP. destruct (pow_pages k ltac:(lia)) as [Ek Hn].
  assert (H0k : 0 <= k) by (destruct PAGE_SHIFT_cases; lia). set (n := 2 ^ (k - PAGE_SHIFT)) in *.
  destruct (pmk_mmap s (2 * 2 ^ k) (Z.lor PROT_READ PROT_WRITE) flag Ho) as (s1 & r & E1 & Ho1 & Hr); [lia| |].
  { rewrite Ek. replace (2 * (n * PAGE_SIZE)) with (2 * n * PAGE_SIZE) by lia. apply Z.mod_mul. lia. }
  unfold anon_passes, anon_run, mmap. rewrite E1, run_bind_assoc. cbn [bind trigger run w_k w_proc]. rewrite E1.
  unfold syscall_ret. destruct (is_err r) eqn:Er.
  { do 3 eexists. split; [reflexivity|]. split; [discriminate|]. intros [? _]. discriminate. }
  destruct Hr as (Hr0 & Hrb & How). destruct (aligned_inside r k) as (Hlo & Eend & Hhi); try lia.
  assert (Hff : (r =? MAP_FAILED) = false) by (apply Z.eqb_neq; unfold MAP_FAILED; lia).
  set (start := align_up r (2 ^ k)) in *.
  assert (Es : start = start / PAGE_SIZE * PAGE_SIZE).
  { pose proof (align_up_multiple r k ltac:(lia) Hr0 Hrb) as Em. fold start in Em. rewrite Ek in Em at 2.
    assert (Ec : start = start / 2 ^ k * n * PAGE_SIZE) by lia. rewrite Ec at 2. now rewrite Z.div_mul by lia. }
  set (q0 := start / PAGE_SIZE) in *.
  assert (Epr : page_rounds start (start + 2 ^ k) = Z.to_nat n).
  { unfold page_rounds. f_equal. rewrite Ek. replace (start + n * PAGE_SIZE - start + PAGE_SIZE - 1) with (PAGE_SIZE - 1 + n * PAGE_SIZE) by lia.
    rewrite Z.div_add, Z.div_small by lia. lia. }
  destruct (run_touch_pages (2 ^ k) (Z.to_nat n) q0 (-1) (with_line ("mmap=%p\n", [PZ r]) pr) s1 Ho1) as (v & pr' & s' & E & Hv);
    [apply Z.div_pos; lia| | |discriminate|].
  { rewrite Z2Nat.id by lia. lia. }
  { rewrite Z2Nat.id by lia. intros q Hq. apply How. nia. }
  rewrite Z2Nat.id in E, Hv by lia. replace ((q0 + n) * PAGE_SIZE) with (start + 2 ^ k) in E by lia. rewrite <- Es in E.
  replace (2 ^ k / PAGE_SIZE) with n by (rewrite Ek, Z.div_mul; lia).
  cbn [bind run w_k w_proc]. rewrite Hff. cbn [negb tp_assert bind printf run w_k w_proc]. fold start. rewrite Eend.
  replace (start <? start + 2 ^ k) with true by (symmetry; apply Z.ltb_lt; lia). cbn [tp_assert].
  rewrite Epr, run_bind, E. destruct (Z.eqb_spec v 0) as [->|Nv]; cbn; do 3 eexists; (split; [reflexivity|]).
  - split; [discriminate|]. intros [_ Ha]. now apply Hv in Ha.
  - split; [|reflexivity]. intros _. split; [reflexivity|]. now apply Hv.
Qed.

Lemma anon_case_verdict n len0 r argv w P :
  (exists v m w', run K r w = (Done (v, m), w') /\ (v = None <-> P)) ->
  exists v w', run K (run_test_case (anon_case n len0 r) argv) w = (Done v, w') /\ (v = None <-> P).
Proof.
  intros (v & m & [pr1 s1] & E & Hv).
  assert (Et : exists w2, run K (anon_teardown n m) (World pr1 s1) = (Done tt, w2)).
  { unfold anon_teardown. destruct (negb _); [|eauto]. destruct (pmk_munmap s1 (lp_addr m) (lp_length m)) as (s2 & x & E2).
    unfold munmap. rewrite run_bind_assoc. cbn [bind trigger run w_k w_proc]. rewrite E2.
    unfold syscall_ret. destruct (is_err x); eexists; reflexivity. }
  destruct Et as (w2 & Et). exists v, w2. split; [|exact Hv].
  pose proof (run_bind K r (fun '(msg, a') => anon_teardown n a' ;; Ret msg) w) as R.
  rewrite E in R. cbn beta iota in R. rewrite (run_bind K (anon_teardown n m)), Et in R. exact R.
Qed.

Definition large_verdicts (s : kstate K) : list (test_case * Prop) :=
  [ (mem_large_page0, anon_passes LARGE_PAGE_SHIFT flag_anon s);
    (mem_large_page1, ENABLE_LARGEST_PAGE <> 0 /\ anon_passes LARGEST_PAGE_SHIFT flag_anon s);
    (mem_large_page9, anon_passes LARGE_PAGE_SHIFT (flag_huge LARGE_PAGE_SHIFT) s);
    (mem_large_page10, ENABLE_LARGEST_PAGE <> 0 /\ anon_passes LARGEST_PAGE_SHIFT (flag_huge LARGEST_PAGE_SHIFT) s) ].

Lemma large_pow : PAGE_SHIFT <= LARGE_PAGE_SHIFT < 62 /\ LARGE_PAGE_SIZE = 2 ^ LARGE_PAGE_SHIFT /\
  u64 (2 * LARGE_PAGE_SIZE) = 2 * 2 ^ LARGE_PAGE_SHIFT.
Proof. unfold LARGE_PAGE_SIZE, LARGE_PAGE_SHIFT, PAGE_SHIFT. destruct CONFIG_ARM64_64K_PAGES; split_and!; reflexivity || (cbn; lia). Qed.
Lemma largest_pow : PAGE_SHIFT <= LARGEST_PAGE_SHIFT < 62 /\ LARGEST_PAGE_SIZE = 2 ^ LARGEST_PAGE_SHIFT /\
  u64 (2 * LARGEST_PAGE_SIZE) = 2 * 2 ^ LARGEST_PAGE_SHIFT.
Proof.
  unfold LARGEST_PAGE_SIZE, LARGEST_PAGE_SHIFT, LARGE_PAGE_SHIFT, PAGE_SHIFT. destruct CONFIG_ARM64_64K_PAGES; split_and!; reflexivity || (cbn; lia).
Qed.

Lemma skip_verdict (m0 : map_mem) r w P :
  (exists v m w', run K r w = (Done (v, m), w') /\ (v = None <-> P)) ->
  exists v m w', run K (skip_64K m0 r) w = (Done (v, m), w') /\ (v = None <-> ENABLE_LARGEST_PAGE <> 0 /\ P).
Proof.
  intros (v & m & w' & E & Hv). unfold skip_64K. destruct (Z.eqb_spec ENABLE_LARGEST_PAGE 0) as [E0|N0].
  - do 3 eexists. split; [reflexivity|]. rewrite E0. split; [discriminate|tauto].
  - exists v, m, w'. split; [exact E|]. rewrite Hv. tauto.
Qed.
End Verdict.

(** On a kernel with a documented page map, the tests 0, 1, 9 and 10 of
    [mem_large_page] return; a test passes exactly if its mapping is granted and
    every page of the one large page aligned inside it, from the first to the
    last, is backed by a page of the size asked for.  With 64 KiB pages 1 and 10
    always fail. *)
Theorem mem_large_page_exact `{ArchConfig} K {PK : PagemapKernel K} argv (w : world K) :
  pm_open (w_k w) = None ->
  Forall (fun '(tc, P) => exists v w', run K (run_test_case tc argv) w = (Done v, w') /\ (v = None <-> P))
    (large_verdicts K (w_k w)).
Proof.
  intros Ho. destruct w as [pr s]. cbn [w_k] in *. destruct large_pow as (HL & EL & E2L), largest_pow as (HX & EX & E2X).
  unfold large_verdicts. repeat apply List.Forall_cons; try apply List.Forall_nil;
    apply (@anon_case_verdict _ K PK); rewrite ?E2L, ?E2X, ?EL, ?EX; try apply skip_verdict; now apply (@run_anon _ K PK).
Qed.

(** ** A kernel that meets the interface *)

(** All memory consists of pages of one size; mappings are at 1 GiB. *)
Section Uniform.
Context `{ArchConfig} (shift : Z).

Definition uni_step (c : op) (s : option (Z * Z)) : option (Z * Z) * ans c :=
  match c with
  | Open _ _ => (Some (3, 0), 3)
  | Lseek fd off _ => (Some (fd, off), off)
  | Read fd n => (option_map (fun '(fd, pos) => (fd, pos + n)) s, (8, le_bytes 8 (pagemap_entry 4 shift 0)))
  | Close _ => (None, 0)
  | Store _ _ => (s, inl tt)
  | Mmap _ len _ _ _ _ => (s, if 2 ^ 30 + len <? 2 ^ 63 then 2 ^ 30 else - ENOMEM)
  | Munmap _ _ => (s, 0)
  | c => (s, enosys c)
  end.
Definition uni_kernel : kernel := Kernel (option (Z * Z)) uni_step.
End Uniform.

#[export] Instance uni_ok `{ArchConfig} shift (Hs : TCEq ((0 <=? shift) && (shift <? 64)) true) : PagemapKernel (uni_kernel shift).
Proof.
  refine {| psh := fun _ _ => shift; owned := fun _ _ => true;
            pm_open := fun s : kstate (uni_kernel shift) => (s : option (Z * Z)) |}; cbn [kstep uni_kernel uni_step].
  - intros _ _. apply TCEq_eq in Hs. bool_to_prop. lia.
  - intros s E. exists (Some (3, 0)), 3. repeat split; auto; lia.
  - intros s fd pos off E Ho. exists (Some (fd, off)). repeat split; auto.
  - intros s fd q E Hq. exists (Some (fd, 8 * q + 8)), 4, 0. rewrite E. repeat split; auto; lia.
  - intros s fd pos E. exists None. repeat split; auto.
  - intros s a b _. exists s. repeat split; auto.
  - intros s len prot flags E Hl _. exists s. eexists. split; [reflexivity|]. split; [exact E|].
    destruct (Z.ltb_spec (2 ^ 30 + len) (2 ^ 63)); [|exact I]. cbn. split; [lia|]. split; [lia|auto].
  - intros s a len. eauto.
Defined.

(** With 4 KiB pages and all memory in 2 MiB pages, test 0 passes. *)
Lemma mem_large_page_exact_witness :
  exists v w', run (@uni_kernel 21) (run_test_case (@mem_large_page0 config_4K) ["app"])
                 (World proc0 (None : kstate (uni_kernel 21))) = (Done v, w') /\ v = None.
Proof.
  pose proof (@mem_large_page_exact config_4K (uni_kernel 21) (@uni_ok config_4K 21 (TCEq_refl _)) ["app"]
                (World proc0 (None : kstate (uni_kernel 21))) eq_refl) as F.
  apply List.Forall_inv in F. destruct F as (v & w' & E & Hv). exists v, w'. split; [exact E|]. apply Hv.
  split; [reflexivity|]. intros q _. reflexivity.
Defined.
