(* ===== verification/Forks.v ===== *)
(** * Tests with several processes

    [fork] 0, [getppid] 0, [setpgid] 0-3, [wait4] 0, [waitid] 0 and 2: the run
    functions as programs for the semantics of [Procs]. *)
From S2P Require Import Prelude Process Trace CLib TestMck AddrSpace MemInfo Procs.
From Stdlib Require Import Ascii String.
#[local] Open Scope string_scope.
#[local] Open Scope Z_scope.

(** ** System calls *)

Definition fork : prog Z := r <- (trigger (Procs Fork) : prog Z) ;; syscall_ret (-1) r.
(** The result and the two descriptors. *)
Definition pipe : prog (Z * (Z * Z)) :=
  r <- (trigger (Procs Pipe) : prog (Z * (Z * Z))) ;;
  ret <- syscall_ret (-1) (fst r) ;; Ret (ret, snd r).
Definition getpgid (pid : Z) : prog Z :=
  r <- (trigger (Procs (Getpgid pid)) : prog Z) ;; syscall_ret (-1) r.
Definition setpgid (pid pgid : Z) : prog Z :=
  r <- (trigger (Procs (Setpgid pid pgid)) : prog Z) ;; syscall_ret (-1) r.
(** The result and the status. *)
Definition wait4 (pid options : Z) : prog (Z * Z) :=
  r <- (trigger (Procs (Wait4 pid options)) : prog (Z * Z)) ;;
  ret <- syscall_ret (-1) (fst r) ;; Ret (ret, snd r).
(** The result and [info.si_pid]. *)
Definition waitid (idtype id options : Z) : prog (Z * Z) :=
  r <- (trigger (Procs (Waitid idtype id options)) : prog (Z * Z)) ;;
  ret <- syscall_ret (-1) (fst r) ;; Ret (ret, snd r).
Definition usleep (usec : Z) : prog Z :=
  r <- (trigger (Procs (Usleep usec)) : prog Z) ;; syscall_ret (-1) r.
Definition sem_init (sem pshared value : Z) : prog Z :=
  r <- (trigger (Procs (SemInit sem pshared value)) : prog Z) ;; syscall_ret (-1) r.
Definition sem_post (sem : Z) : prog Z :=
  r <- (trigger (Procs (SemPost sem)) : prog Z) ;; syscall_ret (-1) r.
Definition sem_wait (sem : Z) : prog Z :=
  r <- (trigger (Procs (SemWait sem)) : prog Z) ;; syscall_ret (-1) r.
(** [syscall(__NR_gettid)]. *)
Definition gettid : prog Z := trigger Gettid.

Definition WEXITED : Z := 4.

(** The bytes of a [pid_t], little endian. *)
Fixpoint le_bytes (n : nat) (z : Z) : list Z :=
  match n with
  | O => []
  | S n => z mod 256 :: le_bytes n (z / 256)
  end.
Definition pid_bytes (pid : Z) : list Z := le_bytes 4 (u32 pid).

(** A plain test case. *)
Definition fork_case (suite : string) (n : Z) (run : prog result) : test_case :=
  TestCase suite n unit SETUP_EMPTY (run_const (fun _ _ => run)) TEARDOWN_EMPTY.

(** ** [fork/000.c] *)

Section Fork.
(** [n] bounds the rounds of the spin loop; [spinning] is what a process does
    that finds the lock taken. *)
Context (n : nat) (spinning : prog unit).

(** [while (primitive_lock) cpu_pause();] *)
Fixpoint spin (n : nat) (primitive_lock : Z) : prog unit :=
  match n with
  | O => spinning
  | S n => if primitive_lock =? 0 then Ret tt else spin n primitive_lock
  end.

(** [child_pid] and [parent_pid]; the variable [primitive_lock] is the process's
    own copy, its last value is the result. *)
Definition who_pid (who : string) (primitive_lock : Z) : prog Z :=
  pid <- getpid ;;
  tid <- gettid ;;
  spin n primitive_lock ;;
  let primitive_lock := 1 in
  printf ("[" ++ who ++ "]pid=%d, tid=%d\n") [PZ pid; PZ tid] ;;
  let primitive_lock := 0 in
  Ret primitive_lock.

Definition fork_run_000 : prog result :=
  ret <- fork ;;
  if ret =? -1 then Ret (Some "fork() Failed.")
  else if ret =? 0 then who_pid "child" 0 ;; Exit 0
  else who_pid "parent" 0 ;; Ret None.
End Fork.

Definition fork0 n spinning := fork_case "fork" 0 (fork_run_000 n spinning).

(** ** Pipes between parent and child: [getppid/000.c], [setpgid/000.c] *)

Definition PIPE_BUF_SIZE : Z := 0x10.

Section Pipes.
(** The six bytes that follow the string ["1234567890"] in memory, and the
    indeterminate bytes of a local [pid_t]. *)
Context (beyond uninit : list Z).

(** [write(fd, "1234567890", PIPE_BUF_SIZE+1)]: 17 bytes from an array of 11. *)
Definition sync_text : list Z := [49; 50; 51; 52; 53; 54; 55; 56; 57; 48; 0].
Definition sync_bytes : list Z := sync_text ++ beyond.
Definition sync_write (fd : Z) : prog Z := write fd sync_bytes.
Definition sync_read (fd : Z) : prog (Z * list Z) := read fd PIPE_BUF_SIZE.

Definition close_all_pipes (fdi fdj : Z * Z) : prog unit :=
  close (fst fdi) ;; close (snd fdi) ;; close (fst fdj) ;; close (snd fdj) ;; Ret tt.

(** Both tests: two pipes, a child with one function, a parent with another; the
    results of both functions are ignored. *)
Definition two_pipes (parent_fn : Z -> Z -> Z -> prog result) (child_fn : Z -> Z -> prog result)
  : prog result :=
  let* (ret, p2c) := pipe in
  tp_assert! (negb (ret =? -1), Some "make pipe failed") ;;
  let* (ret, c2p) := pipe in
  (if ret =? -1 then close (fst p2c) ;; close (snd p2c) ;; Ret tt else Ret tt) ;;
  tp_assert! (negb (ret =? -1), Some "make pipe failed") ;;
  child_pid <- fork ;;
  tp_assert! (negb (child_pid =? -1), Some "fork faild.") ;;
  if child_pid =? 0 then
    child_fn (fst p2c) (snd c2p) ;;
    close_all_pipes p2c c2p ;;
    Exit 0
  else
    parent_fn child_pid (fst c2p) (snd p2c) ;;
    close_all_pipes p2c c2p ;;
    Ret None.

(** *** [getppid/000.c] *)

Definition getppid0_parent_fn (child_pid read_fd write_fd : Z) : prog result :=
  sync_read read_fd ;;
  p_pid <- getpid ;;
  printf "[parent] pid=%d\n" [PZ p_pid] ;;
  write write_fd (pid_bytes p_pid) ;;
  sync_read read_fd ;;
  Ret None.

Definition getppid0_child_fn (read_fd write_fd : Z) : prog result :=
  c_ppid <- getppid ;;
  printf "[child] ppid=%d\n" [PZ c_ppid] ;;
  sync_write write_fd ;;
  let* (n, bytes) := read read_fd 4 in
  let p_pid := i32 (le_value (take 4 (bytes ++ drop (List.length bytes) uninit))) in
  tp_assert! (c_ppid =? p_pid, Some "[child] getppid faild.") ;;
  sync_write write_fd ;;
  Ret None.

Definition getppid_run_000 : prog result := two_pipes getppid0_parent_fn getppid0_child_fn.

(** *** [setpgid/000.c] *)

Definition setpgid0_parent_fn (child_pid read_fd write_fd : Z) : prog result :=
  sync_read read_fd ;;
  printf "[parent] now rewrite child pgid\n" [] ;;
  result <- setpgid child_pid child_pid ;;
  tp_assert! (negb (result =? -1), Some "[parent] setpgid faild.") ;;
  sync_write write_fd ;;
  sync_read read_fd ;;
  Ret None.

Definition setpgid0_child_fn (read_fd write_fd : Z) : prog result :=
  c_pid <- getpid ;;
  tp_assert! (negb (c_pid =? -1), Some "[child] getpid faild.") ;;
  c_pgid <- getpgid c_pid ;;
  tp_assert! (negb (c_pgid =? -1), Some "[child] getpgid faild.") ;;
  printf "[child] pid=%d, pgid=%d\n" [PZ c_pid; PZ c_pgid] ;;
  sync_write write_fd ;;
  sync_read read_fd ;;
  c_pgid <- getpgid c_pid ;;
  tp_assert! (negb (c_pgid =? -1), Some "[child] getpgid faild.") ;;
  printf "[child] pid=%d, pgid=%d\n" [PZ c_pid; PZ c_pgid] ;;
  sync_write write_fd ;;
  Ret None.

Definition setpgid_run_000 : prog result := two_pipes setpgid0_parent_fn setpgid0_child_fn.

Definition getppid0 := fork_case "getppid" 0 getppid_run_000.
Definition setpgid0 := fork_case "setpgid" 0 setpgid_run_000.
End Pipes.

(** ** [setpgid/001.c] to [setpgid/003.c] *)

(** The error tests; [call] makes the call. *)
Definition setpgid_error (call : prog Z) (name : string) (expect : Z) : prog result :=
  result <- call ;;
  e <- errno ;;
  printf ("setpgid result:%d, errno:%d (expect error is " ++ quoted name ++ "=%d)\n") [PZ result; PZ e; PZ expect] ;;
  tp_assert! (result =? -1, Some "Why setpgid didn't failed!?") ;;
  e <- errno ;;
  tp_assert! (e =? expect, Some "Unexpected error is occur.") ;;
  Ret None.

Definition setpgid_case (n : Z) (run : prog result) : test_case :=
  TestCase "setpgid" n unit (SETUP_ALIAS n SETUP_EMPTY) (run_const (fun _ _ => run))
    (TEARDOWN_ALIAS n TEARDOWN_EMPTY).

Definition setpgid1 := setpgid_case 1
  (setpgid_error (pid <- getpid ;; setpgid pid (-1)) "EINVAL" EINVAL).
Definition setpgid2 := setpgid_case 2
  (setpgid_error (pid <- getpid ;; pgid <- getpgid pid ;; setpgid (-1) pgid) "ESRCH" ESRCH).
(** The two arguments of the call are evaluated in an order C leaves open; both
    only read. *)
Definition setpgid3 := setpgid_case 3
  (setpgid_error (p <- getpid ;; pid <- getpid ;; pgid <- getpgid pid ;; setpgid p (i32 (pgid + 1)))
     "EPERM" EPERM).

(** ** [wait4/000.c] and [waitid/000.c] *)

(** The common end: [res] is the variable [result]. *)
Definition wait_verdict (name : string) (res : Z) : prog result :=
  e <- errno ;;
  printf (name ++ "()=%d, errno=%d\n") [PZ res; PZ e] ;;
  tp_assert! (negb (res =? -1), Some (name ++ " failed.")) ;;
  Ret None.

Definition wait4_run_000 : prog result :=
  pid <- fork ;;
  if pid =? -1 then wait_verdict "wait4" 0
  else if pid =? 0 then usleep 100000 ;; Exit 0
  else let* (result, _) := wait4 pid 0 in wait_verdict "wait4" result.

Definition waitid_run_000 : prog result :=
  pid <- fork ;;
  if pid =? -1 then wait_verdict "waitid" 0
  else if pid =? 0 then usleep 100000 ;; Exit 0
  else let* (result, _) := waitid P_PID pid WEXITED in wait_verdict "waitid" result.

Definition wait4_0 := fork_case "wait4" 0 wait4_run_000.
Definition waitid0 := fork_case "waitid" 0 waitid_run_000.

(** ** [waitid/002.c] *)

Definition SIZEOF_SEM_T : Z := 32.

Fixpoint waitid_options (evs : list optev) (proc_num : Z) : Z :=
  match evs with
  | [] => proc_num
  | Opt c optarg :: evs' =>
      waitid_options evs' (if Ascii.eqb c "p" then atoi optarg else proc_num)
  | OptErr :: evs' => waitid_options evs' proc_num
  end.
Definition waitid_setup (tc_num : Z) (tc_argv : list string) : prog Z :=
  Ret (waitid_options (fst (getopt "p:" (tail tc_argv))) 0).

(** The child number [i]. *)
Definition waitid2_child (wait i : Z) : prog result :=
  sem_wait wait ;;
  munmap wait SIZEOF_SEM_T ;;
  usleep (u32 (i32 (100000 + i32 (100000 * i)))) ;;
  pid <- getpid ;;
  printf "[child:%5d] sleep 100+%dmsec done.\n" [PZ pid; PZ (i32 (100 * i))] ;;
  Exit 0.

(** [n] rounds of the fork loop from [i] on, then [k]. *)
Fixpoint waitid2_forks (n : nat) (i wait : Z) (k : prog result) : prog result :=
  match n with
  | O => k
  | S n =>
      pid <- fork ;;
      if pid =? 0 then waitid2_child wait i
      else waitid2_forks n (i + 1) wait k
  end.

Fixpoint sem_posts (n : nat) (wait : Z) : prog unit :=
  match n with
  | O => Ret tt
  | S n => sem_post wait ;; sem_posts n wait
  end.

Fixpoint waitid2_waits (n : nat) (pid : Z) : prog result :=
  match n with
  | O => Ret None
  | S n =>
      printf "[parent:%5d] waitid(P_ALL) called.\n" [PZ pid] ;;
      let* (result, si_pid) := waitid P_ALL 0 WEXITED in
      printf "[parent:%5d] waitid(P_ALL) returned. EXTED pid = %d\n" [PZ pid; PZ si_pid] ;;
      e <- errno ;;
      printf "[parent:%5d] waitid()=%d, errno=%d\n" [PZ pid; PZ result; PZ e] ;;
      tp_assert! (negb (result =? -1), Some "waitid failed.") ;;
      waitid2_waits n pid
  end.

Definition waitid_run_002 (proc_num : Z) : prog result :=
  tp_assert! (0 <? proc_num, Some "-p <child proc num> invalid argument.") ;;
  wait <- mmap NULL SIZEOF_SEM_T (Z.lor PROT_READ PROT_WRITE) (Z.lor MAP_SHARED MAP_ANONYMOUS) (-1) 0 ;;
  tp_assert! (negb (wait =? MAP_FAILED), Some "semaphore mmap failed.") ;;
  sem_init wait 1 0 ;;
  waitid2_forks (Z.to_nat proc_num) 0 wait
  (pid <- getpid ;;
   sem_posts (Z.to_nat proc_num) wait ;;
   munmap wait SIZEOF_SEM_T ;;
   waitid2_waits (Z.to_nat proc_num) pid).

Definition waitid2 : test_case :=
  TestCase "waitid" 2 Z waitid_setup (run_const (fun _ => waitid_run_002)) TEARDOWN_EMPTY.
