(* ===== verification/ForksThms.v ===== *)
(** * Tests with several processes: all interleavings

    For every order in which the processes may run: the tests of [Forks] end,
    without deadlock, and with the verdict stated. *)
From S2P Require Import Prelude Process Trace TestMck MemInfo Procs Forks.
#[local] Open Scope Z_scope.

(** The documented system: no wrong answers. *)
Definition documented (i : nat) (c : op) : option (ans c) := None.
(** A system that answers [getppid] in the first child with [g]. *)
Definition getppid_says (g : option Z) (i : nat) (c : op) : option (ans c) :=
  match c with
  | Procs c =>
      match c with
      | Getppid => if (i =? 1)%nat then g else None
      | _ => None
      end
  | _ => None
  end.

(** The status of a test program that returns. *)
Definition verdict_status (r : result) : Z := match r with None => 0 | Some _ => 1 end.

(** ** Points of a process *)

Section Points.
(** The answers a process gets on its way. *)
Context (answer : forall c : op, ans c).

(** The state after the next call. *)
Definition advance (x : @pstate result) : @pstate result :=
  match x with
  | Live (Call c k) pr => settle (k (answer c)) pr
  | Live (Ret a) _ => Dead (Done a)
  | Live (Exit n) _ => Dead (Exited n)
  | x => x
  end.
Definition point (x : @pstate result) (n : nat) : @pstate result := Nat.iter n advance x.
End Points.

(** A system with two processes, the second a child of the first. *)
Definition duo (pgid0 pgid1 : Z) (x0 x1 : @pstate result) (fds0 fds1 : list (Z * fdend)) (st0 st1 : pstatus)
  (pipes : list (list Z)) : @config result :=
  Config [x0; x1] (Os [PEntry None pgid0 fds0 st0; PEntry (Some 0%nat) pgid1 fds1 st1] pipes [] 0).

(** Parent and child are over: the test has succeeded, the child exited with 0. *)
Definition both_over (c : @config result) : Prop := c_code c = [Dead (Done None); Dead (Exited 0)].

(** A numbering of the processes that fits a [pid_t]. *)
Definition small_pid (i : nat) : positive := match i with O => 100 | S O => 101 | _ => 102 end.
Lemma small_pid_range i : Zpos (small_pid i) < 2 ^ 31.
Proof. destruct i as [|[|i]]; reflexivity. Qed.

(** The four descriptors of the two pipes, [n] of them closed. *)
Definition fds4 (n : nat) : list (Z * fdend) :=
  drop n [(3, RdEnd 0); (4, WrEnd 0); (5, RdEnd 1); (6, WrEnd 1)].

(** ** [getppid/000.c] *)

Section Getppid.
Context (num : nat -> positive) (shell reaper : Z) (b0 b1 b2 b3 b4 b5 : Z) (uninit : list Z).
Hypothesis num_pid : forall i, Zpos (num i) < 2 ^ 31.

(** What [getppid] answers in the child instead of the documented value. *)
Context (g : option Z).

Definition pids (i : nat) : Z := Zpos (num i).
Definition six : list Z := [b0; b1; b2; b3; b4; b5].

Definition sent : list Z := sync_bytes six.
Definition p_answer (c : op) : ans c :=
  match c with
  | Procs Getpid => pids 0
  | Read _ _ => (1, [])
  | Write _ _ => 1
  | Close _ => 0
  | c => enosys c
  end.
Definition c_answer (c : op) : ans c :=
  match c with
  | Procs Getppid => default (pids 0) g
  | Write _ _ => 1
  | Close _ => 0
  | c => enosys c
  end.
Definition right_ppid : bool := default (pids 0) g =? pids 0.

Definition parent_out (n : nat) : @pstate result :=
  point p_answer
    (settle (getppid0_parent_fn (pids 1) 5 4 ;; close_all_pipes (3, 4) (5, 6) ;; Ret None) proc0) n.
(** The child up to its reading of the number. *)
Definition child_out (n : nat) : @pstate result :=
  point c_answer
    (settle (getppid0_child_fn six uninit 3 6 ;; close_all_pipes (3, 4) (5, 6) ;; Exit 0) proc0) n.
Definition child_pr : proc := with_line ("[child] ppid=%d\n"%string, [PZ (default (pids 0) g)]) proc0.
(** The child after the comparison. *)
Definition child_end (n : nat) : @pstate result :=
  point c_answer
    (settle ((sync_write six 6 ;; Ret (A := result) None) ;; close_all_pipes (3, 4) (5, 6) ;; Exit 0) child_pr) n.

Lemma le_value_pid z : 0 <= z < 2 ^ 31 -> i32 (le_value (pid_bytes z)) = z.
Proof.
  intros Hz. unfold pid_bytes, u32. rewrite Z.mod_small by lia. cbn [le_bytes le_value].
  unfold u8. change (2 ^ 8) with 256. rewrite !Z.mod_mod by lia.
  assert (z mod 256 + 256 * (z / 256 mod 256 + 256 * (z / 256 / 256 mod 256 +
            256 * (z / 256 / 256 / 256 mod 256 + 256 * 0))) = z) as ->.
  { pose proof (Z.div_mod z 256). pose proof (Z.div_mod (z / 256) 256).
    pose proof (Z.div_mod (z / 256 / 256) 256). pose proof (Z.div_mod (z / 256 / 256 / 256) 256).
    assert (z / 256 / 256 / 256 / 256 = 0) by (rewrite !Z.div_div by lia; apply Z.div_small; lia).
    lia. }
  apply i32_small. lia.
Qed.

(** *** The configurations after the fork *)

(** Parent before its first reading, child before its call number [j]. *)
Definition conf_start (j : nat) : @config result :=
  duo (pids 0) (pids 0) (parent_out 0) (child_out j) (fds4 0) (fds4 0) Running Running
    [[]; if (2 <=? j)%nat then sent else []].
(** Parent between its first and second reading, child waiting for the number. *)
Definition conf_mid (i : nat) : @config result :=
  duo (pids 0) (pids 0) (parent_out i) (child_out 2) (fds4 0) (fds4 0) Running Running
    [if (i =? 3)%nat then pid_bytes (pids 0) else []; drop 16 sent].

(** From here on the processes do not wait for each other.  The parent is
    before its call number [i] (counted from the second reading), the child before
    its call number [j] (counted from its reading); [first] tells whether the
    parent read before the child wrote its second message. *)
Definition second_pipe (i j : nat) (first : bool) : list Z :=
  let second := if (2 <=? j)%nat && right_ppid then sent else [] in
  if (i =? 0)%nat then drop 16 sent ++ second
  else if first then second else drop 16 (drop 16 sent ++ second).
Definition alive (n last : nat) : pstatus := if (n <=? last)%nat then Running else Zombie 0.
Definition fds_at (n first last : nat) : list (Z * fdend) :=
  if (n <=? last)%nat then fds4 (n - first) else [].
Definition conf_end (i j : nat) (first : bool) : @config result :=
  duo (pids 0) (pids 0) (parent_out (3 + i)) (if (j =? 0)%nat then child_out 2 else child_end (j - 1))
    (fds_at i 1 5) (fds_at j 2 6) (alive i 5) (alive j 6)
    [if (j =? 0)%nat then pid_bytes (pids 0) else []; second_pipe i j first].

Notation "c ==>> c'" := (step pids shell reaper (getppid_says g) verdict_status c c') (at level 70).
Definition move : nat -> bool -> @config result -> option config :=
  exec1 pids shell reaper (getppid_says g) verdict_status.

(** The child reads the parent's number and compares. *)
Lemma child_compares i ok first :
  move 1 ok (conf_end i 0 first) = Some (conf_end i (if right_ppid then 1 else 2) first).
Proof.
  pose proof (le_value_pid (pids 0)) as Hv. unfold conf_end.
  remember (pid_bytes (pids 0)) as pb eqn:Epb.
  assert (exists x0 x1 x2 x3, pb = [x0; x1; x2; x3]) as (x0 & x1 & x2 & x3 & ->)
    by (subst; unfold pid_bytes; cbn [le_bytes]; eauto).
  assert (E : exists k pr, child_out 2 = Live (Call (Read 3 4) k) pr /\
                settle (k (4, [x0; x1; x2; x3])) pr = child_end (if right_ppid then 0 else 1)).
  { do 2 eexists. split; [reflexivity|].
    unfold settle at 1. cbn [fst snd bind app take drop length].
    change (syscall_ret (-1) 4) with (Ret (A := Z) 4). cbn [bind app take].
    rewrite take_0. change (c_answer (Procs Getppid)) with (default (pids 0) g).
    rewrite Hv by (pose proof (num_pid 0); unfold pids; lia).
    change (default (pids 0) g =? pids 0) with right_ppid. destruct right_ppid; reflexivity. }
  destruct E as (k & pr & Ec & Ek). unfold duo at 1. cbn [Nat.eqb].
  rewrite Ec. unfold move, exec1. cbn [c_code lookup list_lookup]. unfold do_call. cbn [getppid_says c_os].
  replace (os_call pids shell reaper 1 ok (Read 3 4) _) with
    (Some (Os [PEntry None (pids 0) (fds_at i 1 5) (alive i 5);
               PEntry (Some 0%nat) (pids 0) (fds4 0) Running] [[]; second_pipe i 0 first] [] 0,
          inl (4, [x0; x1; x2; x3]) : ans (Read 3 4) + Z)) by reflexivity.
  cbn [insert list_insert]. rewrite Ek. unfold second_pipe. destruct right_ppid; reflexivity.
Qed.

(** The steps of the two processes. *)
Lemma parent_moves i j ok first : (i <= 5)%nat -> (j <= 7)%nat -> i = 0%nat \/ first = true \/ (2 <= j)%nat ->
  move 0 ok (conf_end i j first) =
  Some (conf_end (S i) j (if (i =? 0)%nat then (j <? 2)%nat else first)).
Proof.
  intros Hi Hj Hf. unfold conf_end, second_pipe. destruct right_ppid;
    do 6 (destruct i as [|i]; [do 8 (destruct j as [|j]; [destruct first; first [reflexivity|lia]|]); lia|]); lia.
Qed.

Lemma child_moves i j ok first : (i <= 6)%nat -> (j <= 6)%nat -> i = 0%nat \/ first = true \/ (2 <= j)%nat ->
  (j = 1%nat -> right_ppid = true) ->
  exists j', move 1 ok (conf_end i j first) = Some (conf_end i j' first) /\ (j < j' <= 7)%nat /\
             (j' = 1%nat -> right_ppid = true).
Proof.
  intros Hi Hj Hf Hr. destruct j as [|j].
  { eexists. split; [apply child_compares|]. destruct right_ppid; split; [lia|auto|lia|lia]. }
  exists (S (S j)). split; [|lia]. revert Hr. unfold conf_end, second_pipe. destruct right_ppid; intros Hr;
    do 7 (destruct i as [|i]; [do 6 (destruct j as [|j]; [destruct first; first [reflexivity|lia|now specialize (Hr eq_refl)]|]); lia|]); lia.
Qed.

(** The configurations the two processes go through. *)
Definition getppid_inv (c : @config result) : Prop :=
  (exists j, (j <= 2)%nat /\ c = conf_start j) \/ (exists i, (1 <= i <= 2)%nat /\ c = conf_mid i) \/
  (exists i j first, (i <= 6)%nat /\ (j <= 7)%nat /\ (i = 0%nat \/ first = true \/ (2 <= j)%nat) /\
                     (j = 1%nat -> right_ppid = true) /\ c = conf_end i j first).

Lemma getppid_inv_step i ok c c' : getppid_inv c -> move i ok c = Some c' -> getppid_inv c'.
Proof.
  intros [(j & Hj & ->)|[(k & Hk & ->)|(k & j & first & Hk & Hj & Hf & Hr & ->)]] E.
  - destruct i as [|[|i]]; [| |discriminate].
    + do 2 (destruct j as [|j]; [discriminate|]). destruct j as [|j]; [|lia].
      right; left. exists 1%nat. split; [lia|]. now injection E as <-.
    + left. exists (S j). revert E. unfold move, conf_start, child_out, c_answer. destruct g as [x|]; intros E;
      do 2 (destruct j as [|j]; [split; [lia|]; now injection E as <-|]); (destruct j as [|j]; [discriminate|lia]).
  - destruct i as [|[|i]]; [| |discriminate].
    + destruct k as [|[|[|k]]]; [lia| | |lia]; right.
      * left. exists 2%nat. split; [lia|]. now injection E as <-.
      * right. exists 0%nat, 0%nat, true. split_and!; [lia..|now left|lia|]. now injection E as <-.
    + destruct k as [|[|[|k]]]; [lia|discriminate|discriminate|lia].
  - right; right. destruct i as [|[|i]]; [| |discriminate].
    + assert (D : (k = 6)%nat \/ (k <= 5)%nat) by lia. destruct D as [->|D].
      * discriminate.
      * rewrite (parent_moves k j ok first) in E by auto. injection E as <-.
        do 3 eexists. split_and!; [| | | |reflexivity]; [lia..| |exact Hr].
        destruct (Nat.eqb_spec k 0), (Nat.ltb_spec j 2); lia || tauto.
    + assert (D : (j = 7)%nat \/ (j <= 6)%nat) by lia. destruct D as [->|D].
      * discriminate.
      * destruct (child_moves k j ok first) as (j' & E' & Hj' & Hr'); auto. rewrite E' in E. injection E as <-.
        do 3 eexists. split_and!; [| | | |reflexivity]; [lia..| |exact Hr']. intuition lia.
Qed.


(** As long as the two processes are not over, one of them can move. *)
Lemma getppid_inv_moves c : getppid_inv c -> both_over c \/ exists i c', move i true c = Some c'.
Proof.
  intros [(j & Hj & ->)|[(k & Hk & ->)|(k & j & first & Hk & Hj & Hf & Hr & ->)]].
  - right. unfold move, conf_start, child_out, c_answer. destruct g;
      (destruct j as [|[|[|j]]]; [exists 1%nat|exists 1%nat|exists 0%nat|lia]; eexists; reflexivity).
  - right. exists 0%nat. destruct k as [|[|[|k]]]; [lia| | |lia]; eexists; reflexivity.
  - assert (D : (k <= 5)%nat \/ (j <= 6)%nat \/ (k = 6 /\ j = 7)%nat) by lia. destruct D as [D|[D|[-> ->]]].
    + right. exists 0%nat. eexists. now apply parent_moves.
    + right. exists 1%nat. destruct (child_moves k j true first) as (j' & E' & _); eauto.
    + left. reflexivity.
Qed.

(** What the test may end with when resources are missing. *)
Definition setup_failed (c : @config result) : Prop :=
  c_code c = [Dead (Done (Some "make pipe failed"%string))] \/
  c_code c = [Dead (Done (Some "fork faild."%string))].

Lemma getppid_inv_inev (c : @config result) :
  getppid_inv c -> inev pids shell reaper (getppid_says g) verdict_status both_over c.
Proof.
  apply inev_invariant. clear c. intros c Hc.
  destruct (getppid_inv_moves c Hc) as [D|(i & c' & E)]; [now left|right]. split.
  - exists c', i, true. exact E.
  - intros c'' (k & ok & E'). now apply (getppid_inv_step k ok c).
Qed.
End Getppid.

(** [getppid] 0: for every numbering of the processes, every order of their
    steps and every value [getppid] yields in the child (the documented one or
    any other), the test ends, without deadlock: the parent returns [NULL] and
    the child exits with 0, or a pipe or the child could not be made and the test
    says so.  So the two processes cannot lose each other's messages, and no
    answer of [getppid] can make the test fail: the verdict of the child's
    comparison is dropped. *)
Theorem getppid_000_all_schedules num shell reaper b0 b1 b2 b3 b4 b5 uninit g :
  (forall i : nat, Zpos (num i) < 2 ^ 31) ->
  inev (pids num) shell reaper (getppid_says g) verdict_status
    (fun c => both_over c \/ setup_failed c)
    (boot (pids num) (getppid_run_000 [b0; b1; b2; b3; b4; b5] uninit)).
Proof.
  intros Hn.
  eapply inev_solo; [reflexivity|reflexivity|reflexivity| |].
  2: { eapply inev_solo; [reflexivity|reflexivity|reflexivity| |];
       apply inev_now; right; left; reflexivity. }
  eapply inev_solo; [reflexivity|reflexivity|reflexivity| |].
  2: { do 3 (eapply inev_solo; [reflexivity|reflexivity|reflexivity| |]; [|]);
       apply inev_now; right; left; reflexivity. }
  eapply inev_solo; [reflexivity|reflexivity|reflexivity| |].
  2: { eapply inev_solo; [reflexivity|reflexivity|reflexivity| |];
       apply inev_now; right; right; reflexivity. }
  apply (inev_mono _ _ _ _ _ both_over); [now left|].
  apply (getppid_inv_inev num shell reaper b0 b1 b2 b3 b4 b5 uninit Hn g).
  left. exists 0%nat. split; [lia|reflexivity].
Qed.

Lemma getppid_000_all_schedules_witness :
  inev (pids small_pid) 1 1 (getppid_says (Some 77)) verdict_status
    (fun c => both_over c \/ setup_failed c)
    (boot (pids small_pid) (getppid_run_000 [0; 0; 0; 0; 0; 0] [])).
Proof.
  apply (getppid_000_all_schedules small_pid 1 1 0 0 0 0 0 0 [] (Some 77)). apply small_pid_range.
Defined.

(** ** [fork/000.c] *)

Section Fork.
Context (num : nat -> positive) (shell reaper : Z) (n : nat) (spinning : prog unit).

(** Process [k] before its call number [i]; after the second call it ends. *)
Definition f_answer (k : nat) (c : op) : ans c :=
  match c with
  | Procs Getpid => pids num k
  | Gettid => pids num k
  | c => enosys c
  end.
Definition f_parent (i : nat) : @pstate result :=
  point (f_answer 0) (settle (who_pid (S n) spinning "parent" 0 ;; Ret None) proc0) i.
Definition f_child (j : nat) : @pstate result :=
  point (f_answer 1) (settle (who_pid (S n) spinning "child" 0 ;; Exit 0) proc0) j.
Definition f_status (i : nat) : pstatus := if (i <=? 2)%nat then Running else Zombie 0.
Definition f_conf (i j : nat) : @config result :=
  duo (pids num 0) (pids num 0) (f_parent i) (f_child j) [] [] (f_status i) (f_status j) [].


Lemma fork_schedules : inev (pids num) shell reaper documented verdict_status both_over (f_conf 0 0).
Proof.
  apply (inev_invariant _ _ _ _ _ (fun c => exists i j, (i <= 3)%nat /\ (j <= 3)%nat /\ c = f_conf i j));
    [|exists 0%nat, 0%nat; split_and!; [lia|lia|reflexivity]].
  assert (M : forall ok i j, (i <= 3)%nat -> (j <= 3)%nat ->
    exec1 (pids num) shell reaper documented verdict_status 0 ok (f_conf i j) =
      (if (i =? 3)%nat then None else Some (f_conf (S i) j)) /\
    exec1 (pids num) shell reaper documented verdict_status 1 ok (f_conf i j) =
      (if (j =? 3)%nat then None else Some (f_conf i (S j)))).
  { intros ok i j Hi Hj.
    do 4 (destruct i as [|i]; [do 4 (destruct j as [|j]; [split; reflexivity|]); lia|]); lia. }
  intros c (i & j & Hi & Hj & ->). destruct (M true i j Hi Hj) as [M0 M1].
  destruct (Nat.eqb_spec i 3) as [->|Hi'], (Nat.eqb_spec j 3) as [->|Hj']; [now left|right..].
  all: split; [first [eexists; exists 0%nat, true; exact M0|eexists; exists 1%nat, true; exact M1]|].
  all: intros c' ([|[|k]] & ok & E); [| |discriminate].
  all: match type of E with exec1 _ _ _ _ _ _ ?b (f_conf ?i ?j) = _ =>
         destruct (M b i j ltac:(lia) ltac:(lia)) as [M0' M1'];
         first [rewrite M0' in E|rewrite M1' in E] end.
  all: repeat match type of E with context [(?a =? ?b)%nat] => destruct (Nat.eqb_spec a b); try lia end.
  all: try discriminate; injection E as <-; do 2 eexists; (split; [|split; [|reflexivity]]); lia.
Qed.
End Fork.

(** [fork] 0 in every schedule. *)
Lemma fork_000_all_schedules num shell reaper n spinning :
  inev (pids num) shell reaper documented verdict_status
    (fun c => both_over c \/ c_code c = [Dead (Done (Some "fork() Failed."%string))])
    (boot (pids num) (fork_run_000 (S n) spinning)).
Proof.
  eapply inev_solo; [reflexivity|reflexivity|reflexivity| |].
  - apply (inev_mono _ _ _ _ _ both_over); [now left|]. apply fork_schedules.
  - eapply inev_solo; [reflexivity|reflexivity|reflexivity| |]; apply inev_now; now right.
Qed.

(** ** [setpgid/000.c] *)

(** A system on which [setpgid] fails with error [e]. *)
Definition setpgid_fails (e : Z) (i : nat) (c : op) : option (ans c) :=
  match c with
  | Procs c =>
      match c with
      | Setpgid _ _ => Some (- e)
      | _ => None
      end
  | _ => None
  end.

(** A configuration in which no process can move. *)
Definition stuck pidof shell reaper wrong (c : @config result) : Prop :=
  forall c', ~ step pidof shell reaper wrong verdict_status c c'.

(** The parent is over; the child waits for a message that will not come. *)
Definition setpgid_answer (c : op) : ans c :=
  match c with
  | Procs Getpid => 2
  | Procs (Getpgid _) => 1
  | Write _ _ => 17
  | c => enosys c
  end.
Definition setpgid_hung (beyond : list Z) : @config result :=
  duo 1 1 (Dead (Done None))
    (point setpgid_answer
       (settle (setpgid0_child_fn beyond 3 6 ;; close_all_pipes (3, 4) (5, 6) ;; Exit 0) proc0) 3)
    [] (fds4 0) (Zombie 0) Running [[]; drop 16 (sync_bytes beyond)].

(** [setpgid] 0 on a system where [setpgid] fails: there is an execution in
    which the parent returns [NULL] (success) while the child waits for ever for
    the message the parent did not send; no process can move any more. *)
Theorem setpgid_000_hides_failure shell reaper b0 b1 b2 b3 b4 b5 :
  exists c, steps (pids Pos.of_succ_nat) shell reaper (setpgid_fails EPERM) verdict_status
              (boot (pids Pos.of_succ_nat) (setpgid_run_000 [b0; b1; b2; b3; b4; b5])) c /\
    stuck (pids Pos.of_succ_nat) shell reaper (setpgid_fails EPERM) c /\
    c_code c !! 0%nat = Some (Dead (Done None)) /\
    (exists k pr, c_code c !! 1%nat = Some (Live (Call (Read 3 PIPE_BUF_SIZE) k) pr)).
Proof.
  exists (setpgid_hung [b0; b1; b2; b3; b4; b5]). split; [|split].
  - apply (exec_steps _ _ _ _ _
      ((fun i => (i, true)) <$> [0; 0; 0; 1; 1; 1; 0; 0; 0; 0; 0; 0; 0]%nat)). reflexivity.
  - intros c' (i & ok & E). destruct i as [|[|i]]; discriminate.
  - split; [reflexivity|]. do 2 eexists. reflexivity.
Qed.

(** ** [wait4/000.c], [waitid/000.c] *)

Section Wait.
Context (num : nat -> positive) (shell reaper : Z).
Notation "c ==>> c'" := (step (pids num) shell reaper documented verdict_status c c') (at level 70).

(** Waiting for the only child. *)
Lemma do_wait_duo P pgid0 pgid1 fds0 fds1 st0 st1 :
  (forall e, P 1%nat e = true) ->
  do_wait (pids num) 0 P (Os [PEntry None pgid0 fds0 st0; PEntry (Some 0%nat) pgid1 fds1 st1] [] [] 0) =
  match st1 with
  | Running => None
  | Zombie st => Some (Os [PEntry None pgid0 fds0 st0; PEntry (Some 0%nat) pgid1 fds1 Gone] [] [] 0, (pids num 1, st))
  | Gone => Some (Os [PEntry None pgid0 fds0 st0; PEntry (Some 0%nat) pgid1 fds1 Gone] [] [] 0, (- ECHILD, 0))
  end.
Proof.
  intros HP. unfold do_wait. cbn [o_tab find_child pe_parent]. rewrite !HP.
  destruct st1; reflexivity.
Qed.

(** A parent whose next call waits for its only child, which sleeps and exits. *)
Definition wait_conf (x0 x1 : @pstate result) (st1 : pstatus) : @config result :=
  duo (pids num 0) (pids num 0) x0 x1 [] [] Running st1 [].

Lemma wait_schedules x0 pr :
  (forall ok x1, exec1 (pids num) shell reaper documented verdict_status 0 ok (wait_conf x0 x1 Running) = None) ->
  (forall ok x1, exec1 (pids num) shell reaper documented verdict_status 0 ok (wait_conf x0 x1 (Zombie 0)) =
                 Some (wait_conf (Live (Ret None) pr) x1 Gone)) ->
  inev (pids num) shell reaper documented verdict_status both_over
    (wait_conf x0 (settle (usleep 100000 ;; Exit 0) proc0) Running).
Proof.
  intros Hb Hr.
  eapply (inev_duo _ _ _ _ _ _ _ None (Some (wait_conf x0 (Live (Exit 0) proc0) Running)));
    [reflexivity|intros; apply Hb|reflexivity|right; eauto|discriminate|intros c [= <-]].
  eapply (inev_duo _ _ _ _ _ _ _ None (Some (wait_conf x0 (Dead (Exited 0)) (Zombie 0))));
    [reflexivity|intros; apply Hb|reflexivity|right; eauto|discriminate|intros c [= <-]].
  eapply (inev_duo _ _ _ _ _ _ _ _ None); [reflexivity|intros; apply Hr|reflexivity|left; eauto|intros c [= <-]|discriminate].
  eapply (inev_duo _ _ _ _ _ _ _
    (Some (Config [Dead (Done None); Dead (Exited 0)] (os_exit 0 0 (c_os (wait_conf x0 x0 Gone))))) None);
    [reflexivity|reflexivity|reflexivity|left; eauto|intros c [= <-]|discriminate].
  apply inev_now. reflexivity.
Qed.

Lemma wait4_schedules :
  inev (pids num) shell reaper documented verdict_status both_over
    (wait_conf (settle (let* (result, _) := wait4 (pids num 1) 0 in wait_verdict "wait4" result) proc0)
       (settle (usleep 100000 ;; Exit 0) proc0) Running).
Proof.
  eapply wait_schedules; intros ok x1; cbn -[do_wait]; unfold do_call; cbn -[do_wait];
    rewrite (do_wait_duo (wait_pred (pids num) 0 (pids num 1) _)) by (intros; apply Z.eqb_refl); reflexivity.
Qed.

Lemma waitid_schedules :
  inev (pids num) shell reaper documented verdict_status both_over
    (wait_conf (settle (let* (result, _) := waitid P_PID (pids num 1) WEXITED in wait_verdict "waitid" result) proc0)
       (settle (usleep 100000 ;; Exit 0) proc0) Running).
Proof.
  eapply wait_schedules; intros ok x1; cbn -[do_wait]; unfold do_call; cbn -[do_wait];
    rewrite (do_wait_duo (waitid_pred (pids num) P_PID (pids num 1))) by (intros; apply Z.eqb_refl); reflexivity.
Qed.
End Wait.

(** C39.  [fork] 0, [wait4] 0 and [waitid] 0 end in every schedule, without
    deadlock: the child has exited with 0 and the parent returns [NULL].  When
    the child cannot be made, [fork] 0 reports it and the other two return [NULL]
    as well. *)
Theorem fork_wait_all_schedules num shell reaper n spinning :
  let ends run no_child :=
    inev (pids num) shell reaper documented verdict_status
      (fun c => both_over c \/ c_code c = [Dead (Done no_child)]) (boot (pids num) run) in
  ends (fork_run_000 (S n) spinning) (Some "fork() Failed."%string) /\
  ends wait4_run_000 None /\ ends waitid_run_000 None.
Proof.
  split; [apply fork_000_all_schedules|].
  split; (eapply inev_solo; [reflexivity|reflexivity|reflexivity| |
    eapply inev_solo; [reflexivity|reflexivity|reflexivity| |]; apply inev_now; now right]).
  - apply (inev_mono _ _ _ _ _ both_over); [now left|]. apply wait4_schedules.
  - apply (inev_mono _ _ _ _ _ both_over); [now left|]. apply waitid_schedules.
Qed.
