(* ===== verification/WaitAll.v ===== *)
(** * [waitid/002.c]: a parent and any number of children

    The parent makes [n] children that wait for a semaphore in shared memory,
    posts it [n] times and waits [n] times for any child.  For every number of
    children and every interleaving the test ends, all children have exited
    and are reaped, and the verdict tells whether all of them were made. *)
From S2P Require Import Prelude Process Trace TestMck MemInfo Procs Forks ForksThms.
#[local] Open Scope Z_scope.

Section WaitAll.
Context (num : nat -> positive) (shell reaper : Z) (n : nat).

(** The address of the semaphore: the system's first mapping. *)
Definition sem_at : Z := 65536.

(** ** The rest of the program of each process *)

(** The child before its call number [k]. *)
Definition child_rest (k : nat) (i : Z) : prog result :=
  let p4 := Exit 0 in
  let p3 := pid <- getpid ;; printf "[child:%5d] sleep 100+%dmsec done.\n" [PZ pid; PZ (i32 (100 * i))] ;; p4 in
  let p2 := usleep (u32 (i32 (100000 + i32 (100000 * i)))) ;; p3 in
  let p1 := munmap sem_at SIZEOF_SEM_T ;; p2 in
  match k with
  | 0%nat => sem_wait sem_at ;; p1
  | 1%nat => p1
  | 2%nat => p2
  | 3%nat => p3
  | _ => p4
  end.

Definition after_forks : prog result :=
  pid <- getpid ;;
  sem_posts n sem_at ;;
  munmap sem_at SIZEOF_SEM_T ;;
  waitid2_waits n pid.

(** ** Children *)

Inductive cstage := CLive (k : nat) | CZombie | CGone.

Definition child_entry (st : pstatus) : pentry := PEntry (Some 0%nat) (pids num 0) [] st.
Definition child_ok (s : cstage) (y : @pstate result * pentry) : Prop :=
  match s with
  | CLive k => (k <= 4)%nat /\ exists i pr, y = (settle (child_rest k i) pr, child_entry Running)
  | CZombie => y = (Dead (Exited 0), child_entry (Zombie 0))
  | CGone => y = (Dead (Exited 0), child_entry Gone)
  end.

Definition past_wait (s : cstage) : bool := match s with CLive 0 => false | _ => true end.
Definition is_reaped (s : cstage) : bool := match s with CGone => true | _ => false end.
Definition count (f : cstage -> bool) (cs : list cstage) : nat := length (List.filter f cs).

(** ** The parent *)

(** [m] children, [p] of them past the semaphore, [g] reaped; [v] is the value
    of the semaphore. *)
Inductive parent_at (m p g : nat) : Z -> @pstate result -> pstatus -> Prop :=
| PForks r i pr : (m + r <= n)%nat -> p = 0%nat -> g = 0%nat ->
    parent_at m p g 0 (settle (waitid2_forks r i sem_at after_forks) pr) Running
| PPosts r pid pr v : (m <= n)%nat -> (r <= n)%nat -> g = 0%nat -> v + Z.of_nat p + Z.of_nat r = Z.of_nat n ->
    parent_at m p g v
      (settle (sem_posts r sem_at ;; munmap sem_at SIZEOF_SEM_T ;; waitid2_waits n pid) pr) Running
| PWaits r pid pr v : (m <= n)%nat -> (g + r = n)%nat -> v + Z.of_nat p = Z.of_nat n ->
    parent_at m p g v (settle (waitid2_waits r pid) pr) Running
| PFail pr v : g = m -> (m < n)%nat ->
    parent_at m p g v (Live (Ret (Some "waitid failed."%string)) pr) Running
| PDead v st : g = m -> (m <= n)%nat ->
    parent_at m p g v (Dead (Done (if (m =? n)%nat then None else Some "waitid failed."%string))) st.

Definition conf (v : Z) (x0 : @pstate result) (st0 : pstatus) (ys : list (@pstate result * pentry)) : @config result :=
  Config (x0 :: ys.*1) (Os (PEntry None (pids num 0) [] st0 :: ys.*2) [] [(sem_at, v)] 1).

Definition wait_inv (c : @config result) : Prop :=
  exists cs ys v x0 st0,
    c = conf v x0 st0 ys /\ Forall2 child_ok cs ys /\
    parent_at (length cs) (count past_wait cs) (count is_reaped cs) v x0 st0.

(** ** Counting *)

Lemma count_insert f cs j s s' :
  cs !! j = Some s ->
  (count f (<[j := s']> cs) + (if f s then 1 else 0) = count f cs + (if f s' then 1 else 0))%nat.
Proof.
  revert j. induction cs as [|a cs IH]; intros j E; [discriminate|].
  unfold count in *. destruct j as [|j]; cbn in E.
  - injection E as ->. cbn. destruct (f s), (f s'); cbn; lia.
  - specialize (IH j E). change (<[S j := s']> (a :: cs)) with (a :: <[j := s']> cs). cbn [List.filter].
    destruct (f a); cbn [length]; lia.
Qed.

Lemma count_snoc f cs s : count f (cs ++ [s]) = (count f cs + if f s then 1 else 0)%nat.
Proof. unfold count. rewrite List.filter_app, length_app. cbn. destruct (f s); reflexivity. Qed.

Lemma count_le f cs : (count f cs <= length cs)%nat.
Proof. apply List.filter_length_le. Qed.

Lemma count_lt f cs : (count f cs < length cs)%nat -> exists j s, cs !! j = Some s /\ f s = false.
Proof.
  unfold count. induction cs as [|a cs IH]; cbn; [lia|]. intros H. destruct (f a) eqn:Ef.
  - cbn in H. destruct IH as (j & s & Hj & Hs); [lia|]. now exists (S j), s.
  - now exists 0%nat, a.
Qed.

(** ** Steps of a child *)

Lemma parent_at_post m p g v x0 st0 :
  parent_at m p g v x0 st0 -> 0 < v -> parent_at m (S p) g (v - 1) x0 st0.
Proof. intros H Hv. inversion H; subst; try lia; constructor; auto; lia. Qed.

Lemma alter_at (f : pentry -> pentry) (l : list pentry) : forall (j : nat) e, l !! j = Some e -> alter f j l = <[j := f e]> l.
Proof.
  induction l as [|a l IH]; intros [|j] e E; try discriminate; [now injection E as ->|].
  change (alter f (S j) (a :: l)) with (a :: alter f j l). rewrite (IH j e E). reflexivity.
Qed.

(** The configuration after a step of child [j]. *)
Lemma conf_child v x0 st0 ys j y x' (f : pentry -> pentry) :
  ys !! j = Some y ->
  Config (<[S j := x']> (x0 :: ys.*1))
    (Os (alter f (S j) (PEntry None (pids num 0) [] st0 :: ys.*2)) [] [(sem_at, v)] 1) =
  conf v x0 st0 (<[j := (x', f (snd y))]> ys).
Proof.
  intros E. unfold conf. rewrite !list_fmap_insert. cbn [fst snd].
  rewrite <- (alter_at f (ys.*2) j (snd y)); [reflexivity|]. now rewrite list_lookup_fmap, E.
Qed.

Lemma conf_child_code v x0 st0 ys j y x' :
  ys !! j = Some y ->
  Config (<[S j := x']> (x0 :: ys.*1)) (Os (PEntry None (pids num 0) [] st0 :: ys.*2) [] [(sem_at, v)] 1) =
  conf v x0 st0 (<[j := (x', snd y)]> ys).
Proof.
  intros E. unfold conf. rewrite !list_fmap_insert. cbn [fst snd].
  rewrite (list_insert_id (ys.*2) j (snd y)); [reflexivity|]. now rewrite list_lookup_fmap, E.
Qed.

Definition move (i : nat) (ok : bool) (c : @config result) : option config :=
  exec1 (pids num) shell reaper documented verdict_status i ok c.

(** What child [j] does next. *)
Lemma child_waits j ok v x0 st0 ys i pr :
  ys !! j = Some (settle (child_rest 0 i) pr, child_entry Running) ->
  move (S j) ok (conf v x0 st0 ys) =
  if v <=? 0 then None
  else Some (conf (v - 1) x0 st0 (<[j := (settle (child_rest 1 i) pr, child_entry Running)]> ys)).
Proof.
  intros E. unfold move, exec1. cbn [conf c_code].
  change ((x0 :: ys.*1) !! S j) with (ys.*1 !! j). rewrite list_lookup_fmap, E.
  cbn [fmap option_fmap option_map fst child_rest]. cbn -[Z.leb]. unfold do_call. cbn -[Z.leb Z.add].
  destruct (v <=? 0); [reflexivity|].
  rewrite <- (conf_child_code _ _ _ _ _ _ _ E). reflexivity.
Qed.

Lemma child_goes_on j ok v x0 st0 ys k i pr :
  ys !! j = Some (settle (child_rest k i) pr, child_entry Running) -> (1 <= k <= 3)%nat ->
  exists pr', move (S j) ok (conf v x0 st0 ys) =
    Some (conf v x0 st0 (<[j := (settle (child_rest (S k) i) pr', child_entry Running)]> ys)).
Proof.
  intros E Hk. unfold move, exec1. cbn [conf c_code].
  change ((x0 :: ys.*1) !! S j) with (ys.*1 !! j). rewrite list_lookup_fmap, E.
  assert (k = 1 \/ k = 2 \/ k = 3)%nat as [->|[->| ->]] by lia;
    eexists; rewrite <- (conf_child_code _ _ _ _ _ _ _ E); reflexivity.
Qed.

Lemma child_exits j ok v x0 st0 ys i pr :
  ys !! j = Some (settle (child_rest 4 i) pr, child_entry Running) ->
  move (S j) ok (conf v x0 st0 ys) =
  Some (conf v x0 st0 (<[j := (Dead (Exited 0), child_entry (Zombie 0))]> ys)).
Proof.
  intros E. unfold move, exec1. cbn [conf c_code].
  change ((x0 :: ys.*1) !! S j) with (ys.*1 !! j). rewrite list_lookup_fmap, E.
  pose proof (conf_child v x0 st0 ys j _ (Dead (Exited 0))
    (fun e => PEntry (pe_parent e) (pe_pgid e) [] (Zombie 0)) E) as Ec.
  cbn [snd child_entry pe_parent pe_pgid] in Ec. unfold child_entry. rewrite <- Ec. reflexivity.
Qed.

(** The invariant after a change of child [j] that keeps the counts. *)
Lemma inv_child v' x0 st0 cs ys j s s' y' :
  Forall2 child_ok cs ys -> cs !! j = Some s -> child_ok s' y' -> is_reaped s = is_reaped s' ->
  parent_at (length cs) (count past_wait (<[j := s']> cs)) (count is_reaped cs) v' x0 st0 ->
  wait_inv (conf v' x0 st0 (<[j := y']> ys)).
Proof.
  intros HF Hj Hy Hr HP. exists (<[j := s']> cs), (<[j := y']> ys), v', x0, st0.
  split; [reflexivity|]. split; [now apply Forall2_insert|].
  rewrite length_insert. pose proof (count_insert is_reaped cs j s s' Hj) as Hc. rewrite Hr in Hc.
  replace (count is_reaped (<[j := s']> cs)) with (count is_reaped cs) by lia. exact HP.
Qed.

Lemma child_inv_step j ok c c' : wait_inv c -> move (S j) ok c = Some c' -> wait_inv c'.
Proof.
  intros (cs & ys & v & x0 & st0 & -> & HF & HP) E.
  destruct (ys !! j) as [y|] eqn:Ey.
  2: { unfold move, exec1 in E. cbn [conf c_code] in E.
       change ((x0 :: ys.*1) !! S j) with (ys.*1 !! j) in E. rewrite list_lookup_fmap, Ey in E. discriminate. }
  destruct (Forall2_lookup_r _ _ _ _ _ HF Ey) as (s & Es & Hs).
  destruct s as [k| |]; cbn in Hs.
  2-3: subst y; unfold move, exec1 in E; cbn [conf c_code] in E;
       change ((x0 :: ys.*1) !! S j) with (ys.*1 !! j) in E; rewrite list_lookup_fmap, Ey in E; discriminate.
  destruct Hs as (Hk & i & pr & ->).
  pose proof (fun s' => count_insert past_wait cs j _ s' Es) as Hc.
  assert (D : (k = 0 \/ 1 <= k <= 3 \/ k = 4)%nat) by lia. destruct D as [->|[D| ->]].
  - rewrite (child_waits _ _ _ _ _ _ _ _ Ey) in E. destruct (Z.leb_spec v 0); [discriminate|]. injection E as <-.
    eapply (inv_child _ _ _ _ _ _ _ (CLive 1)); [exact HF|exact Es|split; [lia|eauto]|reflexivity|].
    specialize (Hc (CLive 1)). cbn in Hc.
    replace (count past_wait _) with (S (count past_wait cs)) by lia. now apply parent_at_post.
  - destruct (child_goes_on j ok v x0 st0 ys k i pr Ey D) as (pr' & E'). rewrite E' in E. injection E as <-.
    eapply (inv_child _ _ _ _ _ _ _ (CLive (S k))); [exact HF|exact Es|split; [lia|eauto]|reflexivity|].
    specialize (Hc (CLive (S k))). destruct k as [|k]; [lia|]. cbn in Hc.
    replace (count past_wait _) with (count past_wait cs) by lia. exact HP.
  - rewrite (child_exits _ _ _ _ _ _ _ _ Ey) in E. injection E as <-.
    eapply (inv_child _ _ _ _ _ _ _ CZombie); [exact HF|exact Es|reflexivity|reflexivity|].
    specialize (Hc CZombie). cbn in Hc.
    replace (count past_wait _) with (count past_wait cs) by lia. exact HP.
Qed.

(** ** Steps of the parent *)

Lemma parent_forks ok ys r i pr :
  exists pr', move 0 ok (conf 0 (settle (waitid2_forks (S r) i sem_at after_forks) pr) Running ys) =
  Some (conf 0 (settle (waitid2_forks r (i + 1) sem_at after_forks) pr') Running
          (if ok then ys ++ [(settle (child_rest 0 i) pr, child_entry Running)] else ys)).
Proof.
  destruct ok; eexists; [|reflexivity]. unfold conf. rewrite !fmap_app. reflexivity.
Qed.

Lemma parent_forked ok ys i pr :
  move 0 ok (conf 0 (settle (waitid2_forks 0 i sem_at after_forks) pr) Running ys) =
  Some (conf 0 (settle (sem_posts n sem_at ;; munmap sem_at SIZEOF_SEM_T ;; waitid2_waits n (pids num 0)) pr)
          Running ys).
Proof. reflexivity. Qed.

Lemma parent_posts ok ys v r pid pr :
  exists v' q, move 0 ok
    (conf v (settle (sem_posts r sem_at ;; munmap sem_at SIZEOF_SEM_T ;; waitid2_waits n pid) pr) Running ys) =
  Some (conf v' (settle q pr) Running ys) /\
  match r with
  | O => v' = v /\ q = waitid2_waits n pid
  | S r => v' = v + 1 /\ q = (sem_posts r sem_at ;; munmap sem_at SIZEOF_SEM_T ;; waitid2_waits n pid)
  end.
Proof. destruct r as [|r]; do 2 eexists; (split; [|split]); reflexivity. Qed.

(** The wait for any child, on the table of a configuration. *)
Definition any_child : nat -> pentry -> bool := waitid_pred (pids num) P_ALL 0.
Definition table st0 (ys : list (@pstate result * pentry)) : list pentry :=
  PEntry None (pids num 0) [] st0 :: ys.*2.

Lemma table_find st0 ys k : find_child 0 (table st0 ys) 0 k = find_child 1 (ys.*2) 0 k.
Proof. reflexivity. Qed.

(** An entry of the table belongs to a child. *)
Lemma table_child cs ys d e :
  Forall2 child_ok cs ys -> ys.*2 !! d = Some e -> exists s y, cs !! d = Some s /\ ys !! d = Some y /\
    child_ok s y /\ snd y = e.
Proof.
  intros HF E. rewrite list_lookup_fmap in E. destruct (ys !! d) as [y|] eqn:Ey; [|discriminate].
  destruct (Forall2_lookup_r _ _ _ _ _ HF Ey) as (s & Es & Hs). injection E as <-. eauto 7.
Qed.

Lemma child_table cs ys d s :
  Forall2 child_ok cs ys -> cs !! d = Some s -> exists y, ys.*2 !! d = Some (snd y) /\ child_ok s y.
Proof.
  intros HF Es. destruct (Forall2_lookup_l _ _ _ _ _ HF Es) as (y & Ey & Hs).
  exists y. now rewrite list_lookup_fmap, Ey.
Qed.

Lemma parent_waits ok cs ys v r pid pr :
  Forall2 child_ok cs ys ->
  let res := move 0 ok (conf v (settle (waitid2_waits (S r) pid) pr) Running ys) in
  (count is_reaped cs = length cs /\
   exists pr', res = Some (conf v (Live (Ret (Some "waitid failed."%string)) pr') Running ys)) \/
  (exists d pr', cs !! d = Some CZombie /\
     res = Some (conf v (settle (waitid2_waits r pid) pr') Running
                   (<[d := (Dead (Exited 0), child_entry Gone)]> ys))) \/
  (~ In CZombie cs /\ (count is_reaped cs < length cs)%nat /\ res = None).
Proof.
  intros HF res.
  assert (Er : exists k pr1, settle (waitid2_waits (S r) pid) pr = Live (Call (Procs (Waitid P_ALL 0 WEXITED)) k) pr1 /\
    (exists pr', settle (k (- ECHILD, - ECHILD)) pr1 = Live (Ret (Some "waitid failed."%string)) pr') /\
    (forall p, exists pr', settle (k (0, Zpos p)) pr1 = settle (waitid2_waits r pid) pr')).
  { do 2 eexists. split; [reflexivity|]. split; [|intros p]; eexists; reflexivity. }
  destruct Er as (k & pr1 & Ep & (prf & Ef) & Eg). unfold res, move, exec1. clear res.
  cbn [conf c_code lookup list_lookup]. rewrite Ep. unfold do_call. cbn [documented os_call c_os].
  change (waitid_pred (pids num) P_ALL 0) with any_child. unfold do_wait, conf. cbn [o_tab c_os c_code].
  change (PEntry None (pids num 0) [] Running :: ys.*2) with (table Running ys). rewrite !table_find.
  destruct (find_child 1 (ys.*2) 0 any_child) as [[d0 e0]|] eqn:E0.
  - right. destruct (find_child 1 (ys.*2) 0 (fun k e => any_child k e && is_zombie e)) as [[d e]|] eqn:E1.
    + left. destruct (find_child_Some _ _ _ _ _ _ E1) as (d' & -> & Hd & Hc).
      destruct (table_child _ _ _ _ HF Hd) as (s & y & Es & Ey & Hs & <-).
      assert (s = CZombie) as ->.
      { destruct s as [k'| |]; [|reflexivity|]; cbn in Hs.
        - destruct Hs as (_ & i & pr' & ->). discriminate Hc.
        - subst y. discriminate Hc. }
      destruct (Eg (num (S d'))) as (pr' & Eg'). exists d', pr'. split; [exact Es|].
      cbn in Hs. subst y. pose proof (conf_child v (settle (waitid2_waits r pid) pr') Running ys d' _
        (Dead (Exited 0)) (with_st Gone) Ey) as Ec.
      rewrite list_insert_id in Ec by exact (eq_trans (list_lookup_fmap fst ys d') (f_equal (fmap fst) Ey)).
      refine (eq_trans _ (f_equal Some Ec)). rewrite <- Eg'. reflexivity.
    + right. split; [|split; [|reflexivity]].
      * intros HI. apply list_elem_of_In, list_elem_of_lookup in HI as (d & Es).
        destruct (child_table _ _ _ _ HF Es) as (y & Ey & Hs). cbn in Hs. subst y.
        pose proof (find_child_None _ _ _ _ E1 _ _ Ey). discriminate.
      * destruct (find_child_Some _ _ _ _ _ _ E0) as (d' & -> & Hd & Hc).
        destruct (table_child _ _ _ _ HF Hd) as (s & y & Es & Ey & Hs & <-).
        pose proof (count_insert is_reaped cs d' s CGone Es) as Hn.
        pose proof (count_le is_reaped (<[d' := CGone]> cs)) as Hl. rewrite length_insert in Hl.
        assert (Hr : is_reaped s = false).
        { destruct s; [reflexivity|reflexivity|]. cbn in Hs. subst y. discriminate. }
        rewrite Hr in Hn. cbn in Hn. lia.
  - left. split.
    + pose proof (count_le is_reaped cs).
      destruct (Nat.lt_ge_cases (count is_reaped cs) (length cs)) as [Hlt|]; [|lia].
      destruct (count_lt _ _ Hlt) as (d & s & Es & Hr).
      destruct (child_table _ _ _ _ HF Es) as (y & Ey & Hs).
      pose proof (find_child_None _ _ _ _ E0 _ _ Ey) as Hc. exfalso.
      destruct s as [k'| |]; [| |discriminate]; cbn in Hs.
      * destruct Hs as (_ & i & pr' & ->). discriminate.
      * subst y. discriminate.
    + exists prf. rewrite <- Ef. reflexivity.
Qed.

Lemma parent_inv_step ok c c' : wait_inv c -> move 0 ok c = Some c' -> wait_inv c'.
Proof.
  intros (cs & ys & v & x0 & st0 & -> & HF & HP) E.
  inversion HP as [r i pr Hm Hp Hg|r pid pr v' Hm Hr Hg Hv|r pid pr v' Hm Hg Hv|pr v' Hg Hm|v' st Hg Hm]; subst.
  - destruct r as [|r].
    + rewrite parent_forked in E. injection E as <-. exists cs, ys. do 3 eexists.
      split; [reflexivity|]. split; [exact HF|]. apply PPosts; lia.
    + destruct (parent_forks ok ys r i pr) as (pr' & E'). rewrite E' in E. injection E as <-.
      destruct ok.
      * exists (cs ++ [CLive 0]). do 4 eexists. split; [reflexivity|].
        split; [apply Forall2_app; [exact HF|constructor; [split; [lia|eauto]|constructor]]|].
        rewrite length_app, !count_snoc. cbn. rewrite !Nat.add_0_r. apply PForks; lia.
      * exists cs. do 4 eexists. split; [reflexivity|]. split; [exact HF|]. apply PForks; lia.
  - destruct (parent_posts ok ys v r pid pr) as (v' & q & E' & Hq). rewrite E' in E. injection E as <-.
    exists cs, ys. do 3 eexists. split; [reflexivity|]. split; [exact HF|].
    destruct r as [|r]; destruct Hq as [-> ->]; [apply PWaits; lia|apply PPosts; lia].
  - destruct r as [|r].
    + injection E as <-. exists cs, ys. do 3 eexists. split; [reflexivity|]. split; [exact HF|].
      pose proof (count_le is_reaped cs).
      replace None with (if (length cs =? n)%nat then None else Some "waitid failed."%string)
        by (now replace (length cs =? n)%nat with true by (symmetry; apply Nat.eqb_eq; lia)).
      apply PDead; lia.
    + destruct (parent_waits ok cs ys v r pid pr HF) as [[Hall (pr' & E')]|[(d & pr' & Es & E')|(_ & _ & E')]];
        rewrite E' in E; [injection E as <-..|discriminate].
      * exists cs, ys. do 3 eexists. split; [reflexivity|]. split; [exact HF|]. apply PFail; lia.
      * exists (<[d := CGone]> cs). do 4 eexists. split; [reflexivity|].
        split; [apply Forall2_insert; [exact HF|reflexivity]|].
        pose proof (count_insert is_reaped cs d _ CGone Es) as Hc1.
        pose proof (count_insert past_wait cs d _ CGone Es) as Hc2. cbn in Hc1, Hc2.
        rewrite length_insert. apply PWaits; lia.
  - injection E as <-. exists cs, ys. do 3 eexists. split; [reflexivity|]. split; [exact HF|].
    replace (Some "waitid failed."%string) with (if (length cs =? n)%nat then None else Some "waitid failed."%string)
      by (now replace (length cs =? n)%nat with false by (symmetry; apply Nat.eqb_neq; lia)).
    apply PDead; lia.
  - discriminate.
Qed.

(** ** The end *)

(** All processes are over, all children reaped with status 0; [m] children
    were made. *)
Definition all_reaped (m : nat) (c : @config result) : Prop :=
  c_code c = Dead (Done (if (m =? n)%nat then None else Some "waitid failed."%string)) ::
             replicate m (Dead (Exited 0)) /\
  tail (o_tab (c_os c)) = replicate m (child_entry Gone).

Lemma all_gone cs ys : Forall2 child_ok cs ys -> count is_reaped cs = length cs ->
  ys = replicate (length cs) (Dead (Exited 0), child_entry Gone).
Proof.
  intros HF Hc. induction HF as [|s y cs ys Hs HF IH]; [reflexivity|].
  unfold count in *. cbn in Hc. pose proof (List.filter_length_le is_reaped cs).
  destruct s as [k| |]; cbn in Hc; [lia|lia|]. cbn in Hs. subst y. cbn. f_equal. apply IH. lia.
Qed.

(** Until the end some process can move. *)
Lemma wait_inv_moves c :
  wait_inv c -> (exists m, (m <= n)%nat /\ all_reaped m c) \/ exists i c', move i true c = Some c'.
Proof.
  intros (cs & ys & v & x0 & st0 & -> & HF & HP).
  inversion HP as [r i pr Hm Hp Hg|r pid pr v' Hm Hr Hg Hv|r pid pr v' Hm Hg Hv|pr v' Hg Hm|v' st Hg Hm]; subst.
  - right. exists 0%nat. destruct r as [|r]; [eexists; apply parent_forked|].
    destruct (parent_forks true ys r i pr) as (pr' & E). eauto.
  - right. exists 0%nat. destruct (parent_posts true ys v r pid pr) as (v' & q & E & _). eauto.
  - right. destruct r as [|r]; [exists 0%nat; eexists; reflexivity|].
    destruct (parent_waits true cs ys v r pid pr HF) as [[_ (pr' & E)]|[(d & pr' & _ & E)|(Hz & Hl & _)]]; eauto.
    destruct (count_lt _ _ Hl) as (j & s & Es & Hs).
    destruct (Forall2_lookup_l _ _ _ _ _ HF Es) as (y & Ey & Hy).
    destruct s as [k| |]; [| |discriminate].
    2: { destruct Hz. apply list_elem_of_In, list_elem_of_lookup. eauto. }
    cbn in Hy. destruct Hy as (Hk & i & pr' & ->). exists (S j).
    assert (D : (k = 0 \/ 1 <= k <= 3 \/ k = 4)%nat) by lia. destruct D as [->|[D| ->]].
    + pose proof (count_insert past_wait cs j _ CGone Es) as Hc. cbn in Hc.
      pose proof (count_le past_wait (<[j := CGone]> cs)) as Hl'. rewrite length_insert in Hl'.
      rewrite (child_waits _ _ _ _ _ _ _ _ Ey).
      destruct (Z.leb_spec v 0); [lia|]. eauto.
    + destruct (child_goes_on j true v (settle (waitid2_waits (S r) pid) pr) Running ys k i pr' Ey D) as (pr2 & E). eauto.
    + rewrite (child_exits _ _ _ _ _ _ _ _ Ey). eauto.
  - right. exists 0%nat. eexists. reflexivity.
  - left. exists (length cs). split; [exact Hm|]. rewrite (all_gone cs ys HF Hg).
    split; cbn; [|now rewrite fmap_replicate]. f_equal. now rewrite fmap_replicate.
Qed.

Lemma wait_inv_inev c : wait_inv c ->
  inev (pids num) shell reaper documented verdict_status (fun c => exists m, (m <= n)%nat /\ all_reaped m c) c.
Proof.
  apply inev_invariant. clear c. intros c Hc.
  destruct (wait_inv_moves c Hc) as [D|(i & c' & E)]; [now left|right]. split; [exists c', i, true; exact E|].
  intros c2 (j & ok & E2). destruct j as [|j].
  - exact (parent_inv_step ok c c2 Hc E2).
  - exact (child_inv_step j ok c c2 Hc E2).
Qed.

(** The configuration after [sem_init]. *)
Lemma wait_inv_start pr : wait_inv (conf 0 (settle (waitid2_forks n 0 sem_at after_forks) pr) Running []).
Proof.
  exists [], []. do 3 eexists. split; [reflexivity|]. split; [constructor|]. apply PForks; cbn; lia.
Qed.
End WaitAll.

(** C40.  [waitid] 2 for every positive number of children, every numbering of the
    processes and every interleaving: the test ends, without deadlock.  If the
    semaphore could be mapped, all children that were made have passed it, exited
    with 0 and are reaped, and the verdict is [NULL] exactly when all of them
    could be made. *)
Theorem waitid_002_all_schedules num shell reaper proc_num :
  0 < proc_num ->
  inev (pids num) shell reaper documented verdict_status
    (fun c => (exists m, (m <= Z.to_nat proc_num)%nat /\ all_reaped num (Z.to_nat proc_num) m c) \/
              c_code c = [Dead (Done (Some "semaphore mmap failed."%string))])
    (boot (pids num) (waitid_run_002 proc_num)).
Proof.
  intros Hp. unfold waitid_run_002. replace (0 <? proc_num) with true by (symmetry; now apply Z.ltb_lt).
  eapply inev_solo; [reflexivity|reflexivity|reflexivity| |].
  2: { eapply inev_solo; [reflexivity|reflexivity|reflexivity| |]; apply inev_now; right; reflexivity. }
  apply (inev_mono _ _ _ _ _ (fun c => exists m, (m <= Z.to_nat proc_num)%nat /\ all_reaped num (Z.to_nat proc_num) m c));
    [now left|].
  eapply inev_solo; [reflexivity|reflexivity|reflexivity| |]; apply wait_inv_inev, wait_inv_start.
Qed.

Lemma waitid_002_all_schedules_witness :
  inev (pids Pos.of_succ_nat) 1 1 documented verdict_status
    (fun c => (exists m, (m <= 3)%nat /\ all_reaped Pos.of_succ_nat 3 m c) \/
              c_code c = [Dead (Done (Some "semaphore mmap failed."%string))])
    (boot (pids Pos.of_succ_nat) (waitid_run_002 3)).
Proof. apply (waitid_002_all_schedules Pos.of_succ_nat 1 1 3). lia. Defined.
