(* ===== verification/Ptrace.v ===== *)
(** * Tracing helpers: [arch/arm64/arch_test_ptrace.c]

    The [ptrace] wrapper of the C library with its return conventions, the wait
    macros, and the helpers the [ptrace] tests share: they read and write the
    traced process's text, registers, signal information and debug registers.

    The addresses of static variables and of the labels in inline assembly, the
    number of instructions the compiler makes of a statement and the registers it
    chooses are the record [layout], a parameter. *)
From S2P Require Import Prelude Process CLib TestMck Procs Forks.
From Stdlib Require Import String.
#[local] Open Scope string_scope.
#[local] Open Scope Z_scope.

(** ** Constants *)

Definition SIGILL : Z := 4.
Definition SIGTRAP : Z := 5.
Definition SIGKILL : Z := 9.
Definition SIGSEGV : Z := 11.
Definition SIGSTOP : Z := 19.
Definition TRAP_BRKPT : Z := 1.
Definition TRAP_HWBKPT : Z := 4.

Definition PTRACE_TRACEME : Z := 0.
Definition PTRACE_PEEKTEXT : Z := 1.
Definition PTRACE_PEEKDATA : Z := 2.
Definition PTRACE_PEEKUSER : Z := 3.
Definition PTRACE_POKETEXT : Z := 4.
Definition PTRACE_POKEDATA : Z := 5.
Definition PTRACE_POKEUSER : Z := 6.
Definition PTRACE_CONT : Z := 7.
Definition PTRACE_KILL : Z := 8.
Definition PTRACE_SINGLESTEP : Z := 9.
Definition PTRACE_ATTACH : Z := 16.
Definition PTRACE_DETACH : Z := 17.
Definition PTRACE_SYSCALL : Z := 24.
Definition PTRACE_SETOPTIONS : Z := 0x4200.

Definition PTRACE_O_TRACESYSGOOD : Z := 0x1.
Definition PTRACE_O_TRACEFORK : Z := 0x2.
Definition PTRACE_O_TRACEVFORK : Z := 0x4.
Definition PTRACE_O_TRACECLONE : Z := 0x8.
Definition PTRACE_O_TRACEEXEC : Z := 0x10.
Definition PTRACE_O_TRACEVFORKDONE : Z := 0x20.

Definition NR_getpid : Z := 172.

(** The instruction codes of [arch_test_ptrace.h]. *)
Definition NOP_INST : Z := 0xd503201f.
Definition BRK_INST : Z := 0xd4200000.

(** ** The wait macros of [<sys/wait.h>] *)

Definition WEXITSTATUS (status : Z) : Z := Z.shiftr (Z.land status 0xff00) 8.
Definition WTERMSIG (status : Z) : Z := Z.land status 0x7f.
Definition WSTOPSIG (status : Z) : Z := WEXITSTATUS status.
Definition WIFEXITED (status : Z) : bool := WTERMSIG status =? 0.
(** [((signed char) ((status & 0x7f) + 1) >> 1) > 0] *)
Definition WIFSIGNALED (status : Z) : bool :=
  let c := Z.land status 0x7f + 1 in
  0 <? Z.shiftr (if c <? 128 then c else c - 256) 1.
Definition WIFSTOPPED (status : Z) : bool := Z.land status 0xff =? 0x7f.

(** ** System calls *)

Definition wait : prog (Z * Z) := wait4 (-1) 0.
Definition waitpid (pid options : Z) : prog (Z * Z) := wait4 pid options.
Definition kill (pid sig : Z) : prog Z :=
  r <- (trigger (Kill pid sig) : prog Z) ;; syscall_ret (-1) r.
Definition sleep (seconds : Z) : prog Z := trigger (Procs (Usleep (1000000 * seconds))).

(** [ptrace] in the C library: the error convention of every system call, except
    that a successful [PTRACE_PEEK*] sets [errno] to 0 and returns the word. *)
Definition ptrace (request pid addr data : Z) : prog Z :=
  r <- (trigger (Ptc (Req request pid addr data)) : prog Z) ;; syscall_ret (-1) r.
Definition ptrace_peek (request pid addr : Z) : prog Z :=
  r <- (trigger (Ptc (Peek request pid addr)) : prog (Z * Z)) ;;
  if is_err (fst r) then syscall_ret (-1) (fst r)
  else set_errno 0 ;; Ret (i64 (snd r)).
Definition ptrace_getsiginfo (pid : Z) : prog (Z * siginfo) :=
  r <- (trigger (Ptc (Getsiginfo pid)) : prog (Z * siginfo)) ;;
  ret <- syscall_ret (-1) (fst r) ;; Ret (ret, snd r).
Definition ptrace_setsiginfo (pid : Z) (info : siginfo) : prog Z :=
  r <- (trigger (Ptc (Setsiginfo pid info)) : prog Z) ;; syscall_ret (-1) r.
Definition ptrace_getregset (pid : Z) (r : regset) (len : Z) : prog (Z * regval r) :=
  x <- (trigger (Ptc (Getregset pid r len)) : prog (Z * regval r)) ;;
  ret <- syscall_ret (-1) (fst x) ;; Ret (ret, snd x).
Definition ptrace_setregset (pid : Z) (r : regset) (v : regval r) (len : Z) : prog Z :=
  x <- (trigger (Ptc (Setregset pid r v len)) : prog Z) ;; syscall_ret (-1) x.
Definition ptrace_geteventmsg (pid : Z) : prog (Z * Z) :=
  r <- (trigger (Ptc (Geteventmsg pid)) : prog (Z * Z)) ;;
  ret <- syscall_ret (-1) (fst r) ;; Ret (ret, snd r).

(** Static variables of type [unsigned long]. *)
Definition load_word (a : Z) : prog Z :=
  r <- (trigger (Ptc (LoadWord a)) : prog (Z + Z)) ;; or_raise r.
Definition store_word (a v : Z) : prog unit :=
  r <- (trigger (Ptc (StoreWord a v)) : prog (unit + Z)) ;; or_raise r.
Definition fill (a ch len : Z) : prog unit :=
  r <- (trigger (Ptc (Fill a ch len)) : prog (unit + Z)) ;; or_raise r.

(** ** What the compiler and the linker decide *)

Record layout := Layout {
  inst_addr : Z;     (** [&inst_addr] or [&g_inst_addr] *)
  buf : Z;           (** [&buf] *)
  nop_addr : Z;      (** [&addr] *)
  eventpid : Z;      (** [&eventpid] *)
  regno : Z;         (** [&regno[0]] *)
  gregs_buf : Z;     (** the local [gregs] of [ptrace/010.c] *)
  brk_label : Z;     (** label 1 of the first [brk] block *)
  brk_label2 : Z;    (** label 1 of the second one *)
  inst_label : Z;    (** label 1 of [get_or_do_inst] *)
  store_label : Z;   (** label 2 of [get_or_do_store_inst] *)
  inst_tail : nat;   (** instructions without a jump after the block of [get_or_do_inst] *)
  reg_out : Z;       (** the register [register_read] stores through *)
  q_out : list Z;    (** the 32 quadwords [fpregs_write] finds through its register *)
}.

Section Helpers.
Context (L : layout).

(** The [asm] statement of the tests: it stores the address of its label 1 and
    runs [nop; nop; 1: brk #0; nop]. *)
Definition asm_brk (label : Z) : prog unit :=
  (trigger (Ptc (SetX 10 label)) : prog unit) ;;
  store_word (inst_addr L) label ;;
  (trigger (Ptc (Insts (label - 8) 4)) : prog unit).

Definition MODE_GET_INST_ADDR : Z := 1.
Definition MODE_DO_INST : Z := 2.
Definition MODE_DO_STORE_INST : Z := 3.

Definition get_or_do_inst (mode : Z) : prog Z :=
  let addr := u64 (-1) in
  if mode =? MODE_GET_INST_ADDR then
    (trigger (Ptc (SetX 10 (inst_label L))) : prog unit) ;; Ret (inst_label L)
  else if mode =? MODE_DO_INST then
    (trigger (Ptc (Insts (inst_label L - 8) 4)) : prog unit) ;;
    (trigger (Ptc (Straight (inst_label L + 8) (inst_tail L))) : prog unit) ;;
    Ret 0
  else Ret addr.

Definition get_or_do_store_inst (mode buf change : Z) : prog Z :=
  let addr := u64 (-1) in
  if mode =? MODE_GET_INST_ADDR then
    (trigger (Ptc (SetX 10 (store_label L))) : prog unit) ;; Ret (store_label L)
  else if mode =? MODE_DO_STORE_INST then
    if buf =? NULL then Ret addr
    else
      (trigger (Ptc (SetX 10 change)) : prog unit) ;;
      (trigger (Ptc (StrInst (store_label L) buf change)) : prog unit) ;;
      Ret 0
  else Ret addr.

(** [register_write] loads x0 to x28 with their numbers; [fpregs_write] names its
    base register as an output, so the quadwords come from wherever it points. *)
Definition register_write : prog unit := trigger (Ptc WriteX).
Definition fpregs_write : prog unit := trigger (Ptc (WriteQ (q_out L))).
Definition fpregs_read : prog (list Z) := trigger (Ptc ReadQ).

Definition pre_getregset : prog unit := register_write ;; fpregs_write.
End Helpers.

(** ** Register sets *)

Definition SIZEOF_PT_REGS : Z := 272.
Definition SIZEOF_FPSIMD : Z := 528.
Definition SIZEOF_HWDEBUG : Z := 264.
(** [offsetof(struct user_hwdebug_state, dbg_regs) + sizeof(dbg_regs[0]) * n] *)
Definition hwdebug_len (num_reg : Z) : Z := 8 + 16 * num_reg.

Definition nt_name (r : regset) : string :=
  match r with
  | REGSET_GPR => "NT_PRSTATUS"
  | REGSET_FPR => "NT_PRFPREG"
  | REGSET_TLS => "NT_ARM_TLS"
  | REGSET_HW_BREAK => "NT_ARM_HW_BREAK"
  | REGSET_HW_WATCH => "NT_ARM_HW_WATCH"
  | REGSET_SYSTEM_CALL => "NT_ARM_SYSTEM_CALL"
  end.

(** Read a register set and go on with it, or print the error and return -1. *)
Definition getregset_or (cpid : Z) (r : regset) (len : Z) (k : regval r -> prog Z) : prog Z :=
  let* (ret, v) := ptrace_getregset cpid r len in
  if negb (ret =? 0) then perror ("ptrace(PTRACE_GETREGSET, " ++ nt_name r ++ ")") ;; Ret (-1)
  else k v.

(** The same for writing. *)
Definition setregset_or (cpid : Z) (r : regset) (v : regval r) (len : Z) (k : prog Z) : prog Z :=
  ret <- ptrace_setregset cpid r v len ;;
  if negb (ret =? 0) then perror ("ptrace(PTRACE_SETREGSET, " ++ nt_name r ++ ")") ;; Ret (-1)
  else k.

(** [for (i = 0; i < remain; i++) printf(fmt, i, x[i])] *)
Fixpoint dump (fmt : string) (f : Z -> list parg) (i : Z) (xs : list Z) : prog unit :=
  match xs with
  | [] => Ret tt
  | x :: xs' => printf fmt (PZ i :: f x) ;; dump fmt f (i + 1) xs'
  end.

Fixpoint dump_dbg (i : Z) (xs : list (Z * Z)) : prog unit :=
  match xs with
  | [] => Ret tt
  | (addr, ctrl) :: xs' =>
      printf "  dbg_regs[%02d].addr = 0x%016llx\n" [PZ i; PZ addr] ;;
      printf "  dbg_regs[%02d].ctrl = 0x%08x\n" [PZ i; PZ ctrl] ;;
      dump_dbg (i + 1) xs'
  end.

Definition dump_gpr (g : user_pt_regs) : prog unit :=
  printf "===== DUMP REGSET_GPR =====\n" [] ;;
  dump "  x%02d = 0x%016llx\n" (fun x => [PZ x]) 0 (regs g) ;;
  printf "  sp  = 0x%016llx\n" [PZ (sp g)] ;;
  printf "  pc  = 0x%016llx\n" [PZ (pc g)] ;;
  printf "  pstate = 0x%016llx\n" [PZ (pstate_bits g)] ;;
  printf "\n" [].

Definition dump_fpr (f : user_fpsimd_state) : prog unit :=
  printf "===== DUMP REGSET_FPR =====\n" [] ;;
  dump "  q%02d = 0x%016lx %016lx\n" (fun x => [PZ (u64 (Z.shiftr x 64)); PZ (u64 x)]) 0 (vregs f) ;;
  printf "  fpsr = 0x%08x\n" [PZ (fpsr f)] ;;
  printf "  fpcr = 0x%08x\n" [PZ (fpcr f)] ;;
  printf "\n" [].

Definition dump_hw (name : string) (h : user_hwdebug_state) : prog unit :=
  printf ("===== DUMP " ++ name ++ " =====\n") [] ;;
  printf "  dbg_info = 0x%08x\n" [PZ (dbg_info h)] ;;
  dump_dbg 0 (dbg_regs h) ;;
  printf "\n" [].

Definition getregset_check (cpid : Z) : prog Z :=
  getregset_or cpid REGSET_GPR SIZEOF_PT_REGS (fun gregs =>
  dump_gpr gregs ;;
  getregset_or cpid REGSET_FPR SIZEOF_FPSIMD (fun fregs =>
  dump_fpr fregs ;;
  getregset_or cpid REGSET_TLS 8 (fun tls_val =>
  printf "===== DUMP REGSET_TLS =====\n" [] ;;
  printf "  tls = 0x%016lx\n" [PZ tls_val] ;;
  printf "\n" [] ;;
  getregset_or cpid REGSET_HW_BREAK SIZEOF_HWDEBUG (fun bpoint_regs =>
  dump_hw "REGSET_HW_BREAK" bpoint_regs ;;
  getregset_or cpid REGSET_HW_WATCH SIZEOF_HWDEBUG (fun wpoint_regs =>
  dump_hw "REGSET_HW_WATCH" wpoint_regs ;;
  getregset_or cpid REGSET_SYSTEM_CALL 4 (fun syscallno =>
  printf "===== DUMP REGSET_SYSTEM_CALL =====\n" [] ;;
  printf "  syscallno = 0x%08x\n" [PZ syscallno] ;;
  printf "\n" [] ;;
  Ret 0)))))).

(** [for (i = remain - 1; 0 <= i; i--) if (i == gregs.regs[i]) break;]: the value
    of [i] after [n] rounds at most. *)
Fixpoint find_magic (n : nat) (xs : list Z) : Z :=
  match n with
  | O => -1
  | S i => if Z.of_nat i =? nth i xs 0 then Z.of_nat i else find_magic i xs
  end.

(** [~x] in 64 and 128 bits. *)
Definition not64 (x : Z) : Z := u64 (- x - 1).
Definition not128 (x : Z) : Z := (- x - 1) mod 2 ^ 128.

Definition write_tls_val : Z := 0x1234567890abcdef.
Definition write_sysno : Z := i32 0xfedcba09.

(** Write a value of one word, read it back, compare, restore the old one. *)
Definition write_and_restore (cpid : Z) (r : regset) (len : Z) (eqb : regval r -> bool) (write_val : regval r)
  (k : prog Z) : prog Z :=
  getregset_or cpid r len (fun org_val =>
  setregset_or cpid r write_val len
  (getregset_or cpid r len (fun tmp_val =>
   if eqb tmp_val then
     printf ("ptrace(PTRACE_SETREGSET, " ++ nt_name r ++ ") OK.\n") [] ;;
     setregset_or cpid r org_val len k
   else
     printf ("ptrace(PTRACE_SETREGSET, " ++ nt_name r ++ ") failed.\n") [] ;; Ret (-1)))).

Definition setregset_check (cpid gregno fregno : Z) : prog Z :=
  getregset_or cpid REGSET_GPR SIZEOF_PT_REGS (fun gregs =>
  let i := find_magic 31 (regs gregs) in
  if i =? -1 then printf "REGSET_GPR why there is no magicno ???\n" [] ;; Ret (-1)
  else
    let gregs' := UserPtRegs (<[Z.to_nat i := not64 i]> (regs gregs)) (sp gregs) (pc gregs) (pstate_bits gregs) in
    store_word gregno i ;;
    setregset_or cpid REGSET_GPR gregs' SIZEOF_PT_REGS
    (getregset_or cpid REGSET_FPR SIZEOF_FPSIMD (fun fregs =>
     let fregs' := UserFpsimdState (<[16%nat := not128 16]> (vregs fregs)) (fpsr fregs) (fpcr fregs) in
     store_word fregno 16 ;;
     setregset_or cpid REGSET_FPR fregs' SIZEOF_FPSIMD
     (write_and_restore cpid REGSET_TLS 8 (fun tmp_tls_val => tmp_tls_val =? write_tls_val) write_tls_val
      (write_and_restore cpid REGSET_SYSTEM_CALL 4 (fun tmp_sysno => tmp_sysno =? write_sysno) write_sysno
       (Ret 0)))))).

(** The word number [i] of the structure at [gregp]. *)
Definition setregset_child_check (gregno fregno gregp : Z) : prog Z :=
  x <- load_word (u64 (gregp + 8 * gregno)) ;;
  if x =? not64 gregno then
    printf "ptrace(PTRACE_SETREGSET, NT_PRSTATUS) OK.\n" [] ;;
    qdata <- fpregs_read ;;
    if nth (Z.to_nat fregno) qdata 0 =? not128 fregno then
      printf "ptrace(PTRACE_SETREGSET, NT_PRFPREG) OK.\n" [] ;; Ret 0
    else printf "fpregs[%ld] != %lx\n" [PZ (i64 fregno); PZ (not64 fregno)] ;; Ret (-1)
  else printf "gregs[%ld] != %lx\n" [PZ (i64 gregno); PZ (not64 gregno)] ;; Ret (-1).

(** ** Hardware watchpoints and breakpoints *)

(** [ctrl = kind << 3; ctrl |= ((1 << len) - 1) << 5; ctrl |= (2 << 1) | 1;] *)
Definition hw_ctrl (kind len : Z) : Z :=
  Z.lor (Z.lor (Z.shiftl kind 3) (Z.shiftl (Z.shiftl 1 len - 1) 5)) (Z.lor (Z.shiftl 2 1) 1).

Definition set_first (addr ctrl : Z) (h : user_hwdebug_state) : user_hwdebug_state :=
  UserHwdebugState (dbg_info h) (<[0%nat := (addr, ctrl)]> (dbg_regs h)).

(** [set_hw_watchpt] and [set_hw_breakpt]. *)
Definition set_hw (r : regset) (get : regval r -> user_hwdebug_state) (put : user_hwdebug_state -> regval r)
  (ctrl cpid addr : Z) : prog Z :=
  getregset_or cpid r SIZEOF_HWDEBUG (fun v =>
  let num_reg := Z.land (dbg_info (get v)) 0xff in
  setregset_or cpid r (put (set_first addr ctrl (get v))) (hwdebug_len num_reg) (Ret 0)).

Definition set_hw_watchpt : Z -> Z -> prog Z := set_hw REGSET_HW_WATCH id id (hw_ctrl 2 8).
Definition set_hw_breakpt : Z -> Z -> prog Z := set_hw REGSET_HW_BREAK id id (hw_ctrl 0 4).

(** Clear [n] entries; the array has 16, beyond them the behaviour is
    undefined: [None]. *)
Definition DBG_REGS : nat := 16.
Definition clear_regs (n : Z) (xs : list (Z * Z)) : option (list (Z * Z)) :=
  if n <=? Z.of_nat DBG_REGS then
    Some (repeat (0, 0) (Z.to_nat n) ++ drop (Z.to_nat n) xs)%list
  else None.

Section Clear.
(** What the program does after it has written beyond the array. *)
Context (undefined : prog Z).

Definition clear_hw (r : regset) (get : regval r -> user_hwdebug_state) (put : user_hwdebug_state -> regval r)
  (cpid : Z) : prog Z :=
  getregset_or cpid r SIZEOF_HWDEBUG (fun v =>
  let num_reg := Z.land (dbg_info (get v)) 0xff in
  match clear_regs num_reg (dbg_regs (get v)) with
  | Some xs => setregset_or cpid r (put (UserHwdebugState (dbg_info (get v)) xs)) (hwdebug_len num_reg) (Ret 0)
  | None => undefined
  end).

Definition clear_hw_watchpt : Z -> prog Z := clear_hw REGSET_HW_WATCH id id.
Definition clear_hw_breakpt : Z -> prog Z := clear_hw REGSET_HW_BREAK id id.
End Clear.

Definition check_trap_addr (cpid addr : Z) : prog Z :=
  getregset_or cpid REGSET_GPR SIZEOF_PT_REGS (fun gregs =>
  if pc gregs =? addr then printf "child is stopped change value addr.\n" [] ;; Ret 0
  else
    printf "child is stopped not change value addr.\n" [] ;;
    printf "expection:0x%lx, info.si_addr:0x%lx\n" [PZ addr; PZ (pc gregs)] ;;
    Ret (-1)).

(** The register set has four bytes; [sysno] is a [long] that starts as 0. *)
Definition get_check_syscallno (cpid expno : Z) : prog Z :=
  getregset_or cpid REGSET_SYSTEM_CALL 8 (fun v =>
  let sysno := u32 v in
  if sysno =? expno then printf "sysno check OK.\n" [] ;; Ret 0
  else
    printf "sysno check NG.\n" [] ;;
    printf "expection:0x%lx readsysno:0x%lx\n" [PZ expno; PZ sysno] ;;
    Ret (-1)).

Definition nop_nop : Z := Z.lor (Z.shiftl NOP_INST 32) NOP_INST.

Definition rewrite_brk_inst (cpid inst_addr : Z) : prog Z :=
  addr <- ptrace_peek PTRACE_PEEKDATA cpid inst_addr ;;
  e <- errno ;;
  if (addr =? -1) && negb (e =? 0) then perror "ptrace(PTRACE_PEEKDATA)" ;; Ret (-1)
  else
    ret <- ptrace PTRACE_POKETEXT cpid (u64 addr) nop_nop ;;
    if negb (ret =? 0) then perror "ptrace(PTRACE_POKETEXT)" ;; Ret (-1)
    else Ret 0.
