(* ===== verification/PtraceCases.v ===== *)
(** * The [ptrace] suite: [ptrace/000.c] to [ptrace/021.c]

    Every test forks a child that lets itself be traced and stops, in most tests
    at a [brk] instruction; the parent waits for the stop, changes or examines the
    child through [ptrace], lets it go on and waits for its end.  [goto out] and
    [goto cont] of the sources are the values of [label]. *)
From S2P Require Import Prelude Process CLib Arch TestMck AddrSpace FileMap Procs Forks Ptrace.
From Stdlib Require Import Ascii String.
#[local] Open Scope string_scope.
#[local] Open Scope Z_scope.

(** ** The common parts *)

(** How a parent function leaves its body: by [goto out], by [goto cont], or at
    the end with [ret = 0]. *)
Inductive label := Out | Cont | Fall.

Section Parent.
Context (cpid : Z).

(** [cont:] lets the child go on; [out:] returns. *)
Definition child_continue (ret : Z) : prog Z :=
  r <- ptrace PTRACE_CONT cpid NULL NULL ;;
  if negb (r =? 0) then perror "ptrace(PTRACE_CONT)" ;; Ret (-1) else Ret ret.
Definition cont_out (body : prog label) : prog Z :=
  l <- body ;;
  match l with
  | Out => Ret (-1)
  | Cont => child_continue (-1)
  | Fall => child_continue 0
  end.

(** A test that leaves the body with an error message. *)
Definition check (ok : bool) (l : label) (err : prog unit) (k : prog label) : prog label :=
  if ok then k else err ;; Ret l.

(** [wait child stop] *)
Definition stopped (pid status : Z) (k : prog label) : prog label :=
  if pid =? cpid then check (WIFSTOPPED status) Out (printf "child is not stopped.\n" []) k
  else perror "wait()" ;; Ret Out.
Definition wait_stop (k : prog label) : prog label :=
  let* (pid, status) := wait in stopped pid status k.

(** [if (ptrace(...)) { perror(...); goto l; }] *)
Definition request_or (l : label) (name : string) (p : prog Z) (k : prog label) : prog label :=
  r <- p ;; check (r =? 0) l (perror name) k.
Definition resume (request : Z) (name : string) (l : label) (k : prog label) : prog label :=
  request_or l name (ptrace request cpid NULL NULL) k.

(** [if (rewrite_brk_inst(cpid, &inst_addr)) goto cont;] *)
Definition rewrite_or_cont (inst_addr : Z) (k : prog label) : prog label :=
  r <- rewrite_brk_inst cpid inst_addr ;; if r =? 0 then k else Ret Cont.

(** [val = ptrace(PTRACE_PEEK..., cpid, a, NULL); if ((val == -1) && errno) ...] *)
Definition peek_or_cont (request : Z) (name : string) (a : Z) (k : Z -> prog label) : prog label :=
  val <- ptrace_peek request cpid a ;;
  e <- errno ;;
  check (negb ((val =? -1) && negb (e =? 0))) Cont (perror name) (k val).

(** The child has stopped by [SIGTRAP]; [ind] is the indentation. *)
Definition wait_trap (ind : string) (k : prog label) : prog label :=
  let* (pid, status) := wait in
  if pid =? cpid then
    check (WIFSTOPPED status) Out (printf (ind ++ "child is not stopped.\n") [])
    (check (WSTOPSIG status =? SIGTRAP) Cont
       (printf (ind ++ "child is stopped by not SIGTRAP (%d).\n") [PZ (WSTOPSIG status)])
     k)
  else perror (ind ++ "wait()") ;; Ret Out.

(** [PTRACE_GETSIGINFO] and the checks of [si_signo], [si_errno], [si_code] and
    [si_addr]; [ok] and [ng] are the messages about the address. *)
Definition check_siginfo (ind : string) (code : Z) (code_name : string) (addr : Z) (ok ng : string)
  (k : prog label) : prog label :=
  printf (ind ++ "child is stopped by SIGTRAP.\n") [] ;;
  let* (ret, info) := ptrace_getsiginfo cpid in
  check (ret =? 0) Cont (perror (ind ++ "ptrace(PTRACE_GETSIGINFO)"))
  (check (si_signo info =? SIGTRAP) Cont
     (printf (ind ++ "child si_signo(%d) != SIGTRAP(%d)\n") [PZ (si_signo info); PZ SIGTRAP])
   (printf (ind ++ "child si_signo == SIGTRAP\n") [] ;;
    check (si_errno info =? 0) Cont (printf (ind ++ "child si_errno(%d) != 0\n") [PZ (si_errno info)])
    (printf (ind ++ "child si_errno == 0\n") [] ;;
     check (si_code info =? code) Cont
       (printf (ind ++ "child si_code(%d) != " ++ code_name ++ "(%d)\n") [PZ (si_code info); PZ code])
     (printf (ind ++ "child si_code == " ++ code_name ++ "\n") [] ;;
      check (u64 (si_addr info) =? u64 addr) Cont
        (printf (ind ++ ng ++ "\n") [] ;;
         printf (ind ++ "expection:0x%lx, info.si_addr:0x%lx\n") [PZ addr; PZ (u64 (si_addr info))])
      (printf (ind ++ ok ++ "\n") [] ;; k))))).
End Parent.

(** [child_func] up to and including [PTRACE_TRACEME]. *)
Definition traceme (k : prog Z) : prog Z :=
  r <- ptrace PTRACE_TRACEME 0 NULL NULL ;;
  if negb (r =? 0) then perror "ptrace(PTRACE_TRACEME)" ;; Ret (-1) else k.

(** The end of the run functions: wait for the child, then look at the parent's result. *)
Definition wait_verdict_tp (func_ret : Z) : prog result :=
  let* (pid, status) := wait in
  if negb (pid =? -1) then
    if negb (WEXITSTATUS status =? 0) then Ret (Some "TP failed.")
    else if negb (func_ret =? 0) then Ret (Some "TP failed.")
    else Ret None
  else perror "wait()" ;; Ret (Some "wait() failed.").

(** The run function of tests 1 to 8, 10 to 12, 14, 15 and 17. *)
Definition run_traced (child_func : prog Z) (parent_func : Z -> prog Z) : prog result :=
  pid <- fork ;;
  if pid =? -1 then perror "fork()" ;; Ret (Some "fork() failed.")
  else if pid =? 0 then func_ret <- child_func ;; Exit func_ret
  else func_ret <- parent_func pid ;; wait_verdict_tp func_ret.

(** That of tests 13 and 16 also looks at a variable that is never set. *)
Definition run_traced_munmap (child_func : prog Z) (parent_func : Z -> prog Z) : prog result :=
  let ret := 0 in
  pid <- fork ;;
  if pid =? -1 then perror "fork()" ;; Ret (Some "fork() failed.")
  else if pid =? 0 then func_ret <- child_func ;; Exit func_ret
  else
    func_ret <- parent_func pid ;;
    if negb (ret =? 0) then perror "[parent] munmap()" ;; Ret (Some "munmap() failed.")
    else wait_verdict_tp func_ret.

(** That of tests 9, 19 and 20, with two semaphores in shared memory. *)
Definition run_semaphores (child_func : Z -> Z -> prog Z) (parent_func : Z -> Z -> Z -> prog Z) : prog result :=
  let map_sem := mmap NULL SIZEOF_SEM_T (Z.lor PROT_READ PROT_WRITE) (Z.lor MAP_SHARED MAP_ANONYMOUS) (-1) 0 in
  pwait <- map_sem ;;
  cwait <- map_sem ;;
  if (pwait =? MAP_FAILED) || (cwait =? MAP_FAILED) then perror "mmap()" ;; Ret (Some "mmap() failed.")
  else
    r1 <- sem_init pwait 1 0 ;;
    r2 <- sem_init cwait 1 0 ;;
    let ret := Z.lor (Z.lor 0 r1) r2 in
    if negb (ret =? 0) then perror "sem_init()" ;; Ret (Some "sem_init() failed.")
    else
      pid <- fork ;;
      if pid =? -1 then perror "fork()" ;; Ret (Some "fork() failed.")
      else if pid =? 0 then
        func_ret <- child_func cwait pwait ;;
        r1 <- munmap cwait SIZEOF_SEM_T ;;
        r2 <- munmap pwait SIZEOF_SEM_T ;;
        let ret := Z.lor (Z.lor ret r1) r2 in
        if negb (ret =? 0) then perror "[child] munmap()" ;; Exit (-1) else Exit func_ret
      else
        func_ret <- parent_func pwait cwait pid ;;
        r1 <- munmap cwait SIZEOF_SEM_T ;;
        r2 <- munmap pwait SIZEOF_SEM_T ;;
        let ret := Z.lor (Z.lor ret r1) r2 in
        if negb (ret =? 0) then perror "[parent] munmap()" ;; Ret (Some "munmap() failed.")
        else wait_verdict_tp func_ret.

Definition ptrace_case (n : Z) (run : prog result) : test_case :=
  TestCase "ptrace" n unit SETUP_EMPTY (run_const (fun _ _ => run)) TEARDOWN_EMPTY.

(** ** [ptrace/000.c] *)

Definition ptrace_run_000 : prog result :=
  child_pid <- fork ;;
  if child_pid =? -1 then Ret (Some "fork failed.")
  else if child_pid =? 0 then sleep 1 ;; Exit 0
  else
    result <- ptrace PTRACE_KILL child_pid NULL NULL ;;
    e <- errno ;;
    printf "ptrace()=%ld, errno=%d\n" [PZ result; PZ e] ;;
    Ret None.

Section Tests.
Context (L : layout).

Definition CHILD_MAGIC : Z := 0x1234567890abcdef.
Definition PARENT_MAGIC : Z := 0xffaaffaaffaaffaa.

(** The child that only stops: tests 1, 4, 7, 13, 14 and 18. *)
Definition child_brk : prog Z := traceme (asm_brk L (brk_label L) ;; Ret 0).

(** ** [ptrace/001.c] *)

Definition parent_func_001 (cpid : Z) : prog Z :=
  let* (pid, status) := wait in
  if pid =? cpid then
    if WIFSTOPPED status then
      printf "child is stopped.\n" [] ;;
      rewrite_brk_inst cpid (inst_addr L) ;;
      r <- ptrace PTRACE_CONT cpid NULL NULL ;;
      if negb (r =? 0) then perror "ptrace(PTRACE_CONT)" ;; Ret (-1) else Ret 0
    else printf "child is not stopped.\n" [] ;; Ret (-1)
  else perror "wait()" ;; Ret (-1).
Definition child_func_001 : prog Z := child_brk.
Definition ptrace_run_001 := run_traced child_func_001 parent_func_001.

(** ** [ptrace/002.c] *)

Definition child_func_002 : prog Z :=
  traceme
  (store_word (buf L) CHILD_MAGIC ;;
   asm_brk L (brk_label L) ;;
   b <- load_word (buf L) ;;
   if negb (b =? CHILD_MAGIC) then printf "why child process buf rewrite ??? (0x%lx)\n" [PZ b] ;; Ret (-1)
   else Ret 0).
Definition parent_func_002 (cpid : Z) : prog Z :=
  store_word (buf L) PARENT_MAGIC ;;
  cont_out cpid
  (wait_stop cpid
   (rewrite_or_cont cpid (inst_addr L)
    (peek_or_cont cpid PTRACE_PEEKDATA "ptrace(PTRACE_PEEKDATA)" (buf L) (fun read_val =>
     b <- load_word (buf L) ;;
     check (b =? PARENT_MAGIC) Cont (printf "why parent process buf rewrite ??? (0x%lx)\n" [PZ b])
     (check (read_val =? CHILD_MAGIC) Cont
        (printf "PTRACE_PEEKDATA read_val(0x%lx) != 0x%lx\n" [PZ read_val; PZ CHILD_MAGIC])
      (printf "PTRACE_PEEKDATA read_val(0x%lx) == 0x%lx\n" [PZ read_val; PZ CHILD_MAGIC] ;; Ret Fall)))))).
Definition ptrace_run_002 := run_traced child_func_002 parent_func_002.

(** ** [ptrace/003.c] *)

Definition child_func_003 : prog Z :=
  traceme
  (addr <- get_or_do_inst L MODE_GET_INST_ADDR ;;
   store_word (nop_addr L) addr ;;
   asm_brk L (brk_label L) ;;
   Ret 0).
Definition parent_func_003 (cpid : Z) : prog Z :=
  cont_out cpid
  (wait_stop cpid
   (rewrite_or_cont cpid (inst_addr L)
    (peek_or_cont cpid PTRACE_PEEKDATA "ptrace(PTRACE_PEEKDATA)" (nop_addr L) (fun read_val =>
     peek_or_cont cpid PTRACE_PEEKTEXT "ptrace(PTRACE_PEEKTEXT)" (u64 read_val) (fun read_val =>
     let inst_code := u32 (Z.shiftr read_val 32) in
     check (inst_code =? NOP_INST) Cont
       (printf "PTRACE_PEEKTEXT inst_code(0x%x) != 0x%lx\n" [PZ inst_code; PZ NOP_INST])
     (printf "PTRACE_PEEKTEXT inst_code(0x%x) == 0x%lx\n" [PZ inst_code; PZ NOP_INST] ;; Ret Fall)))))).
Definition ptrace_run_003 := run_traced child_func_003 parent_func_003.

(** ** [ptrace/004.c] and [ptrace/007.c] *)

(** The request must fail with [EIO]. *)
Definition expect_eio (name : string) (read_val : Z) : prog label :=
  e <- errno ;;
  check (negb (negb (read_val =? -1) && (e =? 0))) Cont (printf ("ptrace(" ++ name ++ ") why successed ???\n") [])
  (e <- errno ;;
   check (e =? EIO) Cont
     (e <- errno ;;
      printf ("ptrace(" ++ name ++ ") unexpected errno(%d)\n") [PZ e] ;;
      printf "expected errno = EIO(%d)\n" [PZ EIO])
   (printf ("ptrace(" ++ name ++ ") expected errno EIO(%d) catch\n") [PZ EIO] ;; Ret Fall)).

Definition parent_func_004 (cpid : Z) : prog Z :=
  cont_out cpid
  (wait_stop cpid
   (rewrite_or_cont cpid (inst_addr L)
    (read_val <- ptrace_peek PTRACE_PEEKUSER cpid 0 ;; expect_eio "PTRACE_PEEKUSER" read_val))).
Definition child_func_004 : prog Z := child_brk.
Definition ptrace_run_004 := run_traced child_func_004 parent_func_004.

Definition parent_func_007 (cpid : Z) : prog Z :=
  cont_out cpid
  (wait_stop cpid
   (rewrite_or_cont cpid (inst_addr L)
    (read_val <- ptrace PTRACE_POKEUSER cpid 0 0 ;; expect_eio "PTRACE_POKEUSER" read_val))).
Definition child_func_007 : prog Z := child_brk.
Definition ptrace_run_007 := run_traced child_func_007 parent_func_007.

(** ** [ptrace/005.c] *)

Definition child_func_005 : prog Z :=
  traceme
  (store_word (buf L) CHILD_MAGIC ;;
   b <- load_word (buf L) ;;
   printf "before PTRACE_POKEDATA buf(0x%lx)\n" [PZ b] ;;
   asm_brk L (brk_label L) ;;
   b <- load_word (buf L) ;;
   if b =? PARENT_MAGIC then printf "after PTRACE_POKEDATA buf(0x%lx) == 0x%lx\n" [PZ b; PZ PARENT_MAGIC] ;; Ret 0
   else printf "after PTRACE_POKEDATA buf(0x%lx) != 0x%lx\n" [PZ b; PZ PARENT_MAGIC] ;; Ret (-1)).
Definition parent_func_005 (cpid : Z) : prog Z :=
  store_word (buf L) CHILD_MAGIC ;;
  cont_out cpid
  (wait_stop cpid
   (rewrite_or_cont cpid (inst_addr L)
    (request_or Cont "ptrace(PTRACE_POKEDATA)" (ptrace PTRACE_POKEDATA cpid (buf L) PARENT_MAGIC)
     (b <- load_word (buf L) ;;
      check (b =? CHILD_MAGIC) Cont (printf "why parent process buf rewrite ??? (0x%lx)\n" [PZ b]) (Ret Fall))))).
Definition ptrace_run_005 := run_traced child_func_005 parent_func_005.

(** ** [ptrace/006.c] *)

(** The child of tests 6, 12 and 17. *)
Definition child_do_inst : prog Z :=
  traceme
  (addr <- get_or_do_inst L MODE_GET_INST_ADDR ;;
   store_word (nop_addr L) addr ;;
   addr <- load_word (nop_addr L) ;;
   if addr =? u64 (-1) then printf "get_or_do_rewrite_inst(MODE_GET_INST_ADDR) failed.\n" [] ;; Ret (-1)
   else
     asm_brk L (brk_label L) ;;
     r <- get_or_do_inst L MODE_DO_INST ;;
     if negb (r =? 0) then printf "get_or_do_rewrite_inst(MODE_DO_INST) failed.\n" [] ;; Ret (-1)
     else Ret 0).

(** Both tests put a [brk] in place of the instruction at label 1 of
    [get_or_do_inst]; the second check looks at [read_val] again. *)
Definition plant_brk (cpid : Z) (k : Z -> Z -> prog label) : prog label :=
  wait_stop cpid
  (rewrite_or_cont cpid (inst_addr L)
   (peek_or_cont cpid PTRACE_PEEKDATA "ptrace(PTRACE_PEEKDATA)" (nop_addr L) (fun read_val =>
    inst_val <- ptrace_peek PTRACE_PEEKTEXT cpid (u64 read_val) ;;
    e <- errno ;;
    check (negb ((read_val =? -1) && negb (e =? 0))) Cont (perror "ptrace(PTRACE_PEEKTEXT)")
    (let write_val := i64 (Z.lor (Z.land (u64 inst_val) 0xffffffff00000000) BRK_INST) in
     request_or Cont "ptrace(PTRACE_POKETEXT)" (ptrace PTRACE_POKETEXT cpid (u64 read_val) (u64 write_val))
     (resume cpid PTRACE_CONT "ptrace(PTRACE_CONT)" Out (k read_val inst_val)))))).

Definition restore_inst (cpid read_val inst_val : Z) (k : prog label) : prog label :=
  request_or Cont "ptrace(PTRACE_POKETEXT)" (ptrace PTRACE_POKETEXT cpid (u64 read_val) (u64 inst_val)) k.

Definition parent_func_006 (cpid : Z) : prog Z :=
  cont_out cpid
  (plant_brk cpid (fun read_val inst_val =>
   wait_trap cpid ""
   (check_siginfo cpid "" TRAP_BRKPT "TRAP_BRKPT" read_val
      "child is stopped change TEXT addr." "child is stopped not change TEXT addr."
    (restore_inst cpid read_val inst_val (Ret Fall))))).
Definition child_func_006 : prog Z := child_do_inst.
Definition ptrace_run_006 := run_traced child_func_006 parent_func_006.

(** ** [ptrace/008.c] *)

Definition child_func_008 : prog Z := traceme (pre_getregset L ;; asm_brk L (brk_label L) ;; Ret 0).
Definition parent_func_008 (cpid : Z) : prog Z :=
  cont_out cpid
  (wait_stop cpid
   (rewrite_or_cont cpid (inst_addr L)
    (r <- getregset_check cpid ;; check (r =? 0) Cont (printf "getregset_check failed.\n" []) (Ret Fall)))).
Definition ptrace_run_008 := run_traced child_func_008 parent_func_008.

(** ** [ptrace/009.c] *)

Definition child_func_009 (swait swake : Z) : prog Z :=
  traceme (sem_post swake ;; sem_wait swait ;; Ret 0).
Definition parent_func_009 (swait swake cpid : Z) : prog Z :=
  sem_wait swait ;;
  r <- kill cpid SIGSTOP ;;
  if negb (r =? 0) then perror "kill()" ;; Ret (-1)
  else
    sem_post swake ;;
    cont_out cpid
    (wait_stop cpid
     (let* (ret, info) := ptrace_getsiginfo cpid in
      check (ret =? 0) Cont (perror "ptrace(PTRACE_GETSIGINFO)")
      (printf "si_signo = 0x%x\n" [PZ (si_signo info)] ;;
       printf "si_errno = 0x%x\n" [PZ (si_errno info)] ;;
       printf "si_code  = 0x%x\n" [PZ (si_code info)] ;;
       check (si_signo info =? SIGSTOP) Cont (printf "si_signo value invalid, expection SIGSTOP(0x%x)\n" [PZ SIGSTOP])
       (check (si_errno info =? 0) Cont (printf "si_errno value invalid, expection 0\n" [])
        (check (si_code info =? 0) Cont (printf "si_code value invalid, expection 0\n" []) (Ret Fall)))))).
Definition ptrace_run_009 := run_semaphores child_func_009 parent_func_009.

(** ** [ptrace/010.c] *)

(** [register_read(buf)] names its base register as an output: x0 to x29 are
    stored wherever it points. *)
Fixpoint store_words (a : Z) (xs : list Z) : prog unit :=
  match xs with
  | [] => Ret tt
  | x :: xs' => store_word a x ;; store_words (u64 (a + 8)) xs'
  end.
Definition register_read : prog unit :=
  xs <- (trigger (Ptc ReadX) : prog (list Z)) ;; store_words (reg_out L) xs.

Definition child_func_010 : prog Z :=
  fill (gregs_buf L) 0 SIZEOF_PT_REGS ;;
  traceme
  (pre_getregset L ;;
   asm_brk L (brk_label L) ;;
   register_read ;;
   regno0 <- load_word (regno L) ;;
   regno1 <- load_word (regno L + 8) ;;
   r <- setregset_child_check regno0 regno1 (gregs_buf L) ;;
   if negb (r =? 0) then printf "setregset_child_check failed.\n" [] ;; Ret (-1) else Ret 0).

Definition parent_func_010 (cpid : Z) : prog Z :=
  cont_out cpid
  (wait_stop cpid
   (rewrite_or_cont cpid (inst_addr L)
    (r <- setregset_check cpid (regno L) (regno L + 8) ;;
     check (r =? 0) Cont (printf "setregset_check failed.\n" [])
     (regno0 <- load_word (regno L) ;;
      request_or Cont "ptrace(PTRACE_POKEDATA)" (ptrace PTRACE_POKEDATA cpid (regno L) regno0)
      (regno1 <- load_word (regno L + 8) ;;
       request_or Cont "ptrace(PTRACE_POKEDATA)" (ptrace PTRACE_POKEDATA cpid (regno L + 8) regno1) (Ret Fall)))))).
Definition ptrace_run_010 := run_traced child_func_010 parent_func_010.

(** ** [ptrace/011.c] *)

Definition STORE_MAGIC : Z := 0xcafecafecafecafe.

Definition child_func_011 : prog Z :=
  traceme
  (addr <- get_or_do_store_inst L MODE_GET_INST_ADDR NULL 0 ;;
   store_word (nop_addr L) addr ;;
   addr <- load_word (nop_addr L) ;;
   if addr =? u64 (-1) then printf "get_or_do_store_inst(MODE_GET_INST_ADDR) failed.\n" [] ;; Ret (-1)
   else
     asm_brk L (brk_label L) ;;
     r <- get_or_do_store_inst L MODE_DO_STORE_INST (buf L) STORE_MAGIC ;;
     if negb (r =? 0) then printf "get_or_do_store_inst(MODE_DO_STORE_INST) failed.\n" [] ;; Ret (-1)
     else Ret 0).

Section Debug.
Context (undefined : prog Z).

Definition parent_func_011 (cpid : Z) : prog Z :=
  cont_out cpid
  (wait_stop cpid
   (rewrite_or_cont cpid (inst_addr L)
    (peek_or_cont cpid PTRACE_PEEKDATA "ptrace(PTRACE_PEEKDATA)" (nop_addr L) (fun inst_addr =>
     r <- set_hw_watchpt cpid (buf L) ;;
     check (r =? 0) Cont (printf "set_hw_watchpt failed.\n" [])
     (resume cpid PTRACE_CONT "ptrace(PTRACE_CONT)" Out
      (wait_trap cpid ""
       (check_siginfo cpid "" TRAP_HWBKPT "TRAP_HWBKPT" (buf L)
          "child si_addr == change value addr" "child si_addr != change value addr"
        (r <- check_trap_addr cpid (u64 inst_addr) ;;
         check (r =? 0) Cont (printf "check_trap_addr failed.\n" [])
         (r <- clear_hw_watchpt undefined cpid ;;
          check (r =? 0) Cont (printf "clear_hw_watchpt failed.\n" []) (Ret Fall)))))))))).
Definition ptrace_run_011 := run_traced child_func_011 parent_func_011.

(** ** [ptrace/012.c] *)

Definition parent_func_012 (cpid : Z) : prog Z :=
  cont_out cpid
  (wait_stop cpid
   (rewrite_or_cont cpid (inst_addr L)
    (peek_or_cont cpid PTRACE_PEEKDATA "ptrace(PTRACE_PEEKDATA)" (nop_addr L) (fun inst_addr =>
     r <- set_hw_breakpt cpid (u64 inst_addr) ;;
     check (r =? 0) Cont (printf "set_hw_breakpt failed.\n" [])
     (resume cpid PTRACE_CONT "ptrace(PTRACE_CONT)" Out
      (wait_trap cpid ""
       (check_siginfo cpid "" TRAP_HWBKPT "TRAP_HWBKPT" (u64 inst_addr)
          "child si_addr == hwbreakpoint addr" "child si_addr != hwbreakpoint addr"
        (r <- clear_hw_breakpt undefined cpid ;;
         check (r =? 0) Cont (printf "clear_hw_breakpt failed.\n" []) (Ret Fall))))))))).
Definition child_func_012 : prog Z := child_do_inst.
Definition ptrace_run_012 := run_traced child_func_012 parent_func_012.
End Debug.

(** ** [ptrace/013.c] *)

(** [uninit] is the address member of the local [write_info], which is never set. *)
Definition parent_func_013 (uninit cpid : Z) : prog Z :=
  cont_out cpid
  (wait_stop cpid
   (rewrite_or_cont cpid (inst_addr L)
    (let* (ret, org_info) := ptrace_getsiginfo cpid in
     check (ret =? 0) Cont (perror "ptrace(PTRACE_GETSIGINFO)")
     (let write_info := Siginfo (i32 (si_signo org_info + 1)) (i32 (si_errno org_info + 1))
                                (i32 (si_code org_info + 1)) uninit in
      request_or Cont "ptrace(PTRACE_SETSIGINFO)" (ptrace_setsiginfo cpid write_info)
      (let* (ret, tmp_info) := ptrace_getsiginfo cpid in
       check (ret =? 0) Cont (perror "ptrace(PTRACE_GETSIGINFO)")
       (check (si_signo write_info =? si_signo tmp_info) Cont (printf "si_signo not change.\n" [])
        (check (si_errno write_info =? si_errno tmp_info) Cont (printf "si_errno not change.\n" [])
         (check (si_code write_info =? si_code tmp_info) Cont (printf "si_code not change.\n" [])
          (printf "siginfo change value check OK.\n" [] ;;
           request_or Cont "ptrace(PTRACE_SETSIGINFO)" (ptrace_setsiginfo cpid org_info) (Ret Fall)))))))))).
Definition child_func_013 : prog Z := child_brk.
Definition ptrace_run_013 (uninit : Z) := run_traced_munmap child_func_013 (parent_func_013 uninit).

(** ** [ptrace/014.c] *)

Definition supported_options : Z :=
  fold_right Z.lor 0
    [PTRACE_O_TRACESYSGOOD; PTRACE_O_TRACEFORK; PTRACE_O_TRACEVFORK; PTRACE_O_TRACECLONE;
     PTRACE_O_TRACEEXEC; PTRACE_O_TRACEVFORKDONE].
Definition illegal_options : Z := 0x1234567890abcdef.

Definition parent_func_014 (cpid : Z) : prog Z :=
  cont_out cpid
  (wait_stop cpid
   (rewrite_or_cont cpid (inst_addr L)
    (request_or Cont "ptrace(PTRACE_SETOPTIONS)" (ptrace PTRACE_SETOPTIONS cpid 0 supported_options)
     (printf "set supported options, OK.\n" [] ;;
      r <- ptrace PTRACE_SETOPTIONS cpid 0 illegal_options ;;
      check (negb (r =? 0)) Cont (printf "ptrace(PTRACE_SETOPTIONS) why successed illigal option ???\n" [])
      (e <- errno ;;
       check (e =? EINVAL) Cont (printf "set illigal option, errno(%d) != EINVAL(%d).\n" [PZ e; PZ EINVAL])
       (printf "set illigal option, errno == EINVAL.\n" [] ;; Ret Fall)))))).
Definition child_func_014 : prog Z := child_brk.
Definition ptrace_run_014 := run_traced child_func_014 parent_func_014.

(** ** [ptrace/015.c] *)

Definition child_func_015 : prog Z :=
  traceme
  (asm_brk L (brk_label L) ;;
   gcpid <- fork ;;
   if gcpid =? -1 then perror "grandchild fork()" ;; Ret (-1)
   else if gcpid =? 0 then Exit 0
   else
     store_word (eventpid L) (u64 gcpid) ;;
     ev <- load_word (eventpid L) ;;
     printf "eventpid = 0x%lx\n" [PZ ev] ;;
     asm_brk L (brk_label2 L) ;;
     Ret 0).

Definition parent_func_015 (cpid : Z) : prog Z :=
  cont_out cpid
  (wait_stop cpid
   (rewrite_or_cont cpid (inst_addr L)
    (request_or Cont "ptrace(PTRACE_SETOPTIONS)" (ptrace PTRACE_SETOPTIONS cpid NULL PTRACE_O_TRACEFORK)
     (resume cpid PTRACE_CONT "ptrace(PTRACE_CONT)" Out
      (wait_stop cpid
       (resume cpid PTRACE_CONT "ptrace(PTRACE_CONT)" Out
        (let* (pid, status) := waitpid cpid 0 in
         stopped cpid pid status
         (rewrite_or_cont cpid (inst_addr L)
          (peek_or_cont cpid PTRACE_PEEKDATA "ptrace(PTRACE_PEEKDATA)" (eventpid L) (fun read_val =>
           let* (ret, eventmsg) := ptrace_geteventmsg cpid in
           check (ret =? 0) Cont (perror "ptrace(PTRACE_GETEVENTMSG)")
           (check (u64 read_val =? eventmsg) Cont
              (printf "eventmsg value NG.\n" [] ;;
               printf "expection:0x%lx eventmsg:0x%lx\n" [PZ (u64 read_val); PZ eventmsg])
            (printf "eventmsg value OK.\n" [] ;;
             kill (i32 eventmsg) SIGKILL ;;
             Ret Fall)))))))))))).
Definition ptrace_run_015 := run_traced child_func_015 parent_func_015.

(** ** [ptrace/016.c] *)

Definition child_func_016 : prog Z := traceme (asm_brk L (brk_label L) ;; getpid ;; Ret 0).
Definition parent_func_016 (cpid : Z) : prog Z :=
  cont_out cpid
  (wait_stop cpid
   (rewrite_or_cont cpid (inst_addr L)
    (resume cpid PTRACE_SYSCALL "ptrace(PTRACE_SYSCALL)" Cont
     (wait_stop cpid
      (r <- get_check_syscallno cpid NR_getpid ;;
       check (r =? 0) Cont (printf "get_check_syscallno failed.\n" []) (Ret Fall)))))).
Definition ptrace_run_016 := run_traced_munmap child_func_016 parent_func_016.

(** ** [ptrace/017.c] *)

(** [n] rounds of the single step loop. *)
Fixpoint step_loop (n : nat) (cpid i read_val : Z) (k : prog label) : prog label :=
  match n with
  | O => k
  | S n =>
      printf "[count%02d]\n" [PZ i] ;;
      resume cpid PTRACE_SINGLESTEP "  ptrace(PTRACE_SINGLESTEP)" Cont
      (wait_trap cpid "  "
       (check_siginfo cpid "  " TRAP_HWBKPT "TRAP_HWBKPT" read_val
          "child is stopped singlestep addr." "child is stopped not singlestep addr."
        (step_loop n cpid (i + 1) (i64 (read_val + 4)) k)))
  end.
Definition loop_count : nat := 5.

Definition parent_func_017 (cpid : Z) : prog Z :=
  cont_out cpid
  (plant_brk cpid (fun read_val inst_val =>
   wait_trap cpid ""
   (restore_inst cpid read_val inst_val
    (step_loop loop_count cpid 0 (i64 (read_val + 4)) (Ret Fall))))).
Definition child_func_017 : prog Z := child_do_inst.
Definition ptrace_run_017 := run_traced child_func_017 parent_func_017.

(** ** [ptrace/018.c] *)

Definition parent_func_018 (cpid : Z) : prog Z :=
  let* (pid, status) := wait in
  if pid =? cpid then
    if negb (WIFSTOPPED status) then printf "child is not stopped.\n" [] ;; Ret (-1)
    else
      rewrite_brk_inst cpid (inst_addr L) ;;
      r <- ptrace PTRACE_KILL cpid NULL NULL ;;
      if negb (r =? 0) then perror "ptrace(PTRACE_KILL)" ;; Ret (-1) else Ret 0
  else perror "wait()" ;; Ret (-1).

Definition child_func_018 : prog Z := child_brk.
Definition ptrace_run_018 : prog result :=
  pid <- fork ;;
  if pid =? -1 then perror "fork()" ;; Ret (Some "fork() failed.")
  else if pid =? 0 then func_ret <- child_func_018 ;; Exit func_ret
  else
    func_ret <- parent_func_018 pid ;;
    let* (pid, status) := wait in
    if negb (pid =? -1) then
      if WIFSIGNALED status then
        if negb (WTERMSIG status =? SIGKILL) then Ret (Some "child is not terminated by SIGKILL")
        else
          printf "child terminated by SIGKILL\n" [] ;;
          if negb (func_ret =? 0) then Ret (Some "TP failed.") else Ret None
      else Ret (Some "child is not terminated by signal")
    else perror "wait()" ;; Ret (Some "wait() failed.").
End Tests.

(** ** [ptrace/019.c] and [ptrace/020.c] *)

Definition child_sems (swait swake : Z) : prog Z := sem_post swake ;; sem_wait swait ;; Ret 0.

(** Attach to the child, wake it up and wait until it has stopped; [k] follows. *)
Definition attach_and_wait (swait swake cpid : Z) (k : prog Z) : prog Z :=
  sem_wait swait ;;
  r <- ptrace PTRACE_ATTACH cpid NULL NULL ;;
  if negb (r =? 0) then perror "ptrace(PTRACE_ATTACH)" ;; Ret (-1)
  else
    sem_post swake ;;
    let* (pid, status) := wait in
    if pid =? cpid then
      if negb (WIFSTOPPED status) then printf "child is not stopped.\n" [] ;; Ret (-1) else k
    else perror "wait()" ;; Ret (-1).

Definition parent_func_019 (swait swake cpid : Z) : prog Z :=
  attach_and_wait swait swake cpid
  (printf "child is stopped.\n" [] ;;
   r <- ptrace PTRACE_CONT cpid NULL NULL ;;
   if negb (r =? 0) then perror "ptrace(PTRACE_CONT)" ;; Ret (-1) else Ret 0).
Definition child_func_019 : Z -> Z -> prog Z := child_sems.
Definition ptrace_run_019 := run_semaphores child_func_019 parent_func_019.

Definition parent_func_020 (swait swake cpid : Z) : prog Z :=
  attach_and_wait swait swake cpid
  (r <- ptrace PTRACE_DETACH cpid NULL NULL ;;
   if negb (r =? 0) then perror "ptrace(PTRACE_DETACH)" ;; Ret (-1)
   else printf "child detach OK.\n" [] ;; Ret 0).
Definition child_func_020 : Z -> Z -> prog Z := child_sems.
Definition ptrace_run_020 := run_semaphores child_func_020 parent_func_020.

(** ** [ptrace/021.c] *)

Section Device.
Context `{ArchConfig} (L : layout).
(** The request number [TEST_MCK_MMAP_DEV2_BUF_RESET], a macro of the Linux headers. *)
Context (BUF_RESET : Z).

(** The text sent through the pipe: [snprintf(addr, 32, "0x%lx", p)] in an array
    of zeros, and what the parent reads from it. *)
Definition addr_size : nat := 32.
Definition pad (n : nat) (bytes : list Z) : list Z := (take n bytes ++ repeat 0 (n - List.length bytes))%list.
Definition addr_bytes (p : Z) : list Z :=
  pad addr_size (take (addr_size - 1) (map code (list_ascii_of_string (print_hex p)))).
Fixpoint c_string (bytes : list Z) : string :=
  match bytes with
  | [] => ""
  | b :: bytes' => if b =? 0 then "" else String (ascii_of_N (Z.to_N b)) (c_string bytes')
  end.
Definition read_addr (bytes : list Z) : Z := cv_val (strtoul (c_string (pad addr_size bytes)) 0).

Definition child_func_021 (writefd : Z) : prog result :=
  devfd <- open "/dev/test_mck/mmap_dev2" O_RDWR ;;
  tp_assert! (negb (devfd =? -1), Some "open mmap_dev2 error.") ;;
  state <- (r <- (trigger (Filec (Ioctl devfd BUF_RESET)) : prog Z) ;; syscall_ret (-1) r) ;;
  tp_assert! (negb (state =? -1), Some "ioctl error.") ;;
  devmap <- mmap 0 PAGE_SIZE (Z.lor PROT_READ PROT_WRITE) (Z.lor MAP_SHARED MAP_POPULATE) devfd 0 ;;
  tp_assert! (negb (devmap =? MAP_FAILED), Some "mmap error") ;;
  fill devmap 0 PAGE_SIZE ;;
  state <- write writefd (addr_bytes devmap) ;;
  tp_assert! (negb (state =? -1), Some "write error") ;;
  lstate <- ptrace PTRACE_TRACEME 0 NULL NULL ;;
  tp_assert! (negb (lstate =? -1), Some "ptrace(PTRACE_TRACEME)") ;;
  asm_brk L (brk_label L) ;;
  x <- load_word devmap ;;
  tp_assert! (negb (x =? 0), Some "PTRACE_POKEDATA failed") ;;
  munmap devmap PAGE_SIZE ;;
  close devfd ;;
  Ret None.

(** [cont:] of the parent: [msg] is the message so far. *)
Definition cont_021 (cpid : Z) (msg : result) : prog result :=
  lstate <- ptrace PTRACE_CONT cpid NULL NULL ;;
  if lstate =? -1 then Ret (Some "ptrace(PTRACE_CONT)") else Ret msg.

Definition parent_func_021 (cpid readfd : Z) : prog result :=
  let* (state, bytes) := read readfd (Z.of_nat addr_size) in
  if state =? -1 then Ret (Some "read error")
  else
    let devmap := read_addr bytes in
    let* (pid, state) := wait in
    if negb (pid =? cpid) then cont_021 cpid (Some "wait error")
    else if negb (WIFSTOPPED state) then cont_021 cpid (Some "child is not stopped.")
    else
      r <- rewrite_brk_inst cpid (inst_addr L) ;;
      if negb (r =? 0) then cont_021 cpid None
      else
        lstate <- ptrace PTRACE_POKEDATA cpid devmap 0xFFFFFFFF ;;
        if lstate =? -1 then cont_021 cpid (Some "ptrace(PTRACE_POKEDATA)") else cont_021 cpid None.

Definition ptrace_run_021 : prog result :=
  let* (state, pipefd) := pipe in
  tp_assert! (state =? 0, Some "pipe error.") ;;
  pid <- fork ;;
  tp_assert! (negb (pid =? -1), Some "fork error") ;;
  if pid =? 0 then
    close (fst pipefd) ;;
    msg <- child_func_021 (snd pipefd) ;;
    close (snd pipefd) ;;
    match msg with
    | Some m => printf "%s\n" [PS m] ;; Exit (-1)
    | None => Exit 0
    end
  else
    close (snd pipefd) ;;
    msg <- parent_func_021 pid (fst pipefd) ;;
    close (fst pipefd) ;;
    match msg with
    | Some m => Ret (Some m)
    | None =>
        let* (pid, state) := wait in
        tp_assert! (negb (pid =? -1), Some "wait error") ;;
        tp_assert! (WIFEXITED state, Some "WIFEXITED error.") ;;
        tp_assert! (WEXITSTATUS state =? 0, Some "WEXITSTATUS error") ;;
        Ret None
    end.
End Device.

(** ** The suite *)

Section Suite.
Context `{ArchConfig} (L : layout) (undefined : prog Z) (uninit BUF_RESET : Z).

Definition ptrace_runs : list (prog result) :=
  [ ptrace_run_000; ptrace_run_001 L; ptrace_run_002 L; ptrace_run_003 L; ptrace_run_004 L; ptrace_run_005 L;
    ptrace_run_006 L; ptrace_run_007 L; ptrace_run_008 L; ptrace_run_009; ptrace_run_010 L;
    ptrace_run_011 L undefined; ptrace_run_012 L undefined; ptrace_run_013 L uninit; ptrace_run_014 L;
    ptrace_run_015 L; ptrace_run_016 L; ptrace_run_017 L; ptrace_run_018 L; ptrace_run_019; ptrace_run_020;
    ptrace_run_021 L BUF_RESET ].
Definition ptrace_cases : list test_case :=
  imap (fun n run => ptrace_case (Z.of_nat n) run) ptrace_runs.
End Suite.

(** ** The address of test 21 *)

Definition nonzero (c : ascii) : Prop := code c <> 0.

Lemma digit_char_text d : 0 <= d < 16 -> nonzero (digit_char d).
Proof.
  intros Hd. unfold nonzero, code, digit_char.
  rewrite N_ascii_embedding; case_match; lia.
Qed.

Lemma print_digits_short fuel : forall k n acc, 0 <= n < 16 ^ (Z.of_nat k + 1) ->
  (String.length (print_digits fuel 16 n acc) <= S k + String.length acc)%nat.
Proof.
  induction fuel as [|fuel IH]; intros k n acc Hn; cbn [print_digits]; [lia|].
  case_match; [cbn; lia|]. destruct k as [|k].
  - rewrite Z.div_small in H by (cbn in Hn; lia). discriminate.
  - pose proof (IH k (n / 16) (String (digit_char (n mod 16)) acc)) as L. cbn [String.length] in L.
    etransitivity; [apply L|lia]. rewrite Nat2Z.inj_succ in Hn.
    replace (Z.succ (Z.of_nat k) + 1) with (1 + (Z.of_nat k + 1)) in Hn by lia.
    rewrite Z.pow_add_r in Hn by lia. split; [apply Z.div_pos; lia|apply Z.div_lt_upper_bound; lia].
Qed.

Lemma c_string_text cs rest :
  Forall nonzero cs -> c_string ((map code cs ++ 0 :: rest)%list) = string_of_list_ascii cs.
Proof.
  induction 1 as [|c cs Hc _ IH]; [reflexivity|]. cbn [map app c_string string_of_list_ascii]. 
  apply Z.eqb_neq in Hc. rewrite Hc, IH. f_equal. unfold code. now rewrite N2Z.id, ascii_N_embedding.
Qed.

Lemma list_ascii_length s : List.length (list_ascii_of_string s) = String.length s.
Proof. induction s as [|c s IH]; cbn; [reflexivity|now rewrite IH]. Qed.

Lemma pad_length n bytes : List.length (pad n bytes) = n.
Proof. unfold pad. rewrite length_app, length_take, repeat_length. lia. Qed.

Lemma pad_pad n bytes : pad n (pad n bytes) = pad n bytes.
Proof.
  unfold pad at 1. rewrite pad_length, Nat.sub_diag, app_nil_r. apply take_ge, Nat.eq_le_incl, pad_length.
Qed.

(** The address the child of test 21 sends through the pipe as text in an array of
    32 bytes is the one its parent reads back with [strtoul], for every 64-bit
    address: the text is never cut off and always ends with a zero. *)
Theorem read_addr_bytes p : 0 <= p < 2 ^ 64 -> List.length (addr_bytes p) = 32%nat /\ read_addr (addr_bytes p) = p.
Proof.
  intros Hp. set (cs := list_ascii_of_string (print_hex p)).
  assert (Ht : Forall nonzero cs) by (do 2 (constructor; [discriminate|]); apply print_digits_absent; [lia|apply digit_char_text|constructor]).
  assert (Hl : (List.length cs <= 18)%nat).
  { subst cs. cbn [print_hex append list_ascii_of_string List.length]. apply le_n_S, le_n_S. rewrite list_ascii_length.
    apply (print_digits_short 64 15 p ""). exact Hp. }
  assert (E : addr_bytes p = (map code cs ++ 0 :: repeat 0 (31 - List.length cs))%list).
  { unfold addr_bytes, pad. fold cs. rewrite (take_ge (map code cs)), (take_ge (map code cs)), length_map
      by (rewrite length_map; unfold addr_size; lia).
    f_equal. replace (addr_size - List.length cs)%nat with (S (31 - List.length cs)) by (unfold addr_size; lia). reflexivity. }
  split; [apply pad_length|]. unfold read_addr. unfold addr_bytes at 1. rewrite pad_pad. fold (addr_bytes p).
  rewrite E, c_string_text by exact Ht. unfold cs. now rewrite string_of_list_ascii_of_string, strtoul_hex.
Qed.

Lemma read_addr_bytes_witness : read_addr (addr_bytes 0xfffffffffffff000) = 0xfffffffffffff000.
Proof. apply (read_addr_bytes 0xfffffffffffff000). split; [discriminate|reflexivity]. Defined.
