(* ===== verification/PtraceSpec.v ===== *)
(** * Traced processes, as [ptrace(2)] and [wait(2)] describe them

    An executable machine for a few processes that trace each other: each has
    its program, its memory (text included), registers, debug registers and
    signal state.  [texec1] is one step of one process; a traced process stops at
    [brk] instructions, debug registers, signals, forks and system calls as its
    tracer asked for, and has no step until it is resumed.  What the manual
    leaves open (which process moves next, which of several events [wait]
    reports) is a choice of the step.  The addresses in the machine are those of
    a [layout]; [quirk] lets the machine deviate from the documentation in one
    point. *)
From S2P Require Import Prelude Process Trace Arch TestMck AddrSpace Procs Forks Ptrace PtraceCases.
From stdpp Require Import gmap.
#[local] Open Scope Z_scope.

(** ** Deviations *)

Inductive quirk :=
| QNone
| QTracemeIgnored | QPokeDataIgnored | QPokeTextIgnored | QPeekDataZero | QPeekTextZero
| QPeekUserWorks | QPokeUserWorks | QGetRegsetFails | QSetRegsetIgnored | QSigstopCode
| QNoWatchpoint | QNoBreakpoint | QSetSiginfoIgnored | QAnyOption | QEventMsgZero
| QNoSyscallStop | QStepTwo | QNoStep | QKillIgnored | QAttachFails | QAttachNoStop
| QDetachFails | QDetachStays | QBrkCode | QBrkAddr | QContKills.

#[export] Instance quirk_eq_dec : EqDecision quirk.
Proof. solve_decision. Defined.

(** ** State *)

(** How the tracer resumed a process. *)
Inductive resumed := RCont | RSyscall | RStep.

(** [TStopped] holds the status word, the signal information and whether [wait]
    has reported the stop. *)
Inductive trun := TRun | TStopped (status : Z) (info : siginfo) (reported : bool) | TZombie (status : Z) | TGone.

Inductive tfd := TRd (pipe : nat) | TWr (pipe : nat) | TDev.

(** Memory is kept in cells of four bytes. *)
Record tproc := TProc {
  t_parent : option nat;
  t_tracer : option nat;
  t_run : trun;
  t_pend : list Z;
  t_resumed : resumed;
  t_insys : bool;
  t_opts : Z;
  t_msg : Z;
  t_mem : gmap Z Z;
  t_regs : user_pt_regs;
  t_fpr : user_fpsimd_state;
  t_tls : Z;
  t_bps : list (Z * Z);
  t_wps : list (Z * Z);
  t_sysno : Z;
  t_fds : list (Z * tfd);
}.

Record tsys := TSys { s_procs : list tproc; s_pipes : list (list Z); s_sems : list (Z * Z); s_maps : Z }.

Section Updates.
Context (p : tproc).
Definition put_run (x : trun) : tproc := TProc (t_parent p) (t_tracer p) x (t_pend p) (t_resumed p) (t_insys p)
  (t_opts p) (t_msg p) (t_mem p) (t_regs p) (t_fpr p) (t_tls p) (t_bps p) (t_wps p) (t_sysno p) (t_fds p).
Definition put_tracer (x : option nat) : tproc := TProc (t_parent p) x (t_run p) (t_pend p) (t_resumed p) (t_insys p)
  (t_opts p) (t_msg p) (t_mem p) (t_regs p) (t_fpr p) (t_tls p) (t_bps p) (t_wps p) (t_sysno p) (t_fds p).
Definition put_pend (x : list Z) : tproc := TProc (t_parent p) (t_tracer p) (t_run p) x (t_resumed p) (t_insys p)
  (t_opts p) (t_msg p) (t_mem p) (t_regs p) (t_fpr p) (t_tls p) (t_bps p) (t_wps p) (t_sysno p) (t_fds p).
Definition put_resumed (x : resumed) : tproc := TProc (t_parent p) (t_tracer p) TRun (t_pend p) x (t_insys p)
  (t_opts p) (t_msg p) (t_mem p) (t_regs p) (t_fpr p) (t_tls p) (t_bps p) (t_wps p) (t_sysno p) (t_fds p).
Definition put_sys (no : Z) (x : bool) : tproc := TProc (t_parent p) (t_tracer p) (t_run p) (t_pend p) (t_resumed p) x
  (t_opts p) (t_msg p) (t_mem p) (t_regs p) (t_fpr p) (t_tls p) (t_bps p) (t_wps p) (i32 no) (t_fds p).
Definition put_opts (x : Z) : tproc := TProc (t_parent p) (t_tracer p) (t_run p) (t_pend p) (t_resumed p) (t_insys p)
  x (t_msg p) (t_mem p) (t_regs p) (t_fpr p) (t_tls p) (t_bps p) (t_wps p) (t_sysno p) (t_fds p).
Definition put_msg (x : Z) : tproc := TProc (t_parent p) (t_tracer p) (t_run p) (t_pend p) (t_resumed p) (t_insys p)
  (t_opts p) (u64 x) (t_mem p) (t_regs p) (t_fpr p) (t_tls p) (t_bps p) (t_wps p) (t_sysno p) (t_fds p).
Definition put_mem (x : gmap Z Z) : tproc := TProc (t_parent p) (t_tracer p) (t_run p) (t_pend p) (t_resumed p) (t_insys p)
  (t_opts p) (t_msg p) x (t_regs p) (t_fpr p) (t_tls p) (t_bps p) (t_wps p) (t_sysno p) (t_fds p).
Definition put_regs (x : user_pt_regs) : tproc := TProc (t_parent p) (t_tracer p) (t_run p) (t_pend p) (t_resumed p)
  (t_insys p) (t_opts p) (t_msg p) (t_mem p) x (t_fpr p) (t_tls p) (t_bps p) (t_wps p) (t_sysno p) (t_fds p).
Definition put_fpr (x : user_fpsimd_state) : tproc := TProc (t_parent p) (t_tracer p) (t_run p) (t_pend p) (t_resumed p)
  (t_insys p) (t_opts p) (t_msg p) (t_mem p) (t_regs p) x (t_tls p) (t_bps p) (t_wps p) (t_sysno p) (t_fds p).
Definition put_tls (x : Z) : tproc := TProc (t_parent p) (t_tracer p) (t_run p) (t_pend p) (t_resumed p) (t_insys p)
  (t_opts p) (t_msg p) (t_mem p) (t_regs p) (t_fpr p) (u64 x) (t_bps p) (t_wps p) (t_sysno p) (t_fds p).
Definition put_bps (x : list (Z * Z)) : tproc := TProc (t_parent p) (t_tracer p) (t_run p) (t_pend p) (t_resumed p)
  (t_insys p) (t_opts p) (t_msg p) (t_mem p) (t_regs p) (t_fpr p) (t_tls p) x (t_wps p) (t_sysno p) (t_fds p).
Definition put_wps (x : list (Z * Z)) : tproc := TProc (t_parent p) (t_tracer p) (t_run p) (t_pend p) (t_resumed p)
  (t_insys p) (t_opts p) (t_msg p) (t_mem p) (t_regs p) (t_fpr p) (t_tls p) (t_bps p) x (t_sysno p) (t_fds p).
Definition put_fds (x : list (Z * tfd)) : tproc := TProc (t_parent p) (t_tracer p) (t_run p) (t_pend p) (t_resumed p)
  (t_insys p) (t_opts p) (t_msg p) (t_mem p) (t_regs p) (t_fpr p) (t_tls p) (t_bps p) (t_wps p) (t_sysno p) x.
End Updates.

(** A process that has not ended. *)
Definition alive (p : tproc) : bool := match t_run p with TZombie _ | TGone => false | _ => true end.

Definition supd (i : nat) (f : tproc -> tproc) (s : tsys) : tsys :=
  TSys (alter f i (s_procs s)) (s_pipes s) (s_sems s) (s_maps s).

(** ** Memory *)

Definition cell (m : gmap Z Z) (a : Z) : Z := default 0 (m !! (a / 4)).
Definition set_cell (a v : Z) (m : gmap Z Z) : gmap Z Z := <[a / 4 := u32 v]> m.
Definition word (m : gmap Z Z) (a : Z) : Z := cell m a + 2 ^ 32 * cell m (a + 4).
Definition set_word (a v : Z) (m : gmap Z Z) : gmap Z Z := set_cell a v (set_cell (a + 4) (Z.shiftr v 32) m).
Definition mapped (a : Z) : bool := (a mod 4 =? 0) && (65536 <=? a) && (a <? 2 ^ 47).
Fixpoint fill_cells (n : nat) (a v : Z) (m : gmap Z Z) : gmap Z Z :=
  match n with
  | O => m
  | S n => fill_cells n (a + 4) v (set_cell a v m)
  end.
Definition fill_word (ch : Z) : Z := u8 ch * 0x01010101.

(** ** Registers *)

Definition set_pc (v : Z) (g : user_pt_regs) : user_pt_regs := UserPtRegs (regs g) (sp g) (u64 v) (pstate_bits g).
Definition set_x (i : nat) (v : Z) (g : user_pt_regs) : user_pt_regs :=
  UserPtRegs (<[i := u64 v]> (regs g)) (sp g) (pc g) (pstate_bits g).
Definition write_x (g : user_pt_regs) : user_pt_regs :=
  UserPtRegs (map Z.of_nat (seq 0 29) ++ drop 29 (regs g)) (sp g) (pc g) (pstate_bits g).
Definition u128 (z : Z) : Z := z mod 2 ^ 128.
(** As many words as a register set has, each of its width. *)
Definition fit (n : nat) (f : Z -> Z) (xs : list Z) : list Z := map (fun i => f (nth i xs 0)) (seq 0 n).
Definition typed_regs (g : user_pt_regs) : user_pt_regs :=
  UserPtRegs (fit 31 u64 (regs g)) (u64 (sp g)) (u64 (pc g)) (u64 (pstate_bits g)).
Definition typed_fpr (f : user_fpsimd_state) : user_fpsimd_state :=
  UserFpsimdState (fit 32 u128 (vregs f)) (u32 (fpsr f)) (u32 (fpcr f)).

(** An enabled debug register for address [a]: bit 0 of the control word. *)
Definition hits (a len : Z) (ds : list (Z * Z)) : bool :=
  existsb (fun '(addr, ctrl) => Z.testbit ctrl 0 && in_range a addr len) ds.

Section Machine.
(** The numbers of the processes and of debug registers, and the deviation. *)
Context (pidof : nat -> Z) (nbp nwp : nat) (q : quirk).

Definition dev (x : quirk) : bool := bool_decide (q = x).

Definition hw_state (n : nat) (ds : list (Z * Z)) : user_hwdebug_state :=
  UserHwdebugState (Z.lor (Z.shiftl 6 8) (Z.of_nat n)) (map (fun i => nth i ds (0, 0)) (seq 0 DBG_REGS)).
(** A write of [len] bytes reaches the registers that fit in them. *)
Definition hw_write (n : nat) (len : Z) (v : user_hwdebug_state) (ds : list (Z * Z)) : list (Z * Z) :=
  map (fun i => let '(a, c) := if 8 + 16 * Z.of_nat i <? len then nth i (dbg_regs v) (0, 0) else nth i ds (0, 0)
                in (u64 a, u32 c)) (seq 0 n).

Definition get_regset (p : tproc) (r : regset) : regval r :=
  match r with
  | REGSET_GPR => t_regs p
  | REGSET_FPR => t_fpr p
  | REGSET_TLS => t_tls p
  | REGSET_HW_BREAK => hw_state nbp (t_bps p)
  | REGSET_HW_WATCH => hw_state nwp (t_wps p)
  | REGSET_SYSTEM_CALL => t_sysno p
  end.
Definition set_regset (p : tproc) (r : regset) (len : Z) : regval r -> tproc :=
  match r return regval r -> tproc with
  | REGSET_GPR => fun v => put_regs p (typed_regs v)
  | REGSET_FPR => fun v => put_fpr p (typed_fpr v)
  | REGSET_TLS => fun v => put_tls p v
  | REGSET_HW_BREAK => fun v => put_bps p (hw_write nbp len v (t_bps p))
  | REGSET_HW_WATCH => fun v => put_wps p (hw_write nwp len v (t_wps p))
  | REGSET_SYSTEM_CALL => fun v => put_sys p v (t_insys p)
  end.

(** ** Requests *)

(** The process with a number, from index [i] on. *)
Fixpoint with_pid (i : nat) (ps : list tproc) (pid : Z) : option (nat * tproc) :=
  match ps with
  | [] => None
  | p :: ps' =>
      if (pidof i =? pid) && match t_run p with TGone => false | _ => true end then Some (i, p)
      else with_pid (S i) ps' pid
  end.

Definition tracee (i : nat) (pid : Z) (s : tsys) : option (nat * tproc) :=
  match with_pid 0 (s_procs s) pid with
  | Some (j, p) => if bool_decide (t_tracer p = Some i) then Some (j, p) else None
  | None => None
  end.
(** Most requests need a tracee that has stopped. *)
Definition stopped_tracee (i : nat) (pid : Z) (s : tsys) : option (nat * tproc * siginfo) :=
  match tracee i pid s with
  | Some (j, p) => match t_run p with TStopped _ info _ => Some (j, p, info) | _ => None end
  | None => None
  end.

(** The status word of a stop. *)
Definition stop_status (sig : Z) : Z := Z.lor (Z.shiftl sig 8) 0x7f.
Definition PTRACE_EVENT_FORK : Z := 1.
Definition PTRACE_O_MASK : Z := 0x3000ff.

Definition do_traceme (i : nat) (s : tsys) : tsys * Z :=
  match s_procs s !! i with
  | Some p =>
      match t_tracer p with
      | Some _ => (s, - EPERM)
      | None => (if dev QTracemeIgnored then s else supd i (fun p => put_tracer p (t_parent p)) s, 0)
      end
  | None => (s, - ESRCH)
  end.

Definition do_attach (i : nat) (pid : Z) (s : tsys) : tsys * Z :=
  match with_pid 0 (s_procs s) pid with
  | Some (j, p) =>
      if dev QAttachFails || negb (alive p) then (s, - EPERM)
      else
        match t_tracer p with
        | Some _ => (s, - EPERM)
        | None =>
            (supd j (fun p => put_pend (put_tracer p (Some i)) (if dev QAttachNoStop then t_pend p else t_pend p ++ [SIGSTOP])) s, 0)
        end
  | None => (s, - ESRCH)
  end.

Definition do_kill_tracee (i : nat) (pid : Z) (s : tsys) : tsys * Z :=
  match tracee i pid s with
  | Some (j, p) =>
      (if negb (alive p) then s
       else supd j (fun p => if dev QKillIgnored then put_resumed p RCont else put_pend (put_resumed p RCont) [SIGKILL]) s, 0)
  | None => (s, - ESRCH)
  end.

(** The requests without further data on the stopped tracee [j]. *)
Definition do_stopped (request addr data : Z) (j : nat) (s : tsys) : tsys * Z :=
  if request =? PTRACE_CONT then
    (supd j (fun p => if dev QContKills then put_pend (put_resumed p RCont) [SIGKILL] else put_resumed p RCont) s, 0)
  else if request =? PTRACE_SYSCALL then
    (supd j (fun p => put_resumed p (if dev QNoSyscallStop then RCont else RSyscall)) s, 0)
  else if request =? PTRACE_SINGLESTEP then
    (supd j (fun p => put_resumed p (if dev QNoStep then RCont else RStep)) s, 0)
  else if request =? PTRACE_DETACH then
    if dev QDetachFails then (s, - ESRCH)
    else (supd j (fun p => if dev QDetachStays then put_tracer p None else put_resumed (put_tracer p None) RCont) s, 0)
  else if request =? PTRACE_POKEDATA then
    if mapped addr then (if dev QPokeDataIgnored then s else supd j (fun p => put_mem p (set_word addr data (t_mem p))) s, 0)
    else (s, - EIO)
  else if request =? PTRACE_POKETEXT then
    if mapped addr then (if dev QPokeTextIgnored then s else supd j (fun p => put_mem p (set_word addr data (t_mem p))) s, 0)
    else (s, - EIO)
  else if request =? PTRACE_POKEUSER then (s, if dev QPokeUserWorks then 0 else - EIO)
  else if request =? PTRACE_SETOPTIONS then
    if (Z.land data (Z.lnot PTRACE_O_MASK) =? 0) || dev QAnyOption then (supd j (fun p => put_opts p data) s, 0)
    else (s, - EINVAL)
  else (s, - EIO).

Definition do_req (i : nat) (request pid addr data : Z) (s : tsys) : tsys * Z :=
  if request =? PTRACE_TRACEME then do_traceme i s
  else if request =? PTRACE_ATTACH then do_attach i pid s
  else if request =? PTRACE_KILL then do_kill_tracee i pid s
  else match stopped_tracee i pid s with
       | Some (j, _, _) => do_stopped request addr data j s
       | None => (s, - ESRCH)
       end.

Definition do_peek (i : nat) (request pid addr : Z) (s : tsys) : Z * Z :=
  match stopped_tracee i pid s with
  | Some (_, p, _) =>
      if request =? PTRACE_PEEKUSER then if dev QPeekUserWorks then (0, 0) else (- EIO, 0)
      else if mapped addr then
        if (request =? PTRACE_PEEKTEXT) && dev QPeekTextZero then (0, 0)
        else if (request =? PTRACE_PEEKDATA) && dev QPeekDataZero then (0, 0)
        else (0, word (t_mem p) addr)
      else (- EIO, 0)
  | None => (- ESRCH, 0)
  end.

Definition do_setsiginfo (i : nat) (pid : Z) (info : siginfo) (s : tsys) : tsys * Z :=
  match stopped_tracee i pid s with
  | Some (j, _, _) =>
      (if dev QSetSiginfoIgnored then s
       else supd j (fun p => match t_run p with TStopped st _ rep => put_run p (TStopped st info rep) | _ => p end) s, 0)
  | None => (s, - ESRCH)
  end.

Definition do_getregset (i : nat) (pid : Z) (r : regset) (s : tsys) : Z * regval r :=
  match stopped_tracee i pid s with
  | Some (_, p, _) => (if dev QGetRegsetFails then - EINVAL else 0, get_regset p r)
  | None => (- ESRCH, no_regval r)
  end.
Definition do_setregset (i : nat) (pid : Z) (r : regset) (v : regval r) (len : Z) (s : tsys) : tsys * Z :=
  match stopped_tracee i pid s with
  | Some (j, _, _) => (if dev QSetRegsetIgnored then s else supd j (fun p => set_regset p r len v) s, 0)
  | None => (s, - ESRCH)
  end.
Definition do_geteventmsg (i : nat) (pid : Z) (s : tsys) : Z * Z :=
  match stopped_tracee i pid s with
  | Some (_, p, _) => (0, if dev QEventMsgZero then 0 else t_msg p)
  | None => (- ESRCH, 0)
  end.

(** [kill]: [SIGKILL] also wakes a stopped process. *)
Definition do_kill (pid sig : Z) (s : tsys) : tsys * Z :=
  match with_pid 0 (s_procs s) pid with
  | Some (j, p) =>
      (if negb (alive p) then s
       else supd j (fun p => if sig =? SIGKILL then put_pend (put_resumed p RCont) [SIGKILL]
                             else put_pend p (t_pend p ++ [sig])) s, 0)
  | None => (s, - ESRCH)
  end.

(** ** [wait] *)

(** Whether process [j] has something to report to [i]. *)
Definition waitable (i : nat) (pid : Z) (j : nat) (p : tproc) : bool :=
  ((pid =? -1) || (pidof j =? pid)) &&
  match t_run p with
  | TZombie _ => bool_decide (t_tracer p = Some i) || (bool_decide (t_parent p = Some i) && bool_decide (t_tracer p = None))
  | TStopped _ _ false => bool_decide (t_tracer p = Some i)
  | _ => false
  end.
Definition waits_for (i : nat) (pid : Z) (j : nat) (p : tproc) : bool :=
  ((pid =? -1) || (pidof j =? pid)) &&
  (bool_decide (t_tracer p = Some i) || bool_decide (t_parent p = Some i)) &&
  match t_run p with TGone => false | _ => true end.

Definition indices (f : nat -> tproc -> bool) (s : tsys) : list nat :=
  omap (fun j => p ← s_procs s !! j; if f j p then Some j else None) (seq 0 (length (s_procs s))).

Definition report (i : nat) (p : tproc) : tproc :=
  match t_run p with
  | TStopped st info _ => put_run p (TStopped st info true)
  | TZombie _ =>
      if bool_decide (t_tracer p = Some i) && negb (bool_decide (t_parent p = Some i)) then put_tracer p None
      else put_run p TGone
  | _ => p
  end.
Definition status_of (p : tproc) : Z :=
  match t_run p with TStopped st _ _ => st | TZombie st => st | _ => 0 end.

(** [ch] chooses among the events there are. *)
Definition do_twait (i ch : nat) (pid : Z) (s : tsys) : option (tsys * (Z * Z)) :=
  match indices (waits_for i pid) s with
  | [] => if (ch =? 0)%nat then Some (s, (- ECHILD, 0)) else None
  | _ =>
      j ← indices (waitable i pid) s !! ch;
      p ← s_procs s !! j;
      Some (supd j (report i) s, (pidof j, status_of p))
  end.

(** ** Pipes and mappings *)

Definition fd_of (p : tproc) (fd : Z) : option tfd := snd <$> List.find (fun x => fst x =? fd) (t_fds p).
Definition free_fd (p : tproc) : Z := 3 + Z.of_nat (length (t_fds p)).
Definition set_pipe (n : nat) (bytes : list Z) (s : tsys) : tsys :=
  TSys (s_procs s) (<[n := bytes]> (s_pipes s)) (s_sems s) (s_maps s).
Definition some_writer (n : nat) (s : tsys) : bool :=
  existsb (fun p => existsb (fun x => match snd x with TWr m => (m =? n)%nat | _ => false end) (t_fds p)) (s_procs s).

Definition do_tread (p : tproc) (fd count : Z) (s : tsys) : option (tsys * (Z * list Z)) :=
  match fd_of p fd with
  | Some (TRd n) =>
      match default [] (s_pipes s !! n) with
      | [] => if some_writer n s then None else Some (s, (0, []))
      | buf => let got := take (Z.to_nat count) buf in
               Some (set_pipe n (drop (Z.to_nat count) buf) s, (Z.of_nat (length got), got))
      end
  | _ => Some (s, (- EBADF, []))
  end.
Definition do_twrite (p : tproc) (fd : Z) (bytes : list Z) (s : tsys) : tsys * Z :=
  match fd_of p fd with
  | Some (TWr n) => (set_pipe n (default [] (s_pipes s !! n) ++ bytes) s, Z.of_nat (length bytes))
  | _ => (s, - EBADF)
  end.
Definition do_tclose (i : nat) (p : tproc) (fd : Z) (s : tsys) : tsys * Z :=
  match fd_of p fd with
  | Some _ => (supd i (fun p => put_fds p (List.filter (fun x => negb (fst x =? fd)) (t_fds p))) s, 0)
  | None => (s, - EBADF)
  end.

(** ** Calls *)

(** The calls that go to the kernel, with their numbers, as far as a tracer may
    ask to see them. *)
Definition sysno_of (c : op) : option Z :=
  match c with
  | Procs Getpid => Some NR_getpid
  | Procs Fork => Some 220
  | Write _ _ => Some 64
  | Close _ => Some 57
  | Munmap _ _ => Some 215
  | _ => None
  end.

(** What a call of process [i] does: [None] if it blocks or [ch] is no choice. *)
Definition tcall (i ch : nat) (p : tproc) (c : op) (s : tsys) : option (tsys * ans c) :=
  match c with
  | Procs c =>
      match c with
      | Wait4 pid _ => do_twait i ch pid s
      | Getpid => Some (s, pidof i)
      | Usleep _ => Some (s, 0)
      | Pipe =>
          let n := length (s_pipes s) in let r := free_fd p in
          Some (TSys (alter (fun p => put_fds p (t_fds p ++ [(r, TRd n); (r + 1, TWr n)])) i (s_procs s))
                     (s_pipes s ++ [[]]) (s_sems s) (s_maps s), (0, (r, r + 1)))
      | SemInit a _ v => Some (TSys (s_procs s) (s_pipes s) ((a, v) :: s_sems s) (s_maps s), 0)
      | SemPost a => Some (TSys (s_procs s) (s_pipes s) (sem_add a 1 (s_sems s)) (s_maps s), 0)
      | SemWait a =>
          if sem_value a (s_sems s) <=? 0 then None
          else Some (TSys (s_procs s) (s_pipes s) (sem_add a (-1) (s_sems s)) (s_maps s), 0)
      | c => Some (s, enosys (Procs c))
      end
  | Kill pid sig => Some (do_kill pid sig s)
  | Read fd count => do_tread p fd count s
  | Write fd bytes => Some (do_twrite p fd bytes s)
  | Close fd => Some (do_tclose i p fd s)
  | Open _ _ => Some (supd i (fun p => put_fds p (t_fds p ++ [(free_fd p, TDev)])) s, free_fd p)
  | Filec c => match c with Ioctl _ _ => Some (s, 0) | c => Some (s, enosys (Filec c)) end
  | Mmap _ _ _ _ _ _ => Some (TSys (s_procs s) (s_pipes s) (s_sems s) (s_maps s + 1), 2 ^ 40 + 65536 * s_maps s)
  | Munmap _ _ => Some (s, 0)
  | Ptc c =>
      match c with
      | Req request pid addr data => Some (do_req i request pid addr data s)
      | Peek request pid addr => Some (s, do_peek i request pid addr s)
      | Getsiginfo pid =>
          Some (s, match stopped_tracee i pid s with Some (_, _, info) => (0, info) | None => (- ESRCH, Siginfo 0 0 0 0) end)
      | Setsiginfo pid info => Some (do_setsiginfo i pid info s)
      | Getregset pid r _ => Some (s, do_getregset i pid r s)
      | Setregset pid r v len => Some (do_setregset i pid r v len s)
      | Geteventmsg pid => Some (s, do_geteventmsg i pid s)
      | LoadWord a => Some (s, if mapped a then inl (word (t_mem p) a) else inr SIGSEGV)
      | StoreWord a v =>
          if mapped a then Some (supd i (fun p => put_mem p (set_word a v (t_mem p))) s, inl tt) else Some (s, inr SIGSEGV)
      | Fill a ch len =>
          if mapped a then Some (supd i (fun p => put_mem p (fill_cells (Z.to_nat (len / 4)) a (fill_word ch) (t_mem p))) s, inl tt)
          else Some (s, inr SIGSEGV)
      | SetX n v => Some (supd i (fun p => put_regs p (set_x n v (t_regs p))) s, tt)
      | WriteX => Some (supd i (fun p => put_regs p (write_x (t_regs p))) s, tt)
      | ReadX => Some (s, take 30 (regs (t_regs p)))
      | WriteQ v => Some (supd i (fun p => put_fpr p (typed_fpr (UserFpsimdState v (fpsr (t_fpr p)) (fpcr (t_fpr p))))) s, tt)
      | ReadQ => Some (s, vregs (t_fpr p))
      | c => Some (s, enosys (Ptc c))
      end
  | c => Some (s, enosys c)
  end.

(** ** Stops *)

(** The parent of a forked process knows its number; the new process starts with
    [SIGSTOP] if the parent's tracer asked for forks. *)
Definition traces_forks (p : tproc) : bool :=
  match t_tracer p with Some _ => negb (Z.land (t_opts p) PTRACE_O_TRACEFORK =? 0) | None => false end.
Definition forked (i : nat) (p : tproc) : tproc :=
  TProc (Some i) (if traces_forks p then t_tracer p else None) TRun (if traces_forks p then [SIGSTOP] else [])
    RCont false (if traces_forks p then t_opts p else 0) 0 (t_mem p) (t_regs p) (t_fpr p) (t_tls p)
    (repeat (0, 0) nbp) (repeat (0, 0) nwp) (t_sysno p) (t_fds p).

Definition brk_info (pc : Z) : siginfo :=
  Siginfo SIGTRAP 0 (if dev QBrkCode then 0 else TRAP_BRKPT) (if dev QBrkAddr then pc + 4 else pc).
Definition hw_info (a : Z) : siginfo := Siginfo SIGTRAP 0 TRAP_HWBKPT a.
Definition sig_info (sig : Z) : siginfo := Siginfo sig 0 (if dev QSigstopCode then 128 else 0) 0.

Section Run.
Context {A : Type} (ret_status : A -> Z).

Record tconfig := TConfig { tc_code : list (@pstate A); tc_sys : tsys }.

Definition set_code (i : nat) (x : @pstate A) (cfg : tconfig) (s : tsys) : tconfig :=
  TConfig (<[i := x]> (tc_code cfg)) s.

Definition tdie (i : nat) (out : outcome A) (cfg : tconfig) : tconfig :=
  let status := match out with Done a => exit_status (ret_status a) | Exited n => exit_status n | Killed n => n end in
  set_code i (Dead out) cfg (supd i (fun p => put_fds (put_run p (TZombie status)) []) (tc_sys cfg)).

(** A signal stops a traced process and kills another one that has no handler;
    [SIGSTOP] stops that one too, unseen by a [wait] without [WUNTRACED]. *)
Definition tsignal (i : nat) (p : tproc) (pr : proc) (info : siginfo) (cfg : tconfig) : tconfig :=
  match t_tracer p with
  | Some _ =>
      TConfig (tc_code cfg) (supd i (fun p => put_run p (TStopped (stop_status (si_signo info)) info false)) (tc_sys cfg))
  | None =>
      if si_signo info =? SIGSTOP then
        TConfig (tc_code cfg) (supd i (fun p => put_run p (TStopped (stop_status SIGSTOP) info true)) (tc_sys cfg))
      else tdie i (deliver (si_signo info) pr) cfg
  end.
Definition at_pc (i : nat) (pc : Z) (cfg : tconfig) : tconfig :=
  TConfig (tc_code cfg) (supd i (fun p => put_regs p (set_pc pc (t_regs p))) (tc_sys cfg)).

(** After an instruction: [next] is the rest of the program, [pc'] where it goes on. *)
Definition retire (i : nat) (p : tproc) (pr : proc) (pc' : Z) (next : prog A) (cfg : tconfig) : tconfig :=
  let cfg' := at_pc i pc' (set_code i (settle next pr) cfg (tc_sys cfg)) in
  match t_resumed p with RStep => tsignal i p pr (hw_info pc') cfg' | _ => cfg' end.

(** One instruction of an assembly block, fetched from memory. *)
Definition inst_step (i : nat) (p : tproc) (pr : proc) (pc : Z) (n : nat) (k : unit -> prog A) (cfg : tconfig) : tconfig :=
  match n with
  | O => set_code i (settle (k tt) pr) cfg (tc_sys cfg)
  | S n' =>
      let cfg := at_pc i pc cfg in
      if hits pc 4 (t_bps p) && negb (dev QNoBreakpoint) then tsignal i p pr (hw_info pc) cfg
      else if cell (t_mem p) pc =? NOP_INST then
        let two := dev QStepTwo && match t_resumed p with RStep => true | _ => false end in
        match n' with
        | S n'' => if two then retire i p pr (pc + 8) (Call (Ptc (Insts (pc + 8) n'')) k) cfg
                   else retire i p pr (pc + 4) (Call (Ptc (Insts (pc + 4) n')) k) cfg
        | O => retire i p pr (pc + 4) (Call (Ptc (Insts (pc + 4) n')) k) cfg
        end
      else if cell (t_mem p) pc =? BRK_INST then tsignal i p pr (brk_info pc) cfg
      else tsignal i p pr (Siginfo SIGILL 0 1 pc) cfg
  end.

Definition straight_step (i : nat) (p : tproc) (pr : proc) (pc : Z) (n : nat) (k : unit -> prog A) (cfg : tconfig) : tconfig :=
  match n with
  | O => set_code i (settle (k tt) pr) cfg (tc_sys cfg)
  | S n' => retire i p pr (pc + 4) (Call (Ptc (Straight (pc + 4) n')) k) cfg
  end.

Definition store_step (i : nat) (p : tproc) (pr : proc) (pc a v : Z) (k : unit -> prog A) (cfg : tconfig) : tconfig :=
  let cfg := at_pc i pc cfg in
  if hits a 8 (t_wps p) && negb (dev QNoWatchpoint) then tsignal i p pr (hw_info a) cfg
  else if mapped a then
    retire i p pr (pc + 4) (k tt)
      (TConfig (tc_code cfg) (supd i (fun p => put_mem p (set_word a v (t_mem p))) (tc_sys cfg)))
  else tsignal i p pr (Siginfo SIGSEGV 0 1 a) cfg.

Definition fork_step (i : nat) (p : tproc) (pr : proc) (k : Z -> prog A) (cfg : tconfig) : tconfig :=
  let s := tc_sys cfg in
  let child := pidof (length (s_procs s)) in
  let s' := TSys (s_procs s ++ [forked i p]) (s_pipes s) (s_sems s) (s_maps s) in
  let s'' :=
    if traces_forks p then
      supd i (fun p => put_run (put_msg p child)
                 (TStopped (Z.lor (Z.shiftl PTRACE_EVENT_FORK 16) (stop_status SIGTRAP))
                    (Siginfo SIGTRAP 0 (Z.lor SIGTRAP (Z.shiftl PTRACE_EVENT_FORK 8)) 0) false)) s'
    else s' in
  TConfig (<[i := settle (k child) pr]> (tc_code cfg) ++ [settle (k 0) pr]) s''.

(** A call that is not an instruction. *)
Definition call_step (i ch : nat) (p : tproc) (pr : proc) (c : op) (k : ans c -> prog A) (cfg : tconfig) : option tconfig :=
  match tcall i ch p c (tc_sys cfg) with
  | Some (s, r) => Some (set_code i (settle (k r) pr) cfg (supd i (fun p => put_sys p (t_sysno p) false) s))
  | None => None
  end.

(** The number of choices is one for every call but [wait]. *)
Definition one_choice (ch : nat) (x : option tconfig) : option tconfig := if (ch =? 0)%nat then x else None.

Definition code_step (i ch : nat) (p : tproc) (prg : prog A) (pr : proc) (cfg : tconfig) : option tconfig :=
  match prg with
  | Ret a => one_choice ch (Some (tdie i (Done a) cfg))
  | Exit n => one_choice ch (Some (tdie i (Exited n) cfg))
  | Raise n => one_choice ch (Some (tsignal i p pr (Siginfo n 0 1 0) cfg))
  | Loc f k => one_choice ch (Some (set_code i (settle (Loc f k) pr) cfg (tc_sys cfg)))
  | Call c k =>
      match t_resumed p, sysno_of c, t_insys p with
      | RSyscall, Some no, false =>
          one_choice ch
            (Some (TConfig (tc_code cfg)
               (supd i (fun p => put_run (put_sys p no true) (TStopped (stop_status SIGTRAP) (Siginfo SIGTRAP 0 SIGTRAP 0) false))
                  (tc_sys cfg))))
      | _, _, _ =>
          match c as c return (ans c -> prog A) -> option tconfig with
          | Ptc (Insts pc n) => fun k => one_choice ch (Some (inst_step i p pr pc n k cfg))
          | Ptc (Straight pc n) => fun k => one_choice ch (Some (straight_step i p pr pc n k cfg))
          | Ptc (StrInst pc a v) => fun k => one_choice ch (Some (store_step i p pr pc a v k cfg))
          | Procs Fork => fun k => one_choice ch (Some (fork_step i p pr k cfg))
          | Procs (Wait4 pid o) => fun k => call_step i ch p pr (Procs (Wait4 pid o)) k cfg
          | c => fun k =>
              match t_resumed p with
              | RStep => one_choice ch (Some (tsignal i p pr (hw_info 0) (at_pc i 0 cfg)))
              | _ => one_choice ch (call_step i ch p pr c k cfg)
              end
          end k
      end
  end.

(** One step of process [i]; a pending signal comes first. *)
Definition texec1 (i ch : nat) (cfg : tconfig) : option tconfig :=
  match s_procs (tc_sys cfg) !! i, tc_code cfg !! i with
  | Some p, Some (Live prg pr) =>
      match t_run p with
      | TRun =>
          match t_pend p with
          | sig :: rest =>
              let cfg := TConfig (tc_code cfg) (supd i (fun p => put_pend p rest) (tc_sys cfg)) in
              one_choice ch
                (Some (if sig =? SIGKILL then tdie i (Killed SIGKILL) cfg else tsignal i p pr (sig_info sig) cfg))
          | [] => code_step i ch p prg pr cfg
          end
      | _ => None
      end
  | _, _ => None
  end.

Definition tstep (cfg cfg' : tconfig) : Prop := exists i ch, texec1 i ch cfg = Some cfg'.

(** All the steps of a configuration. *)
Definition tsuccs (cfg : tconfig) : list tconfig :=
  omap (fun '(i, ch) => texec1 i ch cfg)
    (list_prod (seq 0 (length (tc_code cfg))) (seq 0 (S (length (s_procs (tc_sys cfg)))))).
End Run.
End Machine.
Arguments TConfig {A} tc_code tc_sys.
Arguments tc_code {A} t.
Arguments tc_sys {A} t.

(** ** The program in memory *)

(** The text of the assembly blocks. *)
Fixpoint put_text (a : Z) (words : list Z) (m : gmap Z Z) : gmap Z Z :=
  match words with
  | [] => m
  | w :: ws => put_text (a + 4) ws (set_cell a w m)
  end.
Definition brk_block : list Z := [NOP_INST; NOP_INST; BRK_INST; NOP_INST].
Definition nop_block : list Z := [NOP_INST; NOP_INST; NOP_INST; NOP_INST].
Definition text_of (L : layout) : gmap Z Z :=
  put_text (brk_label L - 8) brk_block
    (put_text (brk_label2 L - 8) brk_block (put_text (inst_label L - 8) nop_block ∅)).

Definition first_proc (nbp nwp : nat) (L : layout) : tproc :=
  TProc None None TRun [] RCont false 0 0 (text_of L)
    (typed_regs (UserPtRegs [] 0 0 0)) (typed_fpr (UserFpsimdState [] 0 0)) 0
    (repeat (0, 0) nbp) (repeat (0, 0) nwp) (-1) [].
Definition tboot {A} (nbp nwp : nat) (L : layout) (p : prog A) : tconfig :=
  TConfig [settle p proc0] (TSys [first_proc nbp nwp L] [] [] 0).

(** The result of the first process. *)
Definition verdict {A} (cfg : @tconfig A) : option (outcome A) :=
  match tc_code cfg !! 0%nat with Some (Dead o) => Some o | _ => None end.

(** ** All executions, by computation *)

Section Explore.
Context (pidof : nat -> Z) (nbp nwp : nat) (q : quirk) {A : Type} (ret_status : A -> Z).
Implicit Type cfg : @tconfig A.
Notation "c ~~> c'" := (tstep pidof nbp nwp q ret_status c c') (at level 70).

Inductive tsteps : @tconfig A -> @tconfig A -> Prop :=
| tsteps_refl cfg : tsteps cfg cfg
| tsteps_next cfg1 cfg2 cfg3 : cfg1 ~~> cfg2 -> tsteps cfg2 cfg3 -> tsteps cfg1 cfg3.

(** [Q] is reached on every execution: no order of steps avoids it or blocks. *)
Inductive tinev (Q : @tconfig A -> Prop) : @tconfig A -> Prop :=
| tinev_now cfg : Q cfg -> tinev Q cfg
| tinev_later cfg : (exists cfg', cfg ~~> cfg') -> (forall cfg', cfg ~~> cfg' -> tinev Q cfg') -> tinev Q cfg.

Context (ok : outcome A -> bool).

(** Within [n] steps every execution ends with a verdict that is [ok]. *)
Fixpoint always (n : nat) cfg : bool :=
  match verdict cfg with
  | Some o => ok o
  | None =>
      match n with
      | O => false
      | S n =>
          match tsuccs pidof nbp nwp q ret_status cfg with
          | [] => false
          | ss => forallb (always n) ss
          end
      end
  end.

(** Within [n] steps every execution ends or blocks, with no verdict that is [ok]. *)
Fixpoint never (n : nat) cfg : bool :=
  match verdict cfg with
  | Some o => negb (ok o)
  | None =>
      match n with
      | O => false
      | S n => forallb (never n) (tsuccs pidof nbp nwp q ret_status cfg)
      end
  end.

(** A schedule. *)
Fixpoint texec (sched : list (nat * nat)) cfg : option tconfig :=
  match sched with
  | [] => Some cfg
  | (i, ch) :: sched' => texec1 pidof nbp nwp q ret_status i ch cfg ≫= texec sched'
  end.
End Explore.
