(* ===== verification/PtraceFacts.v ===== *)
(** * Facts about the machine for traced processes

    The enumeration of steps is complete, so the exploration of all executions
    by computation ([always], [never]) proves what it computes; verdicts last;
    every state that programs can reach is well typed. *)
From S2P Require Import Prelude Process Trace Arch TestMck AddrSpace Procs Forks Ptrace PtraceCases PtraceSpec.
From stdpp Require Import gmap.
#[local] Open Scope Z_scope.

(** ** The enumeration of steps is complete *)

(** The calls one by one. *)
Ltac call_cases o :=
  destruct o; try match goal with c : proccall |- _ => destruct c | c : ptcall |- _ => destruct c end.

Lemma omap_seq_length {B} (f : nat -> option B) a n : (length (omap f (seq a n)) <= n)%nat.
Proof.
  revert a. induction n as [|n IH]; intros a; [auto|]. cbn. specialize (IH (S a)). destruct (f a); cbn; lia.
Qed.

Section Complete.
Context (pidof : nat -> Z) (nbp nwp : nat) (q : quirk) {A : Type} (ret_status : A -> Z).
Implicit Type cfg : @tconfig A.

Lemma do_twait_choice i ch pid s x : do_twait pidof i ch pid s = Some x -> (ch <= length (s_procs s))%nat.
Proof.
  unfold do_twait. destruct (indices (waits_for pidof i pid) s) eqn:E.
  - destruct (ch =? 0)%nat eqn:Ec; [|discriminate]. intros _. apply Nat.eqb_eq in Ec. lia.
  - destruct (indices (waitable pidof i pid) s !! ch) eqn:El; [|discriminate]. intros _.
    apply lookup_lt_Some in El. pose proof (omap_seq_length
      (fun j => p ← s_procs s !! j; if waitable pidof i pid j p then Some j else None) 0 (length (s_procs s))) as H.
    unfold indices in El. lia.
Qed.

Lemma one_choice_zero ch (x : option (@tconfig A)) c : one_choice ch x = Some c -> ch = 0%nat.
Proof. unfold one_choice. destruct (ch =? 0)%nat eqn:E; [|discriminate]. intros _. now apply Nat.eqb_eq. Qed.

Lemma code_step_choice i ch p prg pr cfg c :
  code_step pidof nbp nwp q ret_status i ch p prg pr cfg = Some c -> (ch <= length (s_procs (tc_sys cfg)))%nat.
Proof.
  assert (Hz : forall x, one_choice ch x = Some c -> (ch <= length (s_procs (tc_sys cfg)))%nat).
  { intros x E. apply one_choice_zero in E. lia. }
  destruct prg as [a|n|n|f k|o k]; cbn [code_step]; try apply Hz.
  assert (W : forall pid opts (k : Z * Z -> prog A),
    call_step pidof nbp nwp q i ch p pr (Procs (Wait4 pid opts)) k cfg = Some c ->
    (ch <= length (s_procs (tc_sys cfg)))%nat).
  { intros pid opts k'. unfold call_step. cbn [tcall].
    destruct (do_twait pidof i ch pid (tc_sys cfg)) as [[s r]|] eqn:E; [|discriminate]. intros _.
    now apply do_twait_choice in E. }
  call_cases o;
    destruct (t_resumed p), (t_insys p); cbn [sysno_of]; cbv beta; first [apply Hz | apply W].
Qed.

Lemma tstep_tsuccs cfg cfg' :
  tstep pidof nbp nwp q ret_status cfg cfg' -> In cfg' (tsuccs pidof nbp nwp q ret_status cfg).
Proof.
  intros (i & ch & E). unfold tsuccs. apply list_elem_of_In, list_elem_of_omap. exists (i, ch). split; [|exact E].
  apply list_elem_of_In, in_prod; apply in_seq; (split; [lia|]); unfold texec1 in E.
  - destruct (s_procs (tc_sys cfg) !! i); [|discriminate].
    destruct (tc_code cfg !! i) eqn:Ec; [|discriminate]. apply lookup_lt_Some in Ec. lia.
  - destruct (s_procs (tc_sys cfg) !! i) as [p|]; [|discriminate].
    destruct (tc_code cfg !! i) as [[prg pr|]|]; try discriminate.
    destruct (t_run p); try discriminate. destruct (t_pend p).
    + apply code_step_choice in E. lia.
    + apply one_choice_zero in E. lia.
Qed.

Lemma tsuccs_tstep cfg cfg' :
  In cfg' (tsuccs pidof nbp nwp q ret_status cfg) -> tstep pidof nbp nwp q ret_status cfg cfg'.
Proof. intros H. apply list_elem_of_In, list_elem_of_omap in H as ([i ch] & _ & E). now exists i, ch. Qed.

Context (ok : outcome A -> bool).

(** What [always] and [never] establish. *)
Lemma always_inev n : forall cfg,
  always pidof nbp nwp q ret_status ok n cfg = true ->
  tinev pidof nbp nwp q ret_status (fun c => exists o, verdict c = Some o /\ ok o = true) cfg.
Proof.
  induction n as [|n IH]; intros cfg H; cbn [always] in H; destruct (verdict cfg) as [o|] eqn:Ev;
    try (apply tinev_now; now exists o); [discriminate|].
  destruct (tsuccs pidof nbp nwp q ret_status cfg) as [|c0 ss] eqn:Es; [discriminate|].
  apply tinev_later.
  - exists c0. apply tsuccs_tstep. rewrite Es. now left.
  - intros c' Hs. apply tstep_tsuccs in Hs. rewrite Es in Hs.
    rewrite forallb_forall in H. auto.
Qed.

(** The code of the other processes does not change. *)
Definition code_upd (i : nat) (l l' : list (@pstate A)) : Prop := exists x m, l' = <[i := x]> l ++ m.

Lemma code_upd_refl i l x : l !! i = Some x -> code_upd i l l.
Proof. intros E. exists x, []. now rewrite app_nil_r, list_insert_id. Qed.

Lemma code_upd_one i l x : code_upd i l (<[i := x]> l).
Proof. exists x, []. now rewrite app_nil_r. Qed.

Lemma code_upd_insert i l l' x : code_upd i l l' -> (i < length l)%nat -> code_upd i l (<[i := x]> l').
Proof.
  intros (y & m & ->) H. exists x, m. rewrite insert_app_l by now rewrite length_insert.
  now rewrite list_insert_insert_eq.
Qed.

Lemma tdie_upd i l o cfg :
  (i < length l)%nat -> code_upd i l (tc_code cfg) -> code_upd i l (tc_code (tdie ret_status i o cfg)).
Proof. intros Hi H. now apply code_upd_insert. Qed.

Lemma tsignal_upd i l p pr info cfg :
  (i < length l)%nat -> code_upd i l (tc_code cfg) -> code_upd i l (tc_code (tsignal ret_status i p pr info cfg)).
Proof.
  intros Hi H. unfold tsignal. destruct (t_tracer p); [exact H|]. case_if; [exact H|]. now apply tdie_upd.
Qed.

Lemma retire_upd i l p pr pc' next cfg :
  (i < length l)%nat -> code_upd i l (tc_code cfg) -> code_upd i l (tc_code (retire ret_status i p pr pc' next cfg)).
Proof.
  intros Hi H. unfold retire. assert (H' : code_upd i l (tc_code (at_pc i pc' (set_code i (settle next pr) cfg (tc_sys cfg)))))
    by now apply code_upd_insert.
  destruct (t_resumed p); try exact H'. now apply tsignal_upd.
Qed.

Lemma inst_step_upd i l p pr pc n k cfg :
  (i < length l)%nat -> code_upd i l (tc_code cfg) ->
  code_upd i l (tc_code (inst_step q ret_status i p pr pc n k cfg)).
Proof.
  intros Hi H. destruct n as [|n]; cbn [inst_step]; [now apply code_upd_insert|].
  destruct n as [|n]; repeat case_if; first [now apply tsignal_upd | now apply retire_upd].
Qed.

Lemma straight_step_upd i l p pr pc n k cfg :
  (i < length l)%nat -> code_upd i l (tc_code cfg) ->
  code_upd i l (tc_code (straight_step ret_status i p pr pc n k cfg)).
Proof. intros Hi H. destruct n; cbn [straight_step]; [now apply code_upd_insert|now apply retire_upd]. Qed.

Lemma store_step_upd i l p pr pc a v k cfg :
  (i < length l)%nat -> code_upd i l (tc_code cfg) ->
  code_upd i l (tc_code (store_step q ret_status i p pr pc a v k cfg)).
Proof.
  intros Hi H. unfold store_step. repeat case_if; try (now apply tsignal_upd). now apply retire_upd.
Qed.

Lemma code_step_upd i ch p prg pr cfg c :
  (i < length (tc_code cfg))%nat -> code_upd i (tc_code cfg) (tc_code cfg) ->
  code_step pidof nbp nwp q ret_status i ch p prg pr cfg = Some c -> code_upd i (tc_code cfg) (tc_code c).
Proof.
  intros Hi H.
  assert (O : forall x, code_upd i (tc_code cfg) (tc_code x) -> one_choice ch (Some x) = Some c ->
    code_upd i (tc_code cfg) (tc_code c)).
  { intros x Hx. unfold one_choice. destruct (ch =? 0)%nat; [|discriminate]. now intros [= <-]. }
  assert (C : forall o k, call_step pidof nbp nwp q i ch p pr o k cfg = Some c -> code_upd i (tc_code cfg) (tc_code c)).
  { intros o k. unfold call_step. destruct (tcall _ _ _ _ _ _ _ _ _) as [[s r]|]; [|discriminate].
    intros [= <-]. now apply code_upd_insert. }
  assert (C' : forall o k, one_choice ch (call_step pidof nbp nwp q i ch p pr o k cfg) = Some c ->
    code_upd i (tc_code cfg) (tc_code c)).
  { intros o k. unfold one_choice. destruct (ch =? 0)%nat; [|discriminate]. apply C. }
  destruct prg as [a|n|n|f k|o k]; cbn [code_step].
  - apply O. now apply tdie_upd.
  - apply O. now apply tdie_upd.
  - apply O. now apply tsignal_upd.
  - apply O. now apply code_upd_insert.
  - call_cases o;
      destruct (t_resumed p), (t_insys p); cbn [sysno_of]; cbv beta;
      first [ apply C' | apply C | apply O; first
        [ exact H | now apply tsignal_upd | now apply inst_step_upd | now apply store_step_upd
        | now apply straight_step_upd | eexists; eexists; reflexivity ] ].
Qed.

Lemma texec1_upd i ch cfg c :
  texec1 pidof nbp nwp q ret_status i ch cfg = Some c -> code_upd i (tc_code cfg) (tc_code c).
Proof.
  unfold texec1. destruct (s_procs (tc_sys cfg) !! i) as [p|]; [|discriminate].
  destruct (tc_code cfg !! i) as [[prg pr|]|] eqn:El; try discriminate.
  assert (Hi : (i < length (tc_code cfg))%nat) by (now apply lookup_lt_Some in El).
  assert (H : code_upd i (tc_code cfg) (tc_code cfg)) by now apply (code_upd_refl _ _ _ El).
  destruct (t_run p); try discriminate. destruct (t_pend p) as [|sig rest].
  - now apply code_step_upd.
  - unfold one_choice. destruct (ch =? 0)%nat; [|discriminate]. intros [= <-].
    case_if; [now apply tdie_upd|now apply tsignal_upd].
Qed.

(** A verdict is final. *)
Lemma verdict_step cfg cfg' o :
  verdict cfg = Some o -> tstep pidof nbp nwp q ret_status cfg cfg' -> verdict cfg' = Some o.
Proof.
  unfold verdict. destruct (tc_code cfg !! 0%nat) as [[|d]|] eqn:E0; try discriminate. intros [= ->] (i & ch & E).
  assert (Hi : i <> 0%nat).
  { intros ->. unfold texec1 in E. rewrite E0 in E. now destruct (s_procs (tc_sys cfg) !! 0%nat). }
  destruct (texec1_upd _ _ _ _ E) as (x & m & ->).
  assert (H0 : (0 < length (tc_code cfg))%nat) by (now apply lookup_lt_Some in E0).
  rewrite lookup_app_l by now rewrite length_insert. now rewrite list_lookup_insert_ne, E0.
Qed.

Lemma verdict_steps cfg cfg' o :
  tsteps pidof nbp nwp q ret_status cfg cfg' -> verdict cfg = Some o -> verdict cfg' = Some o.
Proof. induction 1; [auto|]. intros Hv. eauto using verdict_step. Qed.

(** What [never] computes. *)
Lemma never_reach n : forall cfg cfg' o,
  never pidof nbp nwp q ret_status ok n cfg = true ->
  tsteps pidof nbp nwp q ret_status cfg cfg' -> verdict cfg' = Some o -> ok o = false.
Proof.
  induction n as [|n IH]; intros cfg cfg' o H Hs Ho; cbn [never] in H;
    destruct (verdict cfg) as [v|] eqn:Ev; [| discriminate | |].
  1, 2: rewrite (verdict_steps _ _ v Hs Ev) in Ho; injection Ho as <-; now apply negb_true_iff.
  destruct Hs as [cfg|c1 c2 c3 Hs Hs']; [congruence|].
  apply tstep_tsuccs in Hs. rewrite forallb_forall in H. eauto.
Qed.

(** A schedule is an execution. *)
Lemma texec_steps sched : forall cfg cfg',
  texec pidof nbp nwp q ret_status sched cfg = Some cfg' -> tsteps pidof nbp nwp q ret_status cfg cfg'.
Proof.
  induction sched as [|[i ch] sched IH]; intros cfg cfg' E; cbn in E; [injection E as <-; constructor|].
  destruct (texec1 pidof nbp nwp q ret_status i ch cfg) as [c|] eqn:E1; [|discriminate].
  econstructor; [exists i, ch; exact E1|]. now apply IH.
Qed.
End Complete.

(** ** Typing *)

Create HintDb typed.

Definition w32 (z : Z) : Prop := 0 <= z < 2 ^ 32.
Definition w64 (z : Z) : Prop := 0 <= z < 2 ^ 64.
Definition w128 (z : Z) : Prop := 0 <= z < 2 ^ 128.
Definition mem_ok (m : gmap Z Z) : Prop := forall a c, m !! a = Some c -> w32 c.
Definition regs_ok (g : user_pt_regs) : Prop :=
  length (regs g) = 31%nat /\ Forall w64 (regs g) /\ w64 (sp g) /\ w64 (pc g) /\ w64 (pstate_bits g).
Definition fpr_ok (f : user_fpsimd_state) : Prop :=
  length (vregs f) = 32%nat /\ Forall w128 (vregs f) /\ w32 (fpsr f) /\ w32 (fpcr f).
Definition dbg_ok (n : nat) (ds : list (Z * Z)) : Prop :=
  length ds = n /\ Forall (fun d => w64 (fst d) /\ w32 (snd d)) ds.

Lemma u32_w32 z : w32 (u32 z).
Proof. apply Z.mod_pos_bound. lia. Qed.
Lemma u64_w64 z : w64 (u64 z).
Proof. apply Z.mod_pos_bound. lia. Qed.
Lemma u128_w128 z : w128 (u128 z).
Proof. apply Z.mod_pos_bound. lia. Qed.
#[export] Hint Resolve u32_w32 u64_w64 u128_w128 : mck.

Lemma set_cell_ok a v m : mem_ok m -> mem_ok (set_cell a v m).
Proof.
  intros H b c. unfold set_cell. destruct (decide (b = a / 4)) as [->|Hb].
  - rewrite lookup_insert_eq. intros [= <-]. auto with mck.
  - rewrite lookup_insert_ne by congruence. apply H.
Qed.
Lemma set_word_ok a v m : mem_ok m -> mem_ok (set_word a v m).
Proof. intros H. unfold set_word. now repeat apply set_cell_ok. Qed.
Lemma fill_cells_ok n v : forall a m, mem_ok m -> mem_ok (fill_cells n a v m).
Proof. induction n as [|n IH]; intros a m H; cbn; auto using set_cell_ok. Qed.
Lemma put_text_ok ws : forall a m, mem_ok m -> mem_ok (put_text a ws m).
Proof. induction ws as [|w ws IH]; intros a m H; cbn; auto using set_cell_ok. Qed.

Lemma fit_ok n f P xs : (forall z, P (f z)) -> length (fit n f xs) = n /\ Forall P (fit n f xs).
Proof.
  intros Hf. unfold fit. rewrite length_map, length_seq. split; [reflexivity|].
  apply List.Forall_map, List.Forall_forall. auto.
Qed.
Lemma typed_regs_ok g : regs_ok (typed_regs g).
Proof. destruct (fit_ok 31 u64 w64 (regs g) u64_w64). unfold regs_ok. cbn -[fit]. auto 6 with mck. Qed.
Lemma typed_fpr_ok f : fpr_ok (typed_fpr f).
Proof. destruct (fit_ok 32 u128 w128 (vregs f) u128_w128). unfold fpr_ok. cbn -[fit]. auto with mck. Qed.
Lemma set_pc_ok v g : regs_ok g -> regs_ok (set_pc v g).
Proof. intros (? & ? & ? & ? & ?). unfold regs_ok. cbn. auto 6 with mck. Qed.
Lemma set_x_ok i v g : regs_ok g -> regs_ok (set_x i v g).
Proof.
  intros (? & ? & ? & ? & ?). unfold regs_ok. cbn. rewrite length_insert.
  split; [assumption|]. split; [now apply Forall_insert; [|apply u64_w64]|auto].
Qed.
Lemma write_x_ok g : regs_ok g -> regs_ok (write_x g).
Proof.
  intros (Hl & Hr & ? & ? & ?). unfold regs_ok. cbn [write_x regs sp pc pstate_bits].
  rewrite length_app, length_map, length_seq, length_drop, Hl.
  split; [reflexivity|]. split; [|auto]. apply Forall_app. split; [|now apply Forall_drop].
  apply List.Forall_map, List.Forall_forall. intros x Hx. apply in_seq in Hx. unfold w64. lia.
Qed.
Lemma hw_write_ok n len v ds : dbg_ok n (hw_write n len v ds).
Proof.
  unfold dbg_ok, hw_write. rewrite length_map, length_seq. split; [reflexivity|].
  apply List.Forall_map, List.Forall_forall. intros i _. cbv beta.
  destruct (if _ <? len then _ else _) as [a c]. cbn. auto with mck.
Qed.
Lemma no_dbg_ok n : dbg_ok n (repeat (0, 0) n).
Proof.
  split; [apply repeat_length|]. apply List.Forall_forall. intros d Hd. apply repeat_spec in Hd as ->.
  unfold w64, w32. cbn. lia.
Qed.
#[export] Hint Resolve set_cell_ok set_word_ok fill_cells_ok put_text_ok typed_regs_ok typed_fpr_ok set_pc_ok set_x_ok
  write_x_ok hw_write_ok no_dbg_ok i32_bound : mck.

Section Typed.
Context (pidof : nat -> Z) (nbp nwp : nat) (q : quirk) {A : Type} (ret_status : A -> Z).
Implicit Types (cfg : @tconfig A) (code : list (@pstate A)).

(** A process in a table of [n]. *)
Record tproc_ok (n : nat) (p : tproc) : Prop := {
  ok_mem : mem_ok (t_mem p);
  ok_regs : regs_ok (t_regs p);
  ok_fpr : fpr_ok (t_fpr p);
  ok_tls : w64 (t_tls p);
  ok_bps : dbg_ok nbp (t_bps p);
  ok_wps : dbg_ok nwp (t_wps p);
  ok_sysno : - 2 ^ 31 <= t_sysno p < 2 ^ 31;
  ok_msg : w64 (t_msg p);
  ok_tracer : forall j, t_tracer p = Some j -> (j < n)%nat;
  ok_parent : forall j, t_parent p = Some j -> (j < n)%nat;
}.

Definition is_live (x : @pstate A) : bool := match x with Live _ _ => true | Dead _ => false end.
(** A program has ended exactly if its process is a zombie or gone. *)
Definition entry_ok (n : nat) (x : @pstate A) (p : tproc) : Prop := tproc_ok n p /\ alive p = is_live x.
Definition sys_ok code (s : tsys) : Prop := Forall2 (entry_ok (length (s_procs s))) code (s_procs s).
Definition cfg_ok cfg : Prop := sys_ok (tc_code cfg) (tc_sys cfg).

Lemma tproc_ok_mono n m p : (n <= m)%nat -> tproc_ok n p -> tproc_ok m p.
Proof. intros H []. constructor; auto; intros j Hj; [specialize (ok_tracer0 j Hj)|specialize (ok_parent0 j Hj)]; lia. Qed.

(** A change of one entry. *)
Lemma supd_ok code s j f :
  (forall x p, s_procs s !! j = Some p -> entry_ok (length (s_procs s)) x p -> entry_ok (length (s_procs s)) x (f p)) ->
  sys_ok code s -> sys_ok code (supd j f s).
Proof.
  unfold sys_ok. intros Hf H. cbn [supd s_procs]. rewrite length_alter.
  apply Forall2_same_length_lookup. split; [rewrite length_alter; exact (Forall2_length _ _ _ H)|].
  intros i x p Hx Hp. destruct (decide (i = j)) as [->|Hij].
  - rewrite list_lookup_alter_eq in Hp. destruct (s_procs s !! j) as [p0|] eqn:E; [|discriminate].
    injection Hp as <-. apply Hf; [reflexivity|]. eapply Forall2_lookup_lr; eauto.
  - rewrite list_lookup_alter_ne in Hp by congruence. eapply Forall2_lookup_lr; eauto.
Qed.

(** The same with the program of the process. *)
Lemma supd_code_ok code s j f y :
  (forall p, s_procs s !! j = Some p -> tproc_ok (length (s_procs s)) p ->
     entry_ok (length (s_procs s)) y (f p)) ->
  sys_ok code s -> sys_ok (<[j := y]> code) (supd j f s).
Proof.
  unfold sys_ok. intros Hf H. cbn [supd s_procs]. rewrite length_alter.
  apply Forall2_same_length_lookup. split; [rewrite length_insert, length_alter; exact (Forall2_length _ _ _ H)|].
  intros i x p Hx Hp. destruct (decide (i = j)) as [->|Hij].
  - rewrite list_lookup_alter_eq in Hp. destruct (s_procs s !! j) as [p0|] eqn:E; [|discriminate].
    injection Hp as <-. pose proof (Forall2_length _ _ _ H) as Hl. pose proof (lookup_lt_Some _ _ _ E) as Hj.
    rewrite list_lookup_insert_eq in Hx by lia. injection Hx as <-. apply Hf; [reflexivity|].
    destruct (lookup_lt_is_Some_2 code j) as [x0 Hx0]; [lia|]. apply (Forall2_lookup_lr _ _ _ _ _ _ H Hx0 E).
  - rewrite list_lookup_alter_ne in Hp by congruence. rewrite list_lookup_insert_ne in Hx by congruence.
    eapply Forall2_lookup_lr; eauto.
Qed.

Lemma set_live_ok code s j prg pr p :
  s_procs s !! j = Some p -> alive p = true -> sys_ok code s -> sys_ok (<[j := Live prg pr]> code) s.
Proof.
  intros E Ha H. apply Forall2_same_length_lookup.
  split; [rewrite length_insert; exact (Forall2_length _ _ _ H)|]. intros i x p' Hx Hp.
  destruct (decide (i = j)) as [->|Hij].
  - rewrite E in Hp. injection Hp as <-. pose proof (Forall2_length _ _ _ H) as Hl.
    rewrite list_lookup_insert_eq in Hx by (apply lookup_lt_Some in E; lia). injection Hx as <-.
    destruct (lookup_lt_is_Some_2 code j) as [x0 Hx0]; [apply lookup_lt_Some in E; lia|].
    split; [apply (Forall2_lookup_lr _ _ _ _ _ _ H Hx0 E)|exact Ha].
  - rewrite list_lookup_insert_ne in Hx by congruence. eapply Forall2_lookup_lr; eauto.
Qed.

(** The parts of the system outside the process table do not matter. *)
Lemma sys_ok_procs code s s' : s_procs s' = s_procs s -> sys_ok code s -> sys_ok code s'.
Proof. unfold sys_ok. now intros ->. Qed.

Lemma with_pid_Some ps pid : forall i j p,
  with_pid pidof i ps pid = Some (j, p) -> exists d, j = (i + d)%nat /\ ps !! d = Some p.
Proof.
  induction ps as [|p0 ps IH]; intros i j p E; [discriminate|]. cbn in E.
  destruct ((pidof i =? pid) && _).
  - injection E as <- <-. exists 0%nat. rewrite Nat.add_0_r. auto.
  - destruct (IH _ _ _ E) as (d & -> & Hd). exists (S d). rewrite Nat.add_succ_r. auto.
Qed.

Lemma with_pid_lookup s pid j p : with_pid pidof 0 (s_procs s) pid = Some (j, p) -> s_procs s !! j = Some p.
Proof. intros E. destruct (with_pid_Some _ _ _ _ _ E) as (d & -> & Hd). exact Hd. Qed.

Lemma stopped_tracee_lookup i s pid j p info :
  stopped_tracee pidof i pid s = Some (j, p, info) ->
  s_procs s !! j = Some p /\ exists st rep, t_run p = TStopped st info rep.
Proof.
  unfold stopped_tracee, tracee. destruct (with_pid pidof 0 (s_procs s) pid) as [[j' p']|] eqn:E; [|discriminate].
  destruct (bool_decide _); [|discriminate]. destruct (t_run p') eqn:Er; try discriminate.
  intros [= -> -> ->]. split; [now apply (with_pid_lookup s pid)|eauto].
Qed.

(** Close the goal that a changed entry is well typed. *)
Ltac entry_tac :=
  intros; repeat match goal with
  | H : entry_ok _ _ _ |- _ => destruct H as [[] ?]
  | H : tproc_ok _ _ |- _ => destruct H
  end;
  split; [constructor; cbn in *; eauto with mck|cbn in *; auto].

Lemma put_resumed_ok n x p r : alive p = true -> entry_ok n x p -> entry_ok n x (put_resumed p r).
Proof. intros Ha [[] Hx]. split; [now constructor|]. cbn. congruence. Qed.

Lemma put_pend_ok n x p l : entry_ok n x p -> entry_ok n x (put_pend p l).
Proof. entry_tac. Qed.

Lemma put_tracer_ok n x p t : (forall j, t = Some j -> (j < n)%nat) -> entry_ok n x p -> entry_ok n x (put_tracer p t).
Proof. entry_tac. Qed.

Lemma put_mem_ok n x p m : mem_ok m -> entry_ok n x p -> entry_ok n x (put_mem p m).
Proof. entry_tac. Qed.

Lemma put_regs_ok n x p g : regs_ok g -> entry_ok n x p -> entry_ok n x (put_regs p g).
Proof. entry_tac. Qed.

Lemma put_run_ok n x p r : match r with TZombie _ | TGone => false | _ => true end = is_live x ->
  entry_ok n x p -> entry_ok n x (put_run p r).
Proof. entry_tac. Qed.

Lemma put_fds_ok n x p l : entry_ok n x p -> entry_ok n x (put_fds p l).
Proof. entry_tac. Qed.

Lemma put_sys_ok n x p no b : entry_ok n x p -> entry_ok n x (put_sys p no b).
Proof. entry_tac. Qed.

Lemma set_regset_ok n x p r len v : entry_ok n x p -> entry_ok n x (set_regset nbp nwp p r len v).
Proof. destruct r; cbn [set_regset]; entry_tac. Qed.

#[local] Hint Resolve put_resumed_ok put_pend_ok put_tracer_ok put_mem_ok put_regs_ok put_run_ok put_fds_ok put_sys_ok
  set_regset_ok ok_mem ok_regs : typed.

Lemma entry_mem n x p : entry_ok n x p -> mem_ok (t_mem p).
Proof. intros [[] _]. assumption. Qed.
Lemma entry_regs n x p : entry_ok n x p -> regs_ok (t_regs p).
Proof. intros [[] _]. assumption. Qed.
#[local] Hint Resolve entry_mem entry_regs : typed.

Lemma do_stopped_ok code request addr data j p s :
  s_procs s !! j = Some p -> alive p = true -> sys_ok code s -> sys_ok code (fst (do_stopped q request addr data j s)).
Proof.
  intros E Ha H. unfold do_stopped.
  assert (R : forall f, (forall x p, alive p = true -> entry_ok (length (s_procs s)) x p ->
                         entry_ok (length (s_procs s)) x (f p)) -> sys_ok code (supd j f s)).
  { intros f Hf. apply supd_ok; [|exact H]. intros x p' E' Hx. apply Hf; [congruence|exact Hx]. }
  repeat case_if; cbn [fst]; try exact H; apply R; intros x p' Ha' Hx; repeat case_if; eauto with typed mck.
  - apply put_tracer_ok; [discriminate|exact Hx].
  - apply put_resumed_ok; [exact Ha'|]. apply put_tracer_ok; [discriminate|exact Hx].
  - destruct Hx as [[] Hx]. split; [now constructor|exact Hx].
Qed.

Lemma do_req_ok code i p request pid addr data s :
  s_procs s !! i = Some p -> sys_ok code s -> sys_ok code (fst (do_req pidof q i request pid addr data s)).
Proof.
  intros Ei H. pose proof (lookup_lt_Some _ _ _ Ei) as Hi. unfold do_req. repeat case_if.
  - unfold do_traceme. rewrite Ei. destruct (t_tracer p); [exact H|]. case_if; [exact H|]. cbn [fst].
    apply supd_ok; [|exact H]. intros x p' _ Hx. apply put_tracer_ok; [|exact Hx]. apply Hx.
  - unfold do_attach. destruct (with_pid pidof 0 (s_procs s) pid) as [[j p']|]; [|exact H].
    case_if; [exact H|]. destruct (t_tracer p'); [exact H|]. cbn [fst]. apply supd_ok; [|exact H].
    intros x p0 _ Hx. apply put_pend_ok, put_tracer_ok; [|exact Hx]. now intros j0 [= <-].
  - unfold do_kill_tracee, tracee. destruct (with_pid pidof 0 (s_procs s) pid) as [[j p']|] eqn:Ej; [|exact H].
    case_if; [|exact H]. cbn [fst]. destruct (negb (alive p')) eqn:Ea; [exact H|]. apply negb_false_iff in Ea.
    apply supd_ok; [|exact H]. intros x p0 Ep Hx. rewrite (with_pid_lookup _ _ _ _ Ej) in Ep. injection Ep as <-.
    case_if; auto with typed.
  - destruct (stopped_tracee pidof i pid s) as [[[j p'] info]|] eqn:Ej; [|exact H].
    destruct (stopped_tracee_lookup _ _ _ _ _ _ Ej) as (El & st & rep & Er).
    apply (do_stopped_ok _ _ _ _ _ p'); auto. unfold alive. now rewrite Er.
Qed.

Lemma do_kill_ok code pid sig s : sys_ok code s -> sys_ok code (fst (do_kill pidof pid sig s)).
Proof.
  intros H. unfold do_kill. destruct (with_pid pidof 0 (s_procs s) pid) as [[j p]|] eqn:Ej; [|exact H]. cbn [fst].
  destruct (negb (alive p)) eqn:Ea; [exact H|]. apply negb_false_iff in Ea. apply supd_ok; [|exact H].
  intros x p0 Ep Hx. rewrite (with_pid_lookup _ _ _ _ Ej) in Ep. injection Ep as <-. case_if; auto with typed.
Qed.

Lemma do_setsiginfo_ok code i pid info s : sys_ok code s -> sys_ok code (fst (do_setsiginfo pidof q i pid info s)).
Proof.
  intros H. unfold do_setsiginfo. destruct (stopped_tracee pidof i pid s) as [[[j p] inf]|]; [|exact H]. cbn [fst].
  case_if; [exact H|]. apply supd_ok; [|exact H]. intros x p' _ Hx. destruct (t_run p') eqn:Er; auto.
  apply put_run_ok; [|exact Hx]. destruct Hx as [_ Hx]. unfold alive in Hx. now rewrite Er in Hx.
Qed.

Lemma do_setregset_ok code i pid r v len s :
  sys_ok code s -> sys_ok code (fst (do_setregset pidof nbp nwp q i pid r v len s)).
Proof.
  intros H. unfold do_setregset. destruct (stopped_tracee pidof i pid s) as [[[j p] inf]|]; [|exact H]. cbn [fst].
  case_if; [exact H|]. apply supd_ok; [|exact H]. auto with typed.
Qed.

Lemma report_ok n x i p : entry_ok n x p -> entry_ok n x (report i p).
Proof.
  intros H. unfold report. destruct (t_run p) eqn:Er; auto;
    assert (Ha : alive p = is_live x) by apply H; unfold alive in Ha; rewrite Er in Ha.
  - now apply put_run_ok.
  - case_if; [apply put_tracer_ok; [discriminate|exact H]|now apply put_run_ok].
Qed.

Lemma do_twait_ok code i ch pid s s' r :
  do_twait pidof i ch pid s = Some (s', r) -> sys_ok code s -> sys_ok code s'.
Proof.
  unfold do_twait. destruct (indices (waits_for pidof i pid) s).
  - destruct (ch =? 0)%nat; [|discriminate]. now intros [= <- _].
  - destruct (indices (waitable pidof i pid) s !! ch) as [j|]; [|discriminate]. cbn.
    destruct (s_procs s !! j) as [p|]; [|discriminate]. intros [= <- _] H. apply supd_ok; [|exact H].
    intros x p' _. apply report_ok.
Qed.

Lemma pair_ok {T} code (x : tsys * T) s' r : sys_ok code (fst x) -> Some x = Some (s', r) -> sys_ok code s'.
Proof. intros H [= ->]. exact H. Qed.

Lemma tcall_ok code i ch p c s s' r :
  s_procs s !! i = Some p -> sys_ok code s ->
  tcall pidof nbp nwp q i ch p c s = Some (s', r) -> sys_ok code s'.
Proof.
  intros Ei H.
  assert (U : forall f, (forall n x p, entry_ok n x p -> entry_ok n x (f p)) -> sys_ok code (supd i f s)).
  { intros f Hf. apply supd_ok; auto. }
  call_cases c; try match goal with f : filecall |- _ => destruct f end; cbn [tcall];
    try (apply pair_ok; exact H).
  - apply pair_ok, U. auto with typed.
  - apply pair_ok. unfold do_tclose. destruct (fd_of p fd); [|exact H]. apply U. auto with typed.
  - unfold do_tread. destruct (fd_of p fd) as [[]|]; try (now intros [= <- _]).
    destruct (default [] _); [destruct (some_writer _ s); [discriminate|]|]; now intros [= <- _].
  - apply pair_ok. unfold do_twrite. destruct (fd_of p fd) as [[]|]; exact H.
  - intros [= <- _]. apply (sys_ok_procs code (supd i (fun p0 => put_fds p0
      (t_fds p0 ++ [(free_fd p, TRd (length (s_pipes s))); (free_fd p + 1, TWr (length (s_pipes s)))])) s));
      [reflexivity|]. apply U. auto with typed.
  - intros E. now apply (do_twait_ok code i ch pid s s' r).
  - case_if; [discriminate|]. now intros [= <- _].
  - apply pair_ok. now apply (do_req_ok code i p).
  - apply pair_ok, do_setsiginfo_ok, H.
  - apply pair_ok, do_setregset_ok, H.
  - case_if; apply pair_ok; [apply U; eauto with typed mck|exact H].
  - case_if; apply pair_ok; [apply U; eauto with typed mck|exact H].
  - apply pair_ok, U. eauto with typed mck.
  - apply pair_ok, U. eauto with typed mck.
  - apply pair_ok, U. intros n x p0 [[] Hx]. split; [constructor; auto; apply typed_fpr_ok|exact Hx].
  - apply pair_ok, do_kill_ok, H.
Qed.

(** ** Steps *)

Lemma tdie_ok i o cfg : cfg_ok cfg -> cfg_ok (tdie ret_status i o cfg).
Proof.
  intros H. unfold cfg_ok, tdie, set_code. cbn [tc_code tc_sys]. apply supd_code_ok; [|exact H].
  intros p _ Hp. split; [|reflexivity]. destruct Hp. now constructor.
Qed.

(** An entry of a live process, changed without ending it. *)
Lemma cfg_live cfg i prg pr : cfg_ok cfg -> tc_code cfg !! i = Some (Live prg pr) ->
  forall p, s_procs (tc_sys cfg) !! i = Some p -> alive p = true.
Proof. intros H Ei p Ep. pose proof (Forall2_lookup_lr _ _ _ _ _ _ H Ei Ep) as [_ Ha]. exact Ha. Qed.

Lemma tsignal_ok i p pr info cfg prg pr0 :
  tc_code cfg !! i = Some (Live prg pr0) -> cfg_ok cfg -> cfg_ok (tsignal ret_status i p pr info cfg).
Proof.
  intros Ei H.
  assert (S : forall st b, cfg_ok (TConfig (tc_code cfg) (supd i (fun p => put_run p (TStopped st info b)) (tc_sys cfg)))).
  { intros st b. unfold cfg_ok. cbn [tc_code tc_sys]. apply supd_ok; [|exact H]. intros x p' Ep Hx.
    apply put_run_ok; [|exact Hx]. rewrite <- (proj2 Hx). symmetry. now apply (cfg_live _ _ _ _ H Ei). }
  unfold tsignal. destruct (t_tracer p); [apply S|]. case_if; [apply S|now apply tdie_ok].
Qed.

Lemma at_pc_ok i pc cfg : cfg_ok cfg -> cfg_ok (at_pc i pc cfg).
Proof. intros H. apply supd_ok; [|exact H]. eauto with typed mck. Qed.

Lemma settle_live (p : prog A) : forall pr, exists prg pr', settle p pr = Live prg pr'.
Proof. induction p; intros pr; cbn; eauto. Qed.

Lemma settled_ok i cfg next pr p :
  s_procs (tc_sys cfg) !! i = Some p -> alive p = true -> cfg_ok cfg ->
  cfg_ok (set_code i (settle next pr) cfg (tc_sys cfg)).
Proof.
  intros Ei Ha H. destruct (settle_live next pr) as (prg & pr' & ->). now apply (set_live_ok _ _ _ _ _ p).
Qed.

(** Process [i] is there and has not ended. *)
Definition runs (i : nat) cfg : Prop :=
  (exists prg pr, tc_code cfg !! i = Some (Live prg pr)) /\ is_Some (s_procs (tc_sys cfg) !! i).

Lemma runs_at_pc i pc cfg : runs i cfg -> runs i (at_pc i pc cfg).
Proof. intros [Hc [p Hp]]. split; [exact Hc|]. cbn. rewrite list_lookup_alter_eq, Hp. cbn. eauto. Qed.

Lemma runs_signal i p pr info cfg : runs i cfg -> cfg_ok cfg -> cfg_ok (tsignal ret_status i p pr info cfg).
Proof. intros [(prg & pr0 & E) _]. now apply tsignal_ok with prg pr0. Qed.

Lemma runs_settled i next pr cfg : runs i cfg -> cfg_ok cfg ->
  cfg_ok (set_code i (settle next pr) cfg (tc_sys cfg)) /\ runs i (set_code i (settle next pr) cfg (tc_sys cfg)).
Proof.
  intros [(prg & pr0 & E) [p Ep]] H. split.
  - apply (settled_ok i cfg next pr p); auto. now apply (cfg_live cfg i prg pr0).
  - split; [|cbn; eauto]. cbn. rewrite list_lookup_insert_eq by (now apply lookup_lt_Some in E).
    destruct (settle_live next pr) as (prg' & pr' & ->). eauto.
Qed.

Lemma retire_ok i p pr pc' next cfg : runs i cfg -> cfg_ok cfg -> cfg_ok (retire ret_status i p pr pc' next cfg).
Proof.
  intros Hr H. destruct (runs_settled i next pr cfg Hr H) as [H1 Hr1]. unfold retire.
  destruct (t_resumed p); try (now apply at_pc_ok). apply runs_signal; [now apply runs_at_pc|now apply at_pc_ok].
Qed.

Lemma inst_step_ok i p pr pc n k cfg : runs i cfg -> cfg_ok cfg -> cfg_ok (inst_step q ret_status i p pr pc n k cfg).
Proof.
  intros Hr H. pose proof (runs_at_pc i pc cfg Hr). pose proof (at_pc_ok i pc cfg H).
  destruct n as [|n]; cbn [inst_step]; [now apply runs_settled|].
  destruct n as [|n]; repeat case_if; first [now apply runs_signal | now apply retire_ok].
Qed.

Lemma straight_step_ok i p pr pc n k cfg : runs i cfg -> cfg_ok cfg -> cfg_ok (straight_step ret_status i p pr pc n k cfg).
Proof. intros Hr H. destruct n; cbn [straight_step]; [now apply runs_settled|now apply retire_ok]. Qed.

Lemma runs_supd i f cfg : runs i cfg -> runs i (TConfig (tc_code cfg) (supd i f (tc_sys cfg))).
Proof. intros [Hc [p Hp]]. split; [exact Hc|]. cbn. rewrite list_lookup_alter_eq, Hp. cbn. eauto. Qed.

Lemma store_step_ok i p pr pc a v k cfg : runs i cfg -> cfg_ok cfg -> cfg_ok (store_step q ret_status i p pr pc a v k cfg).
Proof.
  intros Hr H. pose proof (runs_at_pc i pc cfg Hr). pose proof (at_pc_ok i pc cfg H).
  unfold store_step. repeat case_if; try (now apply runs_signal).
  apply retire_ok; [now apply runs_supd|]. apply supd_ok; [|assumption]. eauto with typed mck.
Qed.

Lemma forked_ok n i p : (i < n)%nat -> tproc_ok n p -> tproc_ok n (forked nbp nwp i p).
Proof.
  intros Hi []. constructor; cbn; auto with mck.
  - unfold w64. lia.
  - intros j. case_if; [auto|discriminate].
  - now intros j [= <-].
Qed.

Lemma fork_step_ok i p pr k cfg :
  s_procs (tc_sys cfg) !! i = Some p -> runs i cfg -> cfg_ok cfg -> cfg_ok (fork_step pidof nbp nwp i p pr k cfg).
Proof.
  intros Ep Hr H. pose proof (lookup_lt_Some _ _ _ Ep) as Hi. set (s := tc_sys cfg). set (child := pidof (length (s_procs s))).
  destruct (runs_settled i (k child) pr cfg Hr H) as [H1 Hr1].
  assert (H2 : sys_ok (<[i := settle (k child) pr]> (tc_code cfg) ++ [settle (k 0) pr])
                 (TSys (s_procs s ++ [forked nbp nwp i p]) (s_pipes s) (s_sems s) (s_maps s))).
  { unfold sys_ok. cbn [s_procs]. rewrite length_app. apply Forall2_app.
    - eapply Forall2_impl; [exact H1|]. intros x p' [Hx Ha]. split; [|exact Ha].
      eapply tproc_ok_mono; [|exact Hx]. unfold s. cbn. lia.
    - constructor; [|constructor]. destruct (settle_live (k 0) pr) as (prg & pr' & ->). split; [|reflexivity].
      apply forked_ok; [change (tc_sys cfg) with s in Hi; cbn; lia|].
      apply (tproc_ok_mono (length (s_procs s))); [cbn; lia|]. destruct Hr as [(prg0 & pr0 & E0) _].
      apply (Forall2_lookup_lr _ _ _ _ _ _ H E0 Ep). }
  unfold fork_step. fold s child. case_if; [|exact H2]. apply supd_ok; [|exact H2].
  intros x p' Ep' Hx. assert (Ea : alive p' = true).
  { cbn [s_procs] in Ep'. rewrite lookup_app_l in Ep' by exact Hi. assert (p' = p) as -> by (unfold s in Ep'; congruence).
    destruct Hr as [(prg0 & pr0 & E0) _]. now apply (cfg_live cfg i prg0 pr0). }
  rewrite (proj2 Hx) in Ea. apply put_run_ok; [now rewrite Ea|]. destruct Hx as [[] Hx].
  split; [constructor; cbn; auto with mck|exact Hx].
Qed.

Lemma call_step_ok i ch p pr c k cfg cfg' :
  s_procs (tc_sys cfg) !! i = Some p -> runs i cfg -> cfg_ok cfg ->
  call_step pidof nbp nwp q i ch p pr c k cfg = Some cfg' -> cfg_ok cfg'.
Proof.
  intros Ep Hr H. unfold call_step. destruct (tcall _ _ _ _ _ _ _ _ _) as [[s r]|] eqn:E; [|discriminate].
  intros [= <-]. destruct Hr as [(prg0 & pr0 & E0) _].
  pose proof (tcall_ok (tc_code cfg) i ch p c (tc_sys cfg) s r Ep H E) as Hs.
  destruct (settle_live (k r) pr) as (prg & pr' & ->). unfold cfg_ok. cbn [tc_code tc_sys set_code].
  apply supd_code_ok; [|exact Hs]. intros p' Ep' Hp'. pose proof (Forall2_lookup_lr _ _ _ _ _ _ Hs E0 Ep') as Hx.
  apply put_sys_ok. split; [exact Hp'|]. exact (proj2 Hx).
Qed.

Lemma one_choice_ok ch x cfg' : cfg_ok x -> one_choice ch (Some x) = Some cfg' -> cfg_ok cfg'.
Proof. unfold one_choice. destruct (ch =? 0)%nat; [|discriminate]. now intros H [= <-]. Qed.

Lemma code_step_ok i ch p prg pr cfg cfg' :
  s_procs (tc_sys cfg) !! i = Some p -> runs i cfg -> cfg_ok cfg ->
  code_step pidof nbp nwp q ret_status i ch p prg pr cfg = Some cfg' -> cfg_ok cfg'.
Proof.
  intros Ep Hr H. pose proof (runs_at_pc i 0 cfg Hr). pose proof (at_pc_ok i 0 cfg H).
  assert (C : forall o k, call_step pidof nbp nwp q i ch p pr o k cfg = Some cfg' -> cfg_ok cfg')
    by (intros o k; now apply call_step_ok).
  assert (C' : forall o k, one_choice ch (call_step pidof nbp nwp q i ch p pr o k cfg) = Some cfg' -> cfg_ok cfg').
  { intros o k. unfold one_choice. destruct (ch =? 0)%nat; [|discriminate]. apply C. }
  assert (Y : forall no st info b, cfg_ok (TConfig (tc_code cfg)
    (supd i (fun p => put_run (put_sys p no b) (TStopped st info false)) (tc_sys cfg)))).
  { intros no st info b. apply supd_ok; [|exact H]. intros x p' Ep' Hx. destruct Hr as [(prg0 & pr0 & E0) _].
    pose proof (cfg_live cfg i prg0 pr0 H E0 p' Ep') as Ha. rewrite (proj2 Hx) in Ha.
    apply put_run_ok; [now rewrite Ha|now apply put_sys_ok]. }
  destruct prg as [a|n|n|f k|o k]; cbn [code_step].
  - apply one_choice_ok, tdie_ok, H.
  - apply one_choice_ok, tdie_ok, H.
  - now apply one_choice_ok, runs_signal.
  - now apply one_choice_ok, runs_settled.
  - call_cases o;
      destruct (t_resumed p), (t_insys p); cbn [sysno_of]; cbv beta;
      first [ apply C' | apply C | apply one_choice_ok; first
        [ apply Y | now apply runs_signal | now apply inst_step_ok | now apply store_step_ok
        | now apply straight_step_ok | now apply fork_step_ok ] ].
Qed.

Lemma texec1_ok i ch cfg cfg' : cfg_ok cfg -> texec1 pidof nbp nwp q ret_status i ch cfg = Some cfg' -> cfg_ok cfg'.
Proof.
  intros H. unfold texec1. destruct (s_procs (tc_sys cfg) !! i) as [p|] eqn:Ep; [|discriminate].
  destruct (tc_code cfg !! i) as [[prg pr|]|] eqn:Ec; try discriminate.
  assert (Hr : runs i cfg) by (split; eauto).
  destruct (t_run p); try discriminate. destruct (t_pend p) as [|sig rest]; [now apply code_step_ok|].
  assert (H' : cfg_ok (TConfig (tc_code cfg) (supd i (fun p => put_pend p rest) (tc_sys cfg))))
    by (apply supd_ok; [eauto with typed|exact H]).
  apply one_choice_ok. case_if; [now apply tdie_ok|]. apply runs_signal; [now apply runs_supd|exact H'].
Qed.

Lemma tboot_ok L (p : prog A) : cfg_ok (tboot nbp nwp L p).
Proof.
  unfold cfg_ok, tboot, sys_ok. cbn [tc_code tc_sys s_procs]. constructor; [|constructor].
  destruct (settle_live p proc0) as (prg & pr & ->). split; [|reflexivity].
  constructor; cbn [first_proc t_mem t_regs t_fpr t_tls t_bps t_wps t_sysno t_msg t_tracer t_parent];
    auto with mck; try discriminate; try (unfold w64; lia).
  unfold text_of. repeat apply put_text_ok. intros a c. now rewrite lookup_empty.
Qed.
End Typed.
