(* ===== verification/PtraceThms.v ===== *)
(** * The [ptrace] suite on the documented machine, in every schedule

    All tests but one pass whatever the order of the steps; each deviation of the
    system is noticed by the tests made for it; what test 15 leaves to chance,
    what tests 10 and 17 owe to the compiler, and a deviation that most tests
    cannot see. *)
From S2P Require Import Prelude Process Trace Arch TestMck AddrSpace Procs Forks ForksThms Ptrace PtraceCases PtraceSpec PtraceFacts.
#[local] Open Scope Z_scope.

(** Where the linker and the compiler of the sample put things. *)
Definition sample_layout (tail : nat) (reg_out : Z) (q_out : list Z) : layout :=
  Layout 0x410000 0x410008 0x410010 0x410018 0x410020 0x7ff000 0x400100 0x400200 0x400300 0x400400 tail reg_out q_out.
Definition sample_pid (i : nat) : Z := 1000 + Z.of_nat i.
Definition passed (o : outcome result) : bool := match o with Done None => true | _ => false end.

Lemma passed_true o : passed o = true -> o = Done None.
Proof. destruct o as [[s|]|s|s]; [discriminate|reflexivity|discriminate|discriminate]. Qed.

(** Verdicts of a program on the machine with deviation [q] and [r] debug
    registers of each kind. *)
Definition always_passes (r : nat) (q : quirk) : @tconfig result -> Prop :=
  tinev sample_pid r r q verdict_status (fun c => verdict c = Some (Done None)).
Definition can_end (r : nat) (q : quirk) (cfg : tconfig) (o : outcome result) : Prop :=
  exists cfg', tsteps sample_pid r r q verdict_status cfg cfg' /\ verdict cfg' = Some o.
Definition never_passes (r : nat) (q : quirk) (cfg : tconfig) : Prop := ~ can_end r q cfg (Done None).

Definition STEPS : nat := 300.
Definition computes_always (r : nat) (q : quirk) : @tconfig result -> bool :=
  always sample_pid r r q verdict_status passed STEPS.
Definition computes_never (r : nat) (q : quirk) : @tconfig result -> bool :=
  never sample_pid r r q verdict_status passed STEPS.

Lemma computed_always r q cfg : computes_always r q cfg = true -> always_passes r q cfg.
Proof.
  intros H. apply always_inev in H. unfold always_passes.
  induction H as [cfg (o & Ho & Hp)|cfg Hex Hall IH]; [|now apply tinev_later].
  apply tinev_now. now rewrite Ho, (passed_true _ Hp).
Qed.

Lemma computed_never r q cfg : computes_never r q cfg = true -> never_passes r q cfg.
Proof.
  intros H (cfg' & Hs & Hv). pose proof (never_reach _ _ _ _ _ _ _ _ _ _ H Hs Hv) as E. discriminate E.
Qed.

Lemma computed_end r q cfg sched cfg' o :
  texec sample_pid r r q verdict_status sched cfg = Some cfg' -> verdict cfg' = Some o -> can_end r q cfg o.
Proof. intros H Hv. exists cfg'. split; [now apply texec_steps in H|exact Hv]. Qed.

Lemma forallb_in {B} (f : B -> bool) l x : forallb f l = true -> In x l -> f x = true.
Proof. rewrite forallb_forall. auto. Qed.

(** Test [n] before its first step. *)
Definition boot_test `{ArchConfig} (nbp nwp : nat) (L : layout) (undefined : prog Z) (uninit BUF_RESET : Z) (n : nat)
  : @tconfig result :=
  tboot nbp nwp L (nth n (ptrace_runs L undefined uninit BUF_RESET) (Ret None)).

Section Suite.
(** What the statements leave open: the program after a write beyond an array,
    an uninitialised word, a number of the Linux headers, registers. *)
Context (undefined : prog Z) (uninit BUF_RESET : Z) (q_out : list Z).

Definition suite_run (r tail : nat) (reg_out : Z) (n : nat) : @tconfig result :=
  @boot_test config_4K r r (sample_layout tail reg_out q_out) undefined uninit BUF_RESET n.

(** The register [register_read] should have used, and the test. *)
Definition test_run (n : nat) : @tconfig result := suite_run 6 3 0x7ff000 n.

Definition steady_tests : list nat := seq 0 15 ++ seq 16 6.
Definition debug_tests : list nat := [8; 11; 12]%nat.

Lemma steady_computed : forallb (fun n => computes_always 6 QNone (test_run n)) steady_tests = true.
Proof. vm_compute. reflexivity. Qed.

Lemma debug_computed :
  forallb (fun '(r, n) => computes_always r QNone (suite_run r 3 0x7ff000 n)) (list_prod (seq 1 16) debug_tests) = true.
Proof. vm_compute. reflexivity. Qed.


(** ** Deviations *)

(** The tests that notice each deviation. *)
Definition traced_tests : list nat := seq 1 8 ++ seq 10 5 ++ [16; 17; 21]%nat.
Definition noticed_by (q : quirk) : list nat :=
  match q with
  | QNone => []
  | QTracemeIgnored => seq 1 14 ++ [16; 17; 18; 21]%nat
  | QPokeDataIgnored => [5; 10; 21]%nat
  | QPokeTextIgnored => traced_tests
  | QPeekDataZero => traced_tests
  | QPeekTextZero => [3; 6; 17]%nat
  | QPeekUserWorks => [4%nat]
  | QPokeUserWorks => [7%nat]
  | QGetRegsetFails => [8; 10; 11; 12; 16]%nat
  | QSetRegsetIgnored => [10; 11; 12]%nat
  | QSigstopCode => [9%nat]
  | QNoWatchpoint => [11%nat]
  | QNoBreakpoint => [12%nat]
  | QSetSiginfoIgnored => [13%nat]
  | QAnyOption => [14%nat]
  | QEventMsgZero => [15%nat]
  | QNoSyscallStop => [16%nat]
  | QStepTwo => [17%nat]
  | QNoStep => [17%nat]
  | QKillIgnored => [18%nat]
  | QAttachFails => [19; 20]%nat
  | QAttachNoStop => [19; 20]%nat
  | QDetachFails => [20%nat]
  | QDetachStays => [20%nat]
  | QBrkCode => [6%nat]
  | QBrkAddr => [6%nat]
  | QContKills => [6; 11; 12; 17; 21]%nat
  end.

Lemma noticed_computed q : forallb (fun n => computes_never 6 q (test_run n)) (noticed_by q) = true.
Proof. destruct q; vm_compute; reflexivity. Qed.

(** C9.  A system that deviates from the documentation in one point is noticed: for
    each of 26 deviations no order of the steps makes one of the listed tests
    return [NULL] (it reports a failure or does not end). *)
Theorem ptrace_detects q n : In n (noticed_by q) -> never_passes 6 q (test_run n).
Proof. intros Hn. apply computed_never, (forallb_in _ _ _ (noticed_computed q) Hn). Qed.

(** The tests that end with [WEXITSTATUS(status)] alone. *)
Definition blind_tests : list nat := [1; 2; 3; 4; 5; 7; 8; 9; 10; 13; 14; 16; 19]%nat.

Lemma blind_computed : forallb (fun n => computes_always 6 QContKills (test_run n)) blind_tests = true.
Proof. vm_compute. reflexivity. Qed.

(** [WEXITSTATUS] without [WIFEXITED] takes a child that was killed for one that
    exited with status 0: on a system where [PTRACE_CONT] kills the traced process
    instead of letting it go on, 13 tests pass in every schedule, the test of
    [PTRACE_CONT] itself and the two whose child checks what the parent wrote
    among them. *)
Theorem ptrace_killed_child_passes n : In n blind_tests -> always_passes 6 QContKills (test_run n).
Proof. intros Hn. apply computed_always, (forallb_in _ _ _ blind_computed Hn). Qed.

(** ** What the tests leave to chance *)

(** Test 15 up to the second [wait], and both ways to go on. *)
Definition race_start : list (nat * nat) :=
  (0, 0)%nat :: repeat (1, 0)%nat 6 ++ repeat (0, 0)%nat 5 ++ repeat (1, 0)%nat 4 ++ [(2, 0)%nat].
Definition race_lost : list (nat * nat) := race_start ++ [(0, 1); (0, 0); (0, 0)]%nat.
Definition race_won : list (nat * nat) :=
  race_start ++ repeat (0, 0)%nat 2 ++ repeat (1, 0)%nat 7 ++ repeat (0, 0)%nat 6 ++ [(2, 0); (0, 0)]%nat ++
  repeat (1, 0)%nat 4 ++ [(0, 1); (0, 0)]%nat.

(** Test 15 depends on the schedule: the traced grandchild stops too, and when
    [wait] reports it before the child the test says ["TP failed."] on a system
    without fault; otherwise it can pass. *)
Theorem ptrace_015_race :
  can_end 6 QNone (test_run 15) (Done (Some "TP failed."%string)) /\ can_end 6 QNone (test_run 15) (Done None).
Proof.
  split; [eapply (computed_end _ _ _ race_lost)|eapply (computed_end _ _ _ race_won)]; vm_compute; reflexivity.
Qed.

Lemma chance_computed :
  computes_never 6 QNone (suite_run 6 3 0x7fe000 10) &&
  forallb (fun t => computes_never 6 QNone (suite_run 6 t 0x7ff000 17)) (seq 0 3) = true.
Proof. vm_compute. reflexivity. Qed.

(** Two tests pass only if the compiler cooperates: [register_read] stores through
    an operand declared as output, and when that register does not happen to hold
    the buffer's address test 10 never passes on a system without fault; test 17
    steps over three instructions the compiler makes, and never passes when a jump
    comes earlier. *)
Theorem ptrace_compiler_dependence tail :
  never_passes 6 QNone (suite_run 6 3 0x7fe000 10) /\
  ((tail < 3)%nat -> never_passes 6 QNone (suite_run 6 tail 0x7ff000 17)).
Proof.
  destruct (andb_prop _ _ chance_computed) as [H1 H2]. split; [now apply computed_never|].
  intros Ht. apply computed_never, (forallb_in _ _ _ H2), in_seq. lia.
Qed.
End Suite.

(** ** Typing *)


(** ** Witnesses *)

Definition sample_run (n : nat) : @tconfig result := test_run (Exit 139) 0 0 [] n.


Lemma ptrace_detects_witness : never_passes 6 QDetachStays (sample_run 20).
Proof. apply (ptrace_detects (Exit 139) 0 0 [] QDetachStays 20). cbn. tauto. Defined.

Lemma ptrace_killed_child_passes_witness : always_passes 6 QContKills (sample_run 1).
Proof. apply (ptrace_killed_child_passes (Exit 139) 0 0 [] 1). cbn. tauto. Defined.

Lemma ptrace_compiler_dependence_witness : never_passes 6 QNone (suite_run (Exit 139) 0 0 [] 6 2 0x7ff000 17).
Proof. apply (ptrace_compiler_dependence (Exit 139) 0 0 [] 2). lia. Defined.

(** After the parent's [fork] and the child's [PTRACE_TRACEME]. *)
Definition sample_start : option (@tconfig result) :=
  texec sample_pid 6 6 QNone verdict_status [(0, 0); (1, 0)]%nat (sample_run 1).
Definition sample_cfg : @tconfig result := default (sample_run 1) sample_start.

