(* ===== verification/PtraceExact.v ===== *)
(** * What a pass of each [ptrace] helper is evidence of

    The rules of [Exact] for the calls of the [ptrace] suite and for the helpers of
    the architecture: each returns 0 exactly if the answers of the run meet a
    script. *)
From S2P Require Import Prelude Process Trace CLib Arch TestMck AddrSpace FileMap Procs Forks Exact Ptrace PtraceCases.
From Stdlib Require Import String.
#[local] Open Scope string_scope.
#[local] Open Scope Z_scope.

(** ** Own memory *)

Section Own.
Context (z z' : bool) {A : Type} (a : A).

Definition loaded (r : Z + Z) : Z := match r with inl v => v | inr _ => 0 end.
Lemma exact_load x (k : Z -> prog A) ok s :
  (forall v, ok v = true -> exact z z' a (k v) (s v)) -> (forall v, ok v = false -> fails a (k v)) ->
  exact z z' a (v <- load_word x ;; k v)
    (Need (Ptc (LoadWord x)) (fun r => match r with inl v => ok v | inr _ => false end) (fun r => s (loaded r))).
Proof.
  intros Hk Hf. cbn. apply exact_call; intros [v|n] E; try discriminate.
  - now apply Hk.
  - now apply Hf.
  - cbn. apply fails_raise.
Qed.

Lemma exact_store x v (k : prog A) s :
  exact z z' a k s ->
  exact z z' a (store_word x v ;; k)
    (Need (Ptc (StoreWord x v)) (fun r => match r with inl _ => true | inr _ => false end) (fun _ => s)).
Proof.
  intros Hk. cbn. apply exact_call; intros [[]|n] E; try discriminate; [exact Hk|]. cbn. apply fails_raise.
Qed.
End Own.

(** ** The common parts of the suite *)

Definition child_stops (cpid : Z) (s : script) : script :=
  Need (Procs (Wait4 (-1) 0)) (fun r => (fst r =? cpid) && WIFSTOPPED (snd r)) (fun _ => s).
Definition succeeds (c : op) (f : ans c -> Z) (s : script) : script := Need c (fun r => f r =? 0) (fun _ => s).
Definition request (req cpid addr data : Z) (s : script) : script :=
  Need (Ptc (Req req cpid addr data)) (fun r => (r : Z) =? 0) (fun _ => s).
(** A [PTRACE_PEEK*] request that succeeds with a word that is [ok]. *)
Definition peeks (req cpid addr : Z) (ok : Z -> bool) (s : Z -> script) : script :=
  Need (Ptc (Peek req cpid addr)) (fun r => negb (is_err (fst r)) && ok (i64 (snd r))) (fun r => s (i64 (snd r))).
Definition brk_rewritten (cpid inst_addr : Z) (s : script) : script :=
  peeks PTRACE_PEEKDATA cpid inst_addr (fun _ => true) (fun addr => request PTRACE_POKETEXT cpid (u64 addr) nop_nop s).

Section Common.
Context (z z' : bool) (cpid : Z) (Hpid : is_err cpid = false).
Implicit Types (k : prog label) (s : script).

Lemma exact_request_or l name req addr data k s :
  l <> Fall -> exact z z' Fall k s ->
  exact z z' Fall (request_or l name (ptrace req cpid addr data) k) (request req cpid addr data s).
Proof.
  intros Hl Hk. unfold request_or, ptrace. apply (exact_zero z z' Fall (Ptc (Req req cpid addr data)) (fun r => r)).
  - intros v Hv. unfold check. apply Z.eqb_neq in Hv. rewrite Hv. fails_tac.
  - exact Hk.
Qed.

Lemma exact_wait_stop k s : exact z z' Fall k s -> exact z z' Fall (wait_stop cpid k) (child_stops cpid s).
Proof.
  intros Hk. unfold wait_stop, wait, wait4, child_stops.
  apply (exact_syscall z z' Fall (Procs (Wait4 (-1) 0)) fst snd); intros [pid status] E; cbn [fst snd] in *.
  - apply andb_prop in E as [E Es]. apply Z.eqb_eq in E as ->. split; [exact Hpid|].
    unfold stopped, check. now rewrite Z.eqb_refl, Es.
  - unfold stopped, check. rewrite sysret_eqb by exact Hpid. destruct (pid =? cpid); cbn in E; [rewrite E|]; fails_tac.
Qed.

(** A peek leaves [errno] 0. *)
Lemma exact_peek {A} (a : A) req addr ok (k : Z -> Z -> prog A) (s : Z -> script) :
  (forall v, ok v = true -> exact true z' a (k v 0) (s v)) -> (forall v, ok v = false -> fails a (k v 0)) ->
  (forall e, e <> 0 -> fails a (k (-1) e)) ->
  exact z z' a (v <- ptrace_peek req cpid addr ;; e <- errno ;; k v e) (peeks req cpid addr ok s).
Proof.
  intros Hk Hf He. unfold ptrace_peek, peeks. cbn [bind trigger]. apply exact_call; intros [r v] E; cbn [fst snd] in *.
  - apply andb_prop in E as [E Ek]. apply negb_true_iff in E. rewrite E. intros K w _.
    exact (Hk _ Ek K (World (with_errno 0 (w_proc w)) (w_k w)) (fun _ => eq_refl)).
  - destruct (is_err r) eqn:Er.
    + unfold syscall_ret. rewrite Er. intros K w.
      apply (He (- r)). intros H. unfold is_err in Er. lia.
    + cbn in E. intros K w. exact (Hf _ E K (World (with_errno 0 (w_proc w)) (w_k w))).
Qed.

Lemma exact_peek_or_cont req name addr ok (k : Z -> prog label) (s : Z -> script) :
  (forall v, ok v = true -> exact true z' Fall (k v) (s v)) -> (forall v, ok v = false -> fails Fall (k v)) ->
  exact z z' Fall (peek_or_cont cpid req name addr k) (peeks req cpid addr ok s).
Proof.
  intros Hk Hf. unfold peek_or_cont.
  apply (exact_peek Fall req addr ok (fun v e => check (negb ((v =? -1) && negb (e =? 0))) Cont (perror name) (k v)));
    unfold check; intros x Hx.
  - rewrite andb_false_r. now apply Hk.
  - rewrite andb_false_r. now apply Hf.
  - apply Z.eqb_neq in Hx. rewrite Hx. cbn [negb andb Z.eqb]. fails_tac.
Qed.
End Common.

Lemma exact_rewrite z cpid addr : exact z true 0 (rewrite_brk_inst cpid addr) (brk_rewritten cpid addr Met).
Proof.
  unfold rewrite_brk_inst, brk_rewritten.
  apply (exact_peek z true cpid 0 PTRACE_PEEKDATA addr (fun _ => true) (fun addr e =>
    if (addr =? -1) && negb (e =? 0) then perror "ptrace(PTRACE_PEEKDATA)" ;; Ret (-1)
    else
      ret <- ptrace PTRACE_POKETEXT cpid (u64 addr) nop_nop ;;
      if negb (ret =? 0) then perror "ptrace(PTRACE_POKETEXT)" ;; Ret (-1) else Ret 0)).
  - intros v _. rewrite andb_false_r.
    apply (exact_zero true true 0 (Ptc (Req PTRACE_POKETEXT cpid (u64 v) nop_nop)) (fun r => r)); [|apply exact_ret].
    intros x Hx. apply Z.eqb_neq in Hx. rewrite Hx. cbn [negb]. fails_tac.
  - discriminate.
  - intros e He. apply Z.eqb_neq in He. rewrite He. cbn [negb andb Z.eqb]. fails_tac.
Qed.

Lemma exact_rewrite_or_cont z z' cpid addr k s :
  exact true z' Fall k s -> exact z z' Fall (rewrite_or_cont cpid addr k) (brk_rewritten cpid addr s).
Proof.
  intros Hk. apply (exact_bind z true z' 0 Fall (rewrite_brk_inst cpid addr) _ (brk_rewritten cpid addr Met) s);
    [apply exact_rewrite|exact Hk|]. intros x Hx. apply Z.eqb_neq in Hx. rewrite Hx. fails_tac.
Qed.

(** The signal information of a trap. *)
Definition trap_info (code addr : Z) (info : siginfo) : bool :=
  (si_signo info =? SIGTRAP) && (si_errno info =? 0) && (si_code info =? code) && (u64 (si_addr info) =? u64 addr).
Definition siginfo_is (cpid : Z) (ok : siginfo -> bool) (s : siginfo -> script) : script :=
  Need (Ptc (Getsiginfo cpid)) (fun r => (fst r =? 0) && ok (snd r)) (fun r => s (snd r)).
Definition child_traps (cpid : Z) (s : script) : script :=
  Need (Procs (Wait4 (-1) 0)) (fun r => (fst r =? cpid) && (WIFSTOPPED (snd r) && (WSTOPSIG (snd r) =? SIGTRAP)))
    (fun _ => s).

Section Traps.
Context (z z' : bool) (cpid : Z) (Hpid : is_err cpid = false).

Lemma exact_wait_trap ind k s : exact z z' Fall k s -> exact z z' Fall (wait_trap cpid ind k) (child_traps cpid s).
Proof.
  intros Hk. unfold wait_trap, wait, wait4, child_traps.
  apply (exact_syscall z z' Fall (Procs (Wait4 (-1) 0)) fst snd); intros [pid status] E; cbn [fst snd] in *.
  - apply andb_prop in E as [E Es]. apply Z.eqb_eq in E as ->. split; [exact Hpid|]. apply andb_prop in Es as [Es Et].
    unfold check. now rewrite Z.eqb_refl, Es, Et.
  - unfold check. rewrite sysret_eqb by exact Hpid. destruct (pid =? cpid); [|fails_tac].
    destruct (WIFSTOPPED status); cbn in E; [rewrite E|]; fails_tac.
Qed.

Lemma exact_check_siginfo ind code name addr ok ng k s :
  exact z z' Fall k s ->
  exact z z' Fall (check_siginfo cpid ind code name addr ok ng k) (siginfo_is cpid (trap_info code addr) (fun _ => s)).
Proof.
  intros Hk. unfold check_siginfo, ptrace_getsiginfo, siginfo_is. apply exact_printf.
  apply (exact_zero_fill z z' Fall (Ptc (Getsiginfo cpid)) fst snd).
  - intros v x Hv. apply Z.eqb_neq in Hv. unfold check. rewrite Hv. fails_tac.
  - intros [r info] E. cbn [snd] in *. unfold trap_info in E. unfold check. cbn [Z.eqb].
    destruct (si_signo info =? SIGTRAP); [|fails_tac]. destruct (si_errno info =? 0); [|fails_tac].
    destruct (si_code info =? code); [|fails_tac]. cbn in E. rewrite E. fails_tac.
  - intros [r info] E. cbn [snd] in *. unfold trap_info in E. repeat apply andb_prop in E as [E ?].
    unfold check. cbn [Z.eqb]. rewrite E, H, H0, H1. now repeat apply exact_printf.
Qed.
End Traps.

(** ** Register sets *)

Definition reads (cpid : Z) (r : regset) (len : Z) (ok : regval r -> bool) (s : regval r -> script) : script :=
  Need (Ptc (Getregset cpid r len)) (fun x => (fst x =? 0) && ok (snd x)) (fun x => s (snd x)).
Definition writes (cpid : Z) (r : regset) (v : regval r) (len : Z) (s : script) : script :=
  Need (Ptc (Setregset cpid r v len)) (fun x => (x : Z) =? 0) (fun _ => s).

Section Regsets.
Context (z z' : bool) (cpid : Z).

Lemma exact_getregset r len (k : regval r -> prog Z) ok s :
  (forall v, ok v = true -> exact z z' 0 (k v) (s v)) -> (forall v, ok v = false -> fails 0 (k v)) ->
  exact z z' 0 (getregset_or cpid r len k) (reads cpid r len ok s).
Proof.
  intros Hk Hf. unfold getregset_or, ptrace_getregset, reads.
  apply (exact_zero_fill z z' 0 (Ptc (Getregset cpid r len)) fst snd).
  - intros v x Hv. apply Z.eqb_neq in Hv. rewrite Hv. cbn [negb]. fails_tac.
  - intros x E. cbn [Z.eqb negb]. now apply Hf.
  - intros x E. cbn [Z.eqb negb]. now apply Hk.
Qed.

Lemma exact_setregset r v len k s :
  exact z z' 0 k s -> exact z z' 0 (setregset_or cpid r v len k) (writes cpid r v len s).
Proof.
  intros Hk. unfold setregset_or, ptrace_setregset, writes.
  apply (exact_zero z z' 0 (Ptc (Setregset cpid r v len)) (fun x => x)); [|exact Hk].
  intros x Hx. apply Z.eqb_neq in Hx. rewrite Hx. cbn [negb]. fails_tac.
Qed.
End Regsets.

Lemma dump_quiet z fmt f xs : forall i, exact z z tt (dump fmt f i xs) Met.
Proof. induction xs as [|x xs IH]; intros i; cbn [dump]; [apply exact_ret|apply exact_printf, IH]. Qed.

Lemma dump_dbg_quiet z xs : forall i, exact z z tt (dump_dbg i xs) Met.
Proof.
  induction xs as [|[d c] xs IH]; intros i; cbn [dump_dbg]; [apply exact_ret|]. do 2 apply exact_printf. apply IH.
Qed.

Ltac quiet :=
  repeat match goal with
  | |- exact _ _ _ (bind (printf _ _) _) _ => apply exact_printf
  | |- exact _ _ _ (bind (dump _ _ _ _) _) _ => apply exact_quiet; [apply dump_quiet|]
  | |- exact _ _ _ (bind (dump_dbg _ _) _) _ => apply exact_quiet; [apply dump_dbg_quiet|]
  | |- exact _ _ _ (printf _ _) _ => apply exact_print
  end.

Lemma dump_gpr_quiet z g : exact z z tt (dump_gpr g) Met.
Proof. unfold dump_gpr. quiet. Qed.
Lemma dump_fpr_quiet z f : exact z z tt (dump_fpr f) Met.
Proof. unfold dump_fpr. quiet. Qed.
Lemma dump_hw_quiet z name h : exact z z tt (dump_hw name h) Met.
Proof. unfold dump_hw. quiet. Qed.

Definition all_regsets_read (cpid : Z) : script :=
  reads cpid REGSET_GPR SIZEOF_PT_REGS (fun _ => true) (fun _ =>
  reads cpid REGSET_FPR SIZEOF_FPSIMD (fun _ => true) (fun _ =>
  reads cpid REGSET_TLS 8 (fun _ => true) (fun _ =>
  reads cpid REGSET_HW_BREAK SIZEOF_HWDEBUG (fun _ => true) (fun _ =>
  reads cpid REGSET_HW_WATCH SIZEOF_HWDEBUG (fun _ => true) (fun _ =>
  reads cpid REGSET_SYSTEM_CALL 4 (fun _ => true) (fun _ => Met)))))).

Lemma exact_getregset_check z cpid : exact z z 0 (getregset_check cpid) (all_regsets_read cpid).
Proof.
  unfold getregset_check, all_regsets_read.
  repeat (apply exact_getregset; [|discriminate]; intros ? _; quiet;
    try (apply exact_quiet; [first [apply dump_gpr_quiet | apply dump_fpr_quiet | apply dump_hw_quiet]|])).
  apply exact_ret.
Qed.

Definition restored (cpid : Z) (r : regset) (len : Z) (eqb : regval r -> bool) (v : regval r) (s : script) : script :=
  reads cpid r len (fun _ => true) (fun org =>
  writes cpid r v len (reads cpid r len eqb (fun _ => writes cpid r org len s))).

Lemma exact_restore z z' cpid r len eqb v k s :
  exact z z' 0 k s -> exact z z' 0 (write_and_restore cpid r len eqb v k) (restored cpid r len eqb v s).
Proof.
  intros Hk. unfold write_and_restore, restored. apply exact_getregset; [|discriminate]. intros org _.
  apply exact_setregset, exact_getregset; intros tmp E; rewrite E; [|fails_tac].
  now apply exact_printf, exact_setregset.
Qed.

(** The parent stores the numbers of the registers it has changed. *)
Definition stores (addr v : Z) (s : script) : script :=
  Need (Ptc (StoreWord addr v)) (fun r => match r with inl _ => true | inr _ => false end) (fun _ => s).
Definition loads (addr : Z) (ok : Z -> bool) (s : Z -> script) : script :=
  Need (Ptc (LoadWord addr)) (fun r => match r with inl v => ok v | inr _ => false end)
    (fun r => s (loaded r)).

Definition registers_changed (cpid gregno fregno : Z) (s : script) : script :=
  reads cpid REGSET_GPR SIZEOF_PT_REGS (fun g => negb (find_magic 31 (regs g) =? -1)) (fun g =>
  let i := find_magic 31 (regs g) in
  stores gregno i
  (writes cpid REGSET_GPR (UserPtRegs (<[Z.to_nat i := not64 i]> (regs g)) (sp g) (pc g) (pstate_bits g)) SIZEOF_PT_REGS
   (reads cpid REGSET_FPR SIZEOF_FPSIMD (fun _ => true) (fun f =>
    stores fregno 16
    (writes cpid REGSET_FPR (UserFpsimdState (<[16%nat := not128 16]> (vregs f)) (fpsr f) (fpcr f)) SIZEOF_FPSIMD
     (restored cpid REGSET_TLS 8 (fun v => (v : Z) =? write_tls_val) write_tls_val
      (restored cpid REGSET_SYSTEM_CALL 4 (fun v => (v : Z) =? write_sysno) write_sysno s))))))).

Lemma exact_setregset_check z cpid gregno fregno :
  exact z z 0 (setregset_check cpid gregno fregno) (registers_changed cpid gregno fregno Met).
Proof.
  unfold setregset_check, registers_changed. apply exact_getregset; intros g E.
  - apply negb_true_iff in E. cbv zeta. rewrite E. apply exact_store, exact_setregset.
    apply exact_getregset; [|discriminate]. intros f _. apply exact_store, exact_setregset.
    do 2 apply exact_restore. apply exact_ret.
  - apply negb_false_iff in E. cbv zeta. rewrite E. fails_tac.
Qed.

(** ** Debug registers *)

Definition num_reg (h : user_hwdebug_state) : Z := Z.land (dbg_info h) 0xff.

Definition watchpoint_set (cpid addr : Z) (s : script) : script :=
  reads cpid REGSET_HW_WATCH SIZEOF_HWDEBUG (fun _ => true) (fun h =>
  writes cpid REGSET_HW_WATCH (set_first addr (hw_ctrl 2 8) h) (hwdebug_len (num_reg h)) s).
Definition breakpoint_set (cpid addr : Z) (s : script) : script :=
  reads cpid REGSET_HW_BREAK SIZEOF_HWDEBUG (fun _ => true) (fun h =>
  writes cpid REGSET_HW_BREAK (set_first addr (hw_ctrl 0 4) h) (hwdebug_len (num_reg h)) s).

Lemma exact_set_hw_watchpt z cpid addr : exact z z 0 (set_hw_watchpt cpid addr) (watchpoint_set cpid addr Met).
Proof.
  unfold set_hw_watchpt, set_hw, watchpoint_set. apply exact_getregset; [|discriminate]. intros h _.
  apply exact_setregset, exact_ret.
Qed.
Lemma exact_set_hw_breakpt z cpid addr : exact z z 0 (set_hw_breakpt cpid addr) (breakpoint_set cpid addr Met).
Proof.
  unfold set_hw_breakpt, set_hw, breakpoint_set. apply exact_getregset; [|discriminate]. intros h _.
  apply exact_setregset, exact_ret.
Qed.

(** The entries are cleared; the system must not announce more than 16. *)
Definition cleared (h : user_hwdebug_state) : user_hwdebug_state :=
  UserHwdebugState (dbg_info h) (default [] (clear_regs (num_reg h) (dbg_regs h))).
Definition few_regs (h : user_hwdebug_state) : bool := num_reg h <=? Z.of_nat DBG_REGS.
Definition watchpoints_cleared (cpid : Z) (s : script) : script :=
  reads cpid REGSET_HW_WATCH SIZEOF_HWDEBUG few_regs (fun h =>
  writes cpid REGSET_HW_WATCH (cleared h) (hwdebug_len (num_reg h)) s).
Definition breakpoints_cleared (cpid : Z) (s : script) : script :=
  reads cpid REGSET_HW_BREAK SIZEOF_HWDEBUG few_regs (fun h =>
  writes cpid REGSET_HW_BREAK (cleared h) (hwdebug_len (num_reg h)) s).

Section Clear.
(** A program that has written beyond an array does not count as returning 0. *)
Context (undefined : prog Z) (Hu : fails 0 undefined).

Lemma exact_clear_hw_watchpt z cpid :
  exact z z 0 (clear_hw_watchpt undefined cpid) (watchpoints_cleared cpid Met).
Proof.
  unfold clear_hw_watchpt, clear_hw, watchpoints_cleared. apply exact_getregset; intros h E; unfold id, clear_regs, few_regs, num_reg in *;
    rewrite E; [|exact Hu].
  replace (UserHwdebugState _ _) with (cleared h) by (unfold cleared, clear_regs, num_reg; now rewrite E).
  apply exact_setregset, exact_ret.
Qed.
Lemma exact_clear_hw_breakpt z cpid :
  exact z z 0 (clear_hw_breakpt undefined cpid) (breakpoints_cleared cpid Met).
Proof.
  unfold clear_hw_breakpt, clear_hw, breakpoints_cleared. apply exact_getregset; intros h E; unfold id, clear_regs, few_regs, num_reg in *;
    rewrite E; [|exact Hu].
  replace (UserHwdebugState _ _) with (cleared h) by (unfold cleared, clear_regs, num_reg; now rewrite E).
  apply exact_setregset, exact_ret.
Qed.
End Clear.

Definition stopped_at (cpid addr : Z) (s : script) : script :=
  reads cpid REGSET_GPR SIZEOF_PT_REGS (fun g => pc g =? addr) (fun _ => s).
Lemma exact_check_trap_addr z cpid addr : exact z z 0 (check_trap_addr cpid addr) (stopped_at cpid addr Met).
Proof.
  unfold check_trap_addr, stopped_at. apply exact_getregset; intros g E; rewrite E; [|fails_tac].
  apply exact_printf, exact_ret.
Qed.

Definition in_syscall (cpid no : Z) (s : script) : script :=
  reads cpid REGSET_SYSTEM_CALL 8 (fun v => u32 v =? no) (fun _ => s).
Lemma exact_get_check_syscallno z cpid no : exact z z 0 (get_check_syscallno cpid no) (in_syscall cpid no Met).
Proof.
  unfold get_check_syscallno, in_syscall. apply exact_getregset; intros v E; cbv zeta; rewrite E; [|fails_tac].
  apply exact_printf, exact_ret.
Qed.
