(* ===== verification/PtraceSound.v ===== *)
(** * What a pass of each [ptrace] test is evidence of

    The scripts of the 22 tests, and that each test returns [NULL] on a system
    exactly if the answers of that system meet its script. *)
From S2P Require Import Prelude Process Trace CLib Arch TestMck AddrSpace FileMap Procs Forks Exact Ptrace PtraceCases PtraceExact.
From Stdlib Require Import String.
#[local] Open Scope string_scope.
#[local] Open Scope Z_scope.

(** ** The end of the tests *)

(** [wait] reports a process whose status has no exit code. *)
Definition child_ends : script :=
  Need (Procs (Wait4 (-1) 0)) (fun r => negb (is_err (fst r)) && (WEXITSTATUS (snd r) =? 0)) (fun _ => Met).

Lemma exact_wait_verdict z : exact z z None (wait_verdict_tp 0) child_ends.
Proof.
  unfold wait_verdict_tp, wait, wait4, child_ends.
  apply (exact_syscall z z None (Procs (Wait4 (-1) 0)) fst snd); intros [pid status] E; cbn [fst snd] in *.
  - apply andb_prop in E as [E Es]. apply negb_true_iff in E. split; [exact E|].
    replace (pid =? -1) with false by (symmetry; apply Z.eqb_neq; intros ->; discriminate E).
    rewrite Es. cbn [negb Z.eqb]. apply exact_ret.
  - rewrite sysret_neg1. destruct (is_err pid); cbn in E |- *; [fails_tac|]. rewrite E. fails_tac.
Qed.

Lemma fails_wait_verdict v : v <> 0 -> fails None (wait_verdict_tp v).
Proof.
  intros Hv. apply Z.eqb_neq in Hv. unfold wait_verdict_tp. apply fails_bind. intros [pid status].
  rewrite Hv. cbn [negb]. fails_tac.
Qed.

(** [fork] succeeds and this is the parent. *)
Definition forks (s : Z -> script) : script :=
  Need (Procs Fork) (fun r => negb (is_err r) && negb ((r : Z) =? 0)) s.

Lemma exact_fork z z' {A} (a : A) (err : prog A) (child : prog A) (parent : Z -> prog A) s :
  fails a err -> fails a child -> (forall cpid, is_err cpid = false -> exact z z' a (parent cpid) (s cpid)) ->
  exact z z' a (pid <- fork ;; if pid =? -1 then err else if pid =? 0 then child else parent pid) (forks s).
Proof.
  intros He Hc Hp. unfold fork, forks. cbn. apply exact_call; intros r E.
  - apply andb_prop in E as [E E0]. apply negb_true_iff in E, E0. unfold syscall_ret. rewrite E. cbn [bind].
    replace (r =? -1) with false by (symmetry; apply Z.eqb_neq; intros ->; discriminate E). rewrite E0. now apply Hp.
  - apply fails_syscall. rewrite sysret_neg1. destruct (is_err r) eqn:Er; [exact He|]. cbn in E.
    unfold sysret. rewrite Er. apply negb_false_iff in E. rewrite E. exact Hc.
Qed.

Lemma exact_run_traced z child parent s :
  (forall cpid, is_err cpid = false -> exact z false 0 (parent cpid) (s cpid)) ->
  exact z false None (run_traced child parent) (forks (fun cpid => andthen (s cpid) child_ends)).
Proof.
  intros Hp. unfold run_traced. apply exact_fork; [fails_tac|fails_tac|]. intros cpid Hc.
  apply (exact_bind z false false 0 None); [now apply Hp|apply exact_wait_verdict|apply fails_wait_verdict].
Qed.

Lemma exact_run_traced_munmap z child parent s :
  (forall cpid, is_err cpid = false -> exact z false 0 (parent cpid) (s cpid)) ->
  exact z false None (run_traced_munmap child parent) (forks (fun cpid => andthen (s cpid) child_ends)).
Proof. exact (exact_run_traced z child parent s). Qed.

Definition continues (cpid : Z) (s : script) : script := request PTRACE_CONT cpid NULL NULL s.

Lemma exact_child_continue z cpid : exact z z 0 (child_continue cpid 0) (continues cpid Met).
Proof.
  unfold child_continue, continues, request, ptrace.
  apply (exact_zero z z 0 (Ptc (Req PTRACE_CONT cpid NULL NULL)) (fun r => r)); [|apply exact_ret].
  intros v Hv. apply Z.eqb_neq in Hv. rewrite Hv. cbn [negb]. fails_tac.
Qed.

Lemma exact_cont_out z z' cpid body s :
  exact z z' Fall body s -> exact z false 0 (cont_out cpid body) (andthen s (continues cpid Met)).
Proof.
  intros Hb. apply exact_free with z'. apply (exact_bind z z' z' Fall 0 body _ s); [exact Hb|apply exact_child_continue|].
  intros l Hl. destruct l; [| |contradiction]; unfold child_continue; fails_tac.
Qed.

(** ** Semaphores *)

Definition sem_prot : Z := Z.lor PROT_READ PROT_WRITE.
Definition sem_flags : Z := Z.lor MAP_SHARED MAP_ANONYMOUS.
Definition map_result (r : Z) : Z := if is_err r then MAP_FAILED else r.
Definition both_zero (c1 c2 : op) (f1 : ans c1 -> Z) (f2 : ans c2 -> Z) (s : script) : script :=
  any c1 (fun r1 => Need c2 (fun r2 => (f1 r1 =? 0) && (f2 r2 =? 0)) (fun _ => s)).
Definition unmaps (cwait pwait : Z) (s : script) : script :=
  both_zero (Munmap cwait SIZEOF_SEM_T) (Munmap pwait SIZEOF_SEM_T) (fun r => r) (fun r => r) s.
Definition with_semaphores (s : Z -> Z -> Z -> script) : script :=
  any (Mmap NULL SIZEOF_SEM_T sem_prot sem_flags (-1) 0) (fun r1 =>
  Need (Mmap NULL SIZEOF_SEM_T sem_prot sem_flags (-1) 0)
    (fun r2 => negb ((map_result r1 =? MAP_FAILED) || (map_result r2 =? MAP_FAILED))) (fun r2 =>
  let pwait := map_result r1 in let cwait := map_result r2 in
  both_zero (Procs (SemInit pwait 1 0)) (Procs (SemInit cwait 1 0)) (fun r => r) (fun r => r)
  (forks (fun cpid => andthen (s pwait cwait cpid) (unmaps cwait pwait child_ends))))).

(** Two calls whose results must both be 0. *)
Lemma exact_both_zero z z' {A} (a : A) c1 c2 (f1 : ans c1 -> Z) (f2 : ans c2 -> Z) (k : Z -> Z -> prog A) s :
  (forall r1 r2, r1 <> 0 \/ r2 <> 0 -> fails a (k r1 r2)) -> exact z z' a (k 0 0) s ->
  exact z z' a
    (r1 <- (r <- trigger c1 ;; syscall_ret (-1) (f1 r)) ;;
     r2 <- (r <- trigger c2 ;; syscall_ret (-1) (f2 r)) ;;
     k r1 r2)
    (both_zero c1 c2 f1 f2 s).
Proof.
  intros Hf Hk. unfold both_zero. cbn. apply exact_any. intros r1. destruct (f1 r1 =? 0) eqn:E1.
  - apply Z.eqb_eq in E1. rewrite E1. cbn. apply exact_call; intros r2 E2.
    + apply Z.eqb_eq in E2. rewrite E2. exact Hk.
    + apply fails_syscall, Hf. right. rewrite <- (sysret_eqb _ 0 eq_refl) in E2. now apply Z.eqb_neq in E2.
  - intros K w _. cbn [meets]. destruct (kstep K c2 (w_k w)) as [st r2']. cbn [andb]. apply fails_syscall.
    rewrite <- (sysret_eqb _ 0 eq_refl) in E1. apply Z.eqb_neq in E1. apply fails_call. intros r2.
    apply fails_syscall, Hf. now left.
Qed.

Lemma or_not_zero r1 r2 : r1 <> 0 \/ r2 <> 0 -> (Z.lor r1 r2 =? 0) = false.
Proof. intros H. apply Z.eqb_neq. rewrite Z.lor_eq_0_iff. tauto. Qed.

Lemma exact_run_semaphores child parent s :
  (forall pwait cwait cpid, is_err cpid = false -> exact false false 0 (parent pwait cwait cpid) (s pwait cwait cpid)) ->
  exact false false None (run_semaphores child parent) (with_semaphores s).
Proof.
  intros Hp. unfold run_semaphores, with_semaphores, mmap. cbn [bind trigger]. apply exact_any. intros r1.
  apply exact_sysret_any. cbn [bind trigger]. apply exact_call; intros r2 E.
  - apply exact_sysret_any. apply negb_true_iff in E. unfold map_result in E. rewrite E. fold (map_result r1) (map_result r2).
    apply (exact_both_zero false false None (Procs (SemInit (map_result r1) 1 0)) (Procs (SemInit (map_result r2) 1 0))
      (fun r => r) (fun r => r)).
    + intros v1 v2 Hv. cbv zeta. rewrite ?Z.lor_0_l, (or_not_zero _ _ Hv). cbn [negb]. fails_tac.
    + cbn [Z.lor Z.eqb negb]. cbv zeta. apply exact_fork; [fails_tac|fails_tac|]. intros cpid Hc.
      apply (exact_bind false false false 0 None); [now apply Hp| |].
      * apply (exact_both_zero false false None (Munmap (map_result r2) SIZEOF_SEM_T) (Munmap (map_result r1) SIZEOF_SEM_T)
          (fun r => r) (fun r => r)).
        -- intros v1 v2 Hv. cbv zeta. rewrite ?Z.lor_0_l, (or_not_zero _ _ Hv). cbn [negb]. fails_tac.
        -- apply exact_wait_verdict.
      * intros x Hx. do 2 (apply fails_bind; intros ?). case_if; [fails_tac|now apply fails_wait_verdict].
  - apply negb_false_iff in E. unfold map_result in E.
    intros K w. unfold syscall_ret. destruct (is_err r2); cbn [bind]; rewrite ?E; cbn; unfold perror; cbn; try discriminate;
      rewrite E; discriminate.
Qed.

(** ** The scripts of the tests *)

(** [rewrite_brk_inst] when a failure of it is not one of the test: what follows
    its two outcomes. *)
Definition rewrites_or (cpid inst_addr : Z) (good bad : script) : script :=
  any (Ptc (Peek PTRACE_PEEKDATA cpid inst_addr)) (fun r =>
  if is_err (fst r) then bad
  else any (Ptc (Req PTRACE_POKETEXT cpid (u64 (i64 (snd r))) nop_nop)) (fun x => if (x : Z) =? 0 then good else bad)).
Definition tries_rewrite (cpid inst_addr : Z) (s : script) : script := rewrites_or cpid inst_addr s s.

Lemma exact_rewrites_or z {A} (a : A) cpid addr k good bad :
  exact false false a (k 0) good -> (forall r, r <> 0 -> exact false false a (k r) bad) ->
  exact z false a (r <- rewrite_brk_inst cpid addr ;; k r) (rewrites_or cpid addr good bad).
Proof.
  intros Hg Hb. apply exact_pre. unfold rewrite_brk_inst, rewrites_or, ptrace_peek. cbn [bind trigger]. apply exact_any.
  intros [r v]. cbn [fst snd]. destruct (is_err r) eqn:Er.
  - unfold syscall_ret. rewrite Er. intros K w _. cbn.
    assert (En : (- r =? 0) = false) by (apply Z.eqb_neq; intros H; unfold is_err in Er; lia).
    rewrite En. cbn. match goal with |- context [run K (k _) ?w'] => apply (Hb (-1) ltac:(discriminate) K w') end. discriminate.
  - intros K w _. cbn. rewrite andb_false_r. cbn. destruct (kstep K _ (w_k w)) as [st x]. unfold syscall_ret.
    destruct (x =? 0) eqn:E0.
    + apply Z.eqb_eq in E0. subst x. change (is_err 0) with false. cbn. match goal with |- context [run K (k _) ?w'] => apply (Hg K w') end. discriminate.
    + destruct (is_err x); cbn; rewrite ?E0; cbn;
        match goal with |- context [run K (k _) ?w'] => apply (Hb (-1) ltac:(discriminate) K w') end; discriminate.
Qed.

Lemma exact_tries_rewrite z {A} (a : A) cpid addr k s :
  exact false false a k s -> exact z false a (rewrite_brk_inst cpid addr ;; k) (tries_rewrite cpid addr s).
Proof. intros Hk. now apply exact_rewrites_or. Qed.

Section Scripts.
Context (L : layout) (cpid : Z).

(** The end of most parents: the child goes on. *)
Definition then_continues (s : script) : script := andthen s (continues cpid Met).

Definition script_001 : script := child_stops cpid (tries_rewrite cpid (inst_addr L) (continues cpid Met)).

Definition script_002 : script :=
  stores (buf L) PARENT_MAGIC
  (then_continues
   (child_stops cpid
    (brk_rewritten cpid (inst_addr L)
     (peeks PTRACE_PEEKDATA cpid (buf L) (fun _ => true) (fun read_val =>
      loads (buf L) (fun b => (b =? PARENT_MAGIC) && (read_val =? CHILD_MAGIC)) (fun _ => Met)))))).

Definition script_003 : script :=
  then_continues
  (child_stops cpid
   (brk_rewritten cpid (inst_addr L)
    (peeks PTRACE_PEEKDATA cpid (nop_addr L) (fun _ => true) (fun addr =>
     peeks PTRACE_PEEKTEXT cpid (u64 addr) (fun v => u32 (Z.shiftr v 32) =? NOP_INST) (fun _ => Met))))).

Definition refuses (c : op) (f : ans c -> Z) (e : Z) (s : script) : script := Need c (fun r => f r =? - e) (fun _ => s).
Definition script_004 : script :=
  then_continues
  (child_stops cpid
   (brk_rewritten cpid (inst_addr L)
    (refuses (Ptc (Peek PTRACE_PEEKUSER cpid 0)) fst EIO Met))).
Definition script_007 : script :=
  then_continues
  (child_stops cpid
   (brk_rewritten cpid (inst_addr L)
    (refuses (Ptc (Req PTRACE_POKEUSER cpid 0 0)) (fun r => r) EIO Met))).

Definition script_005 : script :=
  stores (buf L) CHILD_MAGIC
  (then_continues
   (child_stops cpid
    (brk_rewritten cpid (inst_addr L)
     (request PTRACE_POKEDATA cpid (buf L) PARENT_MAGIC
      (loads (buf L) (fun b => b =? CHILD_MAGIC) (fun _ => Met)))))).

(** A failure of [PTRACE_PEEKTEXT] is only noticed when the address was -1. *)
Definition brk_planted (s : Z -> Z -> script) : script :=
  child_stops cpid
  (brk_rewritten cpid (inst_addr L)
   (peeks PTRACE_PEEKDATA cpid (nop_addr L) (fun _ => true) (fun addr =>
    Need (Ptc (Peek PTRACE_PEEKTEXT cpid (u64 addr))) (fun r => negb (is_err (fst r) && (addr =? -1))) (fun r =>
    let inst := if is_err (fst r) then -1 else i64 (snd r) in
    request PTRACE_POKETEXT cpid (u64 addr) (u64 (i64 (Z.lor (Z.land (u64 inst) 0xffffffff00000000) BRK_INST)))
    (continues cpid (s addr inst)))))).
Definition script_006 : script :=
  then_continues
  (brk_planted (fun addr inst =>
   child_traps cpid
   (siginfo_is cpid (trap_info TRAP_BRKPT addr) (fun _ =>
    request PTRACE_POKETEXT cpid (u64 addr) (u64 inst) Met)))).

Definition script_008 : script :=
  then_continues
  (child_stops cpid (brk_rewritten cpid (inst_addr L) (andthen (all_regsets_read cpid) Met))).

Definition script_009 (swait swake : Z) : script :=
  any (Procs (SemWait swait)) (fun _ =>
  Need (Kill cpid SIGSTOP) (fun r => (r : Z) =? 0) (fun _ =>
  any (Procs (SemPost swake)) (fun _ =>
  then_continues
  (child_stops cpid
   (siginfo_is cpid (fun i => (si_signo i =? SIGSTOP) && (si_errno i =? 0) && (si_code i =? 0)) (fun _ => Met)))))).

Definition script_010 : script :=
  then_continues
  (child_stops cpid
   (brk_rewritten cpid (inst_addr L)
    (registers_changed cpid (regno L) (regno L + 8)
     (loads (regno L) (fun _ => true) (fun r0 =>
      request PTRACE_POKEDATA cpid (regno L) r0
      (loads (regno L + 8) (fun _ => true) (fun r1 =>
       request PTRACE_POKEDATA cpid (regno L + 8) r1 Met))))))).

Definition script_011 : script :=
  then_continues
  (child_stops cpid
   (brk_rewritten cpid (inst_addr L)
    (peeks PTRACE_PEEKDATA cpid (nop_addr L) (fun _ => true) (fun addr =>
     watchpoint_set cpid (buf L)
     (continues cpid
      (child_traps cpid
       (siginfo_is cpid (trap_info TRAP_HWBKPT (buf L)) (fun _ =>
        stopped_at cpid (u64 addr) (watchpoints_cleared cpid Met))))))))).

Definition script_012 : script :=
  then_continues
  (child_stops cpid
   (brk_rewritten cpid (inst_addr L)
    (peeks PTRACE_PEEKDATA cpid (nop_addr L) (fun _ => true) (fun addr =>
     breakpoint_set cpid (u64 addr)
     (continues cpid
      (child_traps cpid
       (siginfo_is cpid (trap_info TRAP_HWBKPT (u64 addr)) (fun _ =>
        breakpoints_cleared cpid Met)))))))).

Definition bumped (uninit : Z) (i : siginfo) : siginfo :=
  Siginfo (i32 (si_signo i + 1)) (i32 (si_errno i + 1)) (i32 (si_code i + 1)) uninit.
Definition same_info (i j : siginfo) : bool :=
  (si_signo i =? si_signo j) && (si_errno i =? si_errno j) && (si_code i =? si_code j).
Definition sets_siginfo (i : siginfo) (s : script) : script :=
  Need (Ptc (Setsiginfo cpid i)) (fun r => (r : Z) =? 0) (fun _ => s).
Definition script_013 (uninit : Z) : script :=
  then_continues
  (child_stops cpid
   (brk_rewritten cpid (inst_addr L)
    (siginfo_is cpid (fun _ => true) (fun org =>
     sets_siginfo (bumped uninit org)
     (siginfo_is cpid (same_info (bumped uninit org)) (fun _ => sets_siginfo org Met)))))).

Definition script_014 : script :=
  then_continues
  (child_stops cpid
   (brk_rewritten cpid (inst_addr L)
    (request PTRACE_SETOPTIONS cpid 0 supported_options
     (refuses (Ptc (Req PTRACE_SETOPTIONS cpid 0 illegal_options)) (fun r => r) EINVAL Met)))).

Definition script_015 : script :=
  then_continues
  (child_stops cpid
   (brk_rewritten cpid (inst_addr L)
    (request PTRACE_SETOPTIONS cpid NULL PTRACE_O_TRACEFORK
     (continues cpid
      (child_stops cpid
       (continues cpid
        (Need (Procs (Wait4 cpid 0)) (fun r => (fst r =? cpid) && WIFSTOPPED (snd r)) (fun _ =>
         brk_rewritten cpid (inst_addr L)
         (peeks PTRACE_PEEKDATA cpid (eventpid L) (fun _ => true) (fun v =>
          Need (Ptc (Geteventmsg cpid)) (fun r => (fst r =? 0) && (u64 v =? snd r)) (fun r =>
          any (Kill (i32 (snd r)) SIGKILL) (fun _ => Met)))))))))))).

Definition script_016 : script :=
  then_continues
  (child_stops cpid
   (brk_rewritten cpid (inst_addr L)
    (request PTRACE_SYSCALL cpid NULL NULL (child_stops cpid (in_syscall cpid NR_getpid Met))))).

Fixpoint single_steps (n : nat) (addr : Z) (s : script) : script :=
  match n with
  | O => s
  | S n =>
      request PTRACE_SINGLESTEP cpid NULL NULL
      (child_traps cpid
       (siginfo_is cpid (trap_info TRAP_HWBKPT addr) (fun _ => single_steps n (i64 (addr + 4)) s)))
  end.
Definition script_017 : script :=
  then_continues
  (brk_planted (fun addr inst =>
   child_traps cpid
   (request PTRACE_POKETEXT cpid (u64 addr) (u64 inst) (single_steps 5 (i64 (addr + 4)) Met)))).

Definition script_018 : script :=
  child_stops cpid (tries_rewrite cpid (inst_addr L) (request PTRACE_KILL cpid NULL NULL Met)).
Definition child_killed : script :=
  Need (Procs (Wait4 (-1) 0))
    (fun r => negb (is_err (fst r)) && (WIFSIGNALED (snd r) && (WTERMSIG (snd r) =? SIGKILL))) (fun _ => Met).

Definition attached (swait swake : Z) (s : script) : script :=
  any (Procs (SemWait swait)) (fun _ =>
  request PTRACE_ATTACH cpid NULL NULL (any (Procs (SemPost swake)) (fun _ => child_stops cpid s))).
Definition script_019 (swait swake : Z) : script := attached swait swake (continues cpid Met).
Definition script_020 (swait swake : Z) : script := attached swait swake (request PTRACE_DETACH cpid NULL NULL Met).

(** Test 21: neither a failed rewriting of the [brk] nor what is between the child
    and the device is looked at here. *)
Definition not_err (c : op) (f : ans c -> Z) (s : script) : script := Need c (fun r => negb (is_err (f r))) (fun _ => s).
Definition continues_021 (s : script) : script := not_err (Ptc (Req PTRACE_CONT cpid NULL NULL)) (fun r => r) s.
Definition script_021 (readfd : Z) (s : script) : script :=
  Need (Read readfd (Z.of_nat addr_size)) (fun r => negb (is_err (fst r))) (fun r =>
  child_stops cpid
  (rewrites_or cpid (inst_addr L)
    (not_err (Ptc (Req PTRACE_POKEDATA cpid (read_addr (snd r)) 0xFFFFFFFF)) (fun r => r) (continues_021 s))
    (continues_021 s))).
End Scripts.

(** ** The parents meet their scripts *)

Section Parents.
Context (L : layout) (cpid : Z) (Hpid : is_err cpid = false).

Lemma exact_request_plain z req name addr data k s :
  exact z z 0 k s ->
  exact z z 0 (r <- ptrace req cpid addr data ;; if negb (r =? 0) then perror name ;; Ret (-1) else k)
    (request req cpid addr data s).
Proof.
  intros Hk. apply (exact_zero z z 0 (Ptc (Req req cpid addr data)) (fun r => r)); [|exact Hk].
  intros v Hv. apply Z.eqb_neq in Hv. rewrite Hv. cbn [negb]. fails_tac.
Qed.

(** A helper whose result must be 0. *)
Lemma exact_helper z z' (p : prog Z) msg k s t :
  exact z z 0 p s -> exact z z' Fall k t ->
  exact z z' Fall (r <- p ;; check (r =? 0) Cont (printf msg []) k) (andthen s t).
Proof.
  intros Hp Hk. apply (exact_bind z z z' 0 Fall p); [exact Hp|exact Hk|].
  intros x Hx. apply Z.eqb_neq in Hx. unfold check. rewrite Hx. fails_tac.
Qed.

(** Use a helper's lemma for [f Met] in front of the rest of the script. *)
Ltac helper H :=
  match goal with
  | |- exact _ _ Fall (bind _ _) (?f ?t) =>
      change (f t) with (andthen (f Met) t); apply exact_helper; [apply H|]
  end.

Lemma parent_001 : exact false false 0 (parent_func_001 L cpid) (script_001 L cpid).
Proof.
  unfold parent_func_001, script_001, wait, wait4, child_stops.
  apply (exact_syscall false false 0 (Procs (Wait4 (-1) 0)) fst snd); intros [pid status] E; cbn [fst snd] in *.
  - apply andb_prop in E as [E Es]. apply Z.eqb_eq in E as ->. split; [exact Hpid|]. rewrite Z.eqb_refl, Es.
    apply exact_printf, exact_tries_rewrite, exact_request_plain, exact_ret.
  - rewrite sysret_eqb by exact Hpid. destruct (pid =? cpid); cbn in E; [rewrite E|]; fails_tac.
Qed.

Lemma parent_002 : exact false false 0 (parent_func_002 L cpid) (script_002 L cpid).
Proof.
  unfold parent_func_002, script_002. apply exact_store, (exact_cont_out false false).
  apply exact_wait_stop; [exact Hpid|]. apply exact_rewrite_or_cont. apply exact_peek_or_cont; [|discriminate].
  intros v _. apply exact_load; intros b E; unfold check.
  - apply andb_prop in E as [Eb Ev]. rewrite Eb, Ev. apply exact_printf. apply exact_free with true, exact_ret.
  - destruct (b =? PARENT_MAGIC); cbn in E; [rewrite E|]; fails_tac.
Qed.

Lemma parent_003 : exact false false 0 (parent_func_003 L cpid) (script_003 L cpid).
Proof.
  apply (exact_cont_out false true). apply exact_wait_stop; [exact Hpid|]. apply exact_rewrite_or_cont.
  apply exact_peek_or_cont; [|discriminate]. intros v _. apply exact_peek_or_cont; intros x E; cbv zeta; unfold check; rewrite E.
  - apply exact_printf, exact_ret.
  - fails_tac.
Qed.
(** What [expect_eio] returns depends on [errno] alone. *)
Lemma run_expect_eio K w name v :
  fst (run K (expect_eio name v) w) = Done Fall <->
  p_errno (w_proc w) = EIO /\ (v = -1 \/ p_errno (w_proc w) <> 0).
Proof.
  destruct w as [pr st]. unfold expect_eio, check. cbn -[Z.eqb]. destruct (v =? -1) eqn:Ev, (p_errno pr =? 0) eqn:E0; cbn -[Z.eqb];
    destruct (p_errno pr =? EIO) eqn:Ee; bool_to_prop; cbn; unfold EIO in *; (split; [|intros [? []]]); try discriminate; intros; try lia;
    try (split; [assumption|]); auto.
Qed.

Lemma expect_eio_state K w name v : w_k (snd (run K (expect_eio name v) w)) = w_k w.
Proof.
  destruct w as [pr st]. unfold expect_eio, check. cbn -[Z.eqb].
  destruct (negb (negb (v =? -1) && (p_errno pr =? 0))); [cbn -[Z.eqb]; destruct (p_errno pr =? EIO)|]; reflexivity.
Qed.

Lemma expect_eio_passes K pr st name v :
  p_errno pr = EIO -> exists pr', run K (expect_eio name v) (World pr st) = (Done Fall, World pr' st) /\
                                  (false = true -> p_errno pr' = 0).
Proof.
  intros He. assert (P : fst (run K (expect_eio name v) (World pr st)) = Done Fall)
    by (apply run_expect_eio; cbn; rewrite He; split; [reflexivity|right; discriminate]).
  pose proof (expect_eio_state K (World pr st) name v) as S.
  destruct (run K (expect_eio name v) (World pr st)) as [o [pr' st']]. cbn in P, S. subst o st'.
  exists pr'. split; [reflexivity|discriminate].
Qed.

Lemma expect_eio_fails K w name v : p_errno (w_proc w) <> EIO -> fst (run K (expect_eio name v) w) <> Done Fall.
Proof. intros H R. apply run_expect_eio in R as [R _]. contradiction. Qed.

Lemma exact_pokeuser name :
  exact true false Fall (v <- ptrace PTRACE_POKEUSER cpid 0 0 ;; expect_eio name v)
    (refuses (Ptc (Req PTRACE_POKEUSER cpid 0 0)) (fun r => r) EIO Met).
Proof.
  intros K [pr st] Hz. specialize (Hz eq_refl). unfold ptrace, refuses. cbn -[expect_eio Z.eqb Z.opp]. cbn in Hz.
  destruct (kstep K _ st) as [st' r]. unfold syscall_ret. destruct (r =? - EIO) eqn:E; bool_to_prop.
  - rewrite E. cbn -[expect_eio]. now apply expect_eio_passes.
  - destruct (is_err r); cbn -[expect_eio]; apply expect_eio_fails; cbn; [lia|]. rewrite Hz. discriminate.
Qed.

Lemma exact_peekuser z name :
  exact z false Fall (v <- ptrace_peek PTRACE_PEEKUSER cpid 0 ;; expect_eio name v)
    (refuses (Ptc (Peek PTRACE_PEEKUSER cpid 0)) fst EIO Met).
Proof.
  intros K [pr st] _. unfold ptrace_peek, refuses. cbn -[expect_eio Z.eqb Z.opp].
  destruct (kstep K _ st) as [st' [r v]]. cbn [fst snd]. destruct (r =? - EIO) eqn:E; bool_to_prop.
  - rewrite E. cbn -[expect_eio]. now apply expect_eio_passes.
  - unfold syscall_ret. destruct (is_err r); cbn -[expect_eio]; apply expect_eio_fails; cbn; [lia|discriminate].
Qed.

Lemma parent_004 : exact false false 0 (parent_func_004 L cpid) (script_004 L cpid).
Proof.
  apply (exact_cont_out false false). apply exact_wait_stop; [exact Hpid|]. apply exact_rewrite_or_cont, exact_peekuser.
Qed.

Lemma parent_007 : exact false false 0 (parent_func_007 L cpid) (script_007 L cpid).
Proof.
  apply (exact_cont_out false false). apply exact_wait_stop; [exact Hpid|]. apply exact_rewrite_or_cont, exact_pokeuser.
Qed.

Lemma parent_005 : exact false false 0 (parent_func_005 L cpid) (script_005 L cpid).
Proof.
  unfold parent_func_005, script_005. apply exact_store, (exact_cont_out false true).
  apply exact_wait_stop; [exact Hpid|]. apply exact_rewrite_or_cont, exact_request_or; [discriminate|].
  apply exact_load; intros b E; unfold check; rewrite E; [apply exact_ret|fails_tac].
Qed.

Lemma exact_plant_brk z' k s :
  (forall addr inst, exact false z' Fall (k addr inst) (s addr inst)) ->
  exact false z' Fall (plant_brk L cpid k) (brk_planted L cpid s).
Proof.
  intros Hk. unfold plant_brk, brk_planted. apply exact_wait_stop; [exact Hpid|]. apply exact_rewrite_or_cont.
  apply exact_peek_or_cont; [|discriminate]. intros addr _. apply exact_pre. unfold ptrace_peek. cbn [bind trigger].
  assert (R : forall inst, exact false z' Fall
    (request_or Cont "ptrace(PTRACE_POKETEXT)" (ptrace PTRACE_POKETEXT cpid (u64 addr)
       (u64 (i64 (Z.lor (Z.land (u64 inst) 0xffffffff00000000) BRK_INST))))
     (resume cpid PTRACE_CONT "ptrace(PTRACE_CONT)" Out (k addr inst)))
    (request PTRACE_POKETEXT cpid (u64 addr) (u64 (i64 (Z.lor (Z.land (u64 inst) 0xffffffff00000000) BRK_INST)))
     (continues cpid (s addr inst)))).
  { intros inst. apply exact_request_or; [discriminate|]. apply exact_request_or; [discriminate|apply Hk]. }
  apply exact_call; intros [r v] E; cbn [fst snd] in *.
  - destruct (is_err r) eqn:Er.
    + cbn in E. apply negb_true_iff in E. unfold syscall_ret. rewrite Er. intros K w _. cbn [bind set_errno errno run].
      unfold check. rewrite E. apply (R (-1) K (World (with_errno (- r) (w_proc w)) (w_k w))). discriminate.
    + intros K w _. cbn [bind set_errno errno run]. unfold check. cbn [with_errno p_errno id]. rewrite andb_false_r.
      apply (R (i64 v) K (World (with_errno 0 (w_proc w)) (w_k w))). discriminate.
  - apply negb_false_iff, andb_prop in E as [Er E]. rewrite Er. unfold syscall_ret. rewrite Er. intros K w.
    cbn [bind set_errno errno run]. unfold check. rewrite E. cbn.
    assert (En : (- r =? 0) = false) by (apply Z.eqb_neq; intros H; unfold is_err in Er; lia).
    rewrite En. discriminate.
Qed.

Lemma parent_006 : exact false false 0 (parent_func_006 L cpid) (script_006 L cpid).
Proof.
  apply (exact_cont_out false false). apply exact_plant_brk. intros addr inst.
  apply exact_wait_trap; [exact Hpid|]. apply exact_check_siginfo. apply exact_request_or; [discriminate|apply exact_ret].
Qed.

Lemma exact_step_loop n : forall i addr k s,
  exact false false Fall k s -> exact false false Fall (step_loop n cpid i addr k) (single_steps cpid n addr s).
Proof.
  induction n as [|n IH]; intros i addr k s Hk; cbn [step_loop single_steps]; [exact Hk|]. apply exact_printf.
  apply exact_request_or; [discriminate|]. apply exact_wait_trap; [exact Hpid|]. apply exact_check_siginfo. now apply IH.
Qed.

Lemma parent_017 : exact false false 0 (parent_func_017 L cpid) (script_017 L cpid).
Proof.
  apply (exact_cont_out false false). apply exact_plant_brk. intros addr inst.
  apply exact_wait_trap; [exact Hpid|]. apply exact_request_or; [discriminate|]. apply exact_step_loop, exact_ret.
Qed.
Lemma parent_008 : exact false false 0 (parent_func_008 L cpid) (script_008 L cpid).
Proof.
  apply (exact_cont_out false true). apply exact_wait_stop; [exact Hpid|]. apply exact_rewrite_or_cont.
  apply exact_helper; [apply exact_getregset_check|apply exact_ret].
Qed.

Lemma parent_010 : exact false false 0 (parent_func_010 L cpid) (script_010 L cpid).
Proof.
  apply (exact_cont_out false true). apply exact_wait_stop; [exact Hpid|]. apply exact_rewrite_or_cont.
  helper exact_setregset_check. apply exact_load; [|discriminate]. intros r0 _.
  apply exact_request_or; [discriminate|]. apply exact_load; [|discriminate]. intros r1 _.
  apply exact_request_or; [discriminate|apply exact_ret].
Qed.

Section Debug.
Context (undefined : prog Z) (Hu : fails 0 undefined).

Lemma parent_011 : exact false false 0 (parent_func_011 L undefined cpid) (script_011 L cpid).
Proof.
  apply (exact_cont_out false true). apply exact_wait_stop; [exact Hpid|]. apply exact_rewrite_or_cont.
  apply exact_peek_or_cont; [|discriminate]. intros addr _. helper exact_set_hw_watchpt.
  apply exact_request_or; [discriminate|]. apply exact_wait_trap; [exact Hpid|]. apply exact_check_siginfo.
  helper exact_check_trap_addr. helper (exact_clear_hw_watchpt undefined Hu). apply exact_ret.
Qed.

Lemma parent_012 : exact false false 0 (parent_func_012 L undefined cpid) (script_012 L cpid).
Proof.
  apply (exact_cont_out false true). apply exact_wait_stop; [exact Hpid|]. apply exact_rewrite_or_cont.
  apply exact_peek_or_cont; [|discriminate]. intros addr _. helper exact_set_hw_breakpt.
  apply exact_request_or; [discriminate|]. apply exact_wait_trap; [exact Hpid|]. apply exact_check_siginfo.
  helper (exact_clear_hw_breakpt undefined Hu). apply exact_ret.
Qed.
End Debug.

Lemma exact_siginfo z z' ok (k : siginfo -> prog label) s :
  (forall i, ok i = true -> exact z z' Fall (k i) (s i)) -> (forall i, ok i = false -> fails Fall (k i)) ->
  exact z z' Fall
    (let* (ret, info) := ptrace_getsiginfo cpid in
     check (ret =? 0) Cont (perror "ptrace(PTRACE_GETSIGINFO)") (k info))
    (siginfo_is cpid ok s).
Proof.
  intros Hk Hf. unfold ptrace_getsiginfo, siginfo_is.
  apply (exact_zero_fill z z' Fall (Ptc (Getsiginfo cpid)) fst snd).
  - intros v x Hv. apply Z.eqb_neq in Hv. unfold check. rewrite Hv. fails_tac.
  - intros [r info] E. now apply Hf.
  - intros [r info] E. now apply Hk.
Qed.

Lemma exact_set_siginfo z z' i k s :
  exact z z' Fall k s ->
  exact z z' Fall (request_or Cont "ptrace(PTRACE_SETSIGINFO)" (ptrace_setsiginfo cpid i) k) (sets_siginfo cpid i s).
Proof.
  intros Hk. apply (exact_zero z z' Fall (Ptc (Setsiginfo cpid i)) (fun r => r)); [|exact Hk].
  intros v Hv. unfold check. apply Z.eqb_neq in Hv. rewrite Hv. fails_tac.
Qed.

Lemma parent_013 uninit : exact false false 0 (parent_func_013 L uninit cpid) (script_013 L cpid uninit).
Proof.
  apply (exact_cont_out false true). apply exact_wait_stop; [exact Hpid|]. apply exact_rewrite_or_cont.
  apply exact_siginfo; [|discriminate]. intros org _. apply exact_set_siginfo. apply exact_siginfo; intros tmp E;
    unfold same_info, bumped in E; cbn [si_signo si_errno si_code] in E |- *; unfold check.
  - repeat apply andb_prop in E as [E ?]. rewrite E, H, H0. apply exact_printf, exact_set_siginfo, exact_ret.
  - destruct (i32 (si_signo org + 1) =? si_signo tmp); [|fails_tac].
    destruct (i32 (si_errno org + 1) =? si_errno tmp); [|fails_tac]. cbn in E. rewrite E. fails_tac.
Qed.

Lemma parent_009 swait swake : exact false false 0 (parent_func_009 swait swake cpid) (script_009 cpid swait swake).
Proof.
  unfold parent_func_009, script_009, sem_wait, sem_post, kill.
  apply (exact_ignored false 0 (Procs (SemWait swait)) (fun r => r)).
  apply (exact_zero false false 0 (Kill cpid SIGSTOP) (fun r => r)).
  { intros v Hv. apply Z.eqb_neq in Hv. rewrite Hv. cbn [negb]. fails_tac. }
  apply (exact_ignored false 0 (Procs (SemPost swake)) (fun r => r)).
  apply (exact_cont_out false false). apply exact_wait_stop; [exact Hpid|]. apply exact_siginfo; intros i E; unfold check.
  - repeat apply andb_prop in E as [E ?]. rewrite E, H, H0. quiet. apply exact_ret.
  - destruct (si_signo i =? SIGSTOP); [|fails_tac]. destruct (si_errno i =? 0); [|fails_tac]. cbn in E. rewrite E. fails_tac.
Qed.

Lemma parent_014 : exact false false 0 (parent_func_014 L cpid) (script_014 L cpid).
Proof.
  apply (exact_cont_out false false). apply exact_wait_stop; [exact Hpid|]. apply exact_rewrite_or_cont.
  apply exact_request_or; [discriminate|]. apply exact_printf. intros K [pr st] Hz. specialize (Hz eq_refl). cbn in Hz.
  unfold ptrace, refuses. cbn -[Z.eqb Z.opp check]. destruct (kstep K _ st) as [st' r]. unfold syscall_ret, check.
  destruct (r =? - EINVAL) eqn:E; bool_to_prop.
  - rewrite E. cbn. eexists. split; [reflexivity|discriminate].
  - destruct (is_err r) eqn:Er; cbn -[Z.eqb].
    + change (-1 =? 0) with false. cbn -[Z.eqb].
      replace (- r =? EINVAL) with false by (symmetry; apply Z.eqb_neq; lia). discriminate.
    + destruct (r =? 0); cbn -[Z.eqb]; [discriminate|]. rewrite Hz. discriminate.
Qed.

Lemma exact_waitpid z z' k s :
  exact z z' Fall k s ->
  exact z z' Fall (let* (pid, status) := waitpid cpid 0 in stopped cpid pid status k)
    (Need (Procs (Wait4 cpid 0)) (fun r => (fst r =? cpid) && WIFSTOPPED (snd r)) (fun _ => s)).
Proof.
  intros Hk. unfold waitpid, wait4.
  apply (exact_syscall z z' Fall (Procs (Wait4 cpid 0)) fst snd); intros [pid status] E; cbn [fst snd] in *.
  - apply andb_prop in E as [E Es]. apply Z.eqb_eq in E as ->. split; [exact Hpid|].
    unfold stopped, check. now rewrite Z.eqb_refl, Es.
  - unfold stopped, check. rewrite sysret_eqb by exact Hpid. destruct (pid =? cpid); cbn in E; [rewrite E|]; fails_tac.
Qed.

Lemma parent_015 : exact false false 0 (parent_func_015 L cpid) (script_015 L cpid).
Proof.
  apply (exact_cont_out false false). apply exact_wait_stop; [exact Hpid|]. apply exact_rewrite_or_cont.
  do 2 (apply exact_request_or; [discriminate|]). apply exact_wait_stop; [exact Hpid|].
  apply exact_request_or; [discriminate|]. apply exact_waitpid, exact_rewrite_or_cont.
  apply exact_peek_or_cont; [|discriminate]. intros v _. unfold ptrace_geteventmsg.
  apply (exact_zero_fill true false Fall (Ptc (Geteventmsg cpid)) fst snd); unfold check.
  - intros x y Hx. apply Z.eqb_neq in Hx. rewrite Hx. fails_tac.
  - intros [r m] E. cbn [snd Z.eqb] in *. rewrite E. fails_tac.
  - intros [r m] E. cbn [snd Z.eqb] in *. rewrite E. apply exact_printf.
    apply (exact_ignored true Fall (Kill (i32 m) SIGKILL) (fun r => r)), exact_ret.
Qed.

Lemma parent_016 : exact false false 0 (parent_func_016 L cpid) (script_016 L cpid).
Proof.
  apply (exact_cont_out false true). apply exact_wait_stop; [exact Hpid|]. apply exact_rewrite_or_cont.
  apply exact_request_or; [discriminate|]. apply exact_wait_stop; [exact Hpid|].
  helper exact_get_check_syscallno. apply exact_ret.
Qed.

Lemma parent_018 : exact false false 0 (parent_func_018 L cpid) (script_018 L cpid).
Proof.
  unfold parent_func_018, script_018, wait, wait4, child_stops.
  apply (exact_syscall false false 0 (Procs (Wait4 (-1) 0)) fst snd); intros [pid status] E; cbn [fst snd] in *.
  - apply andb_prop in E as [E Es]. apply Z.eqb_eq in E as ->. split; [exact Hpid|]. rewrite Z.eqb_refl, Es. cbn [negb].
    apply exact_tries_rewrite, exact_request_plain, exact_ret.
  - rewrite sysret_eqb by exact Hpid. destruct (pid =? cpid); cbn in E; [rewrite E|]; fails_tac.
Qed.

Lemma exact_attach swait swake k s :
  exact false false 0 k s -> exact false false 0 (attach_and_wait swait swake cpid k) (attached cpid swait swake s).
Proof.
  intros Hk. unfold attach_and_wait, attached, sem_wait, sem_post, wait, wait4.
  apply (exact_ignored false 0 (Procs (SemWait swait)) (fun r => r)). apply exact_request_plain.
  apply (exact_ignored false 0 (Procs (SemPost swake)) (fun r => r)). unfold child_stops.
  apply (exact_syscall false false 0 (Procs (Wait4 (-1) 0)) fst snd); intros [pid status] E; cbn [fst snd] in *.
  - apply andb_prop in E as [E Es]. apply Z.eqb_eq in E as ->. split; [exact Hpid|]. now rewrite Z.eqb_refl, Es.
  - rewrite sysret_eqb by exact Hpid. destruct (pid =? cpid); cbn in E; [rewrite E|]; fails_tac.
Qed.

Lemma parent_019 swait swake : exact false false 0 (parent_func_019 swait swake cpid) (script_019 cpid swait swake).
Proof. apply exact_attach, exact_printf, exact_request_plain, exact_ret. Qed.

Lemma parent_020 swait swake : exact false false 0 (parent_func_020 swait swake cpid) (script_020 cpid swait swake).
Proof. apply exact_attach, exact_request_plain, exact_printf, exact_ret. Qed.
End Parents.

(** ** The run functions *)

Definition script_000 : script := forks (fun cpid => any (Ptc (Req PTRACE_KILL cpid NULL NULL)) (fun _ => Met)).

Lemma run_000 : exact false false None ptrace_run_000 script_000.
Proof.
  unfold ptrace_run_000, script_000. apply exact_fork; [fails_tac|fails_tac|]. intros cpid _. unfold ptrace.
  apply (exact_unchecked false None (Ptc (Req PTRACE_KILL cpid NULL NULL)) (fun r => r)). intros x.
  apply exact_errno. intros e. apply exact_printf, exact_ret.
Qed.

Lemma run_018 L : exact false false None (ptrace_run_018 L) (forks (fun cpid => andthen (script_018 L cpid) child_killed)).
Proof.
  unfold ptrace_run_018. apply exact_fork; [fails_tac|fails_tac|]. intros cpid Hpid.
  apply (exact_bind false false false 0 None); [now apply parent_018| |].
  - unfold wait, wait4, child_killed.
    apply (exact_syscall false false None (Procs (Wait4 (-1) 0)) fst snd); intros [pid status] E; cbn [fst snd] in *.
    + apply andb_prop in E as [E Es]. apply negb_true_iff in E. split; [exact E|]. apply andb_prop in Es as [Es Et].
      rewrite (not_err_not_neg1 _ E), Es, Et. cbn [negb Z.eqb]. apply exact_printf, exact_ret.
    + rewrite sysret_neg1. destruct (is_err pid); cbn in E |- *; [fails_tac|].
      destruct (WIFSIGNALED status); cbn in E; [|fails_tac]. rewrite E. fails_tac.
  - intros x Hx. apply Z.eqb_neq in Hx. rewrite Hx. apply fails_bind. intros [pid status]. cbn [negb]. fails_tac.
Qed.

Section Device.
Context `{ArchConfig} (L : layout) (BUF_RESET : Z).

Lemma exact_cont_021 z cpid : exact z z None (cont_021 cpid None) (continues_021 cpid Met).
Proof.
  unfold cont_021, continues_021, not_err, ptrace.
  apply (exact_not_err z z None (Ptc (Req PTRACE_CONT cpid NULL NULL)) (fun r => r)); [fails_tac|].
  intros v Hv. rewrite (not_err_not_neg1 _ Hv). apply exact_ret.
Qed.

Lemma fails_cont_021 cpid m : fails None (cont_021 cpid (Some m)).
Proof. unfold cont_021. fails_tac. Qed.

Lemma parent_021 cpid readfd :
  is_err cpid = false -> exact false false None (parent_func_021 L cpid readfd) (script_021 L cpid readfd Met).
Proof.
  intros Hpid. unfold parent_func_021, script_021, read.
  apply (exact_syscall false false None (Read readfd (Z.of_nat addr_size)) fst snd); intros [n bytes] E; cbn [fst snd] in *.
  2: { apply negb_false_iff in E. unfold sysret. rewrite E. fails_tac. }
  apply negb_true_iff in E. split; [exact E|]. rewrite (not_err_not_neg1 _ E). cbv zeta. unfold wait, wait4, child_stops.
  apply (exact_syscall false false None (Procs (Wait4 (-1) 0)) fst snd); intros [pid status] Ew; cbn [fst snd] in *.
  2: { rewrite sysret_eqb by exact Hpid. destruct (pid =? cpid); cbn in Ew |- *; [rewrite Ew|]; apply fails_cont_021. }
  apply andb_prop in Ew as [Ew Es]. apply Z.eqb_eq in Ew as ->. split; [exact Hpid|]. rewrite Z.eqb_refl, Es. cbn [negb].
  apply (exact_rewrites_or false None cpid (inst_addr L) (fun r => if negb (r =? 0) then cont_021 cpid None else _)).
  - cbn [Z.eqb negb]. unfold not_err, ptrace.
    apply (exact_not_err false false None (Ptc (Req PTRACE_POKEDATA cpid (read_addr bytes) 0xFFFFFFFF)) (fun r => r)).
    + apply fails_cont_021.
    + intros v Hv. rewrite (not_err_not_neg1 _ Hv). apply exact_cont_021.
  - intros r Hr. apply Z.eqb_neq in Hr. rewrite Hr. apply exact_cont_021.
Qed.

(** [wait] reports a process that has called [exit(0)]. *)
Definition child_exits : script :=
  Need (Procs (Wait4 (-1) 0))
    (fun r => negb (is_err (fst r)) && (WIFEXITED (snd r) && (WEXITSTATUS (snd r) =? 0))) (fun _ => Met).
Definition script_run_021 : script :=
  Need (Procs Pipe) (fun r => fst r =? 0) (fun r =>
  forks (fun cpid =>
  any (Close (snd (snd r))) (fun _ =>
  andthen (script_021 L cpid (fst (snd r)) Met) (any (Close (fst (snd r))) (fun _ => child_exits))))).

Lemma exact_child_exits :
  exact false false None
    (let* (pid, state) := wait in
     tp_assert! (negb (pid =? -1), Some "wait error") ;;
     tp_assert! (WIFEXITED state, Some "WIFEXITED error.") ;;
     tp_assert! (WEXITSTATUS state =? 0, Some "WEXITSTATUS error") ;;
     Ret None) child_exits.
Proof.
  unfold wait, wait4, child_exits.
  apply (exact_syscall false false None (Procs (Wait4 (-1) 0)) fst snd); intros [pid status] E; cbn [fst snd] in *.
  - apply andb_prop in E as [E Es]. apply negb_true_iff in E. split; [exact E|]. apply andb_prop in Es as [Es Et].
    rewrite (not_err_not_neg1 _ E), Es, Et. apply exact_ret.
  - rewrite sysret_neg1. unfold tp_assert. destruct (is_err pid); cbn in E |- *; [fails_tac|].
    destruct (WIFEXITED status); cbn in E; [|fails_tac]. rewrite E. fails_tac.
Qed.

Lemma run_021 : exact false false None (ptrace_run_021 L BUF_RESET) script_run_021.
Proof.
  unfold ptrace_run_021, script_run_021, pipe.
  apply (exact_syscall false false None (Procs Pipe) fst snd); intros [st [fd0 fd1]] E; cbn [fst snd] in *.
  2: { rewrite (sysret_eqb _ 0 eq_refl), E. unfold tp_assert. fails_tac. }
  rewrite E. apply Z.eqb_eq in E as ->. split; [reflexivity|]. cbn [tp_assert].
  unfold fork, forks. cbn [bind trigger]. apply exact_call; intros cpid E.
  - apply andb_prop in E as [E E0]. apply negb_true_iff in E, E0. unfold syscall_ret. rewrite E. cbn [bind].
    rewrite (not_err_not_neg1 _ E), E0. cbn [negb tp_assert].
    apply (exact_ignored false None (Close fd1) (fun r => r)).
    apply (exact_bind false false false None None); [now apply parent_021| |].
    + apply (exact_ignored false None (Close fd0) (fun r => r)), exact_child_exits.
    + intros [m|] Hm; [|contradiction]. fails_tac.
  - apply fails_syscall. rewrite sysret_neg1. destruct (is_err cpid) eqn:Er; [apply fails_ret; discriminate|].
    cbn [negb andb tp_assert] in E |- *. unfold sysret. rewrite Er. apply negb_false_iff in E. rewrite E. do 3 (apply fails_bind; intros ?).
    case_match; fails_tac.
Qed.
End Device.

(** ** The suite *)

Section Suite.
Context `{ArchConfig} (L : layout) (undefined : prog Z) (uninit BUF_RESET : Z).
(** A program that has written beyond an array does not count as returning 0. *)
Context (Hu : fails 0 undefined).

(** Fork, the parent's script, and the status of the child. *)
Definition traced_script (s : Z -> script) : script := forks (fun cpid => andthen (s cpid) child_ends).

Definition ptrace_scripts : list script :=
  [ script_000; traced_script (script_001 L); traced_script (script_002 L); traced_script (script_003 L); traced_script (script_004 L);
    traced_script (script_005 L); traced_script (script_006 L); traced_script (script_007 L); traced_script (script_008 L);
    with_semaphores (fun pwait cwait cpid => script_009 cpid pwait cwait); traced_script (script_010 L);
    traced_script (script_011 L); traced_script (script_012 L); traced_script (fun cpid => script_013 L cpid uninit);
    traced_script (script_014 L); traced_script (script_015 L); traced_script (script_016 L); traced_script (script_017 L);
    forks (fun cpid => andthen (script_018 L cpid) child_killed);
    with_semaphores (fun pwait cwait cpid => script_019 cpid pwait cwait);
    with_semaphores (fun pwait cwait cpid => script_020 cpid pwait cwait);
    script_run_021 L ].

Lemma suite_exact : Forall2 (exact false false None) (ptrace_runs L undefined uninit BUF_RESET) ptrace_scripts.
Proof.
  unfold ptrace_runs, ptrace_scripts, traced_script.
  repeat apply List.Forall2_cons; [exact run_000| .. |exact (run_021 L BUF_RESET)|apply List.Forall2_nil];
    lazymatch goal with
    | |- exact _ _ _ _ (forks (fun _ => andthen _ child_ends)) => apply exact_run_traced; intros cpid Hc
    | |- exact _ _ _ _ (with_semaphores _) => apply exact_run_semaphores; intros pwait cwait cpid Hc
    | |- _ => exact (run_018 L)
    end.
  exact (parent_001 L cpid Hc). exact (parent_002 L cpid Hc). exact (parent_003 L cpid Hc). exact (parent_004 L cpid Hc).
  exact (parent_005 L cpid Hc). exact (parent_006 L cpid Hc). exact (parent_007 L cpid Hc). exact (parent_008 L cpid Hc).
  exact (parent_009 cpid Hc pwait cwait). exact (parent_010 L cpid Hc). exact (parent_011 L cpid Hc undefined Hu).
  exact (parent_012 L cpid Hc undefined Hu). exact (parent_013 L cpid Hc uninit). exact (parent_014 L cpid Hc).
  exact (parent_015 L cpid Hc). exact (parent_016 L cpid Hc). exact (parent_017 L cpid Hc).
  exact (parent_019 cpid Hc pwait cwait). exact (parent_020 cpid Hc pwait cwait).
Qed.

Lemma suite_exact_nth n :
  exact false false None (nth n (ptrace_runs L undefined uninit BUF_RESET) (Ret None)) (nth n ptrace_scripts Met).
Proof.
  revert n. induction suite_exact as [|p s ps ss Hp _ IH]; intros [|n]; cbn [nth]; auto using exact_ret.
Qed.

(** C7.  What a pass is evidence of, on any system: whatever the answers of the kernel,
    test [n] returns [NULL] exactly if they meet the script of the test - each call
    of the parent in order, with the result, status, signal information, registers
    or memory it must yield - and then the system is left in the state after the
    last call of the script.  [undefined], what the program does after a write
    beyond the 16 debug registers, does not return 0. *)
Theorem ptrace_suite_exact n K w :
  (fst (run K (nth n (ptrace_runs L undefined uninit BUF_RESET) (Ret None)) w) = Done None <->
   is_Some (meets K (nth n ptrace_scripts Met) (w_k w))) /\
  (forall st, meets K (nth n ptrace_scripts Met) (w_k w) = Some st ->
   w_k (snd (run K (nth n (ptrace_runs L undefined uninit BUF_RESET) (Ret None)) w)) = st).
Proof.
  apply exact_iff, suite_exact_nth.
Qed.
End Suite.

(** A system that forks, and answers every request alike. *)
Definition calm_kernel : kernel :=
  Kernel unit (fun c s => (s, match c return ans c with
    | Procs Fork => 1000
    | Procs (Wait4 _ _) => (1000, 0x137f)
    | Ptc (Peek _ _ _) => (0, 0x400300)
    | Ptc (Req _ _ _ _) => 0
    | c => enosys c
    end)).
Definition calm_world : world calm_kernel := World proc0 (tt : kstate calm_kernel).
Definition calm_layout : layout := Layout 8 16 24 32 40 48 56 64 72 80 3 48 [].
Definition calm_runs : list (prog result) := @ptrace_runs config_4K calm_layout (Exit 139) 0 0.

(** The kernel meets the script of test 0 and not the one of test 1, whose child
    must end. *)
Lemma ptrace_suite_exact_witness :
  (fst (run calm_kernel (nth 0 calm_runs (Ret None)) calm_world) = Done None <->
   is_Some (meets calm_kernel (nth 0 (ptrace_scripts calm_layout 0) Met) (w_k calm_world))) /\
  (fst (run calm_kernel (nth 1 calm_runs (Ret None)) calm_world) = Done None <->
   is_Some (meets calm_kernel (nth 1 (ptrace_scripts calm_layout 0) Met) (w_k calm_world))) /\
  meets calm_kernel (nth 0 (ptrace_scripts calm_layout 0) Met) (w_k calm_world) = Some tt /\
  meets calm_kernel (nth 1 (ptrace_scripts calm_layout 0) Met) (w_k calm_world) = None /\
  fails 0 (@Exit Z 139).
Proof.
  split; [apply (@ptrace_suite_exact config_4K calm_layout (Exit 139) 0 0 (fails_exit 0 139) 0)|].
  split; [apply (@ptrace_suite_exact config_4K calm_layout (Exit 139) 0 0 (fails_exit 0 139) 1)|].
  split; [reflexivity|]. split; [reflexivity|apply fails_exit].
Defined.
