(* ===== verification/Driver.v ===== *)
(** * The kernel module: [test_drv]

    [test_mck_drv.c] registers a character device for each test suite that
    needs one and publishes their numbers in procfs; [test_mck_drv-mmap_dev.c],
    [test_mck_drv-mmap_dev2.c] and [test_mck_drv-writecombine.c] are the
    devices.  The functions of Linux it calls are the calls of [kapi]; the
    macros of the Linux headers are the class [Linux]. *)
From stdpp Require Import pretty.
From S2P Require Import Prelude Process.
From Stdlib Require Import Ascii String.
#[local] Open Scope string_scope.
#[local] Open Scope Z_scope.
#[local] Open Scope prog_scope.

(** What the module uses of the Linux headers. *)
Class Linux := {
  LPAGE_SHIFT : Z;
  sizeof_pte : Z;
  IS_ERR : Z -> bool;
  MKDEV : Z -> Z -> Z;
  MAJOR : Z -> Z;
  IO_ : Z -> Z -> Z;
  pgprot_writecombine : Z -> Z;
}.

(** The documented meaning of the macros. *)
Class LinuxLaws `{Linux} : Prop := {
  page_shift_range : 12 <= LPAGE_SHIFT <= 16;
  sizeof_pte_8 : sizeof_pte = 8;
  major_mkdev d m : 0 <= m < 2 ^ 20 -> MAJOR (MKDEV (MAJOR d) m) = MAJOR d;
}.

Section Driver.
Context `{Linux}.
(** The module parameter [ident]. *)
Context (ident : option string).

Definition LPAGE_SIZE : Z := Z.shiftl 1 LPAGE_SHIFT.
Definition EFAULT : Z := 14.
Definition call (c : kapi) : prog (kans c) := trigger (Kapi c).

Definition TEST_MCK_DEVNAME : string := "test_mck".
Definition test_mck_ident : string := match ident with None => "" | Some s => s end.
Definition mck_printk (ts fmt : string) (args : list parg) : prog unit :=
  printf ("%s::%s(%s):" ++ fmt) (PS TEST_MCK_DEVNAME :: PS ts :: PS test_mck_ident :: args).

Definition TEST_MCK_IOC_MAGIC : Z := 77.
Definition TEST_MCK_MMAP_DEV2_BUF_RESET : Z := IO_ TEST_MCK_IOC_MAGIC 0.

(** ** Mappings and open files *)

(** The operations a device installs in a mapping. *)
Inductive vm_operations := mmap_dev_vm_ops | mmap_dev2_vm_ops | writecombine_vm_ops.

(** [vm_private_data] is the index of a device. *)
Record vm_area_struct := VmArea {
  vm_start : Z;
  vm_end : Z;
  vm_pgoff : Z;
  vm_page_prot : Z;
  vm_private_data : option Z;
  vm_ops : option vm_operations;
}.

Definition with_ops (o : vm_operations) (vma : vm_area_struct) : vm_area_struct :=
  VmArea (vm_start vma) (vm_end vma) (vm_pgoff vma) (vm_page_prot vma) (vm_private_data vma) (Some o).

(** An open file: the device its [private_data] points to. *)
Definition file : Type := option Z.

(** ** [test_mck_drv-mmap_dev.c] *)

Definition test_mck_mmap_dev_vma_open : prog unit :=
  mck_printk "mmap_dev" "call vm_open function.\n" [].
Definition test_mck_mmap_dev_vma_close : prog unit :=
  mck_printk "mmap_dev" "call vm_close function.\n" [].
Definition test_mck_mmap_dev_open : prog Z :=
  mck_printk "mmap_dev" "call open function.\n" [] ;; Ret 0.
Definition test_mck_mmap_dev_release : prog Z :=
  mck_printk "mmap_dev" "call release function.\n" [] ;; Ret 0.

Definition test_mck_mmap_dev_mmap (vma : vm_area_struct) : prog (Z * vm_area_struct) :=
  mck_printk "mmap_dev" "call mmap function.(vm_start=%lx, vm_end=%lx, vm_pgoff==%lx)\n"
    [PZ (vm_start vma); PZ (vm_end vma); PZ (vm_pgoff vma)] ;;
  res <- call (RemapPfnRange (vm_start vma) (vm_pgoff vma) (u64 (vm_end vma - vm_start vma))
                 (vm_page_prot vma)) ;;
  vma' <- (if negb (res =? 0) then Ret vma
           else test_mck_mmap_dev_vma_open ;; Ret (with_ops mmap_dev_vm_ops vma)) ;;
  mck_printk "mmap_dev" "return mmap function(%d).\n" [PZ res] ;;
  Ret (0, vma').

Definition test_mck_mmap_dev_ioctl (iocmd ioarg : Z) : prog Z :=
  mck_printk "mmap_dev" "call ioctl function(cmd:%u arg:%lu).\n" [PZ iocmd; PZ ioarg] ;; Ret 0.

Definition test_mck_mmap_dev_init (dev private_data : Z) : prog (Z * Z) := Ret (0, private_data).
Definition test_mck_mmap_dev_fin (private_data : Z) : prog Z := Ret private_data.

(** ** [test_mck_drv-mmap_dev2.c] *)

Definition test_mck_mmap_dev2_block_size : Z := u64 (LPAGE_SIZE / sizeof_pte * LPAGE_SIZE).
Definition test_mck_mmap_dev2_buf_size : Z := u64 (test_mck_mmap_dev2_block_size + LPAGE_SIZE).

Definition test_mck_mmap_dev2_vma_open : prog unit :=
  mck_printk "mmap_dev2" "call vm_open function.\n" [].
Definition test_mck_mmap_dev2_vma_close : prog unit :=
  mck_printk "mmap_dev2" "call vm_close function.\n" [].

(** The result and [vmf->page]; [private_data] is that of the mapping's device. *)
Definition test_mck_mmap_dev2_vma_fault (private_data pgoff : Z) : prog (Z * option Z) :=
  mck_printk "mmap_dev2" "call vm_fault function.\n" [] ;;
  if private_data =? 0 then
    mck_printk "mmap_dev2" "buffer is NULL.\n" [] ;; Ret (- ENOMEM, None)
  else if test_mck_mmap_dev2_buf_size <=? u64 (Z.shiftl pgoff LPAGE_SHIFT) then
    mck_printk "mmap_dev2" "invalid page offset.\n" [] ;; Ret (- EFAULT, None)
  else
    page <- call (VmallocToPage (u64 (private_data + Z.shiftl pgoff LPAGE_SHIFT))) ;;
    call (GetPage page) ;;
    Ret (0, Some page).

(** [file->private_data] becomes the device of the inode. *)
Definition test_mck_mmap_dev2_open (dev : Z) : prog (Z * file) :=
  mck_printk "mmap_dev2" "call open function.\n" [] ;; Ret (0, Some dev).
Definition test_mck_mmap_dev2_release : prog Z :=
  mck_printk "mmap_dev2" "call release function.\n" [] ;; Ret 0.

Definition test_mck_mmap_dev2_mmap (f : file) (vma : vm_area_struct) : prog (Z * vm_area_struct) :=
  mck_printk "mmap_dev2" "call mmap function.(vm_start=%lx, vm_end=%lx, vm_pgoff==%lx)\n"
    [PZ (vm_start vma); PZ (vm_end vma); PZ (vm_pgoff vma)] ;;
  let vma := with_ops mmap_dev2_vm_ops
    (VmArea (vm_start vma) (vm_end vma) (vm_pgoff vma) (vm_page_prot vma) f (vm_ops vma)) in
  test_mck_mmap_dev2_vma_open ;;
  mck_printk "mmap_dev2" "return mmap function(%d).\n" [PZ 0] ;;
  Ret (0, vma).

(** The loop over the pages; [n] bounds the number of rounds and is not reached. *)
Fixpoint buffer_reset_from (n : nat) (start off val : Z) : prog unit :=
  match n with
  | O => Ret tt
  | S n =>
      if off <? test_mck_mmap_dev2_buf_size then
        let len := if off + LPAGE_SIZE <? test_mck_mmap_dev2_buf_size then LPAGE_SIZE
                   else test_mck_mmap_dev2_buf_size - off in
        memset (u64 (start + off)) val len ;;
        buffer_reset_from n start (off + LPAGE_SIZE) (val + 1)
      else Ret tt
  end.

Definition test_mck_mmap_dev2_buffer_reset (private_data : Z) : prog unit :=
  buffer_reset_from (S (Z.to_nat (test_mck_mmap_dev2_buf_size / LPAGE_SIZE))) private_data 0 1.

Definition test_mck_mmap_dev2_ioctl (private_data iocmd ioarg : Z) : prog Z :=
  mck_printk "mmap_dev2" "call ioctl function(cmd:%u arg:%lu).\n" [PZ iocmd; PZ ioarg] ;;
  if iocmd =? TEST_MCK_MMAP_DEV2_BUF_RESET then
    test_mck_mmap_dev2_buffer_reset private_data ;; Ret 0
  else Ret 0.

Definition test_mck_mmap_dev2_init (dev private_data : Z) : prog (Z * Z) :=
  p <- call (VmallocUser test_mck_mmap_dev2_buf_size) ;;
  mck_printk "mmap_dev2" "dev(%p) buffer(%p).\n" [PZ dev; PZ p] ;;
  if p =? 0 then Ret (- ENOMEM, p)
  else test_mck_mmap_dev2_buffer_reset p ;; Ret (0, p).

Definition test_mck_mmap_dev2_fin (private_data : Z) : prog Z :=
  if negb (private_data =? 0) then call (Vfree private_data) ;; Ret 0 else Ret private_data.

(** ** [test_mck_drv-writecombine.c] *)

Definition test_mck_writecombine_vma_fault (private_data pgoff : Z) : prog (Z * option Z) :=
  if private_data =? 0 then Ret (- ENOMEM, None)
  else
    page <- call (VmallocToPage (u64 (private_data + Z.shiftl pgoff LPAGE_SHIFT))) ;;
    call (GetPage page) ;;
    Ret (0, Some page).

Definition test_mck_writecombine_release : prog Z := Ret 0.
Definition test_mck_writecombine_mmap (f : file) (vma : vm_area_struct) : prog (Z * vm_area_struct) :=
  Ret (0, VmArea (vm_start vma) (vm_end vma) (vm_pgoff vma) (pgprot_writecombine (vm_page_prot vma))
            f (Some writecombine_vm_ops)).
Definition test_mck_writecombine_open (dev : Z) : prog (Z * file) := Ret (0, Some dev).

Definition test_mck_writecombine_init (dev private_data : Z) : prog (Z * Z) :=
  p <- call (VmallocUser LPAGE_SIZE) ;;
  mck_printk "writecombine" "dev(%p) buffer(%p).\n" [PZ dev; PZ p] ;;
  if p =? 0 then Ret (- ENOMEM, p)
  else memset p 0x80 LPAGE_SIZE ;; Ret (0, p).

Definition test_mck_writecombine_fin (private_data : Z) : prog Z :=
  if negb (private_data =? 0) then call (Vfree private_data) ;; Ret 0 else Ret private_data.

(** ** [test_mck_drv.c]: files in procfs *)

(** The bytes of a string. *)
Definition bytes_of (s : string) : list Z := map (fun c => Z.of_N (N_of_ascii c)) (list_ascii_of_string s).

(** The result and the new [*ppos]; [str] holds the bytes before the final NUL. *)
Definition test_mck_procfs_string_read (buf nbytes ppos : Z) (str : list Z) : prog (Z * Z) :=
  let len := Z.of_nat (List.length str) in
  if len <? u64 ppos then Ret (0, ppos)
  else
    let count := if len <? u64 (ppos + nbytes) then u64 (len - ppos) else nbytes in
    r <- call (CopyToUser buf (take (Z.to_nat count) (drop (Z.to_nat ppos) str)) count) ;;
    if negb (r =? 0) then Ret (- EFAULT, ppos)
    else Ret (i64 count, i64 (ppos + count)).

(** ** [test_mck_drv.c]: the device list *)

(** [init] and [fin] work on [private_data] only; [init] also prints the
    address of the structure. *)
Record test_mck_dev := TestMckDev {
  ts_name : string;
  fops : string;
  dev_init : Z -> Z -> prog (Z * Z);
  dev_fin : Z -> prog Z;
  private_data : Z;
  devno : Z;
  dev_class : Z;
}.

Definition with_class (c : Z) (d : test_mck_dev) : test_mck_dev :=
  TestMckDev (ts_name d) (fops d) (dev_init d) (dev_fin d) (private_data d) (devno d) c.
Definition with_devno (n : Z) (d : test_mck_dev) : test_mck_dev :=
  TestMckDev (ts_name d) (fops d) (dev_init d) (dev_fin d) (private_data d) n (dev_class d).
Definition with_data (p : Z) (d : test_mck_dev) : test_mck_dev :=
  TestMckDev (ts_name d) (fops d) (dev_init d) (dev_fin d) p (devno d) (dev_class d).

(** [test_suite.list] *)
Definition test_mck_devlist : list test_mck_dev :=
  [TestMckDev "mmap_dev" "test_mck_mmap_dev_fops" test_mck_mmap_dev_init test_mck_mmap_dev_fin 0 0 0;
   TestMckDev "mmap_dev2" "test_mck_mmap_dev2_fops" test_mck_mmap_dev2_init test_mck_mmap_dev2_fin 0 0 0;
   TestMckDev "writecombine" "test_mck_writecombine_fops" test_mck_writecombine_init
     test_mck_writecombine_fin 0 0 0].

Definition test_mck_tp_names : string :=
  fold_right (fun d s => ts_name d ++ " " ++ s) "" test_mck_devlist.

(** The array [test_mck_majmin], the offset of the pointer [majmin] in it, and
    whether something was written outside. *)
Record majmin_buf := MajMin { mm_bytes : list Z; mm_pos : Z; mm_overrun : bool }.

Definition majmin0 (n : nat) : majmin_buf := MajMin (repeat 0 (n * 8 + 1)) 0 false.

Definition pad_left (w : nat) (s : string) : string :=
  String.concat "" (repeat " " (w - String.length s)) ++ s.
Definition pad_right (w : nat) (s : string) : string :=
  s ++ String.concat "" (repeat " " (w - String.length s)).

(** ["%3d:%-3d "] *)
Definition majmin_text (major minor : Z) : list Z :=
  bytes_of (pad_left 3 (pretty major) ++ ":" ++ pad_right 3 (pretty minor) ++ " ").

(** Store the bytes [bs] from offset [pos] on. *)
Definition write_at (pos : Z) (bs buf : list Z) : list Z :=
  take (List.length buf)
    (take (Z.to_nat pos) buf ++ bs ++ drop (Z.to_nat pos + List.length bs) buf)%list.

(** [snprintf(majmin, sizeof(test_mck_majmin) - (majmin - test_mck_majmin) - 1,
    "%3d:%-3d ", major, i)] and the advance of the pointer. *)
Definition majmin_add (major i : Z) (m : majmin_buf) : majmin_buf :=
  let text := majmin_text major i in
  let size := u64 (Z.of_nat (List.length (mm_bytes m)) - mm_pos m - 1) in
  let out := if size =? 0 then [] else (take (Z.to_nat (size - 1)) text ++ [0])%list in
  MajMin (write_at (mm_pos m) out (mm_bytes m)) (mm_pos m + Z.of_nat (List.length text))
    (mm_overrun m ||
     (Z.of_nat (List.length (mm_bytes m)) <? mm_pos m + Z.of_nat (List.length out))).

(** The static variables.  [test_mck_minor] is always 0. *)
Record drv := Drv {
  test_mck_major : Z;
  test_mck_majmin : majmin_buf;
  devlist : list test_mck_dev;
  test_mck_procdir : Z;
  proc_ents : list (string * Z);
}.

Definition test_mck_minor : Z := 0.
Definition nr_devs (d : drv) : Z := Z.of_nat (List.length (devlist d)).

Definition drv0 (devs : list test_mck_dev) : drv :=
  Drv 0 (majmin0 (List.length devs)) devs 0 [("devno", 0); ("tp_names", 0)].

(** What [private_data] of an open procfs file points to. *)
Inductive proc_text := devno_file | tp_names_file.

(** The bytes of a C string, before its NUL. *)
Fixpoint c_bytes (l : list Z) : list Z :=
  match l with [] => [] | b :: l => if b =? 0 then [] else b :: c_bytes l end.

Definition proc_bytes (d : drv) (f : proc_text) : list Z :=
  match f with
  | devno_file => c_bytes (mm_bytes (test_mck_majmin d))
  | tp_names_file => bytes_of test_mck_tp_names
  end.

Definition test_mck_procfs_devno_open : prog (Z * proc_text) := Ret (0, devno_file).
Definition test_mck_procfs_devno_read (d : drv) (f : proc_text) (buf nbytes ppos : Z) : prog (Z * Z) :=
  test_mck_procfs_string_read buf nbytes ppos (proc_bytes d f).
Definition test_mck_procfs_tp_names_open : prog (Z * proc_text) := Ret (0, tp_names_file).
Definition test_mck_procfs_tp_names_read (d : drv) (f : proc_text) (buf nbytes ppos : Z) : prog (Z * Z) :=
  test_mck_procfs_string_read buf nbytes ppos (proc_bytes d f).

Definition TEST_MCK_PROCFS_DIRNAME : string := "test_mck".
Definition S_IRUGO : Z := 292.

(** ** Cleanup *)

Fixpoint cleanup_ents (procdir : Z) (ents : list (string * Z)) : prog (list (string * Z)) :=
  match ents with
  | [] => Ret []
  | (fname, pent) :: ents =>
      e <- (if negb (pent =? 0) then call (RemoveProcEntry fname procdir) ;; Ret (fname, 0)
            else Ret (fname, pent)) ;;
      es <- cleanup_ents procdir ents ;;
      Ret (e :: es)
  end.

Definition test_mck_cleanup_procfs (d : drv) : prog drv :=
  es <- cleanup_ents (test_mck_procdir d) (proc_ents d) ;;
  call (RemoveProcEntry TEST_MCK_PROCFS_DIRNAME 0) ;;
  Ret (Drv (test_mck_major d) (test_mck_majmin d) (devlist d) 0 es).

(** Device [i] and the following ones. *)
Fixpoint cleanup_devs (i : Z) (devs : list test_mck_dev) : prog (list test_mck_dev) :=
  match devs with
  | [] => Ret []
  | d :: devs =>
      p <- dev_fin d (private_data d) ;;
      call (CdevDel i) ;;
      call (DeviceDestroy (dev_class d) (devno d)) ;;
      call (ClassDestroy (dev_class d)) ;;
      ds <- cleanup_devs (i + 1) devs ;;
      Ret (with_data p d :: ds)
  end.

Definition test_mck_cleanup (d : drv) : prog drv :=
  d <- test_mck_cleanup_procfs d ;;
  ds <- cleanup_devs 0 (devlist d) ;;
  let d := Drv (test_mck_major d) (test_mck_majmin d) ds (test_mck_procdir d) (proc_ents d) in
  call (UnregisterChrdevRegion (MKDEV (test_mck_major d) test_mck_minor) (nr_devs d)) ;;
  Ret d.

(** ** Setup *)

(** The loop over [proc_ents]; the flag is false if it was left by the error
    return. *)
Fixpoint init_ents (procdir : Z) (ents : list (string * Z)) : prog (bool * list (string * Z)) :=
  match ents with
  | [] => Ret (true, [])
  | (fname, _) :: ents =>
      pent <- call (ProcCreateData fname S_IRUGO procdir) ;;
      if pent =? 0 then Ret (false, (fname, pent) :: ents)
      else let* (b, es) := init_ents procdir ents in Ret (b, (fname, pent) :: es)
  end.

Definition test_mck_init_procfs (d : drv) : prog (Z * drv) :=
  dir <- call (ProcMkdir TEST_MCK_PROCFS_DIRNAME 0) ;;
  let d := Drv (test_mck_major d) (test_mck_majmin d) (devlist d) dir (proc_ents d) in
  if dir =? 0 then Ret (- ENOMEM, d)
  else
    let* (b, es) := init_ents dir (proc_ents d) in
    let d := Drv (test_mck_major d) (test_mck_majmin d) (devlist d) dir es in
    Ret (if b then 0 else - ENOMEM, d).

Section Setup.
(** The address of device [i]. *)
Context (dev_addr : Z -> Z).

(** The loop over the devices from number [i] on: whether it ran to its end,
    [res], the devices and the number array. *)
Fixpoint setup_devs (major i res : Z) (mm : majmin_buf) (devs : list test_mck_dev)
  : prog (bool * Z * majmin_buf * list test_mck_dev) :=
  match devs with
  | [] => Ret (true, res, mm, [])
  | d :: devs =>
      c <- call (ClassCreate (ts_name d)) ;;
      if IS_ERR c then
        mck_printk "" "error create class(%s)." [PS (ts_name d)] ;;
        Ret (false, res, mm, with_class 0 d :: devs)
      else
        let d := with_class c d in
        call (CdevInit i (fops d)) ;;
        let d := with_devno (MKDEV major (test_mck_minor + i)) d in
        res <- call (CdevAdd i (devno d) 1) ;;
        if negb (res =? 0) then
          mck_printk "" "error %d adding mck test driver(%s)." [PZ res; PS (ts_name d)] ;;
          Ret (false, res, mm, d :: devs)
        else
          call (DeviceCreate (dev_class d) (devno d) (ts_name d)) ;;
          let mm := majmin_add major i mm in
          let* (res, p) := dev_init d (dev_addr i) (private_data d) in
          let d := with_data p d in
          if negb (res =? 0) then Ret (false, res, mm, d :: devs)
          else
            let* (b, res, mm, ds) := setup_devs major (i + 1) res mm devs in
            Ret (b, res, mm, d :: ds)
  end.

(** The part of [test_mck_setup] before the label [fail]: whether it reached
    [return 0], and [res]. *)
Definition setup_body (d : drv) : prog (bool * Z * drv) :=
  let* (res, dn) := call (AllocChrdevRegion test_mck_minor (nr_devs d) TEST_MCK_DEVNAME) in
  if res <? 0 then mck_printk "" "error get major %d\n" [PZ res] ;; Ret (false, res, d)
  else
    let* (b, res, mm, ds) := setup_devs (MAJOR dn) 0 res (test_mck_majmin d) (devlist d) in
    let d := Drv (MAJOR dn) mm ds (test_mck_procdir d) (proc_ents d) in
    if negb b then Ret (false, res, d)
    else
      let* (res, d) := test_mck_init_procfs d in
      if negb (res =? 0) then
        mck_printk "" "error %d create procfs." [PZ res] ;; Ret (false, res, d)
      else Ret (true, 0, d).

Definition test_mck_setup (d : drv) : prog (Z * drv) :=
  let* (b, res, d) := setup_body d in
  if b then Ret (0, d)
  else d <- test_mck_cleanup d ;; Ret (res, d).

Definition test_mck_init : drv -> prog (Z * drv) := test_mck_setup.
Definition test_mck_exit : drv -> prog drv := test_mck_cleanup.
End Setup.
End Driver.
