(* ===== verification/DriverThms.v ===== *)
(** * The kernel module: resources

    Every registration the module makes with Linux is a [resource].  [net]
    counts, over the log of a run, acquisitions minus releases.  Whatever Linux
    answers, loading and unloading the module leaks nothing; but a failure of
    [class_create] is reported as success. *)
From S2P Require Import Prelude Process Trace Driver.
From Stdlib Require Import Ascii String.
#[local] Open Scope string_scope.
#[local] Open Scope Z_scope.

(** ** Resources *)

Inductive resource :=
| RRegion (major : Z)
| RClass (cls : Z)
| RCdev (dev : Z)
| RDevice (cls devno : Z)
| RBuf (ptr : Z)
| RProc (name : string) (parent : Z).

#[export] Instance resource_eq_dec : EqDecision resource.
Proof. solve_decision. Defined.

Section Net.
Context `{Linux}.

(** What a call acquires, given its answer. *)
Definition acquired (e : event) : option resource :=
  let 'Ev c r := e in
  match c return ans c -> option resource with
  | Kapi k =>
      match k return kans k -> option resource with
      | AllocChrdevRegion _ _ _ => fun r => if fst r <? 0 then None else Some (RRegion (MAJOR (snd r)))
      | ClassCreate _ => fun c => if IS_ERR c then None else Some (RClass c)
      | CdevAdd i _ _ => fun r => if r =? 0 then Some (RCdev i) else None
      | DeviceCreate c d _ => fun r => if IS_ERR r then None else Some (RDevice c d)
      | VmallocUser _ => fun p => if p =? 0 then None else Some (RBuf p)
      | ProcMkdir n p => fun r => if r =? 0 then None else Some (RProc n p)
      | ProcCreateData n _ p => fun r => if r =? 0 then None else Some (RProc n p)
      | _ => fun _ => None
      end
  | _ => fun _ => None
  end r.

(** What a call releases. *)
Definition released (e : event) : option resource :=
  match ev_op e with
  | Kapi (UnregisterChrdevRegion d _) => Some (RRegion (MAJOR d))
  | Kapi (ClassDestroy c) => Some (RClass c)
  | Kapi (CdevDel i) => Some (RCdev i)
  | Kapi (DeviceDestroy c d) => Some (RDevice c d)
  | Kapi (Vfree p) => Some (RBuf p)
  | Kapi (RemoveProcEntry n p) => Some (RProc n p)
  | _ => None
  end.

Definition cnt (o : option resource) (r : resource) : Z := if decide (o = Some r) then 1 else 0.
Definition ev_net (e : event) (r : resource) : Z := cnt (acquired e) r - cnt (released e) r.
Definition net (l : list event) (r : resource) : Z := fold_right (fun e z => ev_net e r + z) 0 l.

Lemma cnt_None r : cnt None r = 0.
Proof. reflexivity. Qed.
Lemma cnt_bounds o r : 0 <= cnt o r <= 1.
Proof. unfold cnt. destruct (decide _); lia. Qed.
Lemma cnt_same x : cnt (Some x) x = 1.
Proof. unfold cnt. now rewrite decide_True. Qed.
Lemma net_app l1 l2 r : net (l1 ++ l2)%list r = net l1 r + net l2 r.
Proof. unfold net. induction l1 as [|e l1 IH]; cbn [app fold_right]; [reflexivity|]. rewrite IH. lia. Qed.

(** Calls that neither acquire nor release. *)
Definition neutral (c : op) : Prop := match c with Kapi _ => False | _ => True end.
Lemma net_neutral l r : Forall (fun e => neutral (ev_op e)) l -> net l r = 0.
Proof.
  induction 1 as [|e l He _ IH]; [reflexivity|]. cbn. fold (net l r). rewrite IH.
  destruct e as [[] ?]; cbn in *; try contradiction; reflexivity.
Qed.

(** ** Runs with their balance *)

Section Does.
Context (K : kernel).
Implicit Types w : world K.

(** [p] returns [a] in [w'] and changes the balance by [b]. *)
Definition does {A} (p : prog A) w (a : A) w' (b : resource -> Z) : Prop :=
  run K p w = (Done a, w') /\ forall r, net (calls K p w) r = b r.

Lemma does_ret {A} (a : A) w : does (Ret a) w a w (fun _ => 0).
Proof. now split. Qed.

Lemma does_bind {A B} (p : prog A) (k : A -> prog B) w a w1 b1 x w2 b2 :
  does p w a w1 b1 -> does (k a) w1 x w2 b2 -> does (bind p k) w x w2 (fun r => b1 r + b2 r).
Proof.
  intros [R1 N1] [R2 N2]. split; [now rewrite run_bind, R1|].
  intros r. now rewrite calls_bind, R1, net_app, N1, N2.
Qed.

(** A step that does not touch the balance. *)
Lemma does_skip {A B} (p : prog A) (k : A -> prog B) w a w1 x w2 b :
  does p w a w1 (fun _ => 0) -> does (k a) w1 x w2 b -> does (bind p k) w x w2 b.
Proof.
  intros H1 H2. destruct (does_bind _ _ _ _ _ _ _ _ _ H1 H2) as [R N]. split; [exact R|].
  intros r. now rewrite N.
Qed.

Lemma does_eq {A} (p : prog A) w a w' b b' :
  does p w a w' b -> (forall r, b r = b' r) -> does p w a w' b'.
Proof. intros [R N] E. split; [exact R|]. intros r. now rewrite N. Qed.

Lemma does_printk ident ts fmt args w : exists w', does (mck_printk ident ts fmt args) w tt w' (fun _ => 0).
Proof. eexists. split; [reflexivity|]. reflexivity. Qed.

Lemma does_call c w :
  exists a w', does (call c) w a w' (ev_net (Ev (Kapi c) a)) /\ a = snd (kstep K (Kapi c) (w_k w)).
Proof.
  destruct w as [pr s]. destruct (kstep K (Kapi c) s) as [s' a] eqn:E.
  exists a, (World pr s'). split; [|cbn; now rewrite E]. split.
  - cbn. now rewrite E.
  - intros r. change (net (@calls K (ans (Kapi c)) (trigger (Kapi c)) (World pr s)) r = ev_net (Ev (Kapi c) a) r).
    rewrite calls_trigger. cbn [w_k]. rewrite E. cbn [net fold_right]. apply Z.add_0_r.
Qed.
End Does.

(** ** Devices *)

(** [private_data] as a resource. *)
Definition data_held (p : Z) (r : resource) : Z := if p =? 0 then 0 else cnt (Some (RBuf p)) r.

(** Memory does not run out. *)
Definition vmalloc_ok (K : kernel) : Prop :=
  forall n s, snd (kstep K (Kapi (VmallocUser n)) s) <> 0.

(** What the module relies on in the functions of a device: [init] starts from
    no buffer, holds what it leaves in [private_data] and fails only for want of
    memory; [fin] frees it. *)
Class DevOk (K : kernel) (init : Z -> Z -> prog (Z * Z)) (fin : Z -> prog Z) := {
  (** the values [private_data] can have *)
  data_ok : Z -> Prop;
  data_ok_0 : data_ok 0;
  init_ok a w :
    exists res p w', does K (init a 0) w (res, p) w' (data_held p) /\ data_ok p /\
      (vmalloc_ok K -> res = 0);
  fin_ok p w :
    data_ok p -> exists p' w', does K (fin p) w p' w' (fun r => - data_held p r) /\ data_ok p';
}.

(** Stores of the module do not fault. *)
Class StoreOk (K : kernel) : Prop :=
  store_ok s a b : exists s', kstep K (Store a b) s = (s', inl tt).

Section Devices.
Context (K : kernel) {SK : StoreOk K} (ident : option string).

Lemma run_memset_from a ch n w : exists w', run K (memset_from a ch n) w = (Done tt, w').
Proof.
  revert a w. induction n as [|n IH]; intros a w; cbn [memset_from]; [now eexists|].
  unfold store. destruct (store_ok (w_k w) a (u8 ch)) as [s' E]. cbn. rewrite E. cbn. apply IH.
Qed.

Lemma does_memset a ch n w : exists w', does K (memset a ch n) w tt w' (fun _ => 0).
Proof.
  destruct (run_memset_from a ch (Z.to_nat n) w) as [w' R]. exists w'. split; [exact R|].
  intros r. apply net_neutral, footprint_calls, footprint_memset. intros ? ?. exact I.
Qed.

Lemma does_reset_from n start off val w :
  exists w', does K (buffer_reset_from n start off val) w tt w' (fun _ => 0).
Proof.
  revert off val w. induction n as [|n IH]; intros off val w; cbn [buffer_reset_from].
  { eexists. apply does_ret. }
  case_if; [|eexists; apply does_ret].
  match goal with |- context [memset ?a ?v ?l] => destruct (does_memset a v l w) as [w1 H1] end.
  destruct (IH (off + LPAGE_SIZE) (val + 1) w1) as [w2 H2].
  exists w2. eapply does_skip; eassumption.
Qed.

Lemma fin_vfree_ok p w :
  exists p' w', does K (if negb (p =? 0) then call (Vfree p) ;; Ret 0 else Ret p) w p' w'
                  (fun r => - data_held p r).
Proof.
  unfold data_held. destruct (p =? 0); cbn [negb].
  - do 2 eexists. eapply does_eq; [apply does_ret|]. intros r. cbn. reflexivity.
  - destruct (does_call K (Vfree p) w) as (a & w1 & H1 & _). do 2 eexists.
    eapply does_eq; [eapply does_bind; [exact H1|apply does_ret]|].
    intros r. change (cnt None r - cnt (Some (RBuf p)) r + 0 = - cnt (Some (RBuf p)) r).
    rewrite cnt_None. lia.
Qed.

(** [vmalloc_user], the message, and what is done with the buffer. *)
Lemma init_vmalloc_ok size ts fmt args (k : Z -> prog unit) w :
  (forall p w, exists w', does K (k p) w tt w' (fun _ => 0)) ->
  exists res p w',
    does K (p <- call (VmallocUser size) ;;
            mck_printk ident ts fmt (args p) ;;
            if p =? 0 then Ret (- ENOMEM, p) else k p ;; Ret (0, p)) w (res, p) w' (data_held p) /\
    (vmalloc_ok K -> res = 0).
Proof.
  intros Hk. destruct (does_call K (VmallocUser size) w) as (p & w1 & H1 & Ep).
  destruct (does_printk K ident ts fmt (args p) w1) as [w2 H2]. cbn in p.
  assert (forall r, ev_net (Ev (Kapi (VmallocUser size)) p) r = data_held p r) as Hp.
  { intros r. change (cnt (if p =? 0 then None else Some (RBuf p)) r - cnt None r = data_held p r).
    unfold data_held. rewrite cnt_None. destruct (p =? 0); rewrite ?cnt_None; lia. }
  destruct (Hk p w2) as [w3 H3].
  assert (exists res w', does K (if p =? 0 then Ret (- ENOMEM, p) else k p ;; Ret (0, p)) w2 (res, p) w'
                           (fun _ => 0) /\ (p <> 0 -> res = 0)) as (res & w' & H4 & Hr).
  { destruct (Z.eqb_spec p 0) as [E0|]; do 2 eexists; (split; [|intros Hp0]).
    - apply does_ret.
    - contradiction.
    - eapply does_skip; [exact H3|apply does_ret].
    - reflexivity. }
  exists res, p, w'. split; [|intros Hv; apply Hr; rewrite Ep; apply Hv]. eapply does_eq.
  - eapply does_bind; [exact H1|]. eapply does_skip; [exact H2|exact H4].
  - intros r. cbv beta. rewrite Hp. lia.
Qed.

#[export] Instance mmap_dev_ok : DevOk K test_mck_mmap_dev_init test_mck_mmap_dev_fin.
Proof.
  refine (Build_DevOk K _ _ (eq 0) eq_refl _ _).
  - intros a w. exists 0, 0, w. split; [exact (does_ret K (0, 0) w)|now split].
  - intros p w <-. exists 0, w. split; [exact (does_ret K 0 w)|reflexivity].
Defined.

#[export] Instance mmap_dev2_ok :
  DevOk K (test_mck_mmap_dev2_init ident) test_mck_mmap_dev2_fin.
Proof.
  refine (Build_DevOk K _ _ (fun _ => True) I _ _).
  - intros a w. unfold test_mck_mmap_dev2_init.
    destruct (init_vmalloc_ok test_mck_mmap_dev2_buf_size "mmap_dev2" "dev(%p) buffer(%p).\n"
                (fun p => [PZ a; PZ p]) test_mck_mmap_dev2_buffer_reset w) as (res & p & w' & H1 & H2);
      [intros; apply does_reset_from|]. now exists res, p, w'.
  - intros p w _. destruct (fin_vfree_ok p w) as (p' & w' & H1). now exists p', w'.
Defined.

#[export] Instance writecombine_ok :
  DevOk K (test_mck_writecombine_init ident) test_mck_writecombine_fin.
Proof.
  refine (Build_DevOk K _ _ (fun _ => True) I _ _).
  - intros a w. unfold test_mck_writecombine_init.
    destruct (init_vmalloc_ok LPAGE_SIZE "writecombine" "dev(%p) buffer(%p).\n"
                (fun p => [PZ a; PZ p]) (fun p => memset p 0x80 LPAGE_SIZE) w) as (res & p & w' & H1 & H2);
      [intros; apply does_memset|]. now exists res, p, w'.
  - intros p w _. destruct (fin_vfree_ok p w) as (p' & w' & H1). now exists p', w'.
Defined.

(** A device that keeps to the contract, in a state it allows. *)
Definition dev_good (d : test_mck_dev) : Prop :=
  exists D : DevOk K (dev_init d) (dev_fin d), data_ok (private_data d).

Lemma dev_good_intro name ops init fin n c :
  DevOk K init fin -> dev_good (TestMckDev name ops init fin 0 n c).
Proof. intros D. exists D. exact data_ok_0. Qed.

Lemma devlist_good : Forall (fun d => dev_good d /\ private_data d = 0) (test_mck_devlist ident).
Proof.
  unfold test_mck_devlist.
  repeat (apply List.Forall_cons; [split; [apply dev_good_intro; apply _|reflexivity]|]).
  constructor.
Qed.
End Devices.
End Net.

(** ** A concrete Linux, for the witnesses *)

(** The macros of Linux on arm64 with 4 KiB pages. *)
#[export] Instance linux_4K : Linux :=
  Build_Linux 12 8 (fun p => 2 ^ 64 - 4095 <=? p) (fun a b => a * 2 ^ 20 + b) (fun d => d / 2 ^ 20)
    (fun t n => t * 2 ^ 8 + n) id.
#[export] Instance linux_4K_laws : LinuxLaws.
Proof.
  split; cbn; [lia|reflexivity|]. intros d m Hm.
  rewrite Z.add_comm, Z.div_add, Z.div_small by lia. reflexivity.
Qed.

(** A Linux on which every call succeeds but the creation of the class
    [mmap_dev2] if [broken]. *)
Definition module_kernel (broken : bool) : kernel :=
  Kernel unit (fun c s =>
    (s, match c return ans c with
        | Kapi k =>
            match k return kans k with
            | AllocChrdevRegion _ _ _ => (0, 240 * 2 ^ 20)
            | ClassCreate name => if broken && String.eqb name "mmap_dev2" then 2 ^ 64 - 12 else 8192
            | VmallocUser _ => 0x10000000
            | VmallocToPage _ => 77
            | ProcMkdir _ _ => 4096
            | ProcCreateData _ _ _ => 4097
            | _ => 0
            end
        | c => enosys c
        end)).
#[export] Instance module_kernel_store b : StoreOk (module_kernel b).
Proof. intros s a x. now exists s. Qed.
Definition module_world b : world (module_kernel b) := World proc0 (tt : kstate (module_kernel b)).
