(* ===== verification/DriverLife.v ===== *)
(** * The kernel module: loading and unloading

    The balance of [test_mck_setup] and [test_mck_cleanup] on an arbitrary
    Linux: nothing that was registered is left when the module is gone, on
    every error path; and what a failure of [class_create] does. *)
From S2P Require Import Prelude Process Trace Driver DriverThms.
From Stdlib Require Import Ascii String.
#[local] Open Scope string_scope.
#[local] Open Scope Z_scope.

#[local] Arguments cnt : simpl never.
#[local] Arguments net : simpl never.

Create Rewrite HintDb ev_net.

Section EvNet.
Context `{Linux}.

Local Ltac ev_tac := intros; unfold ev_net; cbn; rewrite ?cnt_None; lia.

Lemma ev_unregister d n a r :
  ev_net (Ev (Kapi (UnregisterChrdevRegion d n)) a) r = - cnt (Some (RRegion (MAJOR d))) r.
Proof. ev_tac. Qed.
Lemma ev_class_destroy c a r : ev_net (Ev (Kapi (ClassDestroy c)) a) r = - cnt (Some (RClass c)) r.
Proof. ev_tac. Qed.
Lemma ev_cdev_del i a r : ev_net (Ev (Kapi (CdevDel i)) a) r = - cnt (Some (RCdev i)) r.
Proof. ev_tac. Qed.
Lemma ev_device_destroy c d a r :
  ev_net (Ev (Kapi (DeviceDestroy c d)) a) r = - cnt (Some (RDevice c d)) r.
Proof. ev_tac. Qed.
Lemma ev_remove_proc n p a r :
  ev_net (Ev (Kapi (RemoveProcEntry n p)) a) r = - cnt (Some (RProc n p)) r.
Proof. ev_tac. Qed.
Lemma ev_cdev_init i f a r : ev_net (Ev (Kapi (CdevInit i f)) a) r = 0.
Proof. ev_tac. Qed.
Lemma ev_class_create n c r :
  ev_net (Ev (Kapi (ClassCreate n)) c) r = if IS_ERR c then 0 else cnt (Some (RClass c)) r.
Proof. unfold ev_net. cbn. destruct (IS_ERR c); rewrite ?cnt_None; lia. Qed.
Lemma ev_cdev_add i d n a r :
  ev_net (Ev (Kapi (CdevAdd i d n)) a) r = if (a : Z) =? 0 then cnt (Some (RCdev i)) r else 0.
Proof. unfold ev_net. cbn. destruct (a =? 0); rewrite ?cnt_None; lia. Qed.
Lemma ev_device_create c d n a r :
  ev_net (Ev (Kapi (DeviceCreate c d n)) a) r = if IS_ERR a then 0 else cnt (Some (RDevice c d)) r.
Proof. unfold ev_net. cbn. destruct (IS_ERR a); rewrite ?cnt_None; lia. Qed.
Lemma ev_proc_mkdir n p a r :
  ev_net (Ev (Kapi (ProcMkdir n p)) a) r = if (a : Z) =? 0 then 0 else cnt (Some (RProc n p)) r.
Proof. unfold ev_net. cbn. destruct (a =? 0); rewrite ?cnt_None; lia. Qed.
Lemma ev_proc_create n m p a r :
  ev_net (Ev (Kapi (ProcCreateData n m p)) a) r = if (a : Z) =? 0 then 0 else cnt (Some (RProc n p)) r.
Proof. unfold ev_net. cbn. destruct (a =? 0); rewrite ?cnt_None; lia. Qed.
Lemma ev_alloc m n name (a : Z * Z) r :
  ev_net (Ev (Kapi (AllocChrdevRegion m n name)) a) r =
  if fst a <? 0 then 0 else cnt (Some (RRegion (MAJOR (snd a)))) r.
Proof. unfold ev_net. cbn. destruct (fst a <? 0); rewrite ?cnt_None; lia. Qed.
End EvNet.

#[export] Hint Rewrite @ev_unregister @ev_class_destroy @ev_cdev_del @ev_device_destroy @ev_remove_proc
  @ev_cdev_init @ev_class_create @ev_cdev_add @ev_device_create @ev_proc_mkdir @ev_proc_create
  @ev_alloc : ev_net.

Section Life.
Context `{LX : Linux} (K : kernel).
Implicit Types (w : world K) (ds : list test_mck_dev).

(** ** What the static variables say is registered *)

Definition held_dev (i : Z) (d : test_mck_dev) (r : resource) : Z :=
  cnt (Some (RClass (dev_class d))) r + cnt (Some (RCdev i)) r
  + cnt (Some (RDevice (dev_class d) (devno d))) r + data_held (private_data d) r.
Fixpoint held_devs (i : Z) ds (r : resource) : Z :=
  match ds with [] => 0 | d :: ds => held_dev i d r + held_devs (i + 1) ds r end.
Fixpoint held_ents (dir : Z) (es : list (string * Z)) (r : resource) : Z :=
  match es with
  | [] => 0
  | (n, p) :: es => (if p =? 0 then 0 else cnt (Some (RProc n dir)) r) + held_ents dir es r
  end.
Definition held (d : drv) (r : resource) : Z :=
  held_ents (test_mck_procdir d) (proc_ents d) r + cnt (Some (RProc TEST_MCK_PROCFS_DIRNAME 0)) r
  + held_devs 0 (devlist d) r
  + cnt (Some (RRegion (MAJOR (MKDEV (test_mck_major d) test_mck_minor)))) r.

Lemma data_held_nonneg p r : 0 <= data_held p r.
Proof. unfold data_held. case_if; [lia|]. apply cnt_bounds. Qed.
Lemma held_dev_nonneg i d r : 0 <= held_dev i d r.
Proof.
  unfold held_dev. pose proof (data_held_nonneg (private_data d) r).
  pose proof (cnt_bounds (Some (RClass (dev_class d))) r). pose proof (cnt_bounds (Some (RCdev i)) r).
  pose proof (cnt_bounds (Some (RDevice (dev_class d) (devno d))) r). lia.
Qed.
Lemma held_devs_nonneg i ds r : 0 <= held_devs i ds r.
Proof.
  revert i. induction ds as [|d ds IH]; intros i; cbn; [lia|].
  pose proof (held_dev_nonneg i d r). pose proof (IH (i + 1)). lia.
Qed.
Lemma held_ents_nonneg dir es r : 0 <= held_ents dir es r.
Proof.
  induction es as [|[n p] es IH]; cbn; [lia|]. pose proof (cnt_bounds (Some (RProc n dir)) r).
  case_if; lia.
Qed.

(** ** Cleanup releases what is held *)

Lemma cleanup_ents_ok dir es w :
  exists es' w', does K (cleanup_ents dir es) w es' w' (fun r => - held_ents dir es r).
Proof.
  revert w. induction es as [|[n p] es IH]; intros w; cbn [cleanup_ents held_ents].
  { do 2 eexists. apply does_ret. }
  assert (exists e w1, does K (if negb (p =? 0) then call (RemoveProcEntry n dir) ;; Ret (n, 0)
                               else Ret (n, p)) w e w1
                         (fun r => - (if p =? 0 then 0 else cnt (Some (RProc n dir)) r)))
    as (e & w1 & H1).
  { destruct (p =? 0); cbn [negb]; [do 2 eexists; apply does_ret|].
    destruct (does_call K (RemoveProcEntry n dir) w) as (a & w1 & H1 & _). do 2 eexists.
    eapply does_eq; [eapply does_bind; [exact H1|apply does_ret]|].
    intros r. cbv beta. autorewrite with ev_net. lia. }
  destruct (IH w1) as (es' & w2 & H2). do 2 eexists.
  eapply does_eq.
  - eapply does_bind; [exact H1|]. eapply does_bind; [exact H2|apply does_ret].
  - intros r. cbv beta. lia.
Qed.

Lemma cleanup_devs_ok i ds w :
  Forall (dev_good K) ds ->
  exists ds' w', does K (cleanup_devs i ds) w ds' w' (fun r => - held_devs i ds r) /\
    Forall (dev_good K) ds'.
Proof.
  intros Hg. revert i w. induction Hg as [|d ds [D Hd] Hg IH]; intros i w; cbn [cleanup_devs held_devs].
  { exists [], w. split; [apply does_ret|constructor]. }
  destruct (fin_ok (private_data d) w Hd) as (p & w1 & H1 & Hp).
  destruct (does_call K (CdevDel i) w1) as (a2 & w2 & H2 & _).
  destruct (does_call K (DeviceDestroy (dev_class d) (devno d)) w2) as (a3 & w3 & H3 & _).
  destruct (does_call K (ClassDestroy (dev_class d)) w3) as (a4 & w4 & H4 & _).
  destruct (IH (i + 1) w4) as (ds' & w5 & H5 & Hg').
  exists (with_data p d :: ds'), w5. split; [|constructor; [now exists D|exact Hg']].
  eapply does_eq.
  - eapply does_bind; [exact H1|]. eapply does_bind; [exact H2|]. eapply does_bind; [exact H3|].
    eapply does_bind; [exact H4|]. eapply does_bind; [exact H5|apply does_ret].
  - intros r. cbv beta. autorewrite with ev_net. unfold held_dev. lia.
Qed.

Lemma cleanup_ok d w :
  Forall (dev_good K) (devlist d) ->
  exists d' w', does K (test_mck_cleanup d) w d' w' (fun r => - held d r) /\
    Forall (dev_good K) (devlist d') /\ test_mck_major d' = test_mck_major d.
Proof.
  intros Hg. destruct (cleanup_ents_ok (test_mck_procdir d) (proc_ents d) w) as (es & w1 & H1).
  destruct (does_call K (RemoveProcEntry TEST_MCK_PROCFS_DIRNAME 0) w1) as (a2 & w2 & H2 & _).
  destruct (cleanup_devs_ok 0 (devlist d) w2 Hg) as (ds & w3 & H3 & Hg').
  destruct (does_call K (UnregisterChrdevRegion (MKDEV (test_mck_major d) test_mck_minor)
                           (Z.of_nat (List.length ds))) w3) as (a4 & w4 & H4 & _).
  exists (Drv (test_mck_major d) (test_mck_majmin d) ds 0 es), w4.
  split; [|split; [exact Hg'|reflexivity]].
  eapply does_eq.
  - eapply does_bind.
    + eapply does_bind; [exact H1|]. eapply does_bind; [exact H2|apply does_ret].
    + eapply does_bind; [exact H3|]. eapply does_bind; [exact H4|apply does_ret].
  - intros r. cbv beta. autorewrite with ev_net. unfold held. lia.
Qed.

(** ** Setup registers at most what is held afterwards *)

Context (ident : option string) (dev_addr : Z -> Z).

(** The numbers of [n] devices, from number [i] on. *)
Fixpoint majmin_adds (major i : Z) (n : nat) (mm : majmin_buf) : majmin_buf :=
  match n with O => mm | S n => majmin_adds major (i + 1) n (majmin_add major i mm) end.

(** Every call succeeds except the creation of the class [name]. *)
Record only_class_fails (name : string) : Prop := {
  cf_class s : IS_ERR (snd (kstep K (Kapi (ClassCreate name)) s)) = true;
  cf_alloc m n d s : fst (snd (kstep K (Kapi (AllocChrdevRegion m n d)) s)) = 0;
  cf_cdev i d n s : snd (kstep K (Kapi (CdevAdd i d n)) s) = 0;
  cf_vmalloc : vmalloc_ok K;
}.

(** Every call succeeds; [major] is the major number. *)
Record all_succeed (major : Z) : Prop := {
  as_alloc m n d s :
    fst (snd (kstep K (Kapi (AllocChrdevRegion m n d)) s)) = 0 /\
    MAJOR (snd (snd (kstep K (Kapi (AllocChrdevRegion m n d)) s))) = major;
  as_class n s : IS_ERR (snd (kstep K (Kapi (ClassCreate n)) s)) = false;
  as_cdev i d n s : snd (kstep K (Kapi (CdevAdd i d n)) s) = 0;
  as_vmalloc : vmalloc_ok K;
  as_mkdir n p s : snd (kstep K (Kapi (ProcMkdir n p)) s) <> 0;
  as_create n m p s : snd (kstep K (Kapi (ProcCreateData n m p)) s) <> 0;
}.

(** What is known of an end of the loop over the devices [ds]. *)
Definition devs_end major i res mm ds (b : bool) (res' : Z) mm' ds' (bal : resource -> Z) : Prop :=
  (forall r, bal r <= held_devs i ds' r) /\ (forall m, bal (RRegion m) = 0) /\
  Forall (dev_good K) ds' /\ (b = true -> mm' = majmin_adds major i (List.length ds) mm) /\
  (forall name, only_class_fails name -> In name (map ts_name ds) -> res = 0 ->
     b = false /\ res' = 0) /\
  (forall m, all_succeed m -> b = true).

Definition fresh (d : test_mck_dev) : Prop := dev_good K d /\ private_data d = 0.

Lemma fresh_good ds : Forall fresh ds -> Forall (dev_good K) ds.
Proof. intros H. eapply List.Forall_impl; [|exact H]. now intros d []. Qed.

Lemma cnt_region m (x : resource) :
  match x with RRegion _ => False | _ => True end -> cnt (Some x) (RRegion m) = 0.
Proof. intros Hx. unfold cnt. rewrite decide_False; [reflexivity|]. intros [= ->]. contradiction. Qed.

Lemma data_held_region p m : data_held p (RRegion m) = 0.
Proof. unfold data_held. case_if; [reflexivity|]. now apply cnt_region. Qed.

(** Class creation fails. *)
Lemma devs_end_class major i res mm d ds c s :
  Forall fresh (d :: ds) -> c = snd (kstep K (Kapi (ClassCreate (ts_name d))) s) -> IS_ERR c = true ->
  devs_end major i res mm (d :: ds) false res mm (with_class 0 d :: ds)
    (ev_net (Ev (Kapi (ClassCreate (ts_name d))) c)).
Proof.
  intros Hf Es Ec. apply fresh_good in Hf. inversion Hf as [|? ? Hd Hds]; subst x l.
  split; [|split; [|split; [|split; [|split]]]].
  - intros r. autorewrite with ev_net. rewrite Ec. apply held_devs_nonneg.
  - intros m. autorewrite with ev_net. now rewrite Ec.
  - constructor; assumption.
  - discriminate.
  - intros name Hn _ ->. now split.
  - intros m [_ Hc _ _ _ _]. now rewrite Es, Hc in Ec.
Qed.

(** The balance of the calls that register one device. *)
Definition dev_bal (i : Z) (d : test_mck_dev) (added : bool) (dv p : Z) (r : resource) : Z :=
  cnt (Some (RClass (dev_class d))) r
  + (if added then cnt (Some (RCdev i)) r
       + (if IS_ERR dv then 0 else cnt (Some (RDevice (dev_class d) (devno d))) r) + data_held p r
     else 0).

Lemma dev_bal_held i d added dv p r : dev_bal i d added dv p r <= held_dev i (with_data p d) r.
Proof.
  unfold dev_bal, held_dev. cbn [with_data dev_class devno private_data].
  pose proof (data_held_nonneg p r). pose proof (cnt_bounds (Some (RCdev i)) r).
  pose proof (cnt_bounds (Some (RDevice (dev_class d) (devno d))) r).
  destruct added, (IS_ERR dv); lia.
Qed.

Lemma dev_bal_region i d added dv p m : dev_bal i d added dv p (RRegion m) = 0.
Proof.
  unfold dev_bal. rewrite !cnt_region, data_held_region by exact I. destruct added, (IS_ERR dv); lia.
Qed.

Lemma with_data_id d : with_data (private_data d) d = d.
Proof. now destruct d. Qed.

(** The loop ends at a device whose class was created. *)
Lemma devs_end_fail major i res mm d0 ds d added dv p res' mm' :
  Forall fresh (d0 :: ds) -> dev_good K d -> private_data d = p ->
  (forall name, only_class_fails name -> False) -> (forall m, all_succeed m -> False) ->
  devs_end major i res mm (d0 :: ds) false res' mm' (d :: ds) (dev_bal i d added dv p).
Proof.
  intros Hf Hd <- Hn Ha. split; [|split; [|split; [|split; [|split]]]].
  - intros r. cbn [held_devs]. pose proof (dev_bal_held i d added dv (private_data d) r).
    pose proof (held_devs_nonneg (i + 1) ds r). rewrite with_data_id in *. lia.
  - intros m. apply dev_bal_region.
  - apply fresh_good in Hf. inversion Hf; subst. now constructor.
  - discriminate.
  - intros name Hc Hi _. now destruct (Hn name Hc).
  - intros m Hm. now destruct (Ha m Hm).
Qed.

(** The loop goes on. *)
Lemma devs_end_next major i mm d0 ds d dv p res b res' mm' ds' bal :
  ts_name d = ts_name d0 -> dev_good K d -> private_data d = p ->
  ~ only_class_fails (ts_name d0) ->
  devs_end major (i + 1) 0 (majmin_add major i mm) ds b res' mm' ds' bal ->
  devs_end major i res mm (d0 :: ds) b res' mm' (d :: ds') (fun r => dev_bal i d true dv p r + bal r).
Proof.
  intros En Hd <- Hc (H1 & H2 & H3 & H4 & H5 & H6). split; [|split; [|split; [|split; [|split]]]].
  - intros r. cbn [held_devs]. pose proof (dev_bal_held i d true dv (private_data d) r).
    pose proof (H1 r). rewrite with_data_id in *. lia.
  - intros m. now rewrite dev_bal_region, H2.
  - now constructor.
  - exact H4.
  - intros name Hf Hi _. cbn in Hi. destruct Hi as [<-|Hi]; [contradiction|]. now apply (H5 name).
  - exact H6.
Qed.

Lemma devs_end_eq major i res mm ds b res' mm' ds' bal bal' :
  devs_end major i res mm ds b res' mm' ds' bal -> (forall r, bal r = bal' r) ->
  devs_end major i res mm ds b res' mm' ds' bal'.
Proof.
  intros (H1 & H2 & H3) E. split; [intros r; rewrite <- E; apply H1|].
  split; [intros m; rewrite <- E; apply H2|exact H3].
Qed.

Lemma not_class_fails name c s :
  c = snd (kstep K (Kapi (ClassCreate name)) s) -> IS_ERR c = false -> ~ only_class_fails name.
Proof. intros -> Ec [Hf _ _ _]. rewrite Hf in Ec. discriminate. Qed.

(** The body of the loop in three parts: the class, the character device, the
    device's own initialisation. *)
Definition after_add (major i : Z) mm d ds : prog (bool * Z * majmin_buf * list test_mck_dev) :=
  call (DeviceCreate (dev_class d) (devno d) (ts_name d)) ;;
  let* (res, p) := dev_init d (dev_addr i) (private_data d) in
  if negb (res =? 0) then Ret (false, res, majmin_add major i mm, with_data p d :: ds)
  else
    let* (b, res, mm, ds) := setup_devs ident dev_addr major (i + 1) res (majmin_add major i mm) ds in
    Ret (b, res, mm, with_data p d :: ds).

Definition after_class (major i : Z) mm d ds : prog (bool * Z * majmin_buf * list test_mck_dev) :=
  call (CdevInit i (fops d)) ;;
  res <- call (CdevAdd i (devno d) 1) ;;
  if negb (res =? 0) then
    mck_printk ident "" "error %d adding mck test driver(%s)." [PZ res; PS (ts_name d)] ;;
    Ret (false, res, mm, d :: ds)
  else after_add major i mm d ds.

Lemma setup_devs_cons major i res mm d ds :
  setup_devs ident dev_addr major i res mm (d :: ds) =
  (c <- call (ClassCreate (ts_name d)) ;;
   if IS_ERR c then
     mck_printk ident "" "error create class(%s)." [PS (ts_name d)] ;;
     Ret (false, res, mm, with_class 0 d :: ds)
   else after_class major i mm (with_devno (MKDEV major (test_mck_minor + i)) (with_class c d)) ds).
Proof. reflexivity. Qed.

(** The claim on the rest of the list. *)
Definition setup_devs_spec ds : Prop := forall major i res mm w,
  exists b res' mm' ds' w' bal,
    does K (setup_devs ident dev_addr major i res mm ds) w (b, res', mm', ds') w' bal /\
    devs_end major i res mm ds b res' mm' ds' bal.

Section Device.
Context (d0 : test_mck_dev) (ds : list test_mck_dev) (IH : setup_devs_spec ds).
Context (Hf : Forall fresh (d0 :: ds)) (Hc : ~ only_class_fails (ts_name d0)).
(** The device with its class and number. *)
Context (d : test_mck_dev) {D : DevOk K (dev_init d) (dev_fin d)}.
Context (Hd : data_ok (private_data d)) (Hn : ts_name d = ts_name d0) (Hp0 : private_data d = 0).

Lemma after_add_ok major i res mm w :
  exists b res' mm' ds' w' bal, does K (after_add major i mm d ds) w (b, res', mm', ds') w' bal /\
    devs_end major i res mm (d0 :: ds) b res' mm' ds'
      (fun r => cnt (Some (RClass (dev_class d))) r + cnt (Some (RCdev i)) r + bal r).
Proof.
  destruct (does_call K (DeviceCreate (dev_class d) (devno d) (ts_name d)) w) as (dv & w4 & H4 & _).
  cbn in dv. destruct (init_ok (dev_addr i) w4) as (res2 & p & w5 & H5 & Hp & Hres). rewrite <- Hp0 in H5.
  set (d2 := with_data p d).
  assert (forall r, cnt (Some (RClass (dev_class d))) r + cnt (Some (RCdev i)) r
            + (ev_net (Ev (Kapi (DeviceCreate (dev_class d) (devno d) (ts_name d))) dv) r + data_held p r)
            = dev_bal i d2 true dv p r) as Hb.
  { intros r. autorewrite with ev_net. unfold dev_bal. cbn [d2 with_data dev_class devno]. lia. }
  destruct (Z.eqb_spec res2 0) as [E2|E2].
  - destruct (IH major (i + 1) 0 (majmin_add major i mm) w5) as (b & res' & mm' & ds' & w6 & bal & H6 & He).
    exists b, res', mm', (d2 :: ds'), w6. eexists. split.
    + eapply does_bind; [exact H4|]. eapply does_bind; [exact H5|].
      cbv beta iota. rewrite E2, Z.eqb_refl. cbn [negb]. eapply does_bind; [exact H6|apply does_ret].
    + eapply devs_end_eq; [apply (devs_end_next major i mm d0 ds d2 dv p res); [exact Hn|now exists D|reflexivity|exact Hc|exact He]|].
      intros r. cbv beta. rewrite <- Hb. lia.
  - exists false, res2, (majmin_add major i mm), (d2 :: ds), w5. eexists. split.
    + eapply does_bind; [exact H4|]. eapply does_bind; [exact H5|].
      cbv beta iota. rewrite (proj2 (Z.eqb_neq _ _) E2). cbn [negb]. apply does_ret.
    + eapply devs_end_eq; [apply (devs_end_fail major i res mm d0 ds d2 true dv p); [exact Hf|now exists D|reflexivity| |]|].
      * intros name [_ _ _ Hv]. exact (E2 (Hres Hv)).
      * intros m [_ _ _ Hv _ _]. exact (E2 (Hres Hv)).
      * intros r. cbv beta. rewrite <- Hb. lia.
Qed.

Lemma after_class_ok major i res mm w :
  exists b res' mm' ds' w' bal, does K (after_class major i mm d ds) w (b, res', mm', ds') w' bal /\
    devs_end major i res mm (d0 :: ds) b res' mm' ds' (fun r => cnt (Some (RClass (dev_class d))) r + bal r).
Proof.
  destruct (does_call K (CdevInit i (fops d)) w) as (a2 & w2 & H2 & _).
  destruct (does_call K (CdevAdd i (devno d) 1) w2) as (res1 & w3 & H3 & E3). cbn in res1.
  destruct (Z.eqb_spec res1 0) as [E0|E0].
  - destruct (after_add_ok major i res mm w3) as (b & res' & mm' & ds' & w4 & bal & H4 & He).
    exists b, res', mm', ds', w4. eexists. split.
    + eapply does_bind; [exact H2|]. eapply does_bind; [exact H3|].
      rewrite E0, Z.eqb_refl. cbn [negb]. exact H4.
    + eapply devs_end_eq; [exact He|]. intros r. cbv beta. autorewrite with ev_net. rewrite E0, Z.eqb_refl. lia.
  - destruct (does_printk K ident "" "error %d adding mck test driver(%s)." [PZ res1; PS (ts_name d)] w3) as [w4 H4].
    exists false, res1, mm, (d :: ds), w4. eexists. split.
    + eapply does_bind; [exact H2|]. eapply does_bind; [exact H3|].
      rewrite (proj2 (Z.eqb_neq _ _) E0). cbn [negb]. eapply does_skip; [exact H4|apply does_ret].
    + eapply devs_end_eq; [apply (devs_end_fail major i res mm d0 ds d false 0 0); [exact Hf|now exists D|exact Hp0| |]|].
      * intros name [_ _ Hcd _]. apply E0. rewrite E3. apply Hcd.
      * intros m [_ _ Hcd _ _ _]. apply E0. rewrite E3. apply Hcd.
      * intros r. cbv beta. autorewrite with ev_net. rewrite (proj2 (Z.eqb_neq _ _) E0). unfold dev_bal. lia.
Qed.
End Device.

Lemma setup_devs_ok ds : Forall fresh ds -> setup_devs_spec ds.
Proof.
  intros Hf. induction Hf as [|d ds [[D Dd] Hd] Hf IH]; intros major i res mm w.
  { exists true, res, mm, [], w, (fun _ => 0). split; [apply does_ret|].
    split; [intros r; cbn; lia|]. split; [reflexivity|]. split; [constructor|].
    split; [reflexivity|]. split; [intros name _ []|reflexivity]. }
  assert (Forall fresh (d :: ds)) as Hf' by (constructor; [split; [exists D; exact Dd|exact Hd]|exact Hf]).
  rewrite setup_devs_cons.
  destruct (does_call K (ClassCreate (ts_name d)) w) as (c & w1 & H1 & Ec). cbn in c.
  destruct (IS_ERR c) eqn:Ee.
  - destruct (does_printk K ident "" "error create class(%s)." [PS (ts_name d)] w1) as [w2 H2].
    do 6 eexists. split; [|now apply devs_end_class with (c := c) (s := w_k w)].
    eapply does_eq.
    + eapply does_bind; [exact H1|]. rewrite Ee. eapply does_skip; [exact H2|apply does_ret].
    + intros r. cbv beta. lia.
  - pose proof (not_class_fails _ _ _ Ec Ee) as Hc.
    set (d1 := with_devno (MKDEV major (test_mck_minor + i)) (with_class c d)).
    destruct (after_class_ok d ds IH Hf' Hc d1 (D := D) Dd eq_refl Hd major i res mm w1)
      as (b & res' & mm' & ds' & w2 & bal & H2 & He).
    exists b, res', mm', ds', w2. eexists. split.
    + eapply does_bind; [exact H1|]. rewrite Ee. exact H2.
    + eapply devs_end_eq; [exact He|]. intros r. cbv beta. autorewrite with ev_net. now rewrite Ee.
Qed.

Lemma no_ents_held dir es r : Forall (fun e => snd e = 0) es -> held_ents dir es r = 0.
Proof.
  induction 1 as [|[n p] es Hp Hz IH]; cbn in *; [reflexivity|]. rewrite Hp, Z.eqb_refl. lia.
Qed.

Lemma init_ents_ok dir es w :
  Forall (fun e => snd e = 0) es ->
  exists b es' w', does K (init_ents dir es) w (b, es') w' (held_ents dir es') /\
    (forall m, all_succeed m -> b = true).
Proof.
  intros Hz. revert w. induction Hz as [|[n p] es Hp Hz IH]; intros w; cbn [init_ents].
  { exists true, [], w. split; [exact (does_ret K (true, []) w)|reflexivity]. }
  destruct (does_call K (ProcCreateData n S_IRUGO dir) w) as (a & w1 & H1 & E1). cbn in a.
  destruct (Z.eqb_spec a 0) as [Ea|Ea].
  - do 3 eexists. split; [|intros m [_ _ _ _ _ Hc]; exfalso; rewrite E1 in Ea; now apply Hc in Ea]. eapply does_eq.
    + eapply does_bind; [exact H1|]. rewrite Ea, Z.eqb_refl. apply does_ret.
    + intros r. cbv beta. autorewrite with ev_net. rewrite Ea. cbn [held_ents]. rewrite Z.eqb_refl.
      rewrite no_ents_held by exact Hz. lia.
  - destruct (IH w1) as (b & es' & w2 & H2 & Hb). do 3 eexists. split; [|exact Hb]. eapply does_eq.
    + eapply does_bind; [exact H1|]. rewrite (proj2 (Z.eqb_neq _ _) Ea).
      eapply does_bind; [exact H2|apply does_ret].
    + intros r. cbv beta. autorewrite with ev_net. cbn [held_ents]. rewrite (proj2 (Z.eqb_neq _ _) Ea). lia.
Qed.

(** The entries of procfs are not created yet. *)
Definition no_ents (d : drv) : Prop := Forall (fun e => snd e = 0) (proc_ents d).

Definition held_proc (d : drv) (r : resource) : Z :=
  held_ents (test_mck_procdir d) (proc_ents d) r + cnt (Some (RProc TEST_MCK_PROCFS_DIRNAME 0)) r.

Lemma init_procfs_ok d w :
  no_ents d ->
  exists res d' w' bal, does K (test_mck_init_procfs d) w (res, d') w' bal /\
    (forall r, bal r <= held_proc d' r) /\ (forall m, bal (RRegion m) = 0) /\
    devlist d' = devlist d /\ test_mck_major d' = test_mck_major d /\ test_mck_majmin d' = test_mck_majmin d /\
    (forall m, all_succeed m -> res = 0).
Proof.
  intros Hz. unfold test_mck_init_procfs.
  destruct (does_call K (ProcMkdir TEST_MCK_PROCFS_DIRNAME 0) w) as (dir & w1 & H1 & E1). cbn in dir.
  destruct (Z.eqb_spec dir 0) as [Ed|Ed].
  - eexists _, (Drv _ _ _ dir (proc_ents d)), _, _.
    split; [|split; [|split; [|split; [|split; [|split]]]]]; [| | | |reflexivity|reflexivity|].
    + eapply does_bind; [exact H1|]. cbv zeta. rewrite Ed, Z.eqb_refl. apply does_ret.
    + intros r. cbv beta. autorewrite with ev_net. rewrite Ed. unfold held_proc. cbn.
      pose proof (held_ents_nonneg 0 (proc_ents d) r).
      pose proof (cnt_bounds (Some (RProc TEST_MCK_PROCFS_DIRNAME 0)) r). lia.
    + intros m. cbv beta. autorewrite with ev_net. now rewrite Ed.
    + reflexivity.
    + intros m [_ _ _ _ Hk _]. exfalso. rewrite E1 in Ed. now apply Hk in Ed.
  - destruct (init_ents_ok dir (proc_ents d) w1 Hz) as (b & es & w2 & H2 & Hb).
    eexists _, (Drv _ _ _ dir es), _, _.
    split; [|split; [|split; [|split; [|split; [|split]]]]]; [| | | |reflexivity|reflexivity|].
    + eapply does_bind; [exact H1|]. cbv zeta. rewrite (proj2 (Z.eqb_neq _ _) Ed).
      eapply does_bind; [exact H2|apply does_ret].
    + intros r. cbv beta. autorewrite with ev_net. rewrite (proj2 (Z.eqb_neq _ _) Ed).
      unfold held_proc. cbn. lia.
    + intros m. cbv beta. autorewrite with ev_net. rewrite (proj2 (Z.eqb_neq _ _) Ed).
      rewrite cnt_region by exact I. clear. induction es as [|[n p] es IH]; cbn; [reflexivity|].
      rewrite cnt_region by exact I. case_if; lia.
    + reflexivity.
    + intros m Hm. now rewrite (Hb m Hm).
Qed.

Context {LL : LinuxLaws}.

Lemma held_split d r :
  held d r = held_proc d r + held_devs 0 (devlist d) r
             + cnt (Some (RRegion (MAJOR (MKDEV (test_mck_major d) test_mck_minor)))) r.
Proof. reflexivity. Qed.

Lemma held_region_bound d r : 0 <= held_proc d r + held_devs 0 (devlist d) r.
Proof.
  unfold held_proc. pose proof (held_ents_nonneg (test_mck_procdir d) (proc_ents d) r).
  pose proof (held_devs_nonneg 0 (devlist d) r).
  pose proof (cnt_bounds (Some (RProc TEST_MCK_PROCFS_DIRNAME 0)) r). lia.
Qed.

(** What is known when [setup_body] ends. *)
Definition body_end (d : drv) (b : bool) (res : Z) (d' : drv) (bal : resource -> Z) : Prop :=
  (forall r, bal r <= held d' r) /\ Forall (dev_good K) (devlist d') /\
  (b = true -> test_mck_majmin d' =
                 majmin_adds (test_mck_major d') 0 (List.length (devlist d)) (test_mck_majmin d)) /\
  (forall name, only_class_fails name -> In name (map ts_name (devlist d)) ->
     b = false /\ res = 0 /\ bal (RRegion (test_mck_major d')) = 1 /\
     MAJOR (MKDEV (test_mck_major d') test_mck_minor) = test_mck_major d') /\
  (forall m, all_succeed m -> b = true /\ test_mck_major d' = m).

(** The last part: the files in procfs. *)
Definition finish (d : drv) : prog (bool * Z * drv) :=
  let* (res, d) := test_mck_init_procfs d in
  if negb (res =? 0) then
    mck_printk ident "" "error %d create procfs." [PZ res] ;; Ret (false, res, d)
  else Ret (true, 0, d).

Lemma finish_ok d w :
  no_ents d ->
  exists b res d' w' bal, does K (finish d) w (b, res, d') w' bal /\
    (forall r, bal r <= held_proc d' r) /\ devlist d' = devlist d /\ test_mck_major d' = test_mck_major d /\
    test_mck_majmin d' = test_mck_majmin d /\ (forall m, all_succeed m -> b = true).
Proof.
  intros Hz. destruct (init_procfs_ok d w Hz) as (res & d' & w1 & bal & H1 & C1 & _ & C3 & C4 & C5 & C6).
  unfold finish. destruct (Z.eqb_spec res 0) as [->|E].
  - exists true, 0, d', w1. eexists. split; [|now repeat split].
    eapply does_eq; [eapply does_bind; [exact H1|]|].
    + apply does_ret.
    + intros r. cbv beta. apply Z.add_0_r.
  - destruct (does_printk K ident "" "error %d create procfs." [PZ res] w1) as [w2 H2].
    exists false, res, d', w2, bal.
    split; [|split; [exact C1|split; [exact C3|split; [exact C4|split; [exact C5|]]]]].
    + eapply does_eq; [eapply does_bind; [exact H1|]|].
      * cbv iota beta. rewrite (proj2 (Z.eqb_neq _ _) E). eapply does_skip; [exact H2|apply does_ret].
      * intros r. cbv beta. apply Z.add_0_r.
    + intros m Hm. now destruct (E (C6 m Hm)).
Qed.

Section Alloc.
Context (d : drv) (res dn : Z) (s : kstate K).
Let alloc := AllocChrdevRegion test_mck_minor (nr_devs d) TEST_MCK_DEVNAME.
Context (E1 : (res, dn) = snd (kstep K (Kapi alloc) s)).

Lemma only_class_alloc name : only_class_fails name -> res = 0.
Proof. intros [_ Ha _ _]. specialize (Ha test_mck_minor (nr_devs d) TEST_MCK_DEVNAME s). fold alloc in Ha. now rewrite <- E1 in Ha. Qed.
Lemma all_succeed_alloc m : all_succeed m -> res = 0 /\ MAJOR dn = m.
Proof.
  intros [Ha _ _ _ _ _]. specialize (Ha test_mck_minor (nr_devs d) TEST_MCK_DEVNAME s). fold alloc in Ha. now rewrite <- E1 in Ha.
Qed.

Lemma ev_alloc_ok r : 0 <= res -> ev_net (Ev (Kapi alloc) (res, dn)) r = cnt (Some (RRegion (MAJOR dn))) r.
Proof. intros H. unfold alloc. autorewrite with ev_net. cbn [fst snd]. now rewrite (proj2 (Z.ltb_ge _ _) H). Qed.

(** No device numbers. *)
Lemma body_end_alloc :
  Forall fresh (devlist d) -> res < 0 -> body_end d false res d (ev_net (Ev (Kapi alloc) (res, dn))).
Proof.
  intros Hf Er. split; [|split; [now apply fresh_good|split; [discriminate|split]]].
  - intros r. unfold alloc. autorewrite with ev_net. cbn [fst snd]. rewrite (proj2 (Z.ltb_lt _ _) Er), held_split.
    pose proof (held_region_bound d r).
    pose proof (cnt_bounds (Some (RRegion (MAJOR (MKDEV (test_mck_major d) test_mck_minor)))) r). lia.
  - intros name Hn _. apply only_class_alloc in Hn. lia.
  - intros m Hm. destruct (all_succeed_alloc m Hm). lia.
Qed.

Lemma major_region : MAJOR (MKDEV (MAJOR dn) test_mck_minor) = MAJOR dn.
Proof. apply major_mkdev. unfold test_mck_minor. lia. Qed.

(** A device fails. *)
Lemma body_end_devs res' mm ds bal :
  devs_end (MAJOR dn) 0 res (test_mck_majmin d) (devlist d) false res' mm ds bal ->
  body_end d false res' (Drv (MAJOR dn) mm ds (test_mck_procdir d) (proc_ents d))
    (fun r => cnt (Some (RRegion (MAJOR dn))) r + bal r).
Proof.
  intros (B1 & B2 & B3 & _ & B5 & B6). split; [|split; [exact B3|split; [discriminate|split]]].
  - intros r. rewrite held_split. cbn [devlist test_mck_major]. rewrite major_region. unfold held_proc.
    cbn [test_mck_procdir proc_ents].
    specialize (B1 r). pose proof (held_ents_nonneg (test_mck_procdir d) (proc_ents d) r).
    pose proof (cnt_bounds (Some (RProc TEST_MCK_PROCFS_DIRNAME 0)) r). lia.
  - intros name Hn Hi. cbn [test_mck_major]. destruct (B5 name Hn Hi (only_class_alloc name Hn)) as [_ ->].
    rewrite cnt_same, B2, major_region. now repeat split.
  - intros m Hm. now specialize (B6 m Hm).
Qed.

(** All devices are there. *)
Lemma body_end_procfs b res' mm ds bal d' bal' :
  devs_end (MAJOR dn) 0 res (test_mck_majmin d) (devlist d) true res' mm ds bal ->
  (forall r, bal' r <= held_proc d' r) -> devlist d' = ds -> test_mck_major d' = MAJOR dn ->
  test_mck_majmin d' = mm -> (forall m, all_succeed m -> b = true) -> forall res'',
  body_end d b res'' d' (fun r => cnt (Some (RRegion (MAJOR dn))) r + bal r + bal' r).
Proof.
  intros (B1 & B2 & B3 & B4 & B5 & _) C1 C3 C4 C5 C6 res''.
  split; [|split; [rewrite C3; exact B3|split; [|split]]].
  - intros r. rewrite held_split, C3, C4, major_region. specialize (B1 r). specialize (C1 r). lia.
  - intros _. rewrite C4, C5. now apply B4.
  - intros name Hn Hi. destruct (B5 name Hn Hi (only_class_alloc name Hn)). discriminate.
  - intros m Hm. split; [exact (C6 m Hm)|]. rewrite C4. apply (all_succeed_alloc m Hm).
Qed.
End Alloc.

Lemma setup_body_ok d w :
  no_ents d -> Forall fresh (devlist d) ->
  exists b res d' w' bal,
    does K (setup_body ident dev_addr d) w (b, res, d') w' bal /\ body_end d b res d' bal.
Proof.
  intros Hz Hf. unfold setup_body.
  destruct (does_call K (AllocChrdevRegion test_mck_minor (nr_devs d) TEST_MCK_DEVNAME) w)
    as ([res dn] & w1 & H1 & E1).
  destruct (Z.ltb_spec res 0) as [Er|Er].
  { destruct (does_printk K ident "" "error get major %d\n" [PZ res] w1) as [w2 H2].
    do 5 eexists. split; [|exact (body_end_alloc d res dn _ E1 Hf Er)].
    eapply does_eq.
    - eapply does_bind; [exact H1|]. cbv iota beta. rewrite (proj2 (Z.ltb_lt _ _) Er).
      eapply does_skip; [exact H2|apply does_ret].
    - intros r. cbv beta. apply Z.add_0_r. }
  destruct (setup_devs_ok (devlist d) Hf (MAJOR dn) 0 res (test_mck_majmin d) w1)
    as (b & res' & mm & ds & w2 & bal & H2 & Hb). destruct b.
  - destruct (finish_ok (Drv (MAJOR dn) mm ds (test_mck_procdir d) (proc_ents d)) w2 Hz)
      as (b & res3 & d3 & w3 & bal3 & H3 & C1 & C3 & C4 & C5 & C6).
    do 5 eexists. split; [|exact (body_end_procfs d res dn _ E1 b res' mm ds bal d3 bal3 Hb C1 C3 C4 C5 C6 res3)].
    eapply does_eq.
    + eapply does_bind; [exact H1|]. cbv iota beta. rewrite (proj2 (Z.ltb_ge _ _) Er).
      eapply does_bind; [exact H2|exact H3].
    + intros r. cbv beta. rewrite ev_alloc_ok by exact Er. lia.
  - do 5 eexists. split; [|exact (body_end_devs d res dn _ E1 res' mm ds bal Hb)].
    eapply does_eq.
    + eapply does_bind; [exact H1|]. cbv iota beta. rewrite (proj2 (Z.ltb_ge _ _) Er).
      eapply does_bind; [exact H2|apply does_ret].
    + intros r. cbv beta. rewrite ev_alloc_ok by exact Er. lia.
Qed.

(** ** The life of the module *)

Definition module_init : prog (Z * drv) := test_mck_init ident dev_addr (drv0 (test_mck_devlist ident)).

(** Linux runs the exit function of a module whose init function returned 0. *)
Definition module_life : prog drv :=
  let* (res, d) := module_init in if res =? 0 then test_mck_exit d else Ret d.

Lemma held_region d m :
  held d (RRegion m) = cnt (Some (RRegion (MAJOR (MKDEV (test_mck_major d) test_mck_minor)))) (RRegion m).
Proof.
  rewrite held_split. unfold held_proc. rewrite cnt_region by exact I.
  assert (forall dir es, held_ents dir es (RRegion m) = 0) as ->.
  { intros dir es. induction es as [|[n p] es IH]; cbn; [reflexivity|].
    rewrite cnt_region by exact I. case_if; lia. }
  assert (forall ds i, held_devs i ds (RRegion m) = 0) as ->; [|lia].
  induction ds as [|x ds IH]; intros i; cbn; [reflexivity|]. rewrite IH. unfold held_dev.
  rewrite !cnt_region, data_held_region by exact I. lia.
Qed.

Lemma held_nonneg d r : 0 <= held d r.
Proof.
  rewrite held_split. pose proof (held_region_bound d r).
  pose proof (cnt_bounds (Some (RRegion (MAJOR (MKDEV (test_mck_major d) test_mck_minor)))) r). lia.
Qed.

Context {SK : StoreOk K}.

Lemma drv0_fresh : Forall fresh (devlist (drv0 (test_mck_devlist ident))).
Proof. exact (devlist_good K ident). Qed.

(** After loading, the balance is covered by what is held (success) or not
    positive (failure, everything released). *)
Lemma module_init_ok w :
  exists res d w' bal, does K module_init w (res, d) w' bal /\ Forall (dev_good K) (devlist d) /\
    ((res = 0 /\ forall r, bal r <= held d r) \/ forall r, bal r <= 0) /\
    (forall name, only_class_fails name -> In name (map ts_name (test_mck_devlist ident)) ->
       res = 0 /\ (forall r, bal r <= 0) /\ bal (RRegion (test_mck_major d)) = 0 /\
       MAJOR (MKDEV (test_mck_major d) test_mck_minor) = test_mck_major d).
Proof.
  destruct (setup_body_ok (drv0 (test_mck_devlist ident)) w) as (b & res & d & w1 & bal & H1 & B1 & B2 & _ & B4 & _);
    [repeat constructor|apply drv0_fresh|].
  destruct b.
  - exists 0, d, w1, bal. split; [|split; [exact B2|split; [now left|]]].
    + eapply does_eq; [eapply does_bind; [exact H1|apply does_ret]|]. intros r. cbv beta. lia.
    + intros name Hn Hi. destruct (B4 name Hn Hi). discriminate.
  - destruct (cleanup_ok d w1 B2) as (d' & w2 & H2 & Hg & Hm).
    exists res, d', w2, (fun r => bal r - held d r). split; [|split; [exact Hg|split; [right|]]].
    + eapply does_eq; [eapply does_bind; [exact H1|eapply does_bind; [exact H2|apply does_ret]]|].
      intros r. cbv beta. lia.
    + intros r. specialize (B1 r). lia.
    + intros name Hn Hi. destruct (B4 name Hn Hi) as (_ & -> & Hr & Em). rewrite Hm. split; [reflexivity|].
      split; [intros r; specialize (B1 r); lia|]. split; [|exact Em].
      rewrite Hr, held_region, Em, cnt_same. reflexivity.
Qed.

Lemma module_life_ok w :
  exists d w' bal, does K module_life w d w' bal /\ (forall r, bal r <= 0) /\
    (forall name, only_class_fails name -> In name (map ts_name (test_mck_devlist ident)) ->
       bal (RRegion (test_mck_major d)) = -1).
Proof.
  destruct (module_init_ok w) as (res & d & w1 & bal & H1 & Hg & Hb & Hc).
  unfold module_life. destruct (Z.eqb_spec res 0) as [E|E].
  - destruct (cleanup_ok d w1 Hg) as (d' & w2 & H2 & _ & Hm).
    exists d', w2, (fun r => bal r - held d r). split; [|split].
    + eapply does_eq; [eapply does_bind; [exact H1|]|].
      * cbv iota beta. rewrite E, Z.eqb_refl. exact H2.
      * intros r. cbv beta. lia.
    + intros r. pose proof (held_nonneg d r). destruct Hb as [[_ Hb]|Hb]; specialize (Hb r); lia.
    + intros name Hn Hi. destruct (Hc name Hn Hi) as (_ & _ & Hr & Em). rewrite Hm, Hr, held_region, Em, cnt_same.
      reflexivity.
  - exists d, w1, bal. split; [|split].
    + eapply does_eq; [eapply does_bind; [exact H1|]|].
      * cbv iota beta. rewrite (proj2 (Z.eqb_neq _ _) E). apply does_ret.
      * intros r. cbv beta. lia.
    + destruct Hb as [[E' _]|Hb]; [contradiction|exact Hb].
    + intros name Hn Hi. destruct (Hc name Hn Hi). contradiction.
Qed.
End Life.

(** C13.  Whatever Linux answers to its calls, the module loads (or fails to
    load) and unloads without leaking: over the whole life of the module no
    device number, class, device, buffer or procfs entry is acquired more often
    than it is released. *)
Theorem module_no_leak `{LX : Linux} {LL : LinuxLaws} (K : kernel) {SK : StoreOk K}
  (ident : option string) (dev_addr : Z -> Z) (w : world K) :
  exists d w', run K (module_life ident dev_addr) w = (Done d, w') /\
    forall r, net (calls K (module_life ident dev_addr) w) r <= 0.
Proof.
  destruct (module_life_ok K ident dev_addr w) as (d & w' & bal & [R N] & Hb & _).
  exists d, w'. split; [exact R|]. intros r. rewrite N. apply Hb.
Qed.

(** If the creation of one device class fails and nothing else does, the
    init function returns 0, success, although it has given back everything it
    had acquired; when the module is unloaded the device numbers are released
    a second time. *)
Theorem class_failure_reported_as_success `{LX : Linux} {LL : LinuxLaws} (K : kernel) {SK : StoreOk K}
  (ident : option string) (dev_addr : Z -> Z) (w : world K) (name : string) :
  only_class_fails K name -> In name ["mmap_dev"; "mmap_dev2"; "writecombine"] ->
  (exists d w', run K (module_init ident dev_addr) w = (Done (0, d), w')) /\
  (forall r, net (calls K (module_init ident dev_addr) w) r <= 0) /\
  (exists major, net (calls K (module_life ident dev_addr) w) (RRegion major) = -1).
Proof.
  intros Hn Hi.
  destruct (module_init_ok K ident dev_addr w) as (res & d & w' & bal & [R N] & _ & _ & Hc).
  destruct (Hc name Hn Hi) as (-> & Hb & _ & _). split; [now exists d, w'|]. split.
  - intros r. rewrite N. apply Hb.
  - destruct (module_life_ok K ident dev_addr w) as (d2 & w2 & bal2 & [_ N2] & _ & Hc2).
    exists (test_mck_major d2). rewrite N2. exact (Hc2 name Hn Hi).
Qed.

(** ** Witnesses *)

Lemma module_no_leak_witness :
  exists d w', run (module_kernel false) (module_life (Some "t1") id) (module_world false) = (Done d, w') /\
    forall r, net (calls (module_kernel false) (module_life (Some "t1") id) (module_world false)) r <= 0.
Proof. exact (module_no_leak (module_kernel false) (Some "t1") id (module_world false)). Defined.

Lemma class_failure_reported_as_success_witness :
  (exists d w', run (module_kernel true) (module_init None id) (module_world true) = (Done (0, d), w')) /\
  (forall r, net (calls (module_kernel true) (module_init None id) (module_world true)) r <= 0) /\
  (exists major, net (calls (module_kernel true) (module_life None id) (module_world true)) (RRegion major) = -1).
Proof.
  apply (class_failure_reported_as_success (module_kernel true) None id (module_world true) "mmap_dev2").
  - split; try reflexivity. intros n s. discriminate.
  - right. left. reflexivity.
Defined.
