(* ===== verification/DriverData.v ===== *)
(** * The kernel module: the data it hands out

    The files in procfs (reading them piece by piece yields their text), the
    text of the device numbers, the contents of the buffer of [mmap_dev2] and
    the pages the fault handlers return. *)
From stdpp Require Import pretty.
From S2P Require Import Prelude Process Trace Driver DriverThms DriverLife.
From Stdlib Require Import Ascii String.
#[local] Open Scope string_scope.
#[local] Open Scope Z_scope.
#[local] Open Scope prog_scope.

(** ** Reading a procfs file *)

Section Read.
Context (K : kernel).
Implicit Types (w : world K) (str : list Z).

(** The number of bytes a read of [nbytes] at [ppos] delivers. *)
Definition read_count (nbytes ppos : Z) str : Z := Z.min nbytes (Z.of_nat (List.length str) - ppos).

(** The bytes at [ppos]. *)
Definition read_bytes (nbytes ppos : Z) str : list Z :=
  take (Z.to_nat (read_count nbytes ppos str)) (drop (Z.to_nat ppos) str).

Lemma read_bytes_length nbytes ppos str :
  0 <= nbytes -> 0 <= ppos <= Z.of_nat (List.length str) ->
  Z.of_nat (List.length (read_bytes nbytes ppos str)) = read_count nbytes ppos str.
Proof.
  intros Hn Hp. unfold read_bytes, read_count. rewrite length_take, length_drop. lia.
Qed.

(** The guards of [test_mck_procfs_string_read] without wrap-around. *)
Lemma string_read_count nbytes ppos str :
  0 <= nbytes -> 0 <= ppos <= Z.of_nat (List.length str) -> ppos + nbytes < 2 ^ 63 ->
  (if Z.of_nat (List.length str) <? u64 (ppos + nbytes) then u64 (Z.of_nat (List.length str) - ppos)
   else nbytes) = read_count nbytes ppos str.
Proof.
  intros Hn Hp Hs. unfold read_count. rewrite (u64_small (ppos + nbytes)) by lia.
  destruct (Z.ltb_spec (Z.of_nat (List.length str)) (ppos + nbytes)).
  - rewrite u64_small by lia. lia.
  - lia.
Qed.

Lemma string_read_step buf nbytes ppos str w :
  0 <= nbytes -> 0 <= ppos <= Z.of_nat (List.length str) -> ppos + nbytes < 2 ^ 63 ->
  Z.of_nat (List.length str) < 2 ^ 63 ->
  let n := read_count nbytes ppos str in
  let c := CopyToUser buf (read_bytes nbytes ppos str) n in
  exists w', run K (test_mck_procfs_string_read buf nbytes ppos str) w =
      (Done (if snd (kstep K (Kapi c) (w_k w)) =? 0 then (n, ppos + n) else (- EFAULT, ppos)), w') /\
    calls K (test_mck_procfs_string_read buf nbytes ppos str) w
      = [Ev (Kapi c) (snd (kstep K (Kapi c) (w_k w)))].
Proof.
  intros Hn Hp Hs Hl n c. unfold test_mck_procfs_string_read. rewrite (u64_small ppos) by lia.
  rewrite (proj2 (Z.ltb_ge _ _)) by lia. rewrite string_read_count by assumption.
  assert (0 <= n) as Hn0 by (unfold n, read_count; lia).
  assert (ppos + n <= Z.of_nat (List.length str)) as Hn1 by (unfold n, read_count; lia).
  fold n. change (take (Z.to_nat n) (drop (Z.to_nat ppos) str)) with (read_bytes nbytes ppos str).
  fold c. destruct w as [pr s]. cbn [w_k]. destruct (kstep K (Kapi c) s) as [s' a] eqn:E. cbn in a.
  cbn [snd]. exists (World pr s'). split.
  - cbn. rewrite E. destruct (a =? 0); cbn; [|reflexivity]. rewrite !i64_small by lia. reflexivity.
  - unfold call, trigger. cbn [bind]. rewrite (calls_call K (Kapi c) _ pr s s' a E). f_equal.
    destruct (a =? 0); reflexivity.
Qed.

(** A client that reads with buffers of the sizes [ns], and what it was given. *)
Fixpoint reads (buf : Z) (ns : list Z) (ppos : Z) str : prog (list Z * Z) :=
  match ns with
  | [] => Ret ([], ppos)
  | n :: ns =>
      let* (r, ppos) := test_mck_procfs_string_read buf n ppos str in
      let* (rs, ppos) := reads buf ns ppos str in
      Ret (r :: rs, ppos)
  end.

Definition copied (l : list event) : list Z :=
  flat_map (fun e => match ev_op e with Kapi (CopyToUser _ bs _) => bs | _ => [] end) l.

Definition sum (l : list Z) : Z := fold_right Z.add 0 l.

Definition copy_ok : Prop := forall dst bs n s, snd (kstep K (Kapi (CopyToUser dst bs n)) s) = 0.

Lemma sum_nonneg ns : Forall (fun n => 0 <= n < 2 ^ 62) ns -> 0 <= sum ns.
Proof. unfold sum. induction 1; cbn [fold_right]; lia. Qed.

(** Reading on from [ppos]. *)
Lemma reads_from buf ns ppos str w :
  copy_ok -> Forall (fun n => 0 <= n < 2 ^ 62) ns -> Z.of_nat (List.length str) < 2 ^ 62 ->
  0 <= ppos <= Z.of_nat (List.length str) ->
  exists rs w', run K (reads buf ns ppos str) w
      = (Done (rs, Z.min (ppos + sum ns) (Z.of_nat (List.length str))), w') /\
    copied (calls K (reads buf ns ppos str) w) = take (Z.to_nat (sum ns)) (drop (Z.to_nat ppos) str) /\
    Forall2 (fun r n => 0 <= r <= n) rs ns.
Proof.
  intros Hc Hns Hl. revert ppos w. induction Hns as [|n ns Hn Hns IH]; intros ppos w Hp; cbn [reads sum fold_right].
  { exists [], w. rewrite Z.add_0_r, Z.min_l by lia. split; [reflexivity|]. split; [now rewrite take_0|constructor]. }
  fold (sum ns). pose proof (sum_nonneg ns Hns).
  destruct (string_read_step buf n ppos str w) as (w1 & R1 & C1); try lia.
  rewrite Hc in R1, C1. cbn [Z.eqb] in R1.
  set (m := read_count n ppos str) in *.
  assert (m = Z.min n (Z.of_nat (List.length str) - ppos)) as Em by reflexivity.
  destruct (IH (ppos + m) w1) as (rs & w2 & R2 & C2 & F2); [lia|].
  exists (m :: rs), w2. rewrite run_bind, calls_bind, R1, C1, run_bind, calls_bind, R2.
  split; [|split; [|constructor; [lia|exact F2]]].
  - cbn [run]. do 3 f_equal. lia.
  - rewrite calls_ret, app_nil_r. cbn [app copied flat_map ev_op]. fold (copied (calls K (reads buf ns (ppos + m) str) w1)).
    rewrite C2. unfold read_bytes. fold m.
    replace (Z.to_nat (ppos + m)) with (Z.to_nat ppos + Z.to_nat m)%nat by lia.
    rewrite <- drop_drop. set (d := drop (Z.to_nat ppos) str).
    destruct (Z.le_gt_cases n (Z.of_nat (List.length str) - ppos)) as [Hle|Hgt].
    + replace (Z.to_nat (n + sum ns)) with (Z.to_nat m + Z.to_nat (sum ns))%nat by lia.
      now rewrite take_take_drop.
    + assert (List.length d <= Z.to_nat m)%nat by (unfold d; rewrite length_drop; lia).
      rewrite (drop_ge d (Z.to_nat m)), take_nil, app_nil_r by assumption.
      rewrite !take_ge by lia. reflexivity.
Qed.
End Read.

(** C14.  Reading a procfs file of the module through buffers of any sizes,
    starting at position 0, delivers exactly the first bytes of its text, as
    many as were asked for, and stops at its end. *)
Theorem procfs_read_stream (K : kernel) (buf : Z) (ns str : list Z) (w : world K) :
  copy_ok K -> Forall (fun n => 0 <= n < 2 ^ 62) ns -> Z.of_nat (List.length str) < 2 ^ 62 ->
  exists rs w', run K (reads buf ns 0 str) w = (Done (rs, Z.min (sum ns) (Z.of_nat (List.length str))), w') /\
    copied (calls K (reads buf ns 0 str) w) = take (Z.to_nat (sum ns)) str /\
    Forall2 (fun r n => 0 <= r <= n) rs ns.
Proof.
  intros Hc Hn Hl. destruct (reads_from K buf ns 0 str w Hc Hn Hl) as (rs & w' & R & C & F); [lia|].
  now exists rs, w'.
Qed.

(** On any Linux, one read at a position inside the file makes exactly
    one copy to user space, of bytes that lie inside the text; it returns their
    number and advances the position, or returns -EFAULT and leaves it. *)
Theorem procfs_read_exact (K : kernel) (buf nbytes ppos : Z) (str : list Z) (w : world K) :
  0 <= nbytes -> 0 <= ppos <= Z.of_nat (List.length str) -> ppos + nbytes < 2 ^ 63 ->
  Z.of_nat (List.length str) < 2 ^ 63 ->
  exists a, let n := Z.of_nat (List.length (read_bytes nbytes ppos str)) in
    calls K (test_mck_procfs_string_read buf nbytes ppos str) w
      = [Ev (Kapi (CopyToUser buf (read_bytes nbytes ppos str) n)) a] /\
    n <= nbytes /\ ppos + n <= Z.of_nat (List.length str) /\
    fst (run K (test_mck_procfs_string_read buf nbytes ppos str) w)
      = Done (if (a : Z) =? 0 then (n, ppos + n) else (- EFAULT, ppos)).
Proof.
  intros Hn Hp Hs Hl. destruct (string_read_step K buf nbytes ppos str w Hn Hp Hs Hl) as (w' & R & C).
  rewrite read_bytes_length by assumption. eexists. cbv zeta. split; [exact C|].
  split; [unfold read_count; lia|]. split; [unfold read_count; lia|]. now rewrite R.
Qed.

(** ** The buffer of [mmap_dev2] *)

Section Buffer.
Context `{LL : LinuxLaws} (K : kernel).
Implicit Type w : world K.

(** The number of pages of the buffer. *)
Definition buf_pages : Z := LPAGE_SIZE / 8 + 1.

Lemma page_size_pow : LPAGE_SIZE = 2 ^ LPAGE_SHIFT.
Proof. unfold LPAGE_SIZE. apply Z.shiftl_1_l. Qed.

Lemma page_size_bounds : 2 ^ 12 <= LPAGE_SIZE <= 2 ^ 16.
Proof.
  pose proof page_shift_range. rewrite page_size_pow. split; apply Z.pow_le_mono_r; lia.
Qed.

Lemma buf_pages_bounds : 1 < buf_pages <= 2 ^ 14.
Proof.
  unfold buf_pages. pose proof page_size_bounds.
  assert (2 ^ 9 <= LPAGE_SIZE / 8 <= 2 ^ 13) by (split; [apply Z.div_le_lower_bound|apply Z.div_le_upper_bound]; lia).
  lia.
Qed.

Lemma buf_size_pages : test_mck_mmap_dev2_buf_size = buf_pages * LPAGE_SIZE.
Proof.
  pose proof page_size_bounds. pose proof buf_pages_bounds. unfold buf_pages in *.
  unfold test_mck_mmap_dev2_buf_size, test_mck_mmap_dev2_block_size. rewrite sizeof_pte_8.
  rewrite (u64_small (LPAGE_SIZE / 8 * LPAGE_SIZE)) by nia. rewrite u64_small by nia. ring.
Qed.

Context {SK : StoreOk K}.

(** The calls of [memset]. *)
Lemma memset_calls a ch n w :
  exists w', run K (memset_from a ch n) w = (Done tt, w') /\
    map ev_op (calls K (memset_from a ch n) w) = map (fun x => Store x (u8 ch)) (seqZ a (Z.of_nat n)).
Proof.
  revert a w. induction n as [|n IH]; intros a [pr s]; cbn [memset_from].
  { now exists (World pr s). }
  destruct (store_ok s a (u8 ch)) as [s' E]. destruct (IH (a + 1) (World pr s')) as (w' & R & C).
  exists w'. unfold store, trigger. cbn [bind]. split.
  - cbn. rewrite E. exact R.
  - rewrite (calls_call K _ _ pr s s' _ E). cbn [map ev_op or_raise bind]. rewrite C.
    rewrite (seqZ_cons a (Z.of_nat (S n))) by lia. cbn [map]. do 3 f_equal; lia.
Qed.

(** The byte of the buffer at offset [j]. *)
Definition reset_byte (j : Z) : Z := u8 (j / LPAGE_SIZE + 1).

Lemma page_stores start k :
  map (fun x => Store x (u8 (k + 1))) (seqZ (start + k * LPAGE_SIZE) LPAGE_SIZE)
  = map (fun x => Store x (reset_byte (x - start))) (seqZ (start + k * LPAGE_SIZE) LPAGE_SIZE).
Proof.
  pose proof page_size_bounds. apply map_ext_in. intros x Hx.
  apply list_elem_of_In, elem_of_seqZ in Hx. unfold reset_byte.
  replace ((x - start) / LPAGE_SIZE) with k; [reflexivity|].
  apply Z.div_unique with (x - start - k * LPAGE_SIZE); lia.
Qed.

Lemma buffer_reset_from_calls n start k w :
  0 <= start -> start + test_mck_mmap_dev2_buf_size <= 2 ^ 64 -> 0 <= k <= buf_pages ->
  buf_pages - k < Z.of_nat n ->
  map ev_op (calls K (buffer_reset_from n start (k * LPAGE_SIZE) (k + 1)) w)
  = map (fun x => Store x (reset_byte (x - start)))
      (seqZ (start + k * LPAGE_SIZE) ((buf_pages - k) * LPAGE_SIZE)).
Proof.
  intros Hs He. pose proof page_size_bounds. rewrite buf_size_pages in He. revert k w.
  induction n as [|n IH]; intros k w Hk Hn; [lia|]. cbn [buffer_reset_from]. rewrite buf_size_pages.
  destruct (Z.ltb_spec (k * LPAGE_SIZE) (buf_pages * LPAGE_SIZE)) as [Hlt|Hge].
  2: { replace (buf_pages - k) with 0 by nia. reflexivity. }
  assert (k < buf_pages) as Hk' by nia.
  replace (if k * LPAGE_SIZE + LPAGE_SIZE <? buf_pages * LPAGE_SIZE then LPAGE_SIZE
           else buf_pages * LPAGE_SIZE - k * LPAGE_SIZE) with LPAGE_SIZE
    by (destruct (Z.ltb_spec (k * LPAGE_SIZE + LPAGE_SIZE) (buf_pages * LPAGE_SIZE)); nia).
  rewrite u64_small by nia.
  destruct (memset_calls (start + k * LPAGE_SIZE) (k + 1) (Z.to_nat LPAGE_SIZE) w) as (w' & R & C).
  rewrite calls_bind. unfold memset. rewrite R, map_app, C, Z2Nat.id by lia.
  replace (k * LPAGE_SIZE + LPAGE_SIZE) with ((k + 1) * LPAGE_SIZE) by ring.
  rewrite IH by lia. rewrite page_stores, <- map_app. f_equal.
  replace (start + (k + 1) * LPAGE_SIZE) with (start + k * LPAGE_SIZE + LPAGE_SIZE) by ring.
  rewrite <- seqZ_app by nia. f_equal. ring.
Qed.
End Buffer.

(** Resetting the buffer of [mmap_dev2] writes every byte of it exactly
    once, in order and nothing else, and fills page [i] with [i + 1] (modulo
    256). *)
Theorem buffer_reset_fills `{LL : LinuxLaws} (K : kernel) {SK : StoreOk K} (start : Z) (w : world K) :
  0 <= start -> start + test_mck_mmap_dev2_buf_size <= 2 ^ 64 ->
  (exists w', run K (test_mck_mmap_dev2_buffer_reset start) w = (Done tt, w')) /\
  map ev_op (calls K (test_mck_mmap_dev2_buffer_reset start) w)
  = map (fun x => Store x (reset_byte (x - start))) (seqZ start test_mck_mmap_dev2_buf_size).
Proof.
  intros Hs He. pose proof page_size_bounds. pose proof buf_pages_bounds. split.
  - unfold test_mck_mmap_dev2_buffer_reset.
    destruct (does_reset_from K (S (Z.to_nat (test_mck_mmap_dev2_buf_size / LPAGE_SIZE))) start 0 1 w)
      as [w' [R _]]. now exists w'.
  - unfold test_mck_mmap_dev2_buffer_reset.
    pose proof (buffer_reset_from_calls K (S (Z.to_nat (test_mck_mmap_dev2_buf_size / LPAGE_SIZE))) start 0 w Hs He) as Hc.
    rewrite Z.mul_0_l, Z.add_0_l, Z.sub_0_r, Z.add_0_r, <- buf_size_pages in Hc.
    apply Hc; [lia|]. rewrite buf_size_pages, Z.div_mul by lia. lia.
Qed.

(** ** Fault handlers *)


(** The buffer of [writecombine] is one page. *)
Definition wc_buf_size `{Linux} : Z := LPAGE_SIZE.

(** The fault handler of [writecombine] does not look at the offset: for
    every page offset beyond its buffer of one page it still returns success,
    with the page found outside the buffer. *)
Theorem writecombine_fault_unchecked `{LL : LinuxLaws} (K : kernel) (buf pgoff : Z) (w : world K) :
  0 < buf -> 1 <= pgoff -> buf + pgoff * LPAGE_SIZE < 2 ^ 64 ->
  exists page a addr,
    calls K (test_mck_writecombine_vma_fault buf pgoff) w
      = [Ev (Kapi (VmallocToPage addr)) page; Ev (Kapi (GetPage page)) a] /\
    buf + wc_buf_size <= addr /\
    fst (run K (test_mck_writecombine_vma_fault buf pgoff) w) = Done (0, Some page).
Proof.
  intros Hb Hp Hw. pose proof page_size_bounds. pose proof page_shift_range. unfold wc_buf_size.
  assert (Z.shiftl pgoff LPAGE_SHIFT = pgoff * LPAGE_SIZE) as Es
    by (rewrite page_size_pow; apply Z.shiftl_mul_pow2; lia).
  unfold test_mck_writecombine_vma_fault. rewrite Es, u64_small by nia.
  rewrite (proj2 (Z.eqb_neq buf 0)) by lia. destruct w as [pr s].
  destruct (kstep K (Kapi (VmallocToPage (buf + pgoff * LPAGE_SIZE))) s) as [s1 page] eqn:E1.
  destruct (kstep K (Kapi (GetPage page)) s1) as [s2 a] eqn:E2. exists page, a, (buf + pgoff * LPAGE_SIZE).
  unfold calls. rewrite traced_outcome. unfold tworld. cbn. rewrite E1. cbn. rewrite E2. cbn.
  split; [reflexivity|]. split; [nia|reflexivity].
Qed.

(** ** Mapping device memory *)

(** The request for all pages of a mapping. *)
Definition whole_area (vma : vm_area_struct) : kapi :=
  RemapPfnRange (vm_start vma) (vm_pgoff vma) (u64 (vm_end vma - vm_start vma)) (vm_page_prot vma).

(** The mmap function of [mmap_dev] asks once for the whole area; it
    returns 0 whatever the answer, and only the missing operations of the
    mapping tell a failure. *)
Theorem mmap_dev_mmap_status `{LX : Linux} (K : kernel) (ident : option string) (vma : vm_area_struct)
  (w : world K) :
  exists a vma', calls K (test_mck_mmap_dev_mmap ident vma) w = [Ev (Kapi (whole_area vma)) a] /\
    fst (run K (test_mck_mmap_dev_mmap ident vma) w) = Done (0, vma') /\
    vm_ops vma' = (if (a : Z) =? 0 then Some mmap_dev_vm_ops else vm_ops vma).
Proof.
  unfold calls. rewrite traced_outcome. destruct w as [pr s]. unfold tworld, test_mck_mmap_dev_mmap.
  cbn -[whole_area]. fold (whole_area vma). destruct (kstep K (Kapi (whole_area vma)) s) as [s' a]. cbn in a.
  exists a. destruct (Z.eqb_spec a 0); cbn; eexists; now repeat split.
Qed.

(** ** The text of the device numbers *)

Lemma small_numbers :
  forallb (fun i => (List.length (list_ascii_of_string (pad_left 3 (pretty (Z.of_nat i)))) =? 3)%nat
                    && (List.length (list_ascii_of_string (pad_right 3 (pretty (Z.of_nat i)))) =? 3)%nat)
          (seq 0 1000) = true.
Proof. vm_compute. reflexivity. Qed.

Lemma list_ascii_app s t :
  list_ascii_of_string (s ++ t) = (list_ascii_of_string s ++ list_ascii_of_string t)%list.
Proof. induction s as [|c s IH]; [reflexivity|].
  change (String c s ++ t) with (String c (s ++ t)). cbn [list_ascii_of_string app]. now rewrite IH.
Qed.

Lemma majmin_text_length major minor :
  0 <= major < 1000 -> 0 <= minor < 1000 -> List.length (majmin_text major minor) = 8%nat.
Proof.
  intros Ha Hi. pose proof small_numbers as Hs. rewrite forallb_forall in Hs.
  pose proof (Hs (Z.to_nat major) ltac:(apply in_seq; lia)) as H1.
  pose proof (Hs (Z.to_nat minor) ltac:(apply in_seq; lia)) as H2.
  rewrite Z2Nat.id in H1, H2 by lia. apply andb_true_iff in H1, H2. destruct H1 as [H1 _], H2 as [_ H2].
  apply Nat.eqb_eq in H1, H2. unfold majmin_text, bytes_of. rewrite length_map, !list_ascii_app, !length_app.
  cbn [list_ascii_of_string List.length]. lia.
Qed.

(** The texts of the numbers [i], [i + 1], ... *)
Fixpoint majmin_texts (major i : Z) (n : nat) : list Z :=
  match n with O => [] | S n => (majmin_text major i ++ majmin_texts major (i + 1) n)%list end.

Lemma write_at_app (a bs rest : list Z) :
  (List.length bs <= List.length rest)%nat ->
  write_at (Z.of_nat (List.length a)) bs (a ++ rest)%list
  = (a ++ bs ++ drop (List.length bs) rest)%list.
Proof.
  intros Hl. unfold write_at. rewrite Nat2Z.id, take_app_length, drop_app_add.
  apply take_ge. rewrite !length_app, length_drop. lia.
Qed.

(** One number after the texts [a]; [k] numbers are still to come. *)
Lemma majmin_add_step major i a k :
  0 <= major < 1000 -> 0 <= i < 1000 -> Z.of_nat (List.length a) < 2 ^ 62 -> (k < 1000)%nat ->
  majmin_add major i (MajMin (a ++ repeat 0 (8 * S k + 1))%list (Z.of_nat (List.length a)) false)
  = MajMin (a ++ take (if decide (k = 0)%nat then 7 else 8) (majmin_text major i)
              ++ repeat 0 (if decide (k = 0)%nat then 2 else 8 * k + 1))%list
      (Z.of_nat (List.length a) + 8) false.
Proof.
  intros Ha Hi Hl Hk. unfold majmin_add. cbn [mm_bytes mm_pos mm_overrun orb].
  pose proof (majmin_text_length major i Ha Hi) as Ht. set (t := majmin_text major i) in *.
  rewrite length_app, repeat_length.
  replace (Z.of_nat (List.length a + (8 * S k + 1)) - Z.of_nat (List.length a) - 1) with (8 * Z.of_nat (S k)) by lia.
  rewrite u64_small, (proj2 (Z.eqb_neq _ _)) by lia.
  assert (take (Z.to_nat (8 * Z.of_nat (S k) - 1)) t = take (if decide (k = 0)%nat then 7 else 8) t) as ->.
  { destruct (decide (k = 0)%nat) as [->|]; [reflexivity|]. rewrite !take_ge by lia. reflexivity. }
  set (q := if decide (k = 0)%nat then 7%nat else 8%nat).
  assert (List.length (take q t ++ [0])%list = S q) as Hq.
  { rewrite length_app, length_take, Ht. unfold q. cbn. case_decide; lia. }
  rewrite write_at_app by (rewrite Hq, repeat_length; unfold q; case_decide; lia).
  rewrite Hq, Ht, <- app_assoc. f_equal.
  - do 3 f_equal. unfold q. case_decide; [subst k; reflexivity|].
    replace (8 * S k + 1)%nat with (9 + 8 * k)%nat by lia.
    rewrite repeat_app, drop_app_length' by (rewrite repeat_length; reflexivity).
    rewrite (Nat.add_comm (8 * k) 1). reflexivity.
  - apply Z.ltb_ge. unfold q. case_decide; lia.
Qed.

Lemma majmin_adds_ok major k :
  0 <= major < 1000 -> forall i a,
  0 <= i -> i + Z.of_nat (S k) <= 1000 -> Z.of_nat (List.length a) + 8 * Z.of_nat (S k) < 2 ^ 62 ->
  majmin_adds major i (S k) (MajMin (a ++ repeat 0 (8 * S k + 1))%list (Z.of_nat (List.length a)) false)
  = MajMin (a ++ take (8 * S k - 1) (majmin_texts major i (S k)) ++ [0; 0])%list
      (Z.of_nat (List.length a) + 8 * Z.of_nat (S k)) false.
Proof.
  intros Ha. induction k as [|k IH]; intros i a Hi He Hl.
  - cbn [majmin_adds majmin_texts]. rewrite majmin_add_step by lia. now rewrite app_nil_r.
  - change (majmin_adds major i (S (S k)) ?m) with (majmin_adds major (i + 1) (S k) (majmin_add major i m)).
    change (majmin_texts major i (S (S k))) with (majmin_text major i ++ majmin_texts major (i + 1) (S k))%list.
    rewrite majmin_add_step by lia. cbn [decide]. rewrite decide_False by lia.
    pose proof (majmin_text_length major i Ha ltac:(lia)) as Ht. set (t := majmin_text major i) in *.
    rewrite (take_ge t) by lia. rewrite app_assoc.
    replace (Z.of_nat (List.length a) + 8) with (Z.of_nat (List.length (a ++ t)%list)) by (rewrite length_app; lia).
    rewrite IH by (rewrite ?length_app; lia). f_equal.
    + rewrite <- app_assoc. f_equal. rewrite app_assoc. f_equal.
      replace (8 * S (S k) - 1)%nat with (List.length t + (8 * S k - 1))%nat by lia.
      now rewrite take_app_add.
    + rewrite length_app. lia.
Qed.

(** If every call succeeds and the major number is below 1000, the module
    loads, the text of [/proc/test_mck/devno] holds the number of each device
    in its eight columns, without the blank after the last, and nothing was
    written outside the array. *)
Theorem devno_text `{LX : Linux} {LL : LinuxLaws} (K : kernel) {SK : StoreOk K}
  (ident : option string) (dev_addr : Z -> Z) (w : world K) (major : Z) :
  all_succeed K major -> 0 <= major < 1000 ->
  exists d w', run K (module_init ident dev_addr) w = (Done (0, d), w') /\
    mm_bytes (test_mck_majmin d) = (take 23 (majmin_texts major 0 3) ++ [0; 0])%list /\
    mm_overrun (test_mck_majmin d) = false.
Proof.
  intros Has Hm.
  destruct (setup_body_ok K ident dev_addr (drv0 (test_mck_devlist ident)) w)
    as (b & res' & d & w1 & bal & [R _] & _ & _ & Hmm & _ & Hs); [repeat constructor|apply drv0_fresh, SK|].
  destruct (Hs major Has) as [-> Ej]. exists d, w1. split.
  - unfold module_init, test_mck_init, test_mck_setup. now rewrite run_bind, R.
  - rewrite (Hmm eq_refl), Ej.
    change (test_mck_majmin (drv0 (test_mck_devlist ident))) with
      (MajMin ([] ++ repeat 0 (8 * 3 + 1))%list (Z.of_nat (List.length (@nil Z))) false).
    change (List.length (devlist (drv0 (test_mck_devlist ident)))) with 3%nat.
    rewrite (majmin_adds_ok _ 2 Hm 0 []) by (cbn; lia). now split.
Qed.

(** ** Witnesses *)

Lemma procfs_read_stream_witness :
  exists rs w', run (module_kernel false) (reads 0 [4; 0; 3; 9] 0 (bytes_of "mmap_dev ")) (module_world false)
      = (Done (rs, 9), w') /\
    copied (calls (module_kernel false) (reads 0 [4; 0; 3; 9] 0 (bytes_of "mmap_dev ")) (module_world false))
      = bytes_of "mmap_dev " /\
    Forall2 (fun r n => 0 <= r <= n) rs [4; 0; 3; 9].
Proof.
  refine (procfs_read_stream (module_kernel false) 0 [4; 0; 3; 9] (bytes_of "mmap_dev ") (module_world false) _ _ _).
  - intros dst bs n s. reflexivity.
  - repeat (apply List.Forall_cons; [lia|]). constructor.
  - reflexivity.
Defined.

Lemma procfs_read_exact_witness :
  exists a, calls (module_kernel false) (test_mck_procfs_string_read 0x1000 100 5 (bytes_of "mmap_dev ")) (module_world false)
      = [Ev (Kapi (CopyToUser 0x1000 (bytes_of "dev ") 4)) a] /\
    4 <= 100 /\ 5 + 4 <= 9 /\
    fst (run (module_kernel false) (test_mck_procfs_string_read 0x1000 100 5 (bytes_of "mmap_dev ")) (module_world false))
      = Done (if (a : Z) =? 0 then (4, 5 + 4) else (- EFAULT, 5)).
Proof.
  refine (procfs_read_exact (module_kernel false) 0x1000 100 5 (bytes_of "mmap_dev ") (module_world false) _ _ _ _);
    [lia|split; [lia|discriminate]|reflexivity|reflexivity].
Defined.

Lemma buffer_reset_fills_witness :
  (exists w', run (module_kernel false) (test_mck_mmap_dev2_buffer_reset 0x10000000) (module_world false) = (Done tt, w')) /\
  map ev_op (calls (module_kernel false) (test_mck_mmap_dev2_buffer_reset 0x10000000) (module_world false))
  = map (fun x => Store x (reset_byte (x - 0x10000000))) (seqZ 0x10000000 test_mck_mmap_dev2_buf_size).
Proof. apply (buffer_reset_fills (module_kernel false)); [discriminate|vm_compute; discriminate]. Defined.


Lemma writecombine_fault_unchecked_witness :
  exists page a addr,
    calls (module_kernel false) (test_mck_writecombine_vma_fault 0x10000000 3) (module_world false)
      = [Ev (Kapi (VmallocToPage addr)) page; Ev (Kapi (GetPage page)) a] /\
    0x10000000 + wc_buf_size <= addr /\
    fst (run (module_kernel false) (test_mck_writecombine_vma_fault 0x10000000 3) (module_world false))
      = Done (0, Some page).
Proof. apply (writecombine_fault_unchecked (module_kernel false)); [reflexivity|discriminate|reflexivity]. Defined.

Lemma devno_text_witness :
  exists d w', run (module_kernel false) (module_init None id) (module_world false) = (Done (0, d), w') /\
    mm_bytes (test_mck_majmin d) = (bytes_of "240:0   240:1   240:2  " ++ [0; 0])%list /\
    mm_overrun (test_mck_majmin d) = false.
Proof.
  refine (devno_text (module_kernel false) None id (module_world false) 240 _ _); [|lia].
  split; try reflexivity; try (intros; discriminate). intros m n d s. split; reflexivity.
Defined.
