(* ===== verification/DevMap.v ===== *)
(** * The suites that map the devices of the kernel module

    [mmap_dev] 0-2 and [writecombine] 0 of [test_mck]. *)
From S2P Require Import Prelude Process CLib Arch TestMck AddrSpace FileMap.
From Stdlib Require Import Ascii String.
#[local] Open Scope string_scope.
#[local] Open Scope Z_scope.

Definition ioctl (fd request : Z) : prog Z :=
  r <- (trigger (Filec (Ioctl fd request)) : prog Z) ;; syscall_ret (-1) r.

(** [memcmp] of memory with a local array, up to the first difference. *)
Fixpoint memcmp (a : Z) (buf : list Z) : prog Z :=
  match buf with
  | [] => Ret 0
  | b :: buf' => x <- load a ;; if x =? b then memcmp (a + 1) buf' else Ret (x - b)
  end.

Section Suites.
Context `{ArchConfig}.

(** ** [mmap_dev] *)

Record mmap_dev_args := MmapDevArgs { d_path : option string; d_size : Z }.

(** The static structure before the first call. *)
Definition mmap_dev_args0 : mmap_dev_args := MmapDevArgs None 0.

Fixpoint mmap_dev_options (evs : list optev) (args : mmap_dev_args) : mmap_dev_args :=
  match evs with
  | [] => args
  | Opt c optarg :: evs' =>
      mmap_dev_options evs'
        (if Ascii.eqb c "d" then MmapDevArgs (Some optarg) (d_size args)
         else if Ascii.eqb c "s" then MmapDevArgs (d_path args) (cv_val (strtoul optarg 10))
         else args)
  | OptErr :: evs' => mmap_dev_options evs' args
  end.

(** [tc_argv] holds the program name first. *)
Definition mmap_dev_setup (tc_num : Z) (tc_argv : list string) : prog mmap_dev_args :=
  Ret (mmap_dev_options (fst (getopt "d:s:" (tail tc_argv))) mmap_dev_args0).

(** [pages = (size + PAGE_SIZE - 1) / PAGE_SIZE], an [int]. *)
Definition count_pages (size : Z) : Z := i32 (u64 (size + PAGE_SIZE - 1) / PAGE_SIZE).

(** ['Z'] into the first byte of [n] pages from [ptr] on. *)
Definition letter_Z : Z := 90.
Fixpoint access_pages (n : nat) (ptr : Z) : prog unit :=
  match n with
  | O => Ret tt
  | S n => store ptr letter_Z ;; access_pages n (ptr + PAGE_SIZE)
  end.

(** [memset(buf, val, PAGE_SIZE); buf[0] = 'Z';] *)
Definition page_pattern (val : Z) : list Z := <[0%nat := letter_Z]> (repeat (u8 val) (Z.to_nat PAGE_SIZE)).

Fixpoint validate_pages (n : nat) (ptr val : Z) (k : prog result) : prog result :=
  match n with
  | O => k
  | S n =>
      cmp <- memcmp ptr (page_pattern val) ;;
      tp_assert! (cmp =? 0, Some "compare error.") ;;
      validate_pages n (ptr + PAGE_SIZE) (val + 1) k
  end.

(** The common beginning of the three tests: open, [ioctl], map, access. *)
Definition devmap_start (path : option string) (size request flags : Z) (k : Z -> Z -> prog result) : prog result :=
  match path with
  | None => Ret (Some "invalid argument(-d).")
  | Some path =>
      tp_assert! (0 <? size, Some "invalid argument(-s).") ;;
      fd <- open path O_RDWR ;;
      printf "open(%s)=%d\n" [PS path; PZ fd] ;;
      tp_assert! (negb (fd =? -1), Some "file open error.") ;;
      status <- ioctl fd request ;;
      printf "ioctl()=%d\n" [PZ status] ;;
      tp_assert! (negb (status =? -1), Some "ioctl error.") ;;
      data <- mmap 0 size (Z.lor PROT_READ PROT_WRITE) flags fd 0 ;;
      printf "mmap()=%p\n" [PZ data] ;;
      tp_assert! (negb (data =? MAP_FAILED), Some "mmap error.") ;;
      access_pages (Z.to_nat (count_pages size)) data ;;
      k fd data
  end.

(** [munmap], reported, with its message. *)
Definition devmap_munmap (data size : Z) (msg : string) (k : prog result) : prog result :=
  status <- munmap data size ;;
  printf "munmap()=%d\n" [PZ status] ;;
  tp_assert! (negb (status =? -1), Some msg) ;;
  k.

Definition devmap_do_devmap_000 (path : option string) (size : Z) : prog result :=
  devmap_start path size 0 MAP_PRIVATE (fun fd data =>
  devmap_munmap data size "munmap error."
  (close fd ;; Ret None)).

(** The request number [TEST_MCK_MMAP_DEV2_BUF_RESET] of [test_mck_public.h]. *)
Context (BUF_RESET : Z).

Definition devmap_do_devmap_001 (path : option string) (size : Z) : prog result :=
  devmap_start path size BUF_RESET MAP_PRIVATE (fun fd data =>
  validate_pages (Z.to_nat (count_pages size)) data 1
  (devmap_munmap data size "munmap error."
   (close fd ;; Ret None))).

Definition devmap_do_devmap_002 (path : option string) (size : Z) : prog result :=
  devmap_start path size BUF_RESET MAP_SHARED (fun fd data =>
  peek_data <- mmap 0 size (Z.lor PROT_READ PROT_WRITE) MAP_SHARED fd 0 ;;
  printf "peek mmap()=%p\n" [PZ peek_data] ;;
  tp_assert! (negb (peek_data =? MAP_FAILED), Some "peek mmap error.") ;;
  validate_pages (Z.to_nat (count_pages size)) peek_data 1
  (devmap_munmap data size "munmap error."
   (devmap_munmap peek_data size "peek munmap error."
    (close fd ;; Ret None)))).

Definition mmap_dev_run (f : option string -> Z -> prog result) (tc_num : Z) (args : mmap_dev_args)
  : prog (result * mmap_dev_args) :=
  run_const (fun _ args => f (d_path args) (d_size args)) tc_num args.

Definition mmap_dev_case (n : Z) (f : option string -> Z -> prog result) : test_case :=
  TestCase "mmap_dev" n mmap_dev_args mmap_dev_setup (mmap_dev_run f) TEARDOWN_EMPTY.
Definition mmap_dev0 : test_case := mmap_dev_case 0 devmap_do_devmap_000.
Definition mmap_dev1 : test_case := mmap_dev_case 1 devmap_do_devmap_001.
Definition mmap_dev2 : test_case := mmap_dev_case 2 devmap_do_devmap_002.

(** ** [writecombine] *)

Fixpoint writecombine_options (evs : list optev) (path : option string) : option string :=
  match evs with
  | [] => path
  | Opt c optarg :: evs' => writecombine_options evs' (if Ascii.eqb c "d" then Some optarg else path)
  | OptErr :: evs' => writecombine_options evs' path
  end.
Definition writecombine_setup (tc_num : Z) (tc_argv : list string) : prog (option string) :=
  Ret (writecombine_options (fst (getopt "d:" (tail tc_argv))) None).

(** From the label [out] on. *)
Definition writecombine_out (fd buf : Z) (ret : result) : prog result :=
  (if negb (buf =? NULL) then munmap buf PAGE_SIZE ;; Ret tt else Ret tt) ;;
  (if negb (fd =? -1) then close fd ;; Ret tt else Ret tt) ;;
  Ret ret.

Definition writecombine_run_000 (path : option string) : prog result :=
  match path with
  | None => Ret (Some "invalid argument(-d).")
  | Some path =>
      fd <- open path O_RDWR ;;
      if fd =? -1 then perror "open() device file" ;; writecombine_out fd NULL (Some "open() error.")
      else
        buf <- mmap NULL PAGE_SIZE (Z.lor PROT_READ PROT_WRITE) MAP_PRIVATE fd 0 ;;
        if buf =? MAP_FAILED then perror "mmap()" ;; writecombine_out fd buf (Some "mmap() error.")
        else store buf letter_Z ;; writecombine_out fd buf None
  end.
Definition writecombine0 : test_case :=
  TestCase "writecombine" 0 (option string) writecombine_setup (run_const (fun _ => writecombine_run_000)) TEARDOWN_EMPTY.
End Suites.
