(* ===== verification/DevSys.v ===== *)
(** * The device suites on a system with the kernel module

    The system calls of a test reach the module: [Linux] opens a device file,
    forwards [ioctl], asks the device for its mapping operations in [mmap] and
    for a page at the first access to it.  [sys] is that system, built from the
    module's own functions ([Driver]) run on a kernel that provides the functions
    Linux offers to modules ([LinuxMem]).  The theorem gives the verdict of the
    tests of [mmap_dev] on the device [mmap_dev2] for every size: the tests and
    the module fit together. *)
From stdpp Require Import gmap.
From S2P Require Import Prelude Process Trace CLib Arch TestMck AddrSpace FileMap DevMap Driver DriverThms DriverData.
From Stdlib Require Import String.
#[local] Open Scope string_scope.
#[local] Open Scope Z_scope.

Definition ENOENT : Z := 2.
Definition EBADF : Z := 9.
Definition ENOTTY : Z := 25.

(** ** Linux as the module sees it *)

(** Memory that can be stored to, [vmalloc_to_page] yielding the page that stands
    behind an address, and [get_page]. *)
Class LinuxMem `{Linux} (KL : kernel) := {
  lmem : kstate KL -> Z -> Z;
  page_addr : Z -> Z;
  lm_store s a b : exists s', kstep KL (Store a b) s = (s', inl tt) /\
    forall x, lmem s' x = if x =? a then b else lmem s x;
  lm_to_page s a : a mod LPAGE_SIZE = 0 ->
    exists s' p, kstep KL (Kapi (VmallocToPage a)) s = (s', p) /\ page_addr p = a /\ forall x, lmem s' x = lmem s x;
  lm_get_page s p : exists s' r, kstep KL (Kapi (GetPage p)) s = (s', r) /\ forall x, lmem s' x = lmem s x;
}.

(** ** Linux as the tests see it *)

Section Sys.
Context `{LX : Linux} (ident : option string) (KL : kernel) {LM : LinuxMem KL}.
(** The buffers the module has given its devices, and where a mapping of some
    length goes besides the ones there are. *)
Context (buf2 bufwc : Z) (place : list (Z * Z) -> Z -> option Z).

(** An entry of the page table: a page of the device, or the process's own copy
    of one. *)
Inductive pte := Frame (page : Z) | Copy (bytes : Z -> Z).

Record umap := UMap { um_start : Z; um_len : Z; um_private : bool; um_vma : vm_area_struct; um_pt : gmap Z pte }.
Definition with_pte (pg : Z) (e : pte) (m : umap) : umap :=
  UMap (um_start m) (um_len m) (um_private m) (um_vma m) (<[pg := e]> (um_pt m)).

(** The kernel with the module, the open files (by device) and the mappings. *)
Record usys := USys { us_lx : world KL; us_fds : gmap Z Z; us_maps : list umap }.
Definition with_lx (lx : world KL) (u : usys) : usys := USys lx (us_fds u) (us_maps u).

Definition DEV2 : Z := 1.
Definition DEVWC : Z := 2.
Definition dev_of_path (path : string) : option Z :=
  if String.eqb path "/dev/test_mck/mmap_dev2" then Some DEV2
  else if String.eqb path "/dev/test_mck/writecombine" then Some DEVWC else None.

Definition dev_open (dev : Z) : prog (Z * file) :=
  if dev =? DEV2 then test_mck_mmap_dev2_open ident dev else test_mck_writecombine_open dev.
Definition dev_ioctl (dev request : Z) : prog Z :=
  if dev =? DEV2 then test_mck_mmap_dev2_ioctl ident buf2 request 0 else Ret (- ENOTTY).
Definition dev_mmap (dev : Z) (vma : vm_area_struct) : prog (Z * vm_area_struct) :=
  if dev =? DEV2 then test_mck_mmap_dev2_mmap ident (Some dev) vma else test_mck_writecombine_mmap (Some dev) vma.
Definition dev_fault (vma : vm_area_struct) (pgoff : Z) : prog (Z * option Z) :=
  match vm_ops vma with
  | Some mmap_dev2_vm_ops => test_mck_mmap_dev2_vma_fault ident buf2 pgoff
  | Some writecombine_vm_ops => test_mck_writecombine_vma_fault bufwc pgoff
  | _ => Ret (- EFAULT, None)
  end.

Fixpoint find_map (a : Z) (ms : list umap) : option (nat * umap) :=
  match ms with
  | [] => None
  | m :: ms' =>
      if in_range a (um_start m) (um_len m) then Some (0%nat, m)
      else match find_map a ms' with Some (i, m') => Some (S i, m') | None => None end
  end.

(** The page table entry of page [pg]: the device is asked once. *)
Definition page_entry (u : usys) (m : umap) (pg : Z) : world KL * option pte :=
  match um_pt m !! pg with
  | Some e => (us_lx u, Some e)
  | None =>
      match run KL (dev_fault (um_vma m) (vm_pgoff (um_vma m) + pg)) (us_lx u) with
      | (Done (ret, Some page), lx) => (lx, if ret =? 0 then Some (Frame page) else None)
      | (_, lx) => (lx, None)
      end
  end.

Definition page_byte (lx : world KL) (e : pte) (o : Z) : Z :=
  match e with Frame page => lmem (w_k lx) (page_addr page + o) | Copy bytes => bytes o end.

(** A store: into the process's copy of the page, made now if the mapping is
    private, or into the page of the device. *)
Definition store_entry (lx : world KL) (private : bool) (e : pte) (o b : Z) : world KL * pte :=
  let copy := Copy (fun x => if x =? o then b else page_byte lx e x) in
  match e with
  | Copy _ => (lx, copy)
  | Frame page =>
      if private then (lx, copy)
      else (World (w_proc lx) (fst (kstep KL (Store (page_addr page + o) b) (w_k lx))), e)
  end.

Definition access (a need : Z) (write : option Z) (u : usys) : usys * (Z + Z) :=
  match find_map a (us_maps u) with
  | None => (u, inr SIGSEGV)
  | Some (i, m) =>
      if negb (has (vm_page_prot (um_vma m)) need) then (u, inr SIGSEGV)
      else
        let pg := (a - um_start m) / LPAGE_SIZE in
        let o := (a - um_start m) mod LPAGE_SIZE in
        match page_entry u m pg with
        | (lx, None) => (with_lx lx u, inr SIGBUS)
        | (lx, Some e) =>
            let '(lx', e') := match write with Some b => store_entry lx (um_private m) e o b | None => (lx, e) end in
            (USys lx' (us_fds u) (<[i := with_pte pg e' m]> (us_maps u)), inl (page_byte lx e o))
        end
  end.

Definition round_up (len : Z) : Z := (len + LPAGE_SIZE - 1) / LPAGE_SIZE * LPAGE_SIZE.
Definition ranges (ms : list umap) : list (Z * Z) := map (fun m => (um_start m, um_len m)) ms.

Definition sys_open (path : string) (u : usys) : usys * Z :=
  match dev_of_path path with
  | None => (u, - ENOENT)
  | Some dev =>
      match run KL (dev_open dev) (us_lx u) with
      | (Done (ret, _), lx) =>
          let fd := 3 + Z.of_nat (size (us_fds u)) in
          if ret =? 0 then (USys lx (<[fd := dev]> (us_fds u)) (us_maps u), fd) else (with_lx lx u, ret)
      | (_, lx) => (with_lx lx u, - EIO)
      end
  end.

Definition sys_ioctl (fd request : Z) (u : usys) : usys * Z :=
  match us_fds u !! fd with
  | None => (u, - EBADF)
  | Some dev =>
      match run KL (dev_ioctl dev request) (us_lx u) with
      | (Done ret, lx) => (with_lx lx u, ret)
      | (_, lx) => (with_lx lx u, - EIO)
      end
  end.

Definition sys_mmap (len prot flags fd off : Z) (u : usys) : usys * Z :=
  match us_fds u !! fd with
  | None => (u, - EBADF)
  | Some dev =>
      match place (ranges (us_maps u)) (round_up len) with
      | None => (u, - ENOMEM)
      | Some a =>
          match run KL (dev_mmap dev (VmArea a (a + round_up len) (off / LPAGE_SIZE) prot None None)) (us_lx u) with
          | (Done (ret, vma), lx) =>
              if ret =? 0 then
                (USys lx (us_fds u) (us_maps u ++ [UMap a (round_up len) (has flags MAP_PRIVATE) vma ∅]), a)
              else (with_lx lx u, ret)
          | (_, lx) => (with_lx lx u, - EIO)
          end
      end
  end.

(** The whole mappings that start at [a]. *)
Definition sys_munmap (a : Z) (u : usys) : usys :=
  USys (us_lx u) (us_fds u) (filter (fun m => um_start m <> a) (us_maps u)).

Definition sys_step (c : op) (u : usys) : usys * ans c :=
  match c return usys * ans c with
  | Open path _ => sys_open path u
  | Filec (Ioctl fd request) => sys_ioctl fd request u
  | Mmap _ len prot flags fd off => sys_mmap len prot flags fd off u
  | Munmap a _ => (sys_munmap a u, 0)
  | Close fd => (USys (us_lx u) (delete fd (us_fds u)) (us_maps u), 0)
  | Load a => access a PROT_READ None u
  | Store a b =>
      let '(u', r) := access a PROT_WRITE (Some b) u in (u', match r with inl _ => inl tt | inr n => inr n end)
  | c => (u, enosys c)
  end.
Definition sys : kernel := Kernel usys sys_step.
End Sys.

(** ** The module's functions on Linux memory *)

Section Module.
Context `{LL : LinuxLaws} (ident : option string) (KL : kernel) {LM : LinuxMem KL}.
Implicit Types lx : world KL.

(** Membership in a range, decided. *)
Lemma in_range_cases {A} a lo len (x y z : A) :
  (lo <= a < lo + len -> x = z) -> (~ (lo <= a < lo + len) -> y = z) -> (if in_range a lo len then x else y) = z.
Proof. intros H1 H2. destruct (in_range a lo len) eqn:E; [apply H1|apply H2]; rewrite <- in_range_true; congruence. Qed.

Definition mem_of lx (x : Z) : Z := lmem (w_k lx) x.

Lemma run_memset a ch n : forall lx, exists lx', run KL (memset_from a ch n) lx = (Done tt, lx') /\
  forall x, mem_of lx' x = if in_range x a (Z.of_nat n) then u8 ch else mem_of lx x.
Proof.
  revert a. induction n as [|n IH]; intros a [pr s]; cbn [memset_from].
  { exists (World pr s). split; [reflexivity|]. intros x. symmetry. apply in_range_cases; [lia|reflexivity]. }
  destruct (lm_store s a (u8 ch)) as (s1 & E & M). destruct (IH (a + 1) (World pr s1)) as (lx' & R & M').
  exists lx'. split; [cbn; rewrite E; exact R|]. intros x. rewrite M'. unfold mem_of. cbn [w_k].
  apply in_range_cases; intros Hx; [|rewrite M; destruct (Z.eqb_spec x a)]; symmetry; apply in_range_cases; intros; try reflexivity; lia.
Qed.

Context (buf : Z) (Hbuf : 0 < buf) (Hend : buf + test_mck_mmap_dev2_buf_size <= 2 ^ 64).

Lemma run_reset_from n : forall k lx, 0 <= k <= buf_pages -> buf_pages - k < Z.of_nat n ->
  exists lx', run KL (buffer_reset_from n buf (k * LPAGE_SIZE) (k + 1)) lx = (Done tt, lx') /\
    forall x, mem_of lx' x = if in_range x (buf + k * LPAGE_SIZE) ((buf_pages - k) * LPAGE_SIZE)
                             then reset_byte (x - buf) else mem_of lx x.
Proof.
  pose proof page_size_bounds as HP. rewrite buf_size_pages in Hend.
  induction n as [|n IH]; intros k lx Hk Hn; [lia|]. cbn [buffer_reset_from]. rewrite buf_size_pages.
  destruct (Z.ltb_spec (k * LPAGE_SIZE) (buf_pages * LPAGE_SIZE)) as [Hlt|Hge].
  2: { exists lx. split; [reflexivity|]. intros x. symmetry. apply in_range_cases; [nia|reflexivity]. }
  assert (k < buf_pages) as Hk' by nia.
  replace (if k * LPAGE_SIZE + LPAGE_SIZE <? buf_pages * LPAGE_SIZE then LPAGE_SIZE
           else buf_pages * LPAGE_SIZE - k * LPAGE_SIZE) with LPAGE_SIZE
    by (destruct (Z.ltb_spec (k * LPAGE_SIZE + LPAGE_SIZE) (buf_pages * LPAGE_SIZE)); nia).
  rewrite u64_small by nia.
  destruct (run_memset (buf + k * LPAGE_SIZE) (k + 1) (Z.to_nat LPAGE_SIZE) lx) as (lx1 & R1 & M1).
  replace (k * LPAGE_SIZE + LPAGE_SIZE) with ((k + 1) * LPAGE_SIZE) by ring.
  destruct (IH (k + 1) lx1 ltac:(lia) ltac:(lia)) as (lx' & R' & M').
  exists lx'. rewrite run_bind. unfold memset. rewrite R1. split; [exact R'|]. intros x. rewrite M', M1, Z2Nat.id by lia.
  apply in_range_cases; intros Hx; [|apply in_range_cases; intros Hy]; symmetry; apply in_range_cases; intros Hz;
    try reflexivity; try nia.
  unfold reset_byte. f_equal. f_equal. symmetry. apply Z.div_unique with (x - buf - k * LPAGE_SIZE); nia.
Qed.

Lemma run_reset lx : exists lx', run KL (test_mck_mmap_dev2_buffer_reset buf) lx = (Done tt, lx') /\
  forall off, 0 <= off < test_mck_mmap_dev2_buf_size -> mem_of lx' (buf + off) = reset_byte off.
Proof.
  pose proof page_size_bounds as HP. pose proof buf_pages_bounds as HB. unfold test_mck_mmap_dev2_buffer_reset.
  destruct (run_reset_from (S (Z.to_nat (test_mck_mmap_dev2_buf_size / LPAGE_SIZE))) 0 lx) as (lx' & R & M);
    [lia|rewrite buf_size_pages, Z.div_mul by lia; lia|].
  exists lx'. split; [exact R|]. intros off Ho. rewrite M. rewrite buf_size_pages in Ho.
  apply in_range_cases; intros Hx; [f_equal|]; lia.
Qed.

(** A request other than the reset leaves the memory alone. *)
Lemma run_ioctl request lx : exists lx', run KL (test_mck_mmap_dev2_ioctl ident buf request 0) lx = (Done 0, lx') /\
  forall off, 0 <= off < test_mck_mmap_dev2_buf_size ->
    mem_of lx' (buf + off) = if request =? TEST_MCK_MMAP_DEV2_BUF_RESET then reset_byte off else mem_of lx (buf + off).
Proof.
  unfold test_mck_mmap_dev2_ioctl, mck_printk. cbn [bind printf run]. destruct (request =? TEST_MCK_MMAP_DEV2_BUF_RESET).
  - rewrite run_bind. match goal with |- context [run KL _ ?w] => destruct (run_reset w) as (lx' & R & M) end.
    exists lx'. rewrite R. auto.
  - eexists. split; [reflexivity|]. reflexivity.
Qed.

Lemma shiftl_page pg : Z.shiftl pg LPAGE_SHIFT = pg * LPAGE_SIZE.
Proof. pose proof page_shift_range. rewrite page_size_pow. apply Z.shiftl_mul_pow2. lia. Qed.

Lemma run_fault_inside pg lx : buf mod LPAGE_SIZE = 0 -> 0 <= pg < buf_pages ->
  exists lx' page, run KL (test_mck_mmap_dev2_vma_fault ident buf pg) lx = (Done (0, Some page), lx') /\
    page_addr page = buf + pg * LPAGE_SIZE /\ forall x, mem_of lx' x = mem_of lx x.
Proof.
  intros Ha Hp. pose proof page_size_bounds as HP. unfold test_mck_mmap_dev2_vma_fault, mck_printk. cbn [bind printf run].
  rewrite shiftl_page. rewrite buf_size_pages in *. rewrite (u64_small (pg * _)) by nia. rewrite (proj2 (Z.eqb_neq buf 0)) by lia.
  rewrite (proj2 (Z.leb_gt _ _)) by nia. rewrite u64_small by nia. cbn [run bind call trigger w_k w_proc].
  destruct (lm_to_page (w_k lx) (buf + pg * LPAGE_SIZE)) as (s1 & page & E1 & A & M1).
  { rewrite Z.mod_add by lia. exact Ha. }
  destruct (lm_get_page s1 page) as (s2 & r & E2 & M2). rewrite E1. cbn [run bind call trigger w_k w_proc]. rewrite E2.
  eexists _, page. split; [reflexivity|]. split; [exact A|]. intros x. unfold mem_of. cbn [w_k]. now rewrite M2, M1.
Qed.

Lemma run_fault_outside pg lx : buf_pages <= pg -> pg * LPAGE_SIZE < 2 ^ 64 ->
  exists lx', run KL (test_mck_mmap_dev2_vma_fault ident buf pg) lx = (Done (- Driver.EFAULT, None), lx').
Proof.
  intros Hp Hw. pose proof page_size_bounds as HP. pose proof buf_pages_bounds. unfold test_mck_mmap_dev2_vma_fault, mck_printk.
  cbn [bind printf run]. rewrite shiftl_page, buf_size_pages. rewrite (u64_small (pg * _)) by nia.
  rewrite (proj2 (Z.eqb_neq buf 0)) by lia. rewrite (proj2 (Z.leb_le _ _)) by nia. eexists. reflexivity.
Qed.
End Module.

(** ** What the mappings of a process show *)

Section View.
Context `{LL : LinuxLaws} (ident : option string) (KL : kernel) {LM : LinuxMem KL}.
Context (buf2 bufwc : Z) (place : list (Z * Z) -> Z -> option Z).
Context (Hbuf : 0 < buf2) (Hend : buf2 + test_mck_mmap_dev2_buf_size <= 2 ^ 64) (Halign : buf2 mod LPAGE_SIZE = 0).
Implicit Types (u : usys KL) (m : umap) (lx : world KL) (c : Z -> Z).

Abbreviation mem := (mem_of KL).
Abbreviation inside off := (0 <= off < test_mck_mmap_dev2_buf_size).

(** The byte of the device's buffer a mapping shows at an offset. *)
Definition content lx m (off : Z) : Z :=
  match um_pt m !! (off / LPAGE_SIZE) with
  | Some (Copy bytes) => bytes (off mod LPAGE_SIZE)
  | _ => mem lx (buf2 + off)
  end.

Definition pte_ok (private : bool) (pg : Z) (e : pte) : Prop :=
  0 <= pg < buf_pages /\
  match e with Frame page => page_addr page = buf2 + pg * LPAGE_SIZE | Copy _ => private = true end.

(** A mapping of the device [mmap_dev2] for reading and writing. *)
Record map_ok m : Prop := MapOk {
  mo_ops : vm_ops (um_vma m) = Some mmap_dev2_vm_ops;
  mo_off : vm_pgoff (um_vma m) = 0;
  mo_prot : vm_page_prot (um_vma m) = Z.lor PROT_READ PROT_WRITE;
  mo_len : um_len m <= 2 ^ 63;
  mo_pt : forall pg e, um_pt m !! pg = Some e -> pte_ok (um_private m) pg e;
}.

Definition shape m : Z * Z * bool := (um_start m, um_len m, um_private m).
Definition all_shared (l : list (Z * Z * bool)) : Prop := Forall (fun '(_, _, private) => private = false) l.

(** The process has the mappings [l], which all show the bytes [c]; without
    private mappings these are the bytes of the device. *)
Record shows u (l : list (Z * Z * bool)) c : Prop := Shows {
  sh_shape : map shape (us_maps KL u) = l;
  sh_ok : Forall map_ok (us_maps KL u);
  sh_seen : Forall (fun m => forall off, inside off -> content (us_lx KL u) m off = c off) (us_maps KL u);
  sh_mem : all_shared l -> forall off, inside off -> mem (us_lx KL u) (buf2 + off) = c off;
}.

Lemma page_pos : 0 < LPAGE_SIZE.
Proof. pose proof page_size_bounds. lia. Qed.

Lemma inside_page off : inside off -> 0 <= off / LPAGE_SIZE < buf_pages.
Proof.
  pose proof page_pos. rewrite buf_size_pages. intros Ho. split; [apply Z.div_pos; lia|].
  apply Z.div_lt_upper_bound; lia.
Qed.

(** Where a page's byte stands. *)
Lemma page_split off : off / LPAGE_SIZE * LPAGE_SIZE + off mod LPAGE_SIZE = off.
Proof. pose proof page_pos. rewrite (Z.div_mod off LPAGE_SIZE) at 3 by lia. ring. Qed.

Lemma page_join pg o : 0 <= o < LPAGE_SIZE ->
  (pg * LPAGE_SIZE + o) / LPAGE_SIZE = pg /\ (pg * LPAGE_SIZE + o) mod LPAGE_SIZE = o.
Proof.
  intros Ho. rewrite Z.add_comm, Z.div_add, Z.mod_add by lia. rewrite Z.div_small, Z.mod_small by lia. lia.
Qed.

Lemma shared_content lx m off : map_ok m -> um_private m = false -> content lx m off = mem lx (buf2 + off).
Proof.
  intros Hm Hp. unfold content. destruct (um_pt m !! _) as [[page|bytes]|] eqn:E; try reflexivity.
  destruct (mo_pt m Hm _ _ E) as [_ H']. congruence.
Qed.

(** The entry of a page inside the buffer. *)
Lemma entry_inside u m pg : map_ok m -> 0 <= pg < buf_pages ->
  exists lx e, page_entry ident KL buf2 bufwc u m pg = (lx, Some e) /\ pte_ok (um_private m) pg e /\
    (forall x, mem lx x = mem (us_lx KL u) x) /\
    (um_pt m !! pg = Some e \/ um_pt m !! pg = None /\ exists page, e = Frame page).
Proof.
  intros Hm Hp. unfold page_entry. destruct (um_pt m !! pg) as [e|] eqn:E.
  - exists (us_lx KL u), e. split; [reflexivity|]. split; [exact (mo_pt m Hm _ _ E)|auto].
  - unfold dev_fault. rewrite (mo_ops m Hm), (mo_off m Hm), Z.add_0_l.
    destruct (run_fault_inside ident KL buf2 Hbuf Hend pg (us_lx KL u) Halign Hp) as (lx & page & R & A & M).
    rewrite R. exists lx, (Frame page). split; [reflexivity|]. split; [now split|]. split; [exact M|eauto].
Qed.

Lemma map_ok_with_pte m pg e : map_ok m -> pte_ok (um_private m) pg e -> map_ok (with_pte pg e m).
Proof.
  intros [] He. split; cbn; auto. intros pg' e' H'. apply lookup_insert_Some in H' as [[<- <-]|[_ H']]; auto.
Qed.

(** An entry that was there, or that of the page just asked for, changes nothing. *)
Lemma content_with_entry lx lx' m pg e off :
  (forall x, mem lx' x = mem lx x) -> um_pt m !! pg = Some e \/ um_pt m !! pg = None /\ (exists page, e = Frame page) ->
  content lx' (with_pte pg e m) off = content lx m off.
Proof.
  intros M He. unfold content, with_pte. cbn. destruct (decide (pg = off / LPAGE_SIZE)) as [<-|Hne].
  - rewrite lookup_insert_eq. destruct He as [->|[-> [page ->]]]; [destruct e|]; rewrite ?M; reflexivity.
  - rewrite lookup_insert_ne by auto. destruct (um_pt m !! (off / LPAGE_SIZE)) as [[page|bytes]|]; rewrite ?M; reflexivity.
Qed.

(** The byte of an entry. *)
Lemma page_byte_content lx m pg e o :
  pte_ok (um_private m) pg e -> um_pt m !! pg = Some e -> 0 <= o < LPAGE_SIZE ->
  page_byte KL lx e o = content lx m (pg * LPAGE_SIZE + o).
Proof.
  intros [_ He] E Ho. unfold content. destruct (page_join pg o Ho) as [-> ->]. rewrite E.
  destruct e as [page|bytes]; [|reflexivity]. cbn. rewrite He. unfold mem_of. f_equal. ring.
Qed.

Lemma find_map_lookup a ms i m : find_map a ms = Some (i, m) -> ms !! i = Some m /\ um_start m <= a < um_start m + um_len m.
Proof.
  revert i. induction ms as [|m0 ms IH]; intros i; cbn [find_map]; [discriminate|].
  destruct (in_range a (um_start m0) (um_len m0)) eqn:E.
  - intros [= <- <-]. split; [reflexivity|now apply in_range_true].
  - destruct (find_map a ms) as [[j m']|]; [|discriminate]. intros [= <- <-]. now apply IH.
Qed.

Definition upd c (off b : Z) : Z -> Z := fun x => if x =? off then b else c x.
Definition written (write : option Z) (off : Z) c : Z -> Z := match write with Some b => upd c off b | None => c end.

(** One mapping is replaced by one of the same shape. *)
Lemma shows_replace u l c lx i m m' c' :
  shows u l c -> us_maps KL u !! i = Some m -> shape m' = shape m -> map_ok m' ->
  (forall off, inside off -> content lx m' off = c' off) ->
  (forall j m2, j <> i -> us_maps KL u !! j = Some m2 -> forall off, inside off -> content lx m2 off = c' off) ->
  (all_shared l -> forall off, inside off -> mem lx (buf2 + off) = c' off) ->
  shows (USys KL lx (us_fds KL u) (<[i := m']> (us_maps KL u))) l c'.
Proof.
  intros [Sh Ok _ _] Hi Hs Hm Hc Ho Hmem. split; cbn; [| | |exact Hmem].
  - rewrite <- Sh. change (map shape) with (fmap (M := list) shape). rewrite list_fmap_insert, Hs.
    apply list_insert_id. now rewrite list_lookup_fmap, Hi.
  - now apply Forall_insert.
  - apply Forall_lookup. intros j m2 Hj. apply list_lookup_insert_Some in Hj as [(<- & <- & _)|[Hne Hj]]; [exact Hc|].
    apply (Ho j); auto.
Qed.

Definition coherent (l : list (Z * Z * bool)) : Prop := all_shared l \/ List.length l = 1%nat.

Lemma only_map u l c i m : shows u l c -> us_maps KL u !! i = Some m -> List.length l = 1%nat -> us_maps KL u = [m] /\ i = 0%nat.
Proof.
  intros [<- _ _ _] Hi Hl. rewrite length_map in Hl. destruct (us_maps KL u) as [|m0 [|]]; try discriminate.
  destruct i as [|[|]]; cbn in Hi; [|discriminate|discriminate]. split; congruence.
Qed.

Lemma mem_of_stored lx page o b x :
  mem (World (w_proc lx) (fst (kstep KL (Store (page_addr page + o) b) (w_k lx)))) x =
  if x =? page_addr page + o then b else mem lx x.
Proof. destruct (lm_store (w_k lx) (page_addr page + o) b) as (s' & E & M). unfold mem_of. cbn [w_k]. rewrite E. apply M. Qed.

Lemma has_rw need : need = PROT_READ \/ need = PROT_WRITE -> has (Z.lor PROT_READ PROT_WRITE) need = true.
Proof. now intros [-> | ->]. Qed.

Lemma not_all_shared u l c i m : shows u l c -> us_maps KL u !! i = Some m -> um_private m = true -> ~ all_shared l.
Proof.
  intros [<- _ _ _] Hi Hp Ha. unfold all_shared in Ha. rewrite Forall_map, Forall_lookup in Ha. specialize (Ha _ _ Hi).
  cbn in Ha. congruence.
Qed.

Lemma shared_all u l c i m : shows u l c -> us_maps KL u !! i = Some m -> um_private m = false -> coherent l -> all_shared l.
Proof.
  intros Hs Hi Hp [Ha|Hl]; [exact Ha|]. destruct (only_map _ _ _ _ _ Hs Hi Hl) as [E _].
  rewrite <- (sh_shape _ _ _ Hs), E. repeat constructor. exact Hp.
Qed.

Lemma same_place off x : x / LPAGE_SIZE = off / LPAGE_SIZE -> x mod LPAGE_SIZE = off mod LPAGE_SIZE -> x = off.
Proof. intros H1 H2. rewrite <- (page_split x), <- (page_split off). congruence. Qed.

(** A store to a private mapping, the only one. *)
Lemma shows_copied u l c lx i m off b bytes :
  shows u l c -> us_maps KL u !! i = Some m -> um_private m = true -> coherent l -> inside off ->
  (forall o, 0 <= o < LPAGE_SIZE -> bytes o = c (off / LPAGE_SIZE * LPAGE_SIZE + o)) ->
  (forall x, mem lx x = mem (us_lx KL u) x) ->
  shows (USys KL lx (us_fds KL u) (<[i := with_pte (off / LPAGE_SIZE)
    (Copy (fun x => if x =? off mod LPAGE_SIZE then b else bytes x)) m]> (us_maps KL u))) l (upd c off b).
Proof.
  intros Hs Hi Hp Hco Ho Hb M. pose proof (not_all_shared _ _ _ _ _ Hs Hi Hp) as Hna.
  destruct Hco as [Ha|Hl]; [contradiction|]. destruct (only_map _ _ _ _ _ Hs Hi Hl) as [E ->].
  pose proof (sh_ok _ _ _ Hs) as Hok. pose proof (sh_seen _ _ _ Hs) as Hseen. rewrite E in Hok, Hseen.
  rewrite Forall_singleton in Hok, Hseen. eapply shows_replace; eauto.
  - apply map_ok_with_pte; [exact Hok|]. split; [now apply inside_page|exact Hp].
  - intros x Hx. unfold content, upd. cbn. destruct (decide (off / LPAGE_SIZE = x / LPAGE_SIZE)) as [Hpg|Hne].
    + rewrite Hpg, lookup_insert_eq. destruct (Z.eqb_spec (x mod LPAGE_SIZE) (off mod LPAGE_SIZE)) as [Ho2|Ho2].
      * rewrite (same_place off x (eq_sym Hpg) Ho2), Z.eqb_refl. reflexivity.
      * rewrite Hb by apply Z.mod_pos_bound, page_pos. rewrite Hpg, page_split.
        destruct (Z.eqb_spec x off) as [->|]; [contradiction|reflexivity].
    + rewrite lookup_insert_ne by exact Hne. specialize (Hseen x Hx). unfold content in Hseen. rewrite <- Hseen.
      destruct (Z.eqb_spec x off) as [->|]; [contradiction|]. destruct (um_pt m !! (x / LPAGE_SIZE)) as [[page|bs]|]; rewrite ?M; reflexivity.
  - intros j m2 Hj H2. rewrite E in H2. destruct j as [|[|]]; [contradiction|discriminate|discriminate].
  - contradiction.
Qed.

(** A store to a shared mapping goes to the device. *)
Lemma shows_stored u l c lx lx' i m page off b :
  shows u l c -> us_maps KL u !! i = Some m -> um_private m = false -> coherent l -> inside off ->
  page_addr page = buf2 + off / LPAGE_SIZE * LPAGE_SIZE ->
  (forall x, mem lx x = mem (us_lx KL u) x) ->
  (forall x, mem lx' x = if x =? page_addr page + off mod LPAGE_SIZE then b else mem lx x) ->
  shows (USys KL lx' (us_fds KL u) (<[i := with_pte (off / LPAGE_SIZE) (Frame page) m]> (us_maps KL u))) l (upd c off b).
Proof.
  intros Hs Hi Hp Hco Ho Hpage M M'. pose proof (shared_all _ _ _ _ _ Hs Hi Hp Hco) as Ha.
  pose proof (sh_ok _ _ _ Hs) as Hok. rewrite Forall_lookup in Hok.
  assert (Hmem : forall x, inside x -> mem lx' (buf2 + x) = upd c off b x).
  { intros x Hx. rewrite M', Hpage, <- Z.add_assoc, page_split, M, (sh_mem _ _ _ Hs Ha x Hx). unfold upd.
    destruct (Z.eqb_spec x off) as [->|]; [now rewrite Z.eqb_refl|]. now rewrite (proj2 (Z.eqb_neq _ _)) by lia. }
  eapply shows_replace; eauto.
  - apply map_ok_with_pte; [eauto|]. split; [now apply inside_page|exact Hpage].
  - intros x Hx. rewrite shared_content; [auto| |exact Hp]. apply map_ok_with_pte; [eauto|].
    split; [now apply inside_page|exact Hpage].
  - intros j m2 _ Hj x Hx. rewrite shared_content; [auto|eauto|].
    unfold all_shared in Ha. rewrite <- (sh_shape _ _ _ Hs), Forall_map, Forall_lookup in Ha. exact (Ha _ _ Hj).
Qed.

(** An access inside the buffer shows the byte, and a store changes it for every mapping. *)
Lemma access_inside u l c i m a need write :
  shows u l c -> find_map a (us_maps KL u) = Some (i, m) -> inside (a - um_start m) ->
  need = PROT_READ \/ need = PROT_WRITE -> write = None \/ coherent l ->
  exists u', access ident KL buf2 bufwc a need write u = (u', inl (c (a - um_start m))) /\
    us_fds KL u' = us_fds KL u /\ shows u' l (written write (a - um_start m) c).
Proof.
  intros Hs Hf Ho Hn Hw. unfold access. rewrite Hf. destruct (find_map_lookup _ _ _ _ Hf) as [Hi Hr].
  pose proof (sh_ok _ _ _ Hs) as Hok. rewrite Forall_lookup in Hok. pose proof (Hok _ _ Hi) as Hm.
  pose proof (sh_seen _ _ _ Hs) as Hseen. rewrite Forall_lookup in Hseen.
  rewrite (mo_prot m Hm), (has_rw _ Hn). cbn [negb]. set (off := a - um_start m) in *.
  destruct (entry_inside u m (off / LPAGE_SIZE) Hm (inside_page _ Ho)) as (lx & e & -> & He & M & Hpt).
  assert (Ho' : 0 <= off mod LPAGE_SIZE < LPAGE_SIZE) by (apply Z.mod_pos_bound, page_pos).
  assert (Hm' : map_ok (with_pte (off / LPAGE_SIZE) e m)) by now apply map_ok_with_pte.
  assert (Hbyte : forall o, 0 <= o < LPAGE_SIZE -> page_byte KL lx e o = content (us_lx KL u) m (off / LPAGE_SIZE * LPAGE_SIZE + o)).
  { intros o Hlt. rewrite <- (content_with_entry (us_lx KL u) lx m (off / LPAGE_SIZE) e _ M Hpt).
    apply page_byte_content; cbn; [exact He|apply lookup_insert_eq|exact Hlt]. }
  rewrite Hbyte, page_split, (Hseen _ _ Hi _ Ho) by exact Ho'.
  destruct write as [b|]; cbn [written].
  2: { eexists. split; [reflexivity|]. split; [reflexivity|]. eapply shows_replace; eauto.
       - intros x Hx. rewrite (content_with_entry (us_lx KL u) lx m _ e x M Hpt). eauto.
       - intros j m2 _ Hj x Hx. rewrite <- (Hseen _ _ Hj _ Hx). unfold content. destruct (um_pt m2 !! _) as [[]|]; auto.
       - intros Hsh x Hx. rewrite M. apply (sh_mem _ _ _ Hs); auto. }
  destruct Hw as [Hw|Hco]; [discriminate|].
  assert (Hb : forall o, 0 <= o < LPAGE_SIZE -> page_byte KL lx e o = c (off / LPAGE_SIZE * LPAGE_SIZE + o)).
  { intros o Hlt. rewrite Hbyte by exact Hlt. apply (Hseen _ _ Hi).
    pose proof (inside_page _ Ho). rewrite buf_size_pages. nia. }
  destruct e as [page|bytes]; cbn [store_entry]; [destruct (um_private m) eqn:Ep|].
  - eexists. split; [reflexivity|]. split; [reflexivity|]. eapply (shows_copied _ _ _ lx); eauto.
  - eexists. split; [reflexivity|]. split; [reflexivity|].
    eapply (shows_stored _ _ _ lx); eauto; [exact (proj2 He)|apply mem_of_stored].
  - eexists. split; [reflexivity|]. split; [reflexivity|]. eapply (shows_copied _ _ _ lx); eauto. exact (proj2 He).
Qed.

(** Beyond the buffer the device refuses, and the process gets [SIGBUS]. *)
Lemma access_outside u l c i m a need write :
  shows u l c -> find_map a (us_maps KL u) = Some (i, m) -> buf_pages <= (a - um_start m) / LPAGE_SIZE ->
  need = PROT_READ \/ need = PROT_WRITE ->
  exists u', access ident KL buf2 bufwc a need write u = (u', inr SIGBUS).
Proof.
  intros Hs Hf Ho Hn. unfold access. rewrite Hf. destruct (find_map_lookup _ _ _ _ Hf) as [Hi Hr].
  pose proof (sh_ok _ _ _ Hs) as Hok. rewrite Forall_lookup in Hok. pose proof (Hok _ _ Hi) as Hm.
  rewrite (mo_prot m Hm), (has_rw _ Hn). cbn [negb]. set (pg := (a - um_start m) / LPAGE_SIZE) in *.
  unfold page_entry. destruct (um_pt m !! pg) as [e|] eqn:E.
  { destruct (mo_pt m Hm _ _ E) as [Hp _]. lia. }
  unfold dev_fault. rewrite (mo_ops m Hm), (mo_off m Hm), Z.add_0_l. pose proof (mo_len m Hm). pose proof page_pos.
  destruct (run_fault_outside ident KL buf2 Hbuf pg (us_lx KL u) Ho) as [lx R].
  { pose proof (Z.mul_div_le (a - um_start m) LPAGE_SIZE). unfold pg. nia. }
  rewrite R. eauto.
Qed.

Lemma shows_ext u l c c' : (forall off, inside off -> c off = c' off) -> shows u l c -> shows u l c'.
Proof.
  intros E [H1 H2 H3 H4]. split; auto.
  - eapply Forall_impl; [exact H3|]. intros m Hm off Ho. rewrite <- E by exact Ho. auto.
  - intros Ha off Ho. rewrite <- E by exact Ho. auto.
Qed.

(** The mapping an address lies in, by the shapes. *)
Fixpoint find_range (a : Z) (l : list (Z * Z * bool)) : option Z :=
  match l with
  | [] => None
  | (s, len, _) :: l' => if in_range a s len then Some s else find_range a l'
  end.

Lemma find_range_map ms a s : find_range a (map shape ms) = Some s ->
  exists i m, find_map a ms = Some (i, m) /\ um_start m = s.
Proof.
  induction ms as [|m ms IH]; cbn [map shape find_range find_map]; [discriminate|].
  destruct (in_range a (um_start m) (um_len m)); [intros [= <-]; eauto|].
  intros H'. destruct (IH H') as (i & m' & -> & E). eauto.
Qed.

Definition maps_at (l : list (Z * Z * bool)) (s len : Z) : Prop := forall a, s <= a < s + len -> find_range a l = Some s.

(** ** Runs of the tests' loops *)

Abbreviation K := (sys ident KL buf2 bufwc place).
Abbreviation state pr u := (@World K pr u).

Lemma run_bind_deliver {A B} (p : prog A) (k : A -> prog B) n pr w w' :
  run K p w = (deliver n pr, w') -> run K (bind p k) w = (deliver n pr, w').
Proof. intros E. rewrite run_bind, E. unfold deliver. destruct (p_sigs pr n) as [[]|]; reflexivity. Qed.

Section Loops.
Context (l : list (Z * Z * bool)) (s len : Z) (Hat : maps_at l s len).

Lemma load_inside u c off pr : shows u l c -> 0 <= off < len -> inside off ->
  exists u', run K (load (s + off)) (state pr u) = (Done (c off), state pr u') /\
    us_fds KL u' = us_fds KL u /\ shows u' l c.
Proof.
  intros Hs Hl Ho. pose proof (Hat (s + off) ltac:(lia)) as Hr. rewrite <- (sh_shape _ _ _ Hs) in Hr.
  destruct (find_range_map _ _ _ Hr) as (i & m & Hf & Es). replace off with (s + off - um_start m) in Ho |- * by lia.
  destruct (access_inside u l c i m _ PROT_READ None Hs Hf Ho (or_introl eq_refl) (or_introl eq_refl)) as (u' & E & Ef & Hs').
  replace (s + (s + off - um_start m)) with (s + off) by lia.
  exists u'. split; [|now split]. cbn. rewrite E. reflexivity.
Qed.

Lemma store_inside u c off b pr : shows u l c -> coherent l -> 0 <= off < len -> inside off ->
  exists u', run K (store (s + off) b) (state pr u) = (Done tt, state pr u') /\
    us_fds KL u' = us_fds KL u /\ shows u' l (upd c off b).
Proof.
  intros Hs Hco Hl Ho. pose proof (Hat (s + off) ltac:(lia)) as Hr. rewrite <- (sh_shape _ _ _ Hs) in Hr.
  destruct (find_range_map _ _ _ Hr) as (i & m & Hf & Es). replace off with (s + off - um_start m) in Ho |- * by lia.
  destruct (access_inside u l c i m _ PROT_WRITE (Some b) Hs Hf Ho (or_intror eq_refl) (or_intror Hco)) as (u' & E & Ef & Hs').
  replace (s + (s + off - um_start m)) with (s + off) by lia.
  exists u'. split; [|now split]. cbn. rewrite E. reflexivity.
Qed.

Lemma store_outside u c off b pr : shows u l c -> 0 <= off < len -> buf_pages <= off / LPAGE_SIZE ->
  exists u', run K (store (s + off) b) (state pr u) = (deliver SIGBUS pr, state pr u').
Proof.
  intros Hs Hl Ho. pose proof (Hat (s + off) ltac:(lia)) as Hr. rewrite <- (sh_shape _ _ _ Hs) in Hr.
  destruct (find_range_map _ _ _ Hr) as (i & m & Hf & Es). replace off with (s + off - um_start m) in Ho by lia.
  destruct (access_outside u l c i m _ PROT_WRITE (Some b) Hs Hf Ho (or_intror eq_refl)) as (u' & E).
  exists u'. cbn. rewrite E. reflexivity.
Qed.

Context `{AC : ArchConfig} (HPS : PAGE_SIZE = LPAGE_SIZE).

(** The first byte of the pages from [k] on is ['Z']. *)
Definition lettered (k n : Z) c : Z -> Z := fun x =>
  if (x mod LPAGE_SIZE =? 0) && in_range (x / LPAGE_SIZE) k n then letter_Z else c x.

Lemma lettered_step k n c x : 0 <= n ->
  lettered (k + 1) n (upd c (k * LPAGE_SIZE) letter_Z) x = lettered k (1 + n) c x.
Proof.
  intros Hn. unfold lettered, upd. pose proof page_pos. destruct (Z.eqb_spec x (k * LPAGE_SIZE)) as [->|Hx].
  - rewrite Z.mod_mul, Z.div_mul by lia. cbn [Z.eqb andb]. rewrite (proj2 (in_range_true k k _)) by lia. now case_if.
  - destruct (Z.eqb_spec (x mod LPAGE_SIZE) 0) as [E|]; [|reflexivity]. cbn [andb].
    assert (x / LPAGE_SIZE <> k) by (intros <-; apply Hx; pose proof (page_split x); lia).
    apply in_range_cases; intros Hr; symmetry; apply in_range_cases; intros; try reflexivity; lia.
Qed.

Lemma next_page k : s + (k + 1) * LPAGE_SIZE = s + k * LPAGE_SIZE + LPAGE_SIZE.
Proof. ring. Qed.

Lemma page_in k n : 0 <= k -> 0 < n -> (k + n) * LPAGE_SIZE <= len -> 0 <= k * LPAGE_SIZE < len.
Proof. pose proof page_pos. nia. Qed.

Lemma inside_start k : 0 <= k < buf_pages -> inside (k * LPAGE_SIZE).
Proof. pose proof page_pos. rewrite buf_size_pages. nia. Qed.

Lemma access_pages_inside n : forall k u c pr, shows u l c -> coherent l -> 0 <= k ->
  (k + Z.of_nat n) * LPAGE_SIZE <= len -> k + Z.of_nat n <= buf_pages ->
  exists u', run K (access_pages n (s + k * LPAGE_SIZE)) (state pr u) = (Done tt, state pr u') /\
    us_fds KL u' = us_fds KL u /\ shows u' l (lettered k (Z.of_nat n) c).
Proof.
  pose proof page_pos. induction n as [|n IH]; intros k u c pr Hs Hco Hk Hl Hb.
  - exists u. split; [reflexivity|]. split; [reflexivity|]. apply (shows_ext _ _ c); [|exact Hs]. intros x _. unfold lettered.
    destruct (x mod LPAGE_SIZE =? 0); [|reflexivity]. symmetry. apply in_range_cases; [lia|reflexivity].
  - destruct (store_inside u c (k * LPAGE_SIZE) letter_Z pr Hs Hco (page_in k (Z.of_nat (S n)) ltac:(lia) ltac:(lia) Hl) (inside_start k ltac:(lia))) as (u1 & R1 & F1 & S1).
    destruct (IH (k + 1) u1 _ pr S1 Hco ltac:(lia) ltac:(lia) ltac:(lia)) as (u' & R & F & S').
    exists u'. split; [|split; [congruence|]].
    + cbn [access_pages]. rewrite run_bind, R1, HPS, <- next_page. exact R.
    + eapply shows_ext; [|exact S']. intros x _. rewrite lettered_step by lia. f_equal. lia.
Qed.

Lemma access_pages_beyond n : forall k u c pr, shows u l c -> coherent l -> 0 <= k <= buf_pages ->
  (k + Z.of_nat n) * LPAGE_SIZE <= len -> buf_pages < k + Z.of_nat n ->
  exists u', run K (access_pages n (s + k * LPAGE_SIZE)) (state pr u) = (deliver SIGBUS pr, state pr u').
Proof.
  pose proof page_pos. induction n as [|n IH]; intros k u c pr Hs Hco Hk Hl Hb; [lia|]. cbn [access_pages].
  destruct (Z.eq_dec k buf_pages) as [Heq|Hne].
  - destruct (store_outside u c (k * LPAGE_SIZE) letter_Z pr Hs (page_in k (Z.of_nat (S n)) ltac:(lia) ltac:(lia) Hl)) as [u' R]; [rewrite Z.div_mul; lia|].
    exists u'. now apply run_bind_deliver.
  - destruct (store_inside u c (k * LPAGE_SIZE) letter_Z pr Hs Hco (page_in k (Z.of_nat (S n)) ltac:(lia) ltac:(lia) Hl) (inside_start k ltac:(lia))) as (u1 & R1 & F1 & S1).
    destruct (IH (k + 1) u1 _ pr S1 Hco ltac:(lia) ltac:(lia) ltac:(lia)) as (u' & R).
    exists u'. rewrite run_bind, R1, HPS, <- next_page. exact R.
Qed.

Lemma memcmp_equal bs : forall off u c pr, shows u l c -> 0 <= off -> off + Z.of_nat (List.length bs) <= len ->
  off + Z.of_nat (List.length bs) <= test_mck_mmap_dev2_buf_size ->
  (forall j b, bs !! j = Some b -> c (off + Z.of_nat j) = b) ->
  exists u', run K (memcmp (s + off) bs) (state pr u) = (Done 0, state pr u') /\
    us_fds KL u' = us_fds KL u /\ shows u' l c.
Proof.
  induction bs as [|b bs IH]; intros off u c pr Hs Ho Hl Hb Hc; cbn [List.length] in *.
  - exists u. auto.
  - destruct (load_inside u c off pr Hs ltac:(lia) ltac:(lia)) as (u1 & R1 & F1 & S1).
    destruct (IH (off + 1) u1 c pr S1 ltac:(lia) ltac:(lia) ltac:(lia)) as (u' & R & F & S').
    { intros j b' Hj. rewrite <- (Hc (S j) b' Hj). f_equal. lia. }
    exists u'. split; [|split; [congruence|exact S']]. cbn [memcmp]. rewrite run_bind, R1.
    pose proof (Hc 0%nat b eq_refl) as E0. rewrite Z.add_0_r in E0. rewrite E0, Z.eqb_refl, <- Z.add_assoc. exact R.
Qed.

Lemma page_pattern_lookup val j b : page_pattern val !! j = Some b ->
  Z.of_nat j < LPAGE_SIZE /\ b = if (j =? 0)%nat then letter_Z else u8 val.
Proof.
  pose proof page_pos. unfold page_pattern. intros Hj. pose proof (lookup_lt_Some _ _ _ Hj) as Hl.
  rewrite length_insert, repeat_length, HPS in Hl. split; [lia|].
  apply list_lookup_insert_Some in Hj as [(<- & <- & _)|[Hne Hj]]; [reflexivity|].
  destruct (Nat.eqb_spec j 0); [congruence|]. apply list_elem_of_lookup_2, list_elem_of_In, repeat_spec in Hj. auto.
Qed.

(** What a test looks for: the reset buffer with a letter in each page. *)
Lemma validate_pages_equal n : forall k u c pr kont, shows u l c -> 0 <= k ->
  (k + Z.of_nat n) * LPAGE_SIZE <= len -> k + Z.of_nat n <= buf_pages ->
  (forall pg o, k <= pg < k + Z.of_nat n -> 0 <= o < LPAGE_SIZE -> c (pg * LPAGE_SIZE + o) = if o =? 0 then letter_Z else u8 (pg + 1)) ->
  exists u', run K (validate_pages n (s + k * LPAGE_SIZE) (k + 1) kont) (state pr u) = run K kont (state pr u') /\
    us_fds KL u' = us_fds KL u /\ shows u' l c.
Proof.
  pose proof page_pos. induction n as [|n IH]; intros k u c pr kont Hs Hk Hl Hb Hc; cbn [validate_pages]; [eauto|].
  assert (Hlen : Z.of_nat (List.length (page_pattern (k + 1))) = LPAGE_SIZE)
    by (unfold page_pattern; rewrite length_insert, repeat_length, HPS; lia).
  destruct (memcmp_equal (page_pattern (k + 1)) (k * LPAGE_SIZE) u c pr Hs) as (u1 & R1 & F1 & S1);
    rewrite ?Hlen, ?buf_size_pages; try nia.
  { intros j b Hj. apply page_pattern_lookup in Hj as [Hj ->]. rewrite Hc by lia.
    destruct (Nat.eqb_spec j 0); [subst; reflexivity|]. now rewrite (proj2 (Z.eqb_neq _ _)) by lia. }
  destruct (IH (k + 1) u1 c pr kont S1 ltac:(lia) ltac:(lia) ltac:(lia)) as (u' & R & F & S').
  { intros pg o Hp. apply Hc. lia. }
  exists u'. split; [|split; [congruence|exact S']]. rewrite run_bind, R1. cbn [Z.eqb tp_assert].
  rewrite <- R, HPS, next_page. reflexivity.
Qed.
End Loops.

(** ** System calls of the tests *)

(** A mapping goes to free user addresses. *)
Context (Hplace : forall l len a, place l len = Some a ->
  0 < a /\ a + len <= 2 ^ 63 /\ Forall (fun '(b, blen) => ranges_overlap a len b blen = false) l).

Definition PATH2 : string := "/dev/test_mck/mmap_dev2".

Lemma open_runs u l c pr : shows u l c -> exists u' fd, run K (open PATH2 O_RDWR) (state pr u) = (Done fd, state pr u') /\
  0 <= fd /\ us_fds KL u' !! fd = Some DEV2 /\ shows u' l c.
Proof.
  intros Hs. eexists _, (3 + Z.of_nat (size (us_fds KL u))). split; [|split; [lia|split]].
  - cbn. unfold syscall_ret. replace (is_err _) with false; [reflexivity|]. unfold is_err. symmetry.
    apply andb_false_iff. right. apply Z.ltb_ge. lia.
  - cbn. apply lookup_insert_eq.
  - destruct Hs. now split.
Qed.

Lemma ioctl_runs u l c fd request pr : shows u l c -> l = [] -> us_fds KL u !! fd = Some DEV2 ->
  exists u', run K (ioctl fd request) (state pr u) = (Done 0, state pr u') /\ us_fds KL u' = us_fds KL u /\
    shows u' l (if request =? TEST_MCK_MMAP_DEV2_BUF_RESET then reset_byte else c).
Proof.
  intros Hs -> Hf. destruct (run_ioctl ident KL buf2 Hbuf Hend request (us_lx KL u)) as (lx & R & M).
  assert (us_maps KL u = []) as Hm by (apply (map_eq_nil shape), (sh_shape _ _ _ Hs)).
  exists (USys KL lx (us_fds KL u) (us_maps KL u)). split; [|split; [reflexivity|]].
  - cbn. unfold sys_ioctl. rewrite Hf. change (dev_ioctl ident buf2 DEV2 request) with (test_mck_mmap_dev2_ioctl ident buf2 request 0).
    rewrite R. reflexivity.
  - rewrite Hm in *. split; cbn; auto. intros Ha off Ho. rewrite M by exact Ho. case_if; [reflexivity|].
    now apply (sh_mem _ _ _ Hs).
Qed.

Lemma ranges_shapes u l c : shows u l c -> ranges (us_maps KL u) = map fst l.
Proof. intros [<- _ _ _]. unfold ranges. now rewrite map_map. Qed.

Lemma mmap_runs u l c len flags fd a pr : shows u l c -> all_shared l -> us_fds KL u !! fd = Some DEV2 -> 0 <= len ->
  place (map fst l) (round_up len) = Some a ->
  exists u', run K (mmap 0 len (Z.lor PROT_READ PROT_WRITE) flags fd 0) (state pr u) = (Done a, state pr u') /\
    us_fds KL u' = us_fds KL u /\ shows u' (l ++ [(a, round_up len, has flags MAP_PRIVATE)]) c.
Proof.
  intros Hs Ha Hf Hl Hp. pose proof (Hplace _ _ _ Hp) as (Hpos & Hmax & _). eexists. split; [|split].
  - cbn. unfold sys_mmap. rewrite Hf, (ranges_shapes _ _ _ Hs), Hp. unfold dev_mmap. cbn.
    unfold syscall_ret. replace (is_err a) with false; [reflexivity|]. unfold is_err. symmetry.
    apply andb_false_iff. right. apply Z.ltb_ge. lia.
  - reflexivity.
  - destruct Hs as [Sh Ok Se Me]. split; cbn.
    + now rewrite map_app, Sh.
    + apply Forall_app. split; [exact Ok|]. apply Forall_singleton. split; cbn; try reflexivity; [lia|].
      intros pg e H'. now rewrite lookup_empty in H'.
    + apply Forall_app. split; [exact Se|]. apply Forall_singleton. intros off Ho. unfold content. cbn. rewrite lookup_empty. now apply Me.
    + intros H' off Ho. now apply Me.
Qed.

Lemma mmap_refused u l c len flags fd pr : shows u l c -> us_fds KL u !! fd = Some DEV2 ->
  place (map fst l) (round_up len) = None ->
  run K (mmap 0 len (Z.lor PROT_READ PROT_WRITE) flags fd 0) (state pr u) = (Done MAP_FAILED, state (with_errno ENOMEM pr) u).
Proof. intros Hs Hf Hp. cbn. unfold sys_mmap. rewrite Hf, (ranges_shapes _ _ _ Hs), Hp. reflexivity. Qed.
End View.
