(* ===== verification/DevThms.v ===== *)
(** * The suite [mmap_dev] and the device [mmap_dev2] together

    The verdict of the three tests on the system with the module loaded, for
    every size given on the command line and every state of the device. *)
From stdpp Require Import gmap.
From S2P Require Import Prelude Process Trace CLib Arch TestMck AddrSpace FileMap DevMap Driver DriverThms DriverData DevSys.
From Stdlib Require Import Ascii String.
#[local] Open Scope string_scope.
#[local] Open Scope Z_scope.

(** The addresses [place] gives lie in user space, away from the mappings there are. *)
Definition places_free (place : list (Z * Z) -> Z -> option Z) : Prop := forall l len a, place l len = Some a ->
  0 < a /\ a + len <= 2 ^ 63 /\ Forall (fun '(b, blen) => ranges_overlap a len b blen = false) l.

(** The buffer the module has got from [vmalloc_user]. *)
Definition buffer_at `{Linux} (buf : Z) : Prop :=
  0 < buf /\ buf + test_mck_mmap_dev2_buf_size <= 2 ^ 64 /\ buf mod LPAGE_SIZE = 0.

Section Composed.
Context `{LL : LinuxLaws} (ident : option string) (KL : kernel) {LM : LinuxMem KL}.
Context (buf2 bufwc : Z) (place : list (Z * Z) -> Z -> option Z).
Context `{AC : ArchConfig}.

Abbreviation K := (sys ident KL buf2 bufwc place).
Abbreviation state pr u := (@World K pr u).

(** What the tests report for a size. *)
Definition devmap_verdict (n : nat) (size : Z) (pr : proc) : outcome result :=
  if size <=? 0 then Done (Some "invalid argument(-s).")
  else
    match place [] (round_up size) with
    | None => Done (Some "mmap error.")
    | Some a =>
        if buf_pages <? count_pages size then deliver SIGBUS pr
        else if (n =? 2)%nat then
          match place [(a, round_up size)] (round_up size) with
          | None => Done (Some "peek mmap error.")
          | Some _ => Done None
          end
        else Done None
    end.

Definition mmap_dev_tests : list test_case :=
  [mmap_dev0; mmap_dev1 TEST_MCK_MMAP_DEV2_BUF_RESET; mmap_dev2 TEST_MCK_MMAP_DEV2_BUF_RESET].

Context (Hbuffer : buffer_at buf2) (HPS : PAGE_SIZE = LPAGE_SIZE) (Hplace : places_free place).

(** ** Pages *)

Lemma i32_le q : 0 <= q -> i32 q <= q.
Proof. intros Hq. unfold i32. pose proof (Z.mod_le (q + 2 ^ 31) (2 ^ 32)). lia. Qed.

Lemma count_pages_fit size : 0 <= size < 2 ^ 64 -> Z.max 0 (count_pages size) * LPAGE_SIZE <= round_up size.
Proof.
  intros Hs. pose proof page_size_bounds as HB. unfold count_pages, round_up. rewrite HPS.
  destruct (Z.lt_ge_cases (size + LPAGE_SIZE - 1) (2 ^ 64)) as [Hlt|Hge].
  - rewrite u64_small by lia. set (q := (size + LPAGE_SIZE - 1) / LPAGE_SIZE).
    assert (0 <= q) as Hq by (apply Z.div_pos; lia). pose proof (i32_le q Hq). nia.
  - unfold u64. rewrite <- (Z.mod_unique (size + LPAGE_SIZE - 1) (2 ^ 64) 1 (size + LPAGE_SIZE - 1 - 2 ^ 64)) by lia.
    rewrite Z.div_small by lia. change (i32 0) with 0. cbn [Z.max]. rewrite Z.mul_0_l.
    apply Z.mul_nonneg_nonneg; [apply Z.div_pos|]; lia.
Qed.

Lemma pages_nat size : Z.of_nat (Z.to_nat (count_pages size)) = Z.max 0 (count_pages size).
Proof. lia. Qed.

(** ** The mappings of the tests *)

Lemma maps_at_new l a len p : Forall (fun '(b, blen) => ranges_overlap a len b blen = false) l ->
  maps_at (map (fun '(b, blen) => (b, blen, p)) l ++ [(a, len, p)]) a len.
Proof.
  intros Hd x Hx. induction l as [|[b blen] l IH]; cbn.
  - now rewrite (proj2 (in_range_true x a len)).
  - apply Forall_cons in Hd as [Hb Hd]. unfold ranges_overlap in Hb.
    rewrite (proj2 (in_range_false x b blen)); [now apply IH|]. intros Hx'. apply andb_false_iff in Hb. lia.
Qed.

Lemma maps_at_first a len p l : maps_at ((a, len, p) :: l) a len.
Proof. intros x Hx. cbn. now rewrite (proj2 (in_range_true x a len)). Qed.

(** ** The common beginning *)

Lemma deliver_sigs {A} n (p q : proc) : p_sigs p n = p_sigs q n -> @deliver A n p = deliver n q.
Proof. unfold deliver. now intros ->. Qed.

Lemma run_say {A} fmt args (k : prog A) pr u : run K (printf fmt args ;; k) (state pr u) = run K k (state (with_line (fmt, args) pr) u).
Proof. reflexivity. Qed.

(** What a test sees after the [ioctl]. *)
Definition fresh (request : Z) (c : Z -> Z) : Z -> Z :=
  if request =? TEST_MCK_MMAP_DEV2_BUF_RESET then reset_byte else c.

(** The device is open and mapped once; the first byte of its pages is ['Z']. *)
Definition started (pr : proc) (size request flags fd a : Z) (c : Z -> Z) (pr' : proc) (u' : usys KL) : Prop :=
  us_fds KL u' !! fd = Some DEV2 /\ p_sigs pr' = p_sigs pr /\
  shows KL buf2 u' [(a, round_up size, has flags MAP_PRIVATE)]
    (lettered 0 (Z.max 0 (count_pages size)) (fresh request c)).

Lemma start_runs size request flags kont c pr u :
  shows KL buf2 u [] c -> 0 < size < 2 ^ 64 ->
  match place [] (round_up size) with
  | None => fst (run K (devmap_start (Some PATH2) size request flags kont) (state pr u)) = Done (Some "mmap error.")
  | Some a =>
      if buf_pages <? count_pages size
      then fst (run K (devmap_start (Some PATH2) size request flags kont) (state pr u)) = deliver SIGBUS pr
      else exists fd pr' u', started pr size request flags fd a c pr' u' /\
        run K (devmap_start (Some PATH2) size request flags kont) (state pr u) = run K (kont fd a) (state pr' u')
  end.
Proof.
  intros Hs Hsize. destruct Hbuffer as (Hb1 & Hb2 & Hb3). unfold devmap_start.
  rewrite (proj2 (Z.ltb_lt 0 size)) by lia. cbn [tp_assert].
  destruct (open_runs ident KL buf2 bufwc place u [] c pr Hs) as (u1 & fd & R1 & Hfd & F1 & S1).
  rewrite run_bind, R1, run_say. replace (fd =? -1) with false by (symmetry; apply Z.eqb_neq; lia). cbn [negb tp_assert].
  set (pr1 := with_line _ pr). 
  destruct (ioctl_runs ident KL buf2 bufwc place Hb1 Hb2 u1 [] c fd request pr1 S1 eq_refl F1) as (u2 & R2 & F2 & S2).
  rewrite run_bind, R2, run_say. cbn [Z.eqb negb tp_assert]. set (pr2 := with_line _ pr1). rewrite <- F2 in F1.
  destruct (place [] (round_up size)) as [a|] eqn:Ep.
  2: { rewrite run_bind, (mmap_refused ident KL buf2 bufwc place u2 [] _ size flags fd pr2 S2 F1 Ep). reflexivity. }
  destruct (mmap_runs ident KL buf2 bufwc place Hplace u2 [] _ size flags fd a pr2 S2 (Forall_nil_2 _) F1 ltac:(lia) Ep)
    as (u3 & R3 & F3 & S3).
  destruct (Hplace _ _ _ Ep) as (Ha & Hm & _).
  rewrite run_bind, R3, run_say. replace (a =? MAP_FAILED) with false
    by (symmetry; apply Z.eqb_neq; unfold MAP_FAILED; pose proof page_size_bounds; unfold round_up in Hm;
        pose proof (Z.div_pos (size + LPAGE_SIZE - 1) LPAGE_SIZE); nia).
  cbn [negb tp_assert]. set (pr3 := with_line _ pr2). rewrite <- F3 in F1. cbn [app] in S3.
  pose proof (maps_at_first a (round_up size) (has flags MAP_PRIVATE) []) as Hat.
  pose proof (count_pages_fit size ltac:(lia)) as Hfit. rewrite <- pages_nat in Hfit.
  assert (Hco : coherent [(a, round_up size, has flags MAP_PRIVATE)]) by (right; reflexivity).
  destruct (Z.ltb_spec buf_pages (count_pages size)) as [Hbig|Hfits].
  - destruct (access_pages_beyond ident KL buf2 bufwc place Hb1 Hb2 Hb3 _ a _ Hat HPS (Z.to_nat (count_pages size)) 0 u3 _ pr3 S3 Hco)
      as (u' & R); try lia; [pose proof buf_pages_bounds; lia|].
    rewrite Z.mul_0_l, Z.add_0_r in R. rewrite (run_bind_deliver _ _ _ _ _ _ _ SIGBUS pr3 _ _ R). now apply deliver_sigs.
  - destruct (access_pages_inside ident KL buf2 bufwc place Hb1 Hb2 Hb3 _ a _ Hat HPS (Z.to_nat (count_pages size)) 0 u3 _ pr3 S3 Hco)
      as (u' & R & F & S'); try lia; [pose proof buf_pages_bounds; lia|].
    rewrite Z.mul_0_l, Z.add_0_r in R. exists fd, pr3, u'. split; [|now rewrite run_bind, R].
    split; [congruence|]. split; [reflexivity|]. rewrite pages_nat in S'. exact S'.
Qed.

(** ** The three tests *)

Lemma lettered_reset n pg o : 0 <= pg < n -> 0 <= o < LPAGE_SIZE ->
  lettered 0 n reset_byte (pg * LPAGE_SIZE + o) = if o =? 0 then letter_Z else u8 (pg + 1).
Proof.
  intros Hp Ho. unfold lettered, reset_byte. destruct (page_join pg o Ho) as [-> ->].
  rewrite (proj2 (in_range_true pg 0 n)) by lia. now rewrite andb_true_r.
Qed.

Lemma end_runs a size msg fd pr u : fst (run K (devmap_munmap a size msg (close fd ;; Ret None)) (state pr u)) = Done None.
Proof. reflexivity. Qed.

Section Validate.
Context (l : list (Z * Z * bool)) (a size : Z) (Hat : maps_at l a (round_up size)) (Hsize : 0 < size < 2 ^ 64).

Lemma validate_runs kont pr u :
  count_pages size <= buf_pages ->
  shows KL buf2 u l (lettered 0 (Z.max 0 (count_pages size)) reset_byte) ->
  exists u', run K (validate_pages (Z.to_nat (count_pages size)) a 1 kont) (state pr u) = run K kont (state pr u').
Proof.
  intros Hfits Hs. destruct Hbuffer as (Hb1 & Hb2 & Hb3). pose proof (count_pages_fit size ltac:(lia)) as Hfit.
  rewrite <- pages_nat in Hfit. pose proof buf_pages_bounds.
  destruct (validate_pages_equal ident KL buf2 bufwc place Hb1 Hb2 Hb3 l a _ Hat HPS (Z.to_nat (count_pages size)) 0 u _ pr kont Hs)
    as (u' & R & _ & _); try lia.
  { intros pg o Hp Ho. apply lettered_reset; lia. }
  rewrite Z.mul_0_l, Z.add_0_r in R. eauto.
Qed.
End Validate.

Lemma devmap_runs n size c pr u : (n < 3)%nat -> shows KL buf2 u [] c -> 0 <= size < 2 ^ 64 ->
  fst (run K (nth n [devmap_do_devmap_000; devmap_do_devmap_001 TEST_MCK_MMAP_DEV2_BUF_RESET;
                     devmap_do_devmap_002 TEST_MCK_MMAP_DEV2_BUF_RESET] (fun _ _ => Ret None) (Some PATH2) size) (state pr u))
  = devmap_verdict n size pr.
Proof.
  intros Hn Hs Hsize. unfold devmap_verdict. destruct (Z.leb_spec size 0) as [Hz|Hpos].
  { assert (size = 0) as -> by lia. destruct n as [|[|[|n]]]; [reflexivity..|lia]. }
  assert (0 < size < 2 ^ 64) as Hsz by lia.
  destruct n as [|[|[|n]]]; [| | |lia]; cbn [nth].
  - unfold devmap_do_devmap_000. match goal with |- context [devmap_start _ _ ?r ?f ?k] =>
      pose proof (start_runs size r f k c pr u Hs Hsz) as E end.
    destruct (place [] (round_up size)) as [a|]; [|exact E]. destruct (buf_pages <? count_pages size); [exact E|].
    destruct E as (fd & pr' & u' & _ & ->). apply end_runs.
  - unfold devmap_do_devmap_001. match goal with |- context [devmap_start _ _ ?r ?f ?k] =>
      pose proof (start_runs size r f k c pr u Hs Hsz) as E end.
    destruct (place [] (round_up size)) as [a|]; [|exact E].
    destruct (Z.ltb_spec buf_pages (count_pages size)) as [Hb|Hb]; [exact E|].
    destruct E as (fd & pr' & u' & (F & _ & S') & ->). unfold fresh in S'. rewrite Z.eqb_refl in S'.
    destruct (validate_runs _ a size (maps_at_first _ _ _ []) Hsz
      (devmap_munmap a size "munmap error." (close fd ;; Ret None)) pr' u' Hb S') as [u2 ->]. apply end_runs.
  - unfold devmap_do_devmap_002. match goal with |- context [devmap_start _ _ ?r ?f ?k] =>
      pose proof (start_runs size r f k c pr u Hs Hsz) as E end.
    destruct (place [] (round_up size)) as [a|]; [|exact E].
    destruct (Z.ltb_spec buf_pages (count_pages size)) as [Hb|Hb]; [exact E|].
    destruct E as (fd & pr' & u' & (F & _ & S') & ->). unfold fresh in S'. rewrite Z.eqb_refl in S'.
    cbn [Nat.eqb]. destruct (place [(a, round_up size)] (round_up size)) as [b|] eqn:Ep.
    2: { rewrite run_bind, (mmap_refused ident KL buf2 bufwc place u' _ _ size MAP_SHARED fd pr' S' F Ep). reflexivity. }
    destruct (mmap_runs ident KL buf2 bufwc place Hplace u' _ _ size MAP_SHARED fd b pr' S'
      ltac:(repeat constructor) F ltac:(lia) Ep) as (u2 & R2 & F2 & S2).
    destruct (Hplace _ _ _ Ep) as (Hb0 & Hbm & Hd).
    rewrite run_bind, R2, run_say. replace (b =? MAP_FAILED) with false
      by (symmetry; apply Z.eqb_neq; unfold MAP_FAILED; pose proof (count_pages_fit size ltac:(lia)); pose proof page_size_bounds; nia).
    cbn [negb tp_assert].
    match goal with |- fst (run K (validate_pages _ _ _ ?k) (World ?q _)) = _ =>
      destruct (validate_runs _ b size (maps_at_new [(a, round_up size)] b (round_up size) false Hd) Hsz k q u2 Hb S2) as [u3 E3]
    end.
    etransitivity; [exact (f_equal fst E3)|reflexivity].
Qed.

(** ** From the command line *)

Definition mmap_dev_argv (the_app : string) (size : Z) : list string := [the_app; "-d"; PATH2; "-s"; print_dec size].

Lemma setup_reads tc_num the_app size : 0 <= size < 2 ^ 64 ->
  mmap_dev_setup tc_num (mmap_dev_argv the_app size) = Ret (MmapDevArgs (Some PATH2) size).
Proof.
  intros Hs. unfold mmap_dev_setup, mmap_dev_argv. cbn [tail].
  change (getopt "d:s:" ["-d"; PATH2; "-s"; print_dec size]) with ([Opt "d" PATH2; Opt "s" (print_dec size)], @nil string).
  cbn [fst mmap_dev_options Ascii.eqb Bool.eqb d_path d_size]. now rewrite strtoul_print_dec.
Qed.

(** A test of the suite reports what its function returns. *)
Lemma run_mmap_dev_case n f the_app size w : 0 <= size < 2 ^ 64 ->
  fst (run K (run_test_case (mmap_dev_case n f) (mmap_dev_argv the_app size)) w) = fst (run K (f (Some PATH2) size) w).
Proof.
  intros Hs. unfold run_test_case. cbn [setup mmap_dev_case num]. rewrite setup_reads by exact Hs.
  cbn [bind tc_run mmap_dev_case]. unfold mmap_dev_run, run_const. cbn [d_path d_size].
  rewrite run_bind, run_bind. destruct (run K (f (Some PATH2) size) w) as [[r|k|k] w']; reflexivity.
Qed.

(** C16.  The tests of [mmap_dev] and the device [mmap_dev2] of the kernel module fit
    together: for every size given on the command line, every content of the
    device's buffer and wherever the mappings are placed, each test ends with
    exactly the verdict [devmap_verdict] - [NULL] if the pages to be touched are
    at most those of the buffer, [SIGBUS] otherwise, the message of the failed call
    if there is no room - and then the pages it compares hold what the reset of the
    buffer wrote, in the private mapping (1) as in a second shared one (2). *)
Theorem mmap_dev_composed n the_app size pr u :
  (n < 3)%nat -> 0 <= size < 2 ^ 64 -> us_maps KL u = [] ->
  fst (run K (run_test_case (nth n mmap_dev_tests mmap_dev0) (mmap_dev_argv the_app size)) (state pr u))
  = devmap_verdict n size pr.
Proof.
  intros Hn Hs Hm.
  assert (Sh : shows KL buf2 u [] (fun off => mem_of KL (us_lx KL u) (buf2 + off))) by (split; rewrite ?Hm; auto).
  rewrite <- (devmap_runs n size _ pr u Hn Sh Hs).
  destruct n as [|[|[|n]]]; [apply run_mmap_dev_case..|lia]; exact Hs.
Qed.
End Composed.

(** ** A Linux and a placement *)

(** Memory as a function; a page is named by its address. *)
Definition plain_linux : kernel :=
  Kernel (Z -> Z) (fun c s => match c return (Z -> Z) * ans c with
    | Store a b => ((fun x => if x =? a then b else s x), inl tt)
    | Kapi (VmallocToPage a) => (s, a)
    | Kapi (GetPage _) => (s, 0)
    | c => (s, enosys c)
    end).

#[export] Instance plain_linux_mem `{Linux} : LinuxMem plain_linux.
Proof.
  refine {| lmem := fun (s : kstate plain_linux) (x : Z) => (s x : Z); page_addr := fun p : Z => p |}; cbn; eauto.
Defined.

(** Mappings one after the other. *)
Definition stack_place (l : list (Z * Z)) (len : Z) : option Z :=
  let a := fold_right (fun '(b, blen) m => Z.max (b + blen) m) (2 ^ 40) l in
  if (0 <=? len) && (a + len <=? 2 ^ 46) then Some a else None.

Lemma stack_place_above l b blen m : In (b, blen) l ->
  b + blen <= fold_right (fun '(b, blen) m => Z.max (b + blen) m) m l.
Proof. induction l as [|[c clen] l IH]; cbn; [easy|]. intros [[= -> ->]|Hin]; [lia|]. specialize (IH Hin). lia. Qed.

Lemma stack_place_base l m : m <= fold_right (fun '(b, blen) m => Z.max (b + blen) m) m l.
Proof. induction l as [|[c clen] l IH]; cbn; lia. Qed.

Lemma stack_places_free : places_free stack_place.
Proof.
  intros l len a. unfold stack_place. destruct (_ && _) eqn:E; [|discriminate]. intros [= <-]. bool_to_prop.
  pose proof (stack_place_base l (2 ^ 40)). split; [lia|]. split; [lia|].
  apply Forall_forall. intros [b blen] Hin. apply list_elem_of_In, (stack_place_above l b blen (2 ^ 40)) in Hin.
  unfold ranges_overlap. apply andb_false_iff. left. apply Z.ltb_ge. lia.
Qed.

#[local] Existing Instance config_4K.

Definition sample_buf : Z := 0x10000.
Definition sample_sys : kernel := sys None plain_linux sample_buf 0 stack_place.
Definition sample_state : world sample_sys := @World sample_sys proc0 (USys plain_linux (@World plain_linux proc0 (fun _ : Z => 0)) ∅ []).

(** 513 pages fit, 514 do not. *)
Lemma mmap_dev_composed_witness :
  fst (run sample_sys (run_test_case (nth 2 mmap_dev_tests mmap_dev0) (mmap_dev_argv "test_mck" 2101248)) sample_state) = Done None /\
  fst (run sample_sys (run_test_case (nth 1 mmap_dev_tests mmap_dev0) (mmap_dev_argv "test_mck" 2101249)) sample_state) = Killed SIGBUS.
Proof.
  assert (Hb : buffer_at sample_buf) by (repeat split; vm_compute; congruence).
  assert (HP : PAGE_SIZE = LPAGE_SIZE) by reflexivity.
  split.
  - etransitivity; [apply (mmap_dev_composed None plain_linux sample_buf 0 stack_place Hb HP stack_places_free 2 "test_mck" 2101248);
      [lia|lia|reflexivity]|vm_compute; reflexivity].
  - etransitivity; [apply (mmap_dev_composed None plain_linux sample_buf 0 stack_place Hb HP stack_places_free 1 "test_mck" 2101249);
      [lia|lia|reflexivity]|vm_compute; reflexivity].
Defined.
