(* ===== verification/Procfs.v ===== *)
(** * The suite [procfs]

    The 14 cases read the files of [/proc] and print them.  Eleven of them end with
    a request to look at the output, three check what they have read. *)
From S2P Require Import Prelude Process Trace CLib Arch TestMck AddrSpace MemInfo FileMap Procs Forks Ptrace Exact DevMap.
From Stdlib Require Import Ascii String.
#[local] Open Scope string_scope.
#[local] Open Scope Z_scope.

(** ** The C library *)

Definition calloc (nmemb size : Z) : prog Z :=
  p <- (trigger (Misc (Calloc nmemb size)) : prog Z) ;;
  if p =? NULL then set_errno ENOMEM ;; Ret NULL else Ret p.
Definition pthread_create : prog Z := trigger (Misc PthreadCreate).
Definition pthread_join : prog Z := trigger (Misc PthreadJoin).

(** [sprintf(pfname, "/proc/%d/...", pid)]. *)
Definition dec (n : Z) : string := if n <? 0 then "-" ++ print_dec (- n) else print_dec n.
Definition proc_file (pid : Z) (file : string) : string := "/proc/" ++ dec pid ++ "/" ++ file.
Definition task_file (pid tid : Z) (file : string) : string := "/proc/" ++ dec pid ++ "/task/" ++ dec tid ++ "/" ++ file.

(** A call's name and [errno]. *)
Definition report (call : string) : prog unit := e <- errno ;; printf (call ++ "() failed. %d\n") [PZ e].

(** The words of an array of bytes. *)
Fixpoint le_word (bs : list Z) : Z := match bs with [] => 0 | b :: bs' => b + 256 * le_word bs' end.
Definition word_at (bytes : list Z) (i : nat) : Z := le_word (take 8 (drop (8 * i) bytes)).
Definition words (bytes : list Z) (n : nat) : list Z := map (word_at bytes) (seq 0 n).

(** Words [f i] from address [a] on. *)
Fixpoint fill_words (n : nat) (a i : Z) (f : Z -> Z) : prog unit :=
  match n with
  | O => Ret tt
  | S n => store_word (a + 8 * i) (f i) ;; fill_words n a (i + 1) f
  end.

(** Open a file, seek if asked to, read and show it, close it; [fail] is the end of
    the error paths. *)
Section Files.
Context {A : Type} (fail : prog A).

Definition error_close (fd : Z) : prog unit :=
  r <- close fd ;; if r =? -1 then report "close" else Ret tt.
Definition seek_to (fd : Z) (off : option Z) (k : prog A) : prog A :=
  match off with
  | None => k
  | Some off => r <- lseek fd off SEEK_SET ;; if r =? -1 then report "lseek" ;; error_close fd ;; fail else k
  end.
Definition with_procfile (pfname : string) (off : option Z) (count : Z) (show : list Z -> prog A -> prog A) (fin : list Z -> prog A) : prog A :=
  fd <- open pfname O_RDONLY ;;
  if fd =? -1 then report "open" ;; fail
  else
    seek_to fd off
    (let* (n, bytes) := read fd count in
     if n =? -1 then report "read" ;; error_close fd ;; fail
     else
       show bytes
       (r <- close fd ;; if r =? -1 then report "close" ;; fail else fin bytes)).
End Files.

Section Suite.
Context `{ArchConfig}.
(** What an array on the stack held before, what a program does after an access
    outside of an array, and after more lines than the bound of the loops. *)
Context (uninit : list Z) (undefined : prog result) (lines : nat) (more : prog result) (BUF_RESET : Z).

Definition tp_failed : prog result := Ret (Some "TP failed.").
Definition filled (size : nat) (bytes : list Z) : list Z := take size (bytes ++ drop (List.length bytes) uninit).

(** ** [procfs/000.c] *)

(** [auxv_name] of [arch_test_mck.c] *)
Definition auxv_name : list string :=
  ["AT_NULL"; "AT_IGNORE"; "AT_EXECFD"; "AT_PHDR"; "AT_PHENT";
   "AT_PHNUM"; "AT_PAGESZ"; "AT_BASE"; "AT_FLAGS"; "AT_ENTRY";
   "AT_NOTELF"; "AT_UID"; "AT_EUID"; "AT_GID"; "AT_EGID";
   "AT_PLATFORM"; "AT_HWCAP"; "AT_CLKTCK"; ""; "";
   ""; ""; ""; "AT_SECURE"; "AT_BASE_PLATFORM";
   "AT_RANDOM"; ""; ""; ""; "";
   ""; "AT_EXECFN"; ""; "AT_SYSINFO_EHDR"].

Fixpoint dump_auxv (n : nat) (ws : list Z) (k : prog result) : prog result :=
  match n, ws with
  | S n, a :: b :: ws' =>
      match auxv_name !! Z.to_nat a with
      | None => undefined
      | Some name =>
          printf "  %#016lx %#016lx (%s)\n" [PZ a; PZ b; PS name] ;;
          if (a =? 0) && (b =? 0) then k else dump_auxv n ws' k
      end
  | _, _ => k
  end.

Definition procfs_run_000 : prog result :=
  pid <- getpid ;;
  let pfname := proc_file pid "auxv" in
  with_procfile tp_failed pfname None 8192
    (fun bytes k => printf "dump %s:\n" [PS pfname] ;; dump_auxv 256 (words (filled (Z.to_nat 8192) bytes) (Z.to_nat 1024)) k)
    (fun _ => Ret (Some "you need check AUXV value")).

(** ** [procfs/001.c] and [procfs/002.c] *)

(** Lines of four words. *)
Fixpoint dump_words (n : nat) (off : Z) (ws : list Z) : prog unit :=
  match n, ws with
  | S n, a :: b :: c :: d :: ws' =>
      printf "  %#016lx: %016lx %016lx %016lx %016lx\n" [PZ off; PZ a; PZ b; PZ c; PZ d] ;;
      dump_words n (off + 32) ws'
  | _, _ => Ret tt
  end.
Definition show_words (pfname : string) (off : Z) {A} (bytes : list Z) (k : prog A) : prog A :=
  printf "dump %s(offset:%#016lx):\n" [PS pfname; PZ off] ;;
  dump_words 8 off (words (filled 256 bytes) 32) ;; k.

Definition procfs_run_001 : prog result :=
  pid <- getpid ;;
  buf1 <- calloc 256 1 ;;
  if buf1 =? NULL then Ret (Some "calloc failed.")
  else
    printf "allocated: %#016lx\n" [PZ buf1] ;;
    fill_words 32 buf1 0 (fun i => i) ;;
    let pfname := proc_file pid "mem" in
    with_procfile (free buf1 ;; tp_failed) pfname (Some buf1) 256 (show_words pfname buf1)
      (fun _ => free buf1 ;; Ret (Some "you need check MEM value")).

Definition child_thread_procfs_02 : prog unit :=
  pid <- getpid ;;
  tid <- gettid ;;
  buf1 <- calloc 256 1 ;;
  (if buf1 =? NULL then e <- errno ;; printf "calloc failed. %d\n" [PZ e] else Ret tt) ;;
  printf "allocated: %#016lx\n" [PZ buf1] ;;
  fill_words 32 buf1 0 (fun i => u64 (- i - 1)) ;;
  let pfname := task_file pid tid "mem" in
  with_procfile (free buf1 ;; printf "TP failed.\n" []) pfname (Some buf1) 256 (show_words pfname buf1)
    (fun _ => free buf1).

(** The creating thread waits for the other one, which does all the work. *)
Definition run_thread (child : prog unit) (msg : string) : prog result :=
  ret <- pthread_create ;;
  (if negb (ret =? 0) then e <- errno ;; printf "pthread_create failed. %d\n" [PZ e]
   else
     child ;;
     ret <- pthread_join ;;
     if negb (ret =? 0) then e <- errno ;; printf "pthread_join failed. %d\n" [PZ e] else Ret tt) ;;
  Ret (Some msg).
Definition procfs_run_002 : prog result := run_thread child_thread_procfs_02 "you need check MEM value".

(** ** [procfs/003.c] *)

(** [printf("%s\n", buf)] of an array: its bytes up to the first zero. *)
Fixpoint text_of (bytes : list Z) : string :=
  match bytes with
  | [] => ""
  | b :: bytes' => if b =? 0 then "" else String (ascii_of_N (Z.to_N b)) (text_of bytes')
  end.

Definition child_thread_procfs_03 : prog unit :=
  pid <- getpid ;;
  tid <- gettid ;;
  let pfname := task_file pid tid "stat" in
  with_procfile (printf "TP failed.\n" []) pfname None 4096
    (fun bytes k => printf "output %s\n" [PS pfname] ;; printf "%s\n" [PS (text_of (filled (Z.to_nat 4096) bytes))] ;; k)
    (fun _ => Ret tt).
Definition procfs_run_003 : prog result := run_thread child_thread_procfs_03 "you need check STAT value".

(** ** [procfs/004.c] and [procfs/005.c] *)

Definition DUMP_SIZE : Z := 256.
Definition dump_here (d : Z) : bool :=
  (d <? DUMP_SIZE) || ((PAGE_SIZE - DUMP_SIZE / 2 <=? d) && (d <? PAGE_SIZE + DUMP_SIZE / 2)) || (PAGE_SIZE * 2 - DUMP_SIZE <=? d).
(** The lines near the start, the boundary and the end. *)
Fixpoint dump_pages (n : nat) (buf d : Z) (space_flag : bool) (ws : list Z) : prog unit :=
  match n, ws with
  | S n, w0 :: w1 :: w2 :: w3 :: ws' =>
      if dump_here d then
        printf "  %#016lx: %016lx %016lx %016lx %016lx\n" [PZ (buf + d); PZ w0; PZ w1; PZ w2; PZ w3] ;;
        dump_pages n buf (d + 32) true ws'
      else if space_flag then printf "  *\n" [] ;; dump_pages n buf (d + 32) false ws'
      else dump_pages n buf (d + 32) space_flag ws'
  | _, _ => Ret tt
  end.

Definition anon_flags : Z := Z.lor (Z.lor MAP_PRIVATE MAP_ANONYMOUS) MAP_POPULATE.
Definition page_words : nat := Z.to_nat (PAGE_SIZE / 8).

(** Two pages with different protections, filled and read back through [mem]. *)
Definition mem_of_pages {A} (err : string -> prog A) (fail : prog A) (fin : prog A) (pfname : string) (f g : Z -> Z) : prog A :=
  buf <- mmap NULL (PAGE_SIZE * 2) PROT_NONE anon_flags (-1) 0 ;;
  if buf =? MAP_FAILED then err "mmap none failed."
  else
    printf "mmaped buf: %#016lx\n" [PZ buf] ;;
    p <- mmap buf PAGE_SIZE (Z.lor PROT_WRITE PROT_READ) (Z.lor anon_flags MAP_FIXED) (-1) 0 ;;
    if p =? MAP_FAILED then err "mmap1(RW-) failed."
    else
      printf "mmaped buf(RW-): %#016lx\n" [PZ p] ;;
      fill_words page_words p 0 f ;;
      p <- mmap (buf + PAGE_SIZE) PAGE_SIZE (Z.lor (Z.lor PROT_WRITE PROT_READ) PROT_EXEC) (Z.lor anon_flags MAP_FIXED) (-1) 0 ;;
      if p =? MAP_FAILED then err "mmap2(RWX) failed."
      else
        printf "mmaped buf(RWX): %#016lx\n" [PZ p] ;;
        fill_words page_words p 0 g ;;
        with_procfile fail pfname (Some buf) (PAGE_SIZE * 2)
          (fun bytes k =>
             printf "dump %s(offset:%#016lx):\n" [PS pfname; PZ buf] ;;
             dump_pages (Z.to_nat (PAGE_SIZE * 2 / 32)) buf 0 false
               (words (filled (Z.to_nat (PAGE_SIZE * 2)) bytes) (2 * page_words)) ;; k)
          (fun _ => fin).

Definition procfs_run_004 : prog result :=
  pid <- getpid ;;
  mem_of_pages (fun msg => Ret (Some msg)) tp_failed (Ret (Some "you need check MEM value")) (proc_file pid "mem")
    (fun i => i) (fun i => u64 (- i - 1)).

Definition child_thread_procfs_05 : prog unit :=
  pid <- getpid ;;
  tid <- gettid ;;
  mem_of_pages (fun _ => Ret tt) (printf "TP failed.\n" []) (Ret tt) (task_file pid tid "mem")
    (fun i => u64 (- i - 1)) (fun i => i).
Definition procfs_run_005 : prog result := run_thread child_thread_procfs_05 "you need check MEM value".

(** ** [procfs/006.c], [007.c], [009.c] to [011.c] *)

Fixpoint print_lines (n : nat) (fp : Z) (k : prog result) : prog result :=
  match n with
  | O => more
  | S n =>
      line <- fgets fp PAGE_SIZE ;;
      match line with Some buf => printf "%s" [PS buf] ;; print_lines n fp k | None => k end
  end.

(** [before] is what is done between opening and reading, [after] before closing. *)
Definition cat_file (pfname : string) (before after : prog unit) (msg : string) : prog result :=
  fp <- fopen pfname "r" ;;
  if fp =? NULL then report "fopen" ;; tp_failed
  else
    before ;;
    printf "output: %s\n" [PS pfname] ;;
    print_lines lines fp
    (after ;;
     r <- fclose fp ;;
     if negb (r =? 0) then report "fclose" ;; tp_failed else Ret (Some msg)).

Definition procfs_run_006 : prog result := cat_file "/proc/cpuinfo" (Ret tt) (Ret tt) "you need check CPUINFO".

Definition DUMMY_MMAP_COUNT : nat := 512.
Fixpoint dummy_mmap (n : nat) (i : Z) : prog (list Z) :=
  match n with
  | O => Ret []
  | S n =>
      let prot := if Z.rem i 2 =? 0 then Z.lor (Z.lor PROT_READ PROT_WRITE) PROT_EXEC else Z.lor PROT_READ PROT_WRITE in
      m <- mmap NULL PAGE_SIZE prot (Z.lor MAP_PRIVATE MAP_ANONYMOUS) (-1) 0 ;;
      store m 99 ;;
      printf "range: %lx-%lx rw%cp\n" [PZ m; PZ (u64 (m + PAGE_SIZE)); PZ (if Z.rem i 2 =? 0 then 120 else 45)] ;;
      ms <- dummy_mmap n (i + 1) ;;
      Ret (m :: ms)
  end.
Fixpoint dummy_munmap (ms : list Z) : prog unit :=
  match ms with [] => Ret tt | m :: ms' => munmap m PAGE_SIZE ;; dummy_munmap ms' end.

Definition procfs_run_007 : prog result :=
  pid <- getpid ;;
  let pfname := proc_file pid "maps" in
  fp <- fopen pfname "r" ;;
  if fp =? NULL then report "fopen" ;; tp_failed
  else
    map <- dummy_mmap DUMMY_MMAP_COUNT 0 ;;
    printf "output: %s\n" [PS pfname] ;;
    print_lines lines fp
    (dummy_munmap map ;;
     r <- fclose fp ;;
     if negb (r =? 0) then report "fclose" ;; tp_failed else Ret (Some "you need check McKernel Log & Dump MAPS.")).

Definition procfs_run_009 : prog result := cat_file "/proc/stat" (Ret tt) (Ret tt) "you need check Dump STAT.".
Definition procfs_run_010 : prog result :=
  pid <- getpid ;; cat_file (proc_file pid "status") (Ret tt) (Ret tt) "you need check Dump STATUS.".
Definition procfs_run_011 : prog result :=
  pid <- getpid ;; cat_file (proc_file pid "cmdline") (Ret tt) (printf "\n" []) "you need check Dump CMDLINE.".

(** ** [procfs/008.c] and [procfs/013.c] *)

Definition PFN_MASK : Z := Z.shiftl 1 55 - 1.
Definition present (entry : Z) : bool := negb (Z.land entry (Z.shiftl 1 63) =? 0).
Definition shift_is_16 (entry : Z) : bool := Z.land (Z.shiftr entry 55) 0x3f =? 16.
Definition pfn (entry : Z) : Z := Z.land entry PFN_MASK.

Definition procfs_run_008 : prog result :=
  pid <- getpid ;;
  buf1 <- calloc (PAGE_SIZE * 2) 1 ;;
  if buf1 =? NULL then Ret (Some "calloc failed.")
  else
    let aligned_buf1 := align_up (u64 buf1) PAGE_SIZE in
    printf "allocated: %#016lx\n" [PZ aligned_buf1] ;;
    store aligned_buf1 0xff ;;
    let pfname := proc_file pid "pagemap" in
    let offset := aligned_buf1 / PAGE_SIZE * 8 in
    with_procfile (free buf1 ;; tp_failed) pfname (Some offset) 8
      (fun bytes k => printf "dump %s(offset:%#016lx):%#016lx\n" [PS pfname; PZ offset; PZ (word_at (filled 8 bytes) 0)] ;; k)
      (fun bytes =>
         let buf2 := word_at (filled 8 bytes) 0 in
         tp_assert! (present buf2, Some "present bit is set") ;;
         tp_assert! (shift_is_16 buf2, Some "page shift is 16") ;;
         tp_assert! (negb (pfn buf2 =? 0), Some "PFN is non-zero") ;;
         free buf1 ;;
         Ret None).

Definition procfs_run_013 : prog result :=
  pid <- getpid ;;
  let pfname := proc_file pid "pagemap" in
  with_procfile tp_failed pfname None 8
    (fun bytes k => printf "dump %s(offset:0x00):%#016lx\n" [PS pfname; PZ (word_at (filled 8 bytes) 0)] ;; k)
    (fun bytes =>
       let buf := word_at (filled 8 bytes) 0 in
       tp_assert! (negb (present buf), Some "present bit is not set") ;;
       tp_assert! (shift_is_16 buf, Some "page shift is 16") ;;
       tp_assert! (pfn buf =? 0, Some "PFN is zero") ;;
       Ret None).

(** ** [procfs/012.c] *)

(** The static variables [procfd], [devfd] and [devmap]. *)
Record procfs12 := Procfs12 { procfd : Z; devfd : Z; devmap : Z }.

Definition procfs_run_012 : prog (result * procfs12) :=
  devfd <- open "/dev/test_mck/mmap_dev2" O_RDWR ;;
  if devfd =? -1 then Ret (Some "open mmap_dev2 error.", Procfs12 (-1) devfd MAP_FAILED)
  else
    status <- ioctl devfd BUF_RESET ;;
    if status =? -1 then Ret (Some "ioctl error.", Procfs12 (-1) devfd MAP_FAILED)
    else
      devmap <- mmap 0 PAGE_SIZE (Z.lor PROT_READ PROT_WRITE) (Z.lor MAP_SHARED MAP_POPULATE) devfd 0 ;;
      if devmap =? MAP_FAILED then Ret (Some "mmap error", Procfs12 (-1) devfd devmap)
      else
        store devmap letter_Z ;;
        procfd <- open "/proc/self/mem" O_RDONLY ;;
        if procfd =? -1 then Ret (Some "open proc mem error.", Procfs12 procfd devfd devmap)
        else
          status <- lseek procfd devmap SEEK_SET ;;
          if i32 status =? -1 then Ret (Some "lseek error.", Procfs12 procfd devfd devmap)
          else
            let* (status, _) := read procfd 1 in
            let st := Procfs12 procfd devfd devmap in
            if negb (i32 status =? -1) then Ret (Some "read success.", st)
            else
              e <- errno ;;
              if negb (e =? EIO) then Ret (Some "invalid errno.", st) else Ret (None, st).

Definition procfs_teardown_012 (tc_num : Z) (st : procfs12) : prog unit :=
  (if negb (procfd st =? -1) then close (procfd st) ;; Ret tt else Ret tt) ;;
  (if negb (devmap st =? MAP_FAILED) then munmap (devmap st) PAGE_SIZE ;; Ret tt else Ret tt) ;;
  (if negb (devfd st =? -1) then close (devfd st) ;; Ret tt else Ret tt).

Definition procfs_case (n : Z) (run : prog result) : test_case :=
  TestCase "procfs" n unit SETUP_EMPTY (run_const (fun _ _ => run)) TEARDOWN_EMPTY.
Definition procfs12_case : test_case :=
  TestCase "procfs" 12 procfs12 (fun _ _ => Ret (Procfs12 (-1) (-1) MAP_FAILED)) (fun _ _ => procfs_run_012) procfs_teardown_012.

Definition procfs_cases : list test_case :=
  [ procfs_case 0 procfs_run_000; procfs_case 1 procfs_run_001; procfs_case 2 procfs_run_002; procfs_case 3 procfs_run_003;
    procfs_case 4 procfs_run_004; procfs_case 5 procfs_run_005; procfs_case 6 procfs_run_006; procfs_case 7 procfs_run_007;
    procfs_case 8 procfs_run_008; procfs_case 9 procfs_run_009; procfs_case 10 procfs_run_010; procfs_case 11 procfs_run_011;
    procfs12_case; procfs_case 13 procfs_run_013 ].
End Suite.

(** ** What the cases demand of the system *)

Section Scripts.
Context `{ArchConfig} (uninit : list Z) (BUF_RESET : Z).
Local Abbreviation entry bytes := (word_at (filled uninit 8 bytes) 0).

Definition seeks (fd : Z) (off : option Z) (s : script) : script :=
  match off with None => s | Some off => Need (Lseek fd off SEEK_SET) not_err (fun _ => s) end.
(** A file that is opened, read and closed, with bytes that are [ok]. *)
Definition procfile (pfname : string) (off : option Z) (count : Z) (ok : list Z -> bool) (s : script) : script :=
  Need (Open pfname O_RDONLY) not_err (fun fd => seeks fd off
    (Need (Read fd count) (fun r => not_err (fst r)) (fun r =>
      Need (Close fd) (fun c => not_err c && ok (snd r)) (fun _ => s)))).

Definition mapped_page (bytes : list Z) : bool :=
  present (entry bytes) && (shift_is_16 (entry bytes) && negb (pfn (entry bytes) =? 0)).
Definition no_page (bytes : list Z) : bool :=
  negb (present (entry bytes)) && (shift_is_16 (entry bytes) && (pfn (entry bytes) =? 0)).

Definition script_008 : script :=
  any (Procs Getpid) (fun pid =>
    Need (Misc (Calloc (PAGE_SIZE * 2) 1)) (fun buf1 => negb ((buf1 : Z) =? NULL)) (fun buf1 =>
      let page := align_up (u64 buf1) PAGE_SIZE in
      stores page 0xff
        (procfile (proc_file pid "pagemap") (Some (page / PAGE_SIZE * 8)) 8 mapped_page (any (Free buf1) (fun _ => Met))))).
Definition script_012 : script :=
  Need (Open "/dev/test_mck/mmap_dev2" O_RDWR) not_err (fun devfd =>
  Need (Filec (Ioctl devfd BUF_RESET)) not_err (fun _ =>
  maps 0 PAGE_SIZE (Z.lor PROT_READ PROT_WRITE) (Z.lor MAP_SHARED MAP_POPULATE) devfd 0 (fun devmap =>
  stores devmap letter_Z (
  Need (Open "/proc/self/mem" O_RDONLY) not_err (fun procfd =>
  Need (Lseek procfd devmap SEEK_SET) (fun r => not_err r && negb (i32 r =? -1)) (fun _ =>
  Need (Read procfd 1) (fun r => fst r =? - EIO) (fun _ =>
  any (Close procfd) (fun _ => any (Munmap devmap PAGE_SIZE) (fun _ => any (Close devfd) (fun _ => Met)))))))))).
Definition script_013 : script :=
  any (Procs Getpid) (fun pid => procfile (proc_file pid "pagemap") None 8 no_page Met).

(** [None]: no answers are enough. *)
Definition procfs_scripts : list (option script) :=
  [None; None; None; None; None; None; None; None; Some script_008; None; None; None; Some script_012; Some script_013].
End Scripts.

(** ** Proofs *)

Lemma fails_with_procfile {A} (a : A) fail pfname off count show fin :
  fails a fail -> (forall bs k, fails a k -> fails a (show bs k)) -> (forall bs, fails a (fin bs)) ->
  fails a (with_procfile fail pfname off count show fin).
Proof.
  intros Hf Hs Hk. unfold with_procfile, seek_to.
  assert (Hr : forall fd, fails a (let* (n, bytes) := read fd count in
     if n =? -1 then report "read" ;; error_close fd ;; fail
     else show bytes (r <- close fd ;; if r =? -1 then report "close" ;; fail else fin bytes))).
  { intros fd. apply fails_bind. intros [n bs]. destruct (n =? -1).
    - do 2 (apply fails_bind; intros _). exact Hf.
    - apply Hs. apply fails_bind. intros r. destruct (r =? -1); [apply fails_bind; intros _; exact Hf|apply Hk]. }
  apply fails_bind. intros fd. destruct (fd =? -1); [apply fails_bind; intros _; exact Hf|].
  destruct off as [off|]; [|apply Hr].
  apply fails_bind. intros r. destruct (r =? -1); [do 2 (apply fails_bind; intros _); exact Hf|apply Hr].
Qed.

Lemma exact_with_procfile z z' {A} (a : A) fail pfname off count show fin ok s :
  fails a fail -> (forall bs k, fails a k -> fails a (show bs k)) ->
  (forall bs k s, exact z z' a k s -> exact z z' a (show bs k) s) ->
  (forall bs, ok bs = true -> exact z z' a (fin bs) s) -> (forall bs, ok bs = false -> fails a (fin bs)) ->
  exact z z' a (with_procfile fail pfname off count show fin) (procfile pfname off count ok s).
Proof.
  intros Hf Hsf Hs Hk Hkf. unfold with_procfile, procfile, seek_to, seeks.
  assert (Hr : forall fd, exact z z' a (let* (n, bytes) := read fd count in
     if n =? -1 then report "read" ;; error_close fd ;; fail
     else show bytes (r <- close fd ;; if r =? -1 then report "close" ;; fail else fin bytes))
    (Need (Read fd count) (fun r => not_err (fst r)) (fun r => Need (Close fd) (fun c => not_err c && ok (snd r)) (fun _ => s)))).
  { intros fd. unfold read. apply (exact_syscall z z' a (Read fd count) fst snd); intros [n bs] E; cbn [fst snd] in *.
    - split; [now apply negb_true_iff|]. rewrite (not_err_neg1 _ E). apply Hs. unfold close.
      apply (exact_ok_and z z' a (Close fd) (fun c => c)); [cbn [Z.eqb]; apply fails_bind; intros _; exact Hf| |];
        intros c Ec Eo; rewrite (not_err_neg1 _ Ec); auto.
    - apply negb_false_iff in E. rewrite sysret_neg1, E. do 2 (apply fails_bind; intros _). exact Hf. }
  apply (exact_ok z z' a (Open pfname O_RDONLY) (fun r => r)).
  { cbn [Z.eqb]. apply fails_bind. intros _. exact Hf. }
  intros fd E. rewrite (not_err_neg1 _ E). destruct off as [off|]; [|apply Hr].
  apply (exact_ok z z' a (Lseek fd off SEEK_SET) (fun r => r)).
  { cbn [Z.eqb]. do 2 (apply fails_bind; intros _). exact Hf. }
  intros r Er. rewrite (not_err_neg1 _ Er). apply Hr.
Qed.

Section Exactness.
Context `{ArchConfig} (uninit : list Z) (undefined : prog result) (lines : nat) (more : prog result) (BUF_RESET : Z).
Hypotheses (Hu : fails None undefined) (Hm : fails None more).

Lemma fails_tp_failed : fails None tp_failed.
Proof. now apply fails_ret. Qed.

Lemma fails_dump_auxv n : forall ws k, fails None k -> fails None (dump_auxv undefined n ws k).
Proof.
  induction n as [|n IH]; intros ws k Hk; [exact Hk|]. destruct ws as [|a [|b ws]]; [exact Hk|exact Hk|]. cbn [dump_auxv].
  destruct (auxv_name !! Z.to_nat a); [|exact Hu]. apply fails_bind. intros _. destruct ((a =? 0) && (b =? 0)); auto.
Qed.

Lemma fails_print_lines n fp : forall k, fails None k -> fails None (print_lines more n fp k).
Proof.
  induction n as [|n IH]; intros k Hk; [exact Hm|]. cbn [print_lines]. apply fails_bind.
  intros [line|]; [|exact Hk]. apply fails_bind. auto.
Qed.

Lemma fails_cat_file pfname before after msg : fails None (cat_file lines more pfname before after msg).
Proof.
  unfold cat_file. apply fails_bind. intros fp. destruct (fp =? NULL).
  - apply fails_bind. intros _. apply fails_tp_failed.
  - do 2 (apply fails_bind; intros _). apply fails_print_lines. fails_tac.
Qed.

Lemma fails_run_thread child msg : fails None (run_thread child msg).
Proof. unfold run_thread. fails_tac. Qed.

Lemma fails_mem_of_pages pfname f g :
  fails None (mem_of_pages uninit (fun msg => Ret (Some msg)) tp_failed (Ret (Some "you need check MEM value")) pfname f g).
Proof.
  unfold mem_of_pages. apply fails_bind. intros buf. destruct (buf =? MAP_FAILED); [fails_tac|].
  do 2 (apply fails_bind; intros ?). destruct (_ =? MAP_FAILED); [fails_tac|].
  do 3 (apply fails_bind; intros ?). destruct (_ =? MAP_FAILED); [fails_tac|].
  do 2 (apply fails_bind; intros ?). apply fails_with_procfile; [apply fails_tp_failed| |intros; fails_tac].
  intros bs k Hk. do 2 (apply fails_bind; intros ?). exact Hk.
Qed.

Lemma never_000 : fails None (procfs_run_000 uninit undefined).
Proof.
  unfold procfs_run_000. apply fails_bind. intros pid.
  apply fails_with_procfile; [apply fails_tp_failed| |intros; fails_tac].
  intros bs k Hk. apply fails_bind. intros _. now apply fails_dump_auxv.
Qed.

Lemma never_001 : fails None (procfs_run_001 uninit).
Proof.
  unfold procfs_run_001. do 2 (apply fails_bind; intros ?). destruct (_ =? NULL); [fails_tac|].
  do 2 (apply fails_bind; intros ?). apply fails_with_procfile; [fails_tac| |intros; fails_tac].
  intros bs k Hk. unfold show_words. do 2 (apply fails_bind; intros ?). exact Hk.
Qed.

Lemma never_007 : fails None (procfs_run_007 lines more).
Proof.
  unfold procfs_run_007. do 2 (apply fails_bind; intros ?). destruct (_ =? NULL).
  - apply fails_bind. intros _. apply fails_tp_failed.
  - do 2 (apply fails_bind; intros ?). apply fails_print_lines. fails_tac.
Qed.

(** The page table entries of tests 8 and 13. *)
Lemma exact_013 : exact true false None (procfs_run_013 uninit) (script_013 uninit).
Proof.
  unfold procfs_run_013, script_013, getpid. cbn [bind trigger]. apply exact_any. intros pid. apply exact_free with true.
  apply exact_with_procfile; [apply fails_tp_failed| | | |].
  - intros bs k Hk. now apply fails_bind.
  - intros bs k s. apply exact_printf.
  - intros bs E. unfold no_page in E. apply andb_prop in E as [E1 E]. apply andb_prop in E as [E2 E3].
    rewrite E1, E2, E3. apply exact_ret.
  - intros bs E. unfold no_page in E. unfold tp_assert.
    repeat match goal with |- fails _ (if ?b then _ else _) => destruct b; [|fails_tac] end. discriminate E.
Qed.

Lemma exact_008 : exact true false None (procfs_run_008 uninit) (script_008 uninit).
Proof.
  unfold procfs_run_008, script_008, getpid, calloc. cbn [bind trigger]. apply exact_any. intros pid.
  apply exact_call; intros buf1 E; [apply negb_true_iff in E|apply negb_false_iff in E]; rewrite E; cbn [bind]; [rewrite E|].
  2: { intros K w. cbn. discriminate. }
  cbv zeta. apply exact_printf, exact_stores, exact_with_procfile; [fails_tac| | | |].
  - intros bs k Hk. now apply fails_bind.
  - intros bs k s. apply exact_printf.
  - intros bs Eb. unfold mapped_page in Eb. apply andb_prop in Eb as [E1 Eb]. apply andb_prop in Eb as [E2 E3].
    rewrite E1, E2, E3. unfold tp_assert, free. cbn [bind trigger]. apply exact_any. intros _. apply exact_free with true, exact_ret.
  - intros bs Eb. unfold mapped_page in Eb. unfold tp_assert.
    repeat match goal with |- fails _ (if ?b then _ else _) => destruct b; [|fails_tac] end. discriminate Eb.
Qed.

(** After the run function of test 12. *)
Lemma exact_teardown_012 fd1 fd2 m :
  not_err fd1 = true -> not_err fd2 = true -> m <> MAP_FAILED ->
  exact false false tt (procfs_teardown_012 12 (Procfs12 fd1 fd2 m))
    (any (Close fd1) (fun _ => any (Munmap m PAGE_SIZE) (fun _ => any (Close fd2) (fun _ => Met)))).
Proof.
  intros E1 E2 Em. unfold procfs_teardown_012. cbn [procfd devfd devmap].
  rewrite (not_err_neg1 _ E1), (not_err_neg1 _ E2), (proj2 (Z.eqb_neq _ _) Em). cbn [negb]. unfold close, munmap.
  apply (exact_then_unit tt _ _ (any (Close fd1) (fun _ => Met))); [|apply (exact_then_unit tt _ _ (any (Munmap m PAGE_SIZE) (fun _ => Met)))].
  - apply (exact_ignored false tt (Close fd1) (fun r => r)), exact_ret.
  - apply (exact_ignored false tt (Munmap m PAGE_SIZE) (fun r => r)), exact_ret.
  - apply (exact_ignored false tt (Close fd2) (fun r => r)), exact_ret.
Qed.

(** A step of test 12: the run function is followed by the teardown. *)
Local Abbreviation finish p := (let* (msg, st) := p in procfs_teardown_012 12 st ;; Ret msg).

Lemma fails_finish (p : prog (result * procfs12)) : (forall st, fails (None, st) p) -> fails None (finish p).
Proof.
  intros Hp K w. rewrite run_bind. destruct (run K p w) as [[[[msg|] st]|n|n] w'] eqn:E; try discriminate.
  - apply fails_bind. intros _. now apply fails_ret.
  - intros _. apply (Hp st K w). exact (f_equal fst E).
Qed.

Lemma exact_finish z z' c (f : ans c -> Z) (k : Z -> prog (result * procfs12)) ok s :
  (forall st, fails (None, st) (k (-1))) ->
  (forall r, ok r = true -> not_err (f r) = true /\ exact z z' None (finish (k (f r))) (s r)) ->
  (forall r st, ok r = false -> not_err (f r) = true -> fails (None, st) (k (f r))) ->
  exact z z' None (finish (x <- (r <- trigger c ;; syscall_ret (-1) (f r)) ;; k x)) (Need c ok s).
Proof.
  intros Hf Hk Hg. cbn [bind trigger]. apply exact_call; intros r E.
  - destruct (Hk r E) as [En He]. apply negb_true_iff in En. unfold syscall_ret. rewrite En. exact He.
  - apply fails_finish. intros st. apply fails_syscall. unfold sysret. destruct (is_err (f r)) eqn:En; [apply Hf|].
    apply Hg; [exact E|]. unfold not_err. now rewrite En.
Qed.

Lemma exact_finish_opens z z' path flags (k : Z -> prog (result * procfs12)) s :
  (forall st, fails (None, st) (k (-1))) ->
  (forall fd : Z, not_err fd = true -> exact z z' None (finish (k fd)) (s fd)) ->
  exact z z' None (finish (fd <- open path flags ;; k fd)) (Need (Open path flags) not_err s).
Proof.
  intros Hf Hk. apply (exact_finish z z' (Open path flags) (fun r => r)); [exact Hf|auto|]. intros r st E E'. congruence.
Qed.

(** The last step: [read] must fail with [EIO], and [errno] was 0. *)
Lemma exact_read_EIO fd st s :
  exact false false tt (procfs_teardown_012 12 st) s ->
  exact true false None
    (finish (let* (status, _) := read fd 1 in
             if negb (i32 status =? -1) then Ret (Some "read success.", st)
             else e <- errno ;; if negb (e =? EIO) then Ret (Some "invalid errno.", st) else Ret (None, st)))
    (Need (Read fd 1) (fun r => fst r =? - EIO) (fun _ => s)).
Proof.
  intros Ht K [pr sk] Hz. specialize (Hz eq_refl). cbn [w_proc] in Hz. unfold read. cbn [bind trigger run meets w_k w_proc].
  destruct (kstep K (Read fd 1) sk) as [sk' [n bs]]. cbn [fst snd]. destruct (Z.eqb_spec n (- EIO)) as [->|Hn].
  - pose proof (exact_then_unit (None : result) _ _ s Met Ht (exact_ret false None) K (World (with_errno EIO pr) sk')
      ltac:(discriminate)) as X.
    rewrite meets_andthen in X. cbn [w_k] in X. destruct (meets K s sk'); exact X.
  - unfold syscall_ret. destruct (is_err n) eqn:En; cbn [bind set_errno run w_proc w_k].
    + change (i32 (-1) =? -1) with true. cbn [negb bind errno run w_proc w_k id p_errno with_errno].
      rewrite (proj2 (Z.eqb_neq (- n) EIO)) by lia. cbn [negb bind]. apply fails_bind. intros _. now apply fails_ret.
    + destruct (i32 n =? -1); cbn [negb bind errno run w_proc w_k id];
        [rewrite Hz; change (0 =? EIO) with false; cbn [negb bind]|]; apply fails_bind; intros _; now apply fails_ret.
Qed.

Lemma exact_012 argv : exact true false None (run_test_case (procfs12_case BUF_RESET) argv) (script_012 BUF_RESET).
Proof.
  change (exact true false None (finish (procfs_run_012 BUF_RESET)) (script_012 BUF_RESET)).
  unfold procfs_run_012, script_012. apply exact_finish_opens; [intros; fails_tac|]. intros devfd Ed. rewrite (not_err_neg1 _ Ed).
  unfold ioctl. apply (exact_finish true false (Filec (Ioctl devfd BUF_RESET)) (fun r => r));
    [intros; fails_tac| |intros; congruence]. intros r Er. split; [exact Er|]. rewrite (not_err_neg1 _ Er).
  apply exact_assoc, exact_maps; [rewrite Z.eqb_refl; now apply fails_finish; intros; fails_tac|]. clear r Er.
  intros m Em. rewrite (proj2 (Z.eqb_neq _ _) Em).
  unfold store. cbn [bind trigger]. apply exact_call; intros [[]|n] Es; try discriminate; [|cbn; apply fails_raise].
  cbn [or_raise bind]. apply exact_finish_opens; [intros; fails_tac|]. intros procfd Ep. rewrite (not_err_neg1 _ Ep).
  unfold lseek. apply (exact_finish true false (Lseek procfd m SEEK_SET) (fun r => r)).
  { intros st. fails_tac. }
  2: { intros l st E En'. rewrite En' in E. apply negb_false_iff in E. rewrite E. fails_tac. }
  intros l El. apply andb_prop in El as [El Ei]. apply negb_true_iff in Ei. split; [exact El|]. rewrite Ei.
  now apply exact_read_EIO, exact_teardown_012.
Qed.

Lemma suite_returns argv :
  Forall2 (fun tc o => returns_NULL o (run_test_case tc argv)) (procfs_cases uninit undefined lines more BUF_RESET)
    (procfs_scripts uninit BUF_RESET).
Proof.
  repeat constructor; try apply plain_case; cbn [returns_NULL];
    auto using never_000, never_001, never_007, fails_run_thread, fails_cat_file, exact_008, exact_012, exact_013;
    first [apply fails_run_thread | apply fails_cat_file | apply fails_bind; intros pid; first [apply fails_cat_file | apply fails_mem_of_pages]].
Qed.

(** C29.  What a pass of [procfs] is evidence of, on any system: started with
    [errno] 0, tests 8, 12 and 13 return [NULL] exactly if the answers of the kernel
    meet their scripts (a present entry with page shift 16 and a frame for the page
    written; [EIO] for a read of device memory through [/proc/self/mem]; an entry
    that is not present, with page shift 16 and no frame, for address 0), and leave
    the system after the last call of the script; no answers make any of
    the other eleven tests return [NULL].  What the program does after an index beyond
    [auxv_name] or after more lines than [lines] is assumed not to be that. *)
Theorem procfs_exact : verdicts_exact (procfs_cases uninit undefined lines more BUF_RESET) (procfs_scripts uninit BUF_RESET).
Proof. apply cases_exact, suite_returns. Qed.
End Exactness.

(** A kernel with a page map whose entry is [e] everywhere. *)
Definition pagemap_kernel (e : list Z) : kernel :=
  Kernel unit (fun c s => (s, match c return ans c with
    | Procs Getpid => 1000
    | Misc (Calloc _ _) => 0x10008
    | Store _ _ => inl tt
    | Free _ => tt
    | Open _ _ => 3
    | Lseek _ off _ => off
    | Read _ _ => (8, e)
    | Close _ => 0
    | c => enosys c
    end)).
Definition pagemap_world (e : list Z) : world (pagemap_kernel e) := World proc0 (tt : kstate (pagemap_kernel e)).
(** The entry 0x8800000000000042: present, page shift 16, frame 0x42. *)
Definition an_entry : list Z := [0x42; 0; 0; 0; 0; 0; 0; 0x88].
Definition sample_cases : list test_case := @procfs_cases config_64K [] (Exit 139) 100 (Exit 1) 0.

Definition sample_scripts : list (option script) := @procfs_scripts config_64K [] 0.
Definition sample_case (i : nat) : test_case := nth i sample_cases (procfs_case 0 (Ret None)).
Definition sample_script (i : nat) : option script := nth i sample_scripts None.

Lemma sample_in i : (i < 14)%nat -> (sample_case i, sample_script i) ∈ zip sample_cases sample_scripts.
Proof.
  intros Hi. apply list_elem_of_lookup. exists i. apply lookup_zip_Some.
  do 14 (destruct i as [|i]; [split; reflexivity|]). lia.
Qed.

(** With that page map test 8 passes, and 13 does not; nor does test 6. *)
Lemma procfs_exact_witness :
  fst (run (pagemap_kernel an_entry) (run_test_case (sample_case 8) []) (pagemap_world an_entry)) = Done None /\
  fst (run (pagemap_kernel an_entry) (run_test_case (sample_case 13) []) (pagemap_world an_entry)) <> Done None /\
  fst (run (pagemap_kernel an_entry) (run_test_case (sample_case 6) []) (pagemap_world an_entry)) <> Done None.
Proof.
  pose proof (fun i (Hi : (i < 14)%nat) => @procfs_exact config_64K [] (Exit 139) 100 (Exit 1) 0 (fails_exit None 139) (fails_exit None 1)
      (pagemap_kernel an_entry) (pagemap_world an_entry) (sample_case i) (sample_script i) [] eq_refl (sample_in i Hi)) as X.
  split; [|split].
  - specialize (X 8%nat ltac:(lia)). change (sample_script 8) with (Some (@script_008 config_64K [])) in X. cbv iota in X.
    replace (meets (pagemap_kernel an_entry) (@script_008 config_64K []) (w_k (pagemap_world an_entry))) with (Some tt) in X
      by (vm_compute; reflexivity). exact (proj1 X).
  - specialize (X 13%nat ltac:(lia)). change (sample_script 13) with (Some (script_013 [])) in X. cbv iota in X.
    replace (meets (pagemap_kernel an_entry) (script_013 []) (w_k (pagemap_world an_entry))) with (None : option unit) in X
      by (vm_compute; reflexivity). exact X.
  - exact (X 6%nat ltac:(lia)).
Defined.
