(* ===== verification/SmallSuites.v ===== *)
(** * Small suites

    [mem_limits] 0, [page_fault_forwording] 0-2, [nfo] 0, 1 and 3, [enosys] 0-2 and
    [gettid] 0: allocation up to a limit, memory touched by the kernel, reads of pages
    that were never written, system calls that must not exist. *)
From S2P Require Import Prelude Process Trace CLib Arch TestMck Exact AddrSpace FileMap MemLarge Forks Levels Procfs.
From Stdlib Require Import Ascii String.
#[local] Open Scope string_scope.
#[local] Open Scope Z_scope.

Section Suites.
Context `{ArchConfig}.
(** Bounds of the endless loop of [mem_limits] and of printed texts, and what follows
    them. *)
Context (rounds : nat) (bound : nat) (more : prog result).

(** ** [mem_limits/000.c] *)

Inductive mem_limits_function := MEM_LIMITS_FN_NULL | MEM_LIMITS_FN_MALLOC | MEM_LIMITS_FN_MMAP | MEM_LIMITS_FN_BRK.

Record mem_limits_args := MemLimitsArgs { ml_fn : mem_limits_function; ml_size : Z; ml_count : Z }.

Definition MEM_LIMITS_COUNT_INFINITE : Z := -1.

Definition str2func (str : string) : mem_limits_function :=
  if String.eqb str "malloc" then MEM_LIMITS_FN_MALLOC
  else if String.eqb str "mmap" then MEM_LIMITS_FN_MMAP
  else if String.eqb str "brk" then MEM_LIMITS_FN_BRK
  else MEM_LIMITS_FN_NULL.

Fixpoint mem_limits_options (evs : list optev) (args : mem_limits_args) : mem_limits_args :=
  match evs with
  | [] => args
  | Opt c optarg :: evs' =>
      mem_limits_options evs'
        (if Ascii.eqb c "f" then MemLimitsArgs (str2func optarg) (ml_size args) (ml_count args)
         else if Ascii.eqb c "s" then MemLimitsArgs (ml_fn args) (cv_val (strtoul optarg 10)) (ml_count args)
         else if Ascii.eqb c "c" then MemLimitsArgs (ml_fn args) (ml_size args) (cv_val (strtoll optarg 10))
         else if Ascii.eqb c "S" then
           (if String.eqb optarg "mmap" then MemLimitsArgs (ml_fn args) MMAP_AREA_SIZE (ml_count args) else args)
         else args)
  | OptErr :: evs' => mem_limits_options evs' args
  end.

Definition mem_limits_setup (tc_num : Z) (tc_argv : list string) : prog mem_limits_args :=
  Ret (mem_limits_options (fst (getopt "f:s:c:S:" (tail tc_argv))) (MemLimitsArgs MEM_LIMITS_FN_NULL 0 MEM_LIMITS_COUNT_INFINITE)).

(** [for (off = 0; off < size; off += PAGE_SIZE) *(p + off) = 'Z';] in at most [n]
    rounds. *)
Fixpoint touch (n : nat) (p off size : Z) (k : prog result) : prog result :=
  if off <? size then
    match n with
    | O => more
    | S n => store (p + off) 90 ;; touch n p (u64 (off + PAGE_SIZE)) size k
    end
  else k.
Definition touch_all (p size : Z) (k : prog result) : prog result := touch (Z.to_nat (size / PAGE_SIZE + 1)) p 0 size k.

Definition malloc_round (size : Z) (k : prog result) : prog result :=
  p <- malloc size ;;
  tp_assert! (negb (p =? NULL), Some "out of memory.(malloc)") ;;
  touch_all p size k.
Definition mmap_round (size : Z) (k : prog result) : prog result :=
  p <- mmap NULL size PROT_WRITE (Z.lor (Z.lor MAP_PRIVATE MAP_ANONYMOUS) MAP_POPULATE) (-1) 0 ;;
  tp_assert! (negb (p =? MAP_FAILED), Some "out of memory.(mmap)") ;;
  touch_all p size k.
Definition brk_round (size : Z) (k : prog result) : prog result :=
  old <- sbrk 0 ;;
  tp_assert! (negb (old =? MAP_FAILED), Some "sbrk error.") ;;
  p <- sbrk (i64 size) ;;
  tp_assert! (negb (p =? MAP_FAILED), Some "out of memory.(brk)") ;;
  new <- sbrk 0 ;;
  tp_assert! (negb (new =? MAP_FAILED), Some "sbrk error.") ;;
  tp_assert! (new =? u64 (old + size), Some "sbrk error.(size)") ;;
  touch_all p size k.

(** [for (i = 0; i < count || count == MEM_LIMITS_COUNT_INFINITE; i++)] *)
Fixpoint repeat_rounds (n : nat) (fin : prog result) (round : prog result -> prog result) : prog result :=
  match n with O => fin | S n => round (repeat_rounds n fin round) end.
Definition limits_loop (round : prog result -> prog result) (count : Z) : prog result :=
  if count =? MEM_LIMITS_COUNT_INFINITE then repeat_rounds rounds more round
  else repeat_rounds (Z.to_nat count) (Ret None) round.

Definition do_malloc (size count : Z) : prog result := limits_loop (malloc_round size) count.
Definition do_mmap (size count : Z) : prog result := limits_loop (mmap_round size) count.
Definition do_brk (size count : Z) : prog result := limits_loop (brk_round size) count.

Definition mem_limits_run (tc_num : Z) (args : mem_limits_args) : prog result :=
  tp_assert! (match ml_fn args with MEM_LIMITS_FN_NULL => false | _ => true end, Some "invalid parameter(-f).") ;;
  tp_assert! (negb (ml_size args =? 0), Some "invalid paramter(-s).") ;;
  tp_assert! ((0 <=? ml_count args) || (ml_count args =? MEM_LIMITS_COUNT_INFINITE), Some "invalid paramter(-c).") ;;
  match ml_fn args with
  | MEM_LIMITS_FN_MALLOC => do_malloc (ml_size args) (ml_count args)
  | MEM_LIMITS_FN_MMAP => do_mmap (ml_size args) (ml_count args)
  | MEM_LIMITS_FN_BRK => do_brk (ml_size args) (ml_count args)
  | MEM_LIMITS_FN_NULL => Ret (Some "internal error.")
  end.

Definition mem_limits0 : test_case :=
  TestCase "mem_limits" 0 mem_limits_args mem_limits_setup (run_const mem_limits_run) TEARDOWN_EMPTY.

(** ** [page_fault_forwording] *)

Definition hello : string := "hello world".
Definition pff_run_000 : prog result := printf "%s\n" [PS hello] ;; Ret None.

(** The printed line of the other two. *)
Definition copy_and_print (addr : Z) (k : prog result) : prog result :=
  strcpy addr hello ;;
  load_string more bound addr (fun s => printf "%s\n" [PS s] ;; k).

(** The static [addr] and [addr_size]. *)
Definition pff_run_001 (tc_num : Z) (st : Z * Z) : prog (result * (Z * Z)) :=
  let addr_size := Z.of_nat (S (String.length hello)) in
  addr <- mmap NULL addr_size (Z.lor PROT_READ PROT_WRITE) (Z.lor MAP_PRIVATE MAP_ANONYMOUS) (-1) 0 ;;
  if addr =? MAP_FAILED then Ret (Some "mmap error.", (addr, addr_size))
  else r <- copy_and_print addr (Ret None) ;; Ret (r, (addr, addr_size)).
Definition pff_teardown_001 (tc_num : Z) (st : Z * Z) : prog unit :=
  if negb (fst st =? MAP_FAILED) then munmap (fst st) (snd st) ;; Ret tt else Ret tt.

Definition pff_run_002 (tc_num : Z) (st : Z) : prog (result * Z) :=
  addr <- sbrk (Z.of_nat (S (String.length hello))) ;;
  r <- copy_and_print addr (Ret None) ;; Ret (r, addr).
Definition pff_teardown_002 (tc_num : Z) (addr : Z) : prog unit :=
  if negb (addr =? MAP_FAILED) then brk addr ;; Ret tt else Ret tt.

Definition page_fault_forwording0 : test_case :=
  TestCase "page_fault_forwording" 0 unit SETUP_EMPTY (run_const (fun _ _ => pff_run_000)) TEARDOWN_EMPTY.
Definition page_fault_forwording1 : test_case :=
  TestCase "page_fault_forwording" 1 (Z * Z) (fun _ _ => Ret (MAP_FAILED, 0)) pff_run_001 pff_teardown_001.
Definition page_fault_forwording2 : test_case :=
  TestCase "page_fault_forwording" 2 Z (fun _ _ => Ret MAP_FAILED) pff_run_002 pff_teardown_002.

(** ** [enosys] *)

Definition syscall (nr : Z) : prog Z := r <- (trigger (Misc (Syscall nr)) : prog Z) ;; syscall_ret (-1) r.

Definition NR_migrate_pages : Z := 238.
Definition NR_move_pages : Z := 239.
Definition NR_mbind : Z := 235.
Definition NR_get_mempolicy : Z := 236.
Definition NR_set_mempolicy : Z := 237.

Fixpoint enosys_run (sysnums : list Z) : prog result :=
  match sysnums with
  | [] => Ret None
  | nr :: sysnums' =>
      r <- syscall nr ;;
      tp_assert! (i32 r =? -1, Some "syscall error") ;;
      num <- errno ;;
      tp_assert! (num =? ENOSYS, Some "errno error") ;;
      enosys_run sysnums'
  end.
Definition enosys_000 : list Z := [NR_move_pages; NR_migrate_pages; NR_mbind; NR_get_mempolicy; NR_set_mempolicy].
Definition enosys_001 : list Z := [NR_move_pages; NR_migrate_pages].
Definition enosys_002 : list Z := [NR_migrate_pages].
Definition enosys_case (n : Z) (sysnums : list Z) : test_case :=
  TestCase "enosys" n unit SETUP_EMPTY (run_const (fun _ _ => enosys_run sysnums)) TEARDOWN_EMPTY.

(** ** [gettid/000.c] *)

Definition gettid_run_000 : prog result :=
  pid <- getpid ;;
  tid <- gettid ;;
  printf "PID=%d, TID=%d\n" [PZ pid; PZ tid] ;;
  tp_assert! (pid =? tid, Some "PID and TID do not match.") ;;
  Ret None.
Definition gettid0 : test_case :=
  TestCase "gettid" 0 unit SETUP_EMPTY (run_const (fun _ _ => gettid_run_000)) TEARDOWN_EMPTY.

(** ** [nfo] *)

(** [memcmp] of two blocks of memory whose result is not used. *)
Fixpoint compare_blocks (n : nat) (a b : Z) : prog unit :=
  match n with
  | O => Ret tt
  | S n => x <- load a ;; y <- load b ;; if x =? y then compare_blocks n (a + 1) (b + 1) else Ret tt
  end.
Definition compare_both (b0 b1 : Z) : prog unit :=
  compare_blocks (Z.to_nat PAGE_SIZE) b0 b1 ;; compare_blocks (Z.to_nat PAGE_SIZE) b1 b0.

(** Two pages; [k] gets the result and the array [buf]. *)
Definition nfo_map {A} (fmt : string) (k : result -> Z * Z -> prog A) : prog A :=
  b0 <- mmap NULL PAGE_SIZE PROT_READ (Z.lor MAP_PRIVATE MAP_ANONYMOUS) (-1) 0 ;;
  if b0 =? MAP_FAILED then k (Some "out of memory.(mmap)") (b0, MAP_FAILED)
  else
    printf fmt [PZ 0; PZ b0] ;;
    b1 <- mmap NULL PAGE_SIZE PROT_READ (Z.lor MAP_PRIVATE MAP_ANONYMOUS) (-1) 0 ;;
    if b1 =? MAP_FAILED then k (Some "out of memory.(mmap)") (b0, b1)
    else printf fmt [PZ 1; PZ b1] ;; k None (b0, b1).

Definition nfo_run_000 (tc_num : Z) (st : Z * Z) : prog (result * (Z * Z)) :=
  nfo_map "buf[%d]=%p\n" (fun r buf =>
    match r with
    | Some _ => Ret (r, buf)
    | None => compare_both (fst buf) (snd buf) ;; Ret (None, buf)
    end).
Definition nfo_unmap (b : Z) : prog unit := if negb (b =? MAP_FAILED) then munmap b PAGE_SIZE ;; Ret tt else Ret tt.
Definition nfo_teardown (tc_num : Z) (buf : Z * Z) : prog unit := nfo_unmap (fst buf) ;; nfo_unmap (snd buf).
Definition nfo0 : test_case := TestCase "nfo" 0 (Z * Z) (fun _ _ => Ret (MAP_FAILED, MAP_FAILED)) nfo_run_000 nfo_teardown.

(** [func] of test 1, called by both threads. *)
Definition nfo_func : prog result :=
  nfo_map "mmap:buf[%d]=%p\n" (fun r buf =>
    match r with Some _ => Ret r | None => compare_both (fst buf) (snd buf) ;; Ret None end).
Definition nfo_run_001 : prog result :=
  ret <- nfo_func ;;
  match ret with
  | Some _ => Ret ret
  | None =>
      state <- pthread_create ;;
      tp_assert! (state =? 0, Some "pthread_create error.") ;;
      ret <- nfo_func ;;
      state <- pthread_join ;;
      tp_assert! (state =? 0, Some "pthread_join error.") ;;
      match ret with Some _ => Ret ret | None => Ret None end
  end.
Definition nfo1 : test_case := TestCase "nfo" 1 unit SETUP_EMPTY (run_const (fun _ _ => nfo_run_001)) TEARDOWN_EMPTY.

(** [sig_handler] of test 3 exits with 0 on [SIGSEGV]. *)
Definition nfo_run_003 (tc_num : Z) (st : Z * Z) : prog (result * (Z * Z)) :=
  nfo_map "buf[%d]=%p\n" (fun r buf =>
    match r with
    | Some _ => Ret (r, buf)
    | None =>
        state <- sigaction SIGSEGV (HExit 0) ;;
        if state =? -1 then Ret (Some "setup signal handler error.", buf)
        else
          compare_both (fst buf) (snd buf) ;;
          store ((if fst buf <? snd buf then snd buf else fst buf) + PAGE_SIZE) 90 ;;
          Ret (Some "handle sigsegv error.", buf)
    end).
Definition nfo3 : test_case := TestCase "nfo" 3 (Z * Z) (fun _ _ => Ret (MAP_FAILED, MAP_FAILED)) nfo_run_003 nfo_teardown.
End Suites.
