(* ===== verification/SmallThms.v ===== *)
(** * What a pass of the small suites is evidence of

    A script for each case of [SmallSuites], and the proof that the case returns
    [NULL] exactly if the answers of the system meet it. *)
From S2P Require Import Prelude Process Trace CLib Arch TestMck Exact AddrSpace FileMap MemLarge Forks Levels Procfs SmallSuites.
From Stdlib Require Import Ascii String.
#[local] Open Scope string_scope.
#[local] Open Scope Z_scope.

Section Scripts.
Context `{ArchConfig} (bound : nat).

(** A script that is never met. *)
Definition never : script := Need (Procs Getpid) (fun _ => false) (fun _ => Met).

(** The first byte of each of [n] pages is written. *)
Fixpoint pages_script (n : nat) (p : Z) (s : script) : script :=
  match n with O => s | S n => stores p 90 (pages_script n (p + PAGE_SIZE) s) end.
Definition page_count (size : Z) : nat := Z.to_nat ((size + PAGE_SIZE - 1) / PAGE_SIZE).

Definition round_script (fn : mem_limits_function) (size : Z) (s : script) : script :=
  let touched p := pages_script (page_count size) p s in
  match fn with
  | MEM_LIMITS_FN_MALLOC => Need (Malloc size) (fun p => negb (p =? NULL)) (fun p => touched p)
  | MEM_LIMITS_FN_MMAP => maps NULL size PROT_WRITE (Z.lor (Z.lor MAP_PRIVATE MAP_ANONYMOUS) MAP_POPULATE) (-1) 0 touched
  | MEM_LIMITS_FN_BRK =>
      Need (Memc (Sbrk 0)) got (fun old =>
      Need (Memc (Sbrk (i64 size))) got (fun p =>
      Need (Memc (Sbrk 0)) (fun new => got new && (new =? u64 (old + size))) (fun _ => touched p)))
  | MEM_LIMITS_FN_NULL => never
  end.
Fixpoint rounds_script (n : nat) (fn : mem_limits_function) (size : Z) : script :=
  match n with O => Met | S n => round_script fn size (rounds_script n fn size) end.

(** The arguments name a function, a size and a number of rounds; a test without end
    does not return [NULL]. *)
Definition mem_limits_script (args : mem_limits_args) : option script :=
  match ml_fn args with
  | MEM_LIMITS_FN_NULL => None
  | fn => if (ml_size args =? 0) || (ml_count args <? 0) then None else Some (rounds_script (Z.to_nat (ml_count args)) fn (ml_size args))
  end.

Fixpoint stores_script (a : Z) (bytes : list Z) (s : script) : script :=
  match bytes with [] => s | b :: bytes' => stores a b (stores_script (a + 1) bytes' s) end.
Definition byte_read (r : Z + Z) : Z := match r with inl v => v | inr _ => 0 end.
Definition readable (r : Z + Z) : bool := match r with inl _ => true | inr _ => false end.
(** Bytes are read up to a zero. *)
Fixpoint text_script (n : nat) (a : Z) (s : script) : script :=
  match n with
  | O => never
  | S n => Need (Load a) readable (fun r => if byte_read r =? 0 then s else text_script n (a + 1) s)
  end.
Definition hello_script (a : Z) (s : script) : script := stores_script a (c_string hello) (text_script bound a s).

Definition pff_script_001 : script :=
  maps NULL 12 (Z.lor PROT_READ PROT_WRITE) (Z.lor MAP_PRIVATE MAP_ANONYMOUS) (-1) 0 (fun a =>
    andthen (hello_script a Met) (any (Munmap a 12) (fun _ => Met))).
(** The result of [sbrk] is not looked at. *)
Definition pff_script_002 : script :=
  any (Memc (Sbrk 12)) (fun r =>
    let a := if is_err r then MAP_FAILED else r in
    andthen (hello_script a Met) (if negb (a =? MAP_FAILED) then any (Memc (Brk a)) (fun _ => Met) else Met)).

(** [errno] is [ENOSYS] after the first call: from then on a result whose lower half
    is -1 passes as well. *)
Fixpoint enosys_script (first : bool) (sysnums : list Z) : script :=
  match sysnums with
  | [] => Met
  | nr :: sysnums' =>
      Need (Misc (Syscall nr)) (fun r => ((r : Z) =? - ENOSYS) || negb first && (not_err r && (i32 r =? -1)))
        (fun _ => enosys_script false sysnums')
  end.

Definition gettid_script : script :=
  any (Procs Getpid) (fun pid => Need Gettid (fun tid => (pid : Z) =? tid) (fun _ => Met)).

Fixpoint cmp_script (n : nat) (a b : Z) (s : script) : script :=
  match n with
  | O => s
  | S n => Need (Load a) readable (fun x => Need (Load b) readable (fun y =>
             if byte_read x =? byte_read y then cmp_script n (a + 1) (b + 1) s else s))
  end.
Definition both_script (b0 b1 : Z) (s : script) : script :=
  cmp_script (Z.to_nat PAGE_SIZE) b0 b1 (cmp_script (Z.to_nat PAGE_SIZE) b1 b0 s).
Definition two_pages (s : Z -> Z -> script) : script :=
  maps NULL PAGE_SIZE PROT_READ (Z.lor MAP_PRIVATE MAP_ANONYMOUS) (-1) 0 (fun b0 =>
  maps NULL PAGE_SIZE PROT_READ (Z.lor MAP_PRIVATE MAP_ANONYMOUS) (-1) 0 (fun b1 => s b0 b1)).

Definition nfo_script_000 : script :=
  two_pages (fun b0 b1 => both_script b0 b1 (any (Munmap b0 PAGE_SIZE) (fun _ => any (Munmap b1 PAGE_SIZE) (fun _ => Met)))).
Definition nfo_script_001 : script :=
  two_pages (fun b0 b1 => both_script b0 b1
    (Need (Misc PthreadCreate) (fun r => (r : Z) =? 0) (fun _ =>
      two_pages (fun b0 b1 => both_script b0 b1
        (Need (Misc PthreadJoin) (fun r => (r : Z) =? 0) (fun _ => Met)))))).
End Scripts.

Section Proofs.
Context `{ArchConfig} (rounds bound : nat) (more : prog result) (Hm : fails None more).
Context (z z' : bool).

(** ** [mem_limits] *)

Lemma exact_touch p size k s : size <= 2 ^ 64 - PAGE_SIZE -> exact z z' None k s -> forall m n off,
  (m <= n)%nat -> 0 <= off -> off + PAGE_SIZE * (Z.of_nat m - 1) < size <= off + PAGE_SIZE * Z.of_nat m ->
  exact z z' None (touch more n p off size k) (pages_script m (p + off) s).
Proof.
  pose proof PAGE_SIZE_pos as HP. intros Hs Hk. induction m as [|m IH]; intros n off Hn Ho Hr.
  - destruct n; cbn [touch pages_script]; rewrite (proj2 (Z.ltb_ge off size)) by lia; exact Hk.
  - assert (E : Z.of_nat (S m) - 1 = Z.of_nat m) by lia. rewrite E in Hr. assert (Hlt : off < size) by nia.
    destruct n as [|n]; [lia|]. cbn [touch pages_script]. rewrite (proj2 (Z.ltb_lt off size)) by exact Hlt.
    apply exact_stores. rewrite u64_small by lia. rewrite <- Z.add_assoc. apply IH; nia.
Qed.

Lemma exact_touch_all p size k s : 0 < size <= 2 ^ 64 - PAGE_SIZE -> exact z z' None k s ->
  exact z z' None (touch_all more p size k) (pages_script (page_count size) p s).
Proof.
  pose proof PAGE_SIZE_pos as HP. intros Hs Hk. unfold touch_all, page_count. rewrite <- (Z.add_0_r p) at 2.
  assert (HP0 : PAGE_SIZE <> 0) by lia. assert (Hn : 0 <= size + PAGE_SIZE - 1) by lia.
  pose proof (Z.div_mod _ _ HP0 : size + PAGE_SIZE - 1 = _). pose proof (Z.mod_pos_bound (size + PAGE_SIZE - 1) _ HP).
  pose proof (Z.div_pos _ _ Hn HP).
  apply exact_touch; [lia|exact Hk| |lia|rewrite Z2Nat.id by lia; nia].
  apply Z2Nat.inj_le; [lia|pose proof (Z.div_pos size PAGE_SIZE); lia|].
  transitivity ((size + 1 * PAGE_SIZE) / PAGE_SIZE); [apply Z.div_le_mono; lia|rewrite Z.div_add by lia; lia].
Qed.

Definition a_round (fn : mem_limits_function) (size : Z) : prog result -> prog result :=
  match fn with
  | MEM_LIMITS_FN_MALLOC => malloc_round more size
  | MEM_LIMITS_FN_MMAP => mmap_round more size
  | MEM_LIMITS_FN_BRK => brk_round more size
  | MEM_LIMITS_FN_NULL => fun _ => Ret (Some "")
  end.

Lemma exact_round fn size k s : 0 < size <= 2 ^ 64 - PAGE_SIZE -> fn <> MEM_LIMITS_FN_NULL -> exact z z' None k s ->
  exact z z' None (a_round fn size k) (round_script fn size s).
Proof.
  intros Hs Hfn Hk. destruct fn; cbn [a_round round_script]; [congruence| | |].
  - unfold malloc_round, malloc. cbn [bind trigger]. apply exact_call; intros p E.
    + apply negb_true_iff in E. rewrite E. cbn [bind]. rewrite E. now apply exact_touch_all.
    + apply negb_false_iff in E. rewrite E. intros K w. cbn. discriminate.
  - unfold mmap_round. apply exact_maps; [rewrite Z.eqb_refl; cbn; now apply fails_ret|]. intros p Ep.
    rewrite (proj2 (Z.eqb_neq _ _) Ep). now apply exact_touch_all.
  - unfold brk_round, sbrk. apply (exact_got z z' None (Memc (Sbrk 0)) (fun r => r)); [rewrite Z.eqb_refl; cbn; now apply fails_ret|].
    intros old Eo. rewrite (proj2 (Z.eqb_neq _ _) Eo). cbn [negb tp_assert].
    apply (exact_got z z' None (Memc (Sbrk (i64 size))) (fun r => r)); [rewrite Z.eqb_refl; cbn; now apply fails_ret|].
    intros p Ep. rewrite (proj2 (Z.eqb_neq _ _) Ep). cbn [negb tp_assert].
    apply (exact_ptr z z' None (Memc (Sbrk 0)) (fun r => r)); intros new E; unfold got, not_err in *.
    + apply andb_prop in E as [E E2]. apply andb_prop in E as [E0 E1]. split; [exact E0|]. rewrite E1, E2. now apply exact_touch_all.
    + unfold tp_assert. destruct (is_err new); [rewrite Z.eqb_refl; now apply fails_ret|]. cbn [negb andb] in E.
      destruct (new =? MAP_FAILED); [now apply fails_ret|]. cbn in E. cbn [negb]. rewrite E. now apply fails_ret.
Qed.

Lemma fails_round fn size k : fails None k -> fails None (a_round fn size k).
Proof.
  intros Hk. assert (Ht : forall p, fails None (touch_all more p size k)).
  { intros p. unfold touch_all. generalize (Z.to_nat (size / PAGE_SIZE + 1)), 0. intros n.
    induction n as [|n IH]; intros off; cbn [touch]; destruct (off <? size); try exact Hk; [exact Hm|].
    apply fails_bind. intros _. apply IH. }
  destruct fn; cbn [a_round]; [now apply fails_ret| | |]; unfold malloc_round, mmap_round, brk_round, tp_assert;
    repeat first [apply Ht | apply fails_bind; intros | now apply fails_ret
                 | match goal with |- fails _ (if ?b then _ else _) => destruct b end].
Qed.

End Proofs.

(** A test case whose setup only reads the command line. *)
Lemma run_const_case {M} suite n (setup0 : Z -> list string -> prog M) (m : M) (f : Z -> M -> prog result) argv K w :
  setup0 n argv = Ret m ->
  fst (run K (run_test_case (TestCase suite n M setup0 (run_const f) TEARDOWN_EMPTY) argv) w) = fst (run K (f n m) w).
Proof.
  intros E. unfold run_test_case. cbn -[run]. rewrite E. cbn [bind]. unfold run_const. rewrite !run_bind.
  destruct (run K (f n m) w) as [[v|x|x] w']; reflexivity.
Qed.

Section Cases.
Context `{ArchConfig} (rounds bound : nat) (more : prog result) (Hm : fails None more).

Lemma exact_rounds z n fn size : 0 < size <= 2 ^ 64 - PAGE_SIZE -> fn <> MEM_LIMITS_FN_NULL ->
  exact z z None (repeat_rounds n (Ret None) (a_round more fn size)) (rounds_script n fn size).
Proof.
  intros Hs Hfn. induction n as [|n IH]; cbn [repeat_rounds rounds_script]; [apply exact_ret|]. now apply exact_round.
Qed.

Lemma fails_rounds n fn size : fails None (repeat_rounds n more (a_round more fn size)).
Proof. induction n as [|n IH]; cbn [repeat_rounds]; [exact Hm|]. now apply fails_round. Qed.

Lemma mem_limits_run_rounds fn size count : fn <> MEM_LIMITS_FN_NULL -> size <> 0 ->
  mem_limits_run rounds more 0 (MemLimitsArgs fn size count) =
  if (0 <=? count) || (count =? -1) then limits_loop rounds more (a_round more fn size) count
  else Ret (Some "invalid paramter(-c).").
Proof.
  intros Hfn Hs. unfold mem_limits_run. cbn [ml_fn ml_size ml_count]. rewrite (proj2 (Z.eqb_neq _ _) Hs).
  destruct fn; [congruence|..]; reflexivity.
Qed.

Lemma mem_limits_returns args : ml_size args <= 2 ^ 64 - PAGE_SIZE -> 0 <= ml_size args ->
  returns_NULL (mem_limits_script args) (mem_limits_run rounds more 0 args).
Proof.
  destruct args as [fn size count]. cbn [ml_size]. intros Hs H0. unfold mem_limits_script. cbn [ml_fn ml_size ml_count].
  assert (Hbad : size = 0 -> fails None (mem_limits_run rounds more 0 (MemLimitsArgs fn size count))).
  { intros ->. unfold mem_limits_run, tp_assert. cbn [ml_fn ml_size Z.eqb negb]. destruct fn; now apply fails_ret. }
  assert (Hnull : fn = MEM_LIMITS_FN_NULL -> fails None (mem_limits_run rounds more 0 (MemLimitsArgs fn size count))).
  { intros ->. now apply fails_ret. }
  assert (Hgo : fn <> MEM_LIMITS_FN_NULL ->
    returns_NULL (if (size =? 0) || (count <? 0) then None else Some (rounds_script (Z.to_nat count) fn size))
      (mem_limits_run rounds more 0 (MemLimitsArgs fn size count))); [|destruct fn; [now apply Hnull|apply Hgo; discriminate..]].
  intros Hfn. destruct (Z.eqb_spec size 0) as [E|E]; [now apply Hbad|]. rewrite mem_limits_run_rounds by assumption. cbn [orb].
  unfold limits_loop, MEM_LIMITS_COUNT_INFINITE. destruct (Z.ltb_spec count 0) as [Hc|Hc]; cbn [returns_NULL].
  - rewrite (proj2 (Z.leb_gt 0 count)) by lia. cbn [orb]. destruct (count =? -1); [apply fails_rounds|now apply fails_ret].
  - rewrite (proj2 (Z.leb_le 0 count)) by lia. cbn [orb]. rewrite (proj2 (Z.eqb_neq count (-1))) by lia.
    apply exact_free with true. apply exact_rounds; [lia|exact Hfn].
Qed.

Lemma digits_nonneg base : 0 <= base -> forall str acc seen, 0 <= acc -> 0 <= fst (digits base acc seen str).
Proof.
  intros Hb. induction str as [|c str IH]; intros acc seen Ha; cbn [digits]; [exact Ha|].
  destruct (digit_in base c) as [d|] eqn:E; [|exact Ha]. apply IH. assert (0 <= d); [|nia].
  unfold digit_in, digit in E. repeat case_match; simplify_eq; bool_to_prop; lia.
Qed.

(** [strtoul] in base 10 is in the range of [unsigned long]. *)
Lemma strtoul_nonneg str : 0 <= cv_val (strtoul str 10).
Proof.
  unfold strtoul. destruct (sign (skip_spaces str)) as [neg s1]. change (magnitude 10 s1) with (digits 10 0 false s1).
  pose proof (digits_nonneg 10 ltac:(lia) s1 0 false ltac:(lia)) as Hd. destruct (digits 10 0 false s1) as [m seen].
  destruct (ULONG_MAX <? m); [discriminate|]. destruct neg; [apply u64_bound|exact Hd].
Qed.

Lemma options_nonneg evs : forall args, 0 <= ml_size args -> 0 <= ml_size (mem_limits_options evs args).
Proof.
  induction evs as [|[c optarg|] evs IH]; intros args Ha; cbn [mem_limits_options]; [exact Ha| |auto].
  apply IH. repeat case_match; cbn [ml_size]; auto using strtoul_nonneg. unfold MMAP_AREA_SIZE. apply u64_bound.
Qed.


(** ** The other suites *)

Lemma exact_store_all z z' bytes : forall a (k : prog result) s,
  exact z z' None k s -> exact z z' None (store_all a bytes ;; k) (stores_script a bytes s).
Proof.
  induction bytes as [|b bytes IH]; intros a k s Hk; cbn [store_all stores_script]; [exact Hk|].
  apply exact_assoc, exact_stores, IH, Hk.
Qed.

Lemma exact_load_string z z' n : forall a (k : string -> prog result) s,
  (forall t, exact z z' None (k t) s) -> exact z z' None (load_string more n a k) (text_script n a s).
Proof.
  induction n as [|n IH]; intros a k s Hk; cbn [load_string text_script].
  - intros K w _. cbn. destruct (kstep K (Procs Getpid) (w_k w)). apply Hm.
  - unfold load. cbn [bind trigger]. apply exact_call; intros [v|g] E; try discriminate; [|cbn; apply fails_raise].
    cbn [or_raise bind byte_read]. destruct (v =? 0); [apply Hk|]. apply IH. intros t. apply Hk.
Qed.

Lemma exact_copy_and_print z z' a (k : prog result) s :
  exact z z' None k s -> exact z z' None (copy_and_print bound more a k) (hello_script bound a s).
Proof. intros Hk. apply exact_store_all, exact_load_string. intros t. now apply exact_printf. Qed.

(** A run function that returns [None] with a fixed memory, and the teardown. *)
Lemma exact_teardown z {M} (p : prog result) (m : M) (td : M -> prog unit) s t :
  exact z false None p s -> exact false false tt (td m) t ->
  exact z false None (let* (msg, m') := (r <- p ;; Ret (r, m)) in td m' ;; Ret msg) (andthen s t).
Proof.
  intros Hp Ht. apply exact_assoc. apply (exact_bind z false false None None p _ s t Hp).
  - cbn [bind]. apply exact_andthen_met, (exact_then_unit None (td m) (Ret None) t Met Ht), exact_ret.
  - intros x Hx. cbn [bind]. apply fails_bind. intros _. now apply fails_ret.
Qed.

Lemma exact_pff_001 argv : exact true false None (run_test_case (page_fault_forwording1 bound more) argv) (pff_script_001 bound).
Proof.
  unfold run_test_case. cbn [setup page_fault_forwording1 bind tc_run num teardown]. unfold pff_run_001, pff_script_001.
  change (Z.of_nat (S (String.length hello))) with 12. apply exact_assoc, exact_maps.
  { rewrite Z.eqb_refl. cbn [bind]. apply fails_bind. intros _. now apply fails_ret. }
  intros a Ha. rewrite (proj2 (Z.eqb_neq _ _) Ha).
  apply (exact_teardown true (copy_and_print bound more a (Ret None)) (a, 12) (pff_teardown_001 1)).
  - apply exact_free with true, exact_copy_and_print, exact_ret.
  - unfold pff_teardown_001. cbn [fst snd]. rewrite (proj2 (Z.eqb_neq _ _) Ha). cbn [negb]. unfold munmap.
    apply (exact_ignored false tt (Munmap a 12) (fun r => r)), exact_ret.
Qed.

Lemma exact_pff_002 argv : exact true false None (run_test_case (page_fault_forwording2 bound more) argv) (pff_script_002 bound).
Proof.
  unfold run_test_case. cbn [setup page_fault_forwording2 bind tc_run num teardown]. unfold pff_run_002, pff_script_002, sbrk.
  change (Z.of_nat (S (String.length hello))) with 12. apply exact_assoc. cbn [bind trigger]. apply exact_any. intros r.
  apply exact_sysret_any. set (a := if is_err r then MAP_FAILED else r).
  apply (exact_teardown false (copy_and_print bound more a (Ret None)) a (pff_teardown_002 2)).
  - apply exact_copy_and_print, exact_ret.
  - unfold pff_teardown_002. destruct (negb (a =? MAP_FAILED)); [|apply exact_ret]. unfold brk.
    apply (exact_ignored false tt (Memc (Brk a)) (fun r => r)), exact_ret.
Qed.

Lemma exact_enosys sysnums : forall first K w,
  (if first : bool then p_errno (w_proc w) = 0 else p_errno (w_proc w) = ENOSYS) ->
  match meets K (enosys_script first sysnums) (w_k w) with
  | Some st => exists pr, run K (enosys_run sysnums) w = (Done None, World pr st)
  | None => fst (run K (enosys_run sysnums) w) <> Done None
  end.
Proof.
  induction sysnums as [|nr sysnums IH]; intros first K [pr st] He; cbn [enosys_run enosys_script meets w_k]; [eexists; reflexivity|].
  unfold syscall. cbn [bind trigger run w_k w_proc] in *. destruct (kstep K (Misc (Syscall nr)) st) as [st' r].
  unfold syscall_ret. destruct (Z.eqb_spec r (- ENOSYS)) as [->|Hr]; cbn [orb].
  - exact (IH false K (World (with_errno ENOSYS pr) st') eq_refl).
  - unfold not_err. destruct (is_err r) eqn:En; cbn [negb andb].
    + rewrite andb_false_r. cbn [bind set_errno run w_proc w_k]. change (i32 (-1) =? -1) with true.
      cbn [tp_assert bind errno run w_proc w_k id p_errno with_errno]. rewrite (proj2 (Z.eqb_neq (- r) ENOSYS)) by lia. discriminate.
    + cbn [bind]. destruct (i32 r =? -1); cbn [tp_assert bind errno run w_proc w_k id]; [|rewrite andb_false_r; discriminate].
      destruct first; cbn [negb andb]; rewrite He; [discriminate|].
      exact (IH false K (World pr st') He).
Qed.

Lemma exact_gettid : exact true false None gettid_run_000 gettid_script.
Proof.
  unfold gettid_run_000, gettid_script, getpid, gettid. cbn [bind trigger]. apply exact_any. intros pid.
  apply exact_call; intros tid E; unfold tp_assert; rewrite E.
  - apply exact_printf, exact_free with true, exact_ret.
  - apply fails_bind. intros _. now apply fails_ret.
Qed.

(** ** [nfo] *)

Lemma exact_compare z z' n : forall a b (k : prog result) s,
  exact z z' None k s -> exact z z' None (compare_blocks n a b ;; k) (cmp_script n a b s).
Proof.
  induction n as [|n IH]; intros a b k s Hk; cbn [compare_blocks cmp_script]; [exact Hk|].
  unfold load. cbn [bind trigger]. apply exact_call; intros [x|g] E; try discriminate; [|cbn; apply fails_raise].
  cbn [or_raise bind]. apply exact_call; intros [y|g] E'; try discriminate; [|cbn; apply fails_raise].
  cbn [or_raise bind byte_read]. destruct (x =? y); [now apply IH|exact Hk].
Qed.

Lemma exact_both z z' b0 b1 (k : prog result) s :
  exact z z' None k s -> exact z z' None (compare_both b0 b1 ;; k) (both_script b0 b1 s).
Proof. intros Hk. apply exact_assoc, exact_compare, exact_compare, Hk. Qed.

Lemma exact_two_pages z z' {B} fmt (k : result -> Z * Z -> prog B) (q : B -> prog result) s :
  (forall m buf, fails None (y <- k (Some m) buf ;; q y)) ->
  (forall b0 b1, b0 <> MAP_FAILED -> b1 <> MAP_FAILED -> exact z z' None (y <- k None (b0, b1) ;; q y) (s b0 b1)) ->
  exact z z' None (y <- nfo_map fmt k ;; q y) (two_pages s).
Proof.
  intros Hf Hk. unfold nfo_map, two_pages. apply exact_assoc, exact_maps; [rewrite Z.eqb_refl; apply Hf|].
  intros b0 H0. rewrite (proj2 (Z.eqb_neq _ _) H0). apply exact_assoc, exact_printf, exact_assoc, exact_maps; [rewrite Z.eqb_refl; apply Hf|].
  intros b1 H1. rewrite (proj2 (Z.eqb_neq _ _) H1). apply exact_assoc, exact_printf. now apply Hk.
Qed.

Lemma exact_nfo_000 argv : exact true false None (run_test_case nfo0 argv) nfo_script_000.
Proof.
  unfold run_test_case. cbn [setup nfo0 bind tc_run num teardown]. unfold nfo_run_000, nfo_script_000. apply exact_two_pages.
  - intros m buf. cbn [bind]. apply fails_bind. intros _. now apply fails_ret.
  - intros b0 b1 H0 H1. cbn [fst snd]. apply exact_assoc, exact_both. cbn [bind]. unfold nfo_teardown, nfo_unmap. cbn [fst snd].
    rewrite (proj2 (Z.eqb_neq _ _) H0), (proj2 (Z.eqb_neq _ _) H1). cbn [negb]. apply exact_pre, exact_assoc, exact_assoc.
    unfold munmap. apply (exact_ignored false None (Munmap b0 PAGE_SIZE) (fun r => r)). cbn [bind]. apply exact_assoc.
    apply (exact_ignored false None (Munmap b1 PAGE_SIZE) (fun r => r)), exact_ret.
Qed.

Lemma exact_nfo_func z z' (q : prog result) t :
  exact z z' None q t ->
  exact z z' None (ret <- nfo_func ;; match ret with Some _ => Ret ret | None => q end) (two_pages (fun b0 b1 => both_script b0 b1 t)).
Proof.
  intros Hq. unfold nfo_func. apply exact_two_pages.
  - intros m buf. cbn [bind]. now apply fails_ret.
  - intros b0 b1 _ _. cbn [fst snd]. now apply exact_assoc, exact_both.
Qed.

(** The thread's result is looked at after the join. *)
Lemma exact_nfo_thread z z' : z = z' ->
  exact z z' None (ret <- nfo_func ;; state <- pthread_join ;; tp_assert! (state =? 0, Some "pthread_join error.") ;;
                   match ret with Some _ => Ret ret | None => Ret None end)
    (two_pages (fun b0 b1 => both_script b0 b1 (Need (Misc PthreadJoin) (fun r => (r : Z) =? 0) (fun _ => Met)))).
Proof.
  intros <-. unfold nfo_func. apply exact_two_pages.
  - intros m buf. cbn [bind]. apply fails_bind. intros st. unfold tp_assert. destruct (st =? 0); now apply fails_ret.
  - intros b0 b1 _ _. cbn [fst snd]. apply exact_assoc, exact_both. cbn [bind]. unfold pthread_join. cbn [bind trigger].
    apply exact_call; intros r E; unfold tp_assert; rewrite E; [apply exact_ret|now apply fails_ret].
Qed.

Lemma exact_nfo_001 : exact true false None nfo_run_001 nfo_script_001.
Proof.
  apply exact_nfo_func. unfold pthread_create. cbn [bind trigger]. apply exact_call; intros r E; unfold tp_assert; rewrite E.
  - now apply exact_free with true, exact_nfo_thread.
  - now apply fails_ret.
Qed.

Definition small_cases : list test_case :=
  [ page_fault_forwording0; page_fault_forwording1 bound more; page_fault_forwording2 bound more;
    enosys_case 0 enosys_000; enosys_case 1 enosys_001; enosys_case 2 enosys_002; gettid0; nfo0; nfo1 ].
Definition small_scripts : list (option script) :=
  [ Some Met; Some (pff_script_001 bound); Some (pff_script_002 bound);
    Some (enosys_script true enosys_000); Some (enosys_script true enosys_001); Some (enosys_script true enosys_002);
    Some gettid_script; Some nfo_script_000; Some nfo_script_001 ].

Lemma enosys_returns sysnums : exact true false None (enosys_run sysnums) (enosys_script true sysnums).
Proof.
  intros K w Hz. pose proof (exact_enosys sysnums true K w (Hz eq_refl)) as Hx.
  destruct (meets K (enosys_script true sysnums) (w_k w)); [|exact Hx]. destruct Hx as (pr & E). exists pr. split; [exact E|discriminate].
Qed.

(** What a pass is evidence of, on any system: the tests of [page_fault_forwording],
    [enosys], [gettid] 0 and [nfo] 0 and 1 return [NULL] exactly if the answers
    meet their scripts - memory that can be written and read back up to a zero byte, pages
    that can be read before they were written, by two threads as well, [ENOSYS] from
    every call of the list - and leave the system after the last call, with the mappings of
    test 1 of [nfo] still in place. *)
Theorem small_suites_exact : verdicts_exact small_cases small_scripts.
Proof.
  apply cases_exact. intros argv. repeat constructor; try apply plain_case; cbn [returns_NULL];
    auto using exact_pff_001, exact_pff_002, enosys_returns, exact_gettid, exact_nfo_000, exact_nfo_001.
  apply exact_printf, exact_free with true, exact_ret.
Qed.

(** [nfo] 3 exits with 0 at any fault after its handler is installed: a read of a page
    that was never written may fault as well as the store behind the pages. *)
Lemma nfo_003_early_fault K pr s0 s1 s2 s3 s4 b0 b1 st :
  kstep K (Mmap NULL PAGE_SIZE PROT_READ (Z.lor MAP_PRIVATE MAP_ANONYMOUS) (-1) 0) s0 = (s1, b0) ->
  kstep K (Mmap NULL PAGE_SIZE PROT_READ (Z.lor MAP_PRIVATE MAP_ANONYMOUS) (-1) 0) s1 = (s2, b1) ->
  0 <= b0 < MAP_FAILED -> 0 <= b1 < MAP_FAILED ->
  kstep K (Sigaction SIGSEGV) s2 = (s3, 0) -> kstep K (Load b0) s3 = (s4, inr SIGSEGV) ->
  fst (run K (nfo_run_003 3 st) (World pr s0)) = Exited 0.
Proof.
  intros E0 E1 H0 H1 E2 E3. unfold nfo_run_003, nfo_map, mmap.
  rewrite (run_call_ok K (Mmap _ _ _ _ _ _) (fun x => x) _ _ _ _ _ _ E0) by lia.
  rewrite (proj2 (Z.eqb_neq b0 MAP_FAILED)) by lia. cbn [run printf bind w_proc w_k].
  rewrite (run_call_ok K (Mmap _ _ _ _ _ _) (fun x => x) _ _ _ _ _ _ E1) by lia.
  rewrite (proj2 (Z.eqb_neq b1 MAP_FAILED)) by lia. cbn [run printf bind w_proc w_k fst snd sigaction trigger]. rewrite E2.
  cbn [Z.eqb run bind w_proc w_k]. unfold compare_both. rewrite run_bind, run_bind.
  destruct (Z.to_nat PAGE_SIZE) as [|n] eqn:En; [pose proof PAGE_SIZE_pos; lia|]. cbn [compare_blocks].
  unfold load. cbn [run bind trigger w_k w_proc]. rewrite E3. reflexivity.
Qed.
End Cases.

(** ** A system without surprises *)

Definition plain_kernel : kernel :=
  Kernel unit (fun c s => (s, match c return ans c with
    | Malloc _ => 0x10000
    | Mmap _ _ _ _ _ _ => 0x20000
    | Store _ _ => inl tt
    | Load _ => inl 0
    | Procs Getpid => 7
    | Gettid => 7
    | Misc (Syscall _) => - ENOSYS
    | Misc _ => 0
    | c => enosys c
    end)).
Definition plain_world : world plain_kernel := World proc0 (tt : kstate plain_kernel).


Definition plain_cases : list test_case := @small_cases config_4K 100 (Exit 1).
Definition plain_scripts : list (option script) := @small_scripts config_4K 100.

Lemma plain_in i : (i < 9)%nat ->
  (nth i plain_cases gettid0, nth i plain_scripts None) ∈ zip plain_cases plain_scripts.
Proof.
  intros Hi. apply list_elem_of_lookup. exists i. apply lookup_zip_Some.
  do 9 (destruct i as [|i]; [split; reflexivity|]). lia.
Qed.

Lemma small_suites_exact_witness :
  fst (run plain_kernel (run_test_case (nth 3 plain_cases gettid0) []) plain_world) = Done None /\
  fst (run plain_kernel (run_test_case (nth 6 plain_cases gettid0) []) plain_world) = Done None.
Proof.
  pose proof (fun i (Hi : (i < 9)%nat) => @small_suites_exact config_4K 100 (Exit 1) (fails_exit None 1)
      plain_kernel plain_world _ _ [] eq_refl (plain_in i Hi)) as X.
  split.
  - specialize (X 3%nat ltac:(lia)). change (nth 3 plain_scripts None) with (Some (enosys_script true enosys_000)) in X. cbv iota in X.
    replace (meets plain_kernel (enosys_script true enosys_000) (w_k plain_world)) with (Some tt) in X by (vm_compute; reflexivity).
    exact (proj1 X).
  - specialize (X 6%nat ltac:(lia)). change (nth 6 plain_scripts None) with (Some gettid_script) in X. cbv iota in X.
    replace (meets plain_kernel gettid_script (w_k plain_world)) with (Some tt) in X by (vm_compute; reflexivity).
    exact (proj1 X).
Defined.
