(* ===== verification/TimeSuites.v ===== *)
(** * The time suites

    [clock_getres], [clock_gettime], [gettimeofday], [times], [getitimer],
    [nanosleep] 0, 2 and 3, [getrusage] 3 and 4.  An empty loop that only spends time
    ([clock_gettime] 0) has no effect the model knows of. *)
From S2P Require Import Prelude Process TestMck AddrSpace.
From Stdlib Require Import String.
#[local] Open Scope string_scope.
#[local] Open Scope Z_scope.

(** ** Calls *)

Definition timespec : Type := Z * Z.
Definition timeval : Type := Z * Z.

Definition clock_getres (clk : Z) (valid : bool) : prog (Z * timespec) :=
  r <- (trigger (Timec (ClockGetres clk valid)) : prog (Z * timespec)) ;; v <- syscall_ret (-1) (fst r) ;; Ret (v, snd r).
Definition clock_gettime (clk : Z) (valid : bool) : prog (Z * timespec) :=
  r <- (trigger (Timec (ClockGettime clk valid)) : prog (Z * timespec)) ;; v <- syscall_ret (-1) (fst r) ;; Ret (v, snd r).
Definition gettimeofday : prog (Z * timeval) :=
  r <- (trigger (Timec Gettimeofday) : prog (Z * timeval)) ;; v <- syscall_ret (-1) (fst r) ;; Ret (v, snd r).
Definition settimeofday (t : timeval) : prog Z :=
  r <- (trigger (Timec (Settimeofday t)) : prog Z) ;; syscall_ret (-1) r.
Definition time : prog Z := r <- (trigger (Timec Time) : prog Z) ;; syscall_ret (-1) r.
Definition times (valid : bool) : prog Z := r <- (trigger (Timec (Times valid)) : prog Z) ;; syscall_ret (-1) r.
Definition nanosleep (req : option timespec) : prog Z :=
  r <- (trigger (Timec (Nanosleep req)) : prog Z) ;; syscall_ret (-1) r.
Definition getitimer (which : Z) (valid : bool) : prog (Z * (timeval * timeval)) :=
  r <- (trigger (Timec (Getitimer which valid)) : prog (Z * (timeval * timeval))) ;;
  v <- syscall_ret (-1) (fst r) ;; Ret (v, snd r).
Definition getrusage (who : Z) (valid : bool) : prog Z :=
  r <- (trigger (Timec (Getrusage who valid)) : prog Z) ;; syscall_ret (-1) r.

(** A call that has to fail with the error [e]. *)
Definition expect_failure (call : prog Z) (e : Z) (bad_result bad_errno : string) (k : prog result) : prog result :=
  result <- call ;;
  tp_assert! (result =? -1, Some bad_result) ;;
  num <- errno ;;
  tp_assert! (num =? e, Some bad_errno) ;;
  k.
Definition unexpected (call : prog Z) (e : Z) : prog result :=
  expect_failure call e "Unexpected result." "Unexpected errno." (Ret None).

Definition plain (suite : string) (n : Z) (p : prog result) : test_case :=
  TestCase suite n unit SETUP_EMPTY (run_const (fun _ _ => p)) TEARDOWN_EMPTY.

(** ** [clock_getres], [clock_gettime] *)

Definition CLOCK_REALTIME : Z := 0.
Definition CLOCK_MONOTONIC : Z := 1.
Definition CLOCK_PROCESS_CPUTIME_ID : Z := 2.
Definition CLOCK_THREAD_CPUTIME_ID : Z := 3.
Definition CLOCK_MONOTONIC_RAW : Z := 4.
Definition CLOCK_REALTIME_COARSE : Z := 5.
Definition CLOCK_MONOTONIC_COARSE : Z := 6.
Definition CLOCK_BOOTTIME : Z := 7.
Definition CLOCK_REALTIME_ALARM : Z := 8.
Definition CLOCK_BOOTTIME_ALARM : Z := 9.

Record clock_test_case := ClockTestCase { clock_name : string; clock_id : Z; expect_result : Z; expect_errno_is : Z }.

Definition ctc : list clock_test_case :=
  [ ClockTestCase "REALTIME" CLOCK_REALTIME 0 0;
    ClockTestCase "REALTIME_ALARM" CLOCK_REALTIME_ALARM (-1) EINVAL;
    ClockTestCase "REALTIME_COARSE" CLOCK_REALTIME_COARSE 0 0;
    ClockTestCase "MONOTONIC" CLOCK_MONOTONIC 0 0;
    ClockTestCase "MONOTONIC_COARSE" CLOCK_MONOTONIC_COARSE 0 0;
    ClockTestCase "MONOTONIC_RAW" CLOCK_MONOTONIC_RAW 0 0;
    ClockTestCase "BOOTTIME" CLOCK_BOOTTIME 0 0;
    ClockTestCase "BOOTTIME_ALARM" CLOCK_BOOTTIME_ALARM (-1) EINVAL;
    ClockTestCase "PROCESS_CPUTIME_ID" CLOCK_PROCESS_CPUTIME_ID 0 0;
    ClockTestCase "THREAD_CPUTIME_ID" CLOCK_THREAD_CPUTIME_ID 0 0 ].

Section Suites.
(** The texts of error numbers. *)
Context (strerror : Z -> string).

(** The loop of both suites over the table. *)
Fixpoint clock_loop (name : string) (call : Z -> bool -> prog (Z * timespec)) (cases : list clock_test_case) : prog result :=
  match cases with
  | [] => Ret None
  | c :: cases' =>
      let* (result, ts) := call (clock_id c) true in
      tp_assert! (result =? expect_result c, Some (name ++ " return unexpected result.")) ;;
      if result =? 0 then
        printf "%-20s: %ld.%09ld\n" [PS (clock_name c); PZ (fst ts); PZ (snd ts)] ;;
        clock_loop name call cases'
      else
        e <- errno ;;
        printf "%-20s: %s %s\n" [PS (clock_name c); PS (strerror e);
                                 PS (if e =? expect_errno_is c then "(expected)" else "(non expected)")] ;;
        e <- errno ;;
        tp_assert! (e =? expect_errno_is c, Some (name ++ " return unexpected errno.")) ;;
        clock_loop name call cases'
  end.

Definition clock_getres_run_000 : prog result :=
  printf "[INFO] Show clocks' resolution.\n" [] ;; clock_loop "clock_getres" clock_getres ctc.
Definition clock_getres_run_001 : prog result := unexpected (let* (r, _) := clock_getres CLOCK_REALTIME false in Ret r) EFAULT.
Definition clock_getres_run_002 : prog result := unexpected (let* (r, _) := clock_getres 1000 true in Ret r) EINVAL.

Definition clock_gettime_run_000 : prog result :=
  printf "[INFO] Spending cpu time, please wait...\n" [] ;; clock_loop "clock_gettime" clock_gettime ctc.
Definition clock_gettime_run_001 : prog result := unexpected (let* (r, _) := clock_gettime CLOCK_REALTIME false in Ret r) EFAULT.
Definition clock_gettime_run_002 : prog result := unexpected (let* (r, _) := clock_gettime 1000 true in Ret r) EINVAL.

(** ** [gettimeofday] *)

(** [errno = 0; call; tp_assert(errno == 0, msg)] *)
Definition no_errno {A} (call : prog A) (msg : string) (k : A -> prog result) : prog result :=
  set_errno 0 ;;
  x <- call ;;
  e <- errno ;;
  tp_assert! (e =? 0, Some msg) ;;
  k x.

Definition set_time : timeval := (6, 6).

(** What is done to [before]. *)
Definition restore_time (before get : timeval) : timeval :=
  let sec := i64 (fst before + i64 (fst get - fst set_time)) in
  let usec := i64 (snd before + i64 (snd get - snd set_time)) in
  if 1000000 <=? usec then (i64 (sec + Z.quot usec 1000000), i64 (usec + Z.rem usec 1000000)) else (sec, usec).

Definition gettimeofday_run_000 : prog result :=
  no_errno gettimeofday "gettimeofday error. 1" (fun '(_, before) =>
  no_errno (settimeofday set_time) "settimeofday error. 1" (fun _ =>
  no_errno gettimeofday "gettimeofday error. 2" (fun '(_, get) =>
  tp_assert! (fst get <=? i64 (fst set_time + 1), Some "gotten timeval is too high.") ;;
  tp_assert! ((fst set_time <? fst get) || ((fst get =? fst set_time) && (snd set_time <? snd get)),
              Some "gotten timecal is too low") ;;
  printf "set = {tv_sec = %ld, tv_usec = %ld}\n" [PZ (fst set_time); PZ (snd set_time)] ;;
  printf "get = {tv_sec = %ld. tv_usec = %ld}\n" [PZ (fst get); PZ (snd get)] ;;
  no_errno (settimeofday (restore_time before get)) "settimeofday error. 2" (fun _ => Ret None)))).
End Suites.

(** ** [times] *)

Definition times_run_000 : prog result :=
  result <- times true ;;
  tp_assert! (negb (result =? -1), Some "times() error") ;;
  Ret None.
Definition times_run_001 : prog result := unexpected (times false) EFAULT.

(** ** [nanosleep] *)

Definition nanosleep_run_000 : prog result :=
  before_sleep <- time ;;
  tp_assert! (negb (before_sleep =? -1), Some "time error.") ;;
  sleep_result <- nanosleep (Some (3, 5000)) ;;
  tp_assert! (sleep_result =? 0, Some "time error.") ;;
  after_sleep <- time ;;
  tp_assert! (negb (after_sleep =? -1), Some "time error.") ;;
  printf "It has passed for %8.01f sec.\n" [PZ (after_sleep - before_sleep)] ;;
  Ret None.

Fixpoint nanosleep_invalid (invalid_req : list timespec) : prog result :=
  match invalid_req with
  | [] => Ret None
  | req :: invalid_req' =>
      expect_failure (nanosleep (Some req)) EINVAL "Unexpected result." "Unexpected errno." (nanosleep_invalid invalid_req')
  end.
Definition nanosleep_run_002 : prog result := nanosleep_invalid [(-10, 5000); (10, 1000000000)].
Definition nanosleep_run_003 : prog result := unexpected (nanosleep None) EFAULT.

(** ** [getitimer] *)

Definition ITIMER_REAL : Z := 0.
Definition ITIMER_VIRTUAL : Z := 1.
Definition ITIMER_PROF : Z := 2.

Fixpoint getitimer_loop (itimer_type : list Z) : prog result :=
  match itimer_type with
  | [] => Ret None
  | which :: itimer_type' =>
      let* (result, current) := getitimer which true in
      tp_assert! (result =? 0, Some "getitimer failed.") ;;
      tp_assert! ((fst (snd current) =? 0) && (snd (snd current) =? 0), Some "why timer are non zero?") ;;
      getitimer_loop itimer_type'
  end.
Definition getitimer_run_000 : prog result := getitimer_loop [ITIMER_REAL; ITIMER_VIRTUAL; ITIMER_PROF].
Definition getitimer_run_001 : prog result := unexpected (let* (r, _) := getitimer ITIMER_REAL false in Ret r) EFAULT.
Definition getitimer_run_002 : prog result := unexpected (let* (r, _) := getitimer (-1) true in Ret r) EINVAL.

(** ** [getrusage] *)

Definition RUSAGE_SELF : Z := 0.

(** [getrusage/003.c] and [getrusage/004.c]. *)
Definition getrusage_error (who : Z) (valid : bool) (expect : Z) (name : string) : prog result :=
  ret <- getrusage who valid ;;
  tp_assert! (negb (ret =? 0), Some "getrusage() why successed ?") ;;
  e <- errno ;;
  if negb (e =? expect) then
    printf ("errno = %d, expected value = " ++ name ++ "(%d)\n") [PZ e; PZ expect] ;;
    Ret (Some "errno different from the expected value.")
  else Ret None.
Definition getrusage_run_003 : prog result := getrusage_error 0x12345 true EINVAL "EINVAL".
Definition getrusage_run_004 : prog result := getrusage_error RUSAGE_SELF false EFAULT "EFAULT".

(** ** The cases *)

Section Cases.
Context (strerror : Z -> string).

Definition clock_getres0 : test_case := plain "clock_getres" 0 (clock_getres_run_000 strerror).
Definition clock_getres1 : test_case := plain "clock_getres" 1 clock_getres_run_001.
Definition clock_getres2 : test_case := plain "clock_getres" 2 clock_getres_run_002.
Definition clock_gettime0 : test_case := plain "clock_gettime" 0 (clock_gettime_run_000 strerror).
Definition clock_gettime1 : test_case := plain "clock_gettime" 1 clock_gettime_run_001.
Definition clock_gettime2 : test_case := plain "clock_gettime" 2 clock_gettime_run_002.
Definition gettimeofday0 : test_case := plain "gettimeofday" 0 gettimeofday_run_000.
Definition times0 : test_case := plain "times" 0 times_run_000.
Definition times1 : test_case := plain "times" 1 times_run_001.
Definition nanosleep0 : test_case := plain "nanosleep" 0 nanosleep_run_000.
Definition nanosleep2 : test_case := plain "nanosleep" 2 nanosleep_run_002.
Definition nanosleep3 : test_case := plain "nanosleep" 3 nanosleep_run_003.
Definition getitimer0 : test_case := plain "getitimer" 0 getitimer_run_000.
Definition getitimer1 : test_case := plain "getitimer" 1 getitimer_run_001.
Definition getitimer2 : test_case := plain "getitimer" 2 getitimer_run_002.
Definition getrusage3 : test_case := plain "getrusage" 3 getrusage_run_003.
Definition getrusage4 : test_case := plain "getrusage" 4 getrusage_run_004.

Definition time_cases : list test_case :=
  [ clock_getres0; clock_getres1; clock_getres2; clock_gettime0; clock_gettime1; clock_gettime2; gettimeofday0;
    times0; times1; nanosleep0; nanosleep2; nanosleep3; getitimer0; getitimer1; getitimer2; getrusage3; getrusage4 ].
End Cases.
