(* ===== verification/TimeThms.v ===== *)
(** * What a pass of the time suites is evidence of

    A script for each case of [TimeSuites] on an arbitrary system, and [gettimeofday] on
    a clock as documented: what the test does to the time of the day. *)
From S2P Require Import Prelude Process TestMck AddrSpace Exact TimeSuites.
From Stdlib Require Import String.
#[local] Open Scope string_scope.
#[local] Open Scope Z_scope.

(** ** Calls that have to fail *)

(** [p] is the call [c], with the raw answer [f]. *)
Definition is_syscall (p : prog Z) (c : op) (f : ans c -> Z) : Prop :=
  forall K w, run K p w = run K (r <- trigger c ;; syscall_ret (-1) (f r)) w.

Definition fails_with (c : op) (f : ans c -> Z) (e : Z) (s : script) : script := Need c (fun r => f r =? - e) (fun _ => s).

Lemma exact_expect_errno z p c f e m m' k s :
  is_syscall p c f -> 0 < e < 4096 -> exact false false None k s ->
  exact z false None (expect_failure p e m m' k) (fails_with c f e s).
Proof.
  intros Hp He Hk K [pr st] _. unfold expect_failure, fails_with. rewrite run_bind, Hp. cbn [bind trigger run meets w_k w_proc].
  destruct (kstep K c st) as [st' r]. destruct (Z.eqb_spec (f r) (- e)) as [->|Hr].
  - unfold syscall_ret, is_err. rewrite (proj2 (Z.ltb_lt _ _)), (proj2 (Z.ltb_lt _ _)) by lia.
    cbn [andb bind set_errno run w_proc w_k]. rewrite Z.eqb_refl.
    cbn [tp_assert bind errno run w_proc w_k with_errno p_errno id]. rewrite Z.opp_involutive, Z.eqb_refl.
    apply (Hk K (World (with_errno e pr) st')). discriminate.
  - unfold syscall_ret. destruct (is_err (f r)) eqn:En; cbn [bind set_errno run w_proc w_k].
    + rewrite Z.eqb_refl. cbn [tp_assert bind errno run w_proc w_k with_errno p_errno id].
      rewrite (proj2 (Z.eqb_neq _ _)) by lia. discriminate.
    + rewrite (not_err_not_neg1 _ En). discriminate.
Qed.

Definition getres_op (i : Z) (b : bool) : op := Timec (ClockGetres i b).
Definition gettime_op (i : Z) (b : bool) : op := Timec (ClockGettime i b).
Definition getitimer_op (i : Z) (b : bool) : op := Timec (Getitimer i b).

Ltac syscall_tac :=
  unfold getres_op, gettime_op, getitimer_op, timespec, timeval; intros K w; try reflexivity; cbn; match goal with |- context [kstep ?K ?c ?s] => destruct (kstep K c s) as [st' r] end;
  unfold syscall_ret; destruct (is_err _); reflexivity.

(** ** Scripts *)

Definition succeeds (c : op) (f : ans c -> Z) (s : script) : script := Need c (fun r => not_err (f r)) (fun _ => s).

Fixpoint clock_script (call : Z -> bool -> op) (f : forall i b, ans (call i b) -> Z) (cases : list clock_test_case) : script :=
  match cases with
  | [] => Met
  | c :: cases' =>
      Need (call (clock_id c) true)
        (fun r => f _ _ r =? (if expect_result c =? 0 then 0 else - expect_errno_is c))
        (fun _ => clock_script call f cases')
  end.

(** [gettimeofday]: the time that was read lies in the two seconds from the time that
    was set. *)
Definition after_set (get : timeval) : bool :=
  (fst get <=? 7) && ((6 <? fst get) || ((fst get =? 6) && (6 <? snd get))).
Definition gettimeofday_script : script :=
  Need (Timec Gettimeofday) (fun b => not_err (fst b)) (fun b =>
  succeeds (Timec (Settimeofday set_time)) (fun r => r) (
  Need (Timec Gettimeofday) (fun g => not_err (fst g) && after_set (snd g)) (fun g =>
  succeeds (Timec (Settimeofday (restore_time (snd b) (snd g)))) (fun r => r) Met))).

Fixpoint getitimer_script (itimer_type : list Z) : script :=
  match itimer_type with
  | [] => Met
  | which :: itimer_type' =>
      Need (Timec (Getitimer which true)) (fun r => (fst r =? 0) && ((fst (snd (snd r)) =? 0) && (snd (snd (snd r)) =? 0)))
        (fun _ => getitimer_script itimer_type')
  end.

Definition time_scripts : list (option script) :=
  map Some
  [ clock_script getres_op (fun _ _ r => fst r) ctc;
    fails_with (getres_op CLOCK_REALTIME false) (fun r => fst r) EFAULT Met;
    fails_with (getres_op 1000 true) (fun r => fst r) EINVAL Met;
    clock_script gettime_op (fun _ _ r => fst r) ctc;
    fails_with (gettime_op CLOCK_REALTIME false) (fun r => fst r) EFAULT Met;
    fails_with (gettime_op 1000 true) (fun r => fst r) EINVAL Met;
    gettimeofday_script;
    succeeds (Timec (Times true)) (fun r => r) Met;
    fails_with (Timec (Times false)) (fun r => r) EFAULT Met;
    succeeds (Timec Time) (fun r => r)
      (Need (Timec (Nanosleep (Some (3, 5000)))) (fun r => (r : Z) =? 0) (fun _ => succeeds (Timec Time) (fun r => r) Met));
    fails_with (Timec (Nanosleep (Some (-10, 5000)))) (fun r => r) EINVAL
      (fails_with (Timec (Nanosleep (Some (10, 1000000000)))) (fun r => r) EINVAL Met);
    fails_with (Timec (Nanosleep None)) (fun r => r) EFAULT Met;
    getitimer_script [ITIMER_REAL; ITIMER_VIRTUAL; ITIMER_PROF];
    fails_with (getitimer_op ITIMER_REAL false) (fun r => fst r) EFAULT Met;
    fails_with (getitimer_op (-1) true) (fun r => fst r) EINVAL Met;
    fails_with (Timec (Getrusage 0x12345 true)) (fun r => r) EINVAL Met;
    fails_with (Timec (Getrusage RUSAGE_SELF false)) (fun r => r) EFAULT Met ].

(** ** The cases *)

Lemma exact_unexpected z p c f e : is_syscall p c f -> 0 < e < 4096 -> exact z false None (unexpected p e) (fails_with c f e Met).
Proof. intros Hp He. apply exact_expect_errno; [exact Hp|exact He|apply exact_ret]. Qed.

(** What the loop over the clocks needs of the call. *)
Definition clock_call (call : Z -> bool -> prog (Z * timespec)) (c : Z -> bool -> op) (f : forall i b, ans (c i b) -> Z)
  (g : forall i b, ans (c i b) -> timespec) : Prop :=
  forall i b, call i b = (r <- trigger (c i b) ;; v <- syscall_ret (-1) (f i b r) ;; Ret (v, g i b r)).

(** The table asks for success or for one error. *)
Definition clock_case_ok (c : clock_test_case) : Prop :=
  expect_result c = 0 \/ expect_result c = -1 /\ 0 < expect_errno_is c < 4096.

Lemma exact_clock_loop strerror name call c f g cases :
  clock_call call c f g -> Forall clock_case_ok cases ->
  forall z, exact z false None (clock_loop strerror name call cases) (clock_script c f cases).
Proof.
  intros Hc HF. induction HF as [|x cases Hx HF IH]; intros z; cbn [clock_loop clock_script].
  - apply exact_free with z, exact_ret.
  - rewrite Hc. apply exact_assoc. cbn [bind trigger]. apply exact_call; intros r E.
    + destruct Hx as [Hx|[Hx He]]; rewrite Hx in E |- *; cbn [Z.eqb Pos.eqb] in E; apply Z.eqb_eq in E; rewrite E.
      * cbn -[exact printf]. apply exact_printf, IH.
      * apply exact_pre. intros K [pr st] _. unfold syscall_ret, is_err. rewrite (proj2 (Z.ltb_lt _ _)), (proj2 (Z.ltb_lt _ _)) by lia.
        cbn [andb bind set_errno run w_proc w_k]. rewrite Z.eqb_refl.
        change (-1 =? 0) with false. cbn [tp_assert bind errno printf run w_proc w_k with_errno with_line p_errno id].
        rewrite Z.opp_involutive, Z.eqb_refl. apply (IH false K (World _ st)). discriminate.
    + intros K [pr st]. unfold syscall_ret. destruct (is_err (f (clock_id x) true r)) eqn:En; cbn [bind set_errno run w_proc w_k].
      * destruct Hx as [Hx|[Hx He]]; rewrite Hx in E |- *; cbn [Z.eqb Pos.eqb] in E |- *; [discriminate|].
        cbn [tp_assert bind errno printf run w_proc w_k with_errno with_line p_errno id]. apply Z.eqb_neq in E.
        rewrite (proj2 (Z.eqb_neq _ _)) by lia. discriminate.
      * destruct Hx as [Hx|[Hx He]]; rewrite Hx in E |- *; cbn [Z.eqb Pos.eqb] in E.
        -- rewrite E. discriminate.
        -- rewrite (not_err_not_neg1 _ En). discriminate.
Qed.

Lemma ctc_ok : Forall clock_case_ok ctc.
Proof. unfold ctc, clock_case_ok. repeat constructor; cbn; unfold EINVAL; lia. Qed.

(** A call with [errno] cleared before and looked at afterwards. *)
Lemma exact_no_errno z {B} c (f : ans c -> Z) (g : ans c -> B) m (k : Z * B -> prog result) ok s :
  (forall r, ok r = true -> not_err (f r) = true /\ exact true false None (k (f r, g r)) (s r)) ->
  (forall r, ok r = false -> not_err (f r) = true -> fails None (k (f r, g r))) ->
  exact z false None (no_errno (r <- trigger c ;; v <- syscall_ret (-1) (f r) ;; Ret (v, g r)) m k) (Need c ok s).
Proof.
  intros Hk Hf K [pr st] _. cbn [no_errno set_errno bind trigger run meets w_k w_proc]. destruct (kstep K c st) as [st' r].
  specialize (Hk r). specialize (Hf r). unfold not_err, syscall_ret in *. destruct (is_err (f r)) eqn:En; cbn [negb] in *.
  - destruct (ok r); [now destruct (Hk eq_refl)|].
    cbn [bind set_errno run errno w_proc w_k with_errno p_errno id]. apply andb_prop in En as [E1 E2]. bool_to_prop.
    rewrite (proj2 (Z.eqb_neq _ _)) by lia. discriminate.
  - cbn [bind run errno w_proc w_k with_errno p_errno id]. rewrite Z.eqb_refl. cbn [tp_assert]. destruct (ok r).
    + destruct (Hk eq_refl) as [_ Hx]. apply (Hx K (World (with_errno 0 pr) st')). reflexivity.
    + now apply Hf.
Qed.

Lemma exact_set_time z t m (k : prog result) s :
  exact true false None k s ->
  exact z false None (no_errno (settimeofday t) m (fun _ => k)) (succeeds (Timec (Settimeofday t)) (fun r => r) s).
Proof.
  intros Hk K w Hz.
  pose proof (exact_no_errno z (Timec (Settimeofday t)) (fun r => r) (fun _ => tt) m (fun _ => k) (fun r => not_err r)
    (fun _ => s) (fun r E => conj E Hk)) as Hx. specialize (Hx (fun r E E' => False_rect _ (Bool.diff_false_true (eq_trans (eq_sym E) E'))) K w Hz).
  revert Hx. unfold succeeds. destruct (meets K _ (w_k w)); cbn [no_errno set_errno bind trigger run settimeofday w_k w_proc];
    destruct (kstep K (Timec (Settimeofday t)) (w_k w)) as [st' r]; unfold syscall_ret; destruct (is_err r); exact id.
Qed.

Lemma exact_gettimeofday : exact true false None gettimeofday_run_000 gettimeofday_script.
Proof.
  unfold gettimeofday_run_000, gettimeofday_script.
  apply (exact_no_errno true (Timec Gettimeofday) (fun r => fst r) (fun r => snd r));
    [|intros r E E'; destruct (Bool.diff_false_true (eq_trans (eq_sym E) E'))].
  intros b Hb. split; [exact Hb|]. apply exact_set_time.
  apply (exact_no_errno true (Timec Gettimeofday) (fun r => fst r) (fun r => snd r)); intros [v g] E; cbn [fst snd] in *.
  - apply andb_prop in E as [En E]. split; [exact En|]. unfold after_set in E. apply andb_prop in E as [E1 E2].
    unfold set_time. cbn [fst snd]. change (i64 (6 + 1)) with 7. rewrite E1, E2. cbn [tp_assert].
    apply exact_printf, exact_printf, exact_set_time, exact_free with true, exact_ret.
  - intros En. rewrite En in E. cbn [andb] in E. unfold after_set in E. unfold set_time. cbn [fst snd].
    change (i64 (6 + 1)) with 7. destruct (fst g <=? 7); [|now apply fails_ret]. cbn [andb tp_assert] in E |- *.
    rewrite E. now apply fails_ret.
Qed.

Lemma exact_getitimer types : forall z, exact z false None (getitimer_loop types) (getitimer_script types).
Proof.
  induction types as [|which types IH]; intros z; cbn [getitimer_loop getitimer_script]; [apply exact_free with z, exact_ret|].
  unfold getitimer.
  apply (exact_zero_fill z false None (Timec (Getitimer which true)) (fun r => fst r) (fun r => snd r)
    (fun '(result, current) => tp_assert! (result =? 0, Some "getitimer failed.") ;;
       tp_assert! ((fst (snd current) =? 0) && (snd (snd current) =? 0), Some "why timer are non zero?") ;;
       getitimer_loop types)).
  - intros v x Hv. rewrite (proj2 (Z.eqb_neq _ _) Hv). now apply fails_ret.
  - intros r E. cbn [tp_assert Z.eqb]. rewrite E. now apply fails_ret.
  - intros r E. cbn [tp_assert Z.eqb]. rewrite E. apply IH.
Qed.

Lemma exact_getrusage who valid e name : 0 < e < 4096 ->
  exact true false None (getrusage_error who valid e name) (fails_with (Timec (Getrusage who valid)) (fun r => r) e Met).
Proof.
  intros He K [pr st] Hz. cbn [w_proc] in Hz. specialize (Hz eq_refl). unfold getrusage_error, getrusage, fails_with. cbn [bind trigger run meets w_k w_proc].
  destruct (kstep K (Timec (Getrusage who valid)) st) as [st' r]. unfold syscall_ret. destruct (is_err r) eqn:En; cbn [bind set_errno run w_proc w_k].
  - change (-1 =? 0) with false. cbn [negb tp_assert errno bind run w_proc w_k with_errno p_errno id]. destruct (Z.eqb_spec r (- e)) as [->|Hr].
    + rewrite Z.opp_involutive, Z.eqb_refl. cbn [negb run]. eexists. split; [reflexivity|discriminate].
    + rewrite (proj2 (Z.eqb_neq _ _)) by lia. discriminate.
  - assert (Hn : r <> - e). { intros ->. unfold is_err in En. bool_to_prop. destruct En as [En|En]; bool_to_prop; lia. }
    rewrite (proj2 (Z.eqb_neq _ _) Hn). destruct (negb (r =? 0)); [|discriminate].
    cbn [tp_assert errno bind run w_proc w_k id]. rewrite Hz, (proj2 (Z.eqb_neq _ _)) by lia. discriminate.
Qed.

Lemma exact_succeeds z z' {A} (a : A) c (f : ans c -> Z) (k : Z -> prog A) s :
  fails a (k (-1)) -> (forall r, not_err (f r) = true -> exact z z' a (k (f r)) s) ->
  exact z z' a (x <- (r <- trigger c ;; syscall_ret (-1) (f r)) ;; k x) (succeeds c f s).
Proof. apply exact_ok. Qed.

Lemma exact_nanosleep_000 : exact true false None nanosleep_run_000
  (succeeds (Timec Time) (fun r => r)
     (Need (Timec (Nanosleep (Some (3, 5000)))) (fun r => (r : Z) =? 0) (fun _ => succeeds (Timec Time) (fun r => r) Met))).
Proof.
  unfold nanosleep_run_000, time, nanosleep.
  apply (exact_succeeds true false None (Timec Time) (fun r => r)); [now apply fails_ret|]. intros b Hb.
  rewrite (not_err_neg1 _ Hb). cbn [negb tp_assert].
  apply (exact_zero true false None (Timec (Nanosleep (Some (3, 5000)))) (fun r => r)).
  - intros v Hv. rewrite (proj2 (Z.eqb_neq _ _) Hv). now apply fails_ret.
  - cbn [Z.eqb tp_assert]. apply (exact_succeeds true false None (Timec Time) (fun r => r)); [now apply fails_ret|]. intros a Ha.
    rewrite (not_err_neg1 _ Ha). cbn [negb tp_assert]. apply exact_printf, exact_free with true, exact_ret.
Qed.

(** What a pass of the time suites is evidence of, on any system: each test returns
    [NULL] exactly if the answers meet its script - the clocks of the table answer or are
    refused with [EINVAL] as listed, invalid clocks, timers, times and pointers are refused
    with the error the test names, unarmed timers read zero, and for [gettimeofday] the
    time read lies after the time set and below 8 seconds and all four calls
    succeed. *)
Theorem time_suites_exact strerror : verdicts_exact (time_cases strerror) time_scripts.
Proof.
  apply cases_exact. intros argv. unfold time_cases, time_scripts. cbn [map].
  assert (0 < EFAULT < 4096 /\ 0 < EINVAL < 4096) as [HF HI] by (unfold EFAULT, EINVAL; lia).
  repeat constructor; apply plain_case; cbn [returns_NULL].
  1, 4: apply exact_printf; eapply exact_clock_loop; [intros i b; reflexivity|exact ctc_ok].
  all: try now apply exact_getrusage.
  all: try (apply exact_unexpected; [syscall_tac|assumption]).
  all: try (apply exact_getitimer).
  - exact exact_gettimeofday.
  - unfold times_run_000, times. apply (exact_succeeds true false None (Timec (Times true)) (fun r => r)); [now apply fails_ret|].
    intros r Hr. rewrite (not_err_neg1 _ Hr). apply exact_free with true, exact_ret.
  - exact exact_nanosleep_000.
  - unfold nanosleep_run_002. cbn [nanosleep_invalid]. apply exact_expect_errno; [syscall_tac|exact HI|]. apply exact_expect_errno; [syscall_tac|exact HI|]. apply exact_ret.
Qed.

(** ** [gettimeofday] on a clock as documented *)

(** A time in microseconds as the structure holds it. *)
Definition tod (us : Z) : timeval := (us / 1000000, us mod 1000000).

(** The time of the day, in microseconds since the epoch: reading it answers a time not
    before the last one, setting it takes effect at once, and a number of microseconds
    that is not below one second is refused with [EINVAL]. *)
Class ClockKernel (K : kernel) := {
  clock : kstate K -> Z;
  ck_get s : exists s' us, kstep K (Timec Gettimeofday) s = (s', (0, tod us)) /\ clock s' = us /\ clock s <= us;
  ck_set s t : 0 <= fst t -> 0 <= snd t < 1000000 ->
    exists s', kstep K (Timec (Settimeofday t)) s = (s', 0) /\ clock s' = fst t * 1000000 + snd t;
  ck_refuse s t : ~ (0 <= snd t < 1000000) ->
    exists s', kstep K (Timec (Settimeofday t)) s = (s', - EINVAL) /\ clock s' = clock s;
}.

Section Clock.
Context (K : kernel) {CK : ClockKernel K}.

Lemma run_get_time m (k : Z * timeval -> prog result) pr s s' us :
  kstep K (Timec Gettimeofday) s = (s', (0, tod us)) ->
  run K (no_errno gettimeofday m k) (World pr s) = run K (k (0, tod us)) (World (with_errno 0 pr) s').
Proof. intros E. cbn. now rewrite E. Qed.

Lemma run_set_time t m (k : Z -> prog result) pr s s' :
  kstep K (Timec (Settimeofday t)) s = (s', 0) ->
  run K (no_errno (settimeofday t) m k) (World pr s) = run K (k 0) (World (with_errno 0 pr) s').
Proof. intros E. cbn. now rewrite E. Qed.

Lemma run_set_time_refused t m (k : Z -> prog result) pr s s' :
  kstep K (Timec (Settimeofday t)) s = (s', - EINVAL) ->
  exists pr', run K (no_errno (settimeofday t) m k) (World pr s) = (Done (Some m), World pr' s').
Proof. intros E. eexists. cbn. rewrite E. reflexivity. Qed.

(** The elapsed time is added without loss exactly if the sum of the microseconds needs
    no carry; with a carry the microseconds stay out of range. *)
Lemma restore_time_exact b g : 0 <= b < 2 ^ 62 -> 6000006 <= g < 8000000 ->
  let usec := b mod 1000000 + (g mod 1000000 - 6) in
  (0 <= usec < 1000000 -> restore_time (tod b) (tod g) = (b / 1000000 + (g / 1000000 - 6), usec)) /\
  (~ 0 <= usec < 1000000 -> ~ 0 <= snd (restore_time (tod b) (tod g)) < 1000000).
Proof.
  intros Hb Hg usec.
  assert (Hd : 0 <= b / 1000000 <= b). { split; [apply Z.div_pos; lia|apply Z.div_le_upper_bound; lia]. }
  pose proof (Z.mod_pos_bound b 1000000 ltac:(lia)) as Hm. pose proof (Z.mod_pos_bound g 1000000 ltac:(lia)) as Hm'.
  assert (Hq : 6 <= g / 1000000 <= 7).
  { split; [apply Z.div_le_lower_bound; lia|]. assert (g / 1000000 < 8) by (apply Z.div_lt_upper_bound; lia). lia. }
  unfold restore_time, tod, set_time. cbn [fst snd].
  rewrite (i64_small (g / 1000000 - 6)), (i64_small (g mod 1000000 - 6)) by lia. fold usec.
  rewrite (i64_small (b / 1000000 + _)), (i64_small usec) by lia. destruct (Z.leb_spec 1000000 usec) as [Hc|Hc].
  - split; [lia|]. intros _. cbn [snd]. rewrite Z.rem_mod_nonneg by lia.
    pose proof (Z.mod_pos_bound usec 1000000 ltac:(lia)). rewrite i64_small by lia. lia.
  - split; [reflexivity|]. intros Hn. exact Hn.
Qed.
(** The checks on the time that was read. *)
Lemma after_set_tod g : 6000006 <= g -> after_set (tod g) = true <-> 6000006 < g < 8000000.
Proof.
  intros Hg. unfold after_set, tod. cbn [fst snd].
  pose proof (Z.div_mod g 1000000 ltac:(lia)) as Hd. pose proof (Z.mod_pos_bound g 1000000 ltac:(lia)) as Hm.
  rewrite andb_true_iff, orb_true_iff, andb_true_iff, Z.leb_le, !Z.ltb_lt, Z.eqb_eq. nia.
Qed.

Lemma run_after_set b g pr s :
  run K (tp_assert! (fst (tod g) <=? i64 (fst set_time + 1), Some "gotten timeval is too high.") ;;
         tp_assert! ((fst set_time <? fst (tod g)) || ((fst (tod g) =? fst set_time) && (snd set_time <? snd (tod g))),
                     Some "gotten timecal is too low") ;;
         printf "set = {tv_sec = %ld, tv_usec = %ld}\n" [PZ (fst set_time); PZ (snd set_time)] ;;
         printf "get = {tv_sec = %ld. tv_usec = %ld}\n" [PZ (fst (tod g)); PZ (snd (tod g))] ;;
         no_errno (settimeofday (restore_time b (tod g))) "settimeofday error. 2" (fun _ => Ret None)) (World pr s) =
  if after_set (tod g) then
    run K (no_errno (settimeofday (restore_time b (tod g))) "settimeofday error. 2" (fun _ => Ret None))
      (add_lines [("set = {tv_sec = %ld, tv_usec = %ld}\n", [PZ 6; PZ 6]);
                  ("get = {tv_sec = %ld. tv_usec = %ld}\n", [PZ (fst (tod g)); PZ (snd (tod g))])] (World pr s))
  else (Done (Some (if fst (tod g) <=? 7 then "gotten timecal is too low" else "gotten timeval is too high.")), World pr s).
Proof.
  unfold after_set, set_time. cbn [fst snd]. change (i64 (6 + 1)) with 7. destruct (fst (tod g) <=? 7); [|reflexivity].
  cbn [andb tp_assert]. case_if; [|reflexivity]. cbn [tp_assert]. rewrite run_bind, run_printf, run_bind, run_printf.
  now rewrite add_lines_app.
Qed.

(** C32.  [gettimeofday] 0 on a clock as documented, at every time [b] of the day the
    first call may answer and every time [g] the third one may: the test returns [NULL]
    exactly if [g] lies after the time set and below eight seconds and the microseconds of
    [b] and of the elapsed time add up to less than a second.  Then the clock is
    set to [b] and the elapsed time.  Otherwise - the carry leaves the microseconds out of
    range, which the system refuses - the test fails and the clock is left near the epoch,
    where the test had set it. *)
Theorem gettimeofday_restores pr s s1 b :
  kstep K (Timec Gettimeofday) s = (s1, (0, tod b)) -> 0 <= b < 2 ^ 62 ->
  exists g v pr' s', run K gettimeofday_run_000 (World pr s) = (Done v, World pr' s') /\ 6000006 <= g /\
    (v = None <-> 6000006 < g < 8000000 /\ 0 <= b mod 1000000 + (g mod 1000000 - 6) < 1000000) /\
    clock s' = if v is None then b + (g - 6000006) else g.
Proof.
  intros E1 Hb. unfold gettimeofday_run_000. rewrite (run_get_time _ _ pr _ _ _ E1).
  destruct (ck_set s1 set_time ltac:(discriminate) ltac:(now split)) as (s2 & E2 & C2).
  rewrite (run_set_time _ _ _ _ _ _ E2). destruct (ck_get s2) as (s3 & g & E3 & C3 & Hg).
  rewrite (run_get_time _ _ _ _ _ _ E3). rewrite C2 in Hg. change (6000006 <= g) in Hg. rewrite run_after_set.
  pose proof (after_set_tod g Hg) as Ha. exists g. destruct (after_set (tod g)); cbn [fst snd].
  2:{ do 3 eexists. split; [reflexivity|]. split; [exact Hg|]. split; [|exact C3]. split; [discriminate|]. intros [Hx _]. now apply Ha in Hx. }
  apply proj1 in Ha. specialize (Ha eq_refl). destruct (restore_time_exact b g Hb ltac:(lia)) as [Hok Hbad].
  destruct (decide (0 <= b mod 1000000 + (g mod 1000000 - 6) < 1000000)) as [Hu|Hu].
  - specialize (Hok Hu). destruct (ck_set s3 (restore_time (tod b) (tod g))) as (s4 & E4 & C4); rewrite ?Hok; cbn [fst snd]; [|exact Hu|].
    { assert (0 <= b / 1000000) by (apply Z.div_pos; lia). assert (6 <= g / 1000000) by (apply Z.div_le_lower_bound; lia). lia. }
    unfold add_lines. rewrite <- Hok, (run_set_time _ _ _ _ _ _ E4). do 3 eexists. split; [reflexivity|]. split; [exact Hg|]. split; [tauto|].
    rewrite C4, Hok. cbn [fst snd]. pose proof (Z.div_mod b 1000000 ltac:(lia)). pose proof (Z.div_mod g 1000000 ltac:(lia)). lia.
  - destruct (ck_refuse s3 _ (Hbad Hu)) as (s4 & E4 & C4). unfold add_lines. cbn [w_k].
    match goal with |- context [run K _ (World ?p s3)] => destruct (run_set_time_refused _ "settimeofday error. 2" (fun _ => Ret None) p _ _ E4) as (pr' & ->) end.
    do 3 eexists. split; [reflexivity|]. split; [exact Hg|]. split; [|now rewrite C4]. split; [discriminate|]. intros [_ Hx]. contradiction.
Qed.
End Clock.

(** ** A clock *)

(** The time of the day; reading it takes five microseconds. *)
Definition clock_step (c : op) (us : Z) : Z * ans c :=
  match c return Z * ans c with
  | Timec Gettimeofday => (us + 5, (0, tod (us + 5)))
  | Timec (Settimeofday (sec, usec)) =>
      if (0 <=? usec) && (usec <? 1000000) then (sec * 1000000 + usec, 0) else (us, - EINVAL)
  | c => (us, enosys c)
  end.
Definition clock_kernel : kernel := Kernel Z clock_step.

#[export] Instance clock_kernel_ok : ClockKernel clock_kernel.
Proof.
  refine {| clock := fun us : kstate clock_kernel => us |}.
  - intros s. exists (s + 5), (s + 5). repeat split; cbn; lia.
  - intros s [sec usec] _ H. cbn [fst snd] in H. exists (sec * 1000000 + usec). cbn. unfold clock_step.
    rewrite (proj2 (Z.leb_le _ _)), (proj2 (Z.ltb_lt _ _)) by lia. split; reflexivity.
  - intros s [sec usec] H. cbn [fst snd] in H. exists s. cbn. unfold clock_step.
    destruct (Z.leb_spec 0 usec), (Z.ltb_spec usec 1000000); try (split; reflexivity). lia.
Defined.

(** A quarter past the second, and five microseconds before the next. *)
Lemma gettimeofday_restores_witness :
  let t0 := 1500000000250000 in let t1 := 1500000000999990 in
  (exists g v pr' s', run clock_kernel gettimeofday_run_000 (World proc0 (t0 : kstate clock_kernel)) = (Done v, World pr' s') /\
     6000006 <= g /\
     (v = None <-> 6000006 < g < 8000000 /\ 0 <= (t0 + 5) mod 1000000 + (g mod 1000000 - 6) < 1000000) /\
     clock s' = if v is None then t0 + 5 + (g - 6000006) else g) /\
  fst (run clock_kernel gettimeofday_run_000 (World proc0 (t0 : kstate clock_kernel))) = Done None /\
  fst (run clock_kernel gettimeofday_run_000 (World proc0 (t1 : kstate clock_kernel))) = Done (Some "settimeofday error. 2").
Proof.
  cbv zeta. split; [|split; vm_compute; reflexivity].
  apply (gettimeofday_restores clock_kernel proc0 (1500000000250000 : kstate clock_kernel) (1500000000250005 : kstate clock_kernel) (1500000000250000 + 5));
    [reflexivity|]. split; [discriminate|reflexivity].
Defined.

Lemma time_suites_exact_witness :
  let w : world clock_kernel := World proc0 (1500000000250000 : kstate clock_kernel) in
  fst (run clock_kernel (run_test_case gettimeofday0 ["test_mck"]) w) = Done None /\
  fst (run clock_kernel (run_test_case times0 ["test_mck"]) w) <> Done None.
Proof.
  intros w.
  assert (H0 : (gettimeofday0, Some gettimeofday_script) ∈ zip (time_cases (fun _ => "")) time_scripts).
  { apply list_elem_of_lookup. now exists 6%nat. }
  assert (H1 : (times0, Some (succeeds (Timec (Times true)) (fun r => r) Met)) ∈ zip (time_cases (fun _ => "")) time_scripts).
  { apply list_elem_of_lookup. now exists 7%nat. }
  assert (exists st, meets clock_kernel gettimeofday_script (w_k w) = Some st) as [st E0] by (eexists; vm_compute; reflexivity).
  assert (E1 : meets clock_kernel (succeeds (Timec (Times true)) (fun r => r) Met) (w_k w) = None) by (vm_compute; reflexivity).
  split.
  - pose proof (time_suites_exact (fun _ => "") clock_kernel w gettimeofday0 _ ["test_mck"] eq_refl H0) as Hx.
    cbv beta iota in Hx. rewrite E0 in Hx. exact (proj1 Hx).
  - pose proof (time_suites_exact (fun _ => "") clock_kernel w times0 _ ["test_mck"] eq_refl H1) as Hx.
    cbv beta iota in Hx. rewrite E1 in Hx. exact Hx.
Defined.
