(* ===== verification/ExecSuites.v ===== *)
(** * Suites that start other programs

    [execve], [fork_execve], [vfork], [setpgid] 4, [wait4] 1, [system], [popen], and the two
    suites on paths [fstatat] and [readlinkat].  [run] follows one process: the answer
    to [fork] or [vfork] says which one. *)
From S2P Require Import Prelude Process CLib TestMck AddrSpace MemInfo FileMap MemLarge Procs Forks Ptrace Procfs TimeSuites.
From Stdlib Require Import Ascii String.
#[local] Open Scope string_scope.
#[local] Open Scope Z_scope.

(** ** Calls *)

Definition put_ptr (a : Z) (s : option string) : prog unit :=
  r <- (trigger (Execc (PutPtr a s)) : prog (unit + Z)) ;; or_raise r.
Definition load_int (a : Z) : prog Z := r <- (trigger (Execc (LoadInt a)) : prog (Z + Z)) ;; or_raise r.
Definition store_int (a v : Z) : prog unit := r <- (trigger (Execc (StoreInt a v)) : prog (unit + Z)) ;; or_raise r.

(** A new program starts without the handlers of the old one. *)
Definition no_handlers (p : proc) : proc := Proc (p_errno p) (p_out p) (fun _ => None).
Definition execve (path : option string) (argv envp : option (list string)) : prog Z :=
  r <- (trigger (Execc (Execve path argv envp)) : prog (Z + (Z + Z))) ;;
  match r with
  | inl v => syscall_ret (-1) v
  | inr (inl status) => Exit status
  | inr (inr signum) => Loc no_handlers (fun _ => Raise signum)
  end.

Definition vfork : prog Z := r <- (trigger (Execc Vfork) : prog Z) ;; syscall_ret (-1) r.
Definition sleep (seconds : Z) : prog Z := trigger (Timec (Sleep seconds)).
Definition system (command : string) : prog Z := r <- (trigger (Execc (System command)) : prog Z) ;; syscall_ret (-1) r.
Definition fputs (s : string) (fp : Z) : prog Z := r <- (trigger (Execc (Fputs s fp)) : prog Z) ;; syscall_ret (-1) r.
Definition pclose (fp : Z) : prog Z := r <- (trigger (Execc (Pclose fp)) : prog Z) ;; syscall_ret (-1) r.
Definition fstatat (dirfd : Z) (path : string) (flags : Z) : prog Z :=
  r <- (trigger (Execc (Fstatat dirfd path flags)) : prog Z) ;; syscall_ret (-1) r.
(** The result and what is filled in. *)
Definition readlinkat (dirfd : Z) (path : string) (size : Z) : prog (Z * list Z) :=
  r <- (trigger (Execc (Readlinkat dirfd path size)) : prog (Z * list Z)) ;; v <- syscall_ret (-1) (fst r) ;; Ret (v, snd r).

(** ** The argument vector *)

(** [struct execve_args], [fork_execve_args], [vfork_args], [setpgid_args]. *)
Record execve_args := ExecveArgs { file_path : option string; ea_argv : list string }.
Definition ea_argc (args : execve_args) : Z := Z.of_nat (List.length (ea_argv args)).

(** [execve_parse_args] and its three copies. *)
Definition execve_parse_args (argv : list string) : prog (option execve_args) :=
  let '(evs, operands) := getopt "f:" (tail argv) in
  match file_options evs None with
  | None => Ret None
  | Some file =>
      match file with None => printf "mandatory parameter '-f <executable-file>'\n" [] | Some _ => Ret tt end ;;
      Ret (Some (ExecveArgs file operands))
  end.
Definition fork_execve_parse_args := execve_parse_args.
Definition vfork_parse_args := execve_parse_args.
Definition setpgid_parse_args := execve_parse_args.

Definition SIZEOF_PTR : Z := 8.

(** The loop [argv[i + 1] = *(args->argv + i)] from the address of [argv[i + 1]] on. *)
Fixpoint put_args (a : Z) (args : list string) : prog unit :=
  match args with
  | [] => Ret tt
  | s :: args' => put_ptr a (Some s) ;; put_args (a + SIZEOF_PTR) args'
  end.

(** The vector the tests build; the room is [argc * (sizeof(char ** ) + 2)]. *)
Definition build_argv (file : string) (args : list string) : prog Z :=
  let argc := Z.of_nat (List.length args) in
  argv <- malloc (u64 (argc * (SIZEOF_PTR + 2))) ;;
  put_ptr argv (Some file) ;;
  put_args (argv + SIZEOF_PTR) args ;;
  put_ptr (argv + SIZEOF_PTR * (argc + 1)) None ;;
  Ret argv.

(** The two first checks of most tests. *)
Definition with_file (args : option execve_args) (k : string -> list string -> prog result) : prog result :=
  match args with
  | None => Ret (Some "invalid arguement.")
  | Some a => match file_path a with None => Ret (Some "invalid file path.") | Some file => k file (ea_argv a) end
  end.

Section Suites.
(** The environment of the process. *)
Context (environ : list string).
(** Bounds of the loops that wait, and what follows them. *)
Context (rounds : nat) (more : prog result).

(** ** [execve] *)

(** [args->file_path] through a null pointer is a fault. *)
Definition execve_run_000 (args : option execve_args) : prog result :=
  match args with
  | None => Raise SIGSEGV
  | Some a =>
      match file_path a with
      | None => Ret (Some "invalid file path.")
      | Some file => execve (Some file) (Some []) (Some []) ;; Ret None
      end
  end.

Definition execve_run_001 (args : option execve_args) : prog result :=
  with_file args (fun file operands =>
    build_argv file operands ;;
    execve (Some file) (Some (file :: operands)) (Some environ) ;;
    Ret (Some "Why return from execve() ???")).

Definition unknown_app : string := "UnknownAppFileName".
Definition execve_run_002 : prog result :=
  ret <- execve (Some unknown_app) (Some [unknown_app]) (Some environ) ;;
  e <- errno ;;
  printf "[%s] ret=%d, errno=%d\n" [PS "execve2"; PZ ret; PZ e] ;;
  tp_assert! (ret =? -1, Some "execve return unknown code") ;;
  Ret None.

Definition execve_run_003 (args : option execve_args) : prog result :=
  with_file args (fun file operands =>
    build_argv file operands ;;
    ret <- execve None (Some (file :: operands)) (Some environ) ;;
    tp_assert! (ret =? -1, Some "Why return from execve() ret != -1 ???") ;;
    e <- errno ;;
    tp_assert! (e =? EFAULT, Some "Errno expected value comparison failure.") ;;
    Ret None).

Definition execve_run_004 (args : option execve_args) : prog result :=
  with_file args (fun file operands =>
    build_argv file operands ;;
    execve (Some file) None (Some environ) ;;
    Ret (Some "Why return from execve() ???")).

Definition execve_run_005 (args : option execve_args) : prog result :=
  with_file args (fun file operands =>
    build_argv file operands ;;
    execve (Some file) (Some (file :: operands)) None ;;
    Ret (Some "Why return from execve() ???")).

Definition exec_case (suite : string) (n : Z) (f : option execve_args -> prog result) : test_case :=
  TestCase suite n (option execve_args) (fun _ argv => execve_parse_args argv) (run_const (fun _ => f)) TEARDOWN_EMPTY.
Definition execve0 := exec_case "execve" 0 execve_run_000.
Definition execve1 := exec_case "execve" 1 execve_run_001.
Definition execve2 := plain "execve" 2 execve_run_002.
Definition execve3 := exec_case "execve" 3 execve_run_003.
Definition execve4 := exec_case "execve" 4 execve_run_004.
Definition execve5 := exec_case "execve" 5 execve_run_005.

(** ** [fork_execve/000.c] *)

Definition child_execve (file : string) (operands : list string) : prog unit :=
  build_argv file operands ;;
  execve (Some file) (Some (file :: operands)) (Some environ) ;;
  Ret tt.

Definition fork_execve_run_000 (args : option execve_args) : prog result :=
  with_file args (fun file operands =>
    pid <- fork ;;
    if pid =? -1 then
      e <- errno ;; printf "ERROR: fork()=%d, errno=%d\n" [PZ pid; PZ e] ;; Ret None
    else if pid =? 0 then child_execve file operands ;; Ret (Some "Why return from execve() ???")
    else
      let* (result, _) := wait4 pid 0 in
      (if result =? -1 then e <- errno ;; printf "ERROR: wait4()=%d, errno=%d\n" [PZ result; PZ e] else Ret tt) ;;
      Ret None).
Definition fork_execve0 := exec_case "fork_execve" 0 fork_execve_run_000.

(** ** [vfork] *)

(** The address of the variable that parent and child share until the child starts
    another program or ends: [vfork_global], [vfork_001_primitive_lock]. *)
Context (vfork_global vfork_001_primitive_lock : Z).

Definition child_execve_vfork_00 (file : string) (operands : list string) : prog unit :=
  build_argv file operands ;;
  sleep 1 ;;
  store_int vfork_global 1 ;;
  execve (Some file) (Some (file :: operands)) (Some environ) ;;
  Ret tt.

(** The end of the parent in tests 0 and 2. *)
Definition vfork_wait (pid : Z) : prog result :=
  let* (result, _) := wait4 pid 0 in
  if result =? -1 then
    e <- errno ;; printf "ERROR: wait4()=%d, errno=%d\n" [PZ result; PZ e] ;; Ret (Some "TP failed.")
  else Ret None.
Definition vfork_failed (name : string) (pid : Z) : prog result :=
  e <- errno ;; printf ("ERROR: " ++ name ++ "()=%d, errno=%d\n") [PZ pid; PZ e] ;; Ret (Some "TP failed.").

Definition vfork_run_000 (args : option execve_args) : prog result :=
  with_file args (fun file operands =>
    pid <- vfork ;;
    if pid =? -1 then vfork_failed "fork" pid
    else if pid =? 0 then child_execve_vfork_00 file operands ;; Ret (Some "Why return from execve() ???")
    else
      g <- load_int vfork_global ;;
      tp_assert! (negb (g =? 0), Some "parent process is not wait child execve.") ;;
      vfork_wait pid).

(** [while (vfork_001_primitive_lock) cpu_pause();] and what follows it. *)
Fixpoint vfork_spin (n : nat) (k : prog result) : prog result :=
  match n with
  | O => more
  | S n => v <- load_int vfork_001_primitive_lock ;; if v =? 0 then k else vfork_spin n k
  end.
(** [child_pid] and [parent_pid]. *)
Definition vfork_who (who : string) (k : prog result) : prog result :=
  pid <- getpid ;;
  tid <- gettid ;;
  vfork_spin rounds (
    store_int vfork_001_primitive_lock 1 ;;
    printf ("[" ++ who ++ "]pid=%d, tid=%d\n") [PZ pid; PZ tid] ;;
    store_int vfork_001_primitive_lock 0 ;;
    k).
Definition vfork_run_001 : prog result :=
  ret <- vfork ;;
  if ret =? -1 then Ret (Some "vfork() Failed.")
  else if ret =? 0 then vfork_who "child" (Exit 0)
  else vfork_who "parent" (Ret None).

Definition vfork_run_002 (args : option execve_args) : prog result :=
  with_file args (fun file operands =>
    pid <- vfork ;;
    if pid =? -1 then vfork_failed "vfork" pid
    else if pid =? 0 then child_execve file operands ;; Ret (Some "Why return from execve() ???")
    else vfork_wait pid).

Definition vfork0 := exec_case "vfork" 0 vfork_run_000.
Definition vfork1 := plain "vfork" 1 vfork_run_001.
Definition vfork2 := exec_case "vfork" 2 vfork_run_002.

(** ** [setpgid/004.c] *)

Definition WNOHANG : Z := 1.

(** [while (1)]: the rounds until [setpgid] fails. *)
Fixpoint setpgid_rounds (n : nat) (child_pid : Z) (k : Z -> Z -> prog result) : prog result :=
  match n with
  | O => more
  | S n =>
      set_errno 0 ;;
      result <- setpgid child_pid child_pid ;;
      if negb (result =? 0) then e <- errno ;; k result e
      else
        let* (wait_id, wait_status) := wait4 child_pid WNOHANG in
        if (0 <? wait_id) && (WIFEXITED wait_status || WIFSIGNALED wait_status)
        then Ret (Some "child process exited.")
        else setpgid_rounds n child_pid k
  end.

Definition setpgid_run_004 (args : option execve_args) : prog result :=
  with_file args (fun file operands =>
    child_pid <- fork ;;
    if child_pid =? -1 then
      e <- errno ;; printf "ERROR: fork()=%d, errno=%d\n" [PZ child_pid; PZ e] ;; Ret None
    else if child_pid =? 0 then child_execve file operands ;; Ret (Some "Why return from execve() ???")
    else
      setpgid_rounds rounds child_pid (fun result e =>
        printf ("setpgid result:%d, errno:%d (expect error is " ++ quoted "EACCES" ++ "=%d)\n") [PZ result; PZ e; PZ EACCES] ;;
        tp_assert! (e =? EACCES, Some "invalid errno.") ;;
        tp_assert! (result =? -1, Some "Why setpgid didn't failed!?") ;;
        wait4 child_pid 0 ;;
        Ret None)).
Definition setpgid4 : test_case :=
  TestCase "setpgid" 4 (option execve_args) (fun _ argv => setpgid_parse_args argv) (run_const (fun _ => setpgid_run_004))
    (TEARDOWN_ALIAS 0 TEARDOWN_EMPTY).

(** ** [wait4/001.c] *)

Fixpoint wait4_options (evs : list optev) (filepath : option string) : option string :=
  match evs with
  | [] => filepath
  | Opt c optarg :: evs' => wait4_options evs' (if Ascii.eqb c "f" then Some optarg else filepath)
  | OptErr :: evs' => wait4_options evs' filepath
  end.
Definition wait4_setup (tc_num : Z) (tc_argv : list string) : prog (option string) :=
  Ret (wait4_options (fst (getopt "f:" (tail tc_argv))) None).

(** After a failed [fopen] the check [tp_assert(0!=1, ...)] holds: the null pointer is
    read from. *)
Definition wait4_run_001 (filepath : option string) : prog result :=
  match filepath with
  | None => Ret (Some "-f <pid_max filepath>")
  | Some path =>
      f <- fopen path "r" ;;
      (if f =? NULL then perror "fopen faild: " else Ret tt) ;;
      let* (_, v) := fscanf_long f "%ld" in
      let pid_max := default 0 v in
      let err_pid := i32 (i64 (pid_max + 1)) in
      fclose f ;;
      let* (result, _) := wait4 err_pid 0 in
      e <- errno ;;
      printf "wait4()=%d, errno=%d\n" [PZ result; PZ e] ;;
      tp_assert! (result =? -1, Some "Why process(MAX_PID+1) is exist!?") ;;
      Ret None
  end.
Definition wait4_1 : test_case :=
  TestCase "wait4" 1 (option string) wait4_setup (run_const (fun _ => wait4_run_001)) TEARDOWN_EMPTY.

(** ** [system/000.c] *)

Definition WCOREDUMP (status : Z) : bool := negb (Z.land status 0x80 =? 0).

Definition system_run_000 : prog result :=
  status <- system "echo Hello World" ;;
  e1 <- (if WIFEXITED status then
           printf "cmd exit successed by status %d\n" [PZ (WEXITSTATUS status)] ;;
           Ret (if WEXITSTATUS status =? 0 then 0 else 1)
         else Ret 0) ;;
  error <- (if WIFSIGNALED status then
              printf "cmd exited by signal %d\n" [PZ (WTERMSIG status)] ;;
              (if WCOREDUMP status then printf "dumped corefile.\n" [] else Ret tt) ;;
              Ret 1
            else Ret e1) ;;
  tp_assert! (error =? 0, Some "TP failed.") ;;
  Ret None.
Definition system0 := plain "system" 0 system_run_000.

(** ** [popen/000.c] *)

Definition BUF_LEN : Z := 16.

(** [while (fgets(...) != NULL)]: the result is the variable [error]. *)
Fixpoint popen_copy (n : nat) (fpread fpwrite : Z) (k : Z -> prog result) : prog result :=
  match n with
  | O => more
  | S n =>
      line <- fgets fpread BUF_LEN ;;
      match line with
      | None => k 0
      | Some buf =>
          r <- fputs buf fpwrite ;;
          if r =? -1 then e <- errno ;; printf "fputs()=-1, errno=%d\n" [PZ e] ;; k 1
          else popen_copy n fpread fpwrite k
      end
  end.

(** [pclose] with its message; the result is [error]. *)
Definition pclose_check (fp : Z) (which : string) (error : Z) : prog Z :=
  r <- pclose fp ;;
  if r =? -1 then e <- errno ;; printf (which ++ " pclose()=-1, errno=%d\n") [PZ e] ;; Ret 1 else Ret error.

Definition popen_end (error : Z) : prog result := tp_assert! (error =? 0, Some "TP failed.") ;; Ret None.

Definition popen_run_000 : prog result :=
  fpread <- popen "echo Hello World" "r" ;;
  if fpread =? NULL then
    e <- errno ;; printf "read popen()=%p, errno=%d\n" [PZ fpread; PZ e] ;; popen_end 1
  else
    fpwrite <- popen "cat" "w" ;;
    if fpwrite =? NULL then
      e <- errno ;; printf "write popen()=%p, errno=%d\n" [PZ fpwrite; PZ e] ;;
      error <- pclose_check fpread "read" 1 ;; popen_end error
    else
      popen_copy rounds fpread fpwrite (fun error =>
        error <- pclose_check fpwrite "write" error ;;
        error <- pclose_check fpread "read" error ;;
        popen_end error).
Definition popen0 := plain "popen" 0 popen_run_000.

(** ** [fstatat], [readlinkat] *)

Definition O_DIRECTORY : Z := 0x4000.
Definition AT_FDCWD : Z := -100.
Definition AT_EMPTY_PATH : Z := 0x1000.

(** The static [dirfd]. *)
Definition fstatat_run_000 (tc_num : Z) (st : Z) : prog (result * Z) :=
  dirfd <- open "/proc" O_DIRECTORY ;;
  if dirfd =? -1 then Ret (Some "open error", dirfd)
  else
    ret <- fstatat dirfd "" 0 ;;
    if ret =? -1 then Ret (None, dirfd) else Ret (Some "unexpected fstatat success", dirfd).
Definition fstatat_teardown_000 (tc_num : Z) (dirfd : Z) : prog unit :=
  if negb (dirfd =? -1) then close dirfd ;; Ret tt else Ret tt.
Definition fstatat0 : test_case := TestCase "fstatat" 0 Z (fun _ _ => Ret (-1)) fstatat_run_000 fstatat_teardown_000.

Definition fstatat_run_001 : prog result :=
  ret <- fstatat AT_FDCWD "" AT_EMPTY_PATH ;;
  tp_assert! (negb (ret =? -1), Some "fstatat error") ;;
  Ret None.
Definition fstatat_run_002 : prog result :=
  ret <- fstatat AT_FDCWD "" 0 ;;
  tp_assert! (ret =? -1, Some "unexpected fstatat success") ;;
  Ret None.
Definition fstatat1 := plain "fstatat" 1 fstatat_run_001.
Definition fstatat2 := plain "fstatat" 2 fstatat_run_002.

Fixpoint readlinkat_options (evs : list optev) (args : option string * option string) : option string * option string :=
  match evs with
  | [] => args
  | Opt c optarg :: evs' =>
      readlinkat_options evs'
        (if Ascii.eqb c "f" then (Some optarg, snd args) else if Ascii.eqb c "l" then (fst args, Some optarg) else args)
  | OptErr :: evs' => readlinkat_options evs' args
  end.
Definition readlinkat_setup (tc_num : Z) (tc_argv : list string) : prog (option string * option string) :=
  let args := readlinkat_options (fst (getopt "f:l:" (tail tc_argv))) (None, None) in
  match args with
  | (Some _, Some _) => Ret tt
  | _ => printf "mandatory parameter '-f <target-absolute-filepath> -l <link-filepath>'\n" []
  end ;;
  Ret args.

Definition READLINK_BUF : Z := 1024.
Definition readlinkat_run_000 (args : option string * option string) : prog result :=
  match args with
  | (None, _) | (_, None) => Ret (Some "invalid file path.")
  | (Some file_path, Some link_path) =>
      printf "[INFO]readlinkat test\n target file:%s\n link file:%s\n" [PS file_path; PS link_path] ;;
      let* (result, buf) := readlinkat AT_FDCWD link_path READLINK_BUF in
      tp_assert! (negb (result =? 0), Some "readlinkat error.") ;;
      printf " buffer data:%s\n" [PS (text_of buf)] ;;
      Ret None
  end.
Definition readlinkat0 : test_case :=
  TestCase "readlinkat" 0 (option string * option string) readlinkat_setup (run_const (fun _ => readlinkat_run_000)) TEARDOWN_EMPTY.
End Suites.
