(* ===== verification/ExecThms.v ===== *)
(** * Suites that start other programs: memory and verdicts

    The room of the argument vector the tests build, and what a pass of each test of
    [ExecSuites] is evidence of on an arbitrary system. *)
From S2P Require Import Prelude Process Trace CLib TestMck AddrSpace MemInfo FileMap MemLarge Procs Forks Ptrace Procfs Exact SmallThms TimeSuites TimeThms ExecSuites.
From Stdlib Require Import Ascii String.
#[local] Open Scope string_scope.
#[local] Open Scope Z_scope.

(** ** The room of the argument vector *)

(** A pointer is stored inside the block of [len] bytes at [p]. *)
Definition in_room (p len : Z) (c : op) : Prop :=
  match c with
  | Execc (PutPtr a _) => p <= a /\ a + SIZEOF_PTR <= p + len
  | _ => True
  end.

Section Room.
Context (K : kernel) (p len : Z).
(** Stores inside the block do not fault. *)
Hypothesis block_ok : forall st a v, p <= a -> a + SIZEOF_PTR <= p + len ->
  exists st', kstep K (Execc (PutPtr a v)) st = (st', inl tt).

Definition in_room_log {A} (q : prog A) (w : world K) : Prop := Forall (fun e => in_room p len (ev_op e)) (calls K q w).

Lemma room_put {A} a v (k : prog A) w :
  in_room_log (put_ptr a v ;; k) w -> a + SIZEOF_PTR <= p + len /\ exists w', in_room_log k w'.
Proof.
  destruct w as [pr st0]. unfold in_room_log, put_ptr. cbn [bind trigger]. destruct (kstep K (Execc (PutPtr a v)) st0) as [st' r] eqn:E.
  rewrite (calls_call K _ _ pr st0 st' r E). intros Hf.
  apply Forall_cons_1 in Hf as [[H1 H2] Hf]. split; [exact H2|]. destruct (block_ok st0 a v H1 H2) as (st & E').
  rewrite E in E'. injection E' as -> ->. exists (World pr st). exact Hf.
Qed.

Lemma room_put_args {A} args : forall a (k : prog A) w,
  in_room_log (put_args a args ;; k) w -> exists w', in_room_log k w'.
Proof.
  induction args as [|s args IH]; intros a k w Hf; cbn [put_args bind] in Hf; [eauto|].
  unfold in_room_log in Hf. rewrite calls_bind_assoc in Hf. apply room_put in Hf as [_ [w' Hf]]. eauto.
Qed.
End Room.

Lemma footprint_put_args p len args : forall a,
  p <= a -> a + SIZEOF_PTR * Z.of_nat (List.length args) <= p + len -> footprint (in_room p len) (put_args a args).
Proof.
  unfold SIZEOF_PTR. induction args as [|s args IH]; intros a Ha Hb; cbn [put_args List.length] in *; [exact I|].
  apply footprint_bind; [|intros _; apply IH; unfold SIZEOF_PTR; lia].
  apply footprint_bind; [|intros r; apply footprint_or_raise]. apply footprint_trigger. unfold SIZEOF_PTR. cbn. unfold SIZEOF_PTR. lia.
Qed.

(** C33.  The argument vector of [execve] 1, 3-5, [fork_execve] 0, [vfork] 0 and 2 and
    [setpgid] 4, on any system whose [malloc] answers a block that can be written: all
    pointers are stored inside the block exactly if there are at least eight arguments.
    The room is ten bytes for each argument, the vector takes eight for each and sixteen
    more: with fewer arguments, and with none at all, the heap is overrun. *)
Theorem exec_argv_bounds K w s1 p file args :
  let n := Z.of_nat (List.length args) in
  n < 2 ^ 60 -> kstep K (Malloc (n * 10)) (w_k w) = (s1, p) -> p <> NULL ->
  (forall st a v, p <= a -> a + SIZEOF_PTR <= p + n * 10 -> exists st', kstep K (Execc (PutPtr a v)) st = (st', inl tt)) ->
  Forall (fun e => in_room p (n * 10) (ev_op e)) (calls K (build_argv file args) w) <-> 8 <= n.
Proof.
  intros n Hn Em Hp Hok. assert (H0 : 0 <= n) by (unfold n; lia). unfold build_argv, malloc. fold n.
  change (SIZEOF_PTR + 2) with 10. rewrite u64_small by lia. destruct w as [pr s0]. cbn [bind trigger w_k] in *.
  rewrite (calls_call K (Malloc (n * 10)) _ pr s0 s1 p Em).
  rewrite (proj2 (Z.eqb_neq _ _) Hp). cbn [bind]. split; intros Hf.
  - apply Forall_cons_1 in Hf as [_ Hf]. destruct (room_put K p (n * 10) Hok _ _ _ _ Hf) as (_ & w1 & H1).
    destruct (room_put_args K p (n * 10) Hok _ _ _ _ H1) as (w2 & H2).
    destruct (room_put K p (n * 10) Hok _ _ _ _ H2) as (H3 & _). unfold SIZEOF_PTR in H3. lia.
  - constructor; [exact I|]. apply footprint_calls. apply footprint_bind.
    { apply footprint_bind; [|intros r; apply footprint_or_raise]. apply footprint_trigger. cbn. unfold SIZEOF_PTR. lia. }
    intros _. apply footprint_bind; [apply footprint_put_args; unfold SIZEOF_PTR; fold n; lia|]. intros _.
    apply footprint_bind; [|intros _; exact I].
    apply footprint_bind; [|intros r; apply footprint_or_raise]. apply footprint_trigger. cbn. unfold SIZEOF_PTR. lia.
Qed.

(** A heap whose blocks can be written. *)
Definition heap_kernel : kernel :=
  Kernel unit (fun c s => (s, match c return ans c with Malloc _ => 0x10000 | c => enosys c end)).

Lemma exec_argv_bounds_witness :
  let w : world heap_kernel := World proc0 (tt : kstate heap_kernel) in
  ~ Forall (fun e => in_room 0x10000 0 (ev_op e)) (calls heap_kernel (build_argv "./a" []) w) /\
  Forall (fun e => in_room 0x10000 80 (ev_op e)) (calls heap_kernel (build_argv "./a" (repeat "x" 8)) w).
Proof.
  cbv zeta. split.
  - intros Hf. apply (exec_argv_bounds heap_kernel (World proc0 (tt : kstate heap_kernel)) tt 0x10000 "./a" []) in Hf;
      [exact (Hf eq_refl)|reflexivity|reflexivity|discriminate|]. intros [] a v _ _. now exists tt.
  - apply (exec_argv_bounds heap_kernel (World proc0 (tt : kstate heap_kernel)) tt 0x10000 "./a" (repeat "x" 8));
      [reflexivity|reflexivity|discriminate| |discriminate]. intros [] a v _ _. now exists tt.
Defined.

(** ** Scripts *)

Definition unharmed {A} (r : A + Z) : bool := match r with inl _ => true | inr _ => false end.
Definition puts (a : Z) (v : option string) (s : script) : script := Need (Execc (PutPtr a v)) unharmed (fun _ => s).
Fixpoint puts_args (a : Z) (args : list string) (s : script) : script :=
  match args with [] => s | x :: args' => puts a (Some x) (puts_args (a + SIZEOF_PTR) args' s) end.
Definition argv_script (file : string) (args : list string) (s : script) : script :=
  let n := Z.of_nat (List.length args) in
  any (Malloc (u64 (n * 10))) (fun p =>
    puts p (Some file) (puts_args (p + SIZEOF_PTR) args (puts (p + SIZEOF_PTR * (n + 1)) None s))).

(** [execve] comes back, with a raw answer that is [ok]. *)
Definition comes_back (path : option string) (argv envp : option (list string)) (ok : Z -> bool) (s : script) : script :=
  Need (Execc (Execve path argv envp)) (fun r => match r with inl v => ok v | inr _ => false end) (fun _ => s).

Definition load_is (a : Z) (ok : Z -> bool) (s : script) : script :=
  Need (Execc (LoadInt a)) (fun r => match r with inl v => ok v | inr _ => false end) (fun _ => s).
Definition int_stores (a v : Z) (s : script) : script := Need (Execc (StoreInt a v)) unharmed (fun _ => s).

(** The parent's side: a process number, and what it does with it. *)
Definition as_parent (c : op) (f : ans c -> Z) (s : Z -> script) : script :=
  Need c (fun r => not_err (f r) && negb (f r =? 0)) (fun r => s (f r)).
Definition waits (pid : Z) : script := Need (Procs (Wait4 pid 0)) (fun r => not_err (fst r)) (fun _ => Met).

Section Scripts.
Context (environ : list string) (rounds : nat) (vfork_global lock : Z).

(** What a script needs of the command line. *)
Definition on_file (f : string -> list string -> script) (args : option execve_args) : option script :=
  match args with
  | Some a => match file_path a with Some file => Some (f file (ea_argv a)) | None => None end
  | None => None
  end.

(** A failed [fork] passes as well, and so does every answer of [wait4]. *)
Definition fork_execve_script (file : string) (operands : list string) : script :=
  Need (Procs Fork) (fun r => negb ((r : Z) =? 0)) (fun r => if is_err r then Met else any (Procs (Wait4 r 0)) (fun _ => Met)).

Fixpoint spin_script (n : nat) (s : script) : script :=
  match n with
  | O => never
  | S n => Need (Execc (LoadInt lock)) unharmed (fun r => match r with inl v => if v =? 0 then s else spin_script n s | inr _ => Met end)
  end.
Definition vfork_script_001 : script :=
  as_parent (Execc Vfork) (fun r => r) (fun _ => any (Procs Getpid) (fun _ => any Gettid (fun _ =>
    spin_script rounds (int_stores lock 1 (int_stores lock 0 Met))))).

Fixpoint setpgid_script (n : nat) (child : Z) : script :=
  match n with
  | O => never
  | S n =>
      Need (Procs (Setpgid child child)) (fun r => ((r : Z) =? 0) || ((r : Z) =? - EACCES)) (fun r =>
        if (r : Z) =? 0 then
          Need (Procs (Wait4 child WNOHANG))
            (fun r => negb ((0 <? sysret (fst r)) && (WIFEXITED (snd r) || WIFSIGNALED (snd r)))) (fun _ => setpgid_script n child)
        else any (Procs (Wait4 child 0)) (fun _ => Met))
  end.
(** A failed [fork] passes as well. *)
Definition setpgid_script_004 (file : string) (operands : list string) : script :=
  Need (Procs Fork) (fun r => negb ((r : Z) =? 0)) (fun r => if is_err r then Met else setpgid_script rounds r).

Definition wait4_script_001 (path : string) : script :=
  any (Fopen path "r") (fun r => let f := if is_err r then NULL else r in
  any (Filec (FscanfLong f "%ld")) (fun v =>
  any (Fclose f) (fun _ =>
  Need (Procs (Wait4 (i32 (i64 (default 0 (snd v) + 1))) 0)) (fun r => is_err (fst r)) (fun _ => Met)))).

(** The status neither tells of a failed command nor of a signal. *)
Definition system_ok (status : Z) : bool :=
  negb (WIFEXITED status && negb (WEXITSTATUS status =? 0)) && negb (WIFSIGNALED status).

Definition a_stream (r : Z) : bool := not_err r && negb (r =? NULL).
Fixpoint copy_script (n : nat) (fpread fpwrite : Z) (s : script) : script :=
  match n with
  | O => never
  | S n => any (Fgets fpread BUF_LEN) (fun l =>
      match l with None => s | Some b => succeeds (Execc (Fputs b fpwrite)) (fun r => r) (copy_script n fpread fpwrite s) end)
  end.
Definition popen_script : script :=
  Need (Filec (Popen "echo Hello World" "r")) a_stream (fun fpread =>
  Need (Filec (Popen "cat" "w")) a_stream (fun fpwrite =>
  copy_script rounds fpread fpwrite
    (succeeds (Execc (Pclose fpwrite)) (fun r => r) (succeeds (Execc (Pclose fpread)) (fun r => r) Met)))).

Definition fstatat_script_000 : script :=
  Need (Open "/proc" O_DIRECTORY) not_err (fun fd =>
  Need (Execc (Fstatat fd "" 0)) is_err (fun _ => any (Close fd) (fun _ => Met))).

Definition readlinkat_script (link : string) : script :=
  Need (Execc (Readlinkat AT_FDCWD link READLINK_BUF)) (fun r => negb (fst r =? 0)) (fun _ => Met).

(** The arguments a command line stands for. *)
Definition parsed (argv : list string) : option execve_args :=
  let '(evs, operands) := getopt "f:" (tail argv) in
  match file_options evs None with Some file => Some (ExecveArgs file operands) | None => None end.
Definition of_file (f : string -> list string -> script) (argv : list string) : option script := on_file f (parsed argv).
Definition of_nothing (s : script) (argv : list string) : option script := Some s.
Definition of_path (argv : list string) : option script :=
  match wait4_options (fst (getopt "f:" (tail argv))) None with Some path => Some (wait4_script_001 path) | None => None end.
Definition of_link (argv : list string) : option script :=
  match readlinkat_options (fst (getopt "f:l:" (tail argv))) (None, None) with
  | (Some _, Some link) => Some (readlinkat_script link)
  | _ => None
  end.
End Scripts.

(** ** Rules *)

Section Rules.
Context (z : bool).

(** A call with its result, -1 for an error. *)
Lemma exact_branch_fill {B} c (f : ans c -> Z) (g : ans c -> B) (k : Z * B -> prog result) ok s :
  (forall r, ok r = true -> exact false false None (k (sysret (f r), g r)) (s r)) ->
  (forall r, ok r = false -> fails None (k (sysret (f r), g r))) ->
  exact z false None (x <- (r <- trigger c ;; v <- syscall_ret (-1) (f r) ;; Ret (v, g r)) ;; k x) (Need c ok s).
Proof.
  intros Hk Hf K [pr st] _. cbn [bind trigger run meets w_k w_proc]. destruct (kstep K c st) as [st' r].
  specialize (Hk r). specialize (Hf r). unfold sysret, syscall_ret in *. destruct (ok r).
  - destruct (is_err (f r)); cbn [bind set_errno run w_proc w_k].
    + apply (Hk eq_refl K (World (with_errno (- f r) pr) st')). discriminate.
    + apply (Hk eq_refl K (World pr st')). discriminate.
  - destruct (is_err (f r)); cbn [bind set_errno run w_proc w_k]; now apply Hf.
Qed.

Lemma exact_branch c (f : ans c -> Z) (k : Z -> prog result) ok s :
  (forall r, ok r = true -> exact false false None (k (sysret (f r))) (s r)) ->
  (forall r, ok r = false -> fails None (k (sysret (f r)))) ->
  exact z false None (x <- (r <- trigger c ;; syscall_ret (-1) (f r)) ;; k x) (Need c ok s).
Proof.
  intros Hk Hf K w Hz. pose proof (exact_branch_fill c f (fun _ => tt) (fun x => k (fst x)) ok s Hk Hf K w Hz) as Hx.
  revert Hx. cbn [bind trigger run meets w_k w_proc]. destruct (kstep K c (w_k w)) as [st' r].
  unfold syscall_ret. destruct (is_err (f r)); exact id.
Qed.

Lemma exact_puts a v (k : prog result) s : exact z false None k s -> exact z false None (put_ptr a v ;; k) (puts a v s).
Proof.
  intros Hk. unfold put_ptr, puts. cbn [bind trigger]. apply exact_call; intros [[]|n] E; try discriminate; [exact Hk|].
  cbn. apply fails_raise.
Qed.

Lemma exact_puts_args args : forall a (k : prog result) s,
  exact z false None k s -> exact z false None (put_args a args ;; k) (puts_args a args s).
Proof.
  induction args as [|x args IH]; intros a k s Hk; cbn [put_args puts_args]; [exact Hk|].
  now apply exact_assoc, exact_puts, IH.
Qed.

Lemma exact_int_stores a v (k : prog result) s : exact z false None k s -> exact z false None (store_int a v ;; k) (int_stores a v s).
Proof.
  intros Hk. unfold store_int, int_stores. cbn [bind trigger]. apply exact_call; intros [[]|n] E; try discriminate; [exact Hk|].
  cbn. apply fails_raise.
Qed.

Lemma exact_execve path argv envp (k : Z -> prog result) ok s :
  (forall v, ok v = true -> exact false false None (x <- syscall_ret (-1) v ;; k x) s) ->
  (forall v, ok v = false -> fails None (x <- syscall_ret (-1) v ;; k x)) ->
  exact z false None (x <- execve path argv envp ;; k x) (comes_back path argv envp ok s).
Proof.
  intros Hk Hf. unfold execve, comes_back. apply exact_assoc. cbn [bind trigger].
  apply exact_call.
  - intros [v|[n|n]] E; try discriminate. apply exact_pre. now apply Hk.
  - intros [v|[n|n]] E; [now apply Hf|apply fails_exit|]. intros K w. cbn. discriminate.
Qed.
End Rules.

Lemma exact_argv z file args (k : prog result) s :
  exact false false None k s -> exact z false None (build_argv file args ;; k) (argv_script file args s).
Proof.
  intros Hk. unfold build_argv, argv_script, malloc. change (SIZEOF_PTR + 2) with 10. set (n := Z.of_nat (List.length args)).
  apply exact_pre, exact_assoc, exact_assoc. cbn [bind trigger]. apply exact_any. intros p.
  assert (Hp : exact false false None (p' <- Ret p ;; (_ <- (put_ptr p' (Some file) ;; put_args (p' + SIZEOF_PTR) args ;;
                 put_ptr (p' + SIZEOF_PTR * (n + 1)) None ;; Ret p') ;; k))
    (puts p (Some file) (puts_args (p + SIZEOF_PTR) args (puts (p + SIZEOF_PTR * (n + 1)) None s)))).
  { cbn [bind]. apply exact_assoc, exact_puts, exact_assoc, exact_puts_args, exact_assoc, exact_puts, Hk. }
  destruct (Z.eqb_spec p NULL) as [->|Hn]; [|exact Hp]. intros K w Hz. exact (Hp K (World (with_errno ENOMEM (w_proc w)) (w_k w)) ltac:(discriminate)).
Qed.

(** Whatever follows, the process does not come back with [NULL]. *)
Lemma fails_child (p : prog unit) (m : string) : fails (None : result) (p ;; Ret (Some m)).
Proof. apply fails_bind. intros _. now apply fails_ret. Qed.

Lemma sysret_parent r : not_err r && negb (r =? 0) = true -> sysret r = r /\ (r =? -1) = false /\ (r =? 0) = false.
Proof.
  intros E. apply andb_prop in E as [E1 E2]. apply negb_true_iff in E1, E2. unfold sysret. rewrite E1. auto using not_err_not_neg1.
Qed.

(** [fork] or [vfork] seen from the parent; [bad] is what is done without a child. *)
Lemma exact_as_parent z c (f : ans c -> Z) bad child (k : Z -> prog result) s :
  fails None (bad (-1)) -> fails None child -> (forall pid, not_err pid = true -> exact false false None (k pid) (s pid)) ->
  exact z false None (pid <- (r <- trigger c ;; syscall_ret (-1) (f r)) ;;
                      if pid =? -1 then bad pid else if pid =? 0 then child else k pid) (as_parent c f s).
Proof.
  intros Hb Hc Hk. apply exact_branch; intros r E.
  - destruct (sysret_parent _ E) as (-> & -> & ->). apply Hk. now apply andb_prop in E as [E _].
  - unfold not_err, sysret in *. destruct (is_err (f r)); [exact Hb|]. cbn in E. apply negb_false_iff in E. rewrite E.
    apply Z.eqb_eq in E. rewrite E. exact Hc.
Qed.

(** [wait4] that must not fail. *)
Lemma exact_waits z pid : exact z false None (vfork_wait pid) (waits pid).
Proof.
  unfold vfork_wait, waits, wait4. apply (exact_branch_fill z (Procs (Wait4 pid 0)) (fun r => fst r) (fun r => snd r)); intros r E.
  - unfold sysret. pose proof (not_err_neg1 _ E) as En. apply negb_true_iff in E. rewrite E, En. apply exact_ret.
  - apply negb_false_iff in E. unfold sysret. rewrite E. fails_tac.
Qed.

Lemma run_eta K {A} (p : prog A) w a st :
  fst (run K p w) = Done a -> w_k (snd (run K p w)) = st -> exists pr, run K p w = (Done a, World pr st).
Proof. destruct (run K p w) as [o [pr st']]. cbn. intros -> ->. eauto. Qed.

(** A case whose setup only prints and whose teardown does nothing. *)
Lemma case_returns {M} suite n (setup0 : Z -> list string -> prog M) (f : M -> prog result) td (m : M) argv o lines :
  (forall K (w : world K), run K (setup0 n argv) w = (Done m, add_lines lines w)) -> td n m = Ret tt ->
  returns_NULL o (f m) -> returns_NULL o (run_test_case (TestCase suite n M setup0 (run_const (fun _ => f)) td) argv).
Proof.
  intros Hs Ht Hf.
  assert (E : forall K w, fst (run K (run_test_case (TestCase suite n M setup0 (run_const (fun _ => f)) td) argv) w) =
                          fst (run K (f m) (add_lines lines w)) /\
                          w_k (snd (run K (run_test_case (TestCase suite n M setup0 (run_const (fun _ => f)) td) argv) w)) =
                          w_k (snd (run K (f m) (add_lines lines w)))).
  { intros K w. unfold run_test_case. cbn [setup tc_run teardown num]. rewrite run_bind, Hs. unfold run_const. rewrite !run_bind.
    destruct (run K (f m) (add_lines lines w)) as [[v|x|x] w']; cbn [run]; [|now split..]. rewrite Ht. now split. }
  destruct o as [s|]; cbn [returns_NULL] in *.
  - intros K w Hz. destruct (E K w) as [E1 E2]. specialize (Hf K (add_lines lines w) Hz). change (w_k (add_lines lines w)) with (w_k w) in Hf.
    destruct (meets K s (w_k w)) as [st|]; [|intros Hc; exact (Hf (eq_trans (eq_sym E1) Hc))]. destruct Hf as (pr & Hf & _).
    pose proof (eq_trans E1 (f_equal fst Hf)) as F1. pose proof (eq_trans E2 (f_equal (fun x => w_k (snd x)) Hf)) as F2.
    destruct (run_eta _ _ _ _ _ F1 F2) as (pr' & Er). exists pr'. split; [exact Er|discriminate].
  - intros K w Hc. destruct (E K w) as [E1 _]. exact (Hf K _ (eq_trans (eq_sym E1) Hc)).
Qed.

Lemma run_parse K argv (w : world K) : exists lines, forall K (w : world K),
  run K (execve_parse_args argv) w = (Done (parsed argv), add_lines lines w).
Proof.
  unfold execve_parse_args, parsed. destruct (getopt "f:" (tail argv)) as [evs operands].
  destruct (file_options evs None) as [[file|]|].
  - exists []. intros K' w'. now rewrite add_lines_nil.
  - exists [("mandatory parameter '-f <executable-file>'\n", [])]. reflexivity.
  - exists []. intros K' w'. now rewrite add_lines_nil.
Qed.

Lemma exec_case_returns suite n f argv o :
  returns_NULL o (f (parsed argv)) -> returns_NULL o (run_test_case (exec_case suite n f) argv).
Proof. intros Hf. destruct (run_parse null_kernel argv null_world) as (lines & Hs). now eapply case_returns. Qed.

Lemma returns_on_file (f : string -> list string -> script) k args :
  (forall file operands, exact false false None (k file operands) (f file operands)) ->
  returns_NULL (on_file f args) (with_file args k).
Proof.
  intros Hk. unfold on_file, with_file. destruct args as [[[file|] operands]|]; cbn [file_path ea_argv returns_NULL];
    [apply exact_pre, Hk|now apply fails_ret..].
Qed.

Lemma never_on_file k args : (forall file operands, fails None (k file operands)) -> fails None (with_file args k).
Proof.
  intros Hk. unfold with_file. destruct args as [[[file|] operands]|]; cbn [file_path ea_argv]; [apply Hk|now apply fails_ret..].
Qed.

Section Cases.
Context (environ : list string) (rounds : nat) (more : prog result) (Hm : fails None more) (vfork_global lock : Z).

Lemma exact_never_more z (p : prog result) : fails None p -> exact z false None p never.
Proof. intros Hp K w _. cbn. destruct (kstep K (Procs Getpid) (w_k w)). apply Hp. Qed.

Lemma execve_000_returns args : returns_NULL
  (on_file (fun file _ => comes_back (Some file) (Some []) (Some []) (fun _ => true) Met) args) (execve_run_000 args).
Proof.
  unfold execve_run_000, on_file. destruct args as [[[file|] operands]|]; cbn [file_path ea_argv returns_NULL];
    [|now apply fails_ret|apply fails_raise].
  apply exact_pre, exact_execve; [|discriminate]. intros v _. apply exact_sysret_any, exact_ret.
Qed.

Lemma exact_execve_002 : exact true false None (execve_run_002 environ)
  (comes_back (Some unknown_app) (Some [unknown_app]) (Some environ) is_err Met).
Proof.
  apply exact_pre, exact_execve; intros v E.
  - apply exact_sysret_any. rewrite E. apply exact_errno. intros e. apply exact_printf, exact_ret.
  - unfold syscall_ret. rewrite E. cbn [bind]. apply fails_bind. intros e. apply fails_bind. intros _.
    rewrite (not_err_not_neg1 _ E). now apply fails_ret.
Qed.

Lemma exact_execve_003 file operands : exact false false None
  (build_argv file operands ;; ret <- execve None (Some (file :: operands)) (Some environ) ;;
   tp_assert! (ret =? -1, Some "Why return from execve() ret != -1 ???") ;; e <- errno ;;
   tp_assert! (e =? EFAULT, Some "Errno expected value comparison failure.") ;; Ret None)
  (argv_script file operands (comes_back None (Some (file :: operands)) (Some environ) (fun v => v =? - EFAULT) Met)).
Proof.
  apply exact_argv, exact_execve; intros v E.
  - apply Z.eqb_eq in E as ->. intros K [pr st] _. cbn. eexists. split; [reflexivity|discriminate].
  - intros K [pr st]. unfold syscall_ret. destruct (is_err v) eqn:En; cbn [bind set_errno run w_proc w_k].
    + rewrite Z.eqb_refl. cbn [tp_assert bind errno run w_proc w_k with_errno p_errno id]. apply Z.eqb_neq in E.
      rewrite (proj2 (Z.eqb_neq _ _)) by lia. discriminate.
    + rewrite (not_err_not_neg1 _ En). discriminate.
Qed.

(** The tests that do not come back. *)
Lemma fails_execve file operands path argv envp m :
  fails (None : result) (build_argv file operands ;; execve path argv envp ;; Ret (Some m)).
Proof. apply fails_bind. intros _. apply fails_bind. intros _. now apply fails_ret. Qed.

Lemma exact_fork_execve file operands : exact false false None
  (pid <- fork ;;
   if pid =? -1 then e <- errno ;; printf "ERROR: fork()=%d, errno=%d\n" [PZ pid; PZ e] ;; Ret None
   else if pid =? 0 then child_execve environ file operands ;; Ret (Some "Why return from execve() ???")
   else let* (result, _) := wait4 pid 0 in
     (if result =? -1 then e <- errno ;; printf "ERROR: wait4()=%d, errno=%d\n" [PZ result; PZ e] else Ret tt) ;; Ret None)
  (fork_execve_script file operands).
Proof.
  unfold fork, fork_execve_script. apply (exact_branch false (Procs Fork) (fun r => r)); intros r E.
  - unfold sysret. destruct (is_err r) eqn:En; [rewrite Z.eqb_refl; apply exact_errno; intros e; apply exact_printf, exact_ret|].
    apply negb_true_iff in E. rewrite (not_err_not_neg1 _ En), E. unfold wait4.
    apply (exact_branch_fill false (Procs (Wait4 r 0)) (fun r => fst r) (fun r => snd r)); [|discriminate]. intros v _.
    case_if; [apply exact_assoc, exact_errno; intros e; apply exact_printf, exact_ret|apply exact_ret].
  - apply negb_false_iff in E. apply Z.eqb_eq in E as ->. apply fails_child.
Qed.

Lemma exact_vfork_000 file operands : exact false false None
  (pid <- vfork ;;
   if pid =? -1 then vfork_failed "fork" pid
   else if pid =? 0 then child_execve_vfork_00 environ vfork_global file operands ;; Ret (Some "Why return from execve() ???")
   else g <- load_int vfork_global ;; tp_assert! (negb (g =? 0), Some "parent process is not wait child execve.") ;; vfork_wait pid)
  (as_parent (Execc Vfork) (fun r => r) (fun pid => load_is vfork_global (fun v => negb (v =? 0)) (waits pid))).
Proof.
  unfold vfork. apply (exact_as_parent false (Execc Vfork) (fun r => r)); [unfold vfork_failed; fails_tac|apply fails_child|].
  intros pid _. unfold load_int, load_is. apply exact_assoc. cbn [bind trigger].
  apply exact_call; intros [v|n] E; try discriminate; cbn [or_raise bind]; rewrite ?E; [apply exact_waits|now apply fails_ret|apply fails_raise].
Qed.
Lemma exact_vfork_002 file operands : exact false false None
  (pid <- vfork ;;
   if pid =? -1 then vfork_failed "vfork" pid
   else if pid =? 0 then child_execve environ file operands ;; Ret (Some "Why return from execve() ???")
   else vfork_wait pid)
  (as_parent (Execc Vfork) (fun r => r) waits).
Proof.
  unfold vfork. apply (exact_as_parent false (Execc Vfork) (fun r => r)); [unfold vfork_failed; fails_tac|apply fails_child|].
  intros pid _. apply exact_waits.
Qed.

Lemma exact_spin n (k : prog result) s : exact false false None k s -> exact false false None (vfork_spin more lock n k) (spin_script lock n s).
Proof.
  intros Hk. induction n as [|n IH]; cbn [vfork_spin spin_script]; [now apply exact_never_more|].
  unfold load_int. apply exact_assoc. cbn [bind trigger].
  apply exact_call; intros [v|x] E; try discriminate; cbn [or_raise bind]; [destruct (v =? 0); auto|apply fails_raise].
Qed.

Lemma fails_spin n (k : prog result) : fails None k -> fails None (vfork_spin more lock n k).
Proof.
  intros Hk. induction n as [|n IH]; cbn [vfork_spin]; [exact Hm|]. apply fails_bind. intros v. destruct (v =? 0); auto.
Qed.

Lemma exact_vfork_001 : exact true false None (vfork_run_001 rounds more lock) (vfork_script_001 rounds lock).
Proof.
  unfold vfork_run_001, vfork. apply (exact_as_parent true (Execc Vfork) (fun r => r) (fun _ => Ret (Some "vfork() Failed.")));
    [now apply fails_ret| |].
  - unfold vfork_who. apply fails_bind. intros pid. apply fails_bind. intros tid. apply fails_spin. fails_tac.
  - intros pid _. unfold vfork_who, getpid, gettid. cbn [bind trigger]. apply exact_any. intros p. apply exact_any. intros t.
    apply exact_spin, exact_int_stores, exact_printf, exact_int_stores, exact_ret.
Qed.

(** One result of [setpgid] other than 0: the error [EACCES]. *)
Lemma exact_setpgid_rounds child n : exact false false None
  (setpgid_rounds more n child (fun result e =>
     printf ("setpgid result:%d, errno:%d (expect error is " ++ quoted "EACCES" ++ "=%d)\n") [PZ result; PZ e; PZ EACCES] ;;
     tp_assert! (e =? EACCES, Some "invalid errno.") ;;
     tp_assert! (result =? -1, Some "Why setpgid didn't failed!?") ;;
     wait4 child 0 ;; Ret None)) (setpgid_script n child).
Proof.
  induction n as [|n IH]; cbn [setpgid_rounds setpgid_script]; [now apply exact_never_more|].
  intros K [pr st] _. cbn [bind set_errno setpgid trigger run meets w_proc w_k]. destruct (kstep K (Procs (Setpgid child child)) st) as [st' r].
  unfold syscall_ret. destruct (Z.eqb_spec r 0) as [->|Hr]; cbn [orb].
  - cbn [is_err Z.ltb Z.compare andb negb Z.eqb bind run]. change (let* (wait_id, wait_status) := ?p in ?q) with (x <- p ;; (let (wait_id, wait_status) := x in q)).
    refine (exact_branch_fill false (Procs (Wait4 child WNOHANG)) (fun r => fst r) (fun r => snd r)
      (fun '(wait_id, wait_status) => if (0 <? wait_id) && (WIFEXITED wait_status || WIFSIGNALED wait_status)
         then Ret (Some "child process exited.") else _) _ _ _ _ K (World (with_errno 0 pr) st') ltac:(discriminate)); intros v E.
    + apply negb_true_iff in E. rewrite E. exact IH.
    + apply negb_false_iff in E. rewrite E. now apply fails_ret.
  - destruct (Z.eqb_spec r (- EACCES)) as [->|He].
    + change (is_err (- EACCES)) with true. cbn [bind set_errno run w_proc w_k]. change (negb (-1 =? 0)) with true.
      cbn [bind errno run printf w_proc w_k with_errno with_line p_errno id].
      refine (exact_branch_fill false (Procs (Wait4 child 0)) (fun r => fst r) (fun r => snd r) (fun _ => Ret None) _ _
                (fun _ _ => exact_ret false None) _ K (World _ st') ltac:(discriminate)). discriminate.
    + destruct (is_err r) eqn:En; cbn [bind set_errno run w_proc w_k].
      * change (negb (-1 =? 0)) with true. cbn [bind errno run printf w_proc w_k with_errno with_line p_errno id].
        rewrite (proj2 (Z.eqb_neq (- r) EACCES)) by lia. discriminate.
      * rewrite (proj2 (Z.eqb_neq r 0) Hr). cbn. discriminate.
Qed.
Lemma exact_setpgid_004 file operands : exact false false None
  (child_pid <- fork ;;
   if child_pid =? -1 then e <- errno ;; printf "ERROR: fork()=%d, errno=%d\n" [PZ child_pid; PZ e] ;; Ret None
   else if child_pid =? 0 then child_execve environ file operands ;; Ret (Some "Why return from execve() ???")
   else setpgid_rounds more rounds child_pid (fun result e =>
     printf ("setpgid result:%d, errno:%d (expect error is " ++ quoted "EACCES" ++ "=%d)\n") [PZ result; PZ e; PZ EACCES] ;;
     tp_assert! (e =? EACCES, Some "invalid errno.") ;;
     tp_assert! (result =? -1, Some "Why setpgid didn't failed!?") ;;
     wait4 child_pid 0 ;; Ret None)) (setpgid_script_004 rounds file operands).
Proof.
  unfold fork, setpgid_script_004. apply (exact_branch false (Procs Fork) (fun r => r)); intros r E.
  - unfold sysret. destruct (is_err r) eqn:En; [rewrite Z.eqb_refl; apply exact_errno; intros e; apply exact_printf, exact_ret|].
    apply negb_true_iff in E. rewrite (not_err_not_neg1 _ En), E. apply exact_setpgid_rounds.
  - apply negb_false_iff in E. apply Z.eqb_eq in E as ->. apply fails_child.
Qed.

Lemma exact_wait4_001 path : exact true false None (wait4_run_001 (Some path)) (wait4_script_001 path).
Proof.
  unfold wait4_run_001, wait4_script_001, fopen. apply exact_assoc. cbn [bind trigger]. apply exact_any. intros r.
  apply exact_sysret_any. set (f := if is_err r then NULL else r).
  assert (Hp : exact false false None (let* (_, v) := fscanf_long f "%ld" in
      fclose f ;;
      let* (result, _) := wait4 (i32 (i64 (default 0 v + 1))) 0 in
      e <- errno ;; printf "wait4()=%d, errno=%d\n" [PZ result; PZ e] ;;
      tp_assert! (result =? -1, Some "Why process(MAX_PID+1) is exist!?") ;; Ret None)
    (any (Filec (FscanfLong f "%ld")) (fun v => any (Fclose f) (fun _ =>
       Need (Procs (Wait4 (i32 (i64 (default 0 (snd v) + 1))) 0)) (fun r => is_err (fst r)) (fun _ => Met))))).
  { unfold fscanf_long. cbn [bind trigger]. apply exact_any. intros [n v]. unfold fclose. cbn [snd].
    apply (exact_ignored false None (Fclose f) (fun r => r)). unfold wait4.
    apply (exact_branch_fill false (Procs (Wait4 _ 0)) (fun r => fst r) (fun r => snd r)); intros x E; unfold sysret; rewrite E.
    - apply exact_errno. intros e. apply exact_printf, exact_ret.
    - fails_tac. rewrite (not_err_not_neg1 _ E). now apply fails_ret. }
  destruct (f =? NULL); [|exact Hp]. apply (exact_quiet false false None (perror "fopen faild: ")); [|exact Hp].
  apply exact_errno. intros e. apply exact_print.
Qed.

Lemma exact_system : exact true false None system_run_000 (Need (Execc (System "echo Hello World")) (fun r => system_ok (sysret r)) (fun _ => Met)).
Proof.
  unfold system_run_000, system. apply (exact_branch true (Execc (System "echo Hello World")) (fun r => r)); intros r E;
    set (st := sysret r) in *; unfold system_ok in E.
  - apply andb_prop in E as [E1 E2]. apply negb_true_iff in E1, E2. rewrite E2. apply andb_false_iff in E1.
    destruct (WIFEXITED st); [|apply exact_ret]. destruct E1 as [E1|E1]; [discriminate|]. apply negb_false_iff in E1. rewrite E1.
    apply exact_assoc, exact_printf, exact_ret.
  - destruct (WIFSIGNALED st) eqn:Es.
    { apply fails_bind. intros e1 K w. cbn. destruct (WCOREDUMP st); cbn; discriminate. }
    cbn [negb] in E. rewrite andb_true_r in E. apply negb_false_iff in E. apply andb_prop in E as [E1 E2].
    rewrite E1. apply negb_true_iff in E2. rewrite E2. intros K w. cbn. discriminate.
Qed.

Lemma exact_pclose z fp which (k : Z -> prog result) s :
  fails None (k 1) -> exact false false None (k 0) s ->
  exact z false None (error <- pclose_check fp which 0 ;; k error) (succeeds (Execc (Pclose fp)) (fun r => r) s).
Proof.
  intros Hf Hk. unfold pclose_check, pclose. apply exact_assoc, (exact_branch z (Execc (Pclose fp)) (fun r => r)); intros r E; unfold sysret.
  - pose proof (not_err_neg1 _ E) as En. apply negb_true_iff in E. rewrite E, En. exact Hk.
  - apply negb_false_iff in E. rewrite E. intros K w. cbn. apply Hf.
Qed.

Lemma fails_pclose fp which (k : Z -> prog result) : fails None (k 1) -> fails None (error <- pclose_check fp which 1 ;; k error).
Proof.
  intros Hk. unfold pclose_check, pclose. intros K w. cbn. destruct (kstep K (Execc (Pclose fp)) (w_k w)) as [st r].
  unfold syscall_ret. destruct (is_err r); cbn; [apply Hk|]. destruct (r =? -1); cbn; apply Hk.
Qed.

Lemma exact_copy fpread fpwrite (k : Z -> prog result) s n :
  fails None (k 1) -> exact false false None (k 0) s ->
  exact false false None (popen_copy more n fpread fpwrite k) (copy_script n fpread fpwrite s).
Proof.
  intros Hf Hk. induction n as [|n IH]; cbn [popen_copy copy_script]; [now apply exact_never_more|].
  unfold fgets. cbn [bind trigger]. apply exact_any. intros [b|]; [|exact Hk]. unfold fputs.
  apply (exact_branch false (Execc (Fputs b fpwrite)) (fun r => r)); intros r E; unfold sysret.
  - pose proof (not_err_neg1 _ E) as En. apply negb_true_iff in E. rewrite E, En. exact IH.
  - apply negb_false_iff in E. rewrite E. intros K w. cbn. apply Hf.
Qed.

(** A stream must not be null. *)
Lemma exact_popen z cmd type (k : Z -> prog result) s :
  fails None (k NULL) -> (forall fp, (fp =? NULL) = false -> exact false false None (k fp) (s fp)) ->
  exact z false None (fp <- popen cmd type ;; k fp) (Need (Filec (Popen cmd type)) a_stream s).
Proof.
  intros Hf Hk. unfold popen. apply exact_assoc. cbn [bind trigger]. apply exact_call; intros r E; unfold a_stream, not_err, syscall_ret in *.
  - apply andb_prop in E as [E1 E2]. apply negb_true_iff in E1, E2. rewrite E1. apply exact_pre. now apply Hk.
  - destruct (is_err r); [intros K w; cbn; apply Hf|]. cbn in E. apply negb_false_iff in E. apply Z.eqb_eq in E as ->. exact Hf.
Qed.

Lemma exact_popen_000 : exact true false None (popen_run_000 rounds more) (popen_script rounds).
Proof.
  apply exact_popen; [unfold popen_end; rewrite Z.eqb_refl; fails_tac|]. intros fpread Hr. rewrite Hr.
  apply exact_popen; [rewrite Z.eqb_refl; apply fails_bind; intros e; apply fails_bind; intros _; apply fails_pclose; now apply fails_ret|].
  intros fpwrite Hw. rewrite Hw. apply exact_copy.
  - apply fails_pclose, fails_pclose. now apply fails_ret.
  - apply exact_pclose; [apply fails_pclose; now apply fails_ret|]. apply exact_pclose; [now apply fails_ret|apply exact_ret].
Qed.
Lemma exact_fstatat_000 argv : exact true false None (run_test_case fstatat0 argv) fstatat_script_000.
Proof.
  unfold run_test_case, fstatat_script_000. cbn [setup fstatat0 bind tc_run num teardown]. unfold fstatat_run_000, open.
  apply exact_assoc, (exact_ok true false None (Open "/proc" O_DIRECTORY) (fun r => r)).
  { cbn. now apply fails_ret. }
  intros fd E. rewrite (not_err_neg1 _ E). unfold fstatat. apply exact_assoc, (exact_branch true (Execc (Fstatat fd "" 0)) (fun r => r));
    intros r Er; unfold sysret; rewrite Er.
  - cbn [Z.eqb Pos.eqb bind]. unfold fstatat_teardown_000. rewrite (not_err_neg1 _ E). cbn [negb]. unfold close. apply exact_assoc.
    apply (exact_ignored false None (Close fd) (fun r => r)), exact_ret.
  - rewrite (not_err_not_neg1 _ Er). cbn [bind]. apply fails_bind. intros _. now apply fails_ret.
Qed.

Lemma exact_fstatat_001 : exact true false None fstatat_run_001 (succeeds (Execc (Fstatat AT_FDCWD "" AT_EMPTY_PATH)) (fun r => r) Met).
Proof.
  unfold fstatat_run_001, fstatat. apply (exact_branch true (Execc (Fstatat AT_FDCWD "" AT_EMPTY_PATH)) (fun r => r)); intros r E; unfold sysret.
  - pose proof (not_err_neg1 _ E) as En. apply negb_true_iff in E. rewrite E, En. apply exact_ret.
  - apply negb_false_iff in E. rewrite E. now apply fails_ret.
Qed.

Lemma exact_fstatat_002 : exact true false None fstatat_run_002 (Need (Execc (Fstatat AT_FDCWD "" 0)) is_err (fun _ => Met)).
Proof.
  unfold fstatat_run_002, fstatat. apply (exact_branch true (Execc (Fstatat AT_FDCWD "" 0)) (fun r => r)); intros r E; unfold sysret; rewrite E.
  - apply exact_ret.
  - rewrite (not_err_not_neg1 _ E). now apply fails_ret.
Qed.

(** A failed [readlinkat] has the result -1, which is not 0. *)
Lemma exact_readlinkat file link : exact true false None (readlinkat_run_000 (Some file, Some link)) (readlinkat_script link).
Proof.
  apply exact_printf. unfold readlinkat. apply (exact_branch_fill true (Execc (Readlinkat AT_FDCWD link READLINK_BUF)) (fun r => fst r) (fun r => snd r));
    intros r E; rewrite (sysret_eqb _ 0 eq_refl), E.
  - cbn [negb tp_assert]. apply exact_printf, exact_ret.
  - now apply fails_ret.
Qed.

Definition exec_cases : list test_case :=
  [ execve0; execve1 environ; execve2 environ; execve3 environ; execve4 environ; execve5; fork_execve0 environ;
    vfork0 environ vfork_global; vfork1 rounds more lock; vfork2 environ; setpgid4 environ rounds more; wait4_1;
    system0; popen0 rounds more; fstatat0; fstatat1; fstatat2; readlinkat0 ].

(** For each command line a script, [None] if no answers are enough. *)
Definition exec_scripts : list (list string -> option script) :=
  [ of_file (fun file _ => comes_back (Some file) (Some []) (Some []) (fun _ => true) Met);
    (fun _ => None);
    of_nothing (comes_back (Some unknown_app) (Some [unknown_app]) (Some environ) is_err Met);
    of_file (fun file operands => argv_script file operands
      (comes_back None (Some (file :: operands)) (Some environ) (fun v => v =? - EFAULT) Met));
    (fun _ => None);
    (fun _ => None);
    of_file fork_execve_script;
    of_file (fun _ _ => as_parent (Execc Vfork) (fun r => r) (fun pid => load_is vfork_global (fun v => negb (v =? 0)) (waits pid)));
    of_nothing (vfork_script_001 rounds lock);
    of_file (fun _ _ => as_parent (Execc Vfork) (fun r => r) waits);
    of_file (setpgid_script_004 rounds);
    of_path;
    of_nothing (Need (Execc (System "echo Hello World")) (fun r => system_ok (sysret r)) (fun _ => Met));
    of_nothing (popen_script rounds);
    of_nothing fstatat_script_000;
    of_nothing (succeeds (Execc (Fstatat AT_FDCWD "" AT_EMPTY_PATH)) (fun r => r) Met);
    of_nothing (Need (Execc (Fstatat AT_FDCWD "" 0)) is_err (fun _ => Met));
    of_link ].

Lemma exec_returns argv : Forall2 (fun tc o => returns_NULL (o argv) (run_test_case tc argv)) exec_cases exec_scripts.
Proof.
  unfold exec_cases, exec_scripts. repeat constructor.
  all: try (apply exec_case_returns; apply returns_on_file; intros file operands).
  all: try (apply exec_case_returns, never_on_file; intros file operands; apply fails_execve).
  all: try (apply plain_case; cbn [of_nothing returns_NULL]).
  - apply exec_case_returns, execve_000_returns.
  - apply exact_execve_002.
  - apply exact_execve_003.
  - apply exact_fork_execve.
  - apply exact_vfork_000.
  - exact exact_vfork_001.
  - apply exact_vfork_002.
  - apply exact_setpgid_004.
  - eapply case_returns with (lines := []); [intros K w; now rewrite add_lines_nil|reflexivity|]. unfold of_path.
    destruct (wait4_options _ None) as [path|]; [apply exact_wait4_001|now apply fails_ret].
  - exact exact_system.
  - exact exact_popen_000.
  - apply exact_fstatat_000.
  - exact exact_fstatat_001.
  - exact exact_fstatat_002.
  - assert (Hs : exists lines, forall K (w : world K), run K (readlinkat_setup 0 argv) w =
        (Done (readlinkat_options (fst (getopt "f:l:" (tail argv))) (None, None)), add_lines lines w)).
    { unfold readlinkat_setup. destruct (readlinkat_options _ _) as [[f|] [l|]];
        try (exists []; intros K w; now rewrite add_lines_nil); eexists; reflexivity. }
    destruct Hs as (lines & Hs). eapply case_returns; [exact Hs|reflexivity|]. unfold of_link.
    destruct (readlinkat_options _ _) as [[f|] [l|]]; [apply exact_readlinkat|now apply fails_ret..].
Qed.

End Cases.

