(* ===== verification/ProcVm.v ===== *)
(** * [process_vm_readv] and [process_vm_writev]

    Test 0 of each suite forks and has the child execute [test_mck] again with test 999
    of the suite, which reads or writes the parent's array through the address on its
    command line. *)
From S2P Require Import Prelude Process CLib TestMck Forks TimeSuites ExecSuites.
From Stdlib Require Import Ascii String.
#[local] Open Scope string_scope.
#[local] Open Scope Z_scope.

Definition BUF_SIZE : Z := 100.
Definition CHILD_PROCESS_TP_NUM : string := "999".

(** [memcmp] of two blocks in memory. *)
Fixpoint memcmp_blocks (n : nat) (a b : Z) : prog Z :=
  match n with
  | O => Ret 0
  | S n => x <- load a ;; y <- load b ;; if x =? y then memcmp_blocks n (a + 1) (b + 1) else Ret (x - y)
  end.

(** [snprintf(addr, size, "0x%lx", n)]: at most [size - 1] characters. *)
Definition snprintf_hex (size : nat) (n : Z) : string := String.substring 0 (size - 1) (print_hex n).

Section Parent.
(** [the_app], the environment and the addresses of the arrays on the stack. *)
Context (the_app : string) (environ : list string) (buf expr_buf : Z).

(** The command line of the child. *)
Definition child_argv (suite addr expr : string) : list string :=
  [the_app; "-s"; suite; "-n"; CHILD_PROCESS_TP_NUM; "--"; "-a"; addr; "-s"; "100"; "-e"; expr].

(** From the return of [fork] to the check of the exit status; [check] is what follows. *)
Definition vm_after_fork (suite addr expr : string) (check : prog result) (pid : Z) : prog result :=
  tp_assert! (negb (pid =? -1), Some "fork error.") ;;
  if pid =? 0 then
    execve (Some the_app) (Some (child_argv suite addr expr)) (Some environ) ;;
    Ret (Some "execve error.")
  else
    let* (result, status) := wait4 pid 0 in
    tp_assert! (negb (result =? -1), Some "wait4 error.") ;;
    tp_assert! (status =? 0, Some "invalid exit code.") ;;
    check.

Definition readv_after_fork : Z -> prog result :=
  vm_after_fork "process_vm_readv" (snprintf_hex 19 buf) "0" (Ret None).
Definition process_vm_readv_run_000 : prog result :=
  memset buf 48 BUF_SIZE ;;
  pid <- fork ;;
  readv_after_fork pid.

Definition writev_check : prog result :=
  cmp <- memcmp_blocks (Z.to_nat BUF_SIZE) buf expr_buf ;;
  tp_assert! (cmp =? 0, Some "memcmp error.") ;;
  Ret None.
Definition writev_after_fork : Z -> prog result :=
  vm_after_fork "process_vm_writev" (snprintf_hex 19 buf) "1" writev_check.
Definition process_vm_writev_run_000 : prog result :=
  memset expr_buf 49 BUF_SIZE ;;
  memset buf 48 BUF_SIZE ;;
  pid <- fork ;;
  writev_after_fork pid.

Definition process_vm_readv0 : test_case := plain "process_vm_readv" 0 process_vm_readv_run_000.
Definition process_vm_writev0 : test_case := plain "process_vm_writev" 0 process_vm_writev_run_000.
End Parent.

(** ** Test 999 *)

(** [struct process_vm_readv_args], [struct process_vm_writev_args]. *)
Record process_vm_args := ProcessVmArgs { vm_addr : Z; vm_size : Z; vm_expr : Z }.

Definition first_char (s : string) : Z := match s with String c _ => code c | EmptyString => 0 end.

Fixpoint vm_options (evs : list optev) (args : process_vm_args) : process_vm_args :=
  match evs with
  | [] => args
  | Opt c optarg :: evs' =>
      vm_options evs'
        (if Ascii.eqb c "a" then ProcessVmArgs (cv_val (strtoul optarg 0)) (vm_size args) (vm_expr args)
         else if Ascii.eqb c "s" then ProcessVmArgs (vm_addr args) (cv_val (strtoul optarg 0)) (vm_expr args)
         else if Ascii.eqb c "e" then ProcessVmArgs (vm_addr args) (vm_size args) (first_char optarg)
         else args)
  | OptErr :: evs' => vm_options evs' args
  end.

Definition vm_args_of (argv : list string) : process_vm_args :=
  vm_options (fst (getopt "a:s:e:" (tail argv))) (ProcessVmArgs 0 0 0).

Definition call_process_vm_readv (pid : Z) (lvec rvec : list (Z * Z)) (flags : Z) : prog Z :=
  r <- (trigger (Execc (ProcessVmReadv pid lvec rvec flags)) : prog Z) ;; syscall_ret (-1) r.
Definition call_process_vm_writev (pid : Z) (lvec rvec : list (Z * Z)) (flags : Z) : prog Z :=
  r <- (trigger (Execc (ProcessVmWritev pid lvec rvec flags)) : prog Z) ;; syscall_ret (-1) r.

(** The static [read_buf] and [expr_buf] are part of what is handed on. *)
Definition readv_setup_999 (tc_num : Z) (tc_argv : list string) : prog (process_vm_args * (Z * Z)) :=
  Ret (vm_args_of tc_argv, (NULL, NULL)).

Definition readv_run_999 (tc_num : Z) (st : process_vm_args * (Z * Z)) : prog (result * (process_vm_args * (Z * Z))) :=
  let args := fst st in
  read_buf <- malloc (vm_size args) ;;
  if read_buf =? NULL then Ret (Some "malloc error(read).", (args, (read_buf, NULL)))
  else
    pid <- getppid ;;
    nread <- call_process_vm_readv pid [(read_buf, vm_size args)] [(vm_addr args, vm_size args)] 0 ;;
    if nread =? -1 then Ret (Some "process_vm_readv error.", (args, (read_buf, NULL)))
    else if negb (u64 nread =? vm_size args) then Ret (Some "invalid read size.", (args, (read_buf, NULL)))
    else
      expr_buf <- malloc (vm_size args) ;;
      if expr_buf =? NULL then Ret (Some "malloc error(expr).", (args, (read_buf, expr_buf)))
      else
        memset expr_buf (vm_expr args) (vm_size args) ;;
        cmp <- memcmp_blocks (Z.to_nat (vm_size args)) read_buf expr_buf ;;
        if cmp =? 0 then Ret (None, (args, (read_buf, expr_buf)))
        else Ret (Some "memcmp error.", (args, (read_buf, expr_buf))).

Definition free_if (p : Z) : prog unit := if negb (p =? NULL) then free p else Ret tt.
Definition readv_teardown_999 (tc_num : Z) (st : process_vm_args * (Z * Z)) : prog unit :=
  free_if (fst (snd st)) ;; free_if (snd (snd st)).

Definition process_vm_readv999 : test_case :=
  TestCase "process_vm_readv" 999 (process_vm_args * (Z * Z)) readv_setup_999 readv_run_999 readv_teardown_999.

(** The static [write_buf]. *)
Definition writev_setup_999 (tc_num : Z) (tc_argv : list string) : prog (process_vm_args * Z) :=
  Ret (vm_args_of tc_argv, NULL).

Definition writev_run_999 (tc_num : Z) (st : process_vm_args * Z) : prog (result * (process_vm_args * Z)) :=
  let args := fst st in
  write_buf <- malloc (vm_size args) ;;
  if write_buf =? NULL then Ret (Some "malloc error(read).", (args, write_buf))
  else
    memset write_buf (vm_expr args) (vm_size args) ;;
    pid <- getppid ;;
    nwrite <- call_process_vm_writev pid [(write_buf, vm_size args)] [(vm_addr args, vm_size args)] 0 ;;
    if nwrite =? -1 then Ret (Some "process_vm_readv error.", (args, write_buf))
    else if negb (u64 nwrite =? vm_size args) then Ret (Some "invalid read size.", (args, write_buf))
    else Ret (None, (args, write_buf)).

Definition writev_teardown_999 (tc_num : Z) (st : process_vm_args * Z) : prog unit := free_if (snd st).

Definition process_vm_writev999 : test_case :=
  TestCase "process_vm_writev" 999 (process_vm_args * Z) writev_setup_999 writev_run_999 writev_teardown_999.
