(* ===== verification/ProcVmSys.v ===== *)
(** * [process_vm_readv] and [process_vm_writev] as a whole

    A system with a parent and a child: the child is what the rest of the test does when
    [fork] answers 0, and the program it executes is the [main] of the test framework.
    Both processes have their own memory; how many bytes the two calls report and what
    becomes of each byte on the way is left open, so that the theorem says what the
    tests detect. *)
From S2P Require Import Prelude Process CLib TestMck Procs Forks TimeSuites ExecSuites ProcVm.
From Stdlib Require Import Ascii String.
#[local] Open Scope string_scope.
#[local] Open Scope Z_scope.

(** ** Memory *)

Definition upd (a b : Z) (m : Z -> Z) : Z -> Z := fun x => if x =? a then b else m x.
Fixpoint fill (a b : Z) (n : nat) (m : Z -> Z) : Z -> Z :=
  match n with O => m | S n => fill (a + 1) b n (upd a b m) end.
(** The [n] bytes at [a] become those of [f]. *)
Definition blit (a n : Z) (f : Z -> Z) (m : Z -> Z) : Z -> Z := fun x => if in_range x a n then f (x - a) else m x.

Lemma fill_spec n : forall a b m x, fill a b n m x = if in_range x a (Z.of_nat n) then b else m x.
Proof.
  induction n as [|n IH]; intros a b m x; cbn [fill].
  - now rewrite (proj2 (in_range_false x a _)) by lia.
  - rewrite IH. unfold upd, in_range. destruct (Z.leb_spec (a + 1) x), (Z.leb_spec a x), (Z.eqb_spec x a), (Z.ltb_spec x (a + 1 + Z.of_nat n)),
      (Z.ltb_spec x (a + Z.of_nat (S n))); cbn [andb]; try reflexivity; lia.
Qed.

(** A system whose process has ordinary memory. *)
Class MemKernel (K : kernel) := {
  mem : kstate K -> Z -> Z;
  with_mem : (Z -> Z) -> kstate K -> kstate K;
  mk_load a s : kstep K (Load a) s = (s, inl (mem s a));
  mk_store a b s : kstep K (Store a b) s = (with_mem (upd a b (mem s)) s, inl tt);
  mem_with m s : mem (with_mem m s) = m;
  with_with m m' s : with_mem m (with_mem m' s) = with_mem m s;
  with_same s : with_mem (mem s) s = s;
}.

Section Memory.
Context (K : kernel) {MK : MemKernel K}.

Lemma run_memset_fill ch n : forall a pr s,
  run K (memset_from a ch n) (World pr s) = (Done tt, World pr (with_mem (fill a (u8 ch) n (mem s)) s)).
Proof.
  induction n as [|n IH]; intros a pr s; cbn [memset_from fill]; [now rewrite with_same|].
  unfold store. cbn [bind trigger run w_k w_proc]. rewrite mk_store. cbn [or_raise bind]. now rewrite IH, mem_with, with_with.
Qed.

Lemma run_memcmp_blocks n : forall a b pr s, exists v,
  run K (memcmp_blocks n a b) (World pr s) = (Done v, World pr s) /\
  (v = 0 <-> forall i, 0 <= i < Z.of_nat n -> mem s (a + i) = mem s (b + i)).
Proof.
  induction n as [|n IH]; intros a b pr s; cbn [memcmp_blocks].
  - exists 0. split; [reflexivity|]. split; [lia|reflexivity].
  - unfold load. cbn [bind trigger run w_k w_proc]. rewrite mk_load. cbn [or_raise bind run w_k w_proc]. rewrite mk_load. cbn [or_raise bind].
    destruct (Z.eqb_spec (mem s a) (mem s b)) as [E|E].
    + destruct (IH (a + 1) (b + 1) pr s) as (v & Er & Hv). exists v. split; [exact Er|]. rewrite Hv. split.
      * intros Hi i Hb. destruct (Z.eq_dec i 0) as [->|Hn]; [now rewrite !Z.add_0_r|].
        specialize (Hi (i - 1) ltac:(lia)). replace (a + 1 + (i - 1)) with (a + i) in Hi by lia. now replace (b + 1 + (i - 1)) with (b + i) in Hi by lia.
      * intros Hi i Hb. specialize (Hi (i + 1) ltac:(lia)). replace (a + (i + 1)) with (a + 1 + i) in Hi by lia.
        now replace (b + (i + 1)) with (b + 1 + i) in Hi by lia.
    + exists (mem s a - mem s b). split; [reflexivity|]. split; [lia|]. intros Hi. specialize (Hi 0 ltac:(lia)). rewrite !Z.add_0_r in Hi. lia.
Qed.
End Memory.

(** ** The system *)

Record pair := Pair { pmem : Z -> Z; cmem : Z -> Z; heap : Z }.

Section System.
Context (suites : list string) (tcs : list test_case) (parent_pid child_pid : Z).
(** The number of bytes reported when [n] are asked for, and what arrives of the byte [b]
    at position [i]. *)
Context (count : Z -> Z) (xfer : Z -> Z -> Z).

(** A process in memory [cmem]; both calls know the parent only. *)
Definition child_step (c : op) (s : pair) : pair * ans c :=
  match c return pair * ans c with
  | Load a => (s, inl (cmem s a))
  | Store a b => (Pair (pmem s) (upd a b (cmem s)) (heap s), inl tt)
  | Malloc n => (Pair (pmem s) (cmem s) (heap s + n + 1), heap s)
  | Free _ => (s, tt)
  | Procs Getppid => (s, parent_pid)
  | Execc (ProcessVmReadv pid [(l, n)] [(r, _)] _) =>
      if pid =? parent_pid
      then (Pair (pmem s) (blit l n (fun i => xfer i (pmem s (r + i))) (cmem s)) (heap s), count n)
      else (s, - ESRCH)
  | Execc (ProcessVmWritev pid [(l, n)] [(r, _)] _) =>
      if pid =? parent_pid
      then (Pair (blit r n (fun i => xfer i (cmem s (l + i))) (pmem s)) (cmem s) (heap s), count n)
      else (s, - ESRCH)
  | c => (s, enosys c)
  end.
Definition child_kernel : kernel := Kernel pair child_step.

(** How a program ends. *)
Definition ended (o : outcome Z) : Z + Z :=
  match o with Done n | Exited n => inl (n mod 256) | Killed signum => inr signum end.

(** Before [execve], which runs [main] on the arguments. *)
Definition exec_step (c : op) (s : pair) : pair * ans c :=
  match c return pair * ans c with
  | Execc (Execve (Some _) (Some (the_app :: args)) _) =>
      let '(o, w) := run child_kernel (main suites tcs the_app args) (World proc0 (s : kstate child_kernel)) in (w_k w, inr (ended o))
  | c => child_step c s
  end.
Definition exec_kernel : kernel := Kernel pair exec_step.

(** The status [wait4] reports; a test function that returns ends [main]. *)
Definition wait_status (o : outcome result) : Z :=
  match o with
  | Done None => 0
  | Done (Some _) => 256
  | Exited n => (n mod 256) * 256
  | Killed signum => signum
  end.

(** The parent; [rest] is what both processes do after [fork]. *)
Definition parent_step (rest : Z -> prog result) (c : op) (s : pair) : pair * ans c :=
  match c return pair * ans c with
  | Load a => (s, inl (pmem s a))
  | Store a b => (Pair (upd a b (pmem s)) (cmem s) (heap s), inl tt)
  | Procs Fork => (Pair (pmem s) (pmem s) (heap s), child_pid)
  | Procs (Wait4 pid 0) =>
      if pid =? child_pid then
        let '(o, w) := run exec_kernel (rest 0) (World proc0 (s : kstate exec_kernel)) in (w_k w, (child_pid, wait_status o))
      else (s, (- 10, 0))
  | c => (s, enosys c)
  end.
Definition parent_kernel (rest : Z -> prog result) : kernel := Kernel pair (parent_step rest).

#[export] Instance child_mem : MemKernel child_kernel.
Proof.
  refine {| mem := fun s : kstate child_kernel => cmem s; with_mem := fun m (s : kstate child_kernel) => (Pair (pmem s) m (heap s) : kstate child_kernel) |};
    try reflexivity. now intros [].
Defined.

#[export] Instance parent_mem rest : MemKernel (parent_kernel rest).
Proof.
  refine {| mem := fun s : kstate (parent_kernel rest) => pmem s;
            with_mem := fun m (s : kstate (parent_kernel rest)) => (Pair m (cmem s) (heap s) : kstate (parent_kernel rest)) |};
    try reflexivity. now intros [].
Defined.
End System.

(** ** The address on the command line *)

(** A number below [16 ^ k] has at most [k] digits. *)
Lemma print_digits_length k : forall fuel n acc, 0 <= n < 16 ^ Z.of_nat (S k) ->
  (String.length (print_digits fuel 16 n acc) <= S k + String.length acc)%nat.
Proof.
  induction k as [|k IH]; intros [|fuel] n acc Hn; cbn [print_digits]; try lia.
  - rewrite (proj2 (Z.eqb_eq (n / 16) 0)) by (apply Z.div_small; cbn in Hn; lia). cbn. lia.
  - case_if; [cbn; lia|]. etransitivity; [apply IH|cbn; lia]. split; [apply Z.div_pos; lia|].
    apply Z.div_lt_upper_bound; [lia|]. rewrite (Nat2Z.inj_succ (S k)), Z.pow_succ_r in Hn by lia. lia.
Qed.

Lemma substring_all s : forall n, (String.length s <= n)%nat -> String.substring 0 n s = s.
Proof.
  induction s as [|c s IH]; intros [|n] Hn; cbn in *; try reflexivity; [lia|]. f_equal. apply IH. lia.
Qed.

(** The array of 19 characters holds every address. *)
Lemma snprintf_hex_fits n : 0 <= n < 2 ^ 64 -> snprintf_hex 19 n = print_hex n.
Proof.
  intros Hn. unfold snprintf_hex. apply substring_all. unfold print_hex, print_base. rewrite length_append.
  pose proof (print_digits_length 15 64 n "" ltac:(cbn; lia)). cbn [String.length] in *. lia.
Qed.

(** Test 999 gets the address, the size and the character test 0 has put there. *)
Lemma vm_args_round_trip the_app buf expr : 0 <= buf < 2 ^ 64 ->
  vm_args_of [the_app; "-a"; snprintf_hex 19 buf; "-s"; "100"; "-e"; expr] = ProcessVmArgs buf 100 (first_char expr).
Proof.
  intros Hb. rewrite (snprintf_hex_fits _ Hb). unfold vm_args_of.
  change (getopt "a:s:e:" (tail [the_app; "-a"; print_hex buf; "-s"; "100"; "-e"; expr]))
    with ([Opt "a" (print_hex buf); Opt "s" "100"; Opt "e" expr], [] : list string).
  cbn [fst vm_options Ascii.eqb Bool.eqb vm_addr vm_size vm_expr]. rewrite (strtoul_hex _ Hb). reflexivity.
Qed.

(** ** The child *)

Section Child.
Context (suites : list string) (tcs : list test_case) (parent_pid child_pid : Z) (count : Z -> Z) (xfer : Z -> Z -> Z).
Context (the_app : string) (environ : list string) (buf : Z) (Hb : 0 <= buf < 2 ^ 64) (Hc : - 2 ^ 63 <= count 100 < 2 ^ 63).
Abbreviation CK := (child_kernel parent_pid count xfer).

Lemma count_checked :
  (count 100 = 100 /\ is_err (count 100) = false /\ (count 100 =? -1) = false /\ negb (u64 (count 100) =? 100) = false) \/
  (count 100 <> 100 /\ (is_err (count 100) = true \/ is_err (count 100) = false /\
     ((count 100 =? -1) = true \/ (count 100 =? -1) = false /\ negb (u64 (count 100) =? 100) = true))).
Proof.
  destruct (Z.eq_dec (count 100) 100) as [->|Hn]; [left; auto|right]. split; [exact Hn|].
  destruct (is_err (count 100)); [auto|]. right. split; [reflexivity|]. destruct (count 100 =? -1); [auto|]. right. split; [reflexivity|].
  apply negb_true_iff, Z.eqb_neq. unfold u64. intros E. pose proof (Z.div_mod (count 100) (2 ^ 64) ltac:(lia)). rewrite E in H.
  assert (count 100 / 2 ^ 64 = 0 \/ count 100 / 2 ^ 64 <= -1 \/ 1 <= count 100 / 2 ^ 64) as [Hd|[Hd|Hd]] by lia; lia.
Qed.

(** The teardown functions leave the memory alone. *)
Lemma run_free_if p pr s : run CK (free_if p) (World pr s) = (Done tt, World pr s).
Proof. unfold free_if. case_if; reflexivity. Qed.

Lemma run_readv_teardown n st pr s : run CK (readv_teardown_999 n st) (World pr s) = (Done tt, World pr s).
Proof. unfold readv_teardown_999. now rewrite run_bind, run_free_if, run_free_if. Qed.

(** The comparison of the block that was read with the block of [e]. *)
Lemma run_vm_compare {M} h e (f : Z -> Z) cm pm hp pr (m : M) :
  let s := (Pair pm (fill (h + 101) e 100 (blit h 100 f cm)) hp : kstate CK) in
  exists v, run CK (cmp <- memcmp_blocks 100 h (h + 101) ;; if cmp =? 0 then Ret (None, m) else Ret (Some "memcmp error.", m)) (World pr s) =
    (Done (v, m), World pr s) /\ (v = None <-> forall i, 0 <= i < 100 -> f i = e).
Proof.
  intros s. destruct (run_memcmp_blocks CK 100 h (h + 101) pr s) as (v & Er & Hv). rewrite run_bind, Er.
  assert (Hm : (forall i, 0 <= i < Z.of_nat 100 -> mem s (h + i) = mem s (h + 101 + i)) <-> forall i, 0 <= i < 100 -> f i = e).
  { change (Z.of_nat 100) with 100. split; intros Hi i Hr; specialize (Hi i Hr); revert Hi; subst s; cbn [mem child_mem cmem];
      rewrite !fill_spec; unfold blit; change (Z.of_nat 100) with 100; range_tac; replace (h + i - h) with i by lia; auto. }
  rewrite Hm in Hv. destruct (Z.eqb_spec v 0) as [Ev|Ev].
  - exists None. split; [reflexivity|]. split; [intros _; now apply Hv|reflexivity].
  - exists (Some "memcmp error."). split; [reflexivity|]. split; [discriminate|]. intros Hi. now apply Hv in Hi.
Qed.

Lemma run_readv_child pr (s : kstate CK) : 0 < heap s -> exists v (s' : world CK),
  run CK (run_test_case process_vm_readv999 [the_app; "-a"; snprintf_hex 19 buf; "-s"; "100"; "-e"; "0"]) (World pr s) = (Done v, s') /\
  pmem (w_k s') = pmem s /\ (v = None <-> count 100 = 100 /\ forall i, 0 <= i < 100 -> xfer i (pmem s (buf + i)) = 48).
Proof.
  intros Hh. unfold run_test_case. cbn [setup process_vm_readv999 num tc_run teardown]. unfold readv_setup_999.
  rewrite (vm_args_round_trip the_app buf "0" Hb). change (first_char "0") with 48. cbn [bind]. rewrite run_bind.
  unfold readv_run_999, malloc, getppid, call_process_vm_readv. cbn [fst vm_size vm_addr vm_expr bind trigger run w_k w_proc kstep child_kernel child_step].
  rewrite (proj2 (Z.eqb_neq (heap s) NULL)) by (unfold NULL; lia). cbn [bind run w_k w_proc kstep child_kernel child_step pmem cmem heap].
  rewrite (proj2 (Z.eqb_neq (heap s) NULL)) by (unfold NULL; lia). cbn [bind run w_k w_proc kstep child_kernel child_step pmem cmem heap].
  rewrite Z.eqb_refl. unfold syscall_ret.
  destruct count_checked as [(Ec & -> & E1 & E2)|(Ec & [->|(-> & [E1|(E1 & E2)])])].
  - cbn [bind]. rewrite E1, E2. cbn [run w_k w_proc kstep child_kernel child_step pmem cmem heap].
    rewrite (proj2 (Z.eqb_neq (heap s + 100 + 1) NULL)) by (unfold NULL; lia). cbn [bind].
    rewrite (proj2 (Z.eqb_neq (heap s + 100 + 1) NULL)) by (unfold NULL; lia). unfold memset. rewrite run_bind, (run_memset_fill CK).
    cbn [mem with_mem child_mem pmem cmem heap]. change (u8 48) with 48. change (Z.to_nat 100) with 100%nat. replace (heap s + 100 + 1) with (heap s + 101) by lia.
    match goal with |- context [Ret (None, ?m)] => destruct (run_vm_compare (heap s) 48 (fun i => xfer i (pmem s (buf + i))) (cmem s) (pmem s)
      (heap s + 101 + 100 + 1) pr m) as (v & Er & Hv) end. cbv zeta in Er. rewrite Er. cbn [fst snd]. rewrite run_bind, run_readv_teardown.
    do 2 eexists. split; [reflexivity|]. split; [reflexivity|]. rewrite Hv. tauto.
  - cbn [bind set_errno run w_k w_proc]. rewrite Z.eqb_refl. cbn [run]. rewrite run_bind, run_readv_teardown.
    do 2 eexists. split; [reflexivity|]. split; [reflexivity|]. split; [discriminate|tauto].
  - cbn [bind]. rewrite E1. cbn [run]. rewrite run_bind, run_readv_teardown.
    do 2 eexists. split; [reflexivity|]. split; [reflexivity|]. split; [discriminate|tauto].
  - cbn [bind]. rewrite E1, E2. cbn [run]. rewrite run_bind, run_readv_teardown.
    do 2 eexists. split; [reflexivity|]. split; [reflexivity|]. split; [discriminate|tauto].
Qed.
Lemma run_writev_child pr (s : kstate CK) : 0 < heap s -> exists v (s' : world CK),
  run CK (run_test_case process_vm_writev999 [the_app; "-a"; snprintf_hex 19 buf; "-s"; "100"; "-e"; "1"]) (World pr s) = (Done v, s') /\
  (forall x, pmem (w_k s') x = if in_range x buf 100 then xfer (x - buf) 49 else pmem s x) /\ (v = None <-> count 100 = 100).
Proof.
  intros Hh. unfold run_test_case. cbn [setup process_vm_writev999 num tc_run teardown]. unfold writev_setup_999.
  rewrite (vm_args_round_trip the_app buf "1" Hb). change (first_char "1") with 49. cbn [bind]. rewrite run_bind.
  unfold writev_run_999, malloc. cbn [fst vm_size vm_addr vm_expr bind trigger run w_k w_proc kstep child_kernel child_step].
  rewrite (proj2 (Z.eqb_neq (heap s) NULL)) by (unfold NULL; lia). cbn [bind].
  rewrite (proj2 (Z.eqb_neq (heap s) NULL)) by (unfold NULL; lia). unfold memset. rewrite run_bind, (run_memset_fill CK).
  cbn [mem with_mem child_mem pmem cmem heap]. change (u8 49) with 49. change (Z.to_nat 100) with 100%nat.
  unfold getppid, call_process_vm_writev, syscall_ret. cbn [bind trigger run w_k w_proc kstep child_kernel child_step pmem cmem heap]. rewrite Z.eqb_refl.
  assert (Hp : forall x, blit buf 100 (fun i => xfer i (fill (heap s) 49 100 (cmem s) (heap s + i))) (pmem s) x =
                         if in_range x buf 100 then xfer (x - buf) 49 else pmem s x).
  { intros x. unfold blit. destruct (in_range x buf 100) eqn:E; [|reflexivity]. apply in_range_true in E. rewrite fill_spec.
    change (Z.of_nat 100) with 100. now range_tac. }
  destruct count_checked as [(Ec & -> & E1 & E2)|(Ec & [->|(-> & [E1|(E1 & E2)])])].
  - cbn [bind]. rewrite E1, E2. cbn [run]. unfold writev_teardown_999. rewrite run_bind, run_free_if.
    do 2 eexists. split; [reflexivity|]. split; [exact Hp|]. tauto.
  - cbn [bind set_errno run w_k w_proc]. rewrite Z.eqb_refl. cbn [run]. unfold writev_teardown_999. rewrite run_bind, run_free_if.
    do 2 eexists. split; [reflexivity|]. split; [exact Hp|]. split; [discriminate|tauto].
  - cbn [bind]. rewrite E1. cbn [run]. unfold writev_teardown_999. rewrite run_bind, run_free_if.
    do 2 eexists. split; [reflexivity|]. split; [exact Hp|]. split; [discriminate|tauto].
  - cbn [bind]. rewrite E1, E2. cbn [run]. unfold writev_teardown_999. rewrite run_bind, run_free_if.
    do 2 eexists. split; [reflexivity|]. split; [exact Hp|]. split; [discriminate|tauto].
Qed.

Abbreviation EK := (exec_kernel suites tcs parent_pid count xfer).

(** What the forked process does: it executes the command line, [main] finds test 999 and
    its verdict becomes the exit status. *)
Lemma run_forked suite expr check tc (s : pair) (Q : result -> pair -> Prop) :
  find_test_case tcs suite 999 = Some tc ->
  (forall pr, exists v (w' : world CK), run CK (run_test_case tc [the_app; "-a"; snprintf_hex 19 buf; "-s"; "100"; "-e"; expr])
     (World pr (s : kstate CK)) = (Done v, w') /\ Q v (w_k w')) ->
  exists v st, Q v st /\
    let r := run EK (vm_after_fork the_app environ suite (snprintf_hex 19 buf) expr check 0) (World proc0 (s : kstate EK)) in
    fst r = Exited (if v is None then 0 else 1) /\ w_k (snd r) = st.
Proof.
  intros Ef Hr. unfold vm_after_fork, execve. change (negb (0 =? -1)) with true. cbn [tp_assert Z.eqb bind trigger run w_k w_proc].
  cbn [kstep exec_kernel exec_step child_argv].
  pose proof (run_main_documented CK suites tcs the_app suite CHILD_PROCESS_TP_NUM 999
    ["-a"; snprintf_hex 19 buf; "-s"; "100"; "-e"; expr] tc (World proc0 (s : kstate CK)) eq_refl ltac:(discriminate) Ef) as Em.
  change (["-s"; suite; "-n"; CHILD_PROCESS_TP_NUM; "--"] ++ ["-a"; snprintf_hex 19 buf; "-s"; "100"; "-e"; expr])%list
    with (["-s"; suite; "-n"; CHILD_PROCESS_TP_NUM; "--"; "-a"; snprintf_hex 19 buf; "-s"; "100"; "-e"; expr]) in Em.
  match type of Em with _ = verdict (run _ _ ?w) => destruct (Hr (w_proc w)) as (v & w' & Er & HQ); exists v, (w_k w');
    assert (Er' : run CK (run_test_case tc [the_app; "-a"; snprintf_hex 19 buf; "-s"; "100"; "-e"; expr]) w = (Done v, w')) by exact Er end.
  rewrite Er' in Em. split; [exact HQ|]. cbv zeta. rewrite Em. destruct v as [m|]; split; reflexivity.
Qed.

(** ** The parent *)

Lemma run_vm_parent suite expr check (s : pair) v st pr (Hp : 0 < child_pid) :
  let rest := vm_after_fork the_app environ suite (snprintf_hex 19 buf) expr check in
  let PK := parent_kernel suites tcs parent_pid child_pid count xfer rest in
  let r := run EK (rest 0) (World proc0 (Pair (pmem s) (pmem s) (heap s) : kstate EK)) in
  fst r = Exited (if v : result is None then 0 else 1) -> w_k (snd r) = st ->
  run PK (pid <- fork ;; rest pid) (World pr (s : kstate PK)) =
  if v is None then run PK check (World pr (st : kstate PK)) else (Done (Some "invalid exit code."), World pr (st : kstate PK)).
Proof.
  intros rest PK r Hr Hs. unfold fork, syscall_ret. cbn [bind trigger run w_k w_proc kstep PK parent_kernel parent_step].
  assert (En : is_err child_pid = false). { unfold is_err. rewrite (proj2 (Z.ltb_ge child_pid 0)), andb_false_r by lia. reflexivity. }
  rewrite En. cbn [bind]. unfold rest at 1, vm_after_fork at 1. rewrite (proj2 (Z.eqb_neq child_pid (-1))) by lia. cbn [negb tp_assert].
  rewrite (proj2 (Z.eqb_neq child_pid 0)) by lia. unfold wait4, syscall_ret. cbn [bind trigger run w_k w_proc kstep PK parent_kernel parent_step].
  rewrite Z.eqb_refl. subst r. destruct (run EK (rest 0) _) as [o w']. cbn [fst snd] in Hr, Hs. subst o st. cbn [fst snd]. rewrite En. cbn [bind].
  rewrite (proj2 (Z.eqb_neq child_pid (-1))) by lia. destruct v as [m|]; reflexivity.
Qed.
End Child.

Section Composed.
Context (suites : list string) (tcs : list test_case) (parent_pid child_pid : Z) (count : Z -> Z) (xfer : Z -> Z -> Z).
Context (the_app : string) (environ : list string) (buf expr_buf : Z).
Context (Hb : 0 <= buf < 2 ^ 64) (Hc : - 2 ^ 63 <= count 100 < 2 ^ 63) (Hp : 0 < child_pid).
Abbreviation PK := (parent_kernel suites tcs parent_pid child_pid count xfer).

Lemma readv_composed pr (s : pair) : 0 < heap s -> find_test_case tcs "process_vm_readv" 999 = Some process_vm_readv999 ->
  let K := PK (readv_after_fork the_app environ buf) in
  exists v w', run K (process_vm_readv_run_000 the_app environ buf) (World pr (s : kstate K)) = (Done v, w') /\
    (v = None <-> count 100 = 100 /\ forall i, 0 <= i < 100 -> xfer i 48 = 48).
Proof.
  intros Hh Ef K. unfold process_vm_readv_run_000, memset. rewrite run_bind, (run_memset_fill K). change (Z.to_nat BUF_SIZE) with 100%nat. change (u8 48) with 48.
  cbn [mem with_mem parent_mem]. set (s1 := Pair (fill buf 48 100 (pmem s)) (cmem s) (heap s)).
  destruct (run_forked suites tcs parent_pid count xfer the_app environ buf "process_vm_readv" "0" (Ret None) process_vm_readv999
    (Pair (pmem s1) (pmem s1) (heap s1)) (fun v _ => v = None <-> count 100 = 100 /\ forall i, 0 <= i < 100 -> xfer i (pmem s1 (buf + i)) = 48) Ef)
    as (v & st & HQ & E1 & E2).
  { intros pr'. destruct (run_readv_child parent_pid count xfer the_app buf Hb Hc pr' (Pair (pmem s1) (pmem s1) (heap s1)) Hh) as (v & w' & E & _ & Hv).
    exists v, w'. split; [exact E|exact Hv]. }
  assert (Hs : (forall i, 0 <= i < 100 -> xfer i (pmem s1 (buf + i)) = 48) <-> forall i, 0 <= i < 100 -> xfer i 48 = 48).
  { split; intros Hi i Hr; specialize (Hi i Hr); revert Hi; cbn [pmem s1]; rewrite fill_spec; change (Z.of_nat 100) with 100; now range_tac. }
  rewrite Hs in HQ. change (World pr (s1 : kstate K)) with (World pr (s1 : kstate (PK (vm_after_fork the_app environ "process_vm_readv" (snprintf_hex 19 buf) "0" (Ret None))))).
  pose proof (run_vm_parent suites tcs parent_pid child_pid count xfer the_app environ buf "process_vm_readv" "0" (Ret None) s1 v st pr Hp E1 E2) as Er.
  cbv zeta in Er. unfold K, readv_after_fork. rewrite Er. destruct v as [m|]; do 2 eexists; (split; [reflexivity|]).
  - split; [discriminate|]. intros Hx. now apply HQ in Hx.
  - exact HQ.
Qed.

Lemma writev_composed pr (s : pair) : 0 < heap s -> expr_buf + 100 <= buf \/ buf + 100 <= expr_buf ->
  find_test_case tcs "process_vm_writev" 999 = Some process_vm_writev999 ->
  let K := PK (writev_after_fork the_app environ buf expr_buf) in
  exists v w', run K (process_vm_writev_run_000 the_app environ buf expr_buf) (World pr (s : kstate K)) = (Done v, w') /\
    (v = None <-> count 100 = 100 /\ forall i, 0 <= i < 100 -> xfer i 49 = 49).
Proof.
  intros Hh Hd Ef K. unfold process_vm_writev_run_000, memset. rewrite run_bind, (run_memset_fill K), run_bind, (run_memset_fill K).
  change (Z.to_nat BUF_SIZE) with 100%nat. change (u8 48) with 48. change (u8 49) with 49. cbn [mem with_mem parent_mem pmem cmem heap].
  set (m1 := fill buf 48 100 (fill expr_buf 49 100 (pmem s))). set (s1 := Pair m1 (cmem s) (heap s)).
  assert (Hm : forall i, 0 <= i < 100 -> m1 (expr_buf + i) = 49).
  { intros i Hi. unfold m1. rewrite !fill_spec. change (Z.of_nat 100) with 100. now range_tac. }
  destruct (run_forked suites tcs parent_pid count xfer the_app environ buf "process_vm_writev" "1" (writev_check buf expr_buf) process_vm_writev999
    (Pair m1 m1 (heap s)) (fun v st => (forall x, pmem st x = if in_range x buf 100 then xfer (x - buf) 49 else m1 x) /\ (v = None <-> count 100 = 100)) Ef)
    as (v & st & (Hst & HQ) & E1 & E2).
  { intros pr'. destruct (run_writev_child parent_pid count xfer the_app buf Hb Hc pr' (Pair m1 m1 (heap s)) Hh) as (v & w' & E & Hx & Hv).
    exists v, w'. split; [exact E|]. split; [exact Hx|exact Hv]. }
  pose proof (run_vm_parent suites tcs parent_pid child_pid count xfer the_app environ buf "process_vm_writev" "1" (writev_check buf expr_buf) s1 v st pr Hp E1 E2) as Er.
  assert (Er' : run K (pid <- fork ;; writev_after_fork the_app environ buf expr_buf pid) (World pr (s1 : kstate K)) =
    if v is None then run K (writev_check buf expr_buf) (World pr (st : kstate K)) else (Done (Some "invalid exit code."), World pr (st : kstate K))) by exact Er.
  rewrite Er'. destruct v as [m|].
  { do 2 eexists. split; [reflexivity|]. split; [discriminate|]. intros [Hx _]. now apply HQ in Hx. }
  unfold writev_check. change (Z.to_nat BUF_SIZE) with 100%nat.
  destruct (run_memcmp_blocks K 100 buf expr_buf pr st) as (v & Ec & Hv). rewrite run_bind, Ec.
  assert (Hi : (forall i, 0 <= i < Z.of_nat 100 -> pmem st (buf + i) = pmem st (expr_buf + i)) <-> forall i, 0 <= i < 100 -> xfer i 49 = 49).
  { change (Z.of_nat 100) with 100. split; intros Hx i Hr; specialize (Hx i Hr); revert Hx; rewrite !Hst;
      range_tac; rewrite Hm by exact Hr; replace (buf + i - buf) with i by lia; auto. }
  cbn [mem parent_mem K] in Hv. rewrite Hi in Hv. destruct (Z.eqb_spec v 0) as [Ev|Ev].
  - do 2 eexists. split; [reflexivity|]. split; [intros _; split; [now apply HQ|now apply Hv]|reflexivity].
  - do 2 eexists. split; [reflexivity|]. split; [discriminate|]. intros [_ Hx]. now apply Hv in Hx.
Qed.
(** C35.  [process_vm_readv] 0 and [process_vm_writev] 0 with the process they start, from the
    address printed into the command line over [main] and test 999 to the exit status:
    for every address of the array the parent returns, and with [NULL] exactly if the call
    reports all 100 bytes and every single byte arrives unchanged - the bytes of the
    parent in the child for the one test, those of the child in the parent for the other. *)
Theorem process_vm_composed pr (s : pair) :
  0 < heap s -> expr_buf + 100 <= buf \/ buf + 100 <= expr_buf ->
  find_test_case tcs "process_vm_readv" 999 = Some process_vm_readv999 ->
  find_test_case tcs "process_vm_writev" 999 = Some process_vm_writev999 ->
  let KR := PK (readv_after_fork the_app environ buf) in
  let KW := PK (writev_after_fork the_app environ buf expr_buf) in
  (exists v w', run KR (process_vm_readv_run_000 the_app environ buf) (World pr (s : kstate KR)) = (Done v, w') /\
     (v = None <-> count 100 = 100 /\ forall i, 0 <= i < 100 -> xfer i 48 = 48)) /\
  (exists v w', run KW (process_vm_writev_run_000 the_app environ buf expr_buf) (World pr (s : kstate KW)) = (Done v, w') /\
     (v = None <-> count 100 = 100 /\ forall i, 0 <= i < 100 -> xfer i 49 = 49)).
Proof. intros Hh Hd Er Ew KR KW. split; [now apply readv_composed|now apply writev_composed]. Qed.
End Composed.

(** ** Two systems *)

Definition vm_cases : list test_case := [process_vm_readv999; process_vm_writev999].
Definition vm_pair : pair := Pair (fun _ => 0) (fun _ => 0) 0x10000.

Lemma vm_cases_found :
  find_test_case vm_cases "process_vm_readv" 999 = Some process_vm_readv999 /\
  find_test_case vm_cases "process_vm_writev" 999 = Some process_vm_writev999.
Proof. split; reflexivity. Qed.

(** One that moves the bytes, and one that loses the last. *)
Lemma process_vm_composed_witness :
  let K xfer := parent_kernel [] vm_cases 7 8 (fun n => n) xfer (readv_after_fork "./test_mck" [] 0xffffffffffffff00) in
  let p := process_vm_readv_run_000 "./test_mck" [] 0xffffffffffffff00 in
  (exists w', run (K (fun _ b => b)) p (World proc0 (vm_pair : kstate (K (fun _ b => b)))) = (Done None, w')) /\
  (exists m w', run (K (fun i b => if i =? 99 then 0 else b)) p
     (World proc0 (vm_pair : kstate (K (fun i b => if i =? 99 then 0 else b)))) = (Done (Some m), w')).
Proof.
  cbv zeta. destruct vm_cases_found as [Er Ew].
  assert (H1 : 0 <= 0xffffffffffffff00 < 2 ^ 64) by (split; [discriminate|reflexivity]).
  assert (H2 : - 2 ^ 63 <= 100 < 2 ^ 63) by (split; [discriminate|reflexivity]).
  assert (H3 : 0x1000 + 100 <= 0xffffffffffffff00 \/ 0xffffffffffffff00 + 100 <= 0x1000) by (left; discriminate).
  split.
  - pose proof (process_vm_composed [] vm_cases 7 8 (fun n => n) (fun _ b => b) "./test_mck" [] 0xffffffffffffff00 0x1000
      H1 H2 eq_refl proc0 vm_pair eq_refl H3 Er Ew) as Hx. cbv zeta in Hx. destruct Hx as [(v & w' & E & Hv) _].
    exists w'. rewrite E. f_equal. f_equal. apply Hv. now split.
  - pose proof (process_vm_composed [] vm_cases 7 8 (fun n => n) (fun i b => if i =? 99 then 0 else b) "./test_mck" [] 0xffffffffffffff00 0x1000
      H1 H2 eq_refl proc0 vm_pair eq_refl H3 Er Ew) as Hx. cbv zeta in Hx. destruct Hx as [([m|] & w' & E & Hv) _]; [now exists m, w'|].
    destruct (proj1 Hv eq_refl) as [_ Hx]. discriminate (Hx 99 ltac:(lia)).
Defined.
