(* ===== verification/SigSuites.v ===== *)
(** * Suites on signals a process sends to itself

    [rt_sigaction], [rt_sigprocmask], [rt_sigpending], [rt_sigqueueinfo], [rt_sigsuspend],
    [sigaltstack], [setitimer], [siginfo] 0, [tgkill] 0 and 1, [tkill] 0, [pause] and [signalfd4].  A
    handler is a program of its own: [interruptible] lets it run after any call
    of the program it interrupts, which is where the system can be seen.  The handlers
    are short and are not interrupted themselves. *)
From S2P Require Import Prelude Process CLib TestMck AddrSpace Forks Ptrace TimeSuites ExecSuites.
From Stdlib Require Import Ascii String.
#[local] Open Scope string_scope.
#[local] Open Scope Z_scope.

(** ** Handlers *)

Fixpoint interruptible {A} (handler : delivery -> prog unit) (p : prog A) : prog A :=
  match p with
  | Ret a => Ret a
  | Exit n => Exit n
  | Raise n => Raise n
  | Loc f k => Loc f (fun x => interruptible handler (k x))
  | Call c k => Call c (fun r =>
      Call (Sigc SigPoll) (fun d =>
        match (d : option (delivery + Z)) with
        | None => interruptible handler (k r)
        | Some (inl d) => handler d ;; Call (Sigc SigReturn) (fun _ => interruptible handler (k r))
        | Some (inr signum) => Loc no_handlers (fun _ => Raise signum)
        end))
  end.

(** ** Calls *)

Definition get_var (x : string) : prog Z := (trigger (Sigc (GetVar x)) : prog Z).
Definition set_var (x : string) (v : Z) : prog unit := (trigger (Sigc (SetVar x v)) : prog unit).
Definition get_str (x : string) : prog (option string) := (trigger (Sigc (GetStr x)) : prog (option string)).
Definition set_str (x : string) (v : string) : prog unit := (trigger (Sigc (SetStr x (Some v))) : prog unit).
Definition get_info (x : string) (i : Z) : prog siginfo := (trigger (Sigc (GetInfo x i)) : prog siginfo).
Definition set_info (x : string) (i : Z) (v : siginfo) : prog unit := (trigger (Sigc (SetInfo x i v)) : prog unit).

Definition sigaction_set (signum flags mask : Z) : prog Z :=
  r <- (trigger (Sigc (SigactionSet signum flags mask)) : prog Z) ;; syscall_ret (-1) r.
Definition sigaction_get (signum : Z) : prog (Z * Z) :=
  r <- (trigger (Sigc (SigactionGet signum)) : prog (Z * Z)) ;; v <- syscall_ret (-1) (fst r) ;; Ret (v, snd r).
Definition sigprocmask (how : Z) (set : option Z) : prog (Z * Z) :=
  r <- (trigger (Sigc (Sigprocmask how set)) : prog (Z * Z)) ;; v <- syscall_ret (-1) (fst r) ;; Ret (v, snd r).
Definition sigpending (valid : bool) : prog Z := r <- (trigger (Sigc (Sigpending valid)) : prog Z) ;; syscall_ret (-1) r.
Definition tkill (tid sig : Z) : prog Z := r <- (trigger (Sigc (Tkill tid sig)) : prog Z) ;; syscall_ret (-1) r.
Definition tgkill (pid tid sig : Z) : prog Z := r <- (trigger (Sigc (Tgkill pid tid sig)) : prog Z) ;; syscall_ret (-1) r.
Definition sigaltstack (sp size flags : Z) : prog Z :=
  r <- (trigger (Sigc (Sigaltstack sp size flags)) : prog Z) ;; syscall_ret (-1) r.
Definition alarm (seconds : Z) : prog Z := (trigger (Sigc (Alarm seconds)) : prog Z).
Definition pause : prog Z := r <- (trigger (Sigc Pause) : prog Z) ;; syscall_ret (-1) r.
Definition sigsuspend (mask : Z) : prog Z := r <- (trigger (Sigc (Sigsuspend mask)) : prog Z) ;; syscall_ret (-1) r.
Definition fcntl (fd cmd : Z) : prog Z := r <- (trigger (Sigc (Fcntl fd cmd)) : prog Z) ;; syscall_ret (-1) r.
(** [pthread_kill] answers an error number. *)
Definition pthread_kill_self (sig : Z) : prog Z := (trigger (Sigc (PthreadKillSelf sig)) : prog Z).
(** [raise]. *)
Definition raise_signal (sig : Z) : prog Z := pid <- getpid ;; tid <- gettid ;; tgkill pid tid sig.

Definition SIGUSR1 : Z := 10.
Definition SIGALRM : Z := 14.
Definition SIGCHLD : Z := 17.
Definition SIGSTOP : Z := 19.
Definition SA_SIGINFO : Z := 4.
Definition SA_ONSTACK : Z := 0x08000000.
Definition SA_RESTART : Z := 0x10000000.
Definition SA_NODEFER : Z := 0x40000000.
Definition SA_RESETHAND : Z := 0x80000000.
Definition SIG_BLOCK : Z := 0.
Definition SIG_UNBLOCK : Z := 1.

(** [signal(signum, handler)] of the C library; [SIG_ERR] is -1. *)
Definition signal (signum : Z) : prog Z := sigaction_set signum SA_RESTART (Z.setbit 0 (signum - 1)).

(** Sets of signals; a number that is no signal is refused. *)
Definition is_signal (sig : Z) : bool := (1 <=? sig) && (sig <=? 64).
Definition sigaddset (set sig : Z) : Z := if is_signal sig then Z.setbit set (sig - 1) else set.
Definition sigismember (set sig : Z) : Z := if is_signal sig then b2z (Z.testbit set (sig - 1)) else -1.

Section Suites.
(** Bound of the loops that wait for a signal, and what follows it. *)
Context (rounds : nat) (more : prog result).

(** [while (!x) cpu_pause();] and what follows. *)
Fixpoint wait_var (n : nat) (x : string) (k : prog result) : prog result :=
  match n with
  | O => more
  | S n => v <- get_var x ;; if v =? 0 then wait_var n x k else k
  end.

(** ** [rt_sigaction] *)

Definition RT_SIGACTION_TEST_SIGNAL : Z := SIGUSR1.
Definition result_string : string := "sigaction_result_string".

Definition set_rt_sigaction_hundler (flags sig_to_mask : Z) : prog Z :=
  sigaction_set RT_SIGACTION_TEST_SIGNAL flags (sigaddset 0 sig_to_mask).

(** The beginning of the five handlers; [check] gets [oact.sa_flags] and [omask]. *)
Definition rt_sigaction_hundler (check : Z -> Z -> prog unit) : prog unit :=
  let* (err, sa_flags) := sigaction_get SIGUSR1 in
  if err =? -1 then set_str result_string "sigaction"
  else
    let* (err, omask) := sigprocmask SIG_BLOCK (Some 0) in
    if err =? -1 then set_str result_string "sigprocmask"
    else check sa_flags omask.

Definition rt_handler_000 (d : delivery) : prog unit :=
  rt_sigaction_hundler (fun sa_flags omask =>
    if Z.land sa_flags SA_SIGINFO =? 0 then
      set_str result_string "SA_RESETHAND should not cause SA_SIGINFO to be cleared, but it was."
    else match d_info d with None => set_str result_string "siginfo should not be NULL" | Some _ => Ret tt end).
Definition rt_handler_001 (d : delivery) : prog unit :=
  rt_sigaction_hundler (fun sa_flags omask =>
    if sigismember omask (d_sig d) =? 0 then
      set_str result_string "SA_RESETHAND should cause sig tobe masked when the handler executes."
    else Ret tt).
Definition rt_handler_002 (d : delivery) : prog unit :=
  rt_sigaction_hundler (fun sa_flags omask =>
    if sigismember omask (d_sig d) =? 0 then
      set_str result_string "sig should continue to be maskedbecause sa_mask originally contained sig."
    else Ret tt).
Definition rt_handler_003 (d : delivery) : prog unit :=
  rt_sigaction_hundler (fun sa_flags omask =>
    match d_info d with None => set_str result_string "siginfo pointer should not be NULL" | Some _ => Ret tt end).
Definition rt_handler_004 (d : delivery) : prog unit :=
  rt_sigaction_hundler (fun sa_flags omask => printf "sig#%d is handled.\n" [PZ (d_sig d)]).

(** The run function of tests 0 to 3; [send] sends the signal. *)
Definition rt_run (flags : Z) (send : prog Z) : prog result :=
  r <- set_rt_sigaction_hundler flags 0 ;;
  tp_assert! (r =? 0, Some "call failed unexpectedly") ;;
  send ;;
  get_str result_string.
Definition kill_self : prog Z := pid <- getpid ;; kill pid RT_SIGACTION_TEST_SIGNAL.

Definition rt_sigaction_run_000 : prog result := interruptible rt_handler_000 (rt_run (Z.lor SA_RESETHAND SA_SIGINFO) kill_self).
Definition rt_sigaction_run_001 : prog result := interruptible rt_handler_001 (rt_run SA_RESETHAND kill_self).
Definition rt_sigaction_run_002 : prog result :=
  interruptible rt_handler_002 (rt_run (Z.lor SA_RESETHAND SA_SIGINFO) (pthread_kill_self RT_SIGACTION_TEST_SIGNAL)).
Definition rt_sigaction_run_003 : prog result :=
  interruptible rt_handler_003 (rt_run (Z.lor SA_RESETHAND SA_SIGINFO) (pthread_kill_self RT_SIGACTION_TEST_SIGNAL)).
Definition rt_sigaction_run_004 : prog result :=
  interruptible rt_handler_004 (
    r <- set_rt_sigaction_hundler SA_RESETHAND 0 ;;
    tp_assert! (r =? 0, Some "call failed unexpectedly") ;;
    printf "/-------- Signal handler will activate -------/\n" [] ;;
    pid <- getpid ;; kill pid SIGUSR1 ;;
    printf "/------ Process will terminate by signal -----/\n" [] ;;
    pid <- getpid ;; kill pid SIGUSR1 ;;
    set_str result_string "signal handler called again?" ;;
    get_str result_string).

Fixpoint rt_refused (err_sig : list Z) : prog result :=
  match err_sig with
  | [] => Ret None
  | sig :: err_sig' =>
      result <- sigaction_set sig SA_RESETHAND 0 ;;
      e <- errno ;;
      printf "sigaction(%d) = %d (errno=%d)\n" [PZ sig; PZ result; PZ e] ;;
      tp_assert! (result =? -1, Some "ERROR:sigaction return success.") ;;
      e <- errno ;;
      tp_assert! (e =? EINVAL, Some "ERROR:sigaction return other error number.") ;;
      rt_refused err_sig'
  end.
Definition rt_sigaction_run_005 : prog result :=
  interruptible (fun _ => Ret tt) (rt_refused [-1; 65; SIGKILL; SIGSTOP]).

Definition rt_sigaction0 := plain "rt_sigaction" 0 rt_sigaction_run_000.
Definition rt_sigaction1 := plain "rt_sigaction" 1 rt_sigaction_run_001.
Definition rt_sigaction2 := plain "rt_sigaction" 2 rt_sigaction_run_002.
Definition rt_sigaction3 := plain "rt_sigaction" 3 rt_sigaction_run_003.
Definition rt_sigaction4 := plain "rt_sigaction" 4 rt_sigaction_run_004.
Definition rt_sigaction5 := plain "rt_sigaction" 5 rt_sigaction_run_005.

(** ** [rt_sigprocmask], [rt_sigpending], [rt_sigqueueinfo] *)

Definition mask_count : string := "rt_sigprocmask000_sig_count".
Definition rt_sigprocmask000_sig_handler (d : delivery) : prog unit :=
  n <- get_var mask_count ;; set_var mask_count (i32 (n + 1)).
Definition rt_sigprocmask_run_000 : prog result :=
  interruptible rt_sigprocmask000_sig_handler (
    let set := sigaddset 0 SIGUSR1 in
    ret <- sigaction_set SIGUSR1 0 0 ;;
    tp_assert! (0 <=? ret, Some "rt_sigaction call failed") ;;
    let* (ret, _) := sigprocmask SIG_BLOCK (Some set) in
    tp_assert! (ret =? 0, Some "rt_sigprocmask call failed") ;;
    pid <- getpid ;;
    r <- kill pid SIGUSR1 ;;
    tp_assert! (0 <=? r, Some "call to kill() failed") ;;
    n <- get_var mask_count ;;
    tp_assert! (n =? 0, Some "rt_sigprocmask() failed to change the process's signal mask") ;;
    Ret None).

(** Without a handler of its own. *)
Definition no_handler (d : delivery) : prog unit := Ret tt.
Definition rt_sigpending_run_000 : prog result :=
  interruptible no_handler (
    ret <- sigpending false ;;
    tp_assert! (ret =? -1, Some "sigpending() Failed, expected return value=-1.") ;;
    e <- errno ;;
    tp_assert! (e =? EFAULT, Some "sigpending() Failed with wrong errno\n") ;;
    Ret None).

Definition SI_QUEUE : Z := -1.
Definition rt_sigqueueinfo_run_000 : prog result :=
  interruptible no_handler (
    pid <- getpid ;;
    r <- (trigger (Sigc (RtSigqueueinfo pid SIGCHLD SI_QUEUE)) : prog Z) ;;
    syscall_ret (-1) r ;;
    Ret None).

Definition rt_sigprocmask0 := plain "rt_sigprocmask" 0 rt_sigprocmask_run_000.
Definition rt_sigpending0 := plain "rt_sigpending" 0 rt_sigpending_run_000.
Definition rt_sigqueueinfo0 := plain "rt_sigqueueinfo" 0 rt_sigqueueinfo_run_000.

(** ** [rt_sigsuspend], [pause] *)

Definition suspend_handler (d : delivery) : prog unit := printf "(%s)sig_num=%d\n" [PS "sig_handler"; PZ (d_sig d)].
Definition rt_sigsuspend_run_000 : prog result :=
  interruptible suspend_handler (
    ret <- sigaction_set SIGALRM 0 0 ;;
    tp_assert! (negb (ret =? -1), Some "rt_sigaction failed.") ;;
    let* (ret, set1) := sigprocmask SIG_UNBLOCK None in
    tp_assert! (negb (ret =? -1), Some "rt_sigprocmask1 failed.") ;;
    alarm 5 ;;
    ret <- sigsuspend 0 ;;
    e <- errno ;;
    printf "sys_rt_sigsuspend()=%d, errno=%d\n" [PZ ret; PZ e] ;;
    alarm 0 ;;
    tp_assert! (i32 ret =? -1, Some "rt_sigsuspend failed.") ;;
    let* (ret2, set2) := sigprocmask SIG_UNBLOCK None in
    tp_assert! (negb (ret2 =? -1), Some "rt_sigprocmask2 failed.") ;;
    tp_assert! (set1 =? set2, Some "rt_sigsuspend failed to preserve signal mask") ;;
    Ret None).

Definition pause000_sig_handle (d : delivery) : prog unit := printf "(%s)sig_num=%d\n" [PS "pause000_sig_handle"; PZ (d_sig d)].
Definition pause_run_000 : prog result :=
  interruptible pause000_sig_handle (
    signal SIGALRM ;;
    alarm 1 ;;
    status <- pause ;;
    e <- errno ;;
    printf "pause()=%d, errno=%d\n" [PZ status; PZ e] ;;
    tp_assert! (status =? -1, Some "pause call failed") ;;
    Ret None).

Definition rt_sigsuspend0 := plain "rt_sigsuspend" 0 rt_sigsuspend_run_000.
Definition pause0 := plain "pause" 0 pause_run_000.

(** ** [tgkill], [tkill] *)

Definition sig_count : string := "sig_count".
Definition count_handler (d : delivery) : prog unit := set_var sig_count 1.

Definition tgkill_run_000 : prog result :=
  interruptible count_handler (
    pid <- getpid ;;
    tid <- gettid ;;
    r <- signal SIGUSR1 ;;
    tp_assert! (negb (r =? -1), Some "signal(SIGUSR1, ..) failed") ;;
    r <- tgkill pid tid SIGUSR1 ;;
    tp_assert! (r =? 0, Some "tgkill failed") ;;
    Ret None).
Definition tgkill_run_001 : prog result :=
  interruptible count_handler (
    r <- signal SIGUSR1 ;;
    tp_assert! (negb (r =? -1), Some "signal(SIGUSR1, ..) failed") ;;
    r <- raise_signal SIGUSR1 ;;
    tp_assert! (r =? 0, Some "tgkill failed") ;;
    Ret None).
Definition tkill_run_000 : prog result :=
  interruptible count_handler (
    tid <- gettid ;;
    set_var sig_count 0 ;;
    r <- signal SIGUSR1 ;;
    tp_assert! (negb (r =? -1), Some "signal(SIGUSR1, ..) failed") ;;
    r <- tkill tid SIGUSR1 ;;
    tp_assert! (r =? 0, Some "tkill failed") ;;
    wait_var rounds sig_count (Ret None)).

Definition tgkill0 := plain "tgkill" 0 tgkill_run_000.
Definition tgkill1 := plain "tgkill" 1 tgkill_run_001.
Definition tkill0 := plain "tkill" 0 tkill_run_000.

(** ** [sigaltstack] *)

Definition SIGSTKSZ : Z := 16384.
Definition got_signal : string := "got_signal".
Definition sigstack_addr : string := "sigaltstack1_sigstack_addr".

(** The members the program does not set: [ss_sp] of test 0, [sa_flags] and [sa_mask] of
    test 1. *)
Context (uninit_sp uninit_flags uninit_mask : Z).

Definition sigaltstack_run_000 : prog result :=
  interruptible no_handler (sigaltstack uninit_sp SIGSTKSZ 0 ;; Ret None).

Definition sigaltstack1_sighandler (d : delivery) : prog unit :=
  set_var sigstack_addr (d_local d) ;; set_var got_signal 1.

(** The two conditions at the end. *)
Definition altstack_check (alt_stk main_stk ss_sp : Z) : result :=
  if (alt_stk <? ss_sp) && (u64 (ss_sp + SIGSTKSZ) <? alt_stk) then Some "alt. stack is not within the alternate stk boundaries"
  else if (ss_sp <=? main_stk) && (main_stk <=? u64 (ss_sp + SIGSTKSZ)) then Some "main stk. not outside the alt. stack boundaries"
  else None.

Definition sigaltstack_run_001 : prog result :=
  interruptible sigaltstack1_sighandler (
    my_pid <- getpid ;;
    r <- sigaction_set SIGUSR1 uninit_flags uninit_mask ;;
    tp_assert! (negb (r =? -1), Some "sigaction() fails in setup") ;;
    kill my_pid SIGUSR1 ;;
    wait_var rounds got_signal (
      set_var got_signal 0 ;;
      main_stk <- get_var sigstack_addr ;;
      ss_sp <- malloc SIGSTKSZ ;;
      tp_assert! (negb (ss_sp =? NULL), Some "could not allocate memory for the alternate stack") ;;
      printf "alternate stack settings = {\n" [] ;;
      printf "  ss_sp   = %p\n" [PZ ss_sp] ;;
      printf "  ss_size = 0x%x\n" [PZ SIGSTKSZ] ;;
      printf "};\n" [] ;;
      r <- sigaltstack ss_sp SIGSTKSZ 0 ;;
      tp_assert! (negb (r =? -1), Some "sigaltstack() Failed") ;;
      r <- sigaction_set SIGUSR1 SA_ONSTACK uninit_mask ;;
      tp_assert! (negb (r =? -1), Some "sigaction() fails to trap signal delivered on alt. stack") ;;
      kill my_pid SIGUSR1 ;;
      wait_var rounds got_signal (
        set_var got_signal 0 ;;
        alt_stk <- get_var sigstack_addr ;;
        printf "Actual altternalte stack = %p\n" [PZ alt_stk] ;;
        printf "Actual main stack        = %p\n" [PZ main_stk] ;;
        Ret (altstack_check alt_stk main_stk ss_sp)))).

Definition sigaltstack0 := plain "sigaltstack" 0 sigaltstack_run_000.
Definition sigaltstack1 := plain "sigaltstack" 1 sigaltstack_run_001.

(** ** [setitimer] *)

Definition SIGVTALRM : Z := 26.
Definition SIGPROF : Z := 27.

Definition itimerval : Type := timeval * timeval.
Definition setitimer (which : Z) (value : option itimerval) (old : option bool) : prog (Z * itimerval) :=
  r <- (trigger (Timec (Setitimer which value old)) : prog (Z * itimerval)) ;;
  v <- syscall_ret (-1) (fst r) ;; Ret (v, snd r).

Definition setitimer_setup_000 (tc_num : Z) (tc_argv : list string) : prog unit :=
  sigprocmask SIG_BLOCK (Some (sigaddset (sigaddset (sigaddset 0 SIGALRM) SIGVTALRM) SIGPROF)) ;; Ret tt.

(** The types and names of the timers. *)
Definition itimers : list (Z * string) :=
  [(ITIMER_REAL, "ITIMER_REAL"); (ITIMER_VIRTUAL, "ITIMER_VIRTUAL"); (ITIMER_PROF, "ITIMER_PROF")].
Definition init_sec : Z := 1000.
Definition init_usec : Z := 100.

(** The loop that waits for the timer to run, and what follows it. *)
Fixpoint wait_running (n : nat) (which : Z) (k : prog result) : prog result :=
  match n with
  | O => more
  | S n =>
      let* (result, old_value) := getitimer which true in
      tp_assert! (result =? 0, Some "getitimer failed.") ;;
      if fst (snd old_value) <? init_sec then k else wait_running n which k
  end.
Fixpoint setitimer_loop (timers : list (Z * string)) : prog result :=
  match timers with
  | [] => Ret None
  | (which, name) :: timers' =>
      let* (result, _) := setitimer which (Some ((0, 0), (init_sec, init_usec))) None in
      tp_assert! (result =? 0, Some "setitimer(1st) failed.") ;;
      printf "testing %s, please wait...\n" [PS name] ;;
      wait_running rounds which (
        let* (result, old_value) := setitimer which (Some ((0, 0), (0, 0))) (Some true) in
        tp_assert! (result =? 0, Some "setitimer(2nd) failed.") ;;
        printf "old sec:%ld usec:%ld, init sec:%ld usec:%ld\n"
          [PZ (fst (snd old_value)); PZ (snd (snd old_value)); PZ init_sec; PZ init_usec] ;;
        setitimer_loop timers')
  end.
Definition setitimer_run_000 : prog result := interruptible no_handler (setitimer_loop itimers).

Definition setitimer_fails (which : Z) (value : option itimerval) (old : option bool) (e : Z) (k : prog result) : prog result :=
  expect_failure (let* (r, _) := setitimer which value old in Ret r) e "Unexpected result." "Unexpected errno." k.
Definition setitimer_run_001 : prog result :=
  interruptible no_handler (
    setitimer_fails ITIMER_REAL (Some ((0, 0), (0, 0))) (Some false) EFAULT (
    setitimer_fails ITIMER_REAL None None EFAULT (Ret None))).
Definition setitimer_run_002 : prog result :=
  interruptible no_handler (setitimer_fails (-1) (Some ((0, 0), (0, 0))) None EINVAL (Ret None)).

Definition handled_sigalrm : string := "handled_sigalrm".
Definition handled_sigvtalrm : string := "handled_sigvtalrm".
Definition handled_sigaprof : string := "handled_sigaprof".
Definition increment (x : string) : prog unit := n <- get_var x ;; set_var x (i32 (n + 1)).
Definition settimer_sig_handler (d : delivery) : prog unit :=
  if d_sig d =? SIGALRM then increment handled_sigalrm
  else if d_sig d =? SIGVTALRM then increment handled_sigvtalrm
  else if d_sig d =? SIGPROF then increment handled_sigaprof
  else printf "Recived %d. Why!?\n" [PZ (d_sig d)].
Definition setitimer_setup_003 (tc_num : Z) (tc_argv : list string) : prog unit :=
  interruptible settimer_sig_handler (signal SIGALRM ;; signal SIGVTALRM ;; signal SIGPROF ;; Ret tt).

(** The variable of the signal of a timer; with the other two and their names. *)
Definition timer_vars (which : Z) : string * list (string * string) :=
  let alrm := (handled_sigalrm, "SIGALRM") in
  let vtalrm := (handled_sigvtalrm, "SIGVTALRM") in
  let prof := (handled_sigaprof, "SIGPROF") in
  if which =? ITIMER_REAL then (handled_sigalrm, [vtalrm; prof])
  else if which =? ITIMER_VIRTUAL then (handled_sigvtalrm, [alrm; prof])
  else (handled_sigaprof, [alrm; vtalrm]).
Fixpoint unhandled (vars : list (string * string)) (k : prog result) : prog result :=
  match vars with
  | [] => k
  | (x, name) :: vars' =>
      n <- get_var x ;;
      tp_assert! (n =? 0, Some ("Receiving unexpected signal (" ++ name ++ ").")) ;;
      unhandled vars' k
  end.
Fixpoint setitimer_signals (timers : list (Z * string)) : prog result :=
  match timers with
  | [] => Ret None
  | (which, name) :: timers' =>
      let* (result, _) := setitimer which (Some ((0, 0), (1, 0))) None in
      tp_assert! (result =? 0, Some "setitimer failed.") ;;
      printf "testing %s, please wait...\n" [PS name] ;;
      wait_var rounds (fst (timer_vars which)) (
        unhandled (snd (timer_vars which)) (
          set_var handled_sigaprof 0 ;; set_var handled_sigvtalrm 0 ;; set_var handled_sigalrm 0 ;;
          setitimer_signals timers'))
  end.
Definition setitimer_run_003 : prog result := interruptible settimer_sig_handler (setitimer_signals itimers).

Definition setitimer_case (n : Z) (setup : Z -> list string -> prog unit) (p : prog result) : test_case :=
  TestCase "setitimer" n unit setup (run_const (fun _ _ => p)) TEARDOWN_EMPTY.
Definition setitimer0 := setitimer_case 0 setitimer_setup_000 setitimer_run_000.
Definition setitimer1 := setitimer_case 1 setitimer_setup_000 setitimer_run_001.
Definition setitimer2 := setitimer_case 2 setitimer_setup_000 setitimer_run_002.
Definition setitimer3 := setitimer_case 3 setitimer_setup_003 setitimer_run_003.

(** ** [siginfo/000.c] *)

Definition ARCH_S64FX_SIGRTMIN : Z := 32.
Definition handle_siginfo : string := "handle_siginfo".
Definition delivered_signal : string := "delivered_signal".
Definition print_ds : string := "print_ds".
(** The numbers from 1 to 31. *)
Definition signums : list Z := map Z.of_nat (seq 1 31).
Definition skipped (signum : Z) : bool := (signum =? SIGKILL) || (signum =? SIGSTOP).

(** [SA_SIGINFO] is set: the pointer is read from. *)
Definition siginfo_handler (d : delivery) : prog unit :=
  match d_info d with
  | None => Raise SIGSEGV
  | Some info =>
      set_info handle_siginfo (d_sig d) info ;;
      ds <- get_var delivered_signal ;;
      set_var delivered_signal (u32 (Z.lor ds (Z.shiftl 1 (d_sig d))))
  end.

Fixpoint setup_siginfo_handler (sigs : list Z) : prog Z :=
  match sigs with
  | [] => Ret 0
  | signum :: sigs' =>
      if skipped signum then setup_siginfo_handler sigs'
      else
        result <- sigaction_set signum SA_SIGINFO 0 ;;
        if negb (result =? 0) then Ret result else setup_siginfo_handler sigs'
  end.

Fixpoint print_catch_siginfo (sigs : list Z) (sig_mask : Z) : prog unit :=
  match sigs with
  | [] => Ret tt
  | sig :: sigs' =>
      (if negb (Z.land sig_mask (Z.shiftl 1 sig) =? 0) then
         printf "Catch signal #%d\n" [PZ sig] ;;
         info <- get_info handle_siginfo sig ;;
         printf "  siginfo->si_signo = %d\n" [PZ (si_signo info)] ;;
         printf "  siginfo->si_errno = %d\n" [PZ (si_errno info)] ;;
         printf "  siginfo->si_code  = 0x%x\n" [PZ (si_code info)] ;;
         ds <- get_var print_ds ;;
         let ds := u32 (Z.lor ds (Z.shiftl 1 sig)) in
         set_var print_ds ds ;;
         printf "delivered_signal=0x%08x\n" [PZ ds]
       else Ret tt) ;;
      print_catch_siginfo sigs' sig_mask
  end.

Fixpoint clear_siginfo (sigs : list Z) : prog unit :=
  match sigs with
  | [] => Ret tt
  | i :: sigs' => set_info handle_siginfo i (Siginfo 0 0 0 0) ;; clear_siginfo sigs'
  end.
Definition siginfo_setup (tc_num : Z) (tc_argv : list string) : prog unit := clear_siginfo (0 :: signums).

(** [while (!(ds = old_ds ^ delivered_signal)) cpu_pause();] *)
Fixpoint wait_delivered (n : nat) (old_ds : Z) (k : Z -> prog result) : prog result :=
  match n with
  | O => more
  | S n => v <- get_var delivered_signal ;; let ds := Z.lxor old_ds v in if ds =? 0 then wait_delivered n old_ds k else k ds
  end.

Fixpoint siginfo_loop (sigs : list Z) (old_ds : Z) : prog result :=
  match sigs with
  | [] => Ret None
  | signum :: sigs' =>
      if skipped signum then siginfo_loop sigs' old_ds
      else
        printf "=== raise signal #%d ===\n" [PZ signum] ;;
        r <- raise_signal signum ;;
        tp_assert! (r =? 0, Some "raise signal failed") ;;
        wait_delivered rounds old_ds (fun ds =>
          print_catch_siginfo signums ds ;; siginfo_loop sigs' (Z.lor old_ds ds))
  end.
Definition siginfo_run_000 : prog result :=
  interruptible siginfo_handler (
    r <- setup_siginfo_handler signums ;;
    tp_assert! (r =? 0, Some "Setup signal handlers failed. What's happen?") ;;
    siginfo_loop signums 0).
Definition siginfo0 : test_case :=
  TestCase "siginfo" 0 unit siginfo_setup (run_const (fun _ _ => siginfo_run_000)) TEARDOWN_EMPTY.

(** ** [signalfd4] *)

Definition SFD_NONBLOCK : Z := 0x800.
Definition SFD_CLOEXEC : Z := 0x80000.
Definition O_NONBLOCK : Z := 0x800.
Definition FD_CLOEXEC : Z := 1.
Definition F_GETFD : Z := 1.
Definition EBADF : Z := 9.

Definition signalfd4 (fd mask flags : Z) : prog Z :=
  r <- (trigger (Sigc (Signalfd4 fd mask flags)) : prog Z) ;; v <- syscall_ret (-1) r ;; Ret (i32 v).

(** The end of the three tests. *)
Definition signalfd4_closed (fd : Z) : prog result :=
  result <- close fd ;;
  tp_assert! (result =? 0, Some "close(fd) failed.") ;;
  result <- fcntl fd F_GETFD ;;
  tp_assert! (result =? -1, Some "why fcntl() successed?") ;;
  e <- errno ;;
  tp_assert! (e =? EBADF, Some "file descriptor not closed!!") ;;
  Ret None.
Definition signalfd4_run (flags : Z) (check : Z -> prog result -> prog result) : prog result :=
  interruptible no_handler (
    fd <- signalfd4 (-1) 0 flags ;;
    tp_assert! (negb (fd =? -1), Some "signalfd4() failed.") ;;
    check fd (signalfd4_closed fd)).
Definition signalfd4_run_000 : prog result := signalfd4_run 0 (fun _ k => k).
Definition signalfd4_run_001 : prog result :=
  signalfd4_run SFD_NONBLOCK (fun fd k =>
    result <- fcntl fd F_GETFD ;;
    tp_assert! (negb (result =? -1), Some "fcntl() failed.") ;;
    tp_assert! (Z.land result O_NONBLOCK =? 0, Some "signalfd() does not set non-blocking mode.") ;;
    k).
Definition signalfd4_run_002 : prog result :=
  signalfd4_run SFD_CLOEXEC (fun fd k =>
    result <- fcntl fd F_GETFD ;;
    tp_assert! (negb (result =? -1), Some "fcntl() failed.") ;;
    tp_assert! (Z.land result FD_CLOEXEC =? FD_CLOEXEC, Some "signalfd() does not set close-on-exec flag.") ;;
    k).

Definition signalfd4_0 := plain "signalfd4" 0 signalfd4_run_000.
Definition signalfd4_1 := plain "signalfd4" 1 signalfd4_run_001.
Definition signalfd4_2 := plain "signalfd4" 2 signalfd4_run_002.
End Suites.
