(* ===== verification/SigThms.v ===== *)
(** * What the signal suites can tell about a system

    A system that delivers signals as documented, with the ways in which it may
    deviate, and the verdicts of the cases of [SigSuites] on each.  On every system, a
    program with a handler that no signal reaches behaves as the program without it; what
    a pass of a case shows there. *)
From S2P Require Import Prelude Process CLib TestMck AddrSpace Exact Forks Ptrace TimeSuites ExecSuites SigSuites.
From Stdlib Require Import String.
#[local] Open Scope string_scope.
#[local] Open Scope Z_scope.

(** ** Deviations *)

Inductive deviation :=
| NeverDelivers      (** a signal stays pending *)
| HandlerKept        (** [SA_RESETHAND] has no effect *)
| SiginfoCleared     (** [SA_RESETHAND] clears [SA_SIGINFO] *)
| NullSiginfo        (** no [siginfo_t] in spite of [SA_SIGINFO] *)
| SignalUnmasked     (** the signal of a handler is not blocked while it runs *)
| MaskKept           (** the mask is not restored after a handler *)
| MaskIgnored        (** [sigprocmask] has no effect *)
| SuspendMaskKept    (** the mask of [sigsuspend] stays *)
| SuspendAnswers0    (** [sigsuspend] and [pause] answer 0 *)
| AltstackIgnored    (** [SA_ONSTACK] has no effect *)
| KillCatchable      (** a handler for [SIGKILL] is accepted *)
| NullPending        (** [sigpending] accepts a null pointer *)
| KillRefused        (** [kill], [tkill], [tgkill] and [rt_sigqueueinfo] answer -1 *)
| CloexecLost        (** [SFD_CLOEXEC] has no effect *)
| NonblockLost       (** [SFD_NONBLOCK] has no effect *)
| DescriptorStays    (** [close] of a signal descriptor has no effect *)
| TimerStands        (** a timer does not run *)
| TimerConfused      (** the virtual timer sends [SIGPROF] *)
| TimerUnchecked.    (** [setitimer] accepts every timer and every pointer *)

#[export] Instance deviation_eq_dec : EqDecision deviation.
Proof. solve_decision. Defined.

(** ** The system *)

Record disposition := Disp { has_handler : bool; da_flags : Z; da_mask : Z }.

Record sigsys := Sys {
  s_disp : Z -> disposition;
  s_mask : Z;
  s_pending : list Z;
  s_suspended : option Z;        (** the mask before [sigsuspend] *)
  s_frames : list Z;             (** the masks to restore when handlers return *)
  s_alt : option (Z * Z);
  s_alarm : bool;
  s_vars : string -> Z;
  s_strs : string -> option string;
  s_infos : string -> Z -> siginfo;
  s_fds : list (Z * Z);          (** descriptors and their flags *)
  s_timers : Z -> itimerval;
}.

Definition boot (mask : Z) : sigsys :=
  Sys (fun _ => Disp false 0 0) mask [] None [] None false (fun _ => 0) (fun _ => None) (fun _ _ => Siginfo 0 0 0 0) [] (fun _ => ((0, 0), (0, 0))).

Definition upd {A} (f : Z -> A) (k : Z) (v : A) (x : Z) : A := if x =? k then v else f x.
Definition upds {A} (f : string -> A) (k : string) (v : A) (x : string) : A := if String.eqb x k then v else f x.

Definition with_disp f s := Sys f (s_mask s) (s_pending s) (s_suspended s) (s_frames s) (s_alt s) (s_alarm s) (s_vars s) (s_strs s) (s_infos s) (s_fds s) (s_timers s).
Definition with_masks m susp fr s := Sys (s_disp s) m (s_pending s) susp fr (s_alt s) (s_alarm s) (s_vars s) (s_strs s) (s_infos s) (s_fds s) (s_timers s).
Definition with_pending l s := Sys (s_disp s) (s_mask s) l (s_suspended s) (s_frames s) (s_alt s) (s_alarm s) (s_vars s) (s_strs s) (s_infos s) (s_fds s) (s_timers s).
Definition with_alt a s := Sys (s_disp s) (s_mask s) (s_pending s) (s_suspended s) (s_frames s) a (s_alarm s) (s_vars s) (s_strs s) (s_infos s) (s_fds s) (s_timers s).
Definition with_alarm b s := Sys (s_disp s) (s_mask s) (s_pending s) (s_suspended s) (s_frames s) (s_alt s) b (s_vars s) (s_strs s) (s_infos s) (s_fds s) (s_timers s).
Definition with_data v t i s := Sys (s_disp s) (s_mask s) (s_pending s) (s_suspended s) (s_frames s) (s_alt s) (s_alarm s) v t i (s_fds s) (s_timers s).
Definition with_fds l s := Sys (s_disp s) (s_mask s) (s_pending s) (s_suspended s) (s_frames s) (s_alt s) (s_alarm s) (s_vars s) (s_strs s) (s_infos s) l (s_timers s).

Definition with_timers t s := Sys (s_disp s) (s_mask s) (s_pending s) (s_suspended s) (s_frames s) (s_alt s) (s_alarm s) (s_vars s) (s_strs s) (s_infos s) (s_fds s) t.

Definition has (flags bit : Z) : bool := negb (Z.land flags bit =? 0).
Definition my_pid : Z := 1000.
Definition heap : Z := 0x500000.
Definition stack : Z := 0x7fff0000.
Definition new_fd : Z := 3.
(** Signals whose default action is to be ignored. *)
Definition ignored (sig : Z) : bool := existsb (Z.eqb sig) [SIGCHLD; 18; 23; 28].

Section Machine.
(** The deviation, if any. *)
Context (dev : option deviation).
Definition deviates (f : deviation) : bool := bool_decide (dev = Some f).

(** The first pending signal that is not blocked, and the others. *)
Fixpoint unblocked (mask : Z) (l : list Z) : option (Z * list Z) :=
  match l with
  | [] => None
  | sig :: l' =>
      if Z.testbit mask (sig - 1) then match unblocked mask l' with Some (x, r) => Some (x, sig :: r) | None => None end
      else Some (sig, l')
  end.

(** A handler for [sig] is entered. *)
Definition enter (sig : Z) (s : sigsys) : sigsys * delivery :=
  let a := s_disp s sig in
  let reset := has (da_flags a) SA_RESETHAND && negb (deviates HandlerKept) in
  let flags := if reset && deviates SiginfoCleared then Z.land (da_flags a) (Z.lnot SA_SIGINFO) else da_flags a in
  let saved := if deviates SuspendMaskKept then s_mask s else default (s_mask s) (s_suspended s) in
  let own := if has (da_flags a) SA_NODEFER || deviates SignalUnmasked then 0 else Z.setbit 0 (sig - 1) in
  let on_alt := has (da_flags a) SA_ONSTACK && negb (deviates AltstackIgnored) in
  (with_masks (Z.lor (s_mask s) (Z.lor (da_mask a) own)) None (saved :: s_frames s)
     (with_disp (upd (s_disp s) sig (Disp (negb reset) flags (da_mask a))) s),
   Delivery sig
     (if has flags SA_SIGINFO && negb (deviates NullSiginfo) then Some (Siginfo sig 0 0 0) else None)
     (match s_alt s with Some (sp, size) => if on_alt then sp + size - 64 else stack | None => stack end)).

Definition poll_signal (s : sigsys) : sigsys * option (delivery + Z) :=
  if deviates NeverDelivers then (s, None)
  else match unblocked (s_mask s) (s_pending s) with
  | None => (s, None)
  | Some (sig, rest) =>
      let s := with_pending rest s in
      if has_handler (s_disp s sig) then let '(s', d) := enter sig s in (s', Some (inl d))
      else if ignored sig then (s, None) else (s, Some (inr sig))
  end.

Definition send (pid sig : Z) (s : sigsys) : sigsys * Z :=
  if deviates KillRefused then (s, -1)
  else if negb (pid =? my_pid) then (s, -3)
  else (with_pending (s_pending s ++ [sig]) s, 0).

(** The alarm, if there is one, ends the wait. *)
Definition wait_alarm (s : sigsys) : sigsys * Z :=
  (if s_alarm s then with_alarm false (with_pending (s_pending s ++ [SIGALRM]) s) else s,
   if deviates SuspendAnswers0 then 0 else - 4).

Definition fd_flags (fd : Z) (s : sigsys) : option Z := option_map snd (List.find (fun x => fst x =? fd) (s_fds s)).

Definition sig_step (c : sigcall) (s : sigsys) : sigsys * sigans c :=
  match c return sigsys * sigans c with
  | SigactionSet sig flags mask =>
      if negb (is_signal sig) || (sig =? SIGSTOP) || ((sig =? SIGKILL) && negb (deviates KillCatchable)) then (s, - EINVAL)
      else (with_disp (upd (s_disp s) sig (Disp true flags mask)) s, 0)
  | SigactionGet sig => (s, (0, da_flags (s_disp s sig)))
  | Sigprocmask how set =>
      (match set with
       | Some m => if deviates MaskIgnored then s
                   else with_masks (if how =? SIG_BLOCK then Z.lor (s_mask s) m else Z.ldiff (s_mask s) m) (s_suspended s) (s_frames s) s
       | None => s
       end, (0, s_mask s))
  | Sigpending valid => (s, if valid || deviates NullPending then 0 else - EFAULT)
  | Tkill tid sig => send tid sig s
  | Tgkill pid tid sig => send pid sig s
  | PthreadKillSelf sig => send my_pid sig s
  | RtSigqueueinfo pid sig _ => send pid sig s
  | SigPoll => poll_signal s
  | SigReturn =>
      (match s_frames s with
       | m :: fr => with_masks (if deviates MaskKept then s_mask s else m) (s_suspended s) fr s
       | [] => s
       end, tt)
  | Sigaltstack sp size _ => (with_alt (Some (sp, size)) s, 0)
  | Alarm seconds => (with_alarm (negb (seconds =? 0)) s, 0)
  | Pause => wait_alarm s
  | Sigsuspend mask => wait_alarm (with_masks mask (Some (s_mask s)) (s_frames s) s)
  | Signalfd4 _ _ flags =>
      (with_fds ((new_fd, if deviates CloexecLost then Z.ldiff flags SFD_CLOEXEC
                          else if deviates NonblockLost then Z.ldiff flags SFD_NONBLOCK else flags) :: s_fds s) s, new_fd)
  | Fcntl fd _ => (s, match fd_flags fd s with Some f => if has f SFD_CLOEXEC then FD_CLOEXEC else 0 | None => - EBADF end)
  | GetVar x => (s, s_vars s x)
  | SetVar x v => (with_data (upds (s_vars s) x v) (s_strs s) (s_infos s) s, tt)
  | GetStr x => (s, s_strs s x)
  | SetStr x v => (with_data (s_vars s) (upds (s_strs s) x v) (s_infos s) s, tt)
  | GetInfo x i => (s, s_infos s x i)
  | SetInfo x i v => (with_data (s_vars s) (s_strs s) (upds (s_infos s) x (upd (s_infos s x) i v)) s, tt)
  end.

Definition is_timer (which : Z) : bool := (ITIMER_REAL <=? which) && (which <=? ITIMER_PROF).
Definition timer_signal (which : Z) : Z :=
  if which =? ITIMER_REAL then SIGALRM
  else if (which =? ITIMER_VIRTUAL) && negb (deviates TimerConfused) then SIGVTALRM else SIGPROF.

(** A timer of one second has expired when the process looks for the signal, one of
    more has lost a second when the process looks at it. *)
Definition set_timer (which : Z) (value : option itimerval) (old : option bool) (s : sigsys) : sigsys * (Z * itimerval) :=
  let was := s_timers s which in
  match value, old with
  | None, _ | _, Some false => (s, (if deviates TimerUnchecked then 0 else - EFAULT, was))
  | Some v, _ =>
      if negb (is_timer which) then (s, (if deviates TimerUnchecked then 0 else - EINVAL, was))
      else (let s := with_timers (upd (s_timers s) which v) s in
            if (fst (snd v) =? 1) && negb (deviates TimerStands) then with_pending (s_pending s ++ [timer_signal which]) s else s,
            (0, was))
  end.
Definition get_timer (which : Z) (s : sigsys) : Z * itimerval :=
  let v := s_timers s which in
  (0, if (1 <? fst (snd v)) && negb (deviates TimerStands) then (fst v, (fst (snd v) - 1, snd (snd v))) else v).

Definition sigkernel : kernel :=
  Kernel sigsys (fun c s => match c return sigsys * ans c with
    | Sigc c => sig_step c s
    | Kill pid sig => send pid sig s
    | Procs Getpid => (s, my_pid)
    | Gettid => (s, my_pid)
    | Malloc _ => (s, heap)
    | Close fd =>
        match fd_flags fd s with
        | Some _ => (if deviates DescriptorStays then s else with_fds (List.filter (fun x => negb (fst x =? fd)) (s_fds s)) s, 0)
        | None => (s, - EBADF)
        end
    | Timec (Setitimer which value old) => set_timer which value old s
    | Timec (Getitimer which _) => (s, get_timer which s)
    | c => (s, enosys c)
    end).
End Machine.

(** ** Verdicts *)

(** The waiting loops look eight times; a test that is still waiting then is ended
    with status 77. *)
Definition waits : nat := 8.
Definition still_waiting : prog result := Exit 77.

Definition sig_cases (sp flags mask : Z) : list test_case :=
  [rt_sigaction0; rt_sigaction1; rt_sigaction2; rt_sigaction3; rt_sigaction4; rt_sigaction5; rt_sigprocmask0; rt_sigpending0; rt_sigqueueinfo0;
   rt_sigsuspend0; pause0; tgkill0; tgkill1; tkill0 waits still_waiting; sigaltstack0 sp; sigaltstack1 waits still_waiting flags mask;
   siginfo0 waits still_waiting; signalfd4_0; signalfd4_1; signalfd4_2;
   setitimer0 waits still_waiting; setitimer1; setitimer2; setitimer3 waits still_waiting].

Definition verdict (dev : option deviation) (mask : Z) (t : test_case) : outcome result :=
  fst (run (sigkernel dev) (run_test_case t ["test_mck"]) (@World (sigkernel dev) proc0 (boot mask : kstate (sigkernel dev)))).

(** The sixteen ways to set the flags that decide how a signal is delivered. *)
Definition flag_words : list Z :=
  a ← [0; SA_SIGINFO]; b ← [0; SA_ONSTACK]; c ← [0; SA_NODEFER]; d ← [0; SA_RESETHAND]; [Z.lor (Z.lor a b) (Z.lor c d)].

Definition same_verdict (a b : outcome result) : bool :=
  match a, b with
  | Done x, Done y => bool_decide (x = y)
  | Exited x, Exited y => x =? y
  | Killed x, Killed y => x =? y
  | _, _ => false
  end.

Definition case_name (t : test_case) : string * Z := (test_suite t, num t).

(** The cases whose verdict differs from the one on the system as documented. *)
Definition detectors (mask : Z) (f : deviation) : list (string * Z) :=
  map case_name (List.filter (fun t => negb (same_verdict (verdict (Some f) mask t) (verdict None mask t))) (sig_cases 0 0 0)).

(** What is expected: every case passes but [rt_sigaction] 4, which ends by the signal
    it sends after its handler is gone. *)
Definition expected : list (outcome result) := replicate 4 (Done None) ++ [Killed SIGUSR1] ++ replicate 19 (Done None).

Definition expected_detectors (f : deviation) : list (string * Z) :=
  match f with
  | NeverDelivers => [("rt_sigaction", 4); ("tkill", 0); ("sigaltstack", 1); ("siginfo", 0); ("setitimer", 3)]
  | HandlerKept => [("rt_sigaction", 4)]
  | SiginfoCleared => [("rt_sigaction", 0); ("rt_sigaction", 3)]
  | NullSiginfo => [("rt_sigaction", 0); ("rt_sigaction", 3); ("siginfo", 0)]
  | SignalUnmasked => [("rt_sigaction", 1); ("rt_sigaction", 2)]
  | MaskKept => [("rt_sigaction", 4); ("rt_sigsuspend", 0); ("sigaltstack", 1)]
  | MaskIgnored => [("rt_sigprocmask", 0)]
  | SuspendAnswers0 => [("rt_sigsuspend", 0); ("pause", 0)]
  | KillCatchable => [("rt_sigaction", 5)]
  | NullPending => [("rt_sigpending", 0)]
  | KillRefused =>
      [("rt_sigaction", 4); ("rt_sigprocmask", 0); ("tgkill", 0); ("tgkill", 1); ("tkill", 0); ("sigaltstack", 1); ("siginfo", 0)]
  | CloexecLost => [("signalfd4", 2)]
  | DescriptorStays => [("signalfd4", 0); ("signalfd4", 1); ("signalfd4", 2)]
  | TimerStands => [("setitimer", 0); ("setitimer", 3)]
  | TimerConfused => [("setitimer", 3)]
  | TimerUnchecked => [("setitimer", 1); ("setitimer", 2)]
  | SuspendMaskKept | AltstackIgnored | NonblockLost => []
  end.

(** The first condition of [sigaltstack] 1 asks for an address below the stack and
    above it. *)
Lemma altstack_check_blind alt_stk main_stk ss_sp :
  0 <= ss_sp -> ss_sp + SIGSTKSZ < 2 ^ 64 ->
  altstack_check alt_stk main_stk ss_sp =
  if (ss_sp <=? main_stk) && (main_stk <=? ss_sp + SIGSTKSZ) then Some "main stk. not outside the alt. stack boundaries" else None.
Proof.
  intros H0 H1. unfold altstack_check, SIGSTKSZ, u64 in *. rewrite Z.mod_small by lia.
  destruct (Z.ltb_spec alt_stk ss_sp), (Z.ltb_spec (ss_sp + 16384) alt_stk); cbn [andb]; [lia|reflexivity..].
Qed.



(** ** Systems on which no signal arrives *)

Definition silent (K : kernel) : Prop := forall s, kstep K (Sigc SigPoll) s = (s, None).

(** Without a delivery a handler makes no difference. *)
Lemma interruptible_silent K (HK : silent K) {A} handler (p : prog A) : forall w, run K (interruptible handler p) w = run K p w.
Proof.
  induction p as [a|n|n|f k IH|c k IH]; intros w; cbn [interruptible run]; try reflexivity.
  - apply IH.
  - destruct (kstep K c (w_k w)) as [st r]. cbn [w_k w_proc]. rewrite HK. apply IH.
Qed.

Lemma exact_silent K (HK : silent K) handler (p : prog result) s :
  exact false false None p s -> forall w, fst (run K (interruptible handler p) w) = Done None <-> is_Some (meets K s (w_k w)).
Proof.
  intros H w. rewrite interruptible_silent by exact HK. specialize (H K w ltac:(discriminate)).
  destruct (meets K s (w_k w)) as [st|].
  - destruct H as (pr & E & _). split; [eauto|intros _; exact (f_equal fst E)].
  - split; [intros E; contradiction|intros [? [=]]].
Qed.

(** The answers that make the cases pass there. *)
Definition string_null : script := Need (Sigc (GetStr result_string)) (fun r => bool_decide (r = (None : option string))) (fun _ => Met).
Definition rt_script (flags : Z) (sent : script -> script) : script :=
  Need (Sigc (SigactionSet SIGUSR1 flags 0)) (fun r => (r : Z) =? 0) (fun _ => sent string_null).
Definition self_sent (s : script) : script := any (Procs Getpid) (fun pid : Z => any (Kill pid SIGUSR1) (fun _ => s)).
Definition thread_sent (s : script) : script := any (Sigc (PthreadKillSelf SIGUSR1)) (fun _ => s).
Definition signal_op (sig : Z) : op := Sigc (SigactionSet sig SA_RESTART (Z.setbit 0 (sig - 1))).
Definition tgkill_sent : script :=
  any (Procs Getpid) (fun pid : Z => any Gettid (fun tid : Z => Need (Sigc (Tgkill pid tid SIGUSR1)) (fun r => (r : Z) =? 0) (fun _ => Met))).

Definition silent_runs : list (prog result * script) :=
  [ (rt_sigaction_run_000, rt_script (Z.lor SA_RESETHAND SA_SIGINFO) self_sent);
    (rt_sigaction_run_001, rt_script SA_RESETHAND self_sent);
    (rt_sigaction_run_002, rt_script (Z.lor SA_RESETHAND SA_SIGINFO) thread_sent);
    (rt_sigaction_run_003, rt_script (Z.lor SA_RESETHAND SA_SIGINFO) thread_sent);
    (pause_run_000, any (signal_op SIGALRM) (fun _ => any (Sigc (Alarm 1)) (fun _ => Need (Sigc Pause) (fun r => is_err r) (fun _ => Met))));
    (rt_sigqueueinfo_run_000, any (Procs Getpid) (fun pid : Z => any (Sigc (RtSigqueueinfo pid SIGCHLD SI_QUEUE)) (fun _ => Met)));
    (tgkill_run_000, any (Procs Getpid) (fun pid : Z => any Gettid (fun tid : Z =>
       Need (signal_op SIGUSR1) (fun r => not_err r) (fun _ =>
       Need (Sigc (Tgkill pid tid SIGUSR1)) (fun r => (r : Z) =? 0) (fun _ => Met)))));
    (tgkill_run_001, Need (signal_op SIGUSR1) (fun r => not_err r) (fun _ => tgkill_sent)) ].

Lemma exact_sent_null : exact false false None (get_str result_string) string_null.
Proof.
  unfold get_str, string_null. cbn [trigger]. apply exact_call; intros r E.
  - apply bool_decide_eq_true in E. rewrite E. apply exact_ret.
  - apply bool_decide_eq_false in E. now apply fails_ret.
Qed.

Lemma exact_rt_run flags send sent :
  exact false false None (send ;; get_str result_string) (sent string_null) ->
  exact false false None (rt_run flags send) (rt_script flags sent).
Proof.
  intros H. unfold rt_run, rt_script, set_rt_sigaction_hundler, sigaction_set.
  apply (exact_zero false false None (Sigc (SigactionSet SIGUSR1 flags 0)) (fun r => r)).
  - intros v Hv. rewrite (proj2 (Z.eqb_neq _ _) Hv). now apply fails_ret.
  - exact H.
Qed.

Lemma exact_kill_self : exact false false None (kill_self ;; get_str result_string) (self_sent string_null).
Proof.
  unfold kill_self, self_sent, getpid, kill. cbn [bind trigger]. apply exact_any. intros pid. apply exact_any. intros r.
  apply exact_sysret_any, exact_sent_null.
Qed.

Lemma exact_thread_self : exact false false None (pthread_kill_self SIGUSR1 ;; get_str result_string) (thread_sent string_null).
Proof. unfold pthread_kill_self, thread_sent. cbn [bind trigger]. apply exact_any. intros r. apply exact_sent_null. Qed.

Lemma exact_tgkill pid tid (k : prog result) :
  exact false false None k Met ->
  exact false false None (r <- tgkill pid tid SIGUSR1 ;; tp_assert! (r =? 0, Some "tgkill failed") ;; k)
    (Need (Sigc (Tgkill pid tid SIGUSR1)) (fun r => (r : Z) =? 0) (fun _ => Met)).
Proof.
  intros H. apply (exact_zero false false None (Sigc (Tgkill pid tid SIGUSR1)) (fun r => r)).
  - intros v Hv. rewrite (proj2 (Z.eqb_neq _ _) Hv). now apply fails_ret.
  - exact H.
Qed.

Lemma exact_signal (k : prog result) s :
  exact false false None k s ->
  exact false false None (r <- signal SIGUSR1 ;; tp_assert! (negb (r =? -1), Some "signal(SIGUSR1, ..) failed") ;; k)
    (Need (signal_op SIGUSR1) (fun r => not_err r) (fun _ => s)).
Proof.
  intros H. apply (exact_not_err false false None (signal_op SIGUSR1) (fun r => r)); [now apply fails_ret|].
  intros v Hv. rewrite (not_err_not_neg1 _ Hv). exact H.
Qed.

Lemma exact_pause :
  exact false false None
    (signal SIGALRM ;; alarm 1 ;; status <- pause ;; e <- errno ;; printf "pause()=%d, errno=%d\n" [PZ status; PZ e] ;;
     tp_assert! (status =? -1, Some "pause call failed") ;; Ret None)
    (any (signal_op SIGALRM) (fun _ => any (Sigc (Alarm 1)) (fun _ => Need (Sigc Pause) (fun r => is_err r) (fun _ => Met)))).
Proof.
  apply (exact_ignored false None (signal_op SIGALRM) (fun r => r)). unfold alarm, pause. cbn [bind trigger].
  apply exact_any. intros _. apply exact_call; intros r E.
  - apply exact_sysret_any. rewrite E. apply exact_errno. intros e. apply exact_printf, exact_ret.
  - apply fails_syscall. unfold sysret. rewrite E. intros K w. cbn. rewrite (not_err_not_neg1 _ E). discriminate.
Qed.

Lemma exact_queueinfo :
  exact false false (None : result)
    (pid <- getpid ;; r <- (trigger (Sigc (RtSigqueueinfo pid SIGCHLD SI_QUEUE)) : prog Z) ;; syscall_ret (-1) r ;; Ret None)
    (any (Procs Getpid) (fun pid : Z => any (Sigc (RtSigqueueinfo pid SIGCHLD SI_QUEUE)) (fun _ => Met))).
Proof.
  unfold getpid. cbn [bind trigger]. apply exact_any. intros pid. apply exact_any. intros r. apply exact_sysret_any, exact_ret.
Qed.

Lemma silent_runs_exact K p s :
  silent K -> In (p, s) silent_runs -> forall w, fst (run K p w) = Done None <-> is_Some (meets K s (w_k w)).
Proof.
  intros HK Hin. unfold silent_runs in Hin. cbn [In] in Hin.
  repeat (destruct Hin as [[= <- <-]|Hin]; [apply exact_silent; [exact HK|]|]); [..|destruct Hin].
  1, 2: apply exact_rt_run, exact_kill_self.
  1, 2: apply exact_rt_run, exact_thread_self.
  - exact exact_pause.
  - exact exact_queueinfo.
  - unfold getpid, gettid. cbn [bind trigger]. apply exact_any. intros pid. apply exact_any. intros tid.
    apply exact_signal, exact_tgkill, exact_ret.
  - apply exact_signal. unfold raise_signal, getpid, gettid, tgkill_sent. cbn [bind trigger].
    apply exact_any. intros pid. apply exact_any. intros tid. apply exact_tgkill, exact_ret.
Qed.

(** A system that delivers nothing. *)
Definition silent_kernel : kernel := sigkernel (Some NeverDelivers).
