(* ===== verification/MiscSuites.v ===== *)
(** * Stack limits, signals to process groups and four short suites

    [mem_stack_limits], [kill], [getcpu], [get_cpu_id], [set_tid_address], [env] and [ipc].
    How large the frame of a function is and where its array lies in it is up to
    the compiler, hence a parameter; [tmp[1]], the loop variable inside the array, is a
    local variable (the bytes the loop stores are at multiples of the page size). *)
From S2P Require Import Prelude Process CLib Arch TestMck AddrSpace MemLarge Affinity Forks Ptrace TimeSuites ExecSuites SigSuites.
From Stdlib Require Import Ascii String.
#[local] Open Scope string_scope.
#[local] Open Scope Z_scope.

(** ** [mem_stack_limits/000.c] *)

Section StackLimits.
Context `{ArchConfig}.
(** The size of a frame and the offset of the array, by the size of the array; what a
    recursion does that the counters do not bound. *)
Context (frame slot : Z -> Z) (more : prog result).

Definition KiB : Z := 0x400.
Definition MiB : Z := 0x100000.
Definition GiB : Z := 0x40000000.

(** [ULONG_1KiB_COUNT] and the like, times [sizeof(unsigned long)]. *)
Definition sizeof_kib : Z := 0x80 * 8.
Definition sizeof_mib : Z := 0x20000 * 8.
Definition sizeof_gib : Z := 0x8000000 * 8.

Fixpoint stack_options (evs : list optev) (size : Z) : Z :=
  match evs with
  | [] => size
  | Opt c optarg :: evs' => stack_options evs' (if Ascii.eqb c "s" then cv_val (strtoul optarg 10) else size)
  | OptErr :: evs' => stack_options evs' size
  end.
Definition mem_stack_limits_setup (tc_num : Z) (tc_argv : list string) : prog Z :=
  Ret (stack_options (fst (getopt "s:" (tail tc_argv))) 0).

Record counts := Counts { gib_count : Z; mib_count : Z; kib_count : Z }.

(** [for (i = 0; i < gib; i++) tmp_size -= 0x40000000;] *)
Fixpoint subtract (n : nat) (tmp_size : Z) : Z :=
  match n with O => tmp_size | S n => subtract n (u64 (tmp_size - GiB)) end.
Definition value_to_unit (value : Z) : counts :=
  let gib := i32 (value / GiB) in
  let tmp_size := subtract (Z.to_nat gib) value in
  let mib := i32 (tmp_size / MiB) in
  let tmp_size := u64 (tmp_size - i32 (mib * MiB)) in
  Counts gib mib (i32 (tmp_size / KiB)).

(** The loop of the three functions, in at most [n] rounds. *)
Fixpoint touch_frame (n : nat) (tmp off size : Z) (k : prog result) : prog result :=
  if off <? size then
    match n with
    | O => more
    | S n => store (tmp + off) 0xFF ;; touch_frame n tmp (u64 (off + PAGE_SIZE)) size k
    end
  else k.

(** [gib_func], [mib_func] and [kib_func] up to the last call, with the stack pointer in
    the new frame; [k] gets [last_sp]. *)
Definition enter_frame (size sp : Z) (k : Z -> prog result) : prog result :=
  touch_frame (Z.to_nat (size / PAGE_SIZE + 1)) (sp + slot size) 0 size (k sp).

(** [stack_limit_func] called with the stack pointer [sp]; [k] goes on with [last_sp]. *)
Fixpoint stack_limit_func (n : nat) (sp last_sp : Z) (c : counts) (k : Z -> prog result) : prog result :=
  match n with
  | O => more
  | S n =>
      if negb (gib_count c =? 0) then
        enter_frame sizeof_gib (sp - frame sizeof_gib) (fun last_sp =>
          stack_limit_func n (sp - frame sizeof_gib) last_sp (Counts (i32 (gib_count c - 1)) (mib_count c) (kib_count c)) k)
      else if negb (mib_count c =? 0) then
        enter_frame sizeof_mib (sp - frame sizeof_mib) (fun last_sp =>
          stack_limit_func n (sp - frame sizeof_mib) last_sp (Counts (gib_count c) (i32 (mib_count c - 1)) (kib_count c)) k)
      else if negb (kib_count c =? 0) then
        enter_frame sizeof_kib (sp - frame sizeof_kib) (fun last_sp =>
          stack_limit_func n (sp - frame sizeof_kib) last_sp (Counts (gib_count c) (mib_count c) (i32 (kib_count c - 1))) k)
      else k last_sp
  end.

(** Calls until all counters are 0. *)
Definition depth (c : counts) : nat := S (Z.to_nat (gib_count c + mib_count c + kib_count c)).

Definition print_units (fmt : string) (first : list parg) (c : counts) : prog unit :=
  printf fmt (first ++ [PZ (gib_count c); PZ (mib_count c); PZ (kib_count c)])%list.

(** [first_sp] is the stack pointer of the run function. *)
Definition mem_stack_limits_run (first_sp : Z) (size : Z) : prog result :=
  tp_assert! (negb (size =? 0), Some "invalid parameter.(-s is zero)") ;;
  let c := value_to_unit size in
  print_units "call: %d GiB + %d MiB + %d KiB\n" [] c ;;
  stack_limit_func (depth c) first_sp 0 c (fun last_sp =>
    let used_stack := u64 (first_sp - last_sp) in
    print_units "used_stack size: %ld (%d GiB + %d MiB + %d KiB)\n" [PZ used_stack] (value_to_unit used_stack) ;;
    Ret None).
Definition mem_stack_limits0 (first_sp : Z) : test_case :=
  TestCase "mem_stack_limits" 0 Z mem_stack_limits_setup (run_const (fun _ => mem_stack_limits_run first_sp)) TEARDOWN_EMPTY.
End StackLimits.

(** ** [getcpu], [get_cpu_id], [set_tid_address], [env], [ipc] *)

Definition getcpu : prog (Z * (Z * Z)) :=
  r <- (trigger (Cpuc Getcpu) : prog (Z * (Z * Z))) ;; ret <- syscall_ret (-1) (fst r) ;; Ret (ret, snd r).
Definition getcpu_run_000 : prog result :=
  id <- sched_getcpu ;;
  let exp_cpu := u32 id in
  tp_assert! (0 <=? exp_cpu, Some "Why sched_getcpu failed?") ;;
  let* (stat, cpu_node) := getcpu in
  tp_assert! (stat =? 0, Some "getcpu error.") ;;
  let cpu := fst cpu_node in
  printf "exp_cpu = %d, getcpu()cpu = %d\n" [PZ exp_cpu; PZ cpu] ;;
  tp_assert! (cpu =? exp_cpu, Some "cpu# error.") ;;
  Ret None.
Definition getcpu0 := plain "getcpu" 0 getcpu_run_000.

Definition get_cpu_id_run_000 : prog result :=
  cpuid <- get_cpu_id ;;
  tp_assert! (negb (cpuid =? -1), Some "get wrong value.") ;;
  pid <- getpid ;;
  tid <- gettid ;;
  printf "[pid=%d, tid=%d] process running on cpu=%d\n" [PZ pid; PZ tid; PZ cpuid] ;;
  system "[[ -f /proc/mckernel ]] && echo running on mckernel" ;;
  Ret None.
Definition get_cpu_id0 := plain "get_cpu_id" 0 get_cpu_id_run_000.

Definition set_tid_address_run_000 : prog result :=
  pid <- getpid ;;
  r <- (trigger (Misc SetTidAddress) : prog Z) ;;
  ret <- syscall_ret (-1) r ;;
  tp_assert! (ret =? pid, Some "set_tid_address() failed.\n") ;;
  Ret None.
Definition set_tid_address0 := plain "set_tid_address" 0 set_tid_address_run_000.

(** The environment of the process. *)
Fixpoint env_loop (environ : list string) : prog result :=
  match environ with
  | [] => Ret None
  | e :: environ' => printf "%s\n" [PS e] ;; env_loop environ'
  end.
Definition env0 (environ : list string) := plain "env" 0 (env_loop environ).

Definition IPC_EXCL : Z := 1024.
Definition S_IRUSR : Z := 256.
Definition S_IWUSR : Z := 128.
Definition TEST_SHM_FLAG : Z := Z.lor (Z.lor (Z.lor IPC_CREAT IPC_EXCL) S_IRUSR) S_IWUSR.
Definition SHM_RND : Z := 8192.

Definition getcwd : prog (option string) := (trigger (Filec Getcwd) : prog (option string)).
Definition ftok (path : option string) (id : Z) : prog Z := (trigger (Filec (Ftok path id)) : prog Z).

Section Ipc.
Context `{ArchConfig}.
(** One page. *)
Definition SHMLBA : Z := PAGE_SIZE.
Definition ipc_run (tc_num : Z) : prog result :=
  curdir <- getcwd ;;
  printf "curdir = %s\n" [PS (default "(null)" curdir)] ;;
  shm_key <- ftok curdir tc_num ;;
  tp_assert! (negb (shm_key =? -1), Some "ftok FAILED") ;;
  printf "ftok => shm_key = %d\n" [PZ shm_key] ;;
  shm_id <- shmget shm_key SHMLBA TEST_SHM_FLAG ;;
  tp_assert! (negb (shm_id =? -1), Some "shmget FAILED") ;;
  printf "shmget => shm_id = %d\n" [PZ shm_id] ;;
  shm_addr <- shmat shm_id NULL SHM_RND ;;
  tp_assert! (negb (shm_addr =? MAP_FAILED), Some "shmat FAILED") ;;
  printf "shmat => shm_addr = %p\n" [PZ shm_addr] ;;
  result <- shmdt shm_addr ;;
  tp_assert! (negb (result =? -1), Some "shmdt FAILED") ;;
  printf "shmdt => result = %d\n" [PZ result] ;;
  result <- shmctl_rmid shm_id ;;
  tp_assert! (negb (result =? -1), Some "shmctl FAILED") ;;
  printf "shmctl => result = %d\n" [PZ result] ;;
  Ret None.
Definition ipc0 := plain "ipc" 0 (ipc_run 0).
End Ipc.

(** ** [kill] *)

Section Kill.
(** Bound of the loop that waits for a signal, and what follows it. *)
Context (rounds : nat) (more : prog result).

Fixpoint kill_options (evs : list optev) (n : Z) : Z :=
  match evs with
  | [] => n
  | Opt c optarg :: evs' => kill_options evs' (if Ascii.eqb c "p" then atoi optarg else n)
  | OptErr :: evs' => kill_options evs' n
  end.
(** [args.proc_num]. *)
Definition kill_parse_args (argv : list string) : prog Z := Ret (kill_options (fst (getopt "p:" (tail argv))) 0).

Definition kill_sig_handler (d : delivery) : prog unit :=
  pid <- getpid ;;
  pgid <- getpgid pid ;;
  printf "[pid:%d, pgid:%d] Get signal.\n" [PZ pid; PZ pgid] ;;
  set_var sig_count 1.

Definition kill_child_fn : prog result :=
  r <- signal SIGUSR1 ;;
  if r =? -1 then printf "signal(SIGUSR1, ..) failed" [] ;; Exit 1
  else wait_var more rounds sig_count (Exit 0).

(** The loop that makes the children, [n] more of them from [cnt] on; [k] goes on with
    [cnt] and [fork_error_flag].  [array] is the address of [child_pids]. *)
Fixpoint make_children (n : nat) (array cnt : Z) (k : Z -> Z -> prog result) : prog result :=
  match n with
  | O => k cnt 0
  | S n =>
      child <- fork ;;
      if child =? -1 then printf "[warning] fork() failed.\n" [] ;; k cnt 1
      else if child =? 0 then kill_child_fn
      else
        pgid <- getpgid child ;;
        printf "Generate child process pid:%d, pgid:%d\n" [PZ child; PZ pgid] ;;
        store_int (array + 4 * cnt) child ;;
        make_children n array (cnt + 1) k
  end.

(** [waitpid] for every entry of the array, of which there may be more than
    children. *)
Fixpoint wait_children (n : nat) (array cnt : Z) : prog result :=
  match n with
  | O => Ret None
  | S n => pid <- load_int (array + 4 * cnt) ;; waitpid pid 0 ;; wait_children n array (cnt + 1)
  end.

(** Test 0 before the loop, the three tests after it. *)
Definition with_children (proc_num : Z) (before : prog unit) (k : Z -> Z -> prog result) : prog result :=
  array <- malloc (u64 (4 * proc_num)) ;;
  before ;;
  make_children (Z.to_nat proc_num) array 0 (fun cnt failed =>
    if cnt <=? 0 then free array ;; tp_assert! (false, Some "child process nothing.") ;; Ret None
    else k array failed).
Definition send_usr1 (array proc_num target : Z) (text : string) (args : list parg) : prog result :=
  printf text args ;;
  kill target SIGUSR1 ;;
  wait_children (Z.to_nat proc_num) array 0.
Definition handle_usr1 (array : Z) (k : prog result) : prog result :=
  r <- signal SIGUSR1 ;;
  if r =? -1 then
    free array ;; e <- errno ;; printf "signal(SIGUSR1, ..) failed (errno=%d)\n" [PZ e] ;; Exit 1
  else
    printf "wait for a few sec...\n" [] ;; usleep 100000 ;; k.

Definition need_procs (proc_num : Z) (k : prog result) : prog result :=
  tp_assert! (0 <? proc_num, Some "mandatory parameter '-p <num_of_child_procs>'") ;; k.

(** [kill/000.c], [kill/001.c] without their handler. *)
Definition kill_main_000 (proc_num : Z) : prog result :=
  need_procs proc_num (
    with_children proc_num (setpgid 0 0 ;; Ret tt) (fun array _ =>
      handle_usr1 array (send_usr1 array proc_num 0 "send signal to same pgids\n" []))).
Definition NR_get_cpu_id : Z := 700.
Definition kill_main_001 (proc_num : Z) : prog result :=
  need_procs proc_num (
    r <- (trigger (Misc (Syscall NR_get_cpu_id)) : prog Z) ;;
    id <- syscall_ret (-1) r ;;
    tp_assert! (negb (id =? -1), Some "Don't run this TP on HostLinux!!") ;;
    with_children proc_num (Ret tt) (fun array _ =>
      handle_usr1 array (send_usr1 array proc_num (-1) "Send to all processes that have permission to send a signal.\n" []))).

(** [kill/002.c]: the children get a process group of their own. *)
Fixpoint group_children (n : nat) (array cnt child_pgid : Z) (k : prog result) : prog result :=
  match n with
  | O => k
  | S n =>
      child <- load_int (array + 4 * cnt) ;;
      pgid <- getpgid child ;;
      printf "Set child process(pid:%d) pgid:%d => %d\n" [PZ child; PZ pgid; PZ child_pgid] ;;
      r <- setpgid child child_pgid ;;
      (if negb (r =? 0) then printf "<WARNING> Failed to set the PGID to child process %d.\n" [PZ child] else Ret tt) ;;
      group_children n array (cnt + 1) child_pgid k
  end.
Definition kill_main_002 (proc_num : Z) : prog result :=
  need_procs proc_num (
    with_children proc_num (Ret tt) (fun array failed =>
      child_pgid <- load_int array ;;
      printf "wait for a few sec...\n" [] ;;
      usleep 100000 ;;
      group_children (Z.to_nat (proc_num - failed)) array 0 child_pgid (
        send_usr1 array proc_num (- child_pgid) "send signal to target pgid(=%d)s\n" [PZ child_pgid]))).

Definition kill_run_000 (proc_num : Z) : prog result := interruptible kill_sig_handler (kill_main_000 proc_num).
Definition kill_run_001 (proc_num : Z) : prog result := interruptible kill_sig_handler (kill_main_001 proc_num).
Definition kill_run_002 (proc_num : Z) : prog result := interruptible kill_sig_handler (kill_main_002 proc_num).
Definition kill_case (n : Z) (run : Z -> prog result) : test_case :=
  TestCase "kill" n Z (fun _ argv => kill_parse_args argv) (run_const (fun _ => run)) TEARDOWN_EMPTY.
Definition kill0 := kill_case 0 kill_run_000.
Definition kill1 := kill_case 1 kill_run_001.
Definition kill2 := kill_case 2 kill_run_002.
End Kill.
