(* ===== verification/MiscThms.v ===== *)
(** * What the suites of [MiscSuites] do and show

    [mem_stack_limits]: how the size is split, how deep the functions call each other
    and how much stack that takes.  The other suites: the answers a pass is evidence
    of. *)
From S2P Require Import Prelude Process CLib Arch TestMck AddrSpace Exact MemLarge Affinity SmallSuites SmallThms Forks Ptrace TimeSuites TimeThms ExecSuites ExecThms SigSuites SigThms MiscSuites.
From Stdlib Require Import Ascii String.
#[local] Open Scope string_scope.
#[local] Open Scope Z_scope.

(** ** [mem_stack_limits] *)

Lemma subtract_exact n x : Z.of_nat n * GiB <= x < 2 ^ 64 -> subtract n x = x - Z.of_nat n * GiB.
Proof.
  revert x. induction n as [|n IH]; intros x Hx; cbn [subtract]; [lia|].
  unfold u64. unfold GiB in *. rewrite Z.mod_small by lia. rewrite IH by lia. lia.
Qed.

(** Below 2 EiB, where the number of gibibytes is an [int], the three counters are the digits
    of the size. *)
Lemma value_to_unit_exact v : 0 <= v < 2 ^ 61 ->
  value_to_unit v = Counts (v / GiB) (v / MiB mod 1024) (v / KiB mod 1024).
Proof.
  intros Hv. unfold value_to_unit.
  assert (0 <= v / GiB < 2 ^ 31) as Hg by (unfold GiB; split; [apply Z.div_pos|apply Z.div_lt_upper_bound]; lia).
  assert (v - v / GiB * GiB = v mod GiB) as Er by (rewrite Z.mod_eq by (unfold GiB; lia); lia).
  pose proof (Z.mod_pos_bound v GiB ltac:(unfold GiB; lia)) as Br.
  rewrite i32_small by lia. rewrite subtract_exact by (rewrite Z2Nat.id by lia; lia). rewrite Z2Nat.id, Er by lia.
  assert (v mod GiB / MiB = v / MiB mod 1024) as -> by (unfold GiB, MiB; Z.to_euclidean_division_equations; lia).
  pose proof (Z.mod_pos_bound (v / MiB) 1024 ltac:(lia)) as Hm. rewrite (i32_small (v / MiB mod 1024)) by lia.
  rewrite (i32_small (_ * MiB)) by (unfold MiB in *; lia).
  assert (v mod GiB - v / MiB mod 1024 * MiB = v mod MiB) as -> by (unfold GiB, MiB; Z.to_euclidean_division_equations; lia).
  rewrite u64_small by (unfold MiB; pose proof (Z.mod_pos_bound v 1048576 ltac:(lia)); lia).
  assert (v mod MiB / KiB = v / KiB mod 1024) as -> by (unfold KiB, MiB; Z.to_euclidean_division_equations; lia).
  pose proof (Z.mod_pos_bound (v / KiB) 1024 ltac:(lia)). rewrite i32_small by lia. reflexivity.
Qed.

(** The counters make up the size but for less than a kibibyte. *)
Lemma counts_sum v : 0 <= v -> v / GiB * GiB + v / MiB mod 1024 * MiB + v / KiB mod 1024 * KiB = v - v mod KiB.
Proof. intros Hv. unfold GiB, MiB, KiB. Z.to_euclidean_division_equations. lia. Qed.

Section StackLimits.
Context `{ArchConfig} (frame slot : Z -> Z) (more : prog result) (K : kernel).

(** Every store is carried out. *)
Definition writable : Prop := forall a b s, snd (kstep K (Store a b) s) = inl tt.
Context (HK : writable).

Lemma touch_frame_runs n : forall tmp off size k (w : world K),
  0 <= off -> 0 <= size <= 2 ^ 32 -> size - off <= Z.of_nat n * PAGE_SIZE ->
  exists s, run K (touch_frame more n tmp off size k) w = run K k (World (w_proc w) s).
Proof.
  assert (0 < PAGE_SIZE <= 65536) as HP by (destruct PAGE_SIZE_cases as [-> | ->]; lia).
  induction n as [|n IH]; intros tmp off size k w H0 H1 Hn; cbn [touch_frame]; destruct (Z.ltb_spec off size);
    try (exists (w_k w); now destruct w); [lia|].
  unfold store. cbn [bind trigger run]. pose proof (HK (tmp + off) 0xFF (w_k w)) as E.
  destruct (kstep K (Store (tmp + off) 0xFF) (w_k w)) as [s r]. cbn [snd] in E. subst r. cbn [or_raise bind run].
  rewrite u64_small by lia. apply (IH _ (off + PAGE_SIZE) size k (World (w_proc w) s)); lia.
Qed.

Lemma enter_frame_runs size sp k (w : world K) : 0 <= size <= 2 ^ 32 ->
  exists s, run K (enter_frame slot more size sp k) w = run K (k sp) (World (w_proc w) s).
Proof.
  intros Hs. unfold enter_frame. apply touch_frame_runs; [lia|exact Hs|]. pose proof PAGE_SIZE_pos as HP.
  rewrite Z2Nat.id by (pose proof (Z.div_pos size PAGE_SIZE); lia). pose proof (Z.mul_succ_div_gt size PAGE_SIZE HP). lia.
Qed.

(** The stack the recursion takes. *)
Definition frames_of (c : counts) : Z :=
  gib_count c * frame sizeof_gib + mib_count c * frame sizeof_mib + kib_count c * frame sizeof_kib.
Definition counts_ok (c : counts) : Prop := 0 <= gib_count c < 2 ^ 31 /\ 0 <= mib_count c < 2 ^ 31 /\ 0 <= kib_count c < 2 ^ 31.

(** With its counters as fuel the recursion ends; [last_sp] is the stack pointer in the
    deepest frame, or as before if there is none. *)
Lemma stack_limit_runs n : forall sp last_sp c k (w : world K), counts_ok c ->
  Z.of_nat n = gib_count c + mib_count c + kib_count c ->
  exists s, run K (stack_limit_func frame slot more (S n) sp last_sp c k) w =
            run K (k (if (n =? 0)%nat then last_sp else sp - frames_of c)) (World (w_proc w) s).
Proof.
  induction n as [|n IH]; intros sp last_sp [g m b] k w (Hg & Hm & Hb) Hn; cbn [gib_count mib_count kib_count] in *.
  - assert (g = 0 /\ m = 0 /\ b = 0) as (-> & -> & ->) by lia. exists (w_k w). now destruct w.
  - remember (S n) as n'. cbn [stack_limit_func gib_count mib_count kib_count].
    destruct (Z.eqb_spec g 0) as [->|Ng]; [destruct (Z.eqb_spec m 0) as [->|Nm]; [destruct (Z.eqb_spec b 0) as [->|Nb]; [lia|]|]|];
      cbn [negb].
    all: match goal with |- context [enter_frame slot more ?size ?sp' ?k'] =>
           destruct (enter_frame_runs size sp' k' w ltac:(unfold sizeof_kib, sizeof_mib, sizeof_gib; lia)) as [s ->] end.
    all: rewrite i32_small by lia.
    all: match goal with |- context [stack_limit_func frame slot more ?f ?sp' ?l' ?c' ?k'] =>
           destruct (IH sp' l' c' k' (World (w_proc w) s)) as [s' ->] end; [unfold counts_ok; cbn; lia..|].
    all: exists s'; subst n'; cbn [w_proc]; f_equal; f_equal; unfold frames_of; cbn [gib_count mib_count kib_count Nat.eqb].
    all: destruct n as [|n]; cbn [Nat.eqb]; [|ring].
    1: assert (b = 1) as -> by lia. 2: assert (m = 1 /\ b = 0) as [-> ->] by lia. 3: assert (g = 1 /\ m = 0 /\ b = 0) as (-> & -> & ->) by lia.
    all: ring.
Qed.
End StackLimits.

Definition stack_size (argv : list string) : Z := stack_options (fst (getopt "s:" (tail argv))) 0.

(** The two lines of output. *)
Definition call_line (c : counts) : string * list parg :=
  ("call: %d GiB + %d MiB + %d KiB\n", [PZ (gib_count c); PZ (mib_count c); PZ (kib_count c)]).
Definition used_line (used : Z) : string * list parg :=
  let c := value_to_unit used in
  ("used_stack size: %ld (%d GiB + %d MiB + %d KiB)\n", [PZ used; PZ (gib_count c); PZ (mib_count c); PZ (kib_count c)]).

Lemma stack_run `{ArchConfig} frame slot more first_sp size K (w : world K) : writable K -> 0 < size < 2 ^ 61 ->
  exists s,
    run K (mem_stack_limits_run frame slot more first_sp size) w =
    (Done None,
     World (with_line (used_line (u64 (if size <? KiB then first_sp else frames_of frame (value_to_unit size))))
              (with_line (call_line (value_to_unit size)) (w_proc w))) s).
Proof.
  intros HK Hs. unfold mem_stack_limits_run. rewrite (proj2 (Z.eqb_neq size 0)) by lia.
  cbn [negb tp_assert print_units printf bind run app]. rewrite value_to_unit_exact by lia.
  assert (counts_ok (Counts (size / GiB) (size / MiB mod 1024) (size / KiB mod 1024))) as Hc.
  { pose proof (Z.mod_pos_bound (size / MiB) 1024 ltac:(lia)). pose proof (Z.mod_pos_bound (size / KiB) 1024 ltac:(lia)).
    unfold counts_ok; cbn [gib_count mib_count kib_count].
    assert (0 <= size / GiB < 2 ^ 31) by (unfold GiB; split; [apply Z.div_pos|apply Z.div_lt_upper_bound]; lia). lia. }
  set (c := Counts _ _ _) in *. unfold depth.
  match goal with |- context [run K (stack_limit_func _ _ _ _ ?sp ?l c ?k) ?w'] =>
    destruct (stack_limit_runs frame slot more K HK (Z.to_nat (gib_count c + mib_count c + kib_count c)) sp l c k w' Hc) as [s ->] end.
  { unfold counts_ok in Hc. rewrite Z2Nat.id; lia. }
  exists s. cbn [bind printf run print_units w_proc w_k app fst snd]. do 3 f_equal.
  assert ((Z.to_nat (gib_count c + mib_count c + kib_count c) =? 0)%nat = (size <? KiB)) as ->.
  { pose proof (counts_sum size ltac:(lia)) as Es. pose proof (Z.mod_pos_bound size KiB ltac:(unfold KiB; lia)) as Bs.
    change (gib_count c * GiB + mib_count c * MiB + kib_count c * KiB = size - size mod KiB) in Es. unfold counts_ok in Hc.
    unfold GiB, MiB, KiB in *. destruct (Nat.eqb_spec (Z.to_nat (gib_count c + mib_count c + kib_count c)) 0), (Z.ltb_spec size 1024); try reflexivity; lia. }
  unfold used_line, print_units. destruct (size <? KiB); repeat f_equal; lia.
Qed.



(** ** Scripts of the other suites *)

Definition raw (r : Z) : Z := if is_err r then -1 else r.
Definition getcpu_script : script :=
  any (Cpuc SchedGetcpu) (fun id : Z => Need (Cpuc Getcpu) (fun r => (fst r =? 0) && (fst (snd r) =? u32 (raw id))) (fun _ => Met)).
Definition get_cpu_id_script : script :=
  Need (Cpuc SchedGetcpu) (fun id => not_err id) (fun _ => any (Procs Getpid) (fun _ => any Gettid (fun _ =>
    any (Execc (System "[[ -f /proc/mckernel ]] && echo running on mckernel")) (fun _ => Met)))).
Definition set_tid_address_script : script :=
  any (Procs Getpid) (fun pid : Z => Need (Misc SetTidAddress) (fun r => raw r =? pid) (fun _ => Met)).
Definition ipc_script `{ArchConfig} : script :=
  any (Filec Getcwd) (fun cwd : option string => Need (Filec (Ftok cwd 0)) (fun key => negb ((key : Z) =? -1)) (fun key : Z =>
    Need (Shmget key SHMLBA TEST_SHM_FLAG) (fun id => not_err id) (fun id : Z => Need (Shmat id NULL SHM_RND) got (fun addr : Z =>
    succeeds (Shmdt addr) (fun r => r) (succeeds (Shmctl id IPC_RMID) (fun r => r) Met))))).

Lemma exact_getcpu : exact true false None getcpu_run_000 getcpu_script.
Proof.
  apply exact_pre. unfold getcpu_run_000, getcpu_script, sched_getcpu, getcpu. cbn [bind trigger]. apply exact_any. intros id.
  apply exact_sysret_any. change (if is_err id then -1 else id) with (raw id). set (e := u32 (raw id)).
  assert (0 <= e) as He by (apply Z.mod_pos_bound; lia). rewrite (proj2 (Z.leb_le 0 e) He). cbn [tp_assert].
  apply (exact_zero_fill false false None (Cpuc Getcpu) (fun r => fst r) (fun r => snd r)
    (fun '(stat, cpu_node) => tp_assert (stat =? 0) (Some "getcpu error.")
       (printf "exp_cpu = %d, getcpu()cpu = %d\n" [PZ e; PZ (fst cpu_node)] ;; tp_assert (fst cpu_node =? e) (Some "cpu# error.") (Ret None)))).
  - intros v x Hv. rewrite (proj2 (Z.eqb_neq _ _) Hv). now apply fails_ret.
  - intros r Hr. cbn [Z.eqb tp_assert]. rewrite Hr. apply fails_bind. intros _. now apply fails_ret.
  - intros r Hr. cbn [Z.eqb tp_assert]. apply exact_printf. rewrite Hr. apply exact_ret.
Qed.

Lemma exact_get_cpu_id : exact true false None get_cpu_id_run_000 get_cpu_id_script.
Proof.
  apply exact_pre. unfold get_cpu_id_run_000, get_cpu_id_script, get_cpu_id. apply exact_assoc.
  apply (exact_ok false false None (Cpuc SchedGetcpu) (fun r => r)).
  - intros K w. discriminate.
  - intros r Hr. apply exact_assoc. apply (exact_quiet false false None (if (r : Z) <? 0 then printf "Why sched_getcpu failed?\n" [] else Ret tt)).
    + destruct (_ <? _); [apply exact_print|apply exact_ret].
    + cbn [bind]. rewrite (not_err_neg1 _ Hr). cbn [negb tp_assert]. unfold getpid, gettid. cbn [bind trigger].
      apply exact_any. intros pid. apply exact_any. intros tid. apply exact_printf.
      apply (exact_ignored false None (Execc (System _)) (fun r => r)), exact_ret.
Qed.

Lemma exact_set_tid_address : exact true false None set_tid_address_run_000 set_tid_address_script.
Proof.
  apply exact_pre. unfold set_tid_address_run_000, set_tid_address_script, getpid. cbn [bind trigger]. apply exact_any. intros pid.
  apply exact_call; intros r E.
  - apply exact_sysret_any. change (if is_err r then -1 else r) with (raw r). rewrite E. apply exact_ret.
  - apply fails_syscall. change (sysret r) with (raw r). rewrite E. now apply fails_ret.
Qed.

Lemma exact_env environ : exact true false None (env_loop environ) Met.
Proof. apply exact_pre. induction environ as [|e environ IH]; cbn [env_loop]; [apply exact_ret|apply exact_printf, IH]. Qed.

Lemma exact_ipc `{ArchConfig} : exact true false None (ipc_run 0) ipc_script.
Proof.
  apply exact_pre. unfold ipc_run, ipc_script, getcwd, ftok. cbn [bind trigger]. apply exact_any. intros cwd. cbv beta.
  apply exact_printf. cbn [bind trigger]. apply exact_call; intros key Ek; [|rewrite Ek; now apply fails_ret].
  rewrite Ek. cbn [tp_assert]. apply exact_printf.
  apply (exact_ok false false None (Shmget key SHMLBA TEST_SHM_FLAG) (fun r => r)); [now apply fails_ret|]. intros id Hi.
  rewrite (not_err_neg1 _ Hi). cbn [negb tp_assert]. apply exact_printf.
  apply (exact_got false false None (Shmat id NULL SHM_RND) (fun r => r)); [now apply fails_ret|]. intros addr Ha.
  rewrite (proj2 (Z.eqb_neq _ _) Ha). cbn [negb tp_assert]. apply exact_printf.
  apply (exact_ok false false None (Shmdt addr) (fun r => r)); [now apply fails_ret|]. intros r1 H1.
  rewrite (not_err_neg1 _ H1). cbn [negb tp_assert]. apply exact_printf.
  apply (exact_ok false false None (Shmctl id IPC_RMID) (fun r => r)); [now apply fails_ret|]. intros r2 H2.
  rewrite (not_err_neg1 _ H2). cbn [negb tp_assert]. apply exact_printf, exact_ret.
Qed.

(** ** The suites of single calls together *)

Lemma verdicts_exact_app cases scripts cases' scripts' : List.length cases = List.length scripts ->
  verdicts_exact cases scripts -> verdicts_exact cases' scripts' -> verdicts_exact (cases ++ cases') (scripts ++ scripts').
Proof.
  intros El H1 H2 K w tc o argv He Hin. rewrite zip_with_app in Hin by exact El. apply elem_of_app in Hin as [Hin|Hin]; [now apply H1|now apply H2].
Qed.

Definition misc_cases `{ArchConfig} (environ : list string) : list test_case :=
  [getcpu0; get_cpu_id0; set_tid_address0; env0 environ; ipc0].
Definition misc_scripts `{ArchConfig} : list (option script) :=
  map Some [getcpu_script; get_cpu_id_script; set_tid_address_script; Met; ipc_script].

Lemma misc_suites_exact `{ArchConfig} environ : verdicts_exact (misc_cases environ) misc_scripts.
Proof.
  apply cases_exact. intros argv. unfold misc_cases, misc_scripts. cbn [map]. repeat constructor; apply plain_case; cbn [returns_NULL].
  - exact exact_getcpu.
  - exact exact_get_cpu_id.
  - exact exact_set_tid_address.
  - apply exact_env.
  - exact exact_ipc.
Qed.

(** C31.  What a pass of 31 tests is evidence of, on any system: each returns [NULL] exactly if
    the answers meet its script, and then leaves the system after its last call.  The tests of
    [page_fault_forwording], [enosys], [gettid] 0, [nfo] 0 and 1: memory that can be written
    and read back up to a zero byte, pages that can be read before they were written, [ENOSYS]
    from every call of the list.  Those of [clock_getres], [clock_gettime], [gettimeofday],
    [times], [getitimer], [nanosleep] and [getrusage]: the clocks of the table answer or are refused
    as listed, invalid arguments are refused with the error the test names, unarmed timers read zero.
    [getcpu], [get_cpu_id], [set_tid_address], [env] and [ipc]: [getcpu] answers 0 and the processor
    [sched_getcpu] answered (all ones if it failed), [set_tid_address] the number of the process, and
    every call on the shared memory succeeds. *)
Theorem call_suites_exact `{ArchConfig} bound more strerror environ : fails None more ->
  verdicts_exact (small_cases bound more ++ time_cases strerror ++ misc_cases environ)
                 (small_scripts bound ++ time_scripts ++ misc_scripts).
Proof.
  intros Hm. apply verdicts_exact_app; [reflexivity|now apply small_suites_exact|].
  apply verdicts_exact_app; [reflexivity|apply time_suites_exact|apply misc_suites_exact].
Qed.

Lemma call_suites_exact_witness :
  fst (run plain_kernel (run_test_case gettid0 []) plain_world) = Done None /\
  fst (run plain_kernel (run_test_case set_tid_address0 []) plain_world) <> Done None.
Proof.
  pose proof (@call_suites_exact config_4K 100 (Exit 1) (fun _ => "") [] (fails_exit None 1) plain_kernel plain_world) as X. split.
  - specialize (X gettid0 (Some gettid_script) [] eq_refl). cbv iota in X.
    replace (meets plain_kernel gettid_script (w_k plain_world)) with (Some tt) in X by (vm_compute; reflexivity).
    refine (proj1 (X _)). apply list_elem_of_lookup. now exists 6%nat.
  - specialize (X set_tid_address0 (Some set_tid_address_script) [] eq_refl). cbv iota in X.
    replace (meets plain_kernel set_tid_address_script (w_k plain_world)) with (@None unit) in X by (vm_compute; reflexivity).
    apply X. apply list_elem_of_lookup. now exists 28%nat.
Defined.

(** ** [kill] on systems on which no signal arrives *)

Definition int_read (a : Z) (s : Z -> script) : script :=
  Need (Execc (LoadInt a)) unharmed (fun r => match r with inl v => s v | inr _ => Met end).

(** A [fork] answers a child; from the second on it may fail, which ends the loop. *)
Fixpoint children_script (n : nat) (array cnt : Z) (s : Z -> script) : script :=
  match n with
  | O => s 0
  | S n =>
      Need (Procs Fork) (fun r => negb ((r : Z) =? 0) && (not_err r || (0 <? cnt))) (fun r : Z =>
        if is_err r then s 1
        else any (Procs (Getpgid r)) (fun _ => int_stores (array + 4 * cnt) r (children_script n array (cnt + 1) s)))
  end.
Fixpoint wait_script (n : nat) (array cnt : Z) : script :=
  match n with
  | O => Met
  | S n => int_read (array + 4 * cnt) (fun pid => any (Procs (Wait4 pid 0)) (fun _ => wait_script n array (cnt + 1)))
  end.
Fixpoint group_script (n : nat) (array cnt child_pgid : Z) (s : script) : script :=
  match n with
  | O => s
  | S n =>
      int_read (array + 4 * cnt) (fun child => any (Procs (Getpgid child)) (fun _ =>
        any (Procs (Setpgid child child_pgid)) (fun _ => group_script n array (cnt + 1) child_pgid s)))
  end.
Definition sent_script (proc_num array target : Z) : script := any (Kill target SIGUSR1) (fun _ => wait_script (Z.to_nat proc_num) array 0).
Definition handled_script (s : script) : script :=
  Need (signal_op SIGUSR1) (fun r => not_err r) (fun _ => any (Procs (Usleep 100000)) (fun _ => s)).

Definition kill_script_000 (proc_num : Z) : script :=
  any (Malloc (u64 (4 * proc_num))) (fun r : Z => any (Procs (Setpgid 0 0)) (fun _ =>
    children_script (Z.to_nat proc_num) r 0 (fun _ => handled_script (sent_script proc_num r 0)))).
Definition kill_script_001 (proc_num : Z) : script :=
  succeeds (Misc (Syscall NR_get_cpu_id)) (fun r => r) (any (Malloc (u64 (4 * proc_num))) (fun r : Z =>
    children_script (Z.to_nat proc_num) r 0 (fun _ => handled_script (sent_script proc_num r (-1))))).
Definition kill_script_002 (proc_num : Z) : script :=
  any (Malloc (u64 (4 * proc_num))) (fun r : Z =>
    children_script (Z.to_nat proc_num) r 0 (fun failed =>
      int_read r (fun child_pgid => any (Procs (Usleep 100000)) (fun _ =>
        group_script (Z.to_nat (proc_num - failed)) r 0 child_pgid (sent_script proc_num r (- child_pgid)))))).

Lemma exact_malloc_any size (k : Z -> prog result) s :
  (forall r, exact false false None (k r) (s r)) -> exact false false None (x <- malloc size ;; k x) (any (Malloc size) (fun r : Z => s r)).
Proof.
  intros Hk. unfold malloc. apply exact_assoc. cbn [bind trigger]. apply exact_any. intros r.
  destruct (Z.eqb_spec r NULL) as [->|]; [|apply Hk]. intros K w _. cbn. apply (Hk NULL K (World _ (w_k w))). discriminate.
Qed.

Lemma exact_int_read a (k : Z -> prog result) s :
  (forall v, exact false false None (k v) (s v)) -> exact false false None (v <- load_int a ;; k v) (int_read a s).
Proof.
  intros Hk. unfold load_int, int_read. cbn [bind trigger]. apply exact_call; intros [v|n] E; try discriminate; [apply Hk|]. cbn. apply fails_raise.
Qed.

Lemma exact_wait_children n array : forall cnt, exact false false None (wait_children n array cnt) (wait_script n array cnt).
Proof.
  induction n as [|n IH]; intros cnt; cbn [wait_children wait_script]; [apply exact_ret|].
  apply exact_int_read. intros pid. unfold waitpid, wait4. apply exact_assoc. cbn [bind trigger]. apply exact_any. intros r. apply exact_assoc.
  apply exact_sysret_any. cbn [bind]. apply IH.
Qed.

Lemma exact_sent proc_num array target text args :
  exact false false None (send_usr1 array proc_num target text args) (sent_script proc_num array target).
Proof.
  apply exact_printf. apply (exact_ignored false None (Kill target SIGUSR1) (fun r => r)), exact_wait_children.
Qed.

Lemma exact_handled array (k : prog result) s : exact false false None k s -> exact false false None (handle_usr1 array k) (handled_script s).
Proof.
  intros Hk. unfold handle_usr1, handled_script, signal, sigaction_set.
  apply (exact_not_err false false None (signal_op SIGUSR1) (fun r => r)).
  - cbn [Z.eqb Pos.eqb]. repeat (apply fails_bind; intros). apply fails_exit.
  - intros v Hv. rewrite (not_err_not_neg1 _ Hv). apply exact_printf.
    apply (exact_ignored false None (Procs (Usleep 100000)) (fun r => r)), Hk.
Qed.

Section Kill.
Context (rounds : nat) (more : prog result) (Hmore : fails None more).

Lemma child_fails : fails None (kill_child_fn rounds more).
Proof.
  unfold kill_child_fn. apply fails_bind. intros r. destruct (r =? -1); [apply fails_bind; intros; apply fails_exit|].
  induction rounds as [|n IH]; cbn [wait_var]; [exact Hmore|]. apply fails_bind. intros v. destruct (v =? 0); [exact IH|apply fails_exit].
Qed.

Lemma exact_make_children n array k s : fails None (k 0 1) -> forall cnt, 0 <= cnt ->
  (forall c, 0 < c -> exact false false None (k c 0) (s 0) /\ exact false false None (k c 1) (s 1)) ->
  (0 < cnt \/ (0 < n)%nat) -> exact false false None (make_children rounds more n array cnt k) (children_script n array cnt s).
Proof.
  intros Hf. induction n as [|n IH]; intros cnt Hc Hk Hn; cbn [make_children children_script]; [apply Hk; lia|].
  unfold fork. apply exact_assoc. cbn [bind trigger]. apply exact_call; intros r E.
  - apply exact_sysret_any. apply andb_prop in E as [E0 E1]. destruct (is_err r) eqn:En.
    + cbn [Z.eqb Pos.eqb]. unfold not_err in E1. rewrite En in E1. cbn [negb orb] in E1. apply Z.ltb_lt in E1. apply exact_printf. now apply Hk.
    + rewrite (not_err_not_neg1 _ En). apply negb_true_iff in E0. rewrite E0. unfold getpgid. apply exact_assoc. cbn [bind trigger].
      apply exact_any. intros g. apply exact_sysret_any, exact_printf, exact_int_stores. apply IH; [lia|exact Hk|lia].
  - apply fails_syscall. unfold sysret, not_err in *. destruct (is_err r) eqn:En; cbn [negb orb] in E.
    + cbn [Z.eqb Pos.eqb]. assert (r <> 0) as Hr by (intros ->; discriminate En). rewrite (proj2 (Z.eqb_neq _ _) Hr) in E. cbn [negb andb] in E.
      apply Z.ltb_ge in E. assert (cnt = 0) as -> by lia. now apply fails_bind.
    + rewrite (not_err_not_neg1 _ En). rewrite andb_true_r in E. apply negb_false_iff in E. rewrite E. exact child_fails.
Qed.

Lemma exact_with_children proc_num array (k : Z -> Z -> prog result) s :
  0 < proc_num -> (forall f, f = 0 \/ f = 1 -> exact false false None (k array f) (s f)) ->
  exact false false None
    (make_children rounds more (Z.to_nat proc_num) array 0 (fun cnt failed =>
       if cnt <=? 0 then free array ;; tp_assert! (false, Some "child process nothing.") ;; Ret None else k array failed))
    (children_script (Z.to_nat proc_num) array 0 s).
Proof.
  intros Hp Hk. apply exact_make_children; [|lia| |lia].
  - cbn [Z.leb Z.compare]. apply fails_bind. intros _. now apply fails_ret.
  - intros c Hc. rewrite (proj2 (Z.leb_gt _ _) Hc). split; apply Hk; auto.
Qed.

Lemma exact_group_children n array pgid (k : prog result) s : exact false false None k s ->
  forall cnt, exact false false None (group_children n array cnt pgid k) (group_script n array cnt pgid s).
Proof.
  intros Hk. induction n as [|n IH]; intros cnt; cbn [group_children group_script]; [exact Hk|].
  apply exact_int_read. intros child. unfold getpgid, setpgid. apply exact_assoc. cbn [bind trigger]. apply exact_any. intros g.
  apply exact_sysret_any, exact_printf. apply (exact_unchecked false None (Procs (Setpgid child pgid)) (fun r => r)). intros x.
  apply exact_quiet; [destruct (negb _); [apply exact_print|apply exact_ret]|apply IH].
Qed.

Context (proc_num : Z).
Lemma exact_need_procs (k : prog result) s :
  (0 < proc_num -> exact false false None k s) ->
  if 0 <? proc_num then exact false false None (need_procs proc_num k) s else fails None (need_procs proc_num k).
Proof.
  intros Hk. unfold need_procs. destruct (Z.ltb_spec 0 proc_num); cbn [tp_assert]; [now apply Hk|now apply fails_ret].
Qed.

Lemma exact_kill_000 : if 0 <? proc_num then exact false false None (kill_main_000 rounds more proc_num) (kill_script_000 proc_num)
  else fails None (kill_main_000 rounds more proc_num).
Proof.
  apply exact_need_procs. intros Hp. apply exact_malloc_any. intros array. apply exact_assoc.
  apply (exact_ignored false None (Procs (Setpgid 0 0)) (fun r => r)). cbn [bind]. apply (exact_with_children proc_num array (fun array _ => _)); [exact Hp|].
  intros f _. apply exact_handled, exact_sent.
Qed.

Lemma exact_kill_001 : if 0 <? proc_num then exact false false None (kill_main_001 rounds more proc_num) (kill_script_001 proc_num)
  else fails None (kill_main_001 rounds more proc_num).
Proof.
  apply exact_need_procs. intros Hp. cbn [bind trigger]. apply exact_call; intros r Hr.
  - unfold syscall_ret. pose proof Hr as Hr'. apply negb_true_iff in Hr'. rewrite Hr'. cbn [bind]. rewrite (not_err_neg1 _ Hr). cbn [negb tp_assert].
    apply exact_malloc_any. intros array. cbn [bind]. apply (exact_with_children proc_num array (fun array _ => _)); [exact Hp|].
    intros f _. apply exact_handled, exact_sent.
  - apply negb_false_iff in Hr. apply fails_syscall. unfold sysret. rewrite Hr. now apply fails_ret.
Qed.

Lemma exact_kill_002 : if 0 <? proc_num then exact false false None (kill_main_002 rounds more proc_num) (kill_script_002 proc_num)
  else fails None (kill_main_002 rounds more proc_num).
Proof.
  apply exact_need_procs. intros Hp. apply exact_malloc_any. intros array. cbn [bind].
  apply (exact_with_children proc_num array (fun array failed => _)); [exact Hp|]. intros f _. apply exact_int_read. intros pgid. apply exact_printf.
  apply (exact_ignored false None (Procs (Usleep 100000)) (fun r => r)), exact_group_children, exact_sent.
Qed.
End Kill.

Definition kill_runs (rounds : nat) (more : prog result) (proc_num : Z) : list (prog result * option script) :=
  let when s := if 0 <? proc_num then Some s else None in
  [ (kill_run_000 rounds more proc_num, when (kill_script_000 proc_num));
    (kill_run_001 rounds more proc_num, when (kill_script_001 proc_num));
    (kill_run_002 rounds more proc_num, when (kill_script_002 proc_num)) ].
Definition undelivered_runs (rounds : nat) (more : prog result) (proc_num : Z) : list (prog result * option script) :=
  map (fun '(p, s) => (p, Some s)) silent_runs ++ kill_runs rounds more proc_num.

Lemma silent_verdict K (HK : silent K) handler (p : prog result) s (b : bool) :
  (if b then exact false false None p s else fails None p) ->
  forall w, fst (run K (interruptible handler p) w) = Done None <-> exists t, (if b then Some s else None) = Some t /\ is_Some (meets K t (w_k w)).
Proof.
  destruct b; intros Hp w.
  - rewrite (exact_silent K HK handler p s Hp w). split; [eauto|now intros (t & [= <-] & Ht)].
  - rewrite interruptible_silent by exact HK. split; [intros E; now apply Hp in E|now intros (t & [=] & _)].
Qed.

(** C27.  On every system on which no signal ever arrives, whatever else it answers:
    tests 0 to 3 of [rt_sigaction] return [NULL] exactly if [sigaction] answers 0 and nothing
    set the result string, whatever [kill] and [pthread_kill] answer; [pause] 0 passes exactly if
    [pause] answers an error, [tgkill] 0 and 1 exactly if the handler is accepted and [tgkill] answers
    0, and [rt_sigqueueinfo] 0 always.  The tests of [kill] pass for a positive number of processes exactly
    if the first [fork] makes a child, none of them answers 0, the array can be accessed and, for 0 and 1, the
    handler is accepted, whatever [kill] and [waitpid] answer; a later [fork] may fail, and entries of the array that were
    never written are waited for.  None of these tests shows that a handler is called. *)
Theorem undelivered_signals_pass K rounds more proc_num p o :
  silent K -> fails None more -> In (p, o) (undelivered_runs rounds more proc_num) ->
  forall w, fst (run K p w) = Done None <-> exists s, o = Some s /\ is_Some (meets K s (w_k w)).
Proof.
  intros HK Hm Hin. apply in_app_or in Hin as [Hin|Hin].
  - apply in_map_iff in Hin as ([p' s] & [= <- <-] & Hin). intros w. rewrite (silent_runs_exact K _ _ HK Hin w).
    split; [eauto|now intros (t & [= <-] & Ht)].
  - destruct Hin as [[= <- <-]|[[= <- <-]|[[= <- <-]|[]]]]; (apply silent_verdict; [exact HK|]).
    + now apply exact_kill_000.
    + now apply exact_kill_001.
    + now apply exact_kill_002.
Qed.

Lemma undelivered_signals_pass_witness :
  silent silent_kernel /\
  fst (run silent_kernel rt_sigaction_run_000 (@World silent_kernel proc0 (boot 0 : kstate silent_kernel))) = Done None /\
  fst (run silent_kernel (kill_run_000 8 (Exit 1) 0) (@World silent_kernel proc0 (boot 0 : kstate silent_kernel))) <> Done None.
Proof.
  assert (silent silent_kernel) as HK by (intros s; reflexivity).
  pose proof (fun p o => undelivered_signals_pass silent_kernel 8 (Exit 1) 0 p o HK (fails_exit None 1)) as X.
  split_and!; [exact HK| |].
  - apply (X rt_sigaction_run_000 (Some (rt_script (Z.lor SA_RESETHAND SA_SIGINFO) self_sent))); [now left|].
    eexists. split; [reflexivity|]. vm_compute. eauto.
  - intros E. apply (X (kill_run_000 8 (Exit 1) 0) None) in E; [now destruct E as (s & [=] & _)|].
    apply in_or_app. right. now left.
Defined.
