(* ===== verification/ToolMain.v ===== *)
(** * The command line of the management tools

    [cpu_pa_info/src/main.c] and [condition_monitor/src/main.c] have the same
    text up to the table of usage messages: two arguments select an operating
    system instance and a test. *)
From S2P Require Import Prelude Process Trace CLib.
From Stdlib Require Import Ascii String.
#[local] Open Scope string_scope.
#[local] Open Scope Z_scope.

(** A test takes its number and the number of the operating system. *)
Definition tool_test : Type := Z -> Z -> prog Z.

Section Tool.
(** [usage_messages], and [test_cases], which the build generates from the
    files present. *)
Context (usage_messages : list string) (test_cases : list (option tool_test)).
(** What the program does when it reads the table at an index outside of it and
    jumps there (undefined in C). *)
Context (wild : Z -> tool_test).

Fixpoint print_usages (i : Z) (l : list string) : prog unit :=
  match l with
  | [] => Ret tt
  | m :: l => printf "%6d : %s\n" [PZ i; PS m] ;; print_usages (i + 1) l
  end.

Definition tool_usage (name : string) : prog unit :=
  printf "%s <os_num> <tp_num>\n" [PS name] ;;
  printf "   os_num    : os number.\n" [] ;;
  printf "   tp_num    : tp number. (0-%d)\n" [PZ (Z.of_nat (List.length usage_messages) - 1)] ;;
  print_usages 0 usage_messages.

(** [test_cases[tp_num].func] *)
Definition tool_case (tp_num : Z) : option tool_test :=
  if tp_num <? 0 then Some (wild tp_num)
  else match nth_error test_cases (Z.to_nat tp_num) with Some f => f | None => Some (wild tp_num) end.

(** The test, and the verdict. *)
Definition tool_run (f : option tool_test) (tp_num os_num : Z) : prog Z :=
  ret <- match f with
         | Some f => f tp_num os_num
         | None => printf "BUG: TP function pointer is NULL.\n" [] ;; Ret (-1)
         end ;;
  (if negb (ret =? 0) then printf "RESULT:NG.\n" [] else printf "RESULT:OK.\n" []) ;;
  Ret ret.

(** [argv] holds the program name and the arguments. *)
Definition tool_main (argv : list string) : prog Z :=
  if negb (Nat.eqb (List.length usage_messages) (List.length test_cases)) then
    printf "BUG: Usage strings and TP count are different.\n" [] ;; Ret (-1)
  else match argv with
  | [a0; a1; a2] =>
      let os_num := atoi a1 in
      if (os_num <? 0) || (63 <? os_num) then
        printf "Invalid argument 1 os_num.\n" [] ;; tool_usage a0 ;; Ret (-1)
      else
        let tp_num := atoi a2 in
        if Z.of_nat (List.length test_cases) <=? tp_num then
          printf "TP number invaid.\n" [] ;; tool_usage a0 ;; Ret (-1)
        else tool_run (tool_case tp_num) tp_num os_num
  | _ => tool_usage (hd "" argv) ;; Ret (-1)
  end.

(** ** The command line *)

(** The arguments the usage message asks for. *)
Definition valid_args (argv : list string) : Prop :=
  match argv with
  | [_; a1; a2] => 0 <= atoi a1 <= 63 /\ atoi a2 < Z.of_nat (List.length test_cases)
  | _ => False
  end.

Lemma print_usages_silent i l : footprint (fun _ => False) (print_usages i l).
Proof.
  revert i. induction l as [|m l IH]; intros i; cbn [print_usages]; [exact I|].
  apply footprint_bind; [now split|]. intros _. apply IH.
Qed.

Lemma tool_usage_silent name : footprint (fun _ => False) (tool_usage name).
Proof.
  unfold tool_usage. repeat (apply footprint_bind; [now split|intros _]). apply print_usages_silent.
Qed.

Lemma usage_then_fail K name w :
  exists w', run K (tool_usage name ;; Ret (-1)) w = (Done (-1), w').
Proof.
  assert (forall i l w, exists w', run K (print_usages i l) w = (Done tt, w')) as Hp.
  { intros i l. revert i. induction l as [|m l IH]; intros i w'; cbn; [now eexists|apply IH]. }
  unfold tool_usage. cbn [bind printf run]. rewrite run_bind. cbn.
  match goal with |- context [run K (print_usages ?i ?l) ?w] => destruct (Hp i l w) as [w' E] end.
  rewrite E. now eexists.
Qed.
End Tool.

(** The tools run the test whose number is given, on the instance given,
    and return its result after the verdict line; any command line with a wrong
    number of arguments, an instance outside 0-63 or a test number beyond the
    table makes no call and returns -1. *)
Theorem tool_main_dispatch msgs tests wild argv :
  List.length msgs = List.length tests ->
  (forall a0 a1 a2 f, argv = [a0; a1; a2] -> valid_args tests argv -> 0 <= atoi a2 ->
     nth_error tests (Z.to_nat (atoi a2)) = Some (Some f) ->
     tool_main msgs tests wild argv = tool_run (Some f) (atoi a2) (atoi a1)) /\
  (~ valid_args tests argv -> forall K (w : world K),
     (exists w', run K (tool_main msgs tests wild argv) w = (Done (-1), w')) /\
     calls K (tool_main msgs tests wild argv) w = []).
Proof.
  intros Hl. split.
  - intros a0 a1 a2 f -> [H1 H2] H3 Hf. unfold tool_main. rewrite Hl, Nat.eqb_refl. cbn [negb].
    destruct (Z.ltb_spec (atoi a1) 0), (Z.ltb_spec 63 (atoi a1)); cbn [orb]; try lia.
    rewrite (proj2 (Z.leb_gt _ _)) by lia. unfold tool_case.
    rewrite (proj2 (Z.ltb_ge _ _)) by lia. now rewrite Hf.
  - intros Hv K w.
    assert (exists pre name, tool_main msgs tests wild argv = (pre ;; tool_usage msgs name ;; Ret (-1)) /\
              (pre = Ret tt \/ exists m, pre = printf m [])) as (pre & name & E & Hpre).
    { unfold tool_main. rewrite Hl, Nat.eqb_refl. cbn [negb].
      destruct argv as [|a0 [|a1 [|a2 [|a3 l]]]]; try (exists (Ret tt); eexists; split; [reflexivity|now left]).
      cbn in Hv. destruct (Z.ltb_spec (atoi a1) 0), (Z.ltb_spec 63 (atoi a1)); cbn [orb];
        try (eexists (printf _ []), a0; split; [reflexivity|right; now eexists]).
      rewrite (proj2 (Z.leb_le _ _)) by lia.
      eexists (printf _ []), a0; split; [reflexivity|right; now eexists]. }
    rewrite E. split.
    + destruct Hpre as [->|[m ->]]; cbn [bind printf run]; apply usage_then_fail.
    + assert (Forall (fun e => False) (calls K (pre ;; tool_usage msgs name ;; Ret (-1)) w)) as Hf.
      { apply (footprint_calls K (fun _ => False)). apply footprint_bind.
        - destruct Hpre as [->|[m ->]]; [exact I|now split].
        - intros _. apply footprint_bind; [apply tool_usage_silent|intros _; exact I]. }
      destruct (calls K _ w); [reflexivity|]. inversion Hf; contradiction.
Qed.

(** The test number is not checked against 0: with a negative number the
    tools call through an entry before the start of the table. *)
Theorem tool_main_negative msgs tests wild a0 a1 a2 :
  List.length msgs = List.length tests -> 0 <= atoi a1 <= 63 -> atoi a2 < 0 ->
  tool_main msgs tests wild [a0; a1; a2] = tool_run (Some (wild (atoi a2))) (atoi a2) (atoi a1).
Proof.
  intros Hl H1 H2. unfold tool_main. rewrite Hl, Nat.eqb_refl. cbn [negb].
  destruct (Z.ltb_spec (atoi a1) 0), (Z.ltb_spec 63 (atoi a1)); cbn [orb]; try lia.
  rewrite (proj2 (Z.leb_gt _ _)) by lia. unfold tool_case. now rewrite (proj2 (Z.ltb_lt _ _)).
Qed.

(** ** Witnesses *)

(** One test, which returns 7. *)
Definition seven : tool_test := fun _ _ => Ret 7.

Lemma tool_main_dispatch_witness :
  tool_main ["m"] [Some seven] (fun _ => seven) ["tool"; "3"; "0"] = tool_run (Some seven) 0 3 /\
  forall K (w : world K),
    (exists w', run K (tool_main ["m"] [Some seven] (fun _ => seven) ["tool"; "64"; "0"]) w = (Done (-1), w')) /\
    calls K (tool_main ["m"] [Some seven] (fun _ => seven) ["tool"; "64"; "0"]) w = [].
Proof.
  split.
  - apply (proj1 (tool_main_dispatch ["m"] [Some seven] (fun _ => seven) ["tool"; "3"; "0"] eq_refl)
             "tool" "3" "0"); [reflexivity| |vm_compute; discriminate|reflexivity].
    split; [split; vm_compute; discriminate|vm_compute; reflexivity].
  - apply (proj2 (tool_main_dispatch ["m"] [Some seven] (fun _ => seven) ["tool"; "64"; "0"] eq_refl)).
    intros [[_ H] _]. apply H. vm_compute. reflexivity.
Defined.

Lemma tool_main_negative_witness :
  tool_main ["m"] [Some seven] (fun _ => seven) ["tool"; "3"; "-1"] = tool_run (Some seven) (-1) 3.
Proof.
  apply (tool_main_negative ["m"] [Some seven] (fun _ => seven) "tool" "3" "-1" eq_refl).
  - split; vm_compute; discriminate.
  - vm_compute. reflexivity.
Defined.
