(* ===== verification/CpuPaInfo.v ===== *)
(** * The performance counter tool [cpu_pa_info]

    [cpu_pa_info/src/common.c] and the tests [000.c] to [005.c]: each sets up
    hardware counters through the IHK library, reads them and takes them down
    again. *)
From S2P Require Import Prelude Process Trace CLib ToolMain.
From Stdlib Require Import Ascii String.
#[local] Open Scope string_scope.
#[local] Open Scope Z_scope.

Definition ARMV8_PMUV3_PERFCTR_CPU_CYCLES : Z := 0x11.
Definition ARMV8_PMUV3_PERFCTR_INST_RETIRED : Z := 0x08.

Definition config_str : list string :=
  ["SW_INCR"; "L1I_CACHE_REFILL"; "L1I_TLB_REFILL"; "L1D_CACHE_REFILL"; "L1D_CACHE";
   "L1D_TLB_REFILL"; "LD_RETIRED"; "ST_RETIRED"; "INST_RETIRED"; "EXC_TAKEN"; "EXC_RETURN";
   "CID_WRITE_RETIRED"; "PC_WRITE_RETIRED"; "BR_IMMED_RETIRED"; "BR_RETURN_RETIRED";
   "UNALIGNED_LDST_RETIRED"; "BR_MIS_PRED"; "CPU_CYCLES"; "BR_PRED"; "MEM_ACCESS"; "L1I_CACHE";
   "L1D_CACHE_WB"; "L2D_CACHE"; "L2D_CACHE_REFILL"; "L2D_CACHE_WB"; "BUS_ACCESS"; "MEMORY_ERROR";
   "INST_SPEC"; "TTBR_WRITE_RETIRED"; "BUS_CYCLES"; "CHAIN"; "L1D_CACHE_ALLOCATE";
   "L2D_CACHE_ALLOCATE"; "BR_RETIRED"; "BR_MIS_PRED_RETIRED"; "STALL_FRONTEND"; "STALL_BACKEND";
   "L1D_TLB"; "L1I_TLB"; "L2I_CACHE"; "L2I_CACHE_REFILL"; "L3D_CACHE_ALLOCATE";
   "L3D_CACHE_REFILL"; "L3D_CACHE"; "L3D_CACHE_WB"; "L2D_TLB_REFILL"; "L2I_TLB_REFILL"; "L2D_TLB";
   "L2I_TLB"; "REMOTE_ACCESS"; "LL_CACHE"; "LL_CACHE_MISS"; "DTLB_WALK"; "ITLB_WALK";
   "LL_CACHE_RD"; "LL_CACHE_MISS_RD"; "REMOTE_ACCESS_RD"].

Definition get_config_num : Z := Z.of_nat (List.length config_str).

Definition print_perf_config (config : Z) : prog unit :=
  if config <? Z.of_nat (List.length config_str) then
    printf "  event#0x%02lx (%s)\n" [PZ config; PS (nth (Z.to_nat config) config_str "")]
  else Ret tt.

Definition cpu_pa_messages : list string :=
  ["set/enable/get/disable/destroy check config(0x00-0x3f). (for each)";
   "set/enable/get/disable/destroy check config(0x00-0x3f). (all at once)";
   "set/enable/get/disable/destroy check disabled flags on.";
   "set/enable/get/disable/destroy check pinned flags on.";
   "set/enable/get/disable/destroy check exclude flags on.";
   "set/enable/get/disable/destroy check config(0x00-0x07). (8 counter at once)"].

Definition cpu_pa_overview (tp_num : Z) : prog unit :=
  printf "# %2d : %s\n" [PZ tp_num; PS (nth (Z.to_nat tp_num) cpu_pa_messages "")].

Section Perf.
(** The commands of [ihk_os_perfctl], from [ihklib.h]. *)
Context (PERF_EVENT_ENABLE PERF_EVENT_DISABLE PERF_EVENT_DESTROY : Z).

Definition ihk_call (c : ihk) : prog (ihk_ans c) := trigger (Ihk c).

(** The values from index [i] on, [n] of them. *)
Fixpoint print_counts (i : Z) (n : nat) (countval : list Z) : prog unit :=
  match n with
  | O => Ret tt
  | S n =>
      printf "  countval[%d] = 0x%lx\n" [PZ i; PZ (nth (Z.to_nat i) countval 0)] ;;
      print_counts (i + 1) n countval
  end.

Definition perfevent_exec (os_num : Z) (attr : list perf_attr) (n : Z) : prog Z :=
  ret <- ihk_call (IhkSetPerfEvent os_num attr n) ;;
  if ret <? 0 then perror "  ihk_os_setperfevent" ;; Ret ret
  else
    printf "  set event %d / %d registered.\n" [PZ ret; PZ n] ;;
    if ret =? 0 then printf "  no registered perfevent.\n" [] ;; Ret ret
    else
      let get_count := ret in
      ret <- ihk_call (IhkPerfCtl os_num PERF_EVENT_ENABLE) ;;
      if ret <? 0 then perror "  ihk_os_perfctl(PERF_EVENT_ENABLE)" ;; Ret ret
      else
        countval <- malloc (u64 (8 * get_count)) ;;
        if countval =? NULL then
          printf "  memory allocate failed. (countval)\n" [] ;; Ret ret
        else
          let* (ret, vals) := ihk_call (IhkGetPerfEvent os_num get_count) in
          if ret <? 0 then perror "  ihk_os_getperfevent" ;; free countval ;; Ret ret
          else
            print_counts 0 (Z.to_nat get_count) vals ;;
            ret <- ihk_call (IhkPerfCtl os_num PERF_EVENT_DISABLE) ;;
            if ret <? 0 then
              perror "  ihk_os_perfctl(PERF_EVENT_DISABLE)" ;; free countval ;; Ret ret
            else
              ret <- ihk_call (IhkPerfCtl os_num PERF_EVENT_DESTROY) ;;
              if ret <? 0 then
                perror "  ihk_os_perfctl(PERF_EVENT_DESTROY)" ;; free countval ;; Ret ret
              else free countval ;; Ret 0.

(** ** The tests *)

Definition attr0 : perf_attr := PerfAttr 0 0 0 0 0 0 0.
Definition with_config (c : Z) (a : perf_attr) : perf_attr :=
  PerfAttr c (disabled a) (pinned a) (exclude_user a) (exclude_kernel a) (exclude_hv a) (exclude_idle a).

(** One round of the loops; [hex] is the conversion for the event number. *)
Definition perf_round (hex : string) (head : perf_attr -> prog unit) (os_num : Z) (a : perf_attr) : prog Z :=
  printf ("##### start event#0x%02" ++ hex ++ " #####\n") [PZ (config a)] ;;
  head a ;;
  print_perf_config (config a) ;;
  ret <- perfevent_exec os_num [a] 1 ;;
  (if negb (ret =? 0) then printf ("  failed  to event#0x%" ++ hex ++ "\n") [PZ (config a)]
   else printf ("  success to event#0x%" ++ hex ++ "\n") [PZ (config a)]) ;;
  printf "##### end              #####\n\n" [] ;;
  Ret ret.

(** Rounds until one fails; [ret] is the result so far. *)
Fixpoint perf_rounds (round : perf_attr -> prog Z) (attrs : list perf_attr) (ret : Z) : prog Z :=
  match attrs with
  | [] => Ret ret
  | a :: attrs =>
      ret <- round a ;;
      if negb (ret =? 0) then Ret ret else perf_rounds round attrs ret
  end.

Definition no_head (a : perf_attr) : prog unit := Ret tt.

Definition attrs_000 : list perf_attr :=
  map (fun i => with_config (Z.of_nat i) attr0) (seq 0 (Z.to_nat get_config_num)).
Definition cpu_pa_000 : tool_test := fun tp_num os_num =>
  cpu_pa_overview tp_num ;; perf_rounds (perf_round "x" no_head os_num) attrs_000 0.

(** All events of a table at once. *)
Definition perf_at_once (count : Z) (tp_num os_num : Z) : prog Z :=
  let attr := map (fun i => with_config (Z.of_nat i) attr0) (seq 0 (Z.to_nat count)) in
  cpu_pa_overview tp_num ;;
  printf "##### start event#0x%02x-0x%02x #####\n" [PZ 0; PZ (count - 1)] ;;
  ret <- perfevent_exec os_num attr count ;;
  (if negb (ret =? 0) then printf "  failed.\n" [] else printf "  success.\n" []) ;;
  printf "##### end                   #####\n\n" [] ;;
  Ret ret.
Definition cpu_pa_001 : tool_test := perf_at_once get_config_num.

Definition attrs_002 : list perf_attr :=
  [PerfAttr ARMV8_PMUV3_PERFCTR_CPU_CYCLES 1 0 0 0 0 0; PerfAttr ARMV8_PMUV3_PERFCTR_INST_RETIRED 1 0 0 0 0 0].
Definition cpu_pa_002 : tool_test := fun tp_num os_num =>
  cpu_pa_overview tp_num ;; perf_rounds (perf_round "lx" no_head os_num) attrs_002 0.

Definition attrs_003 : list perf_attr :=
  [PerfAttr ARMV8_PMUV3_PERFCTR_CPU_CYCLES 0 1 0 0 0 0; PerfAttr ARMV8_PMUV3_PERFCTR_INST_RETIRED 0 1 0 0 0 0].
Definition cpu_pa_003 : tool_test := fun tp_num os_num =>
  cpu_pa_overview tp_num ;; perf_rounds (perf_round "lx" no_head os_num) attrs_003 0.

Definition excludes_004 : list perf_attr :=
  [PerfAttr 0 0 0 1 0 0 0; PerfAttr 0 0 0 0 1 0 0; PerfAttr 0 0 0 1 1 0 0; PerfAttr 0 0 0 0 0 1 0;
   PerfAttr 0 0 0 1 0 1 0; PerfAttr 0 0 0 0 1 1 0; PerfAttr 0 0 0 1 1 1 0; PerfAttr 0 0 0 0 0 0 1;
   PerfAttr 0 0 0 1 0 0 1; PerfAttr 0 0 0 0 1 0 1; PerfAttr 0 0 0 1 1 0 1; PerfAttr 0 0 0 0 0 1 1;
   PerfAttr 0 0 0 1 0 1 1; PerfAttr 0 0 0 0 1 1 1; PerfAttr 0 0 0 1 1 1 1].
(** The two nested loops in the order of their rounds. *)
Definition attrs_004 : list perf_attr :=
  flat_map (fun a => [with_config ARMV8_PMUV3_PERFCTR_CPU_CYCLES a;
                      with_config ARMV8_PMUV3_PERFCTR_INST_RETIRED a]) excludes_004.
Definition head_004 (a : perf_attr) : prog unit :=
  printf "##### exclude_user:%d, exclude_kernel:%d, exclude_hv:%d, exclude_idle:%d #####\n"
    [PZ (exclude_user a); PZ (exclude_kernel a); PZ (exclude_hv a); PZ (exclude_idle a)].
Definition cpu_pa_004 : tool_test := fun tp_num os_num =>
  cpu_pa_overview tp_num ;; perf_rounds (perf_round "lx" head_004 os_num) attrs_004 0.

Definition cpu_pa_005 : tool_test := perf_at_once 6.

Definition cpu_pa_cases : list (option tool_test) :=
  map Some [cpu_pa_000; cpu_pa_001; cpu_pa_002; cpu_pa_003; cpu_pa_004; cpu_pa_005].

Definition cpu_pa_main (wild : Z -> tool_test) (argv : list string) : prog Z :=
  tool_main cpu_pa_messages cpu_pa_cases wild argv.
End Perf.

(** ** The calls of [perfevent_exec] *)

Section Calls.
Context (PERF_EVENT_ENABLE PERF_EVENT_DISABLE PERF_EVENT_DESTROY : Z).
Context (os_num : Z) (attr : list perf_attr) (n : Z).

Let set_ (r : Z) : event := Ev (Ihk (IhkSetPerfEvent os_num attr n)) r.
Let ctl (cmd r : Z) : event := Ev (Ihk (IhkPerfCtl os_num cmd)) r.
Let get_ (c r : Z) (vals : list Z) : event := Ev (Ihk (IhkGetPerfEvent os_num c)) (r, vals).
Let alloc (c p : Z) : event := Ev (Malloc (u64 (8 * c))) p.

(** The complete call sequences, with the result of each. *)
Inductive perf_protocol : list event -> Z -> Prop :=
| pp_set_failed e : e < 0 -> perf_protocol [set_ e] e
| pp_none : perf_protocol [set_ 0] 0
| pp_enable_failed c e : 0 < c -> e < 0 -> perf_protocol [set_ c; ctl PERF_EVENT_ENABLE e] e
| pp_no_memory c e :
    0 < c -> 0 <= e -> perf_protocol [set_ c; ctl PERF_EVENT_ENABLE e; alloc c NULL] e
| pp_get_failed c e p r vals :
    0 < c -> 0 <= e -> p <> NULL -> r < 0 ->
    perf_protocol [set_ c; ctl PERF_EVENT_ENABLE e; alloc c p; get_ c r vals; Ev (Free p) tt] r
| pp_disable_failed c e p r vals x :
    0 < c -> 0 <= e -> p <> NULL -> 0 <= r -> x < 0 ->
    perf_protocol [set_ c; ctl PERF_EVENT_ENABLE e; alloc c p; get_ c r vals;
                   ctl PERF_EVENT_DISABLE x; Ev (Free p) tt] x
| pp_destroy_failed c e p r vals x y :
    0 < c -> 0 <= e -> p <> NULL -> 0 <= r -> 0 <= x -> y < 0 ->
    perf_protocol [set_ c; ctl PERF_EVENT_ENABLE e; alloc c p; get_ c r vals;
                   ctl PERF_EVENT_DISABLE x; ctl PERF_EVENT_DESTROY y; Ev (Free p) tt] y
| pp_done c e p r vals x y :
    0 < c -> 0 <= e -> p <> NULL -> 0 <= r -> 0 <= x -> 0 <= y ->
    perf_protocol [set_ c; ctl PERF_EVENT_ENABLE e; alloc c p; get_ c r vals;
                   ctl PERF_EVENT_DISABLE x; ctl PERF_EVENT_DESTROY y; Ev (Free p) tt] 0.

Lemma run_print_counts K i m vals (w : world K) :
  exists pr, run K (print_counts i m vals) w = (Done tt, World pr (w_k w)).
Proof.
  revert i w. induction m as [|m IH]; intros i w; cbn [print_counts].
  - exists (w_proc w). now destruct w.
  - cbn. destruct (IH (i + 1) (World (with_line ("  countval[%d] = 0x%lx\n", [PZ i; PZ (nth (Z.to_nat i) vals 0)])
                                        (w_proc w)) (w_k w))) as [pr E]. now exists pr.
Qed.

Local Ltac perf_step :=
  match goal with
  | |- context [run _ (bind (print_counts ?i ?m ?v) ?k) ?w] =>
      let pr := fresh "pr" in let E := fresh "E" in
      destruct (run_print_counts _ i m v w) as [pr E]; rewrite run_bind, E; clear E
  | |- context [kstep ?K ?c ?s] =>
      let st := fresh "s" in let r := fresh "r" in destruct (kstep K c s) as [st r]; cbn in r;
      try lazymatch type of r with (_ * _)%type => destruct r end
  | |- context [?x <? ?y] => destruct (Z.ltb_spec x y)
  | |- context [?x =? ?y] => destruct (Z.eqb_spec x y)
  end.

Lemma perfevent_exec_protocol K (w : world K) :
  exists ret,
    fst (run K (perfevent_exec PERF_EVENT_ENABLE PERF_EVENT_DISABLE PERF_EVENT_DESTROY os_num attr n) w) = Done ret /\
    perf_protocol (calls K (perfevent_exec PERF_EVENT_ENABLE PERF_EVENT_DISABLE PERF_EVENT_DESTROY os_num attr n) w) ret.
Proof.
  unfold calls. rewrite traced_outcome. destruct w as [pr s0].
  unfold tworld, perfevent_exec, ihk_call, malloc, free, perror.
  cbn; repeat (perf_step; cbn -[Z.mul]).
  all: sym_clean; subst.
  all: eexists; split; [reflexivity|econstructor; eauto; lia].
Qed.
End Calls.

(** C17.  On every system [perfevent_exec] returns, and its calls are one of
    the sequences of [perf_protocol]: the counters are taken down in the reverse
    order on the way to success, and the array of values is freed on every path
    that allocated it.  The sequences show two ways to the result 0 without a
    measurement: no event was registered, or the allocation failed after a
    successful enable. *)
Theorem perfevent_exec_calls en dis des os_num attr n K (w : world K) :
  exists ret, fst (run K (perfevent_exec en dis des os_num attr n) w) = Done ret /\
    perf_protocol en dis des os_num attr n (calls K (perfevent_exec en dis des os_num attr n) w) ret.
Proof. apply perfevent_exec_protocol. Qed.

(** ** The loops over the events *)

Section Rounds.
Context (en dis des os_num : Z) (K : kernel).
Implicit Type w : world K.

(** The event lists that were set up, in order. *)
Definition set_attrs (l : list event) : list (list perf_attr) :=
  flat_map (fun e => match ev_op e with Ihk (IhkSetPerfEvent _ a _) => [a] | _ => [] end) l.

Lemma set_attrs_app l1 l2 : set_attrs (l1 ++ l2)%list = (set_attrs l1 ++ set_attrs l2)%list.
Proof. apply flat_map_app. Qed.

Lemma exec_set_attrs attr n w :
  exists ret w', run K (perfevent_exec en dis des os_num attr n) w = (Done ret, w') /\
    set_attrs (calls K (perfevent_exec en dis des os_num attr n) w) = [attr].
Proof.
  destruct (perfevent_exec_protocol en dis des os_num attr n K w) as (ret & E & Hp).
  destruct (run K (perfevent_exec en dis des os_num attr n) w) as [o w']. cbn in E. subst o.
  exists ret, w'. split; [reflexivity|]. inversion Hp; reflexivity.
Qed.

(** Programs that only print. *)
Definition quiet {A} (p : prog A) : Prop := forall w, exists a w', run K p w = (Done a, w') /\ calls K p w = [].

Lemma quiet_printf f a : quiet (printf f a).
Proof. intros w. now do 2 eexists. Qed.
Lemma quiet_ret {A} (a : A) : quiet (Ret a).
Proof. intros w. now do 2 eexists. Qed.
Lemma quiet_if {A} (b : bool) (p q : prog A) : quiet p -> quiet q -> quiet (if b then p else q).
Proof. now destruct b. Qed.

Lemma quiet_bind {A B} (p : prog A) (k : A -> prog B) w (Q : outcome B -> list event -> Prop) :
  quiet p -> (forall a w', Q (fst (run K (k a) w')) (calls K (k a) w')) ->
  Q (fst (run K (bind p k) w)) (calls K (bind p k) w).
Proof.
  intros Hp Hk. destruct (Hp w) as (a & w' & R & C). rewrite run_bind, calls_bind, R, C. apply Hk.
Qed.

(** A run that returns and sets up [l]. *)
Definition sets (l : list (list perf_attr)) (o : outcome Z) (log : list event) : Prop :=
  exists ret, o = Done ret /\ set_attrs log = l.

Lemma quiet_sets {A} (p : prog A) (ret : A -> Z) w :
  quiet p -> sets [] (fst (run K (x <- p ;; Ret (ret x)) w)) (calls K (x <- p ;; Ret (ret x)) w).
Proof.
  intros Hp. apply quiet_bind; [exact Hp|]. intros a w'. exists (ret a). now split.
Qed.

Lemma sets_bind l1 l2 (p : prog Z) (k : Z -> prog Z) w :
  sets l1 (fst (run K p w)) (calls K p w) ->
  (forall ret w', sets l2 (fst (run K (k ret) w')) (calls K (k ret) w')) ->
  sets (l1 ++ l2)%list (fst (run K (bind p k) w)) (calls K (bind p k) w).
Proof.
  intros (ret & R & S1) Hk. rewrite run_bind, calls_bind. destruct (run K p w) as [o w']. cbn in R. subst o.
  destruct (Hk ret w') as (ret2 & R2 & S2). exists ret2. split; [exact R2|].
  now rewrite set_attrs_app, S1, S2.
Qed.

Lemma quiet_config c : quiet (print_perf_config c).
Proof. apply quiet_if; [apply quiet_printf|apply quiet_ret]. Qed.

Lemma round_sets hex head a w :
  (forall a, quiet (head a)) ->
  sets [[a]] (fst (run K (perf_round en dis des hex head os_num a) w))
       (calls K (perf_round en dis des hex head os_num a) w).
Proof.
  intros Hh. unfold perf_round.
  apply (quiet_bind _ _ _ (sets [[a]])); [apply quiet_printf|intros _ w1].
  apply (quiet_bind _ _ _ (sets [[a]])); [apply Hh|intros _ w2].
  apply (quiet_bind _ _ _ (sets [[a]])); [apply quiet_config|intros _ w3].
  change [[a]] with ([[a]] ++ [])%list at 1. apply sets_bind.
  - destruct (exec_set_attrs [a] 1 w3) as (ret & w' & R & S). exists ret. now rewrite R.
  - intros ret w4. apply (quiet_bind _ _ _ (sets [])); [apply quiet_if; apply quiet_printf|intros _ w5].
    apply (quiet_sets _ (fun _ => ret)). apply quiet_printf.
Qed.

(** The loop sets up the events in order until one fails. *)
Lemma rounds_sets hex head attrs w :
  (forall a, quiet (head a)) ->
  exists ret k,
    fst (run K (perf_rounds (perf_round en dis des hex head os_num) attrs 0) w) = Done ret /\
    set_attrs (calls K (perf_rounds (perf_round en dis des hex head os_num) attrs 0) w)
      = map (fun a => [a]) (take k attrs) /\
    (ret = 0 -> k = List.length attrs).
Proof.
  intros Hh. revert w. induction attrs as [|a attrs IH]; intros w; cbn [perf_rounds].
  { now exists 0, 0%nat. }
  destruct (round_sets hex head a w Hh) as (ret & R & S). rewrite run_bind, calls_bind.
  destruct (run K (perf_round en dis des hex head os_num a) w) as [o w']. cbn in R. subst o.
  destruct (Z.eqb_spec ret 0) as [->|Hr]; cbn [negb].
  - destruct (IH w') as (ret & k & R2 & S2 & Hk). exists ret, (Datatypes.S k).
    rewrite set_attrs_app, S, S2. split; [exact R2|]. split; [reflexivity|]. intros E. cbn. now rewrite Hk.
  - exists ret, 1%nat. rewrite set_attrs_app, S. split; [reflexivity|]. split; [cbn; now destruct attrs|contradiction].
Qed.

(** The tests that try one event after the other. *)
Definition one_by_one : list (tool_test * list perf_attr) :=
  [(cpu_pa_000 en dis des, attrs_000); (cpu_pa_002 en dis des, attrs_002);
   (cpu_pa_003 en dis des, attrs_003); (cpu_pa_004 en dis des, attrs_004)].

Lemma one_by_one_loops :
  Forall (fun p => exists hex head, (forall a, quiet (head a)) /\
            fst p = fun tp_num os_num => cpu_pa_overview tp_num ;;
                      perf_rounds (perf_round en dis des hex head os_num) (snd p) 0) one_by_one.
Proof.
  apply List.Forall_cons; [exists "x", no_head; split; [intros a; apply quiet_ret|reflexivity]|].
  apply List.Forall_cons; [exists "lx", no_head; split; [intros a; apply quiet_ret|reflexivity]|].
  apply List.Forall_cons; [exists "lx", no_head; split; [intros a; apply quiet_ret|reflexivity]|].
  apply List.Forall_cons; [exists "lx", head_004; split; [intros a; apply quiet_printf|reflexivity]|].
  constructor.
Qed.
End Rounds.

(** The tests 0, 2, 3 and 4 set up their events one after the other in
    the order of their tables, stop at the first that fails, and report success
    only after the whole table. *)
Theorem cpu_pa_tests_in_order en dis des os_num tp_num K (w : world K) t attrs :
  In (t, attrs) (one_by_one en dis des) ->
  exists ret k,
    fst (run K (t tp_num os_num) w) = Done ret /\
    set_attrs (calls K (t tp_num os_num) w) = map (fun a => [a]) (take k attrs) /\
    (ret = 0 -> k = List.length attrs).
Proof.
  intros Hin.
  pose proof (one_by_one_loops en dis des K) as Hl. rewrite List.Forall_forall in Hl.
  destruct (Hl _ Hin) as (hex & head & Hh & E). cbn [fst snd] in E. rewrite E.
  apply (quiet_bind K _ _ w (fun o l => exists ret k, o = Done ret /\ set_attrs l = map (fun a => [a]) (take k attrs) /\
                                          (ret = 0 -> k = List.length attrs))); [apply quiet_printf|].
  intros _ w'. now apply rounds_sets.
Qed.

(** A library on which one counter can be registered and every call succeeds. *)
Definition ihk_kernel : kernel :=
  Kernel unit (fun c s =>
    (s, match c return ans c with
        | Ihk k => match k return ihk_ans k with
                   | IhkSetPerfEvent _ _ n => n
                   | IhkGetPerfEvent _ n => (0, repeat 5 (Z.to_nat n))
                   | _ => 0
                   end
        | Malloc _ => 4096
        | c => enosys c
        end)).

Lemma cpu_pa_tests_in_order_witness :
  exists ret k,
    fst (run ihk_kernel (cpu_pa_002 1 2 3 2 0) (World proc0 (tt : kstate ihk_kernel))) = Done ret /\
    set_attrs (calls ihk_kernel (cpu_pa_002 1 2 3 2 0) (World proc0 (tt : kstate ihk_kernel)))
      = map (fun a => [a]) (take k attrs_002) /\
    (ret = 0 -> k = 2%nat).
Proof.
  apply (cpu_pa_tests_in_order 1 2 3 0 2 ihk_kernel (World proc0 (tt : kstate ihk_kernel)) (cpu_pa_002 1 2 3) attrs_002).
  right. left. reflexivity.
Defined.
