(* ===== verification/Monitor.v ===== *)
(** * The condition monitor: [condition_monitor]

    [condition_monitor/src/common.c] and the tests [000.c] to [002.c]: wait for
    an event of the lightweight kernel, or show its state. *)
From S2P Require Import Prelude Process Trace CLib ToolMain.
From Stdlib Require Import Ascii String.
#[local] Open Scope string_scope.
#[local] Open Scope Z_scope.

Definition EPOLLIN : Z := 1.
Definition EPOLL_CTL_ADD : Z := 1.

Definition monitor_messages : list string :=
  ["event check IHK_OS_EVENTFD_TYPE_OOM. (physical memory used exceeds the limit)";
   "event check IHK_OS_EVENTFD_TYPE_STATUS. (LWK state panic or hung-up)";
   "LWK state check."].

Definition monitor_overview (tp_num : Z) : prog unit :=
  printf "# %2d : %s\n" [PZ tp_num; PS (nth (Z.to_nat tp_num) monitor_messages "")].

Definition get_status (os_num : Z) : prog Z :=
  status <- (trigger (Ihk (IhkGetStatus os_num)) : prog Z) ;;
  (if status <? 0 then printf "ihk_os_get_status(): error(%d)\n" [PZ status] else Ret tt) ;;
  Ret status.

(** [epoll_wait] also yields the descriptors of the events. *)
Definition epoll_wait (epfd maxevents timeout : Z) : prog (Z * list Z) :=
  r <- trigger (EpollWait epfd maxevents timeout) ;;
  nfd <- syscall_ret (-1) (fst r) ;;
  Ret (nfd, snd r).

(** Whether one of the first [nfd] events is that of [evfd]. *)
Definition delivered (evfd nfd : Z) (fds : list Z) : bool := existsb (Z.eqb evfd) (take (Z.to_nat nfd) fds).

(** The endless loop, [n] rounds of it; [None] if it is still waiting. *)
Fixpoint poll (n : nat) (os_num type evfd epfd : Z) : prog (option Z) :=
  match n with
  | O => Ret None
  | S n =>
      let* (nfd, fds) := epoll_wait epfd 1 (-1) in
      if delivered evfd nfd fds then
        printf "eventfd(os=%d, type=%d) epoll() wakeuped.\n" [PZ os_num; PZ type] ;; Ret (Some 0)
      else poll n os_num type evfd epfd
  end.

Definition event_polling (n : nat) (os_num type : Z) : prog (option Z) :=
  evfd <- (trigger (Ihk (IhkGetEventfd os_num type)) : prog Z) ;;
  if evfd <? 0 then printf "ihk_os_get_eventfd(): error(%d)\n" [PZ evfd] ;; Ret (Some evfd)
  else
    r <- trigger (EpollCreate 1) ;;
    epfd <- syscall_ret (-1) r ;;
    if epfd =? -1 then perror "epoll_create()" ;; e <- errno ;; Ret (Some e)
    else
      r <- trigger (EpollCtl epfd EPOLL_CTL_ADD evfd EPOLLIN) ;;
      lib_ret <- syscall_ret (-1) r ;;
      if negb (lib_ret =? 0) then perror "epoll_ctl()" ;; e <- errno ;; Ret (Some e)
      else poll n os_num type evfd epfd.

Definition status_strings : list string :=
  ["INACTIVE"; "BOOTING"; "RUNNING"; "SHUTDOWN"; "PANIC"; "HUNGUP"; "FREEZING"; "FROZEN"].

Section Tests.
(** The event types of [ihklib.h]. *)
Context (IHK_OS_EVENTFD_TYPE_OOM IHK_OS_EVENTFD_TYPE_STATUS : Z).

Definition monitor_000 (n : nat) (tp_num os_num : Z) : prog (option Z) :=
  monitor_overview tp_num ;; event_polling n os_num IHK_OS_EVENTFD_TYPE_OOM.
Definition monitor_001 (n : nat) (tp_num os_num : Z) : prog (option Z) :=
  monitor_overview tp_num ;; event_polling n os_num IHK_OS_EVENTFD_TYPE_STATUS.
End Tests.

Definition monitor_002 : tool_test := fun tp_num os_num =>
  monitor_overview tp_num ;;
  status <- get_status os_num ;;
  if status <? 0 then Ret (-1)
  else if status <? Z.of_nat (List.length status_strings) then
    printf "status:%s detected.\n" [PS (nth (Z.to_nat status) status_strings "")] ;; Ret 0
  else printf "unknown status (%d)\n" [PZ status] ;; Ret (-1).

Section Main.
Context (IHK_OS_EVENTFD_TYPE_OOM IHK_OS_EVENTFD_TYPE_STATUS : Z).
(** [n] bounds the rounds of the wait loop; [waiting] stands for a process that
    is still waiting after them. *)
Context (n : nat) (waiting : prog Z).

Definition waited (p : prog (option Z)) : prog Z :=
  r <- p ;; match r with Some ret => Ret ret | None => waiting end.

Definition monitor_cases : list (option tool_test) :=
  [Some (fun tp_num os_num => waited (monitor_000 IHK_OS_EVENTFD_TYPE_OOM n tp_num os_num));
   Some (fun tp_num os_num => waited (monitor_001 IHK_OS_EVENTFD_TYPE_STATUS n tp_num os_num));
   Some monitor_002].

Definition monitor_main (wild : Z -> tool_test) (argv : list string) : prog Z :=
  tool_main monitor_messages monitor_cases wild argv.
End Main.

(** ** Waiting *)

Section Wait.
Context (K : kernel) (os_num type : Z).
Implicit Type w : world K.

(** The answer to the wait number [k] from state [s] on. *)
Fixpoint wait_answer (epfd : Z) (k : nat) (s : kstate K) : Z * list Z :=
  match k with
  | O => snd (kstep K (EpollWait epfd 1 (-1)) s)
  | S k => wait_answer epfd k (fst (kstep K (EpollWait epfd 1 (-1)) s))
  end.

(** The answer of a wait reports [evfd]. *)
Definition reports (evfd : Z) (a : Z * list Z) : bool :=
  negb (is_err (fst a)) && delivered evfd (fst a) (snd a).

Lemma delivered_none evfd fds : delivered evfd (-1) fds = false.
Proof. reflexivity. Qed.

(** One round. *)
Lemma poll_step n evfd epfd pr s :
  exists pr', let a := snd (kstep K (EpollWait epfd 1 (-1)) s) in
    let s' := fst (kstep K (EpollWait epfd 1 (-1)) s) in
    fst (run K (poll (S n) os_num type evfd epfd) (World pr s))
      = (if reports evfd a then Done (Some 0) else fst (run K (poll n os_num type evfd epfd) (World pr' s'))) /\
    calls K (poll (S n) os_num type evfd epfd) (World pr s)
      = Ev (EpollWait epfd 1 (-1)) a ::
        (if reports evfd a then [] else calls K (poll n os_num type evfd epfd) (World pr' s')).
Proof.
  destruct (kstep K (EpollWait epfd 1 (-1)) s) as [s' [nfd fds]] eqn:E. cbn [fst snd].
  exists (if is_err nfd then with_errno (- nfd) pr else pr).
  cbn [poll]. unfold epoll_wait, trigger. cbn [bind]. unfold reports. cbn [fst snd]. split.
  - cbn [run w_k w_proc]. rewrite E. unfold syscall_ret, set_errno. cbn [fst snd].
    destruct (is_err nfd); cbn [negb andb bind run w_proc w_k]; [now rewrite delivered_none|].
    destruct (delivered evfd nfd fds); reflexivity.
  - rewrite (calls_call K _ _ pr s s' _ E). f_equal. unfold syscall_ret, set_errno. cbn [fst snd].
    destruct (is_err nfd); cbn [negb andb bind]; [now rewrite delivered_none|].
    destruct (delivered evfd nfd fds); reflexivity.
Qed.

Lemma poll_live evfd epfd k n pr s :
  (k < n)%nat -> reports evfd (wait_answer epfd k s) = true ->
  (forall j, (j < k)%nat -> reports evfd (wait_answer epfd j s) = false) ->
  fst (run K (poll n os_num type evfd epfd) (World pr s)) = Done (Some 0) /\
  List.length (calls K (poll n os_num type evfd epfd) (World pr s)) = S k.
Proof.
  revert n pr s. induction k as [|k IH]; intros n pr s Hn Hk Hj; (destruct n as [|n]; [lia|]);
    destruct (poll_step n evfd epfd pr s) as (pr' & -> & ->).
  - cbn [wait_answer] in Hk. now rewrite Hk.
  - pose proof (Hj 0%nat ltac:(lia)) as H0. cbn [wait_answer] in H0, Hk. rewrite H0. cbn [List.length].
    destruct (IH n pr' (fst (kstep K (EpollWait epfd 1 (-1)) s))) as [H1 H2]; [lia|exact Hk| |].
    + intros j Hlt. apply (Hj (S j)). lia.
    + split; [exact H1|]. now rewrite H2.
Qed.

(** While no answer reports the event, the loop goes on. *)
Lemma poll_waits evfd epfd n pr s :
  (forall j, reports evfd (wait_answer epfd j s) = false) ->
  fst (run K (poll n os_num type evfd epfd) (World pr s)) = Done None /\
  List.length (calls K (poll n os_num type evfd epfd) (World pr s)) = n.
Proof.
  revert pr s. induction n as [|n IH]; intros pr s Hj; [now split|].
  destruct (poll_step n evfd epfd pr s) as (pr' & -> & ->).
  pose proof (Hj 0%nat) as H0. cbn [wait_answer] in H0. rewrite H0. cbn [List.length].
  destruct (IH pr' (fst (kstep K (EpollWait epfd 1 (-1)) s))) as [H1 H2]; [intros j; apply (Hj (S j))|].
  split; [exact H1|now rewrite H2].
Qed.
End Wait.


(** The states the tool has a name for. *)
Definition known_status (status : Z) : bool := (0 <=? status) && (status <? 8).

(** The state test asks once and succeeds exactly when the answer is one
    of the eight known states, whose name it prints. *)
Theorem monitor_002_status (K : kernel) tp_num os_num (w : world K) :
  exists status w', calls K (monitor_002 tp_num os_num) w = [Ev (Ihk (IhkGetStatus os_num)) status] /\
    run K (monitor_002 tp_num os_num) w = (Done (if known_status status then 0 else -1), w') /\
    (known_status status = true ->
     last (p_out (w_proc w'))
     = Some ("status:%s detected.\n", [PS (nth (Z.to_nat status) status_strings "")])).
Proof.
  destruct w as [pr s]. destruct (kstep K (Ihk (IhkGetStatus os_num)) s) as [s' a] eqn:E. cbn in a.
  exists a. unfold known_status. rewrite Z.leb_antisym.
  unfold calls, tworld, monitor_002, get_status. cbn. rewrite E.
  destruct (a <? 0) eqn:E0; cbn; rewrite ?E0; cbn; [|change (Z.of_nat 8) with 8; destruct (a <? 8) eqn:E8; cbn];
    eexists; (split; [reflexivity|]); (split; [reflexivity|]); intros Hk; try discriminate Hk.
  cbn [w_proc p_out with_line]. apply last_snoc.
Qed.

(** A system whose third wait reports descriptor 5. *)
Definition third_wait : kernel :=
  Kernel nat (fun c k =>
    match c return nat * ans c with
    | EpollWait _ _ _ => (S k, match k with O => (- 4, []) | 1%nat => (0, []) | _ => (1, [5]) end)
    | c => (k, enosys c)
    end).

